(* ===== verification/_CoqProject ===== *)
-Q . S2P
Prelude.v
PyDecimal.v
PyDecimalFacts.v
PyText.v
PyTextFacts.v
PyHash.v
PyTime.v
Contracts.v
Exposure.v
OptionSymbol.v
OrderLimits.v
OrderStatus.v
Evaluation.v
OpportunityData.v
Opportunity.v
DecimalText.v
PyParse.v
ExecModels.v
Identity.v
Finalization.v
PyDict.v
Memory.v
MemoryFacts.v
MemoryProps.v
MemorySamples.v
ReconciliationData.v
Reconciliation.v
ReconciliationFacts.v
ExecExposure.v
Program.v
Permits.v
Replacement.v
ExecutionService.v
ReconciliationRaises.v
ExecutionProtocol.v
ServiceProps.v
ServiceSafety.v
ServiceCalls.v
ServiceSamples.v
SqlCodec.v
SqlSchema.v
SqlRows.v
SqlLookups.v
SqlExpectation.v
AgentAuthority.v
SqlOrigin.v
SqlPrepare.v
SqlFinalize.v
SqlAccounts.v
SqlAuthorizations.v
SqlPorts.v
SqlFacts.v
SqlPermits.v
SqlSafety.v
SqlReads.v
SqlAudit.v
SqlCodes.v
SqlService.v
SqlSamples.v
HaltData.v
HaltAuthority.v
HaltFacts.v
HaltSafety.v
HaltStream.v
HaltStreamFacts.v
HaltSamples.v
EntryAuthority.v
EntryFacts.v
PyRounding.v
Snapshot.v
Selection.v
SelectionFacts.v
SelectionSafety.v
InputAssembly.v
InputFacts.v
SelectionRanking.v
SelectionSamples.v
