(* ===== verification/Prelude.v ===== *)
(** * AlphaDecay: a verification library of the trading backend

    AlphaDecay ([src/backend/app]) trades option spreads on a broker account without a
    human in the loop.  A deterministic policy decides (open, hold, close, roll or
    nothing), an authority repository turns a decision into one execution intent, and an
    execution service carries the intent to the broker, reconciles the whole account and
    certifies what happened.  This library models that core, written in Python, and
    proves what makes it safe.

    ** How Python is modelled

    - Exceptions.  A computation is [M A], a value or the exception raised ([exn]); [x ← m; k]
      sequences, [when c then_ r ;; k] is [if c: r] with an early return or raise, and the
      connectives [&&&], [|||], [not] short circuit and may raise.  [try]/[except] are
      [try_with] and [except_blocked].
    - Numbers.  [int] is [Z], which Python's integers are.  [Decimal] is modelled with its context
      (PyDecimal: 28 digits, half even, traps) and related to rationals (PyDecimalFacts): a
      theorem in exact arithmetic states when the context does not round.
    - Text.  [str] is a string of code points below 256 (PyText), with [json.dumps] of the
      canonical form and its injectivity (PyTextFacts, DecimalText); the symbol of an option,
      whose pattern accepts any Unicode digit, is a list of code points (OptionSymbol).  SHA-256 and [uuid5]
      are computed (PyHash); collision freedom is never assumed, theorems name the collision.
    - Time.  A [datetime] is a wall clock reading with an offset (PyTime); naive and aware
      values do not mix.
    - Containers.  A [dict] is an association list in insertion order (PyDict, which has [sorted]
      and [len(set(...))] too), a set of
      enumeration members a [gset].
    - Objects that only hold data are records; a constructor's [__post_init__] is [make_<Class>].
      Checks of types that the records cannot violate ([isinstance]) are not repeated.

    ** The parts and their files

    Policy.  [Contracts] (contracts/v1/models.py: enums, canonical decimals), [Exposure]
    (domain/exposure.py), [OptionSymbol] (domain/option_contract_symbol.py), [Evaluation]
    (policy/evaluation.py: [evaluate_assessment] and its scores), [OpportunityData] and
    [Opportunity] (policy/opportunity.py: [evaluate_opportunity], the record and its
    hashes), [OrderLimits] (order_limits.py).
    The theorems say when an entry is approved and that its risk is bounded by what was
    approved, when a position must be closed, that scores are bounded, that an echoed
    report changes nothing, and that payoffs, greeks and cash flows are exact.

    Execution data.  [OrderStatus] (execution/order_status.py), [ExecModels]
    (execution/models.py), [Identity] (execution/identity.py), [Finalization]
    (persistence/attempt_observation.py, authorization.py, finalization.py), [Permits]
    (execution/permits.py).  The theorems: what a constructed envelope guarantees, what
    the hashes and identifiers bind, that accepted observations never regress, and that
    a certificate says what the attempts and the reconciliation show: of an order that ended
    without a fill only that, since any of the statuses without a fill is accepted for it.

    The repository.  [Memory] (persistence/memory.py) is a transition system, an
    operation a function from the state to the state it leaves and its result, the clock
    and the token arguments; [MemoryFacts], [MemoryProps] and [MemorySamples] prove its
    invariant and what holds of all histories: one lease and one active entry per
    account, an exact entry ledger, nothing certified undone, recovery without effect on
    reachable states.  Valid evidence settles an execution unless the id of its certificate is
    taken or the entry limits refuse, at that time, the entry that was filled.

    Reconciliation.  [ReconciliationData] and [Reconciliation] (execution/reconciliation.py)
    and [ExecExposure] (execution/exposure.py): the sweep of the account, the expectation with its
    integrity hash, [evaluate].  [ReconciliationFacts] proves that the block codes are exactly
    the reasons against the account and that the evaluation returns; [ReconciliationRaises]
    what else it can raise.

    The service.  [Replacement] and [ExecutionService] (services/execution.py).  [Program] is the
    language of the latter: a service is a tree of calls to its ports (the repository, the
    broker, the sweep, the quotes), each answered by a value or an exception.  The ports are
    the interface between the service and the rest; their answers are the environment's.
    [ExecutionProtocol] is the abstract specification, an automaton over calls and answers;
    [ServiceProps] proves the refinement, part by part, by weakest preconditions of the
    programs ([accepts]); [ServiceSafety] reads off the trace theorems (one mutation at most,
    the discipline of every broker call, after which its answer is recorded, an ambiguous
    response marked and any other exception raised at once; the origin of certificates),
    [ServiceCalls] bounds
    the calls, [ServiceSamples] runs the service.  One hypothesis is made of the
    answers ([expected_answer]): only planning, preparing and acquiring raise
    REPLACEMENT_CANCEL_DUE; [SqlCodes] proves it of the repository.

    The SQL repository (persistence/sqlalchemy_repository.py and sqlalchemy_models.py).
    - [SqlSchema]: a table is a finite map from the primary key to the row; [schema_ok] has the
      check constraints and the unique indices, checked at every flush and commit.
    - [SqlCodec]: the documents of the JSON columns, written and read back (with [PyParse],
      the parsers of Python's text forms of integers, decimals, dates and identifiers).
    - [SqlRows]: a transaction [txn] is a function from the database to the result and the
      database it leaves, atomic; an exception rolls back.  The readings of the database
      clock and the values of [uuid4()] are arguments.
    - [SqlLookups], [SqlExpectation], [SqlOrigin] (with [AgentAuthority] for the hashes of
      persistence/agent_authority.py), [SqlPrepare], [SqlFinalize], [SqlAccounts],
      [SqlAuthorizations] (theses, entry approvals, assessments): the operations, each a
      transaction of the source from its first read to its commit.
      What a numeric column keeps of a decimal is a parameter of [SqlAuthorizations]
      ([numeric_exact]: a decimal that fits is kept); the other tables keep decimals as they are.
    - [SqlPorts]: the repository as the port of the service, and the histories of a database.
    - [SqlFacts], [SqlPermits], [SqlSafety], [SqlReads], [SqlAudit]: the lifecycle of permits
      over all histories, what a preparation guarantees, what is read back, and that what is
      recorded stays as it was recorded; [SqlService] composes the
      service with the database, other processes running in between; [SqlSamples] carries an entry
      from its approval to the broker.

    Trading halts (services/opportunity_halt_authority.py and alpaca/opportunity_halt_stream.py).
    - [HaltData]: the configuration, the codebook of status codes, the events, the snapshot and
      their canonical hashes; [HaltAuthority]: [reduce_halt_authority], which takes a snapshot
      and an event to the next snapshot, and [read_halt_authority]; both validate the
      snapshot they are given.
    - [HaltFacts] (what the checks establish, and that every transition leaves a valid
      snapshot) and [HaltSafety]: the
      module refines a machine of four states (a trade dated before a latched halt, or a
      call before the snapshot, can leave it refusing every later call), and a market that is
      reported open was
      recently seen to trade, after a halt only after a resumption.
    - [HaltStream]: the adapter that turns the callbacks of the broker's stream into events, a
      state and one action per callback (the sections under its lock), with the clock, the
      factory of epochs and the life of the thread as oracles; [HaltStreamFacts]: it makes
      only calls of the authority, so that a halt is released by what the stream delivered,
      or by the end of the session as the clock of the adapter has it, whatever the
      interleaving.  [HaltSamples] runs both, and shows two runs with a trade
      the feed reports late, which the chronology of the module does not foresee.
    The authority allows reads 30 seconds behind the snapshot, trades up to five seconds out of
    order, and at most a minute as the age of the trade that confirms the market.

    From the market to the policy (alpaca/opportunity.py, services/opportunity_selection.py,
    services/opportunity_input.py, the decision of services/opportunity_composition.py).
    - [Snapshot]: the request, the records of a snapshot of market and account, their digests.
      The dump of an account by its base class is a parameter ([account_dump]).
    - [PyRounding] (rounding down and up, [int] of a decimal); the end of [PyTime] (the text of
      [total_seconds()], exact for durations below 10^15 microseconds, and documents that hold one).
    - [Selection]: [select_vertical_candidate], from the checks of the snapshot to the ranking; the
      loops are folds on the candidates found.  [SelectionFacts] and [SelectionSafety]: what is
      selected passes the gates of the policy, and the division and rounding that size it keep
      its loss within every limit; [SelectionRanking]: what is selected is best, for a structural
      pilot by the distance of the days to expiry first.
    - [InputAssembly]: the checks of the authorities, the recomputed selection, the input and its
      hash, and [compose_decision]; [InputFacts]: which reasons are left to a composed decision.
      The date in New York reads the time zone database: a parameter ([new_york_date]).
      [SelectionSamples] runs a snapshot from the selection to the approval.
    The theorems on risk take money and quotes in millionths of a dollar (the grids [on_grid] and
    [money_grid]), within which 28 digits are exact but for the quotients, of which the error is
    bounded.

    From the policy to the execution (services/entry_authority.py).  [EntryAuthority] builds the
    envelope, the approval and the intent of an approved opportunity; [EntryFacts] proves that
    the construction refuses nothing the policy approved but a beta above three, and that a
    repository with the approval grants the claim of the intent while it lasts.

    ** Bounds and fuel

    Recursion is structural throughout.  The loops of the source with a fixed number of
    turns are recursion on that number ([finalize_loop], [cancel_lookups]: 2), and the
    printers of numbers have as much fuel as the number has digits, which is proved to be
    enough (PyTextFacts).  [service_terminates] bounds the calls of the service: 54 for an
    advance, 62 for [execute].

    ** Not modelled

    Of the SQL repository: isolation levels and row locks (transactions are atomic), foreign
    keys, and the precision of numeric columns but those of theses, approvals and assessments; the stores of the agent are not modelled.  Of
    the halt stream: the subclass of the provider's SDK and the waiting of threads and timers.
    Of the composer of opportunities: the loading of the evidence from its providers, and the
    translation of errors by stage.
    The broker, market data and model adapters (alpaca, evidence, agent, runtime) are network
    clients; the research, experiment, archive and reporting packages read stored records.  The manifest lists
    each with the reason.  Of [GreekExposure] the validation by its base class, which is
    third party, is a parameter of the definitions that construct one. *)

From Stdlib Require Import ZArith Lia String Ascii List Bool.
From stdpp Require Import base strings gmap option tactics list.

#[global] Open Scope Z_scope.

(** ** Python exceptions and the error monad *)

(** The exceptions the modelled code raises or lets through.  The classes the
    code defines carry their message. *)
Inductive exn :=
  | ValueError (code : string)
  | ExecutionBlocked (code : string)
  | ExecutionPending (code : string)
  | AmbiguousBrokerResponse
  | ExposureBlocked (code : string)
  | HaltAuthorityError (code : string)
  | OpportunitySnapshotError (code : string)
  | OpportunityInputAuthorityError (code : string)
  | OpportunityHaltStreamError (code : string)
  | OptionContractSymbolError (code : string)
  | InvalidOperation
  | DivisionByZero
  | DecimalOverflow
  | OverflowError
  | TypeError
  | KeyError
  | IndexError
  | IntegrityError.

#[export] Instance exn_eq_dec : EqDecision exn.
Proof. solve_decision. Defined.

(** The result of evaluating a Python expression: a value, or an exception that
    has not been caught yet. *)
Inductive M (A : Type) :=
  | Ok (a : A)
  | Raise (e : exn).
Arguments Ok {A} a.
Arguments Raise {A} e.

#[export] Instance M_eq_dec {A} `{EqDecision A} : EqDecision (M A).
Proof. solve_decision. Defined.

#[export] Instance M_ret : MRet M := fun A a => Ok a.
#[export] Instance M_bind : MBind M := fun A B f m =>
  match m with Ok a => f a | Raise e => Raise e end.
#[export] Instance M_fmap : FMap M := fun A B f m =>
  match m with Ok a => Ok (f a) | Raise e => Raise e end.

(** [try m except e => h e] *)
Definition try_with {A} (m : M A) (h : exn -> M A) : M A :=
  match m with Ok a => Ok a | Raise e => h e end.

Definition is_ok {A} (m : M A) : bool :=
  match m with Ok _ => true | Raise _ => false end.

(** A dictionary access [d[k]]. *)
Definition from_option_key {A} (o : option A) : M A :=
  match o with Some a => Ok a | None => Raise KeyError end.

(** ** Conditions with exceptions and short-circuit evaluation *)

Definition lift_bool (b : bool) : M bool := Ok b.
Coercion lift_bool : bool >-> M.

Definition and_m (a b : M bool) : M bool := x ← a; if x : bool then b else Ok false.
Definition or_m (a b : M bool) : M bool := x ← a; if x : bool then Ok true else b.
Definition not_m (a : M bool) : M bool := x ← a; Ok (negb x).

(** [if c: return r] (or [raise]) followed by the rest of the function. *)
Definition guard_m {A} (c : M bool) (r k : M A) : M A :=
  x ← c; if x : bool then r else k.

Declare Scope py_scope.
Delimit Scope py_scope with py.
Notation "a &&& b" := (and_m a b) (at level 40, left associativity) : py_scope.
Notation "a ||| b" := (or_m a b) (at level 50, left associativity) : py_scope.
Notation "'not' a" := (not_m a) (at level 35, right associativity) : py_scope.
Notation "'when' c 'then_' r ;; k" := (guard_m c r k)
  (at level 100, c at level 75, r at level 75, k at level 200, right associativity,
   format "'[v' 'when'  c  'then_'  r ;; '/' k ']'") : py_scope.
#[global] Open Scope py_scope.

(** [any(f(x) for x in l)] and [all(f(x) for x in l)]: generators, stopped at the
    first deciding element. *)
Fixpoint any_m {A} (f : A -> M bool) (l : list A) : M bool :=
  match l with
  | [] => Ok false
  | x :: l => f x ||| any_m f l
  end.

Fixpoint all_m {A} (f : A -> M bool) (l : list A) : M bool :=
  match l with
  | [] => Ok true
  | x :: l => f x &&& all_m f l
  end.

Fixpoint map_m {A B} (f : A -> M B) (l : list A) : M (list B) :=
  match l with
  | [] => Ok []
  | x :: l => y ← f x; ys ← map_m f l; Ok (y :: ys)
  end.

Fixpoint fold_m {A B} (f : A -> B -> M A) (a : A) (l : list B) : M A :=
  match l with
  | [] => Ok a
  | x :: l => a' ← f a x; fold_m f a' l
  end.

(** ** Tactics *)

(** Linear arithmetic with division and remainder by constants. *)
Ltac dlia := Z.div_mod_to_equations; lia.

(** *** Inversion of monadic results *)

Lemma bind_ok {A B} (m : M A) (f : A -> M B) y :
  (m ≫= f) = Ok y <-> exists x, m = Ok x /\ f x = Ok y.
Proof.
  destruct m; cbn; split; [by eauto|by intros (? & [= ->] & ?)|done|by intros (? & ? & ?)].
Qed.

Lemma guard_raise_ok {A} (c : M bool) e (k : M A) x :
  guard_m c (Raise e) k = Ok x <-> c = Ok false /\ k = Ok x.
Proof. destruct c as [[]|]; cbn; intuition congruence. Qed.

Lemma guard_ok {A} (c : M bool) (r k : M A) x :
  guard_m c r k = Ok x <-> (c = Ok true /\ r = Ok x) \/ (c = Ok false /\ k = Ok x).
Proof. destruct c as [[]|]; cbn; intuition congruence. Qed.

Lemma guard_false {A} (b : bool) (r k : M A) : b = false -> guard_m b r k = k.
Proof. now intros ->. Qed.

Lemma or_m_false a b : or_m a b = Ok false <-> a = Ok false /\ b = Ok false.
Proof. destruct a as [[]|], b as [[]|]; cbn; intuition congruence. Qed.

Lemma or_m_true a b : or_m a b = Ok true <-> a = Ok true \/ (a = Ok false /\ b = Ok true).
Proof. destruct a as [[]|], b as [[]|]; cbn; intuition congruence. Qed.

Lemma and_m_true a b : and_m a b = Ok true <-> a = Ok true /\ b = Ok true.
Proof. destruct a as [[]|], b as [[]|]; cbn; intuition congruence. Qed.

Lemma and_m_false a b : and_m a b = Ok false <-> a = Ok false \/ (a = Ok true /\ b = Ok false).
Proof. destruct a as [[]|], b as [[]|]; cbn; intuition congruence. Qed.

Lemma not_m_ok a b : not_m a = Ok b <-> a = Ok (negb b).
Proof. destruct a as [[]|], b; cbn; intuition congruence. Qed.

Lemma not_m_false a : not_m a = Ok false <-> a = Ok true.
Proof. apply not_m_ok. Qed.

Lemma not_m_true a : not_m a = Ok true <-> a = Ok false.
Proof. apply not_m_ok. Qed.

Lemma existsb_false_Forall {A} (f : A -> bool) l :
  existsb f l = false <-> Forall (fun x => f x = false) l.
Proof.
  induction l as [|x l IH]; cbn; [by split|]. by rewrite orb_false_iff, IH, Forall_cons_iff.
Qed.

Lemma lift_bool_ok b c : lift_bool b = Ok c <-> b = c.
Proof. unfold lift_bool. intuition congruence. Qed.

Lemma any_m_false {A} (f : A -> M bool) l :
  any_m f l = Ok false <-> Forall (fun x => f x = Ok false) l.
Proof.
  induction l as [|x l IH]; cbn; [by intuition constructor|].
  rewrite or_m_false, IH. split; [intros [? ?]; by constructor|by inversion 1].
Qed.

Lemma all_m_true {A} (f : A -> M bool) l :
  all_m f l = Ok true <-> Forall (fun x => f x = Ok true) l.
Proof.
  induction l as [|x l IH]; cbn; [by intuition constructor|].
  rewrite and_m_true, IH. split; [intros [? ?]; by constructor|by inversion 1].
Qed.

Lemma map_m_ok {A B} (f : A -> M B) l l' :
  map_m f l = Ok l' <-> Forall2 (fun x y => f x = Ok y) l l'.
Proof.
  revert l'. induction l as [|x l IH]; intros l'; cbn.
  - split; [intros [= <-]; constructor|by inversion 1].
  - rewrite bind_ok. setoid_rewrite bind_ok. split.
    + intros (y & Hy & ys & Hys & [= <-]). constructor; [done|by apply IH].
    + inversion 1; subst. exists y. split; [done|]. eexists. split; [by apply IH|done].
Qed.

(** A check that answers with a failure code, and one that answers [False]. *)
Lemma guard_some_ok {A} (c : M bool) (x : A) k :
  guard_m c (Ok (Some x)) k = Ok None <-> c = Ok false /\ k = Ok None.
Proof. rewrite guard_ok. intuition congruence. Qed.

Lemma guard_false_ok (c k : M bool) :
  guard_m c (Ok false) k = Ok true <-> c = Ok false /\ k = Ok true.
Proof. rewrite guard_ok. intuition congruence. Qed.

Lemma from_option_key_ok {A} (o : option A) x : from_option_key o = Ok x <-> o = Some x.
Proof. destruct o; cbn; intuition congruence. Qed.

Lemma fold_m_app {A B} (f : A -> B -> M A) a l1 l2 :
  fold_m f a (l1 ++ l2) = (a' ← fold_m f a l1; fold_m f a' l2).
Proof.
  revert a. induction l1 as [|x l1 IH]; intros a; [done|]. cbn [app fold_m].
  destruct (f a x) as [a'|e]; [apply IH|done].
Qed.

Lemma bind_ret {A} (m : M A) : (a ← m; Ok a) = m.
Proof. by destruct m. Qed.

Create Rewrite HintDb py.
#[export] Hint Rewrite @bind_ok @guard_raise_ok @guard_some_ok guard_false_ok @from_option_key_ok or_m_false and_m_true
  not_m_false not_m_true lift_bool_ok @existsb_false_Forall bool_decide_eq_true
  bool_decide_eq_false
  @any_m_false @all_m_true andb_true_iff orb_false_iff negb_true_iff negb_false_iff : py.

Lemma returned {A} (m : M A) d : is_ok m = true -> m = Ok (match m with Ok a => a | Raise _ => d end).
Proof. by destruct m. Qed.

(** *** Deciding conditions *)

(** [m] answers whether [Q]. *)
Definition decides (m : M bool) (Q : Prop) : Prop := exists b, m = Ok b /\ (b = true <-> Q).

Lemma decides_bool (b : bool) Q : (b = true <-> Q) -> decides b Q.
Proof. intros H. by exists b. Qed.

Lemma decides_or a b P Q : decides a P -> decides b Q -> decides (a ||| b) (P \/ Q).
Proof.
  intros (x & -> & Hx) (y & -> & Hy). cbn. destruct x; eexists; (split; [reflexivity|]).
  - rewrite <- Hx. tauto.
  - rewrite Hy, <- Hx. intuition discriminate.
Qed.

Lemma decides_and a b P Q : decides a P -> decides b Q -> decides (a &&& b) (P /\ Q).
Proof.
  intros (x & -> & Hx) (y & -> & Hy). cbn. destruct x; eexists; (split; [reflexivity|]).
  - rewrite Hy, <- Hx. tauto.
  - rewrite <- Hx. intuition discriminate.
Qed.

Lemma decides_not a P : decides a P -> decides (not a) (~ P).
Proof.
  intros (x & -> & Hx). exists (negb x). split; [done|]. rewrite <- Hx. by destruct x.
Qed.

Lemma decides_iff m P Q : decides m P -> (P <-> Q) -> decides m Q.
Proof. intros (b & Hb & H) E. exists b. by rewrite H, E. Qed.

Lemma decides_any {A} (f : A -> M bool) (P : A -> Prop) l :
  (forall x, x ∈ l -> decides (f x) (P x)) -> decides (any_m f l) (exists x, x ∈ l /\ P x).
Proof.
  induction l as [|x l IH]; intros H; cbn [any_m].
  - exists false. split; [done|]. split; [done|]. by intros (x & ?%elem_of_nil & _).
  - eapply decides_iff; [apply decides_or; [apply H; left|apply IH; intros y Hy; apply H; by right]|].
    split.
    + intros [Hx|(y & Hy & Py)]; [exists x; split; [left|done]|exists y; split; [by right|done]].
    + intros (y & [->|Hy]%elem_of_cons & Py); [by left|right; by exists y].
Qed.

(** Take apart a hypothesis that says a monadic computation returned. *)
Ltac inv_step :=
  match goal with
  | H : exists _, _ |- _ => destruct H
  | H : _ /\ _ |- _ => destruct H
  | H : Ok _ = Ok _ |- _ => injection H as H; subst
  | H : Raise _ = Ok _ |- _ => discriminate H
  | H : Ok _ = Raise _ |- _ => discriminate H
  end.
Ltac inv_ok H := autorewrite with py in H; repeat inv_step.
(** The same in every hypothesis, also through [let '(a, b) := x]. *)
Ltac inv_pair :=
  match goal with
  | H : context [let '(_, _) := ?x in _] |- _ => is_var x; destruct x
  end.
Ltac inv_all := repeat (repeat inv_step; repeat inv_pair; progress autorewrite with py in *); repeat inv_step.

(** The steps of a sequence that returned, one hypothesis for each. *)
Ltac inv_seq H :=
  repeat (apply guard_raise_ok in H as [? H] || apply bind_ok in H as (? & ? & H)).

(** *** Computations that return

    [returns P m]: [m] raises nothing and its value satisfies [P]. *)

Definition returns {A} (P : A -> Prop) (m : M A) : Prop := exists a, m = Ok a /\ P a.

Lemma returns_ok {A} (P : A -> Prop) a : P a -> returns P (Ok a).
Proof. by exists a. Qed.

Lemma returns_bind {A B} (P : A -> Prop) (Q : B -> Prop) (m : M A) (f : A -> M B) :
  returns P m -> (forall a, P a -> returns Q (f a)) -> returns Q (m ≫= f).
Proof. intros (a & -> & Ha) H. by apply H. Qed.

Lemma returns_guard {A} (P : A -> Prop) (c : M bool) (r k : M A) :
  c = Ok false -> returns P k -> returns P (guard_m c r k).
Proof. by intros ->. Qed.

Lemma returns_weaken {A} (P Q : A -> Prop) m :
  returns P m -> (forall a, P a -> Q a) -> returns Q m.
Proof. intros (a & E & Ha) H. exists a. auto. Qed.

(** Run the first operation of a sequence by its specification. *)
Ltac step lemma := eapply returns_bind; [eapply lemma|cbn beta; intros ? ?].

(** Boolean comparisons on integers, as propositions. *)
Ltac zbool :=
  repeat match goal with
  | H : (_ <? _)%Z = true |- _ => apply Z.ltb_lt in H
  | H : (_ <? _)%Z = false |- _ => apply Z.ltb_ge in H
  | H : (_ <=? _)%Z = true |- _ => apply Z.leb_le in H
  | H : (_ <=? _)%Z = false |- _ => apply Z.leb_gt in H
  | H : (_ =? _)%Z = true |- _ => apply Z.eqb_eq in H
  | H : (_ =? _)%nat = true |- _ => apply Nat.eqb_eq in H
  | H : (_ =? _)%Z = false |- _ => apply Z.eqb_neq in H
  | H : String.eqb _ _ = true |- _ => apply String.eqb_eq in H
  | H : String.eqb _ _ = false |- _ => apply String.eqb_neq in H
  end.

(** A [Forall] from another one in the context with the same elements. *)
Ltac forall_from :=
  multimatch goal with
  | H : Forall _ ?l |- Forall _ ?l =>
      eapply Forall_impl; [exact H|]; cbn beta; intros; inv_all; solve [done|by split]
  end.
