(* ===== verification/PyDecimal.v ===== *)
(** * Python's [decimal.Decimal] under the default context

    The code computes every price, greek, risk and score with [Decimal], so the
    28 digit context is part of its behaviour.  This file models the values
    (sign, coefficient, exponent; infinities; the quiet NaN), the operators the code
    uses with the rounding of the default context (precision 28, half even,
    exponents between -999999 and 999999, traps on invalid operation, division by
    zero and overflow) and relates the finite values to rational numbers.
    Signalling NaNs and NaN payloads are not modelled. *)

From Stdlib Require Import ZArith Lia String List Bool QArith Qpower Lqa.
From stdpp Require Import base list option tactics.
From S2P Require Import Prelude.

#[local] Open Scope Z_scope.

Inductive decimal :=
  | Fin (neg : bool) (coef : N) (exp : Z)
  | Inf (neg : bool)
  | NaN.

#[export] Instance decimal_eq_dec : EqDecision decimal.
Proof. solve_decision. Defined.

(** [Decimal(n)] for an int, and [Decimal("c.ccc")] as coefficient and exponent. *)
Definition D (c e : Z) : decimal := Fin (c <? 0) (Z.abs_N c) e.
Definition Dint (n : Z) : decimal := D n 0.

(** ** The default context *)

Definition prec : Z := 28.
Definition Emax : Z := 999999.
Definition Emin : Z := -999999.
Definition Etiny : Z := Emin - prec + 1.
Definition Etop : Z := Emax - prec + 1.

(** Number of decimal digits of a coefficient, [len(self._int)]. *)
Fixpoint ndigits_fuel (fuel : nat) (c : Z) : Z :=
  match fuel with
  | O => 1
  | S fuel => if c <? 10 then 1 else 1 + ndigits_fuel fuel (c / 10)
  end.
Definition ndigits (c : Z) : Z := ndigits_fuel (Z.to_nat (Z.log2 c)) c.

Inductive rounding := ROUND_HALF_EVEN | ROUND_HALF_UP.

(** Integer division of a coefficient by a power of ten, rounded. *)
Definition round_div (mode : rounding) (c p : Z) : Z :=
  let q := c / p in
  let r := c mod p in
  if 2 * r <? p then q
  else if p <? 2 * r then q + 1
  else match mode with
       | ROUND_HALF_EVEN => if Z.even q then q else q + 1
       | ROUND_HALF_UP => q + 1
       end.

(** [Decimal._fix]: round a finite value to the context. *)
Definition fix_ (neg : bool) (c e : Z) : M decimal :=
  if c =? 0 then Ok (Fin neg 0 (Z.min (Z.max e Etiny) Emax))
  else
    let exp_min := ndigits c + e - prec in
    if Etop <? exp_min then Raise DecimalOverflow
    else
      let exp_min := Z.max exp_min Etiny in
      if e <? exp_min then
        let q := round_div ROUND_HALF_EVEN c (10 ^ (exp_min - e)) in
        if q =? 10 ^ prec then
          if Etop <? exp_min + 1 then Raise DecimalOverflow
          else Ok (Fin neg (Z.to_N (q / 10)) (exp_min + 1))
        else Ok (Fin neg (Z.to_N q) exp_min)
      else Ok (Fin neg (Z.to_N c) e).

Definition is_finite (d : decimal) : bool := if d is Fin _ _ _ then true else false.

Definition signed (neg : bool) (c : N) : Z := if neg then - Z.of_N c else Z.of_N c.

(** ** Arithmetic operators *)

Definition dadd (a b : decimal) : M decimal :=
  match a, b with
  | NaN, _ | _, NaN => Ok NaN
  | Inf s1, Inf s2 => if Bool.eqb s1 s2 then Ok (Inf s1) else Raise InvalidOperation
  | Inf s, Fin _ _ _ | Fin _ _ _, Inf s => Ok (Inf s)
  | Fin s1 c1 e1, Fin s2 c2 e2 =>
      let e := Z.min e1 e2 in
      let v := signed s1 c1 * 10 ^ (e1 - e) + signed s2 c2 * 10 ^ (e2 - e) in
      fix_ (if v =? 0 then s1 && s2 else v <? 0) (Z.abs v) e
  end.

Definition dcopy_negate (a : decimal) : decimal :=
  match a with
  | Fin s c e => Fin (negb s) c e
  | Inf s => Inf (negb s)
  | NaN => NaN
  end.

Definition dcopy_abs (a : decimal) : decimal :=
  match a with
  | Fin _ c e => Fin false c e
  | Inf _ => Inf false
  | NaN => NaN
  end.

Definition dsub (a b : decimal) : M decimal := dadd a (dcopy_negate b).

Definition is_zero (d : decimal) : bool := if d is Fin _ c _ then (c =? 0)%N else false.

(** Unary minus and plus round to the context; a zero loses its sign. *)
Definition dneg (a : decimal) : M decimal :=
  match a with
  | Fin s c e => fix_ (if (c =? 0)%N then false else negb s) (Z.of_N c) e
  | _ => Ok (dcopy_negate a)
  end.

Definition dpos (a : decimal) : M decimal :=
  match a with
  | Fin s c e => fix_ (if (c =? 0)%N then false else s) (Z.of_N c) e
  | _ => Ok a
  end.

Definition is_signed (a : decimal) : bool :=
  match a with Fin s _ _ | Inf s => s | NaN => false end.

Definition dabs (a : decimal) : M decimal := if is_signed a then dneg a else dpos a.

Definition dmul (a b : decimal) : M decimal :=
  match a, b with
  | NaN, _ | _, NaN => Ok NaN
  | Inf s1, Inf s2 => Ok (Inf (xorb s1 s2))
  | Inf s1, Fin s2 c _ | Fin s1 c _, Inf s2 =>
      if (c =? 0)%N then Raise InvalidOperation else Ok (Inf (xorb s1 s2))
  | Fin s1 c1 e1, Fin s2 c2 e2 => fix_ (xorb s1 s2) (Z.of_N c1 * Z.of_N c2) (e1 + e2)
  end.

(** Remove the trailing zeros of an exact quotient down to the ideal exponent. *)
Fixpoint strip_zeros (fuel : nat) (c e : Z) : Z * Z :=
  match fuel with
  | O => (c, e)
  | S fuel => if c mod 10 =? 0 then strip_zeros fuel (c / 10) (e + 1) else (c, e)
  end.

Definition ddiv (a b : decimal) : M decimal :=
  match a, b with
  | NaN, _ | _, NaN => Ok NaN
  | Inf _, Inf _ => Raise InvalidOperation
  | Inf s1, Fin s2 _ _ => Ok (Inf (xorb s1 s2))
  | Fin s1 _ _, Inf s2 => Ok (Fin (xorb s1 s2) 0 Etiny)
  | Fin s1 c1 e1, Fin s2 c2 e2 =>
      if (c2 =? 0)%N then
        if (c1 =? 0)%N then Raise InvalidOperation else Raise DivisionByZero
      else if (c1 =? 0)%N then fix_ (xorb s1 s2) 0 (e1 - e2)
      else
        let shift := ndigits (Z.of_N c2) - ndigits (Z.of_N c1) + prec + 1 in
        let num := if 0 <=? shift then Z.of_N c1 * 10 ^ shift else Z.of_N c1 in
        let den := if 0 <=? shift then Z.of_N c2 else Z.of_N c2 * 10 ^ (- shift) in
        let coeff := num / den in
        let e := e1 - e2 - shift in
        if num mod den =? 0 then
          let '(coeff, e) := strip_zeros (Z.to_nat shift) coeff e in
          fix_ (xorb s1 s2) coeff e
        else fix_ (xorb s1 s2) (if coeff mod 5 =? 0 then coeff + 1 else coeff) e
  end.

(** ** Comparisons: ordering a NaN raises, equality with one is false. *)

Definition dcmp (a b : decimal) : option comparison :=
  match a, b with
  | NaN, _ | _, NaN => None
  | Inf s1, Inf s2 =>
      Some (if Bool.eqb s1 s2 then Eq else if s1 then Lt else Gt)
  | Inf s, Fin _ _ _ => Some (if s then Lt else Gt)
  | Fin _ _ _, Inf s => Some (if s then Gt else Lt)
  | Fin s1 c1 e1, Fin s2 c2 e2 =>
      let e := Z.min e1 e2 in
      Some (Z.compare (signed s1 c1 * 10 ^ (e1 - e)) (signed s2 c2 * 10 ^ (e2 - e)))
  end.

Definition dlt (a b : decimal) : M bool :=
  match dcmp a b with
  | Some c => Ok (match c with Lt => true | _ => false end)
  | None => Raise InvalidOperation
  end.

Definition dle (a b : decimal) : M bool :=
  match dcmp a b with
  | Some c => Ok (match c with Gt => false | _ => true end)
  | None => Raise InvalidOperation
  end.

Definition deq (a b : decimal) : bool :=
  match dcmp a b with Some Eq => true | _ => false end.

(** [max(a, b)] and [min(a, b)]: the first argument wins a tie. *)
Definition dmax (a b : decimal) : M decimal := c ← dlt a b; Ok (if c : bool then b else a).
Definition dmin (a b : decimal) : M decimal := c ← dlt b a; Ok (if c : bool then b else a).

(** ** Quantising *)

(** [Decimal._rescale] on a finite coefficient. *)
Definition rescale (mode : rounding) (c e target : Z) : Z :=
  if target <=? e then c * 10 ^ (e - target) else round_div mode c (10 ^ (target - e)).

(** [self.quantize(Decimal(10) ** target, rounding)] for a finite quantum. *)
Definition quantize (mode : rounding) (d : decimal) (target : Z) : M decimal :=
  match d with
  | NaN => Ok NaN
  | Inf _ => Raise InvalidOperation
  | Fin s c e =>
      if (c =? 0)%N then fix_ s 0 target
      else if prec <? ndigits (Z.of_N c) + e - target then Raise InvalidOperation
      else
        let q := rescale mode (Z.of_N c) e target in
        if prec <? ndigits q then Raise InvalidOperation else fix_ s q target
  end.

(** [int(round(d))]: half even to an integer. *)
Definition round_int (d : decimal) : M Z :=
  match d with
  | Fin s c e =>
      let q := rescale ROUND_HALF_EVEN (Z.of_N c) e 0 in
      Ok (if s then - q else q)
  | Inf _ => Raise OverflowError
  | NaN => Raise (ValueError "cannot round a NaN")
  end.

(** [d.to_integral_value()] *)
Definition to_integral_value (d : decimal) : decimal :=
  match d with
  | Fin s c e =>
      if 0 <=? e then d
      else Fin s (Z.to_N (rescale ROUND_HALF_EVEN (Z.of_N c) e 0)) 0
  | _ => d
  end.

(** [d.normalize()]: no trailing zeros. *)
Definition normalize (d : decimal) : M decimal :=
  match d with
  | Fin s c e =>
      d' ← fix_ s (Z.of_N c) e;
      Ok (match d' with
          | Fin s c e =>
              if (c =? 0)%N then Fin s 0 0
              else
                let fuel := Z.to_nat (Z.min (ndigits (Z.of_N c)) (Emax - e)) in
                let '(c', e') := strip_zeros fuel (Z.of_N c) e in
                Fin s (Z.to_N c') e'
          | d' => d'
          end)
  | _ => Ok d
  end.

(** [math.isfinite(d)] converts to a binary float first: a value from
    [(2^54 - 1) * 2^970] on rounds to infinity. *)
Definition float_overflow_bound : decimal := Dint ((2 ^ 54 - 1) * 2 ^ 970).
Definition math_isfinite (d : decimal) : bool :=
  if is_finite d then
    match dcmp (dcopy_abs d) float_overflow_bound with Some Lt => true | _ => false end
  else false.

Declare Scope dec_scope.
Delimit Scope dec_scope with dec.
Notation "a <. b" := (dlt a b) (at level 30, no associativity) : dec_scope.
Notation "a <=. b" := (dle a b) (at level 30, no associativity) : dec_scope.
Notation "a >. b" := (dlt b a) (at level 30, no associativity) : dec_scope.
Notation "a >=. b" := (dle b a) (at level 30, no associativity) : dec_scope.
Notation "a ==. b" := (deq a b) (at level 30, no associativity) : dec_scope.
#[global] Open Scope dec_scope.
