(* ===== verification/PyDecimalFacts.v ===== *)
(** * Facts about decimal arithmetic

    The rational value of a finite decimal, the specification of the comparisons,
    and the rounding contract of the operators: a result is on the same side of every
    28 digit number as the exact value ([faithful]), so it is exact when the exact
    value fits the context and it never crosses a representable bound. *)

From Stdlib Require Import ZArith Lia String List Bool QArith Qpower Lqa Qabs Qminmax.
From stdpp Require Import base list option tactics.
From S2P Require Import Prelude PyDecimal.

#[local] Open Scope Z_scope.

(** ** Powers of ten over the rationals *)

Definition p10 (e : Z) : Q := (Qpower 10 e)%Q.

Lemma p10_pos e : (0 < p10 e)%Q.
Proof. apply Qpower_0_lt. reflexivity. Qed.

Lemma p10_add a b : (p10 (a + b) == p10 a * p10 b)%Q.
Proof. apply Qpower_plus. intros H. discriminate H. Qed.

Lemma p10_Z n : 0 <= n -> (p10 n == inject_Z (10 ^ n))%Q.
Proof. intros H. unfold p10. symmetry. apply (Zpower_Qpower 10 n H). Qed.

Lemma p10_0 : (p10 0 == 1)%Q.
Proof. reflexivity. Qed.

Lemma p10_hundredth : (p10 (-2) == 1 # 100)%Q.
Proof. reflexivity. Qed.

Lemma p10_hundred : (p10 2 == 100)%Q.
Proof. reflexivity. Qed.

Lemma p10_split g f : g <= f -> (p10 f == inject_Z (10 ^ (f - g)) * p10 g)%Q.
Proof.
  intros H. rewrite <- p10_Z by lia. rewrite <- p10_add.
  replace (f - g + g) with f by lia. reflexivity.
Qed.

Lemma p10_le a b : a <= b -> (p10 a <= p10 b)%Q.
Proof.
  intros H. rewrite (p10_split a b) by lia.
  assert (0 < 10 ^ (b - a)) by (apply Z.pow_pos_nonneg; lia).
  pose proof (p10_pos a).
  assert (inject_Z 1 <= inject_Z (10 ^ (b - a)))%Q by (rewrite <- Zle_Qle; lia).
  change (inject_Z 1) with 1%Q in *. nra.
Qed.

(** ** Number of digits *)

Lemma ndigits_fuel_bounds fuel c :
  0 < c -> c < 10 ^ Z.of_nat (S fuel) ->
  10 ^ (ndigits_fuel fuel c - 1) <= c < 10 ^ ndigits_fuel fuel c /\ 1 <= ndigits_fuel fuel c.
Proof.
  revert c. induction fuel as [|fuel IH]; intros c Hc Hb; cbn [ndigits_fuel].
  - change (10 ^ Z.of_nat 1) with 10 in Hb. change (10 ^ (1 - 1)) with 1. change (10 ^ 1) with 10. lia.
  - destruct (Z.ltb_spec c 10).
    + change (10 ^ (1 - 1)) with 1. change (10 ^ 1) with 10. lia.
    + assert (0 < c / 10) by (apply Z.div_str_pos; lia).
      assert (Hb' : c / 10 < 10 ^ Z.of_nat (S fuel)).
      { apply Z.div_lt_upper_bound; [lia|].
        rewrite <- Z.pow_succ_r by lia. now rewrite <- Nat2Z.inj_succ. }
      destruct (IH (c / 10) ltac:(lia) Hb') as [[Hl Hu] Hn].
      set (k := ndigits_fuel fuel (c / 10)) in *.
      assert (E : 10 ^ (1 + k) = 10 * 10 ^ k) by (rewrite Z.pow_add_r by lia; lia).
      assert (E' : 10 ^ (1 + k - 1) = 10 * 10 ^ (k - 1)).
      { replace (1 + k - 1) with (1 + (k - 1)) by lia. rewrite Z.pow_add_r by lia. lia. }
      rewrite E, E'. pose proof (Z.div_mod c 10). pose proof (Z.mod_pos_bound c 10). lia.
Qed.

Lemma ndigits_bounds c :
  0 < c -> 10 ^ (ndigits c - 1) <= c < 10 ^ ndigits c /\ 1 <= ndigits c.
Proof.
  intros Hc. apply ndigits_fuel_bounds; [done|].
  pose proof (Z.log2_spec c Hc) as [_ Hu]. pose proof (Z.log2_nonneg c).
  rewrite Nat2Z.inj_succ, Z2Nat.id by lia.
  eapply Z.lt_le_trans; [exact Hu|]. apply Z.pow_le_mono_l; lia.
Qed.

Lemma ndigits_le c n : 0 < c -> 0 <= n -> c < 10 ^ n -> ndigits c <= n.
Proof.
  intros Hc Hn H. destruct (ndigits_bounds c Hc) as [[Hl _] _].
  destruct (Z.le_gt_cases (ndigits c) n) as [|Hgt]; [done|].
  assert (10 ^ n <= 10 ^ (ndigits c - 1)) by (apply Z.pow_le_mono_r; lia). lia.
Qed.

(** ** Value of a finite decimal *)

Definition dval (d : decimal) : Q :=
  match d with
  | Fin s c e => inject_Z (signed s c) * p10 e
  | _ => 0
  end.

Definition finite (d : decimal) : Prop := is_finite d = true.

Lemma finite_Fin s c e : finite (Fin s c e).
Proof. reflexivity. Qed.

Lemma finite_inv d : finite d -> exists s c e, d = Fin s c e.
Proof. destruct d; try discriminate. eauto. Qed.

Lemma dval_align s c e g :
  g <= e -> (dval (Fin s c e) == inject_Z (signed s c * 10 ^ (e - g)) * p10 g)%Q.
Proof.
  intros H. cbn [dval]. rewrite (p10_split g e) by done. rewrite inject_Z_mult. ring.
Qed.

Lemma Qcompare_scale (a b : Z) (q : Q) :
  (0 < q)%Q -> (inject_Z a * q ?= inject_Z b * q)%Q = (a ?= b).
Proof.
  intros Hq. destruct (Z.compare_spec a b) as [->|H|H].
  - now apply Qeq_alt.
  - apply Qlt_alt. apply Qmult_lt_compat_r; [done|]. now rewrite <- Zlt_Qlt.
  - apply Qgt_alt. apply Qmult_lt_compat_r; [done|]. now rewrite <- Zlt_Qlt.
Qed.

(** Comparison of finite decimals is comparison of their values. *)
Lemma dcmp_finite a b : finite a -> finite b -> dcmp a b = Some (dval a ?= dval b)%Q.
Proof.
  intros (s1 & c1 & e1 & ->)%finite_inv (s2 & c2 & e2 & ->)%finite_inv. cbn [dcmp].
  f_equal. set (g := Z.min e1 e2).
  rewrite (dval_align s1 c1 e1 g), (dval_align s2 c2 e2 g) by lia.
  symmetry. apply Qcompare_scale, p10_pos.
Qed.

Lemma dlt_spec a b : finite a -> finite b ->
  exists r, dlt a b = Ok r /\ (r = true <-> (dval a < dval b)%Q).
Proof.
  intros Ha Hb. unfold dlt. rewrite dcmp_finite by done. eexists; split; [reflexivity|].
  destruct (Qcompare_spec (dval a) (dval b)) as [H|H|H]; split; intros; try done; lra.
Qed.

Lemma dle_spec a b : finite a -> finite b ->
  exists r, dle a b = Ok r /\ (r = true <-> (dval a <= dval b)%Q).
Proof.
  intros Ha Hb. unfold dle. rewrite dcmp_finite by done. eexists; split; [reflexivity|].
  destruct (Qcompare_spec (dval a) (dval b)) as [H|H|H]; split; intros; try done; lra.
Qed.

Lemma deq_spec a b : finite a -> finite b -> deq a b = true <-> (dval a == dval b)%Q.
Proof.
  intros Ha Hb. unfold deq. rewrite dcmp_finite by done.
  destruct (Qcompare_spec (dval a) (dval b)) as [H|H|H]; split; intros; try done; lra.
Qed.

Lemma dlt_true a b : finite a -> finite b -> dlt a b = Ok true -> (dval a < dval b)%Q.
Proof. intros Ha Hb H. destruct (dlt_spec a b Ha Hb) as (r & Hr & E). apply E. congruence. Qed.
Lemma dlt_false a b : finite a -> finite b -> dlt a b = Ok false -> (dval b <= dval a)%Q.
Proof.
  intros Ha Hb H. destruct (dlt_spec a b Ha Hb) as (r & Hr & E).
  apply Qnot_lt_le. rewrite <- E. congruence.
Qed.
Lemma dle_true a b : finite a -> finite b -> dle a b = Ok true -> (dval a <= dval b)%Q.
Proof. intros Ha Hb H. destruct (dle_spec a b Ha Hb) as (r & Hr & E). apply E. congruence. Qed.
Lemma dle_false a b : finite a -> finite b -> dle a b = Ok false -> (dval b < dval a)%Q.
Proof.
  intros Ha Hb H. destruct (dle_spec a b Ha Hb) as (r & Hr & E).
  apply Qnot_le_lt. rewrite <- E. congruence.
Qed.

(** Reflection of the comparisons with the rational values. *)
Lemma dle_ok_false a b : finite a -> finite b -> dle a b = Ok false <-> (dval b < dval a)%Q.
Proof.
  intros Ha Hb. split; [by apply dle_false|]. intros H.
  destruct (dle_spec a b Ha Hb) as ([] & Hr & E); [|done].
  exfalso. assert (dval a <= dval b)%Q by (by apply E). lra.
Qed.

Lemma dlt_ok_false a b : finite a -> finite b -> dlt a b = Ok false <-> (dval b <= dval a)%Q.
Proof.
  intros Ha Hb. split; [by apply dlt_false|]. intros H.
  destruct (dlt_spec a b Ha Hb) as ([] & Hr & E); [|done].
  exfalso. assert (dval a < dval b)%Q by (by apply E). lra.
Qed.

Lemma dle_ok_true a b : finite a -> finite b -> dle a b = Ok true <-> (dval a <= dval b)%Q.
Proof.
  intros Ha Hb. split; [by apply dle_true|]. intros H.
  destruct (dle_spec a b Ha Hb) as (r & Hr & E). rewrite Hr. f_equal. by apply E.
Qed.

Lemma dlt_ok_true a b : finite a -> finite b -> dlt a b = Ok true <-> (dval a < dval b)%Q.
Proof.
  intros Ha Hb. split; [by apply dlt_true|]. intros H.
  destruct (dlt_spec a b Ha Hb) as (r & Hr & E). rewrite Hr. f_equal. by apply E.
Qed.

Lemma dlt_not_nan a b r : dlt a b = Ok r -> a <> NaN /\ b <> NaN.
Proof. destruct a, b; cbn; naive_solver. Qed.
Lemma dle_not_nan a b r : dle a b = Ok r -> a <> NaN /\ b <> NaN.
Proof. destruct a, b; cbn; naive_solver. Qed.

(** ** Rounding *)

(** The numbers the context can represent (coefficient below 10^28). *)
Definition repr (q : Q) : Prop :=
  exists n f, Z.abs n < 10 ^ prec /\ Etiny <= f /\ (q == inject_Z n * p10 f)%Q.

(** [r] is representable and lies on the same side as [x] of every representable
    number. *)
Definition faithful (x r : Q) : Prop :=
  repr r /\ forall Y, repr Y -> ((x <= Y -> r <= Y) /\ (Y <= x -> Y <= r))%Q.

#[export] Instance repr_proper : Proper (Qeq ==> iff) repr.
Proof.
  intros x y E. split; intros (n & f & Hn & Hf & H); exists n, f; repeat split; try done.
  - now rewrite <- E.
  - now rewrite E.
Qed.

#[export] Instance faithful_proper : Proper (Qeq ==> Qeq ==> iff) faithful.
Proof.
  intros x x' Ex y y' Ey. unfold faithful. rewrite Ey.
  split; intros [Hr H]; (split; [done|]); intros Y HY; specialize (H Y HY).
  - rewrite <- Ex, <- Ey. done.
  - rewrite Ex, Ey. done.
Qed.

Lemma repr_opp q : repr q -> repr (- q).
Proof.
  intros (n & f & Hn & Hf & H). exists (- n), f. split_and!; [lia|done|].
  rewrite H, inject_Z_opp. ring.
Qed.

Lemma repr_int n : Z.abs n < 10 ^ prec -> repr (inject_Z n).
Proof.
  intros H. exists n, 0. split_and!; [done|unfold Etiny, Emin, prec; lia|].
  rewrite p10_0. ring.
Qed.

Lemma repr_0 : repr 0.
Proof. now apply (repr_int 0). Qed.

Lemma repr_dec n e : Z.abs n < 10 ^ prec -> Etiny <= e -> repr (inject_Z n * p10 e).
Proof. intros Hn He. now exists n, e. Qed.

Lemma faithful_opp x r : faithful x r -> faithful (- x) (- r).
Proof.
  intros [Hr H]. split; [by apply repr_opp|]. intros Y HY.
  destruct (H (- Y)%Q (repr_opp _ HY)). split; intros; lra.
Qed.

(** When the exact value is representable the result is exact. *)
Lemma faithful_exact x r : faithful x r -> repr x -> (r == x)%Q.
Proof. intros [Hr H] Hx. destruct (H x Hx). lra. Qed.

Lemma faithful_le x r Y : faithful x r -> repr Y -> (x <= Y -> r <= Y)%Q.
Proof. intros [_ H] HY. apply (H Y HY). Qed.

Lemma faithful_ge x r Y : faithful x r -> repr Y -> (Y <= x -> Y <= r)%Q.
Proof. intros [_ H] HY. apply (H Y HY). Qed.

Section Grid.
Context (m g : Z) (Hm : 0 <= m) (Hg : Etiny <= g).
Context (Hfull : 10 ^ (prec - 1) <= m \/ g = Etiny).

Lemma grid_below n f :
  Z.abs n < 10 ^ prec -> Etiny <= f -> f < g ->
  (inject_Z n * p10 f < inject_Z m * p10 g)%Q.
Proof.
  intros Hn Hf Hfg. assert (10 ^ (prec - 1) <= m) as Hbig by lia.
  rewrite (p10_split f g) by lia. rewrite Qmult_assoc, <- inject_Z_mult.
  apply Qmult_lt_compat_r; [apply p10_pos|]. rewrite <- Zlt_Qlt.
  assert (10 ^ 1 <= 10 ^ (g - f)) by (apply Z.pow_le_mono_r; lia).
  change (10 ^ 1) with 10 in *. change (10 ^ prec) with (10 * 10 ^ (prec - 1)) in Hn. nia.
Qed.

Lemma grid_up Y :
  repr Y -> (inject_Z m * p10 g < Y -> inject_Z (m + 1) * p10 g <= Y)%Q.
Proof.
  intros (n & f & Hn & Hf & E) H. rewrite E in *.
  destruct (Z.le_gt_cases g f) as [Hgf|Hgf].
  - revert H. rewrite (p10_split g f Hgf), Qmult_assoc, <- inject_Z_mult. intros H.
    apply Qmult_lt_r in H; [|apply p10_pos]. rewrite <- Zlt_Qlt in H.
    apply Qmult_le_compat_r; [|apply Qlt_le_weak, p10_pos]. rewrite <- Zle_Qle. lia.
  - pose proof (grid_below n f Hn Hf Hgf). lra.
Qed.

Lemma grid_down Y :
  repr Y -> (Y < inject_Z (m + 1) * p10 g -> Y <= inject_Z m * p10 g)%Q.
Proof.
  intros (n & f & Hn & Hf & E) H. rewrite E in *.
  destruct (Z.le_gt_cases g f) as [Hgf|Hgf].
  - revert H. rewrite (p10_split g f Hgf), Qmult_assoc, <- inject_Z_mult. intros H.
    apply Qmult_lt_r in H; [|apply p10_pos]. rewrite <- Zlt_Qlt in H.
    apply Qmult_le_compat_r; [|apply Qlt_le_weak, p10_pos]. rewrite <- Zle_Qle. lia.
  - pose proof (grid_below n f Hn Hf Hgf). lra.
Qed.

(** A value between two neighbours of the grid rounds faithfully to either end
    (to the upper one only when it is not the lower one). *)
Lemma grid_faithful x r :
  (inject_Z m * p10 g <= x < inject_Z (m + 1) * p10 g)%Q ->
  repr r ->
  (r == inject_Z m * p10 g)%Q \/
    ((r == inject_Z (m + 1) * p10 g)%Q /\ (inject_Z m * p10 g < x)%Q) ->
  faithful x r.
Proof.
  intros [Hl Hu] Hr H. split; [done|]. intros Y HY. split; intros HxY.
  - destruct H as [E|[E Hlt]]; rewrite E; [lra|]. apply grid_up; [done|lra].
  - assert (Y <= inject_Z m * p10 g)%Q by (apply grid_down; [done|lra]).
    destruct H as [E|[E Hlt]]; rewrite E; [done|].
    rewrite inject_Z_plus. pose proof (p10_pos g).
    change (inject_Z 1) with 1%Q. lra.
Qed.
End Grid.

Lemma round_div_spec mode c p :
  0 < p -> round_div mode c p = c / p \/ (round_div mode c p = c / p + 1 /\ c mod p <> 0).
Proof.
  intros Hp. unfold round_div. pose proof (Z.mod_pos_bound c p Hp).
  repeat case_match; repeat match goal with H : (_ <? _) = _ |- _ => first [apply Z.ltb_lt in H | apply Z.ltb_ge in H] end;
  auto; right; lia.
Qed.

Definition sgn (neg : bool) (q : Q) : Q := if neg then (- q)%Q else q.

Lemma dval_sgn s c e : 0 <= c -> (dval (Fin s (Z.to_N c) e) == sgn s (inject_Z c * p10 e))%Q.
Proof.
  intros H. cbn [dval]. unfold signed. rewrite Z2N.id by done.
  destruct s; cbn [sgn]; [rewrite inject_Z_opp; ring|reflexivity].
Qed.

Lemma faithful_sgn s x r : faithful x r -> faithful (sgn s x) (sgn s r).
Proof. destruct s; [apply faithful_opp|done]. Qed.

#[export] Instance sgn_proper s : Proper (Qeq ==> Qeq) (sgn s).
Proof. intros x y E. destruct s; cbn [sgn]; now rewrite E. Qed.

Lemma faithful_0 : faithful 0 0.
Proof. split; [apply repr_0|done]. Qed.

Lemma sgn_0 s : (sgn s 0 == 0)%Q.
Proof. now destruct s. Qed.

Lemma ndigits_pos c : 0 < c -> 1 <= ndigits c.
Proof. intros H. apply (ndigits_bounds c H). Qed.

(** The branch of [fix_] that rounds: the kept coefficient is the quotient by
    [10 ^ (g - e)], rounded, on the grid of exponent [g]. *)
Lemma fix_round_faithful c e g q :
  0 < c -> e < g -> g = Z.max (ndigits c + e - prec) Etiny ->
  q = round_div ROUND_HALF_EVEN c (10 ^ (g - e)) ->
  0 <= q <= 10 ^ prec /\ faithful (inject_Z c * p10 e) (inject_Z q * p10 g).
Proof.
  intros Hc Heg Eg Eq. set (p := 10 ^ (g - e)) in *.
  assert (Hp : 0 < p) by (apply Z.pow_pos_nonneg; lia).
  destruct (ndigits_bounds c Hc) as [[Hl Hu] Hn].
  pose proof (Z.div_mod c p ltac:(lia)) as Edm. pose proof (Z.mod_pos_bound c p Hp) as Hr.
  set (m := c / p) in *. assert (0 <= m) by (apply Z.div_pos; lia).
  assert (Hm : m < 10 ^ prec).
  { apply Z.div_lt_upper_bound; [done|]. unfold p.
    rewrite <- Z.pow_add_r by (unfold prec in *; lia).
    eapply Z.lt_le_trans; [exact Hu|]. apply Z.pow_le_mono_r; unfold prec in *; lia. }
  assert (Hfull : 10 ^ (prec - 1) <= m \/ g = Etiny).
  { destruct (Z.le_gt_cases (ndigits c + e - prec) Etiny); [right; lia|left].
    apply Z.div_le_lower_bound; [done|]. unfold p.
    rewrite <- Z.pow_add_r by (unfold prec in *; lia).
    eapply Z.le_trans; [|exact Hl]. apply Z.pow_le_mono_r; unfold prec in *; lia. }
  assert (Hq : q = m \/ (q = m + 1 /\ c mod p <> 0)) by (subst q; by apply round_div_spec).
  assert (0 <= q <= 10 ^ prec) by lia. split; [done|].
  assert (E : (inject_Z c * p10 e == inject_Z m * p10 g + inject_Z (c mod p) * p10 e)%Q).
  { rewrite (p10_split e g) by lia. fold p. rewrite Edm at 1.
    rewrite inject_Z_plus, inject_Z_mult. ring. }
  pose proof (p10_pos e). pose proof (p10_pos g).
  assert (E1 : (p10 g == inject_Z p * p10 e)%Q) by (apply p10_split; lia).
  assert (0 <= inject_Z (c mod p))%Q by (change 0%Q with (inject_Z 0); rewrite <- Zle_Qle; lia).
  assert (inject_Z (c mod p) + 1 <= inject_Z p)%Q
    by (change 1%Q with (inject_Z 1); rewrite <- inject_Z_plus, <- Zle_Qle; lia).
  apply (grid_faithful m g); try first [lia | exact Hfull].
  - rewrite E, inject_Z_plus. change (inject_Z 1) with 1%Q. split; nra.
  - destruct (Z.eq_dec q (10 ^ prec)) as [->|Hne].
    + exists 1, (g + prec). split_and!; [unfold prec; lia|unfold prec; lia|].
      rewrite (p10_split g (g + prec)) by (unfold prec; lia).
      replace (g + prec - g) with prec by lia. ring.
    + apply repr_dec; [lia|lia].
  - destruct Hq as [->|[-> Hne]]; [left; reflexivity|right; split; [reflexivity|]].
    rewrite E. assert (0 < inject_Z (c mod p))%Q
      by (change 0%Q with (inject_Z 0); rewrite <- Zlt_Qlt; lia). nra.
Qed.

Theorem fix_spec s c e r :
  0 <= c -> fix_ s c e = Ok r ->
  finite r /\ faithful (sgn s (inject_Z c * p10 e)) (dval r).
Proof.
  intros Hc. unfold fix_. destruct (Z.eqb_spec c 0) as [->|Hne].
  { intros [= <-]. split; [done|]. cbn [dval]. change (signed s 0) with (if s then -0 else 0).
    assert (E : (inject_Z (if s then -0 else 0) == 0)%Q) by now destruct s.
    change (inject_Z 0) with 0%Q. rewrite E, !Qmult_0_l, sgn_0. apply faithful_0. }
  destruct (Etop <? _) eqn:Hov; [discriminate|].
  destruct (Z.ltb_spec e (Z.max (ndigits c + e - prec) Etiny)) as [Hlt|Hge].
  - set (g := Z.max _ _) in *. destruct (fix_round_faithful c e g _ ltac:(lia) Hlt eq_refl eq_refl) as [Hq Hf].
    set (q := round_div _ _ _) in *.
    destruct (Z.eqb_spec q (10 ^ prec)) as [Eq|Hq'].
    + destruct (Etop <? g + 1); [discriminate|]. intros [= <-]. split; [done|].
      rewrite dval_sgn by (apply Z.div_pos; lia).
      apply faithful_sgn. rewrite Eq in Hf |- *.
      enough (inject_Z (10 ^ prec / 10) * p10 (g + 1) == inject_Z (10 ^ prec) * p10 g)%Q as -> by done.
      rewrite (p10_split g (g + 1)) by lia. replace (g + 1 - g) with 1 by lia.
      rewrite Qmult_assoc, <- inject_Z_mult. reflexivity.
    + intros [= <-]. split; [done|]. rewrite dval_sgn by lia. by apply faithful_sgn.
  - intros [= <-]. split; [done|]. rewrite dval_sgn by lia. apply faithful_sgn.
    split; [|intros; lra].
    destruct (ndigits_bounds c ltac:(lia)) as [[Hl Hu] Hn].
    apply repr_dec; [|lia]. rewrite Z.abs_eq by lia.
    eapply Z.lt_le_trans; [exact Hu|]. apply Z.pow_le_mono_r; lia.
Qed.

(** A value of at most [10 ^ Etop] never overflows. *)
Lemma fix_total s c e :
  0 <= c -> (inject_Z c * p10 e <= p10 Etop)%Q -> exists r, fix_ s c e = Ok r.
Proof.
  intros Hc H. unfold fix_. destruct (Z.eqb_spec c 0) as [->|Hne]; [eauto|].
  destruct (ndigits_bounds c ltac:(lia)) as [[Hl Hu] Hn].
  assert (Hd : ndigits c - 1 + e <= Etop).
  { destruct (Z.le_gt_cases (ndigits c - 1 + e) Etop) as [|Hgt]; [done|exfalso].
    assert (p10 (ndigits c - 1 + e) <= inject_Z c * p10 e)%Q.
    { rewrite p10_add, p10_Z by lia. apply Qmult_le_compat_r; [|apply Qlt_le_weak, p10_pos].
      by rewrite <- Zle_Qle. }
    assert (p10 (1 + Etop) <= p10 (ndigits c - 1 + e))%Q by (apply p10_le; lia).
    assert (p10 (1 + Etop) == 10 * p10 Etop)%Q by (now rewrite (p10_add 1 Etop)).
    pose proof (p10_pos Etop). lra. }
  assert (E : (Etop <? ndigits c + e - prec) = false) by (apply Z.ltb_ge; unfold prec; lia).
  rewrite E. set (g := Z.max _ _).
  assert (E' : (Etop <? g + 1) = false)
    by (apply Z.ltb_ge; subst g; unfold prec, Etop, Etiny, Emax, Emin, prec in *; lia).
  rewrite E'. repeat case_match; eauto.
Qed.

(** ** The operators *)

Lemma sgn_abs_val v e b :
  (v <> 0 -> b = (v <? 0)) -> (sgn b (inject_Z (Z.abs v) * p10 e) == inject_Z v * p10 e)%Q.
Proof.
  intros Hb. destruct (Z.eq_dec v 0) as [->|Hv].
  { change (inject_Z (Z.abs 0)) with 0%Q. change (inject_Z 0) with 0%Q. rewrite Qmult_0_l. apply sgn_0. }
  rewrite (Hb Hv). destruct (Z.ltb_spec v 0); cbn [sgn].
  - rewrite Z.abs_neq, inject_Z_opp by lia. ring.
  - rewrite Z.abs_eq by lia. reflexivity.
Qed.

Lemma signed_xorb s1 s2 c1 c2 e :
  (sgn (xorb s1 s2) (inject_Z (Z.of_N c1 * Z.of_N c2) * p10 e)
   == inject_Z (signed s1 c1 * signed s2 c2) * p10 e)%Q.
Proof.
  rewrite !inject_Z_mult. unfold signed.
  destruct s1, s2; cbn [xorb sgn]; rewrite ?inject_Z_opp; ring.
Qed.

Lemma dval_neg_sgn s c e : (dval (Fin s c e) == sgn s (inject_Z (Z.of_N c) * p10 e))%Q.
Proof. cbn [dval]. unfold signed. destruct s; cbn [sgn]; rewrite ?inject_Z_opp; ring. Qed.

Lemma signed_0 s : signed s 0 = 0.
Proof. now destruct s. Qed.

Lemma dcopy_negate_finite a : finite a -> finite (dcopy_negate a).
Proof. now destruct a. Qed.
Lemma dval_copy_negate a : (dval (dcopy_negate a) == - dval a)%Q.
Proof.
  destruct a as [s c e| |]; cbn [dcopy_negate]; [|cbn; ring..].
  rewrite !dval_neg_sgn. destruct s; cbn [negb sgn]; ring.
Qed.

Theorem dadd_spec a b r :
  finite a -> finite b -> dadd a b = Ok r ->
  finite r /\ faithful (dval a + dval b) (dval r).
Proof.
  intros (s1 & c1 & e1 & ->)%finite_inv (s2 & c2 & e2 & ->)%finite_inv. cbn [dadd].
  set (e := Z.min e1 e2). set (v := _ + _). intros H.
  apply fix_spec in H as [Hf H]; [|lia]. split; [done|].
  rewrite (dval_align s1 c1 e1 e), (dval_align s2 c2 e2 e) by lia.
  rewrite <- Qmult_plus_distr_l, <- inject_Z_plus. fold v.
  rewrite sgn_abs_val in H; [done|]. intros Hv. by apply Z.eqb_neq in Hv as ->.
Qed.

Theorem dsub_spec a b r :
  finite a -> finite b -> dsub a b = Ok r ->
  finite r /\ faithful (dval a - dval b) (dval r).
Proof.
  intros Ha Hb H. apply dadd_spec in H; [|done|by apply dcopy_negate_finite].
  rewrite dval_copy_negate in H. done.
Qed.

Theorem dmul_spec a b r :
  finite a -> finite b -> dmul a b = Ok r ->
  finite r /\ faithful (dval a * dval b) (dval r).
Proof.
  intros (s1 & c1 & e1 & ->)%finite_inv (s2 & c2 & e2 & ->)%finite_inv. cbn [dmul]. intros H.
  apply fix_spec in H as [Hf H]; [|lia]. split; [done|].
  rewrite signed_xorb in H. cbn [dval].
  enough (inject_Z (signed s1 c1 * signed s2 c2) * p10 (e1 + e2) ==
          inject_Z (signed s1 c1) * p10 e1 * (inject_Z (signed s2 c2) * p10 e2))%Q as <- by done.
  rewrite inject_Z_mult, p10_add. ring.
Qed.

Theorem dneg_spec a r :
  finite a -> dneg a = Ok r -> finite r /\ faithful (- dval a) (dval r).
Proof.
  intros (s & c & e & ->)%finite_inv. cbn [dneg]. intros H.
  apply fix_spec in H as [Hf H]; [|lia]. split; [done|].
  rewrite dval_neg_sgn. destruct (N.eqb_spec c 0) as [->|].
  - change (inject_Z (Z.of_N 0)) with 0%Q in *. rewrite !Qmult_0_l in *. rewrite sgn_0 in *. done.
  - destruct s; cbn [negb sgn] in *; [|done]. rewrite Qopp_involutive. done.
Qed.

Lemma dadd_total a b :
  finite a -> finite b -> (Qabs (dval a + dval b) <= p10 Etop)%Q -> exists r, dadd a b = Ok r.
Proof.
  intros (s1 & c1 & e1 & ->)%finite_inv (s2 & c2 & e2 & ->)%finite_inv. cbn [dadd].
  set (e := Z.min e1 e2). rewrite (dval_align s1 c1 e1 e), (dval_align s2 c2 e2 e) by lia.
  rewrite <- Qmult_plus_distr_l, <- inject_Z_plus. set (v := _ + _). intros H.
  apply fix_total; [lia|]. rewrite Qabs_Qmult in H.
  rewrite (Qabs_pos (p10 e)) in H by apply Qlt_le_weak, p10_pos. exact H.
Qed.

Lemma dmul_total a b :
  finite a -> finite b -> (Qabs (dval a * dval b) <= p10 Etop)%Q -> exists r, dmul a b = Ok r.
Proof.
  intros (s1 & c1 & e1 & ->)%finite_inv (s2 & c2 & e2 & ->)%finite_inv. cbn [dmul]. intros H.
  apply fix_total; [lia|]. rewrite !dval_neg_sgn in H.
  enough (Qabs (sgn s1 (inject_Z (Z.of_N c1) * p10 e1) * sgn s2 (inject_Z (Z.of_N c2) * p10 e2)) ==
          inject_Z (Z.of_N c1 * Z.of_N c2) * p10 (e1 + e2))%Q as <- by done.
  rewrite inject_Z_mult, p10_add.
  assert (0 <= inject_Z (Z.of_N c1))%Q by (change 0%Q with (inject_Z 0); rewrite <- Zle_Qle; lia).
  assert (0 <= inject_Z (Z.of_N c2))%Q by (change 0%Q with (inject_Z 0); rewrite <- Zle_Qle; lia).
  pose proof (p10_pos e1). pose proof (p10_pos e2).
  rewrite Qabs_Qmult.
  assert (A : forall s q, (0 <= q -> Qabs (sgn s q) == q)%Q).
  { intros s q Hq. destruct s; cbn [sgn]; rewrite ?Qabs_opp; by apply Qabs_pos. }
  rewrite !A by nra. ring.
Qed.

Lemma dneg_total a : finite a -> (Qabs (dval a) <= p10 Etop)%Q -> exists r, dneg a = Ok r.
Proof.
  intros (s & c & e & ->)%finite_inv H. cbn [dneg]. apply fix_total; [lia|].
  rewrite dval_neg_sgn in H.
  assert (0 <= inject_Z (Z.of_N c))%Q by (change 0%Q with (inject_Z 0); rewrite <- Zle_Qle; lia).
  pose proof (p10_pos e).
  destruct s; cbn [sgn] in H; rewrite ?Qabs_opp, Qabs_pos in H by nra; done.
Qed.

Lemma strip_zeros_spec fuel c e :
  0 <= c ->
  (inject_Z (fst (strip_zeros fuel c e)) * p10 (snd (strip_zeros fuel c e)) ==
   inject_Z c * p10 e)%Q /\ 0 <= fst (strip_zeros fuel c e).
Proof.
  revert c e. induction fuel as [|fuel IH]; intros c e Hc; [done|]. cbn [strip_zeros].
  destruct (Z.eqb_spec (c mod 10) 0) as [H|H]; [|done].
  assert (Hd : 0 <= c / 10) by (apply Z.div_pos; lia).
  destruct (IH (c / 10) (e + 1) Hd) as [E Hp]. split; [|done]. rewrite E.
  rewrite (p10_split e (e + 1)) by lia. replace (e + 1 - e) with 1 by lia.
  rewrite Qmult_assoc, <- inject_Z_mult. change (10 ^ 1) with 10.
  replace (c / 10 * 10) with c by (pose proof (Z.div_mod c 10); lia). reflexivity.
Qed.

Section Division.
Context (c1 c2 : Z) (Hc1 : 0 < c1) (Hc2 : 0 < c2).
Let shift := ndigits c2 - ndigits c1 + prec + 1.
Let num := if 0 <=? shift then c1 * 10 ^ shift else c1.
Let den := if 0 <=? shift then c2 else c2 * 10 ^ (- shift).

Lemma den_pos : 0 < den.
Proof.
  unfold den. destruct (Z.leb_spec 0 shift); [done|].
  apply Z.mul_pos_pos; [done|]. apply Z.pow_pos_nonneg; lia.
Qed.

Lemma quotient_full : 10 ^ prec <= num / den.
Proof.
  apply Z.div_le_lower_bound; [apply den_pos|].
  destruct (ndigits_bounds c1 Hc1) as [[L1 U1] N1], (ndigits_bounds c2 Hc2) as [[L2 U2] N2].
  unfold den, num. destruct (Z.leb_spec 0 shift) as [Hs|Hs].
  - assert (10 ^ (ndigits c2 + prec) <= c1 * 10 ^ shift).
    { replace (ndigits c2 + prec) with (ndigits c1 - 1 + shift) by (unfold shift; lia).
      rewrite Z.pow_add_r by lia. apply Z.mul_le_mono_nonneg_r; [apply Z.pow_nonneg; lia|done]. }
    rewrite Z.pow_add_r in H by (unfold prec; lia). pose proof (Z.pow_pos_nonneg 10 prec). 
    assert (0 < 10 ^ prec) by done. nia.
  - assert (E : 10 ^ (ndigits c1 - 1) = 10 ^ (ndigits c2 + - shift) * 10 ^ prec).
    { rewrite <- Z.pow_add_r by (unfold prec; lia). f_equal. unfold shift. lia. }
    rewrite Z.pow_add_r in E by lia.
    assert (0 < 10 ^ (- shift)) by (apply Z.pow_pos_nonneg; lia).
    assert (0 < 10 ^ prec) by done. nia.
Qed.

Lemma quotient_value e1 e2 :
  (inject_Z num / inject_Z den * p10 (e1 - e2 - shift) ==
   (inject_Z c1 * p10 e1) / (inject_Z c2 * p10 e2))%Q.
Proof.
  assert (Hp : forall e, ~ (p10 e == 0)%Q) by (intros e; pose proof (p10_pos e); lra).
  assert (Hz : forall z, 0 < z -> ~ (inject_Z z == 0)%Q).
  { intros z Hz. assert (0 < inject_Z z)%Q by (change 0%Q with (inject_Z 0); by rewrite <- Zlt_Qlt). lra. }
  assert (E : (p10 e1 == p10 (e1 - e2 - shift) * p10 shift * p10 e2)%Q).
  { rewrite <- !p10_add. replace (e1 - e2 - shift + shift + e2) with e1 by lia. reflexivity. }
  rewrite E. unfold num, den. destruct (Z.leb_spec 0 shift) as [Hs|Hs].
  - rewrite (p10_Z shift) by lia. rewrite inject_Z_mult. field. split; auto.
  - assert (E2 : (p10 shift * p10 (- shift) == 1)%Q)
      by (rewrite <- p10_add; replace (shift + - shift) with 0 by lia; reflexivity).
    rewrite inject_Z_mult, <- (p10_Z (- shift)) by lia.
    assert (E3 : (p10 (- shift) == / p10 shift)%Q)
      by (rewrite <- (Qmult_1_l (/ p10 shift)), <- E2; field; apply Hp).
    rewrite E3. field. repeat split; auto.
Qed.

(** The sticky digit of an inexact quotient does not move it across a representable
    number. *)
Lemma sticky_sides e coeff x Y :
  (num mod den <> 0 -> coeff = num / den \/ coeff = num / den + 1) ->
  (num mod den = 0 -> coeff = num / den) ->
  (x == inject_Z num / inject_Z den * p10 e)%Q ->
  repr Y ->
  ((x <= Y -> inject_Z coeff * p10 e <= Y) /\ (Y <= x -> Y <= inject_Z coeff * p10 e))%Q.
Proof.
  intros Hin Hex Ex HY.
  pose proof den_pos as Hd. pose proof quotient_full as Hfull. set (m := num / den) in *.
  pose proof (Z.div_mod num den ltac:(lia)) as Edm. fold m in Edm.
  pose proof (Z.mod_pos_bound num den Hd) as Hmod.
  assert (Hden : (0 < inject_Z den)%Q) by (change 0%Q with (inject_Z 0); by rewrite <- Zlt_Qlt).
  pose proof (p10_pos e) as Hp.
  set (t := (inject_Z (num mod den) / inject_Z den)%Q).
  assert (Et : (x == (inject_Z m + t) * p10 e)%Q).
  { rewrite Ex, Edm at 1. unfold t. rewrite inject_Z_plus, inject_Z_mult. field. lra. }
  assert (Ht : (0 <= t < 1)%Q).
  { unfold t. split.
    - apply Qle_shift_div_l; [done|]. rewrite Qmult_0_l.
      change 0%Q with (inject_Z 0). rewrite <- Zle_Qle. lia.
    - apply Qlt_shift_div_r; [done|]. rewrite Qmult_1_l. rewrite <- Zlt_Qlt. lia. }
  destruct (Z.eq_dec (num mod den) 0) as [Hz|Hnz].
  - rewrite (Hex Hz) in *. assert (Et0 : (t == 0)%Q).
    { unfold t. rewrite Hz. change (inject_Z 0) with 0%Q. field. lra. }
    rewrite Et, Et0, Qplus_0_r. auto.
  - assert (Htp : (0 < t)%Q).
    { unfold t. apply Qlt_shift_div_l; [done|]. rewrite Qmult_0_l.
      change 0%Q with (inject_Z 0). rewrite <- Zlt_Qlt. lia. }
    assert (Hm0 : 0 <= m) by (assert (0 < 10 ^ prec) by done; lia).
    assert (Hf : 10 ^ (prec - 1) <= m \/ e = Etiny).
    { left. transitivity (10 ^ prec); [|done]. apply Z.pow_le_mono_r; unfold prec; lia. }
    assert (Eup : (inject_Z (m + 1) == inject_Z m + 1)%Q) by (rewrite inject_Z_plus; reflexivity).
    assert (Hc : (inject_Z m <= inject_Z coeff <= inject_Z (m + 1))%Q)
      by (rewrite <- !Zle_Qle; destruct (Hin Hnz); lia).
    rewrite Et. split; intros HxY.
    + apply Qle_trans with (inject_Z (m + 1) * p10 e)%Q; [nra|].
      apply grid_up; [done..|nra].
    + apply Qle_trans with (inject_Z m * p10 e)%Q; [|nra].
      apply grid_down; [done..|nra].
Qed.
Lemma sticky_faithful e coeff x r :
  (num mod den <> 0 -> coeff = num / den \/ coeff = num / den + 1) ->
  (num mod den = 0 -> coeff = num / den) ->
  (x == inject_Z num / inject_Z den * p10 e)%Q ->
  faithful (inject_Z coeff * p10 e) r -> faithful x r.
Proof.
  intros Hin Hex Ex [Hr H]. split; [done|]. intros Y HY.
  destruct (H Y HY), (sticky_sides e coeff x Y Hin Hex Ex HY). auto.
Qed.
End Division.

(** The rounded quotient comes from one coefficient and exponent, whatever the
    branch; the lemma packages what both the specification and totality need. *)
Lemma ddiv_fix s1 c1 e1 s2 c2 e2 :
  c1 <> 0%N -> c2 <> 0%N ->
  exists coeff e, 0 <= coeff /\
    ddiv (Fin s1 c1 e1) (Fin s2 c2 e2) = fix_ (xorb s1 s2) coeff e /\
    let x := (inject_Z (Z.of_N c1) * p10 e1 / (inject_Z (Z.of_N c2) * p10 e2))%Q in
    (forall y, faithful (inject_Z coeff * p10 e) y -> faithful x y) /\
    (forall Y, repr Y -> (x <= Y -> inject_Z coeff * p10 e <= Y)%Q).
Proof.
  intros H1 H2. cbn [ddiv]. rewrite (proj2 (N.eqb_neq c2 0) H2), (proj2 (N.eqb_neq c1 0) H1).
  set (shift := ndigits (Z.of_N c2) - ndigits (Z.of_N c1) + prec + 1).
  set (num := if 0 <=? shift then Z.of_N c1 * 10 ^ shift else Z.of_N c1).
  set (den := if 0 <=? shift then Z.of_N c2 else Z.of_N c2 * 10 ^ (- shift)).
  assert (Hd : 0 < den) by (apply (den_pos (Z.of_N c1) (Z.of_N c2)); lia).
  assert (Hn : 0 <= num / den).
  { pose proof (quotient_full (Z.of_N c1) (Z.of_N c2) ltac:(lia) ltac:(lia)) as Hq.
    assert (0 < 10 ^ prec) by done. fold shift num den in Hq. lia. }
  pose proof (quotient_value (Z.of_N c1) (Z.of_N c2) ltac:(lia) e1 e2) as Ev.
  fold shift num den in Ev. symmetry in Ev.
  destruct (Z.eqb_spec (num mod den) 0) as [Hz|Hz].
  - pose proof (strip_zeros_spec (Z.to_nat shift) (num / den) (e1 - e2 - shift) Hn) as [E Hp].
    destruct (strip_zeros _ _ _) as [coeff e]. cbn [fst snd] in *.
    exists coeff, e. split; [done|]. split; [done|]. split.
    + intros y Hy. rewrite E in Hy.
      refine (sticky_faithful (Z.of_N c1) (Z.of_N c2) _ _ _ _ _ _ _ _ _ Hy); [lia|lia|done|done|exact Ev].
    + intros Y HY. rewrite E.
      refine (proj1 (sticky_sides (Z.of_N c1) (Z.of_N c2) _ _ _ _ _ _ _ _ _ HY)); [lia|lia|done|done|exact Ev].
  - eexists _, (e1 - e2 - shift). split; [|split; [reflexivity|split]].
    + case_match; lia.
    + intros y Hy.
      refine (sticky_faithful (Z.of_N c1) (Z.of_N c2) _ _ _ _ _ _ _ _ _ Hy); [lia|lia| |done|exact Ev].
      intros _. case_match; auto.
    + intros Y HY.
      refine (proj1 (sticky_sides (Z.of_N c1) (Z.of_N c2) _ _ _ _ _ _ _ _ _ HY)); [lia|lia| |done|exact Ev].
      intros _. case_match; auto.
Qed.

Lemma dval_div_sgn s1 c1 e1 s2 c2 e2 :
  c2 <> 0%N ->
  (dval (Fin s1 c1 e1) / dval (Fin s2 c2 e2) ==
   sgn (xorb s1 s2) (inject_Z (Z.of_N c1) * p10 e1 / (inject_Z (Z.of_N c2) * p10 e2)))%Q.
Proof.
  intros H2. rewrite !dval_neg_sgn.
  assert (0 < inject_Z (Z.of_N c2))%Q
    by (change 0%Q with (inject_Z 0); rewrite <- Zlt_Qlt; lia).
  pose proof (p10_pos e2).
  destruct s1, s2; cbn [xorb sgn]; field; split; lra.
Qed.

Theorem ddiv_spec a b r :
  finite a -> finite b -> ddiv a b = Ok r ->
  finite r /\ faithful (dval a / dval b) (dval r).
Proof.
  intros (s1 & c1 & e1 & ->)%finite_inv (s2 & c2 & e2 & ->)%finite_inv.
  destruct (N.eqb_spec c2 0) as [->|H2]; [cbn [ddiv N.eqb]; by case_match|].
  rewrite dval_div_sgn by done.
  destruct (N.eqb_spec c1 0) as [->|H1].
  - cbn [ddiv]. rewrite (proj2 (N.eqb_neq c2 0) H2). cbn [N.eqb].
    intros [Hf H]%fix_spec; [|lia]. split; [done|].
    change (inject_Z (Z.of_N 0)) with 0%Q. change (inject_Z 0) with 0%Q in H.
    unfold Qdiv. rewrite !Qmult_0_l in *. done.
  - destruct (ddiv_fix s1 c1 e1 s2 c2 e2 H1 H2) as (coeff & e & Hc & -> & Himp & _). cbn zeta in Himp.
    intros [Hf H]%fix_spec; [|done]. split; [done|].
    destruct (xorb s1 s2); cbn [sgn] in *; [|by apply Himp].
    apply faithful_opp in H. rewrite Qopp_involutive in H. apply Himp, faithful_opp in H.
    rewrite Qopp_involutive in H. done.
Qed.

Lemma repr_p10 k : Etiny <= k -> repr (p10 k).
Proof. intros H. exists 1, k. split_and!; [done|done|]. now rewrite Qmult_1_l. Qed.

Lemma ddiv_total a b :
  finite a -> finite b -> ~ (dval b == 0)%Q -> (Qabs (dval a / dval b) <= p10 Etop)%Q ->
  exists r, ddiv a b = Ok r.
Proof.
  intros (s1 & c1 & e1 & ->)%finite_inv (s2 & c2 & e2 & ->)%finite_inv Hb H.
  destruct (N.eqb_spec c2 0) as [->|H2].
  { destruct Hb. cbn [dval]. rewrite signed_0. change (inject_Z 0) with 0%Q. ring. }
  rewrite dval_div_sgn in H by done.
  destruct (N.eqb_spec c1 0) as [->|H1].
  { cbn [ddiv]. rewrite (proj2 (N.eqb_neq c2 0) H2). cbn [N.eqb]. unfold fix_. cbn. eauto. }
  destruct (ddiv_fix s1 c1 e1 s2 c2 e2 H1 H2) as (coeff & e & Hc & -> & _ & Hup). cbn zeta in Hup.
  apply fix_total; [done|]. apply Hup; [by apply repr_p10|].
  set (x := (_ / _)%Q) in *. pose proof (Qle_Qabs x).
  destruct (xorb s1 s2); cbn [sgn] in H; rewrite ?Qabs_opp in H; lra.
Qed.

(** ** Ranges: intervals with representable ends are preserved. *)

Definition within (lo hi : Q) (d : decimal) : Prop :=
  finite d /\ (lo <= dval d)%Q /\ (dval d <= hi)%Q.

Lemma faithful_within x d lo hi :
  finite d -> faithful x (dval d) -> repr lo -> repr hi -> (lo <= x <= hi)%Q -> within lo hi d.
Proof.
  intros Hf H Hlo Hhi [Hl Hu].
  split_and!; [done|by eapply faithful_ge|by eapply faithful_le].
Qed.

Lemma Qabs_within x lo hi B : (- B <= lo -> hi <= B -> lo <= x <= hi -> Qabs x <= B)%Q.
Proof. intros H1 H2 [H3 H4]. apply Qabs_case; intros; lra. Qed.

Lemma dadd_within a b l1 h1 l2 h2 :
  within l1 h1 a -> within l2 h2 b ->
  repr (l1 + l2) -> repr (h1 + h2) -> (- p10 Etop <= l1 + l2)%Q -> (h1 + h2 <= p10 Etop)%Q ->
  exists r, dadd a b = Ok r /\ within (l1 + l2) (h1 + h2) r.
Proof.
  intros (Fa & La & Ha) (Fb & Lb & Hb) Rl Rh Bl Bh.
  destruct (dadd_total a b Fa Fb) as [r Hr]; [apply (Qabs_within _ _ _ _ Bl Bh); lra|].
  exists r. split; [done|]. apply dadd_spec in Hr as [Fr Hr]; [|done..].
  eapply faithful_within; [done..|lra].
Qed.

Lemma dsub_within a b l1 h1 l2 h2 :
  within l1 h1 a -> within l2 h2 b ->
  repr (l1 - h2) -> repr (h1 - l2) -> (- p10 Etop <= l1 - h2)%Q -> (h1 - l2 <= p10 Etop)%Q ->
  exists r, dsub a b = Ok r /\ within (l1 - h2) (h1 - l2) r.
Proof.
  intros (Fa & La & Ha) (Fb & Lb & Hb) Rl Rh Bl Bh.
  destruct (dadd_within a (dcopy_negate b) l1 h1 (- h2) (- l2)) as (r & Hr & Hw); try done.
  - split; [by apply dcopy_negate_finite|]. rewrite dval_copy_negate. split; lra.
  - exists r. split; [done|]. exact Hw.
Qed.

Lemma dmul_within a b h1 h2 :
  within 0 h1 a -> within 0 h2 b -> repr (h1 * h2) -> (h1 * h2 <= p10 Etop)%Q ->
  exists r, dmul a b = Ok r /\ within 0 (h1 * h2) r.
Proof.
  intros (Fa & La & Ha) (Fb & Lb & Hb) Rh Bh.
  assert (0 <= dval a * dval b <= h1 * h2)%Q as Hx by nra.
  destruct (dmul_total a b Fa Fb) as [r Hr].
  { refine (Qabs_within _ _ _ _ _ Bh Hx). pose proof (p10_pos Etop). lra. }
  exists r. split; [done|]. apply dmul_spec in Hr as [Fr Hr]; [|done..].
  eapply faithful_within; [done..|apply repr_0|done|done].
Qed.

Lemma ddiv_nonneg a b r :
  finite a -> finite b -> (0 <= dval a)%Q -> (0 < dval b)%Q -> ddiv a b = Ok r ->
  finite r /\ (0 <= dval r)%Q.
Proof.
  intros Fa Fb Ha Hb [Fr Hr]%ddiv_spec; [|done..]. split; [done|].
  eapply faithful_ge; [done|apply repr_0|]. apply Qle_shift_div_l; [done|]. lra.
Qed.

Lemma dmax_spec a b :
  finite a -> finite b ->
  exists r, dmax a b = Ok r /\ finite r /\ (r = a \/ r = b) /\
    (dval a <= dval r)%Q /\ (dval b <= dval r)%Q.
Proof.
  intros Fa Fb. unfold dmax. destruct (dlt_spec a b Fa Fb) as (c & -> & Hc). cbn.
  eexists; split; [reflexivity|]. destruct c.
  - split_and!; [done|by right| |lra]. apply Qlt_le_weak, Hc. done.
  - split_and!; [done|by left|lra|]. apply Qnot_lt_le. rewrite <- Hc. done.
Qed.

Lemma dmin_spec a b :
  finite a -> finite b ->
  exists r, dmin a b = Ok r /\ finite r /\ (r = a \/ r = b) /\
    (dval r <= dval a)%Q /\ (dval r <= dval b)%Q.
Proof.
  intros Fa Fb. unfold dmin. destruct (dlt_spec b a Fb Fa) as (c & -> & Hc). cbn.
  eexists; split; [reflexivity|]. destruct c.
  - split_and!; [done|by right| |lra]. apply Qlt_le_weak, Hc. done.
  - split_and!; [done|by left|lra|]. apply Qnot_lt_le. rewrite <- Hc. done.
Qed.

Lemma dval_Dint n : (dval (Dint n) == inject_Z n)%Q.
Proof.
  unfold Dint, D. cbn [dval]. rewrite p10_0, Qmult_1_r.
  assert (signed (n <? 0) (Z.abs_N n) = n) as ->; [|done].
  unfold signed. destruct (Z.ltb_spec n 0); lia.
Qed.
Lemma finite_D c e : finite (D c e).
Proof. done. Qed.

(** Turn the comparisons of finite decimals in the context into facts on rationals. *)
Ltac fin := solve [ assumption | apply finite_D | reflexivity ].
Ltac dec_facts :=
  repeat match goal with
  | H : dle _ _ = Ok true |- _ => apply dle_ok_true in H; [|fin|fin]
  | H : dle _ _ = Ok false |- _ => apply dle_ok_false in H; [|fin|fin]
  | H : dlt _ _ = Ok true |- _ => apply dlt_ok_true in H; [|fin|fin]
  | H : dlt _ _ = Ok false |- _ => apply dlt_ok_false in H; [|fin|fin]
  end;
  rewrite ?dval_Dint in *.

(** ** Amounts: multiples of a power of ten that fit the context are exact. *)

Definition amount (e k : Z) (d : decimal) : Prop :=
  finite d /\ exists n, Z.abs n <= k /\ (dval d == inject_Z n * p10 e)%Q.

Definition money_exp (e : Z) : Prop := Etiny <= e <= 0.

Lemma amount_repr e k d : amount e k d -> k < 10 ^ prec -> money_exp e -> repr (dval d).
Proof. intros (_ & n & Hn & E) Hk [He _]. exists n, e. split_and!; [lia|done|done]. Qed.

Lemma amount_bound e n : money_exp e -> Z.abs n < 10 ^ prec -> (Qabs (inject_Z n * p10 e) <= p10 Etop)%Q.
Proof.
  intros [_ He] Hn. rewrite Qabs_Qmult, (Qabs_pos (p10 e)) by apply Qlt_le_weak, p10_pos.
  assert (p10 e <= p10 0)%Q as H1 by (apply p10_le; lia). rewrite p10_0 in H1.
  assert (Qabs (inject_Z n) <= inject_Z (10 ^ prec))%Q as H2.
  { change (Qabs (inject_Z n)) with (inject_Z (Z.abs n)). rewrite <- Zle_Qle. lia. }
  pose proof (Qabs_nonneg (inject_Z n)). pose proof (p10_pos e).
  apply Qle_trans with (p10 prec); [|apply p10_le; done]. rewrite (p10_Z prec) by done. nra.
Qed.

Lemma amount_of_faithful e k n x r :
  finite r -> faithful x (dval r) -> (x == inject_Z n * p10 e)%Q ->
  Z.abs n <= k -> k < 10 ^ prec -> money_exp e ->
  amount e k r /\ (dval r == x)%Q.
Proof.
  intros Fr Hr Hx Hn Hk He. assert (Rx : repr x).
  { rewrite Hx. apply repr_dec; [lia|apply He]. }
  pose proof (faithful_exact _ _ Hr Rx) as E. split; [|done].
  split; [done|]. exists n. split; [done|]. now rewrite E.
Qed.

Lemma amount_add e k1 k2 a b :
  amount e k1 a -> amount e k2 b -> k1 + k2 < 10 ^ prec -> money_exp e ->
  exists r, dadd a b = Ok r /\ amount e (k1 + k2) r /\ (dval r == dval a + dval b)%Q.
Proof.
  intros (Fa & n1 & H1 & E1) (Fb & n2 & H2 & E2) Hk He.
  assert (E : (dval a + dval b == inject_Z (n1 + n2) * p10 e)%Q)
    by (rewrite E1, E2, inject_Z_plus; ring).
  destruct (dadd_total a b Fa Fb) as [r Hr].
  { rewrite E. apply amount_bound; [done|lia]. }
  exists r. split; [done|]. apply dadd_spec in Hr as [Fr Hr]; [|done..].
  eapply amount_of_faithful; [done..|lia|done|done].
Qed.

Lemma amount_negate e k a : amount e k a -> amount e k (dcopy_negate a).
Proof.
  intros (Fa & n & Hn & E). split; [by apply dcopy_negate_finite|]. exists (- n).
  split; [lia|]. rewrite dval_copy_negate, E, inject_Z_opp. ring.
Qed.

Lemma amount_sub e k1 k2 a b :
  amount e k1 a -> amount e k2 b -> k1 + k2 < 10 ^ prec -> money_exp e ->
  exists r, dsub a b = Ok r /\ amount e (k1 + k2) r /\ (dval r == dval a - dval b)%Q.
Proof.
  intros Ha Hb%amount_negate Hk He.
  destruct (amount_add _ _ _ _ _ Ha Hb Hk He) as (r & Hr & Hw & E).
  exists r. split_and!; [done|done|]. rewrite E, dval_copy_negate. reflexivity.
Qed.

Lemma amount_neg e k a :
  amount e k a -> k < 10 ^ prec -> money_exp e ->
  exists r, dneg a = Ok r /\ amount e k r /\ (dval r == - dval a)%Q.
Proof.
  intros (Fa & n & Hn & E) Hk He.
  destruct (dneg_total a Fa) as [r Hr]; [rewrite E; apply amount_bound; [done|lia]|].
  exists r. split; [done|]. apply dneg_spec in Hr as [Fr Hr]; [|done].
  apply (amount_of_faithful e k (- n) (- dval a)); [done|done| |lia|done|done].
  rewrite E, inject_Z_opp. ring.
Qed.

Lemma amount_mul_int e k m a n :
  amount e k a -> Z.abs n <= m -> k * m < 10 ^ prec -> money_exp e ->
  exists r, dmul a (Dint n) = Ok r /\ amount e (k * m) r /\ (dval r == dval a * inject_Z n)%Q.
Proof.
  intros (Fa & n1 & H1 & E1) Hn Hk He.
  assert (E : (dval a * dval (Dint n) == inject_Z (n1 * n) * p10 e)%Q)
    by (rewrite E1, dval_Dint, inject_Z_mult; ring).
  assert (Z.abs (n1 * n) <= k * m) by (rewrite Z.abs_mul; nia).
  destruct (dmul_total a (Dint n) Fa) as [r Hr]; [done| |].
  { rewrite E. apply amount_bound; [done|lia]. }
  exists r. split; [done|]. apply dmul_spec in Hr as [Fr Hr]; [|done..].
  rewrite <- (dval_Dint n).
  eapply amount_of_faithful; [done..|lia|done|done].
Qed.

Lemma amount_Dint e n : money_exp e -> amount e (Z.abs n * 10 ^ (- e)) (Dint n).
Proof.
  intros [_ He]. split; [done|]. exists (n * 10 ^ (- e)). split.
  - rewrite Z.abs_mul, (Z.abs_eq (10 ^ _)); [lia|apply Z.pow_nonneg; lia].
  - rewrite dval_Dint. assert (inject_Z (10 ^ (- e)) * p10 e == 1)%Q as E.
    { rewrite <- (p10_Z (- e)) by lia. rewrite <- p10_add.
      replace (- e + e) with 0 by lia. apply p10_0. }
    rewrite inject_Z_mult, <- Qmult_assoc, E. ring.
Qed.

Lemma amount_weaken e k k' d : amount e k d -> k <= k' -> amount e k' d.
Proof. intros (F & n & Hn & E) Hk. split; [done|]. exists n. split; [lia|done]. Qed.

Lemma dval_D c x : (dval (D c x) == inject_Z c * p10 x)%Q.
Proof.
  unfold D. cbn [dval]. enough (signed (c <? 0) (Z.abs_N c) = c) as -> by reflexivity.
  unfold signed. destruct (Z.ltb_spec c 0); lia.
Qed.

(** A decimal literal is an amount. *)
Lemma amount_D e k c x : e <= x -> Z.abs c * 10 ^ (x - e) <= k -> amount e k (D c x).
Proof.
  intros He Hk. split; [done|]. exists (c * 10 ^ (x - e)). split.
  - rewrite Z.abs_mul, (Z.abs_eq (10 ^ _)) by (apply Z.pow_nonneg; lia). done.
  - rewrite dval_D, (p10_split e x He), inject_Z_mult. ring.
Qed.

Lemma amount_max0 e k a :
  0 <= k -> money_exp e -> amount e k a ->
  exists r, dmax (Dint 0) a = Ok r /\ amount e k r /\ (dval r == Qmax 0 (dval a))%Q.
Proof.
  intros Hk He Ha. destruct (dmax_spec (Dint 0) a) as (r & Hr & Fr & Heq & L1 & L2); [done|apply Ha|].
  exists r. rewrite dval_Dint in L1. change (inject_Z 0) with 0%Q in L1. split_and!; [done| |].
  - destruct Heq as [->| ->]; [|done]. eapply amount_weaken; [by apply amount_Dint|]. cbn. lia.
  - destruct Heq as [->| ->].
    + rewrite dval_Dint in L2 |- *. change (inject_Z 0) with 0%Q in *.
      rewrite Q.max_l; [reflexivity|lra].
    + rewrite Q.max_r; [reflexivity|lra].
Qed.

Create HintDb decimal.
#[export] Hint Resolve finite_Fin finite_D repr_0 faithful_0 dcopy_negate_finite : decimal.

(** Cash amounts: millionths of a dollar, below 10^18 of them. *)
Definition cash (d : decimal) : Prop := amount (-6) (10 ^ 18) d.

Lemma cash_exp : money_exp (-6).
Proof. split; [unfold Etiny, Emin, prec|]; lia. Qed.

(** ** Magnitudes: operations on values below [10^n] return, and how far they grow. *)

Definition sized (n : Z) (d : decimal) : Prop := within (- p10 n) (p10 n) d.

(** A usable divisor: positive and not too small. *)
Definition divisor (m n : Z) (d : decimal) : Prop := within (p10 (- m)) (p10 n) d.

Lemma p10_succ n : (p10 (n + 1) == 10 * p10 n)%Q.
Proof. rewrite p10_add. unfold p10 at 2. change (10 ^ 1)%Q with 10%Q. ring. Qed.

Lemma sized_weaken n n' d : sized n d -> n <= n' -> sized n' d.
Proof. intros (F & L & U) Hn. pose proof (p10_le n n' Hn). split_and!; [done|lra|lra]. Qed.

Lemma divisor_sized m n d : divisor m n d -> sized n d.
Proof.
  intros (F & L & U). pose proof (p10_pos (- m)). pose proof (p10_pos n).
  split_and!; [done|lra|lra].
Qed.

Lemma divisor_pos m n d : divisor m n d -> (0 < dval d)%Q.
Proof. intros (F & L & U). pose proof (p10_pos (- m)). lra. Qed.

Lemma sized_finite n d : sized n d -> finite d.
Proof. by intros []. Qed.

Lemma within_finite lo hi d : within lo hi d -> finite d.
Proof. by intros []. Qed.

Lemma sized_int n k : Z.abs k <= 10 ^ n -> 0 <= n -> sized n (Dint k).
Proof.
  intros Hk Hn. split_and!; [done|..]; rewrite dval_Dint, p10_Z by done.
  - rewrite <- inject_Z_opp, <- Zle_Qle. lia.
  - rewrite <- Zle_Qle. lia.
Qed.

Lemma sized_D n c x : Z.abs c <= 10 ^ n -> 0 <= n -> x <= 0 -> sized n (D c x).
Proof.
  intros Hk Hn Hx. pose proof (sized_int n c Hk Hn) as (_ & L & U).
  rewrite dval_Dint in L, U. pose proof (p10_le x 0 Hx) as H1. rewrite p10_0 in H1.
  pose proof (p10_pos x). split_and!; [done|..]; rewrite dval_D; nra.
Qed.

Lemma faithful_sized n x r :
  finite r -> faithful x (dval r) -> Etiny <= n -> (- p10 n <= x <= p10 n)%Q -> sized n r.
Proof.
  intros Hf H Hn Hx. eapply faithful_within; [done|done| |by apply repr_p10|done].
  by apply repr_opp, repr_p10.
Qed.

Lemma Qabs_p10 n x : (- p10 n <= x <= p10 n)%Q -> n <= Etop -> (Qabs x <= p10 Etop)%Q.
Proof. intros H Hn. pose proof (p10_le n Etop Hn). apply Qabs_case; intros; lra. Qed.

Lemma sized_add n k a b :
  sized n a -> sized n b -> n + 1 <= k -> 0 <= n -> k <= Etop ->
  returns (sized k) (dadd a b).
Proof.
  intros (Fa & La & Ua) (Fb & Lb & Ub) Hk Hn Hm.
  assert (- p10 k <= dval a + dval b <= p10 k)%Q as Hx.
  { pose proof (p10_le _ _ Hk) as Hp. rewrite p10_succ in Hp. pose proof (p10_pos n). lra. }
  destruct (dadd_total a b Fa Fb (Qabs_p10 _ _ Hx Hm)) as [r Hr]. exists r. split; [done|].
  apply dadd_spec in Hr as [Fr Hr]; [|done..]. eapply faithful_sized; try done.
  unfold Etiny, Emin, prec. lia.
Qed.

Lemma sized_negate n a : sized n a -> sized n (dcopy_negate a).
Proof.
  intros (Fa & La & Ua). split; [by apply dcopy_negate_finite|].
  rewrite dval_copy_negate. lra.
Qed.

Lemma sized_sub n k a b :
  sized n a -> sized n b -> n + 1 <= k -> 0 <= n -> k <= Etop ->
  returns (sized k) (dsub a b).
Proof. intros Ha Hb. apply sized_add; [done|by apply sized_negate]. Qed.

Lemma sized_mul n m k a b :
  sized n a -> sized m b -> n + m <= k -> 0 <= k -> k <= Etop ->
  returns (sized k) (dmul a b).
Proof.
  intros (Fa & La & Ua) (Fb & Lb & Ub) Hk Hn Hm.
  assert (- p10 k <= dval a * dval b <= p10 k)%Q as Hx.
  { pose proof (p10_le _ _ Hk) as Hp. rewrite p10_add in Hp.
    pose proof (p10_pos n). pose proof (p10_pos m). nra. }
  destruct (dmul_total a b Fa Fb (Qabs_p10 _ _ Hx Hm)) as [r Hr]. exists r. split; [done|].
  apply dmul_spec in Hr as [Fr Hr]; [|done..]. eapply faithful_sized; try done.
  unfold Etiny, Emin, prec. lia.
Qed.

Lemma sized_div n m k h a b :
  sized n a -> divisor m h b -> n + m <= k -> 0 <= k -> k <= Etop ->
  returns (sized k) (ddiv a b).
Proof.
  intros (Fa & La & Ua) Hb Hk Hn Hm. pose proof (divisor_pos _ _ _ Hb) as Pb.
  destruct Hb as (Fb & Lb & Ub).
  assert (- p10 k <= dval a / dval b <= p10 k)%Q as Hx.
  { assert (p10 n <= p10 k * dval b)%Q as Hp.
    { assert (p10 n <= p10 (k + - m))%Q by (apply p10_le; lia).
      rewrite p10_add in *. pose proof (p10_pos k). nra. }
    split; [apply Qle_shift_div_l|apply Qle_shift_div_r]; try done; lra. }
  destruct (ddiv_total a b Fa Fb) as [r Hr]; [lra|by eapply Qabs_p10|].
  exists r. split; [done|]. apply ddiv_spec in Hr as [Fr Hr]; [|done..].
  eapply faithful_sized; try done. unfold Etiny, Emin, prec. lia.
Qed.

Lemma sized_neg n a : sized n a -> 0 <= n -> n <= Etop -> returns (sized n) (dneg a).
Proof.
  intros (Fa & La & Ua) Hn Hm. destruct (dneg_total a Fa) as [r Hr].
  { eapply Qabs_p10; [|done]. split; lra. }
  exists r. split; [done|]. apply dneg_spec in Hr as [Fr Hr]; [|done].
  eapply faithful_sized; [done..|unfold Etiny, Emin, prec; lia|lra].
Qed.

Lemma sized_pos n a : sized n a -> 0 <= n -> n <= Etop -> returns (sized n) (dpos a).
Proof.
  intros Ha Hn Hm. destruct a as [s c e| |]; [|by destruct Ha..].
  destruct (sized_neg n (Fin (negb s) c e)) as (r & Hr & Sr); [|done|done|].
  - apply (sized_negate _ _ Ha).
  - exists r. split; [|done]. cbn [dneg dpos] in *. by rewrite negb_involutive in Hr.
Qed.

Lemma sized_abs n a : sized n a -> 0 <= n -> n <= Etop -> returns (sized n) (dabs a).
Proof. intros. unfold dabs. destruct (is_signed a); [by apply sized_neg|by apply sized_pos]. Qed.

Lemma sized_max n a b : sized n a -> sized n b -> returns (sized n) (dmax a b).
Proof.
  intros Ha Hb. destruct (dmax_spec a b) as (r & Hr & _ & [->| ->] & _);
    [by eapply sized_finite..|by exists a|by exists b].
Qed.

Lemma sized_min n a b : sized n a -> sized n b -> returns (sized n) (dmin a b).
Proof.
  intros Ha Hb. destruct (dmin_spec a b) as (r & Hr & _ & [->| ->] & _);
    [by eapply sized_finite..|by exists a|by exists b].
Qed.

(** ** Rounding to an integer *)

Lemma round_div_half mode c p : 0 < p -> - p <= 2 * (round_div mode c p * p - c) <= p.
Proof.
  intros Hp. unfold round_div. pose proof (Z.div_mod c p ltac:(lia)).
  pose proof (Z.mod_pos_bound c p Hp). set (q := c / p) in *. set (r := c mod p) in *.
  destruct (Z.ltb_spec (2 * r) p); [lia|]. destruct (Z.ltb_spec p (2 * r)); [lia|].
  destruct mode; [destruct (Z.even q)|]; lia.
Qed.

Lemma scaled_half (x w v p : Q) :
  (0 < p -> w == v * p -> - p <= 2 * (x * p - w) <= p -> - (1 # 2) <= x - v <= 1 # 2)%Q.
Proof. intros Hp E H. split; apply (Qmult_le_r _ _ p); try done; lra. Qed.

(** [round_int] is within one half of the value, so it keeps integer bounds. *)
Lemma round_int_spec d :
  finite d -> exists n, round_int d = Ok n /\ (- (1 # 2) <= inject_Z n - dval d <= 1 # 2)%Q.
Proof.
  intros (s & c & e & ->)%finite_inv. cbn [round_int]. eexists. split; [done|].
  set (q := rescale _ _ _ _).
  assert (- (1 # 2) <= inject_Z q - inject_Z (Z.of_N c) * p10 e <= 1 # 2)%Q as Hq.
  { unfold q, rescale. destruct (Z.leb_spec 0 e) as [He|He].
    - rewrite p10_Z, Z.sub_0_r, inject_Z_mult by done. lra.
    - rewrite Z.sub_0_l. set (p := 10 ^ (- e)).
      assert (0 < p) as Hp by (apply Z.pow_pos_nonneg; lia).
      assert (p10 e * inject_Z p == 1)%Q as E1.
      { unfold p. rewrite <- p10_Z by lia. rewrite <- p10_add.
        replace (e + - e) with 0 by lia. apply p10_0. }
      pose proof (round_div_half ROUND_HALF_EVEN (Z.of_N c) p Hp) as [L U].
      set (x := round_div _ _ _) in *. rewrite Zle_Qle in L, U.
      rewrite inject_Z_mult in L, U. unfold Z.sub in L, U.
      rewrite inject_Z_plus, !inject_Z_opp, inject_Z_mult in L, U.
      assert (0 < inject_Z p)%Q by (change 0%Q with (inject_Z 0); by rewrite <- Zlt_Qlt).
      apply (scaled_half _ (inject_Z (Z.of_N c)) _ (inject_Z p)); [done| |].
      * rewrite <- Qmult_assoc, E1. ring.
      * change (inject_Z 2) with 2%Q in *. rewrite inject_Z_opp in L. lra. }
  rewrite dval_neg_sgn. destruct s; cbn [sgn]; rewrite ?inject_Z_opp; lra.
Qed.

Lemma round_int_bounds lo hi d :
  within (inject_Z lo) (inject_Z hi) d -> exists n, round_int d = Ok n /\ lo <= n <= hi /\
    (- (1 # 2) <= inject_Z n - dval d <= 1 # 2)%Q.
Proof.
  intros (F & L & U). destruct (round_int_spec d F) as (n & Hn & H). exists n.
  split_and!; try done; try apply H.
  - destruct (Z.le_gt_cases lo n) as [|Hgt]; [done|].
    assert (n + 1 <= lo) as H1 by lia. rewrite Zle_Qle, inject_Z_plus in H1.
    change (inject_Z 1) with 1%Q in H1. lra.
  - destruct (Z.le_gt_cases n hi) as [|Hgt]; [done|].
    assert (hi + 1 <= n) as H1 by lia. rewrite Zle_Qle, inject_Z_plus in H1.
    change (inject_Z 1) with 1%Q in H1. lra.
Qed.
