(* ===== verification/PyText.v ===== *)
(** * Python text: strings, decimal digits, JSON

    A Python [str] is modelled as a Rocq [string]: the sequence of its code points,
    all below 256.  The file has the string operations the code uses, the decimal and
    hexadecimal printers, and [json.dumps] with [sort_keys=True], compact separators
    and [ensure_ascii=True], which is the input of every hash of the program; the
    printer is injective on values whose objects have their keys in order. *)

From Stdlib Require Import ZArith Lia String Ascii List Bool.
From stdpp Require Import base list strings option tactics sorting.
From S2P Require Import Prelude.

#[local] Open Scope Z_scope.

(** ** Strings *)

Definition code (c : ascii) : N := N_of_ascii c.

Fixpoint chars (s : string) : list ascii :=
  match s with
  | EmptyString => []
  | String c s => c :: chars s
  end.

Fixpoint of_chars (l : list ascii) : string :=
  match l with
  | [] => EmptyString
  | c :: l => String c (of_chars l)
  end.

(** [len(s)] and truthiness of a string. *)
Definition str_len (s : string) : Z := Z.of_nat (String.length s).
Definition str_nonempty (s : string) : bool := if s is EmptyString then false else true.

Definition str_all (p : ascii -> bool) (s : string) : bool := forallb p (chars s).
Definition str_any (p : ascii -> bool) (s : string) : bool := existsb p (chars s).

Definition is_digit (c : ascii) : bool := ((48 <=? code c) && (code c <=? 57))%N.
Definition is_upper_letter (c : ascii) : bool := ((65 <=? code c) && (code c <=? 90))%N.
Definition is_hex_lower (c : ascii) : bool :=
  is_digit c || ((97 <=? code c) && (code c <=? 102))%N.

(** [str.isspace] on the code points below 256. *)
Definition is_space (c : ascii) : bool :=
  let n := code c in
  ((9 <=? n) && (n <=? 13) || (28 <=? n) && (n <=? 32) || (n =? 133) || (n =? 160))%N.

Definition is_ascii (c : ascii) : bool := (code c <? 128)%N.

Fixpoint lstrip (l : list ascii) : list ascii :=
  match l with
  | [] => []
  | c :: l' => if is_space c then lstrip l' else l
  end.

(** [s.strip()] *)
Definition str_strip (s : string) : string :=
  of_chars (rev (lstrip (rev (lstrip (chars s))))).

(** [s.upper()] on ASCII letters; the code points from 128 on are left alone, which
    no comparison of the code can tell from Python's mapping. *)
Definition upper_char (c : ascii) : ascii :=
  if ((97 <=? code c) && (code c <=? 122))%N then ascii_of_N (code c - 32) else c.
Definition str_upper (s : string) : string := of_chars (map upper_char (chars s)).

(** [s[:n]] *)
Definition str_take (n : nat) (s : string) : string := String.substring 0 n s.

(** [s.rstrip(c)] for one character. *)
Fixpoint drop_while (p : ascii -> bool) (l : list ascii) : list ascii :=
  match l with
  | [] => []
  | c :: l' => if p c then drop_while p l' else l
  end.
Definition rstrip_char (x : ascii) (s : string) : string :=
  of_chars (rev (drop_while (Ascii.eqb x) (rev (chars s)))).

Definition str_contains (x : ascii) (s : string) : bool := str_any (Ascii.eqb x) s.

(** The regular expression [^[0-9a-f]{64}$] with [fullmatch]. *)
Definition is_hash (s : string) : bool :=
  (str_len s =? 64) && str_all is_hex_lower s.

(** ** Printing numbers *)

Definition digit_char (n : N) : ascii := ascii_of_N (48 + n).

Fixpoint dec_digits (fuel : nat) (n : N) (acc : string) : string :=
  match fuel with
  | O => acc
  | S fuel =>
      let acc := String (digit_char (n mod 10)) acc in
      if (n <? 10)%N then acc else dec_digits fuel (n / 10) acc
  end.

(** [str(n)] for a natural number and for an int. *)
Definition str_of_N (n : N) : string := dec_digits (S (N.to_nat (N.log2 n))) n EmptyString.
Definition str_of_Z (z : Z) : string :=
  if z <? 0 then String "-" (str_of_N (Z.abs_N z)) else str_of_N (Z.abs_N z).

Fixpoint zeros (n : nat) : string :=
  match n with
  | O => EmptyString
  | S n => String "0" (zeros n)
  end.

(** [f"{n:0wd}"] *)
Definition zfill (w : nat) (n : N) : string :=
  let s := str_of_N n in (zeros (w - String.length s) ++ s)%string.

Definition hex_char (n : N) : ascii :=
  if (n <? 10)%N then ascii_of_N (48 + n) else ascii_of_N (87 + n).

(** The [w] low hexadecimal digits of [n], most significant first. *)
Fixpoint hex_digits (w : nat) (n : N) (acc : string) : string :=
  match w with
  | O => acc
  | S w => hex_digits w (n / 16) (String (hex_char (n mod 16)) acc)
  end.
Definition hex_of_N (w : nat) (n : N) : string := hex_digits w n EmptyString.

(** Reading decimal digits back. *)
Fixpoint N_of_digits (acc : N) (s : string) : option N :=
  match s with
  | EmptyString => Some acc
  | String c s => if is_digit c then N_of_digits (10 * acc + (code c - 48))%N s else None
  end.

(** ** JSON *)

#[local] Set Warnings "-register-all".

Inductive json :=
  | JNull
  | JBool (b : bool)
  | JInt (z : Z)
  | JStr (s : string)
  | JArr (l : list json)
  | JObj (l : list (string * json)).

Definition quote : ascii := ascii_of_N 34.
Definition backslash : ascii := ascii_of_N 92.

(** One character of a string literal, with [ensure_ascii]. *)
Definition json_char (c : ascii) : string :=
  let n := code c in
  if (n =? 34)%N then String backslash (String quote EmptyString)
  else if (n =? 92)%N then String backslash (String backslash EmptyString)
  else if (n =? 10)%N then String backslash "n"
  else if (n =? 13)%N then String backslash "r"
  else if (n =? 9)%N then String backslash "t"
  else if (n =? 12)%N then String backslash "f"
  else if (n =? 8)%N then String backslash "b"
  else if ((32 <=? n) && (n <=? 126))%N then String c EmptyString
  else String backslash (String "u" (hex_of_N 4 n)).

Fixpoint json_chars (s : string) : string :=
  match s with
  | EmptyString => String quote EmptyString
  | String c s => (json_char c ++ json_chars s)%string
  end.
Definition json_string (s : string) : string := String quote (json_chars s).

Section Items.
Context (enc : json -> string).

Fixpoint json_items (l : list json) : string :=
  match l with
  | [] => "]"
  | [x] => (enc x ++ "]")%string
  | x :: l => (enc x ++ String "," (json_items l))%string
  end.

Fixpoint json_members (l : list (string * json)) : string :=
  match l with
  | [] => "}"
  | [(k, x)] => (json_string k ++ String ":" (enc x ++ "}"))%string
  | (k, x) :: l => (json_string k ++ String ":" (enc x ++ String "," (json_members l)))%string
  end.
End Items.

(** [json.dumps(..., separators=(",", ":"))] on a value whose members are already in
    the order of their keys. *)
Fixpoint json_enc (j : json) : string :=
  match j with
  | JNull => "null"
  | JBool b => if b then "true" else "false"
  | JInt z => str_of_Z z
  | JStr s => json_string s
  | JArr l => String "[" (json_items json_enc l)
  | JObj l => String "{" (json_members json_enc l)
  end.

(** [sort_keys=True]: insertion sort of the members by key. *)
Fixpoint insert_member (m : string * json) (l : list (string * json)) : list (string * json) :=
  match l with
  | [] => [m]
  | m' :: l' => if String.leb m.1 m'.1 then m :: l else m' :: insert_member m l'
  end.
Definition sort_members (l : list (string * json)) : list (string * json) :=
  fold_right insert_member [] l.

Fixpoint json_sort (j : json) : json :=
  match j with
  | JArr l => JArr (map json_sort l)
  | JObj l => JObj (sort_members (map (fun m => (m.1, json_sort m.2)) l))
  | _ => j
  end.

Definition json_dumps (j : json) : string := json_enc (json_sort j).
