(* ===== verification/PyTextFacts.v ===== *)
(** * Facts about text

    Decimal printing and reading are inverse, at free and at fixed width; character
    level facts of the JSON printer and its injectivity. *)

From Stdlib Require Import ZArith NArith Lia String Ascii List Bool.
From stdpp Require Import base list strings option tactics.
From S2P Require Import Prelude PyText.

#[local] Open Scope string_scope.
#[local] Arguments String.append !_ _ / : simpl nomatch.
#[local] Open Scope N_scope.

(** ** Strings and character lists *)

Lemma of_chars_chars s : of_chars (chars s) = s.
Proof. induction s as [|c s IH]; cbn; congruence. Qed.

Lemma chars_of_chars l : chars (of_chars l) = l.
Proof. induction l as [|c l IH]; cbn; congruence. Qed.

Lemma chars_app s t : chars (s ++ t) = (chars s ++ chars t)%list.
Proof. induction s as [|c s IH]; cbn; congruence. Qed.

Lemma chars_inj s t : chars s = chars t -> s = t.
Proof. intros H. rewrite <- (of_chars_chars s), <- (of_chars_chars t). congruence. Qed.

Lemma length_chars s : length (chars s) = String.length s.
Proof. induction s as [|c s IH]; cbn; congruence. Qed.

Lemma length_append s t : String.length (s ++ t) = (String.length s + String.length t)%nat.
Proof. induction s as [|c s IH]; cbn; congruence. Qed.

Lemma append_assoc s t u : (s ++ t) ++ u = s ++ (t ++ u).
Proof. induction s as [|c s IH]; cbn; congruence. Qed.

Lemma append_nil_r s : s ++ EmptyString = s.
Proof. induction s as [|c s IH]; cbn; congruence. Qed.

Lemma append_inj_length s1 t1 s2 t2 :
  String.length s1 = String.length t1 -> s1 ++ s2 = t1 ++ t2 -> s1 = t1 /\ s2 = t2.
Proof.
  revert t1. induction s1 as [|c s1 IH]; intros [|c' t1] Hl H; cbn in *; try discriminate; [done|].
  injection Hl as Hl. injection H as -> H. destruct (IH t1 Hl H) as [-> ->]. done.
Qed.

(** ** Characters *)

Lemma code_lt_256 c : code c < 256.
Proof. destruct c as [b0 b1 b2 b3 b4 b5 b6 b7]. unfold code.
  destruct b0, b1, b2, b3, b4, b5, b6, b7; reflexivity. Qed.

Lemma ascii_of_code c : ascii_of_N (code c) = c.
Proof. apply ascii_N_embedding. Qed.

Lemma code_of_ascii n : n < 256 -> code (ascii_of_N n) = n.
Proof. intros H. apply N_ascii_embedding. done. Qed.

Lemma code_inj c d : code c = code d -> c = d.
Proof. intros H. rewrite <- (ascii_of_code c), <- (ascii_of_code d). congruence. Qed.

Lemma code_digit n : n < 10 -> code (digit_char n) = 48 + n.
Proof. intros H. apply code_of_ascii. lia. Qed.

Lemma is_digit_spec c : is_digit c = true <-> 48 <= code c <= 57.
Proof. unfold is_digit. rewrite andb_true_iff, !N.leb_le. reflexivity. Qed.

Lemma is_digit_char n : n < 10 -> is_digit (digit_char n) = true.
Proof. intros H. apply is_digit_spec. rewrite code_digit by done. lia. Qed.

Lemma digit_char_code c : is_digit c = true -> digit_char (code c - 48) = c.
Proof.
  intros H%is_digit_spec. unfold digit_char. replace (48 + (code c - 48)) with (code c) by lia.
  apply ascii_of_code.
Qed.

(** ** Digits *)

Definition all_digits (s : string) : Prop := Forall (fun c => is_digit c = true) (chars s).

Lemma all_digits_app s t : all_digits (s ++ t) <-> all_digits s /\ all_digits t.
Proof. unfold all_digits. rewrite chars_app. apply Forall_app. Qed.

Lemma N_of_digits_app a s t :
  N_of_digits a (s ++ t) =
  match N_of_digits a s with Some b => N_of_digits b t | None => None end.
Proof.
  revert a. induction s as [|c s IH]; intros a; cbn [append N_of_digits]; [done|].
  destruct (is_digit c); [apply IH|done].
Qed.

Lemma N_of_digits_digit a n s :
  n < 10 -> N_of_digits a (String (digit_char n) s) = N_of_digits (10 * a + n) s.
Proof.
  intros H. cbn [N_of_digits]. rewrite is_digit_char, code_digit by done. f_equal. lia.
Qed.

Lemma dec_digits_spec fuel n acc :
  n < 10 ^ N.of_nat (S fuel) ->
  exists s, dec_digits (S fuel) n acc = s ++ acc /\ all_digits s /\ s <> EmptyString /\
    (String.length s <= S fuel)%nat /\
    (forall w, (0 < w)%nat -> n < 10 ^ N.of_nat w -> (String.length s <= w)%nat) /\
    (forall a, N_of_digits a s = Some (a * 10 ^ N.of_nat (String.length s) + n)) /\
    (10 <= n -> exists d s', s = String (digit_char d) s' /\ 1 <= d < 10) /\
    (n < 10 -> s = String (digit_char n) EmptyString).
Proof.
  revert n acc. induction fuel as [|fuel IH]; intros n acc Hn.
  - change (10 ^ N.of_nat 1) with 10 in Hn. cbn [dec_digits].
    rewrite N.mod_small by done. assert (Hlt : (n <? 10) = true) by (apply N.ltb_lt; done).
    exists (String (digit_char n) EmptyString). split_and!.
    + destruct (n <? 10); reflexivity.
    + constructor; [by apply is_digit_char|constructor].
    + done.
    + done.
    + intros w Hw _. cbn. lia.
    + intros a. rewrite N_of_digits_digit by done. cbn [N_of_digits String.length].
      change (10 ^ N.of_nat 1) with 10. f_equal. lia.
    + lia.
    + done.
  - cbn [dec_digits]. destruct (N.ltb_spec n 10) as [Hlt|Hge].
    + rewrite N.mod_small by done. exists (String (digit_char n) EmptyString). split_and!.
      * done.
      * constructor; [by apply is_digit_char|constructor].
      * done.
      * cbn. lia.
      * intros w Hw _. cbn. lia.
      * intros a. rewrite N_of_digits_digit by done. cbn [N_of_digits String.length].
        change (10 ^ N.of_nat 1) with 10. f_equal. lia.
      * lia.
      * done.
    + set (acc' := String (digit_char (n mod 10)) acc).
      assert (Hm : n mod 10 < 10) by (apply N.mod_lt; done).
      assert (Hd : n = 10 * (n / 10) + n mod 10) by (apply N.div_mod'; done).
      assert (Hb : n / 10 < 10 ^ N.of_nat (S fuel)).
      { apply N.Div0.div_lt_upper_bound. rewrite <- N.pow_succ_r'. by rewrite <- Nat2N.inj_succ. }
      destruct (IH (n / 10) acc' Hb) as (s & E & A & Ne & L & Lw & V & H1 & H2).
      exists (s ++ String (digit_char (n mod 10)) EmptyString). split_and!.
      * change (if n / 10 <? 10 then _ else _) with (dec_digits (S fuel) (n / 10) acc').
        rewrite E, append_assoc. reflexivity.
      * apply all_digits_app. split; [done|]. constructor; [by apply is_digit_char|constructor].
      * by destruct s.
      * rewrite length_append. cbn. lia.
      * intros [|[|w]] Hw Hnw; [lia| |].
        { change (10 ^ N.of_nat 1) with 10 in Hnw. lia. }
        rewrite length_append. cbn [String.length].
        assert (String.length s <= S w)%nat; [apply Lw; [lia|]|lia].
        apply N.Div0.div_lt_upper_bound. rewrite <- N.pow_succ_r'. by rewrite <- Nat2N.inj_succ.
      * intros a. rewrite N_of_digits_app, V, N_of_digits_digit by done. cbn [N_of_digits].
        rewrite length_append, Nat2N.inj_add. cbn [String.length]. rewrite N.pow_add_r.
        change (10 ^ N.of_nat 1) with 10. f_equal. lia.
      * intros _. destruct (N.ltb_spec (n / 10) 10) as [Hs|Hs].
        -- rewrite (H2 Hs). eexists _, _. split; [reflexivity|]. lia.
        -- destruct (H1 Hs) as (d & s' & -> & Hd'). eexists _, _. split; [reflexivity|done].
      * lia.
Qed.

Lemma log2_bound n : n < 10 ^ N.of_nat (S (N.to_nat (N.log2 n))).
Proof.
  destruct (N.eq_dec n 0) as [->|Hn]; [done|].
  rewrite Nat2N.inj_succ, N2Nat.id.
  destruct (N.log2_spec n) as [_ H]; [lia|].
  eapply N.lt_le_trans; [exact H|]. apply N.pow_le_mono_l. lia.
Qed.

(** The decimal text of a number: digits only, the number when read back, no leading
    zero, at most as long as it must be. *)
Lemma str_of_N_spec n :
  all_digits (str_of_N n) /\ str_of_N n <> EmptyString /\
  (forall w, (0 < w)%nat -> n < 10 ^ N.of_nat w -> (String.length (str_of_N n) <= w)%nat) /\
  (forall a, N_of_digits a (str_of_N n) = Some (a * 10 ^ N.of_nat (String.length (str_of_N n)) + n)) /\
  (10 <= n -> exists d s', str_of_N n = String (digit_char d) s' /\ 1 <= d < 10) /\
  (n < 10 -> str_of_N n = String (digit_char n) EmptyString).
Proof.
  destruct (dec_digits_spec _ n EmptyString (log2_bound n)) as (s & E & A & Ne & _ & L & V & H).
  unfold str_of_N. rewrite E, append_nil_r. auto.
Qed.

Lemma N_of_digits_str n : N_of_digits 0 (str_of_N n) = Some n.
Proof. destruct (str_of_N_spec n) as (_ & _ & _ & V & _). rewrite V. reflexivity. Qed.

Lemma str_of_N_inj m n : str_of_N m = str_of_N n -> m = n.
Proof.
  intros H. apply (f_equal (N_of_digits 0)) in H. rewrite !N_of_digits_str in H. congruence.
Qed.

Lemma zeros_length k : String.length (zeros k) = k.
Proof. induction k; cbn; congruence. Qed.

Lemma zeros_digits k : all_digits (zeros k).
Proof. induction k; [constructor|]. constructor; [reflexivity|done]. Qed.

Lemma N_of_digits_zeros k s : N_of_digits 0 (zeros k ++ s) = N_of_digits 0 s.
Proof. induction k as [|k IH]; [done|]. cbn [zeros append N_of_digits]. exact IH. Qed.

Lemma zfill_digits w n : all_digits (zfill w n).
Proof. apply all_digits_app. split; [apply zeros_digits|apply str_of_N_spec]. Qed.

Lemma zfill_length w n : (0 < w)%nat -> n < 10 ^ N.of_nat w -> String.length (zfill w n) = w.
Proof.
  intros Hw Hn. unfold zfill. rewrite length_append, zeros_length.
  destruct (str_of_N_spec n) as (_ & _ & L & _). specialize (L w Hw Hn). lia.
Qed.

Lemma N_of_digits_zfill w n : N_of_digits 0 (zfill w n) = Some n.
Proof. unfold zfill. rewrite N_of_digits_zeros. apply N_of_digits_str. Qed.

Lemma N_of_digits_some a s : all_digits s ->
  exists n, N_of_digits a s = Some (a * 10 ^ N.of_nat (String.length s) + n) /\
            n < 10 ^ N.of_nat (String.length s).
Proof.
  revert a. induction s as [|c s IH]; intros a H.
  - exists 0. cbn. split; [f_equal; lia|lia].
  - inversion H as [|? ? Hc Hs]; subst. cbn [N_of_digits]. rewrite Hc.
    destruct (IH (10 * a + (code c - 48)) Hs) as (n & E & Hn).
    apply is_digit_spec in Hc.
    exists ((code c - 48) * 10 ^ N.of_nat (String.length s) + n).
    cbn [String.length]. rewrite Nat2N.inj_succ, N.pow_succ_r'. split; [rewrite E; f_equal; lia|nia].
Qed.

(** Fixed width digit strings are determined by their value. *)
Lemma N_of_digits_inj a s t :
  all_digits s -> all_digits t -> String.length s = String.length t ->
  N_of_digits a s = N_of_digits a t -> s = t.
Proof.
  revert a t. induction s as [|c s IH]; intros a [|d t] Hs Ht Hl H; try discriminate; [done|].
  inversion Hs as [|? ? Hc Hs']; inversion Ht as [|? ? Hd Ht']; subst. injection Hl as Hl.
  cbn [N_of_digits] in H. rewrite Hc, Hd in H.
  destruct (N_of_digits_some (10 * a + (code c - 48)) s Hs') as (m & Em & Hm).
  destruct (N_of_digits_some (10 * a + (code d - 48)) t Ht') as (n & En & Hn).
  assert (E : code c - 48 = code d - 48).
  { rewrite Em, En, Hl in H. rewrite Hl in Hm. injection H as H. nia. }
  apply is_digit_spec in Hc. apply is_digit_spec in Hd.
  assert (c = d) as -> by (apply code_inj; lia). f_equal. eapply IH; eauto.
Qed.

Lemma zfill_of_digits w s n :
  (0 < w)%nat -> all_digits s -> String.length s = w -> N_of_digits 0 s = Some n -> s = zfill w n.
Proof.
  intros Hw Hs Hl Hv. destruct (N_of_digits_some 0 s Hs) as (m & Em & Hm).
  rewrite Em in Hv. injection Hv as Hv. rewrite N.mul_0_l, N.add_0_l in Hv. subst m. rewrite Hl in Hm.
  apply (N_of_digits_inj 0); [done|apply zfill_digits|by rewrite zfill_length|].
  rewrite Em, N_of_digits_zfill. reflexivity.
Qed.

(** ** JSON text determines the value *)

(** Nothing that would extend a number. *)
Definition no_digit (k : string) : Prop :=
  match k with String c _ => is_digit c = false | EmptyString => True end.

Lemma digits_prefix s t k1 k2 :
  all_digits s -> all_digits t -> no_digit k1 -> no_digit k2 ->
  s ++ k1 = t ++ k2 -> s = t /\ k1 = k2.
Proof.
  revert t. induction s as [|c s IH]; intros [|d t] Hs Ht H1 H2 H; cbn in H.
  - done.
  - subst k1. apply Forall_inv in Ht. cbn in H1. congruence.
  - subst k2. apply Forall_inv in Hs. cbn in H2. congruence.
  - injection H as -> H. apply Forall_inv_tail in Hs, Ht.
    by destruct (IH t Hs Ht H1 H2 H) as [-> ->].
Qed.

Lemma append_cancel s t1 t2 : s ++ t1 = s ++ t2 -> t1 = t2.
Proof. induction s as [|c s IH]; cbn; [done|]. intros [= H]. auto. Qed.

(** *** Characters of a string literal form a prefix code *)

Definition all_ascii : list ascii := map (fun n => ascii_of_N (N.of_nat n)) (seq 0 256).

Lemma in_all_ascii c : In c all_ascii.
Proof.
  apply in_map_iff. exists (N.to_nat (code c)). rewrite N2Nat.id, ascii_of_code.
  split; [done|]. apply in_seq. pose proof (code_lt_256 c). lia.
Qed.

(** One of the two strings is a prefix of the other. *)
Fixpoint compatible (s t : string) : bool :=
  match s, t with
  | String c s, String d t => Ascii.eqb c d && compatible s t
  | _, _ => true
  end.

Lemma compatible_append s t k1 k2 : s ++ k1 = t ++ k2 -> compatible s t = true.
Proof.
  revert t. induction s as [|c s IH]; intros [|d t] H; cbn in *; try done.
  injection H as -> H. rewrite Ascii.eqb_refl. exact (IH t H).
Qed.

Definition literal_table : list (ascii * string) := map (fun c => (c, json_char c)) all_ascii.

Definition literal_code_ok : bool :=
  let table := literal_table in
  forallb (fun e => negb (compatible e.2 (String quote EmptyString))
    && forallb (fun f => Ascii.eqb e.1 f.1 || negb (compatible e.2 f.2)) table) table.

Lemma literal_code : literal_code_ok = true.
Proof. vm_compute. reflexivity. Qed.

Lemma in_literal_table c : In (c, json_char c) literal_table.
Proof. apply (in_map (fun c => (c, json_char c))), in_all_ascii. Qed.

Lemma json_char_code c :
  compatible (json_char c) (String quote EmptyString) = false /\
  forall d, compatible (json_char c) (json_char d) = true -> c = d.
Proof.
  pose proof literal_code as H. unfold literal_code_ok in H.
  rewrite forallb_forall in H. specialize (H _ (in_literal_table c)).
  apply andb_true_iff in H as [H1 H2]. apply negb_true_iff in H1. split; [done|].
  intros d Hd. rewrite forallb_forall in H2. specialize (H2 _ (in_literal_table d)).
  cbn [fst snd] in H2. rewrite Hd, orb_false_r in H2. by apply Ascii.eqb_eq in H2.
Qed.

Lemma json_chars_inj s t k1 k2 :
  json_chars s ++ k1 = json_chars t ++ k2 -> s = t /\ k1 = k2.
Proof.
  revert t. induction s as [|c s IH]; intros [|d t] H; cbn [json_chars] in H.
  - by apply (append_cancel (String quote EmptyString)) in H.
  - rewrite append_assoc in H. symmetry in H. apply compatible_append in H.
    by rewrite (proj1 (json_char_code d)) in H.
  - rewrite append_assoc in H. apply compatible_append in H.
    by rewrite (proj1 (json_char_code c)) in H.
  - rewrite !append_assoc in H. pose proof (compatible_append _ _ _ _ H) as Hc.
    apply (proj2 (json_char_code c)) in Hc as ->. apply append_cancel in H.
    by destruct (IH t H) as [-> ->].
Qed.

Lemma json_string_inj s t k1 k2 : json_string s ++ k1 = json_string t ++ k2 -> s = t /\ k1 = k2.
Proof. intros H. cbn in H. injection H as H. by apply json_chars_inj. Qed.

Lemma json_string_cons s k : exists k', json_string s ++ k = String quote k'.
Proof. cbn. eauto. Qed.

(** *** Values *)

Section JsonInd.
Context (P : json -> Prop).
Context (Hnull : P JNull) (Hbool : forall b, P (JBool b)) (Hint : forall z, P (JInt z))
  (Hstr : forall s, P (JStr s)) (Harr : forall l, Forall P l -> P (JArr l))
  (Hobj : forall l, Forall (fun m => P m.2) l -> P (JObj l)).

Fixpoint json_induction (j : json) : P j :=
  match j with
  | JNull => Hnull
  | JBool b => Hbool b
  | JInt z => Hint z
  | JStr s => Hstr s
  | JArr l =>
      Harr l ((fix go l : Forall P l :=
                 match l with
                 | [] => Forall_nil_2 _
                 | x :: l => Forall_cons_2 _ _ _ (json_induction x) (go l)
                 end) l)
  | JObj l =>
      Hobj l ((fix go l : Forall (fun m => P m.2) l :=
                 match l with
                 | [] => Forall_nil_2 _
                 | m :: l => Forall_cons_2 _ _ _ (json_induction m.2) (go l)
                 end) l)
  end.
End JsonInd.

(** The kind of a value is visible in its first character. *)
Inductive kind := KNull | KBool | KInt | KStr | KArr | KObj | KNone.

Definition kind_of_char (c : ascii) : kind :=
  if is_digit c || Ascii.eqb c "-" then KInt
  else if Ascii.eqb c "n" then KNull
  else if Ascii.eqb c "t" || Ascii.eqb c "f" then KBool
  else if Ascii.eqb c quote then KStr
  else if Ascii.eqb c "[" then KArr
  else if Ascii.eqb c "{" then KObj
  else KNone.

Definition kind_of_json (j : json) : kind :=
  match j with
  | JNull => KNull | JBool _ => KBool | JInt _ => KInt | JStr _ => KStr | JArr _ => KArr
  | JObj _ => KObj
  end.

Definition head_kind (s : string) : kind :=
  match s with String c _ => kind_of_char c | EmptyString => KNone end.

Lemma str_of_Z_head z k : head_kind (str_of_Z z ++ k) = KInt.
Proof.
  unfold str_of_Z. destruct (z <? 0)%Z; [done|].
  destruct (str_of_N_spec (Z.abs_N z)) as (Hd & Hne & _).
  destruct (str_of_N (Z.abs_N z)) as [|c s]; [done|]. apply Forall_inv in Hd.
  cbn. unfold kind_of_char. by rewrite Hd.
Qed.

Lemma json_enc_head j k : head_kind (json_enc j ++ k) = kind_of_json j.
Proof. destruct j as [|[]|z|s|l|l]; try done. apply str_of_Z_head. Qed.

Lemma str_of_Z_inj z z' k k' :
  no_digit k -> no_digit k' -> str_of_Z z ++ k = str_of_Z z' ++ k' -> z = z' /\ k = k'.
Proof.
  assert (forall n s, str_of_N n <> String "-" s) as Hneg.
  { intros n s E. destruct (str_of_N_spec n) as (Hd & _). rewrite E in Hd. by inversion Hd. }
  assert (forall n n' k k', no_digit k -> no_digit k' ->
            str_of_N n ++ k = str_of_N n' ++ k' -> n = n' /\ k = k') as Hinj.
  { intros n n' l l' Hl Hl' H. apply digits_prefix in H as [H ->]; [|by apply str_of_N_spec..|done|done].
    split; [by apply str_of_N_inj|done]. }
  assert (forall n l s, str_of_N n ++ l <> String "-" s) as Hneg'.
  { intros n l s E. destruct (str_of_N_spec n) as (Hd & Hne & _).
    destruct (str_of_N n) as [|c s']; [done|]. injection E as -> _. by inversion Hd. }
  unfold str_of_Z. intros Hk Hk' H.
  destruct (Z.ltb_spec z 0), (Z.ltb_spec z' 0); cbn in H.
  - injection H as H. destruct (Hinj _ _ _ _ Hk Hk' H) as [E ->]. split; [lia|done].
  - symmetry in H. by apply Hneg' in H.
  - by apply Hneg' in H.
  - destruct (Hinj _ _ _ _ Hk Hk' H) as [E ->]. split; [lia|done].
Qed.

Definition determined (j : json) : Prop :=
  forall j' k k', no_digit k -> no_digit k' -> json_enc j ++ k = json_enc j' ++ k' -> j = j' /\ k = k'.

Lemma string_cons_app c s k : String c s ++ k = String c (s ++ k).
Proof. done. Qed.

Lemma String_tail c s c' s' : String c s = String c' s' -> s = s'.
Proof. by injection 1. Qed.

Lemma json_items_cons x l k :
  json_items json_enc (x :: l) ++ k =
  json_enc x ++ (match l with [] => "]" | _ => String "," (json_items json_enc l) end) ++ k.
Proof. destruct l; cbn [json_items]; rewrite append_assoc; done. Qed.

Lemma json_members_cons m l k :
  json_members json_enc (m :: l) ++ k =
  json_string m.1 ++ String ":" (json_enc m.2
    ++ (match l with [] => "}" | _ => String "," (json_members json_enc l) end) ++ k).
Proof. destruct m as [x y], l; cbn [json_members fst snd]; rewrite append_assoc; cbn; by rewrite append_assoc. Qed.

Lemma json_items_inj l l' k k' :
  Forall determined l -> json_items json_enc l ++ k = json_items json_enc l' ++ k' ->
  l = l' /\ k = k'.
Proof.
  intros Hl. revert l' k k'. induction Hl as [|x l Hx Hl IH]; intros [|x' l'] k k' H.
  - cbn in H. by injection H as ->.
  - rewrite json_items_cons in H. apply (f_equal head_kind) in H.
    rewrite json_enc_head in H. by destruct x'.
  - rewrite json_items_cons in H. apply (f_equal head_kind) in H.
    rewrite json_enc_head in H. by destruct x.
  - rewrite !json_items_cons in H. apply Hx in H as [-> H]; [|by destruct l..|by destruct l'].
    destruct l as [|y l], l' as [|y' l']; cbv iota in H; rewrite !string_cons_app in H;
      [by injection H as ->|done|done|].
    apply String_tail in H. by destruct (IH _ _ _ H) as [-> ->].
Qed.

Lemma json_members_inj l l' k k' :
  Forall (fun m => determined m.2) l -> json_members json_enc l ++ k = json_members json_enc l' ++ k' ->
  l = l' /\ k = k'.
Proof.
  intros Hl. revert l' k k'. induction Hl as [|[n x] l Hx Hl IH]; intros [|[n' x'] l'] k k' H.
  - cbn in H. by injection H as ->.
  - rewrite json_members_cons in H. done.
  - rewrite json_members_cons in H. done.
  - rewrite !json_members_cons in H. apply json_string_inj in H as [Hn H]. cbn [fst snd] in *.
    apply String_tail in H. apply Hx in H as [-> H]; [|by destruct l..|by destruct l']. subst n'.
    destruct l as [|y l], l' as [|y' l']; cbv iota in H; rewrite !string_cons_app in H;
      [by injection H as ->|done|done|].
    apply String_tail in H. by destruct (IH _ _ _ H) as [-> ->].
Qed.

Lemma json_determined j : determined j.
Proof.
  induction j as [|b|z|s|l IH|l IH] using json_induction; intros j' k k' Hk Hk' H;
    pose proof (f_equal head_kind H) as Hkind; rewrite !json_enc_head in Hkind;
    destruct j' as [|b'|z'|s'|l'|l']; try discriminate Hkind; clear Hkind.
  - cbn in H. by injection H as ->.
  - cbn in H. destruct b, b'; try done; by injection H as ->.
  - cbn [json_enc] in H. by destruct (str_of_Z_inj _ _ _ _ Hk Hk' H) as [-> ->].
  - cbn [json_enc] in H. by destruct (json_string_inj _ _ _ _ H) as [-> ->].
  - cbn [json_enc append] in H. injection H as H. by destruct (json_items_inj _ _ _ _ IH H) as [-> ->].
  - cbn [json_enc append] in H. injection H as H. by destruct (json_members_inj _ _ _ _ IH H) as [-> ->].
Qed.

(** The canonical text determines the value up to the order of its members. *)
Theorem json_dumps_inj j j' : json_dumps j = json_dumps j' -> json_sort j = json_sort j'.
Proof.
  unfold json_dumps. intros H. apply (json_determined _ _ EmptyString EmptyString I I).
  by rewrite !append_nil_r.
Qed.

(** ** Members by name *)

Fixpoint get (name : string) (l : list (string * json)) : option json :=
  match l with
  | [] => None
  | (k, x) :: l => if String.eqb k name then Some x else get name l
  end.

Lemma leb_refl s : String.leb s s = true.
Proof.
  unfold String.leb. enough (String.compare s s = Eq) as -> by done.
  induction s as [|c s IH]; [done|]. cbn. unfold Ascii.compare. by rewrite N.compare_refl.
Qed.

Lemma get_insert name m l : get name (insert_member m l) = get name (m :: l).
Proof.
  destruct m as [k x]. induction l as [|[k' x'] l IH]; [done|]. cbn [insert_member fst].
  destruct (String.leb k k') eqn:E; [done|]. cbn [get] in *. rewrite IH.
  destruct (String.eqb_spec k' name) as [->|], (String.eqb_spec k name) as [->|]; try done.
  by rewrite leb_refl in E.
Qed.

Lemma get_sort name l : get name (sort_members l) = get name l.
Proof.
  induction l as [|[k x] l IH]; [done|]. cbn [sort_members fold_right]. fold (sort_members l).
  rewrite get_insert. cbn [get]. by rewrite IH.
Qed.

Lemma get_map name f l :
  get name (map (fun m => (m.1, f m.2)) l) = option_map f (get name l).
Proof. induction l as [|[k x] l IH]; [done|]. cbn. by destruct (String.eqb k name). Qed.

(** Objects with the same canonical text have the same members. *)
Lemma json_sort_get l l' name :
  json_sort (JObj l) = json_sort (JObj l') ->
  option_map json_sort (get name l) = option_map json_sort (get name l').
Proof.
  cbn [json_sort]. intros [= H]. apply (f_equal (get name)) in H. by rewrite !get_sort, !get_map in H.
Qed.
