(* ===== verification/PyHash.v ===== *)
(** * Hashes and identifiers of the standard library

    [hashlib.sha256], and the name based UUIDs ([uuid5], a truncated SHA-1), on the
    byte string of an ASCII text.  Words are natural numbers below 2^32; every sum is
    reduced modulo 2^32. *)

From Stdlib Require Import ZArith NArith Lia String Ascii List Bool.
From stdpp Require Import base list strings option tactics.
From S2P Require Import Prelude PyText PyTextFacts.

#[local] Open Scope N_scope.

Definition w32 : N := 2 ^ 32.
Definition mask32 : N := 4294967295.
Definition add32 (a b : N) : N := N.land (a + b) mask32.
Definition not32 (a : N) : N := N.lxor a mask32.
Definition rotr (n a : N) : N :=
  N.lor (N.shiftr a n) (N.land (N.shiftl a (32 - n)) mask32).
Definition rotl (n a : N) : N := rotr (32 - n) a.

(** [s.encode()] for code points below 128. *)
Definition str_bytes (s : string) : list N := map code (chars s).

Fixpoint be_bytes (w : nat) (n : N) (acc : list N) : list N :=
  match w with
  | O => acc
  | S w => be_bytes w (n / 256) (n mod 256 :: acc)
  end.
Definition be_value (l : list N) : N := fold_left (fun a b => 256 * a + b) l 0.

(** The message, a one bit, zeros, and the length in bits: whole 64 byte blocks. *)
Definition pad_message (m : list N) : list N :=
  let len := length m in
  let fill := ((119 - len mod 64) mod 64)%nat in
  m ++ 128 :: repeat 0 fill ++ be_bytes 8 (8 * N.of_nat len) [].

Fixpoint words_of (fuel : nat) (l : list N) : list N :=
  match fuel, l with
  | S fuel, a :: b :: c :: d :: l =>
      (((a * 256 + b) * 256 + c) * 256 + d) :: words_of fuel l
  | _, _ => []
  end.

Fixpoint blocks_of (fuel : nat) (l : list N) : list (list N) :=
  match fuel, l with
  | S fuel, _ :: _ => take 16 l :: blocks_of fuel (drop 16 l)
  | _, _ => []
  end.

Definition message_blocks (m : list N) : list (list N) :=
  let p := pad_message m in
  let ws := words_of (length p) p in
  blocks_of (length ws) ws.

(** ** SHA-256 *)

Definition sha256_k : list N :=
  [1116352408; 1899447441; 3049323471; 3921009573; 961987163; 1508970993;
   2453635748; 2870763221; 3624381080; 310598401; 607225278; 1426881987;
   1925078388; 2162078206; 2614888103; 3248222580; 3835390401; 4022224774;
   264347078; 604807628; 770255983; 1249150122; 1555081692; 1996064986;
   2554220882; 2821834349; 2952996808; 3210313671; 3336571891; 3584528711;
   113926993; 338241895; 666307205; 773529912; 1294757372; 1396182291;
   1695183700; 1986661051; 2177026350; 2456956037; 2730485921; 2820302411;
   3259730800; 3345764771; 3516065817; 3600352804; 4094571909; 275423344;
   430227734; 506948616; 659060556; 883997877; 958139571; 1322822218;
   1537002063; 1747873779; 1955562222; 2024104815; 2227730452; 2361852424;
   2428436474; 2756734187; 3204031479; 3329325298].
Definition sha256_h0 : list N :=
  [1779033703; 3144134277; 1013904242; 2773480762; 1359893119; 2600822924;
   528734635; 1541459225].

Definition nth_w (l : list N) (i : nat) : N := nth i l 0.

(** The message schedule, most recent word first: [n] more words. *)
Fixpoint sha256_expand (n : nat) (rw : list N) : list N :=
  match n with
  | O => rw
  | S n =>
      let w15 := nth_w rw 14 in
      let w2 := nth_w rw 1 in
      let s0 := N.lxor (rotr 7 w15) (N.lxor (rotr 18 w15) (N.shiftr w15 3)) in
      let s1 := N.lxor (rotr 17 w2) (N.lxor (rotr 19 w2) (N.shiftr w2 10)) in
      sha256_expand n
        (add32 (add32 (nth_w rw 15) s0) (add32 (nth_w rw 6) s1) :: rw)
  end.

Definition sha256_round (st : list N) (kw : N * N) : list N :=
  match st with
  | [a; b; c; d; e; f; g; h] =>
      let s1 := N.lxor (rotr 6 e) (N.lxor (rotr 11 e) (rotr 25 e)) in
      let ch := N.lxor (N.land e f) (N.land (not32 e) g) in
      let t1 := add32 (add32 h s1) (add32 ch (add32 kw.1 kw.2)) in
      let s0 := N.lxor (rotr 2 a) (N.lxor (rotr 13 a) (rotr 22 a)) in
      let maj := N.lxor (N.land a b) (N.lxor (N.land a c) (N.land b c)) in
      let t2 := add32 s0 maj in
      [add32 t1 t2; a; b; c; add32 d t1; e; f; g]
  | _ => st
  end.

Definition sha256_block (h block : list N) : list N :=
  let w := rev (sha256_expand 48 (rev block)) in
  zip_with add32 h (fold_left sha256_round (zip sha256_k w) h).

Definition sha256_words (m : list N) : list N :=
  fold_left sha256_block (message_blocks m) sha256_h0.

Definition hex_words (l : list N) : string :=
  fold_right (fun w s => (hex_of_N 8 w ++ s)%string) EmptyString l.

(** [hashlib.sha256(s.encode()).hexdigest()] *)
Definition sha256_hex (s : string) : string := hex_words (sha256_words (str_bytes s)).

(** ** SHA-1 and name based UUIDs *)

Fixpoint sha1_expand (n : nat) (rw : list N) : list N :=
  match n with
  | O => rw
  | S n =>
      sha1_expand n
        (rotl 1 (N.lxor (N.lxor (nth_w rw 2) (nth_w rw 7))
                        (N.lxor (nth_w rw 13) (nth_w rw 15))) :: rw)
  end.

Definition sha1_round (st : list N) (iw : nat * N) : list N :=
  match st with
  | [a; b; c; d; e] =>
      let '(f, k) :=
        if (iw.1 <? 20)%nat then (N.lor (N.land b c) (N.land (not32 b) d), 1518500249)
        else if (iw.1 <? 40)%nat then (N.lxor b (N.lxor c d), 1859775393)
        else if (iw.1 <? 60)%nat then
          (N.lor (N.land b c) (N.lor (N.land b d) (N.land c d)), 2400959708)
        else (N.lxor b (N.lxor c d), 3395469782) in
      let t := add32 (add32 (rotl 5 a) f) (add32 e (add32 k iw.2)) in
      [t; a; rotl 30 b; c; d]
  | _ => st
  end.

Definition sha1_block (h block : list N) : list N :=
  let w := rev (sha1_expand 64 (rev block)) in
  zip_with add32 h (fold_left sha1_round (zip (seq 0 80) w) h).

Definition sha1_h0 : list N := [1732584193; 4023233417; 2562383102; 271733878; 3285377520].

Definition sha1_words (m : list N) : list N :=
  fold_left sha1_block (message_blocks m) sha1_h0.

(** A UUID is its 128 bit integer. *)
Definition uuid := N.

(** [str(u)] *)
Definition uuid_str (u : uuid) : string :=
  (hex_of_N 8 (N.shiftr u 96) ++ "-" ++ hex_of_N 4 (N.shiftr u 80) ++ "-" ++
   hex_of_N 4 (N.shiftr u 64) ++ "-" ++ hex_of_N 4 (N.shiftr u 48) ++ "-" ++
   hex_of_N 12 u)%string.

Definition NAMESPACE_URL : uuid := 0x6ba7b8119dad11d180b400c04fd430c8.

(** [uuid5(namespace, name)]: the first 128 bits of the SHA-1 of the namespace bytes
    and the name, with the version and variant bits set. *)
Definition uuid5 (ns : uuid) (name : string) : uuid :=
  let h := take 4 (sha1_words (be_bytes 16 ns [] ++ str_bytes name)) in
  let v := fold_left (fun a w => a * w32 + w) h 0 in
  let v := N.lor (N.land v (N.lnot (N.shiftl 0xc000 48) 128)) (N.shiftl 0x8000 48) in
  N.lor (N.land v (N.lnot (N.shiftl 0xf000 64) 128)) (N.shiftl 5 76).

(** ** A digest is 64 hexadecimal digits *)

Lemma hex_char_lower n : n < 16 -> is_hex_lower (hex_char n) = true.
Proof.
  intros H. assert (K : forallb (fun k => is_hex_lower (hex_char (N.of_nat k))) (seq 0 16) = true) by reflexivity.
  rewrite forallb_forall in K. specialize (K (N.to_nat n)). rewrite N2Nat.id in K. apply K, in_seq. lia.
Qed.

(** A text of [w] lower case hexadecimal digits. *)
Definition hex_text (w : nat) (s : string) : Prop :=
  String.length s = w /\ str_all is_hex_lower s = true.

Lemma hex_text_app v w s t : hex_text v s -> hex_text w t -> hex_text (v + w) (s ++ t)%string.
Proof.
  intros [H1 H2] [H3 H4]. split; [by rewrite length_append, H1, H3|].
  unfold str_all in *. by rewrite chars_app, forallb_app, H2, H4.
Qed.

Lemma hex_digits_text w n acc k : hex_text k acc -> hex_text (w + k) (hex_digits w n acc).
Proof.
  revert n acc k. induction w as [|w IH]; intros n acc k H; [done|]. cbn [hex_digits].
  replace (S w + k)%nat with (w + S k)%nat by lia. apply IH. destruct H as [H1 H2].
  split; [cbn; by rewrite H1|]. unfold str_all in *. cbn [chars forallb].
  rewrite H2, hex_char_lower; [done|]. apply N.mod_lt. lia.
Qed.

Lemma hex_words_text l : hex_text (8 * length l) (hex_words l).
Proof.
  induction l as [|w l IH]; [done|].
  change (hex_words (w :: l)) with (hex_of_N 8 w ++ hex_words l)%string.
  replace (8 * length (w :: l))%nat with (8 + 0 + 8 * length l)%nat by (cbn [length]; lia).
  apply hex_text_app; [by apply hex_digits_text|exact IH].
Qed.

(** Eight words are worked on. *)
Lemma sha256_round_length st kw : length st = 8%nat -> length (sha256_round st kw) = 8%nat.
Proof. destruct st as [|? [|? [|? [|? [|? [|? [|? [|? [|? ?]]]]]]]]]; done. Qed.

Lemma sha256_rounds_length l st : length st = 8%nat -> length (fold_left sha256_round l st) = 8%nat.
Proof. revert st. induction l as [|kw l IH]; intros st H; cbn; [done|]. by apply IH, sha256_round_length. Qed.

Lemma sha256_block_length h block : length h = 8%nat -> length (sha256_block h block) = 8%nat.
Proof.
  intros H. unfold sha256_block. rewrite length_zip_with, sha256_rounds_length by done. rewrite H. reflexivity.
Qed.

Lemma sha256_words_length m : length (sha256_words m) = 8%nat.
Proof.
  unfold sha256_words. generalize (message_blocks m). intros l.
  assert (H : length sha256_h0 = 8%nat) by done. revert H. generalize sha256_h0.
  induction l as [|b l IH]; intros h H; cbn [fold_left]; [done|]. by apply IH, sha256_block_length.
Qed.

Theorem sha256_is_hash s : is_hash (sha256_hex s) = true.
Proof.
  unfold is_hash, sha256_hex. destruct (hex_words_text (sha256_words (str_bytes s))) as [H1 H2].
  rewrite sha256_words_length in H1. unfold str_len. by rewrite H1, H2.
Qed.
