(* ===== verification/PyTime.v ===== *)
(** * Python dates, datetimes and timedeltas

    A [timedelta] is a number of microseconds.  A [date] is the number of days since
    0001-01-01.  A [datetime] is its wall clock reading in microseconds since
    0001-01-01T00:00:00 and the UTC offset of its time zone, absent for a naive one.
    Comparisons and differences of aware values are those of the instants (time zones
    are fixed offsets here); mixing naive and aware raises [TypeError].  Converting a
    naive value to UTC takes the system zone to be UTC. *)

From Stdlib Require Import ZArith Lia String Ascii List Bool.
From stdpp Require Import base list strings option tactics.
From S2P Require Import Prelude PyText.

#[local] Open Scope Z_scope.

Definition timedelta := Z.
Definition seconds (n : Z) : timedelta := n * 1000000.
Definition minutes (n : Z) : timedelta := seconds (60 * n).
Definition hours (n : Z) : timedelta := minutes (60 * n).
Definition day_us : Z := 86400000000.

(** [td.days], [td.seconds], [td.microseconds] *)
Definition td_days (td : timedelta) : Z := td / day_us.
Definition td_seconds (td : timedelta) : Z := (td mod day_us) / 1000000.
Definition td_microseconds (td : timedelta) : Z := td mod 1000000.

Definition date := Z.

Record datetime := mk_datetime {
  dt_local : Z;
  dt_off : option Z;
}.

#[export] Instance datetime_eq_dec : EqDecision datetime.
Proof. solve_decision. Defined.

(** ** The proleptic Gregorian calendar *)

Definition is_leap (y : Z) : bool :=
  (y mod 4 =? 0) && (negb (y mod 100 =? 0) || (y mod 400 =? 0)).

Definition days_in_month (y m : Z) : Z :=
  if m =? 2 then (if is_leap y then 29 else 28)
  else if (m =? 4) || (m =? 6) || (m =? 9) || (m =? 11) then 30 else 31.

Definition days_before_month (leap : bool) (m : Z) : Z :=
  nth (Z.to_nat m) [0; 0; 31; 59; 90; 120; 151; 181; 212; 243; 273; 304; 334] 0
  + (if leap && (2 <? m) then 1 else 0).

Definition days_before_year (y : Z) : Z :=
  let y := y - 1 in y * 365 + y / 4 - y / 100 + y / 400.

Definition days_from_civil (y m d : Z) : date :=
  days_before_year y + days_before_month (is_leap y) m + d - 1.

(** Month and day of a day of the year. *)
Definition month_day (leap : bool) (n : Z) : Z * Z :=
  let m := Z.shiftr (n + 50) 5 in
  let m := if n <? days_before_month leap m then m - 1 else m in
  (m, n - days_before_month leap m + 1).

(** Year, month and day of a day number, by cycles of 400, 100, 4 and 1 years. *)
Definition civil_from_days (n : date) : Z * Z * Z :=
  let n400 := n / 146097 in
  let n := n mod 146097 in
  let n100 := n / 36524 in
  let n := n mod 36524 in
  let n4 := n / 1461 in
  let n := n mod 1461 in
  let n1 := n / 365 in
  let n := n mod 365 in
  let y := n400 * 400 + n100 * 100 + n4 * 4 + n1 + 1 in
  if (n1 =? 4) || (n100 =? 4) then (y - 1, 12, 31)
  else
    let leap := (n1 =? 3) && (negb (n4 =? 24) || (n100 =? 3)) in
    let '(m, d) := month_day leap n in
    (y, m, d).

(** [date(y, m, d)] *)
Definition make_date (y m d : Z) : M date :=
  if (1 <=? y) && (y <=? 9999) && (1 <=? m) && (m <=? 12)
     && (1 <=? d) && (d <=? days_in_month y m)
  then Ok (days_from_civil y m d)
  else Raise (ValueError "date out of range").

(** ** Comparisons and differences *)

Definition dt_instant (a : datetime) : Z :=
  dt_local a - match dt_off a with Some o => o | None => 0 end.

Definition same_awareness (a b : datetime) : bool :=
  match dt_off a, dt_off b with
  | Some _, Some _ | None, None => true
  | _, _ => false
  end.

Definition dt_sub (a b : datetime) : M timedelta :=
  if same_awareness a b then Ok (dt_instant a - dt_instant b) else Raise TypeError.
Definition dt_lt (a b : datetime) : M bool :=
  if same_awareness a b then Ok (dt_instant a <? dt_instant b) else Raise TypeError.
Definition dt_le (a b : datetime) : M bool :=
  if same_awareness a b then Ok (dt_instant a <=? dt_instant b) else Raise TypeError.
(** [a == b] is false, and raises nothing, for a naive and an aware value. *)
Definition dt_eq (a b : datetime) : bool :=
  same_awareness a b && (dt_instant a =? dt_instant b).

(** [max(a, b)] *)
Definition dt_max (a b : datetime) : M datetime := c ← dt_lt a b; Ok (if c : bool then b else a).
Definition dt_min (a b : datetime) : M datetime := c ← dt_lt b a; Ok (if c : bool then b else a).

Lemma dt_sub_nonneg a b d : dt_lt a b = Ok false -> dt_sub a b = Ok d -> 0 <= d.
Proof.
  unfold dt_lt, dt_sub. destruct (same_awareness a b); [|done].
  intros [= H%Z.ltb_ge] [= <-]. lia.
Qed.

Lemma dt_sub_neg a b d : dt_lt a b = Ok true -> dt_sub a b = Ok d -> d < 0.
Proof.
  unfold dt_lt, dt_sub. destruct (same_awareness a b); [|done].
  intros [= H%Z.ltb_lt] [= <-]. lia.
Qed.

Definition max_local : Z := 3652059 * day_us.
(** [a + td] *)
Definition dt_add (a : datetime) (td : timedelta) : M datetime :=
  let l := dt_local a + td in
  if (0 <=? l) && (l <? max_local) then Ok (mk_datetime l (dt_off a)) else Raise OverflowError.

Definition is_aware (a : datetime) : bool := if dt_off a is Some _ then true else false.
(** [value.tzinfo is not None and value.utcoffset() == timedelta(0)] *)
Definition is_utc (a : datetime) : bool := if dt_off a is Some o then o =? 0 else false.

(** *** Aware values are compared by their instants *)

Lemma aware_same a b : is_aware a = true -> is_aware b = true -> same_awareness a b = true.
Proof. unfold is_aware, same_awareness. by destruct (dt_off a), (dt_off b). Qed.

Lemma dt_lt_decides a b :
  is_aware a = true -> is_aware b = true -> decides (dt_lt a b) (dt_instant a < dt_instant b).
Proof. intros Ha Hb. unfold dt_lt. rewrite aware_same by done. apply decides_bool, Z.ltb_lt. Qed.

Lemma dt_eq_spec a b :
  is_aware a = true -> is_aware b = true -> dt_eq a b = true <-> dt_instant a = dt_instant b.
Proof. intros Ha Hb. unfold dt_eq. rewrite aware_same by done. apply Z.eqb_eq. Qed.

Lemma dt_sub_aware a b :
  is_aware a = true -> is_aware b = true -> dt_sub a b = Ok (dt_instant a - dt_instant b).
Proof. intros Ha Hb. unfold dt_sub. by rewrite aware_same. Qed.

(** *** Times in UTC *)

Lemma utc_aware t : is_utc t = true -> is_aware t = true.
Proof. unfold is_utc, is_aware. by destruct (dt_off t). Qed.

Lemma utc_le a b : is_utc a = true -> is_utc b = true -> dt_le a b = Ok (dt_instant a <=? dt_instant b).
Proof. intros Ha Hb. unfold dt_le. by rewrite aware_same by (by apply utc_aware). Qed.
Lemma utc_lt a b : is_utc a = true -> is_utc b = true -> dt_lt a b = Ok (dt_instant a <? dt_instant b).
Proof. intros Ha Hb. unfold dt_lt. by rewrite aware_same by (by apply utc_aware). Qed.
Lemma utc_sub a b : is_utc a = true -> is_utc b = true -> dt_sub a b = Ok (dt_instant a - dt_instant b).
Proof. intros Ha Hb. apply dt_sub_aware; by apply utc_aware. Qed.

(** [a.date()] *)
Definition dt_date (a : datetime) : date := dt_local a / day_us.

(** [a.astimezone(UTC)] *)
Definition astimezone_utc (a : datetime) : M datetime :=
  let l := dt_instant a in
  if (0 <=? l) && (l <? max_local) then Ok (mk_datetime l (Some 0)) else Raise OverflowError.

(** ** Text *)

Definition date_isoformat (n : date) : string :=
  let '(y, m, d) := civil_from_days n in
  (zfill 4 (Z.to_N y) ++ "-" ++ zfill 2 (Z.to_N m) ++ "-" ++ zfill 2 (Z.to_N d))%string.

(** [f"{d:%Y%m%d}"]: the year is not padded. *)
Definition date_compact (n : date) : string :=
  let '(y, m, d) := civil_from_days n in
  (str_of_N (Z.to_N y) ++ zfill 2 (Z.to_N m) ++ zfill 2 (Z.to_N d))%string.

(** [d.strftime("%y%m%d")] *)
Definition date_yymmdd (n : date) : string :=
  let '(y, m, d) := civil_from_days n in
  (zfill 2 (Z.to_N (y mod 100)) ++ zfill 2 (Z.to_N m) ++ zfill 2 (Z.to_N d))%string.

Definition offset_text (o : Z) : string :=
  let a := Z.abs o in
  let s := (a / 1000000) mod 60 in
  let us := a mod 1000000 in
  let sign := if o <? 0 then "-"%string else "+"%string in
  let frac := if us =? 0 then EmptyString else String "." (zfill 6 (Z.to_N us)) in
  let secs :=
    if (s =? 0) && (us =? 0) then EmptyString else String ":" (zfill 2 (Z.to_N s) ++ frac) in
  (sign ++ zfill 2 (Z.to_N (a / 3600000000)) ++ ":"
     ++ zfill 2 (Z.to_N ((a / 60000000) mod 60)) ++ secs)%string.

Definition time_text (us : Z) : string :=
  (zfill 2 (Z.to_N (us / 3600000000)) ++ ":" ++ zfill 2 (Z.to_N ((us / 60000000) mod 60))
     ++ ":" ++ zfill 2 (Z.to_N ((us / 1000000) mod 60)))%string.

(** [a.isoformat()]; with [timespec="microseconds"] the fraction is always there. *)
Definition isoformat_with (always : bool) (a : datetime) : string :=
  let us := dt_local a mod day_us in
  let f := us mod 1000000 in
  let frac :=
    if negb always && (f =? 0) then EmptyString else String "." (zfill 6 (Z.to_N f)) in
  (date_isoformat (dt_date a) ++ "T" ++ time_text us ++ frac
     ++ match dt_off a with Some o => offset_text o | None => EmptyString end)%string.
Definition dt_isoformat : datetime -> string := isoformat_with false.

(** [.replace("+00:00", "Z")] on an [isoformat] in UTC: the offset is its only
    occurrence. *)
Definition utc_isoformat (always : bool) (a : datetime) : string :=
  (isoformat_with always (mk_datetime (dt_local a) None) ++ "Z")%string.

(** The moment [y-m-d h:mi:s] in UTC, for examples. *)
Definition utc (y m d h mi s : Z) : datetime :=
  mk_datetime (days_from_civil y m d * day_us + ((h * 60 + mi) * 60 + s) * 1000000) (Some 0).

(** ** Facts *)

Fixpoint all_below (p : Z -> bool) (n : nat) (z : Z) : bool :=
  match n with
  | O => true
  | S n => p z && all_below p n (z + 1)
  end.

Lemma all_below_spec p n z x :
  all_below p n z = true -> z <= x < z + Z.of_nat n -> p x = true.
Proof.
  revert z. induction n as [|n IH]; intros z H Hx; [lia|].
  cbn [all_below] in H. apply andb_prop in H as [H1 H2].
  destruct (Z.eq_dec x z) as [->|]; [done|]. apply (IH (z + 1)); [done|lia].
Qed.

Definition month_length (leap : bool) (m : Z) : Z :=
  if m =? 2 then (if leap then 29 else 28)
  else if (m =? 4) || (m =? 6) || (m =? 9) || (m =? 11) then 30 else 31.

Definition month_day_ok (leap : bool) (n : Z) : bool :=
  let '(m, d) := month_day leap n in
  (days_before_month leap m + d - 1 =? n) && (1 <=? m) && (m <=? 12)
  && (1 <=? d) && (d <=? month_length leap m).

Lemma month_day_correct leap n :
  0 <= n < 365 ->
  let '(m, d) := month_day leap n in
  days_before_month leap m + d - 1 = n /\ 1 <= m <= 12 /\ 1 <= d <= month_length leap m.
Proof.
  intros Hn. assert (H : month_day_ok leap n = true).
  { destruct leap; refine (all_below_spec _ 365 0 n _ _); (reflexivity || lia). }
  unfold month_day_ok in H. destruct (month_day leap n) as [m d].
  rewrite !andb_true_iff, Z.eqb_eq, !Z.leb_le in H. lia.
Qed.

(** Days before a year, and whether it is leap, from its place in the cycles. *)
Lemma year_cycles a b c e :
  0 <= b <= 3 -> 0 <= c <= 24 -> 0 <= e <= 3 ->
  let y := a * 400 + b * 100 + c * 4 + e + 1 in
  days_before_year y = a * 146097 + b * 36524 + c * 1461 + e * 365 /\
  is_leap y = (e =? 3) && (negb (c =? 24) || (b =? 3)).
Proof.
  intros Hb Hc He y.
  assert (E4 : (y - 1) / 4 = a * 100 + b * 25 + c) by (subst y; dlia).
  assert (E100 : (y - 1) / 100 = a * 4 + b) by (subst y; dlia).
  assert (E400 : (y - 1) / 400 = a) by (subst y; dlia).
  split.
  - unfold days_before_year. cbv zeta. rewrite E4, E100, E400. subst y. lia.
  - assert (D : forall m z q r, 0 <= r < m -> z = m * q + r -> z mod m = r)
      by (intros m z q r Hr Ez; symmetry; exact (Z.mod_unique_pos z m q r Hr Ez)).
    unfold is_leap. destruct (Z.eqb_spec e 3) as [->|Hne].
    + rewrite (D 4 y (a * 100 + b * 25 + c + 1) 0) by (subst y; lia).
      destruct (Z.eqb_spec c 24) as [->|Hc'].
      * rewrite (D 100 y (a * 4 + b + 1) 0) by (subst y; lia).
        destruct (Z.eqb_spec b 3) as [->|Hb'].
        -- rewrite (D 400 y (a + 1) 0) by (subst y; lia). reflexivity.
        -- rewrite (D 400 y a (100 * (b + 1))) by (subst y; lia).
           destruct (Z.eqb_spec (100 * (b + 1)) 0); [lia|reflexivity].
      * rewrite (D 100 y (a * 4 + b) (4 * c + 4)) by (subst y; lia).
        destruct (Z.eqb_spec (4 * c + 4) 0); [lia|reflexivity].
    + rewrite (D 4 y (a * 100 + b * 25 + c) (e + 1)) by (subst y; lia).
      destruct (Z.eqb_spec (e + 1) 0); [lia|reflexivity].
Qed.

Lemma div_mod_split n k : 0 < k -> n = n / k * k + n mod k /\ 0 <= n mod k < k.
Proof. intros H. pose proof (Z.div_mod n k). pose proof (Z.mod_pos_bound n k H). lia. Qed.

Lemma div_range n k q : 0 < k -> 0 <= n < q * k -> 0 <= n / k < q.
Proof.
  intros Hk Hn. split; [apply Z.div_pos; lia|apply Z.div_lt_upper_bound; lia].
Qed.

(** Every day number is the day number of its own civil date, which is a valid one. *)
Theorem civil_days_roundtrip n :
  let '(y, m, d) := civil_from_days n in
  days_from_civil y m d = n /\ 1 <= m <= 12 /\ 1 <= d <= days_in_month y m.
Proof.
  unfold civil_from_days.
  destruct (div_mod_split n 146097 ltac:(lia)) as [E1 R1]. set (n400 := n / 146097) in *.
  set (r1 := n mod 146097) in *.
  destruct (div_mod_split r1 36524 ltac:(lia)) as [E2 R2].
  pose proof (div_range r1 36524 5 ltac:(lia) ltac:(lia)) as B2. set (n100 := r1 / 36524) in *.
  set (r2 := r1 mod 36524) in *.
  destruct (div_mod_split r2 1461 ltac:(lia)) as [E3 R3].
  pose proof (div_range r2 1461 25 ltac:(lia) ltac:(lia)) as B3. set (n4 := r2 / 1461) in *.
  set (r3 := r2 mod 1461) in *.
  destruct (div_mod_split r3 365 ltac:(lia)) as [E4 R4].
  pose proof (div_range r3 365 5 ltac:(lia) ltac:(lia)) as B4. set (n1 := r3 / 365) in *.
  set (r4 := r3 mod 365) in *.
  destruct (Z.eqb_spec n1 4) as [H1|H1]; [|destruct (Z.eqb_spec n100 4) as [H2|H2]]; cbn [orb].
  - assert (n100 <= 3) by lia.
    pose proof (year_cycles n400 n100 n4 3 ltac:(lia) ltac:(lia) ltac:(lia)) as [Ey El]. cbn zeta in Ey, El.
    replace (n400 * 400 + n100 * 100 + n4 * 4 + n1 + 1 - 1)
      with (n400 * 400 + n100 * 100 + n4 * 4 + 3 + 1) by lia.
    assert (L : negb (n4 =? 24) || (n100 =? 3) = true).
    { destruct (Z.eqb_spec n4 24), (Z.eqb_spec n100 3); cbn; lia. }
    rewrite L in El. unfold days_from_civil. rewrite Ey, El.
    change (days_before_month ((3 =? 3) && true) 12) with 335. change (days_in_month _ 12) with 31. lia.
  - pose proof (year_cycles n400 3 24 3 ltac:(lia) ltac:(lia) ltac:(lia)) as [Ey El]. cbn zeta in Ey, El.
    replace (n400 * 400 + n100 * 100 + n4 * 4 + n1 + 1 - 1)
      with (n400 * 400 + 3 * 100 + 24 * 4 + 3 + 1) by lia.
    unfold days_from_civil. rewrite Ey, El.
    change (days_before_month _ 12) with 335. change (days_in_month _ 12) with 31. lia.
  - pose proof (year_cycles n400 n100 n4 n1 ltac:(lia) ltac:(lia) ltac:(lia)) as [Ey El]. cbn zeta in Ey, El.
    rewrite <- El. set (y := n400 * 400 + n100 * 100 + n4 * 4 + n1 + 1) in *.
    pose proof (month_day_correct (is_leap y) r4 R4) as Hmd.
    destruct (month_day (is_leap y) r4) as [m d]. unfold days_from_civil. rewrite Ey.
    change (days_in_month y m) with (month_length (is_leap y) m). lia.
Qed.

Definition month_inverse_ok (leap : bool) (m d : Z) : bool :=
  negb (d <=? month_length leap m)
  || bool_decide (month_day leap (days_before_month leap m + d - 1) = (m, d)).

Lemma month_day_inverse leap m d :
  1 <= m <= 12 -> 1 <= d <= month_length leap m ->
  month_day leap (days_before_month leap m + d - 1) = (m, d) /\
  0 <= days_before_month leap m + d - 1 < 365 + (if leap then 1 else 0).
Proof.
  intros Hm Hd. assert (d <= 31) by (unfold month_length in Hd; repeat case_match; lia).
  assert (H1 : all_below (fun m => all_below (fun d => negb (d <=? month_length leap m) ||
      ((0 <=? days_before_month leap m + d - 1) &&
       (days_before_month leap m + d - 1 <? 365 + (if leap then 1 else 0)))) 31 1) 12 1 = true)
    by (destruct leap; reflexivity).
  assert (H2 : all_below (fun m => all_below (month_inverse_ok leap m) 31 1) 12 1 = true)
    by (destruct leap; reflexivity).
  assert (Hl : negb (d <=? month_length leap m) = false) by (apply negb_false_iff, Z.leb_le; lia).
  apply (all_below_spec _ _ _ m) in H1; [|lia]. apply (all_below_spec _ _ _ d) in H1; [|lia].
  apply (all_below_spec _ _ _ m) in H2; [|lia]. apply (all_below_spec _ _ _ d) in H2; [|lia].
  unfold month_inverse_ok in H2. cbv beta in H1, H2. rewrite Hl in H1, H2. cbn [orb] in H1, H2.
  apply bool_decide_eq_true in H2. rewrite andb_true_iff, Z.leb_le, Z.ltb_lt in H1. done.
Qed.

Lemma days_before_next_year y :
  days_before_year (y + 1) = days_before_year y + 365 + (if is_leap y then 1 else 0).
Proof.
  unfold days_before_year, is_leap. cbv zeta. replace (y + 1 - 1) with y by lia.
  destruct (Z.eqb_spec (y mod 4) 0), (Z.eqb_spec (y mod 100) 0), (Z.eqb_spec (y mod 400) 0);
    cbn [andb orb negb]; dlia.
Qed.

Lemma days_before_year_mono y y' : y < y' -> days_before_year (y + 1) <= days_before_year y'.
Proof. intros H. unfold days_before_year. cbv zeta. dlia. Qed.

Definition valid_civil (y m d : Z) : Prop := 1 <= m <= 12 /\ 1 <= d <= days_in_month y m.

Lemma days_from_civil_year y m d :
  valid_civil y m d -> days_before_year y <= days_from_civil y m d < days_before_year (y + 1).
Proof.
  intros [Hm Hd]. rewrite days_before_next_year. unfold days_from_civil.
  change (days_in_month y m) with (month_length (is_leap y) m) in Hd.
  pose proof (month_day_inverse (is_leap y) m d Hm Hd). lia.
Qed.

(** A valid civil date is the civil date of its day number. *)
Theorem days_civil_roundtrip y m d :
  valid_civil y m d -> civil_from_days (days_from_civil y m d) = (y, m, d).
Proof.
  intros Hv. pose proof (civil_days_roundtrip (days_from_civil y m d)) as H.
  destruct (civil_from_days (days_from_civil y m d)) as [[y' m'] d']. destruct H as [E Hv'].
  assert (Ey : y' = y).
  { pose proof (days_from_civil_year y m d Hv). pose proof (days_from_civil_year y' m' d' Hv').
    destruct (Z.lt_trichotomy y y') as [Hlt|[->|Hlt]]; [|done|];
      apply days_before_year_mono in Hlt; lia. }
  subst y'. destruct Hv as [Hm Hd], Hv' as [Hm' Hd'].
  change (days_in_month y m) with (month_length (is_leap y) m) in Hd.
  change (days_in_month y m') with (month_length (is_leap y) m') in Hd'.
  destruct (month_day_inverse (is_leap y) m d Hm Hd) as [E1 _].
  destruct (month_day_inverse (is_leap y) m' d' Hm' Hd') as [E2 _].
  unfold days_from_civil in E.
  replace (days_before_month (is_leap y) m + d - 1)
    with (days_before_month (is_leap y) m' + d' - 1) in E1 by lia.
  congruence.
Qed.

(** ** JSON documents with seconds

    The floats the program writes into JSON are numbers of seconds, [timedelta.total_seconds()].
    [seconds_text] is their [repr], which is what [json.dumps] writes: the shortest decimal
    that reads back as the float is, below 10^15 microseconds (31 years), the exact one;
    below a ten-thousandth of a second it is in exponent notation.  [doc_dumps] is
    [json.dumps(..., sort_keys=True, separators=(",", ":"))] of a document with such floats. *)

#[local] Open Scope string_scope.
#[local] Open Scope Z_scope.

(** [repr(td.total_seconds())] *)
Definition seconds_text (td : timedelta) : string :=
  let size := Z.to_N (Z.abs td) in
  let whole := str_of_N (size / 1000000) in
  let fraction := rstrip_char "0" (zfill 6 (size mod 1000000)) in
  let text :=
    if (size =? 0)%N then "0.0"
    else if (size <? 10)%N then str_of_N size ++ "e-06"
    else if (size <? 100)%N then
      str_of_N (size / 10) ++ (if (size mod 10 =? 0)%N then "" else "." ++ str_of_N (size mod 10)) ++ "e-05"
    else whole ++ "." ++ (if String.eqb fraction "" then "0" else fraction) in
  if td <? 0 then "-" ++ text else text.

Example seconds_texts :
  map seconds_text [0; 1; 99; 100; 1500000; 30000000; - 250000]
  = ["0.0"; "1e-06"; "9.9e-05"; "0.0001"; "1.5"; "30.0"; "-0.25"].
Proof. reflexivity. Qed.

Inductive doc :=
  | DJson (j : json)
  | DSeconds (td : timedelta)
  | DArr (l : list doc)
  | DObj (l : list (string * doc)).

(** [sort_keys=True] *)
Fixpoint insert_doc (m : string * doc) (l : list (string * doc)) : list (string * doc) :=
  match l with
  | [] => [m]
  | m' :: l' => if String.leb m.1 m'.1 then m :: l else m' :: insert_doc m l'
  end.

Fixpoint doc_sort (d : doc) : doc :=
  match d with
  | DArr l => DArr (map doc_sort l)
  | DObj l => DObj (fold_right insert_doc [] (map (fun m => (m.1, doc_sort m.2)) l))
  | _ => d
  end.

(** [",".join(texts)] *)
Fixpoint joined (texts : list string) : string :=
  match texts with
  | [] => ""
  | [text] => text
  | text :: texts => text ++ "," ++ joined texts
  end.

Fixpoint doc_enc (d : doc) : string :=
  match d with
  | DJson j => json_dumps j
  | DSeconds td => seconds_text td
  | DArr l => "[" ++ joined (map doc_enc l) ++ "]"
  | DObj l => "{" ++ joined (map (fun m => json_string m.1 ++ ":" ++ doc_enc m.2) l) ++ "}"
  end.

Definition doc_dumps (d : doc) : string := doc_enc (doc_sort d).

Example doc_dumps_object :
  doc_dumps (DObj [("b", DSeconds 20000000); ("a", DArr [DJson (JInt 1); DJson JNull])])
  = "{" ++ json_string "a" ++ ":[1,null]," ++ json_string "b" ++ ":20.0}".
Proof. reflexivity. Qed.
