(* ===== verification/Contracts.v ===== *)
(** * Contract enums, decimal text and the greek exposure

    The parts of [backend/app/contracts/v1/models.py] the policy and execution code
    shares: the string enumerations, [canonical_decimal], [GreekExposure].  The Decimal
    printers of Python ([format(d, "f")] and [str(d)]) are here too. *)

From Stdlib Require Import ZArith Lia String Ascii List Bool.
From stdpp Require Import base list strings option tactics.
From S2P Require Import Prelude PyText PyDecimal.

#[local] Open Scope Z_scope.

(** ** Enumerations *)

(** A [StrEnum]: the text of a member. *)
Class StrEnum (A : Type) := enum_value : A -> string.

Inductive AccountRole := SUBMISSION | DEVELOPMENT | REPLAY.
Inductive DataQuality := DQ_COMPLETE | DQ_MISSING | DQ_STALE | DQ_UNKNOWN.
Inductive Action := HOLD | CLOSE | ROLL | NO_ACTION.
Inductive OptionRight := CALL | PUT.
Inductive PositionIntent := BUY_TO_OPEN | SELL_TO_OPEN | BUY_TO_CLOSE | SELL_TO_CLOSE.
Inductive EvidenceRelation := SUPPORTS | CONTRADICTS | NEUTRAL.
Inductive EvidenceTier := PRIMARY | ORIGINAL_REPORTING | SECONDARY.
Inductive ThesisStatus := INTACT | WEAKENING | BROKEN | TS_UNKNOWN.
Inductive EvidenceState := ASSESSED | NO_CHANGE | ES_UNKNOWN.
Inductive ExecutionDecision :=
  ED_NO_ACTION | HOLD_CERTIFIED | CLOSE_APPROVED | CLOSE_RISK_ONLY | ROLL_APPROVED.

#[export] Instance AccountRole_eq_dec : EqDecision AccountRole.
Proof. solve_decision. Defined.
#[export] Instance DataQuality_eq_dec : EqDecision DataQuality.
Proof. solve_decision. Defined.
#[export] Instance Action_eq_dec : EqDecision Action.
Proof. solve_decision. Defined.
#[export] Instance OptionRight_eq_dec : EqDecision OptionRight.
Proof. solve_decision. Defined.
#[export] Instance PositionIntent_eq_dec : EqDecision PositionIntent.
Proof. solve_decision. Defined.
#[export] Instance EvidenceRelation_eq_dec : EqDecision EvidenceRelation.
Proof. solve_decision. Defined.
#[export] Instance EvidenceTier_eq_dec : EqDecision EvidenceTier.
Proof. solve_decision. Defined.
#[export] Instance ThesisStatus_eq_dec : EqDecision ThesisStatus.
Proof. solve_decision. Defined.
#[export] Instance EvidenceState_eq_dec : EqDecision EvidenceState.
Proof. solve_decision. Defined.
#[export] Instance ExecutionDecision_eq_dec : EqDecision ExecutionDecision.
Proof. solve_decision. Defined.

#[export] Instance AccountRole_value : StrEnum AccountRole := fun r =>
  match r with
  | SUBMISSION => "SUBMISSION" | DEVELOPMENT => "DEVELOPMENT" | REPLAY => "REPLAY"
  end%string.

#[export] Instance DataQuality_value : StrEnum DataQuality := fun q =>
  match q with
  | DQ_COMPLETE => "COMPLETE" | DQ_MISSING => "MISSING"
  | DQ_STALE => "STALE" | DQ_UNKNOWN => "UNKNOWN"
  end%string.

#[export] Instance Action_value : StrEnum Action := fun a =>
  match a with
  | HOLD => "HOLD" | CLOSE => "CLOSE" | ROLL => "ROLL" | NO_ACTION => "NO_ACTION"
  end%string.

#[export] Instance OptionRight_value : StrEnum OptionRight := fun r =>
  match r with CALL => "CALL" | PUT => "PUT" end%string.

#[export] Instance PositionIntent_value : StrEnum PositionIntent := fun i =>
  match i with
  | BUY_TO_OPEN => "BUY_TO_OPEN" | SELL_TO_OPEN => "SELL_TO_OPEN"
  | BUY_TO_CLOSE => "BUY_TO_CLOSE" | SELL_TO_CLOSE => "SELL_TO_CLOSE"
  end%string.

(** ** Decimal text *)

Definition sign_text (neg : bool) : string := if neg then "-" else EmptyString.

(** [format(d, "f")]: no exponent; a positive exponent is written out in zeros. *)
Definition format_f (d : decimal) : string :=
  match d with
  | NaN => "NaN"
  | Inf s => (sign_text s ++ "Infinity")%string
  | Fin s c e =>
      let e := if (c =? 0)%N && (0 <? e) then 0 else e in
      let int := str_of_N c in
      let leftdigits := e + str_len int in
      if 0 <=? e then (sign_text s ++ int ++ zeros (Z.to_nat e))%string
      else if leftdigits <=? 0 then
        (sign_text s ++ "0." ++ zeros (Z.to_nat (- leftdigits)) ++ int)%string
      else
        (sign_text s ++ String.substring 0 (Z.to_nat leftdigits) int ++ "."
           ++ String.substring (Z.to_nat leftdigits) (Z.to_nat (- e)) int)%string
  end.

(** [str(d)]: scientific notation for a positive exponent or a very small value. *)
Definition decimal_str (d : decimal) : string :=
  match d with
  | NaN => "NaN"
  | Inf s => (sign_text s ++ "Infinity")%string
  | Fin s c e =>
      let int := str_of_N c in
      let leftdigits := e + str_len int in
      let dotplace := if (e <=? 0) && (-6 <? leftdigits) then leftdigits else 1 in
      let body :=
        if dotplace <=? 0 then ("0." ++ zeros (Z.to_nat (- dotplace)) ++ int)%string
        else if str_len int <=? dotplace then
          (int ++ zeros (Z.to_nat (dotplace - str_len int)))%string
        else
          (String.substring 0 (Z.to_nat dotplace) int ++ "."
             ++ String.substring (Z.to_nat dotplace) (String.length int) int)%string in
      let x := leftdigits - dotplace in
      let suffix :=
        if x =? 0 then EmptyString
        else ("E" ++ (if (x <? 0)%Z then EmptyString else "+") ++ str_of_Z x)%string in
      (sign_text s ++ body ++ suffix)%string
  end.

Definition canonical_decimal (value : decimal) : string :=
  let fixed := format_f value in
  let fixed :=
    if str_contains "." fixed then rstrip_char "." (rstrip_char "0" fixed) else fixed in
  if String.eqb fixed "-0" || String.eqb fixed "+0" then "0"%string else fixed.

(** ** Greek exposure *)

Record GreekExposure := mk_GreekExposure {
  ge_delta : decimal;
  ge_gamma : decimal;
  ge_theta_per_day : decimal;
  ge_vega_per_iv_point : decimal;
}.

#[export] Instance GreekExposure_eq_dec : EqDecision GreekExposure.
Proof. solve_decision. Defined.

(** Field by field [==] of two exposures. *)
Definition exposure_eq (a b : GreekExposure) : bool :=
  deq (ge_delta a) (ge_delta b) && deq (ge_gamma a) (ge_gamma b)
  && deq (ge_theta_per_day a) (ge_theta_per_day b)
  && deq (ge_vega_per_iv_point a) (ge_vega_per_iv_point b).
