(* ===== verification/Exposure.v ===== *)
(** * Vertical payoffs, fill cash flows and position greeks

    [backend/app/domain/exposure.py]: the payoff of a two leg vertical from its signed
    cash flows, the cash flow of a fill, the greeks of a position, and the inventory
    test that suspects an assignment. *)

From Stdlib Require Import ZArith Lia String List Bool QArith Qabs Lqa.
From stdpp Require Import base list strings gmap option tactics.
From S2P Require Import Prelude PyText PyDecimal PyDecimalFacts Contracts.

#[local] Open Scope Z_scope.

Inductive VerticalKind := DEBIT | CREDIT.

#[export] Instance VerticalKind_eq_dec : EqDecision VerticalKind.
Proof. solve_decision. Defined.

Record PayoffResult := mk_PayoffResult {
  cumulative_max_loss : decimal;
  liquidation_pnl : decimal;
  remaining_worst_loss : decimal;
  remaining_best_reward : decimal;
}.

Record GreekLeg := mk_GreekLeg {
  gl_contracts : Z;
  gl_is_long : bool;
  gl_delta : option decimal;
  gl_gamma : option decimal;
  gl_theta_per_day : option decimal;
  gl_vega_per_iv_point : option decimal;
  gl_multiplier : Z;
  gl_units_verified : bool;
}.

Definition calculate_vertical_payoff (kind : VerticalKind) (width : decimal) (quantity : Z)
    (cumulative_cashflow close_cashflow_now : decimal) : M PayoffResult :=
  when (width <=. Dint 0) ||| (quantity <=? 0)
  then_ Raise (ExposureBlocked "INVALID_VERTICAL_DIMENSIONS");;
  width_quantity ← dmul width (Dint quantity);
  settlement ← dmul width_quantity (Dint 100);
  '(worst_settlement, best_settlement) ←
    (if decide (kind = DEBIT) then Ok (Dint 0, settlement)
     else (worst ← dneg settlement; Ok (worst, Dint 0)));
  open_and_worst ← dadd cumulative_cashflow worst_settlement;
  neg_open ← dneg open_and_worst;
  max_loss ← dmax (Dint 0) neg_open;
  pnl ← dadd cumulative_cashflow close_cashflow_now;
  worst_from_now ← dsub close_cashflow_now worst_settlement;
  worst_loss ← dmax (Dint 0) worst_from_now;
  best_from_now ← dsub best_settlement close_cashflow_now;
  best_reward ← dmax (Dint 0) best_from_now;
  Ok {| cumulative_max_loss := max_loss;
        liquidation_pnl := pnl;
        remaining_worst_loss := worst_loss;
        remaining_best_reward := best_reward |}.

Definition fill_cashflow (price : decimal) (contracts : Z) (is_buy : bool) (multiplier : Z)
    : M decimal :=
  when (price <. Dint 0) ||| (contracts <=? 0) ||| negb (multiplier =? 100)
  then_ Raise (ExposureBlocked "INVALID_FILL");;
  per_unit ← dmul price (Dint contracts);
  cashflow ← dmul per_unit (Dint multiplier);
  if is_buy then dneg cashflow else Ok cashflow.

Definition normalized_limit_cashflow (provider_limit_price : decimal) (multiplier : Z)
    : M decimal :=
  when negb (multiplier =? 100) then_ Raise (ExposureBlocked "UNSUPPORTED_MULTIPLIER");;
  negated ← dneg provider_limit_price;
  dmul negated (Dint multiplier).

(** [values] of a leg, and the test on them: present and finite as a float. *)
Definition leg_values (leg : GreekLeg) : list (option decimal) :=
  [gl_delta leg; gl_gamma leg; gl_theta_per_day leg; gl_vega_per_iv_point leg].

Definition greek_missing (value : option decimal) : bool :=
  match value with
  | None => true
  | Some d => negb (math_isfinite d)
  end.

Definition leg_invalid (leg : GreekLeg) : bool :=
  (gl_contracts leg <=? 0) || negb (gl_multiplier leg =? 100)
  || negb (gl_units_verified leg) || existsb greek_missing (leg_values leg).

(** [totals[index] += value * sign * leg.contracts * leg.multiplier] *)
Definition add_scaled (leg : GreekLeg) (total : decimal) (value : option decimal) : M decimal :=
  match value with
  | None => Raise TypeError
  | Some v =>
      v ← dmul v (Dint (if gl_is_long leg then 1 else -1));
      v ← dmul v (Dint (gl_contracts leg));
      v ← dmul v (Dint (gl_multiplier leg));
      dadd total v
  end.

Fixpoint add_leg (leg : GreekLeg) (totals : list decimal) (values : list (option decimal))
    : M (list decimal) :=
  match totals, values with
  | t :: totals, v :: values =>
      t ← add_scaled leg t v; totals ← add_leg leg totals values; Ok (t :: totals)
  | _, _ => Ok []
  end.

(** pydantic validates the fields of the exposure when it is built; its validation is
    an argument. *)
Section Validated.
Context (validate_greeks : GreekExposure -> M GreekExposure).

Definition aggregate_greeks (legs : list GreekLeg) : M GreekExposure :=
  when negb (length legs =? 2)%nat then_ Raise (ExposureBlocked "INCOMPLETE_VERTICAL");;
  totals ← fold_m (fun totals leg =>
      when leg_invalid leg then_ Raise (ExposureBlocked "INVALID_GREEK_INPUT");;
      add_leg leg totals (leg_values leg))
    [Dint 0; Dint 0; Dint 0; Dint 0] legs;
  match totals with
  | [d; g; t; v] => validate_greeks (mk_GreekExposure d g t v)
  | _ => Raise IndexError
  end.
End Validated.

Definition reconcile_vertical_inventory (expected_option_symbols : string * string)
    (actual_option_symbols : list string) (underlying_quantity : Z) : string :=
  if negb (bool_decide ((list_to_set [expected_option_symbols.1; expected_option_symbols.2]
             : gset string) = list_to_set actual_option_symbols))
     || negb (underlying_quantity =? 0)
  then "ASSIGNMENT_SUSPECTED" else "COMPLETE".

(** ** Facts *)

(** The settlement values a vertical can take at expiry. *)
Definition settlement_range (kind : VerticalKind) (width : Q) (quantity : Z) (s : Q) : Prop :=
  let settlement := (width * inject_Z quantity * 100)%Q in
  match kind with
  | DEBIT => (0 <= s <= settlement)%Q
  | CREDIT => (- settlement <= s <= 0)%Q
  end.

Definition worst_of (kind : VerticalKind) (settlement : Q) : Q :=
  match kind with DEBIT => 0 | CREDIT => - settlement end.
Definition best_of (kind : VerticalKind) (settlement : Q) : Q :=
  match kind with DEBIT => settlement | CREDIT => 0 end.

#[local] Ltac step_amount L :=
  let r := fresh "r" in let E := fresh "E" in let H := fresh "H" in let V := fresh "V" in
  edestruct L as (r & E & H & V); [..|rewrite E; cbn [mbind M_bind]].

(** The payoff of a vertical on cash amounts never rounds. *)
Lemma calculate_vertical_payoff_value kind width quantity cum close :
  cash width -> (0 < dval width)%Q -> 1 <= quantity <= 10 ^ 4 -> cash cum -> cash close ->
  let settlement := (dval width * inject_Z quantity * 100)%Q in
  exists p, calculate_vertical_payoff kind width quantity cum close = Ok p /\
    (dval (cumulative_max_loss p) == Qminmax.Qmax 0 (- (dval cum + worst_of kind settlement)))%Q /\
    (dval (liquidation_pnl p) == dval cum + dval close)%Q /\
    (dval (remaining_worst_loss p) ==
       Qminmax.Qmax 0 (dval close - worst_of kind settlement))%Q /\
    (dval (remaining_best_reward p) ==
       Qminmax.Qmax 0 (best_of kind settlement - dval close))%Q.
Proof.
  intros Hw Hpos Hq Hcum Hclose settlement. unfold calculate_vertical_payoff, guard_m, or_m.
  destruct (dle_spec width (Dint 0) ltac:(apply Hw) ltac:(done)) as (b & -> & Hb).
  rewrite dval_Dint in Hb. destruct b; [exfalso; apply (Qlt_not_le _ _ Hpos), Hb; done|].
  cbn [mbind M_bind lift_bool]. rewrite (proj2 (Z.leb_gt quantity 0)) by lia.
  pose proof cash_exp as He. unfold cash in *.
  step_amount (amount_mul_int (-6) (10 ^ 18) (10 ^ 4) width quantity); [done|lia|done|done|].
  step_amount (amount_mul_int (-6) (10 ^ 18 * 10 ^ 4) 100 r 100); [done|lia|done|done|].
  assert (Hs : (dval r0 == settlement)%Q) by (rewrite V0, V; reflexivity).
  set (k := 10 ^ 18 * 10 ^ 4 * 100) in *.
  assert (Hz : amount (-6) k (Dint 0))
    by (eapply amount_weaken; [by apply amount_Dint|done]).
  assert (Hends : exists w b, (if decide (kind = DEBIT) then Ok (Dint 0, r0)
      else worst ← dneg r0; Ok (worst, Dint 0)) = Ok (w, b) /\
      amount (-6) k w /\ amount (-6) k b /\
      (dval w == worst_of kind settlement)%Q /\ (dval b == best_of kind settlement)%Q).
  { destruct kind; cbn [decide].
    - exists (Dint 0), r0. split_and!; [done|done|done|by rewrite dval_Dint|done].
    - step_amount (amount_neg (-6) k r0); [done|done|done|].
      exists r1, (Dint 0). split_and!; [done|done|done| |by rewrite dval_Dint].
      cbn. by rewrite V1, Hs. }
  destruct Hends as (w & b & -> & Aw & Ab & Vw & Vb). cbn [mbind M_bind].
  step_amount (amount_add (-6) (10 ^ 18) k cum w); [done|done|done|done|].
  step_amount (amount_neg (-6) (10 ^ 18 + k) r1); [done|done|done|].
  step_amount (amount_max0 (-6) (10 ^ 18 + k) r2); [done|done|done|].
  step_amount (amount_add (-6) (10 ^ 18) (10 ^ 18) cum close); [done|done|done|done|].
  step_amount (amount_sub (-6) (10 ^ 18) k close w); [done|done|done|done|].
  step_amount (amount_max0 (-6) (10 ^ 18 + k) r5); [done|done|done|].
  step_amount (amount_sub (-6) k (10 ^ 18) b close); [done|done|done|done|].
  step_amount (amount_max0 (-6) (k + 10 ^ 18) r7); [done|done|done|].
  eexists; split; [reflexivity|]. cbn [cumulative_max_loss liquidation_pnl remaining_worst_loss remaining_best_reward].
  rewrite V3, V2, V1, V4, V6, V5, V8, V7, Vw, Vb. split_and!; reflexivity.
Qed.

(** C17: For cash amounts (millionths of a dollar) and up to 10^4 contracts,
    [calculate_vertical_payoff] returns a result, and that result is the tight payoff
    envelope of the spread: at every settlement the vertical can take at expiry the loss
    from entry is at most [cumulative_max_loss], the further loss from now at most
    [remaining_worst_loss] and the further reward at most [remaining_best_reward]; each
    bound is reached (or is zero), and [liquidation_pnl] is the exact sum. *)
Theorem vertical_payoff_envelope kind width quantity cum close :
  cash width -> (0 < dval width)%Q -> 1 <= quantity <= 10 ^ 4 -> cash cum -> cash close ->
  exists p, calculate_vertical_payoff kind width quantity cum close = Ok p /\
    (dval (liquidation_pnl p) == dval cum + dval close)%Q /\
    (forall s, settlement_range kind (dval width) quantity s ->
       (- (dval cum + s) <= dval (cumulative_max_loss p))%Q /\
       (dval close - s <= dval (remaining_worst_loss p))%Q /\
       (s - dval close <= dval (remaining_best_reward p))%Q) /\
    exists worst best,
      settlement_range kind (dval width) quantity worst /\
      settlement_range kind (dval width) quantity best /\
      (dval (cumulative_max_loss p) == Qminmax.Qmax 0 (- (dval cum + worst)))%Q /\
      (dval (remaining_worst_loss p) == Qminmax.Qmax 0 (dval close - worst))%Q /\
      (dval (remaining_best_reward p) == Qminmax.Qmax 0 (best - dval close))%Q.
Proof.
  intros Hw Hpos Hq Hcum Hclose.
  destruct (calculate_vertical_payoff_value kind width quantity cum close Hw Hpos Hq Hcum Hclose)
    as (p & Hp & E1 & E2 & E3 & E4).
  set (S := (dval width * inject_Z quantity * 100)%Q) in *.
  assert (0 < S)%Q.
  { unfold S. assert (0 < inject_Z quantity)%Q
      by (change 0%Q with (inject_Z 0); rewrite <- Zlt_Qlt; lia). nra. }
  exists p. split_and!; [done|done| |].
  - intros s Hs. unfold settlement_range in Hs. fold S in Hs. rewrite E1, E3, E4.
    pose proof (Qminmax.Q.le_max_r 0 (- (dval cum + worst_of kind S)))%Q.
    pose proof (Qminmax.Q.le_max_r 0 (dval close - worst_of kind S))%Q.
    pose proof (Qminmax.Q.le_max_r 0 (best_of kind S - dval close))%Q.
    destruct kind; cbn [worst_of best_of] in *; split_and!; lra.
  - exists (worst_of kind S), (best_of kind S). unfold settlement_range. fold S.
    destruct kind; cbn [worst_of best_of] in *; split_and!; first [done | lra].
Qed.

(** A 4 dollar wide debit spread of five contracts, paid 2.25 and now worth 2.60. *)
Lemma vertical_payoff_envelope_witness :
  exists p, calculate_vertical_payoff DEBIT (Dint 4) 5 (Dint (-1125)) (Dint 1300) = Ok p /\
    (dval (liquidation_pnl p) == dval (Dint (-1125)) + dval (Dint 1300))%Q.
Proof.
  destruct (vertical_payoff_envelope DEBIT (Dint 4) 5 (Dint (-1125)) (Dint 1300)) as (p & Hp & E & _).
  - apply amount_D; [lia|vm_compute; discriminate].
  - reflexivity.
  - lia.
  - apply amount_D; [lia|vm_compute; discriminate].
  - apply amount_D; [lia|vm_compute; discriminate].
  - exists p. split; [exact Hp|exact E].
Defined.

Example debit_payoff :
  calculate_vertical_payoff DEBIT (Dint 4) 5 (Dint (-1125)) (Dint 1300) =
  Ok {| cumulative_max_loss := Dint 1125; liquidation_pnl := Dint 175;
        remaining_worst_loss := Dint 1300; remaining_best_reward := Dint 700 |}.
Proof. reflexivity. Qed.

Lemma fill_cashflow_value price contracts is_buy :
  cash price -> (0 <= dval price)%Q -> 1 <= contracts <= 10 ^ 4 ->
  exists c, fill_cashflow price contracts is_buy 100 = Ok c /\ cash price /\ finite c /\
    (dval c == (if is_buy then -1 else 1) * (dval price * inject_Z contracts * 100))%Q.
Proof.
  intros Hp Hpos Hc. unfold fill_cashflow, guard_m, or_m.
  destruct (dlt_spec price (Dint 0) ltac:(apply Hp) ltac:(done)) as (b & -> & Hb).
  rewrite dval_Dint in Hb.
  destruct b; [exfalso; apply (Qle_not_lt _ _ Hpos), Hb; done|].
  cbn [mbind M_bind lift_bool]. rewrite (proj2 (Z.leb_gt contracts 0)) by lia.
  pose proof cash_exp as He. unfold cash in *. cbn [mbind M_bind].
  step_amount (amount_mul_int (-6) (10 ^ 18) (10 ^ 4) price contracts); [done|lia|done|done|].
  step_amount (amount_mul_int (-6) (10 ^ 18 * 10 ^ 4) 100 r 100); [done|lia|done|done|].
  destruct is_buy.
  - edestruct (amount_neg (-6) _ r0 H0) as (r1 & -> & H1 & V1); [done|done|].
    exists r1. split_and!; [done|done|apply H1|]. rewrite V1, V0, V.
    change (inject_Z 100) with 100%Q. ring.
  - exists r0. split_and!; [done|done|apply H0|]. rewrite V0, V.
    change (inject_Z 100) with 100%Q. ring.
Qed.

(** A fill's cash flow is exact: buying [contracts] at [price] costs exactly
    price times contracts times 100, selling receives it, and the cash flow that
    [normalized_limit_cashflow] gives a limit price is that of buying one contract at
    that price. *)
Theorem fill_cashflow_exact price contracts is_buy :
  cash price -> (0 <= dval price)%Q -> 1 <= contracts <= 10 ^ 4 ->
  exists c l b, fill_cashflow price contracts is_buy 100 = Ok c /\
    (dval c == (if is_buy then -1 else 1) * (dval price * inject_Z contracts * 100))%Q /\
    normalized_limit_cashflow price 100 = Ok l /\
    fill_cashflow price 1 true 100 = Ok b /\ (dval l == dval b)%Q.
Proof.
  intros Hp Hpos Hc.
  destruct (fill_cashflow_value price contracts is_buy Hp Hpos Hc) as (c & Ec & _ & _ & Vc).
  destruct (fill_cashflow_value price 1 true Hp Hpos ltac:(lia)) as (b & Eb & _ & _ & Vb).
  unfold normalized_limit_cashflow, guard_m. cbn [negb lift_bool Z.eqb mbind M_bind].
  pose proof cash_exp as He. unfold cash in *.
  edestruct (amount_neg (-6) _ price Hp) as (n & En & Hn & Vn); [done|done|].
  edestruct (amount_mul_int (-6) (10 ^ 18) 100 n 100) as (l & El & Hl & Vl); [done|lia|done|done|].
  exists c, l, b. split_and!; [done|done| |done|].
  - cbn. rewrite En. exact El.
  - rewrite Vl, Vn, Vb. change (inject_Z 1) with 1%Q. change (inject_Z 100) with 100%Q. ring.
Qed.

Lemma fill_cashflow_exact_witness :
  exists c l b, fill_cashflow (D 225 (-2)) 5 true 100 = Ok c /\
    (dval c == -1 * (dval (D 225 (-2)) * inject_Z 5 * 100))%Q /\
    normalized_limit_cashflow (D 225 (-2)) 100 = Ok l /\
    fill_cashflow (D 225 (-2)) 1 true 100 = Ok b /\ (dval l == dval b)%Q.
Proof.
  apply (fill_cashflow_exact (D 225 (-2)) 5 true).
  - apply amount_D; [lia|vm_compute; discriminate].
  - discriminate.
  - lia.
Defined.

(** *** Greeks *)

(** A greek of at most 10^9 in billionths. *)
Definition greek (d : decimal) : Prop := amount (-9) (10 ^ 18) d.

Lemma greek_exp : money_exp (-9).
Proof. split; [unfold Etiny, Emin, prec|]; lia. Qed.

Lemma dval_copy_abs d : (dval (dcopy_abs d) == Qabs (dval d))%Q.
Proof.
  destruct d as [s c e| |]; [|reflexivity..].
  change (dcopy_abs (Fin s c e)) with (Fin false c e). rewrite !dval_neg_sgn. cbn [sgn].
  assert (0 <= inject_Z (Z.of_N c) * p10 e)%Q.
  { pose proof (p10_pos e). assert (0 <= inject_Z (Z.of_N c))%Q
      by (change 0%Q with (inject_Z 0); rewrite <- Zle_Qle; lia). nra. }
  destruct s; cbn [sgn]; rewrite ?Qabs_opp, Qabs_pos by done; reflexivity.
Qed.

Lemma amount_isfinite e k d :
  amount e k d -> k < 10 ^ prec -> money_exp e -> math_isfinite d = true.
Proof.
  intros Ha Hk He. destruct Ha as (F & n & Hn & E). unfold math_isfinite.
  destruct (finite_inv d F) as (s & c & x & ->). cbn [is_finite].
  set (d := Fin s c x) in *.
  assert (finite (dcopy_abs d)) as Fa by done.
  assert (finite float_overflow_bound) as Fb by done.
  rewrite (dcmp_finite _ _ Fa Fb).
  destruct (Qcompare_spec (dval (dcopy_abs d)) (dval float_overflow_bound)) as [H|H|H]; [exfalso..|done| exfalso];
  assert (Hb : (dval (dcopy_abs d) <= inject_Z (10 ^ prec))%Q).
  1,3: rewrite dval_copy_abs, E, Qabs_Qmult, (Qabs_pos (p10 e)) by apply Qlt_le_weak, p10_pos;
    assert (p10 e <= p10 0)%Q as H1 by (apply p10_le; apply He); rewrite p10_0 in H1;
    assert (Qabs (inject_Z n) <= inject_Z (10 ^ prec))%Q
      by (change (Qabs (inject_Z n)) with (inject_Z (Z.abs n)); rewrite <- Zle_Qle; lia);
    pose proof (Qabs_nonneg (inject_Z n)); pose proof (p10_pos e); nra.
  all: unfold float_overflow_bound in H; rewrite dval_Dint in H;
    assert (inject_Z (10 ^ prec) < inject_Z ((2 ^ 54 - 1) * 2 ^ 970))%Q
      by (rewrite <- Zlt_Qlt; reflexivity); lra.
Qed.

Definition leg_sign (leg : GreekLeg) : Z := if gl_is_long leg then 1 else -1.
Definition leg_scale (leg : GreekLeg) : Q := inject_Z (leg_sign leg * gl_contracts leg * 100).

(** A leg the aggregation accepts, with its four greeks. *)
Definition leg_has (leg : GreekLeg) (d g t v : decimal) : Prop :=
  leg_values leg = [Some d; Some g; Some t; Some v] /\ greek d /\ greek g /\ greek t /\ greek v /\
  1 <= gl_contracts leg <= 10 ^ 4 /\ gl_multiplier leg = 100 /\ gl_units_verified leg = true.

Lemma leg_has_valid leg d g t v : leg_has leg d g t v -> leg_invalid leg = false.
Proof.
  intros (E & Hd & Hg & Ht & Hv & Hc & Hm & Hu). unfold leg_invalid. rewrite E, Hm, Hu.
  rewrite (proj2 (Z.leb_gt _ 0)) by lia. cbn [orb negb Z.eqb existsb greek_missing].
  rewrite !(amount_isfinite (-9) (10 ^ 18)) by first [done | apply greek_exp]. reflexivity.
Qed.

Lemma add_scaled_value leg k total v :
  1 <= gl_contracts leg <= 10 ^ 4 -> gl_multiplier leg = 100 -> greek v ->
  amount (-9) k total -> 0 <= k -> k <= 10 ^ 25 ->
  exists r, add_scaled leg total (Some v) = Ok r /\ amount (-9) (k + 10 ^ 24) r /\
    (dval r == dval total + leg_scale leg * dval v)%Q.
Proof.
  intros Hc Hm Hv Ht H0 Hk. unfold add_scaled. rewrite Hm. pose proof greek_exp as He.
  unfold greek in Hv. assert (Hs : Z.abs (leg_sign leg) <= 1) by (unfold leg_sign; case_match; lia).
  fold (leg_sign leg).
  step_amount (amount_mul_int (-9) (10 ^ 18) 1 v (leg_sign leg)); [done|done|done|done|].
  step_amount (amount_mul_int (-9) (10 ^ 18 * 1) (10 ^ 4) r (gl_contracts leg)); [done|lia|done|done|].
  step_amount (amount_mul_int (-9) (10 ^ 18 * 1 * 10 ^ 4) 100 r0 100); [done|lia|done|done|].
  assert (Hsum : k + 10 ^ 18 * 1 * 10 ^ 4 * 100 < 10 ^ prec).
  { apply Z.le_lt_trans with (10 ^ 25 + 10 ^ 18 * 1 * 10 ^ 4 * 100); [lia|reflexivity]. }
  edestruct (amount_add (-9) k _ total r1 Ht H2) as (s & Es & As & Vs); [done|done|].
  exists s. split_and!; [done|done|]. rewrite Vs, V1, V0, V. unfold leg_scale.
  rewrite !inject_Z_mult. ring.
Qed.

(** Aggregating the greeks of a spread is exact and signed: for two valid legs each
    field of the exposure is the sum over the legs of the greek times the contracts times
    100, negative for a short leg; nothing is rounded and nothing is blocked. *)
Theorem aggregate_greeks_exact validate a b da ga ta va db gb tb vb :
  leg_has a da ga ta va -> leg_has b db gb tb vb ->
  exists d g t v,
    aggregate_greeks validate [a; b] = validate (mk_GreekExposure d g t v) /\
    (dval d == leg_scale a * dval da + leg_scale b * dval db)%Q /\
    (dval g == leg_scale a * dval ga + leg_scale b * dval gb)%Q /\
    (dval t == leg_scale a * dval ta + leg_scale b * dval tb)%Q /\
    (dval v == leg_scale a * dval va + leg_scale b * dval vb)%Q.
Proof.
  intros Ha Hb. pose proof (leg_has_valid _ _ _ _ _ Ha) as Ia. pose proof (leg_has_valid _ _ _ _ _ Hb) as Ib.
  destruct Ha as (Ea & Hda & Hga & Hta & Hva & Hca & Hma & _), Hb as (Eb & Hdb & Hgb & Htb & Hvb & Hcb & Hmb & _).
  assert (Hz : amount (-9) 0 (Dint 0)) by (split; [done|]; exists 0; done).
  assert (S : forall x y, greek x -> greek y -> exists r s,
    add_scaled a (Dint 0) (Some x) = Ok r /\ add_scaled b r (Some y) = Ok s /\
    (dval s == leg_scale a * dval x + leg_scale b * dval y)%Q).
  { intros x y Hx Hy.
    destruct (add_scaled_value a 0 (Dint 0) x Hca Hma Hx Hz ltac:(lia) ltac:(lia)) as (r & Er & Ar & Vr).
    destruct (add_scaled_value b (0 + 10 ^ 24) r y Hcb Hmb Hy Ar ltac:(lia) ltac:(lia)) as (s & Es & _ & Vs).
    exists r, s. split_and!; [done|done|]. rewrite Vs, Vr, dval_Dint. change (inject_Z 0) with 0%Q. ring. }
  destruct (S da db Hda Hdb) as (d1 & d & E1 & E2 & Vd), (S ga gb Hga Hgb) as (g1 & g & E3 & E4 & Vg),
    (S ta tb Hta Htb) as (t1 & t & E5 & E6 & Vt), (S va vb Hva Hvb) as (v1 & v & E7 & E8 & Vv).
  exists d, g, t, v. split_and!; [|done..].
  unfold aggregate_greeks. cbn [length Nat.eqb negb guard_m lift_bool mbind M_bind fold_m].
  rewrite Ia, Ib, Ea, Eb. cbn [guard_m lift_bool mbind M_bind add_leg].
  rewrite E1, E3, E5, E7. cbn [mbind M_bind guard_m lift_bool add_leg]. rewrite E2, E4, E6, E8. reflexivity.
Qed.

Definition long_leg : GreekLeg :=
  mk_GreekLeg 5 true (Some (D 60 (-2))) (Some (D 2 (-2))) (Some (D (-5) (-2))) (Some (D 11 (-2))) 100 true.
Definition short_leg : GreekLeg :=
  mk_GreekLeg 5 false (Some (D 40 (-2))) (Some (D 1 (-2))) (Some (D (-4) (-2))) (Some (D 9 (-2))) 100 true.

Lemma aggregate_greeks_exact_witness :
  exists d g t v,
    aggregate_greeks Ok [long_leg; short_leg] = Ok (mk_GreekExposure d g t v) /\
    (dval d == leg_scale long_leg * dval (D 60 (-2)) + leg_scale short_leg * dval (D 40 (-2)))%Q.
Proof.
  destruct (aggregate_greeks_exact Ok long_leg short_leg
    (D 60 (-2)) (D 2 (-2)) (D (-5) (-2)) (D 11 (-2)) (D 40 (-2)) (D 1 (-2)) (D (-4) (-2)) (D 9 (-2)))
    as (d & g & t & v & E & Vd & _).
  - split_and!; first [done | apply amount_D; [lia|vm_compute; discriminate]].
  - split_and!; first [done | apply amount_D; [lia|vm_compute; discriminate]].
  - exists d, g, t, v. split; [exact E|exact Vd].
Defined.

Example net_greeks :
  aggregate_greeks Ok [long_leg; short_leg] =
  Ok (mk_GreekExposure (D 10000 (-2)) (D 500 (-2)) (D (-500) (-2)) (D 1000 (-2))).
Proof. reflexivity. Qed.
