(* ===== verification/OptionSymbol.v ===== *)
(** * Option contract symbols

    [backend/app/domain/option_contract_symbol.py]: parsing an OCC symbol (root,
    expiration, right, strike) and the refusal of adjusted contracts. *)

From Stdlib Require Import ZArith Lia String Ascii List Bool QArith.
From stdpp Require Import base list strings option tactics.
From S2P Require Import Prelude PyText PyTextFacts PyDecimal PyDecimalFacts PyTime.

#[local] Open Scope Z_scope.
#[local] Arguments String.append !_ _ / : simpl nomatch.

Definition NON_STANDARD_CONTRACT_UNSUPPORTED : string := "NON_STANDARD_CONTRACT_UNSUPPORTED".
Definition OPTION_CONTRACT_SYMBOL_MALFORMED : string := "OPTION_CONTRACT_SYMBOL_MALFORMED".

(** ** Text and the decimal digits of Unicode

    A symbol is a sequence of code points: the pattern's [\d] and Python's numbers accept
    every decimal digit of Unicode, not only the ten of ASCII. *)

Definition text : Type := list N.
Definition points (s : string) : text := map N_of_ascii (chars s).

(** The zeros of the decimal digits (category Nd) of Unicode 15.0, that of Python 3.12; the
    nine others of a script follow its zero. *)
Definition decimal_zeros : list N :=
  [48; 1632; 1776; 1984; 2406; 2534; 2662; 2790; 2918; 3046; 3174; 3302; 3430; 3558; 3664; 3792;
   3872; 4160; 4240; 6112; 6160; 6470; 6608; 6784; 6800; 6992; 7088; 7232; 7248; 42528; 43216;
   43264; 43472; 43504; 43600; 44016; 65296; 66720; 68912; 69734; 69872; 69942; 70096; 70384;
   70736; 70864; 71248; 71360; 71472; 71904; 72016; 72784; 73040; 73120; 73552; 92768; 92864;
   93008; 120782; 120792; 120802; 120812; 120822; 123200; 123632; 124144; 125264; 130032]%N.

(** [unicodedata.decimal] *)
Definition decimal_digit (c : N) : option N :=
  option_map (fun zero => c - zero)%N
    (find (fun zero => (zero <=? c) && (c <? zero + 10))%N decimal_zeros).

(** [\d] *)
Definition is_decimal (c : N) : bool := match decimal_digit c with Some _ => true | None => false end.
(** A decimal digit as that of ASCII, as [int] and [Decimal] read it. *)
Definition to_ascii (c : N) : ascii :=
  match decimal_digit c with Some d => digit_char d | None => ascii_of_N c end.

Definition in_range (low high c : N) : bool := ((low <=? c) && (c <=? high))%N.
Definition is_upper (c : N) : bool := in_range 65 90 c.
Definition is_ascii_digit (c : N) : bool := in_range 48 57 c.

(** ** Parsing *)

(** The root of [_SYMBOL]: [[A-Z]{1,6}|[A-Z]{1,5}[0-9]|[0-9][A-Z]{1,5}]. *)
Definition root_matches (root : text) : bool :=
  let n := length root in
  ((1 <=? n) && (n <=? 6))%nat &&
  (forallb is_upper root
   || ((2 <=? n)%nat && forallb is_upper (take (n - 1) root)
       && forallb is_ascii_digit (drop (n - 1) root))
   || ((2 <=? n)%nat && forallb is_ascii_digit (take 1 root)
       && forallb is_upper (drop 1 root))).

Definition right_matches (right : text) : bool :=
  match right with
  | [c] => (c =? 67)%N || (c =? 80)%N
  | _ => false
  end.

(** [_SYMBOL.fullmatch(symbol)]: the last three groups have fixed widths, so the split
    is determined by the length. *)
Definition symbol_match (symbol : text) : option (text * text * N * text) :=
  let k := (length symbol - 15)%nat in
  let root := take k symbol in
  let expiration := take 6 (drop k symbol) in
  let right := take 1 (drop (k + 6) symbol) in
  let strike := drop (k + 7) symbol in
  if (16 <=? length symbol)%nat && root_matches root && forallb is_decimal expiration
     && right_matches right && forallb is_decimal strike
  then match right with
       | [c] => Some (root, expiration, c, strike)
       | _ => None
       end
  else None.

Definition int_of_digits (l : list ascii) : Z :=
  match N_of_digits 0 (of_chars l) with Some n => Z.of_N n | None => 0 end.
Definition int_of_text (t : text) : Z := int_of_digits (map to_ascii t).

(** The pattern of [_strptime] for ["%y%m%d"] on six decimal digits: [%m] is
    [1[0-2]|0[1-9]] and [%d] is [3[0-1]|[1-2]\d|0[1-9]]; their alternatives of one digit
    leave a digit unread, which is an error too. *)
Definition month_matches (m1 m2 : N) : bool :=
  (m1 =? 49)%N && in_range 48 50 m2 || (m1 =? 48)%N && in_range 49 57 m2.
Definition day_matches (d1 d2 : N) : bool :=
  (d1 =? 51)%N && in_range 48 49 d2 || in_range 49 50 d1 && is_decimal d2
  || (d1 =? 48)%N && in_range 49 57 d2.
Definition yymmdd_matches (t : text) : bool :=
  match t with
  | [y1; y2; m1; m2; d1; d2] => month_matches m1 m2 && day_matches d1 d2
  | _ => false
  end.

(** [datetime.strptime(s, "%y%m%d").date()] on six decimal digits. *)
Definition strptime_yymmdd (t : text) : M date :=
  if yymmdd_matches t then
    let yy := int_of_text (take 2 t) in
    make_date (if yy <=? 68 then 2000 + yy else 1900 + yy)
      (int_of_text (take 2 (drop 2 t))) (int_of_text (drop 4 t))
  else Raise (ValueError "time data does not match format").

Record OptionContractSymbol := mk_OptionContractSymbol {
  symbol : text;
  root_symbol : string;
  expiration_date : date;
  right : ascii;
  strike_price : decimal;
  is_adjusted : bool;
}.

(** The root, which is ASCII, as a string. *)
Definition root_string (root : text) : string := of_chars (map ascii_of_N root).

Definition head_is_digit (l : list ascii) : bool :=
  match l with c :: _ => is_digit c | [] => false end.

Definition parse_option_contract_symbol (s : text) : M OptionContractSymbol :=
  match symbol_match s with
  | None => Raise (OptionContractSymbolError OPTION_CONTRACT_SYMBOL_MALFORMED)
  | Some (root, exp, c, strike) =>
      expiration ←
        try_with (strptime_yymmdd exp) (fun e =>
          match e with
          | ValueError _ => Raise (OptionContractSymbolError OPTION_CONTRACT_SYMBOL_MALFORMED)
          | e => Raise e
          end);
      price ← ddiv (Dint (int_of_text strike)) (Dint 1000);
      let root := root_string root in
      Ok {| symbol := s;
            root_symbol := root;
            expiration_date := expiration;
            right := ascii_of_N c;
            strike_price := price;
            is_adjusted := head_is_digit (chars root) || head_is_digit (rev (chars root)) |}
  end.

Definition require_standard (self : OptionContractSymbol) (underlying_symbol : option string)
    : M OptionContractSymbol :=
  when is_adjusted self
  then_ Raise (OptionContractSymbolError NON_STANDARD_CONTRACT_UNSUPPORTED);;
  when (match underlying_symbol with
        | Some u => negb (String.eqb (root_symbol self) u)
        | None => false
        end)
  then_ Raise (OptionContractSymbolError OPTION_CONTRACT_SYMBOL_MALFORMED);;
  Ok self.

Definition parse_standard_option_contract_symbol (s : text) (underlying_symbol : option string)
    : M OptionContractSymbol :=
  parsed ← parse_option_contract_symbol s; require_standard parsed underlying_symbol.

(** ** Rendering, the specification of the format *)

Definition render_symbol (root : string) (expiration : date) (right : ascii) (strike : N) : string :=
  (root ++ date_yymmdd expiration ++ String right (zfill 8 strike))%string.

(** Dates whose two digit year is read back as itself. *)
Definition two_digit_year (d : date) : Prop :=
  let '(y, _, _) := civil_from_days d in 1969 <= y <= 2068.

(** A decimal digit with the value of the other. *)
Definition same_digit (c d : N) : Prop := is_decimal c = true /\ decimal_digit c = decimal_digit d.

(** A date written as ["%y%m%d"]: the digits of the year, and the last digit of a day from 10
    to 29, may be of any script. *)
Definition written_date (e : text) (d : date) : Prop :=
  exists y1 y2 m1 m2 d1 d2 y1' y2' d2',
    points (date_yymmdd d) = [y1; y2; m1; m2; d1; d2] /\ e = [y1'; y2'; m1; m2; d1; d2'] /\
    same_digit y1' y1 /\ same_digit y2' y2 /\
    (d2' = d2 \/ in_range 49 50 d1 = true /\ same_digit d2' d2).
(** A number written with eight digits of any script. *)
Definition written_strike (k : text) (strike : N) : Prop := Forall2 same_digit k (points (zfill 8 strike)).

Example parse_spy :
  parse_option_contract_symbol (points "SPY261016C00450500") =
  Ok {| symbol := points "SPY261016C00450500"; root_symbol := "SPY";
        expiration_date := days_from_civil 2026 10 16; right := "C";
        strike_price := D 4505 (-1); is_adjusted := false |}.
Proof. reflexivity. Qed.

(** The first digit of the year and the last of the strike in Arabic-Indic digits. *)
Example parse_other_digits :
  let s := (points "SPY" ++ [1634%N] ++ points "61016C0045050" ++ [1632%N])%list in
  parse_option_contract_symbol s =
  Ok {| symbol := s; root_symbol := "SPY";
        expiration_date := days_from_civil 2026 10 16; right := "C";
        strike_price := D 4505 (-1); is_adjusted := false |}.
Proof. reflexivity. Qed.

Example parse_bad_date :
  parse_option_contract_symbol (points "SPY260231C00450500") =
  Raise (OptionContractSymbolError OPTION_CONTRACT_SYMBOL_MALFORMED).
Proof. reflexivity. Qed.

(** ** Digits *)

Lemma decimal_digit_small c d : decimal_digit c = Some d -> (d < 10)%N.
Proof.
  unfold decimal_digit. destruct (find _ _) as [z|] eqn:E; [|done]. intros [= <-].
  apply find_some in E as [_ E]. apply andb_true_iff in E as [E1%N.leb_le E2%N.ltb_lt]. lia.
Qed.

Lemma decimal_of_char d : (d < 10)%N -> decimal_digit (N_of_ascii (digit_char d)) = Some d.
Proof.
  intros H. assert (d = 0 \/ d = 1 \/ d = 2 \/ d = 3 \/ d = 4 \/ d = 5 \/ d = 6 \/ d = 7 \/ d = 8 \/ d = 9)%N
    as [->|[->|[->|[->|[->|[->|[->|[->|[->| ->]]]]]]]]] by lia; reflexivity.
Qed.

Lemma digit_is_char a : is_digit a = true -> exists d, (d < 10)%N /\ a = digit_char d.
Proof.
  unfold is_digit, code. intros [H1%N.leb_le H2%N.leb_le]%andb_true_iff. exists (N_of_ascii a - 48)%N. split; [lia|].
  unfold digit_char. rewrite <- (ascii_N_embedding a) at 1. f_equal. lia.
Qed.

(** A decimal digit is read as the ASCII digit of its value. *)
Lemma same_digit_char c a : is_digit a = true -> same_digit c (N_of_ascii a) <-> is_decimal c = true /\ to_ascii c = a.
Proof.
  intros (d & Hd & ->)%digit_is_char. unfold same_digit. rewrite decimal_of_char by done.
  unfold is_decimal, to_ascii. destruct (decimal_digit c) as [d'|] eqn:E; [|by split; intros []].
  apply decimal_digit_small in E. split; intros [_ H]; split; try done; [congruence|].
  apply (f_equal (fun a => decimal_digit (N_of_ascii a))) in H. by rewrite !decimal_of_char in H.
Qed.

Lemma to_ascii_digit c : is_decimal c = true -> is_digit (to_ascii c) = true.
Proof.
  unfold is_decimal, to_ascii. destruct (decimal_digit c) as [d|] eqn:E; [|done]. intros _.
  apply decimal_digit_small in E. by apply is_digit_char.
Qed.

Lemma same_as_ascii c : is_decimal c = true -> same_digit c (N_of_ascii (to_ascii c)).
Proof. intros H. apply same_digit_char; [by apply to_ascii_digit|done]. Qed.

Lemma ascii_digit_itself a : is_digit a = true -> is_decimal (N_of_ascii a) = true /\ to_ascii (N_of_ascii a) = a.
Proof.
  intros (d & Hd & ->)%digit_is_char. unfold is_decimal, to_ascii. by rewrite decimal_of_char.
Qed.

Lemma ascii_range c : in_range 48 57 c = true -> is_decimal c = true /\ c = N_of_ascii (to_ascii c).
Proof.
  intros [H1%N.leb_le H2%N.leb_le]%andb_true_iff.
  assert (E : c = N_of_ascii (ascii_of_N c)) by (rewrite N_ascii_embedding; lia).
  assert (K : is_digit (ascii_of_N c) = true)
    by (unfold is_digit, code; rewrite <- E; apply andb_true_iff; split; by apply N.leb_le).
  destruct (ascii_digit_itself _ K) as [K1 K2]. rewrite <- E in K1, K2. by rewrite K2.
Qed.

Lemma below_ascii c : is_decimal c = true -> (c < 128)%N -> c = N_of_ascii (to_ascii c).
Proof.
  intros Hd H. apply ascii_range. unfold is_decimal, decimal_digit in Hd.
  destruct (find _ _) as [z|] eqn:E; [|done]. apply find_some in E as [Hz [E1%N.leb_le E2%N.ltb_lt]%andb_true_iff].
  assert (z = 48%N) as ->.
  { assert (K : forallb (fun z => (z =? 48) || (128 <=? z))%N decimal_zeros = true) by reflexivity.
    rewrite forallb_forall in K. specialize (K z Hz). apply orb_true_iff in K as [K%N.eqb_eq|K%N.leb_le]; lia. }
  apply andb_true_iff. split; apply N.leb_le; lia.
Qed.

Lemma forallb_digits l : forallb is_digit l = true <-> all_digits (of_chars l).
Proof.
  unfold all_digits. rewrite chars_of_chars. induction l as [|c l IH]; cbn.
  - split; constructor.
  - rewrite andb_true_iff, IH. split; [intros [? ?]; by constructor|by inversion 1].
Qed.

Lemma decimals_digits t : forallb is_decimal t = true -> forallb is_digit (map to_ascii t) = true.
Proof.
  induction t as [|c t IH]; [done|]. cbn. rewrite !andb_true_iff. intros [Hc Ht].
  split; [by apply to_ascii_digit|by apply IH].
Qed.

(** The digits of any script with the values of those of the string. *)
Lemma same_digits t s :
  all_digits s -> Forall2 same_digit t (points s) <-> forallb is_decimal t = true /\ map to_ascii t = chars s.
Proof.
  unfold all_digits, points. generalize (chars s) as l. intros l Hs. revert t.
  induction Hs as [|a l Ha Hl IH]; intros t.
  - split; [by inversion 1|]. destruct t; [constructor|by intros []].
  - destruct t as [|c t]; cbn; [by split; [inversion 1|intros []]|].
    transitivity (same_digit c (N_of_ascii a) /\ Forall2 same_digit t (map N_of_ascii l));
      [by split; [inversion 1|intros []; constructor]|].
    rewrite same_digit_char, IH, andb_true_iff by done. split.
    + by intros [[-> ->] [-> ->]].
    + intros [[? ?] [= -> ?]]. done.
Qed.

(** *** The groups *)

Definition symbol_parts (root e : text) (c : N) (k : text) : Prop :=
  root_matches root = true /\ forallb is_decimal e = true /\ length e = 6%nat /\
  (c = 67%N \/ c = 80%N) /\ forallb is_decimal k = true /\ length k = 8%nat.

Lemma root_matches_length root :
  root_matches root = true -> (1 <= length root <= 6)%nat.
Proof.
  unfold root_matches. rewrite !andb_true_iff, !Nat.leb_le. lia.
Qed.

Lemma symbol_match_parts root e c k :
  symbol_parts root e c k ->
  symbol_match (root ++ e ++ c :: k)%list = Some (root, e, c, k).
Proof.
  intros (Hr & He & Le & Hc & Hk & Lk). pose proof (root_matches_length _ Hr) as Lr.
  unfold symbol_match.
  assert (El : length (root ++ e ++ c :: k)%list = (length root + 15)%nat).
  { rewrite !length_app. cbn [length]. lia. }
  rewrite El. replace (length root + 15 - 15)%nat with (length root) by lia.
  rewrite take_app_length, drop_app_length, <- !drop_drop, !drop_app_length.
  rewrite (take_app_length' e) by done. rewrite !(drop_app_length' e) by done.
  replace (drop 7 (e ++ c :: k)%list) with k.
  2:{ symmetry. change 7%nat with (6 + 1)%nat. rewrite <- drop_drop, drop_app_length' by done. reflexivity. }
  change (take 1 (c :: k)) with [c]. rewrite Hr, He, Hk.
  assert ((16 <=? length root + 15)%nat = true) as -> by (apply Nat.leb_le; lia).
  assert (right_matches [c] = true) as -> by (destruct Hc as [->| ->]; reflexivity).
  done.
Qed.

Lemma symbol_match_inv s root e c k :
  symbol_match s = Some (root, e, c, k) ->
  s = (root ++ e ++ c :: k)%list /\ symbol_parts root e c k.
Proof.
  unfold symbol_match. set (n := (length s - 15)%nat).
  destruct (_ && _) eqn:H; [|discriminate].
  rewrite !andb_true_iff, Nat.leb_le in H. destruct H as [[[[Hl Hr] He] Hc] Hk].
  destruct (take 1 (drop (n + 6) s)) as [|c' [|]] eqn:Ec; try discriminate.
  intros [= <- <- -> <-]. split.
  - rewrite <- (take_drop n s) at 1. f_equal. rewrite <- (take_drop 6 (drop n s)) at 1. f_equal.
    rewrite drop_drop, <- (take_drop 1 (drop (n + 6) s)), Ec, drop_drop.
    replace (n + 6 + 1)%nat with (n + 7)%nat by lia. reflexivity.
  - unfold symbol_parts. split_and!; [done|done| |by (cbn in Hc; apply orb_true_iff in Hc as [?%N.eqb_eq|?%N.eqb_eq]; auto)|done|].
    + rewrite length_take, length_drop. subst n. lia.
    + rewrite length_drop. subst n. lia.
Qed.

Lemma int_of_digits_zfill w n : int_of_digits (chars (zfill w n)) = Z.of_N n.
Proof. unfold int_of_digits. by rewrite of_chars_chars, N_of_digits_zfill. Qed.

Lemma int_of_digits_range l :
  forallb is_digit l = true -> 0 <= int_of_digits l < 10 ^ Z.of_nat (length l).
Proof.
  intros H%forallb_digits. unfold int_of_digits.
  destruct (N_of_digits_some 0 _ H) as (n & -> & Hn).
  rewrite <- length_chars, chars_of_chars, N.mul_0_l, N.add_0_l in *.
  rewrite <- nat_N_Z. change 10 with (Z.of_N 10). rewrite <- N2Z.inj_pow. lia.
Qed.

Lemma of_chars_zfill w l :
  (0 < w)%nat -> forallb is_digit l = true -> length l = w ->
  of_chars l = zfill w (Z.to_N (int_of_digits l)).
Proof.
  intros Hw H Hl. apply zfill_of_digits; [done|by apply forallb_digits| |].
  - by rewrite <- length_chars, chars_of_chars.
  - unfold int_of_digits. apply forallb_digits in H.
    destruct (N_of_digits_some 0 _ H) as (n & -> & _). by rewrite N2Z.id.
Qed.

(** The three fields of a six digit date. *)
Lemma six_digits e :
  all_digits e -> String.length e = 6%nat ->
  e = (zfill 2 (Z.to_N (int_of_digits (take 2 (chars e)))) ++
       zfill 2 (Z.to_N (int_of_digits (take 2 (drop 2 (chars e))))) ++
       zfill 2 (Z.to_N (int_of_digits (drop 4 (chars e)))))%string /\
  0 <= int_of_digits (take 2 (chars e)) < 100.
Proof.
  intros He Hl. rewrite <- length_chars in Hl. unfold all_digits in He.
  rewrite <- (of_chars_chars e) in He. apply forallb_digits in He.
  destruct (chars e) as [|a1 [|a2 [|a3 [|a4 [|a5 [|a6 [|]]]]]]] eqn:E; try discriminate.
  cbn [take drop]. cbn [forallb] in He. rewrite !andb_true_iff in He.
  destruct He as (D1 & D2 & D3 & D4 & D5 & D6 & _).
  rewrite <- !of_chars_zfill by (try reflexivity; try lia; cbn; by rewrite ?D1, ?D2, ?D3, ?D4, ?D5, ?D6).
  split; [apply chars_inj; rewrite E; reflexivity|].
  apply (int_of_digits_range [a1; a2]). cbn. by rewrite D1, D2.
Qed.

Lemma zfill2_parts a b c :
  (a < 100)%N -> (b < 100)%N -> (c < 100)%N ->
  let l := chars (zfill 2 a ++ zfill 2 b ++ zfill 2 c) in
  int_of_digits (take 2 l) = Z.of_N a /\ int_of_digits (take 2 (drop 2 l)) = Z.of_N b /\
  int_of_digits (drop 4 l) = Z.of_N c /\ length l = 6%nat.
Proof.
  intros Ha Hb Hc l. subst l. rewrite !chars_app.
  assert (L : forall n, (n < 100)%N -> length (chars (zfill 2 n)) = 2%nat)
    by (intros n Hn; rewrite length_chars; apply zfill_length; [lia|exact Hn]).
  rewrite (take_app_length' (chars (zfill 2 a))) by (rewrite L; lia).
  rewrite !(drop_app_length' (chars (zfill 2 a))) by (rewrite L; lia).
  change 4%nat with (2 + 2)%nat. rewrite <- (drop_drop _ 2 2), !(drop_app_length' (chars (zfill 2 a))) by (rewrite L; lia).
  rewrite (take_app_length' (chars (zfill 2 b))), (drop_app_length' (chars (zfill 2 b))) by (rewrite L; lia).
  rewrite !int_of_digits_zfill, !length_app, !L by done. done.
Qed.

(** *** Dates *)

Lemma text_take n t : map to_ascii (take n t) = take n (map to_ascii t).
Proof. apply (fmap_take to_ascii). Qed.
Lemma text_drop n t : map to_ascii (drop n t) = drop n (map to_ascii t).
Proof. apply (fmap_drop to_ascii). Qed.

Lemma ascii_in low high c :
  (48 <= low)%N -> (high <= 57)%N -> in_range low high c = true -> is_decimal c = true /\ c = N_of_ascii (to_ascii c).
Proof.
  intros H1 H2 [H3%N.leb_le H4%N.leb_le]%andb_true_iff. apply ascii_range.
  apply andb_true_iff. split; apply N.leb_le; lia.
Qed.

Lemma char_is_ascii c n : (48 <= n <= 57)%N -> (c =? n)%N = true -> is_decimal c = true /\ c = N_of_ascii (to_ascii c).
Proof. intros H ->%N.eqb_eq. apply ascii_range. apply andb_true_iff. split; apply N.leb_le; lia. Qed.

(** What the patterns of the month and the day say of the digits. *)
Lemma month_ascii m1 m2 : month_matches m1 m2 = true -> m1 = N_of_ascii (to_ascii m1) /\ m2 = N_of_ascii (to_ascii m2).
Proof.
  unfold month_matches. intros [[H1 H2]%andb_true_iff|[H1 H2]%andb_true_iff]%orb_true_iff.
  all: apply char_is_ascii in H1 as [_ H1]; [|lia]; apply ascii_in in H2 as [_ H2]; [|lia..]; by split.
Qed.

Lemma day_ascii d1 d2 : day_matches d1 d2 = true ->
  d1 = N_of_ascii (to_ascii d1) /\ (d2 = N_of_ascii (to_ascii d2) \/ in_range 49 50 d1 = true).
Proof.
  unfold day_matches.
  intros [[[H1 H2]%andb_true_iff|[H1 H2]%andb_true_iff]%orb_true_iff|[H1 H2]%andb_true_iff]%orb_true_iff.
  - apply char_is_ascii in H1 as [_ H1]; [|lia]. apply ascii_in in H2 as [_ H2]; [|lia..]. auto.
  - pose proof H1 as H3. apply ascii_in in H1 as [_ H1]; [|lia..]. auto.
  - apply char_is_ascii in H1 as [_ H1]; [|lia]. apply ascii_in in H2 as [_ H2]; [|lia..]. auto.
Qed.

(** Conversely, the digits of a month and of a day match. *)
Lemma all_match (f : N -> N -> bool) (low n : nat) z :
  forallb (fun z => match points (zfill 2 (Z.to_N z)) with [a; b] => f a b | _ => false end)
    (map Z.of_nat (seq low n)) = true ->
  Z.of_nat low <= z < Z.of_nat (low + n) ->
  exists a b, points (zfill 2 (Z.to_N z)) = [a; b] /\ f a b = true.
Proof.
  intros H Hz. rewrite forallb_forall in H. specialize (H z).
  destruct (points (zfill 2 (Z.to_N z))) as [|a [|b [|]]].
  3:{ exists a, b. split; [done|]. apply H, in_map_iff. exists (Z.to_nat z). rewrite in_seq. lia. }
  all: discriminate H; apply in_map_iff; exists (Z.to_nat z); rewrite in_seq; lia.
Qed.

Lemma month_digits m : 1 <= m <= 12 ->
  exists m1 m2, points (zfill 2 (Z.to_N m)) = [m1; m2] /\ month_matches m1 m2 = true.
Proof. intros H. apply (all_match month_matches 1 12); [by vm_compute|lia]. Qed.

Lemma day_digits d : 1 <= d <= 31 ->
  exists d1 d2, points (zfill 2 (Z.to_N d)) = [d1; d2] /\ day_matches d1 d2 = true.
Proof. intros H. apply (all_match day_matches 1 31); [by vm_compute|lia]. Qed.

Lemma points_app a b : points (a ++ b) = (points a ++ points b)%list.
Proof. unfold points. by rewrite chars_app, map_app. Qed.

Lemma date_text_digits d : all_digits (date_yymmdd d).
Proof. unfold date_yymmdd. destruct (civil_from_days d) as [[y m] x]. rewrite !all_digits_app. split_and!; apply zfill_digits. Qed.

(** A written date has the digits of the date. *)
Lemma written_digits e d :
  written_date e d -> forallb is_decimal e = true /\ map to_ascii e = chars (date_yymmdd d).
Proof.
  intros (y1 & y2 & m1 & m2 & d1 & d2 & y1' & y2' & d2' & Ep & -> & H1 & H2 & H3).
  apply same_digits; [apply date_text_digits|]. rewrite Ep.
  assert (K : Forall (fun c => same_digit c c) [m1; m2; d1; d2]).
  { assert (A : Forall (fun c => same_digit c c) (points (date_yymmdd d))).
    { apply Forall_forall. intros c (a & <- & Ha)%in_map_iff. pose proof (date_text_digits d) as A.
      unfold all_digits in A. rewrite Forall_forall in A. destruct (ascii_digit_itself _ (A a Ha)). by split. }
    rewrite Ep, !Forall_cons_iff in A. rewrite !Forall_cons_iff. tauto. }
  rewrite !Forall_cons_iff in K. destruct K as (? & ? & ? & ? & _).
  do 5 (constructor; [done|]). constructor; [by destruct H3 as [->|[_ ?]]|constructor].
Qed.

Lemma strptime_render e d :
  two_digit_year d -> written_date e d ->
  strptime_yymmdd e = Ok d /\ forallb is_decimal e = true /\ length e = 6%nat.
Proof.
  intros Hy Hw. destruct (written_digits e d Hw) as [Hd Ed].
  assert (Le : length e = 6%nat) by (destruct Hw as (?&?&?&?&?&?&?&?&?&_&->&_); done).
  split_and!; [|done|done]. unfold two_digit_year, date_yymmdd in *. unfold strptime_yymmdd.
  pose proof (civil_days_roundtrip d) as Hr. destruct (civil_from_days d) as [[y m] x] eqn:Ec.
  destruct Hr as (Er & Hm & Hx).
  assert (x <= 31) by (unfold days_in_month in Hx; repeat case_match; lia).
  pose proof (Z.mod_pos_bound y 100).
  assert (Hmatch : yymmdd_matches e = true).
  { destruct Hw as (y1 & y2 & m1 & m2 & d1 & d2 & y1' & y2' & d2' & Ep & -> & _ & _ & H3).
    unfold date_yymmdd in Ep. rewrite Ec, !points_app in Ep.
    destruct (month_digits m) as (a1 & a2 & Ea & Hmm); [lia|]. destruct (day_digits x) as (b1 & b2 & Eb & Hdd); [lia|].
    rewrite Ea, Eb in Ep. assert (L2 : length (points (zfill 2 (Z.to_N (y mod 100)))) = 2%nat).
    { unfold points. rewrite length_map, length_chars. apply zfill_length; [lia|]. lia. }
    destruct (points (zfill 2 (Z.to_N (y mod 100)))) as [|? [|? [|]]]; try discriminate.
    injection Ep as <- <- <- <- <- <-. cbn [yymmdd_matches]. rewrite Hmm. cbn [andb].
    destruct H3 as [->|[R [Hs _]]]; [done|]. unfold day_matches. by rewrite R, Hs, orb_true_r. }
  destruct (zfill2_parts (Z.to_N (y mod 100)) (Z.to_N m) (Z.to_N x)) as (E1 & E2 & E3 & _); [lia..|].
  rewrite <- Ed in E1, E2, E3. rewrite Hmatch. unfold int_of_text. rewrite !text_take, !text_drop, E1, E2, E3, !Z2N.id by lia.
  assert ((if y mod 100 <=? 68 then 2000 + y mod 100 else 1900 + y mod 100) = y) as ->.
  { destruct (Z.leb_spec (y mod 100) 68); dlia. }
  unfold make_date. rewrite !(proj2 (Z.leb_le _ _)) by lia. cbn [andb]. by rewrite Er.
Qed.

Lemma strptime_inv e d :
  forallb is_decimal e = true -> length e = 6%nat -> strptime_yymmdd e = Ok d ->
  written_date e d /\ two_digit_year d.
Proof.
  intros He Hl H. unfold strptime_yymmdd in H. destruct (yymmdd_matches e) eqn:Hmatch; [|discriminate].
  set (e' := of_chars (map to_ascii e)).
  assert (Ee : chars e' = map to_ascii e) by apply chars_of_chars.
  assert (Hd : all_digits e') by (apply forallb_digits, decimals_digits, He).
  assert (Ll : String.length e' = 6%nat) by (by rewrite <- length_chars, Ee, length_map).
  destruct (six_digits e' Hd Ll) as [Es Hyy]. unfold int_of_text in H. rewrite !text_take, !text_drop, <- Ee in H.
  set (yy := int_of_digits (take 2 (chars e'))) in *.
  set (m := int_of_digits (take 2 (drop 2 (chars e')))) in *.
  set (x := int_of_digits (drop 4 (chars e'))) in *.
  revert H. cbn zeta. unfold make_date. set (y := if yy <=? 68 then 2000 + yy else 1900 + yy).
  destruct (_ && _) eqn:H; [|discriminate]. intros [= <-].
  rewrite !andb_true_iff, !Z.leb_le in H. destruct H as [[[[[H1 H2] H3] H4] H5] H6].
  assert (Hv : valid_civil y m x) by (split; lia).
  assert (Ey : y mod 100 = yy /\ 1969 <= y <= 2068) by (subst y; destruct (Z.leb_spec yy 68); dlia).
  destruct Ey as [Ey Hr]. split.
  - assert (Et : date_yymmdd (days_from_civil y m x) = e')
      by (unfold date_yymmdd; by rewrite (days_civil_roundtrip y m x Hv), Ey).
    unfold written_date, points. rewrite Et, Ee.
    destruct e as [|a1 [|a2 [|a3 [|a4 [|a5 [|a6 [|]]]]]]]; try discriminate.
    cbn [yymmdd_matches] in Hmatch. apply andb_true_iff in Hmatch as [Hm Hx].
    apply month_ascii in Hm as [M1 M2]. apply day_ascii in Hx as [D1 D2].
    cbn [forallb] in He. rewrite !andb_true_iff in He. destruct He as (S1 & S2 & S3 & S4 & S5 & S6 & _).
    cbn [map]. rewrite <- M1, <- M2, <- D1. do 9 eexists. split; [reflexivity|]. split; [reflexivity|].
    split_and!; [by apply same_as_ascii..|]. destruct D2 as [D2|D2]; [by left|right; split; [done|by apply same_as_ascii]].
  - unfold two_digit_year. by rewrite (days_civil_roundtrip y m x Hv).
Qed.

Lemma strike_exact n :
  (n < 10 ^ 8)%N -> exists p, ddiv (Dint (Z.of_N n)) (Dint 1000) = Ok p /\
    finite p /\ (dval p == inject_Z (Z.of_N n) / 1000)%Q.
Proof.
  intros Hn. destruct (ddiv_total (Dint (Z.of_N n)) (Dint 1000)) as [p Hp]; [done|done| | |].
  - rewrite dval_Dint. discriminate.
  - rewrite !dval_Dint. rewrite Qabs.Qabs_pos.
    + apply Qle_trans with (inject_Z (10 ^ 8)).
      * apply Qle_shift_div_r; [reflexivity|]. rewrite <- inject_Z_mult, <- Zle_Qle. lia.
      * rewrite <- (p10_Z 8) by lia. apply p10_le. done.
    + apply Qle_shift_div_l; [reflexivity|]. rewrite Qmult_0_l.
      change 0%Q with (inject_Z 0). rewrite <- Zle_Qle. lia.
  - exists p. split; [done|]. apply ddiv_spec in Hp as [Fp Hp]; [|done..]. split; [done|].
    rewrite !dval_Dint in Hp. change (inject_Z 1000) with 1000%Q in Hp.
    apply faithful_exact; [done|].
    assert (inject_Z (Z.of_N n) / 1000 == inject_Z (Z.of_N n) * p10 (-3))%Q as -> by reflexivity.
    apply repr_dec; [|done]. change (10 ^ prec) with (10 ^ 8 * 10 ^ 20).
    assert (Z.of_N n < 10 ^ 8) by (change (10 ^ 8) with (Z.of_N (10 ^ 8)); lia). lia.
Qed.

(** *** Roots *)

Lemma root_ascii root : root_matches root = true -> points (root_string root) = root.
Proof.
  intros H. assert (A : Forall (fun c => c < 128)%N root).
  { assert (U : forall l, forallb is_upper l = true -> Forall (fun c => c < 128)%N l).
    { intros l Hl. rewrite forallb_forall in Hl. apply Forall_forall. intros c Hc.
      specialize (Hl c Hc). apply andb_true_iff in Hl as [_ Hl%N.leb_le]. lia. }
    assert (G : forall l, forallb is_ascii_digit l = true -> Forall (fun c => c < 128)%N l).
    { intros l Hl. rewrite forallb_forall in Hl. apply Forall_forall. intros c Hc.
      specialize (Hl c Hc). apply andb_true_iff in Hl as [_ Hl%N.leb_le]. lia. }
    unfold root_matches in H. rewrite !andb_true_iff, !orb_true_iff, !andb_true_iff in H.
    destruct H as [_ [[H|[[_ H1] H2]]|[[_ H1] H2]]]; [by apply U| |].
    - rewrite <- (take_drop (length root - 1) root). apply Forall_app. auto.
    - rewrite <- (take_drop 1 root). apply Forall_app. auto. }
  unfold points, root_string. rewrite chars_of_chars. clear H.
  induction A as [|c l Hc Hl IH]; [done|]. cbn [map]. rewrite IH, N_ascii_embedding by lia. done.
Qed.

Lemma root_points root : root_string (points root) = root.
Proof.
  unfold points, root_string. rewrite <- (of_chars_chars root) at 2. f_equal.
  induction (chars root) as [|a l IH]; [done|]. cbn. by rewrite ascii_N_embedding, IH.
Qed.

Lemma ascii_written e d : written_date e d -> Forall (fun c => c < 128)%N e -> e = points (date_yymmdd d).
Proof.
  intros Hw Ha. destruct (written_digits e d Hw) as [Hd Ed]. unfold points. rewrite <- Ed.
  clear Hw Ed. induction Ha as [|c l Hc Hl IH]; [done|]. cbn in Hd |- *. apply andb_true_iff in Hd as [H1 H2].
  rewrite <- (below_ascii c) by done. by rewrite <- IH.
Qed.

Lemma ascii_strike k n : written_strike k n -> Forall (fun c => c < 128)%N k -> k = points (zfill 8 n).
Proof.
  intros [Hd Ed]%same_digits Ha; [|apply zfill_digits]. unfold points. rewrite <- Ed. clear Ed.
  induction Ha as [|c l Hc Hl IH]; [done|]. cbn in Hd |- *. apply andb_true_iff in Hd as [H1 H2].
  rewrite <- (below_ascii c) by done. by rewrite <- IH.
Qed.

(** C18: Parsing option symbols is exact.  A text of any code points is accepted, with a given
    contract as result, exactly when it is the contract's root, an expiration (1969 to 2068)
    written as yymmdd, the right and a strike of eight digits, where the digits of the year,
    the last digit of a day from 10 to 29 and the digits of the strike may be decimal digits of
    any script, and all other characters are those of the canonical rendering; an ASCII text
    that is accepted is the canonical rendering.  The strike price is the number over 1000
    without rounding, and the contract is marked adjusted exactly when its root starts or ends
    in a digit. *)
Theorem parse_option_contract_symbol_exact s r :
  parse_option_contract_symbol s = Ok r <->
  exists e k strike,
    s = (points (root_symbol r) ++ e ++ N_of_ascii (right r) :: k)%list /\
    root_matches (points (root_symbol r)) = true /\
    two_digit_year (expiration_date r) /\ written_date e (expiration_date r) /\
    (right r = "C"%char \/ right r = "P"%char) /\ (strike < 10 ^ 8)%N /\ written_strike k strike /\
    symbol r = s /\ ddiv (Dint (Z.of_N strike)) (Dint 1000) = Ok (strike_price r) /\
    (dval (strike_price r) == inject_Z (Z.of_N strike) / 1000)%Q /\
    is_adjusted r =
      (head_is_digit (chars (root_symbol r)) || head_is_digit (rev (chars (root_symbol r)))) /\
    (Forall (fun c => c < 128)%N s ->
     s = points (render_symbol (root_symbol r) (expiration_date r) (right r) strike)).
Proof.
  unfold parse_option_contract_symbol. split.
  - destruct (symbol_match s) as [[[[root e] c] k]|] eqn:Em; [|discriminate].
    apply symbol_match_inv in Em as (-> & Hr & He & Le & Hc & Hk & Lk).
    destruct (strptime_yymmdd e) as [d|[]] eqn:Ed; try discriminate. cbn [try_with mbind M_bind].
    apply strptime_inv in Ed as [Hw Hy]; [|done..].
    pose proof (decimals_digits k Hk) as Hk'. pose proof (int_of_digits_range _ Hk') as Hn.
    rewrite length_map, Lk in Hn. unfold int_of_text. set (n := int_of_digits (map to_ascii k)) in *.
    destruct (ddiv _ _) as [p|] eqn:Ep; [|discriminate]. intros [= <-].
    cbn [root_symbol expiration_date right symbol strike_price is_adjusted].
    assert (Hn' : (Z.to_N n < 10 ^ 8)%N) by (change (10 ^ Z.of_nat 8) with (Z.of_N (10 ^ 8)) in Hn; lia).
    destruct (strike_exact (Z.to_N n) Hn') as (p' & Ep' & _ & Vp).
    rewrite !Z2N.id in * by lia. assert (p' = p) as -> by congruence.
    assert (Ec : N_of_ascii (ascii_of_N c) = c) by (by destruct Hc as [->| ->]).
    assert (Hs : written_strike k (Z.to_N n)).
    { apply same_digits; [apply zfill_digits|]. split; [done|].
      unfold n. rewrite <- (of_chars_zfill 8 (map to_ascii k)) by (done || lia || by rewrite length_map).
      by rewrite chars_of_chars. }
    exists e, k, (Z.to_N n). rewrite !Z2N.id, root_ascii, Ec by (done || lia).
    split_and!; try done; [by destruct Hc as [->| ->]; auto|].
    intros A. rewrite !Forall_app, Forall_cons_iff in A. destruct A as (_ & Ae & _ & Ak).
    unfold render_symbol. rewrite !points_app, root_ascii, (ascii_written e d), (ascii_strike k (Z.to_N n)) by done.
    unfold points. cbn [chars map]. by rewrite Ec.
  - destruct r as [s' root d c p adj]. cbn [root_symbol expiration_date right symbol strike_price is_adjusted].
    intros (e & k & n & -> & Hr & Hy & Hw & Hc & Hn & Hs & -> & Hp & _ & -> & _).
    destruct (strptime_render e d Hy Hw) as (Ed & Hd & Ld).
    apply same_digits in Hs as [Dk Ek]; [|apply zfill_digits].
    assert (Lk : length k = 8%nat).
    { rewrite <- (length_map to_ascii k), Ek, length_chars. apply zfill_length; [lia|exact Hn]. }
    rewrite symbol_match_parts.
    + rewrite Ed. cbn [try_with mbind M_bind]. unfold int_of_text. rewrite Ek, int_of_digits_zfill, Hp.
      cbn [mbind M_bind]. rewrite root_points, ascii_N_embedding. reflexivity.
    + split_and!; try done. by destruct Hc as [->| ->]; auto.
Qed.
