(* ===== verification/OrderLimits.v ===== *)
(** * Order limits and the entry budget

    [backend/app/order_limits.py]: the structural caps and the validation of a proposed
    entry against the frozen limits of a policy. *)

From Stdlib Require Import ZArith Lia String List Bool QArith Lqa.
From stdpp Require Import base list strings option tactics.
From S2P Require Import Prelude PyText PyDecimal PyDecimalFacts.

#[local] Open Scope Z_scope.

Definition MAX_STRUCTURAL_OPTION_QUANTITY : Z := 100.
Definition MAX_STRUCTURAL_APPROVED_RISK : decimal := Dint 100000.
Definition MAX_STRUCTURAL_LIFETIME_ENTRIES : Z := 1000.
Definition MAX_STRUCTURAL_LIFETIME_RISK : decimal := Dint 100000.
Definition STRUCTURAL_PILOT_PER_CONTRACT_RISK : decimal := Dint 225.
Definition SUBMISSION_STRUCTURAL_OPTION_QUANTITY : Z := 5.
Definition SUBMISSION_STRUCTURAL_APPROVED_RISK : M decimal :=
  dmul STRUCTURAL_PILOT_PER_CONTRACT_RISK (Dint SUBMISSION_STRUCTURAL_OPTION_QUANTITY).
Definition SUBMISSION_STRUCTURAL_LIFETIME_ENTRIES : Z := 10.
Definition SUBMISSION_STRUCTURAL_LIFETIME_RISK : M decimal :=
  risk ← SUBMISSION_STRUCTURAL_APPROVED_RISK;
  dmul risk (Dint SUBMISSION_STRUCTURAL_LIFETIME_ENTRIES).

Record EntryBudgetLimits := mk_EntryBudgetLimits {
  limits_policy_hash : string;
  equity_floor : decimal;
  maximum_lifetime_entries : Z;
  maximum_lifetime_risk : decimal;
  maximum_position_loss : decimal;
  maximum_entry_quantity : Z;
}.

(** The constructor of the dataclass with its [__post_init__]. *)
Definition make_EntryBudgetLimits (self : EntryBudgetLimits) : M EntryBudgetLimits :=
  when negb (is_hash (limits_policy_hash self))
       ||| negb (forallb is_finite
             [equity_floor self; maximum_lifetime_risk self; maximum_position_loss self])
       ||| (equity_floor self <. Dint 0)
       ||| negb ((1 <=? maximum_lifetime_entries self)
                 && (maximum_lifetime_entries self <=? MAX_STRUCTURAL_LIFETIME_ENTRIES))
       ||| not ((Dint 0 <. maximum_position_loss self)
                &&& (maximum_position_loss self <=. MAX_STRUCTURAL_APPROVED_RISK))
       ||| not ((maximum_position_loss self <=. maximum_lifetime_risk self)
                &&& (maximum_lifetime_risk self <=. MAX_STRUCTURAL_LIFETIME_RISK))
       ||| negb ((1 <=? maximum_entry_quantity self)
                 && (maximum_entry_quantity self <=? MAX_STRUCTURAL_OPTION_QUANTITY))
  then_ Raise (ValueError "ENTRY_BUDGET_LIMITS_INVALID");;
  Ok self.

Definition validate_entry (self : EntryBudgetLimits) (policy_hash : string) (equity : decimal)
    (entries_used : Z) (lifetime_risk proposed_risk : decimal) (proposed_quantity : Z) : M unit :=
  when negb (String.eqb policy_hash (limits_policy_hash self))
  then_ Raise (ValueError "ENTRY_POLICY_AUTHORITY_MISMATCH");;
  when equity <=. equity_floor self then_ Raise (ValueError "ENTRY_EQUITY_FLOOR");;
  when maximum_lifetime_entries self <=? entries_used
  then_ Raise (ValueError "ENTRY_COUNT_EXHAUSTED");;
  when proposed_risk >. maximum_position_loss self
  then_ Raise (ValueError "ENTRY_POSITION_RISK_EXHAUSTED");;
  total ← dadd lifetime_risk proposed_risk;
  when total >. maximum_lifetime_risk self then_ Raise (ValueError "ENTRY_RISK_EXHAUSTED");;
  when negb ((1 <=? proposed_quantity) && (proposed_quantity <=? maximum_entry_quantity self))
  then_ Raise (ValueError "ENTRY_QUANTITY_EXHAUSTED");;
  Ok tt.

(** ** The gate in exact arithmetic *)

(** What the constructor establishes. *)
Lemma make_EntryBudgetLimits_inv self r :
  make_EntryBudgetLimits self = Ok r ->
  r = self /\ is_hash (limits_policy_hash self) = true /\
  finite (equity_floor self) /\ finite (maximum_lifetime_risk self) /\
  finite (maximum_position_loss self) /\ (0 <= dval (equity_floor self))%Q /\
  (0 < dval (maximum_position_loss self) <= dval (maximum_lifetime_risk self))%Q /\
  1 <= maximum_lifetime_entries self <= MAX_STRUCTURAL_LIFETIME_ENTRIES /\
  1 <= maximum_entry_quantity self <= MAX_STRUCTURAL_OPTION_QUANTITY.
Proof.
  unfold make_EntryBudgetLimits. intros H. inv_ok H. cbn [forallb] in *.
  autorewrite with py in *. repeat inv_step. dec_facts. zbool. by split_and!.
Qed.

(** C16: The entry gate decides exactly the budget it documents: under limits the
    constructor accepted and for cash amounts, an entry passes if and only if it carries the
    policy the limits are bound to, equity is strictly above the floor, an entry is
    left, its own risk fits the position cap, the lifetime risk including it (as a
    rational sum, so no rounding error can leak budget) fits the lifetime cap, and the
    quantity is between one and the cap. *)
Theorem validate_entry_exact limits hash equity used lifetime proposed quantity :
  make_EntryBudgetLimits limits = Ok limits ->
  finite equity -> cash lifetime -> cash proposed ->
  validate_entry limits hash equity used lifetime proposed quantity = Ok tt <->
  hash = limits_policy_hash limits /\
  (dval (equity_floor limits) < dval equity)%Q /\
  used < maximum_lifetime_entries limits /\
  (dval proposed <= dval (maximum_position_loss limits))%Q /\
  (dval lifetime + dval proposed <= dval (maximum_lifetime_risk limits))%Q /\
  1 <= quantity <= maximum_entry_quantity limits.
Proof.
  intros (_ & _ & Ff & Fl & Fp & _)%make_EntryBudgetLimits_inv Fe Cl Cp.
  destruct (amount_add _ _ _ _ _ Cl Cp ltac:(reflexivity) cash_exp) as (r & Hr & [Fr _] & E).
  pose proof (proj1 Cp) as Fpr. unfold validate_entry. rewrite Hr. cbn [mbind M_bind].
  autorewrite with py.
  rewrite !dlt_ok_false, dle_ok_false, E, String.eqb_eq, Z.leb_gt, !Z.leb_le by done.
  intuition.
Qed.

Definition pilot_limits : EntryBudgetLimits :=
  {| limits_policy_hash := hex_of_N 64 7; equity_floor := Dint 95000;
     maximum_lifetime_entries := 10; maximum_lifetime_risk := Dint 11250;
     maximum_position_loss := Dint 1125; maximum_entry_quantity := 5 |}.

Lemma validate_entry_exact_witness :
  make_EntryBudgetLimits pilot_limits = Ok pilot_limits /\
  validate_entry pilot_limits (hex_of_N 64 7) (Dint 100000) 3 (D 33757 (-1)) (D 112500 (-2)) 5 = Ok tt.
Proof.
  split; [vm_compute; reflexivity|].
  apply (validate_entry_exact pilot_limits).
  - vm_compute; reflexivity.
  - reflexivity.
  - apply amount_D; [lia|vm_compute; discriminate].
  - apply amount_D; [lia|vm_compute; discriminate].
  - split_and!; [reflexivity|reflexivity|reflexivity|vm_compute; discriminate
                |vm_compute; discriminate|lia|vm_compute; discriminate].
Defined.
