(* ===== verification/OrderStatus.v ===== *)
(** * Broker order states

    [backend/app/execution/order_status.py]: the known order states, their phase, the
    lookup policy of the pending ones, and which fills each state allows. *)

From Stdlib Require Import ZArith Lia String List Bool.
From stdpp Require Import base list strings gmap option tactics.
From S2P Require Import Prelude PyText PyTime.

#[local] Open Scope Z_scope.

Inductive BrokerOrderPhase := MUTATION_ELIGIBLE | LOOKUP_ONLY | TERMINAL_PHASE.

#[export] Instance BrokerOrderPhase_eq_dec : EqDecision BrokerOrderPhase.
Proof. solve_decision. Defined.

(** [frozenset] of state names. *)
Definition states := list string.
Definition in_states (s : string) (l : states) : bool := existsb (String.eqb s) l.

Definition MUTATION_ELIGIBLE_BROKER_ORDER_STATES : states :=
  ["NEW"; "PARTIALLY_FILLED"; "ACCEPTED"; "PENDING_NEW"]%string.
Definition LOOKUP_ONLY_BROKER_ORDER_STATES : states :=
  ["DONE_FOR_DAY"; "PENDING_CANCEL"; "PENDING_REPLACE"; "PENDING_REVIEW";
   "ACCEPTED_FOR_BIDDING"; "STOPPED"; "SUSPENDED"; "CALCULATED"; "HELD"]%string.
Definition TERMINAL_BROKER_ORDER_STATES : states :=
  ["FILLED"; "CANCELED"; "EXPIRED"; "REPLACED"; "REJECTED"]%string.
Definition PENDING_BROKER_ORDER_STATES : states :=
  MUTATION_ELIGIBLE_BROKER_ORDER_STATES ++ LOOKUP_ONLY_BROKER_ORDER_STATES.
Definition KNOWN_BROKER_ORDER_STATES : states :=
  PENDING_BROKER_ORDER_STATES ++ TERMINAL_BROKER_ORDER_STATES.
Definition FINALIZABLE_BROKER_ORDER_STATES : states :=
  TERMINAL_BROKER_ORDER_STATES ++ ["CALCULATED"%string].
Definition _ZERO_FILL_PENDING_STATES : states :=
  ["NEW"; "PENDING_REVIEW"; "ACCEPTED"; "PENDING_NEW"; "ACCEPTED_FOR_BIDDING";
   "HELD"; "STOPPED"]%string.

Record BrokerLookupPolicy := mk_BrokerLookupPolicy {
  cadence : timedelta;
  deadline : timedelta;
}.

Definition _DEFAULT_LOOKUP_POLICY : BrokerLookupPolicy :=
  mk_BrokerLookupPolicy (seconds 30) (minutes 10).
Definition _LOOKUP_POLICIES (state : string) : option BrokerLookupPolicy :=
  if String.eqb state "DONE_FOR_DAY" then
    Some (mk_BrokerLookupPolicy (minutes 30) (hours 36))
  else if String.eqb state "CALCULATED" then
    Some (mk_BrokerLookupPolicy (minutes 1) (minutes 30))
  else None.

Definition normalize_broker_order_state (value : string) : M string :=
  when negb (str_nonempty value) || negb (String.eqb (str_strip value) value)
  then_ Raise (ValueError "BROKER_ORDER_STATE_INVALID");;
  let state := str_upper value in
  when negb (in_states state KNOWN_BROKER_ORDER_STATES)
  then_ Raise (ValueError "BROKER_ORDER_STATE_UNKNOWN");;
  Ok state.

Definition broker_lookup_policy (value : string) : M BrokerLookupPolicy :=
  state ← normalize_broker_order_state value;
  when negb (in_states state PENDING_BROKER_ORDER_STATES)
  then_ Raise (ValueError "BROKER_LOOKUP_POLICY_STATE_INVALID");;
  Ok (default _DEFAULT_LOOKUP_POLICY (_LOOKUP_POLICIES state)).

Definition broker_order_phase (value : string) : M BrokerOrderPhase :=
  state ← normalize_broker_order_state value;
  if in_states state MUTATION_ELIGIBLE_BROKER_ORDER_STATES then Ok MUTATION_ELIGIBLE
  else if in_states state LOOKUP_ONLY_BROKER_ORDER_STATES then Ok LOOKUP_ONLY
  else Ok TERMINAL_PHASE.

Definition broker_state_matches_fill (state : string) (filled_quantity quantity : Z) : M bool :=
  state ← normalize_broker_order_state state;
  if negb ((0 <=? filled_quantity) && (filled_quantity <=? quantity)) then Ok false
  else if in_states state _ZERO_FILL_PENDING_STATES || String.eqb state "REJECTED" then
    Ok (filled_quantity =? 0)
  else if String.eqb state "PARTIALLY_FILLED" then
    Ok ((0 <? filled_quantity) && (filled_quantity <? quantity))
  else if String.eqb state "FILLED" then Ok (filled_quantity =? quantity)
  else if String.eqb state "CALCULATED" then Ok true
  else if in_states state PENDING_BROKER_ORDER_STATES
          || in_states state ["CANCELED"; "EXPIRED"; "REPLACED"]%string then
    Ok (filled_quantity <? quantity)
  else Ok false.

(** ** Phases and fills *)

Lemma in_states_spec s l : in_states s l = true <-> s ∈ l.
Proof.
  unfold in_states. rewrite existsb_exists. setoid_rewrite <- list_elem_of_In.
  split; [intros (x & Hx & ->%String.eqb_eq)|intros H; exists s; rewrite String.eqb_refl]; done.
Qed.

Lemma normalize_known value state :
  normalize_broker_order_state value = Ok state -> state ∈ KNOWN_BROKER_ORDER_STATES.
Proof. unfold normalize_broker_order_state. intros H. inv_ok H. by apply in_states_spec. Qed.

(** Case analysis on the states the code knows. *)
Ltac known_state H :=
  apply normalize_known in H; cbn in H; set_unfold in H;
  repeat destruct H as [H|H]; try contradiction; subst.

(** C19: The broker state and the fill agree.  An order that may still be replaced or
    cancelled (a mutation eligible state) has a positive remaining quantity; an order
    filled completely is [FILLED], or [CALCULATED] and then looked up further, never
    mutated; [FILLED] says the whole quantity is filled and [REJECTED] that nothing is;
    and every fill is between zero and the quantity. *)
Theorem broker_fill_agrees value filled quantity :
  0 < quantity ->
  broker_state_matches_fill value filled quantity = Ok true ->
  exists state,
    normalize_broker_order_state value = Ok state /\ 0 <= filled <= quantity /\
    (broker_order_phase value = Ok MUTATION_ELIGIBLE -> filled < quantity) /\
    (filled = quantity ->
       (state = "FILLED" /\ broker_order_phase value = Ok TERMINAL_PHASE) \/
       (state = "CALCULATED" /\ broker_order_phase value = Ok LOOKUP_ONLY))%string /\
    ((state = "FILLED")%string -> filled = quantity) /\
    ((state = "REJECTED")%string -> filled = 0).
Proof.
  intros Hq H. unfold broker_state_matches_fill, broker_order_phase in *.
  apply bind_ok in H as (state & Hn & H). exists state. rewrite Hn. cbn [mbind M_bind].
  split; [done|]. known_state Hn; cbn in *;
    destruct (Z.leb_spec 0 filled), (Z.leb_spec filled quantity); cbn in *; try discriminate;
    try injection H as H; try apply andb_true_iff in H as [? H]; zbool; try done;
    split_and!; intros; try discriminate; try lia; auto.
Qed.

Lemma broker_fill_agrees_witness :
  broker_state_matches_fill "partially_filled" 2 5 = Ok true /\
  exists state, normalize_broker_order_state "partially_filled" = Ok state.
Proof.
  split; [reflexivity|].
  destruct (broker_fill_agrees "partially_filled" 2 5) as (state & H & _);
    [lia|reflexivity|by exists state].
Defined.
