(* ===== verification/Evaluation.v ===== *)
(** * The assessment policy

    [backend/app/policy/evaluation.py]: evidence scoring, freshness, the drift score of
    a position and the decision (hold, close, roll or nothing) taken from them. *)

From Stdlib Require Import ZArith Lia String List Bool QArith Qabs Qminmax Lqa.
From stdpp Require Import base strings gmap option tactics list.
From S2P Require Import Prelude PyText PyDecimal PyDecimalFacts PyTime Contracts.

#[local] Open Scope Z_scope.

(** ** Data *)

Definition ZERO : decimal := Dint 0.
Definition HUNDRED : decimal := Dint 100.

Definition SOURCE_WEIGHTS (tier : EvidenceTier) : decimal :=
  match tier with
  | PRIMARY => D 10 (-1)
  | ORIGINAL_REPORTING => D 8 (-1)
  | SECONDARY => D 5 (-1)
  end.

Record EvidenceClaim := mk_EvidenceClaim {
  ec_cluster_id : string;
  ec_relation : EvidenceRelation;
  ec_materiality : Z;
  ec_relevance : decimal;
  ec_confidence : decimal;
  ec_source_tier : EvidenceTier;
  ec_invalidates : bool;
  ec_independent_reporting_group : option string;
}.

Record EvidenceResult := mk_EvidenceResult {
  er_state : EvidenceState;
  er_net_evidence : option decimal;
  er_evidence_drift : option decimal;
  er_thesis_status : ThesisStatus;
}.

Inductive VolatilityView := LONG | SHORT | VV_NEUTRAL.

#[export] Instance VolatilityView_eq_dec : EqDecision VolatilityView.
Proof. solve_decision. Defined.

Inductive FreshnessKind :=
  | ACCOUNT | POSITIONS | OPEN_ORDERS | UNDERLYING_QUOTE | COMPLETED_BAR
  | OPTION_SNAPSHOT | NEWS.

#[export] Instance FreshnessKind_eq_dec : EqDecision FreshnessKind.
Proof. solve_decision. Defined.

#[export] Instance FreshnessKind_value : StrEnum FreshnessKind := fun k =>
  match k with
  | ACCOUNT => "ACCOUNT" | POSITIONS => "POSITIONS" | OPEN_ORDERS => "OPEN_ORDERS"
  | UNDERLYING_QUOTE => "UNDERLYING_QUOTE" | COMPLETED_BAR => "COMPLETED_BAR"
  | OPTION_SNAPSHOT => "OPTION_SNAPSHOT" | NEWS => "NEWS"
  end%string.

Definition FRESHNESS_LIMITS (k : FreshnessKind) : timedelta :=
  match k with
  | ACCOUNT | POSITIONS | OPEN_ORDERS => seconds 15
  | UNDERLYING_QUOTE => seconds 30
  | COMPLETED_BAR => seconds 120
  | OPTION_SNAPSHOT => seconds 30
  | NEWS => minutes 15
  end.

Record FreshnessInput := mk_FreshnessInput {
  fi_kind : FreshnessKind;
  fi_observed_at : datetime;
  fi_retrieval_time_only : bool;
}.

Record FreshnessResult := mk_FreshnessResult {
  fr_complete : bool;
  fr_failures : list string;
}.

Record ScoreInput := mk_ScoreInput {
  si_evidence_drift : decimal;
  si_delta : decimal;
  si_delta_low : decimal;
  si_delta_high : decimal;
  si_vega : decimal;
  si_vega_low : decimal;
  si_vega_high : decimal;
  si_theta_per_day : decimal;
  si_max_daily_theta : decimal;
  si_dte : Z;
  si_minimum_dte : Z;
  si_maximum_dte : Z;
  si_horizon_fraction : decimal;
  si_volatility_view : VolatilityView;
  si_entry_atm_iv : decimal;
  si_current_atm_iv : decimal;
  si_liquidation_pnl : decimal;
  si_approved_max_loss : decimal;
}.

Record ScoreResult := mk_ScoreResult {
  sr_evidence_drift : decimal;
  sr_exposure_mismatch : decimal;
  sr_time_pressure : decimal;
  sr_volatility_mismatch : decimal;
  sr_risk_utilization : decimal;
  sr_unrounded_score : decimal;
  sr_display_score : Z;
  sr_dominant_non_evidence_component : string;
}.

Record RollCandidate := mk_RollCandidate {
  rc_valid : bool;
  rc_drift_reduction : Z;
  rc_expiry_extension_days : Z;
  rc_relative_spread : decimal;
  rc_maximum_relative_spread : decimal;
  rc_incremental_debit : decimal;
  rc_maximum_incremental_debit : decimal;
  rc_within_loss_budget : bool;
  rc_covered_verticals : bool;
  rc_no_prior_roll_today : bool;
  rc_expected_after_exposure : option GreekExposure;
}.

Record HardGateInput := mk_HardGateInput {
  hg_verified_invalidation : bool;
  hg_price_confirmation_broken : bool;
  hg_short_dte : option Z;
  hg_short_call_ex_dividend_boundary : bool;
  hg_bounded_as_approved : bool;
  hg_risk_cap_exceeded : bool;
  hg_weekend_gate_failed : bool;
  hg_contest_end_window : bool;
  hg_strategy_close_reason : option string;
}.

Record AssessmentInput := mk_AssessmentInput {
  ai_assessment_id : N;
  ai_run_id : N;
  ai_policy_hash : string;
  ai_quality : DataQuality;
  ai_actual_exposure : option GreekExposure;
  ai_thesis_status : ThesisStatus;
  ai_evidence_state : EvidenceState;
  ai_scores : option ScoreInput;
  ai_execution_failures : list string;
  ai_hard_gates : HardGateInput;
  ai_roll_candidate : option RollCandidate;
  ai_acquisition_manifest_id : option N;
  ai_acquisition_manifest_hash : option string;
}.

(** The contract models the policy returns ([contracts/v1/models.py]). *)
Record Alternative := mk_Alternative {
  alt_action : Action;
  alt_eligible : bool;
  alt_rationale_code : string;
  alt_expected_exposure : option GreekExposure;
}.

Record AssessmentResponse := mk_AssessmentResponse {
  resp_assessment_id : N;
  resp_run_id : N;
  resp_action : Action;
  resp_rationale_code : string;
  resp_quality : DataQuality;
  resp_thesis_status : ThesisStatus;
  resp_evidence_state : EvidenceState;
  resp_execution_decision : ExecutionDecision;
  resp_actual_exposure : option GreekExposure;
  resp_drift_score : option decimal;
  resp_components : option ScoreResult;
  resp_alternatives : list Alternative;
  resp_policy_hash : string;
}.

Record PolicyResult := mk_PolicyResult {
  pr_response : AssessmentResponse;
  pr_execution_decision : ExecutionDecision;
  pr_components : option ScoreResult;
}.

(** ** The drift score *)

Definition clamp (value : decimal) : M decimal :=
  m ← dmax ZERO value; dmin HUNDRED m.

Definition band_deviation (value low high tolerance : decimal) : M decimal :=
  when (low >. high) ||| (tolerance <=. ZERO) then_ Raise (ValueError "INVALID_BAND");;
  when (low <=. value) &&& (value <=. high) then_ Ok ZERO;;
  below ← value <. low;
  distance ← (if below : bool then dsub low value else dsub value high);
  scaled ← dmul HUNDRED distance;
  ratio ← ddiv scaled tolerance;
  clamp ratio.

(** [w * x + w' * x' + ...] with literal weights, left to right. *)
Definition weighted_sum (first : decimal * decimal) (terms : list (decimal * decimal))
    : M decimal :=
  start ← dmul first.1 first.2;
  fold_m (fun total term => product ← dmul term.1 term.2; dadd total product) start terms.

(** [max(d, key=d.__getitem__)]: the first key of the greatest value. *)
Fixpoint dominant_of (best : string * decimal) (items : list (string * decimal)) : M string :=
  match items with
  | [] => Ok best.1
  | item :: items =>
      better ← best.2 <. item.2;
      dominant_of (if better : bool then item else best) items
  end.

Definition delta_mismatch_of (values : ScoreInput) : M decimal :=
  band_deviation (si_delta values) (si_delta_low values) (si_delta_high values) (Dint 25).

Definition vega_tolerance_of (values : ScoreInput) : M decimal :=
  width ← dsub (si_vega_high values) (si_vega_low values); dmax (Dint 1) width.

Definition vega_mismatch_of (values : ScoreInput) (vega_tolerance : decimal) : M decimal :=
  band_deviation (si_vega values) (si_vega_low values) (si_vega_high values) vega_tolerance.

Definition theta_mismatch_of (values : ScoreInput) : M decimal :=
  negative ← dmin (si_theta_per_day values) ZERO;
  decay ← dabs negative;
  excess ← dsub decay (si_max_daily_theta values);
  scaled ← dmul HUNDRED excess;
  ratio ← ddiv scaled (si_max_daily_theta values);
  clamp ratio.

Definition dte_mismatch_of (values : ScoreInput) : M decimal :=
  band_deviation (Dint (si_dte values)) (Dint (si_minimum_dte values))
    (Dint (si_maximum_dte values)) (Dint 7).

Definition horizon_pressure_of (values : ScoreInput) : M decimal :=
  past ← dsub (si_horizon_fraction values) (D 50 (-2));
  scaled ← dmul (Dint 200) past;
  clamp scaled.

Definition expiry_pressure_of (values : ScoreInput) : M decimal :=
  left ← dsub (Dint 14) (Dint (si_dte values));
  scaled ← dmul HUNDRED left;
  ratio ← ddiv scaled (Dint 7);
  clamp ratio.

(** [clamp(change / Decimal("0.20") * HUNDRED)] *)
Definition iv_pressure (change : decimal) : M decimal :=
  ratio ← ddiv change (D 20 (-2));
  scaled ← dmul ratio HUNDRED;
  clamp scaled.

Definition volatility_mismatch_of (values : ScoreInput) (vega_mismatch : decimal) : M decimal :=
  difference ← dsub (si_current_atm_iv values) (si_entry_atm_iv values);
  iv_change ← ddiv difference (si_entry_atm_iv values);
  match si_volatility_view values with
  | LONG => opposite ← dneg iv_change; iv_pressure opposite
  | SHORT => iv_pressure iv_change
  | VV_NEUTRAL => Ok vega_mismatch
  end.

(** [max(ZERO, -values.liquidation_pnl) / values.approved_max_loss] *)
Definition loss_fraction_of (values : ScoreInput) : M decimal :=
  opposite ← dneg (si_liquidation_pnl values);
  loss ← dmax ZERO opposite;
  ddiv loss (si_approved_max_loss values).

Definition risk_utilization_of (values : ScoreInput) : M decimal :=
  loss_fraction ← loss_fraction_of values;
  above ← dsub loss_fraction (D 10 (-2));
  ratio ← ddiv above (D 40 (-2));
  scaled ← dmul ratio HUNDRED;
  clamp scaled.

Definition score_drift (values : ScoreInput) : M ScoreResult :=
  when (si_max_daily_theta values <=. ZERO)
       ||| (si_vega_low values >. si_vega_high values)
       ||| (si_delta_low values >. si_delta_high values)
       ||| (si_entry_atm_iv values <=. ZERO)
       ||| (si_approved_max_loss values <=. ZERO)
  then_ Raise (ValueError "INVALID_SCORE_INPUT");;
  vega_tolerance ← vega_tolerance_of values;
  delta_mismatch ← delta_mismatch_of values;
  vega_mismatch ← vega_mismatch_of values vega_tolerance;
  theta_mismatch ← theta_mismatch_of values;
  dte_mismatch ← dte_mismatch_of values;
  exposure_mismatch ← weighted_sum (D 40 (-2), delta_mismatch)
    [(D 25 (-2), vega_mismatch); (D 20 (-2), theta_mismatch); (D 15 (-2), dte_mismatch)];
  horizon_pressure ← horizon_pressure_of values;
  expiry_pressure ← expiry_pressure_of values;
  time_pressure ← dmax horizon_pressure expiry_pressure;
  volatility_mismatch ← volatility_mismatch_of values vega_mismatch;
  risk_utilization ← risk_utilization_of values;
  evidence_drift ← clamp (si_evidence_drift values);
  unrounded ← weighted_sum (D 35 (-2), evidence_drift)
    [(D 25 (-2), exposure_mismatch); (D 15 (-2), time_pressure);
     (D 10 (-2), volatility_mismatch); (D 15 (-2), risk_utilization)];
  dominant ← dominant_of ("EXPOSURE"%string, exposure_mismatch)
    [("TIME"%string, time_pressure); ("VOLATILITY"%string, volatility_mismatch);
     ("RISK"%string, risk_utilization)];
  display_score ← round_int unrounded;
  Ok {| sr_evidence_drift := evidence_drift;
        sr_exposure_mismatch := exposure_mismatch;
        sr_time_pressure := time_pressure;
        sr_volatility_mismatch := volatility_mismatch;
        sr_risk_utilization := risk_utilization;
        sr_unrounded_score := unrounded;
        sr_display_score := display_score;
        sr_dominant_non_evidence_component := dominant |}.

(** ** Freshness *)

Definition freshness_failure (decision_time : datetime) (item : FreshnessInput)
    : M (list string) :=
  age ← dt_sub decision_time (fi_observed_at item);
  Ok (if age <? 0 then [("FUTURE_" ++ enum_value (fi_kind item))%string]
      else if FRESHNESS_LIMITS (fi_kind item) <? age then
        [("STALE_" ++ enum_value (fi_kind item))%string]
      else if bool_decide (fi_kind item = OPTION_SNAPSHOT) && fi_retrieval_time_only item then
        ["UNVERIFIED_GREEK_TIMESTAMP"%string]
      else []).

Definition check_freshness (decision_time : datetime) (inputs : list FreshnessInput)
    : M FreshnessResult :=
  failures ← fold_m (fun failures item =>
      failure ← freshness_failure decision_time item; Ok (failures ++ failure)) [] inputs;
  Ok {| fr_complete := (length failures =? 0)%nat; fr_failures := failures |}.

(** ** Evidence *)

(** [clusters]: a dict in insertion order; replacing a claim keeps its position. *)
Fixpoint cluster_insert (claim : EvidenceClaim) (clusters : list EvidenceClaim)
    : M (list EvidenceClaim) :=
  match clusters with
  | [] => Ok [claim]
  | current :: clusters =>
      if String.eqb (ec_cluster_id current) (ec_cluster_id claim) then
        better ← SOURCE_WEIGHTS (ec_source_tier claim) >. SOURCE_WEIGHTS (ec_source_tier current);
        Ok ((if better : bool then claim else current) :: clusters)
      else clusters ← cluster_insert claim clusters; Ok (current :: clusters)
  end.

Definition clusters_of (claims : list EvidenceClaim) : M (list EvidenceClaim) :=
  fold_m (fun clusters claim => cluster_insert claim clusters) [] claims.

Definition is_tier (tier : EvidenceTier) (claim : EvidenceClaim) : bool :=
  bool_decide (ec_source_tier claim = tier).

Definition primary_invalidation (clusters : list EvidenceClaim) : bool :=
  existsb (fun claim => ec_invalidates claim && is_tier PRIMARY claim) clusters.

Definition reporting_group (claim : EvidenceClaim) : list string :=
  match ec_independent_reporting_group claim with
  | Some group =>
      if ec_invalidates claim && is_tier ORIGINAL_REPORTING claim && str_nonempty group
      then [group] else []
  | None => []
  end.

Definition reporting_invalidations (clusters : list EvidenceClaim) : gset string :=
  list_to_set (flat_map reporting_group clusters).

Definition signed_weight (claim : EvidenceClaim) : M (decimal * Z) :=
  when negb ((1 <=? ec_materiality claim) && (ec_materiality claim <=? 3))
  then_ Raise (ValueError "INVALID_MATERIALITY");;
  share ← ddiv (Dint (ec_materiality claim)) (Dint 3);
  relevant ← dmul share (ec_relevance claim);
  confident ← dmul relevant (ec_confidence claim);
  weight ← dmul confident (SOURCE_WEIGHTS (ec_source_tier claim));
  Ok (weight, if bool_decide (ec_relation claim = SUPPORTS) then 1 else -1).

Definition claim_skipped (claim : EvidenceClaim) : M bool :=
  (ec_relevance claim <. D 60 (-2)) ||| (ec_confidence claim <. D 60 (-2))
  ||| bool_decide (ec_relation claim = NEUTRAL).

Definition weighted_claims (clusters : list EvidenceClaim) : M (list (decimal * Z)) :=
  fold_m (fun weighted claim =>
      when claim_skipped claim then_ Ok weighted;;
      entry ← signed_weight claim;
      Ok (weighted ++ [entry])) [] clusters.

Definition score_evidence (state : EvidenceState) (claims : list EvidenceClaim)
    : M EvidenceResult :=
  match state with
  | ES_UNKNOWN => Ok (mk_EvidenceResult state None None TS_UNKNOWN)
  | NO_CHANGE => Ok (mk_EvidenceResult state None (Some ZERO) INTACT)
  | ASSESSED =>
      clusters ← clusters_of claims;
      if primary_invalidation clusters || (2 <=? size (reporting_invalidations clusters))%nat
      then Ok (mk_EvidenceResult state (Some (Dint (-1))) (Some HUNDRED) BROKEN)
      else
        weighted ← weighted_claims clusters;
        match weighted with
        | [] => Ok (mk_EvidenceResult NO_CHANGE None (Some ZERO) INTACT)
        | _ =>
            total ← fold_m dadd ZERO (map fst weighted);
            balance ← fold_m (fun sum '(weight, sign) =>
                term ← dmul weight (Dint sign); dadd sum term) ZERO weighted;
            net ← ddiv balance total;
            pull ← dmul (Dint 50) net;
            distance ← dsub (Dint 50) pull;
            drift ← clamp distance;
            supported ← net >=. D 25 (-2);
            contradicted ← net <=. D (-25) (-2);
            Ok (mk_EvidenceResult state (Some net) (Some drift)
                  (if supported : bool then INTACT
                   else if contradicted : bool then BROKEN else WEAKENING))
        end
  end.

(** ** The decision *)

Definition _roll_is_eligible (values : AssessmentInput) (components : ScoreResult) : M bool :=
  match ai_roll_candidate values with
  | None => Ok false
  | Some candidate =>
      ((45 <=? sr_display_score components) && (sr_display_score components <? 70))
      &&& bool_decide (ai_thesis_status values = INTACT \/ ai_thesis_status values = WEAKENING)
      &&& bool_decide (sr_dominant_non_evidence_component components = "EXPOSURE"%string
                       \/ sr_dominant_non_evidence_component components = "TIME"%string)
      &&& rc_valid candidate
      &&& (20 <=? rc_drift_reduction candidate)
      &&& ((7 <=? rc_expiry_extension_days candidate)
           && (rc_expiry_extension_days candidate <=? 35))
      &&& ((ZERO <=. rc_relative_spread candidate)
           &&& (rc_relative_spread candidate <=. rc_maximum_relative_spread candidate)
           &&& (rc_maximum_relative_spread candidate <. Dint 1))
      &&& ((ZERO <=. rc_incremental_debit candidate)
           &&& (rc_incremental_debit candidate <=. rc_maximum_incremental_debit candidate))
      &&& rc_within_loss_budget candidate
      &&& rc_covered_verticals candidate
      &&& rc_no_prior_roll_today candidate
  end.

Definition _mandatory_close_code (gates : HardGateInput) (scores : ScoreInput)
    : M (option string) :=
  match hg_strategy_close_reason gates with
  | Some reason => Ok (Some reason)
  | None =>
      if hg_verified_invalidation gates then Ok (Some "VERIFIED_INVALIDATION")
      else if hg_price_confirmation_broken gates then Ok (Some "PRICE_CONFIRMATION_BROKEN")
      else
        loss_fraction ← loss_fraction_of scores;
        when loss_fraction >=. D 50 (-2) then_ Ok (Some "LOSS_LIMIT_REACHED");;
        if (match hg_short_dte gates with Some dte => (dte <=? 7)%Z | None => false end)
        then Ok (Some "SHORT_DTE_LIMIT")
        else if hg_short_call_ex_dividend_boundary gates then Ok (Some "SHORT_CALL_EX_DIVIDEND")
        else if negb (hg_bounded_as_approved gates) then Ok (Some "DEFINED_RISK_BROKEN")
        else if hg_risk_cap_exceeded gates then Ok (Some "RISK_CAP_EXCEEDED")
        else if hg_contest_end_window gates then Ok (Some "CONTEST_END_CLOSE")
        else if hg_weekend_gate_failed gates then Ok (Some "WEEKEND_GATE_FAILED")
        else Ok None
  end%string.

(** An optional code that is also truthy. *)
Definition truthy (code : option string) : option string :=
  match code with
  | Some code => if str_nonempty code then Some code else None
  | None => None
  end.

Record Verdict := mk_Verdict {
  v_action : Action;
  v_decision : ExecutionDecision;
  v_rationale : string;
  v_components : option ScoreResult;
}.

(** The chain of branches that sets [action], [decision], [rationale] and [components]. *)
Definition assessment_verdict (values : AssessmentInput) : M Verdict :=
  match ai_execution_failures values with
  | failure :: _ => Ok (mk_Verdict NO_ACTION ED_NO_ACTION failure None)
  | [] =>
      match ai_quality values, ai_actual_exposure values, ai_scores values with
      | DQ_COMPLETE, Some _, Some scores =>
          components ← score_drift scores;
          code ← _mandatory_close_code (ai_hard_gates values) scores;
          match truthy code with
          | Some code => Ok (mk_Verdict CLOSE CLOSE_RISK_ONLY code (Some components))
          | None =>
              if bool_decide (ai_evidence_state values = ES_UNKNOWN) then
                Ok (mk_Verdict NO_ACTION ED_NO_ACTION "EVIDENCE_UNKNOWN" (Some components))
              else if bool_decide (ai_thesis_status values = BROKEN)
                      || (70 <=? sr_display_score components) then
                Ok (mk_Verdict CLOSE CLOSE_APPROVED
                      (if bool_decide (ai_thesis_status values = BROKEN)
                       then "THESIS_BROKEN" else "DRIFT_CLOSE") (Some components))
              else
                eligible ← _roll_is_eligible values components;
                Ok (if eligible : bool then
                      mk_Verdict ROLL ROLL_APPROVED "EXPOSURE_ROLL" (Some components)
                    else
                      mk_Verdict HOLD HOLD_CERTIFIED
                        (if sr_display_score components <? 45
                         then "THESIS_ALIGNED" else "NO_VALID_ROLL") (Some components))
          end
      | _, _, _ => Ok (mk_Verdict NO_ACTION ED_NO_ACTION "EXECUTION_DATA_MISSING" None)
      end
  end.

Definition alternative_of (values : AssessmentInput) (verdict : Verdict) (candidate : Action)
    : Alternative :=
  let eligible := bool_decide (candidate = v_action verdict) in
  {| alt_action := candidate;
     alt_eligible := eligible;
     alt_rationale_code :=
       if eligible then v_rationale verdict else ("REJECTED_" ++ enum_value candidate)%string;
     alt_expected_exposure :=
       if bool_decide (candidate = ROLL)
       then ai_roll_candidate values ≫= rc_expected_after_exposure else None |}.

(** pydantic checks the [DriftComponents] of the response when it is built: finite
    decimals and a display score between 0 and 100. *)
Section Assessment.
Context (validate_components : ScoreResult -> M ScoreResult).

Definition evaluate_assessment (values : AssessmentInput) : M PolicyResult :=
  verdict ← assessment_verdict values;
  components ← match v_components verdict with
               | Some components => c ← validate_components components; Ok (Some c)
               | None => Ok None
               end;
  let response :=
    {| resp_assessment_id := ai_assessment_id values;
       resp_run_id := ai_run_id values;
       resp_action := v_action verdict;
       resp_rationale_code := v_rationale verdict;
       resp_quality := ai_quality values;
       resp_thesis_status := ai_thesis_status values;
       resp_evidence_state := ai_evidence_state values;
       resp_execution_decision := v_decision verdict;
       resp_actual_exposure := ai_actual_exposure values;
       resp_drift_score := (fun c => Dint (sr_display_score c)) <$> v_components verdict;
       resp_components := components;
       resp_alternatives := alternative_of values verdict <$> [HOLD; CLOSE; ROLL];
       resp_policy_hash := ai_policy_hash values |} in
  Ok {| pr_response := response;
        pr_execution_decision := v_decision verdict;
        pr_components := v_components verdict |}.
End Assessment.

(** ** The score is total and bounded *)

#[local] Opaque p10.

Definition percent (d : decimal) : Prop := within 0 100 d.

Lemma clamp_percent d : finite d -> returns percent (clamp d).
Proof.
  intros Fd. unfold clamp.
  destruct (dmax_spec ZERO d) as (m & Hm & Fm & Em & Lz & _); [done..|].
  destruct (dmin_spec HUNDRED m) as (r & Hr & Fr & Er & Uh & Um); [done..|].
  rewrite Hm. exists r. split; [done|].
  unfold ZERO, HUNDRED in *. rewrite dval_Dint in *. change (inject_Z 0) with 0%Q in *.
  change (inject_Z 100) with 100%Q in *. split_and!; [done| |done].
  destruct Er as [->| ->]; [rewrite dval_Dint; easy|lra].
Qed.

Lemma percent_zero : percent ZERO.
Proof. split_and!; [done|..]; unfold ZERO; rewrite dval_Dint; easy. Qed.

(** Inputs of ordinary size.  Python's [Decimal] overflows only near [10^999999], so the
    bounds are far from tight. *)
Definition moderate (d : decimal) : Prop := sized 50 d.
Definition positive (d : decimal) : Prop := divisor 50 50 d.

Lemma positive_moderate d : positive d -> moderate d.
Proof. apply divisor_sized. Qed.

Lemma moderate_int n : Z.abs n <= 10 ^ 50 -> moderate (Dint n).
Proof. intros H. by apply sized_int. Qed.

Lemma moderate_D n e : Z.abs n <= 10 ^ 50 -> e <= 0 -> moderate (D n e).
Proof. intros H He. by apply sized_D. Qed.

Ltac in_range := unfold Etiny, Etop, Emin, Emax, prec; lia.
(** The side conditions of the operations: sizes at hand, exponents far from the limits. *)
Ltac size_side :=
  try first [eassumption | by apply sized_int | by apply sized_D | in_range].

Lemma band_deviation_percent value low high tolerance :
  sized 60 value -> sized 60 low -> sized 60 high -> divisor 60 60 tolerance ->
  (dval low <= dval high)%Q -> returns percent (band_deviation value low high tolerance).
Proof.
  intros Hv Hl Hh Ht Hlh. unfold band_deviation.
  pose proof (sized_finite _ _ Hv). pose proof (sized_finite _ _ Hl).
  pose proof (sized_finite _ _ Hh). pose proof (within_finite _ _ _ Ht).
  apply returns_guard.
  { apply or_m_false. rewrite dlt_ok_false, dle_ok_false by done. split; [done|].
    unfold ZERO. rewrite dval_Dint. by eapply divisor_pos. }
  destruct (dle_spec low value) as (b1 & -> & _); [done..|].
  destruct (dle_spec value high) as (b2 & -> & _); [done..|].
  destruct (dlt_spec value low) as (below & -> & _); [done..|].
  assert (returns percent (distance ← (if below then dsub low value else dsub value high);
    scaled ← dmul HUNDRED distance; ratio ← ddiv scaled tolerance; clamp ratio)) as Hrest.
  { eapply (returns_bind (sized 61)); [destruct below; by apply (sized_sub 60)|intros distance Hd].
    step (sized_mul 2 61 63); size_side. step (sized_div 63 60 123); size_side.
    apply clamp_percent. by eapply sized_finite. }
  destruct b1, b2; try exact Hrest. apply returns_ok, percent_zero.
Qed.

(** A weighted mean of percentages, the weights in hundredths. *)
Lemma weighted_term k x :
  0 <= k <= 100 -> percent x -> returns (within 0 (inject_Z k)) (dmul (D k (-2)) x).
Proof.
  intros Hk Hx. assert (dval (D k (-2)) == inject_Z k * (1 # 100))%Q as Ew by apply dval_D.
  assert (0 <= inject_Z k)%Q by (change 0%Q with (inject_Z 0); rewrite <- Zle_Qle; lia).
  destruct (dmul_within (D k (-2)) x (dval (D k (-2))) 100) as (r & Hr & F & L & U); try done.
  - split_and!; [done|lra|lra].
  - apply (repr_proper (inject_Z k)); [lra|]. apply repr_int. unfold prec. lia.
  - rewrite Ew. assert (inject_Z k <= p10 Etop)%Q; [|lra].
    apply (Qle_trans _ (p10 3)); [|by apply p10_le]. rewrite p10_Z by done. rewrite <- Zle_Qle. lia.
  - exists r. split; [done|]. split_and!; [done|lra|lra].
Qed.

Lemma weighted_sum_within k x (terms : list (Z * decimal)) :
  Forall (fun term => 0 <= term.1 /\ percent term.2) ((k, x) :: terms) ->
  foldr (fun term total => term.1 + total) 0 ((k, x) :: terms) <= 100 ->
  returns (within 0 100)
    (weighted_sum (D k (-2), x) (map (fun term => (D term.1 (-2), term.2)) terms)).
Proof.
  intros [[Hk Hx] Hts]%Forall_cons_iff Hsum. unfold weighted_sum. cbn [fst snd foldr] in *.
  assert (0 <= foldr (fun term total => term.1 + total) 0 terms) as Hpos.
  { clear Hsum. induction Hts as [|t ts [Ht _] _ IH]; cbn [foldr]; lia. }
  eapply returns_bind; [apply weighted_term; [lia|done]|]. cbn [fst snd]. clear x Hx.
  intros total Ht. revert k Hk Hsum total Ht Hpos.
  induction Hts as [|[k' x] ts [Hk' Hx] Hts IH]; intros k Hk Hsum total Ht Hpos; cbn [map fold_m] in *.
  - apply returns_ok. destruct Ht as (F & L & U). split_and!; [done..|].
    assert (inject_Z k <= inject_Z 100)%Q by (rewrite <- Zle_Qle; lia).
    change (inject_Z 100) with 100%Q in *. lra.
  - cbn [fst snd foldr] in *.
    assert (0 <= foldr (fun term total => term.1 + total) 0 ts) as Hpos'.
    { clear -Hts. induction Hts as [|t ts [Ht _] _ IH]; cbn [foldr]; lia. }
    eapply (returns_bind (within 0 (inject_Z (k + k')))); [|intros; apply (IH (k + k')); lia || done].
    eapply returns_bind; [apply weighted_term; [lia|done]|]. intros product Hp.
    destruct (dadd_within total product 0 (inject_Z k) 0 (inject_Z k')) as (r & Hr & Hw);
      [done|done|apply repr_0|..].
    + rewrite <- inject_Z_plus. apply repr_int. unfold prec. lia.
    + pose proof (p10_pos Etop). lra.
    + rewrite <- inject_Z_plus. apply (Qle_trans _ (p10 3)); [|by apply p10_le].
      rewrite p10_Z by done. rewrite <- Zle_Qle. lia.
    + exists r. split; [done|]. destruct Hw as (F & L & U). rewrite inject_Z_plus. by split_and!.
Qed.

(** The scores the policy is called with: ordinary magnitudes, bands the right way round
    and positive denominators. *)
Record valid_scores (v : ScoreInput) : Prop := {
  vs_evidence : finite (si_evidence_drift v);
  vs_delta : moderate (si_delta v);
  vs_delta_low : moderate (si_delta_low v);
  vs_delta_high : moderate (si_delta_high v);
  vs_delta_band : (dval (si_delta_low v) <= dval (si_delta_high v))%Q;
  vs_vega : moderate (si_vega v);
  vs_vega_low : moderate (si_vega_low v);
  vs_vega_high : moderate (si_vega_high v);
  vs_vega_band : (dval (si_vega_low v) <= dval (si_vega_high v))%Q;
  vs_theta : moderate (si_theta_per_day v);
  vs_max_theta : positive (si_max_daily_theta v);
  vs_dte : Z.abs (si_dte v) <= 10 ^ 50;
  vs_min_dte : Z.abs (si_minimum_dte v) <= 10 ^ 50;
  vs_max_dte : Z.abs (si_maximum_dte v) <= 10 ^ 50;
  vs_dte_band : si_minimum_dte v <= si_maximum_dte v;
  vs_horizon : moderate (si_horizon_fraction v);
  vs_entry_iv : positive (si_entry_atm_iv v);
  vs_current_iv : moderate (si_current_atm_iv v);
  vs_pnl : moderate (si_liquidation_pnl v);
  vs_max_loss : positive (si_approved_max_loss v);
}.

Section Valid.
Context (v : ScoreInput) (V : valid_scores v).

Lemma moderate_60 d : moderate d -> sized 60 d.
Proof. intros H. by eapply sized_weaken. Qed.

Lemma delta_mismatch_percent : returns percent (delta_mismatch_of v).
Proof.
  apply band_deviation_percent; try (apply moderate_60; apply V); [|apply V].
  split_and!; [done|..]; rewrite dval_Dint; vm_compute; discriminate.
Qed.

Lemma vega_tolerance_divisor : returns (divisor 60 60) (vega_tolerance_of v).
Proof.
  unfold vega_tolerance_of. step (sized_sub 50 51); [apply V|apply V|in_range..|].
  destruct (dmax_spec (Dint 1) a) as (r & Hr & Fr & E & L1 & _); [done|by eapply sized_finite|].
  exists r. split; [done|]. rewrite dval_Dint in L1.
  assert (sized 60 r) as (_ & _ & U).
  { destruct E as [->| ->]; [by apply sized_int|by eapply sized_weaken]. }
  split_and!; [done| |done]. apply (Qle_trans _ (p10 0)); [by apply p10_le|done].
Qed.

Lemma vega_mismatch_percent tolerance :
  divisor 60 60 tolerance -> returns percent (vega_mismatch_of v tolerance).
Proof. intros H. apply band_deviation_percent; try (apply moderate_60; apply V); [done|apply V]. Qed.

Lemma theta_mismatch_percent : returns percent (theta_mismatch_of v).
Proof.
  unfold theta_mismatch_of.
  step (sized_min 50); [apply V|by apply sized_int|].
  step (sized_abs 50); [done|in_range..|].
  step (sized_sub 50 51); [done|apply positive_moderate, V|in_range..|].
  step (sized_mul 2 51 53); [by apply sized_int|done|in_range..|].
  step (sized_div 53 50 103); [done|apply V|in_range..|].
  apply clamp_percent. by eapply sized_finite.
Qed.

Lemma dte_mismatch_percent : returns percent (dte_mismatch_of v).
Proof.
  apply band_deviation_percent; try (apply moderate_60, moderate_int; apply V).
  - split_and!; [done|..]; rewrite dval_Dint; vm_compute; discriminate.
  - rewrite !dval_Dint, <- Zle_Qle. apply V.
Qed.

Lemma horizon_pressure_percent : returns percent (horizon_pressure_of v).
Proof.
  unfold horizon_pressure_of. step (sized_sub 50 51); [apply V|by apply sized_D|in_range..|].
  step (sized_mul 3 51 54); [by apply sized_int|done|in_range..|].
  apply clamp_percent. by eapply sized_finite.
Qed.

Lemma expiry_pressure_percent : returns percent (expiry_pressure_of v).
Proof.
  unfold expiry_pressure_of.
  step (sized_sub 50 51); [by apply sized_int|apply moderate_int, V|in_range..|].
  step (sized_mul 2 51 53); [by apply sized_int|done|in_range..|].
  step (sized_div 53 0 53 1); [done| |in_range..|].
  { split_and!; [done|..]; rewrite dval_Dint; vm_compute; discriminate. }
  apply clamp_percent. by eapply sized_finite.
Qed.

Lemma hundredths_divisor k : 1 <= k <= 100 -> divisor 2 2 (D k (-2)).
Proof.
  intros Hk. assert (1 <= inject_Z k <= 100)%Q as [L U].
  { change 1%Q with (inject_Z 1). change 100%Q with (inject_Z 100). rewrite <- !Zle_Qle. lia. }
  split_and!; [done|..]; rewrite dval_D; change (- (2)) with (-2);
    rewrite ?p10_hundred, p10_hundredth; lra.
Qed.

Lemma iv_pressure_percent change : sized 101 change -> returns percent (iv_pressure change).
Proof.
  intros H. unfold iv_pressure.
  step (sized_div 101 2 103 2); [done|by apply hundredths_divisor|in_range..|].
  step (sized_mul 103 2 105); [done|by apply sized_int|in_range..|].
  apply clamp_percent. by eapply sized_finite.
Qed.

Lemma volatility_mismatch_percent vega : percent vega -> returns percent (volatility_mismatch_of v vega).
Proof.
  intros Hvega. unfold volatility_mismatch_of.
  step (sized_sub 50 51); [apply V|apply positive_moderate, V|in_range..|].
  step (sized_div 51 50 101); [done|apply V|in_range..|].
  destruct (si_volatility_view v); [|by apply iv_pressure_percent|by apply returns_ok].
  step (sized_neg 101); [done|in_range..|]. by apply iv_pressure_percent.
Qed.

Lemma loss_fraction_sized : returns (sized 100) (loss_fraction_of v).
Proof.
  unfold loss_fraction_of. step (sized_neg 50); [apply V|in_range..|].
  step (sized_max 50); [by apply sized_int|done|].
  apply (sized_div 50 50 100 50); [done|apply V|in_range..].
Qed.

Lemma risk_utilization_percent : returns percent (risk_utilization_of v).
Proof.
  unfold risk_utilization_of. step loss_fraction_sized.
  step (sized_sub 100 101); [done|by apply sized_D|in_range..|].
  step (sized_div 101 2 103 2); [done|by apply hundredths_divisor|in_range..|].
  step (sized_mul 103 2 105); [done|by apply sized_int|in_range..|].
  apply clamp_percent. by eapply sized_finite.
Qed.
End Valid.

(** The first key of the greatest value. *)
Definition dominates (items : list (string * decimal)) (key : string) : Prop :=
  exists value, (key, value) ∈ items /\ Forall (fun item => (dval item.2 <= dval value)%Q) items.

Lemma dominant_of_spec best items :
  finite best.2 -> Forall (fun item => finite item.2) items ->
  returns (dominates (best :: items)) (dominant_of best items).
Proof.
  intros Fb Fi. revert best Fb. induction Fi as [|item items Fitem Fi IH]; intros best Fb.
  - apply returns_ok. exists best.2. rewrite <- surjective_pairing.
    split; [by left|]. repeat constructor. apply Qle_refl.
  - cbn [dominant_of]. destruct (dlt_spec best.2 item.2) as (better & E & Hb); [done..|].
    rewrite E. cbn [mbind M_bind].
    eapply returns_weaken; [apply IH; by destruct better|].
    intros key (value & Hin & Hall). exists value.
    apply Forall_cons_iff in Hall as [Hmax Hall]. destruct better.
    + split; [by right|]. repeat constructor; [|done|done].
      assert (dval best.2 < dval item.2)%Q by by apply Hb. lra.
    + split; [apply elem_of_cons in Hin as [->|Hin]; [by left|by right; right]|]. repeat constructor; [done| |done].
      assert (dval item.2 <= dval best.2)%Q by by apply dlt_false. lra.
Qed.

Definition components_of (r : ScoreResult) : list (string * decimal) :=
  [("EXPOSURE"%string, sr_exposure_mismatch r); ("TIME"%string, sr_time_pressure r);
   ("VOLATILITY"%string, sr_volatility_mismatch r); ("RISK"%string, sr_risk_utilization r)].

Record bounded_score (r : ScoreResult) : Prop := {
  bs_percent : Forall percent [sr_evidence_drift r; sr_exposure_mismatch r; sr_time_pressure r;
                               sr_volatility_mismatch r; sr_risk_utilization r;
                               sr_unrounded_score r];
  bs_display : 0 <= sr_display_score r <= 100;
  bs_rounded :
    (- (1 # 2) <= inject_Z (sr_display_score r) - dval (sr_unrounded_score r) <= 1 # 2)%Q;
  bs_dominant : dominates (components_of r) (sr_dominant_non_evidence_component r);
}.

Ltac forall_list tac := repeat (apply List.Forall_cons; [solve [tac]|]); apply List.Forall_nil.

Lemma score_drift_returns v : valid_scores v -> returns bounded_score (score_drift v).
Proof.
  intros V. unfold score_drift. apply returns_guard.
  { repeat rewrite or_m_false. rewrite !dlt_ok_false, !dle_ok_false by
      (done || (eapply sized_finite; apply V) || (eapply within_finite; apply V)).
    unfold ZERO. rewrite dval_Dint.
    split_and!; first [apply (divisor_pos 50 50); apply V|apply V]. }
  step vega_tolerance_divisor; [done|].
  step delta_mismatch_percent; [done|]. step vega_mismatch_percent; [done..|].
  step theta_mismatch_percent; [done|]. step dte_mismatch_percent; [done|].
  eapply returns_bind.
  { apply (weighted_sum_within 40 _ [(25, _); (20, _); (15, _)]); [|done].
    forall_list ltac:(by split). }
  intros exposure Hexposure.
  eapply returns_bind; [by apply horizon_pressure_percent|intros horizon Hhorizon].
  eapply returns_bind; [by apply expiry_pressure_percent|intros expiry Hexpiry].
  eapply (returns_bind percent).
  { destruct (dmax_spec horizon expiry) as (r & Hr & _ & [->| ->] & _);
      [by apply Hhorizon|by apply Hexpiry|by exists horizon|by exists expiry]. }
  intros time Htime.
  eapply returns_bind; [by apply volatility_mismatch_percent|intros volatility Hvolatility].
  eapply returns_bind; [by apply risk_utilization_percent|intros risk Hrisk].
  eapply returns_bind; [by apply clamp_percent, V|intros evidence Hevidence].
  eapply returns_bind.
  { apply (weighted_sum_within 35 _ [(25, _); (15, _); (10, _); (15, _)]); [|done].
    forall_list ltac:(by split). }
  intros unrounded Hunrounded.
  eapply returns_bind.
  { apply dominant_of_spec; [apply Hexposure|].
    forall_list ltac:(by eapply within_finite). }
  intros dominant Hdominant.
  destruct (round_int_bounds 0 100 unrounded) as (n & En & Hn & Hhalf); [done|].
  rewrite En. apply returns_ok. constructor; cbn; try done. forall_list done.
Qed.

(** C15: The drift score is total and bounded.  On inputs of ordinary size with well formed
    bands and positive denominators [score_drift] raises nothing; each of the five
    components and their weighted mean lie between 0 and 100 in spite of the rounding
    of every operation; the display score is an integer in the same range within one half of
    the mean; and the dominant component named is one of the four with no larger
    value among them. *)
Theorem score_drift_bounded v :
  valid_scores v -> exists r, score_drift v = Ok r /\ bounded_score r.
Proof. apply score_drift_returns. Qed.

Lemma positive_D n e : 1 <= n <= 10 ^ 50 -> -50 <= e <= 0 -> positive (D n e).
Proof.
  intros Hn He. pose proof (sized_D 50 n e ltac:(lia) ltac:(lia) ltac:(lia)) as (F & _ & U).
  split_and!; [done| |done]. rewrite dval_D.
  assert (inject_Z 1 <= inject_Z n)%Q by (rewrite <- Zle_Qle; lia).
  assert (p10 (-50) <= p10 e)%Q by (apply p10_le; lia).
  change (inject_Z 1) with 1%Q in *. change (- (50)) with (-50).
  pose proof (p10_pos (-50)). nra.
Qed.

Definition sample_scores : ScoreInput :=
  {| si_evidence_drift := D 355 (-1); si_delta := D 612 (-1); si_delta_low := Dint 20;
     si_delta_high := Dint 45; si_vega := D 1234 (-2); si_vega_low := Dint 5;
     si_vega_high := Dint 15; si_theta_per_day := D (-412) (-1);
     si_max_daily_theta := Dint 30; si_dte := 12; si_minimum_dte := 14; si_maximum_dte := 45;
     si_horizon_fraction := D 65 (-2); si_volatility_view := SHORT;
     si_entry_atm_iv := D 31 (-2); si_current_atm_iv := D 352 (-3);
     si_liquidation_pnl := D (-4150) (-2); si_approved_max_loss := Dint 225 |}.

Lemma sample_scores_valid : valid_scores sample_scores.
Proof.
  constructor; cbn [si_evidence_drift si_delta si_delta_low si_delta_high si_vega si_vega_low
    si_vega_high si_theta_per_day si_max_daily_theta si_dte si_minimum_dte si_maximum_dte
    si_horizon_fraction si_entry_atm_iv si_current_atm_iv si_liquidation_pnl
    si_approved_max_loss sample_scores];
    first [apply positive_D; lia|apply moderate_D; lia|reflexivity|lia
          |rewrite !dval_Dint; vm_compute; discriminate].
Qed.

Lemma score_drift_bounded_witness :
  exists r, score_drift sample_scores = Ok r /\ bounded_score r.
Proof. apply score_drift_bounded. exact sample_scores_valid. Defined.

(** The same input evaluated: the components and the score of the code. *)
Example sample_scores_value :
  (r ← score_drift sample_scores;
   Ok (sr_display_score r, sr_dominant_non_evidence_component r)) = Ok (36, "VOLATILITY"%string).
Proof. vm_compute. reflexivity. Qed.

(** ** Freshness *)

Definition fresh (decision_time : datetime) (item : FreshnessInput) : Prop :=
  exists age, dt_sub decision_time (fi_observed_at item) = Ok age /\
    0 <= age <= FRESHNESS_LIMITS (fi_kind item) /\
    ~ (fi_kind item = OPTION_SNAPSHOT /\ fi_retrieval_time_only item = true).

Lemma freshness_failure_fresh decision_time item :
  freshness_failure decision_time item = Ok [] <-> fresh decision_time item.
Proof.
  unfold freshness_failure, fresh. rewrite bind_ok.
  split; intros (age & Hage & H); exists age; (split; [done|]).
  - injection H as H. destruct (Z.ltb_spec age 0); [done|].
    destruct (Z.ltb_spec (FRESHNESS_LIMITS (fi_kind item)) age); [done|].
    split; [lia|]. intros [Hk Hr]. by rewrite (bool_decide_true _ Hk), Hr in H.
  - destruct H as [Hrange Hn]. f_equal.
    destruct (Z.ltb_spec age 0); [lia|].
    destruct (Z.ltb_spec (FRESHNESS_LIMITS (fi_kind item)) age); [lia|].
    destruct (bool_decide_reflect (fi_kind item = OPTION_SNAPSHOT)); [|done].
    destruct (fi_retrieval_time_only item); [|done]. by destruct Hn.
Qed.

Lemma freshness_fold decision_time inputs start failures :
  fold_m (fun failures item =>
      failure ← freshness_failure decision_time item; Ok (failures ++ failure)) start inputs
    = Ok failures ->
  exists rest, failures = start ++ rest /\
    (rest = [] <-> Forall (fresh decision_time) inputs).
Proof.
  revert start. induction inputs as [|item inputs IH]; intros start; cbn [fold_m].
  - intros [= <-]. exists []. by rewrite app_nil_r.
  - intros H. apply bind_ok in H as (next & H & Hrest).
    apply bind_ok in H as (failure & Hf & [= <-]).
    apply IH in Hrest as (rest & -> & Hiff). exists (failure ++ rest).
    rewrite app_assoc, Forall_cons_iff, <- Hiff, <- freshness_failure_fresh, Hf. split; [done|].
    rewrite app_nil. split; intros [? ?]; [by subst|]. split; [congruence|done].
Qed.

(** Freshness fails closed.  Whenever [check_freshness] returns, it reports the
    inputs as complete exactly when every one of them was observed no later than the
    decision and within the limit of its kind, and no option snapshot is known only by
    its retrieval time. *)
Theorem check_freshness_complete decision_time inputs r :
  check_freshness decision_time inputs = Ok r ->
  fr_complete r = true <-> Forall (fresh decision_time) inputs.
Proof.
  unfold check_freshness. intros H. apply bind_ok in H as (failures & H & [= <-]). cbn.
  apply freshness_fold in H as (rest & -> & <-). cbn. rewrite Nat.eqb_eq.
  split; [by destruct rest|by intros ->].
Qed.

Lemma check_freshness_complete_witness :
  Forall (fresh (utc 2026 6 30 15 0 0))
    [mk_FreshnessInput ACCOUNT (utc 2026 6 30 14 59 45) false;
     mk_FreshnessInput NEWS (utc 2026 6 30 14 50 0) true].
Proof.
  apply (check_freshness_complete (utc 2026 6 30 15 0 0) _ (mk_FreshnessResult true []));
    reflexivity.
Defined.

(** ** Evidence *)

Definition tier_rank (tier : EvidenceTier) : Z :=
  match tier with PRIMARY => 2 | ORIGINAL_REPORTING => 1 | SECONDARY => 0 end.

Definition rank (claim : EvidenceClaim) : Z := tier_rank (ec_source_tier claim).

Lemma SOURCE_WEIGHTS_lt a b :
  dlt (SOURCE_WEIGHTS a) (SOURCE_WEIGHTS b) = Ok (tier_rank a <? tier_rank b).
Proof. by destruct a, b. Qed.

(** [claim] is represented in [clusters]: its cluster keeps a claim of at least its rank. *)
Definition covered (clusters : list EvidenceClaim) (claim : EvidenceClaim) : Prop :=
  exists kept, kept ∈ clusters /\ ec_cluster_id kept = ec_cluster_id claim /\
    rank claim <= rank kept.

Definition cluster_ids (clusters : list EvidenceClaim) : list string := ec_cluster_id <$> clusters.

Lemma cluster_insert_spec claim clusters :
  NoDup (cluster_ids clusters) ->
  returns (fun clusters' => NoDup (cluster_ids clusters') /\ covered clusters' claim /\
      (forall other, covered clusters other -> covered clusters' other) /\
      (forall c, c ∈ clusters' -> c = claim \/ c ∈ clusters) /\
      (forall id, id ∈ cluster_ids clusters' <-> id = ec_cluster_id claim \/ id ∈ cluster_ids clusters))
    (cluster_insert claim clusters).
Proof.
  induction clusters as [|current clusters IH]; intros Hnd; cbn [cluster_insert].
  - apply returns_ok. split_and!.
    + by apply NoDup_singleton.
    + exists claim. split; [by left|]. split; [done|lia].
    + intros other (kept & Hin%elem_of_nil & _). done.
    + intros c Hc. left. by apply list_elem_of_singleton in Hc.
    + intros id. cbn. rewrite elem_of_cons. tauto.
  - apply NoDup_cons in Hnd as [Hfresh Hnd].
    destruct (String.eqb_spec (ec_cluster_id current) (ec_cluster_id claim)) as [Hid|Hid].
    + rewrite SOURCE_WEIGHTS_lt. fold (rank claim) (rank current). cbn [mbind M_bind].
      set (kept := if rank current <? rank claim then claim else current).
      assert (ec_cluster_id kept = ec_cluster_id current /\ rank claim <= rank kept /\
              rank current <= rank kept /\ (kept = claim \/ kept = current)) as (Eid & R1 & R2 & Ek)
        by (unfold kept; destruct (Z.ltb_spec (rank current) (rank claim)); split_and!; auto; lia).
      apply returns_ok. split_and!.
      * cbn. rewrite Eid. by apply NoDup_cons.
      * exists kept. split; [by left|]. split; [congruence|lia].
      * intros other (k & [->|Hin]%elem_of_cons & Hk & Hr).
        -- exists kept. split; [by left|]. split; [congruence|lia].
        -- exists k. split; [by right|done].
      * intros c [->|Hin]%elem_of_cons; rewrite elem_of_cons; destruct Ek; auto.
      * intros id. cbn. rewrite Eid, !elem_of_cons, Hid. tauto.
    + eapply returns_bind; [by apply IH|]. intros rest (Hnd' & Hcov & Hmono & Hsub & Hids).
      apply returns_ok. split_and!.
      * cbn. apply NoDup_cons. split; [|done]. rewrite Hids. intros [?|?]; [congruence|done].
      * destruct Hcov as (k & Hk & ?). exists k. split; [by right|done].
      * intros other (k & [->|Hin]%elem_of_cons & Hk & Hr).
        -- exists current. split; [by left|done].
        -- destruct (Hmono other) as (k' & Hk' & ?); [by exists k|]. exists k'. split; [by right|done].
      * intros c [->|Hin]%elem_of_cons; [right; by left|]. apply Hsub in Hin. rewrite elem_of_cons. tauto.
      * intros id. cbn. rewrite !elem_of_cons. fold (cluster_ids rest). rewrite Hids. unfold cluster_ids. tauto.
Qed.

Lemma clusters_of_snoc claims claim :
  clusters_of (claims ++ [claim]) = (clusters ← clusters_of claims; cluster_insert claim clusters).
Proof.
  unfold clusters_of. rewrite fold_m_app. cbn [fold_m].
  by destruct (fold_m _ [] claims); [apply bind_ret|].
Qed.

Lemma clusters_of_spec claims :
  returns (fun clusters => NoDup (cluster_ids clusters) /\ Forall (covered clusters) claims /\
      (forall c, c ∈ clusters -> c ∈ claims))
    (clusters_of claims).
Proof.
  induction claims as [|claim claims IH] using rev_ind.
  - apply returns_ok. split_and!; [constructor|constructor|done].
  - rewrite clusters_of_snoc. eapply returns_bind; [exact IH|].
    intros clusters (Hnd & Hcov & Hsub). eapply returns_weaken; [by apply cluster_insert_spec|].
    intros clusters' (Hnd' & Hclaim & Hmono & Hsub' & _). split_and!; [done| |].
    + apply Forall_app. split; [by eapply Forall_impl|by constructor].
    + intros c Hc. apply Hsub' in Hc. rewrite elem_of_app, list_elem_of_singleton. destruct Hc; auto.
Qed.

Lemma cluster_insert_covered claim clusters :
  NoDup (cluster_ids clusters) -> covered clusters claim ->
  cluster_insert claim clusters = Ok clusters.
Proof.
  intros Hnd (kept & Hin & Hid & Hr). induction clusters as [|current clusters IH]; [set_solver|].
  cbn [cluster_insert]. apply NoDup_cons in Hnd as [Hfresh Hnd].
  destruct (String.eqb_spec (ec_cluster_id current) (ec_cluster_id claim)) as [E|E].
  - rewrite SOURCE_WEIGHTS_lt. fold (rank claim) (rank current). cbn [mbind M_bind].
    apply elem_of_cons in Hin as [->|Hin].
    + destruct (Z.ltb_spec (rank current) (rank claim)); [lia|done].
    + destruct Hfresh. rewrite E, <- Hid. by apply list_elem_of_fmap_2.
  - apply elem_of_cons in Hin as [->|Hin]; [done|]. by rewrite IH.
Qed.

(** Echoes do not count.  Appending a report whose cluster already holds a claim
    from a source at least as good leaves the result of [score_evidence] unchanged: the
    score, the drift, the thesis status and the exceptions depend on the best source
    of each cluster only, however often a story is repeated. *)
Theorem score_evidence_echo state claims claim known :
  known ∈ claims -> ec_cluster_id known = ec_cluster_id claim ->
  tier_rank (ec_source_tier claim) <= tier_rank (ec_source_tier known) ->
  score_evidence state (claims ++ [claim]) = score_evidence state claims.
Proof.
  intros Hin Hid Hr. destruct state; [|done..]. unfold score_evidence.
  rewrite clusters_of_snoc. destruct (clusters_of_spec claims) as (clusters & -> & Hnd & Hcov & _).
  cbn [mbind M_bind]. rewrite cluster_insert_covered; [done|done|].
  rewrite Forall_forall in Hcov. destruct (Hcov known Hin) as (kept & Hk & Hkid & Hkr).
  exists kept. split; [done|]. unfold rank in *. split; [congruence|lia].
Qed.

Definition sample_claim (cluster : string) (tier : EvidenceTier) (relation : EvidenceRelation)
    : EvidenceClaim :=
  mk_EvidenceClaim cluster relation 3 (D 90 (-2)) (D 80 (-2)) tier false None.

Lemma score_evidence_echo_witness :
  score_evidence ASSESSED
    ([sample_claim "a" PRIMARY SUPPORTS; sample_claim "b" SECONDARY CONTRADICTS]
      ++ [sample_claim "a" ORIGINAL_REPORTING CONTRADICTS])
  = score_evidence ASSESSED
      [sample_claim "a" PRIMARY SUPPORTS; sample_claim "b" SECONDARY CONTRADICTS].
Proof.
  apply (score_evidence_echo ASSESSED _ _ (sample_claim "a" PRIMARY SUPPORTS));
    [by left|reflexivity|vm_compute; discriminate].
Defined.

(** ** The decision *)

(** The gates that force a close besides a reason of the strategy, as facts on the inputs. *)
Definition other_gate_hit (gates : HardGateInput) (scores : ScoreInput) : Prop :=
  hg_verified_invalidation gates = true \/ hg_price_confirmation_broken gates = true \/
  (dval (si_approved_max_loss scores) * (1 # 2) <= - dval (si_liquidation_pnl scores))%Q \/
  (exists dte, hg_short_dte gates = Some dte /\ dte <= 7) \/
  hg_short_call_ex_dividend_boundary gates = true \/ hg_bounded_as_approved gates = false \/
  hg_risk_cap_exceeded gates = true \/ hg_contest_end_window gates = true \/
  hg_weekend_gate_failed gates = true.

(** A hard gate is hit: a reason of the strategy, or any of the others. *)
Definition gate_hit (gates : HardGateInput) (scores : ScoreInput) : Prop :=
  (exists reason, hg_strategy_close_reason gates = Some reason /\ reason <> EmptyString) \/
  other_gate_hit gates scores.

(** A quotient of cash amounts below one half is below it by more than the rounding. *)
Lemma below_half a b :
  cash a -> cash b -> (0 < dval b)%Q -> (dval a < dval b * (1 # 2))%Q ->
  (dval a / dval b <= inject_Z (5 * 10 ^ 20 - 1) * p10 (-21))%Q.
Proof.
  intros (_ & n & _ & En) (_ & k & Hk & Ek) Hb H.
  apply Qle_shift_div_r; [done|]. rewrite En, Ek in *. pose proof (p10_pos (-6)).
  assert (0 < inject_Z k)%Q as Pk by nra.
  assert (inject_Z n < inject_Z k * (1 # 2))%Q as Hnk by nra.
  assert (2 * n + 1 <= k) as H1.
  { enough (2 * n < k) by lia. rewrite Zlt_Qlt, inject_Z_mult. change (inject_Z 2) with 2%Q. lra. }
  apply Z.abs_le in Hk as [_ Hk]. rewrite Zle_Qle in H1, Hk.
  rewrite inject_Z_plus, inject_Z_mult in H1.
  change (inject_Z 2) with 2%Q in H1. change (inject_Z 1) with 1%Q in H1.
  change (inject_Z (10 ^ 18)) with (1000000000000000000 # 1)%Q in Hk.
  change (inject_Z (5 * 10 ^ 20 - 1)) with (499999999999999999999 # 1)%Q.
  assert (p10 (-21) == 1 # 1000000000000000000000)%Q as -> by by vm_compute.
  rewrite Qmult_assoc. apply Qmult_le_compat_r; [|lra]. lra.
Qed.

(** The loss gate compares a rounded quotient with one half: for cash amounts the answer is
    that of the exact quotient. *)
Lemma loss_limit_exact scores :
  valid_scores scores -> cash (si_liquidation_pnl scores) -> cash (si_approved_max_loss scores) ->
  exists fraction, loss_fraction_of scores = Ok fraction /\ finite fraction /\
    ((1 # 2) <= dval fraction <->
     dval (si_approved_max_loss scores) * (1 # 2) <= - dval (si_liquidation_pnl scores))%Q.
Proof.
  intros V Hc Hm. destruct (amount_neg _ _ _ Hc ltac:(done) cash_exp) as (loss & El & Hl & Vl).
  destruct (amount_max0 (-6) (10 ^ 18) loss ltac:(done) cash_exp Hl) as (m & Em & Cm & Vm).
  destruct (loss_fraction_sized scores V) as (fraction & Ef & Sf).
  exists fraction. split; [done|].
  unfold loss_fraction_of in Ef. rewrite El in Ef. cbn [mbind M_bind] in Ef.
  unfold ZERO in Ef. rewrite Em in Ef. cbn [mbind M_bind] in Ef.
  pose proof (divisor_pos _ _ _ (vs_max_loss _ V)) as Hpos.
  destruct (ddiv_spec m (si_approved_max_loss scores) fraction (proj1 Cm)
              (within_finite _ _ _ (vs_max_loss _ V)) Ef) as [Ff Hf].
  split; [done|]. split; intros H.
  - apply Qnot_lt_le. intros Hlt.
    assert (dval m < dval (si_approved_max_loss scores) * (1 # 2))%Q as Hm2.
    { destruct (Q.max_spec 0 (dval loss)) as [[_ E]|[_ E]]; lra. }
    pose proof (faithful_le _ _ _ Hf (repr_dec (5 * 10 ^ 20 - 1) (-21) ltac:(done) ltac:(done))
                  (below_half _ _ Cm Hm Hpos Hm2)).
    assert (inject_Z (5 * 10 ^ 20 - 1) * p10 (-21) < 1 # 2)%Q by by vm_compute. lra.
  - eapply (faithful_ge _ _ _ Hf).
    + apply (repr_proper (inject_Z 5 * p10 (-1))%Q); [by vm_compute|]. by apply repr_dec.
    + apply Qle_shift_div_l; [done|].
      rewrite Vm, Vl. pose proof (Q.le_max_r 0 (- dval (si_liquidation_pnl scores))). lra.
Qed.

(** Comparisons a roll candidate is judged by. *)
Definition comparable (candidate : RollCandidate) : Prop :=
  Forall finite [rc_relative_spread candidate; rc_maximum_relative_spread candidate;
                 rc_incremental_debit candidate; rc_maximum_incremental_debit candidate].

Definition roll_allowed (values : AssessmentInput) (components : ScoreResult)
    (candidate : RollCandidate) : Prop :=
  45 <= sr_display_score components < 70 /\
  (ai_thesis_status values = INTACT \/ ai_thesis_status values = WEAKENING) /\
  (sr_dominant_non_evidence_component components = "EXPOSURE"%string \/
   sr_dominant_non_evidence_component components = "TIME"%string) /\
  rc_valid candidate = true /\ 20 <= rc_drift_reduction candidate /\
  7 <= rc_expiry_extension_days candidate <= 35 /\
  (0 <= dval (rc_relative_spread candidate) <= dval (rc_maximum_relative_spread candidate))%Q /\
  (dval (rc_maximum_relative_spread candidate) < 1)%Q /\
  (0 <= dval (rc_incremental_debit candidate) <= dval (rc_maximum_incremental_debit candidate))%Q /\
  rc_within_loss_budget candidate = true /\ rc_covered_verticals candidate = true /\
  rc_no_prior_roll_today candidate = true.

Lemma roll_is_eligible_spec values components candidate :
  ai_roll_candidate values = Some candidate -> comparable candidate ->
  _roll_is_eligible values components = Ok true <-> roll_allowed values components candidate.
Proof.
  intros Hc HF. unfold comparable in HF. rewrite !Forall_cons_iff in HF.
  destruct HF as (F1 & F2 & F3 & F4 & _).
  unfold _roll_is_eligible, roll_allowed. rewrite Hc. unfold ZERO.
  autorewrite with py. rewrite !dle_ok_true, dlt_ok_true, !dval_Dint by done.
  rewrite !Z.leb_le, Z.ltb_lt. change (inject_Z 0) with 0%Q. change (inject_Z 1) with 1%Q. tauto.
Qed.

Lemma and_m_total a b : is_ok a = true -> is_ok b = true -> is_ok (and_m a b) = true.
Proof. destruct a as [[]|], b as [[]|]; done. Qed.

Lemma roll_is_eligible_total values components :
  (forall candidate, ai_roll_candidate values = Some candidate -> comparable candidate) ->
  exists b, _roll_is_eligible values components = Ok b.
Proof.
  intros HF. enough (is_ok (_roll_is_eligible values components) = true) as H.
  { destruct (_roll_is_eligible values components) as [b|]; [by exists b|done]. }
  unfold _roll_is_eligible. destruct (ai_roll_candidate values) as [candidate|]; [|done].
  specialize (HF candidate eq_refl). unfold comparable in HF. rewrite !Forall_cons_iff in HF.
  destruct HF as (F1 & F2 & F3 & F4 & _).
  destruct (dle_spec ZERO (rc_relative_spread candidate)) as (? & -> & _); [done..|].
  destruct (dle_spec (rc_relative_spread candidate) (rc_maximum_relative_spread candidate))
    as (? & -> & _); [done..|].
  destruct (dlt_spec (rc_maximum_relative_spread candidate) (Dint 1)) as (? & -> & _); [done..|].
  destruct (dle_spec ZERO (rc_incremental_debit candidate)) as (? & -> & _); [done..|].
  destruct (dle_spec (rc_incremental_debit candidate) (rc_maximum_incremental_debit candidate))
    as (? & -> & _); [done..|].
  repeat apply and_m_total; done.
Qed.

Lemma without_reason (m : M (option string)) (P : Prop) :
  (exists code, m = Ok code /\ (truthy code <> None <-> P)) ->
  exists code, m = Ok code /\
    (truthy code <> None <->
     ((exists reason, None = Some reason /\ reason <> EmptyString) \/ P) /\ None <> Some EmptyString).
Proof.
  intros (code & E & H). exists code. split; [exact E|]. rewrite H.
  split; [auto|]. intros [[(reason & [=] & _)|K] _]; exact K.
Qed.

Lemma mandatory_close_code_spec gates scores :
  valid_scores scores -> cash (si_liquidation_pnl scores) -> cash (si_approved_max_loss scores) ->
  exists code, _mandatory_close_code gates scores = Ok code /\
    (truthy code <> None <-> gate_hit gates scores /\ hg_strategy_close_reason gates <> Some EmptyString).
Proof.
  intros V Hc Hm. unfold _mandatory_close_code, gate_hit.
  destruct (loss_limit_exact scores V Hc Hm) as (fraction & -> & Ff & Hf).
  destruct (hg_strategy_close_reason gates) as [reason|].
  { exists (Some reason). split; [done|]. destruct reason; [by split; [|intros []]|].
    split; [|done]. intros _. split; [left; by eexists|done]. }
  apply without_reason. unfold other_gate_hit.
  cbn [mbind M_bind].
  destruct (hg_verified_invalidation gates); [by eexists; split; [done|]; split; auto|].
  destruct (hg_price_confirmation_broken gates); [by eexists; split; [done|]; split; auto|].
  clear Hc Hm V. unfold guard_m.
  destruct (dle_spec (D 50 (-2)) fraction) as (b & -> & Hb); [done..|]. cbn [mbind M_bind].
  assert (dval (D 50 (-2)) == 1 # 2)%Q as Eh by by vm_compute. rewrite Eh, Hf in Hb. clear Hf Eh.
  destruct b; [eexists; split; [reflexivity|]; split; [intros _; tauto|done]|].
  assert ((match hg_short_dte gates with Some dte => (dte <=? 7)%Z | None => false end) = true
          <-> exists dte, hg_short_dte gates = Some dte /\ dte <= 7) as Hs.
  { destruct (hg_short_dte gates) as [dte|].
    - rewrite Z.leb_le. split; [by exists dte|by intros (? & [= <-] & ?)].
    - split; [done|by intros (? & ? & _)]. }
  destruct (match hg_short_dte gates with Some _ => _ | None => _ end).
  { eexists. split; [reflexivity|]. split; [intros _; tauto|done]. }
  destruct (hg_short_call_ex_dividend_boundary gates), (hg_bounded_as_approved gates),
    (hg_risk_cap_exceeded gates), (hg_contest_end_window gates), (hg_weekend_gate_failed gates);
    cbn; eexists; (split; [reflexivity|]); cbn; intuition discriminate.
Qed.

Section Decision.
Context (validate_components : ScoreResult -> M ScoreResult).

(** The data an action may be based on. *)
Definition complete_data (values : AssessmentInput) (scores : ScoreInput) : Prop :=
  ai_execution_failures values = [] /\ ai_quality values = DQ_COMPLETE /\
  ai_actual_exposure values <> None /\ ai_scores values = Some scores.

Definition action_of (decision : ExecutionDecision) : Action :=
  match decision with
  | ED_NO_ACTION => NO_ACTION
  | HOLD_CERTIFIED => HOLD
  | CLOSE_APPROVED | CLOSE_RISK_ONLY => CLOSE
  | ROLL_APPROVED => ROLL
  end.

(** What each decision rests on. *)
Definition justified (values : AssessmentInput) (decision : ExecutionDecision) : Prop :=
  match decision with
  | ED_NO_ACTION => True
  | CLOSE_RISK_ONLY =>
      exists scores code, complete_data values scores /\
        _mandatory_close_code (ai_hard_gates values) scores = Ok (Some code) /\ code <> EmptyString
  | _ =>
      exists scores components code, complete_data values scores /\
        score_drift scores = Ok components /\
        _mandatory_close_code (ai_hard_gates values) scores = Ok code /\ truthy code = None /\
        ai_evidence_state values <> ES_UNKNOWN /\
        match decision with
        | CLOSE_APPROVED => ai_thesis_status values = BROKEN \/ 70 <= sr_display_score components
        | ROLL_APPROVED =>
            ai_thesis_status values <> BROKEN /\ sr_display_score components < 70 /\
            _roll_is_eligible values components = Ok true
        | _ =>
            ai_thesis_status values <> BROKEN /\ sr_display_score components < 70 /\
            _roll_is_eligible values components = Ok false
        end
  end.

Lemma verdict_justified values verdict :
  assessment_verdict values = Ok verdict ->
  justified values (v_decision verdict) /\ v_action verdict = action_of (v_decision verdict).
Proof.
  unfold assessment_verdict, justified.
  destruct (ai_execution_failures values) as [|failure rest] eqn:Ef; [|by intros [= <-]].
  destruct (ai_quality values) eqn:Eq; try by intros [= <-].
  destruct (ai_actual_exposure values) as [exposure|] eqn:Ee; [|by intros [= <-]].
  destruct (ai_scores values) as [scores|] eqn:Es; [|by intros [= <-]].
  intros H. apply bind_ok in H as (components & Ec & H). apply bind_ok in H as (code & Em & H).
  assert (complete_data values scores) as Hd by (split_and!; congruence).
  destruct (truthy code) as [reason|] eqn:Et.
  { injection H as <-. split; [|done]. destruct code as [[|c code]|]; [done| |done].
    exists scores, (String c code). by split_and!. }
  destruct (bool_decide_reflect (ai_evidence_state values = ES_UNKNOWN)); [by injection H as <-|].
  destruct (bool_decide_reflect (ai_thesis_status values = BROKEN)) as [Hb|Hb]; cbn [orb] in H.
  { injection H as <-. split; [|done]. exists scores, components, code. cbn. split_and!; auto. }
  destruct (Z.leb_spec 70 (sr_display_score components)).
  { injection H as <-. split; [|done]. exists scores, components, code. cbn. split_and!; auto. }
  apply bind_ok in H as ([] & Er & [= <-]); (split; [|done]);
    exists scores, components, code; cbn; split_and!; auto.
Qed.

(** C13: No action without its grounds.  Whatever [evaluate_assessment] returns, the action
    matches the execution decision and exactly the alternative of that action is
    eligible (none for no action); any action needs complete data (no execution
    failure, complete quality, an actual exposure and scores); a close for risk needs
    a hard gate; every other action needs the gates clear and known evidence, a
    hold or a roll a thesis that is not broken and a score below 70, and a roll a
    candidate that passes all its guards. *)
Theorem assessment_action_justified values r :
  evaluate_assessment validate_components values = Ok r ->
  let response := pr_response r in
  let decision := pr_execution_decision r in
  resp_execution_decision response = decision /\
  resp_action response = action_of decision /\
  justified values decision /\
  alt_action <$> filter (fun alternative => alt_eligible alternative = true)
                   (resp_alternatives response)
    = (if bool_decide (decision = ED_NO_ACTION) then [] else [action_of decision]).
Proof.
  unfold evaluate_assessment. intros H. apply bind_ok in H as (verdict & Hv & H).
  apply bind_ok in H as (components & _ & [= <-]). cbn zeta.
  apply verdict_justified in Hv as [Hj Ha]. cbn [pr_response pr_execution_decision resp_execution_decision
    resp_action resp_alternatives]. split_and!; [done..|].
  unfold alternative_of. rewrite Ha. by destruct (v_decision verdict).
Qed.

(** pydantic accepts the components when their decimals are finite and the display score is in
    its declared range. *)
Context (accepts_bounded : forall r, bounded_score r -> validate_components r = Ok r).

(** C14: The decision is total and the hard gates are decisive.  For complete data, valid
    scores in cash amounts and a comparable roll candidate the assessment returns a
    decision, and it is a close for risk if and only if a hard gate is hit (a reason the strategy
    gives, an invalidation, a broken price confirmation, half of the approved loss, seven days
    to expiry, an ex-dividend boundary, unbounded risk, an exceeded cap, the end of the contest
    or the weekend) and the strategy's reason is not the empty string: no evidence state,
    thesis status, score or roll candidate hides a gate, and nothing but a gate produces that
    decision.  The empty string for a reason, which no caller gives, would hide them all. *)
Theorem assessment_gates_decide values scores :
  complete_data values scores -> valid_scores scores ->
  cash (si_liquidation_pnl scores) -> cash (si_approved_max_loss scores) ->
  (forall candidate, ai_roll_candidate values = Some candidate -> comparable candidate) ->
  exists r, evaluate_assessment validate_components values = Ok r /\
    (pr_execution_decision r = CLOSE_RISK_ONLY <->
     gate_hit (ai_hard_gates values) scores /\ hg_strategy_close_reason (ai_hard_gates values) <> Some EmptyString).
Proof.
  intros (Ef & Eq & Ee & Es) V Hc Hm HF. unfold evaluate_assessment, assessment_verdict.
  rewrite Ef, Eq, Es. destruct (ai_actual_exposure values) as [exposure|]; [|done].
  destruct (score_drift_returns scores V) as (components & -> & Hb).
  destruct (mandatory_close_code_spec (ai_hard_gates values) scores V Hc Hm) as (code & -> & Hcode).
  cbn [mbind M_bind].
  destruct (roll_is_eligible_total values components HF) as (eligible & ->).
  cbn [mbind M_bind].
  destruct (truthy code); [|destruct (bool_decide (ai_evidence_state values = ES_UNKNOWN));
    [|destruct (bool_decide (ai_thesis_status values = BROKEN) || (70 <=? sr_display_score components));
    [|destruct eligible]]]; cbn [mbind M_bind v_components]; rewrite (accepts_bounded _ Hb);
    eexists; (split; [reflexivity|]); rewrite <- Hcode; cbn; by split.
Qed.
End Decision.

Definition no_gates : HardGateInput :=
  mk_HardGateInput false false None false true false false false None.

Definition sample_assessment (gates : HardGateInput) : AssessmentInput :=
  {| ai_assessment_id := 1; ai_run_id := 2; ai_policy_hash := hex_of_N 64 7;
     ai_quality := DQ_COMPLETE;
     ai_actual_exposure := Some (mk_GreekExposure (Dint 1) (Dint 1) (Dint 1) (Dint 1));
     ai_thesis_status := TS_UNKNOWN; ai_evidence_state := ES_UNKNOWN;
     ai_scores := Some sample_scores; ai_execution_failures := [];
     ai_hard_gates := gates; ai_roll_candidate := None;
     ai_acquisition_manifest_id := None; ai_acquisition_manifest_hash := None |}.

Definition short_dte_gate : HardGateInput :=
  mk_HardGateInput false false (Some 5) false true false false false None.

Lemma assessment_action_justified_witness :
  exists r, evaluate_assessment Ok (sample_assessment short_dte_gate) = Ok r /\
    justified (sample_assessment short_dte_gate) (pr_execution_decision r).
Proof.
  destruct (evaluate_assessment Ok (sample_assessment short_dte_gate)) as [r|e] eqn:E;
    [|vm_compute in E; discriminate].
  exists r. split; [reflexivity|].
  apply (assessment_action_justified Ok (sample_assessment short_dte_gate) r E).
Defined.

Lemma assessment_gates_decide_witness :
  exists r, evaluate_assessment Ok (sample_assessment short_dte_gate) = Ok r /\
    (pr_execution_decision r = CLOSE_RISK_ONLY <->
     gate_hit short_dte_gate sample_scores /\ hg_strategy_close_reason short_dte_gate <> Some EmptyString).
Proof.
  apply (assessment_gates_decide Ok).
  - reflexivity.
  - split_and!; (reflexivity || discriminate).
  - exact sample_scores_valid.
  - apply amount_D; [lia|vm_compute; discriminate].
  - apply amount_D; [lia|vm_compute; discriminate].
  - discriminate.
Defined.
