(* ===== verification/OpportunityData.v ===== *)
(** * Opportunity data and canonical hashes

    The data of [backend/app/policy/opportunity.py]: the outcome and reason codes, the
    policy, the option legs and candidate, the account state, the input and the decision
    record; and [_canonical_value] / [_canonical_hash], the canonical JSON whose SHA-256
    binds a decision to what it was taken from.  A Python object is a [value]; each
    dataclass has its [value_of_...]. *)

From Stdlib Require Import ZArith Lia String Ascii List Bool.
From stdpp Require Import base strings option tactics list.
From S2P Require Import Prelude PyText PyDecimal PyTime PyHash Contracts OrderLimits.

#[local] Open Scope Z_scope.

(** ** Enumerations *)

Inductive OpportunityOutcome :=
  | OO_ENTRY_APPROVED | NO_TRADE.

#[export] Instance OpportunityOutcome_eq_dec : EqDecision OpportunityOutcome.
Proof. solve_decision. Defined.

#[export] Instance OpportunityOutcome_value : StrEnum OpportunityOutcome := fun x =>
  match x with
  | OO_ENTRY_APPROVED => "ENTRY_APPROVED"
  | NO_TRADE => "NO_TRADE"
  end%string.

Inductive OpportunityReason :=
  | ENTRY_APPROVED | DECISION_BOUNDARY_INCOMPLETE | DECISION_BOUNDARY_MISMATCH
  | DECISION_BOUNDARY_NOT_REACHED | DECISION_BOUNDARY_STALE | DATA_QUALITY_INCOMPLETE
  | NORMALIZED_INPUT_INVALID | CATALYST_CONTRADICTED | CATALYST_DATA_MISSING
  | CATALYST_DATA_STALE | CATALYST_SCORE_BELOW_MINIMUM | MARKET_CLOSED
  | TRADING_HALT_STATUS_UNKNOWN | TRADING_HALTED | UNDERLYING_DATA_STALE
  | BETA_OUT_OF_BOUNDS | FIRST_REACTION_OUT_OF_SUPPORT | OPTION_CANDIDATE_MISSING
  | OPTION_CANDIDATE_INVALID | OPTION_ONLY_REQUIRED | VERTICAL_STRUCTURE_INVALID
  | OPTION_FEED_NOT_INDICATIVE | OPTION_QUOTE_STALE | OPTION_QUOTES_UNSYNCHRONIZED
  | OPTION_QUOTE_INVALID | OPTION_QUOTE_TOO_WIDE | OPTION_GREEKS_MISSING
  | OPTION_DTE_OUT_OF_RANGE | OPTION_DTE_MISMATCH | OPTION_CONTRACT_INELIGIBLE
  | OPTION_PAYOFF_INVALID | CANDIDATE_SCORE_BELOW_MINIMUM | CANDIDATE_FALLBACK_FORBIDDEN
  | BUYING_POWER_INSUFFICIENT | QUANTITY_OUT_OF_BOUNDS | ACCOUNT_ROLE_NOT_EXECUTABLE
  | BASELINE_NOT_CLEAN | EQUITY_FLOOR_REACHED | ACCOUNT_NOT_FLAT | OPEN_ORDER_EXISTS
  | LIFETIME_ENTRY_LIMIT_REACHED | LIFETIME_RISK_LIMIT_REACHED | EVENT_ALREADY_ATTEMPTED
  | POSITION_RISK_LIMIT_EXCEEDED | ENTRY_WINDOW_CLOSED | POLICY_SCOPE_MISMATCH
  | BOOK_FINGERPRINT_INVALID | ACCOUNT_STATE_INVALID | ENTRY_RESERVATION_ACTIVE
  | PRIOR_DECISION_BINDING | DIRECTION_NOT_CONFIRMED | VERTICAL_DIRECTION_MISMATCH.

#[export] Instance OpportunityReason_value : StrEnum OpportunityReason := fun x =>
  match x with
  | ENTRY_APPROVED => "ENTRY_APPROVED"
  | DECISION_BOUNDARY_INCOMPLETE => "DECISION_BOUNDARY_INCOMPLETE"
  | DECISION_BOUNDARY_MISMATCH => "DECISION_BOUNDARY_MISMATCH"
  | DECISION_BOUNDARY_NOT_REACHED => "DECISION_BOUNDARY_NOT_REACHED"
  | DECISION_BOUNDARY_STALE => "DECISION_BOUNDARY_STALE"
  | DATA_QUALITY_INCOMPLETE => "DATA_QUALITY_INCOMPLETE"
  | NORMALIZED_INPUT_INVALID => "NORMALIZED_INPUT_INVALID"
  | CATALYST_CONTRADICTED => "CATALYST_CONTRADICTED"
  | CATALYST_DATA_MISSING => "CATALYST_DATA_MISSING"
  | CATALYST_DATA_STALE => "CATALYST_DATA_STALE"
  | CATALYST_SCORE_BELOW_MINIMUM => "CATALYST_SCORE_BELOW_MINIMUM"
  | MARKET_CLOSED => "MARKET_CLOSED"
  | TRADING_HALT_STATUS_UNKNOWN => "TRADING_HALT_STATUS_UNKNOWN"
  | TRADING_HALTED => "TRADING_HALTED"
  | UNDERLYING_DATA_STALE => "UNDERLYING_DATA_STALE"
  | BETA_OUT_OF_BOUNDS => "BETA_OUT_OF_BOUNDS"
  | FIRST_REACTION_OUT_OF_SUPPORT => "FIRST_REACTION_OUT_OF_SUPPORT"
  | OPTION_CANDIDATE_MISSING => "OPTION_CANDIDATE_MISSING"
  | OPTION_CANDIDATE_INVALID => "OPTION_CANDIDATE_INVALID"
  | OPTION_ONLY_REQUIRED => "OPTION_ONLY_REQUIRED"
  | VERTICAL_STRUCTURE_INVALID => "VERTICAL_STRUCTURE_INVALID"
  | OPTION_FEED_NOT_INDICATIVE => "OPTION_FEED_NOT_INDICATIVE"
  | OPTION_QUOTE_STALE => "OPTION_QUOTE_STALE"
  | OPTION_QUOTES_UNSYNCHRONIZED => "OPTION_QUOTES_UNSYNCHRONIZED"
  | OPTION_QUOTE_INVALID => "OPTION_QUOTE_INVALID"
  | OPTION_QUOTE_TOO_WIDE => "OPTION_QUOTE_TOO_WIDE"
  | OPTION_GREEKS_MISSING => "OPTION_GREEKS_MISSING"
  | OPTION_DTE_OUT_OF_RANGE => "OPTION_DTE_OUT_OF_RANGE"
  | OPTION_DTE_MISMATCH => "OPTION_DTE_MISMATCH"
  | OPTION_CONTRACT_INELIGIBLE => "OPTION_CONTRACT_INELIGIBLE"
  | OPTION_PAYOFF_INVALID => "OPTION_PAYOFF_INVALID"
  | CANDIDATE_SCORE_BELOW_MINIMUM => "CANDIDATE_SCORE_BELOW_MINIMUM"
  | CANDIDATE_FALLBACK_FORBIDDEN => "CANDIDATE_FALLBACK_FORBIDDEN"
  | BUYING_POWER_INSUFFICIENT => "BUYING_POWER_INSUFFICIENT"
  | QUANTITY_OUT_OF_BOUNDS => "QUANTITY_OUT_OF_BOUNDS"
  | ACCOUNT_ROLE_NOT_EXECUTABLE => "ACCOUNT_ROLE_NOT_EXECUTABLE"
  | BASELINE_NOT_CLEAN => "BASELINE_NOT_CLEAN"
  | EQUITY_FLOOR_REACHED => "EQUITY_FLOOR_REACHED"
  | ACCOUNT_NOT_FLAT => "ACCOUNT_NOT_FLAT"
  | OPEN_ORDER_EXISTS => "OPEN_ORDER_EXISTS"
  | LIFETIME_ENTRY_LIMIT_REACHED => "LIFETIME_ENTRY_LIMIT_REACHED"
  | LIFETIME_RISK_LIMIT_REACHED => "LIFETIME_RISK_LIMIT_REACHED"
  | EVENT_ALREADY_ATTEMPTED => "EVENT_ALREADY_ATTEMPTED"
  | POSITION_RISK_LIMIT_EXCEEDED => "POSITION_RISK_LIMIT_EXCEEDED"
  | ENTRY_WINDOW_CLOSED => "ENTRY_WINDOW_CLOSED"
  | POLICY_SCOPE_MISMATCH => "POLICY_SCOPE_MISMATCH"
  | BOOK_FINGERPRINT_INVALID => "BOOK_FINGERPRINT_INVALID"
  | ACCOUNT_STATE_INVALID => "ACCOUNT_STATE_INVALID"
  | ENTRY_RESERVATION_ACTIVE => "ENTRY_RESERVATION_ACTIVE"
  | PRIOR_DECISION_BINDING => "PRIOR_DECISION_BINDING"
  | DIRECTION_NOT_CONFIRMED => "DIRECTION_NOT_CONFIRMED"
  | VERTICAL_DIRECTION_MISMATCH => "VERTICAL_DIRECTION_MISMATCH"
  end%string.

Inductive OpportunityDirection :=
  | BULLISH | BEARISH.

#[export] Instance OpportunityDirection_eq_dec : EqDecision OpportunityDirection.
Proof. solve_decision. Defined.

#[export] Instance OpportunityDirection_value : StrEnum OpportunityDirection := fun x =>
  match x with
  | BULLISH => "BULLISH"
  | BEARISH => "BEARISH"
  end%string.

Inductive TradingHaltState :=
  | HALTED | NOT_HALTED | HALT_UNKNOWN.

#[export] Instance TradingHaltState_eq_dec : EqDecision TradingHaltState.
Proof. solve_decision. Defined.

#[export] Instance TradingHaltState_value : StrEnum TradingHaltState := fun x =>
  match x with
  | HALTED => "HALTED"
  | NOT_HALTED => "NOT_HALTED"
  | HALT_UNKNOWN => "UNKNOWN"
  end%string.

Inductive CatalystQuality :=
  | CLEAR | UNRESOLVED_RISK | AUTHORITATIVE_CONTRADICTION | CQ_MISSING.

#[export] Instance CatalystQuality_eq_dec : EqDecision CatalystQuality.
Proof. solve_decision. Defined.

#[export] Instance CatalystQuality_value : StrEnum CatalystQuality := fun x =>
  match x with
  | CLEAR => "CLEAR"
  | UNRESOLVED_RISK => "UNRESOLVED_RISK"
  | AUTHORITATIVE_CONTRADICTION => "AUTHORITATIVE_CONTRADICTION"
  | CQ_MISSING => "MISSING"
  end%string.

Inductive InstrumentKind :=
  | OPTION | EQUITY.

#[export] Instance InstrumentKind_eq_dec : EqDecision InstrumentKind.
Proof. solve_decision. Defined.

#[export] Instance InstrumentKind_value : StrEnum InstrumentKind := fun x =>
  match x with
  | OPTION => "OPTION"
  | EQUITY => "EQUITY"
  end%string.

Inductive OptionFeed :=
  | INDICATIVE_MODIFIED | OPRA | OTHER_FEED.

#[export] Instance OptionFeed_eq_dec : EqDecision OptionFeed.
Proof. solve_decision. Defined.

#[export] Instance OptionFeed_value : StrEnum OptionFeed := fun x =>
  match x with
  | INDICATIVE_MODIFIED => "INDICATIVE_MODIFIED"
  | OPRA => "OPRA"
  | OTHER_FEED => "OTHER"
  end%string.

Inductive VerticalStrategy :=
  | BULL_CALL_DEBIT | BULL_PUT_CREDIT | BEAR_PUT_DEBIT | BEAR_CALL_CREDIT.

#[export] Instance VerticalStrategy_eq_dec : EqDecision VerticalStrategy.
Proof. solve_decision. Defined.

#[export] Instance VerticalStrategy_value : StrEnum VerticalStrategy := fun x =>
  match x with
  | BULL_CALL_DEBIT => "BULL_CALL_DEBIT"
  | BULL_PUT_CREDIT => "BULL_PUT_CREDIT"
  | BEAR_PUT_DEBIT => "BEAR_PUT_DEBIT"
  | BEAR_CALL_CREDIT => "BEAR_CALL_CREDIT"
  end%string.

(** ** Canonical values *)

(** The Python objects [_canonical_value] takes apart. *)
Inductive value :=
  | VNone
  | VBool (b : bool)
  | VInt (n : Z)
  | VStr (s : string)
  | VHalt (state : TradingHaltState)
  | VEnum (text : string)
  | VDecimal (d : decimal)
  | VDatetime (t : datetime)
  | VDate (d : date)
  | VTimedelta (td : timedelta)
  | VDataclass (fields : list (string * value))
  | VTuple (items : list value)
  | VList (items : list value)
  | VDict (items : list (string * value)).

Definition of_option {A} (f : A -> value) (o : option A) : value :=
  match o with Some a => f a | None => VNone end.

Definition is_none (v : value) : bool := if v is VNone then true else false.

(** The decimals, datetimes and enumerations of [_canonical_value]. *)
Definition canonical_decimal_value (d : decimal) : M json :=
  if is_finite d then Ok (JStr (canonical_decimal d)) else Raise (ValueError "NONFINITE_DECIMAL").

Definition canonical_datetime_value (t : datetime) : M json :=
  if is_aware t then
    t' ← astimezone_utc t; Ok (JStr (utc_isoformat true t'))
  else Raise (ValueError "NAIVE_DATETIME").

Fixpoint _canonical_value (v : value) : M json :=
  match v with
  | VHalt HALTED => Ok (JBool true)
  | VHalt NOT_HALTED => Ok (JBool false)
  | VHalt HALT_UNKNOWN => Ok (JStr (enum_value HALT_UNKNOWN))
  | VEnum text => Ok (JStr text)
  | VDecimal d => canonical_decimal_value d
  | VDatetime t => canonical_datetime_value t
  | VDate d => Ok (JStr (date_isoformat d))
  | VTimedelta td =>
      Ok (JObj [("days"%string, JInt (td_days td)); ("seconds"%string, JInt (td_seconds td));
                ("microseconds"%string, JInt (td_microseconds td))])
  | VDataclass fields =>
      members ←
        (fix go l :=
           match l with
           | [] => Ok []
           | (name, x) :: l =>
               if String.eqb name "maximum_limit" && is_none x then go l
               else j ← _canonical_value x; js ← go l; Ok ((name, j) :: js)
           end) fields;
      Ok (JObj members)
  | VTuple items | VList items =>
      elements ←
        (fix go l :=
           match l with
           | [] => Ok []
           | x :: l => j ← _canonical_value x; js ← go l; Ok (j :: js)
           end) items;
      Ok (JArr elements)
  | VDict items =>
      members ←
        (fix go l :=
           match l with
           | [] => Ok []
           | (name, x) :: l => j ← _canonical_value x; js ← go l; Ok ((name, j) :: js)
           end) items;
      Ok (JObj members)
  | VNone => Ok JNull
  | VBool b => Ok (JBool b)
  | VInt n => Ok (JInt n)
  | VStr s => Ok (JStr s)
  end.

Definition _canonical_payload (domain : string) (v : value) : M string :=
  j ← _canonical_value v;
  Ok (json_dumps (JObj [("domain"%string, JStr domain); ("value"%string, j)])).

Definition _canonical_hash (domain : string) (v : value) : M string :=
  payload ← _canonical_payload domain v; Ok (sha256_hex payload).

(** ** Records *)

Record StructuralBullishPilotProfile := mk_StructuralBullishPilotProfile {
  sp_direction : OpportunityDirection;
  sp_target_dte : Z;
  sp_minimum_dte : Z;
  sp_maximum_dte : Z;
  sp_width : decimal;
  sp_minimum_long_delta : decimal;
  sp_maximum_long_delta : decimal;
  sp_quantity : Z;
  sp_maximum_debit : decimal;
  sp_minimum_reward_to_risk : decimal;
  sp_maximum_relative_spread : decimal;
  sp_maximum_quote_age : timedelta;
  sp_maximum_quote_skew : timedelta;
}.

Definition value_of_StructuralBullishPilotProfile (v : StructuralBullishPilotProfile) : value :=
  VDataclass
    [("direction"%string, VEnum (enum_value (sp_direction v)));
     ("target_dte"%string, VInt (sp_target_dte v));
     ("minimum_dte"%string, VInt (sp_minimum_dte v));
     ("maximum_dte"%string, VInt (sp_maximum_dte v));
     ("width"%string, VDecimal (sp_width v));
     ("minimum_long_delta"%string, VDecimal (sp_minimum_long_delta v));
     ("maximum_long_delta"%string, VDecimal (sp_maximum_long_delta v));
     ("quantity"%string, VInt (sp_quantity v));
     ("maximum_debit"%string, VDecimal (sp_maximum_debit v));
     ("minimum_reward_to_risk"%string, VDecimal (sp_minimum_reward_to_risk v));
     ("maximum_relative_spread"%string, VDecimal (sp_maximum_relative_spread v));
     ("maximum_quote_age"%string, VTimedelta (sp_maximum_quote_age v));
     ("maximum_quote_skew"%string, VTimedelta (sp_maximum_quote_skew v))].

Record OpportunityPolicy := mk_OpportunityPolicy {
  op_version : string;
  op_opportunity_key : string;
  op_underlying : string;
  op_selected_decision_boundary : datetime;
  op_last_entry_boundary : datetime;
  op_maximum_decision_delay : timedelta;
  op_maximum_underlying_age : timedelta;
  op_maximum_catalyst_age : timedelta;
  op_maximum_option_quote_age : timedelta;
  op_maximum_leg_quote_skew : timedelta;
  op_minimum_vwap_distance : decimal;
  op_maximum_vwap_distance : decimal;
  op_minimum_relative_return : decimal;
  op_minimum_beta : decimal;
  op_maximum_beta : decimal;
  op_required_trend_hits : Z;
  op_maximum_first_reaction : decimal;
  op_minimum_catalyst_score : Z;
  op_minimum_candidate_score : Z;
  op_minimum_dte : Z;
  op_maximum_dte : Z;
  op_maximum_relative_spread : decimal;
  op_minimum_debit_width_fraction : decimal;
  op_maximum_debit_width_fraction : decimal;
  op_minimum_credit_width_fraction : decimal;
  op_maximum_position_loss : decimal;
  op_maximum_equity_risk_fraction : decimal;
  op_maximum_lifetime_entries : Z;
  op_maximum_lifetime_risk : decimal;
  op_equity_floor : decimal;
  op_maximum_quantity : Z;
}.

Definition value_of_OpportunityPolicy (v : OpportunityPolicy) : value :=
  VDataclass
    [("version"%string, VStr (op_version v));
     ("opportunity_key"%string, VStr (op_opportunity_key v));
     ("underlying"%string, VStr (op_underlying v));
     ("selected_decision_boundary"%string, VDatetime (op_selected_decision_boundary v));
     ("last_entry_boundary"%string, VDatetime (op_last_entry_boundary v));
     ("maximum_decision_delay"%string, VTimedelta (op_maximum_decision_delay v));
     ("maximum_underlying_age"%string, VTimedelta (op_maximum_underlying_age v));
     ("maximum_catalyst_age"%string, VTimedelta (op_maximum_catalyst_age v));
     ("maximum_option_quote_age"%string, VTimedelta (op_maximum_option_quote_age v));
     ("maximum_leg_quote_skew"%string, VTimedelta (op_maximum_leg_quote_skew v));
     ("minimum_vwap_distance"%string, VDecimal (op_minimum_vwap_distance v));
     ("maximum_vwap_distance"%string, VDecimal (op_maximum_vwap_distance v));
     ("minimum_relative_return"%string, VDecimal (op_minimum_relative_return v));
     ("minimum_beta"%string, VDecimal (op_minimum_beta v));
     ("maximum_beta"%string, VDecimal (op_maximum_beta v));
     ("required_trend_hits"%string, VInt (op_required_trend_hits v));
     ("maximum_first_reaction"%string, VDecimal (op_maximum_first_reaction v));
     ("minimum_catalyst_score"%string, VInt (op_minimum_catalyst_score v));
     ("minimum_candidate_score"%string, VInt (op_minimum_candidate_score v));
     ("minimum_dte"%string, VInt (op_minimum_dte v));
     ("maximum_dte"%string, VInt (op_maximum_dte v));
     ("maximum_relative_spread"%string, VDecimal (op_maximum_relative_spread v));
     ("minimum_debit_width_fraction"%string, VDecimal (op_minimum_debit_width_fraction v));
     ("maximum_debit_width_fraction"%string, VDecimal (op_maximum_debit_width_fraction v));
     ("minimum_credit_width_fraction"%string, VDecimal (op_minimum_credit_width_fraction v));
     ("maximum_position_loss"%string, VDecimal (op_maximum_position_loss v));
     ("maximum_equity_risk_fraction"%string, VDecimal (op_maximum_equity_risk_fraction v));
     ("maximum_lifetime_entries"%string, VInt (op_maximum_lifetime_entries v));
     ("maximum_lifetime_risk"%string, VDecimal (op_maximum_lifetime_risk v));
     ("equity_floor"%string, VDecimal (op_equity_floor v));
     ("maximum_quantity"%string, VInt (op_maximum_quantity v))].

Record OptionLeg := mk_OptionLeg {
  ol_instrument_kind : InstrumentKind;
  ol_symbol : string;
  ol_underlying : string;
  ol_right : OptionRight;
  ol_strike : decimal;
  ol_expiry : date;
  ol_intent : PositionIntent;
  ol_ratio : Z;
  ol_multiplier : Z;
  ol_active : bool;
  ol_tradable : bool;
  ol_bid : decimal;
  ol_ask : decimal;
  ol_bid_size : Z;
  ol_ask_size : Z;
  ol_quote_at : datetime;
  ol_feed : OptionFeed;
  ol_greeks_complete : bool;
  ol_greek_units_verified : bool;
}.

Definition value_of_OptionLeg (v : OptionLeg) : value :=
  VDataclass
    [("instrument_kind"%string, VEnum (enum_value (ol_instrument_kind v)));
     ("symbol"%string, VStr (ol_symbol v));
     ("underlying"%string, VStr (ol_underlying v));
     ("right"%string, VEnum (enum_value (ol_right v)));
     ("strike"%string, VDecimal (ol_strike v));
     ("expiry"%string, VDate (ol_expiry v));
     ("intent"%string, VEnum (enum_value (ol_intent v)));
     ("ratio"%string, VInt (ol_ratio v));
     ("multiplier"%string, VInt (ol_multiplier v));
     ("active"%string, VBool (ol_active v));
     ("tradable"%string, VBool (ol_tradable v));
     ("bid"%string, VDecimal (ol_bid v));
     ("ask"%string, VDecimal (ol_ask v));
     ("bid_size"%string, VInt (ol_bid_size v));
     ("ask_size"%string, VInt (ol_ask_size v));
     ("quote_at"%string, VDatetime (ol_quote_at v));
     ("feed"%string, VEnum (enum_value (ol_feed v)));
     ("greeks_complete"%string, VBool (ol_greeks_complete v));
     ("greek_units_verified"%string, VBool (ol_greek_units_verified v))].

Record VerticalCandidate := mk_VerticalCandidate {
  vc_strategy : VerticalStrategy;
  vc_legs : list OptionLeg;
  vc_quantity : Z;
  vc_dte : Z;
  vc_approved_limit : decimal;
  vc_candidate_score : Z;
  vc_selection_rank : Z;
  vc_buying_power_sufficient : bool;
  vc_maximum_limit : option decimal;
}.

Definition value_of_VerticalCandidate (v : VerticalCandidate) : value :=
  VDataclass
    [("strategy"%string, VEnum (enum_value (vc_strategy v)));
     ("legs"%string, VTuple (map (fun y => value_of_OptionLeg y) (vc_legs v)));
     ("quantity"%string, VInt (vc_quantity v));
     ("dte"%string, VInt (vc_dte v));
     ("approved_limit"%string, VDecimal (vc_approved_limit v));
     ("candidate_score"%string, VInt (vc_candidate_score v));
     ("selection_rank"%string, VInt (vc_selection_rank v));
     ("buying_power_sufficient"%string, VBool (vc_buying_power_sufficient v));
     ("maximum_limit"%string, of_option (fun y => VDecimal y) (vc_maximum_limit v))].

Record AccountOpportunityState := mk_AccountOpportunityState {
  ac_account_role : AccountRole;
  ac_book_fingerprint : string;
  ac_baseline_clean : bool;
  ac_clean_equity : decimal;
  ac_open_position_count : Z;
  ac_open_order_count : Z;
  ac_filled_entry_count : Z;
  ac_lifetime_approved_risk : decimal;
  ac_entry_reservation_active : bool;
  ac_reserved_approved_risk : decimal;
  ac_event_already_attempted : bool;
}.

Definition value_of_AccountOpportunityState (v : AccountOpportunityState) : value :=
  VDataclass
    [("account_role"%string, VEnum (enum_value (ac_account_role v)));
     ("book_fingerprint"%string, VStr (ac_book_fingerprint v));
     ("baseline_clean"%string, VBool (ac_baseline_clean v));
     ("clean_equity"%string, VDecimal (ac_clean_equity v));
     ("open_position_count"%string, VInt (ac_open_position_count v));
     ("open_order_count"%string, VInt (ac_open_order_count v));
     ("filled_entry_count"%string, VInt (ac_filled_entry_count v));
     ("lifetime_approved_risk"%string, VDecimal (ac_lifetime_approved_risk v));
     ("entry_reservation_active"%string, VBool (ac_entry_reservation_active v));
     ("reserved_approved_risk"%string, VDecimal (ac_reserved_approved_risk v));
     ("event_already_attempted"%string, VBool (ac_event_already_attempted v))].

Record OpportunityInput := mk_OpportunityInput {
  oi_opportunity_key : string;
  oi_underlying : string;
  oi_observed_decision_boundary : datetime;
  oi_evaluated_at : datetime;
  oi_completed_bar_at : datetime;
  oi_decision_boundary_complete : bool;
  oi_prior_decision_outcome : option OpportunityOutcome;
  oi_data_quality : DataQuality;
  oi_market_open : bool;
  oi_trading_halted : TradingHaltState;
  oi_underlying_observed_at : datetime;
  oi_catalyst_observed_at : datetime;
  oi_catalyst_quality : CatalystQuality;
  oi_catalyst_score : Z;
  oi_vwap_distance : decimal;
  oi_relative_return : decimal;
  oi_beta : decimal;
  oi_bull_trend_hits : Z;
  oi_bear_trend_hits : Z;
  oi_absolute_first_reaction : decimal;
  oi_candidate : option VerticalCandidate;
  oi_account : AccountOpportunityState;
}.

Definition value_of_OpportunityInput (v : OpportunityInput) : value :=
  VDataclass
    [("opportunity_key"%string, VStr (oi_opportunity_key v));
     ("underlying"%string, VStr (oi_underlying v));
     ("observed_decision_boundary"%string, VDatetime (oi_observed_decision_boundary v));
     ("evaluated_at"%string, VDatetime (oi_evaluated_at v));
     ("completed_bar_at"%string, VDatetime (oi_completed_bar_at v));
     ("decision_boundary_complete"%string, VBool (oi_decision_boundary_complete v));
     ("prior_decision_outcome"%string, of_option (fun y => VEnum (enum_value y)) (oi_prior_decision_outcome v));
     ("data_quality"%string, VEnum (enum_value (oi_data_quality v)));
     ("market_open"%string, VBool (oi_market_open v));
     ("trading_halted"%string, VHalt (oi_trading_halted v));
     ("underlying_observed_at"%string, VDatetime (oi_underlying_observed_at v));
     ("catalyst_observed_at"%string, VDatetime (oi_catalyst_observed_at v));
     ("catalyst_quality"%string, VEnum (enum_value (oi_catalyst_quality v)));
     ("catalyst_score"%string, VInt (oi_catalyst_score v));
     ("vwap_distance"%string, VDecimal (oi_vwap_distance v));
     ("relative_return"%string, VDecimal (oi_relative_return v));
     ("beta"%string, VDecimal (oi_beta v));
     ("bull_trend_hits"%string, VInt (oi_bull_trend_hits v));
     ("bear_trend_hits"%string, VInt (oi_bear_trend_hits v));
     ("absolute_first_reaction"%string, VDecimal (oi_absolute_first_reaction v));
     ("candidate"%string, of_option (fun y => value_of_VerticalCandidate y) (oi_candidate v));
     ("account"%string, value_of_AccountOpportunityState (oi_account v))].

Record OpportunityDecisionRecord := mk_OpportunityDecisionRecord {
  od_outcome : OpportunityOutcome;
  od_reason_codes : list OpportunityReason;
  od_opportunity_key : string;
  od_decision_boundary : datetime;
  od_direction : option OpportunityDirection;
  od_strategy : option VerticalStrategy;
  od_quantity : option Z;
  od_approved_max_loss : option decimal;
  od_book_fingerprint : string;
  od_candidate_hash : option string;
  od_input_hash : string;
  od_policy_hash : string;
  od_result_hash : string;
}.

(** ** Constructor of the policy *)

Definition make_OpportunityPolicy (self : OpportunityPolicy) : M OpportunityPolicy :=
  valid ←
    (str_nonempty (op_version self) && str_nonempty (op_opportunity_key self)
       && str_nonempty (op_underlying self))
    &&& is_utc (op_selected_decision_boundary self)
    &&& is_utc (op_last_entry_boundary self)
    &&& forallb (Z.ltb 0)
          [op_maximum_decision_delay self; op_maximum_underlying_age self;
           op_maximum_catalyst_age self; op_maximum_option_quote_age self;
           op_maximum_leg_quote_skew self]
    &&& forallb is_finite
          [op_minimum_vwap_distance self; op_maximum_vwap_distance self;
           op_minimum_relative_return self; op_minimum_beta self; op_maximum_beta self;
           op_maximum_first_reaction self; op_maximum_relative_spread self;
           op_minimum_debit_width_fraction self; op_maximum_debit_width_fraction self;
           op_minimum_credit_width_fraction self; op_maximum_position_loss self;
           op_maximum_equity_risk_fraction self; op_maximum_lifetime_risk self;
           op_equity_floor self]
    &&& ((Dint 0 <=. op_minimum_vwap_distance self)
         &&& (op_minimum_vwap_distance self <. op_maximum_vwap_distance self))
    &&& (op_minimum_relative_return self >=. Dint 0)
    &&& ((Dint 0 <=. op_minimum_beta self) &&& (op_minimum_beta self <. op_maximum_beta self))
    &&& ((1 <=? op_required_trend_hits self) && (op_required_trend_hits self <=? 3))
    &&& (op_maximum_first_reaction self >. Dint 0)
    &&& ((0 <=? op_minimum_catalyst_score self) && (op_minimum_catalyst_score self <=? 100))
    &&& ((0 <=? op_minimum_candidate_score self) && (op_minimum_candidate_score self <=? 100))
    &&& ((1 <=? op_minimum_dte self) && (op_minimum_dte self <=? op_maximum_dte self))
    &&& ((Dint 0 <. op_maximum_relative_spread self)
         &&& (op_maximum_relative_spread self <. Dint 1))
    &&& ((Dint 0 <. op_minimum_debit_width_fraction self)
         &&& (op_minimum_debit_width_fraction self <=. op_maximum_debit_width_fraction self)
         &&& (op_maximum_debit_width_fraction self <. Dint 1))
    &&& ((Dint 0 <. op_minimum_credit_width_fraction self)
         &&& (op_minimum_credit_width_fraction self <. Dint 1))
    &&& ((Dint 0 <. op_maximum_position_loss self)
         &&& (op_maximum_position_loss self <=. MAX_STRUCTURAL_APPROVED_RISK))
    &&& ((Dint 0 <. op_maximum_equity_risk_fraction self)
         &&& (op_maximum_equity_risk_fraction self <=. Dint 1))
    &&& ((0 <? op_maximum_lifetime_entries self)
         && (op_maximum_lifetime_entries self <=? MAX_STRUCTURAL_LIFETIME_ENTRIES))
    &&& ((op_maximum_position_loss self <=. op_maximum_lifetime_risk self)
         &&& (op_maximum_lifetime_risk self <=. MAX_STRUCTURAL_LIFETIME_RISK))
    &&& (op_equity_floor self >. Dint 0)
    &&& ((0 <? op_maximum_quantity self)
         && (op_maximum_quantity self <=? MAX_STRUCTURAL_OPTION_QUANTITY));
  when negb valid then_ Raise (ValueError "INVALID_OPPORTUNITY_POLICY");;
  Ok self.

(** ** The structural pilots *)

Definition STRUCTURAL_BULLISH_PILOT_ID : string := "SPY_STRUCTURAL_BULLISH_BETA_PILOT_V1".
Definition STRUCTURAL_BULLISH_OTM_PILOT_ID : string := "SPY_STRUCTURAL_BULLISH_OTM_PILOT_V1".
Definition STRUCTURAL_BEARISH_OTM_PILOT_ID : string := "SPY_STRUCTURAL_BEARISH_OTM_PILOT_V1".

(** [STRUCTURAL_PILOT_PER_CONTRACT_RISK / 100], evaluated when the module is imported. *)
Definition pilot_maximum_debit : decimal :=
  match ddiv STRUCTURAL_PILOT_PER_CONTRACT_RISK (Dint 100) with Ok d => d | Raise _ => NaN end.

Definition pilot_profile (direction : OpportunityDirection) (low high : decimal)
    : StructuralBullishPilotProfile :=
  {| sp_direction := direction; sp_target_dte := 38; sp_minimum_dte := 30; sp_maximum_dte := 45;
     sp_width := Dint 4; sp_minimum_long_delta := low; sp_maximum_long_delta := high;
     sp_quantity := SUBMISSION_STRUCTURAL_OPTION_QUANTITY;
     sp_maximum_debit := pilot_maximum_debit;
     sp_minimum_reward_to_risk := D 75 (-2); sp_maximum_relative_spread := D 5 (-2);
     sp_maximum_quote_age := seconds 20; sp_maximum_quote_skew := seconds 3 |}.

Definition STRUCTURAL_BULLISH_PILOT := pilot_profile BULLISH (D 55 (-2)) (D 65 (-2)).
Definition STRUCTURAL_BULLISH_OTM_PILOT := pilot_profile BULLISH (D 35 (-2)) (D 50 (-2)).
Definition STRUCTURAL_BEARISH_OTM_PILOT := pilot_profile BEARISH (D 35 (-2)) (D 50 (-2)).

Definition structural_pilot_profile (opportunity_key : string)
    : option StructuralBullishPilotProfile :=
  if String.eqb opportunity_key STRUCTURAL_BULLISH_PILOT_ID then Some STRUCTURAL_BULLISH_PILOT
  else if String.eqb opportunity_key STRUCTURAL_BULLISH_OTM_PILOT_ID then
    Some STRUCTURAL_BULLISH_OTM_PILOT
  else if String.eqb opportunity_key STRUCTURAL_BEARISH_OTM_PILOT_ID then
    Some STRUCTURAL_BEARISH_OTM_PILOT
  else None.

(** [replace(structural_profile, quantity=n)] *)
Definition with_quantity (p : StructuralBullishPilotProfile) (n : Z)
    : StructuralBullishPilotProfile :=
  {| sp_direction := sp_direction p; sp_target_dte := sp_target_dte p;
     sp_minimum_dte := sp_minimum_dte p; sp_maximum_dte := sp_maximum_dte p;
     sp_width := sp_width p; sp_minimum_long_delta := sp_minimum_long_delta p;
     sp_maximum_long_delta := sp_maximum_long_delta p; sp_quantity := n;
     sp_maximum_debit := sp_maximum_debit p;
     sp_minimum_reward_to_risk := sp_minimum_reward_to_risk p;
     sp_maximum_relative_spread := sp_maximum_relative_spread p;
     sp_maximum_quote_age := sp_maximum_quote_age p;
     sp_maximum_quote_skew := sp_maximum_quote_skew p |}.

Definition opportunity_policy_hash (policy : OpportunityPolicy) : M string :=
  let material :=
    match structural_pilot_profile (op_opportunity_key policy) with
    | Some profile =>
        VDict [("policy"%string, value_of_OpportunityPolicy policy);
               ("strategy_profile"%string,
                value_of_StructuralBullishPilotProfile
                  (with_quantity profile (op_maximum_quantity policy)))]
    | None => value_of_OpportunityPolicy policy
    end in
  _canonical_hash "alphadecay.opportunity.policy.v1" material.
