(* ===== verification/Opportunity.v ===== *)
(** * The opportunity decision

    [backend/app/policy/opportunity.py]: [evaluate_opportunity], the gates it runs in
    order (scope, boundary, data, market, catalyst, direction, candidate, account) and
    the decision record with its hashes. *)

From Stdlib Require Import ZArith Lia String Ascii List Bool QArith Qabs Qminmax Lqa.
From stdpp Require Import base strings option tactics list.
From S2P Require Import Prelude PyText PyDecimal PyDecimalFacts PyTime PyHash Contracts OrderLimits Exposure OpportunityData.

#[local] Open Scope Z_scope.

(** ** Direction and freshness *)

Definition derive_opportunity_direction (policy : OpportunityPolicy)
    (vwap_distance relative_return : decimal) (bull_trend_hits bear_trend_hits : Z)
    : M (option OpportunityDirection) :=
  let directional :=
    vwap_size_passes ←
      (size ← dabs vwap_distance; size >. op_minimum_vwap_distance policy)
      &&& (size ← dabs vwap_distance; size <=. op_maximum_vwap_distance policy);
    when (vwap_size_passes : bool)
         &&& (vwap_distance >. Dint 0)
         &&& (relative_return >. op_minimum_relative_return policy)
         &&& (op_required_trend_hits policy <=? bull_trend_hits)
    then_ Ok (Some BULLISH);;
    when (vwap_size_passes : bool)
         &&& (vwap_distance <. Dint 0)
         &&& (floor ← dneg (op_minimum_relative_return policy); relative_return <. floor)
         &&& (op_required_trend_hits policy <=? bear_trend_hits)
    then_ Ok (Some BEARISH);;
    Ok None in
  match structural_pilot_profile (op_opportunity_key policy) with
  | Some profile =>
      if String.eqb (op_underlying policy) "SPY" then Ok (Some (sp_direction profile))
      else directional
  | None => directional
  end.

Definition _FRESHNESS_SKEW_TOLERANCE : timedelta := seconds 30.

Definition _fresh_at (observed_at decision_at : datetime) (maximum_age : timedelta) : M bool :=
  age ← dt_sub decision_at observed_at;
  Ok ((- _FRESHNESS_SKEW_TOLERANCE <=? age) && (age <=? maximum_age)).

Definition _normalized_input_valid (values : OpportunityInput) : M bool :=
  forallb is_finite [oi_vwap_distance values; oi_relative_return values; oi_beta values;
                     oi_absolute_first_reaction values]
  &&& (oi_absolute_first_reaction values >=. Dint 0)
  &&& ((0 <=? oi_catalyst_score values) && (oi_catalyst_score values <=? 100))
  &&& ((0 <=? oi_bull_trend_hits values) && (oi_bull_trend_hits values <=? 3))
  &&& ((0 <=? oi_bear_trend_hits values) && (oi_bear_trend_hits values <=? 3)).

(** ** The candidate *)

Definition _candidate_maximum_limit (candidate : VerticalCandidate) : decimal :=
  match vc_maximum_limit candidate with
  | None => vc_approved_limit candidate
  | Some limit => limit
  end.

(** [first, second = candidate.legs] *)
Definition two_legs (candidate : VerticalCandidate) : M (OptionLeg * OptionLeg) :=
  match vc_legs candidate with
  | [first; second] => Ok (first, second)
  | _ => Raise (ValueError "unpack")
  end.

(** [{leg.intent: leg for leg in candidate.legs}[intent]]: the last leg of the intent. *)
Definition by_intent (candidate : VerticalCandidate) (intent : PositionIntent) : option OptionLeg :=
  find (fun leg => bool_decide (ol_intent leg = intent)) (rev (vc_legs candidate)).

(** [set(by_intent) == {BUY_TO_OPEN, SELL_TO_OPEN}] *)
Definition opening_intents (candidate : VerticalCandidate) : bool :=
  forallb (fun leg => bool_decide (ol_intent leg = BUY_TO_OPEN \/ ol_intent leg = SELL_TO_OPEN))
    (vc_legs candidate)
  && existsb (fun leg => bool_decide (ol_intent leg = BUY_TO_OPEN)) (vc_legs candidate)
  && existsb (fun leg => bool_decide (ol_intent leg = SELL_TO_OPEN)) (vc_legs candidate).

Definition is_debit (strategy : VerticalStrategy) : bool :=
  bool_decide (strategy = BULL_CALL_DEBIT \/ strategy = BEAR_PUT_DEBIT).

Definition _is_vertical (candidate : VerticalCandidate) : M bool :=
  '(first, second) ← two_legs candidate;
  when String.eqb (ol_symbol first) (ol_symbol second)
       || negb (String.eqb (ol_underlying first) (ol_underlying second))
       || negb (bool_decide (ol_right first = ol_right second))
       || negb (ol_expiry first =? ol_expiry second)
       || (ol_strike first ==. ol_strike second)
       || negb (ol_multiplier first =? 100) || negb (ol_multiplier second =? 100)
       || negb (ol_ratio first =? 1) || negb (ol_ratio second =? 1)
  then_ Ok false;;
  when negb (opening_intents candidate) then_ Ok false;;
  bought ← from_option_key (by_intent candidate BUY_TO_OPEN);
  sold ← from_option_key (by_intent candidate SELL_TO_OPEN);
  match vc_strategy candidate with
  | BULL_CALL_DEBIT =>
      bool_decide (ol_right bought = CALL) &&& (ol_strike bought <. ol_strike sold)
  | BEAR_PUT_DEBIT =>
      bool_decide (ol_right bought = PUT) &&& (ol_strike bought >. ol_strike sold)
  | BULL_PUT_CREDIT =>
      bool_decide (ol_right bought = PUT) &&& (ol_strike bought <. ol_strike sold)
  | BEAR_CALL_CREDIT =>
      bool_decide (ol_right bought = CALL) &&& (ol_strike sold <. ol_strike bought)
  end.

Definition _quote_valid (leg : OptionLeg) : M bool :=
  is_finite (ol_bid leg)
  &&& is_finite (ol_ask leg)
  &&& ((Dint 0 <. ol_bid leg) &&& (ol_bid leg <=. ol_ask leg))
  &&& (0 <? ol_bid_size leg)
  &&& (0 <? ol_ask_size leg).

Definition _relative_spread (leg : OptionLeg) : M decimal :=
  total ← dadd (ol_bid leg) (ol_ask leg);
  midpoint ← ddiv total (Dint 2);
  width ← dsub (ol_ask leg) (ol_bid leg);
  ddiv width midpoint.

Definition _payoff_geometry_valid (policy : OpportunityPolicy) (candidate : VerticalCandidate)
    : M bool :=
  bought ← from_option_key (by_intent candidate BUY_TO_OPEN);
  sold ← from_option_key (by_intent candidate SELL_TO_OPEN);
  difference ← dsub (ol_strike bought) (ol_strike sold);
  width ← dabs difference;
  if is_debit (vc_strategy candidate) then
    natural ← dsub (ol_ask bought) (ol_bid sold);
    let maximum_limit := _candidate_maximum_limit candidate in
    natural_fraction ← ddiv natural width;
    approved_fraction ← ddiv (vc_approved_limit candidate) width;
    maximum_fraction ← ddiv maximum_limit width;
    ((vc_approved_limit candidate <=. maximum_limit) &&& (maximum_limit <=. natural))
    &&& all_m (fun fraction =>
                 (op_minimum_debit_width_fraction policy <=. fraction)
                 &&& (fraction <=. op_maximum_debit_width_fraction policy))
          [natural_fraction; approved_fraction; maximum_fraction]
  else
    natural ← dsub (ol_bid sold) (ol_ask bought);
    natural_fraction ← ddiv natural width;
    approved_fraction ← ddiv (vc_approved_limit candidate) width;
    (vc_approved_limit candidate >=. natural)
    &&& all_m (fun fraction =>
                 (op_minimum_credit_width_fraction policy <=. fraction) &&& (fraction <. Dint 1))
          [natural_fraction; approved_fraction].

Definition _structural_pilot_payoff_valid (policy : OpportunityPolicy)
    (candidate : VerticalCandidate) (profile : StructuralBullishPilotProfile) : M bool :=
  let bullish := bool_decide (sp_direction profile = BULLISH) in
  let expected_strategy := if bullish then BULL_CALL_DEBIT else BEAR_PUT_DEBIT in
  let expected_right := if bullish then CALL else PUT in
  when negb (bool_decide (vc_strategy candidate = expected_strategy))
       || negb (vc_quantity candidate =? op_maximum_quantity policy)
  then_ Ok false;;
  '(bought, sold) ← two_legs candidate;
  difference ← dsub (ol_strike sold) (ol_strike bought);
  width ← dabs difference;
  natural ← dsub (ol_ask bought) (ol_bid sold);
  let maximum_limit := _candidate_maximum_limit candidate in
  bool_decide (ol_right bought = expected_right)
  &&& bool_decide (ol_right sold = expected_right)
  &&& (width ==. sp_width profile)
  &&& ((Dint 0 <. vc_approved_limit candidate)
       &&& (vc_approved_limit candidate <=. maximum_limit)
       &&& (maximum_limit <=. natural))
  &&& (maximum_limit <=. sp_maximum_debit profile)
  &&& (reward ← dsub width maximum_limit;
       required ← dmul (sp_minimum_reward_to_risk profile) maximum_limit;
       reward >=. required).

Definition _approved_max_loss (candidate : VerticalCandidate) : M decimal :=
  '(first, second) ← two_legs candidate;
  difference ← dsub (ol_strike first) (ol_strike second);
  width ← dabs difference;
  per_share ←
    (if is_debit (vc_strategy candidate) then Ok (_candidate_maximum_limit candidate)
     else dsub width (vc_approved_limit candidate));
  scaled ← dmul per_share (Dint (vc_quantity candidate));
  dmul scaled (Dint 100).

(** [max(times) - min(times)] of the quote times of the two legs. *)
Definition quote_skew (candidate : VerticalCandidate) : M timedelta :=
  '(first, second) ← two_legs candidate;
  latest ← dt_max (ol_quote_at first) (ol_quote_at second);
  earliest ← dt_min (ol_quote_at first) (ol_quote_at second);
  dt_sub latest earliest.

Definition contract_ineligible (values : OpportunityInput) (leg : OptionLeg) : bool :=
  negb (ol_active leg) || negb (ol_tradable leg) || negb (str_nonempty (ol_symbol leg))
  || negb (String.eqb (ol_underlying leg) (oi_underlying values)).

(** The limit of the structural profile where there is one, of the policy otherwise. *)
Definition limit_of {A} (profile : option StructuralBullishPilotProfile)
    (from_profile : StructuralBullishPilotProfile -> A) (from_policy : A) : A :=
  match profile with Some p => from_profile p | None => from_policy end.

Definition _option_candidate_failure (policy : OpportunityPolicy) (values : OpportunityInput)
    (candidate : VerticalCandidate) : M (option OpportunityReason) :=
  let maximum_limit := _candidate_maximum_limit candidate in
  let legs := vc_legs candidate in
  when negb (is_finite (vc_approved_limit candidate))
       ||| (vc_approved_limit candidate <=. Dint 0)
       ||| negb (is_finite maximum_limit)
       ||| (maximum_limit <. vc_approved_limit candidate)
       ||| negb ((0 <=? vc_candidate_score candidate) && (vc_candidate_score candidate <=? 100))
       ||| (vc_dte candidate <? 0)
  then_ Ok (Some OPTION_CANDIDATE_INVALID);;
  when negb (length legs =? 2)%nat then_ Ok (Some VERTICAL_STRUCTURE_INVALID);;
  when existsb (fun leg => negb (bool_decide (ol_instrument_kind leg = OPTION))) legs
  then_ Ok (Some OPTION_ONLY_REQUIRED);;
  when negb (vc_selection_rank candidate =? 1) then_ Ok (Some CANDIDATE_FALLBACK_FORBIDDEN);;
  when negb ((1 <=? vc_quantity candidate) && (vc_quantity candidate <=? op_maximum_quantity policy))
  then_ Ok (Some QUANTITY_OUT_OF_BOUNDS);;
  let structural_profile := structural_pilot_profile (op_opportunity_key policy) in
  let structural_pilot := bool_decide (is_Some structural_profile) in
  when negb structural_pilot && (vc_candidate_score candidate <? op_minimum_candidate_score policy)
  then_ Ok (Some CANDIDATE_SCORE_BELOW_MINIMUM);;
  when negb (vc_buying_power_sufficient candidate) then_ Ok (Some BUYING_POWER_INSUFFICIENT);;
  let minimum_dte := limit_of structural_profile sp_minimum_dte (op_minimum_dte policy) in
  let maximum_dte := limit_of structural_profile sp_maximum_dte (op_maximum_dte policy) in
  when negb ((minimum_dte <=? vc_dte candidate) && (vc_dte candidate <=? maximum_dte))
  then_ Ok (Some OPTION_DTE_OUT_OF_RANGE);;
  when existsb (contract_ineligible values) legs then_ Ok (Some OPTION_CONTRACT_INELIGIBLE);;
  when not (_is_vertical candidate) then_ Ok (Some VERTICAL_STRUCTURE_INVALID);;
  '(first, second) ← two_legs candidate;
  let actual_dte := ol_expiry first - dt_date (oi_observed_decision_boundary values) in
  when negb (vc_dte candidate =? actual_dte) then_ Ok (Some OPTION_DTE_MISMATCH);;
  when existsb (fun leg => negb (bool_decide (ol_feed leg = INDICATIVE_MODIFIED))) legs
  then_ Ok (Some OPTION_FEED_NOT_INDICATIVE);;
  when any_m (fun leg => not (_quote_valid leg)) legs then_ Ok (Some OPTION_QUOTE_INVALID);;
  let maximum_quote_age :=
    limit_of structural_profile sp_maximum_quote_age (op_maximum_option_quote_age policy) in
  when any_m (fun leg =>
         not (_fresh_at (ol_quote_at leg) (oi_evaluated_at values) maximum_quote_age)) legs
  then_ Ok (Some OPTION_QUOTE_STALE);;
  let maximum_quote_skew :=
    limit_of structural_profile sp_maximum_quote_skew (op_maximum_leg_quote_skew policy) in
  when (skew ← quote_skew candidate; Ok (maximum_quote_skew <? skew))
  then_ Ok (Some OPTION_QUOTES_UNSYNCHRONIZED);;
  let maximum_relative_spread :=
    limit_of structural_profile sp_maximum_relative_spread (op_maximum_relative_spread policy) in
  when any_m (fun leg => spread ← _relative_spread leg; spread >. maximum_relative_spread) legs
  then_ Ok (Some OPTION_QUOTE_TOO_WIDE);;
  when existsb (fun leg => negb (ol_greeks_complete leg) || negb (ol_greek_units_verified leg)) legs
  then_ Ok (Some OPTION_GREEKS_MISSING);;
  payoff_valid ←
    match structural_profile with
    | Some profile => _structural_pilot_payoff_valid policy candidate profile
    | None => _payoff_geometry_valid policy candidate
    end;
  when negb payoff_valid then_ Ok (Some OPTION_PAYOFF_INVALID);;
  Ok None.

(** ** The account *)

Definition _account_failure (policy : OpportunityPolicy) (values : OpportunityInput)
    (approved_max_loss : decimal) : M (option OpportunityReason) :=
  let account := oi_account values in
  when negb (is_hash (ac_book_fingerprint account)) then_ Ok (Some BOOK_FINGERPRINT_INVALID);;
  when negb (is_finite (ac_clean_equity account))
       ||| (ac_clean_equity account <=. Dint 0)
       ||| (ac_open_position_count account <? 0)
       ||| (ac_open_order_count account <? 0)
       ||| (ac_filled_entry_count account <? 0)
       ||| negb (is_finite (ac_lifetime_approved_risk account))
       ||| (ac_lifetime_approved_risk account <. Dint 0)
       ||| negb (is_finite (ac_reserved_approved_risk account))
       ||| (ac_reserved_approved_risk account <. Dint 0)
       ||| (negb (ac_entry_reservation_active account)
            && negb (ac_reserved_approved_risk account ==. Dint 0))
  then_ Ok (Some ACCOUNT_STATE_INVALID);;
  when bool_decide (ac_account_role account = REPLAY)
  then_ Ok (Some ACCOUNT_ROLE_NOT_EXECUTABLE);;
  when ac_clean_equity account <=. op_equity_floor policy then_ Ok (Some EQUITY_FLOOR_REACHED);;
  when negb (ac_open_order_count account =? 0) then_ Ok (Some OPEN_ORDER_EXISTS);;
  when ac_entry_reservation_active account then_ Ok (Some ENTRY_RESERVATION_ACTIVE);;
  when op_maximum_lifetime_entries policy <=? ac_filled_entry_count account
  then_ Ok (Some LIFETIME_ENTRY_LIMIT_REACHED);;
  when (total ← dadd (ac_lifetime_approved_risk account) approved_max_loss;
        total >. op_maximum_lifetime_risk policy)
  then_ Ok (Some LIFETIME_RISK_LIMIT_REACHED);;
  equity_cap ← dmul (ac_clean_equity account) (op_maximum_equity_risk_fraction policy);
  position_risk_cap ← dmin (op_maximum_position_loss policy) equity_cap;
  when approved_max_loss >. position_risk_cap then_ Ok (Some POSITION_RISK_LIMIT_EXCEEDED);;
  when dt_lt (op_last_entry_boundary policy) (oi_observed_decision_boundary values)
  then_ Ok (Some ENTRY_WINDOW_CLOSED);;
  Ok None.

(** ** The record *)

Definition _record (policy_hash input_hash : string) (candidate_hash : option string)
    (values : OpportunityInput) (outcome : OpportunityOutcome)
    (reason_codes : list OpportunityReason) (direction : option OpportunityDirection)
    (strategy : option VerticalStrategy) (quantity : option Z) (approved_max_loss : option decimal)
    : M OpportunityDecisionRecord :=
  let material :=
    VDict
      [("outcome"%string, VEnum (enum_value outcome));
       ("reason_codes"%string, VTuple (map (fun r => VEnum (enum_value r)) reason_codes));
       ("opportunity_key"%string, VStr (oi_opportunity_key values));
       ("decision_boundary"%string, VDatetime (oi_observed_decision_boundary values));
       ("direction"%string, of_option (fun d => VEnum (enum_value d)) direction);
       ("strategy"%string, of_option (fun s => VEnum (enum_value s)) strategy);
       ("quantity"%string, of_option VInt quantity);
       ("approved_max_loss"%string, of_option VDecimal approved_max_loss);
       ("book_fingerprint"%string, VStr (ac_book_fingerprint (oi_account values)));
       ("candidate_hash"%string, of_option VStr candidate_hash);
       ("input_hash"%string, VStr input_hash);
       ("policy_hash"%string, VStr policy_hash)] in
  result_hash ← _canonical_hash "alphadecay.opportunity.result.v1" material;
  Ok {| od_outcome := outcome;
        od_reason_codes := reason_codes;
        od_opportunity_key := oi_opportunity_key values;
        od_decision_boundary := oi_observed_decision_boundary values;
        od_direction := direction;
        od_strategy := strategy;
        od_quantity := quantity;
        od_approved_max_loss := approved_max_loss;
        od_book_fingerprint := ac_book_fingerprint (oi_account values);
        od_candidate_hash := candidate_hash;
        od_input_hash := input_hash;
        od_policy_hash := policy_hash;
        od_result_hash := result_hash |}.

Definition _rejected (policy_hash input_hash : string) (candidate_hash : option string)
    (values : OpportunityInput) (reason : OpportunityReason)
    (direction : option OpportunityDirection) : M OpportunityDecisionRecord :=
  _record policy_hash input_hash candidate_hash values NO_TRADE [reason] direction None None None.

Definition _DIRECTION_STRATEGIES (direction : OpportunityDirection) : list VerticalStrategy :=
  match direction with
  | BULLISH => [BULL_CALL_DEBIT; BULL_PUT_CREDIT]
  | BEARISH => [BEAR_PUT_DEBIT; BEAR_CALL_CREDIT]
  end.

Definition evaluate_opportunity (policy : OpportunityPolicy) (values : OpportunityInput)
    : M OpportunityDecisionRecord :=
  policy_hash ← opportunity_policy_hash policy;
  input_hash ← _canonical_hash "alphadecay.opportunity.input.v1" (value_of_OpportunityInput values);
  candidate_hash ←
    match oi_candidate values with
    | Some candidate =>
        h ← _canonical_hash "alphadecay.opportunity.candidate.v1"
              (value_of_VerticalCandidate candidate);
        Ok (Some h)
    | None => Ok None
    end;
  let rejected reason := _rejected policy_hash input_hash candidate_hash values reason None in
  let rejected_with direction reason :=
    _rejected policy_hash input_hash candidate_hash values reason (Some direction) in
  let structural_pilot :=
    bool_decide (is_Some (structural_pilot_profile (op_opportunity_key policy))) in
  when negb (String.eqb (oi_opportunity_key values) (op_opportunity_key policy))
       || negb (String.eqb (oi_underlying values) (op_underlying policy))
       || (structural_pilot && negb (String.eqb (op_underlying policy) "SPY"))
  then_ rejected POLICY_SCOPE_MISMATCH;;
  when bool_decide (is_Some (oi_prior_decision_outcome values))
  then_ rejected PRIOR_DECISION_BINDING;;
  when negb (dt_eq (oi_observed_decision_boundary values) (op_selected_decision_boundary policy))
  then_ rejected DECISION_BOUNDARY_MISMATCH;;
  when negb (oi_decision_boundary_complete values)
       || negb (dt_eq (oi_completed_bar_at values) (oi_observed_decision_boundary values))
  then_ rejected DECISION_BOUNDARY_INCOMPLETE;;
  when dt_lt (oi_evaluated_at values) (oi_observed_decision_boundary values)
  then_ rejected DECISION_BOUNDARY_NOT_REACHED;;
  when (delay ← dt_sub (oi_evaluated_at values) (oi_observed_decision_boundary values);
        Ok (op_maximum_decision_delay policy <? delay))
  then_ rejected DECISION_BOUNDARY_STALE;;
  when negb (bool_decide (oi_data_quality values = DQ_COMPLETE))
  then_ rejected DATA_QUALITY_INCOMPLETE;;
  when not (_normalized_input_valid values) then_ rejected NORMALIZED_INPUT_INVALID;;
  when negb (oi_market_open values) then_ rejected MARKET_CLOSED;;
  when bool_decide (oi_trading_halted values = HALT_UNKNOWN)
  then_ rejected TRADING_HALT_STATUS_UNKNOWN;;
  when bool_decide (oi_trading_halted values = HALTED) then_ rejected TRADING_HALTED;;
  when not (_fresh_at (oi_underlying_observed_at values) (oi_evaluated_at values)
              (op_maximum_underlying_age policy))
  then_ rejected UNDERLYING_DATA_STALE;;
  when not (_fresh_at (oi_catalyst_observed_at values) (oi_evaluated_at values)
              (op_maximum_catalyst_age policy))
  then_ rejected CATALYST_DATA_STALE;;
  when negb structural_pilot && bool_decide (oi_catalyst_quality values = CQ_MISSING)
  then_ rejected CATALYST_DATA_MISSING;;
  when negb structural_pilot
       && bool_decide (oi_catalyst_quality values = AUTHORITATIVE_CONTRADICTION)
  then_ rejected CATALYST_CONTRADICTED;;
  when negb structural_pilot && (oi_catalyst_score values <? op_minimum_catalyst_score policy)
  then_ rejected CATALYST_SCORE_BELOW_MINIMUM;;
  when negb structural_pilot
       &&& not ((op_minimum_beta policy <. oi_beta values)
                &&& (oi_beta values <=. op_maximum_beta policy))
  then_ rejected BETA_OUT_OF_BOUNDS;;
  when negb structural_pilot
       &&& (oi_absolute_first_reaction values >. op_maximum_first_reaction policy)
  then_ rejected FIRST_REACTION_OUT_OF_SUPPORT;;
  direction ← derive_opportunity_direction policy (oi_vwap_distance values)
    (oi_relative_return values) (oi_bull_trend_hits values) (oi_bear_trend_hits values);
  match direction with
  | None => rejected DIRECTION_NOT_CONFIRMED
  | Some direction =>
      match oi_candidate values with
      | None => rejected_with direction OPTION_CANDIDATE_MISSING
      | Some candidate =>
          when negb (bool_decide (vc_strategy candidate ∈ _DIRECTION_STRATEGIES direction))
          then_ rejected_with direction VERTICAL_DIRECTION_MISMATCH;;
          candidate_failure ← _option_candidate_failure policy values candidate;
          match candidate_failure with
          | Some failure => rejected_with direction failure
          | None =>
              approved_max_loss ← _approved_max_loss candidate;
              account_failure ← _account_failure policy values approved_max_loss;
              match account_failure with
              | Some failure => rejected_with direction failure
              | None =>
                  _record policy_hash input_hash candidate_hash values OO_ENTRY_APPROVED
                    [ENTRY_APPROVED] (Some direction) (Some (vc_strategy candidate))
                    (Some (vc_quantity candidate)) (Some approved_max_loss)
              end
          end
      end
  end.

(** ** A fixture: the policy and input of the repository's own tests, with the hashes they
    expect. *)

Definition boundary : datetime := utc 2037 4 15 16 0 0.
Definition after (t : datetime) (d : timedelta) : datetime := mk_datetime (dt_local t + d) (dt_off t).

Definition sample_policy : OpportunityPolicy :=
  {| op_version := "opportunity-v1"; op_opportunity_key := "ACME_EVENT"; op_underlying := "ACME";
     op_selected_decision_boundary := boundary;
     op_last_entry_boundary := after boundary (2 * day_us);
     op_maximum_decision_delay := seconds 43; op_maximum_underlying_age := seconds 43;
     op_maximum_catalyst_age := minutes 17; op_maximum_option_quote_age := seconds 43;
     op_maximum_leg_quote_skew := seconds 29; op_minimum_vwap_distance := D 37 (-4);
     op_maximum_vwap_distance := D 31 (-3); op_minimum_relative_return := D 65 (-4);
     op_minimum_beta := Dint 0; op_maximum_beta := Dint 4; op_required_trend_hits := 3;
     op_maximum_first_reaction := D 19 (-2); op_minimum_catalyst_score := 17;
     op_minimum_candidate_score := 73; op_minimum_dte := 19; op_maximum_dte := 41;
     op_maximum_relative_spread := D 7 (-2); op_minimum_debit_width_fraction := D 17 (-2);
     op_maximum_debit_width_fraction := D 63 (-2); op_minimum_credit_width_fraction := D 18 (-2);
     op_maximum_position_loss := Dint 960; op_maximum_equity_risk_fraction := D 96 (-4);
     op_maximum_lifetime_entries := 4; op_maximum_lifetime_risk := Dint 2400;
     op_equity_floor := Dint 54321; op_maximum_quantity := 9 |}.

Definition sample_leg (symbol : string) (strike : Z) (intent : PositionIntent) (bid ask : decimal)
    : OptionLeg :=
  {| ol_instrument_kind := OPTION; ol_symbol := symbol; ol_underlying := "ACME"; ol_right := CALL;
     ol_strike := Dint strike; ol_expiry := days_from_civil 2037 5 8; ol_intent := intent;
     ol_ratio := 1; ol_multiplier := 100; ol_active := true; ol_tradable := true; ol_bid := bid;
     ol_ask := ask; ol_bid_size := 10; ol_ask_size := 12; ol_quote_at := boundary;
     ol_feed := INDICATIVE_MODIFIED; ol_greeks_complete := true; ol_greek_units_verified := true |}.

Definition sample_candidate : VerticalCandidate :=
  {| vc_strategy := BULL_CALL_DEBIT;
     vc_legs :=
       [sample_leg "ACME370508C00100000" 100 BUY_TO_OPEN (D 200 (-2)) (D 210 (-2));
        sample_leg "ACME370508C00105000" 105 SELL_TO_OPEN (D 90 (-2)) (D 94 (-2))];
     vc_quantity := 4; vc_dte := 23; vc_approved_limit := D 120 (-2); vc_candidate_score := 82;
     vc_selection_rank := 1; vc_buying_power_sufficient := true; vc_maximum_limit := None |}.

Definition sample_account : AccountOpportunityState :=
  {| ac_account_role := SUBMISSION; ac_book_fingerprint := of_chars (repeat "a"%char 64);
     ac_baseline_clean := true; ac_clean_equity := Dint 100000; ac_open_position_count := 0;
     ac_open_order_count := 0; ac_filled_entry_count := 0; ac_lifetime_approved_risk := Dint 0;
     ac_entry_reservation_active := false; ac_reserved_approved_risk := Dint 0;
     ac_event_already_attempted := false |}.

Definition sample_input (vwap_distance : decimal) : OpportunityInput :=
  {| oi_opportunity_key := "ACME_EVENT"; oi_underlying := "ACME";
     oi_observed_decision_boundary := boundary; oi_evaluated_at := after boundary (seconds 5);
     oi_completed_bar_at := boundary; oi_decision_boundary_complete := true;
     oi_prior_decision_outcome := None; oi_data_quality := DQ_COMPLETE; oi_market_open := true;
     oi_trading_halted := NOT_HALTED; oi_underlying_observed_at := boundary;
     oi_catalyst_observed_at := boundary; oi_catalyst_quality := CLEAR; oi_catalyst_score := 25;
     oi_vwap_distance := vwap_distance; oi_relative_return := D 11 (-3); oi_beta := D 17 (-1);
     oi_bull_trend_hits := 3; oi_bear_trend_hits := 0; oi_absolute_first_reaction := D 13 (-2);
     oi_candidate := Some sample_candidate; oi_account := sample_account |}.

(** ** What an accepted candidate is *)

Lemma two_legs_ok candidate first second :
  two_legs candidate = Ok (first, second) <-> vc_legs candidate = [first; second].
Proof. unfold two_legs. destruct (vc_legs candidate) as [|? [|? [|]]]; split; congruence. Qed.

(** The strikes of the long and the short leg, by strategy. *)
Definition strategy_shape (strategy : VerticalStrategy) (bought sold : OptionLeg) : Prop :=
  match strategy with
  | BULL_CALL_DEBIT => ol_right bought = CALL /\ (dval (ol_strike bought) < dval (ol_strike sold))%Q
  | BEAR_PUT_DEBIT => ol_right bought = PUT /\ (dval (ol_strike sold) < dval (ol_strike bought))%Q
  | BULL_PUT_CREDIT => ol_right bought = PUT /\ (dval (ol_strike bought) < dval (ol_strike sold))%Q
  | BEAR_CALL_CREDIT => ol_right bought = CALL /\ (dval (ol_strike sold) < dval (ol_strike bought))%Q
  end.

(** Two opening legs, one bought and one sold, on the same underlying, right, expiry and
    multiplier: a defined risk vertical. *)
Record defined_risk (candidate : VerticalCandidate) (bought sold : OptionLeg) : Prop := {
  dr_legs : vc_legs candidate = [bought; sold] \/ vc_legs candidate = [sold; bought];
  dr_intents : ol_intent bought = BUY_TO_OPEN /\ ol_intent sold = SELL_TO_OPEN;
  dr_symbols : ol_symbol bought <> ol_symbol sold;
  dr_underlying : ol_underlying bought = ol_underlying sold;
  dr_right : ol_right bought = ol_right sold;
  dr_expiry : ol_expiry bought = ol_expiry sold;
  dr_multiplier : ol_multiplier bought = 100 /\ ol_multiplier sold = 100;
  dr_ratio : ol_ratio bought = 1 /\ ol_ratio sold = 1;
  dr_shape : strategy_shape (vc_strategy candidate) bought sold;
}.

Definition finite_strikes (candidate : VerticalCandidate) : Prop :=
  Forall (fun leg => finite (ol_strike leg)) (vc_legs candidate).

(** With two legs of opening intents, [by_intent] picks out one leg each. *)
Lemma by_intent_two candidate o o' bought sold :
  vc_legs candidate = [o; o'] -> opening_intents candidate = true ->
  by_intent candidate BUY_TO_OPEN = Some bought -> by_intent candidate SELL_TO_OPEN = Some sold ->
  ol_intent bought = BUY_TO_OPEN /\ ol_intent sold = SELL_TO_OPEN /\
  ((bought = o /\ sold = o') \/ (bought = o' /\ sold = o)).
Proof.
  unfold opening_intents, by_intent. intros ->. cbn.
  destruct (ol_intent o) eqn:E, (ol_intent o') eqn:E'; cbn; try discriminate;
    intros _ [= <-] [= <-]; auto.
Qed.

Lemma is_vertical_inv candidate :
  finite_strikes candidate -> _is_vertical candidate = Ok true ->
  exists bought sold, defined_risk candidate bought sold /\
    by_intent candidate BUY_TO_OPEN = Some bought /\ by_intent candidate SELL_TO_OPEN = Some sold.
Proof.
  unfold _is_vertical, finite_strikes. intros HF H. inv_all.
  match goal with H : two_legs _ = Ok (?a, ?b) |- _ => apply two_legs_ok in H; rename a into o, b into o' end.
  rewrite H in HF. rewrite !Forall_cons_iff in HF. destruct HF as (F & F' & _).
  destruct (by_intent_two candidate o o' x x0 H H1 H2 H3) as (I1 & I2 & Hpair).
  exists x, x0. split; [|done].
  zbool. assert (finite (ol_strike x) /\ finite (ol_strike x0)) as [Fx Fx0]
    by (destruct Hpair as [[-> ->]|[-> ->]]; done).
  assert (strategy_shape (vc_strategy candidate) x x0) as Hshape.
  { unfold strategy_shape. destruct (vc_strategy candidate); inv_all;
      dec_facts; done. }
  constructor; try done; destruct Hpair as [[-> ->]|[-> ->]]; auto; congruence.
Qed.

(** At most as old as allowed, and at most thirty seconds ahead. *)
Definition fresh (observed_at decision_at : datetime) (maximum_age : timedelta) : Prop :=
  exists age, dt_sub decision_at observed_at = Ok age /\ - _FRESHNESS_SKEW_TOLERANCE <= age <= maximum_age.

Lemma fresh_inv observed_at decision_at maximum_age :
  _fresh_at observed_at decision_at maximum_age = Ok true -> fresh observed_at decision_at maximum_age.
Proof. unfold _fresh_at. intros (age & E & [= H])%bind_ok. exists age. rewrite andb_true_iff, !Z.leb_le in H. by split. Qed.

(** The limit of the structural profile of the policy, or of the policy. *)
Definition limit_for {A} (policy : OpportunityPolicy) (from_profile : StructuralBullishPilotProfile -> A)
    (from_policy : A) : A :=
  limit_of (structural_pilot_profile (op_opportunity_key policy)) from_profile from_policy.

(** What [_option_candidate_failure] has established when it answers [None]. *)
Record accepted (policy : OpportunityPolicy) (values : OpportunityInput)
    (candidate : VerticalCandidate) : Prop := {
  acc_two : length (vc_legs candidate) = 2%nat;
  acc_limits : finite (vc_approved_limit candidate) /\ finite (_candidate_maximum_limit candidate);
  acc_limit_range :
    (0 < dval (vc_approved_limit candidate) <= dval (_candidate_maximum_limit candidate))%Q;
  acc_quantity : 1 <= vc_quantity candidate <= op_maximum_quantity policy;
  acc_rank : vc_selection_rank candidate = 1;
  acc_buying_power : vc_buying_power_sufficient candidate = true;
  acc_option : Forall (fun leg => ol_instrument_kind leg = OPTION) (vc_legs candidate);
  acc_eligible : Forall (fun leg => contract_ineligible values leg = false) (vc_legs candidate);
  acc_vertical : _is_vertical candidate = Ok true;
  acc_feed : Forall (fun leg => ol_feed leg = INDICATIVE_MODIFIED) (vc_legs candidate);
  acc_quotes : Forall (fun leg => _quote_valid leg = Ok true) (vc_legs candidate);
  acc_fresh : Forall (fun leg => fresh (ol_quote_at leg) (oi_evaluated_at values)
      (limit_for policy sp_maximum_quote_age (op_maximum_option_quote_age policy))) (vc_legs candidate);
  acc_greeks : Forall (fun leg => ol_greeks_complete leg = true /\ ol_greek_units_verified leg = true)
                 (vc_legs candidate);
  acc_payoff :
    match structural_pilot_profile (op_opportunity_key policy) with
    | Some profile => _structural_pilot_payoff_valid policy candidate profile
    | None => _payoff_geometry_valid policy candidate
    end = Ok true;
  acc_score : 0 <= vc_candidate_score candidate <= 100;
  acc_minimum_score : structural_pilot_profile (op_opportunity_key policy) = None ->
    op_minimum_candidate_score policy <= vc_candidate_score candidate;
  acc_dte : 0 <= vc_dte candidate /\
    limit_for policy sp_minimum_dte (op_minimum_dte policy) <= vc_dte candidate
    <= limit_for policy sp_maximum_dte (op_maximum_dte policy);
  acc_expiry : exists first second, vc_legs candidate = [first; second] /\
    vc_dte candidate = ol_expiry first - dt_date (oi_observed_decision_boundary values);
  acc_skew : exists skew, quote_skew candidate = Ok skew /\
    skew <= limit_for policy sp_maximum_quote_skew (op_maximum_leg_quote_skew policy);
  acc_spread : Forall (fun leg => exists spread, _relative_spread leg = Ok spread /\
      (spread >. limit_for policy sp_maximum_relative_spread (op_maximum_relative_spread policy)) = Ok false)
    (vc_legs candidate);
}.

Lemma candidate_accepted_inv policy values candidate :
  _option_candidate_failure policy values candidate = Ok None -> accepted policy values candidate.
Proof.
  unfold _option_candidate_failure. intros H. inv_all. zbool. dec_facts.
  change (inject_Z 0) with 0%Q in *.
  constructor; try done; try forall_from; try by subst.
  - match goal with K : Forall (fun x => not (_fresh_at _ _ _) = _) _ |- _ => eapply Forall_impl; [exact K|] end.
    intros leg K%not_m_ok. by apply fresh_inv.
  - intros E. match goal with K : _ && _ = false |- _ => rewrite E in K; cbn in K; zbool; lia end.
  - match goal with K : two_legs _ = Ok (?o, ?o') |- _ => exists o, o'; by rewrite <- two_legs_ok end.
  - by eexists.
  - match goal with K : Forall (fun x => mbind _ _ = _) _ |- _ => eapply Forall_impl; [exact K|] end.
    intros leg (spread & E & K)%bind_ok. by exists spread.
Qed.

(** ** The approved loss covers every fill within the limit *)

Definition kind_of (strategy : VerticalStrategy) : VerticalKind :=
  if is_debit strategy then DEBIT else CREDIT.

(** Prices of the candidate in millionths of a dollar. *)
Definition cash_candidate (candidate : VerticalCandidate) : Prop :=
  cash (vc_approved_limit candidate) /\ cash (_candidate_maximum_limit candidate) /\
  Forall (fun leg => amount (-6) (10 ^ 17) (ol_strike leg)) (vc_legs candidate).

(** The width of the vertical as the code computes it. *)
Lemma dabs_value e k a :
  amount e k a -> k < 10 ^ prec -> money_exp e ->
  exists r, dabs a = Ok r /\ amount e k r /\ (dval r == Qabs (dval a))%Q.
Proof.
  intros Ha Hk He. destruct a as [s c x| |]; [|by destruct Ha..].
  assert (amount e k (Fin (negb s) c x)) as Hn by apply (amount_negate _ _ _ Ha).
  unfold dabs. cbn [is_signed]. destruct s.
  - destruct (amount_neg e k _ Ha Hk He) as (r & Hr & Ar & Vr). exists r. split_and!; [done..|].
    rewrite Vr. rewrite Qabs_neg; [done|]. cbn [dval]. pose proof (p10_pos x).
    assert (inject_Z (signed true c) <= 0)%Q.
    { change 0%Q with (inject_Z 0). rewrite <- Zle_Qle. cbn. lia. }
    nra.
  - destruct (amount_neg e k _ Hn Hk He) as (r & Hr & Ar & Vr). exists r.
    cbn [dneg dpos negb] in *. split_and!; [done..|].
    rewrite Vr, Qabs_pos; cbn [dval]; rewrite ?dval_neg_sgn; cbn [negb sgn].
    + unfold signed. rewrite inject_Z_opp. ring.
    + pose proof (p10_pos x). assert (0 <= inject_Z (signed false c))%Q; [|nra].
      change 0%Q with (inject_Z 0). rewrite <- Zle_Qle. cbn. lia.
Qed.

(** [abs(first.strike - second.strike)] *)
Definition width_of (candidate : VerticalCandidate) : M decimal :=
  '(first, second) ← two_legs candidate;
  difference ← dsub (ol_strike first) (ol_strike second);
  dabs difference.

Lemma width_of_value candidate bought sold :
  cash_candidate candidate -> defined_risk candidate bought sold ->
  exists width, width_of candidate = Ok width /\ cash width /\
    (dval width == Qabs (dval (ol_strike bought) - dval (ol_strike sold)))%Q /\ (0 < dval width)%Q.
Proof.
  intros (_ & _ & HF) HD.
  assert (exists first second, vc_legs candidate = [first; second] /\
     (Qabs (dval (ol_strike first) - dval (ol_strike second))
      == Qabs (dval (ol_strike bought) - dval (ol_strike sold)))%Q) as (first & second & El & Eabs).
  { destruct (dr_legs _ _ _ HD) as [E|E]; eexists _, _; (split; [exact E|]); [done|].
    rewrite <- Qabs_opp. apply Qabs_wd. ring. }
  unfold width_of. rewrite (proj2 (two_legs_ok candidate first second) El). cbn [mbind M_bind].
  rewrite El, !Forall_cons_iff in HF. destruct HF as (F1 & F2 & _).
  destruct (amount_sub (-6) (10 ^ 17) (10 ^ 17) _ _ F1 F2 ltac:(reflexivity) cash_exp) as (d & -> & Ad & Vd). cbn [mbind M_bind].
  destruct (dabs_value (-6) _ _ Ad ltac:(reflexivity) cash_exp) as (width & -> & Aw & Vw).
  exists width. split; [done|]. split; [apply (amount_weaken _ _ _ _ Aw); lia|].
  rewrite Vd, Eabs in Vw. split; [done|]. rewrite Vw.
  pose proof (dr_shape _ _ _ HD) as Hs. unfold strategy_shape in Hs.
  destruct (vc_strategy candidate); destruct Hs as [_ Hs]; apply Qabs_case; intros; lra.
Qed.

(** The loss per share the policy approves. *)
Definition per_share_loss (candidate : VerticalCandidate) (width : Q) : Q :=
  if is_debit (vc_strategy candidate) then dval (_candidate_maximum_limit candidate)
  else (width - dval (vc_approved_limit candidate))%Q.

Lemma approved_max_loss_value candidate bought sold :
  cash_candidate candidate -> defined_risk candidate bought sold ->
  0 <= vc_quantity candidate <= 10 ^ 4 ->
  exists loss width, _approved_max_loss candidate = Ok loss /\ width_of candidate = Ok width /\
    amount (-6) (10 ^ 25) loss /\
    (dval loss == per_share_loss candidate (dval width) * inject_Z (vc_quantity candidate) * 100)%Q.
Proof.
  intros HC HD Hq. destruct (width_of_value _ _ _ HC HD) as (width & Ew & Cw & Vw & Pw).
  destruct HC as (Ca & Cm & _). pose proof Ew as Ewidth. unfold width_of in Ew.
  unfold _approved_max_loss.
  apply bind_ok in Ew as ([first second] & E1 & Ew). apply bind_ok in Ew as (d & E2 & Ew).
  rewrite E1. cbn [mbind M_bind]. rewrite E2. cbn [mbind M_bind]. rewrite Ew. cbn [mbind M_bind].
  assert (exists per_share, (if is_debit (vc_strategy candidate)
      then Ok (_candidate_maximum_limit candidate) else dsub width (vc_approved_limit candidate))
      = Ok per_share /\ amount (-6) (2 * 10 ^ 18) per_share /\
      (dval per_share == per_share_loss candidate (dval width))%Q) as (per_share & -> & Ap & Vp).
  { unfold per_share_loss. destruct (is_debit (vc_strategy candidate)).
    - eexists. split; [done|]. split; [apply (amount_weaken _ _ _ _ Cm); lia|reflexivity].
    - destruct (amount_sub (-6) (10 ^ 18) (10 ^ 18) _ _ Cw Ca ltac:(reflexivity) cash_exp)
        as (r & -> & Ar & Vr). exists r. split; [done|]. split; [|done].
      apply (amount_weaken _ _ _ _ Ar); lia. }
  cbn [mbind M_bind].
  destruct (amount_mul_int (-6) (2 * 10 ^ 18) (10 ^ 4) per_share (vc_quantity candidate) Ap
    ltac:(lia) ltac:(reflexivity) cash_exp) as (s & -> & As & Vs). cbn [mbind M_bind].
  destruct (amount_mul_int (-6) (2 * 10 ^ 18 * 10 ^ 4) 100 s 100 As
    ltac:(lia) ltac:(reflexivity) cash_exp) as (loss & -> & Al & Vl).
  exists loss, width. split_and!; [done|done|apply (amount_weaken _ _ _ _ Al); lia|].
  rewrite Vl, Vs, Vp. reflexivity.
Qed.

(** A credit whose share of the width is below one is below the width. *)
Lemma credit_below_width policy candidate bought sold width :
  cash_candidate candidate -> defined_risk candidate bought sold ->
  by_intent candidate BUY_TO_OPEN = Some bought -> by_intent candidate SELL_TO_OPEN = Some sold ->
  width_of candidate = Ok width -> (0 < dval width)%Q -> cash width ->
  is_debit (vc_strategy candidate) = false ->
  _payoff_geometry_valid policy candidate = Ok true ->
  (dval (vc_approved_limit candidate) < dval width)%Q.
Proof.
  intros HC HD Hb Hs Ew Pw Cw Hdebit. unfold _payoff_geometry_valid. rewrite Hb, Hs, Hdebit.
  cbn [from_option_key mbind M_bind]. intros H.
  destruct (width_of_value _ _ _ HC HD) as (width' & Ew' & _ & Vw' & _).
  assert (width' = width) as -> by congruence. clear Ew'.
  apply bind_ok in H as (d & Ed & H). apply bind_ok in H as (w & Eaw & H).
  assert (dval w == dval width)%Q as Vw.
  { destruct HC as (_ & _ & HF).
    assert (amount (-6) (10 ^ 17) (ol_strike bought) /\ amount (-6) (10 ^ 17) (ol_strike sold))
      as [Ab As].
    { destruct (dr_legs _ _ _ HD) as [E|E]; rewrite E, !Forall_cons_iff in HF; naive_solver. }
    destruct (amount_sub (-6) (10 ^ 17) (10 ^ 17) _ _ Ab As ltac:(reflexivity) cash_exp)
      as (d' & Ed' & Ad & Vd). assert (d' = d) as -> by congruence.
    destruct (dabs_value (-6) _ _ Ad ltac:(reflexivity) cash_exp) as (w' & Ew' & Aw & Vw).
    assert (w' = w) as -> by congruence. rewrite Vw, Vd, Vw'. reflexivity. }
  assert (finite w) as Fw.
  { destruct w; [done| |]; exfalso; cbn in Vw; lra. }
  apply bind_ok in H as (natural & _ & H). apply bind_ok in H as (nf & _ & H).
  apply bind_ok in H as (af & Eaf & H). autorewrite with py in H. destruct H as [_ H].
  rewrite !Forall_cons_iff in H. destruct H as (_ & H & _). apply and_m_true in H as [_ H].
  apply ddiv_spec in Eaf as [Faf Haf]; [|apply HC|done].
  apply dlt_ok_true in H; [|done|done]. rewrite dval_Dint in H.
  apply Qnot_le_lt. intros Hle. apply (Qlt_not_le _ _ H).
  apply (faithful_ge _ _ _ Haf); [by apply (repr_int 1)|].
  apply Qle_shift_div_l; [lra|]. rewrite Vw. change (inject_Z 1) with 1%Q. lra.
Qed.

(** The cash flow of fills inside the limits of the candidate: no more than the maximum limit
    paid for a debit, no less than the approved limit received for a credit. *)
Definition filled_within_limit (candidate : VerticalCandidate) (cum : Q) : Prop :=
  if is_debit (vc_strategy candidate)
  then (- (dval (_candidate_maximum_limit candidate) * inject_Z (vc_quantity candidate) * 100) <= cum)%Q
  else (dval (vc_approved_limit candidate) * inject_Z (vc_quantity candidate) * 100 <= cum)%Q.

Lemma structural_payoff_debit policy candidate profile :
  _structural_pilot_payoff_valid policy candidate profile = Ok true ->
  is_debit (vc_strategy candidate) = true.
Proof.
  unfold _structural_pilot_payoff_valid. intros H. inv_all. unfold is_debit.
  apply bool_decide_eq_true. destruct (bool_decide (sp_direction profile = BULLISH)); auto.
Qed.

Lemma accepted_strikes_finite candidate : cash_candidate candidate -> finite_strikes candidate.
Proof. intros (_ & _ & HF). eapply Forall_impl; [exact HF|]. by intros leg []. Qed.

(** The loss that is computed for an accepted candidate. *)
Lemma accepted_loss policy values candidate :
  accepted policy values candidate -> op_maximum_quantity policy <= MAX_STRUCTURAL_OPTION_QUANTITY ->
  cash_candidate candidate ->
  exists bought sold width loss,
    defined_risk candidate bought sold /\ width_of candidate = Ok width /\ cash width /\
    (0 < dval width)%Q /\ _approved_max_loss candidate = Ok loss /\ amount (-6) (10 ^ 25) loss /\
    (dval loss == per_share_loss candidate (dval width) * inject_Z (vc_quantity candidate) * 100)%Q /\
    (0 < dval loss)%Q /\
    (is_debit (vc_strategy candidate) = false -> dval (vc_approved_limit candidate) < dval width)%Q.
Proof.
  intros HA Hmax HC. pose proof (acc_quantity _ _ _ HA) as Hq.
  unfold MAX_STRUCTURAL_OPTION_QUANTITY in Hmax.
  destruct (is_vertical_inv candidate (accepted_strikes_finite _ HC) (acc_vertical _ _ _ HA))
    as (bought & sold & HD & Hb & Hs).
  destruct (approved_max_loss_value _ _ _ HC HD ltac:(lia)) as (loss & width & El & Ew & Al & Vl).
  destruct (width_of_value _ _ _ HC HD) as (width' & Ew' & Cw & Vw & Pw).
  assert (width' = width) as -> by congruence. clear Ew'.
  assert (0 < inject_Z (vc_quantity candidate))%Q as Pq
    by (change 0%Q with (inject_Z 0); rewrite <- Zlt_Qlt; lia).
  pose proof (acc_limit_range _ _ _ HA) as [L1 L2].
  assert (is_debit (vc_strategy candidate) = false ->
          dval (vc_approved_limit candidate) < dval width)%Q as Hcredit.
  { intros Hd. pose proof (acc_payoff _ _ _ HA) as Hp.
    destruct (structural_pilot_profile _); [apply structural_payoff_debit in Hp; congruence|].
    by eapply credit_below_width. }
  exists bought, sold, width, loss. split_and!; try done.
  rewrite Vl. unfold per_share_loss.
  destruct (is_debit (vc_strategy candidate)); [nra|specialize (Hcredit eq_refl); nra].
Qed.

(** C12: The approved loss is a real bound.  For a candidate the gates accept, with prices
    in millionths of a dollar, the two legs form a defined risk vertical, the approved
    maximum loss is computed and positive, and whatever the order fills at inside its
    limits the payoff of the position the domain model computes never loses more than
    the approved amount: what is charged against the risk budgets covers the
    trade. *)
Theorem approved_max_loss_covers policy values candidate :
  _option_candidate_failure policy values candidate = Ok None ->
  op_maximum_quantity policy <= MAX_STRUCTURAL_OPTION_QUANTITY ->
  cash_candidate candidate ->
  exists bought sold width loss,
    defined_risk candidate bought sold /\ width_of candidate = Ok width /\
    _approved_max_loss candidate = Ok loss /\ (0 < dval loss)%Q /\
    forall cum close,
      cash cum -> cash close -> filled_within_limit candidate (dval cum) ->
      exists p, calculate_vertical_payoff (kind_of (vc_strategy candidate)) width
                  (vc_quantity candidate) cum close = Ok p /\
        (dval (cumulative_max_loss p) <= dval loss)%Q.
Proof.
  intros HA%candidate_accepted_inv Hmax HC. pose proof (acc_quantity _ _ _ HA) as Hq.
  destruct (accepted_loss _ _ _ HA Hmax HC)
    as (bought & sold & width & loss & HD & Ew & Cw & Pw & El & _ & Vl & Pl & Hcredit).
  unfold MAX_STRUCTURAL_OPTION_QUANTITY in Hmax.
  assert (0 < inject_Z (vc_quantity candidate))%Q as Pq
    by (change 0%Q with (inject_Z 0); rewrite <- Zlt_Qlt; lia).
  pose proof (acc_limit_range _ _ _ HA) as [L1 L2].
  exists bought, sold, width, loss. split_and!; try done.
  intros cum close Ccum Cclose Hfill.
  destruct (calculate_vertical_payoff_value (kind_of (vc_strategy candidate)) width
    (vc_quantity candidate) cum close Cw Pw ltac:(lia) Ccum Cclose) as (p & Hp & Vp & _).
  exists p. split; [done|]. rewrite Vp, Vl. unfold filled_within_limit, kind_of, per_share_loss in *.
  destruct (is_debit (vc_strategy candidate)); cbn [worst_of].
  - apply Q.max_lub; [nra|lra].
  - specialize (Hcredit eq_refl). apply Q.max_lub; [nra|lra].
Qed.

Lemma sample_candidate_cash : cash_candidate sample_candidate.
Proof.
  split_and!; [apply amount_D; [lia|vm_compute; discriminate]..|].
  repeat constructor; apply (amount_D (-6)); first [lia|vm_compute; discriminate].
Qed.

Lemma approved_max_loss_covers_witness :
  exists width loss, width_of sample_candidate = Ok width /\
    _approved_max_loss sample_candidate = Ok loss /\ (0 < dval loss)%Q.
Proof.
  destruct (approved_max_loss_covers sample_policy (sample_input (D 19 (-3))) sample_candidate)
    as (bought & sold & width & loss & _ & Ew & El & Hpos & _).
  - vm_compute. reflexivity.
  - vm_compute. discriminate.
  - exact sample_candidate_cash.
  - exists width, loss. split; [exact Ew|]. split; [exact El|exact Hpos].
Defined.

(** ** What an approval rests on *)

Lemma rejected_outcome policy_hash input_hash candidate_hash values reason direction r :
  _rejected policy_hash input_hash candidate_hash values reason direction = Ok r ->
  od_outcome r = NO_TRADE.
Proof. unfold _rejected, _record. intros H. by inv_all. Qed.

(** The account gates, as facts on the rational values. *)
Record within_budget (policy : OpportunityPolicy) (values : OpportunityInput) (loss : decimal)
    : Prop := {
  wb_role : ac_account_role (oi_account values) <> REPLAY;
  wb_floor : (dval (op_equity_floor policy) < dval (ac_clean_equity (oi_account values)))%Q;
  wb_orders : ac_open_order_count (oi_account values) = 0;
  wb_reservation : ac_entry_reservation_active (oi_account values) = false;
  wb_entries : 0 <= ac_filled_entry_count (oi_account values) < op_maximum_lifetime_entries policy;
  wb_lifetime : (dval (ac_lifetime_approved_risk (oi_account values)) + dval loss
                 <= dval (op_maximum_lifetime_risk policy))%Q;
  wb_position : (dval loss <= dval (op_maximum_position_loss policy))%Q;
  wb_window : dt_lt (op_last_entry_boundary policy) (oi_observed_decision_boundary values) = Ok false;
  wb_share : exists cap, dmul (ac_clean_equity (oi_account values)) (op_maximum_equity_risk_fraction policy) = Ok cap /\
    (dval loss <= dval cap)%Q;
  wb_book : is_hash (ac_book_fingerprint (oi_account values)) = true;
  wb_state : (0 < dval (ac_clean_equity (oi_account values)))%Q /\
    0 <= ac_open_position_count (oi_account values) /\
    (0 <= dval (ac_lifetime_approved_risk (oi_account values)))%Q /\
    (dval (ac_reserved_approved_risk (oi_account values)) == 0)%Q;
}.

Lemma policy_finite policy :
  make_OpportunityPolicy policy = Ok policy ->
  finite (op_maximum_position_loss policy) /\ finite (op_maximum_equity_risk_fraction policy) /\
  finite (op_maximum_lifetime_risk policy) /\ finite (op_equity_floor policy) /\
  1 <= op_maximum_quantity policy <= MAX_STRUCTURAL_OPTION_QUANTITY.
Proof.
  unfold make_OpportunityPolicy. intros H. apply bind_ok in H as (valid & Hv & H).
  apply guard_raise_ok in H as [Hn _]. apply lift_bool_ok, negb_false_iff in Hn. subst valid.
  rewrite !and_m_true in Hv. cbn [forallb] in Hv. inv_all. zbool. split_and!; (done || lia).
Qed.

Lemma account_failure_inv policy values loss :
  make_OpportunityPolicy policy = Ok policy ->
  cash (ac_lifetime_approved_risk (oi_account values)) -> amount (-6) (10 ^ 25) loss ->
  _account_failure policy values loss = Ok None -> within_budget policy values loss.
Proof.
  intros (Fp & Fe & Fl & Ff & _)%policy_finite Cl Al. unfold _account_failure. intros H.
  destruct (amount_add (-6) (10 ^ 18) (10 ^ 25) _ _ Cl Al ltac:(reflexivity) cash_exp)
    as (total & Et & [Ftotal _] & Vt).
  rewrite Et in H. pose proof (proj1 Al) as Floss. inv_all.
  match goal with H : is_finite (ac_clean_equity _) = true |- _ => rename H into Feq end.
  match goal with H : dmul _ _ = Ok ?c, H' : dmin _ ?c = Ok ?m |- _ =>
    pose proof H as Ecap; apply dmul_spec in H as [Fcap _]; [|done..];
    destruct (dmin_spec (op_maximum_position_loss policy) c Fp Fcap) as (m' & Em & Fm & _ & Lm & Lc)
  end.
  match goal with H : dmin _ _ = Ok ?m |- _ => assert (m' = m) as -> by congruence end.
  dec_facts. zbool. rewrite Vt in *. change (inject_Z 0) with 0%Q in *.
  match goal with E : ac_entry_reservation_active _ = false, K : _ && _ = false |- _ =>
    rewrite E in K; cbn in K; apply negb_false_iff, deq_spec in K; [|done..]; rewrite dval_Dint in K
  end.
  constructor; try done; try lia; try lra. eexists. split; [exact Ecap|lra].
Qed.

Ltac peel_rejected :=
  repeat match goal with
  | H : guard_m _ _ _ = Ok ?r |- _ =>
      apply guard_ok in H as [[_ H]|[? H]]; [apply rejected_outcome in H; congruence|]
  end.

(** What an approved decision was computed from. *)
Record approved_from (policy : OpportunityPolicy) (values : OpportunityInput)
    (r : OpportunityDecisionRecord) (candidate : VerticalCandidate) (loss : decimal) : Prop := {
  af_candidate : oi_candidate values = Some candidate;
  af_accepted : accepted policy values candidate;
  af_direction : exists direction, od_direction r = Some direction /\
    vc_strategy candidate ∈ _DIRECTION_STRATEGIES direction;
  af_loss : _approved_max_loss candidate = Ok loss;
  af_budget : within_budget policy values loss;
  af_strategy : od_strategy r = Some (vc_strategy candidate);
  af_quantity : od_quantity r = Some (vc_quantity candidate);
  af_approved : od_approved_max_loss r = Some loss;
  af_policy : opportunity_policy_hash policy = Ok (od_policy_hash r);
  af_book : od_book_fingerprint r = ac_book_fingerprint (oi_account values);
  af_boundary : od_decision_boundary r = oi_observed_decision_boundary values;
}.

Lemma approval_inv policy values r :
  make_OpportunityPolicy policy = Ok policy ->
  evaluate_opportunity policy values = Ok r -> od_outcome r = OO_ENTRY_APPROVED ->
  cash (ac_lifetime_approved_risk (oi_account values)) ->
  (forall candidate, oi_candidate values = Some candidate -> cash_candidate candidate) ->
  exists candidate loss, approved_from policy values r candidate loss.
Proof.
  intros HP H Hr Cl HC. unfold evaluate_opportunity in H.
  apply bind_ok in H as (policy_hash & Hph & H). apply bind_ok in H as (input_hash & _ & H).
  apply bind_ok in H as (candidate_hash & _ & H). cbn zeta in H. peel_rejected.
  apply bind_ok in H as (direction & Hd & H).
  destruct direction as [direction|]; [|apply rejected_outcome in H; congruence].
  destruct (oi_candidate values) as [candidate|] eqn:Ec; [|apply rejected_outcome in H; congruence].
  specialize (HC candidate eq_refl). peel_rejected.
  apply bind_ok in H as (failure & Hf & H).
  destruct failure; [apply rejected_outcome in H; congruence|].
  apply candidate_accepted_inv in Hf as HA.
  apply bind_ok in H as (loss & El & H). apply bind_ok in H as (failure & Ha & H).
  destruct failure; [apply rejected_outcome in H; congruence|].
  destruct (policy_finite policy HP) as (_ & _ & _ & _ & _ & Hmax).
  destruct (accepted_loss _ _ _ HA Hmax HC) as (_ & _ & _ & loss' & _ & _ & _ & _ & El' & Al & _).
  assert (loss' = loss) as -> by congruence.
  apply account_failure_inv in Ha as HB; [|done..].
  unfold _record in H. clear HP Hf Ha Hd El' Hmax. inv_all. zbool.
  exists candidate, loss. split; try done. by eexists.
Qed.

Lemma policy_numbers policy :
  make_OpportunityPolicy policy = Ok policy ->
  Forall finite [op_minimum_vwap_distance policy; op_maximum_vwap_distance policy; op_minimum_relative_return policy;
    op_minimum_beta policy; op_maximum_beta policy; op_maximum_first_reaction policy].
Proof.
  unfold make_OpportunityPolicy. intros H. apply bind_ok in H as (valid & Hv & H).
  apply guard_raise_ok in H as [Hn _]. apply lift_bool_ok, negb_false_iff in Hn. subst valid.
  rewrite !and_m_true in Hv. cbn [forallb] in Hv. inv_all. by repeat constructor.
Qed.

(** The gates on the input before the direction; those on the catalyst, on beta and on the
    first reaction are not those of a structural pilot. *)
Record market_gates (policy : OpportunityPolicy) (values : OpportunityInput) : Prop := {
  mg_key : oi_opportunity_key values = op_opportunity_key policy;
  mg_underlying : oi_underlying values = op_underlying policy;
  mg_pilot : structural_pilot_profile (op_opportunity_key policy) <> None -> op_underlying policy = "SPY"%string;
  mg_first : oi_prior_decision_outcome values = None;
  mg_boundary : dt_eq (oi_observed_decision_boundary values) (op_selected_decision_boundary policy) = true;
  mg_complete : oi_decision_boundary_complete values = true /\
    dt_eq (oi_completed_bar_at values) (oi_observed_decision_boundary values) = true;
  mg_delay : exists delay, dt_sub (oi_evaluated_at values) (oi_observed_decision_boundary values) = Ok delay /\
    0 <= delay <= op_maximum_decision_delay policy;
  mg_quality : oi_data_quality values = DQ_COMPLETE;
  mg_numbers : Forall finite [oi_vwap_distance values; oi_relative_return values; oi_beta values;
                              oi_absolute_first_reaction values] /\
    (0 <= dval (oi_absolute_first_reaction values))%Q;
  mg_scores : 0 <= oi_catalyst_score values <= 100 /\ 0 <= oi_bull_trend_hits values <= 3 /\
    0 <= oi_bear_trend_hits values <= 3;
  mg_open : oi_market_open values = true /\ oi_trading_halted values = NOT_HALTED;
  mg_underlying_age : fresh (oi_underlying_observed_at values) (oi_evaluated_at values) (op_maximum_underlying_age policy);
  mg_catalyst_age : fresh (oi_catalyst_observed_at values) (oi_evaluated_at values) (op_maximum_catalyst_age policy);
  mg_catalyst : structural_pilot_profile (op_opportunity_key policy) = None ->
    oi_catalyst_quality values <> CQ_MISSING /\ oi_catalyst_quality values <> AUTHORITATIVE_CONTRADICTION /\
    op_minimum_catalyst_score policy <= oi_catalyst_score values;
  mg_beta : structural_pilot_profile (op_opportunity_key policy) = None ->
    (dval (op_minimum_beta policy) < dval (oi_beta values) <= dval (op_maximum_beta policy))%Q;
  mg_reaction : structural_pilot_profile (op_opportunity_key policy) = None ->
    (dval (oi_absolute_first_reaction values) <= dval (op_maximum_first_reaction policy))%Q;
}.

Lemma normalized_inv values :
  _normalized_input_valid values = Ok true ->
  (Forall finite [oi_vwap_distance values; oi_relative_return values; oi_beta values; oi_absolute_first_reaction values] /\
   (0 <= dval (oi_absolute_first_reaction values))%Q) /\
  0 <= oi_catalyst_score values <= 100 /\ 0 <= oi_bull_trend_hits values <= 3 /\ 0 <= oi_bear_trend_hits values <= 3.
Proof.
  unfold _normalized_input_valid. intros H. rewrite !and_m_true in H. cbn [forallb] in H. inv_all. zbool. dec_facts.
  change (inject_Z 0) with 0%Q in *. split_and!; try done; by repeat constructor.
Qed.

(** The direction follows the signs and sizes, or the profile of a structural pilot. *)
Definition directed (policy : OpportunityPolicy) (values : OpportunityInput) (direction : OpportunityDirection) : Prop :=
  match structural_pilot_profile (op_opportunity_key policy) with
  | Some profile => direction = sp_direction profile
  | None =>
      (exists size, dabs (oi_vwap_distance values) = Ok size /\
         (dval (op_minimum_vwap_distance policy) < dval size <= dval (op_maximum_vwap_distance policy))%Q) /\
      match direction with
      | BULLISH =>
          (0 < dval (oi_vwap_distance values))%Q /\
          (dval (op_minimum_relative_return policy) < dval (oi_relative_return values))%Q /\
          op_required_trend_hits policy <= oi_bull_trend_hits values
      | BEARISH =>
          (dval (oi_vwap_distance values) < 0)%Q /\
          (exists floor, dneg (op_minimum_relative_return policy) = Ok floor /\
             (dval (oi_relative_return values) < dval floor)%Q) /\
          op_required_trend_hits policy <= oi_bear_trend_hits values
      end
  end.

Lemma dabs_spec a r : finite a -> dabs a = Ok r -> finite r /\ faithful (Qabs (dval a)) (dval r).
Proof.
  intros Fa H. destruct a as [s c e| |]; try done. unfold dabs in H.
  assert (fix_ false (Z.of_N c) e = Ok r) as Hf.
  { destruct s; cbn in H; destruct (c =? 0)%N; done. }
  apply fix_spec in Hf as [Fr Hf]; [|lia]. split; [done|]. cbn [sgn dval] in *.
  enough (E : (Qabs (inject_Z (signed s c) * p10 e) == inject_Z (Z.of_N c) * p10 e)%Q) by (by rewrite E).
  pose proof (p10_pos e). assert (0 <= inject_Z (Z.of_N c))%Q by (change 0%Q with (inject_Z 0); rewrite <- Zle_Qle; lia).
  assert (0 <= inject_Z (Z.of_N c) * p10 e)%Q by nra.
  destruct s; cbn [signed]; rewrite ?inject_Z_opp; [|by rewrite Qabs_pos].
  rewrite Qabs_neg by nra. ring.
Qed.

Lemma direction_inv policy values direction :
  make_OpportunityPolicy policy = Ok policy -> market_gates policy values ->
  derive_opportunity_direction policy (oi_vwap_distance values) (oi_relative_return values)
    (oi_bull_trend_hits values) (oi_bear_trend_hits values) = Ok (Some direction) ->
  directed policy values direction.
Proof.
  intros HP HM H. apply policy_numbers in HP. destruct HM as [_ _ Hpilot _ _ _ _ _ [Hn _] _ _ _ _ _ _ _].
  rewrite !Forall_cons_iff in HP, Hn. destruct HP as (F1 & F2 & F3 & _), Hn as (F4 & F5 & _).
  unfold derive_opportunity_direction in H. unfold directed.
  destruct (structural_pilot_profile _) as [profile|].
  { rewrite (Hpilot ltac:(done)) in H. by injection H as <-. }
  apply bind_ok in H as (passes & Hs & H).
  assert (S : passes = true -> exists size, dabs (oi_vwap_distance values) = Ok size /\
    (dval (op_minimum_vwap_distance policy) < dval size <= dval (op_maximum_vwap_distance policy))%Q).
  { intros ->. apply and_m_true in Hs as [H1 H2]. apply bind_ok in H1 as (size & E1 & H1).
    apply bind_ok in H2 as (size' & E2 & H2). assert (size' = size) as -> by congruence.
    destruct (dabs_spec _ _ F4 E1) as [Fs _]. exists size. dec_facts. by split_and!. }
  apply guard_ok in H as [[Hc [= <-]]|[_ H]].
  { inv_all. zbool. dec_facts. split; [by apply S|]. by split_and!. }
  apply guard_ok in H as [[Hc [= <-]]|[_ [=]]]. inv_all. zbool.
  match goal with K : dneg _ = Ok ?f |- _ => destruct (dneg_spec _ _ F3 K) as [Ff _] end.
  dec_facts. split; [by apply S|]. split_and!; [done| |done]. by eexists.
Qed.

Lemma gates_inv policy values r :
  make_OpportunityPolicy policy = Ok policy ->
  evaluate_opportunity policy values = Ok r -> od_outcome r = OO_ENTRY_APPROVED ->
  market_gates policy values /\
  exists direction, od_direction r = Some direction /\ directed policy values direction.
Proof.
  intros HP H Hr. pose proof (policy_numbers policy HP) as HN. rewrite !Forall_cons_iff in HN.
  destruct HN as (F1 & F2 & F3 & F4 & F5 & F6 & _). unfold evaluate_opportunity in H.
  apply bind_ok in H as (policy_hash & _ & H). apply bind_ok in H as (input_hash & _ & H).
  apply bind_ok in H as (candidate_hash & _ & H). cbn zeta in H. peel_rejected.
  apply bind_ok in H as (direction & Hd & H).
  assert (HM : market_gates policy values).
  { clear Hd H. 
    repeat match goal with K : not (_fresh_at _ _ _) = Ok false |- _ => apply not_m_ok in K; cbn [negb] in K; apply fresh_inv in K end.
    match goal with K : not (_normalized_input_valid _) = Ok false |- _ =>
      apply not_m_ok in K; apply normalized_inv in K as ((Hn & Hpos) & Hscores) end.
    pose proof Hn as Hf. rewrite !Forall_cons_iff in Hf. destruct Hf as (G1 & G2 & G3 & G4 & _).
    assert (P : structural_pilot_profile (op_opportunity_key policy) = None ->
      (oi_catalyst_quality values <> CQ_MISSING /\ oi_catalyst_quality values <> AUTHORITATIVE_CONTRADICTION /\
       op_minimum_catalyst_score policy <= oi_catalyst_score values) /\
      (dval (op_minimum_beta policy) < dval (oi_beta values) <= dval (op_maximum_beta policy))%Q /\
      (dval (oi_absolute_first_reaction values) <= dval (op_maximum_first_reaction policy))%Q).
    { intros E. rewrite E in *. cbn in *. inv_all. zbool. dec_facts. by split_and!. }
    clear HP Hr.
    assert (Q : structural_pilot_profile (op_opportunity_key policy) <> None -> op_underlying policy = "SPY"%string).
    { intros E. destruct (structural_pilot_profile _); [|done]. cbn in *. inv_all. by zbool. }
    inv_all. zbool. split; try done; try (by apply P).
    - destruct (oi_prior_decision_outcome values); [|done]. exfalso. by eauto.
    - eexists. split; [eassumption|]. split; [|done]. by eapply dt_sub_nonneg.
    - split; [done|]. by destruct (oi_trading_halted values). }
  split; [done|]. destruct direction as [direction|]; [|apply rejected_outcome in H; congruence].
  exists direction. split; [|by apply direction_inv].
  destruct (oi_candidate values) as [candidate|]; [|apply rejected_outcome in H; congruence]. peel_rejected.
  apply bind_ok in H as (failure & Hf & H). destruct failure; [apply rejected_outcome in H; congruence|].
  apply bind_ok in H as (loss & El & H). apply bind_ok in H as (failure & Ha & H).
  destruct failure; [apply rejected_outcome in H; congruence|].
  unfold _record in H. by apply bind_ok in H as (hash & _ & [= <-]).
Qed.

(** C7: An entry is authorised only inside every limit.  When a valid policy approves an
    entry, every gate of it holds: the scope, the first decision of the boundary, the
    boundary itself, complete and not late, the quality and the ranges of the data, the open
    and unhalted market, the ages of the data and of the catalyst, and for a policy that is not
    a structural pilot the catalyst, beta and the first reaction ([market_gates]); the
    direction the returns and the trend confirm, or the pilot's ([directed]); the
    candidate's limits, quantity, rank, score, days to expiry, legs, feed, quotes, their
    ages, skew and spreads, greeks and payoff ([accepted]); and with exact comparisons the
    account's: the approved loss is within the position cap and the equity cap the code
    computes, and, added to the risk approved before, within the lifetime cap, equity is above
    the floor, entries are left, no order or reservation is open and the window is not closed
    ([within_budget]).  The record has the candidate's strategy and quantity and that loss. *)
Theorem opportunity_entry_authorized policy values r :
  make_OpportunityPolicy policy = Ok policy ->
  evaluate_opportunity policy values = Ok r -> od_outcome r = OO_ENTRY_APPROVED ->
  cash (ac_lifetime_approved_risk (oi_account values)) ->
  (forall candidate, oi_candidate values = Some candidate -> cash_candidate candidate) ->
  market_gates policy values /\
  exists candidate direction loss,
    oi_candidate values = Some candidate /\ directed policy values direction /\
    accepted policy values candidate /\
    vc_strategy candidate ∈ _DIRECTION_STRATEGIES direction /\
    _approved_max_loss candidate = Ok loss /\ within_budget policy values loss /\
    od_direction r = Some direction /\ od_strategy r = Some (vc_strategy candidate) /\
    od_quantity r = Some (vc_quantity candidate) /\ od_approved_max_loss r = Some loss.
Proof.
  intros HP H Hr Cl HC. destruct (approval_inv policy values r HP H Hr Cl HC) as (candidate & loss & HA).
  destruct (gates_inv policy values r HP H Hr) as (HM & direction & Hd & HD).
  destruct (af_direction _ _ _ _ _ HA) as (direction' & Hd' & Hs). assert (direction' = direction) as -> by congruence.
  split; [done|]. destruct HA. by exists candidate, direction, loss.
Qed.


Lemma sample_decision :
  exists r, evaluate_opportunity sample_policy (sample_input (D 19 (-3))) = Ok r /\
    od_outcome r = OO_ENTRY_APPROVED /\ od_quantity r = Some 4.
Proof. eexists. split; [vm_compute; reflexivity|]. split; reflexivity. Qed.

Lemma opportunity_entry_authorized_witness :
  exists r, evaluate_opportunity sample_policy (sample_input (D 19 (-3))) = Ok r /\
    od_quantity r = Some 4 /\
    exists candidate loss, oi_candidate (sample_input (D 19 (-3))) = Some candidate /\
      within_budget sample_policy (sample_input (D 19 (-3))) loss.
Proof.
  destruct sample_decision as (r & E & Ho & Hq). exists r. split; [exact E|]. split; [exact Hq|].
  destruct (opportunity_entry_authorized sample_policy (sample_input (D 19 (-3))) r)
    as (_ & candidate & direction & loss & Hc & _ & _ & _ & _ & HB & _).
  - vm_compute. reflexivity.
  - exact E.
  - exact Ho.
  - apply (amount_D (-6)); [lia|vm_compute; discriminate].
  - intros c [= <-]. exact sample_candidate_cash.
  - exists candidate, loss. split; [exact Hc|exact HB].
Defined.

(** The hashes the repository's tests expect of this input, computed by the model. *)
Example sample_hashes :
  (r ← evaluate_opportunity sample_policy (sample_input (D 19 (-3)));
   Ok [od_input_hash r; od_policy_hash r; od_result_hash r])
  = Ok ["04c78755822264778159e0c1a0e78b7aaa195a139a1fa4f7dddb228353b0db7e";
        "e914c54ec2b5d7f2b61167530375569c8f2a78d5b2b2363bcfab41f64de08a0e";
        "401f2563675aa00d77bd25b7c9502380eccc5b85ffc6b29a8a0750842f15454a"]%string.
Proof. vm_compute. reflexivity. Qed.
