(* ===== verification/DecimalText.v ===== *)
(** * The text of decimals and UUIDs determines them

    [str] of a [Decimal] and of a [UUID] are injective, so that a canonical text binds
    the values it prints.  A decimal text is a sign, a body of digits with at most one
    point and an exponent suffix; the coefficient is the number its digits spell and
    the exponent is the suffix less the number of digits after the point. *)

From Stdlib Require Import ZArith Lia String Ascii List Bool.
From stdpp Require Import base strings option tactics list.
From S2P Require Import Prelude PyText PyTextFacts PyDecimal PyDecimalFacts PyHash Contracts.

#[local] Open Scope string_scope.
#[local] Open Scope Z_scope.
#[local] Arguments String.append !_ _ / : simpl nomatch.

(** ** Splitting a text at the first character of another kind *)

Definition starts_not (p : ascii -> bool) (k : string) : Prop :=
  match k with String c _ => p c = false | EmptyString => True end.

Lemma split_unique p s t k1 k2 :
  Forall (fun c => p c = true) (chars s) -> Forall (fun c => p c = true) (chars t) ->
  starts_not p k1 -> starts_not p k2 -> s ++ k1 = t ++ k2 -> s = t /\ k1 = k2.
Proof.
  revert t. induction s as [|c s IH]; intros [|d t] Hs Ht H1 H2 H; cbn in H.
  - done.
  - subst k1. apply Forall_inv in Ht. cbn in H1. congruence.
  - subst k2. apply Forall_inv in Hs. cbn in H2. congruence.
  - injection H as -> H. apply Forall_inv_tail in Hs, Ht.
    by destruct (IH t Hs Ht H1 H2 H) as [-> ->].
Qed.

(** ** Reading a body *)

Definition is_body (c : ascii) : bool := is_digit c || Ascii.eqb c ".".

Fixpoint undot (s : string) : string :=
  match s with
  | EmptyString => EmptyString
  | String c s => if Ascii.eqb c "." then s else String c (undot s)
  end.

Fixpoint places (s : string) : Z :=
  match s with
  | EmptyString => 0
  | String c s => if Ascii.eqb c "." then str_len s else places s
  end.

Lemma digit_not_dot c : is_digit c = true -> Ascii.eqb c "." = false.
Proof. rewrite is_digit_spec. intros H. apply Ascii.eqb_neq. intros ->. cbn in H. lia. Qed.

Lemma undot_digits s t : all_digits s -> undot (s ++ t) = s ++ undot t.
Proof.
  induction s as [|c s IH]; intros H; [done|]. inversion H as [|? ? Hc Hs]; subst.
  cbn. by rewrite (digit_not_dot c Hc), IH.
Qed.

Lemma places_digits s t : all_digits s -> places (s ++ t) = places t.
Proof.
  induction s as [|c s IH]; intros H; [done|]. inversion H as [|? ? Hc Hs]; subst.
  cbn. by rewrite (digit_not_dot c Hc), IH.
Qed.

Lemma is_body_digits s : all_digits s -> Forall (fun c => is_body c = true) (chars s).
Proof. intros H. eapply Forall_impl; [exact H|]. cbn beta. unfold is_body. intros c ->. done. Qed.

(** The body [u] with the point before its last digits [v]. *)
Lemma body_pointed u v :
  all_digits u -> all_digits v ->
  Forall (fun c => is_body c = true) (chars (u ++ "." ++ v)) /\
  undot (u ++ "." ++ v) = u ++ v /\ places (u ++ "." ++ v) = str_len v.
Proof.
  intros Hu Hv. rewrite undot_digits, places_digits by done. split_and!.
  - rewrite !chars_app. apply Forall_app. split; [by apply is_body_digits|].
    cbn. constructor; [done|by apply is_body_digits].
  - done.
  - done.
Qed.

Lemma body_plain u :
  all_digits u ->
  Forall (fun c => is_body c = true) (chars u) /\ undot u = u /\ places u = 0.
Proof.
  intros Hu. split; [by apply is_body_digits|]. rewrite <- (append_nil_r u) at 1 3.
  rewrite undot_digits, places_digits by done. by rewrite append_nil_r.
Qed.

(** ** The parts of [str(d)] *)

Lemma chars_substring n k s : chars (String.substring n k s) = take k (drop n (chars s)).
Proof.
  revert n k. induction s as [|c s IH]; intros [|n] [|k]; try done; cbn;
    rewrite ?IH, ?drop_0; done.
Qed.

Lemma substring_split s n :
  (n <= String.length s)%nat ->
  String.substring 0 n s ++ String.substring n (String.length s) s = s /\
  String.length (String.substring 0 n s) = n.
Proof.
  intros H. rewrite <- length_chars in H. split.
  - apply chars_inj. rewrite chars_app, !chars_substring, drop_0, <- length_chars.
    rewrite (take_ge (drop n _)) by (rewrite length_drop; lia). apply take_drop.
  - rewrite <- length_chars, chars_substring, drop_0, length_take. lia.
Qed.

Lemma length_split_tail s n :
  (n <= String.length s)%nat ->
  str_len (String.substring n (String.length s) s) = str_len s - Z.of_nat n.
Proof.
  intros H. destruct (substring_split s n H) as [E L]. apply (f_equal String.length) in E.
  rewrite length_append, L in E. unfold str_len. lia.
Qed.

(** The text of a finite decimal: a body that spells the coefficient and a suffix. *)
Lemma decimal_str_parts s c e :
  exists body x,
    decimal_str (Fin s c e) =
      sign_text s ++ body ++
        (if x =? 0 then EmptyString
         else "E" ++ (if x <? 0 then EmptyString else "+") ++ str_of_Z x) /\
    Forall (fun c => is_body c = true) (chars body) /\
    (exists a k, body = String a k /\ is_digit a = true) /\
    N_of_digits 0 (undot body) = Some c /\ e = x - places body.
Proof.
  unfold decimal_str. set (int := str_of_N c).
  destruct (str_of_N_spec c) as (Hd & Hne & _). fold int in Hd, Hne.
  assert (Hv : N_of_digits 0 int = Some c) by apply N_of_digits_str.
  assert (Hl : 0 < str_len int) by (unfold str_len; destruct int; [done|cbn; lia]).
  assert (Hhead : forall t, exists a k, int ++ t = String a k /\ is_digit a = true).
  { intros t. destruct int as [|a k]; [done|]. exists a, (k ++ t). split; [done|].
    by inversion Hd. }
  set (leftdigits := e + str_len int).
  set (dotplace := if (e <=? 0) && (-6 <? leftdigits) then leftdigits else 1).
  eexists _, (leftdigits - dotplace). split; [reflexivity|].
  destruct (Z.leb_spec dotplace 0) as [H0|H0].
  - assert (dotplace = leftdigits) as ->.
    { subst dotplace. destruct (_ && _); [done|lia]. }
    assert (Hz : all_digits (zeros (Z.to_nat (- leftdigits)) ++ int))
      by (apply all_digits_app; split; [apply zeros_digits|done]).
    destruct (body_pointed "0" _ ltac:(by constructor) Hz) as (B & U & P).
    split_and!; [exact B|by eexists _, _| |].
    + transitivity (N_of_digits 0 (zeros (Z.to_nat (- leftdigits)) ++ int));
        [exact (f_equal (N_of_digits 0) U)|by rewrite N_of_digits_zeros].
    + etransitivity; [|exact (f_equal (Z.sub (leftdigits - leftdigits)) (eq_sym P))]. unfold str_len. rewrite length_append, zeros_length. fold (str_len int).
      unfold str_len in *. lia.
  - destruct (Z.leb_spec (str_len int) dotplace) as [H1|H1].
    + assert (Z.to_nat (dotplace - str_len int) = 0%nat) as ->.
      { subst dotplace. destruct (Z.leb_spec e 0), (Z.ltb_spec (-6) leftdigits); cbn in *; lia. }
      cbn [zeros]. destruct (body_plain int Hd) as (B & U & P). rewrite append_nil_r.
      split_and!; [exact B| |by rewrite U|].
      * rewrite <- (append_nil_r int). apply Hhead.
      * rewrite P. subst dotplace leftdigits.
        destruct (Z.leb_spec e 0), (Z.ltb_spec (-6) (e + str_len int)); cbn in *; lia.
    + set (n := Z.to_nat dotplace). assert (Hn : (n <= String.length int)%nat) by (unfold str_len in H1; lia).
      destruct (substring_split int n Hn) as [E L].
      set (u := String.substring 0 n int) in *. set (v := String.substring n (String.length int) int) in *.
      rewrite <- E in Hd. apply all_digits_app in Hd as [Hu Hw].
      destruct (body_pointed u v Hu Hw) as (B & U & P).
      split_and!; [exact B| |by rewrite U, E|].
      * destruct u as [|a k]; [cbn in L; lia|]. eexists _, _. split; [done|by inversion Hu].
      * rewrite P. subst v. rewrite length_split_tail by done. subst n leftdigits. lia.
Qed.

Lemma sign_split s s' u u' :
  (exists a k, u = String a k /\ is_digit a = true) ->
  (exists a k, u' = String a k /\ is_digit a = true) ->
  sign_text s ++ u = sign_text s' ++ u' -> s = s' /\ u = u'.
Proof.
  intros (a & k & -> & Ha) (a' & k' & -> & Ha') H.
  destruct s, s'; cbn in H; injection H as E H; subst; try done; cbn in *; discriminate.
Qed.

Lemma suffix_starts x :
  starts_not is_body
    (if x =? 0 then EmptyString
     else "E" ++ (if x <? 0 then EmptyString else "+") ++ str_of_Z x).
Proof. by destruct (x =? 0). Qed.

Lemma suffix_inj x y :
  (if x =? 0 then EmptyString else "E" ++ (if x <? 0 then EmptyString else "+") ++ str_of_Z x) =
  (if y =? 0 then EmptyString else "E" ++ (if y <? 0 then EmptyString else "+") ++ str_of_Z y) ->
  x = y.
Proof.
  destruct (Z.eqb_spec x 0), (Z.eqb_spec y 0); try done; [congruence|].
  intros H. apply String_tail in H.
  assert (Hneg : forall z, 0 <= z -> exists a k, str_of_Z z = String a k /\ is_digit a = true).
  { intros z Hz. unfold str_of_Z. destruct (Z.ltb_spec z 0); [lia|].
    destruct (str_of_N_spec (Z.abs_N z)) as (Hd & Hne & _).
    destruct (str_of_N (Z.abs_N z)); [done|]. eexists _, _. split; [done|by inversion Hd]. }
  assert (Hminus : forall z, z < 0 -> exists k, str_of_Z z = String "-" k).
  { intros z Hz. unfold str_of_Z. destruct (Z.ltb_spec z 0); [by eexists|lia]. }
  destruct (Z.ltb_spec x 0) as [Hx|Hx], (Z.ltb_spec y 0) as [Hy|Hy].
  - by destruct (str_of_Z_inj x y EmptyString EmptyString I I) as [-> _]; [rewrite !append_nil_r|].
  - destruct (Hminus x Hx) as (k & E). cbn [append] in H. rewrite E in H. discriminate.
  - destruct (Hminus y Hy) as (k & E). cbn [append] in H. rewrite E in H. discriminate.
  - apply String_tail in H.
    by destruct (str_of_Z_inj x y EmptyString EmptyString I I) as [-> _]; [rewrite !append_nil_r|].
Qed.

Lemma decimal_str_inj_finite d d' :
  finite d -> finite d' -> decimal_str d = decimal_str d' -> d = d'.
Proof.
  destruct d as [s c e| |]; [|done..]. destruct d' as [s' c' e'| |]; [|done..]. intros _ _ H.
  destruct (decimal_str_parts s c e) as (b & x & E & B & (a & k & Ea & Ha) & V & ->).
  destruct (decimal_str_parts s' c' e') as (b' & x' & E' & B' & (a' & k' & Ea' & Ha') & V' & ->).
  rewrite E, E' in H. apply sign_split in H as [<- H]; cycle 1.
  { subst b. by eexists _, _. }
  { subst b'. by eexists _, _. }
  apply (split_unique is_body) in H as [<- H]; [|done..|apply suffix_starts|apply suffix_starts].
  apply suffix_inj in H as <-. congruence.
Qed.

Lemma decimal_str_finite_head s c e t :
  is_digit t = false -> t <> "-"%char -> forall k s', decimal_str (Fin s c e) <> sign_text s' ++ String t k.
Proof.
  intros Ht Hm k s' H. destruct (decimal_str_parts s c e) as (b & x & E & _ & (a & l & -> & Ha) & _).
  rewrite E in H. destruct s, s'; cbn in H; injection H as H; subst; try done; cbn in *; congruence.
Qed.

(** [str] of a [Decimal] is injective: sign, coefficient and exponent. *)
Theorem decimal_str_inj d d' : decimal_str d = decimal_str d' -> d = d'.
Proof.
  destruct d as [s c e|s|], d' as [s' c' e'|s'|]; intros H.
  - by apply decimal_str_inj_finite.
  - by apply (decimal_str_finite_head _ _ _ "I" eq_refl ltac:(done)) in H.
  - by apply (decimal_str_finite_head _ _ _ "N" eq_refl ltac:(done) "aN" false) in H.
  - symmetry in H. by apply (decimal_str_finite_head _ _ _ "I" eq_refl ltac:(done)) in H.
  - by destruct s, s'.
  - by destruct s.
  - symmetry in H. by apply (decimal_str_finite_head _ _ _ "N" eq_refl ltac:(done) "aN" false) in H.
  - by destruct s'.
  - done.
Qed.

(** ** UUIDs *)

Lemma hex_char_inj m n : (m < 16)%N -> (n < 16)%N -> hex_char m = hex_char n -> m = n.
Proof.
  intros Hm Hn H. apply (f_equal code) in H. unfold hex_char in H.
  destruct (N.ltb_spec m 10), (N.ltb_spec n 10); rewrite !code_of_ascii in H by lia; lia.
Qed.

Lemma hex_digits_inj w m n acc acc' :
  hex_digits w m acc = hex_digits w n acc' -> (m mod 16 ^ N.of_nat w = n mod 16 ^ N.of_nat w)%N /\ acc = acc'.
Proof.
  revert m n acc acc'. induction w as [|w IH]; intros m n acc acc' H; cbn [hex_digits] in H.
  - change (16 ^ N.of_nat 0)%N with 1%N. by rewrite !N.mod_1_r.
  - apply IH in H as [H E]. injection E as E ->.
    apply hex_char_inj in E; [|by apply N.mod_lt..]. split; [|done].
    rewrite Nat2N.inj_succ, N.pow_succ_r', !N.Div0.mod_mul_r. congruence.
Qed.

Lemma hex_digits_length w n acc :
  String.length (hex_digits w n acc) = (w + String.length acc)%nat.
Proof. revert n acc. induction w as [|w IH]; intros n acc; [done|]. cbn. rewrite IH. cbn. lia. Qed.

Lemma hex_of_N_split w m n k k' :
  hex_of_N w m ++ k = hex_of_N w n ++ k' ->
  (m mod 16 ^ N.of_nat w = n mod 16 ^ N.of_nat w)%N /\ k = k'.
Proof.
  unfold hex_of_N. intros H.
  apply append_inj_length in H as [H ->]; [|by rewrite !hex_digits_length].
  by apply hex_digits_inj in H as [H _].
Qed.

(** [str] of a [UUID] is injective on 128 bits. *)
Theorem uuid_str_inj u v : (u < 2 ^ 128)%N -> (v < 2 ^ 128)%N -> uuid_str u = uuid_str v -> u = v.
Proof.
  unfold uuid_str. intros Hu Hv H.
  apply hex_of_N_split in H as [E1 H]. apply String_tail, hex_of_N_split in H as [E2 H].
  apply String_tail, hex_of_N_split in H as [E3 H]. apply String_tail, hex_of_N_split in H as [E4 H].
  apply String_tail in H. rewrite <- (append_nil_r (hex_of_N 12 u)), <- (append_nil_r (hex_of_N 12 v)) in H.
  apply hex_of_N_split in H as [E5 _].
  rewrite !N.shiftr_div_pow2 in *.
  change (16 ^ N.of_nat 8)%N with (2 ^ 32)%N in *. change (16 ^ N.of_nat 4)%N with (2 ^ 16)%N in *.
  change (16 ^ N.of_nat 12)%N with (2 ^ 48)%N in *.
  assert (Hstep : forall a b i j, (u / 2 ^ a = v / 2 ^ a)%N -> (b + j = a)%N -> i = (2 ^ j)%N ->
            ((u / 2 ^ b) mod i = (v / 2 ^ b) mod i)%N -> (u / 2 ^ b = v / 2 ^ b)%N).
  { intros a b i j E Hj -> Hb.
    rewrite (N.div_mod' (u / 2 ^ b) (2 ^ j)), (N.div_mod' (v / 2 ^ b) (2 ^ j)), Hb.
    rewrite !N.Div0.div_div, <- N.pow_add_r, Hj, E. done. }
  assert (T : (u / 2 ^ 128 = v / 2 ^ 128)%N) by (rewrite !N.div_small by done; done).
  apply (Hstep 128 96 (2 ^ 32) 32)%N in T; [|done..].
  apply (Hstep 96 80 (2 ^ 16) 16)%N in T; [|done..].
  apply (Hstep 80 64 (2 ^ 16) 16)%N in T; [|done..].
  apply (Hstep 64 48 (2 ^ 16) 16)%N in T; [|done..].
  apply (Hstep 48 0 (2 ^ 48) 48)%N in T; [|done..|by rewrite !N.div_1_r].
  by rewrite !N.div_1_r in T.
Qed.
