(* ===== verification/PyParse.v ===== *)
(** * Reading texts back

    The inverse conversions of Python the repository uses on stored texts: [UUID(s)],
    [Decimal(s)], [date] and [datetime.fromisoformat(s)] and [int(s)].  They are defined
    on what the corresponding conversions to text write, and a little more: an upper case
    hexadecimal digit, any separator before the time, the suffix [Z]; every other text
    raises.  Each reads back what was written. *)

From Stdlib Require Import ZArith Lia String Ascii List Bool.
From stdpp Require Import base strings option tactics list.
From S2P Require Import Prelude PyText PyTextFacts PyDecimal PyDecimalFacts PyTime PyHash Contracts DecimalText.

#[local] Open Scope string_scope.
#[local] Open Scope Z_scope.
#[local] Arguments String.append !_ _ / : simpl nomatch.

(** ** Characters and digits *)

Definition expect (c : ascii) (l : list ascii) : option (list ascii) :=
  match l with x :: l => if Ascii.eqb x c then Some l else None | [] => None end.

(** Exactly [n] decimal digits, and what follows them. *)
Fixpoint digits_n (n : nat) (acc : N) (l : list ascii) : option (N * list ascii) :=
  match n with
  | O => Some (acc, l)
  | S n =>
      match l with
      | c :: l => if is_digit c then digits_n n (10 * acc + (code c - 48))%N l else None
      | [] => None
      end
  end.

Definition digits (n : nat) (l : list ascii) : option (Z * list ascii) :=
  '(v, l) ← digits_n n 0 l; Some (Z.of_N v, l).

(** The value of a hexadecimal digit. *)
Definition hex_value (c : ascii) : option N :=
  let n := code c in
  if is_digit c then Some (n - 48)%N
  else if ((97 <=? n) && (n <=? 102))%N then Some (n - 87)%N
  else if ((65 <=? n) && (n <=? 70))%N then Some (n - 55)%N
  else None.

Fixpoint hex_number (acc : N) (l : list ascii) : option N :=
  match l with
  | [] => Some acc
  | c :: l => v ← hex_value c; hex_number (16 * acc + v)%N l
  end.

(** ** [UUID(s)]: 32 hexadecimal digits, hyphens aside *)

Definition uuid_of_str (s : string) : M uuid :=
  let l := List.filter (fun c => negb (Ascii.eqb c "-")) (chars s) in
  let malformed := Raise (ValueError "badly formed hexadecimal UUID string") in
  if (length l =? 32)%nat
  then match hex_number 0 l with Some u => Ok u | None => malformed end
  else malformed.

(** ** [int(s)]: an optional sign and digits *)

Definition split_sign (l : list ascii) : bool * list ascii :=
  match l with
  | c :: l' => if Ascii.eqb c "-" then (true, l') else if Ascii.eqb c "+" then (false, l') else (false, l)
  | [] => (false, l)
  end.

Definition natural (l : list ascii) : option N :=
  match l with [] => None | _ => N_of_digits 0 (of_chars l) end.

Definition integer (l : list ascii) : option Z :=
  let '(neg, l) := split_sign l in
  n ← natural l; Some (if neg : bool then - Z.of_N n else Z.of_N n).

Definition int_of_str (s : string) : M Z :=
  match integer (chars s) with
  | Some z => Ok z
  | None => Raise (ValueError "invalid literal for int() with base 10")
  end.

(** ** [Decimal(s)] *)

Fixpoint take_while (p : ascii -> bool) (l : list ascii) : list ascii :=
  match l with c :: l => if p c then c :: take_while p l else [] | [] => [] end.

(** Digits with at most one point: the coefficient they spell and the places. *)
Definition decimal_body (l : list ascii) : option (N * Z) :=
  let body := of_chars l in
  c ← natural (chars (undot body)); Some (c, places body).

Definition decimal_exponent (l : list ascii) : option Z :=
  match l with
  | [] => Some 0
  | c :: l => if Ascii.eqb c "E" || Ascii.eqb c "e" then integer l else None
  end.

Definition decimal_of_chars (l : list ascii) : option decimal :=
  let '(neg, l) := split_sign l in
  if decide (of_chars l = "Infinity") then Some (Inf neg)
  else if decide (of_chars l = "NaN") then Some NaN
  else
    let body := take_while is_body l in
    '(c, k) ← decimal_body body;
    x ← decimal_exponent (drop (length body) l);
    Some (Fin neg c (x - k)).

Definition decimal_of_str (s : string) : M decimal :=
  match decimal_of_chars (chars s) with
  | Some d => Ok d
  | None => Raise InvalidOperation
  end.

(** ** [datetime.fromisoformat(s)] *)

Definition parse_date (l : list ascii) : option (Z * Z * Z * list ascii) :=
  '(y, l) ← digits 4 l; l ← expect "-" l;
  '(m, l) ← digits 2 l; l ← expect "-" l;
  '(d, l) ← digits 2 l; Some (y, m, d, l).

(** An optional fraction of six digits. *)
Definition parse_fraction (l : list ascii) : option (Z * list ascii) :=
  match expect "." l with Some l => digits 6 l | None => Some (0, l) end.

(** [HH:MM:SS[.ffffff]] as microseconds. *)
Definition parse_time (l : list ascii) : option (Z * list ascii) :=
  '(h, l) ← digits 2 l; l ← expect ":" l;
  '(mi, l) ← digits 2 l; l ← expect ":" l;
  '(s, l) ← digits 2 l;
  '(us, l) ← parse_fraction l;
  if (h <? 24) && (mi <? 60) && (s <? 60)
  then Some (((h * 60 + mi) * 60 + s) * 1000000 + us, l) else None.

(** [HH:MM[:SS[.ffffff]]] as microseconds. *)
Definition parse_offset_time (l : list ascii) : option (Z * list ascii) :=
  '(h, l) ← digits 2 l; l ← expect ":" l;
  '(mi, l) ← digits 2 l;
  '(s, l) ← match expect ":" l with Some l => digits 2 l | None => Some (0, l) end;
  '(us, l) ← parse_fraction l;
  if (h <? 24) && (mi <? 60) && (s <? 60)
  then Some (((h * 60 + mi) * 60 + s) * 1000000 + us, l) else None.

Definition parse_offset (l : list ascii) : option (option Z) :=
  match l with
  | [] => Some None
  | c :: l =>
      if Ascii.eqb c "Z" then match l with [] => Some (Some 0) | _ => None end
      else
        '(o, rest) ← parse_offset_time l;
        match rest with
        | [] => if Ascii.eqb c "+" then Some (Some o)
                else if Ascii.eqb c "-" then Some (Some (- o)) else None
        | _ => None
        end
  end.

Definition iso_invalid {A} : M A := Raise (ValueError "Invalid isoformat string").

(** A date, and after any separator a time and an offset. *)
Definition datetime_fromisoformat (s : string) : M datetime :=
  match parse_date (chars s) with
  | None => iso_invalid
  | Some (y, m, d, rest) =>
      day ← make_date y m d;
      match rest with
      | [] => Ok (mk_datetime (day * day_us) None)
      | _ :: rest =>
          match ('(us, rest) ← parse_time rest; o ← parse_offset rest; Some (us, o)) with
          | Some (us, o) => Ok (mk_datetime (day * day_us + us) o)
          | None => iso_invalid
          end
      end
  end.

(** ** Digits are read back *)

Lemma digits_n_app s acc v k :
  N_of_digits acc s = Some v -> digits_n (String.length s) acc (chars s ++ k)%list = Some (v, k).
Proof.
  revert acc. induction s as [|c s IH]; intros acc H; cbn in *; [by injection H as ->|].
  destruct (is_digit c); [by apply IH|done].
Qed.

Lemma digits_zfill w n k :
  (0 < w)%nat -> 0 <= n < 10 ^ Z.of_nat w ->
  digits w (chars (zfill w (Z.to_N n)) ++ k)%list = Some (n, k).
Proof.
  intros Hw Hn. unfold digits.
  assert (L : String.length (zfill w (Z.to_N n)) = w).
  { apply zfill_length; [done|]. apply N2Z.inj_lt. rewrite N2Z.inj_pow, nat_N_Z, Z2N.id; lia. }
  rewrite <- L at 1. rewrite (digits_n_app _ _ (Z.to_N n)) by apply N_of_digits_zfill.
  cbn. by rewrite Z2N.id by lia.
Qed.

Lemma natural_digits s : s <> EmptyString -> natural (chars s) = N_of_digits 0 s.
Proof. intros H. unfold natural. destruct s; [done|]. cbn [chars]. by rewrite <- (of_chars_chars (String a s)). Qed.

Lemma split_sign_digit c l : is_digit c = true -> split_sign (c :: l) = (false, c :: l).
Proof.
  intros H%is_digit_spec. cbn.
  destruct (Ascii.eqb_spec c "-") as [->|]; [cbn in H; lia|].
  destruct (Ascii.eqb_spec c "+") as [->|]; [cbn in H; lia|]. done.
Qed.

Lemma natural_str n : natural (chars (str_of_N n)) = Some n.
Proof.
  destruct (str_of_N_spec n) as (_ & Hne & _). rewrite natural_digits by done. apply N_of_digits_str.
Qed.

Lemma digits_head n : exists c l, chars (str_of_N n) = c :: l /\ is_digit c = true.
Proof.
  destruct (str_of_N_spec n) as (Hd & Hne & _). unfold all_digits in Hd.
  destruct (str_of_N n) as [|c s]; [done|]. exists c, (chars s). split; [done|by inversion Hd].
Qed.

Lemma integer_str z : integer (chars (str_of_Z z)) = Some z.
Proof.
  unfold integer, str_of_Z. destruct (Z.ltb_spec z 0).
  - change (split_sign _) with (true, chars (str_of_N (Z.abs_N z))). cbn beta iota.
    rewrite natural_str. cbn. f_equal. lia.
  - destruct (digits_head (Z.abs_N z)) as (c & l & E & Hc).
    pose proof (natural_str (Z.abs_N z)) as En. rewrite E in *. rewrite split_sign_digit by done.
    rewrite En. cbn. f_equal. lia.
Qed.

Lemma int_of_str_of_Z z : int_of_str (str_of_Z z) = Ok z.
Proof. unfold int_of_str. by rewrite integer_str. Qed.

(** ** Decimals are read back *)

Lemma take_while_app p l k :
  Forall (fun c => p c = true) l -> match k with c :: _ => p c = false | [] => True end ->
  take_while p (l ++ k) = l.
Proof.
  intros Hl Hk. induction Hl as [|c l Hc Hl IH]; cbn.
  - destruct k as [|c k]; cbn; [done|by rewrite Hk].
  - by rewrite Hc, IH.
Qed.

Lemma decimal_exponent_str x :
  decimal_exponent (chars
    (if x =? 0 then EmptyString
     else "E" ++ (if x <? 0 then EmptyString else "+") ++ str_of_Z x)) = Some x.
Proof.
  destruct (Z.eqb_spec x 0) as [->|Hx]; [done|].
  cbn [append chars decimal_exponent]. change (Ascii.eqb "E" "E") with true. cbn [orb].
  destruct (Z.ltb_spec x 0); [apply integer_str|].
  unfold integer.
  change (split_sign (chars ("+" ++ str_of_Z x))) with (false, chars (str_of_Z x)).
  unfold str_of_Z. destruct (Z.ltb_spec x 0); [lia|]. rewrite natural_str. cbn. f_equal. lia.
Qed.

Lemma decimal_of_str_of_decimal d : decimal_of_str (decimal_str d) = Ok d.
Proof.
  unfold decimal_of_str. destruct d as [s c e|[]|]; [|reflexivity..].
  destruct (decimal_str_parts s c e) as (body & x & -> & Hb & (a & t & Ea & Ha) & Hv & ->).
  set (suffix := if x =? 0 then _ else _).
  assert (Es : split_sign (chars (sign_text s ++ body ++ suffix)) = (s, chars (body ++ suffix))).
  { destruct s; [done|]. rewrite Ea. by apply split_sign_digit. }
  unfold decimal_of_chars. rewrite Es, of_chars_chars, Ea. cbn [append].
  rewrite !decide_False by (intros [= -> _]; cbn in Ha; discriminate).
  change (String a (t ++ suffix)) with (String a t ++ suffix). rewrite <- Ea, chars_app.
  rewrite take_while_app; cycle 1; [done| |].
  { pose proof (suffix_starts x) as H. fold suffix in H. by destruct suffix. }
  unfold decimal_body. rewrite of_chars_chars, natural_digits, Hv; cycle 1.
  { rewrite Ea. cbn. by rewrite (digit_not_dot a Ha). }
  cbn. rewrite drop_app_length. subst suffix. by rewrite decimal_exponent_str.
Qed.

(** ** UUIDs are read back *)

Lemma hex_char_value n : (n < 16)%N -> hex_value (hex_char n) = Some n.
Proof.
  intros Hn. assert (H : N.of_nat (N.to_nat n) = n) by lia. rewrite <- H.
  assert (L : (N.to_nat n < 16)%nat) by lia. revert L. generalize (N.to_nat n). clear.
  intros k L. do 16 (destruct k as [|k]; [reflexivity|]). lia.
Qed.

Lemma hex_char_not_hyphen n : (n < 16)%N -> Ascii.eqb (hex_char n) "-" = false.
Proof.
  intros Hn. apply Ascii.eqb_neq. intros E. pose proof (hex_char_value n Hn) as H. rewrite E in H.
  discriminate.
Qed.

Lemma hex_number_digits w n acc s :
  hex_number acc (chars (hex_digits w n s))
  = hex_number (acc * 16 ^ N.of_nat w + n mod 16 ^ N.of_nat w)%N (chars s).
Proof.
  revert n s. induction w as [|w IH]; intros n s.
  - cbn [hex_digits]. change (16 ^ N.of_nat 0)%N with 1%N. rewrite N.mod_1_r, N.mul_1_r, N.add_0_r. done.
  - cbn [hex_digits]. rewrite IH. cbn [chars hex_number].
    rewrite hex_char_value by (by apply N.mod_lt). cbn [mbind option_bind].
    rewrite Nat2N.inj_succ, N.pow_succ_r', N.Div0.mod_mul_r. f_equal. lia.
Qed.

Lemma hex_of_N_hex w n :
  List.filter (fun c => negb (Ascii.eqb c "-")) (chars (hex_of_N w n)) = chars (hex_of_N w n).
Proof.
  unfold hex_of_N.
  assert (H : forall s, List.filter (fun c => negb (Ascii.eqb c "-")) (chars s) = chars s ->
    List.filter (fun c => negb (Ascii.eqb c "-")) (chars (hex_digits w n s)) = chars (hex_digits w n s));
    [|by apply H].
  revert n. induction w as [|w IH]; intros n s Hs; [done|]. cbn [hex_digits]. apply IH.
  cbn [chars List.filter]. rewrite hex_char_not_hyphen by (by apply N.mod_lt). cbn [negb]. by rewrite Hs.
Qed.

Lemma hex_number_app w n acc k :
  hex_number acc (chars (hex_of_N w n) ++ k)%list
  = hex_number (acc * 16 ^ N.of_nat w + n mod 16 ^ N.of_nat w)%N k.
Proof.
  rewrite <- (chars_of_chars k), <- chars_app. unfold hex_of_N.
  assert (E : forall s, hex_digits w n s = hex_digits w n EmptyString ++ s).
  { revert n. induction w as [|w IH]; intros n s; [done|]. cbn [hex_digits].
    rewrite IH, (IH _ (String _ EmptyString)), append_assoc. done. }
  rewrite <- E, hex_number_digits. done.
Qed.

Lemma uuid_chunks u :
  (u < 2 ^ 128)%N ->
  (((((0 * 2 ^ 32 + (u / 2 ^ 96) mod 2 ^ 32) * 2 ^ 16 + (u / 2 ^ 80) mod 2 ^ 16) * 2 ^ 16
     + (u / 2 ^ 64) mod 2 ^ 16) * 2 ^ 16 + (u / 2 ^ 48) mod 2 ^ 16) * 2 ^ 48 + u mod 2 ^ 48)%N = u.
Proof.
  intros Hu.
  assert (S : forall b j, ((u / 2 ^ (b + j)) * 2 ^ j + (u / 2 ^ b) mod 2 ^ j = u / 2 ^ b)%N).
  { intros b j. rewrite N.pow_add_r, <- N.Div0.div_div, N.mul_comm. symmetry. apply N.div_mod'. }
  pose proof (S 96 32)%N as S1. pose proof (S 80 16)%N as S2. pose proof (S 64 16)%N as S3.
  pose proof (S 48 16)%N as S4. pose proof (S 0 48)%N as S5.
  change (96 + 32)%N with 128%N in S1. rewrite (N.div_small u (2 ^ 128)) in S1 by done.
  rewrite S1. change (80 + 16)%N with 96%N in S2. rewrite S2.
  change (64 + 16)%N with 80%N in S3. rewrite S3. change (48 + 16)%N with 64%N in S4. rewrite S4.
  change (0 + 48)%N with 48%N in S5. change (2 ^ 0)%N with 1%N in S5. rewrite N.div_1_r in S5. exact S5.
Qed.

Lemma uuid_of_str_of_uuid u : (u < 2 ^ 128)%N -> uuid_of_str (uuid_str u) = Ok u.
Proof.
  intros Hu. unfold uuid_of_str, uuid_str.
  assert (E : List.filter (fun c => negb (Ascii.eqb c "-"))
      (chars (hex_of_N 8 (N.shiftr u 96) ++ "-" ++ hex_of_N 4 (N.shiftr u 80) ++ "-" ++
              hex_of_N 4 (N.shiftr u 64) ++ "-" ++ hex_of_N 4 (N.shiftr u 48) ++ "-" ++ hex_of_N 12 u))
    = (chars (hex_of_N 8 (N.shiftr u 96)) ++ chars (hex_of_N 4 (N.shiftr u 80)) ++
       chars (hex_of_N 4 (N.shiftr u 64)) ++ chars (hex_of_N 4 (N.shiftr u 48)) ++
       chars (hex_of_N 12 u))%list).
  { rewrite !chars_app, !List.filter_app, !hex_of_N_hex. done. }
  rewrite E, !length_app, !length_chars. unfold hex_of_N at 1 2 3 4 5. rewrite !hex_digits_length.
  cbn [Nat.add String.length Nat.eqb].
  rewrite !hex_number_app. rewrite <- (List.app_nil_r (chars (hex_of_N 12 u))), hex_number_app.
  cbn [hex_number]. rewrite !N.shiftr_div_pow2. f_equal.
  change (16 ^ N.of_nat 8)%N with (2 ^ 32)%N. change (16 ^ N.of_nat 4)%N with (2 ^ 16)%N.
  change (16 ^ N.of_nat 12)%N with (2 ^ 48)%N. by apply uuid_chunks.
Qed.

(** ** Dates and times are read back *)

(** The days of the years 1 to 9999. *)
Definition day_in_range (n : date) : Prop := 0 <= n < 3652059.

(** What a [datetime] object can be: a wall clock from the year 1 to 9999 and an offset
    of less than a day. *)
Definition valid_datetime (t : datetime) : Prop :=
  0 <= dt_local t < max_local /\
  match dt_off t with Some o => Z.abs o < day_us | None => True end.

Lemma civil_in_range n :
  day_in_range n ->
  let '(y, m, d) := civil_from_days n in
  1 <= y <= 9999 /\ 1 <= m <= 12 /\ 1 <= d <= 31 /\ make_date y m d = Ok n.
Proof.
  unfold day_in_range. intros Hn. pose proof (civil_days_roundtrip n) as H.
  destruct (civil_from_days n) as [[y m] d]. destruct H as (E & Hm & Hd).
  pose proof (days_from_civil_year y m d (conj Hm Hd)) as Hy. rewrite E in Hy.
  assert (1 <= y <= 9999).
  { split.
    - destruct (Z.le_gt_cases 1 y) as [|Hlt]; [done|].
      pose proof (days_before_year_mono y 1 ltac:(lia)) as H.
      change (days_before_year 1) with 0 in H. lia.
    - destruct (Z.le_gt_cases y 9999) as [|Hlt]; [done|].
      pose proof (days_before_year_mono 9999 y ltac:(lia)) as H.
      change (days_before_year (9999 + 1)) with 3652059 in H. lia. }
  assert (d <= 31) by (unfold days_in_month in Hd; repeat case_match; lia).
  split_and!; try lia. unfold make_date. rewrite !(proj2 (Z.leb_le _ _)) by lia. cbn [andb]. by rewrite E.
Qed.

Lemma parse_date_text n k :
  day_in_range n ->
  let '(y, m, d) := civil_from_days n in
  parse_date (chars (date_isoformat n) ++ k)%list = Some (y, m, d, k).
Proof.
  intros Hn. pose proof (civil_in_range n Hn) as H. unfold date_isoformat.
  destruct (civil_from_days n) as [[y m] d]. destruct H as (Hy & Hm & Hd & _).
  unfold parse_date. rewrite !chars_app, <- !(assoc (++)%list), digits_zfill by lia.
  change (chars "-") with ["-"%char]. cbn [mbind option_bind expect app]. rewrite Ascii.eqb_refl.
  cbn [mbind option_bind]. rewrite digits_zfill by lia. cbn [mbind option_bind expect app].
  rewrite Ascii.eqb_refl. cbn [mbind option_bind]. rewrite digits_zfill by lia. done.
Qed.

(** The parts of a number of microseconds. *)
Lemma clock_parts a :
  0 <= a < day_us ->
  let h := a / 3600000000 in let mi := (a / 60000000) mod 60 in
  let s := (a / 1000000) mod 60 in let us := a mod 1000000 in
  0 <= h < 24 /\ 0 <= mi < 60 /\ 0 <= s < 60 /\ 0 <= us < 1000000 /\
  ((h * 60 + mi) * 60 + s) * 1000000 + us = a.
Proof. unfold day_us. cbv zeta. intros H. dlia. Qed.

Definition no_point (k : list ascii) : Prop :=
  match k with c :: _ => Ascii.eqb c "." = false | [] => True end.

Lemma parse_fraction_text f k :
  0 <= f < 1000000 -> no_point k ->
  parse_fraction (chars (if f =? 0 then EmptyString else String "." (zfill 6 (Z.to_N f))) ++ k)%list
  = Some (f, k).
Proof.
  intros Hf Hk. unfold parse_fraction. destruct (Z.eqb_spec f 0) as [->|].
  - cbn [chars app]. destruct k as [|c k]; [done|]. cbn in *. by rewrite Hk.
  - cbn [chars app expect]. rewrite Ascii.eqb_refl. apply digits_zfill; lia.
Qed.

Lemma parse_time_text us k :
  0 <= us < day_us -> no_point k ->
  parse_time (chars (time_text us ++
    (if us mod 1000000 =? 0 then EmptyString else String "." (zfill 6 (Z.to_N (us mod 1000000)))))
    ++ k)%list = Some (us, k).
Proof.
  intros Hus Hk. destruct (clock_parts us Hus) as (H1 & H2 & H3 & H4 & E). cbv zeta in *.
  set (f := us mod 1000000) in *. set (s := (us / 1000000) mod 60) in *.
  set (mi := (us / 60000000) mod 60) in *. set (h := us / 3600000000) in *.
  unfold parse_time, time_text. fold f s mi h. set (frac := if f =? 0 then _ else _).
  rewrite !chars_app, <- !(assoc (++)%list).
  rewrite digits_zfill by lia. change (chars ":") with [":"%char].
  cbn [mbind option_bind expect app]. rewrite Ascii.eqb_refl. cbn [mbind option_bind].
  rewrite digits_zfill by lia. cbn [mbind option_bind expect app]. rewrite Ascii.eqb_refl.
  cbn [mbind option_bind]. rewrite digits_zfill by lia. cbn [mbind option_bind]. subst frac.
  rewrite parse_fraction_text by done. cbn [mbind option_bind].
  rewrite !(proj2 (Z.ltb_lt _ _)) by lia. cbn [andb]. by rewrite E.
Qed.

Lemma parse_offset_text o :
  Z.abs o < day_us -> parse_offset (chars (offset_text o)) = Some (Some o).
Proof.
  intros Ho. destruct (clock_parts (Z.abs o) ltac:(lia)) as (H1 & H2 & H3 & H4 & E). cbv zeta in *.
  unfold offset_text. set (a := Z.abs o) in *.
  set (f := a mod 1000000) in *. set (s := (a / 1000000) mod 60) in *.
  set (mi := (a / 60000000) mod 60) in *. set (h := a / 3600000000) in *.
  set (secs := if (s =? 0) && (f =? 0) then _ else _).
  assert (T : parse_offset_time (chars (zfill 2 (Z.to_N h) ++ ":" ++ zfill 2 (Z.to_N mi) ++ secs))
              = Some (a, [])).
  { unfold parse_offset_time. rewrite !chars_app, digits_zfill by lia.
    change (chars ":") with [":"%char]. cbn [mbind option_bind expect app]. rewrite Ascii.eqb_refl.
    cbn [mbind option_bind]. rewrite digits_zfill by lia. cbn [mbind option_bind]. subst secs.
    rewrite <- (List.app_nil_r (chars _)).
    destruct ((s =? 0) && (f =? 0)) eqn:Esf.
    - apply andb_true_iff in Esf as [?%Z.eqb_eq ?%Z.eqb_eq]. cbn. rewrite !(proj2 (Z.ltb_lt _ _)) by lia. cbn. f_equal. f_equal. lia.
    - cbn [chars app expect]. rewrite Ascii.eqb_refl, chars_app, <- (assoc (++)%list), digits_zfill by lia.
      cbn [mbind option_bind].
      etransitivity; [apply (f_equal (option_bind _ _ _)), parse_fraction_text; [lia|done]|].
      cbn. rewrite !(proj2 (Z.ltb_lt _ _)) by lia. cbn. f_equal. f_equal. lia. }
  destruct (Z.ltb_spec o 0).
  - change (chars ("-" ++ ?k)) with ("-"%char :: chars k). cbn [parse_offset].
    change (Ascii.eqb "-" "Z") with false. cbn iota. rewrite T. cbn. f_equal. f_equal. lia.
  - change (chars ("+" ++ ?k)) with ("+"%char :: chars k). cbn [parse_offset].
    change (Ascii.eqb "+" "Z") with false. cbn iota. rewrite T. cbn. f_equal. f_equal. lia.
Qed.

(** A date alone is its midnight. *)
Lemma date_reads n :
  day_in_range n -> datetime_fromisoformat (date_isoformat n) = Ok (mk_datetime (n * day_us) None).
Proof.
  intros Hn. unfold datetime_fromisoformat. rewrite <- (List.app_nil_r (chars _)).
  pose proof (parse_date_text n [] Hn) as P. pose proof (civil_in_range n Hn) as C.
  destruct (civil_from_days n) as [[y m] d]. destruct C as (_ & _ & _ & C).
  rewrite P. cbn [mbind]. by rewrite C.
Qed.

Lemma datetime_reads t : valid_datetime t -> datetime_fromisoformat (dt_isoformat t) = Ok t.
Proof.
  intros [Hl Ho]. unfold datetime_fromisoformat, dt_isoformat, isoformat_with, dt_date.
  set (n := dt_local t / day_us). set (us := dt_local t mod day_us).
  assert (Hn : day_in_range n) by (unfold day_in_range, n, max_local, day_us in *; dlia).
  assert (Hus : 0 <= us < day_us) by (apply Z.mod_pos_bound; done).
  assert (E : n * day_us + us = dt_local t) by (unfold n, us, day_us; dlia).
  rewrite !chars_app.
  pose proof (parse_date_text n) as P. pose proof (civil_in_range n Hn) as C.
  match goal with |- context [parse_date (_ ++ ?k)%list] => specialize (P k Hn) end.
  destruct (civil_from_days n) as [[y m] d]. destruct C as (_ & _ & _ & C). rewrite P. clear P.
  cbn [mbind M_bind]. rewrite C. cbn [mbind M_bind].
  change (chars "T") with ["T"%char]. cbn [app]. rewrite (assoc (++)%list), <- chars_app.
  assert (Hk : no_point (chars match dt_off t with Some o => offset_text o | None => EmptyString end)).
  { destruct (dt_off t) as [o|]; [|done]. unfold offset_text. by destruct (o <? 0). }
  cbn [negb andb].
  pose proof (parse_time_text us _ Hus Hk) as T.
  rewrite T. cbn [mbind option_bind].
  assert (O : parse_offset (chars match dt_off t with Some o => offset_text o | None => EmptyString end)
              = Some (dt_off t)).
  { destruct (dt_off t) as [o|]; [by apply parse_offset_text|done]. }
  rewrite O. cbn. rewrite E. by destruct t.
Qed.
