(* ===== verification/ExecModels.v ===== *)
(** * Execution models

    [backend/app/execution/models.py] with the constructors' checks, and the execution
    lineage of an experiment ([backend/app/experiment_lineage.py]). *)

From Stdlib Require Import ZArith Lia String Ascii List Bool QArith Lqa.
From stdpp Require Import base strings option tactics list.
From S2P Require Import Prelude PyText PyDecimal PyDecimalFacts PyTime PyHash Contracts OrderLimits.

#[local] Open Scope Z_scope.

(** ** Enumerations *)

Inductive ExecutionAction := EX_ENTRY | EX_CLOSE | EX_ROLL.
Inductive Actor := OWNER | SCHEDULER.
Inductive IntentState := APPROVED | CLAIMED | TERMINAL.
Inductive ExecutionPendingCode :=
  | ADVANCE | LOOKUP_DEFERRED | LOOKUP_ABSENT | CANCEL_LOOKUP_DEFERRED | CANCEL_PENDING
  | CANCEL_NOT_TERMINAL.

#[export] Instance ExecutionAction_eq_dec : EqDecision ExecutionAction.
Proof. solve_decision. Defined.
#[export] Instance Actor_eq_dec : EqDecision Actor.
Proof. solve_decision. Defined.
#[export] Instance IntentState_eq_dec : EqDecision IntentState.
Proof. solve_decision. Defined.

#[export] Instance ExecutionAction_value : StrEnum ExecutionAction := fun a =>
  match a with EX_ENTRY => "ENTRY" | EX_CLOSE => "CLOSE" | EX_ROLL => "ROLL" end%string.

#[export] Instance ExecutionPendingCode_value : StrEnum ExecutionPendingCode := fun c =>
  match c with
  | ADVANCE => "EXECUTION_ADVANCE_PENDING"
  | LOOKUP_DEFERRED => "AMBIGUOUS_BROKER_LOOKUP_DEFERRED"
  | LOOKUP_ABSENT => "AMBIGUOUS_BROKER_LOOKUP_ABSENT"
  | CANCEL_LOOKUP_DEFERRED => "CANCEL_OUTCOME_LOOKUP_DEFERRED"
  | CANCEL_PENDING => "CANCEL_OUTCOME_PENDING"
  | CANCEL_NOT_TERMINAL => "CANCEL_OUTCOME_NOT_TERMINAL"
  end%string.

(** [raise ExecutionPending(code)]; it is an [ExecutionBlocked] too. *)
Definition pending {A} (code : ExecutionPendingCode) : M A :=
  Raise (ExecutionPending (enum_value code)).

(** [except ExecutionBlocked as error]: the handler with [str(error)]. *)
Definition except_blocked {A} (m : M A) (handler : string -> M A) : M A :=
  try_with m (fun e =>
    match e with
    | ExecutionBlocked code | ExecutionPending code => handler code
    | e => Raise e
    end).

(** ** Experiment lineage *)

Record ExperimentExecutionLineage := mk_ExperimentExecutionLineage {
  xl_experiment_id : uuid;
  xl_source_definition_hash : string;
  xl_protocol_hash : string;
}.

Definition make_ExperimentExecutionLineage (self : ExperimentExecutionLineage)
    : M ExperimentExecutionLineage :=
  when negb (is_hash (xl_source_definition_hash self) && is_hash (xl_protocol_hash self))
  then_ Raise (ValueError "EXPERIMENT_EXECUTION_LINEAGE_INVALID");;
  Ok self.

Definition optional_experiment_execution_lineage (experiment_id : option uuid)
    (source_definition_hash protocol_hash : option string)
    : M (option ExperimentExecutionLineage) :=
  match experiment_id, source_definition_hash, protocol_hash with
  | None, None, None => Ok None
  | Some id, Some source, Some protocol =>
      lineage ← make_ExperimentExecutionLineage (mk_ExperimentExecutionLineage id source protocol);
      Ok (Some lineage)
  | _, _, _ => Raise (ValueError "EXPERIMENT_EXECUTION_LINEAGE_INCOMPLETE")
  end.

(** ** The order envelope *)

Record OrderLegIntent := mk_OrderLegIntent {
  li_symbol : string;
  li_intent : PositionIntent;
  li_ratio : Z;
}.

#[export] Instance OrderLegIntent_eq_dec : EqDecision OrderLegIntent.
Proof. solve_decision. Defined.

Record OrderEnvelope := mk_OrderEnvelope {
  oe_action : ExecutionAction;
  oe_authorization_certificate_id : uuid;
  oe_policy_hash : string;
  oe_account_fingerprint : string;
  oe_position_or_book_fingerprint : string;
  oe_legs : list OrderLegIntent;
  oe_quantity : Z;
  oe_minimum_limit : decimal;
  oe_maximum_limit : decimal;
  oe_approved_max_loss : decimal;
  oe_event_key : string;
  oe_trading_day : date;
  oe_market_session_id : option uuid;
  oe_quoted_relative_spread : option decimal;
  oe_maximum_relative_spread : option decimal;
  oe_incremental_debit : option decimal;
  oe_maximum_incremental_debit : option decimal;
}.

(** [d != d.quantize(Decimal("0.0000000001"))] *)
Definition finer_than_10_places (d : decimal) : M bool :=
  q ← quantize ROUND_HALF_EVEN d (-10); Ok (negb (d ==. q)).

Definition roll_values (self : OrderEnvelope) : list (option decimal) :=
  [oe_quoted_relative_spread self; oe_maximum_relative_spread self;
   oe_incremental_debit self; oe_maximum_incremental_debit self].

Definition not_finite (value : option decimal) : bool :=
  match value with Some d => negb (is_finite d) | None => true end.

(** The roll authority: a session and four finite values in range. *)
Definition roll_authority_out_of_bounds (self : OrderEnvelope) : M bool :=
  bool_decide (oe_market_session_id self = None)
  ||| existsb not_finite (roll_values self)
  ||| match oe_quoted_relative_spread self, oe_maximum_relative_spread self,
            oe_incremental_debit self, oe_maximum_incremental_debit self with
      | Some quoted, Some maximum, Some debit, Some maximum_debit =>
          not ((Dint 0 <=. quoted) &&& (quoted <=. maximum) &&& (maximum <. Dint 1))
          ||| finer_than_10_places quoted
          ||| finer_than_10_places maximum
          ||| not ((Dint 0 <=. debit) &&& (debit <=. maximum_debit)
                   &&& (maximum_debit <=. oe_approved_max_loss self))
      | _, _, _, _ => Raise TypeError
      end.

Definition make_OrderEnvelope (self : OrderEnvelope) : M OrderEnvelope :=
  let expected_legs := if decide (oe_action self = EX_ROLL) then 4%nat else 2%nat in
  when negb (length (oe_legs self) =? expected_legs)%nat
       || negb ((1 <=? oe_quantity self) && (oe_quantity self <=? MAX_STRUCTURAL_OPTION_QUANTITY))
  then_ Raise (ValueError "ORDER_STRUCTURE_OUT_OF_BOUNDS");;
  when oe_minimum_limit self >. oe_maximum_limit self
  then_ Raise (ValueError "PRICE_ENVELOPE_INVALID");;
  when not ((Dint 0 <. oe_approved_max_loss self)
            &&& (oe_approved_max_loss self <=. MAX_STRUCTURAL_APPROVED_RISK))
  then_ Raise (ValueError "APPROVED_RISK_OUT_OF_BOUNDS");;
  if decide (oe_action self = EX_ROLL) then
    when roll_authority_out_of_bounds self
    then_ Raise (ValueError "ROLL_AUTHORITY_OUT_OF_BOUNDS");;
    Ok self
  else
    when bool_decide (is_Some (oe_market_session_id self))
         || existsb (fun value => bool_decide (is_Some value)) (roll_values self)
    then_ Raise (ValueError "ROLL_AUTHORITY_UNEXPECTED");;
    Ok self.

(** Equality of optional decimals and of envelopes: Python's [==] on the fields. *)
Definition deq_opt (a b : option decimal) : bool :=
  match a, b with
  | Some a, Some b => a ==. b
  | None, None => true
  | _, _ => false
  end.

Definition envelope_eq (a b : OrderEnvelope) : bool :=
  bool_decide (oe_action a = oe_action b)
  && (oe_authorization_certificate_id a =? oe_authorization_certificate_id b)%N
  && String.eqb (oe_policy_hash a) (oe_policy_hash b)
  && String.eqb (oe_account_fingerprint a) (oe_account_fingerprint b)
  && String.eqb (oe_position_or_book_fingerprint a) (oe_position_or_book_fingerprint b)
  && bool_decide (oe_legs a = oe_legs b)
  && (oe_quantity a =? oe_quantity b)
  && (oe_minimum_limit a ==. oe_minimum_limit b)
  && (oe_maximum_limit a ==. oe_maximum_limit b)
  && (oe_approved_max_loss a ==. oe_approved_max_loss b)
  && String.eqb (oe_event_key a) (oe_event_key b)
  && (oe_trading_day a =? oe_trading_day b)
  && bool_decide (oe_market_session_id a = oe_market_session_id b)
  && deq_opt (oe_quoted_relative_spread a) (oe_quoted_relative_spread b)
  && deq_opt (oe_maximum_relative_spread a) (oe_maximum_relative_spread b)
  && deq_opt (oe_incremental_debit a) (oe_incremental_debit b)
  && deq_opt (oe_maximum_incremental_debit a) (oe_maximum_incremental_debit b).

(** ** Intents, attempts and observations *)

Record ExecutionIntent := mk_ExecutionIntent {
  ei_intent_id : uuid;
  ei_account_role : AccountRole;
  ei_envelope : OrderEnvelope;
  ei_digest : string;
  ei_state : IntentState;
  ei_claimed_by : option Actor;
  ei_claimed_at : option datetime;
  ei_first_fill_consumed : bool;
  ei_claim_token : option uuid;
  ei_claim_generation : Z;
  ei_execution_epoch : Z;
  ei_heartbeat_at : option datetime;
  ei_lease_expires_at : option datetime;
}.

Record AccountExecutionLock := mk_AccountExecutionLock {
  el_locked : bool;
  el_reason : option string;
  el_locked_at : option datetime;
}.

Record OrderAttempt := mk_OrderAttempt {
  oa_intent_id : uuid;
  oa_ordinal : Z;
  oa_client_order_id : string;
  oa_request_hash : string;
  oa_state : string;
  oa_replaces_client_order_id : option string;
  oa_provider_order_id : option string;
  oa_filled_quantity : Z;
  oa_quantity : Z;
  oa_fill_cash_flow : option decimal;
  oa_limit_price : option decimal;
  oa_quote_hash : option string;
  oa_quote_source_timestamps : list datetime;
  oa_quote_retrieved_at : option datetime;
  oa_timing_authority_at : option datetime;
  oa_prior_request_hash : option string;
}.

Record BrokerResult := mk_BrokerResult {
  br_provider_order_id : string;
  br_state : string;
  br_filled_quantity : Z;
  br_quantity : Z;
  br_fill_cash_flow : option decimal;
}.

Record PositionGreekObservation := mk_PositionGreekObservation {
  pg_symbol : string;
  pg_signed_quantity : decimal;
  pg_multiplier : Z;
  pg_delta : decimal;
  pg_gamma : decimal;
  pg_theta_per_day : decimal;
  pg_vega_per_iv_point : decimal;
  pg_feed : string;
  pg_source_timestamp : datetime;
  pg_retrieved_at : datetime;
  pg_source_hash : string;
}.

Definition make_PositionGreekObservation (self : PositionGreekObservation)
    : M PositionGreekObservation :=
  when negb (str_nonempty (pg_symbol self))
       || (64 <? str_len (pg_symbol self))
       || str_any is_space (pg_symbol self)
       || negb (forallb is_finite
            [pg_signed_quantity self; pg_delta self; pg_gamma self; pg_theta_per_day self;
             pg_vega_per_iv_point self])
       || (pg_signed_quantity self ==. Dint 0)
       || negb (pg_multiplier self =? 100)
  then_ Raise (ValueError "POSITION_GREEK_OBSERVATION_INVALID");;
  when negb (String.eqb (pg_feed self) "indicative")
  then_ Raise (ValueError "POSITION_GREEK_FEED_INVALID");;
  when negb (is_aware (pg_source_timestamp self))
       ||| negb (is_aware (pg_retrieved_at self))
       ||| dt_lt (pg_retrieved_at self) (pg_source_timestamp self)
  then_ Raise (ValueError "POSITION_GREEK_TIMESTAMP_INVALID");;
  when negb (is_hash (pg_source_hash self))
  then_ Raise (ValueError "POSITION_GREEK_SOURCE_HASH_INVALID");;
  Ok self.

Record Reconciliation := mk_Reconciliation {
  rn_terminal : bool;
  rn_remainder_absent : bool;
  rn_matches_expected : bool;
  rn_assignment_suspected : bool;
  rn_actual_exposure : option GreekExposure;
}.

(** ** Authorizations and certificates *)

Record EntryApprovalAuthorization := mk_EntryApprovalAuthorization {
  ea_approval_id : uuid;
  ea_thesis_version_id : uuid;
  ea_account_role : AccountRole;
  ea_policy_hash : string;
  ea_book_fingerprint : string;
  ea_envelope_hash : string;
  ea_approved_max_loss : decimal;
  ea_quantity : Z;
  ea_valid_from : datetime;
  ea_expires_at : datetime;
  ea_valid : bool;
  ea_experiment_lineage : option ExperimentExecutionLineage;
}.

Record AssessmentCertificate := mk_AssessmentCertificate {
  ct_certificate_id : uuid;
  ct_assessment_id : uuid;
  ct_thesis_version_id : uuid;
  ct_account_role : AccountRole;
  ct_action : ExecutionAction;
  ct_position_fingerprint : string;
  ct_envelope_hash : string;
  ct_approved_max_loss : decimal;
  ct_quantity : Z;
  ct_expected_after_exposure : option GreekExposure;
  ct_policy_hash : string;
  ct_created_at : datetime;
  ct_expires_at : datetime;
  ct_valid : bool;
  ct_experiment_lineage : option ExperimentExecutionLineage;
}.

Record ExecutionCertificate := mk_ExecutionCertificate {
  xc_certificate_id : uuid;
  xc_intent_id : uuid;
  xc_entry_approval_id : option uuid;
  xc_assessment_certificate_id : option uuid;
  xc_execution_status : string;
  xc_attempt_ids : list string;
  xc_actual_exposure : option GreekExposure;
  xc_reconciliation_checks : list string;
  xc_created_at : datetime;
  xc_reconciliation_id : option uuid;
  xc_reconciliation_hash : option string;
  xc_last_observation_hash : option string;
}.

Definition make_ExecutionCertificate (self : ExecutionCertificate) : M ExecutionCertificate :=
  when Bool.eqb (bool_decide (xc_entry_approval_id self = None))
         (bool_decide (xc_assessment_certificate_id self = None))
  then_ Raise (ValueError "EXACTLY_ONE_AUTHORIZATION_ORIGIN_REQUIRED");;
  match xc_reconciliation_id self, xc_reconciliation_hash self, xc_last_observation_hash self with
  | None, None, None | Some _, Some _, Some _ => Ok self
  | _, _, _ => Raise (ValueError "FINALIZATION_PROVENANCE_INCOMPLETE")
  end.

(** ** What an accepted envelope guarantees *)

Lemma between_finite d n :
  Dint 0 <. d = Ok true -> d <=. Dint n = Ok true ->
  finite d /\ (0 < dval d <= inject_Z n)%Q.
Proof.
  intros H0 Hn. destruct d as [s c e|[]|]; [|done..].
  split; [done|]. apply dlt_true in H0; [|done..]. apply dle_true in Hn; [|done..].
  rewrite dval_Dint in *. by split.
Qed.

(** The bounds of the four values of a roll authority. *)
Definition roll_bounds (e : OrderEnvelope) : Prop :=
  exists session quoted maximum debit maximum_debit,
    oe_market_session_id e = Some session /\
    oe_quoted_relative_spread e = Some quoted /\ oe_maximum_relative_spread e = Some maximum /\
    oe_incremental_debit e = Some debit /\ oe_maximum_incremental_debit e = Some maximum_debit /\
    Forall finite [quoted; maximum; debit; maximum_debit] /\
    (0 <= dval quoted <= dval maximum)%Q /\ (dval maximum < 1)%Q /\
    (0 <= dval debit <= dval maximum_debit)%Q /\
    (dval maximum_debit <= dval (oe_approved_max_loss e))%Q.

Lemma roll_authority_bounds e :
  finite (oe_approved_max_loss e) -> roll_authority_out_of_bounds e = Ok false -> roll_bounds e.
Proof.
  unfold roll_authority_out_of_bounds, roll_values, roll_bounds. intros Fl H. inv_ok H.
  destruct (oe_market_session_id e) as [session|]; [|done].
  repeat match goal with E : Forall _ (_ :: _) |- _ => apply Forall_cons_iff in E as [? E] end.
  destruct (oe_quoted_relative_spread e) as [quoted|], (oe_maximum_relative_spread e) as [maximum|],
    (oe_incremental_debit e) as [debit|], (oe_maximum_incremental_debit e) as [maximum_debit|];
    try discriminate. cbn [not_finite] in *. inv_all.
  exists session, quoted, maximum, debit, maximum_debit. dec_facts.
  split_and!; try done. by repeat constructor.
Qed.

Lemma make_OrderEnvelope_loss e e' :
  make_OrderEnvelope e = Ok e' ->
  finite (oe_approved_max_loss e) /\ (0 < dval (oe_approved_max_loss e) <= 100000)%Q.
Proof.
  unfold make_OrderEnvelope. intros H. inv_ok H.
  match goal with A : Dint 0 <. _ = Ok true, B : _ <=. _ = Ok true |- _ =>
    exact (between_finite _ _ A B) end.
Qed.

(** C20: Every order envelope that exists is within the structural bounds.  The constructor
    returns the envelope unchanged, and only when it has the legs of its action (four
    for a roll, two otherwise), a quantity from 1 to 100, a price range that is not
    empty, a finite approved loss above zero and at most 100000, and a roll authority
    exactly when it is a roll, with all its values finite and in range: the quoted
    spread at most the maximum, itself below 1, and the incremental debit at most its
    maximum, itself at most the approved loss. *)
Theorem order_envelope_invariant e e' :
  make_OrderEnvelope e = Ok e' ->
  e' = e /\
  length (oe_legs e) = (if decide (oe_action e = EX_ROLL) then 4 else 2)%nat /\
  1 <= oe_quantity e <= 100 /\
  oe_minimum_limit e >. oe_maximum_limit e = Ok false /\
  finite (oe_approved_max_loss e) /\ (0 < dval (oe_approved_max_loss e) <= 100000)%Q /\
  (oe_action e = EX_ROLL -> roll_bounds e) /\
  (oe_action e <> EX_ROLL ->
     oe_market_session_id e = None /\ Forall (fun value => value = None) (roll_values e)).
Proof.
  intros H. destruct (make_OrderEnvelope_loss _ _ H) as [Fl Vl].
  unfold make_OrderEnvelope in H. inv_ok H. zbool.
  unfold MAX_STRUCTURAL_OPTION_QUANTITY in *.
  destruct (decide (oe_action e = EX_ROLL)) as [Ea|Ea]; inv_all; split_and!; try done; try lia.
  - intros _. by apply roll_authority_bounds.
  - intros _. split; [by apply eq_None_not_Some|].
    eapply Forall_impl; [eassumption|]. cbn beta. intros x Hx%bool_decide_eq_false.
    by apply eq_None_not_Some.
Qed.

Definition sample_roll : OrderEnvelope :=
  {| oe_action := EX_ROLL; oe_authorization_certificate_id := 9%N; oe_policy_hash := "p";
     oe_account_fingerprint := "a"; oe_position_or_book_fingerprint := "b";
     oe_legs := [mk_OrderLegIntent "SPY261016C00450000" SELL_TO_CLOSE 1;
                 mk_OrderLegIntent "SPY261016C00455000" BUY_TO_CLOSE 1;
                 mk_OrderLegIntent "SPY261120C00450000" BUY_TO_OPEN 1;
                 mk_OrderLegIntent "SPY261120C00455000" SELL_TO_OPEN 1];
     oe_quantity := 2; oe_minimum_limit := D 5 (-2); oe_maximum_limit := D 25 (-2);
     oe_approved_max_loss := Dint 50; oe_event_key := "FOMC"; oe_trading_day := 739000;
     oe_market_session_id := Some 3%N; oe_quoted_relative_spread := Some (D 5 (-2));
     oe_maximum_relative_spread := Some (D 10 (-2)); oe_incremental_debit := Some (Dint 20);
     oe_maximum_incremental_debit := Some (Dint 50) |}.

Lemma order_envelope_invariant_witness :
  make_OrderEnvelope sample_roll = Ok sample_roll /\ roll_bounds sample_roll.
Proof.
  split; [vm_compute; reflexivity|].
  destruct (order_envelope_invariant sample_roll sample_roll) as (_ & _ & _ & _ & _ & _ & H & _);
    [vm_compute; reflexivity|exact (H eq_refl)].
Defined.
