(* ===== verification/Identity.v ===== *)
(** * Execution identity

    [backend/app/execution/identity.py]: the canonical texts whose SHA-256 identifies
    an intent, an order envelope and a broker request, and the client order id of an
    attempt.  The theorems say what the identities bind: a client order id determines
    the day, the action, the digest prefix and the attempt it was made from; an intent
    digest determines the authorised order. *)

From Stdlib Require Import ZArith Lia String Ascii List Bool.
From stdpp Require Import base strings option tactics list.
From S2P Require Import Prelude PyText PyTextFacts PyDecimal PyDecimalFacts PyTime PyHash Contracts DecimalText ExecModels.

#[local] Open Scope string_scope.
#[local] Arguments String.append !_ _ / : simpl nomatch.
#[local] Open Scope Z_scope.

(** [json.dumps(..., sort_keys=True, separators=(",", ":"))] hashed. *)
Definition json_sha256 (payload : json) : string := sha256_hex (json_dumps payload).

Definition json_or_none {A} (text : A -> string) (value : option A) : json :=
  match value with Some v => JStr (text v) | None => JNull end.

Definition _decimal_or_none (value : option decimal) : json := json_or_none decimal_str value.

Definition legs_payload (legs : list OrderLegIntent) : json :=
  JArr (map (fun leg =>
    JObj [("symbol", JStr (li_symbol leg)); ("intent", JStr (enum_value (li_intent leg)));
          ("ratio", JInt (li_ratio leg))]) legs).

Definition _roll_authority_payload (envelope : OrderEnvelope) : list (string * json) :=
  [("market_session_id", json_or_none uuid_str (oe_market_session_id envelope));
   ("quoted_relative_spread", _decimal_or_none (oe_quoted_relative_spread envelope));
   ("maximum_relative_spread", _decimal_or_none (oe_maximum_relative_spread envelope));
   ("incremental_debit", _decimal_or_none (oe_incremental_debit envelope));
   ("maximum_incremental_debit", _decimal_or_none (oe_maximum_incremental_debit envelope))].

(** [if envelope.action is ExecutionAction.ROLL: payload.update(...)]; the names are new. *)
Definition roll_update (envelope : OrderEnvelope) : list (string * json) :=
  if decide (oe_action envelope = EX_ROLL) then _roll_authority_payload envelope else [].

Definition intent_payload (envelope : OrderEnvelope) : json :=
  JObj
    ([("account_fingerprint", JStr (oe_account_fingerprint envelope));
      ("policy_hash", JStr (oe_policy_hash envelope));
      ("authorization_certificate_id",
         JStr (uuid_str (oe_authorization_certificate_id envelope)));
      ("action", JStr (enum_value (oe_action envelope)));
      ("legs", legs_payload (oe_legs envelope));
      ("quantity", JInt (oe_quantity envelope));
      ("minimum_limit", JStr (decimal_str (oe_minimum_limit envelope)));
      ("maximum_limit", JStr (decimal_str (oe_maximum_limit envelope)));
      ("position_or_book_fingerprint", JStr (oe_position_or_book_fingerprint envelope))]
     ++ roll_update envelope)%list.

Definition intent_digest (envelope : OrderEnvelope) : string :=
  json_sha256 (intent_payload envelope).

Definition envelope_payload (envelope : OrderEnvelope) : json :=
  JObj
    ([("action", JStr (enum_value (oe_action envelope)));
      ("legs", legs_payload (oe_legs envelope));
      ("quantity", JInt (oe_quantity envelope));
      ("minimum_limit", JStr (decimal_str (oe_minimum_limit envelope)));
      ("maximum_limit", JStr (decimal_str (oe_maximum_limit envelope)));
      ("approved_max_loss", JStr (decimal_str (oe_approved_max_loss envelope)));
      ("event_key", JStr (oe_event_key envelope));
      ("trading_day", JStr (date_isoformat (oe_trading_day envelope)))]
     ++ roll_update envelope)%list.

Definition order_envelope_hash (envelope : OrderEnvelope) : string :=
  json_sha256 (envelope_payload envelope).

Definition in_range4 (attempt : Z) : bool := (0 <=? attempt) && (attempt <? 4).

Definition action_code (action : ExecutionAction) : string :=
  match action with EX_ENTRY => "e" | EX_CLOSE => "c" | EX_ROLL => "r" end.

Definition client_order_id (trading_day : date) (action : ExecutionAction) (digest : string)
    (attempt : Z) : M string :=
  when negb (str_len digest =? 64) || negb (in_range4 attempt)
  then_ Raise (ValueError "INVALID_CLIENT_ORDER_ID_INPUT");;
  Ok ("ad-" ++ date_compact trading_day ++ "-" ++ action_code action ++ "-"
        ++ str_take 24 digest ++ "-a" ++ str_of_Z attempt).

Definition attempt_request_hash (digest : string) (ordinal : Z) (client_id : string)
    (limit : decimal) (replaces_client_id : option string) : M string :=
  when negb (str_len digest =? 64) || negb (in_range4 ordinal) || (64 <? str_len client_id)
  then_ Raise (ValueError "INVALID_ATTEMPT_HASH_INPUT");;
  Ok (json_sha256 (JObj
    [("intent_digest", JStr digest);
     ("ordinal", JInt ordinal);
     ("client_order_id", JStr client_id);
     ("limit", JStr (decimal_str limit));
     ("replaces_client_order_id", json_or_none (fun s => s) replaces_client_id)])).

Definition replacement_request_hash (digest : string) (ordinal : Z) (client_id : string)
    (limit : decimal) (replaces_client_id prior_request_hash quote_hash : string)
    (quote_source_timestamps : list datetime) (quote_retrieved_at timing_authority_at : datetime)
    : M string :=
  normalized ← normalize limit;
  Ok (json_sha256 (JObj
    [("domain", JStr "alphadecay.quote-replacement-request.v1");
     ("intent_digest", JStr digest);
     ("ordinal", JInt ordinal);
     ("client_order_id", JStr client_id);
     ("limit", JStr (format_f normalized));
     ("replaces_client_order_id", JStr replaces_client_id);
     ("prior_request_hash", JStr prior_request_hash);
     ("quote_hash", JStr quote_hash);
     ("quote_source_timestamps", JArr (map (fun value => JStr (dt_isoformat value))
                                           quote_source_timestamps));
     ("quote_retrieved_at", JStr (dt_isoformat quote_retrieved_at));
     ("timing_authority_at", JStr (dt_isoformat timing_authority_at))])).

(** ** What an identity binds *)

Lemma str_take_length n s : (n <= String.length s)%nat -> String.length (str_take n s) = n.
Proof.
  unfold str_take. revert n. induction s as [|c s IH]; intros [|n] H; cbn in *; try lia; try done.
  f_equal. apply IH. lia.
Qed.

(** The years whose ["%Y%m%d"] has eight digits. *)
Definition four_digit_year (d : date) : Prop :=
  let '(y, _, _) := civil_from_days d in 1000 <= y <= 9999.

Lemma str_of_N_zfill w n : String.length (str_of_N n) = w -> str_of_N n = zfill w n.
Proof. intros H. unfold zfill. by rewrite H, Nat.sub_diag. Qed.

Lemma four_digits y : 1000 <= y <= 9999 -> String.length (str_of_N (Z.to_N y)) = 4%nat.
Proof.
  intros H. destruct (str_of_N_spec (Z.to_N y)) as (Hd & Hne & L & _).
  specialize (L 4%nat ltac:(lia) ltac:(change (10 ^ N.of_nat 4)%N with 10000%N; lia)).
  pose proof (N_of_digits_str (Z.to_N y)) as E.
  destruct (N_of_digits_some 0 (str_of_N (Z.to_N y)) Hd) as (n & En & Hn). rewrite En in E.
  injection E as E. rewrite N.mul_0_l, N.add_0_l in E. subst n.
  destruct (Nat.le_gt_cases 4 (String.length (str_of_N (Z.to_N y)))) as [|Hlt]; [lia|].
  assert (10 ^ N.of_nat (String.length (str_of_N (Z.to_N y))) <= 10 ^ 3)%N
    by (apply N.pow_le_mono_r; lia).
  change (10 ^ 3)%N with 1000%N in *. lia.
Qed.

Lemma zfill_inj w m n :
  (0 < w)%nat -> (m < 10 ^ N.of_nat w)%N -> (n < 10 ^ N.of_nat w)%N -> forall k k',
  zfill w m ++ k = zfill w n ++ k' -> m = n /\ k = k'.
Proof.
  intros Hw Hm Hn k k' H. apply append_inj_length in H as [H ->]; [|by rewrite !zfill_length].
  split; [|done]. apply (f_equal (N_of_digits 0)) in H. rewrite !N_of_digits_zfill in H. congruence.
Qed.

Lemma date_compact_spec d :
  four_digit_year d -> exists y m x,
    date_compact d = zfill 4 y ++ zfill 2 m ++ zfill 2 x /\
    (y < 10 ^ 4)%N /\ (m < 10 ^ 2)%N /\ (x < 10 ^ 2)%N /\
    days_from_civil (Z.of_N y) (Z.of_N m) (Z.of_N x) = d.
Proof.
  unfold four_digit_year, date_compact. pose proof (civil_days_roundtrip d) as Hr.
  destruct (civil_from_days d) as [[y m] x]. destruct Hr as (E & Hm & Hx). intros Hy.
  assert (x <= 31) by (unfold days_in_month in Hx; repeat case_match; lia).
  exists (Z.to_N y), (Z.to_N m), (Z.to_N x). rewrite !Z2N.id by lia.
  rewrite (str_of_N_zfill 4 (Z.to_N y)) by by apply four_digits.
  change (10 ^ 4)%N with 10000%N. change (10 ^ 2)%N with 100%N. split_and!; try done; lia.
Qed.

Lemma date_compact_split d d' k k' :
  four_digit_year d -> four_digit_year d' -> date_compact d ++ k = date_compact d' ++ k' ->
  d = d' /\ k = k'.
Proof.
  intros (y & m & x & -> & Hy & Hm & Hx & <-)%date_compact_spec
         (y' & m' & x' & -> & Hy' & Hm' & Hx' & <-)%date_compact_spec H.
  rewrite !append_assoc in H.
  apply zfill_inj in H as [-> H]; [|lia|done..].
  apply zfill_inj in H as [-> H]; [|lia|done..].
  by apply zfill_inj in H as [-> ->]; [|lia|done..].
Qed.

Lemma date_compact_length d : four_digit_year d -> String.length (date_compact d) = 8%nat.
Proof.
  intros (y & m & x & -> & Hy & Hm & Hx & _)%date_compact_spec.
  rewrite !length_append, !zfill_length; (done || lia).
Qed.

Lemma in_range4_cases a : in_range4 a = true -> a = 0 \/ a = 1 \/ a = 2 \/ a = 3.
Proof. unfold in_range4. rewrite andb_true_iff, Z.leb_le, Z.ltb_lt. lia. Qed.

Lemma client_order_id_length d action digest attempt id :
  four_digit_year d -> client_order_id d action digest attempt = Ok id -> str_len id = 41.
Proof.
  unfold client_order_id, str_len. intros Hd H. inv_ok H. zbool.
  match goal with E : in_range4 _ = true |- _ => apply in_range4_cases in E as Ha end.
  repeat (cbn [String.length]; rewrite length_append).
  rewrite date_compact_length, str_take_length by (done || lia).
  destruct action, Ha as [->|[->|[->| ->]]]; reflexivity.
Qed.

(** Equal client order ids come from the same day, action and ordinal, and from digests with the
    same first 24 characters. *)
Lemma client_order_id_parts day day' action action' digest digest' attempt attempt' id :
  four_digit_year day -> four_digit_year day' ->
  client_order_id day action digest attempt = Ok id ->
  client_order_id day' action' digest' attempt' = Ok id ->
  day = day' /\ action = action' /\ attempt = attempt' /\ 0 <= attempt < 4 /\
  str_take 24 digest = str_take 24 digest' /\ str_len id = 41.
Proof.
  intros Hd Hd' H H'. pose proof (client_order_id_length _ _ _ _ _ Hd H) as Hlen.
  unfold client_order_id in *. inv_ok H. inv_ok H'. zbool.
  apply in_range4_cases in H1 as Ha, H3 as Ha'. unfold str_len in *.
  assert (L : String.length (str_take 24 digest) = 24%nat) by (apply str_take_length; lia).
  assert (L' : String.length (str_take 24 digest') = 24%nat) by (apply str_take_length; lia).
  match goal with E : _ = _ |- _ => apply date_compact_split in E as [-> E]; [|done..];
    apply String_tail in E;
    assert (action' = action) as -> by (destruct action', action; first [reflexivity|discriminate E]);
    apply append_cancel, String_tail in E;
    apply append_inj_length in E as [-> E]; [|congruence]; do 2 apply String_tail in E end.
  split_and!; try done; try lia.
  - destruct (str_of_Z_inj attempt attempt' EmptyString EmptyString I I) as [-> _]; [|done].
    by rewrite !append_nil_r.
Qed.

(** ** The order that two hashes bind *)

(** The texts that are hashed. *)
Definition intent_text (envelope : OrderEnvelope) : string := json_dumps (intent_payload envelope).
Definition envelope_text (envelope : OrderEnvelope) : string :=
  json_dumps (envelope_payload envelope).

(** The values a Python [UUID] and [date] can have. *)
Definition is_uuid (u : uuid) : Prop := (u < 2 ^ 128)%N.
Definition is_date (d : date) : Prop := let '(y, _, _) := civil_from_days d in 1 <= y <= 9999.

Definition wf_envelope (e : OrderEnvelope) : Prop :=
  make_OrderEnvelope e = Ok e /\ is_uuid (oe_authorization_certificate_id e) /\
  is_date (oe_trading_day e) /\
  match oe_market_session_id e with Some u => is_uuid u | None => True end.

Lemma date_isoformat_inj d d' : is_date d -> is_date d' -> date_isoformat d = date_isoformat d' -> d = d'.
Proof.
  unfold is_date, date_isoformat.
  pose proof (civil_days_roundtrip d) as Hr. destruct (civil_from_days d) as [[y m] x].
  pose proof (civil_days_roundtrip d') as Hr'. destruct (civil_from_days d') as [[y' m'] x'].
  destruct Hr as (<- & Hm & Hx), Hr' as (<- & Hm' & Hx'). intros Hy Hy' H.
  assert (x <= 31) by (unfold days_in_month in Hx; repeat case_match; lia).
  assert (x' <= 31) by (unfold days_in_month in Hx'; repeat case_match; lia).
  apply zfill_inj in H as [Ey H]; [|lia|change (10 ^ _)%N with 10000%N; lia..].
  apply String_tail, zfill_inj in H as [Em H]; [|lia|change (10 ^ _)%N with 100%N; lia..].
  rewrite <- (append_nil_r (zfill 2 (Z.to_N x))), <- (append_nil_r (zfill 2 (Z.to_N x'))) in H.
  apply String_tail, zfill_inj in H as [Ex _]; [|lia|change (10 ^ _)%N with 100%N; lia..].
  f_equal; lia.
Qed.

Lemma json_or_none_inj {A} (text : A -> string) (P : A -> Prop) a b :
  (forall x y, P x -> P y -> text x = text y -> x = y) ->
  match a with Some x => P x | None => True end -> match b with Some x => P x | None => True end ->
  json_sort (json_or_none text a) = json_sort (json_or_none text b) -> a = b.
Proof. intros Ht. destruct a, b; cbn; try done. intros Ha Hb [= E]. f_equal. auto. Qed.

Lemma legs_payload_inj l l' :
  json_sort (legs_payload l) = json_sort (legs_payload l') -> l = l'.
Proof.
  unfold legs_payload. cbn [json_sort]. intros [= H]. rewrite !map_map in H.
  revert l' H. induction l as [|[s i r] l IH]; intros [|[s' i' r'] l'] H; try done.
  cbn in H. injection H as Hi Hr Hs H. f_equal; [|by apply IH]. subst. f_equal.
  by destruct i, i'.
Qed.

Lemma roll_fields_none a :
  make_OrderEnvelope a = Ok a -> oe_action a <> EX_ROLL ->
  oe_market_session_id a = None /\ oe_quoted_relative_spread a = None /\
  oe_maximum_relative_spread a = None /\ oe_incremental_debit a = None /\
  oe_maximum_incremental_debit a = None.
Proof.
  unfold make_OrderEnvelope, roll_values. intros H Ha. rewrite !(decide_False _ _ Ha) in H.
  inv_ok H.
  assert (Hnone : forall x : option decimal, bool_decide (is_Some x) = false -> x = None)
    by (intros x Hx%bool_decide_eq_false; by apply eq_None_not_Some).
  repeat match goal with E : Forall _ _ |- _ => inversion E; clear E; subst end.
  split_and!; [by apply eq_None_not_Some|apply Hnone; done..].
Qed.

Lemma uuid_or_none_inj a b :
  match a with Some u => is_uuid u | None => True end ->
  match b with Some u => is_uuid u | None => True end ->
  json_sort (json_or_none uuid_str a) = json_sort (json_or_none uuid_str b) -> a = b.
Proof. apply json_or_none_inj. exact uuid_str_inj. Qed.

Lemma decimal_or_none_inj a b :
  json_sort (_decimal_or_none a) = json_sort (_decimal_or_none b) -> a = b.
Proof.
  apply (json_or_none_inj decimal_str (fun _ => True)); [auto using decimal_str_inj|by destruct a|by destruct b].
Qed.

Lemma roll_get name e l :
  oe_action e = EX_ROLL -> get name l = None ->
  get name (l ++ roll_update e)%list = get name (_roll_authority_payload e).
Proof.
  unfold roll_update. intros Ha. rewrite decide_True by done.
  induction l as [|[k x] l IH]; [done|]. cbn [get app]. by destruct (String.eqb k name).
Qed.

Lemma enum_action_inj a b : @enum_value ExecutionAction _ a = enum_value b -> a = b.
Proof. by destruct a, b. Qed.

Lemma roll_update_inj a b l l' :
  wf_envelope a -> wf_envelope b -> oe_action a = oe_action b ->
  (forall name, get name (_roll_authority_payload a) <> None -> get name l = None /\ get name l' = None) ->
  json_sort (JObj (l ++ roll_update a)) = json_sort (JObj (l' ++ roll_update b)) ->
  oe_market_session_id a = oe_market_session_id b /\
  oe_quoted_relative_spread a = oe_quoted_relative_spread b /\
  oe_maximum_relative_spread a = oe_maximum_relative_spread b /\
  oe_incremental_debit a = oe_incremental_debit b /\
  oe_maximum_incremental_debit a = oe_maximum_incremental_debit b.
Proof.
  intros (Ha & _ & _ & Ua) (Hb & _ & _ & Ub) E Hn H.
  destruct (decide (oe_action a = EX_ROLL)) as [Er|Er].
  - assert (G : forall name, get name (_roll_authority_payload a) <> None ->
        option_map json_sort (get name (_roll_authority_payload a)) =
        option_map json_sort (get name (_roll_authority_payload b))).
    { intros name Hname. destruct (Hn name Hname).
      rewrite <- (roll_get name a l), <- (roll_get name b l') by congruence.
      by apply json_sort_get. }
    pose proof (G "market_session_id" ltac:(discriminate)) as G1.
    pose proof (G "quoted_relative_spread" ltac:(discriminate)) as G2.
    pose proof (G "maximum_relative_spread" ltac:(discriminate)) as G3.
    pose proof (G "incremental_debit" ltac:(discriminate)) as G4.
    pose proof (G "maximum_incremental_debit" ltac:(discriminate)) as G5.
    cbv [get _roll_authority_payload String.eqb Ascii.eqb Bool.eqb option_map] in *.
    injection G1 as G1%uuid_or_none_inj; [|done..]. injection G2 as G2%decimal_or_none_inj.
    injection G3 as G3%decimal_or_none_inj. injection G4 as G4%decimal_or_none_inj.
    injection G5 as G5%decimal_or_none_inj. done.
  - pose proof (roll_fields_none a Ha Er) as (-> & -> & -> & -> & ->).
    pose proof (roll_fields_none b Hb ltac:(congruence)) as (-> & -> & -> & -> & ->). done.
Qed.

Lemma json_text l l' name s s' :
  json_sort (JObj l) = json_sort (JObj l') ->
  get name l = Some (JStr s) -> get name l' = Some (JStr s') -> s = s'.
Proof. intros H E E'. apply (json_sort_get _ _ name) in H. rewrite E, E' in H. by injection H. Qed.

Lemma json_number l l' name n n' :
  json_sort (JObj l) = json_sort (JObj l') ->
  get name l = Some (JInt n) -> get name l' = Some (JInt n') -> n = n'.
Proof. intros H E E'. apply (json_sort_get _ _ name) in H. rewrite E, E' in H. by injection H. Qed.

Ltac text_field name H E :=
  epose proof (json_text _ _ name _ _ H eq_refl eq_refl) as E.

Lemma roll_names name e l l' :
  get name (_roll_authority_payload e) <> None ->
  Forall (fun n => get n l = None /\ get n l' = None)
    ["market_session_id"; "quoted_relative_spread"; "maximum_relative_spread";
     "incremental_debit"; "maximum_incremental_debit"] ->
  get name l = None /\ get name l' = None.
Proof.
  unfold _roll_authority_payload. cbn [get]. intros H Hl. rewrite Forall_forall in Hl. apply Hl.
  repeat match type of H with context [String.eqb ?n name] =>
    destruct (String.eqb_spec n name) as [<-|_]; [by repeat constructor|] end. done.
Qed.

(** The orders agree in everything the intent digest covers: all but the approved loss, the
    event and the trading day. *)
Record same_intent (a b : OrderEnvelope) : Prop := {
  si_action : oe_action a = oe_action b;
  si_certificate : oe_authorization_certificate_id a = oe_authorization_certificate_id b;
  si_policy : oe_policy_hash a = oe_policy_hash b;
  si_account : oe_account_fingerprint a = oe_account_fingerprint b;
  si_book : oe_position_or_book_fingerprint a = oe_position_or_book_fingerprint b;
  si_legs : oe_legs a = oe_legs b;
  si_quantity : oe_quantity a = oe_quantity b;
  si_limits : oe_minimum_limit a = oe_minimum_limit b /\ oe_maximum_limit a = oe_maximum_limit b;
  si_session : oe_market_session_id a = oe_market_session_id b;
  si_spreads : oe_quoted_relative_spread a = oe_quoted_relative_spread b /\
    oe_maximum_relative_spread a = oe_maximum_relative_spread b;
  si_debits : oe_incremental_debit a = oe_incremental_debit b /\
    oe_maximum_incremental_debit a = oe_maximum_incremental_debit b;
}.

Lemma intent_determines a b :
  wf_envelope a -> wf_envelope b -> intent_text a = intent_text b -> same_intent a b.
Proof.
  intros Wa Wb Hi%json_dumps_inj. unfold intent_payload in *.
  text_field "action" Hi Eaction. apply enum_action_inj in Eaction.
  text_field "account_fingerprint" Hi Eaccount. text_field "policy_hash" Hi Epolicy.
  text_field "authorization_certificate_id" Hi Eauth.
  pose proof (json_number _ _ "quantity" _ _ Hi eq_refl eq_refl) as Equantity. text_field "position_or_book_fingerprint" Hi Ebook.
  text_field "minimum_limit" Hi Emini. apply decimal_str_inj in Emini.
  text_field "maximum_limit" Hi Emaxi. apply decimal_str_inj in Emaxi.
  assert (Elegs : oe_legs a = oe_legs b).
  { apply legs_payload_inj. pose proof (json_sort_get _ _ "legs" Hi) as E.
    cbv [get app String.eqb Ascii.eqb Bool.eqb option_map] in E. exact (inj Some _ _ E). }
  apply roll_update_inj in Hi as (R1 & R2 & R3 & R4 & R5); [|done..|by intros name Hn; apply (roll_names name a); [|repeat constructor]].
  destruct Wa as (_ & Ua & _), Wb as (_ & Ub & _). apply uuid_str_inj in Eauth; [|done..]. by split.
Qed.

Lemma payloads_determine a b :
  wf_envelope a -> wf_envelope b ->
  intent_text a = intent_text b -> envelope_text a = envelope_text b -> a = b.
Proof.
  intros Wa Wb Hi He%json_dumps_inj. destruct (intent_determines a b Wa Wb Hi). unfold envelope_payload in *.
  text_field "approved_max_loss" He Eloss. apply decimal_str_inj in Eloss.
  text_field "event_key" He Eevent. text_field "trading_day" He Eday.
  destruct Wa as (_ & _ & Da & _), Wb as (_ & _ & Db & _). apply date_isoformat_inj in Eday; [|done..].
  clear He Hi Da Db. destruct a, b. cbn in *. destruct_and!. by subst.
Qed.

(** C23: A client order id identifies the order and the attempt it was made for.  It is made of
    the trading day, the action and the intent digest of a well formed envelope and an ordinal
    below four, and has 41 characters, so that it passes the 64 character bound of
    [attempt_request_hash].  Two equal ids come from the same trading day, action and ordinal,
    and from envelopes that agree in everything the digest covers (certificate, policy,
    account, book, legs, quantity, limits, session and roll bounds), unless the canonical texts
    of the two intents differ and are an explicit collision of the first 24 characters of
    SHA-256.  [date_compact] is [%Y%m%d], of fixed width for the years 1000 to 9999. *)
Theorem client_order_id_injective a b attempt attempt' id :
  wf_envelope a -> wf_envelope b ->
  four_digit_year (oe_trading_day a) -> four_digit_year (oe_trading_day b) ->
  client_order_id (oe_trading_day a) (oe_action a) (intent_digest a) attempt = Ok id ->
  client_order_id (oe_trading_day b) (oe_action b) (intent_digest b) attempt' = Ok id ->
  str_len id = 41 /\ attempt = attempt' /\ 0 <= attempt < 4 /\
  oe_trading_day a = oe_trading_day b /\ oe_action a = oe_action b /\
  (same_intent a b \/
   (intent_text a <> intent_text b /\
    str_take 24 (sha256_hex (intent_text a)) = str_take 24 (sha256_hex (intent_text b)))).
Proof.
  intros Wa Wb Ya Yb Ha Hb.
  destruct (client_order_id_parts _ _ _ _ _ _ _ _ _ Ya Yb Ha Hb) as (Ed & Ea & En & Hn & Et & El).
  split_and!; try done; try lia. destruct (decide (intent_text a = intent_text b)) as [E|N]; [left|by right].
  by apply intent_determines.
Qed.

(** C24: The intent digest and the envelope hash together identify the order.  An
    authorisation names an order by its envelope hash and an intent by its digest; two
    well formed envelopes with the same digest and the same envelope hash are the same
    envelope in every field (action, legs, quantity, limits, risk, account, policy,
    authorisation, session and roll bounds), unless their canonical texts are an explicit
    SHA-256 collision. *)
Theorem order_hashes_identify a b :
  wf_envelope a -> wf_envelope b ->
  intent_digest a = intent_digest b -> order_envelope_hash a = order_envelope_hash b ->
  a = b \/
  (intent_text a <> intent_text b /\ sha256_hex (intent_text a) = sha256_hex (intent_text b)) \/
  (envelope_text a <> envelope_text b /\ sha256_hex (envelope_text a) = sha256_hex (envelope_text b)).
Proof.
  intros Wa Wb Hi He.
  destruct (decide (intent_text a = intent_text b)) as [Ei|Ni]; [|by right; left].
  destruct (decide (envelope_text a = envelope_text b)) as [Ee|Ne]; [|by right; right].
  left. by apply payloads_determine.
Qed.

Definition sample_envelope : OrderEnvelope :=
  {| oe_action := EX_ENTRY; oe_authorization_certificate_id := 7%N;
     oe_policy_hash := sha256_hex "policy"; oe_account_fingerprint := sha256_hex "account";
     oe_position_or_book_fingerprint := sha256_hex "book";
     oe_legs := [mk_OrderLegIntent "SPY261016C00450000" BUY_TO_OPEN 1;
                 mk_OrderLegIntent "SPY261016C00455000" SELL_TO_OPEN 1];
     oe_quantity := 1; oe_minimum_limit := D 100 (-2); oe_maximum_limit := D 120 (-2);
     oe_approved_max_loss := D 12000 (-2); oe_event_key := "CPI";
     oe_trading_day := days_from_civil 2026 9 14; oe_market_session_id := None;
     oe_quoted_relative_spread := None; oe_maximum_relative_spread := None;
     oe_incremental_debit := None; oe_maximum_incremental_debit := None |}.

Lemma sample_envelope_wf : wf_envelope sample_envelope.
Proof. split_and!; try done; vm_compute; done. Qed.

Lemma sample_order_id :
  exists id, client_order_id (oe_trading_day sample_envelope) (oe_action sample_envelope)
    (intent_digest sample_envelope) 2 = Ok id.
Proof. eexists. vm_compute. reflexivity. Qed.

Lemma client_order_id_injective_witness :
  exists id,
    client_order_id (oe_trading_day sample_envelope) (oe_action sample_envelope)
      (intent_digest sample_envelope) 2 = Ok id /\ str_len id = 41.
Proof.
  destruct sample_order_id as (id & H). exists id. split; [exact H|].
  assert (Y : four_digit_year (oe_trading_day sample_envelope)) by (vm_compute; split; discriminate).
  exact (proj1 (client_order_id_injective sample_envelope sample_envelope 2 2 id sample_envelope_wf
    sample_envelope_wf Y Y H H)).
Defined.

Lemma order_hashes_identify_witness :
  wf_envelope sample_envelope /\
  (sample_envelope = sample_envelope \/
   (intent_text sample_envelope <> intent_text sample_envelope /\ True) \/
   (envelope_text sample_envelope <> envelope_text sample_envelope /\ True)).
Proof.
  split; [exact sample_envelope_wf|].
  pose proof (order_hashes_identify sample_envelope sample_envelope
    sample_envelope_wf sample_envelope_wf eq_refl eq_refl) as [H|[[H _]|[H _]]];
    [left; exact H|right; left; exact (conj H I)|right; right; exact (conj H I)].
Defined.
