(* ===== verification/Finalization.v ===== *)
(** * Attempts, authorisations and finalisation

    The three validators every execution repository applies:
    [backend/app/persistence/attempt_observation.py] (what a broker observation may
    change of an attempt), [authorization.py] (what an authorisation must agree with) and
    [finalization.py] (when an execution may be certified, and as what). *)

From Stdlib Require Import ZArith Lia String Ascii List Bool QArith.
From stdpp Require Import base strings option tactics relations list.
From S2P Require Import Prelude PyText PyDecimal PyDecimalFacts PyTime PyHash Contracts OrderStatus ExecModels Identity.

#[local] Open Scope string_scope.
#[local] Open Scope Z_scope.

Definition blocked {A} (code : string) : M A := Raise (ExecutionBlocked code).

Lemma guard_blocked_ok {A} (c : M bool) code (k : M A) x :
  guard_m c (blocked code) k = Ok x <-> c = Ok false /\ k = Ok x.
Proof. apply guard_raise_ok. Qed.
#[export] Hint Rewrite @guard_blocked_ok : py.

(** ** Observations of an attempt *)

(** [value in {None, Decimal(0)}] *)
Definition none_or_zero (value : option decimal) : bool :=
  match value with None => true | Some d => d ==. Dint 0 end.

Definition provider_id_malformed (id : string) : bool :=
  negb (str_nonempty id) || negb (String.eqb (str_strip id) id) || (128 <? str_len id).

Definition cash_flow_regresses (existing : decimal) (observed : option decimal) : M bool :=
  match observed with
  | None => Ok true
  | Some observed =>
      if negb (Bool.eqb (is_signed existing) (is_signed observed)) then Ok true
      else o ← dabs observed; e ← dabs existing; o <. e
  end.

Definition _fill_matches_state (observed : OrderAttempt) : M bool :=
  broker_state_matches_fill (oa_state observed) (oa_filled_quantity observed) (oa_quantity observed).

Definition validate_attempt_observation (existing observed : OrderAttempt) : M unit :=
  when negb (in_states (oa_state observed) KNOWN_BROKER_ORDER_STATES)
  then_ blocked "ATTEMPT_STATE_INVALID";;
  match oa_provider_order_id observed with
  | None => blocked "ATTEMPT_PROVIDER_ID_REQUIRED"
  | Some provider_order_id =>
  when provider_id_malformed provider_order_id
  then_ blocked "ATTEMPT_PROVIDER_ID_INVALID";;
  when match oa_provider_order_id existing with
       | Some id => negb (String.eqb provider_order_id id)
       | None => false
       end
  then_ blocked "ATTEMPT_PROVIDER_ID_MISMATCH";;
  when (oa_quantity existing <? 0) || (oa_quantity observed <=? 0)
       || (0 <? oa_quantity existing) && negb (oa_quantity observed =? oa_quantity existing)
  then_ blocked "ATTEMPT_QUANTITY_MISMATCH";;
  when oa_filled_quantity observed <? oa_filled_quantity existing
  then_ blocked "ATTEMPT_FILL_REGRESSION";;
  when negb ((0 <=? oa_filled_quantity observed)
             && (oa_filled_quantity observed <=? oa_quantity observed))
  then_ blocked "ATTEMPT_FILL_INVALID";;
  when (oa_filled_quantity observed =? 0) && negb (none_or_zero (oa_fill_cash_flow observed))
  then_ blocked "ATTEMPT_CASH_FLOW_INVALID";;
  when negb (oa_filled_quantity observed =? 0)
       && match oa_fill_cash_flow observed with
          | Some cash => negb (is_finite cash) || (cash ==. Dint 0)
          | None => true
          end
  then_ blocked "ATTEMPT_CASH_FLOW_REQUIRED";;
  when match oa_fill_cash_flow existing with
       | Some cash =>
           negb (cash ==. Dint 0) &&& cash_flow_regresses cash (oa_fill_cash_flow observed)
       | None => false
       end
  then_ blocked "ATTEMPT_CASH_FLOW_REGRESSION";;
  when in_states (oa_state existing) TERMINAL_BROKER_ORDER_STATES
       && negb (String.eqb (oa_state observed) (oa_state existing))
  then_ blocked "ATTEMPT_TERMINAL_STATE_REGRESSION";;
  when not (_fill_matches_state observed)
  then_ blocked "ATTEMPT_STATE_FILL_INVALID";;
  Ok tt
  end.

(** ** Authorisations *)

Record AuthorizationValues := mk_AuthorizationValues {
  av_account_role : AccountRole;
  av_policy_hash : string;
  av_fingerprint : string;
  av_envelope_hash : string;
  av_approved_max_loss : decimal;
  av_quantity : Z;
  av_valid : bool;
  av_valid_from : datetime;
  av_expires_at : datetime;
}.

Definition validate_authorization (intent : ExecutionIntent) (authorization : AuthorizationValues)
    (now : datetime) : M unit :=
  let envelope := ei_envelope intent in
  when negb (bool_decide (av_account_role authorization = ei_account_role intent))
  then_ blocked "AUTHORIZATION_ACCOUNT_ROLE_MISMATCH";;
  when negb (String.eqb (av_policy_hash authorization) (oe_policy_hash envelope))
  then_ blocked "AUTHORIZATION_POLICY_MISMATCH";;
  when negb (String.eqb (av_fingerprint authorization) (oe_position_or_book_fingerprint envelope))
  then_ blocked "AUTHORIZATION_FINGERPRINT_MISMATCH";;
  when negb (String.eqb (av_envelope_hash authorization) (order_envelope_hash envelope))
  then_ blocked "AUTHORIZATION_ENVELOPE_MISMATCH";;
  when negb (av_approved_max_loss authorization ==. oe_approved_max_loss envelope)
  then_ blocked "AUTHORIZATION_RISK_MISMATCH";;
  when negb (av_quantity authorization =? oe_quantity envelope)
  then_ blocked "AUTHORIZATION_QUANTITY_MISMATCH";;
  when negb (av_valid authorization)
  then_ blocked "AUTHORIZATION_INVALID";;
  when dt_lt now (av_valid_from authorization)
  then_ blocked "AUTHORIZATION_NOT_YET_VALID";;
  when dt_le (av_expires_at authorization) now
  then_ blocked "AUTHORIZATION_EXPIRED";;
  Ok tt.

(** ** Finalisation *)

Definition RECONCILIATION_CHECKS : list string :=
  ["TERMINAL"; "REMAINDER_ABSENT"; "WHOLE_ACCOUNT_RECONCILED"].
Definition TERMINAL_ATTEMPT_STATES : states :=
  (FINALIZABLE_BROKER_ORDER_STATES ++ ["ASSIGNMENT_LOCKED"])%list.

Definition execution_lock_reason (reconciliation : Reconciliation) : option string :=
  if rn_assignment_suspected reconciliation then Some "ASSIGNMENT_SUSPECTED"
  else if negb (rn_matches_expected reconciliation) then Some "RECONCILIATION_MISMATCH"
  else None.

Definition requested_status_valid (requested_status state : string)
    (filled_quantity quantity : Z) : bool :=
  let partial := (0 <? filled_quantity) && (filled_quantity <? quantity) in
  if String.eqb requested_status "FILLED" then
    in_states state ["FILLED"; "CALCULATED"] && (filled_quantity =? quantity)
  else if String.eqb requested_status "PARTIAL_CANCELED_RECONCILED" then
    String.eqb state "CANCELED" && partial
  else if String.eqb requested_status "PARTIAL_EXPIRED_RECONCILED" then
    String.eqb state "EXPIRED" && partial
  else if String.eqb requested_status "PARTIAL_REPLACED_RECONCILED" then
    String.eqb state "REPLACED" && partial
  else if String.eqb requested_status "ASSIGNMENT_LOCKED" then
    String.eqb state "ASSIGNMENT_LOCKED"
  else if in_states requested_status ["REJECTED"; "CANCELED"; "EXPIRED"; "REPLACED"; "UNFILLED"]
  then
    in_states state ["REJECTED"; "CANCELED"; "EXPIRED"; "REPLACED"] && (filled_quantity =? 0)
  else false.

Definition _validate_requested_status (requested_status : string) (terminal_attempt : OrderAttempt)
    (filled_quantity quantity : Z) : M unit :=
  when negb (requested_status_valid requested_status (oa_state terminal_attempt)
               filled_quantity quantity)
  then_ blocked "EXECUTION_STATUS_ATTEMPT_MISMATCH";;
  Ok tt.

(** The body of the loop over the attempts, with the attempt before. *)
Definition check_attempt (intent : ExecutionIntent) (previous : option OrderAttempt)
    (attempt : OrderAttempt) (is_last : bool) : M unit :=
  when negb (oa_intent_id attempt =? ei_intent_id intent)%N
       || negb (oa_quantity attempt =? oe_quantity (ei_envelope intent))
  then_ blocked "ATTEMPT_QUANTITY_MISMATCH";;
  when negb ((0 <=? oa_filled_quantity attempt)
             && (oa_filled_quantity attempt <=? oa_quantity attempt))
  then_ blocked "ATTEMPT_FILL_INVALID";;
  when negb (String.eqb (oa_state attempt) "ASSIGNMENT_LOCKED")
       &&& not (broker_state_matches_fill (oa_state attempt) (oa_filled_quantity attempt)
                  (oa_quantity attempt))
  then_ blocked "ATTEMPT_STATE_FILL_INVALID";;
  when negb is_last && negb (oa_filled_quantity attempt =? 0)
  then_ blocked "ATTEMPT_FILL_LINEAGE_INVALID";;
  when negb (bool_decide (oa_replaces_client_order_id attempt
                          = option_map oa_client_order_id previous))
  then_ blocked "ATTEMPT_LINEAGE_INVALID";;
  Ok tt.

Fixpoint check_attempts (intent : ExecutionIntent) (previous : option OrderAttempt)
    (attempts : list OrderAttempt) : M unit :=
  match attempts with
  | [] => Ok tt
  | attempt :: rest =>
      _ ← check_attempt intent previous attempt (if rest is [] then true else false);
      check_attempts intent (Some attempt) rest
  end.

Definition exposure_opt_eq (a b : option GreekExposure) : bool :=
  match a, b with
  | Some a, Some b => exposure_eq a b
  | None, None => true
  | _, _ => false
  end.

Definition expected_certificate_id (digest : string) : uuid :=
  uuid5 NAMESPACE_URL ("alphadecay:execution:" ++ digest).

(** The authorisation id where the action is, or is not, an entry. *)
Definition entry_approval_id (envelope : OrderEnvelope) : option uuid :=
  if decide (oe_action envelope = EX_ENTRY)
  then Some (oe_authorization_certificate_id envelope) else None.
Definition assessment_certificate_id (envelope : OrderEnvelope) : option uuid :=
  if decide (oe_action envelope = EX_ENTRY)
  then None else Some (oe_authorization_certificate_id envelope).

Definition finalized_status (reconciliation : Reconciliation) (requested_status : string) : string :=
  if rn_assignment_suspected reconciliation then "ASSIGNMENT_LOCKED"
  else if negb (rn_matches_expected reconciliation)
          && negb (String.eqb requested_status "ASSIGNMENT_LOCKED")
  then "RECONCILIATION_MISMATCH"
  else requested_status.

(** [replace(certificate, created_at=...)], whose constructor runs again. *)
Definition with_created_at (c : ExecutionCertificate) (created_at : datetime)
    : M ExecutionCertificate :=
  make_ExecutionCertificate
    {| xc_certificate_id := xc_certificate_id c; xc_intent_id := xc_intent_id c;
       xc_entry_approval_id := xc_entry_approval_id c;
       xc_assessment_certificate_id := xc_assessment_certificate_id c;
       xc_execution_status := xc_execution_status c; xc_attempt_ids := xc_attempt_ids c;
       xc_actual_exposure := xc_actual_exposure c;
       xc_reconciliation_checks := xc_reconciliation_checks c; xc_created_at := created_at;
       xc_reconciliation_id := xc_reconciliation_id c;
       xc_reconciliation_hash := xc_reconciliation_hash c;
       xc_last_observation_hash := xc_last_observation_hash c |}.

Definition validate_finalization (intent : ExecutionIntent) (attempts : list OrderAttempt)
    (certificate : ExecutionCertificate) (reconciliation : Reconciliation)
    (requested_status : string) (trusted_now : datetime) : M (ExecutionCertificate * bool) :=
  when negb (bool_decide (ei_state intent = CLAIMED))
  then_ blocked "INTENT_NOT_CLAIMED";;
  match last attempts with
  | None => blocked "ATTEMPT_LINEAGE_INVALID"
  | Some final =>
  when negb (bool_decide (map oa_ordinal attempts = map Z.of_nat (seq 0 (length attempts))))
  then_ blocked "ATTEMPT_LINEAGE_INVALID";;
  when (4 <? length attempts)%nat || negb (in_states (oa_state final) TERMINAL_ATTEMPT_STATES)
  then_ blocked "ATTEMPT_NOT_TERMINAL";;
  when ei_first_fill_consumed intent
  then_ blocked "EXECUTION_ALREADY_CONSUMED";;
  let quantity := oe_quantity (ei_envelope intent) in
  _ ← check_attempts intent None attempts;
  let filled_quantity := oa_filled_quantity final in
  when negb (rn_terminal reconciliation) || negb (rn_remainder_absent reconciliation)
  then_ blocked "RECONCILIATION_INCOMPLETE";;
  _ ← _validate_requested_status requested_status final filled_quantity quantity;
  let execution_status := finalized_status reconciliation requested_status in
  when negb (xc_certificate_id certificate =? expected_certificate_id (ei_digest intent))%N
  then_ blocked "CERTIFICATE_ID_MISMATCH";;
  when negb (xc_intent_id certificate =? ei_intent_id intent)%N
       || negb (bool_decide (xc_entry_approval_id certificate
                             = entry_approval_id (ei_envelope intent)))
       || negb (bool_decide (xc_assessment_certificate_id certificate
                             = assessment_certificate_id (ei_envelope intent)))
       || negb (bool_decide (xc_attempt_ids certificate = map oa_client_order_id attempts))
  then_ blocked "CERTIFICATE_LINEAGE_MISMATCH";;
  when negb (String.eqb (xc_execution_status certificate) execution_status)
  then_ blocked "CERTIFICATE_STATUS_MISMATCH";;
  when negb (exposure_opt_eq (xc_actual_exposure certificate) (rn_actual_exposure reconciliation))
  then_ blocked "CERTIFICATE_EXPOSURE_MISMATCH";;
  when negb (bool_decide (xc_reconciliation_checks certificate = RECONCILIATION_CHECKS))
  then_ blocked "CERTIFICATE_CHECKS_MISMATCH";;
  normalized ← with_created_at certificate trusted_now;
  Ok (normalized, 0 <? filled_quantity)
  end.

(** ** Accepted observations make progress *)

Definition observes (existing observed : OrderAttempt) : Prop :=
  validate_attempt_observation existing observed = Ok tt.

(** A cash flow that is there and not zero. *)
Definition paid (a : OrderAttempt) (c : decimal) : Prop :=
  oa_fill_cash_flow a = Some c /\ c ==. Dint 0 = false.

(** The same sign, and an absolute value (as [abs] gives it) that does not shrink. *)
Definition cash_grows (c c' : decimal) : Prop :=
  is_signed c = is_signed c' /\
  exists x y, dabs c = Ok x /\ dabs c' = Ok y /\ y <. x = Ok false.

Record progress (a b : OrderAttempt) : Prop := mk_progress {
  pr_filled : oa_filled_quantity a <= oa_filled_quantity b;
  pr_quantity : 0 < oa_quantity b /\ (0 < oa_quantity a -> oa_quantity b = oa_quantity a);
  pr_range : 0 <= oa_filled_quantity b <= oa_quantity b;
  pr_provider : exists id, oa_provider_order_id b = Some id /\
                  forall id', oa_provider_order_id a = Some id' -> id' = id;
  pr_terminal : oa_state a ∈ TERMINAL_BROKER_ORDER_STATES -> oa_state b = oa_state a;
  pr_known : oa_state b ∈ KNOWN_BROKER_ORDER_STATES;
  pr_fill : _fill_matches_state b = Ok true;
  pr_paid : 0 < oa_filled_quantity b -> exists c, paid b c /\ finite c;
  pr_unpaid : oa_filled_quantity b = 0 -> none_or_zero (oa_fill_cash_flow b) = true;
  pr_cash : forall c, 0 < oa_filled_quantity a -> paid a c ->
    exists c', oa_fill_cash_flow b = Some c' /\ cash_grows c c';
}.

Lemma observation_progress a b : observes a b -> progress a b.
Proof.
  unfold observes, validate_attempt_observation. intros H.
  inv_ok H. destruct (oa_provider_order_id b) as [id|] eqn:Hid; [|done].
  inv_ok H0. rewrite !andb_false_iff in *. zbool.
  constructor; try done; try lia.
  - exists id. split; [done|]. intros id' E. rewrite E in H1. inv_ok H1. by zbool.
  - rewrite <- in_states_spec. intros E. destruct H8 as [E'|E']; [congruence|].
    apply negb_false_iff in E'. by apply String.eqb_eq in E'.
  - by apply in_states_spec.
  - intros Hb. destruct H6 as [E|E]; [apply negb_false_iff in E; zbool; lia|].
    unfold paid. destruct (oa_fill_cash_flow b) as [c|]; [|done]. inv_ok E. exists c.
    split; [done|by destruct c].
  - intros Hb. destruct H5 as [E|E]; [zbool; lia|]. by apply negb_false_iff in E.
  - intros c _ [Ec Hc]. rewrite Ec, Hc in H7. cbn [negb and_m lift_bool mbind M_bind] in H7.
    unfold cash_flow_regresses in H7. destruct (oa_fill_cash_flow b) as [c'|]; [|done].
    exists c'. split; [done|]. destruct (Bool.eqb (is_signed c) (is_signed c')) eqn:Es; [|done].
    apply eqb_prop in Es. cbn [negb] in H7.
    apply bind_ok in H7 as (o & Ho & H7). apply bind_ok in H7 as (e & He & H7).
    split; [done|]. by exists e, o.
Qed.

Lemma none_or_zero_paid a c : paid a c -> none_or_zero (oa_fill_cash_flow a) = false.
Proof. intros [E H]. unfold none_or_zero. by rewrite E. Qed.

Lemma cash_grows_trans c1 c2 c3 :
  finite c1 -> finite c2 -> finite c3 -> cash_grows c1 c2 -> cash_grows c2 c3 -> cash_grows c1 c3.
Proof.
  intros F1 F2 F3 [E1 (x & y & Hx & Hy & L1)] [E2 (y' & z & Hy' & Hz & L2)].
  rewrite Hy in Hy'. injection Hy' as <-. split; [congruence|]. exists x, z. split_and!; try done.
  assert (Fabs : forall c r, finite c -> dabs c = Ok r -> finite r).
  { intros c r Fc. unfold dabs, dneg, dpos. destruct c as [s k e| |]; [|done..].
    cbn. destruct s; cbn; destruct (k =? 0)%N; intros Hr; apply fix_spec in Hr as [Fr _]; (done || lia). }
  assert (finite x) by eauto. assert (finite y) by eauto. assert (finite z) by eauto.
  apply dlt_false in L1; [|done..]. apply dlt_false in L2; [|done..].
  apply dlt_ok_false; [done..|]. by apply Qle_trans with (dval y).
Qed.

Lemma progress_trans a b c :
  (forall x, oa_fill_cash_flow a = Some x -> finite x) ->
  progress a b -> progress b c -> progress a c.
Proof.
  intros Fa [F1 [Q1 Q1'] R1 (i1 & P1 & P1') T1 K1 M1 C1 U1 G1]
    [F2 [Q2 Q2'] R2 (i2 & P2 & P2') T2 K2 M2 C2 U2 G2].
  constructor; try done; try lia.
  - exists i2. split; [done|]. intros id Hid. rewrite (P1' id Hid). auto.
  - intros Ht. rewrite <- (T1 Ht). apply T2. by rewrite (T1 Ht).
  - intros x Ha Hx. destruct (G1 x Ha Hx) as (y & Ey & Gy).
    destruct C1 as (y' & [Ey' Hy] & Fy); [lia|]. rewrite Ey in Ey'. injection Ey' as <-.
    destruct (G2 y) as (z & Ez & Gz); [lia|done|]. exists z. split; [done|].
    destruct C2 as (z' & [Ez' Hz] & Fz); [lia|]. rewrite Ez in Ez'. injection Ez' as <-.
    eapply (cash_grows_trans x y z); eauto. apply Fa, Hx.
Qed.

Lemma progress_finite a b : progress a b -> forall x, oa_fill_cash_flow b = Some x -> finite x.
Proof.
  intros P x Hx. destruct (decide (oa_filled_quantity b = 0)) as [E|E].
  - pose proof (pr_unpaid a b P E) as H. rewrite Hx in H. cbn in H. by destruct x as [|[]|].
  - destruct (pr_paid a b P) as (c & [Ec _] & Fc); [pose proof (pr_range a b P); lia|]. congruence.
Qed.

(** C25: Observations only move an attempt forward.  However many broker observations an
    attempt has accepted, in whatever order they came: the filled quantity never went
    back and stays within the quantity; the quantity, once positive, and the provider's
    order id, once known, never changed; a terminal state was never left; the state is
    a known one and agrees with the fill; a fill has a finite cash flow other than zero
    and no fill has none; and the cash flow of a fill kept its sign and never shrank. *)
Theorem observations_progress a b :
  (forall x, oa_fill_cash_flow a = Some x -> finite x) ->
  tc observes a b -> progress a b.
Proof.
  intros Fa H. induction H as [a b H|a b c H _ IH]; apply observation_progress in H as P; [done|].
  apply (progress_trans a b c); [done..|]. apply IH. by apply (progress_finite a).
Qed.

Definition sample_attempt (state : string) (provider : option string) (filled : Z)
    (cash : option decimal) : OrderAttempt :=
  {| oa_intent_id := 5%N; oa_ordinal := 0; oa_client_order_id := "ad-0"; oa_request_hash := "r";
     oa_state := state; oa_replaces_client_order_id := None; oa_provider_order_id := provider;
     oa_filled_quantity := filled; oa_quantity := 2; oa_fill_cash_flow := cash;
     oa_limit_price := None; oa_quote_hash := None; oa_quote_source_timestamps := [];
     oa_quote_retrieved_at := None; oa_timing_authority_at := None;
     oa_prior_request_hash := None |}.

Lemma observations_progress_witness :
  progress (sample_attempt "PREPARED" None 0 None)
           (sample_attempt "FILLED" (Some "p") 2 (Some (Dint (-240)))).
Proof.
  apply observations_progress; [done|].
  apply tc_l with (sample_attempt "PARTIALLY_FILLED" (Some "p") 1 (Some (Dint (-120))));
    [reflexivity|]. apply tc_once. reflexivity.
Defined.

(** ** What a certificate says *)

(** The attempt before the [i]-th one. *)
Definition previous_attempt (first : option OrderAttempt) (attempts : list OrderAttempt) (i : nat)
    : option OrderAttempt :=
  match i with O => first | S i => attempts !! i end.

Definition attempt_in_lineage (intent : ExecutionIntent) (first : option OrderAttempt)
    (attempts : list OrderAttempt) (i : nat) (a : OrderAttempt) : Prop :=
  oa_intent_id a = ei_intent_id intent /\
  oa_quantity a = oe_quantity (ei_envelope intent) /\
  0 <= oa_filled_quantity a <= oa_quantity a /\
  oa_replaces_client_order_id a = option_map oa_client_order_id (previous_attempt first attempts i) /\
  ((S i < length attempts)%nat -> oa_filled_quantity a = 0) /\
  (oa_state a = "ASSIGNMENT_LOCKED" \/
   broker_state_matches_fill (oa_state a) (oa_filled_quantity a) (oa_quantity a) = Ok true).

Lemma check_attempt_ok intent previous a is_last :
  check_attempt intent previous a is_last = Ok tt ->
  oa_intent_id a = ei_intent_id intent /\
  oa_quantity a = oe_quantity (ei_envelope intent) /\
  0 <= oa_filled_quantity a <= oa_quantity a /\
  oa_replaces_client_order_id a = option_map oa_client_order_id previous /\
  (is_last = false -> oa_filled_quantity a = 0) /\
  (oa_state a = "ASSIGNMENT_LOCKED" \/
   broker_state_matches_fill (oa_state a) (oa_filled_quantity a) (oa_quantity a) = Ok true).
Proof.
  unfold check_attempt. intros H. inv_ok H. rewrite ?andb_false_iff, ?negb_false_iff in *.
  repeat match goal with E : (_ =? _)%N = true |- _ => apply N.eqb_eq in E end.
  zbool. split_and!; try done; try lia.
  - intros ->. match goal with E : _ \/ _ |- _ => destruct E as [E|E]; [done|by zbool] end.
  - match goal with E : (_ &&& _) = Ok false |- _ => rename E into Hs end.
    apply and_m_false in Hs as [Hs|[_ Hs%not_m_false]]; [left|by right].
    apply lift_bool_ok in Hs. by apply negb_false_iff, String.eqb_eq in Hs.
Qed.

Lemma check_attempts_ok intent first attempts :
  check_attempts intent first attempts = Ok tt ->
  forall i a, attempts !! i = Some a -> attempt_in_lineage intent first attempts i a.
Proof.
  revert first. induction attempts as [|b rest IH]; intros first H i a Hi; [done|].
  cbn [check_attempts] in H. apply bind_ok in H as ([] & Hb & H).
  apply check_attempt_ok in Hb as (B1 & B2 & B3 & B4 & B5 & B6).
  destruct i as [|i]; cbn in Hi.
  - injection Hi as <-. split_and!; try done; try lia. cbn. intros Hl. apply B5. by destruct rest; [cbn in Hl; lia|].
  - destruct (IH _ H i a Hi) as (A1 & A2 & A3 & A4 & A5 & A6). split_and!; try done; try lia.
    cbn. intros Hl. apply A5. lia.
Qed.

Lemma last_lookup_length {A} (l : list A) x :
  last l = Some x -> exists k, length l = S k /\ l !! k = Some x.
Proof.
  intros H. rewrite last_lookup in H. destruct l as [|y l]; [done|]. cbn in *. by eexists.
Qed.

(** The quantity filled over all attempts. *)
Definition total_filled (attempts : list OrderAttempt) : Z :=
  fold_right Z.add 0 (map oa_filled_quantity attempts).

Lemma total_filled_last intent first attempts final :
  (forall i a, attempts !! i = Some a -> attempt_in_lineage intent first attempts i a) ->
  last attempts = Some final -> total_filled attempts = oa_filled_quantity final.
Proof.
  intros H Hlast. destruct (last_lookup_length _ _ Hlast) as (k & Hk & Hf).
  assert (E : (take k attempts ++ [final])%list = attempts).
  { rewrite <- (take_drop k attempts) at 2. f_equal.
    rewrite (drop_S _ _ _ Hf). rewrite drop_ge by lia. done. }
  assert (Hz : forall l, Forall (fun a => oa_filled_quantity a = 0) l -> forall x,
             total_filled (l ++ [x])%list = oa_filled_quantity x).
  { intros l Hl x. unfold total_filled. induction Hl as [|a l Ha _ IH]; cbn; [lia|].
    unfold total_filled in IH. rewrite Ha. by rewrite IH. }
  rewrite <- E. apply Hz. apply Forall_lookup. intros i a Hi.
  apply lookup_take_Some in Hi as [Hi Hlt]. apply (H i a Hi). lia.
Qed.

(** What each status claims: the broker state of the last attempt, and its fill.  A status
    without a fill says that the order closed unfilled; it need not be the name of the
    state the order closed in. *)
Definition status_truthful (status state : string) (filled quantity : Z) : Prop :=
  status = "FILLED" /\ state ∈ ["FILLED"; "CALCULATED"] /\ filled = quantity \/
  (exists closed, closed ∈ ["CANCELED"; "EXPIRED"; "REPLACED"] /\ state = closed /\
     status = "PARTIAL_" ++ closed ++ "_RECONCILED" /\ 0 < filled < quantity) \/
  status = "ASSIGNMENT_LOCKED" /\ state = "ASSIGNMENT_LOCKED" \/
  status ∈ ["REJECTED"; "CANCELED"; "EXPIRED"; "REPLACED"; "UNFILLED"] /\
    state ∈ ["REJECTED"; "CANCELED"; "EXPIRED"; "REPLACED"] /\ filled = 0.

Lemma partial_truthful closed status state filled quantity :
  closed ∈ ["CANCELED"; "EXPIRED"; "REPLACED"] -> status = "PARTIAL_" ++ closed ++ "_RECONCILED" ->
  String.eqb state closed && ((0 <? filled) && (filled <? quantity)) = true ->
  status_truthful status state filled quantity.
Proof.
  intros Hc Hs H. rewrite !andb_true_iff in H. destruct H as (H1 & H2 & H3). zbool.
  right; left. exists closed. split_and!; try done; lia.
Qed.

Lemma requested_status_truthful status state filled quantity :
  requested_status_valid status state filled quantity = true ->
  status_truthful status state filled quantity.
Proof.
  unfold requested_status_valid. intros H.
  destruct (String.eqb_spec status "FILLED") as [->|_].
  { apply andb_true_iff in H as [H1 H2]. apply in_states_spec in H1. zbool. by left. }
  destruct (String.eqb_spec status "PARTIAL_CANCELED_RECONCILED") as [->|_].
  { apply (partial_truthful "CANCELED"); [set_solver|done|done]. }
  destruct (String.eqb_spec status "PARTIAL_EXPIRED_RECONCILED") as [->|_].
  { apply (partial_truthful "EXPIRED"); [set_solver|done|done]. }
  destruct (String.eqb_spec status "PARTIAL_REPLACED_RECONCILED") as [->|_].
  { apply (partial_truthful "REPLACED"); [set_solver|done|done]. }
  destruct (String.eqb_spec status "ASSIGNMENT_LOCKED") as [->|_].
  { zbool. right; right; by left. }
  destruct (in_states status _) eqn:Hst; [|discriminate].
  apply andb_true_iff in H as [H1 H2]. apply in_states_spec in Hst, H1. zbool.
  by right; right; right.
Qed.

(** What a validated certificate establishes. *)
Record certified (intent : ExecutionIntent) (attempts : list OrderAttempt)
    (certificate : ExecutionCertificate) (reconciliation : Reconciliation) (has_fill : bool)
    : Prop := mk_certified {
  cf_claimed : ei_state intent = CLAIMED /\ ei_first_fill_consumed intent = false;
  cf_bounded : (1 <= length attempts <= 4)%nat /\
    forall i a, attempts !! i = Some a ->
      oa_ordinal a = Z.of_nat i /\ attempt_in_lineage intent None attempts i a;
  cf_reconciled : rn_terminal reconciliation = true /\ rn_remainder_absent reconciliation = true;
  cf_has_fill : has_fill = (0 <? total_filled attempts);
  cf_truthful : exists final, last attempts = Some final /\
    oa_state final ∈ TERMINAL_ATTEMPT_STATES /\
    if rn_assignment_suspected reconciliation
    then xc_execution_status certificate = "ASSIGNMENT_LOCKED"
    else if rn_matches_expected reconciliation
    then status_truthful (xc_execution_status certificate) (oa_state final)
           (total_filled attempts) (oe_quantity (ei_envelope intent))
    else xc_execution_status certificate
           = (if String.eqb (oa_state final) "ASSIGNMENT_LOCKED" then "ASSIGNMENT_LOCKED"
              else "RECONCILIATION_MISMATCH");
  cf_identity :
    xc_intent_id certificate = ei_intent_id intent /\
    xc_certificate_id certificate = expected_certificate_id (ei_digest intent) /\
    xc_attempt_ids certificate = map oa_client_order_id attempts;
  cf_origin :
    if decide (oe_action (ei_envelope intent) = EX_ENTRY)
    then xc_entry_approval_id certificate
           = Some (oe_authorization_certificate_id (ei_envelope intent)) /\
         xc_assessment_certificate_id certificate = None
    else xc_entry_approval_id certificate = None /\
         xc_assessment_certificate_id certificate
           = Some (oe_authorization_certificate_id (ei_envelope intent));
  cf_evidence :
    exposure_opt_eq (xc_actual_exposure certificate) (rn_actual_exposure reconciliation) = true /\
    xc_reconciliation_checks certificate
      = ["TERMINAL"; "REMAINDER_ABSENT"; "WHOLE_ACCOUNT_RECONCILED"];
}.

Lemma with_created_at_ok c now c' :
  with_created_at c now = Ok c' ->
  xc_certificate_id c' = xc_certificate_id c /\ xc_intent_id c' = xc_intent_id c /\
  xc_entry_approval_id c' = xc_entry_approval_id c /\
  xc_assessment_certificate_id c' = xc_assessment_certificate_id c /\
  xc_execution_status c' = xc_execution_status c /\ xc_attempt_ids c' = xc_attempt_ids c /\
  xc_created_at c' = now /\ xc_actual_exposure c' = xc_actual_exposure c /\
  xc_reconciliation_checks c' = xc_reconciliation_checks c.
Proof.
  unfold with_created_at, make_ExecutionCertificate. cbn. destruct (eqb _ _); [done|]. intros H.
  destruct (xc_reconciliation_id c), (xc_reconciliation_hash c), (xc_last_observation_hash c);
    try discriminate; injection H as <-; done.
Qed.

Lemma ordinals_lookup attempts i a :
  map oa_ordinal attempts = map Z.of_nat (seq 0 (length attempts)) ->
  attempts !! i = Some a -> oa_ordinal a = Z.of_nat i.
Proof.
  intros H Hi. apply (f_equal (fun l => l !! i)) in H. rewrite !list_lookup_fmap, Hi in H.
  rewrite lookup_seq_lt in H by by apply lookup_lt_Some in Hi. by injection H.
Qed.

(** Only an attempt locked for an assignment accepts that status. *)
Lemma assignment_requested status state filled quantity :
  requested_status_valid status state filled quantity = true ->
  String.eqb status "ASSIGNMENT_LOCKED" = String.eqb state "ASSIGNMENT_LOCKED".
Proof.
  intros [(-> & H & _)|[(c & Hc & -> & -> & _)|[[-> ->]|(Hs & H & _)]]]%requested_status_truthful;
    [..|done|]; set_unfold; naive_solver.
Qed.

Lemma finalized_status_truthful reconciliation requested state filled quantity :
  requested_status_valid requested state filled quantity = true ->
  let status := finalized_status reconciliation requested in
  if rn_assignment_suspected reconciliation then status = "ASSIGNMENT_LOCKED"
  else if rn_matches_expected reconciliation then status_truthful status state filled quantity
  else status = (if String.eqb state "ASSIGNMENT_LOCKED" then "ASSIGNMENT_LOCKED"
                 else "RECONCILIATION_MISMATCH").
Proof.
  intros H. unfold finalized_status. destruct (rn_assignment_suspected _); [done|].
  destruct (rn_matches_expected _); cbn [negb andb].
  - by apply requested_status_truthful.
  - rewrite <- (assignment_requested _ _ _ _ H).
    by destruct (String.eqb_spec requested "ASSIGNMENT_LOCKED") as [->|].
Qed.

(** What a successful validation establishes. *)
Lemma finalization_certified intent attempts certificate reconciliation requested now c has_fill :
  validate_finalization intent attempts certificate reconciliation requested now = Ok (c, has_fill) ->
  certified intent attempts c reconciliation has_fill /\ xc_created_at c = now /\
  xc_certificate_id c = xc_certificate_id certificate /\ xc_intent_id c = xc_intent_id certificate.
Proof.
  unfold validate_finalization. intros H. inv_ok H.
  destruct (last attempts) as [final|] eqn:Hlast; [|done]. inv_ok H0.
  repeat match goal with u : unit |- _ => destruct u end. unfold _validate_requested_status in H4.
  inv_all. repeat match goal with E : (_ =? _)%N = true |- _ => apply N.eqb_eq in E end. zbool.
  apply with_created_at_ok in H13 as (E1 & E2 & E3 & E4 & E5 & E6 & E7 & E8 & E9).
  split; [|by split_and!].
  pose proof (check_attempts_ok _ _ _ H3) as Hl.
  pose proof (total_filled_last _ _ _ _ Hl Hlast) as Ht.
  constructor; rewrite ?Ht; try done.
  - split; [apply Nat.ltb_ge in H1; destruct attempts; [done|cbn in *; lia]|].
    intros i a Hi. split; [by apply (ordinals_lookup attempts)|by apply Hl].
  - exists final. split_and!; [done|by apply in_states_spec|].
    rewrite E5, H10. by apply finalized_status_truthful.
  - rewrite E1, E2, E6. done.
  - rewrite E3, E4, H17, H16. unfold entry_approval_id, assessment_certificate_id.
    by destruct (decide _).
  - rewrite E8, E9. by split.
Qed.

(** C26: An execution certificate is the truth about its execution.  A certificate is
    only accepted for a claimed intent whose fill was not consumed, with one to four
    attempts, numbered from zero, each replacing the one before, all for the quantity of
    the order, each with a fill its state allows and none but the last with a fill; the
    last attempt is in a state that ends it, and the broker state was reconciled.  When the
    account matches, the status says what the last attempt shows: FILLED when the broker
    filled or calculated it and the fills of all attempts together are the whole quantity;
    a PARTIAL status when it was canceled, expired or replaced, as the status says, with a
    fill strictly between zero and the quantity; ASSIGNMENT_LOCKED when it was locked for
    an assignment; a status without a fill when it was rejected, canceled, expired or
    replaced without one (which of these names is requested is not compared with the
    state).  A mismatch or a suspected assignment is certified as such whatever was
    requested.  The certificate names the intent, its attempts, its digest's id and the one
    authorisation it came from, and carries the exposure of the reconciliation and the
    three checks. *)
Theorem certificate_truthful intent attempts certificate reconciliation requested now c has_fill :
  validate_finalization intent attempts certificate reconciliation requested now = Ok (c, has_fill) ->
  certified intent attempts c reconciliation has_fill /\ xc_created_at c = now.
Proof. intros (H1 & H2 & _)%finalization_certified. by split. Qed.

Definition sample_intent : ExecutionIntent :=
  {| ei_intent_id := 5%N; ei_account_role := SUBMISSION;
     ei_envelope := sample_envelope; ei_digest := "digest"; ei_state := CLAIMED;
     ei_claimed_by := Some SCHEDULER; ei_claimed_at := None; ei_first_fill_consumed := false;
     ei_claim_token := None; ei_claim_generation := 1; ei_execution_epoch := 0;
     ei_heartbeat_at := None; ei_lease_expires_at := None |}.

Definition sample_attempts : list OrderAttempt :=
  [{| oa_intent_id := 5%N; oa_ordinal := 0; oa_client_order_id := "ad-0"; oa_request_hash := "r";
      oa_state := "FILLED"; oa_replaces_client_order_id := None; oa_provider_order_id := Some "p";
      oa_filled_quantity := 1; oa_quantity := 1; oa_fill_cash_flow := Some (Dint (-110));
      oa_limit_price := None; oa_quote_hash := None; oa_quote_source_timestamps := [];
      oa_quote_retrieved_at := None; oa_timing_authority_at := None;
      oa_prior_request_hash := None |}].

Definition sample_certificate (id : uuid) : ExecutionCertificate :=
  {| xc_certificate_id := id; xc_intent_id := 5%N;
     xc_entry_approval_id := Some 7%N; xc_assessment_certificate_id := None;
     xc_execution_status := "FILLED"; xc_attempt_ids := ["ad-0"]; xc_actual_exposure := None;
     xc_reconciliation_checks := RECONCILIATION_CHECKS; xc_created_at := utc 2026 9 14 15 0 0;
     xc_reconciliation_id := None; xc_reconciliation_hash := None;
     xc_last_observation_hash := None |}.

Lemma certificate_truthful_witness :
  exists c, certified sample_intent sample_attempts c
    (mk_Reconciliation true true true false None) true.
Proof.
  eexists. eapply (certificate_truthful sample_intent sample_attempts
    (sample_certificate (expected_certificate_id "digest"))
    (mk_Reconciliation true true true false None) "FILLED" (utc 2026 9 14 15 1 0)).
  vm_compute. reflexivity.
Defined.
