(* ===== verification/PyDict.v ===== *)
(** * Python dictionaries in insertion order

    A [dict] whose iteration order matters: an association list without duplicate
    keys, where assigning to a key that is there keeps its place. *)

From Stdlib Require Import ZArith Lia String Ascii List Bool.
From stdpp Require Import base option tactics strings relations sorting list.
From S2P Require Import Prelude.

Section Dict.
Context {K V : Type} `{EqDecision K}.
Implicit Types (d : list (K * V)) (k : K) (v : V).

(** [d.get(k)] *)
Fixpoint dget d k : option V :=
  match d with
  | [] => None
  | (k', v) :: d => if decide (k' = k) then Some v else dget d k
  end.

(** [d[k] = v] *)
Fixpoint dset d k v : list (K * V) :=
  match d with
  | [] => [(k, v)]
  | (k', v') :: d => if decide (k' = k) then (k, v) :: d else (k', v') :: dset d k v
  end.

(** [d.values()] *)
Definition dvalues d : list V := map snd d.

(** Every dictionary the operations build has each key once. *)
Definition wf_dict d : Prop := NoDup (map fst d).

Lemma dget_dset d k v k' : dget (dset d k v) k' = if decide (k = k') then Some v else dget d k'.
Proof.
  induction d as [|[k1 v1] d IH]; cbn [dset dget]; [done|].
  destruct (decide (k1 = k)) as [->|Hne]; cbn [dget]; [by repeat case_decide|].
  rewrite IH. repeat case_decide; congruence.
Qed.

Lemma dget_dset_eq d k v : dget (dset d k v) k = Some v.
Proof. rewrite dget_dset. by rewrite decide_True. Qed.

Lemma dget_dset_ne d k v k' : k <> k' -> dget (dset d k v) k' = dget d k'.
Proof. intros H. rewrite dget_dset. by rewrite decide_False. Qed.

Lemma dget_elem d k v : dget d k = Some v -> (k, v) ∈ d.
Proof.
  induction d as [|[k1 v1] d IH]; cbn; [done|]. destruct (decide (k1 = k)) as [->|].
  - intros [= ->]. left.
  - intros H. right. auto.
Qed.

Lemma dget_wf d k v : wf_dict d -> dget d k = Some v <-> (k, v) ∈ d.
Proof.
  unfold wf_dict. intros Hd. split; [apply dget_elem|].
  induction d as [|[k1 v1] d IH]; cbn in *; [by intros ?%elem_of_nil|].
  apply NoDup_cons in Hd as [Hk Hd]. rewrite elem_of_cons. intros [[= -> ->]|H].
  - by rewrite decide_True.
  - rewrite decide_False; [auto|]. intros ->. apply Hk. apply list_elem_of_fmap.
    by exists (k, v).
Qed.

Lemma dset_keys d k v :
  map fst (dset d k v) = map fst d \/ ((k ∉ map fst d) /\ map fst (dset d k v) = (map fst d ++ [k])%list).
Proof.
  induction d as [|[k1 v1] d IH]; cbn; [right; split; [by intros ?%elem_of_nil|done]|].
  destruct (decide (k1 = k)) as [->|Hne]; cbn; [by left|].
  destruct IH as [->|[Hk ->]]; [by left|]. right. split; [|done].
  rewrite elem_of_cons. by intros [->|?].
Qed.

Lemma dset_wf d k v : wf_dict d -> wf_dict (dset d k v).
Proof.
  unfold wf_dict. intros H. destruct (dset_keys d k v) as [->|[Hk ->]]; [done|].
  apply NoDup_app. split_and!; [done| |by apply NoDup_singleton].
  intros x Hx ->%list_elem_of_singleton. done.
Qed.

Lemma dvalues_spec d v : wf_dict d -> v ∈ dvalues d <-> exists k, dget d k = Some v.
Proof.
  intros Hd. unfold dvalues. rewrite list_elem_of_fmap. split.
  - intros ([k v'] & -> & H). exists k. by apply dget_wf.
  - intros (k & H). exists (k, v). split; [done|by apply dget_wf].
Qed.

(** Updating one value, seen through [dvalues]. *)
Lemma dvalues_dset d k v w :
  wf_dict d -> w ∈ dvalues (dset d k v) <-> w = v \/ exists k', k' <> k /\ dget d k' = Some w.
Proof.
  intros Hd. rewrite dvalues_spec by by apply dset_wf. setoid_rewrite dget_dset. split.
  - intros (k' & H). case_decide as E; [left; congruence|right; eauto].
  - intros [->|(k' & Hne & H)]; [exists k; by rewrite decide_True|].
    exists k'. by rewrite decide_False.
Qed.

Lemma dset_same d k v : dget d k = Some v -> dset d k v = d.
Proof.
  induction d as [|[k1 v1] d IH]; cbn; [done|]. destruct (decide (k1 = k)) as [->|].
  - by intros [= ->].
  - intros H. by rewrite IH.
Qed.

Lemma dget_None_dset_app d k v : dget d k = None -> dset d k v = (d ++ [(k, v)])%list.
Proof.
  induction d as [|[k1 v1] d IH]; cbn; [done|]. destruct (decide (k1 = k)); [done|].
  intros H. by rewrite IH.
Qed.

End Dict.

(** ** Counting values *)

Section Count.
Context {K V : Type} `{EqDecision K} (p : V -> bool).
Implicit Types (d : list (K * V)) (k : K) (v : V).

Definition dcount d : nat := length (List.filter p (dvalues d)).

Definition one (b : bool) : nat := if b then 1 else 0.

Lemma dcount_cons k v d : dcount ((k, v) :: d) = (one (p v) + dcount d)%nat.
Proof. unfold dcount. cbn. by destruct (p v). Qed.

Lemma dcount_update d k v v0 :
  dget d k = Some v0 -> (dcount (dset d k v) + one (p v0) = dcount d + one (p v))%nat.
Proof.
  induction d as [|[k1 v1] d IH]; cbn [dget dset]; [done|].
  destruct (decide (k1 = k)) as [->|Hne]; rewrite !dcount_cons.
  - intros [= ->]. lia.
  - intros H. specialize (IH H). lia.
Qed.

Lemma dcount_new d k v : dget d k = None -> dcount (dset d k v) = (dcount d + one (p v))%nat.
Proof.
  induction d as [|[k1 v1] d IH]; cbn [dget dset]; [intros _; rewrite dcount_cons; cbn; lia|].
  destruct (decide (k1 = k)); [done|]. intros H. rewrite !dcount_cons, IH by done. lia.
Qed.

Lemma dcount_zero d : (forall k v, dget d k = Some v -> p v = false) -> wf_dict d -> dcount d = 0%nat.
Proof.
  intros H Hd. assert (Hv : forall v, v ∈ dvalues d -> p v = false).
  { intros v (k & Hk)%dvalues_spec; [|done]. eauto. }
  unfold dcount. clear -Hv. induction (dvalues d) as [|v l IH]; [done|]. cbn.
  rewrite (Hv v) by left. apply IH. intros w Hw. apply Hv. by right.
Qed.

End Count.

(** ** Dictionaries built from a list *)

(** [{key(item): value(item) for item in items}] *)
Definition dict_of {A K V} `{EqDecision K} (entry : A -> K * V) (items : list A) : list (K * V) :=
  fold_left (fun d item => dset d (entry item).1 (entry item).2) items [].

Lemma dict_of_app {A K V} `{EqDecision K} (entry : A -> K * V) d items :
  NoDup (map fst d ++ map (fun a => (entry a).1) items)%list ->
  fold_left (fun d item => dset d (entry item).1 (entry item).2) items d = (d ++ map entry items)%list.
Proof.
  revert d. induction items as [|a l IH]; intros d H; cbn; [by rewrite app_nil_r|].
  assert (Hnew : dget d (entry a).1 = None).
  { destruct (dget d _) as [x|] eqn:E; [|done]. apply dget_elem in E. cbn in H.
    apply NoDup_app in H as (_ & H & _). destruct (H (entry a).1); [|left].
    apply list_elem_of_fmap. by exists ((entry a).1, x). }
  rewrite dget_None_dset_app by exact Hnew. rewrite IH; [rewrite <- app_assoc; by destruct (entry a)|].
  by rewrite map_app, <- app_assoc.
Qed.

Lemma dict_of_spec {A K V} `{EqDecision K} (entry : A -> K * V) items :
  NoDup (map (fun a => (entry a).1) items) -> dict_of entry items = map entry items.
Proof. intros H. unfold dict_of. by rewrite (dict_of_app entry []). Qed.

(** ** Sorting and canonical sequences

    [sorted] on strings (and on pairs of strings), [len(set(...))], and the check the
    program makes on its tuples: the keys are sorted and no two are equal. *)

(** [sorted(l)]: strings by the codes of their characters. *)
Definition sorted_strings : list string -> list string := merge_sort String.le.

(** Tuples [(a, b)] are compared by [a], then by [b]. *)
Definition pair_le (x y : string * string) : Prop :=
  if decide (x.1 = y.1) then String.le x.2 y.2 else String.le x.1 y.1.

#[export] Instance pair_le_dec : RelDecision pair_le.
Proof. intros x y. unfold pair_le. destruct (decide (x.1 = y.1)); apply _. Defined.

(** [sorted(l)] and [sorted(l, key=value)] *)
Definition sorted_pairs : list (string * string) -> list (string * string) := merge_sort pair_le.

Definition key_le {A} (key : A -> string) (x y : A) : Prop := String.le (key x) (key y).

#[export] Instance key_le_dec {A} (key : A -> string) : RelDecision (key_le key).
Proof. intros x y. unfold key_le. apply _. Defined.

Definition sorted_by {A} (key : A -> string) : list A -> list A := merge_sort (key_le key).

(** [len(set(l))] *)
Definition set_len {A} `{EqDecision A} (l : list A) : nat := length (remove_dups l).

(** [keys != tuple(sorted(keys)) or len(set(keys)) != len(keys)] *)
Definition not_canonical {A} `{EqDecision A} (sort : list A -> list A) (keys : list A) : bool :=
  negb (bool_decide (keys = sort keys)) || negb (set_len keys =? length keys)%nat.

(** The same with an equality test, for values whose [==] is coarser than identity. *)
Fixpoint remove_dups_by {A} (eqb : A -> A -> bool) (l : list A) : list A :=
  match l with
  | [] => []
  | x :: l => if existsb (eqb x) l then remove_dups_by eqb l else x :: remove_dups_by eqb l
  end.
Definition set_len_by {A} (eqb : A -> A -> bool) (l : list A) : nat := length (remove_dups_by eqb l).

(** ** Facts *)

Lemma length_remove_dups {A} `{EqDecision A} (l : list A) :
  (length (remove_dups l) <= length l)%nat.
Proof. induction l as [|x l IH]; cbn; [lia|]. case_decide; cbn; lia. Qed.

Lemma set_len_NoDup {A} `{EqDecision A} (l : list A) : set_len l = length l <-> NoDup l.
Proof.
  unfold set_len. induction l as [|x l IH]; [split; [constructor|done]|].
  pose proof (length_remove_dups l) as L. rewrite NoDup_cons, <- IH. cbn.
  case_decide as E; cbn; [split; [lia|tauto]|]. split; [intros H; split; [done|lia]|intros [_ ->]; done].
Qed.

#[export] Instance pair_le_total : Total pair_le.
Proof.
  intros [a b] [c d]. unfold pair_le. cbn. repeat case_decide; try congruence; apply (total String.le).
Qed.

#[export] Instance pair_le_trans : Transitive pair_le.
Proof.
  intros [a b] [c d] [e f]. unfold pair_le. cbn. intros H1 H2.
  repeat case_decide; subst; try congruence; try (by etrans).
  match goal with H : _ <> _ |- _ => destruct H; by apply (anti_symm String.le) end.
Qed.

#[export] Instance pair_le_antisymm : AntiSymm (=) pair_le.
Proof.
  intros [a b] [c d]. unfold pair_le. cbn. intros H1 H2. destruct (decide (a = c)) as [->|Hne].
  - rewrite decide_True in H2 by done. f_equal. by apply (anti_symm String.le).
  - rewrite decide_False in H2 by done. destruct Hne. by apply (anti_symm String.le).
Qed.

#[export] Instance key_le_total {A} (key : A -> string) : Total (key_le key).
Proof. intros x y. apply (total String.le). Qed.

#[export] Instance key_le_trans {A} (key : A -> string) : Transitive (key_le key).
Proof. intros x y z. unfold key_le. apply transitivity. Qed.

(** A list is left unchanged by sorting exactly when it is sorted. *)
Lemma sorted_fixed {A} (R : relation A) `{!RelDecision R, !Transitive R, !Total R, !AntiSymm (=) R} l :
  l = merge_sort R l <-> StronglySorted R l.
Proof.
  split; [intros ->; by apply StronglySorted_merge_sort|]. intros H.
  apply (StronglySorted_unique R); [done|by apply StronglySorted_merge_sort|by rewrite merge_sort_Permutation].
Qed.

Lemma not_canonical_false {A} `{EqDecision A} (R : relation A)
    `{!RelDecision R, !Transitive R, !Total R, !AntiSymm (=) R} keys :
  not_canonical (merge_sort R) keys = false <-> StronglySorted R keys /\ NoDup keys.
Proof.
  unfold not_canonical. rewrite orb_false_iff, !negb_false_iff, bool_decide_eq_true, Nat.eqb_eq.
  by rewrite set_len_NoDup, sorted_fixed.
Qed.
