(* ===== verification/Memory.v ===== *)
(** * The execution repository

    [InMemoryExecutionRepository] of [backend/app/persistence/memory.py]: accounts,
    baselines, entry budgets, intents, attempts, authorisations and certificates, with
    every operation of the class.  The lock makes each operation atomic, so an
    operation is a function from the state to the state it leaves and its result; the
    trusted clock and the token of [uuid4] are arguments.  An operation that raises
    leaves the state as it was, but for the two places where the code has stored
    something before ([claim_intent], [recover_entry_reservations]). *)

From Stdlib Require Import ZArith Lia String Ascii List Bool.
From stdpp Require Import base strings gmap countable option tactics list.
From S2P Require Import Prelude PyDict PyText PyDecimal PyTime PyHash Contracts OrderLimits OrderStatus ExecModels Identity Finalization.

#[local] Open Scope string_scope.
#[local] Open Scope Z_scope.

#[export] Instance AccountRole_countable : Countable AccountRole.
Proof.
  refine (inj_countable' (fun r => match r with SUBMISSION => 0%N | DEVELOPMENT => 1%N | REPLAY => 2%N end)
    (fun n => match n with 0%N => SUBMISSION | 1%N => DEVELOPMENT | _ => REPLAY end) _).
  by intros [].
Defined.

(** ** State *)

Record AccountState := mk_AccountState {
  as_role : AccountRole;
  as_fingerprint : string;
  as_equity : decimal;
  as_autonomous_enabled : bool;
  as_execution_locked : bool;
  as_execution_lock_reason : option string;
  as_execution_locked_at : option datetime;
  as_execution_epoch : Z;
  as_claim_generation : Z;
}.

Record EntryBudget := mk_EntryBudget {
  eb_entries_used : Z;
  eb_gross_approved_risk : decimal;
  eb_reserved_intent_id : option uuid;
  eb_reserved_risk : decimal;
}.

Definition new_budget : EntryBudget := mk_EntryBudget 0 (Dint 0) None (Dint 0).

(** [contracts/v1/models.py] *)
Record SubmissionBaseline := mk_SubmissionBaseline {
  sb_role : AccountRole;
  sb_equity : decimal;
  sb_captured_at : datetime;
  sb_account_fingerprint : string;
  sb_positions_hash : string;
  sb_orders_hash : string;
  sb_activities_hash : string;
  sb_clean : bool;
}.

Definition event_day : Type := AccountRole * string * date.

(** The dictionaries of the object.  The intents are iterated in insertion order. *)
Record repository := mk_repository {
  rp_accounts : gmap AccountRole AccountState;
  rp_baselines : gmap AccountRole SubmissionBaseline;
  rp_contaminated : gset AccountRole;
  rp_budgets : gmap AccountRole EntryBudget;
  rp_event_days : gset event_day;
  rp_intents : list (uuid * ExecutionIntent);
  rp_digest_ids : gmap string uuid;
  rp_attempts : gmap uuid (list OrderAttempt);
  rp_entry_approvals : gmap uuid EntryApprovalAuthorization;
  rp_assessment_certificates : gmap uuid AssessmentCertificate;
  rp_assessment_ids : gmap uuid uuid;
  rp_certificates : gmap uuid ExecutionCertificate;
  rp_intent_certificate_ids : gmap uuid uuid;
}.

Definition new_repository : repository :=
  mk_repository ∅ ∅ ∅ ∅ ∅ [] ∅ ∅ ∅ ∅ ∅ ∅ ∅.

(** What the constructor was given, and the validation of the pydantic model. *)
Record config := mk_config {
  cfg_entry_limits : option EntryBudgetLimits;
  cfg_baseline_model : SubmissionBaseline -> M SubmissionBaseline;
}.

(** *** Assignments to one dictionary *)

Definition set_accounts (r : repository) x : repository :=
  mk_repository x (rp_baselines r) (rp_contaminated r) (rp_budgets r) (rp_event_days r)
    (rp_intents r) (rp_digest_ids r) (rp_attempts r) (rp_entry_approvals r)
    (rp_assessment_certificates r) (rp_assessment_ids r) (rp_certificates r)
    (rp_intent_certificate_ids r).
Definition set_baselines (r : repository) x : repository :=
  mk_repository (rp_accounts r) x (rp_contaminated r) (rp_budgets r) (rp_event_days r)
    (rp_intents r) (rp_digest_ids r) (rp_attempts r) (rp_entry_approvals r)
    (rp_assessment_certificates r) (rp_assessment_ids r) (rp_certificates r)
    (rp_intent_certificate_ids r).
Definition set_contaminated (r : repository) x : repository :=
  mk_repository (rp_accounts r) (rp_baselines r) x (rp_budgets r) (rp_event_days r)
    (rp_intents r) (rp_digest_ids r) (rp_attempts r) (rp_entry_approvals r)
    (rp_assessment_certificates r) (rp_assessment_ids r) (rp_certificates r)
    (rp_intent_certificate_ids r).
Definition set_budgets (r : repository) x : repository :=
  mk_repository (rp_accounts r) (rp_baselines r) (rp_contaminated r) x (rp_event_days r)
    (rp_intents r) (rp_digest_ids r) (rp_attempts r) (rp_entry_approvals r)
    (rp_assessment_certificates r) (rp_assessment_ids r) (rp_certificates r)
    (rp_intent_certificate_ids r).
Definition set_event_days (r : repository) x : repository :=
  mk_repository (rp_accounts r) (rp_baselines r) (rp_contaminated r) (rp_budgets r) x
    (rp_intents r) (rp_digest_ids r) (rp_attempts r) (rp_entry_approvals r)
    (rp_assessment_certificates r) (rp_assessment_ids r) (rp_certificates r)
    (rp_intent_certificate_ids r).
Definition set_intents (r : repository) x : repository :=
  mk_repository (rp_accounts r) (rp_baselines r) (rp_contaminated r) (rp_budgets r)
    (rp_event_days r) x (rp_digest_ids r) (rp_attempts r) (rp_entry_approvals r)
    (rp_assessment_certificates r) (rp_assessment_ids r) (rp_certificates r)
    (rp_intent_certificate_ids r).
Definition set_digest_ids (r : repository) x : repository :=
  mk_repository (rp_accounts r) (rp_baselines r) (rp_contaminated r) (rp_budgets r)
    (rp_event_days r) (rp_intents r) x (rp_attempts r) (rp_entry_approvals r)
    (rp_assessment_certificates r) (rp_assessment_ids r) (rp_certificates r)
    (rp_intent_certificate_ids r).
Definition set_attempts (r : repository) x : repository :=
  mk_repository (rp_accounts r) (rp_baselines r) (rp_contaminated r) (rp_budgets r)
    (rp_event_days r) (rp_intents r) (rp_digest_ids r) x (rp_entry_approvals r)
    (rp_assessment_certificates r) (rp_assessment_ids r) (rp_certificates r)
    (rp_intent_certificate_ids r).
Definition set_entry_approvals (r : repository) x : repository :=
  mk_repository (rp_accounts r) (rp_baselines r) (rp_contaminated r) (rp_budgets r)
    (rp_event_days r) (rp_intents r) (rp_digest_ids r) (rp_attempts r) x
    (rp_assessment_certificates r) (rp_assessment_ids r) (rp_certificates r)
    (rp_intent_certificate_ids r).
Definition set_assessments (r : repository) x y : repository :=
  mk_repository (rp_accounts r) (rp_baselines r) (rp_contaminated r) (rp_budgets r)
    (rp_event_days r) (rp_intents r) (rp_digest_ids r) (rp_attempts r) (rp_entry_approvals r)
    x y (rp_certificates r) (rp_intent_certificate_ids r).
Definition set_certificates (r : repository) x y : repository :=
  mk_repository (rp_accounts r) (rp_baselines r) (rp_contaminated r) (rp_budgets r)
    (rp_event_days r) (rp_intents r) (rp_digest_ids r) (rp_attempts r) (rp_entry_approvals r)
    (rp_assessment_certificates r) (rp_assessment_ids r) x y.

(** *** [dataclasses.replace] *)

Definition account_with_equity (a : AccountState) x : AccountState :=
  mk_AccountState (as_role a) (as_fingerprint a) x (as_autonomous_enabled a)
    (as_execution_locked a) (as_execution_lock_reason a) (as_execution_locked_at a)
    (as_execution_epoch a) (as_claim_generation a).
Definition account_with_autonomous_enabled (a : AccountState) x : AccountState :=
  mk_AccountState (as_role a) (as_fingerprint a) (as_equity a) x
    (as_execution_locked a) (as_execution_lock_reason a) (as_execution_locked_at a)
    (as_execution_epoch a) (as_claim_generation a).
Definition account_locked (a : AccountState) (reason : string) (at_ : datetime) : AccountState :=
  mk_AccountState (as_role a) (as_fingerprint a) (as_equity a) (as_autonomous_enabled a)
    true (Some reason) (Some at_) (as_execution_epoch a) (as_claim_generation a).
Definition account_with_claim_generation (a : AccountState) x : AccountState :=
  mk_AccountState (as_role a) (as_fingerprint a) (as_equity a) (as_autonomous_enabled a)
    (as_execution_locked a) (as_execution_lock_reason a) (as_execution_locked_at a)
    (as_execution_epoch a) x.

Definition budget_with_reservation (b : EntryBudget) (id : option uuid) (risk : decimal)
    : EntryBudget :=
  mk_EntryBudget (eb_entries_used b) (eb_gross_approved_risk b) id risk.

Definition intent_claimed (i : ExecutionIntent) (actor : Actor) (now : datetime) (token : uuid)
    (generation epoch : Z) (lease : datetime) : ExecutionIntent :=
  {| ei_intent_id := ei_intent_id i; ei_account_role := ei_account_role i;
     ei_envelope := ei_envelope i; ei_digest := ei_digest i; ei_state := CLAIMED;
     ei_claimed_by := Some actor; ei_claimed_at := Some now;
     ei_first_fill_consumed := ei_first_fill_consumed i; ei_claim_token := Some token;
     ei_claim_generation := generation; ei_execution_epoch := epoch;
     ei_heartbeat_at := Some now; ei_lease_expires_at := Some lease |}.

Definition intent_terminal (i : ExecutionIntent) (consumed : bool) : ExecutionIntent :=
  {| ei_intent_id := ei_intent_id i; ei_account_role := ei_account_role i;
     ei_envelope := ei_envelope i; ei_digest := ei_digest i; ei_state := TERMINAL;
     ei_claimed_by := ei_claimed_by i; ei_claimed_at := ei_claimed_at i;
     ei_first_fill_consumed := consumed; ei_claim_token := ei_claim_token i;
     ei_claim_generation := ei_claim_generation i; ei_execution_epoch := ei_execution_epoch i;
     ei_heartbeat_at := ei_heartbeat_at i; ei_lease_expires_at := ei_lease_expires_at i |}.

(** ** Operations *)

Definition _ensure_executable_role (role : AccountRole) : M unit :=
  when bool_decide (role = REPLAY) then_ blocked "REPLAY_EXECUTION_FORBIDDEN";; Ok tt.

(** [except ValueError as error: raise ExecutionBlocked(str(error)) from error] *)
Definition value_error_blocks {A} (m : M A) : M A :=
  try_with m (fun e =>
    match e with
    | ValueError code | ExecutionBlocked code | ExecutionPending code | ExposureBlocked code
    | OptionContractSymbolError code => blocked code
    | e => Raise e
    end).

Definition _validate_entry_limits (limits : option EntryBudgetLimits) (policy_hash : string)
    (equity : decimal) (budget : EntryBudget) (proposed_risk : decimal) (proposed_quantity : Z)
    : M unit :=
  match limits with
  | None => blocked "ENTRY_LIMITS_REQUIRED"
  | Some limits =>
      value_error_blocks
        (validate_entry limits policy_hash equity (eb_entries_used budget)
           (eb_gross_approved_risk budget) proposed_risk proposed_quantity)
  end.

Definition register_account (r : repository) (role : AccountRole) (fingerprint : string)
    (equity : decimal) : M repository :=
  _ ← _ensure_executable_role role;
  let current := rp_accounts r !! role in
  when match current with
       | Some account => negb (String.eqb (as_fingerprint account) fingerprint)
       | None => false
       end
  then_ blocked "ACCOUNT_FINGERPRINT_MISMATCH";;
  when existsb (fun '(registered_role, account) =>
         negb (bool_decide (registered_role = role))
         && String.eqb (as_fingerprint account) fingerprint)
       (map_to_list (rp_accounts r))
  then_ blocked "ACCOUNT_FINGERPRINT_ALREADY_REGISTERED";;
  let account :=
    match current with
    | Some account => account_with_equity account equity
    | None => mk_AccountState role fingerprint equity false false None None 0 0
    end in
  let r := set_accounts r (<[role := account]> (rp_accounts r)) in
  Ok (match rp_budgets r !! role with
      | Some _ => r
      | None => set_budgets r (<[role := new_budget]> (rp_budgets r))
      end).

Definition set_autonomous_enabled (r : repository) (role : AccountRole) (enabled : bool)
    (actor : Actor) : M repository :=
  _ ← _ensure_executable_role role;
  when negb (bool_decide (actor = OWNER)) then_ blocked "SCHEDULER_CANNOT_ENABLE_AUTONOMY";;
  account ← from_option_key (rp_accounts r !! role);
  Ok (set_accounts r
        (<[role := account_with_autonomous_enabled account enabled]> (rp_accounts r))).

Definition capture_baseline (cfg : config) (r : repository) (role : AccountRole)
    (fingerprint : string) (equity : decimal) (captured_at : datetime)
    (positions_hash orders_hash activities_hash : string)
    : M (repository * SubmissionBaseline) :=
  _ ← _ensure_executable_role role;
  when bool_decide (is_Some (rp_baselines r !! role)) then_ blocked "BASELINE_ALREADY_CAPTURED";;
  when negb (bool_decide (role = SUBMISSION))
       || match rp_accounts r !! role with
          | Some account => negb (String.eqb (as_fingerprint account) fingerprint)
          | None => true
          end
  then_ blocked "BASELINE_ACCOUNT_MISMATCH";;
  when negb (equity ==. Dint 100000) then_ blocked "BASELINE_EQUITY_INVALID";;
  baseline ← cfg_baseline_model cfg
    {| sb_role := SUBMISSION; sb_equity := equity; sb_captured_at := captured_at;
       sb_account_fingerprint := fingerprint; sb_positions_hash := positions_hash;
       sb_orders_hash := orders_hash; sb_activities_hash := activities_hash; sb_clean := true |};
  Ok (set_baselines r (<[role := baseline]> (rp_baselines r)), baseline).

Definition ADJUSTMENT_ACTIVITIES : list string :=
  ["RESET"; "DEPOSIT"; "WITHDRAWAL"; "TRANSFER"; "JOURNAL"; "UNKNOWN_CASH"].

Definition observe_account_adjustment (r : repository) (role : AccountRole) (activity : string)
    : M repository :=
  _ ← _ensure_executable_role role;
  Ok (if in_states activity ADJUSTMENT_ACTIVITIES
      then set_contaminated r ({[role]} ∪ rp_contaminated r) else r).

Definition normalized_return (r : repository) (role : AccountRole) (current_equity : decimal)
    : M (option decimal) :=
  _ ← _ensure_executable_role role;
  match rp_baselines r !! role with
  | Some baseline =>
      if decide (role ∈ rp_contaminated r) then Ok None
      else
        change ← dsub current_equity (sb_equity baseline);
        ratio ← ddiv change (sb_equity baseline);
        result ← dmul ratio (Dint 100);
        Ok (Some result)
  | None => Ok None
  end.

Definition is_entry (i : ExecutionIntent) : bool := bool_decide (oe_action (ei_envelope i) = EX_ENTRY).

Definition active_entry (role : AccountRole) (intent : ExecutionIntent) : bool :=
  bool_decide (ei_account_role intent = role) && is_entry intent
  && negb (bool_decide (ei_state intent = TERMINAL)).

Definition approve_intent (r : repository) (intent_id : uuid) (role : AccountRole)
    (envelope : OrderEnvelope) : M (repository * ExecutionIntent) :=
  _ ← _ensure_executable_role role;
  let digest := intent_digest envelope in
  match rp_digest_ids r !! digest with
  | Some existing_id =>
      existing ← from_option_key (dget (rp_intents r) existing_id);
      when negb (bool_decide (ei_account_role existing = role))
           || negb (envelope_eq (ei_envelope existing) envelope)
      then_ blocked "INTENT_DIGEST_COLLISION";;
      Ok (r, existing)
  | None =>
      when bool_decide (is_Some (dget (rp_intents r) intent_id))
      then_ blocked "INTENT_ID_ALREADY_USED";;
      let day := (role, oe_event_key envelope, oe_trading_day envelope) in
      let entry := bool_decide (oe_action envelope = EX_ENTRY) in
      when entry && bool_decide (day ∈ rp_event_days r)
      then_ blocked "EVENT_DAY_ALREADY_USED";;
      when entry && existsb (active_entry role) (dvalues (rp_intents r))
      then_ blocked "ENTRY_INTENT_ACTIVE";;
      when match rp_accounts r !! role with
           | Some account =>
               negb (String.eqb (as_fingerprint account) (oe_account_fingerprint envelope))
           | None => true
           end
      then_ blocked "ACCOUNT_FINGERPRINT_MISMATCH";;
      let intent :=
        {| ei_intent_id := intent_id; ei_account_role := role; ei_envelope := envelope;
           ei_digest := digest; ei_state := APPROVED; ei_claimed_by := None;
           ei_claimed_at := None; ei_first_fill_consumed := false; ei_claim_token := None;
           ei_claim_generation := 0; ei_execution_epoch := 0; ei_heartbeat_at := None;
           ei_lease_expires_at := None |} in
      let r := set_intents r (dset (rp_intents r) intent_id intent) in
      let r := set_digest_ids r (<[digest := intent_id]> (rp_digest_ids r)) in
      let r := if entry then set_event_days r ({[day]} ∪ rp_event_days r) else r in
      let r := set_attempts r (<[intent_id := []]> (rp_attempts r)) in
      Ok (r, intent)
  end.

Definition approval_values (approval : EntryApprovalAuthorization) : AuthorizationValues :=
  mk_AuthorizationValues (ea_account_role approval) (ea_policy_hash approval)
    (ea_book_fingerprint approval) (ea_envelope_hash approval) (ea_approved_max_loss approval)
    (ea_quantity approval) (ea_valid approval) (ea_valid_from approval) (ea_expires_at approval).

Definition assessment_values (certificate : AssessmentCertificate) : AuthorizationValues :=
  mk_AuthorizationValues (ct_account_role certificate) (ct_policy_hash certificate)
    (ct_position_fingerprint certificate) (ct_envelope_hash certificate)
    (ct_approved_max_loss certificate) (ct_quantity certificate) (ct_valid certificate)
    (ct_created_at certificate) (ct_expires_at certificate).

Definition _require_authorization_origin (r : repository) (intent : ExecutionIntent)
    (now : datetime) : M unit :=
  let authorization_id := oe_authorization_certificate_id (ei_envelope intent) in
  if is_entry intent then
    when bool_decide (is_Some (rp_assessment_certificates r !! authorization_id))
    then_ blocked "AUTHORIZATION_ACTION_MISMATCH";;
    match rp_entry_approvals r !! authorization_id with
    | None => blocked "AUTHORIZATION_ORIGIN_NOT_FOUND"
    | Some approval => validate_authorization intent (approval_values approval) now
    end
  else
    when bool_decide (is_Some (rp_entry_approvals r !! authorization_id))
    then_ blocked "AUTHORIZATION_ACTION_MISMATCH";;
    match rp_assessment_certificates r !! authorization_id with
    | None => blocked "AUTHORIZATION_ORIGIN_NOT_FOUND"
    | Some certificate =>
        when negb (bool_decide (ct_action certificate = oe_action (ei_envelope intent)))
        then_ blocked "AUTHORIZATION_ACTION_MISMATCH";;
        validate_authorization intent (assessment_values certificate) now
    end.

Definition _reserve_entry (cfg : config) (r : repository) (intent : ExecutionIntent)
    (account : AccountState) : M repository :=
  let role := ei_account_role intent in
  budget ← from_option_key (rp_budgets r !! role);
  when bool_decide (role = SUBMISSION) && bool_decide (rp_baselines r !! role = None)
  then_ blocked "SUBMISSION_BASELINE_REQUIRED";;
  when bool_decide (role = SUBMISSION) && bool_decide (role ∈ rp_contaminated r)
  then_ blocked "SUBMISSION_BASELINE_CONTAMINATED";;
  when bool_decide (is_Some (eb_reserved_intent_id budget))
  then_ blocked "ENTRY_RESERVATION_ACTIVE";;
  _ ← _validate_entry_limits (cfg_entry_limits cfg) (oe_policy_hash (ei_envelope intent))
        (as_equity account) budget (oe_approved_max_loss (ei_envelope intent))
        (oe_quantity (ei_envelope intent));
  Ok (set_budgets r
        (<[role := budget_with_reservation budget (Some (ei_intent_id intent))
                     (oe_approved_max_loss (ei_envelope intent))]> (rp_budgets r))).

Definition claimed_for (role : AccountRole) (other : ExecutionIntent) : bool :=
  bool_decide (ei_account_role other = role) && bool_decide (ei_state other = CLAIMED).

(** [claim_intent] up to the reservation of the entry. *)
Definition claim_reserve (cfg : config) (r : repository) (intent_id : uuid) (actor : Actor)
    (account_role : AccountRole) (account_fingerprint : string) (trusted_now : datetime)
    : M (repository * ExecutionIntent * AccountState) :=
  intent ← from_option_key (dget (rp_intents r) intent_id);
  when negb (bool_decide (ei_account_role intent = account_role))
  then_ blocked "ACCOUNT_ROLE_MISMATCH";;
  _ ← _ensure_executable_role (ei_account_role intent);
  account ← from_option_key (rp_accounts r !! ei_account_role intent);
  when negb (String.eqb (as_fingerprint account) account_fingerprint)
  then_ blocked "ACCOUNT_FINGERPRINT_MISMATCH";;
  when as_execution_locked account then_ blocked "ACCOUNT_EXECUTION_LOCKED";;
  when negb (bool_decide (ei_state intent = APPROVED)) then_ blocked "INTENT_ALREADY_CLAIMED";;
  when existsb (claimed_for (ei_account_role intent)) (dvalues (rp_intents r))
  then_ blocked "ACCOUNT_EXECUTION_LEASE_ACTIVE";;
  _ ← _require_authorization_origin r intent trusted_now;
  if is_entry intent then
    when bool_decide (actor = OWNER) then_ blocked "OWNER_ENTRY_FORBIDDEN";;
    when negb (as_autonomous_enabled account) then_ blocked "AUTONOMOUS_DISABLED";;
    r ← _reserve_entry cfg r intent account;
    Ok (r, intent, account)
  else
    when bool_decide (actor = SCHEDULER) && negb (as_autonomous_enabled account)
    then_ blocked "AUTONOMOUS_DISABLED";;
    Ok (r, intent, account).

Definition claim_intent (cfg : config) (r : repository) (intent_id : uuid) (actor : Actor)
    (account_role : AccountRole) (account_fingerprint : string) (trusted_now : datetime)
    (token : uuid) : repository * M ExecutionIntent :=
  match claim_reserve cfg r intent_id actor account_role account_fingerprint trusted_now with
  | Raise e => (r, Raise e)
  | Ok (r, intent, account) =>
      match dt_add trusted_now (seconds 30) with
      | Raise e => (r, Raise e)
      | Ok lease =>
          let generation := as_claim_generation account + 1 in
          let claimed :=
            intent_claimed intent actor trusted_now token generation
              (as_execution_epoch account) lease in
          let r := set_accounts r
            (<[ei_account_role intent := account_with_claim_generation account generation]>
               (rp_accounts r)) in
          (set_intents r (dset (rp_intents r) intent_id claimed), Ok claimed)
      end
  end.

Definition release_unsubmitted_claim (r : repository) (intent_id : uuid) : M repository :=
  intent ← from_option_key (dget (rp_intents r) intent_id);
  when negb (bool_decide (ei_state intent = CLAIMED))
       ||| (attempts ← from_option_key (rp_attempts r !! intent_id);
            Ok (negb (bool_decide (attempts = []))))
  then_ blocked "CLAIM_NOT_UNSUBMITTED";;
  budget ← from_option_key (rp_budgets r !! ei_account_role intent);
  let r :=
    if decide (eb_reserved_intent_id budget = Some intent_id)
    then set_budgets r
           (<[ei_account_role intent := budget_with_reservation budget None (Dint 0)]>
              (rp_budgets r))
    else r in
  Ok (set_intents r
        (dset (rp_intents r) intent_id (intent_terminal intent (ei_first_fill_consumed intent)))).

(** The intent whose attempts may change, with its attempts. *)
Definition open_attempts (r : repository) (intent_id : uuid) : M (list OrderAttempt) :=
  intent ← from_option_key (dget (rp_intents r) intent_id);
  _ ← _ensure_executable_role (ei_account_role intent);
  account ← from_option_key (rp_accounts r !! ei_account_role intent);
  when as_execution_locked account then_ blocked "ACCOUNT_EXECUTION_LOCKED";;
  when negb (bool_decide (ei_state intent = CLAIMED)) then_ blocked "INTENT_NOT_CLAIMED";;
  from_option_key (rp_attempts r !! intent_id).

Definition add_attempt (r : repository) (attempt : OrderAttempt) : M repository :=
  attempts ← open_attempts r (oa_intent_id attempt);
  when negb (oa_ordinal attempt =? Z.of_nat (length attempts)) || (3 <? oa_ordinal attempt)
  then_ blocked "ATTEMPT_ORDINAL_INVALID";;
  when negb (bool_decide (oa_replaces_client_order_id attempt
                          = option_map oa_client_order_id (last attempts)))
  then_ blocked "ATTEMPT_REPLACEMENT_LINEAGE_INVALID";;
  Ok (set_attempts r (<[oa_intent_id attempt := (attempts ++ [attempt])%list]> (rp_attempts r))).

(** [attempts[-1] = attempt] on a list that is not empty. *)
Definition replace_last {A} (l : list A) (x : A) : list A := (removelast l ++ [x])%list.

Definition replace_attempt (r : repository) (attempt : OrderAttempt) : M repository :=
  attempts ← open_attempts r (oa_intent_id attempt);
  match last attempts with
  | None => blocked "ATTEMPT_NOT_FOUND"
  | Some existing =>
      when negb (oa_ordinal existing =? oa_ordinal attempt) then_ blocked "ATTEMPT_NOT_FOUND";;
      when negb (String.eqb (oa_client_order_id attempt) (oa_client_order_id existing))
           || negb (String.eqb (oa_request_hash attempt) (oa_request_hash existing))
           || negb (bool_decide (oa_replaces_client_order_id attempt
                                 = oa_replaces_client_order_id existing))
           || negb (oa_intent_id attempt =? oa_intent_id existing)%N
      then_ blocked "ATTEMPT_IMMUTABLE_FIELDS_MISMATCH";;
      _ ← validate_attempt_observation existing attempt;
      Ok (set_attempts r
            (<[oa_intent_id attempt := replace_last attempts attempt]> (rp_attempts r)))
  end.

Definition attempts_for (r : repository) (intent_id : uuid) : M (list OrderAttempt) :=
  from_option_key (rp_attempts r !! intent_id).
Definition execution_attempts_for := attempts_for.

(** [requested_status.startswith("PARTIAL_")] *)
Definition is_partial_status (status : string) : bool := String.prefix "PARTIAL_" status.

(** The budget after an execution, and whether its fill is consumed. *)
Definition settle_budget (cfg : config) (intent : ExecutionIntent) (account : AccountState)
    (budget : EntryBudget) (has_fill : bool) : M (EntryBudget * bool) :=
  let consumed := ei_first_fill_consumed intent in
  if is_entry intent then
    when negb (bool_decide (eb_reserved_intent_id budget = Some (ei_intent_id intent)))
    then_ blocked "ENTRY_RESERVATION_MISSING";;
    when negb (eb_reserved_risk budget ==. oe_approved_max_loss (ei_envelope intent))
    then_ blocked "ENTRY_RESERVATION_RISK_MISMATCH";;
    if has_fill : bool then
      _ ← _validate_entry_limits (cfg_entry_limits cfg) (oe_policy_hash (ei_envelope intent))
            (as_equity account) budget (eb_reserved_risk budget)
            (oe_quantity (ei_envelope intent));
      gross ← dadd (eb_gross_approved_risk budget) (eb_reserved_risk budget);
      Ok (mk_EntryBudget (eb_entries_used budget + 1) gross None (Dint 0), true)
    else Ok (budget_with_reservation budget None (Dint 0), consumed)
  else Ok (budget, has_fill || consumed).

Definition finalize_execution (cfg : config) (r : repository) (certificate : ExecutionCertificate)
    (reconciliation : Reconciliation) (requested_status : string) (trusted_now : datetime)
    : M (repository * ExecutionCertificate) :=
  let intent_id := xc_intent_id certificate in
  when bool_decide (is_Some (rp_certificates r !! xc_certificate_id certificate))
  then_ blocked "CERTIFICATE_IMMUTABLE";;
  when bool_decide (is_Some (rp_intent_certificate_ids r !! intent_id))
  then_ blocked "INTENT_ALREADY_CERTIFIED";;
  intent ← from_option_key (dget (rp_intents r) intent_id);
  _ ← _ensure_executable_role (ei_account_role intent);
  attempts ← from_option_key (rp_attempts r !! ei_intent_id intent);
  '(normalized, has_fill) ←
    validate_finalization intent attempts certificate reconciliation requested_status trusted_now;
  let lock_reason :=
    if (has_fill : bool) && is_partial_status requested_status
    then Some "UNMANAGED_PARTIAL_EXPOSURE" else execution_lock_reason reconciliation in
  account ← from_option_key (rp_accounts r !! ei_account_role intent);
  let locked_account :=
    match lock_reason with
    | Some reason =>
        if as_execution_locked account then account else account_locked account reason trusted_now
    | None => account
    end in
  budget ← from_option_key (rp_budgets r !! ei_account_role intent);
  '(budget, consumed) ← settle_budget cfg intent account budget has_fill;
  let r :=
    if is_entry intent
    then set_budgets r (<[ei_account_role intent := budget]> (rp_budgets r)) else r in
  let r := set_accounts r (<[ei_account_role intent := locked_account]> (rp_accounts r)) in
  let r := set_certificates r
    (<[xc_certificate_id normalized := normalized]> (rp_certificates r))
    (<[intent_id := xc_certificate_id certificate]> (rp_intent_certificate_ids r)) in
  Ok (set_intents r (dset (rp_intents r) intent_id (intent_terminal intent consumed)), normalized).

Definition get_execution_certificate (r : repository) (certificate_id : uuid)
    : M ExecutionCertificate := from_option_key (rp_certificates r !! certificate_id).

Definition add_assessment_certificate (r : repository) (certificate : AssessmentCertificate)
    : M repository :=
  _ ← _ensure_executable_role (ct_account_role certificate);
  let id := ct_certificate_id certificate in
  when bool_decide (is_Some (rp_assessment_certificates r !! id))
  then_ blocked "CERTIFICATE_IMMUTABLE";;
  when bool_decide (is_Some (rp_entry_approvals r !! id))
  then_ blocked "AUTHORIZATION_ID_COLLISION";;
  when bool_decide (is_Some (rp_assessment_ids r !! ct_assessment_id certificate))
  then_ blocked "ASSESSMENT_ALREADY_CERTIFIED";;
  Ok (set_assessments r (<[id := certificate]> (rp_assessment_certificates r))
        (<[ct_assessment_id certificate := id]> (rp_assessment_ids r))).

Definition add_entry_approval (r : repository) (approval : EntryApprovalAuthorization)
    : M repository :=
  _ ← _ensure_executable_role (ea_account_role approval);
  let id := ea_approval_id approval in
  when bool_decide (is_Some (rp_entry_approvals r !! id)) then_ blocked "AUTHORIZATION_IMMUTABLE";;
  when bool_decide (is_Some (rp_assessment_certificates r !! id))
  then_ blocked "AUTHORIZATION_ID_COLLISION";;
  Ok (set_entry_approvals r (<[id := approval]> (rp_entry_approvals r))).

Definition get_assessment_certificate (r : repository) (certificate_id : uuid)
    : M AssessmentCertificate := from_option_key (rp_assessment_certificates r !! certificate_id).

Definition unfilled_claimed_entry (intent : ExecutionIntent) : bool :=
  is_entry intent && bool_decide (ei_state intent = CLAIMED) && negb (ei_first_fill_consumed intent).

(** The loop of [recover_entry_reservations]; a missing budget stops it half way. *)
Fixpoint recover_reservations (r : repository) (intents : list ExecutionIntent)
    : repository * M unit :=
  match intents with
  | [] => (r, Ok tt)
  | intent :: intents =>
      if unfilled_claimed_entry intent then
        match rp_budgets r !! ei_account_role intent with
        | None => (r, Raise KeyError)
        | Some budget =>
            recover_reservations
              (set_budgets r
                 (<[ei_account_role intent :=
                      budget_with_reservation budget (Some (ei_intent_id intent))
                        (oe_approved_max_loss (ei_envelope intent))]> (rp_budgets r)))
              intents
        end
      else recover_reservations r intents
  end.
Definition recover_entry_reservations (r : repository) : repository * M unit :=
  recover_reservations r (dvalues (rp_intents r)).

Definition get_entry_budget (r : repository) (role : AccountRole) : M EntryBudget :=
  _ ← _ensure_executable_role role; from_option_key (rp_budgets r !! role).

Definition get_execution_lock (r : repository) (role : AccountRole) : M AccountExecutionLock :=
  _ ← _ensure_executable_role role;
  account ← from_option_key (rp_accounts r !! role);
  Ok (mk_AccountExecutionLock (as_execution_locked account) (as_execution_lock_reason account)
        (as_execution_locked_at account)).

Definition get_intent (r : repository) (intent_id : uuid) : M ExecutionIntent :=
  intent ← from_option_key (dget (rp_intents r) intent_id);
  _ ← _ensure_executable_role (ei_account_role intent);
  Ok intent.
