(* ===== verification/MemoryFacts.v ===== *)
(** * The execution repository is safe

    The operations of [Memory] as steps of a transition system, with the invariant of
    every reachable state (one execution lease and one active entry per account, a
    lineage of attempts, an exact entry ledger inside its limits), and with what no
    sequence of operations can undo. *)

From Stdlib Require Import ZArith Lia String Ascii List Bool QArith.
From stdpp Require Import base strings gmap countable option tactics relations list.
From S2P Require Import Prelude PyDict PyText PyDecimal PyDecimalFacts PyTime PyHash Contracts OrderLimits OrderStatus ExecModels Identity Finalization Memory.

#[local] Open Scope string_scope.
#[local] Open Scope Z_scope.
#[local] Opaque intent_digest order_envelope_hash expected_certificate_id.

(** ** Steps *)

Inductive operation :=
  | RegisterAccount (role : AccountRole) (fingerprint : string) (equity : decimal)
  | SetAutonomousEnabled (role : AccountRole) (enabled : bool) (actor : Actor)
  | CaptureBaseline (role : AccountRole) (fingerprint : string) (equity : decimal)
      (captured_at : datetime) (positions_hash orders_hash activities_hash : string)
  | ObserveAccountAdjustment (role : AccountRole) (activity : string)
  | ApproveIntent (intent_id : uuid) (role : AccountRole) (envelope : OrderEnvelope)
  | ClaimIntent (intent_id : uuid) (actor : Actor) (role : AccountRole) (fingerprint : string)
      (now : datetime) (token : uuid)
  | ReleaseUnsubmittedClaim (intent_id : uuid)
  | AddAttempt (attempt : OrderAttempt)
  | ReplaceAttempt (attempt : OrderAttempt)
  | FinalizeExecution (certificate : ExecutionCertificate) (reconciliation : Reconciliation)
      (requested_status : string) (now : datetime)
  | AddAssessmentCertificate (certificate : AssessmentCertificate)
  | AddEntryApproval (approval : EntryApprovalAuthorization)
  | RecoverEntryReservations.

(** The state an operation leaves: its own one, or the old one when it raised before
    it stored anything. *)
Definition after (r : repository) (m : M repository) : repository :=
  match m with Ok r' => r' | Raise _ => r end.
Definition after_pair {A} (r : repository) (m : M (repository * A)) : repository :=
  match m with Ok (r', _) => r' | Raise _ => r end.

Definition run (cfg : config) (r : repository) (op : operation) : repository :=
  match op with
  | RegisterAccount role fingerprint equity => after r (register_account r role fingerprint equity)
  | SetAutonomousEnabled role enabled actor => after r (set_autonomous_enabled r role enabled actor)
  | CaptureBaseline role fingerprint equity at_ positions orders activities =>
      after_pair r (capture_baseline cfg r role fingerprint equity at_ positions orders activities)
  | ObserveAccountAdjustment role activity => after r (observe_account_adjustment r role activity)
  | ApproveIntent intent_id role envelope => after_pair r (approve_intent r intent_id role envelope)
  | ClaimIntent intent_id actor role fingerprint now token =>
      fst (claim_intent cfg r intent_id actor role fingerprint now token)
  | ReleaseUnsubmittedClaim intent_id => after r (release_unsubmitted_claim r intent_id)
  | AddAttempt attempt => after r (add_attempt r attempt)
  | ReplaceAttempt attempt => after r (replace_attempt r attempt)
  | FinalizeExecution certificate reconciliation status now =>
      after_pair r (finalize_execution cfg r certificate reconciliation status now)
  | AddAssessmentCertificate certificate => after r (add_assessment_certificate r certificate)
  | AddEntryApproval approval => after r (add_entry_approval r approval)
  | RecoverEntryReservations => fst (recover_entry_reservations r)
  end.

(** The arguments are values that exist: an envelope has passed its constructor. *)
Definition well_formed (op : operation) : Prop :=
  match op with
  | ApproveIntent _ _ envelope => make_OrderEnvelope envelope = Ok envelope
  | _ => True
  end.

Definition step (cfg : config) (r r' : repository) : Prop :=
  exists op, well_formed op /\ r' = run cfg r op.

Definition reachable (cfg : config) (r : repository) : Prop := rtc (step cfg) new_repository r.

(** The entry limits, where there are some, have passed their constructor. *)
Definition wf_config (cfg : config) : Prop :=
  forall limits, cfg_entry_limits cfg = Some limits -> make_EntryBudgetLimits limits = Ok limits.

(** ** The invariant *)

(** The attempts of an intent: numbered from zero, at most four, each replacing the
    one before. *)
Definition lineage (id : uuid) (attempts : list OrderAttempt) : Prop :=
  (length attempts <= 4)%nat /\
  forall i a, attempts !! i = Some a ->
    oa_intent_id a = id /\ oa_ordinal a = Z.of_nat i /\
    oa_replaces_client_order_id a =
      option_map oa_client_order_id (previous_attempt None attempts i).

(** The intents that used an entry of the budget of [role]. *)
Definition used_entry (role : AccountRole) (i : ExecutionIntent) : bool :=
  bool_decide (ei_account_role i = role) && is_entry i && ei_first_fill_consumed i.

Definition day_of (i : ExecutionIntent) : event_day :=
  (ei_account_role i, oe_event_key (ei_envelope i), oe_trading_day (ei_envelope i)).

Definition intent_at (r : repository) (id : uuid) (i : ExecutionIntent) : Prop :=
  dget (rp_intents r) id = Some i.

Record invariant (cfg : config) (r : repository) : Prop := mk_invariant {
  inv_dict : wf_dict (rp_intents r);
  inv_intent : forall id i, intent_at r id i ->
    ei_intent_id i = id /\ ei_account_role i <> REPLAY /\
    make_OrderEnvelope (ei_envelope i) = Ok (ei_envelope i) /\
    ei_digest i = intent_digest (ei_envelope i) /\
    rp_digest_ids r !! ei_digest i = Some id /\
    (ei_first_fill_consumed i = true -> ei_state i = TERMINAL);
  inv_digest : forall d id, rp_digest_ids r !! d = Some id ->
    exists i, intent_at r id i /\ ei_digest i = d;
  inv_account : forall id i, intent_at r id i ->
    exists a, rp_accounts r !! ei_account_role i = Some a /\
      as_fingerprint a = oe_account_fingerprint (ei_envelope i);
  inv_accounts : forall role, is_Some (rp_accounts r !! role) <-> is_Some (rp_budgets r !! role);
  inv_attempts : forall id i, intent_at r id i ->
    exists l, rp_attempts r !! id = Some l /\ lineage id l /\ (ei_state i = APPROVED -> l = []);
  inv_lease : forall id1 i1 id2 i2, intent_at r id1 i1 -> intent_at r id2 i2 ->
    ei_account_role i1 = ei_account_role i2 -> ei_state i1 = CLAIMED -> ei_state i2 = CLAIMED ->
    id1 = id2;
  inv_active : forall id1 i1 id2 i2, intent_at r id1 i1 -> intent_at r id2 i2 ->
    ei_account_role i1 = ei_account_role i2 -> is_entry i1 = true -> is_entry i2 = true ->
    ei_state i1 <> TERMINAL -> ei_state i2 <> TERMINAL -> id1 = id2;
  inv_day : forall id1 i1, intent_at r id1 i1 -> is_entry i1 = true ->
    day_of i1 ∈ rp_event_days r /\
    forall id2 i2, intent_at r id2 i2 -> is_entry i2 = true -> day_of i1 = day_of i2 -> id1 = id2;
  inv_reserved : forall role b id, rp_budgets r !! role = Some b ->
    eb_reserved_intent_id b = Some id ->
    exists i, intent_at r id i /\ ei_account_role i = role /\ is_entry i = true /\
      ei_state i <> TERMINAL /\ eb_reserved_risk b = oe_approved_max_loss (ei_envelope i);
  inv_claimed : forall id i b, intent_at r id i -> is_entry i = true -> ei_state i = CLAIMED ->
    rp_budgets r !! ei_account_role i = Some b -> eb_reserved_intent_id b = Some id;
  inv_ledger : forall role b, rp_budgets r !! role = Some b ->
    eb_entries_used b = Z.of_nat (dcount (used_entry role) (rp_intents r)) /\
    finite (eb_gross_approved_risk b) /\
    forall limits, cfg_entry_limits cfg = Some limits ->
      eb_entries_used b <= maximum_lifetime_entries limits /\
      (dval (eb_gross_approved_risk b) <= dval (maximum_lifetime_risk limits))%Q;
  inv_certified : forall id c, rp_intent_certificate_ids r !! id = Some c ->
    exists i x, intent_at r id i /\ ei_state i = TERMINAL /\
      rp_certificates r !! c = Some x /\ xc_intent_id x = id /\ xc_certificate_id x = c;
}.

Lemma invariant_new cfg : wf_config cfg -> invariant cfg new_repository.
Proof.
  intros _. constructor; unfold intent_at; cbn; intros *; rewrite ?lookup_empty; try done.
  by apply NoDup_nil.
Qed.

Lemma intent_budget cfg r id i :
  invariant cfg r -> intent_at r id i -> exists b, rp_budgets r !! ei_account_role i = Some b.
Proof.
  intros I Hi. apply (inv_accounts _ _ I). destruct (inv_account _ _ I id i Hi) as (a & -> & _). done.
Qed.

(** ** Preservation *)

(** No account disappears or changes its fingerprint. *)
Definition accounts_kept (r r' : repository) : Prop :=
  forall role a, rp_accounts r !! role = Some a ->
    exists a', rp_accounts r' !! role = Some a' /\ as_fingerprint a' = as_fingerprint a.

Lemma accounts_kept_same r r' : rp_accounts r' = rp_accounts r -> accounts_kept r r'.
Proof. intros E role a H. rewrite E. by exists a. Qed.

Lemma accounts_kept_insert r r' role a a' :
  rp_accounts r' = <[role := a']> (rp_accounts r) -> rp_accounts r !! role = Some a ->
  as_fingerprint a' = as_fingerprint a -> accounts_kept r r'.
Proof.
  intros E Ha Hf role2 a2 H2. rewrite E. destruct (decide (role = role2)) as [->|Hne].
  - rewrite lookup_insert_eq. exists a'. split; [done|congruence].
  - rewrite lookup_insert_ne by done. by exists a2.
Qed.

(** The parts of the state the invariant reads, but for accounts and budgets. *)
Definition same_book (r r' : repository) : Prop :=
  rp_intents r' = rp_intents r /\ rp_digest_ids r' = rp_digest_ids r /\
  rp_attempts r' = rp_attempts r /\ rp_event_days r' = rp_event_days r /\
  rp_certificates r' = rp_certificates r /\
  rp_intent_certificate_ids r' = rp_intent_certificate_ids r.

Lemma new_budget_within cfg :
  wf_config cfg -> forall limits, cfg_entry_limits cfg = Some limits ->
  0 <= maximum_lifetime_entries limits /\ (dval (Dint 0) <= dval (maximum_lifetime_risk limits))%Q.
Proof.
  intros Hc limits Hl. destruct (make_EntryBudgetLimits_inv _ _ (Hc _ Hl)) as (_ & _ & _ & _ & _ & _ & Hr & He & _).
  split; [lia|]. rewrite dval_Dint. apply Qlt_le_weak. apply Qlt_le_trans with (dval (maximum_position_loss limits)); apply Hr.
Qed.

Lemma invariant_frame cfg r r' :
  wf_config cfg -> invariant cfg r -> same_book r r' -> accounts_kept r r' ->
  (forall role b, rp_budgets r !! role = Some b -> rp_budgets r' !! role = Some b) ->
  (forall role b, rp_budgets r' !! role = Some b ->
     rp_budgets r !! role = Some b \/ (rp_budgets r !! role = None /\ b = new_budget)) ->
  (forall role, is_Some (rp_accounts r' !! role) <-> is_Some (rp_budgets r' !! role)) ->
  invariant cfg r'.
Proof.
  intros Hc I (Ei & Ed & Ea & Ev & Ec & Eci) Hacc Hold Hnew Hdom.
  assert (At : forall id i, intent_at r' id i <-> intent_at r id i)
    by (intros; unfold intent_at; by rewrite Ei).
  constructor; rewrite ?Ei, ?Ed, ?Ea, ?Ev, ?Ec, ?Eci; try setoid_rewrite At.
  - apply I. - apply I. - apply I.
  - intros id i H. destruct (inv_account _ _ I id i H) as (a & Ha & Hf).
    destruct (Hacc _ _ Ha) as (a' & Ha' & Hf'). exists a'. split; [done|congruence].
  - done.
  - apply I. - apply I. - apply I. - apply I.
  - intros role b id Hb Hres. destruct (Hnew _ _ Hb) as [Hb'|[_ ->]]; [|done].
    by apply (inv_reserved _ _ I role b).
  - intros id i b H He Hs Hb. destruct (Hnew _ _ Hb) as [Hb'|[Hnone _]].
    + by apply (inv_claimed _ _ I id i b).
    + destruct (intent_budget _ _ id i I H) as (b' & Hb'). congruence.
  - intros role b Hb. destruct (Hnew _ _ Hb) as [Hb'|[Hnone ->]]; [by apply (inv_ledger _ _ I)|].
    rewrite dcount_zero; [|intros id i H|apply I].
    + split_and!; [done|done|]. intros limits Hl. by apply (new_budget_within cfg Hc).
    + unfold used_entry. destruct (bool_decide_reflect (ei_account_role i = role)) as [E|]; [|done].
      destruct (intent_budget _ _ id i I H) as (b' & Hb'). congruence.
  - apply I.
Qed.

(** Replacing the intent [id], whose account holds no other lease. *)
Definition same_identity (i i' : ExecutionIntent) : Prop :=
  ei_intent_id i' = ei_intent_id i /\ ei_account_role i' = ei_account_role i /\
  ei_envelope i' = ei_envelope i /\ ei_digest i' = ei_digest i.

Record intent_update (cfg : config) (r r' : repository) (id : uuid) (i i' : ExecutionIntent)
    (b b' : EntryBudget) : Prop := mk_intent_update {
  up_at : intent_at r id i;
  up_identity : same_identity i i';
  up_intents : rp_intents r' = dset (rp_intents r) id i';
  up_frame : rp_digest_ids r' = rp_digest_ids r /\ rp_attempts r' = rp_attempts r /\
             rp_event_days r' = rp_event_days r;
  up_accounts : accounts_kept r r';
  up_domain : forall role, is_Some (rp_accounts r' !! role) <-> is_Some (rp_accounts r !! role);
  up_budget : rp_budgets r !! ei_account_role i = Some b;
  up_budgets : rp_budgets r' = <[ei_account_role i := b']> (rp_budgets r);
  up_only : forall id2 i2, intent_at r id2 i2 -> ei_account_role i2 = ei_account_role i ->
            ei_state i2 = CLAIMED -> id2 = id;
  up_open : ei_state i <> TERMINAL;
  up_state : ei_state i' = APPROVED -> ei_state i = APPROVED;
  up_consumed : ei_first_fill_consumed i' = true -> ei_state i' = TERMINAL;
  up_reserved : forall k, eb_reserved_intent_id b' = Some k ->
     (k <> id /\ eb_reserved_intent_id b = Some k /\ eb_reserved_risk b' = eb_reserved_risk b) \/
     (k = id /\ is_entry i = true /\ ei_state i' <> TERMINAL /\
      eb_reserved_risk b' = oe_approved_max_loss (ei_envelope i));
  up_claimed : is_entry i = true -> ei_state i' = CLAIMED -> eb_reserved_intent_id b' = Some id;
  up_ledger : eb_entries_used b' = eb_entries_used b + Z.of_nat (one (is_entry i && ei_first_fill_consumed i'));
  up_gross : finite (eb_gross_approved_risk b') /\
    forall limits, cfg_entry_limits cfg = Some limits ->
      eb_entries_used b' <= maximum_lifetime_entries limits /\
      (dval (eb_gross_approved_risk b') <= dval (maximum_lifetime_risk limits))%Q;
  up_certified : forall k c, rp_intent_certificate_ids r' !! k = Some c ->
    (rp_intent_certificate_ids r !! k = Some c /\
     forall x, rp_certificates r !! c = Some x -> rp_certificates r' !! c = Some x) \/
    (k = id /\ ei_state i' = TERMINAL /\ exists x, rp_certificates r' !! c = Some x /\
       xc_intent_id x = id /\ xc_certificate_id x = c);
}.

Section Update.
Context (cfg : config) (r r' : repository) (id : uuid) (i i' : ExecutionIntent) (b b' : EntryBudget).
Context (I : invariant cfg r) (U : intent_update cfg r r' id i i' b b').

Lemma update_at k j :
  intent_at r' k j <-> (k = id /\ j = i') \/ (k <> id /\ intent_at r k j).
Proof.
  unfold intent_at. rewrite (up_intents _ _ _ _ _ _ _ _ U), dget_dset. case_decide as E.
  - split; [intros [= <-]; by left|by intros [[_ ->]|[? _]]].
  - split; [right; split; congruence|by intros [[-> _]|[_ ?]]].
Qed.

(** Every intent was there before, with the same identity. *)
Lemma update_before k j :
  intent_at r' k j -> exists j0, intent_at r k j0 /\ same_identity j0 j /\
    is_entry j = is_entry j0 /\ day_of j = day_of j0 /\
    (ei_state j0 = TERMINAL -> k <> id) /\ (ei_state j <> TERMINAL -> ei_state j0 <> TERMINAL) /\
    ((k = id /\ j = i' /\ j0 = i) \/ (k <> id /\ j0 = j)).
Proof.
  intros [[-> ->]|[Hne H]]%update_at.
  - pose proof (up_identity _ _ _ _ _ _ _ _ U) as S. destruct S as (E1 & E2 & E3 & E4).
    exists i. pose proof (up_open _ _ _ _ _ _ _ _ U). pose proof (up_at _ _ _ _ _ _ _ _ U).
    split_and!; try done; unfold is_entry, day_of; rewrite ?E2, ?E3; auto.
  - exists j. split_and!; try done. right. done.
Qed.

Lemma update_claimed k j : intent_at r' k j -> ei_account_role j = ei_account_role i ->
  ei_state j = CLAIMED -> k = id.
Proof.
  intros [[-> _]|[_ H]]%update_at Er Es; [done|]. by apply (up_only _ _ _ _ _ _ _ _ U k j).
Qed.

Lemma update_budgets role x :
  rp_budgets r' !! role = Some x <->
  (role = ei_account_role i /\ x = b') \/ (role <> ei_account_role i /\ rp_budgets r !! role = Some x).
Proof.
  rewrite (up_budgets _ _ _ _ _ _ _ _ U), lookup_insert_Some. naive_solver.
Qed.

Lemma update_ledger role x : rp_budgets r' !! role = Some x ->
  eb_entries_used x = Z.of_nat (dcount (used_entry role) (rp_intents r')) /\
  finite (eb_gross_approved_risk x) /\
  forall limits, cfg_entry_limits cfg = Some limits ->
    eb_entries_used x <= maximum_lifetime_entries limits /\
    (dval (eb_gross_approved_risk x) <= dval (maximum_lifetime_risk limits))%Q.
Proof.
  pose proof (up_identity _ _ _ _ _ _ _ _ U) as (_ & Erole & Eenv & _).
  pose proof (up_at _ _ _ _ _ _ _ _ U) as At. unfold intent_at in At.
  assert (Hi : ei_first_fill_consumed i = false).
  { destruct (ei_first_fill_consumed i) eqn:E; [|done].
    destruct (up_open _ _ _ _ _ _ _ _ U). by apply (inv_intent _ _ I id i At). }
  pose proof (fun p => dcount_update p _ _ i' _ At) as Hc.
  rewrite (up_intents _ _ _ _ _ _ _ _ U). intros [[-> ->]|[Hne Hx]]%update_budgets.
  - destruct (inv_ledger _ _ I _ _ (up_budget _ _ _ _ _ _ _ _ U)) as (L & _).
    destruct (up_gross _ _ _ _ _ _ _ _ U) as [G1 G2]. split_and!; [|done|done].
    rewrite (up_ledger _ _ _ _ _ _ _ _ U), L. specialize (Hc (used_entry (ei_account_role i))).
    assert (E1 : used_entry (ei_account_role i) i = false)
      by (unfold used_entry; rewrite Hi; apply andb_false_r).
    assert (E2 : used_entry (ei_account_role i) i' = is_entry i && ei_first_fill_consumed i').
    { unfold used_entry, is_entry. rewrite Erole, Eenv. by rewrite bool_decide_true. }
    rewrite E1, E2 in Hc. cbn [one] in Hc. lia.
  - destruct (inv_ledger _ _ I _ _ Hx) as (L & G1 & G2). split_and!; [|done|done].
    rewrite L. specialize (Hc (used_entry role)).
    assert (E : forall j, ei_account_role j = ei_account_role i -> used_entry role j = false).
    { intros j Ej. unfold used_entry. rewrite bool_decide_false; [done|congruence]. }
    rewrite !E in Hc by done. cbn [one] in Hc. lia.
Qed.

Lemma invariant_update : invariant cfg r'.
Proof.
  pose proof (up_frame _ _ _ _ _ _ _ _ U) as (Ed & Ea & Ev).
  constructor; rewrite ?Ed, ?Ea, ?Ev.
  - rewrite (up_intents _ _ _ _ _ _ _ _ U). apply dset_wf, I.
  - intros k j (j0 & H & (E1 & E2 & E3 & E4) & _ & _ & _ & _ & Hj)%update_before.
    destruct (inv_intent _ _ I k j0 H) as (A1 & A2 & A3 & A4 & A5 & A6).
    rewrite E1, E2, E3, E4. split_and!; try done.
    destruct Hj as [(-> & -> & ->)|[_ <-]]; [apply (up_consumed _ _ _ _ _ _ _ _ U)|done].
  - intros d k (j & H & Hd)%(inv_digest _ _ I). destruct (decide (k = id)) as [->|Hne].
    + exists i'. split; [apply update_at; by left|].
      pose proof (up_identity _ _ _ _ _ _ _ _ U) as (_ & _ & _ & ->).
      pose proof (up_at _ _ _ _ _ _ _ _ U). unfold intent_at in *. congruence.
    + exists j. split; [apply update_at; by right|done].
  - intros k j (j0 & H & (E1 & E2 & E3 & E4) & _)%update_before.
    destruct (inv_account _ _ I k j0 H) as (a & Ha & Hf).
    destruct (up_accounts _ _ _ _ _ _ _ _ U _ _ Ha) as (a' & Ha' & Hf').
    rewrite E2, E3. exists a'. split; [done|congruence].
  - intros role. rewrite (up_domain _ _ _ _ _ _ _ _ U), (inv_accounts _ _ I).
    rewrite (up_budgets _ _ _ _ _ _ _ _ U). destruct (decide (ei_account_role i = role)) as [<-|Hne].
    + rewrite lookup_insert_eq, (up_budget _ _ _ _ _ _ _ _ U). done.
    + by rewrite lookup_insert_ne.
  - intros k j (j0 & H & _ & _ & _ & _ & _ & Hj)%update_before.
    destruct (inv_attempts _ _ I k j0 H) as (l & Hl & Hlin & Hap). exists l. split_and!; try done.
    destruct Hj as [(-> & -> & ->)|[_ <-]]; [|done].
    intros E. apply Hap. by apply (up_state _ _ _ _ _ _ _ _ U).
  - intros k1 j1 k2 j2 H1 H2 Er S1 S2.
    pose proof (update_claimed k1 j1 H1) as C1. pose proof (update_claimed k2 j2 H2) as C2.
    apply update_at in H1 as [[-> ->]|[N1 H1]], H2 as [[-> ->]|[N2 H2]]; [done| | |].
    + symmetry. apply C2; [|done]. rewrite <- Er.
      apply (up_identity _ _ _ _ _ _ _ _ U).
    + apply C1; [|done]. rewrite Er. apply (up_identity _ _ _ _ _ _ _ _ U).
    + by apply (inv_lease _ _ I k1 j1 k2 j2).
  - intros k1 j1 k2 j2 (x1 & H1 & (_ & E1 & _) & N1 & _ & _ & T1 & _)%update_before
      (x2 & H2 & (_ & E2 & _) & N2 & _ & _ & T2 & _)%update_before Er A1 A2 S1 S2.
    apply (inv_active _ _ I k1 x1 k2 x2); try congruence; auto.
  - intros k1 j1 (x1 & H1 & _ & N1 & D1 & _)%update_before A1. rewrite N1 in A1.
    destruct (inv_day _ _ I k1 x1 H1 A1) as [Hd Hu]. rewrite D1. split; [done|].
    intros k2 j2 (x2 & H2 & _ & N2 & D2 & _)%update_before A2 E2.
    apply (Hu k2 x2); congruence.
  - intros role x k [[-> ->]|[Hne Hx]]%update_budgets Hk.
    + destruct (up_reserved _ _ _ _ _ _ _ _ U k Hk) as [(Hne & Hb & Er)|(-> & He & Hs & Er)].
      * destruct (inv_reserved _ _ I _ _ _ (up_budget _ _ _ _ _ _ _ _ U) Hb) as (j & Hj & Hj').
        exists j. split; [apply update_at; by right|]. by rewrite Er.
      * exists i'. pose proof (up_identity _ _ _ _ _ _ _ _ U) as (_ & E2 & E3 & _).
        split; [apply update_at; by left|]. unfold is_entry. by rewrite E2, E3.
    + destruct (inv_reserved _ _ I role x k Hx Hk) as (j & Hj & Er & Hj').
      exists j. split; [|done]. apply update_at. right. split; [|done]. intros ->.
      pose proof (up_at _ _ _ _ _ _ _ _ U). unfold intent_at in *. congruence.
  - intros k j x Hj He Hs. pose proof (update_claimed k j Hj) as C.
    apply update_at in Hj as [[-> ->]|[Hne Hj]].
    + pose proof (up_identity _ _ _ _ _ _ _ _ U) as (_ & E2 & E3 & _).
      rewrite E2. intros [[_ ->]|[? _]]%update_budgets; [|done].
      apply (up_claimed _ _ _ _ _ _ _ _ U); [|done]. unfold is_entry in *. by rewrite <- E3.
    + intros [[Er ->]|[_ Hx]]%update_budgets; [by destruct Hne; apply C|].
      by apply (inv_claimed _ _ I k j x).
  - apply update_ledger.
  - intros k c [[Hc Hx]|(-> & Hs & x & Hx)]%(up_certified _ _ _ _ _ _ _ _ U).
    + destruct (inv_certified _ _ I k c Hc) as (j & x & Hj & Hs & Hcx & Hid & Hci).
      exists j, x. split_and!; auto. apply update_at. right. split; [|done]. intros ->.
      pose proof (up_at _ _ _ _ _ _ _ _ U). pose proof (up_open _ _ _ _ _ _ _ _ U).
      unfold intent_at in *. congruence.
    + exists i', x. split; [apply update_at; by left|]. done.
Qed.
End Update.

(** ** Every operation preserves the invariant *)

Section Preserved.
Context (cfg : config) (Hcfg : wf_config cfg).

Lemma executable role : _ensure_executable_role role = Ok tt <-> role <> REPLAY.
Proof. by destruct role. Qed.

Ltac frame := eapply invariant_frame; [done|eassumption|by split_and!| | | |
  try (match goal with H : invariant _ _ |- _ => exact (inv_accounts _ _ H) end)]; cbn.

Lemma register_preserves r role fingerprint equity r' :
  invariant cfg r -> register_account r role fingerprint equity = Ok r' -> invariant cfg r'.
Proof.
  intros I H. unfold register_account in H. apply bind_ok in H as (_ & _ & H).
  apply guard_blocked_ok in H as [Hm H]. apply guard_blocked_ok in H as [_ [= <-]].
  assert (Hk : forall x, match rp_accounts r !! role with
            | Some a => as_fingerprint x = as_fingerprint a | None => True end ->
            accounts_kept r (set_accounts r (<[role := x]> (rp_accounts r)))).
  { intros x Hx role2 a2 H2. cbn. destruct (decide (role = role2)) as [->|Hne].
    - rewrite lookup_insert_eq. exists x. split; [done|]. by rewrite H2 in Hx.
    - rewrite lookup_insert_ne by done. by exists a2. }
  assert (Hdom : forall role2 (x : AccountState),
            is_Some (<[role := x]> (rp_accounts r) !! role2) <->
            role2 = role \/ is_Some (rp_budgets r !! role2)).
  { intros role2 x. rewrite lookup_insert_is_Some', (inv_accounts _ _ I). naive_solver. }
  destruct (rp_budgets r !! role) as [b0|] eqn:Hb; frame.
  - apply Hk. by destruct (rp_accounts r !! role).
  - auto.
  - auto.
  - intros role2. rewrite Hdom. split; [intros [->|?]; [by rewrite Hb|done]|auto].
  - intros role2 a2 H2. apply (Hk (match rp_accounts r !! role with
      | Some account => account_with_equity account equity
      | None => mk_AccountState role fingerprint equity false false None None 0 0 end)); [|done].
    by destruct (rp_accounts r !! role).
  - intros role2 b2 H2. rewrite lookup_insert_ne; [done|congruence].
  - intros role2 b2 [[<- <-]|[Hne H2]]%lookup_insert_Some; auto.
  - intros role2. rewrite Hdom, lookup_insert_is_Some'. naive_solver.
Qed.

Lemma set_autonomous_preserves r role enabled actor r' :
  invariant cfg r -> set_autonomous_enabled r role enabled actor = Ok r' -> invariant cfg r'.
Proof.
  unfold set_autonomous_enabled. intros I H. inv_all. frame; [|auto..|].
  - by eapply accounts_kept_insert.
  - intros role2. rewrite lookup_insert_is_Some', <- (inv_accounts _ _ I). naive_solver.
Qed.

Lemma capture_preserves r role fp equity at_ p o a r' x :
  invariant cfg r -> capture_baseline cfg r role fp equity at_ p o a = Ok (r', x) -> invariant cfg r'.
Proof.
  unfold capture_baseline. intros I H. inv_all. frame; [by apply accounts_kept_same|auto..].
Qed.

Lemma adjustment_preserves r role activity r' :
  invariant cfg r -> observe_account_adjustment r role activity = Ok r' -> invariant cfg r'.
Proof.
  unfold observe_account_adjustment. intros I H.
  destruct (in_states activity ADJUSTMENT_ACTIVITIES); inv_all; [|done].
  frame; [by apply accounts_kept_same|auto..].
Qed.

Lemma assessment_preserves r c r' :
  invariant cfg r -> add_assessment_certificate r c = Ok r' -> invariant cfg r'.
Proof.
  unfold add_assessment_certificate. intros I H. inv_all.
  frame; [by apply accounts_kept_same|auto..].
Qed.

Lemma approval_preserves r c r' :
  invariant cfg r -> add_entry_approval r c = Ok r' -> invariant cfg r'.
Proof.
  unfold add_entry_approval. intros I H. inv_all. frame; [by apply accounts_kept_same|auto..].
Qed.

(** *** Attempts *)

Lemma attempts_preserve r id i l :
  invariant cfg r -> intent_at r id i -> ei_state i = CLAIMED -> lineage id l ->
  invariant cfg (set_attempts r (<[id := l]> (rp_attempts r))).
Proof.
  intros I Hi Hs Hl. constructor; unfold intent_at; cbn; try apply I.
  intros k j Hj. destruct (decide (id = k)) as [<-|Hne].
  - rewrite lookup_insert_eq. exists l. split_and!; [done|done|]. unfold intent_at in *. congruence.
  - rewrite lookup_insert_ne by done. by apply (inv_attempts _ _ I).
Qed.

Lemma open_attempts_ok r id l :
  open_attempts r id = Ok l ->
  rp_attempts r !! id = Some l /\ exists i a, intent_at r id i /\ ei_state i = CLAIMED /\
    rp_accounts r !! ei_account_role i = Some a /\ as_execution_locked a = false.
Proof. unfold open_attempts. intros H. inv_all. split; [done|]. by eexists _, _. Qed.

Lemma open_lineage r id l :
  invariant cfg r -> open_attempts r id = Ok l -> lineage id l.
Proof.
  intros I (Hl & i & a & Hi & _)%open_attempts_ok.
  destruct (inv_attempts _ _ I id i Hi) as (l' & Hl' & Hlin & _). congruence.
Qed.

Lemma previous_last l : previous_attempt None l (length l) = last l.
Proof. rewrite last_lookup. by destruct l. Qed.

Lemma previous_app l1 l2 i :
  (i <= length l1)%nat -> previous_attempt None (l1 ++ l2)%list i = previous_attempt None l1 i.
Proof. intros Hi. destruct i as [|i]; [done|]. cbn. by rewrite lookup_app_l by lia. Qed.

Lemma lineage_snoc id l a :
  lineage id l -> (length l <= 3)%nat -> oa_intent_id a = id -> oa_ordinal a = Z.of_nat (length l) ->
  oa_replaces_client_order_id a = option_map oa_client_order_id (last l) ->
  lineage id (l ++ [a])%list.
Proof.
  intros [_ Hl] Hlen Ha Ho Hr. split; [rewrite length_app; cbn; lia|].
  intros k x [Hk|[-> ->]]%lookup_snoc_Some.
  - destruct Hk as [Hlt Hk]. rewrite previous_app by lia. by apply Hl.
  - rewrite previous_app, previous_last by done. done.
Qed.

Lemma add_attempt_preserves r a r' :
  invariant cfg r -> add_attempt r a = Ok r' -> invariant cfg r'.
Proof.
  unfold add_attempt. intros I H. apply bind_ok in H as (l & Ho & H). inv_all. zbool.
  pose proof (open_lineage _ _ _ I Ho) as Hl.
  apply open_attempts_ok in Ho as (_ & i & acc & Hi & Hs & _).
  eapply attempts_preserve; [done..|]. apply lineage_snoc; try done. lia.
Qed.

Lemma removelast_last {A} (l : list A) x : last l = Some x -> (removelast l ++ [x])%list = l.
Proof.
  intros Hx. rewrite (app_removelast_last x (l := l)) at 2; [|by destruct l].
  do 2 f_equal. revert Hx. induction l as [|y l IH]; [done|]. destruct l; cbn in *; [congruence|auto].
Qed.

Lemma lineage_replace_last id l a x :
  lineage id l -> last l = Some x -> oa_intent_id a = id ->
  oa_ordinal a = oa_ordinal x -> oa_replaces_client_order_id a = oa_replaces_client_order_id x ->
  lineage id (replace_last l a).
Proof.
  intros [Hlen Hl] Hx Ha Ho Hr. unfold replace_last. pose proof (removelast_last l x Hx) as E.
  rewrite <- E in Hl, Hlen. rewrite length_app in Hlen. cbn in Hlen.
  split; [rewrite length_app; cbn; lia|]. intros k y [[Hlt Hk]|[-> ->]]%lookup_snoc_Some.
  - rewrite previous_app by lia.
    destruct (Hl k y) as (A1 & A2 & A3); [by rewrite lookup_app_l|]. rewrite previous_app in A3 by lia. done.
  - destruct (Hl (length (removelast l)) x) as (A1 & A2 & A3); [apply lookup_snoc_Some; by right|].
    rewrite previous_app in * by lia. split_and!; congruence.
Qed.

Lemma replace_attempt_preserves r a r' :
  invariant cfg r -> replace_attempt r a = Ok r' -> invariant cfg r'.
Proof.
  unfold replace_attempt. intros I H. apply bind_ok in H as (l & Ho & H).
  pose proof (open_lineage _ _ _ I Ho) as Hl.
  apply open_attempts_ok in Ho as (_ & i & acc & Hi & Hs & _).
  destruct (last l) as [x|] eqn:Hx; [|done]. inv_all. zbool.
  eapply attempts_preserve; [done..|]. by eapply lineage_replace_last.
Qed.

(** *** Approval *)

(** What a new intent adds to the state. *)
Definition with_intent (r : repository) (id : uuid) (i : ExecutionIntent) : repository :=
  let r := set_intents r (dset (rp_intents r) id i) in
  let r := set_digest_ids r (<[ei_digest i := id]> (rp_digest_ids r)) in
  let r := if is_entry i then set_event_days r ({[day_of i]} ∪ rp_event_days r) else r in
  set_attempts r (<[id := []]> (rp_attempts r)).

Lemma with_intent_fields r id i :
  rp_intents (with_intent r id i) = dset (rp_intents r) id i /\
  rp_digest_ids (with_intent r id i) = <[ei_digest i := id]> (rp_digest_ids r) /\
  rp_attempts (with_intent r id i) = <[id := []]> (rp_attempts r) /\
  rp_event_days (with_intent r id i) =
    (if is_entry i then {[day_of i]} ∪ rp_event_days r else rp_event_days r) /\
  rp_accounts (with_intent r id i) = rp_accounts r /\
  rp_budgets (with_intent r id i) = rp_budgets r /\
  rp_certificates (with_intent r id i) = rp_certificates r /\
  rp_intent_certificate_ids (with_intent r id i) = rp_intent_certificate_ids r.
Proof. unfold with_intent. by destruct (is_entry i). Qed.

Lemma approve_intent_ok r id role e r' i :
  approve_intent r id role e = Ok (r', i) ->
  (r' = r /\ exists k, intent_at r k i) \/
  (r' = with_intent r id i /\
   i = {| ei_intent_id := id; ei_account_role := role; ei_envelope := e;
          ei_digest := intent_digest e; ei_state := APPROVED; ei_claimed_by := None;
          ei_claimed_at := None; ei_first_fill_consumed := false; ei_claim_token := None;
          ei_claim_generation := 0; ei_execution_epoch := 0; ei_heartbeat_at := None;
          ei_lease_expires_at := None |} /\
   role <> REPLAY /\ rp_digest_ids r !! intent_digest e = None /\
   dget (rp_intents r) id = None /\
   (is_entry i = true -> (day_of i ∉ rp_event_days r) /\
      Forall (fun j => active_entry role j = false) (dvalues (rp_intents r))) /\
   exists a, rp_accounts r !! role = Some a /\ as_fingerprint a = oe_account_fingerprint e).
Proof.
  unfold approve_intent. intros H. apply bind_ok in H as ([] & Hrole%executable & H).
  destruct (rp_digest_ids r !! intent_digest e) as [k|] eqn:Hd.
  - inv_all. left. split; [done|]. by exists k.
  - apply guard_blocked_ok in H as [Hid H]. apply guard_blocked_ok in H as [Hday H].
    apply guard_blocked_ok in H as [Hact H]. apply guard_blocked_ok in H as [Hacc H].
    injection H as <- <-. right. split_and!; try done.
    + inv_all. by apply eq_None_not_Some.
    + unfold is_entry. cbn [ei_envelope]. intros He. rewrite He in Hday, Hact. cbn [andb] in *. inv_all. done.
    + destruct (rp_accounts r !! role) as [a|]; [|done]. exists a. inv_all. by zbool.
Qed.

Lemma approve_preserves r id role e r' i :
  make_OrderEnvelope e = Ok e ->
  invariant cfg r -> approve_intent r id role e = Ok (r', i) -> invariant cfg r'.
Proof.
  intros He I [[-> _]|(-> & Ei & Hrole & Hd & Hid & Hact & a & Ha & Hf)]%approve_intent_ok; [done|].
  destruct (with_intent_fields r id i) as (F1 & F2 & F3 & F4 & F5 & F6 & F7 & F8).
  assert (At : forall k j, intent_at (with_intent r id i) k j <->
      (k = id /\ j = i) \/ (k <> id /\ intent_at r k j)).
  { intros k j. unfold intent_at. rewrite F1, dget_dset. case_decide as E.
    - split; [intros [= <-]; by left|by intros [[_ ->]|[? _]]].
    - split; [right; split; congruence|by intros [[-> _]|[_ ?]]]. }
  assert (Hfresh : forall k j, intent_at r k j -> k <> id) by (unfold intent_at; congruence).
  assert (Hi : ei_intent_id i = id /\ ei_account_role i = role /\ ei_envelope i = e /\
     ei_digest i = intent_digest e /\ ei_state i = APPROVED /\ ei_first_fill_consumed i = false)
    by (subst i; done).
  destruct Hi as (I1 & I2 & I3 & I4 & I5 & I6). clear Ei.
  constructor; rewrite ?F2, ?F3, ?F4, ?F5, ?F6, ?F7, ?F8.
  - rewrite F1. apply dset_wf, I.
  - intros k j [[-> ->]|[Hne Hj]]%At.
    + rewrite I1, I2, I3, I4, I6. split_and!; try done. by rewrite lookup_insert_eq.
    + destruct (inv_intent _ _ I k j Hj) as (A1 & A2 & A3 & A4 & A5 & A6).
      split_and!; try done. rewrite lookup_insert_ne; [done|]. rewrite I4. congruence.
  - intros d k [[<- <-]|[Hne Hk]]%lookup_insert_Some.
    + exists i. split; [apply At; by left|done].
    + destruct (inv_digest _ _ I d k Hk) as (j & Hj & Hdj). exists j. split; [|done].
      apply At. right. eauto.
  - intros k j [[-> ->]|[Hne Hj]]%At; [|by apply (inv_account _ _ I k)].
    rewrite I2, I3. by exists a.
  - apply I.
  - intros k j [[-> ->]|[Hne Hj]]%At.
    + exists []. rewrite lookup_insert_eq. split; [done|]. split; [|done].
      split; [apply Nat.le_0_l|by intros ? ?].
    + rewrite lookup_insert_ne by done. by apply (inv_attempts _ _ I k).
  - intros k1 j1 k2 j2 [[-> ->]|[N1 H1]]%At [[-> ->]|[N2 H2]]%At Er S1 S2; try congruence.
    by apply (inv_lease _ _ I k1 j1 k2 j2).
  - assert (Hno : forall k j, intent_at r k j -> ei_account_role j = role -> is_entry i = true ->
        is_entry j = true -> ei_state j = TERMINAL).
    { intros k j Hj Er Ei Ej. destruct (Hact Ei) as [_ Hf']. rewrite Forall_forall in Hf'.
      specialize (Hf' j). unfold active_entry in Hf'. rewrite Ej, bool_decide_true in Hf' by done.
      cbn [andb] in Hf'. apply negb_false_iff, bool_decide_eq_true in Hf'; [done|].
      apply dvalues_spec; [apply I|]. by exists k. }
    intros k1 j1 k2 j2 [[-> ->]|[N1 H1]]%At [[-> ->]|[N2 H2]]%At Er A1 A2 S1 S2; [done| | |].
    + destruct S2. apply (Hno k2); congruence.
    + destruct S1. apply (Hno k1); congruence.
    + by apply (inv_active _ _ I k1 j1 k2 j2).
  - intros k1 j1 [[-> ->]|[N1 H1]]%At A1.
    + rewrite A1. split; [set_solver|]. intros k2 j2 [[-> ->]|[N2 H2]]%At A2 E2; [done|].
      destruct (Hact A1) as [Hday _]. destruct Hday. rewrite E2. by apply (inv_day _ _ I k2 j2).
    + destruct (inv_day _ _ I k1 j1 H1 A1) as [D1 U1]. split.
      { destruct (is_entry i); set_solver. }
      intros k2 j2 [[-> ->]|[N2 H2]]%At A2 E2; [|by apply (U1 k2 j2)].
      destruct (Hact A2) as [Hday _]. destruct Hday. by rewrite <- E2.
  - intros role2 b k Hb Hk. destruct (inv_reserved _ _ I role2 b k Hb Hk) as (j & Hj & Hj').
    exists j. split; [apply At; right; eauto|done].
  - intros k j b [[-> ->]|[Hne Hj]]%At; [congruence|]. by apply (inv_claimed _ _ I k j b).
  - intros role2 b Hb. destruct (inv_ledger _ _ I role2 b Hb) as (L & G). split; [|done].
    assert (Eu : used_entry role2 i = false) by (unfold used_entry; rewrite I6; apply andb_false_r).
    rewrite F1, dcount_new, Eu by done. cbn [one]. lia.
  - intros k c Hc. destruct (inv_certified _ _ I k c Hc) as (j & x & Hj & Hj').
    exists j, x. split; [apply At; right; eauto|done].
Qed.

(** *** Claims *)

Lemma entry_limits_ok policy_hash equity b risk quantity :
  _validate_entry_limits (cfg_entry_limits cfg) policy_hash equity b risk quantity = Ok tt ->
  exists limits, cfg_entry_limits cfg = Some limits /\
    validate_entry limits policy_hash equity (eb_entries_used b) (eb_gross_approved_risk b)
      risk quantity = Ok tt.
Proof.
  unfold _validate_entry_limits. destruct (cfg_entry_limits cfg) as [limits|]; [|done].
  intros H. exists limits. split; [done|]. unfold value_error_blocks, try_with in H.
  destruct (validate_entry _ _ _ _ _ _ _) as [[]|e]; [done|]. by destruct e.
Qed.

(** What a claim has checked before it changes anything. *)
Record claim_checked (r : repository) (id : uuid) (actor : Actor) (role : AccountRole)
    (fingerprint : string) (now : datetime) (i : ExecutionIntent) (a : AccountState) : Prop :=
  mk_claim_checked {
  cl_intent : intent_at r id i;
  cl_role : ei_account_role i = role /\ role <> REPLAY;
  cl_account : rp_accounts r !! role = Some a /\ as_fingerprint a = fingerprint /\
               as_execution_locked a = false;
  cl_approved : ei_state i = APPROVED;
  cl_exclusive : forall k j, intent_at r k j -> ei_account_role j = role -> ei_state j <> CLAIMED;
  cl_authorized : _require_authorization_origin r i now = Ok tt;
  cl_autonomy : (is_entry i = true \/ actor = SCHEDULER) -> as_autonomous_enabled a = true;
  cl_owner : is_entry i = true -> actor = SCHEDULER;
}.

Lemma claim_reserve_ok r id actor role fingerprint now r' i a :
  wf_dict (rp_intents r) ->
  claim_reserve cfg r id actor role fingerprint now = Ok (r', i, a) ->
  claim_checked r id actor role fingerprint now i a /\
  if is_entry i then _reserve_entry cfg r i a = Ok r' else r' = r.
Proof.
  unfold claim_reserve. intros Hd H. apply bind_ok in H as (j & Hj & H).
  apply from_option_key_ok in Hj. apply guard_blocked_ok in H as [Hr H].
  apply lift_bool_ok, negb_false_iff, bool_decide_eq_true in Hr.
  apply bind_ok in H as ([] & Hx%executable & H). apply bind_ok in H as (acc & Ha & H).
  apply from_option_key_ok in Ha. apply guard_blocked_ok in H as [Hf H].
  apply lift_bool_ok, negb_false_iff, String.eqb_eq in Hf.
  apply guard_blocked_ok in H as [Hl H]. apply lift_bool_ok in Hl.
  apply guard_blocked_ok in H as [Hs H]. apply lift_bool_ok, negb_false_iff, bool_decide_eq_true in Hs.
  apply guard_blocked_ok in H as [He H]. apply lift_bool_ok, existsb_false_Forall in He.
  apply bind_ok in H as ([] & Hauth & H).
  assert (Hex : forall k y, intent_at r k y -> ei_account_role y = role -> ei_state y <> CLAIMED).
  { intros k y Hy Er Es. rewrite Forall_forall in He. specialize (He y).
    unfold claimed_for in He. rewrite !bool_decide_true in He by congruence.
    discriminate He. apply dvalues_spec; [done|]. by exists k. }
  destruct (is_entry j) eqn:Hent.
  - inv_all. rewrite Hent. split; [|done]. constructor; try done.
    intros _. by destruct actor.
  - apply guard_blocked_ok in H as [Hact H]. injection H as <- <- <-. rewrite Hent.
    subst role fingerprint. split; [|done]. constructor; try done; try congruence.
    intros [?| ->]; [congruence|]. rewrite bool_decide_true in Hact by done.
    cbn [andb] in Hact. by inv_ok Hact.
Qed.

Lemma reserve_entry_ok r i a r' :
  _reserve_entry cfg r i a = Ok r' ->
  exists b, rp_budgets r !! ei_account_role i = Some b /\ eb_reserved_intent_id b = None /\
    (ei_account_role i = SUBMISSION ->
       is_Some (rp_baselines r !! SUBMISSION) /\ SUBMISSION ∉ rp_contaminated r) /\
    _validate_entry_limits (cfg_entry_limits cfg) (oe_policy_hash (ei_envelope i)) (as_equity a) b
      (oe_approved_max_loss (ei_envelope i)) (oe_quantity (ei_envelope i)) = Ok tt /\
    r' = set_budgets r
      (<[ei_account_role i := budget_with_reservation b (Some (ei_intent_id i))
                                (oe_approved_max_loss (ei_envelope i))]> (rp_budgets r)).
Proof.
  unfold _reserve_entry. intros H. apply bind_ok in H as (b & Hb%from_option_key_ok & H).
  apply guard_blocked_ok in H as [H1 H]. apply guard_blocked_ok in H as [H2 H].
  apply guard_blocked_ok in H as [H3 H]. apply bind_ok in H as ([] & H4 & [= <-]).
  exists b. split_and!; try done.
  - inv_all. by apply eq_None_not_Some.
  - intros E. rewrite !E in H1, H2. cbn [bool_decide] in H1, H2. 
    rewrite bool_decide_true in H1, H2 by done. cbn [andb] in H1, H2. inv_all.
    split; [|done]. by apply not_eq_None_Some.
Qed.

Lemma open_unconsumed r id i :
  invariant cfg r -> intent_at r id i -> ei_state i <> TERMINAL -> ei_first_fill_consumed i = false.
Proof.
  intros I Hi Hs. destruct (ei_first_fill_consumed i) eqn:E; [|done]. destruct Hs.
  by apply (inv_intent _ _ I id i Hi).
Qed.

(** The reservation a claim has made when it replaces the intent by [i']. *)
Lemma claim_update r id actor role fingerprint now i a r1 r' i' :
  invariant cfg r -> claim_checked r id actor role fingerprint now i a ->
  (if is_entry i then _reserve_entry cfg r i a = Ok r1 else r1 = r) ->
  same_identity i i' -> ei_state i' <> TERMINAL -> ei_first_fill_consumed i' = false ->
  rp_intents r' = dset (rp_intents r) id i' ->
  rp_digest_ids r' = rp_digest_ids r -> rp_attempts r' = rp_attempts r ->
  rp_event_days r' = rp_event_days r ->
  (exists a', rp_accounts r' = <[role := a']> (rp_accounts r) /\
     as_fingerprint a' = as_fingerprint a) ->
  rp_budgets r' = rp_budgets r1 ->
  rp_certificates r' = rp_certificates r ->
  rp_intent_certificate_ids r' = rp_intent_certificate_ids r -> invariant cfg r'.
Proof.
  intros I C R Hid Hs Hf Ei Ed Ea Ev (a' & Eacc & Efp) Eb Ec Eci.
  destruct C as [Hi [Hr Hx] (Ha & _ & _) Happ Hex _ _ _].
  destruct (intent_budget _ _ _ _ I Hi) as (b & Hb).
  destruct (inv_ledger _ _ I _ _ Hb) as (_ & G1 & G2).
  assert (Hopen : ei_state i <> TERMINAL) by congruence.
  assert (U : forall b', rp_budgets r' = <[ei_account_role i := b']> (rp_budgets r) ->
      eb_entries_used b' = eb_entries_used b -> eb_gross_approved_risk b' = eb_gross_approved_risk b ->
      (forall k, eb_reserved_intent_id b' = Some k ->
        (k <> id /\ eb_reserved_intent_id b = Some k /\ eb_reserved_risk b' = eb_reserved_risk b) \/
        (k = id /\ is_entry i = true /\ ei_state i' <> TERMINAL /\
         eb_reserved_risk b' = oe_approved_max_loss (ei_envelope i))) ->
      (is_entry i = true -> eb_reserved_intent_id b' = Some id) -> invariant cfg r').
  { intros b' Eb' Eu Eg Hres Hcl. apply (invariant_update cfg r r' id i i' b b' I).
    constructor; rewrite ?Eu, ?Eg, ?Hf, ?Eci, ?Ec; try done; auto.
    - eapply accounts_kept_insert; [exact Eacc|exact Ha|done].
    - intros role2. rewrite Eacc, lookup_insert_is_Some'. split; [intros [<-|?]; [by rewrite Ha|done]|auto].
    - intros k j Hj Er Ej. destruct (Hex k j Hj); congruence.
    - rewrite andb_false_r. cbn. lia. }
  destruct (is_entry i) eqn:He.
  - apply reserve_entry_ok in R as (b0 & Hb0 & Hn & _ & _ & ->).
    assert (b0 = b) as -> by congruence.
    destruct (inv_intent _ _ I id i Hi) as (Eid & _).
    eapply (U (budget_with_reservation b (Some (ei_intent_id i)) _));
      [by rewrite Eb|done|done| |cbn; congruence].
    cbn. intros k [= <-]. right. by rewrite Eid.
  - subst r1. apply (U b); [by rewrite Eb, insert_id|done|done| |done].
    intros k Hk. left. split; [|done]. intros ->.
    destruct (inv_reserved _ _ I _ _ _ Hb Hk) as (j & Hj & _ & Ej & _). unfold intent_at in *. congruence.
Qed.

Lemma claim_preserves r id actor role fingerprint now token :
  invariant cfg r -> invariant cfg (fst (claim_intent cfg r id actor role fingerprint now token)).
Proof.
  intros I. unfold claim_intent.
  destruct (claim_reserve cfg r id actor role fingerprint now) as [[[r1 i] a]|e] eqn:H; [|done].
  apply claim_reserve_ok in H as [C R]; [|apply I].
  assert (E1 : rp_intents r1 = rp_intents r /\ rp_digest_ids r1 = rp_digest_ids r /\
     rp_attempts r1 = rp_attempts r /\ rp_event_days r1 = rp_event_days r /\
     rp_accounts r1 = rp_accounts r /\ rp_certificates r1 = rp_certificates r /\
     rp_intent_certificate_ids r1 = rp_intent_certificate_ids r).
  { destruct (is_entry i); [|by subst]. by apply reserve_entry_ok in R as (b & _ & _ & _ & _ & ->). }
  destruct E1 as (F1 & F2 & F3 & F4 & F5 & F6 & F7).
  pose proof (cl_intent _ _ _ _ _ _ _ _ C) as Hi. pose proof (cl_approved _ _ _ _ _ _ _ _ C) as Hs.
  pose proof (open_unconsumed _ _ _ I Hi ltac:(congruence)) as Hf.
  pose proof (cl_role _ _ _ _ _ _ _ _ C) as [Hr _].
  pose proof (cl_account _ _ _ _ _ _ _ _ C) as (Ha & _).
  destruct (dt_add now (seconds 30)) as [lease|e]; cbn [fst].
  - eapply (claim_update r id actor role fingerprint now i a r1 _ (intent_claimed _ _ _ _ _ _ _));
      cbn; rewrite ?F1, ?F5; try done. rewrite Hr. by eexists.
  - eapply (claim_update r id actor role fingerprint now i a r1 r1 i); try done.
    + congruence.
    + rewrite F1. symmetry. by apply dset_same.
    + exists a. split; [|done]. rewrite F5. symmetry. by apply insert_id.
Qed.

(** *** Terminal states *)

Lemma claimed_only r id i :
  invariant cfg r -> intent_at r id i -> ei_state i = CLAIMED ->
  forall k j, intent_at r k j -> ei_account_role j = ei_account_role i -> ei_state j = CLAIMED -> k = id.
Proof. intros I Hi Hs k j Hj Er Ej. by apply (inv_lease _ _ I k j id i). Qed.

Lemma release_preserves r id r' :
  invariant cfg r -> release_unsubmitted_claim r id = Ok r' -> invariant cfg r'.
Proof.
  unfold release_unsubmitted_claim. intros I H.
  apply bind_ok in H as (i & Hi%from_option_key_ok & H). apply guard_blocked_ok in H as [Hc H].
  apply or_m_false in Hc as [Hs _]. apply lift_bool_ok, negb_false_iff, bool_decide_eq_true in Hs.
  apply bind_ok in H as (b & Hb%from_option_key_ok & [= <-]).
  pose proof (open_unconsumed _ _ _ I Hi ltac:(congruence)) as Hf.
  destruct (inv_ledger _ _ I _ _ Hb) as (_ & G1 & G2).
  set (b' := if decide (eb_reserved_intent_id b = Some id)
             then budget_with_reservation b None (Dint 0) else b).
  apply (invariant_update cfg r _ id i (intent_terminal i (ei_first_fill_consumed i)) b b' I).
  assert (Eb : eb_entries_used b' = eb_entries_used b /\
               eb_gross_approved_risk b' = eb_gross_approved_risk b)
    by (subst b'; by destruct (decide _)).
  destruct Eb as [Eu Eg].
  constructor; rewrite ?Eu, ?Eg; try done.
  - by destruct (decide _).
  - by destruct (decide _).
  - apply accounts_kept_same. by destruct (decide _).
  - by destruct (decide _).
  - subst b'. destruct (decide _); [done|]. cbn. by rewrite insert_id.
  - by apply claimed_only.
  - congruence.
  - intros k. subst b'. destruct (decide _) as [E|E]; [done|]. intros Hk. left.
    split; [congruence|done].
  - cbn. rewrite Hf, andb_false_r. cbn. lia.
  - intros k c Hc. left. destruct (decide _); split; done.
Qed.

Lemma settle_budget_ok r id i a b has_fill b' consumed :
  invariant cfg r -> intent_at r id i -> ei_state i = CLAIMED ->
  rp_budgets r !! ei_account_role i = Some b ->
  settle_budget cfg i a b has_fill = Ok (b', consumed) ->
  consumed = has_fill /\
  eb_entries_used b' = eb_entries_used b + Z.of_nat (one (is_entry i && has_fill)) /\
  finite (eb_gross_approved_risk b') /\
  (forall limits, cfg_entry_limits cfg = Some limits ->
    eb_entries_used b' <= maximum_lifetime_entries limits /\
    (dval (eb_gross_approved_risk b') <= dval (maximum_lifetime_risk limits))%Q) /\
  (if is_entry i then eb_reserved_intent_id b' = None else b' = b).
Proof.
  unfold settle_budget. intros I Hi Hs Hb H.
  pose proof (open_unconsumed _ _ _ I Hi ltac:(congruence)) as Hf. rewrite Hf in H.
  destruct (inv_ledger _ _ I _ _ Hb) as (_ & G1 & G2).
  destruct (is_entry i) eqn:He; cbn [andb].
  2: { rewrite orb_false_r in H. injection H as <- <-. cbn. split_and!; try done. lia. }
  apply guard_blocked_ok in H as [Hres H]. apply guard_blocked_ok in H as [_ H].
  apply lift_bool_ok, negb_false_iff, bool_decide_eq_true in Hres.
  destruct has_fill.
  2: { injection H as <- <-. cbn. split_and!; try done. lia. }
  apply bind_ok in H as ([] & (limits & Hl & Hv)%entry_limits_ok & H).
  apply bind_ok in H as (gross & Hg & [= <- <-]). cbn.
  destruct (inv_reserved _ _ I _ _ _ Hb Hres) as (j & Hj & _ & _ & _ & Er).
  destruct (inv_intent _ _ I _ _ Hj) as (_ & _ & He' & _).
  apply make_OrderEnvelope_loss in He' as [Fl _]. rewrite <- Er in Fl.
  apply dadd_spec in Hg as HS; [|done..]. destruct HS as [Fg _].
  unfold validate_entry in Hv. rewrite Hg in Hv. inv_all. zbool.
  destruct (make_EntryBudgetLimits_inv _ _ (Hcfg _ Hl)) as (_ & _ & _ & Fr & _).
  dec_facts. split_and!; try done; try lia. intros l Hl'.
  assert (l = limits) as -> by congruence. split; [lia|done].
Qed.

Lemma finalize_preserves r certificate rec status now r' c :
  invariant cfg r -> finalize_execution cfg r certificate rec status now = Ok (r', c) ->
  invariant cfg r'.
Proof.
  unfold finalize_execution. intros I H.
  apply guard_blocked_ok in H as [Hn1 H]. apply guard_blocked_ok in H as [Hn2 H].
  apply bind_ok in H as (i & Hi%from_option_key_ok & H). apply bind_ok in H as ([] & _ & H).
  apply bind_ok in H as (l & Hl & H). apply bind_ok in H as ([x has_fill] & Hv & H).
  apply bind_ok in H as (a & Ha%from_option_key_ok & H).
  apply bind_ok in H as (b & Hb%from_option_key_ok & H).
  apply bind_ok in H as ([b' consumed] & Hset & [= <- <-]).
  apply lift_bool_ok, bool_decide_eq_false, eq_None_not_Some in Hn1.
  apply lift_bool_ok, bool_decide_eq_false, eq_None_not_Some in Hn2.
  apply finalization_certified in Hv as ([[Hs _] _ _ _ _ (Ei & _ & _) _ _] & _ & Exc & Exi).
  set (id := xc_intent_id certificate) in *.
  pose proof (open_unconsumed _ _ _ I Hi ltac:(congruence)) as Hf.
  destruct (settle_budget_ok r id i a b has_fill b' consumed I Hi Hs Hb Hset)
    as (-> & Eu & Fg & G & Hres).
  apply (invariant_update cfg r _ id i (intent_terminal i has_fill) b b' I).
  constructor; try done.
  - by destruct (is_entry i).
  - by destruct (is_entry i).
  - eapply accounts_kept_insert; [by destruct (is_entry i)|exact Ha|].
    by repeat case_match.
  - intros role. assert (E : forall x : AccountState, is_Some (<[ei_account_role i := x]> (rp_accounts r) !! role)
       <-> is_Some (rp_accounts r !! role)).
    { intros y. rewrite lookup_insert_is_Some'. split; [intros [<-|?]; [by rewrite Ha|done]|auto]. }
    destruct (is_entry i); apply E.
  - cbn. destruct (is_entry i); [done|]. cbn. subst b'. by rewrite insert_id.
  - by apply claimed_only.
  - congruence.
  - intros k Hk. left. destruct (is_entry i) eqn:He; [congruence|]. subst b'.
    split; [|done]. intros ->.
    destruct (inv_reserved _ _ I _ _ _ Hb Hk) as (j & Hj & _ & Ej & _). unfold intent_at in *. congruence.
  - intros k d. assert (E : forall r0 : repository, rp_intent_certificate_ids r0 = rp_intent_certificate_ids r ->
      rp_certificates r0 = rp_certificates r ->
      <[id := xc_certificate_id certificate]> (rp_intent_certificate_ids r0) !! k = Some d ->
      (rp_intent_certificate_ids r !! k = Some d /\
        forall y, rp_certificates r !! d = Some y ->
          <[xc_certificate_id x := x]> (rp_certificates r0) !! d = Some y) \/
      (k = id /\ TERMINAL = TERMINAL /\
        exists y, <[xc_certificate_id x := x]> (rp_certificates r0) !! d = Some y /\
          xc_intent_id y = id /\ xc_certificate_id y = d)).
    { intros r0 -> ->. intros [[<- <-]|[Hne Hk]]%lookup_insert_Some.
      - right. split_and!; [done..|]. exists x. rewrite <- Exc, lookup_insert_eq. done.
      - left. split; [done|]. intros y Hy. rewrite lookup_insert_ne; [done|]. congruence. }
    destruct (is_entry i); apply E; done.
Qed.

(** *** Recovery *)

Lemma budget_reserved_same b id risk :
  eb_reserved_intent_id b = Some id -> eb_reserved_risk b = risk ->
  budget_with_reservation b (Some id) risk = b.
Proof. intros <- <-. by destruct b. Qed.

Lemma set_budgets_same r : set_budgets r (rp_budgets r) = r.
Proof. by destruct r. Qed.

Lemma recover_nothing r :
  invariant cfg r -> recover_entry_reservations r = (r, Ok tt).
Proof.
  intros I. unfold recover_entry_reservations.
  assert (H : forall i, i ∈ dvalues (rp_intents r) -> exists id, intent_at r id i).
  { intros i Hi. by apply dvalues_spec in Hi; [|apply I]. }
  induction (dvalues (rp_intents r)) as [|i l IH]; [done|]. cbn [recover_reservations].
  destruct (unfilled_claimed_entry i) eqn:E; [|apply IH; intros j Hj; apply H; by right].
  unfold unfilled_claimed_entry in E. rewrite !andb_true_iff, bool_decide_eq_true in E.
  destruct E as [[He Hs] _]. destruct (H i) as (id & Hi); [by left|].
  destruct (intent_budget _ _ _ _ I Hi) as (b & Hb). rewrite Hb.
  destruct (inv_intent _ _ I _ _ Hi) as (Eid & _).
  pose proof (inv_claimed _ _ I _ _ _ Hi He Hs Hb) as Hres.
  destruct (inv_reserved _ _ I _ _ _ Hb Hres) as (j & Hj & _ & _ & _ & Er).
  assert (j = i) as -> by (unfold intent_at in *; congruence).
  rewrite budget_reserved_same by (rewrite ?Eid; done). rewrite insert_id by done.
  rewrite set_budgets_same. apply IH. intros k Hk. apply H. by right.
Qed.

Lemma step_preserves r r' : invariant cfg r -> step cfg r r' -> invariant cfg r'.
Proof.
  intros I (op & Hwf & ->).
  assert (P : forall m, (forall x, m = Ok x -> invariant cfg x) -> invariant cfg (after r m))
    by (intros [x|e] Hx; [by apply Hx|done]).
  assert (P2 : forall A (m : M (repository * A)),
            (forall x y, m = Ok (x, y) -> invariant cfg x) -> invariant cfg (after_pair r m))
    by (intros A [[x y]|e] Hx; [by apply (Hx x y)|done]).
  destruct op; cbn [run]; try (apply P; intros x Hx); try (apply P2; intros x y Hx).
  - by eapply register_preserves.
  - by eapply set_autonomous_preserves.
  - by eapply capture_preserves.
  - by eapply adjustment_preserves.
  - by eapply approve_preserves.
  - by apply claim_preserves.
  - by eapply release_preserves.
  - by eapply add_attempt_preserves.
  - by eapply replace_attempt_preserves.
  - by eapply finalize_preserves.
  - by eapply assessment_preserves.
  - by eapply approval_preserves.
  - by rewrite recover_nothing.
Qed.

Lemma reachable_invariant r : reachable cfg r -> invariant cfg r.
Proof.
  unfold reachable. intros H. pose proof (invariant_new cfg Hcfg) as I. revert I.
  induction H as [x|x y z Hxy _ IH]; [done|]. intros I. apply IH. by eapply step_preserves.
Qed.
End Preserved.
