(* ===== verification/MemoryProps.v ===== *)
(** * What the execution repository guarantees

    The properties of the repository over whole histories: its invariant, what no
    operation can undo, when a claim is granted, the entry ledger, and the recovery and
    settlement of reservations. *)

From Stdlib Require Import ZArith Lia String Ascii List Bool QArith Lqa.
From stdpp Require Import base strings gmap countable option tactics relations list.
From S2P Require Import Prelude PyDict PyText PyDecimal PyDecimalFacts PyTime PyHash Contracts OrderLimits OrderStatus ExecModels Identity Finalization Memory MemoryFacts.

#[local] Open Scope string_scope.
#[local] Open Scope Z_scope.
#[local] Opaque intent_digest order_envelope_hash expected_certificate_id.

(** ** Nothing is undone *)

Definition state_rank (s : IntentState) : Z :=
  match s with APPROVED => 0 | CLAIMED => 1 | TERMINAL => 2 end.

Definition intent_le (i i' : ExecutionIntent) : Prop :=
  same_identity i i' /\ state_rank (ei_state i) <= state_rank (ei_state i') /\
  (ei_state i = TERMINAL -> i' = i).

Definition account_le (a a' : AccountState) : Prop :=
  as_fingerprint a' = as_fingerprint a /\ as_claim_generation a <= as_claim_generation a' /\
  (as_execution_locked a = true ->
     as_execution_locked a' = true /\ as_execution_lock_reason a' = as_execution_lock_reason a /\
     as_execution_locked_at a' = as_execution_locked_at a).

(** The same order, observed further or not. *)
Definition attempt_le (a a' : OrderAttempt) : Prop :=
  oa_intent_id a' = oa_intent_id a /\ oa_ordinal a' = oa_ordinal a /\
  oa_client_order_id a' = oa_client_order_id a /\ oa_request_hash a' = oa_request_hash a /\
  oa_replaces_client_order_id a' = oa_replaces_client_order_id a /\ rtc observes a a'.

Definition attempts_le (l l' : list OrderAttempt) : Prop :=
  forall k a, l !! k = Some a -> exists a', l' !! k = Some a' /\ attempt_le a a' /\
    ((S k < length l)%nat -> a' = a).

Record history (r r' : repository) : Prop := mk_history {
  h_intents : forall id i, intent_at r id i -> exists i', intent_at r' id i' /\ intent_le i i';
  h_accounts : forall role a, rp_accounts r !! role = Some a ->
    exists a', rp_accounts r' !! role = Some a' /\ account_le a a';
  h_budgets : forall role b, rp_budgets r !! role = Some b ->
    exists b', rp_budgets r' !! role = Some b' /\ eb_entries_used b <= eb_entries_used b';
  h_attempts : forall id i l, intent_at r id i -> rp_attempts r !! id = Some l ->
    exists l', rp_attempts r' !! id = Some l' /\ attempts_le l l' /\
      (ei_state i = TERMINAL -> l' = l);
  h_certificates : rp_certificates r ⊆ rp_certificates r' /\
    rp_intent_certificate_ids r ⊆ rp_intent_certificate_ids r';
  h_authorizations : rp_entry_approvals r ⊆ rp_entry_approvals r' /\
    rp_assessment_certificates r ⊆ rp_assessment_certificates r' /\
    rp_baselines r ⊆ rp_baselines r';
  h_used : rp_digest_ids r ⊆ rp_digest_ids r' /\ rp_event_days r ⊆ rp_event_days r' /\
    rp_contaminated r ⊆ rp_contaminated r';
}.

Lemma intent_le_refl i : intent_le i i.
Proof. by split_and!. Qed.

Lemma intent_le_trans i j k : intent_le i j -> intent_le j k -> intent_le i k.
Proof.
  intros ((A1 & A2 & A3 & A4) & A5 & A6) ((B1 & B2 & B3 & B4) & B5 & B6).
  split; [split_and!; congruence|]. split; [lia|].
  intros E. pose proof (A6 E). subst j. auto.
Qed.

Lemma account_le_refl a : account_le a a.
Proof. by split_and!. Qed.

Lemma account_le_trans a b c : account_le a b -> account_le b c -> account_le a c.
Proof.
  intros (A1 & A2 & A3) (B1 & B2 & B3). split_and!; [congruence|lia|].
  intros E. destruct (A3 E) as (C1 & C2 & C3). destruct (B3 C1) as (D1 & D2 & D3).
  split_and!; congruence.
Qed.

Lemma attempt_le_refl a : attempt_le a a.
Proof. by split_and!. Qed.

Lemma attempts_le_refl l : attempts_le l l.
Proof. intros k a H. exists a. split_and!; try done. Qed.

Lemma attempts_le_trans l1 l2 l3 : attempts_le l1 l2 -> attempts_le l2 l3 -> attempts_le l1 l3.
Proof.
  intros A B k a H. destruct (A k a H) as (b & Hb & (A1 & A2 & A3 & A4 & A5 & A6) & Ab).
  destruct (B k b Hb) as (c & Hc & (B1 & B2 & B3 & B4 & B5 & B6) & Bc). exists c. split; [done|].
  split; [split_and!; try congruence; by transitivity b|].
  intros Hk. rewrite <- (Ab Hk). apply Bc.
  enough (length l1 <= length l2)%nat by lia. clear -A.
  destruct (decide (length l1 = 0%nat)); [lia|].
  destruct (lookup_lt_is_Some_2 l1 (length l1 - 1)) as (x & Hx); [lia|].
  destruct (A _ _ Hx) as (y & Hy & _). apply lookup_lt_Some in Hy. lia.
Qed.

Lemma history_refl r : history r r.
Proof.
  constructor; try (by split_and!).
  - intros id i H. exists i. split; [done|apply intent_le_refl].
  - intros role a H. exists a. split; [done|apply account_le_refl].
  - intros role b H. exists b. split; [done|lia].
  - intros id i l _ H. exists l. split_and!; [done|apply attempts_le_refl|done].
Qed.

Lemma history_trans r1 r2 r3 : history r1 r2 -> history r2 r3 -> history r1 r3.
Proof.
  intros [I1 A1 B1 T1 (C1 & D1) (E1 & F1 & G1) (H1 & J1 & K1)]
         [I2 A2 B2 T2 (C2 & D2) (E2 & F2 & G2) (H2 & J2 & K2)].
  constructor.
  - intros id i H. destruct (I1 id i H) as (j & Hj & Lj). destruct (I2 id j Hj) as (k & Hk & Lk).
    exists k. split; [done|by eapply intent_le_trans].
  - intros role a H. destruct (A1 role a H) as (b & Hb & Lb). destruct (A2 role b Hb) as (c & Hc & Lc).
    exists c. split; [done|by eapply account_le_trans].
  - intros role a H. destruct (B1 role a H) as (b & Hb & Lb). destruct (B2 role b Hb) as (c & Hc & Lc).
    exists c. split; [done|lia].
  - intros id i l Hi H. destruct (T1 id i l Hi H) as (l' & Hl' & L1 & Q1).
    destruct (I1 id i Hi) as (j & Hj & _ & _ & Ej).
    destruct (T2 id j l' Hj Hl') as (l'' & Hl'' & L2 & Q2). exists l''.
    split_and!; [done|by eapply attempts_le_trans|]. intros E. rewrite Q2, Q1; auto.
    by rewrite (Ej E).
  - split; by etrans.
  - split_and!; by etrans.
  - split_and!; by etrans.
Qed.

(** *** Every step extends the history *)

Definition accounts_le (r r' : repository) : Prop :=
  forall role a, rp_accounts r !! role = Some a ->
    exists a', rp_accounts r' !! role = Some a' /\ account_le a a'.

Definition budgets_le (r r' : repository) : Prop :=
  forall role b, rp_budgets r !! role = Some b ->
    exists b', rp_budgets r' !! role = Some b' /\ eb_entries_used b <= eb_entries_used b'.

Lemma accounts_le_same r r' : rp_accounts r' = rp_accounts r -> accounts_le r r'.
Proof. intros E role a H. rewrite E. exists a. split; [done|apply account_le_refl]. Qed.

Lemma accounts_le_insert r r' role a a' :
  rp_accounts r' = <[role := a']> (rp_accounts r) -> rp_accounts r !! role = Some a ->
  account_le a a' -> accounts_le r r'.
Proof.
  intros E Ha L role2 a2 H2. rewrite E. destruct (decide (role = role2)) as [<-|Hne].
  - rewrite lookup_insert_eq. exists a'. split; [done|]. by assert (a2 = a) as -> by congruence.
  - rewrite lookup_insert_ne by done. exists a2. split; [done|apply account_le_refl].
Qed.

Lemma budgets_le_same r r' : rp_budgets r' = rp_budgets r -> budgets_le r r'.
Proof. intros E role b H. rewrite E. exists b. split; [done|lia]. Qed.

Lemma budgets_le_insert r r' role b b' :
  rp_budgets r' = <[role := b']> (rp_budgets r) -> rp_budgets r !! role = Some b ->
  eb_entries_used b <= eb_entries_used b' -> budgets_le r r'.
Proof.
  intros E Hb L role2 b2 H2. rewrite E. destruct (decide (role = role2)) as [<-|Hne].
  - rewrite lookup_insert_eq. exists b'. split; [done|].
    by assert (b2 = b) as -> by congruence.
  - rewrite lookup_insert_ne by done. exists b2. split; [done|lia].
Qed.

(** Everything else is as before, or was added. *)
Definition maps_grow (r r' : repository) : Prop :=
  (rp_certificates r ⊆ rp_certificates r' /\
   rp_intent_certificate_ids r ⊆ rp_intent_certificate_ids r') /\
  (rp_entry_approvals r ⊆ rp_entry_approvals r' /\
   rp_assessment_certificates r ⊆ rp_assessment_certificates r' /\
   rp_baselines r ⊆ rp_baselines r') /\
  (rp_digest_ids r ⊆ rp_digest_ids r' /\ rp_event_days r ⊆ rp_event_days r' /\
   rp_contaminated r ⊆ rp_contaminated r').

Lemma history_frame r r' :
  rp_intents r' = rp_intents r -> rp_attempts r' = rp_attempts r ->
  accounts_le r r' -> budgets_le r r' -> maps_grow r r' -> history r r'.
Proof.
  intros Ei Ea A B (M1 & M2 & M3). constructor; try done.
  - intros id i H. exists i. split; [unfold intent_at; by rewrite Ei|apply intent_le_refl].
  - intros id i l _ H. exists l. rewrite Ea. split_and!; [done|apply attempts_le_refl|done].
Qed.

(** An intent that is not terminal moves on. *)
Lemma history_intent r r' id i i' :
  intent_at r id i -> intent_le i i' ->
  rp_intents r' = dset (rp_intents r) id i' -> rp_attempts r' = rp_attempts r ->
  accounts_le r r' -> budgets_le r r' -> maps_grow r r' -> history r r'.
Proof.
  intros Hi L Ei Ea A B (M1 & M2 & M3). constructor; try done.
  - intros k j H. unfold intent_at in *. rewrite Ei, dget_dset. case_decide as E.
    + exists i'. split; [done|]. by assert (j = i) as -> by congruence.
    + exists j. split; [done|apply intent_le_refl].
  - intros k j l _ H. exists l. rewrite Ea. split_and!; [done|apply attempts_le_refl|done].
Qed.

Lemma history_attempts r id i l l' :
  intent_at r id i -> ei_state i = CLAIMED -> rp_attempts r !! id = Some l -> attempts_le l l' ->
  history r (set_attempts r (<[id := l']> (rp_attempts r))).
Proof.
  intros Hi Hs Hl L. constructor; try (by split_and!).
  - intros k j H. exists j. split; [done|apply intent_le_refl].
  - intros role a H. exists a. split; [done|apply account_le_refl].
  - intros role b H. exists b. split; [done|lia].
  - intros k j x Hj Hx. cbn. destruct (decide (id = k)) as [<-|Hne].
    + assert (x = l) as -> by congruence.
      assert (j = i) as -> by (unfold intent_at in *; congruence).
      rewrite lookup_insert_eq. exists l'. split_and!; [done|done|congruence].
    + rewrite lookup_insert_ne by done. exists x. split_and!; [done|apply attempts_le_refl|done].
Qed.

Lemma attempts_le_snoc l a : attempts_le l (l ++ [a])%list.
Proof.
  intros k x H. exists x. split; [|split; [apply attempt_le_refl|done]].
  rewrite lookup_app_l; [done|]. by apply lookup_lt_Some in H.
Qed.

Lemma attempts_le_replace l x a :
  last l = Some x -> attempt_le x a -> attempts_le l (replace_last l a).
Proof.
  intros Hx L k y H. unfold replace_last. pose proof (removelast_last l x Hx) as E.
  rewrite <- E in H. apply lookup_snoc_Some in H as [[Hlt H]|[-> <-]].
  - exists y. split; [by rewrite lookup_app_l|]. split; [apply attempt_le_refl|done].
  - exists a. split; [apply lookup_snoc_Some; by right|]. split; [done|].
    apply (f_equal length) in E. rewrite length_app in E. cbn in E. lia.
Qed.

Section History.
Context (cfg : config) (Hcfg : wf_config cfg).

Ltac grows := split_and!; cbn; solve [done | by apply insert_subseteq | set_solver].

Lemma history_register r role fp equity r' :
  register_account r role fp equity = Ok r' -> history r r'.
Proof.
  unfold register_account. intros H. apply bind_ok in H as (_ & _ & H).
  apply guard_blocked_ok in H as [_ H]. apply guard_blocked_ok in H as [_ [= <-]].
  assert (A : forall x, match rp_accounts r !! role with
            | Some a => account_le a x | None => True end ->
            accounts_le r (set_accounts r (<[role := x]> (rp_accounts r)))).
  { intros x Hx role2 a2 H2. cbn. destruct (decide (role = role2)) as [->|Hne].
    - rewrite lookup_insert_eq. exists x. split; [done|]. by rewrite H2 in Hx.
    - rewrite lookup_insert_ne by done. exists a2. split; [done|apply account_le_refl]. }
  match goal with |- context [<[role := ?x]> (rp_accounts r)] => specialize (A x) end.
  assert (L : forall b, match rp_budgets r !! role with Some _ => False | None => True end ->
            budgets_le r (set_budgets r (<[role := b]> (rp_budgets r)))).
  { intros b Hb role2 b2 H2. cbn. exists b2. split; [|lia].
    rewrite lookup_insert_ne; [done|]. intros <-. by rewrite H2 in Hb. }
  assert (A' := A ltac:(by destruct (rp_accounts r !! role))).
  destruct (rp_budgets r !! role) as [b0|]; apply history_frame; try done; try grows.
  - exact (budgets_le_same r _ eq_refl).
  - exact (L new_budget I).
Qed.

Lemma history_approve r id role e r' i : approve_intent r id role e = Ok (r', i) -> history r r'.
Proof.
  intros [[-> _]|(-> & Ei & Hrole & Hd & Hid & Hact & _)]%approve_intent_ok; [apply history_refl|].
  destruct (with_intent_fields r id i) as (F1 & F2 & F3 & F4 & F5 & F6 & F7 & F8).
  assert (F9 : rp_entry_approvals (with_intent r id i) = rp_entry_approvals r /\
    rp_assessment_certificates (with_intent r id i) = rp_assessment_certificates r /\
    rp_baselines (with_intent r id i) = rp_baselines r /\
    rp_contaminated (with_intent r id i) = rp_contaminated r)
    by (unfold with_intent; by destruct (is_entry i)).
  destruct F9 as (F9 & F10 & F11 & F12).
  assert (Hne : forall k j, intent_at r k j -> id <> k) by (unfold intent_at; congruence).
  constructor; rewrite ?F2, ?F3, ?F4, ?F5, ?F6, ?F7, ?F8, ?F9, ?F10, ?F11, ?F12; try done.
  - intros k j H. exists j. unfold intent_at. rewrite F1, dget_dset_ne by eauto.
    split; [done|apply intent_le_refl].
  - intros k a H. exists a. split; [done|apply account_le_refl].
  - intros k b H. exists b. split; [done|lia].
  - intros k j l Hj H. exists l. rewrite lookup_insert_ne by eauto.
    split_and!; [done|apply attempts_le_refl|done].
  - split_and!; [|destruct (is_entry i); set_solver|done]. apply insert_subseteq.
    replace (ei_digest i) with (intent_digest e) by (by subst i). done.
Qed.

Lemma history_claim r id actor role fp now token :
  invariant cfg r -> history r (fst (claim_intent cfg r id actor role fp now token)).
Proof.
  intros I. unfold claim_intent.
  destruct (claim_reserve cfg r id actor role fp now) as [[[r1 i] a]|e] eqn:H; [|apply history_refl].
  apply claim_reserve_ok in H as [C R]; [|apply I].
  pose proof (cl_intent _ _ _ _ _ _ _ _ C) as Hi. pose proof (cl_approved _ _ _ _ _ _ _ _ C) as Hs.
  pose proof (cl_role _ _ _ _ _ _ _ _ C) as [Hr _].
  pose proof (cl_account _ _ _ _ _ _ _ _ C) as (Ha & _).
  assert (E1 : exists x, r1 = set_budgets r x /\ budgets_le r r1).
  { destruct (is_entry i).
    - apply reserve_entry_ok in R as (b & Hb & _ & _ & _ & ->). eexists. split; [done|].
      by eapply budgets_le_insert.
    - subst r1. exists (rp_budgets r). split; [by rewrite set_budgets_same|by apply budgets_le_same]. }
  destruct E1 as (x & -> & B). destruct (dt_add now (seconds 30)) as [lease|e]; cbn [fst].
  - apply (history_intent r _ id i (intent_claimed i actor now token (as_claim_generation a + 1)
             (as_execution_epoch a) lease)); try done; try grows.
    + split; [done|]. rewrite Hs. split; [done|congruence].
    + eapply accounts_le_insert; [cbn; rewrite Hr; done|done|]. split; [done|]. split; [cbn; lia|done].
  - apply history_frame; try done; first [by apply accounts_le_same|grows].
Qed.

Lemma history_release r id r' : release_unsubmitted_claim r id = Ok r' -> history r r'.
Proof.
  unfold release_unsubmitted_claim. intros H.
  apply bind_ok in H as (i & Hi%from_option_key_ok & H). apply guard_blocked_ok in H as [Hc H].
  apply or_m_false in Hc as [Hs _]. apply lift_bool_ok, negb_false_iff, bool_decide_eq_true in Hs.
  apply bind_ok in H as (b & Hb%from_option_key_ok & [= <-]).
  apply (history_intent r _ id i (intent_terminal i (ei_first_fill_consumed i)));
    [done| |by destruct (decide _)..| | |].
  - split; [done|]. rewrite Hs. split; [done|congruence].
  - apply accounts_le_same. by destruct (decide _).
  - destruct (decide _); [by eapply budgets_le_insert|by apply budgets_le_same].
  - destruct (decide _); grows.
Qed.

Lemma history_add_attempt r a r' : add_attempt r a = Ok r' -> history r r'.
Proof.
  unfold add_attempt. intros H. apply bind_ok in H as (l & Ho & H). inv_all.
  apply open_attempts_ok in Ho as (Hl & i & acc & Hi & Hs & _).
  eapply history_attempts; [done..|apply attempts_le_snoc].
Qed.

Lemma history_replace_attempt r a r' : replace_attempt r a = Ok r' -> history r r'.
Proof.
  unfold replace_attempt. intros H. apply bind_ok in H as (l & Ho & H).
  apply open_attempts_ok in Ho as (Hl & i & acc & Hi & Hs & _).
  destruct (last l) as [x|] eqn:Hx; [|done].
  apply guard_blocked_ok in H as [H1 H]. apply guard_blocked_ok in H as [H2 H].
  apply bind_ok in H as ([] & Hobs & [= <-]).
  eapply history_attempts; [done..|]. apply (attempts_le_replace l x a Hx).
  inv_all. repeat match goal with E : (_ =? _)%N = true |- _ => apply N.eqb_eq in E end. zbool.
  split_and!; try done. by apply rtc_once.
Qed.

Lemma history_finalize r certificate rec status now r' c :
  invariant cfg r -> finalize_execution cfg r certificate rec status now = Ok (r', c) -> history r r'.
Proof.
  unfold finalize_execution. intros I H.
  apply guard_blocked_ok in H as [Hn1 H]. apply guard_blocked_ok in H as [Hn2 H].
  apply bind_ok in H as (i & Hi%from_option_key_ok & H). apply bind_ok in H as ([] & _ & H).
  apply bind_ok in H as (l & Hl & H). apply bind_ok in H as ([x has_fill] & Hv & H).
  apply bind_ok in H as (a & Ha%from_option_key_ok & H).
  apply bind_ok in H as (b & Hb%from_option_key_ok & H).
  apply bind_ok in H as ([b' consumed] & Hset & [= <- <-]).
  apply lift_bool_ok, bool_decide_eq_false, eq_None_not_Some in Hn1.
  apply lift_bool_ok, bool_decide_eq_false, eq_None_not_Some in Hn2.
  apply finalization_certified in Hv as ([[Hs _] _ _ _ _ (Ei & _ & _) _ _] & _ & Exc & Exi).
  destruct (settle_budget_ok cfg Hcfg r _ i a b has_fill b' consumed I Hi Hs Hb Hset)
    as (-> & Eu & _).
  rewrite <- Exc in Hn1.
  apply (history_intent r _ (xc_intent_id certificate) i (intent_terminal i has_fill));
    [done| |by destruct (is_entry i)..| | |].
  - split; [done|]. rewrite Hs. split; [done|congruence].
  - eapply accounts_le_insert; [by destruct (is_entry i)|exact Ha|].
    repeat case_match; try apply account_le_refl; (split; [done|]; split; [cbn; lia|cbn; congruence]).
  - destruct (is_entry i); [|by apply budgets_le_same].
    eapply budgets_le_insert; [done|exact Hb|]. rewrite Eu. lia.
  - destruct (is_entry i); grows.
Qed.

Lemma step_history r r' : invariant cfg r -> step cfg r r' -> history r r'.
Proof.
  intros I (op & Hwf & ->).
  assert (P : forall m, (forall x, m = Ok x -> history r x) -> history r (after r m))
    by (intros [x|e] Hx; [by apply Hx|apply history_refl]).
  assert (P2 : forall A (m : M (repository * A)),
            (forall x y, m = Ok (x, y) -> history r x) -> history r (after_pair r m))
    by (intros A [[x y]|e] Hx; [by apply (Hx x y)|apply history_refl]).
  destruct op; cbn [run]; try (apply P; intros x Hx); try (apply P2; intros x y Hx).
  - by eapply history_register.
  - unfold set_autonomous_enabled in Hx. inv_all. apply history_frame; try done;
      first [by eapply accounts_le_insert|by apply budgets_le_same|grows].
  - unfold capture_baseline in Hx. inv_all. 
    apply history_frame; try done; first [by apply accounts_le_same|by apply budgets_le_same|
      split_and!; try done; cbn; apply insert_subseteq; by apply eq_None_not_Some].
  - unfold observe_account_adjustment in Hx.
    destruct (in_states activity ADJUSTMENT_ACTIVITIES); inv_all; [|apply history_refl].
    apply history_frame; try done; first [by apply accounts_le_same|by apply budgets_le_same|grows].
  - by eapply history_approve.
  - by apply history_claim.
  - by eapply history_release.
  - by eapply history_add_attempt.
  - by eapply history_replace_attempt.
  - by eapply history_finalize.
  - unfold add_assessment_certificate in Hx. inv_all.
    apply history_frame; try done; first [by apply accounts_le_same|by apply budgets_le_same|
      split_and!; try done; cbn; apply insert_subseteq; by apply eq_None_not_Some].
  - unfold add_entry_approval in Hx. inv_all.
    apply history_frame; try done; first [by apply accounts_le_same|by apply budgets_le_same|
      split_and!; try done; cbn; apply insert_subseteq; by apply eq_None_not_Some].
  - rewrite (recover_nothing cfg) by done. apply history_refl.
Qed.

Lemma run_history r r' : invariant cfg r -> rtc (step cfg) r r' -> history r r' /\ invariant cfg r'.
Proof.
  intros I H. induction H as [x|x y z Hxy _ IH]; [split; [apply history_refl|done]|].
  destruct IH as [Hh Iz]; [by eapply step_preserves|]. split; [|done].
  eapply history_trans; [by apply step_history|done].
Qed.
End History.

(** ** The properties *)

(** C27: Every reachable state of the repository satisfies its invariant, whatever
    operations were called in whatever order, also those that raised: each intent has
    its identity, a registered account with its fingerprint and its digest in the index;
    at most one intent of an account is claimed and at most one entry is active; no two
    entries share an event day; attempts are numbered from zero, at most four, each
    replacing the one before, and none before a claim; a reservation belongs to an open
    entry and a claimed entry has it; the ledger counts the consumed entries; a
    certificate belongs to a terminal intent. *)
Theorem repository_invariant cfg r : wf_config cfg -> reachable cfg r -> invariant cfg r.
Proof. intros Hcfg H. by apply reachable_invariant. Qed.

(** C28: No sequence of operations undoes anything.  From a reachable state on, intents
    keep their identity, only move from approved to claimed to terminal, and a terminal
    one never changes, nor do its attempts; attempts are only appended or, the last one,
    observed further; accounts keep their fingerprint, and an execution lock stays with
    its reason; used entries are never given back; certificates, authorisations,
    baselines, event days and contaminations stay as they are. *)
Theorem repository_history cfg r r' :
  wf_config cfg -> reachable cfg r -> rtc (step cfg) r r' -> history r r'.
Proof.
  intros Hcfg Hr H. eapply run_history; [done| |done]. by apply reachable_invariant.
Qed.

(** The entry ledger is exact and inside its limits.  In every reachable state the
    entries an account has used are its entry intents with a consumed fill, counted;
    they and the approved risk they add up to (as the code sums it) are within the
    lifetime limits of the policy; and a reservation is the loss of one open entry. *)
Theorem entry_ledger_exact cfg r role b :
  wf_config cfg -> reachable cfg r -> rp_budgets r !! role = Some b ->
  eb_entries_used b = Z.of_nat (dcount (used_entry role) (rp_intents r)) /\
  (forall limits, cfg_entry_limits cfg = Some limits ->
    eb_entries_used b <= maximum_lifetime_entries limits /\
    (dval (eb_gross_approved_risk b) <= dval (maximum_lifetime_risk limits))%Q) /\
  (forall id, eb_reserved_intent_id b = Some id ->
    exists i, intent_at r id i /\ is_entry i = true /\ ei_state i <> TERMINAL /\
      eb_reserved_risk b = oe_approved_max_loss (ei_envelope i)).
Proof.
  intros Hcfg Hr Hb. pose proof (reachable_invariant cfg Hcfg r Hr) as I.
  destruct (inv_ledger _ _ I _ _ Hb) as (L & _ & G). split_and!; [done|done|].
  intros id Hid. destruct (inv_reserved _ _ I _ _ _ Hb Hid) as (i & Hi & _ & He & Hs & Er). by exists i.
Qed.

(** Recovering the entry reservations after a restart changes nothing in a reachable
    state, and always returns: the reservation of every claimed entry is already there. *)
Theorem recovery_changes_nothing cfg r :
  wf_config cfg -> reachable cfg r -> recover_entry_reservations r = (r, Ok tt).
Proof. intros Hcfg Hr. apply (recover_nothing cfg). by apply reachable_invariant. Qed.

(** *** Claims *)

(** The authorisation agrees with the order in everything it names, now. *)
Definition authorizes (av : AuthorizationValues) (i : ExecutionIntent) (now : datetime) : Prop :=
  av_account_role av = ei_account_role i /\
  av_policy_hash av = oe_policy_hash (ei_envelope i) /\
  av_fingerprint av = oe_position_or_book_fingerprint (ei_envelope i) /\
  av_envelope_hash av = order_envelope_hash (ei_envelope i) /\
  av_approved_max_loss av ==. oe_approved_max_loss (ei_envelope i) = true /\
  av_quantity av = oe_quantity (ei_envelope i) /\
  av_valid av = true /\ dt_lt now (av_valid_from av) = Ok false /\
  dt_le (av_expires_at av) now = Ok false.

Lemma validate_authorization_ok i av now :
  validate_authorization i av now = Ok tt <-> authorizes av i now.
Proof.
  unfold validate_authorization, authorizes. autorewrite with py.
  rewrite !String.eqb_eq, Z.eqb_eq. intuition.
Qed.

(** The authorisation an intent comes from. *)
Definition origin (r : repository) (i : ExecutionIntent) (av : AuthorizationValues) : Prop :=
  let id := oe_authorization_certificate_id (ei_envelope i) in
  if is_entry i
  then exists x, rp_entry_approvals r !! id = Some x /\ av = approval_values x /\
         rp_assessment_certificates r !! id = None
  else exists x, rp_assessment_certificates r !! id = Some x /\ av = assessment_values x /\
         ct_action x = oe_action (ei_envelope i) /\ rp_entry_approvals r !! id = None.

Lemma authorization_origin_ok r i now :
  _require_authorization_origin r i now = Ok tt -> exists av, origin r i av /\ authorizes av i now.
Proof.
  unfold _require_authorization_origin, origin. destruct (is_entry i); intros H;
    apply guard_blocked_ok in H as [Hn H];
    apply lift_bool_ok, bool_decide_eq_false, eq_None_not_Some in Hn;
    case_match; try done.
  - apply validate_authorization_ok in H. eexists. split; [by eexists|done].
  - apply guard_blocked_ok in H as [Ha H]. apply validate_authorization_ok in H.
    apply lift_bool_ok, negb_false_iff, bool_decide_eq_true in Ha. eexists. split; [by eexists|done].
Qed.

(** What an entry claim found in the budget. *)
Definition budget_allows (cfg : config) (r : repository) (i : ExecutionIntent) (a : AccountState)
    : Prop :=
  exists b limits total,
    rp_budgets r !! ei_account_role i = Some b /\ cfg_entry_limits cfg = Some limits /\
    eb_reserved_intent_id b = None /\
    oe_policy_hash (ei_envelope i) = limits_policy_hash limits /\
    as_equity a <=. equity_floor limits = Ok false /\
    eb_entries_used b < maximum_lifetime_entries limits /\
    (dval (oe_approved_max_loss (ei_envelope i)) <= dval (maximum_position_loss limits))%Q /\
    dadd (eb_gross_approved_risk b) (oe_approved_max_loss (ei_envelope i)) = Ok total /\
    (dval total <= dval (maximum_lifetime_risk limits))%Q /\
    1 <= oe_quantity (ei_envelope i) <= maximum_entry_quantity limits.

Lemma entry_allowed cfg r id i a b :
  wf_config cfg -> invariant cfg r -> intent_at r id i ->
  rp_budgets r !! ei_account_role i = Some b -> eb_reserved_intent_id b = None ->
  _validate_entry_limits (cfg_entry_limits cfg) (oe_policy_hash (ei_envelope i)) (as_equity a) b
    (oe_approved_max_loss (ei_envelope i)) (oe_quantity (ei_envelope i)) = Ok tt ->
  budget_allows cfg r i a.
Proof.
  intros Hcfg I Hi Hb Hn (limits & Hl & Hv)%entry_limits_ok.
  destruct (inv_intent _ _ I _ _ Hi) as (_ & _ & (Fl & _)%make_OrderEnvelope_loss & _).
  destruct (inv_ledger _ _ I _ _ Hb) as (_ & Fg & _).
  destruct (make_EntryBudgetLimits_inv _ _ (Hcfg _ Hl)) as (_ & _ & _ & Fr & Fp & _).
  unfold validate_entry in Hv. apply guard_raise_ok in Hv as [H1 Hv].
  apply guard_raise_ok in Hv as [H2 Hv]. apply guard_raise_ok in Hv as [H3 Hv].
  apply guard_raise_ok in Hv as [H4 Hv]. apply bind_ok in Hv as (total & Ht & Hv).
  apply guard_raise_ok in Hv as [H5 Hv]. apply guard_raise_ok in Hv as [H6 _].
  pose proof (dadd_spec _ _ _ Fg Fl Ht) as [Ft _]. inv_all. zbool.
  apply dlt_ok_false in H4; [|done..]. apply dlt_ok_false in H5; [|done..].
  exists b, limits, total. split_and!; try done; lia.
Qed.

(** C30: A claim is only granted with authority, alone, and inside the budget.  When
    [claim_intent] returns in a reachable state, the intent was approved, its account
    is not locked and has the given fingerprint, no other intent of the account was
    claimed, and the authorisation it names (an approval for an entry, an assessment
    certificate of the same action otherwise) agrees with the order in role, policy,
    fingerprint, envelope hash, risk and quantity and is valid at the trusted time; an
    entry is claimed by the scheduler with autonomy on, for the submission account with
    a baseline that is not contaminated, and with the count, risk, equity and quantity
    of the budget; and then the intent is claimed for thirty seconds and is the only
    claimed one of its account. *)
Theorem claim_authorized cfg r id actor role fingerprint now token r' i' :
  wf_config cfg -> reachable cfg r ->
  claim_intent cfg r id actor role fingerprint now token = (r', Ok i') ->
  exists i a av lease,
    intent_at r id i /\ ei_state i = APPROVED /\ ei_account_role i = role /\ role <> REPLAY /\
    rp_accounts r !! role = Some a /\ as_fingerprint a = fingerprint /\
    as_execution_locked a = false /\
    (forall k j, intent_at r k j -> ei_account_role j = role -> ei_state j <> CLAIMED) /\
    origin r i av /\ authorizes av i now /\
    (is_entry i = true \/ actor = SCHEDULER -> as_autonomous_enabled a = true) /\
    (is_entry i = true -> actor = SCHEDULER /\ budget_allows cfg r i a /\
       (role = SUBMISSION ->
          is_Some (rp_baselines r !! SUBMISSION) /\ SUBMISSION ∉ rp_contaminated r)) /\
    dt_add now (seconds 30) = Ok lease /\
    i' = intent_claimed i actor now token (as_claim_generation a + 1) (as_execution_epoch a) lease /\
    intent_at r' id i' /\
    (forall k j, intent_at r' k j -> ei_account_role j = role -> ei_state j = CLAIMED -> k = id).
Proof.
  intros Hcfg Hr H. pose proof (reachable_invariant cfg Hcfg r Hr) as I.
  assert (I' : invariant cfg r').
  { pose proof (claim_preserves cfg r id actor role fingerprint now token I) as P. by rewrite H in P. }
  unfold claim_intent in H.
  destruct (claim_reserve cfg r id actor role fingerprint now) as [[[r1 i] a]|e] eqn:Hc; [|done].
  apply claim_reserve_ok in Hc as [C R]; [|apply I].
  destruct (dt_add now (seconds 30)) as [lease|e] eqn:Hd; [|done]. injection H as <- <-.
  destruct C as [Hi [Hrole Hx] (Ha & Hf & Hl) Hs Hex Hauth Haut Hown].
  destruct (authorization_origin_ok _ _ _ Hauth) as (av & Hor & Hav).
  assert (Hat : intent_at (set_intents (set_accounts r1 (<[ei_account_role i :=
      account_with_claim_generation a (as_claim_generation a + 1)]> (rp_accounts r1)))
      (dset (rp_intents r1) id (intent_claimed i actor now token (as_claim_generation a + 1)
         (as_execution_epoch a) lease))) id
      (intent_claimed i actor now token (as_claim_generation a + 1) (as_execution_epoch a) lease))
    by apply dget_dset_eq.
  exists i, a, av, lease. split_and!; try done.
  - intros He. rewrite He in R. apply reserve_entry_ok in R as (b & Hb & Hn & Hsub & Hlim & _).
    split_and!; [auto|by eapply entry_allowed|]. intros E. apply Hsub. congruence.
  - intros k j Hj Er Ej. eapply (claimed_only cfg); [exact I'|exact Hat|done|exact Hj| |done].
    cbn. congruence.
Qed.

(** *** Settlement *)

(** The lock an outcome asks for. *)
Definition outcome_locks (rec : Reconciliation) (status : string) (has_fill : bool) : bool :=
  rn_assignment_suspected rec || negb (rn_matches_expected rec)
  || has_fill && is_partial_status status.

(** What the limits say of the entry that was filled: the budget and the equity are those
    of the time of the finalisation. *)
Definition fill_verdict (cfg : config) (i : ExecutionIntent) (a : AccountState) (b : EntryBudget)
    (has_fill : bool) : M unit :=
  if is_entry i && has_fill
  then _validate_entry_limits (cfg_entry_limits cfg) (oe_policy_hash (ei_envelope i)) (as_equity a) b
         (eb_reserved_risk b) (oe_quantity (ei_envelope i))
  else Ok tt.

(** In a reachable state the reservation is there, with the right risk: only the limits
    can refuse the fill. *)
Lemma settle_budget_decided cfg r id i a b has_fill :
  wf_config cfg -> invariant cfg r -> intent_at r id i -> ei_state i = CLAIMED ->
  rp_budgets r !! ei_account_role i = Some b ->
  match fill_verdict cfg i a b has_fill with
  | Ok _ => exists b' consumed, settle_budget cfg i a b has_fill = Ok (b', consumed)
  | Raise e => settle_budget cfg i a b has_fill = Raise e
  end.
Proof.
  intros Hcfg I Hi Hs Hb. unfold settle_budget, fill_verdict. destruct (is_entry i) eqn:He; [|by eexists _, _].
  pose proof (inv_claimed _ _ I _ _ _ Hi He Hs Hb) as Hres.
  destruct (inv_intent _ _ I _ _ Hi) as (Eid & _ & (Fl & _)%make_OrderEnvelope_loss & _).
  destruct (inv_reserved _ _ I _ _ _ Hb Hres) as (j & Hj & _ & _ & _ & Er).
  assert (j = i) as -> by (unfold intent_at in *; congruence).
  rewrite Hres, Eid, bool_decide_true by done. cbn [negb].
  assert (Eq : eb_reserved_risk b ==. oe_approved_max_loss (ei_envelope i) = true)
    by (rewrite Er; by apply deq_spec).
  rewrite Eq. cbn [negb andb]. destruct has_fill; [|by eexists _, _].
  destruct (_validate_entry_limits _ _ _ _ _ _) as [[]|e] eqn:Hlim; cbn; [|done].
  apply entry_limits_ok in Hlim as (limits & _ & Hv). unfold validate_entry in Hv. inv_all.
  match goal with E : dadd _ _ = Ok _ |- _ => rewrite E end. by eexists _, _.
Qed.

(** The lock reason, and the account it leaves. *)
Definition lock_reason (rec : Reconciliation) (status : string) (has_fill : bool) : option string :=
  if has_fill && is_partial_status status
  then Some "UNMANAGED_PARTIAL_EXPOSURE" else execution_lock_reason rec.
Definition lock_account (a : AccountState) (reason : option string) (now : datetime) : AccountState :=
  match reason with
  | Some reason => if as_execution_locked a then a else account_locked a reason now
  | None => a
  end.

Lemma lock_account_locked a rec status has_fill now :
  as_execution_locked (lock_account a (lock_reason rec status has_fill) now) =
  as_execution_locked a || outcome_locks rec status has_fill.
Proof.
  unfold lock_account, lock_reason, execution_lock_reason, outcome_locks.
  destruct (as_execution_locked a) eqn:E, (rn_assignment_suspected rec), (rn_matches_expected rec),
    (has_fill && is_partial_status status); cbn; rewrite ?E; done.
Qed.

(** The state a settled execution leaves. *)
Definition settled (r : repository) (id : uuid) (i : ExecutionIntent) (a : AccountState)
    (b : EntryBudget) (c : ExecutionCertificate) (has_fill : bool) (r' : repository) : Prop :=
  intent_at r' id (intent_terminal i has_fill) /\
  rp_accounts r' = <[ei_account_role i := a]> (rp_accounts r) /\
  rp_budgets r' = (if is_entry i then <[ei_account_role i := b]> (rp_budgets r) else rp_budgets r) /\
  rp_certificates r' = <[xc_certificate_id c := c]> (rp_certificates r) /\
  rp_intent_certificate_ids r' = <[id := xc_certificate_id c]> (rp_intent_certificate_ids r).

Lemma finalize_settled cfg r certificate rec status now i l a b c has_fill :
  intent_at r (xc_intent_id certificate) i -> ei_intent_id i = xc_intent_id certificate ->
  ei_account_role i <> REPLAY -> rp_attempts r !! xc_intent_id certificate = Some l ->
  rp_accounts r !! ei_account_role i = Some a -> rp_budgets r !! ei_account_role i = Some b ->
  validate_finalization i l certificate rec status now = Ok (c, has_fill) ->
  xc_certificate_id c = xc_certificate_id certificate ->
  rp_certificates r !! xc_certificate_id certificate = None ->
  rp_intent_certificate_ids r !! xc_intent_id certificate = None ->
  match settle_budget cfg i a b has_fill with
  | Raise e => finalize_execution cfg r certificate rec status now = Raise e
  | Ok (b', consumed) => consumed = has_fill ->
      exists r', finalize_execution cfg r certificate rec status now = Ok (r', c) /\
        settled r (xc_intent_id certificate) i (lock_account a (lock_reason rec status has_fill) now)
          b' c has_fill r'
  end.
Proof.
  intros Hi Eid Hx Hl Ha Hb Hv Exc Hnew Hun. unfold finalize_execution, intent_at in *.
  rewrite Hnew, Hun, Hi. cbn [from_option_key mbind M_bind].
  rewrite !bool_decide_false by by intros [? ?]. cbn [guard_m lift_bool mbind M_bind].
  rewrite (proj2 (executable _) Hx), Eid, Hl. cbn [from_option_key mbind M_bind].
  rewrite Hv. cbn [mbind M_bind]. rewrite Ha, Hb. cbn [from_option_key mbind M_bind].
  destruct (settle_budget cfg i a b has_fill) as [[b' consumed]|e]; cbn [mbind M_bind]; [|done].
  intros ->. eexists. split; [done|].
  unfold settled, intent_at. destruct (is_entry i); (split_and!; [apply dget_dset_eq|done|done|done|]);
    cbn; by rewrite Exc.
Qed.

(** An intent that is certified is not certified again. *)
Lemma certified_once cfg r' r2 certificate rec status now x c2 :
  wf_config cfg -> invariant cfg r' -> rp_intent_certificate_ids r' !! xc_intent_id certificate = Some x ->
  rtc (step cfg) r' r2 -> finalize_execution cfg r2 certificate rec status now <> Ok c2.
Proof.
  intros Hcfg I Hin Hrun Hf. destruct (run_history cfg Hcfg r' r2 I Hrun) as [[_ _ _ _ [_ Hids] _ _] _].
  eapply lookup_weaken in Hin; [|exact Hids].
  unfold finalize_execution in Hf. apply guard_blocked_ok in Hf as [_ Hf].
  apply guard_blocked_ok in Hf as [Hn _]. rewrite Hin in Hn. by rewrite bool_decide_true in Hn.
Qed.

(** The execution of the intent [id] is settled: it is terminal, its certificate is stored
    and indexed, a filled entry has used exactly one entry of the budget and its
    reservation is gone, and the account is locked if it was, or if the outcome asks for
    it; and no second certificate for the intent is ever accepted. *)
Definition settled_once (cfg : config) (id : uuid) (i : ExecutionIntent) (a : AccountState)
    (b : EntryBudget) (c : ExecutionCertificate) (has_fill locks : bool) (r' : repository) : Prop :=
  intent_at r' id (intent_terminal i has_fill) /\
  rp_certificates r' !! xc_certificate_id c = Some c /\
  (exists a', rp_accounts r' !! ei_account_role i = Some a' /\
     as_execution_locked a' = as_execution_locked a || locks) /\
  (exists b', rp_budgets r' !! ei_account_role i = Some b' /\
     eb_entries_used b' = eb_entries_used b + Z.of_nat (one (is_entry i && has_fill)) /\
     (is_entry i = true -> eb_reserved_intent_id b' = None)) /\
  (forall r2 certificate2 rec2 status2 now2 c2,
     rtc (step cfg) r' r2 -> xc_intent_id certificate2 = id ->
     finalize_execution cfg r2 certificate2 rec2 status2 now2 <> Ok c2).

(** C31: Valid evidence settles an execution, once, unless the limits or the id refuse it.
    In a reachable state, let the evidence of an intent be valid.  If the id of its
    certificate is taken, [finalize_execution] raises [CERTIFICATE_IMMUTABLE].  If the
    intent is an entry with a fill, and the entry limits refuse it with the equity and the
    budget of now (they were checked when it was claimed, but the equity may have changed
    since), it raises what they raise; when it raises nothing is stored, so the intent
    stays claimed with its reservation.  In every other case it returns the certificate:
    the reservation it looks for is always there, with the right risk.  Then the intent is
    terminal, its certificate is stored, a filled entry has used exactly
    one entry of the budget and its reservation is gone, and the account is locked if
    it was, or if the outcome is a mismatch, a suspected assignment or a partial fill;
    and no second certificate for the intent is ever accepted. *)
Theorem finalization_settles cfg r certificate rec status now i l c has_fill b a :
  wf_config cfg -> reachable cfg r ->
  intent_at r (xc_intent_id certificate) i ->
  rp_attempts r !! xc_intent_id certificate = Some l ->
  rp_accounts r !! ei_account_role i = Some a -> rp_budgets r !! ei_account_role i = Some b ->
  validate_finalization i l certificate rec status now = Ok (c, has_fill) ->
  match rp_certificates r !! xc_certificate_id certificate, fill_verdict cfg i a b has_fill with
  | Some _, _ => finalize_execution cfg r certificate rec status now
                 = Raise (ExecutionBlocked "CERTIFICATE_IMMUTABLE")
  | None, Raise e => finalize_execution cfg r certificate rec status now = Raise e
  | None, Ok _ =>
      exists r', finalize_execution cfg r certificate rec status now = Ok (r', c) /\
        settled_once cfg (xc_intent_id certificate) i a b c has_fill
          (outcome_locks rec status has_fill) r'
  end.
Proof.
  intros Hcfg Hr Hi Hl Ha Hb Hv.
  destruct (rp_certificates r !! xc_certificate_id certificate) eqn:Hnew.
  { unfold finalize_execution. by rewrite Hnew. }
  pose proof (reachable_invariant cfg Hcfg r Hr) as I.
  destruct (finalization_certified _ _ _ _ _ _ _ _ Hv) as ([[Hs _] _ _ _ _ _ _ _] & _ & Exc & Exi).
  destruct (inv_intent _ _ I _ _ Hi) as (Eid & Hx & _).
  assert (Hun : rp_intent_certificate_ids r !! xc_intent_id certificate = None).
  { destruct (rp_intent_certificate_ids r !! xc_intent_id certificate) as [d|] eqn:E; [|done].
    destruct (inv_certified _ _ I _ _ E) as (j & x & Hj & Hjs & _). unfold intent_at in *. congruence. }
  pose proof (settle_budget_decided cfg r _ i a b has_fill Hcfg I Hi Hs Hb) as Hset.
  pose proof (finalize_settled cfg r certificate rec status now i l a b c has_fill
    Hi Eid Hx Hl Ha Hb Hv Exc Hnew Hun) as Hfin.
  destruct (fill_verdict cfg i a b has_fill); [|by rewrite Hset in Hfin].
  destruct Hset as (b' & consumed & Hset). rewrite Hset in Hfin.
  destruct (settle_budget_ok cfg Hcfg r _ i a b has_fill b' consumed I Hi Hs Hb Hset)
    as (-> & Eu & _ & _ & Hres).
  destruct (Hfin eq_refl) as (r' & Hok & Hat & Eacc & Ebud & Ecert & Eids).
  exists r'. split; [done|]. split_and!; try done.
  - by rewrite Ecert, lookup_insert_eq.
  - rewrite Eacc, lookup_insert_eq. eexists. split; [done|]. apply lock_account_locked.
  - exists b'. split_and!; [|done|intros He; by rewrite He in Hres].
    rewrite Ebud. destruct (is_entry i); [by rewrite lookup_insert_eq|by subst b'].
  - intros r2 certificate2 rec2 status2 now2 c2 Hrun Eid2 Hf2.
    revert Hf2. eapply certified_once; [done| | |exact Hrun]; [by eapply finalize_preserves|].
    rewrite Eid2, Eids. apply lookup_insert_eq.
Qed.

(** C32: An execution lock freezes the account for good.  Once an account is locked, in
    every later state no claim of one of its intents is granted, and no attempt of one
    of its intents is added or observed. *)
Theorem locked_account_frozen cfg r r' role a :
  wf_config cfg -> reachable cfg r -> rp_accounts r !! role = Some a ->
  as_execution_locked a = true -> rtc (step cfg) r r' ->
  (forall id actor fingerprint now token, exists e r2,
     claim_intent cfg r' id actor role fingerprint now token = (r2, Raise e)) /\
  (forall attempt i, intent_at r' (oa_intent_id attempt) i -> ei_account_role i = role ->
     (exists e, add_attempt r' attempt = Raise e) /\ (exists e, replace_attempt r' attempt = Raise e)).
Proof.
  intros Hcfg Hr Ha Hl Hrun. pose proof (reachable_invariant cfg Hcfg r Hr) as I.
  destruct (run_history cfg Hcfg r r' I Hrun) as [[_ Hacc _ _ _ _ _] I'].
  destruct (Hacc role a Ha) as (a' & Ha' & _ & _ & Hlock). destruct (Hlock Hl) as (Hl' & _).
  split.
  - intros id actor fingerprint now token. unfold claim_intent.
    destruct (claim_reserve cfg r' id actor role fingerprint now) as [[[r1 i] b]|e] eqn:Hc; [|by eexists _, _].
    apply claim_reserve_ok in Hc as [C _]; [|apply I'].
    destruct (cl_account _ _ _ _ _ _ _ _ C) as (Hb & _ & Hb'). congruence.
  - intros attempt i Hi Er.
    assert (E : exists e, open_attempts r' (oa_intent_id attempt) = Raise e).
    { destruct (open_attempts r' (oa_intent_id attempt)) as [l|e] eqn:E; [|by eexists].
      apply open_attempts_ok in E as (_ & j & b & Hj & _ & Hb & Hb'). unfold intent_at in *. congruence. }
    destruct E as (e & E). unfold add_attempt, replace_attempt. rewrite E. split; by eexists.
Qed.

(** *** The normalised return *)

(** C29: The normalised return is exact.  For cash amounts and a baseline of 100000, the
    return is [None] exactly when the account is contaminated and otherwise the
    percentage (equity - 100000) / 1000 without any rounding error. *)
Theorem normalized_return_exact r role baseline equity :
  role <> REPLAY -> rp_baselines r !! role = Some baseline ->
  cash (sb_equity baseline) -> (dval (sb_equity baseline) == 100000)%Q -> cash equity ->
  (role ∈ rp_contaminated r -> normalized_return r role equity = Ok None) /\
  (role ∉ rp_contaminated r -> exists x, normalized_return r role equity = Ok (Some x) /\
     (dval x == (dval equity - 100000) / 1000)%Q).
Proof.
  intros Hrole Hb Cb Eb Ce. unfold normalized_return.
  rewrite (proj2 (executable role) Hrole), Hb. cbn [mbind M_bind]. split; intros Hc.
  { by rewrite decide_True. }
  rewrite decide_False by done.
  destruct (amount_sub _ _ _ _ _ Ce Cb ltac:(reflexivity) cash_exp) as (change & -> & Cc & Ec).
  cbn [mbind M_bind]. destruct Cc as (Fc & n & Hn & En). destruct Cb as [Fb _].
  assert (Eq : (dval change / dval (sb_equity baseline) == inject_Z n * p10 (-11))%Q).
  { rewrite Eb, En, (p10_add (-11) 5 : (p10 (-6) == _)%Q). change (p10 5) with 100000%Q. field. }
  destruct (ddiv_total change (sb_equity baseline) Fc Fb) as (ratio & Hr).
  { rewrite Eb. discriminate. }
  { rewrite Eq. apply amount_bound; [by split|]. change (10 ^ prec) with (10 ^ 28). lia. }
  rewrite Hr. cbn [mbind M_bind]. apply ddiv_spec in Hr as [Fr Hr]; [|done..].
  destruct (amount_of_faithful (-11) (10 ^ 18 + 10 ^ 18) n _ ratio Fr Hr Eq Hn) as [Ar Er];
    [done|by split|].
  rewrite Eq in Er.
  destruct (amount_mul_int _ _ 100 ratio 100 Ar ltac:(lia) ltac:(reflexivity) ltac:(by split))
    as (x & -> & _ & Ex).
  exists x. split; [done|].
  assert (Ed : (dval equity - 100000 == inject_Z n * p10 (-6))%Q) by (rewrite <- En, Ec, Eb; reflexivity).
  rewrite Ex, Er, Ed, (p10_add (-11) 5 : (p10 (-6) == _)%Q).
  change (p10 5) with 100000%Q. change (inject_Z 100) with 100%Q. field.
Qed.
