(* ===== verification/MemorySamples.v ===== *)
(** * An entry from approval to certificate

    A concrete run of the repository (register, enable, authorise, approve, claim,
    submit, observe, finalise) whose states instantiate the theorems of [MemoryProps]. *)

From Stdlib Require Import ZArith Lia String Ascii List Bool QArith.
From stdpp Require Import base strings gmap countable option tactics relations list.
From S2P Require Import Prelude PyDict PyText PyDecimal PyDecimalFacts PyTime PyHash Contracts OrderLimits OrderStatus ExecModels Identity Finalization Memory MemoryFacts MemoryProps.

#[local] Open Scope string_scope.
#[local] Open Scope Z_scope.

Definition sample_limits : EntryBudgetLimits :=
  {| limits_policy_hash := sha256_hex "policy"; equity_floor := Dint 95000;
     maximum_lifetime_entries := 10; maximum_lifetime_risk := Dint 11250;
     maximum_position_loss := Dint 1125; maximum_entry_quantity := 5 |}.

Definition sample_config : config := mk_config (Some sample_limits) (fun baseline => Ok baseline).

Definition claim_time : datetime := utc 2026 9 14 15 0 0.

Definition sample_approval : EntryApprovalAuthorization :=
  {| ea_approval_id := 7%N; ea_thesis_version_id := 8%N; ea_account_role := SUBMISSION;
     ea_policy_hash := sha256_hex "policy"; ea_book_fingerprint := sha256_hex "book";
     ea_envelope_hash := order_envelope_hash sample_envelope;
     ea_approved_max_loss := D 12000 (-2); ea_quantity := 1;
     ea_valid_from := utc 2026 9 14 14 59 0; ea_expires_at := utc 2026 9 14 15 5 0;
     ea_valid := true; ea_experiment_lineage := None |}.

Definition sample_order (state : string) (provider : option string) (filled : Z)
    (cash : option decimal) : OrderAttempt :=
  {| oa_intent_id := 5%N; oa_ordinal := 0; oa_client_order_id := "ad-0"; oa_request_hash := "r";
     oa_state := state; oa_replaces_client_order_id := None; oa_provider_order_id := provider;
     oa_filled_quantity := filled; oa_quantity := 1; oa_fill_cash_flow := cash;
     oa_limit_price := None; oa_quote_hash := None; oa_quote_source_timestamps := [];
     oa_quote_retrieved_at := None; oa_timing_authority_at := None;
     oa_prior_request_hash := None |}.

(** What happens before the claim, and between the claim and the certificate. *)
Definition approve_operations : list operation :=
  [RegisterAccount SUBMISSION (sha256_hex "account") (Dint 100000);
   CaptureBaseline SUBMISSION (sha256_hex "account") (Dint 100000) (utc 2026 9 14 13 0 0) "p" "o" "a";
   SetAutonomousEnabled SUBMISSION true OWNER;
   AddEntryApproval sample_approval;
   ApproveIntent 5%N SUBMISSION sample_envelope].

Definition claim_operation : operation :=
  ClaimIntent 5%N SCHEDULER SUBMISSION (sha256_hex "account") claim_time 9%N.

Definition submit_operations : list operation :=
  [AddAttempt (sample_order "PREPARED" None 0 None);
   ReplaceAttempt (sample_order "FILLED" (Some "p") 1 (Some (Dint (-110))))].

Definition run_all (ops : list operation) (r : repository) : repository :=
  fold_left (run sample_config) ops r.

Definition approved_state : repository := run_all approve_operations new_repository.
Definition claimed_state : repository := run sample_config approved_state claim_operation.
Definition filled_state : repository := run_all submit_operations claimed_state.

Definition filled_certificate : ExecutionCertificate :=
  sample_certificate (expected_certificate_id (intent_digest sample_envelope)).

Definition mismatch_certificate (c : ExecutionCertificate) : ExecutionCertificate :=
  {| xc_certificate_id := xc_certificate_id c; xc_intent_id := xc_intent_id c;
     xc_entry_approval_id := xc_entry_approval_id c;
     xc_assessment_certificate_id := xc_assessment_certificate_id c;
     xc_execution_status := "RECONCILIATION_MISMATCH"; xc_attempt_ids := xc_attempt_ids c;
     xc_actual_exposure := xc_actual_exposure c;
     xc_reconciliation_checks := xc_reconciliation_checks c; xc_created_at := xc_created_at c;
     xc_reconciliation_id := xc_reconciliation_id c;
     xc_reconciliation_hash := xc_reconciliation_hash c;
     xc_last_observation_hash := xc_last_observation_hash c |}.

(** The positions after the fill differ from the expected ones: the account is locked. *)
Definition lock_operation : operation :=
  FinalizeExecution (mismatch_certificate filled_certificate)
    (mk_Reconciliation true true false false None) "FILLED" claim_time.
Definition locked_state : repository := run sample_config filled_state lock_operation.

Definition sample_now : datetime := utc 2026 9 14 15 1 0.
Definition agreed : Reconciliation := mk_Reconciliation true true true false None.

Definition baseline_sample : SubmissionBaseline :=
  {| sb_role := SUBMISSION; sb_equity := Dint 100000; sb_captured_at := claim_time;
     sb_account_fingerprint := "f"; sb_positions_hash := "p"; sb_orders_hash := "o";
     sb_activities_hash := "a"; sb_clean := true |}.

Definition baseline_state : repository :=
  set_baselines new_repository {[SUBMISSION := baseline_sample]}.

Lemma sample_config_wf : wf_config sample_config.
Proof. intros limits [= <-]. vm_compute. reflexivity. Qed.

Lemma run_all_steps ops r :
  Forall well_formed ops -> rtc (step sample_config) r (run_all ops r).
Proof.
  intros H. revert r. induction H as [|op ops Hop _ IH]; intros r; [done|].
  apply rtc_l with (run sample_config r op); [by exists op|apply IH].
Qed.

Lemma approved_reachable : reachable sample_config approved_state.
Proof. apply run_all_steps. repeat constructor. Qed.

Lemma claimed_reachable : reachable sample_config claimed_state.
Proof. eapply rtc_r; [apply approved_reachable|]. exists claim_operation. split; [exact I|reflexivity]. Qed.

Lemma filled_reachable : reachable sample_config filled_state.
Proof. unfold reachable. etrans; [apply claimed_reachable|apply run_all_steps]. repeat constructor. Qed.

Lemma locked_step : step sample_config filled_state locked_state.
Proof. by exists lock_operation. Qed.

(** ** The theorems at these states *)

(** What the witnesses need of the states, evaluated once. *)
Lemma claim_granted :
  exists r i, claim_intent sample_config approved_state 5%N SCHEDULER SUBMISSION
    (sha256_hex "account") claim_time 9%N = (r, Ok i).
Proof.
  assert (H : match snd (claim_intent sample_config approved_state 5%N SCHEDULER SUBMISSION
    (sha256_hex "account") claim_time 9%N) with Ok _ => true | Raise _ => false end = true)
    by (vm_compute; reflexivity).
  destruct (claim_intent _ _ _ _ _ _ _ _) as [r [i|e]]; [by exists r, i|done].
Qed.

Lemma account_is_locked :
  exists a, rp_accounts locked_state !! SUBMISSION = Some a /\ as_execution_locked a = true.
Proof.
  assert (H : option_map as_execution_locked (rp_accounts locked_state !! SUBMISSION) = Some true)
    by (vm_compute; reflexivity).
  destruct (rp_accounts locked_state !! SUBMISSION) as [a|]; [|done]. exists a. by injection H.
Qed.

Lemma filled_budget : exists b, rp_budgets filled_state !! SUBMISSION = Some b.
Proof.
  assert (H : option_map (fun _ => true) (rp_budgets filled_state !! SUBMISSION) = Some true)
    by (vm_compute; reflexivity).
  destruct (rp_budgets filled_state !! SUBMISSION) as [b|]; [by exists b|done].
Qed.

(** The filled entry, and the evidence of its certificate. *)
Lemma filled_entry :
  exists i l a b c, intent_at filled_state 5%N i /\ rp_attempts filled_state !! 5%N = Some l /\
    ei_account_role i = SUBMISSION /\
    rp_accounts filled_state !! SUBMISSION = Some a /\ rp_budgets filled_state !! SUBMISSION = Some b /\
    validate_finalization i l filled_certificate agreed "FILLED" sample_now = Ok (c, true) /\
    _validate_entry_limits (Some sample_limits) (oe_policy_hash (ei_envelope i)) (as_equity a) b
      (eb_reserved_risk b) (oe_quantity (ei_envelope i)) = Ok tt.
Proof.
  assert (H : match dget (rp_intents filled_state) 5%N, rp_attempts filled_state !! 5%N,
                rp_accounts filled_state !! SUBMISSION, rp_budgets filled_state !! SUBMISSION with
    | Some i, Some l, Some a, Some b =>
        match validate_finalization i l filled_certificate agreed "FILLED" sample_now,
          _validate_entry_limits (Some sample_limits) (oe_policy_hash (ei_envelope i)) (as_equity a) b
            (eb_reserved_risk b) (oe_quantity (ei_envelope i)) with
        | Ok (_, true), Ok tt => bool_decide (ei_account_role i = SUBMISSION) | _, _ => false end
    | _, _, _, _ => false end = true) by (vm_compute; reflexivity).
  unfold intent_at.
  destruct (dget (rp_intents filled_state) 5%N) as [i|]; [|done].
  destruct (rp_attempts filled_state !! 5%N) as [l|]; [|done].
  destruct (rp_accounts filled_state !! SUBMISSION) as [a|]; [|done].
  destruct (rp_budgets filled_state !! SUBMISSION) as [b|]; [|done].
  destruct (validate_finalization i l _ _ _ _) as [[c [|]]|e] eqn:Ev; [|done..].
  destruct (_validate_entry_limits _ _ _ _ _ _) as [[]|e] eqn:El; [|done].
  exists i, l, a, b, c. split_and!; try done. by apply bool_decide_eq_true in H.
Qed.

Lemma filled_fresh : rp_certificates filled_state !! xc_certificate_id filled_certificate = None.
Proof. vm_compute. reflexivity. Qed.

Lemma repository_invariant_witness :
  reachable sample_config filled_state /\ invariant sample_config filled_state.
Proof.
  split; [exact filled_reachable|].
  exact (repository_invariant sample_config filled_state sample_config_wf filled_reachable).
Defined.

Lemma repository_history_witness :
  rtc (step sample_config) filled_state locked_state /\ history filled_state locked_state.
Proof.
  split; [exact (rtc_once _ _ locked_step)|].
  exact (repository_history sample_config filled_state locked_state sample_config_wf
           filled_reachable (rtc_once _ _ locked_step)).
Defined.

Lemma entry_ledger_exact_witness :
  exists b, rp_budgets filled_state !! SUBMISSION = Some b /\
    eb_entries_used b = Z.of_nat (dcount (used_entry SUBMISSION) (rp_intents filled_state)).
Proof.
  destruct filled_budget as (b & Hb). exists b. split; [exact Hb|].
  exact (proj1 (entry_ledger_exact sample_config filled_state SUBMISSION b sample_config_wf
                  filled_reachable Hb)).
Defined.

Lemma recovery_changes_nothing_witness :
  reachable sample_config claimed_state /\
  recover_entry_reservations claimed_state = (claimed_state, Ok tt).
Proof.
  split; [exact claimed_reachable|].
  exact (recovery_changes_nothing sample_config claimed_state sample_config_wf claimed_reachable).
Defined.

Lemma claim_authorized_witness :
  exists i, intent_at approved_state 5%N i /\ ei_state i = APPROVED.
Proof.
  destruct claim_granted as (r & i & H).
  destruct (claim_authorized sample_config approved_state 5%N SCHEDULER SUBMISSION
    (sha256_hex "account") claim_time 9%N r i sample_config_wf approved_reachable H)
    as (i0 & a & av & lease & Hi & Hs & _).
  exists i0. exact (conj Hi Hs).
Defined.

Lemma finalization_settles_witness :
  exists r' c, finalize_execution sample_config filled_state filled_certificate agreed "FILLED"
    sample_now = Ok (r', c).
Proof.
  destruct filled_entry as (i & l & a & b & c & Hi & Hl & Er & Ha & Hb & Hv & Hlim).
  pose proof (finalization_settles sample_config filled_state filled_certificate agreed "FILLED"
    sample_now i l c true b a sample_config_wf filled_reachable Hi Hl
    ltac:(rewrite Er; exact Ha) ltac:(rewrite Er; exact Hb) Hv) as H.
  rewrite filled_fresh in H. unfold fill_verdict in H. change (cfg_entry_limits sample_config) with (Some sample_limits) in H.
  rewrite Hlim in H. destruct (is_entry i && true); destruct H as (r' & H & _); exists r', c; exact H.
Defined.

Lemma locked_account_frozen_witness :
  exists e r2, claim_intent sample_config locked_state 6%N OWNER SUBMISSION "f" claim_time 9%N
    = (r2, Raise e).
Proof.
  destruct account_is_locked as (a & Ha & Hl).
  exact (proj1 (locked_account_frozen sample_config locked_state locked_state SUBMISSION a
    sample_config_wf (rtc_r _ _ _ filled_reachable locked_step) Ha Hl (rtc_refl _ _))
    6%N OWNER "f" claim_time 9%N).
Defined.

Lemma normalized_return_exact_witness :
  exists x, normalized_return baseline_state SUBMISSION (D 10123450 (-2)) = Ok (Some x) /\
    (dval x == 12345 # 10000)%Q.
Proof.
  destruct (normalized_return_exact baseline_state SUBMISSION baseline_sample (D 10123450 (-2)))
    as [_ H]; [discriminate|reflexivity|apply amount_D; [lia|vm_compute; discriminate]|reflexivity
              |apply amount_D; [lia|vm_compute; discriminate]|].
  destruct (H ltac:(apply not_elem_of_empty)) as (x & Hx & E). exists x. split; [exact Hx|].
  rewrite E. reflexivity.
Defined.
