(* ===== verification/ReconciliationData.v ===== *)
(** * Reconciliation records

    The evidence records of [backend/app/execution/reconciliation.py] with the checks of
    their constructors, and the canonical JSON value of each of them, which the hashes
    of expectations and reconciliations are taken of. *)

From Stdlib Require Import ZArith Lia String Ascii List Bool.
From stdpp Require Import base strings countable option tactics list.
From S2P Require Import Prelude PyText PyDecimal PyTime PyHash PyDict Contracts OrderLimits OrderStatus ExecModels.

#[local] Open Scope string_scope.
#[local] Open Scope Z_scope.

Definition MAX_SWEEP_AGE : timedelta := seconds 15.
Definition MAX_SWEEP_DURATION : timedelta := seconds 15.
Definition ACTIVITY_VISIBILITY_HORIZON : timedelta := hours 24.
Definition ACTIVE_ORDER_STATES : states := PENDING_BROKER_ORDER_STATES.

(** ** Enumerations *)

Inductive InventoryKind := OPTION | EQUITY.

Inductive ActivityType :=
  | OPASN | OPEXC | OPEXP | OPXRC | OPTRD | FILL | RESET | DEPOSIT | WITHDRAWAL | TRANSFER
  | JOURNAL | UNKNOWN_CASH | INITIAL_FUNDING | DIVIDEND | FEE | INTEREST | CORPORATE_ACTION.

Inductive ReconciliationPurpose := SUBMIT | REPLACE | CANCEL | BASELINE_INITIALIZATION.

Inductive ReconciliationBlockCode :=
  | ACCOUNT_MISMATCH | ACCOUNT_NOT_EXECUTABLE | STALE_OBSERVATION | FUTURE_OBSERVATION
  | INCOMPLETE_SWEEP | ACTIVITY_WATERMARK_UNKNOWN | ACTIVITY_WINDOW_INCOMPLETE
  | KNOWN_ACTIVITY_MISSING | UNSTABLE_SWEEP | UNEXPECTED_INVENTORY | UNEXPECTED_OPEN_ORDER
  | UNEXPECTED_ACTIVITY | ASSIGNMENT_SUSPECTED | ACCOUNT_ADJUSTMENT.

#[export] Instance InventoryKind_eq_dec : EqDecision InventoryKind.
Proof. solve_decision. Defined.
#[export] Instance ActivityType_eq_dec : EqDecision ActivityType.
Proof. solve_decision. Defined.
#[export] Instance ReconciliationPurpose_eq_dec : EqDecision ReconciliationPurpose.
Proof. solve_decision. Defined.
#[export] Instance ReconciliationBlockCode_eq_dec : EqDecision ReconciliationBlockCode.
Proof. solve_decision. Defined.

#[export] Instance InventoryKind_value : StrEnum InventoryKind := fun k =>
  match k with OPTION => "OPTION" | EQUITY => "EQUITY" end.

#[export] Instance ActivityType_value : StrEnum ActivityType := fun a =>
  match a with
  | OPASN => "OPASN" | OPEXC => "OPEXC" | OPEXP => "OPEXP" | OPXRC => "OPXRC"
  | OPTRD => "OPTRD" | FILL => "FILL" | RESET => "RESET" | DEPOSIT => "DEPOSIT"
  | WITHDRAWAL => "WITHDRAWAL" | TRANSFER => "TRANSFER" | JOURNAL => "JOURNAL"
  | UNKNOWN_CASH => "UNKNOWN_CASH" | INITIAL_FUNDING => "INITIAL_FUNDING"
  | DIVIDEND => "DIVIDEND" | FEE => "FEE" | INTEREST => "INTEREST"
  | CORPORATE_ACTION => "CORPORATE_ACTION"
  end.

#[export] Instance ReconciliationPurpose_value : StrEnum ReconciliationPurpose := fun p =>
  match p with
  | SUBMIT => "SUBMIT" | REPLACE => "REPLACE" | CANCEL => "CANCEL"
  | BASELINE_INITIALIZATION => "BASELINE_INITIALIZATION"
  end.

#[export] Instance ReconciliationBlockCode_value : StrEnum ReconciliationBlockCode := fun c =>
  match c with
  | ACCOUNT_MISMATCH => "ACCOUNT_MISMATCH"
  | ACCOUNT_NOT_EXECUTABLE => "ACCOUNT_NOT_EXECUTABLE"
  | STALE_OBSERVATION => "STALE_OBSERVATION"
  | FUTURE_OBSERVATION => "FUTURE_OBSERVATION"
  | INCOMPLETE_SWEEP => "INCOMPLETE_SWEEP"
  | ACTIVITY_WATERMARK_UNKNOWN => "ACTIVITY_WATERMARK_UNKNOWN"
  | ACTIVITY_WINDOW_INCOMPLETE => "ACTIVITY_WINDOW_INCOMPLETE"
  | KNOWN_ACTIVITY_MISSING => "KNOWN_ACTIVITY_MISSING"
  | UNSTABLE_SWEEP => "UNSTABLE_SWEEP"
  | UNEXPECTED_INVENTORY => "UNEXPECTED_INVENTORY"
  | UNEXPECTED_OPEN_ORDER => "UNEXPECTED_OPEN_ORDER"
  | UNEXPECTED_ACTIVITY => "UNEXPECTED_ACTIVITY"
  | ASSIGNMENT_SUSPECTED => "ASSIGNMENT_SUSPECTED"
  | ACCOUNT_ADJUSTMENT => "ACCOUNT_ADJUSTMENT"
  end.

Definition ASSIGNMENT_ACTIVITY_TYPES : list string := ["OPASN"; "OPEXC"; "OPEXP"; "OPXRC"].
Definition ACCOUNT_ADJUSTMENT_ACTIVITY_TYPES : list string :=
  ["RESET"; "DEPOSIT"; "WITHDRAWAL"; "TRANSFER"; "JOURNAL"; "UNKNOWN_CASH"; "DIVIDEND"; "FEE";
   "INTEREST"; "CORPORATE_ACTION"].

(** ** Checks *)

Definition _require_hash (value code : string) : M unit :=
  when negb (is_hash value) then_ Raise (ValueError code);; Ok tt.

(** Characters that are spaces or below 33; the rest of the text is ASCII. *)
Definition _require_token (value : string) (maximum : Z) (code_ : string) : M unit :=
  when negb ((1 <=? str_len value) && (str_len value <=? maximum))
       || negb (str_all is_ascii value)
       || str_any (fun character => is_space character || (code character <? 33)%N) value
  then_ Raise (ValueError code_);; Ok tt.

Definition _require_utc (value : datetime) (code : string) : M unit :=
  when negb (is_utc value) then_ Raise (ValueError code);; Ok tt.

(** A token that may be absent. *)
Definition require_optional_token (value : option string) (maximum : Z) (code : string) : M unit :=
  match value with Some value => _require_token value maximum code | None => Ok tt end.

Definition executable_role (role : AccountRole) : bool :=
  bool_decide (role = SUBMISSION) || bool_decide (role = DEVELOPMENT).

(** ** Records *)

Record AccountObservation := mk_AccountObservation {
  ao_role : AccountRole;
  ao_account_fingerprint : string;
  ao_paper : bool;
  ao_status : string;
  ao_account_blocked : bool;
  ao_trading_blocked : bool;
  ao_options_trading_blocked : bool;
  ao_equity : decimal;
  ao_buying_power : decimal;
  ao_cash : decimal;
  ao_observed_at : datetime;
  ao_time_quality : string;
}.

Definition make_AccountObservation (self : AccountObservation) : M AccountObservation :=
  when negb (executable_role (ao_role self))
  then_ Raise (ValueError "ACCOUNT_ROLE_INVALID");;
  _ ← _require_hash (ao_account_fingerprint self) "ACCOUNT_FINGERPRINT_INVALID";
  _ ← _require_utc (ao_observed_at self) "ACCOUNT_OBSERVED_AT_INVALID";
  when negb (is_finite (ao_equity self)) || negb (is_finite (ao_buying_power self))
       || negb (is_finite (ao_cash self)) || negb (str_nonempty (ao_status self))
       || negb (String.eqb (ao_time_quality self) "RETRIEVAL_TIME_ONLY")
  then_ Raise (ValueError "ACCOUNT_TIME_QUALITY_INVALID");;
  Ok self.

Record InventoryItem := mk_InventoryItem {
  iv_kind : InventoryKind;
  iv_symbol : string;
  iv_signed_quantity : decimal;
  iv_multiplier : Z;
}.

Definition make_InventoryItem (self : InventoryItem) : M InventoryItem :=
  _ ← _require_token (iv_symbol self) 64 "INVENTORY_ITEM_INVALID";
  let option := bool_decide (iv_kind self = OPTION) in
  let equity := bool_decide (iv_kind self = EQUITY) in
  when negb (is_finite (iv_signed_quantity self))
       || (iv_signed_quantity self ==. Dint 0)
       || (iv_multiplier self <=? 0)
       || (option && negb (iv_multiplier self =? 100))
       || (option && negb (iv_signed_quantity self ==. to_integral_value (iv_signed_quantity self)))
       || (equity && negb (iv_multiplier self =? 1))
  then_ Raise (ValueError "INVENTORY_ITEM_INVALID");;
  Ok self.

Record OpenOrderLeg := mk_OpenOrderLeg {
  ol_symbol : string;
  ol_intent : PositionIntent;
  ol_ratio : Z;
}.

#[export] Instance OpenOrderLeg_eq_dec : EqDecision OpenOrderLeg.
Proof. solve_decision. Defined.

Definition make_OpenOrderLeg (self : OpenOrderLeg) : M OpenOrderLeg :=
  _ ← _require_token (ol_symbol self) 64 "OPEN_ORDER_LEG_INVALID";
  when negb ((1 <=? ol_ratio self) && (ol_ratio self <=? 6))
  then_ Raise (ValueError "OPEN_ORDER_LEG_INVALID");;
  Ok self.

Record OpenOrderItem := mk_OpenOrderItem {
  oo_provider_order_id : string;
  oo_client_order_id : string;
  oo_state : string;
  oo_quantity : Z;
  oo_filled_quantity : Z;
  oo_replaces_client_order_id : option string;
  oo_replaced_by_client_order_id : option string;
  oo_order_class : string;
  oo_legs : list OpenOrderLeg;
}.

#[export] Instance OpenOrderItem_eq_dec : EqDecision OpenOrderItem.
Proof. solve_decision. Defined.

Definition make_OpenOrderItem (self : OpenOrderItem) : M OpenOrderItem :=
  _ ← _require_token (oo_provider_order_id self) 128 "OPEN_ORDER_ITEM_INVALID";
  _ ← _require_token (oo_client_order_id self) 64 "OPEN_ORDER_ITEM_INVALID";
  _ ← require_optional_token (oo_replaces_client_order_id self) 64 "OPEN_ORDER_ITEM_INVALID";
  _ ← require_optional_token (oo_replaced_by_client_order_id self) 64 "OPEN_ORDER_ITEM_INVALID";
  let legs := oo_legs self in
  when negb (in_states (oo_state self) ACTIVE_ORDER_STATES)
       ||| negb ((1 <=? oo_quantity self) && (oo_quantity self <=? MAX_STRUCTURAL_OPTION_QUANTITY))
       ||| negb ((0 <=? oo_filled_quantity self) && (oo_filled_quantity self <=? oo_quantity self))
       ||| not (broker_state_matches_fill (oo_state self) (oo_filled_quantity self) (oo_quantity self))
       ||| negb (String.eqb (oo_order_class self) "MLEG")
       ||| negb ((length legs =? 2)%nat || (length legs =? 4)%nat)
       ||| negb (set_len (map ol_symbol legs) =? length legs)%nat
       ||| negb (fold_right Z.gcd 0 (map ol_ratio legs) =? 1)
       ||| bool_decide (oo_replaces_client_order_id self = Some (oo_client_order_id self))
       ||| bool_decide (oo_replaced_by_client_order_id self = Some (oo_client_order_id self))
  then_ Raise (ValueError "OPEN_ORDER_ITEM_INVALID");;
  Ok self.

Record ActivityItem := mk_ActivityItem {
  act_activity_id_hash : string;
  act_activity_type : ActivityType;
  act_occurred_at : datetime;
  act_symbol : option string;
  act_signed_quantity : option decimal;
  act_provider_order_id : option string;
  act_client_order_id : option string;
  act_time_quality : string;
  act_provider_activity_type : option string;
}.

Definition make_ActivityItem (self : ActivityItem) : M ActivityItem :=
  _ ← _require_hash (act_activity_id_hash self) "ACTIVITY_HASH_INVALID";
  _ ← _require_utc (act_occurred_at self) "ACTIVITY_OCCURRED_AT_INVALID";
  _ ← require_optional_token (act_symbol self) 64 "ACTIVITY_FIELDS_INVALID";
  _ ← require_optional_token (act_provider_order_id self) 128 "ACTIVITY_FIELDS_INVALID";
  _ ← require_optional_token (act_client_order_id self) 64 "ACTIVITY_FIELDS_INVALID";
  _ ← require_optional_token (act_provider_activity_type self) 32 "ACTIVITY_FIELDS_INVALID";
  when match act_signed_quantity self with
       | Some quantity => negb (is_finite quantity)
       | None => false
       end
  then_ Raise (ValueError "ACTIVITY_TYPE_INVALID");;
  when negb (in_states (act_time_quality self) ["EXACT_TRANSACTION_TIME"; "DATE_ONLY"])
  then_ Raise (ValueError "ACTIVITY_TIME_QUALITY_INVALID");;
  when bool_decide (act_activity_type self ∈ [OPASN; OPEXC; OPEXP; OPXRC; OPTRD; FILL])
       && (match act_symbol self with Some s => negb (str_nonempty s) | None => true end
           || match act_signed_quantity self with Some q => q ==. Dint 0 | None => true end)
  then_ Raise (ValueError "ACTIVITY_FIELDS_INVALID");;
  Ok self.

(** A known activity from before the window cannot be observed in it. *)
Definition activity_predates_window (item : ActivityItem) (window_start : datetime) : M bool :=
  if String.eqb (act_time_quality item) "DATE_ONLY" then
    start ← astimezone_utc window_start;
    Ok (dt_date (act_occurred_at item) <? dt_date start)
  else dt_lt (act_occurred_at item) window_start.

Record ActivityPaginationEvidence := mk_ActivityPaginationEvidence {
  pe_requested_start : datetime;
  pe_requested_end : datetime;
  pe_retrieved_through : datetime;
  pe_established_at : datetime;
  pe_page_count : Z;
  pe_terminal_page_seen : bool;
  pe_visibility_complete_through : datetime;
  pe_visibility_horizon : timedelta;
}.

Definition make_ActivityPaginationEvidence (self : ActivityPaginationEvidence)
    : M ActivityPaginationEvidence :=
  _ ← map_m (fun value => _require_utc value "ACTIVITY_PAGINATION_TIME_INVALID")
    [pe_requested_start self; pe_requested_end self; pe_retrieved_through self;
     pe_established_at self; pe_visibility_complete_through self];
  when not (dt_le (pe_requested_start self) (pe_retrieved_through self)
            &&& dt_le (pe_retrieved_through self) (pe_requested_end self)
            &&& dt_le (pe_requested_end self) (pe_established_at self))
       ||| dt_lt (pe_requested_end self) (pe_visibility_complete_through self)
       ||| negb ((1 <=? pe_page_count self) && (pe_page_count self <=? 1000))
       ||| negb (pe_visibility_horizon self =? ACTIVITY_VISIBILITY_HORIZON)
       ||| (age ← dt_sub (pe_established_at self) (pe_visibility_complete_through self);
            Ok (age <? pe_visibility_horizon self))
  then_ Raise (ValueError "ACTIVITY_PAGINATION_INVALID");;
  Ok self.

Definition complete (self : ActivityPaginationEvidence) : bool :=
  pe_terminal_page_seen self && dt_eq (pe_retrieved_through self) (pe_requested_end self).

Record SweepObservation := mk_SweepObservation {
  sw_retrieval_started_at : datetime;
  sw_retrieval_completed_at : datetime;
  sw_activity_pagination : ActivityPaginationEvidence;
  sw_first_account : AccountObservation;
  sw_final_account : AccountObservation;
  sw_first_positions : list InventoryItem;
  sw_final_positions : list InventoryItem;
  sw_first_open_orders : list OpenOrderItem;
  sw_final_open_orders : list OpenOrderItem;
  sw_activities : list ActivityItem;
  sw_positions_complete : bool;
  sw_orders_complete : bool;
}.

(** [(item.kind.value, item.symbol)] *)
Definition inventory_key (item : InventoryItem) : string * string :=
  (enum_value (iv_kind item), iv_symbol item).

Definition _require_canonical {A} `{EqDecision A} (sort : list A -> list A) (keys : list A)
    (code : string) : M unit :=
  when not_canonical sort keys then_ Raise (ValueError code);; Ok tt.

Definition require_canonical_positions (items : list InventoryItem) : M unit :=
  _require_canonical sorted_pairs (map inventory_key items) "INVENTORY_NOT_CANONICAL".
Definition require_canonical_orders (items : list OpenOrderItem) : M unit :=
  _require_canonical sorted_strings (map oo_client_order_id items) "OPEN_ORDERS_NOT_CANONICAL".
Definition require_canonical_activities (items : list ActivityItem) : M unit :=
  _require_canonical sorted_strings (map act_activity_id_hash items) "ACTIVITIES_NOT_CANONICAL".

Definition _require_unique_provider_orders (items : list OpenOrderItem) : M unit :=
  when negb (set_len (map oo_provider_order_id items) =? length items)%nat
  then_ Raise (ValueError "OPEN_ORDER_PROVIDER_ID_DUPLICATE");; Ok tt.

(** The fields are records that were constructed; the code checks their types. *)
Definition make_SweepObservation (self : SweepObservation) : M SweepObservation :=
  let started := sw_retrieval_started_at self in
  let completed := sw_retrieval_completed_at self in
  let first := ao_observed_at (sw_first_account self) in
  let final := ao_observed_at (sw_final_account self) in
  let established := pe_established_at (sw_activity_pagination self) in
  _ ← _require_utc started "SWEEP_TIME_INVALID";
  _ ← _require_utc completed "SWEEP_TIME_INVALID";
  when dt_lt completed started then_ Raise (ValueError "SWEEP_TIME_INVALID");;
  when not (dt_le started first &&& dt_le first final &&& dt_le final completed
            &&& (dt_le started established &&& dt_le established completed)
            &&& (dt_le first established &&& dt_le established final)
            &&& dt_eq (pe_requested_end (sw_activity_pagination self)) first)
  then_ Raise (ValueError "SWEEP_CHRONOLOGY_INVALID");;
  _ ← require_canonical_positions (sw_first_positions self);
  _ ← require_canonical_positions (sw_final_positions self);
  _ ← require_canonical_orders (sw_first_open_orders self);
  _ ← require_canonical_orders (sw_final_open_orders self);
  _ ← _require_unique_provider_orders (sw_first_open_orders self);
  _ ← _require_unique_provider_orders (sw_final_open_orders self);
  _ ← require_canonical_activities (sw_activities self);
  Ok self.

(** ** Equality of records: [==] field by field *)

Definition inventory_eq (a b : InventoryItem) : bool :=
  bool_decide (iv_kind a = iv_kind b) && String.eqb (iv_symbol a) (iv_symbol b)
  && (iv_signed_quantity a ==. iv_signed_quantity b) && (iv_multiplier a =? iv_multiplier b).

Definition activity_eq (a b : ActivityItem) : bool :=
  String.eqb (act_activity_id_hash a) (act_activity_id_hash b)
  && bool_decide (act_activity_type a = act_activity_type b)
  && dt_eq (act_occurred_at a) (act_occurred_at b)
  && bool_decide (act_symbol a = act_symbol b)
  && deq_opt (act_signed_quantity a) (act_signed_quantity b)
  && bool_decide (act_provider_order_id a = act_provider_order_id b)
  && bool_decide (act_client_order_id a = act_client_order_id b)
  && String.eqb (act_time_quality a) (act_time_quality b)
  && bool_decide (act_provider_activity_type a = act_provider_activity_type b).

(** [==] of two tuples. *)
Fixpoint tuple_eq {A} (eqb : A -> A -> bool) (l l' : list A) : bool :=
  match l, l' with
  | [], [] => true
  | x :: l, y :: l' => eqb x y && tuple_eq eqb l l'
  | _, _ => false
  end.

Definition positions_eq : list InventoryItem -> list InventoryItem -> bool := tuple_eq inventory_eq.
Definition orders_eq (l l' : list OpenOrderItem) : bool := bool_decide (l = l').

(** [_account_material(a) == _account_material(b)] *)
Definition account_material_eq (a b : AccountObservation) : bool :=
  bool_decide (ao_role a = ao_role b)
  && String.eqb (ao_account_fingerprint a) (ao_account_fingerprint b)
  && Bool.eqb (ao_paper a) (ao_paper b) && String.eqb (ao_status a) (ao_status b)
  && Bool.eqb (ao_account_blocked a) (ao_account_blocked b)
  && Bool.eqb (ao_trading_blocked a) (ao_trading_blocked b)
  && Bool.eqb (ao_options_trading_blocked a) (ao_options_trading_blocked b)
  && (ao_cash a ==. ao_cash b) && String.eqb (ao_time_quality a) (ao_time_quality b).

(** ** Canonical values

    [_canonical_value]: one instance per type the function distinguishes. *)

Class Canonical (A : Type) := _canonical_value : A -> M json.

(** Texts, numbers, booleans and [None] stay what they are. *)
#[export] Instance Canonical_string : Canonical string := fun s => Ok (JStr s).
#[export] Instance Canonical_Z : Canonical Z := fun z => Ok (JInt z).
#[export] Instance Canonical_bool : Canonical bool := fun b => Ok (JBool b).
#[export] Instance Canonical_uuid : Canonical uuid := fun u => Ok (JStr (uuid_str u)).
#[export] Instance Canonical_StrEnum {A} `{StrEnum A} : Canonical A | 10 :=
  fun v => Ok (JStr (enum_value v)).
#[export] Instance Canonical_decimal : Canonical decimal := fun d =>
  if is_finite d then Ok (JStr (canonical_decimal d)) else Raise (ValueError "NONFINITE_DECIMAL").

(** [value.astimezone(UTC).isoformat().replace("+00:00", "Z")] *)
Definition _utc_text (value : datetime) : M string :=
  value ← astimezone_utc value; Ok (utc_isoformat false value).
#[export] Instance Canonical_datetime : Canonical datetime := fun t =>
  text ← _utc_text t; Ok (JStr text).

(** A [timedelta] is not an [int]: its instance is used by name. *)
Definition canonical_timedelta (td : timedelta) : M json :=
  Ok (JObj [("days", JInt (td_days td)); ("seconds", JInt (td_seconds td));
            ("microseconds", JInt (td_microseconds td))]).

#[export] Instance Canonical_option {A} `{Canonical A} : Canonical (option A) := fun o =>
  match o with Some v => _canonical_value v | None => Ok JNull end.
#[export] Instance Canonical_list {A} `{Canonical A} : Canonical (list A) := fun l =>
  items ← map_m _canonical_value l; Ok (JArr items).

(** [{name: _canonical_value(getattr(value, name)) for name in ...}] *)
Definition canonical_members (l : list (string * M json)) : M (list (string * json)) :=
  map_m (fun '(name, value) => value ← value; Ok (name, value)) l.
Definition canonical_fields (l : list (string * M json)) : M json :=
  members ← canonical_members l; Ok (JObj members).

#[export] Instance Canonical_AccountObservation : Canonical AccountObservation := fun v =>
  canonical_fields
    [("role", _canonical_value (ao_role v));
     ("account_fingerprint", _canonical_value (ao_account_fingerprint v));
     ("paper", _canonical_value (ao_paper v));
     ("status", _canonical_value (ao_status v));
     ("account_blocked", _canonical_value (ao_account_blocked v));
     ("trading_blocked", _canonical_value (ao_trading_blocked v));
     ("options_trading_blocked", _canonical_value (ao_options_trading_blocked v));
     ("equity", _canonical_value (ao_equity v));
     ("buying_power", _canonical_value (ao_buying_power v));
     ("cash", _canonical_value (ao_cash v));
     ("observed_at", _canonical_value (ao_observed_at v));
     ("time_quality", _canonical_value (ao_time_quality v))].

#[export] Instance Canonical_InventoryItem : Canonical InventoryItem := fun v =>
  canonical_fields
    [("kind", _canonical_value (iv_kind v)); ("symbol", _canonical_value (iv_symbol v));
     ("signed_quantity", _canonical_value (iv_signed_quantity v));
     ("multiplier", _canonical_value (iv_multiplier v))].

#[export] Instance Canonical_OpenOrderLeg : Canonical OpenOrderLeg := fun v =>
  canonical_fields
    [("symbol", _canonical_value (ol_symbol v)); ("intent", _canonical_value (ol_intent v));
     ("ratio", _canonical_value (ol_ratio v))].

#[export] Instance Canonical_OpenOrderItem : Canonical OpenOrderItem := fun v =>
  canonical_fields
    [("provider_order_id", _canonical_value (oo_provider_order_id v));
     ("client_order_id", _canonical_value (oo_client_order_id v));
     ("state", _canonical_value (oo_state v));
     ("quantity", _canonical_value (oo_quantity v));
     ("filled_quantity", _canonical_value (oo_filled_quantity v));
     ("replaces_client_order_id", _canonical_value (oo_replaces_client_order_id v));
     ("replaced_by_client_order_id", _canonical_value (oo_replaced_by_client_order_id v));
     ("order_class", _canonical_value (oo_order_class v));
     ("legs", _canonical_value (oo_legs v))].

(** The time quality and the provider's type are only there when they say something. *)
#[export] Instance Canonical_ActivityItem : Canonical ActivityItem := fun v =>
  canonical_fields
    ([("activity_id_hash", _canonical_value (act_activity_id_hash v));
      ("activity_type", _canonical_value (act_activity_type v));
      ("occurred_at", _canonical_value (act_occurred_at v));
      ("symbol", _canonical_value (act_symbol v));
      ("signed_quantity", _canonical_value (act_signed_quantity v));
      ("provider_order_id", _canonical_value (act_provider_order_id v));
      ("client_order_id", _canonical_value (act_client_order_id v))]
     ++ (if String.eqb (act_time_quality v) "EXACT_TRANSACTION_TIME" then []
         else [("time_quality", _canonical_value (act_time_quality v))])
     ++ match act_provider_activity_type v with
        | Some type => [("provider_activity_type", _canonical_value type)]
        | None => []
        end)%list.

#[export] Instance Canonical_ActivityPaginationEvidence : Canonical ActivityPaginationEvidence :=
  fun v => canonical_fields
    [("requested_start", _canonical_value (pe_requested_start v));
     ("requested_end", _canonical_value (pe_requested_end v));
     ("retrieved_through", _canonical_value (pe_retrieved_through v));
     ("established_at", _canonical_value (pe_established_at v));
     ("page_count", _canonical_value (pe_page_count v));
     ("terminal_page_seen", _canonical_value (pe_terminal_page_seen v));
     ("visibility_complete_through", _canonical_value (pe_visibility_complete_through v));
     ("visibility_horizon", canonical_timedelta (pe_visibility_horizon v))].

#[export] Instance Canonical_SweepObservation : Canonical SweepObservation := fun v =>
  canonical_fields
    [("retrieval_started_at", _canonical_value (sw_retrieval_started_at v));
     ("retrieval_completed_at", _canonical_value (sw_retrieval_completed_at v));
     ("activity_pagination", _canonical_value (sw_activity_pagination v));
     ("first_account", _canonical_value (sw_first_account v));
     ("final_account", _canonical_value (sw_final_account v));
     ("first_positions", _canonical_value (sw_first_positions v));
     ("final_positions", _canonical_value (sw_final_positions v));
     ("first_open_orders", _canonical_value (sw_first_open_orders v));
     ("final_open_orders", _canonical_value (sw_final_open_orders v));
     ("activities", _canonical_value (sw_activities v));
     ("positions_complete", _canonical_value (sw_positions_complete v));
     ("orders_complete", _canonical_value (sw_orders_complete v))].

(** [_canonical_hash] *)
Definition _canonical_hash (value : json) : string := sha256_hex (json_dumps value).
Definition canonical_value_hash {A} `{Canonical A} (value : A) : M string :=
  value ← _canonical_value value; Ok (_canonical_hash value).
