(* ===== verification/Reconciliation.v ===== *)
(** * Whole account reconciliation

    [backend/app/execution/reconciliation.py]: the expectation the repository derives
    from its state, and [WholeAccountReconciliation.evaluate], which compares it with a
    sweep of the broker account and decides whether a broker mutation is safe. *)

From Stdlib Require Import ZArith Lia String Ascii List Bool QArith Lqa.
From stdpp Require Import base strings gmap countable option tactics sorting list.
From S2P Require Import Prelude PyText PyDecimal PyDecimalFacts PyTime PyHash PyDict Contracts OrderLimits OrderStatus ExecModels ReconciliationData.

#[local] Open Scope string_scope.
#[local] Open Scope Z_scope.

(** ** The expectation *)

Record ReconciliationExpectation := mk_ReconciliationExpectation {
  ex_purpose : ReconciliationPurpose;
  ex_account_role : AccountRole;
  ex_account_fingerprint : string;
  ex_expected_cash : decimal;
  ex_baseline_captured_at : datetime;
  ex_expected_positions : list InventoryItem;
  ex_expected_open_orders : list OpenOrderItem;
  ex_known_activities : list ActivityItem;
  ex_resolved_activity_hashes : list string;
  ex_required_activity_window_start : datetime;
  ex_required_activity_complete_through : datetime;
  ex_intent_id : uuid;
  ex_intent_digest : string;
  ex_attempt_ordinal : Z;
  ex_request_hash : string;
  ex_expectation_hash : string;
}.

(** Every field but the hash. *)
Definition expectation_fields (v : ReconciliationExpectation) : list (string * M json) :=
  [("purpose", _canonical_value (ex_purpose v));
   ("account_role", _canonical_value (ex_account_role v));
   ("account_fingerprint", _canonical_value (ex_account_fingerprint v));
   ("expected_cash", _canonical_value (ex_expected_cash v));
   ("baseline_captured_at", _canonical_value (ex_baseline_captured_at v));
   ("expected_positions", _canonical_value (ex_expected_positions v));
   ("expected_open_orders", _canonical_value (ex_expected_open_orders v));
   ("known_activities", _canonical_value (ex_known_activities v));
   ("resolved_activity_hashes", _canonical_value (ex_resolved_activity_hashes v));
   ("required_activity_window_start", _canonical_value (ex_required_activity_window_start v));
   ("required_activity_complete_through", _canonical_value (ex_required_activity_complete_through v));
   ("intent_id", _canonical_value (ex_intent_id v));
   ("intent_digest", _canonical_value (ex_intent_digest v));
   ("attempt_ordinal", _canonical_value (ex_attempt_ordinal v));
   ("request_hash", _canonical_value (ex_request_hash v))].

#[export] Instance Canonical_ReconciliationExpectation : Canonical ReconciliationExpectation :=
  fun v => canonical_fields
    (expectation_fields v ++ [("expectation_hash", _canonical_value (ex_expectation_hash v))])%list.

Definition expectation_hash_of (v : ReconciliationExpectation) : M string :=
  members ← canonical_members (expectation_fields v);
  Ok (_canonical_hash
        (JObj (("domain", JStr "alphadecay.reconciliation-expectation.v1") :: members))).

Definition with_expectation_hash (v : ReconciliationExpectation) (hash : string)
    : ReconciliationExpectation :=
  mk_ReconciliationExpectation (ex_purpose v) (ex_account_role v) (ex_account_fingerprint v)
    (ex_expected_cash v) (ex_baseline_captured_at v) (ex_expected_positions v)
    (ex_expected_open_orders v) (ex_known_activities v) (ex_resolved_activity_hashes v)
    (ex_required_activity_window_start v) (ex_required_activity_complete_through v)
    (ex_intent_id v) (ex_intent_digest v) (ex_attempt_ordinal v) (ex_request_hash v) hash.

(** [{item.activity_id_hash for item in known}] *)
Definition known_hashes (known : list ActivityItem) : gset string :=
  list_to_set (map act_activity_id_hash known).

(** [ReconciliationExpectation._from_repository_state]; the keyword arguments are the
    fields of [values], whose hash is computed. *)
Definition _from_repository_state (values : ReconciliationExpectation)
    : M ReconciliationExpectation :=
  when negb (executable_role (ex_account_role values))
  then_ Raise (ValueError "RECONCILIATION_EXPECTATION_INVALID");;
  _ ← _require_hash (ex_account_fingerprint values) "ACCOUNT_FINGERPRINT_INVALID";
  _ ← _require_hash (ex_intent_digest values) "INTENT_DIGEST_INVALID";
  _ ← _require_hash (ex_request_hash values) "REQUEST_HASH_INVALID";
  _ ← _require_utc (ex_baseline_captured_at values) "BASELINE_TIME_INVALID";
  _ ← _require_utc (ex_required_activity_window_start values) "ACTIVITY_WINDOW_INVALID";
  _ ← _require_utc (ex_required_activity_complete_through values) "ACTIVITY_WINDOW_INVALID";
  when negb (dt_eq (ex_required_activity_window_start values) (ex_baseline_captured_at values))
       ||| dt_lt (ex_required_activity_complete_through values)
             (ex_required_activity_window_start values)
       ||| negb (is_finite (ex_expected_cash values))
       ||| negb ((0 <=? ex_attempt_ordinal values) && (ex_attempt_ordinal values <=? 3))
  then_ Raise (ValueError "RECONCILIATION_EXPECTATION_INVALID");;
  _ ← require_canonical_positions (ex_expected_positions values);
  _ ← require_canonical_orders (ex_expected_open_orders values);
  _ ← _require_unique_provider_orders (ex_expected_open_orders values);
  _ ← require_canonical_activities (ex_known_activities values);
  _ ← _require_canonical sorted_strings (ex_resolved_activity_hashes values)
        "ACTIVITY_HASHES_NOT_CANONICAL";
  let known := known_hashes (ex_known_activities values) in
  _ ← map_m (fun activity_hash =>
        _ ← _require_hash activity_hash "ACTIVITY_HASH_INVALID";
        when bool_decide (activity_hash ∉ known)
        then_ Raise (ValueError "RESOLVED_ACTIVITY_NOT_KNOWN");; Ok tt)
      (ex_resolved_activity_hashes values);
  hash ← expectation_hash_of values;
  Ok (with_expectation_hash values hash).

Definition _verify_integrity (self : ReconciliationExpectation) : M unit :=
  expected ← expectation_hash_of self;
  when negb (String.eqb (ex_expectation_hash self) expected)
  then_ Raise (ValueError "RECONCILIATION_EXPECTATION_INTEGRITY_INVALID");; Ok tt.

(** ** The account state the repository stores *)

Record AccountReconciliationState := mk_AccountReconciliationState {
  rs_state_id : uuid;
  rs_account_role : AccountRole;
  rs_account_fingerprint : string;
  rs_baseline_captured_at : datetime;
  rs_accepted_at : datetime;
  rs_expected_cash : decimal;
  rs_expected_positions : list InventoryItem;
  rs_expected_open_orders : list OpenOrderItem;
  rs_known_activities : list ActivityItem;
  rs_activity_complete_through : datetime;
  rs_resolved_activity_hashes : list string;
  rs_state_hash : string;
}.

Definition make_AccountReconciliationState (account_role : AccountRole)
    (account_fingerprint : string) (baseline_captured_at accepted_at : datetime)
    (expected_cash : decimal) (expected_positions : list InventoryItem)
    (expected_open_orders : list OpenOrderItem) (known_activities : list ActivityItem)
    (activity_complete_through : datetime) (resolved_activity_hashes : list string)
    : M AccountReconciliationState :=
  when negb (bool_decide (resolved_activity_hashes = sorted_strings resolved_activity_hashes))
       || negb (set_len resolved_activity_hashes =? length resolved_activity_hashes)%nat
       || existsb (fun item => bool_decide (item ∉ known_hashes known_activities))
            resolved_activity_hashes
  then_ Raise (ValueError "RESOLVED_ACTIVITY_HASHES_INVALID");;
  material ← canonical_fields
    ([("domain", _canonical_value "alphadecay.account-reconciliation-state.v1");
      ("account_role", _canonical_value account_role);
      ("account_fingerprint", _canonical_value account_fingerprint);
      ("baseline_captured_at", _canonical_value baseline_captured_at);
      ("accepted_at", _canonical_value accepted_at);
      ("expected_cash", _canonical_value expected_cash);
      ("expected_positions", _canonical_value expected_positions);
      ("expected_open_orders", _canonical_value expected_open_orders);
      ("known_activities", _canonical_value known_activities);
      ("activity_complete_through", _canonical_value activity_complete_through)]
     ++ (if decide (resolved_activity_hashes = []) then []
         else [("resolved_activity_hashes", _canonical_value resolved_activity_hashes)]))%list;
  let state_hash := _canonical_hash material in
  Ok {| rs_state_id := uuid5 NAMESPACE_URL ("alphadecay:account-state:" ++ state_hash);
        rs_account_role := account_role; rs_account_fingerprint := account_fingerprint;
        rs_baseline_captured_at := baseline_captured_at; rs_accepted_at := accepted_at;
        rs_expected_cash := expected_cash; rs_expected_positions := expected_positions;
        rs_expected_open_orders := expected_open_orders;
        rs_known_activities := known_activities;
        rs_activity_complete_through := activity_complete_through;
        rs_resolved_activity_hashes := resolved_activity_hashes; rs_state_hash := state_hash |}.

(** ** The evaluation *)

Definition MAX_UNREPORTED_FEE_DRAG : decimal := D 100 (-2).

(** [Decimal(0) <= expected - observed <= MAX_UNREPORTED_FEE_DRAG] *)
Definition _cash_within_fee_tolerance (observed expected : decimal) : M bool :=
  drag ← dsub expected observed;
  (Dint 0 <=. drag) &&& (drag <=. MAX_UNREPORTED_FEE_DRAG).

Record WholeAccountReconciliation := mk_WholeAccountReconciliation {
  wr_reconciliation_id : uuid;
  wr_reconciliation_hash : string;
  wr_expectation : ReconciliationExpectation;
  wr_sweep : SweepObservation;
  wr_accepted_at : datetime;
  wr_positions_manifest_hash : string;
  wr_orders_manifest_hash : string;
  wr_activities_manifest_hash : string;
  wr_safe : bool;
  wr_block_codes : list ReconciliationBlockCode;
}.

#[export] Instance ReconciliationBlockCode_countable : Countable ReconciliationBlockCode.
Proof.
  refine (inj_countable (fun c : ReconciliationBlockCode => enum_value c)
    (fun s => find (fun c => String.eqb (enum_value c) s)
       [ACCOUNT_MISMATCH; ACCOUNT_NOT_EXECUTABLE; STALE_OBSERVATION; FUTURE_OBSERVATION;
        INCOMPLETE_SWEEP; ACTIVITY_WATERMARK_UNKNOWN; ACTIVITY_WINDOW_INCOMPLETE;
        KNOWN_ACTIVITY_MISSING; UNSTABLE_SWEEP; UNEXPECTED_INVENTORY; UNEXPECTED_OPEN_ORDER;
        UNEXPECTED_ACTIVITY; ASSIGNMENT_SUSPECTED; ACCOUNT_ADJUSTMENT]) _).
  by intros [].
Defined.

Definition blocks_t : Type := gset ReconciliationBlockCode.

(** [if condition: blocks.add(code)] *)
Definition add_if (condition : M bool) (block_code : ReconciliationBlockCode) (blocks : blocks_t)
    : M blocks_t :=
  condition ← condition;
  Ok (if condition : bool then {[block_code]} ∪ blocks else blocks).

(** The loop over the observation times. *)
Definition observation_blocks (accepted_at : datetime) (blocks : blocks_t) (observation_time : datetime)
    : M blocks_t :=
  future ← dt_lt accepted_at observation_time;
  if future : bool then Ok ({[FUTURE_OBSERVATION]} ∪ blocks)
  else add_if (age ← dt_sub accepted_at observation_time; Ok (MAX_SWEEP_AGE <? age))
         STALE_OBSERVATION blocks.

(** The loop over the two account observations. *)
Definition account_blocks (expectation : ReconciliationExpectation) (blocks : blocks_t)
    (observed : AccountObservation) : M blocks_t :=
  blocks ← add_if (negb (bool_decide (ao_role observed = ex_account_role expectation))
                   || negb (String.eqb (ao_account_fingerprint observed)
                              (ex_account_fingerprint expectation)))
             ACCOUNT_MISMATCH blocks;
  blocks ← add_if (negb (ao_paper observed) || negb (String.eqb (ao_status observed) "ACTIVE")
                   || ao_account_blocked observed || ao_trading_blocked observed
                   || ao_options_trading_blocked observed)
             ACCOUNT_NOT_EXECUTABLE blocks;
  add_if (not (_cash_within_fee_tolerance (ao_cash observed) (ex_expected_cash expectation)))
    ACCOUNT_ADJUSTMENT blocks.

(** [{item.activity_id_hash: item for item in items}] *)
Definition by_hash (items : list ActivityItem) : list (string * ActivityItem) :=
  dict_of (fun item => (act_activity_id_hash item, item)) items.

Definition known_activity_missing (expectation : ReconciliationExpectation)
    (observed known : list (string * ActivityItem)) : M bool :=
  any_m (fun '(activity_hash, item) =>
    predates ← activity_predates_window item (ex_required_activity_window_start expectation);
    Ok (negb predates
        && match dget observed activity_hash with
           | Some activity => negb (activity_eq activity item)
           | None => true
           end)) known.

Definition unexpected_activity (observed known : list (string * ActivityItem)) : bool :=
  existsb (fun '(activity_hash, item) =>
    negb (bool_decide (act_activity_type item = FEE))
    && bool_decide (dget known activity_hash = None)) observed.

(** [activity_types & types] is not empty. *)
Definition has_activity_type (activities : list ActivityItem) (types : list string) : bool :=
  existsb (fun item => in_states (enum_value (act_activity_type item)) types) activities.

Definition unresolved_activities (sweep : SweepObservation) (expectation : ReconciliationExpectation)
    : list ActivityItem :=
  List.filter (fun item => negb (in_states (act_activity_id_hash item)
                                   (ex_resolved_activity_hashes expectation)))
    (sw_activities sweep).

(** The set of codes [evaluate] collects. *)
Definition block_set (sweep : SweepObservation) (expectation : ReconciliationExpectation)
    (accepted_at : datetime) : M blocks_t :=
  let pagination := sw_activity_pagination sweep in
  let first := sw_first_account sweep in
  let final := sw_final_account sweep in
  blocks ← add_if (negb (sw_positions_complete sweep) || negb (sw_orders_complete sweep))
             INCOMPLETE_SWEEP ∅;
  blocks ← add_if (negb (complete pagination)
                   ||| (dt_lt (pe_visibility_complete_through pagination)
                          (ex_required_activity_complete_through expectation)
                        ||| dt_lt accepted_at (pe_established_at pagination)))
             ACTIVITY_WATERMARK_UNKNOWN blocks;
  blocks ← add_if (negb (dt_eq (pe_requested_start pagination)
                           (ex_required_activity_window_start expectation)))
             ACTIVITY_WINDOW_INCOMPLETE blocks;
  blocks ← add_if (duration ← dt_sub (sw_retrieval_completed_at sweep)
                                (sw_retrieval_started_at sweep);
                   Ok (MAX_SWEEP_DURATION <? duration))
             STALE_OBSERVATION blocks;
  blocks ← add_if (negb (account_material_eq first final)
                   || negb (positions_eq (sw_first_positions sweep) (sw_final_positions sweep))
                   || negb (orders_eq (sw_first_open_orders sweep) (sw_final_open_orders sweep)))
             UNSTABLE_SWEEP blocks;
  blocks ← fold_m (observation_blocks accepted_at) blocks
             [ao_observed_at first; ao_observed_at final; sw_retrieval_started_at sweep;
              sw_retrieval_completed_at sweep];
  blocks ← fold_m (account_blocks expectation) blocks [first; final];
  blocks ← (if negb (positions_eq (sw_final_positions sweep) (ex_expected_positions expectation))
            then add_if (existsb (fun item => bool_decide (iv_kind item = EQUITY))
                           (sw_final_positions sweep))
                   ASSIGNMENT_SUSPECTED ({[UNEXPECTED_INVENTORY]} ∪ blocks)
            else Ok blocks);
  blocks ← add_if (negb (orders_eq (sw_final_open_orders sweep)
                           (ex_expected_open_orders expectation)))
             UNEXPECTED_OPEN_ORDER blocks;
  let observed_activities := by_hash (sw_activities sweep) in
  let known_activities := by_hash (ex_known_activities expectation) in
  blocks ← add_if (known_activity_missing expectation observed_activities known_activities)
             KNOWN_ACTIVITY_MISSING blocks;
  blocks ← add_if (unexpected_activity observed_activities known_activities)
             UNEXPECTED_ACTIVITY blocks;
  blocks ← add_if (any_m (fun item => dt_lt accepted_at (act_occurred_at item))
                     (sw_activities sweep))
             FUTURE_OBSERVATION blocks;
  let unresolved := unresolved_activities sweep expectation in
  blocks ← add_if (has_activity_type unresolved ASSIGNMENT_ACTIVITY_TYPES)
             ASSIGNMENT_SUSPECTED blocks;
  add_if (has_activity_type unresolved ACCOUNT_ADJUSTMENT_ACTIVITY_TYPES)
    ACCOUNT_ADJUSTMENT blocks.

(** [tuple(sorted(blocks, key=str))] *)
Definition ordered_blocks_of (blocks : blocks_t) : list ReconciliationBlockCode :=
  sorted_by enum_value (elements blocks).

Definition evaluate (sweep : SweepObservation) (expectation : ReconciliationExpectation)
    (accepted_at : datetime) : M WholeAccountReconciliation :=
  _ ← _require_utc accepted_at "RECONCILIATION_ACCEPTED_AT_INVALID";
  _ ← _verify_integrity expectation;
  blocks ← block_set sweep expectation accepted_at;
  positions_hash ← canonical_value_hash (sw_final_positions sweep);
  orders_hash ← canonical_value_hash (sw_final_open_orders sweep);
  activities_hash ← canonical_value_hash (sw_activities sweep);
  let ordered_blocks := ordered_blocks_of blocks in
  material ← canonical_fields
    [("domain", _canonical_value "alphadecay.whole-account-reconciliation.v1");
     ("expectation", _canonical_value expectation); ("sweep", _canonical_value sweep);
     ("accepted_at", _canonical_value accepted_at);
     ("positions_manifest_hash", _canonical_value positions_hash);
     ("orders_manifest_hash", _canonical_value orders_hash);
     ("activities_manifest_hash", _canonical_value activities_hash);
     ("block_codes", _canonical_value (map enum_value ordered_blocks))];
  let reconciliation_hash := _canonical_hash material in
  Ok {| wr_reconciliation_id :=
          uuid5 NAMESPACE_URL ("alphadecay:whole-account:" ++ reconciliation_hash);
        wr_reconciliation_hash := reconciliation_hash;
        wr_expectation := expectation; wr_sweep := sweep; wr_accepted_at := accepted_at;
        wr_positions_manifest_hash := positions_hash; wr_orders_manifest_hash := orders_hash;
        wr_activities_manifest_hash := activities_hash;
        wr_safe := bool_decide (ordered_blocks = []);
        wr_block_codes := ordered_blocks |}.
