(* ===== verification/ReconciliationFacts.v ===== *)
(** * When a reconciliation is safe

    The block codes of [evaluate] are exactly the reasons, stated over instants, exact
    amounts and sets of activities, why the account is not the expected one; [evaluate]
    returns for every sweep and expectation that were constructed. *)

From Stdlib Require Import ZArith Lia String Ascii List Bool QArith Lqa Sorted.
From stdpp Require Import base strings gmap countable option tactics sorting list.
From S2P Require Import Prelude PyText PyDecimal PyDecimalFacts PyTime PyHash PyDict Contracts OrderLimits OrderStatus ExecModels ReconciliationData Reconciliation.

#[local] Open Scope string_scope.
#[local] Open Scope Z_scope.

(** ** Moments: the UTC values [datetime] can hold *)

Definition moment (t : datetime) : Prop := is_utc t = true /\ 0 <= dt_local t < max_local.

(** ** The reasons *)

Definition same_item (a b : InventoryItem) : Prop :=
  iv_kind a = iv_kind b /\ iv_symbol a = iv_symbol b /\
  (dval (iv_signed_quantity a) == dval (iv_signed_quantity b))%Q /\
  iv_multiplier a = iv_multiplier b.

Definition same_items : list InventoryItem -> list InventoryItem -> Prop := Forall2 same_item.

Definition same_quantity (a b : option decimal) : Prop := option_Forall2 (fun x y => (dval x == dval y)%Q) a b.

Definition same_activity (a b : ActivityItem) : Prop :=
  act_activity_id_hash a = act_activity_id_hash b /\
  act_activity_type a = act_activity_type b /\
  dt_instant (act_occurred_at a) = dt_instant (act_occurred_at b) /\
  act_symbol a = act_symbol b /\ same_quantity (act_signed_quantity a) (act_signed_quantity b) /\
  act_provider_order_id a = act_provider_order_id b /\
  act_client_order_id a = act_client_order_id b /\
  act_time_quality a = act_time_quality b /\
  act_provider_activity_type a = act_provider_activity_type b.

Definition same_account (a b : AccountObservation) : Prop :=
  ao_role a = ao_role b /\ ao_account_fingerprint a = ao_account_fingerprint b /\
  ao_paper a = ao_paper b /\ ao_status a = ao_status b /\
  ao_account_blocked a = ao_account_blocked b /\
  ao_trading_blocked a = ao_trading_blocked b /\
  ao_options_trading_blocked a = ao_options_trading_blocked b /\
  (dval (ao_cash a) == dval (ao_cash b))%Q /\ ao_time_quality a = ao_time_quality b.

(** The account may trade. *)
Definition executable_account (a : AccountObservation) : Prop :=
  ao_paper a = true /\ ao_status a = "ACTIVE" /\ ao_account_blocked a = false /\
  ao_trading_blocked a = false /\ ao_options_trading_blocked a = false.

(** The cash is the expected one, or up to a dollar less. *)
Definition cash_expected (a : AccountObservation) (e : ReconciliationExpectation) : Prop :=
  (dval (ex_expected_cash e) - 1 <= dval (ao_cash a) <= dval (ex_expected_cash e))%Q.

Definition accounts (s : SweepObservation) : list AccountObservation :=
  [sw_first_account s; sw_final_account s].

(** The times at which the sweep observed the account. *)
Definition observation_times (s : SweepObservation) : list datetime :=
  [ao_observed_at (sw_first_account s); ao_observed_at (sw_final_account s);
   sw_retrieval_started_at s; sw_retrieval_completed_at s].

(** The activity is one that the sweep's window can show. *)
Definition in_window (e : ReconciliationExpectation) (a : ActivityItem) : Prop :=
  if String.eqb (act_time_quality a) "DATE_ONLY"
  then dt_date (ex_required_activity_window_start e) <= dt_date (act_occurred_at a)
  else dt_instant (ex_required_activity_window_start e) <= dt_instant (act_occurred_at a).

Definition assignment_type (t : ActivityType) : Prop := t ∈ [OPASN; OPEXC; OPEXP; OPXRC].
Definition adjustment_type (t : ActivityType) : Prop :=
  t ∈ [RESET; DEPOSIT; WITHDRAWAL; TRANSFER; JOURNAL; UNKNOWN_CASH; DIVIDEND; FEE; INTEREST;
       CORPORATE_ACTION].

(** An activity of the sweep that was not resolved before. *)
Definition unresolved (s : SweepObservation) (e : ReconciliationExpectation) (a : ActivityItem) : Prop :=
  a ∈ sw_activities s /\ act_activity_id_hash a ∉ ex_resolved_activity_hashes e.

Definition blocked_by (s : SweepObservation) (e : ReconciliationExpectation) (accepted : datetime)
    (c : ReconciliationBlockCode) : Prop :=
  let p := sw_activity_pagination s in
  let age t := dt_instant accepted - dt_instant t in
  match c with
  | INCOMPLETE_SWEEP => sw_positions_complete s = false \/ sw_orders_complete s = false
  | ACTIVITY_WATERMARK_UNKNOWN =>
      pe_terminal_page_seen p = false \/
      dt_instant (pe_retrieved_through p) <> dt_instant (pe_requested_end p) \/
      dt_instant (pe_visibility_complete_through p)
        < dt_instant (ex_required_activity_complete_through e) \/
      age (pe_established_at p) < 0
  | ACTIVITY_WINDOW_INCOMPLETE =>
      dt_instant (pe_requested_start p) <> dt_instant (ex_required_activity_window_start e)
  | STALE_OBSERVATION =>
      seconds 15 < dt_instant (sw_retrieval_completed_at s) - dt_instant (sw_retrieval_started_at s) \/
      exists t, t ∈ observation_times s /\ seconds 15 < age t
  | FUTURE_OBSERVATION =>
      (exists t, t ∈ observation_times s /\ age t < 0) \/
      (exists a, a ∈ sw_activities s /\ age (act_occurred_at a) < 0)
  | UNSTABLE_SWEEP =>
      ~ same_account (sw_first_account s) (sw_final_account s) \/
      ~ same_items (sw_first_positions s) (sw_final_positions s) \/
      sw_first_open_orders s <> sw_final_open_orders s
  | ACCOUNT_MISMATCH =>
      exists a, a ∈ accounts s /\
        (ao_role a <> ex_account_role e \/ ao_account_fingerprint a <> ex_account_fingerprint e)
  | ACCOUNT_NOT_EXECUTABLE => exists a, a ∈ accounts s /\ ~ executable_account a
  | ACCOUNT_ADJUSTMENT =>
      (exists a, a ∈ accounts s /\ ~ cash_expected a e) \/
      (exists a, unresolved s e a /\ adjustment_type (act_activity_type a))
  | UNEXPECTED_INVENTORY => ~ same_items (sw_final_positions s) (ex_expected_positions e)
  | ASSIGNMENT_SUSPECTED =>
      (~ same_items (sw_final_positions s) (ex_expected_positions e) /\
       exists i, i ∈ sw_final_positions s /\ iv_kind i = EQUITY) \/
      (exists a, unresolved s e a /\ assignment_type (act_activity_type a))
  | UNEXPECTED_OPEN_ORDER => sw_final_open_orders s <> ex_expected_open_orders e
  | KNOWN_ACTIVITY_MISSING =>
      exists k, k ∈ ex_known_activities e /\ in_window e k /\
        ~ exists a, a ∈ sw_activities s /\ same_activity a k
  | UNEXPECTED_ACTIVITY =>
      exists a, a ∈ sw_activities s /\ act_activity_type a <> FEE /\
        act_activity_id_hash a ∉ map act_activity_id_hash (ex_known_activities e)
  end.

(** The reasons can be decided. *)
#[export] Instance Qle_decision (x y : Q) : Decision (x <= y)%Q.
Proof. destruct (Qlt_le_dec y x) as [H|H]; [right; by apply Qlt_not_le|by left]. Defined.
#[export] Instance Qeq_decision (x y : Q) : Decision (x == y)%Q := Qeq_dec x y.
#[export] Instance executable_account_decision a : Decision (executable_account a).
Proof. unfold executable_account. apply _. Defined.
#[export] Instance cash_expected_decision a e : Decision (cash_expected a e).
Proof. unfold cash_expected. apply _. Defined.
#[export] Instance same_item_decision a b : Decision (same_item a b).
Proof. unfold same_item. apply _. Defined.
#[export] Instance same_items_decision l l' : Decision (same_items l l').
Proof. unfold same_items. apply _. Defined.
#[export] Instance same_quantity_decision a b : Decision (same_quantity a b).
Proof.
  unfold same_quantity. destruct a as [x|], b as [y|].
  - destruct (decide (dval x == dval y)%Q); [left; by constructor|right; by inversion 1].
  - right. by inversion 1.
  - right. by inversion 1.
  - left. constructor.
Defined.
#[export] Instance same_activity_decision a b : Decision (same_activity a b).
Proof. unfold same_activity. apply _. Defined.

(** ** What was constructed *)

Record valid_sweep (s : SweepObservation) : Prop := mk_valid_sweep {
  vs_made : make_SweepObservation s = Ok s;
  vs_accounts : Forall (fun a => make_AccountObservation a = Ok a) (accounts s);
  vs_pagination : make_ActivityPaginationEvidence (sw_activity_pagination s)
                  = Ok (sw_activity_pagination s);
  vs_positions : Forall (fun i => make_InventoryItem i = Ok i)
                   (sw_first_positions s ++ sw_final_positions s);
  vs_activities : Forall (fun a => make_ActivityItem a = Ok a) (sw_activities s);
  vs_moments : Forall moment
    (observation_times s ++ map act_occurred_at (sw_activities s)
     ++ [pe_requested_start (sw_activity_pagination s);
         pe_requested_end (sw_activity_pagination s);
         pe_retrieved_through (sw_activity_pagination s);
         pe_established_at (sw_activity_pagination s);
         pe_visibility_complete_through (sw_activity_pagination s)]);
}.

Record valid_expectation (e : ReconciliationExpectation) : Prop := mk_valid_expectation {
  ve_made : exists values, _from_repository_state values = Ok e;
  ve_positions : Forall (fun i => make_InventoryItem i = Ok i) (ex_expected_positions e);
  ve_activities : Forall (fun a => make_ActivityItem a = Ok a) (ex_known_activities e);
  ve_moments : Forall moment
    ([ex_baseline_captured_at e; ex_required_activity_window_start e;
      ex_required_activity_complete_through e] ++ map act_occurred_at (ex_known_activities e));
}.

(** ** Collecting codes *)

(** [m] collects the codes that satisfy [P]. *)
Definition collects (m : M blocks_t) (P : ReconciliationBlockCode -> Prop) : Prop :=
  exists s, m = Ok s /\ forall c, c ∈ s <-> P c.

Lemma collects_bind m k P P' :
  collects m P -> (forall s, (forall c, c ∈ s <-> P c) -> collects (k s) P') -> collects (m ≫= k) P'.
Proof. intros (s & -> & Hs) H. by apply H. Qed.

Lemma collects_add condition code (s : blocks_t) P Q :
  (forall c, c ∈ s <-> P c) -> decides condition Q ->
  collects (add_if condition code s) (fun c => P c \/ (c = code /\ Q)).
Proof.
  intros Hs (b & -> & Hb). destruct b; eexists; (split; [reflexivity|]); intros c.
  - rewrite elem_of_union, elem_of_singleton, Hs, <- Hb. tauto.
  - rewrite Hs, <- Hb. intuition discriminate.
Qed.

Lemma collects_iff m P P' : collects m P -> (forall c, P c <-> P' c) -> collects m P'.
Proof. intros (s & Hs & H) E. exists s. split; [done|]. intros c. by rewrite H. Qed.

Lemma collects_fold {A} (f : blocks_t -> A -> M blocks_t) (R : A -> ReconciliationBlockCode -> Prop) l :
  (forall x s P, x ∈ l -> (forall c, c ∈ s <-> P c) -> collects (f s x) (fun c => P c \/ R x c)) ->
  forall s P, (forall c, c ∈ s <-> P c) ->
  collects (fold_m f s l) (fun c => P c \/ exists x, x ∈ l /\ R x c).
Proof.
  induction l as [|x l IH]; intros H s P Hs; cbn [fold_m].
  - exists s. split; [done|]. intros c. rewrite Hs. split; [by left|].
    intros [?|(x & ?%elem_of_nil & _)]; done.
  - eapply collects_bind; [apply (H x s P); [left|done]|]. intros s' Hs'.
    eapply collects_iff; [apply IH; [intros y s0 P0 Hy; apply H; by right|exact Hs']|]. cbn. intros c.
    split.
    + intros [[?|?]|(y & Hy & Ry)]; [by left|right; exists x; split; [left|done]|].
      right; exists y; split; [by right|done].
    + intros [?|(y & [->|Hy]%elem_of_cons & Ry)]; [by left; left|by left; right|].
      right; by exists y.
Qed.

(** ** Conditions of the evaluation *)

Lemma moment_is_aware t : moment t -> is_aware t = true.
Proof. unfold moment, is_utc, is_aware. intros [H _]. by destruct (dt_off t). Qed.
#[local] Hint Resolve moment_is_aware : core.

Lemma moment_lt_decides a b :
  moment a -> moment b -> decides (dt_lt a b) (dt_instant a < dt_instant b).
Proof. auto using dt_lt_decides. Qed.

Lemma moment_eq_spec a b :
  moment a -> moment b -> dt_eq a b = true <-> dt_instant a = dt_instant b.
Proof. auto using dt_eq_spec. Qed.

Lemma moment_local a : moment a -> dt_instant a = dt_local a.
Proof.
  unfold moment, is_utc, dt_instant. intros [H _]. destruct (dt_off a) as [o|]; [|done].
  apply Z.eqb_eq in H. lia.
Qed.

Lemma astimezone_moment t : moment t -> astimezone_utc t = Ok (mk_datetime (dt_local t) (Some 0)).
Proof.
  intros Ht. unfold astimezone_utc. rewrite moment_local by done. destruct Ht as [_ Ht].
  by rewrite (proj2 (Z.leb_le _ _)), (proj2 (Z.ltb_lt _ _)) by lia.
Qed.

Lemma make_InventoryItem_finite i : make_InventoryItem i = Ok i -> finite (iv_signed_quantity i).
Proof. unfold make_InventoryItem. intros H. inv_all. done. Qed.

Lemma make_ActivityItem_finite a :
  make_ActivityItem a = Ok a -> forall q, act_signed_quantity a = Some q -> finite q.
Proof. unfold make_ActivityItem. intros H q E. inv_all. rewrite E in *. inv_all. done. Qed.

Lemma make_AccountObservation_finite a :
  make_AccountObservation a = Ok a ->
  finite (ao_equity a) /\ finite (ao_buying_power a) /\ finite (ao_cash a).
Proof. unfold make_AccountObservation. intros H. inv_all. done. Qed.

Lemma inventory_eq_spec a b :
  finite (iv_signed_quantity a) -> finite (iv_signed_quantity b) ->
  inventory_eq a b = true <-> same_item a b.
Proof.
  intros Ha Hb. unfold inventory_eq, same_item. rewrite !andb_true_iff, bool_decide_eq_true,
    String.eqb_eq, Z.eqb_eq, deq_spec by done. tauto.
Qed.

Lemma tuple_eq_spec {A} (eqb : A -> A -> bool) (R : A -> A -> Prop) l l' :
  (forall x y, x ∈ l -> y ∈ l' -> eqb x y = true <-> R x y) ->
  tuple_eq eqb l l' = true <-> Forall2 R l l'.
Proof.
  revert l'. induction l as [|x l IH]; intros [|y l'] H; cbn.
  - split; [constructor|done].
  - split; [done|by inversion 1].
  - split; [done|by inversion 1].
  - rewrite andb_true_iff, (H x y), IH, Forall2_cons_iff; [done| |left|left].
    intros; apply H; by right.
Qed.

Lemma positions_eq_spec l l' :
  Forall (fun i => make_InventoryItem i = Ok i) l -> Forall (fun i => make_InventoryItem i = Ok i) l' ->
  positions_eq l l' = true <-> same_items l l'.
Proof.
  rewrite !Forall_forall. intros Hl Hl'. apply tuple_eq_spec. intros x y Hx Hy.
  apply inventory_eq_spec; apply make_InventoryItem_finite; auto.
Qed.

Lemma deq_opt_spec a b :
  (forall x, a = Some x -> finite x) -> (forall x, b = Some x -> finite x) ->
  deq_opt a b = true <-> same_quantity a b.
Proof.
  intros Ha Hb. unfold same_quantity. destruct a as [x|], b as [y|]; cbn.
  - rewrite deq_spec by auto. split; [by constructor|by inversion 1].
  - split; [done|by inversion 1].
  - split; [done|by inversion 1].
  - split; [constructor|done].
Qed.

Lemma activity_eq_spec a b :
  make_ActivityItem a = Ok a -> make_ActivityItem b = Ok b ->
  moment (act_occurred_at a) -> moment (act_occurred_at b) ->
  activity_eq a b = true <-> same_activity a b.
Proof.
  intros Ha Hb Ta Tb. unfold activity_eq, same_activity.
  rewrite !andb_true_iff, !bool_decide_eq_true, !String.eqb_eq, moment_eq_spec, deq_opt_spec
    by eauto using make_ActivityItem_finite. tauto.
Qed.

Lemma account_material_eq_spec a b :
  finite (ao_cash a) -> finite (ao_cash b) -> account_material_eq a b = true <-> same_account a b.
Proof.
  intros Ha Hb. unfold account_material_eq, same_account.
  rewrite !andb_true_iff, bool_decide_eq_true, !String.eqb_eq, !Bool.eqb_true_iff, deq_spec by done.
  tauto.
Qed.

Lemma cash_within_spec a e :
  cash (ao_cash a) -> cash (ex_expected_cash e) ->
  decides (_cash_within_fee_tolerance (ao_cash a) (ex_expected_cash e)) (cash_expected a e).
Proof.
  intros Ca Ce. unfold _cash_within_fee_tolerance, cash_expected.
  destruct (amount_sub _ _ _ _ _ Ce Ca ltac:(reflexivity) cash_exp) as (drag & -> & Cd & Ed).
  cbn [mbind M_bind]. destruct Cd as [Fd _].
  destruct (dle_spec (Dint 0) drag) as (b1 & H1 & E1); [done..|].
  destruct (dle_spec drag MAX_UNREPORTED_FEE_DRAG) as (b2 & H2 & E2); [done..|].
  eapply decides_iff; [apply decides_and; [exists b1; by split|exists b2; by split]|].
  change (dval MAX_UNREPORTED_FEE_DRAG) with (100 * (1 # 100))%Q.
  change (dval (Dint 0)) with (0 * 1)%Q. rewrite Ed. split; intros [? ?]; split; lra.
Qed.

(** *** Dictionaries of activities *)

Lemma by_hash_spec l :
  NoDup (map act_activity_id_hash l) ->
  by_hash l = map (fun a => (act_activity_id_hash a, a)) l.
Proof. intros H. by apply (dict_of_spec (fun item => (act_activity_id_hash item, item))). Qed.

Lemma by_hash_get l h a :
  NoDup (map act_activity_id_hash l) ->
  dget (by_hash l) h = Some a <-> a ∈ l /\ act_activity_id_hash a = h.
Proof.
  intros H. rewrite dget_wf; rewrite by_hash_spec by done.
  - rewrite list_elem_of_fmap. split; [intros (b & [= -> ->] & Hb); done|intros [Ha <-]; by exists a].
  - unfold wf_dict. by rewrite map_map.
Qed.

Lemma by_hash_absent l h :
  NoDup (map act_activity_id_hash l) ->
  dget (by_hash l) h = None <-> h ∉ map act_activity_id_hash l.
Proof.
  intros H. rewrite list_elem_of_fmap. split.
  - intros E (a & -> & Ha). assert (dget (by_hash l) (act_activity_id_hash a) = Some a) by by apply by_hash_get.
    congruence.
  - intros Hn. destruct (dget (by_hash l) h) as [a|] eqn:E; [|done]. apply by_hash_get in E as [Ha <-]; [|done].
    destruct Hn. by exists a.
Qed.

(** ** Consequences of construction *)

Lemma require_canonical_ok {A} `{EqDecision A} (sort : list A -> list A) keys code :
  _require_canonical sort keys code = Ok tt <-> not_canonical sort keys = false.
Proof. unfold _require_canonical. destruct (not_canonical sort keys); cbn; split; done. Qed.

Lemma canonical_activities l :
  require_canonical_activities l = Ok tt -> NoDup (map act_activity_id_hash l).
Proof.
  intros H%require_canonical_ok. by apply (not_canonical_false String.le) in H as [_ H].
Qed.

Lemma unit_ok (m : M unit) u : m = Ok u -> m = Ok tt.
Proof. by destruct u. Qed.

Lemma sweep_activities_unique s :
  make_SweepObservation s = Ok s -> NoDup (map act_activity_id_hash (sw_activities s)).
Proof.
  unfold make_SweepObservation. intros H.
  inv_seq H.
  eapply canonical_activities, unit_ok; eassumption.
Qed.

Lemma expectation_known_unique v e :
  _from_repository_state v = Ok e -> NoDup (map act_activity_id_hash (ex_known_activities e)).
Proof.
  unfold _from_repository_state. intros H.
  inv_seq H.
  injection H as <-. eapply canonical_activities, unit_ok; eassumption.
Qed.

Lemma expectation_resolved_known v e :
  _from_repository_state v = Ok e ->
  forall h, h ∈ ex_resolved_activity_hashes e -> h ∈ map act_activity_id_hash (ex_known_activities e).
Proof.
  unfold _from_repository_state. intros H.
  inv_seq H.
  injection H as <-. cbn. intros h Hh.
  apply list_elem_of_lookup in Hh as (k & Hk).
  match goal with E : map_m _ (ex_resolved_activity_hashes v) = Ok _ |- _ =>
    apply map_m_ok in E; destruct (Forall2_lookup_l _ _ _ _ _ E Hk) as (u & _ & Hu) end.
  apply bind_ok in Hu as (_ & _ & Hu). apply guard_raise_ok in Hu as [Hu _].
  apply lift_bool_ok, bool_decide_eq_false, dec_stable in Hu. unfold known_hashes in Hu.
  by apply elem_of_list_to_set in Hu.
Qed.

Lemma expectation_role v e :
  _from_repository_state v = Ok e -> executable_role (ex_account_role e) = true.
Proof.
  unfold _from_repository_state. intros H. apply guard_raise_ok in H as [Hr H].
  inv_seq H.
  injection H as <-. cbn. by apply lift_bool_ok, negb_false_iff in Hr.
Qed.

Lemma expectation_fields_kept v e :
  _from_repository_state v = Ok e -> e = with_expectation_hash v (ex_expectation_hash e).
Proof. unfold _from_repository_state. intros H. inv_seq H. by injection H as <-. Qed.

(** The hash was computed over the other fields, so the expectation verifies. *)
Lemma expectation_hash_ok v e :
  _from_repository_state v = Ok e -> expectation_hash_of e = Ok (ex_expectation_hash e).
Proof.
  unfold _from_repository_state. intros H.
  inv_seq H.
  injection H as <-. cbn [ex_expectation_hash with_expectation_hash].
  match goal with E : expectation_hash_of v = _ |- _ => rewrite <- E end. by destruct v.
Qed.

Lemma verify_integrity_ok e :
  expectation_hash_of e = Ok (ex_expectation_hash e) -> _verify_integrity e = Ok tt.
Proof. intros H. unfold _verify_integrity. rewrite H. cbn. by rewrite String.eqb_refl. Qed.

(** ** Every condition decides its reason *)

Lemma assignment_type_spec t :
  in_states (enum_value t) ASSIGNMENT_ACTIVITY_TYPES = true <-> assignment_type t.
Proof. unfold assignment_type. rewrite <- (bool_decide_eq_true (t ∈ _)). by destruct t. Qed.

Lemma adjustment_type_spec t :
  in_states (enum_value t) ACCOUNT_ADJUSTMENT_ACTIVITY_TYPES = true <-> adjustment_type t.
Proof. unfold adjustment_type. rewrite <- (bool_decide_eq_true (t ∈ _)). by destruct t. Qed.

Lemma forall_and_exists {A} (P Q : A -> Prop) :
  (forall x, P x <-> Q x) -> (exists x, P x) <-> exists x, Q x.
Proof. intros H. by setoid_rewrite H. Qed.

Lemma elem_values (l : list ActivityItem) (P : string * ActivityItem -> Prop) :
  (exists x, x ∈ map (fun a => (act_activity_id_hash a, a)) l /\ P x) <->
  exists a, a ∈ l /\ P (act_activity_id_hash a, a).
Proof.
  split; [intros (x & (a & -> & Ha)%list_elem_of_fmap & HP)|intros (a & Ha & HP)].
  - by exists a.
  - exists (act_activity_id_hash a, a). split; [apply list_elem_of_fmap; by exists a|done].
Qed.

Lemma dt_date_moment t : moment t -> dt_date (mk_datetime (dt_local t) (Some 0)) = dt_date t.
Proof. done. Qed.

Lemma predates_decides a start :
  moment (act_occurred_at a) -> moment start ->
  decides (activity_predates_window a start)
    (~ if String.eqb (act_time_quality a) "DATE_ONLY"
       then dt_date start <= dt_date (act_occurred_at a)
       else dt_instant start <= dt_instant (act_occurred_at a)).
Proof.
  intros Ha Hs. unfold activity_predates_window. destruct (String.eqb _ _).
  - rewrite astimezone_moment by done. cbn [mbind M_bind]. apply decides_bool.
    rewrite dt_date_moment, Z.ltb_lt by done. lia.
  - eapply decides_iff; [by apply moment_lt_decides|lia].
Qed.

Section Conditions.
Context (s : SweepObservation) (e : ReconciliationExpectation) (accepted : datetime).
Context (Vs : valid_sweep s) (Ve : valid_expectation e) (Ha : moment accepted).

Lemma sweep_moment t : t ∈ observation_times s -> moment t.
Proof.
  intros Ht. pose proof (vs_moments s Vs) as H. rewrite Forall_forall in H. apply H.
  apply elem_of_app. by left.
Qed.

Lemma activity_moment a : a ∈ sw_activities s -> moment (act_occurred_at a).
Proof.
  intros Ht. pose proof (vs_moments s Vs) as H. rewrite Forall_forall in H. apply H.
  rewrite !elem_of_app. right; left. apply list_elem_of_fmap. by exists a.
Qed.

Lemma pagination_moments (p := sw_activity_pagination s) :
  moment (pe_requested_start p) /\ moment (pe_requested_end p) /\ moment (pe_retrieved_through p) /\
  moment (pe_established_at p) /\ moment (pe_visibility_complete_through p).
Proof.
  pose proof (vs_moments s Vs) as H. apply Forall_app in H as [_ H]. apply Forall_app in H as [_ H].
  repeat (apply Forall_cons in H as [? H]). by split_and!.
Qed.

Lemma expectation_moments :
  moment (ex_baseline_captured_at e) /\ moment (ex_required_activity_window_start e) /\
  moment (ex_required_activity_complete_through e).
Proof.
  pose proof (ve_moments e Ve) as H. apply Forall_app in H as [H _].
  repeat (apply Forall_cons in H as [? H]). by split_and!.
Qed.

Lemma known_moment a : a ∈ ex_known_activities e -> moment (act_occurred_at a).
Proof.
  intros Ht. pose proof (ve_moments e Ve) as H. rewrite Forall_forall in H. apply H.
  rewrite !elem_of_app. right. apply list_elem_of_fmap. by exists a.
Qed.

Lemma known_missing_decides :
  decides (known_activity_missing e (by_hash (sw_activities s)) (by_hash (ex_known_activities e)))
    (exists k, k ∈ ex_known_activities e /\ in_window e k /\
       ~ exists a, a ∈ sw_activities s /\ same_activity a k).
Proof.
  destruct (ve_made e Ve) as (v & Hv).
  pose proof (expectation_known_unique v e Hv) as Uk.
  pose proof (sweep_activities_unique s (vs_made s Vs)) as Us.
  pose proof (ve_activities e Ve) as Fk. pose proof (vs_activities s Vs) as Fs.
  rewrite Forall_forall in Fk, Fs. unfold known_activity_missing. rewrite (by_hash_spec (ex_known_activities e)) by done.
  eapply decides_iff.
  - apply (decides_any _ (fun '(h, k) => in_window e k /\ ~ exists a, a ∈ sw_activities s /\ same_activity a k)).
    intros x (k & -> & Hk)%list_elem_of_fmap.
    destruct (predates_decides k (ex_required_activity_window_start e)) as (b & -> & Hb);
      [by apply known_moment|apply expectation_moments|].
    cbn [mbind M_bind]. apply decides_bool. rewrite andb_true_iff, negb_true_iff. unfold in_window.
    assert (Hw : b = false <-> if String.eqb (act_time_quality k) "DATE_ONLY"
      then dt_date (ex_required_activity_window_start e) <= dt_date (act_occurred_at k)
      else dt_instant (ex_required_activity_window_start e) <= dt_instant (act_occurred_at k)).
    { destruct b; [split; [done|]|split; [intros _|done]].
      - intros H. exfalso. by apply Hb.
      - destruct (String.eqb _ _); apply Z.nlt_ge; intros Hlt;
          assert (false = true) as E by (apply Hb; lia); discriminate E. }
    rewrite Hw. apply and_iff_compat_l.
    destruct (dget (by_hash (sw_activities s)) (act_activity_id_hash k)) as [a|] eqn:Eg.
    + apply by_hash_get in Eg as [Hin Eh]; [|done].
      rewrite negb_true_iff, <- not_true_iff_false, activity_eq_spec by auto using activity_moment, known_moment.
      split; intros Hn; [intros (a2 & Ha2 & Hs)|intros Hs; apply Hn; by exists a].
      destruct Hs as [Hh Hs]. assert (E2 : dget (by_hash (sw_activities s)) (act_activity_id_hash k) = Some a2)
        by by apply by_hash_get.
      assert (E1 : dget (by_hash (sw_activities s)) (act_activity_id_hash k) = Some a) by by apply by_hash_get.
      apply Hn. rewrite E1 in E2. injection E2 as ->. by split.
    + apply by_hash_absent in Eg; [|done]. split; [intros _|done]. intros (a & Hin & Hh & _). apply Eg.
      rewrite <- Hh. apply list_elem_of_fmap. by exists a.
  - rewrite elem_values. done.
Qed.

Lemma unexpected_activity_spec :
  unexpected_activity (by_hash (sw_activities s)) (by_hash (ex_known_activities e)) = true <->
  exists a, a ∈ sw_activities s /\ act_activity_type a <> FEE /\
    act_activity_id_hash a ∉ map act_activity_id_hash (ex_known_activities e).
Proof.
  destruct (ve_made e Ve) as (v & Hv). pose proof (expectation_known_unique v e Hv) as Uk.
  pose proof (sweep_activities_unique s (vs_made s Vs)) as Us.
  unfold unexpected_activity. rewrite (by_hash_spec (sw_activities s)) by done.
  rewrite existsb_exists. setoid_rewrite <- list_elem_of_In. rewrite elem_values.
  apply forall_and_exists. intros a. rewrite andb_true_iff, negb_true_iff, bool_decide_eq_true.
  by rewrite bool_decide_eq_false, by_hash_absent.
Qed.

Lemma unresolved_spec a : a ∈ unresolved_activities s e <-> unresolved s e a.
Proof.
  unfold unresolved_activities, unresolved. rewrite !list_elem_of_In, filter_In, negb_true_iff.
  rewrite <- not_true_iff_false, in_states_spec, list_elem_of_In. done.
Qed.

Lemma has_activity_type_spec names (P : ActivityType -> Prop) :
  (forall t, in_states (enum_value t) names = true <-> P t) ->
  has_activity_type (unresolved_activities s e) names = true <->
  exists a, unresolved s e a /\ P (act_activity_type a).
Proof.
  intros H. unfold has_activity_type. rewrite existsb_exists. setoid_rewrite <- list_elem_of_In.
  apply forall_and_exists. intros a. by rewrite unresolved_spec, H.
Qed.

Lemma observation_blocks_collects t (blocks : blocks_t) P :
  t ∈ observation_times s -> (forall c, c ∈ blocks <-> P c) ->
  collects (observation_blocks accepted blocks t)
    (fun c => P c \/ (c = FUTURE_OBSERVATION /\ dt_instant accepted - dt_instant t < 0) \/
                     (c = STALE_OBSERVATION /\ seconds 15 < dt_instant accepted - dt_instant t)).
Proof.
  intros Ht%sweep_moment Hb. unfold observation_blocks.
  destruct (moment_lt_decides accepted t) as (b & -> & E); [done..|]. cbn [mbind M_bind].
  rewrite dt_sub_aware by auto. destruct b.
  - eexists. split; [reflexivity|]. intros c. rewrite elem_of_union, elem_of_singleton, Hb.
    assert (dt_instant accepted < dt_instant t) by by apply E. unfold seconds. intuition lia.
  - eapply collects_iff; [apply collects_add; [exact Hb|apply decides_bool, Z.ltb_lt]|]. cbn.
    assert (~ dt_instant accepted < dt_instant t) by (intros ?; by assert (false = true) by by apply E).
    intros c. unfold MAX_SWEEP_AGE. intuition lia.
Qed.

Lemma account_blocks_collects a (blocks : blocks_t) P :
  cash (ao_cash a) -> cash (ex_expected_cash e) -> (forall c, c ∈ blocks <-> P c) ->
  collects (account_blocks e blocks a)
    (fun c => P c \/ (c = ACCOUNT_MISMATCH /\ (ao_role a <> ex_account_role e \/
                        ao_account_fingerprint a <> ex_account_fingerprint e)) \/
                     (c = ACCOUNT_NOT_EXECUTABLE /\ ~ executable_account a) \/
                     (c = ACCOUNT_ADJUSTMENT /\ ~ cash_expected a e)).
Proof.
  intros Ca Ce Hb. unfold account_blocks. eapply collects_bind; [apply collects_add; [exact Hb|]|].
  { apply (decides_bool _ (ao_role a <> ex_account_role e \/
                        ao_account_fingerprint a <> ex_account_fingerprint e)).
    by rewrite orb_true_iff, !negb_true_iff, bool_decide_eq_false, String.eqb_neq. }
  intros b1 H1. eapply collects_bind; [apply collects_add; [exact H1|]|].
  { apply (decides_bool _ (~ executable_account a)). unfold executable_account.
    destruct (ao_paper a), (String.eqb_spec (ao_status a) "ACTIVE"), (ao_account_blocked a),
      (ao_trading_blocked a), (ao_options_trading_blocked a); cbn; intuition congruence. }
  intros b2 H2. eapply collects_iff; [apply collects_add; [exact H2|apply decides_not, cash_within_spec; done]|].
  cbn. tauto.
Qed.

Lemma positions_decide :
  (positions_eq (sw_first_positions s) (sw_final_positions s) = true <->
     same_items (sw_first_positions s) (sw_final_positions s)) /\
  (positions_eq (sw_final_positions s) (ex_expected_positions e) = true <->
     same_items (sw_final_positions s) (ex_expected_positions e)).
Proof.
  pose proof (vs_positions s Vs) as H. apply Forall_app in H as [H1 H2].
  pose proof (ve_positions e Ve). by split; apply positions_eq_spec.
Qed.

Lemma cash_finite a : a ∈ accounts s -> finite (ao_cash a).
Proof.
  intros H. pose proof (vs_accounts s Vs) as F. rewrite Forall_forall in F.
  by apply make_AccountObservation_finite, F.
Qed.

Lemma watermark_decides (p := sw_activity_pagination s) :
  decides (negb (complete p)
           ||| (dt_lt (pe_visibility_complete_through p) (ex_required_activity_complete_through e)
                ||| dt_lt accepted (pe_established_at p)))
    (blocked_by s e accepted ACTIVITY_WATERMARK_UNKNOWN).
Proof.
  destruct pagination_moments as (_ & M2 & M3 & M4 & M5). destruct expectation_moments as (_ & _ & N).
  eapply decides_iff.
  - apply decides_or; [|apply decides_or; by apply moment_lt_decides].
    apply (decides_bool _ (pe_terminal_page_seen p = false \/
      dt_instant (pe_retrieved_through p) <> dt_instant (pe_requested_end p))).
    unfold complete. rewrite negb_true_iff, andb_false_iff. apply or_iff_compat_l.
    rewrite <- not_true_iff_false. by rewrite moment_eq_spec.
  - cbn. subst p. intuition lia.
Qed.

Lemma unstable_decides :
  decides (negb (account_material_eq (sw_first_account s) (sw_final_account s))
           || negb (positions_eq (sw_first_positions s) (sw_final_positions s))
           || negb (orders_eq (sw_first_open_orders s) (sw_final_open_orders s)))
    (blocked_by s e accepted UNSTABLE_SWEEP).
Proof.
  apply decides_bool. rewrite !orb_true_iff, !negb_true_iff, <- !not_true_iff_false.
  rewrite account_material_eq_spec by (apply cash_finite; unfold accounts; set_solver).
  rewrite (proj1 positions_decide). unfold orders_eq. rewrite bool_decide_eq_true. cbn. tauto.
Qed.

Lemma future_decides :
  decides (any_m (fun item => dt_lt accepted (act_occurred_at item)) (sw_activities s))
    (exists a, a ∈ sw_activities s /\ dt_instant accepted - dt_instant (act_occurred_at a) < 0).
Proof.
  apply decides_any. intros a H%activity_moment. eapply decides_iff; [by apply moment_lt_decides|lia].
Qed.

(** The inventory step: an unexpected inventory, suspected when it has equity. *)
Lemma inventory_collects (blocks : blocks_t) P :
  (forall c, c ∈ blocks <-> P c) ->
  collects
    (if negb (positions_eq (sw_final_positions s) (ex_expected_positions e))
     then add_if (existsb (fun item => bool_decide (iv_kind item = EQUITY)) (sw_final_positions s))
            ASSIGNMENT_SUSPECTED ({[UNEXPECTED_INVENTORY]} ∪ blocks)
     else Ok blocks)
    (fun c => P c \/ ~ same_items (sw_final_positions s) (ex_expected_positions e) /\
       (c = UNEXPECTED_INVENTORY \/
        c = ASSIGNMENT_SUSPECTED /\ exists i, i ∈ sw_final_positions s /\ iv_kind i = EQUITY)).
Proof.
  intros Hb. pose proof (proj2 positions_decide) as E.
  destruct (positions_eq (sw_final_positions s) (ex_expected_positions e)); cbn [negb].
  - exists blocks. split; [done|]. intros c. rewrite Hb. intuition.
  - assert (N : ~ same_items (sw_final_positions s) (ex_expected_positions e))
      by (intros H; by assert (false = true) by by apply E).
    eapply collects_iff; [apply (collects_add _ _ _ (fun c => P c \/ c = UNEXPECTED_INVENTORY))|].
    + intros c. rewrite elem_of_union, elem_of_singleton, Hb. tauto.
    + apply (decides_bool _ (exists i, i ∈ sw_final_positions s /\ iv_kind i = EQUITY)).
      rewrite existsb_exists. apply forall_and_exists. intros i.
      by rewrite list_elem_of_In, bool_decide_eq_true.
    + cbn. tauto.
Qed.

(** The codes [evaluate] collects are the reasons. *)
Lemma block_set_collects :
  Forall (fun a => cash (ao_cash a)) (accounts s) -> cash (ex_expected_cash e) ->
  collects (block_set s e accepted) (blocked_by s e accepted).
Proof.
  intros Ca Ce. unfold block_set. cbv zeta.
  eapply collects_bind.
  { eapply (collects_add _ _ _ (fun _ => False)); [intros c; split; [by intros ?%elem_of_empty|done]|].
    apply (decides_bool _ (blocked_by s e accepted INCOMPLETE_SWEEP)). cbn.
    by rewrite orb_true_iff, !negb_true_iff. }
  intros b1 H1. eapply collects_bind; [apply collects_add; [exact H1|apply watermark_decides]|].
  intros b2 H2. eapply collects_bind; [apply collects_add; [exact H2|]|].
  { apply (decides_bool _ (blocked_by s e accepted ACTIVITY_WINDOW_INCOMPLETE)). cbn.
    rewrite negb_true_iff, <- not_true_iff_false, moment_eq_spec; [done|apply pagination_moments|apply expectation_moments]. }
  intros b3 H3. eapply collects_bind; [apply collects_add; [exact H3|]|].
  { rewrite dt_sub_aware by (apply moment_is_aware, sweep_moment; set_solver). apply decides_bool, Z.ltb_lt. }
  intros b4 H4. eapply collects_bind; [apply collects_add; [exact H4|apply unstable_decides]|].
  intros b5 H5. eapply collects_bind; [apply (collects_fold _ (fun t c =>
      (c = FUTURE_OBSERVATION /\ dt_instant accepted - dt_instant t < 0) \/
      (c = STALE_OBSERVATION /\ seconds 15 < dt_instant accepted - dt_instant t)));
      [intros; by apply observation_blocks_collects|exact H5]|].
  intros b6 H6. eapply collects_bind; [apply (collects_fold _ (fun a c =>
      (c = ACCOUNT_MISMATCH /\ (ao_role a <> ex_account_role e \/
                                ao_account_fingerprint a <> ex_account_fingerprint e)) \/
      (c = ACCOUNT_NOT_EXECUTABLE /\ ~ executable_account a) \/
      (c = ACCOUNT_ADJUSTMENT /\ ~ cash_expected a e))); [|exact H6]|].
  { intros a b P Hin. rewrite Forall_forall in Ca. apply account_blocks_collects; [by apply Ca|done]. }
  intros b7 H7. eapply collects_bind; [apply inventory_collects; exact H7|].
  intros b8 H8. eapply collects_bind; [apply collects_add; [exact H8|]|].
  { apply (decides_bool _ (blocked_by s e accepted UNEXPECTED_OPEN_ORDER)). cbn. unfold orders_eq.
    by rewrite negb_true_iff, bool_decide_eq_false. }
  intros b9 H9. eapply collects_bind; [apply collects_add; [exact H9|apply known_missing_decides]|].
  intros b10 H10. eapply collects_bind;
    [apply collects_add; [exact H10|apply decides_bool, unexpected_activity_spec]|].
  intros b11 H11. eapply collects_bind; [apply collects_add; [exact H11|apply future_decides]|].
  intros b12 H12. eapply collects_bind; [apply collects_add;
    [exact H12|apply decides_bool, has_activity_type_spec, assignment_type_spec]|].
  intros b13 H13. eapply collects_iff; [apply collects_add;
    [exact H13|apply decides_bool, has_activity_type_spec, adjustment_type_spec]|].
  cbn beta. clear. intros c. fold (observation_times s) (accounts s).
  destruct c; cbn [blocked_by]; naive_solver.
Qed.
End Conditions.

(** ** Every constructed record has a canonical value *)

Definition encodes (m : M json) : Prop := exists j, m = Ok j.

Lemma encodes_ok j : encodes (Ok j).
Proof. by exists j. Qed.

Lemma encodes_fields l : Forall (fun f => encodes f.2) l -> encodes (canonical_fields l).
Proof.
  intros H. unfold canonical_fields. enough (exists ms, canonical_members l = Ok ms) as (ms & ->)
    by by eexists.
  induction H as [|[n m] l (j & Hj) _ (ms & IH)]; [by exists []|]. cbn in Hj.
  exists ((n, j) :: ms). unfold canonical_members in *. cbn. by rewrite Hj, IH.
Qed.

Lemma encodes_list {A} `{Canonical A} (l : list A) :
  Forall (fun v => encodes (_canonical_value v)) l -> encodes (_canonical_value l).
Proof.
  intros Hl. enough (exists js, map_m _canonical_value l = Ok js) as (js & E).
  { exists (JArr js). unfold _canonical_value, Canonical_list. by rewrite E. }
  induction Hl as [|v l (j & Hj) _ (js & IH)]; [by exists []|].
  exists (j :: js). cbn. by rewrite Hj, IH.
Qed.

Lemma encodes_decimal d : finite d -> encodes (_canonical_value d).
Proof. intros H. unfold _canonical_value, Canonical_decimal. rewrite H. apply encodes_ok. Qed.

Lemma encodes_moment t : moment t -> encodes (_canonical_value t).
Proof.
  intros H. unfold _canonical_value, Canonical_datetime, _utc_text. rewrite astimezone_moment by done.
  apply encodes_ok.
Qed.

Lemma encodes_option {A} `{Canonical A} (o : option A) :
  (forall v, o = Some v -> encodes (_canonical_value v)) -> encodes (_canonical_value o).
Proof. intros Ho. destruct o as [v|]; [by apply Ho|apply encodes_ok]. Qed.

(** Each field of a record by its own lemma. *)
Ltac encode_fields :=
  apply encodes_fields; repeat (apply Forall_cons; split; cbn [snd]);
  try apply List.Forall_nil;
  first [apply encodes_ok | apply encodes_option; intros ? ?; apply encodes_ok
        |idtac].

Lemma encodes_position i : make_InventoryItem i = Ok i -> encodes (_canonical_value i).
Proof. intros H. encode_fields; try done. by apply encodes_decimal, make_InventoryItem_finite. Qed.

Lemma encodes_leg (l : OpenOrderLeg) : encodes (_canonical_value l).
Proof. encode_fields; done. Qed.

Lemma encodes_order (o : OpenOrderItem) : encodes (_canonical_value o).
Proof.
  encode_fields; try done. apply encodes_list, Forall_forall. intros l _. apply encodes_leg.
Qed.

Lemma encodes_activity a :
  make_ActivityItem a = Ok a -> moment (act_occurred_at a) -> encodes (_canonical_value a).
Proof.
  intros H Ht. apply encodes_fields. rewrite !Forall_app. split; [|split].
  - repeat (apply Forall_cons; split; cbn [snd]); try apply List.Forall_nil; try apply encodes_ok;
      try (apply encodes_option; intros; apply encodes_ok).
    + by apply encodes_moment.
    + apply encodes_option. intros q Hq. apply encodes_decimal. by eapply make_ActivityItem_finite.
  - destruct (String.eqb _ _); repeat constructor. apply encodes_ok.
  - destruct (act_provider_activity_type a); repeat constructor. apply encodes_ok.
Qed.

Lemma encodes_activities l :
  Forall (fun a => make_ActivityItem a = Ok a) l -> Forall moment (map act_occurred_at l) ->
  encodes (_canonical_value l).
Proof.
  intros Hl Hm. apply encodes_list. rewrite Forall_forall in Hl. rewrite Forall_forall in Hm.
  apply Forall_forall. intros a Ha.
  apply encodes_activity; [by apply Hl|apply Hm, list_elem_of_fmap; by exists a].
Qed.

Lemma encodes_positions l :
  Forall (fun i => make_InventoryItem i = Ok i) l -> encodes (_canonical_value l).
Proof. intros H. eapply encodes_list, Forall_impl; [exact H|]. apply encodes_position. Qed.

Lemma encodes_orders (l : list OpenOrderItem) : encodes (_canonical_value l).
Proof. apply encodes_list, Forall_forall. intros o _. apply encodes_order. Qed.

Lemma encodes_account a :
  make_AccountObservation a = Ok a -> moment (ao_observed_at a) -> encodes (_canonical_value a).
Proof.
  intros (H1 & H2 & H3)%make_AccountObservation_finite Ht.
  encode_fields; try done; by (apply encodes_decimal || apply encodes_moment).
Qed.

Section Evaluation.
Context (s : SweepObservation) (e : ReconciliationExpectation) (accepted : datetime).
Context (Vs : valid_sweep s) (Ve : valid_expectation e) (Ha : moment accepted).

Lemma encodes_sweep : encodes (_canonical_value s).
Proof.
  pose proof (vs_positions s Vs) as P. apply Forall_app in P as [P1 P2].
  pose proof (vs_accounts s Vs) as A. repeat (apply Forall_cons in A as [? A]).
  destruct (pagination_moments s Vs) as (? & ? & ? & ? & ?).
  assert (M : forall t, t ∈ observation_times s -> moment t) by (intros; by apply (sweep_moment s)).
  assert (Mo : Forall moment (map act_occurred_at (sw_activities s))).
  { apply Forall_forall. intros t (a & -> & Hin)%list_elem_of_fmap. by apply (activity_moment s). }
  encode_fields; try (apply encodes_ok);
    try (apply encodes_account; [done|]); try (apply encodes_moment);
    try (apply M; unfold observation_times; set_solver);
    try (apply encodes_positions; done); try apply encodes_orders.
  - encode_fields; try apply encodes_ok; by apply encodes_moment.
  - by apply encodes_activities; [apply Vs|].
Qed.

Lemma encodes_expectation : encodes (_canonical_value e).
Proof.
  destruct (ve_made e Ve) as (v & Hv). apply expectation_hash_ok in Hv. unfold expectation_hash_of in Hv.
  apply bind_ok in Hv as (ms & Hms & _).
  unfold _canonical_value, Canonical_ReconciliationExpectation, canonical_fields, canonical_members in *.
  exists (JObj (ms ++ [("expectation_hash", JStr (ex_expectation_hash e))])%list).
  apply map_m_ok in Hms. 
  assert (E : map_m (fun '(name, value) => value ← value; Ok (name, value))
    (expectation_fields e ++ [("expectation_hash", Ok (JStr (ex_expectation_hash e)))])%list
    = Ok (ms ++ [("expectation_hash", JStr (ex_expectation_hash e))])%list).
  { apply map_m_ok, Forall2_app; [done|]. repeat constructor. }
  unfold _canonical_value, Canonical_string. by rewrite E.
Qed.

(** The evaluation returns, with the set of codes it collected. *)
Lemma evaluate_returns blocks :
  block_set s e accepted = Ok blocks ->
  exists r, evaluate s e accepted = Ok r /\ wr_expectation r = e /\ wr_sweep r = s /\
    wr_accepted_at r = accepted /\ wr_block_codes r = ordered_blocks_of blocks /\
    wr_safe r = bool_decide (ordered_blocks_of blocks = []).
Proof.
  intros Hb. destruct (ve_made e Ve) as (v & Hv). unfold evaluate, _require_utc.
  rewrite (proj1 Ha). cbn [negb guard_m lift_bool mbind M_bind].
  rewrite verify_integrity_ok by by eapply expectation_hash_ok. cbn [mbind M_bind].
  rewrite Hb. cbn [mbind M_bind]. unfold canonical_value_hash.
  pose proof (vs_positions s Vs) as P. apply Forall_app in P as [P1 P2].
  destruct (encodes_positions _ P2) as (j1 & ->). destruct (encodes_orders (sw_final_open_orders s)) as (j2 & ->).
  destruct (encodes_activities (sw_activities s)) as (j3 & ->); [apply Vs| |].
  { apply Forall_forall. intros t (a & -> & Hin)%list_elem_of_fmap. by apply (activity_moment s). }
  cbn [mbind M_bind].
  match goal with |- context [canonical_fields ?l] => destruct (encodes_fields l) as (j & ->) end.
  { repeat (apply Forall_cons; split; cbn [snd]); try apply List.Forall_nil; try apply encodes_ok.
    - apply encodes_expectation.
    - apply encodes_sweep.
    - by apply encodes_moment.
    - apply encodes_list, Forall_forall. intros x _. apply encodes_ok. }
  cbn [mbind M_bind]. eexists. split; [reflexivity|]. by split_and!.
Qed.
End Evaluation.

Lemma ordered_blocks_elem (blocks : blocks_t) c : c ∈ ordered_blocks_of blocks <-> c ∈ blocks.
Proof. unfold ordered_blocks_of, sorted_by. by rewrite merge_sort_Permutation, elem_of_elements. Qed.

Lemma ordered_blocks_NoDup (blocks : blocks_t) : NoDup (ordered_blocks_of blocks).
Proof. unfold ordered_blocks_of, sorted_by. rewrite merge_sort_Permutation. apply NoDup_elements. Qed.

Lemma ordered_blocks_sorted (blocks : blocks_t) :
  StronglySorted (key_le enum_value) (ordered_blocks_of blocks).
Proof. apply StronglySorted_merge_sort; apply _. Qed.

Lemma evaluate_spec s e accepted :
  valid_sweep s -> valid_expectation e -> moment accepted ->
  Forall (fun a => cash (ao_cash a)) (accounts s) -> cash (ex_expected_cash e) ->
  exists r, evaluate s e accepted = Ok r /\ wr_expectation r = e /\ wr_sweep r = s /\
    wr_accepted_at r = accepted /\
    (forall c, c ∈ wr_block_codes r <-> blocked_by s e accepted c) /\
    NoDup (wr_block_codes r) /\ StronglySorted (key_le enum_value) (wr_block_codes r) /\
    (wr_safe r = true <-> forall c, ~ blocked_by s e accepted c).
Proof.
  intros Vs Ve Ha Ca Ce.
  destruct (block_set_collects s e accepted Vs Ve Ha Ca Ce) as (blocks & Hb & Hc).
  destruct (evaluate_returns s e accepted Vs Ve Ha blocks Hb) as (r & Hr & E1 & E2 & E3 & E4 & E5).
  exists r. rewrite E4, E5, bool_decide_eq_true.
  split_and!; try done; [|apply ordered_blocks_NoDup|apply ordered_blocks_sorted|].
  - intros c. by rewrite ordered_blocks_elem.
  - setoid_rewrite <- Hc. setoid_rewrite <- ordered_blocks_elem. split; [intros -> c; apply not_elem_of_nil|].
    intros H. destruct (ordered_blocks_of blocks) as [|c l]; [done|]. destruct (H c). left.
Qed.

(** C37: The block codes of a reconciliation are exactly the reasons.  For every sweep and
    expectation that were constructed, every UTC time of acceptance and cash amounts,
    [evaluate] returns; its block codes are, sorted and without duplicates, the codes
    whose reason holds, where each reason is stated over instants, exact amounts and sets
    of activities ([blocked_by]); and it is safe exactly when no reason holds. *)
Theorem evaluate_exact s e accepted :
  valid_sweep s -> valid_expectation e -> moment accepted ->
  Forall (fun a => cash (ao_cash a)) (accounts s) -> cash (ex_expected_cash e) ->
  exists r, evaluate s e accepted = Ok r /\ wr_expectation r = e /\ wr_sweep r = s /\
    wr_accepted_at r = accepted /\
    (forall c, c ∈ wr_block_codes r <-> blocked_by s e accepted c) /\
    NoDup (wr_block_codes r) /\ StronglySorted (key_le enum_value) (wr_block_codes r) /\
    (wr_safe r = true <-> forall c, ~ blocked_by s e accepted c).
Proof. apply evaluate_spec. Qed.

(** *** What a safe reconciliation says *)

Lemma sweep_chronology s :
  make_SweepObservation s = Ok s ->
  dt_le (sw_retrieval_started_at s) (pe_established_at (sw_activity_pagination s)) = Ok true /\
  dt_le (pe_established_at (sw_activity_pagination s)) (sw_retrieval_completed_at s) = Ok true /\
  dt_eq (pe_requested_end (sw_activity_pagination s)) (ao_observed_at (sw_first_account s)) = true.
Proof.
  unfold make_SweepObservation. intros H. inv_seq H.
  match goal with E : (not _) = Ok false |- _ => rename E into Hc end.
  rewrite not_m_false, !and_m_true in Hc. destruct Hc as [[[_ [Hc1 Hc2]] _] Hc3]. by injection Hc3.
Qed.

Lemma dt_le_true a b : dt_le a b = Ok true -> dt_instant a <= dt_instant b.
Proof. unfold dt_le. destruct (same_awareness a b); [|done]. intros [= H]. by apply Z.leb_le. Qed.

Lemma expectation_window v e :
  _from_repository_state v = Ok e ->
  dt_eq (ex_required_activity_window_start e) (ex_baseline_captured_at e) = true.
Proof.
  unfold _from_repository_state. intros H. inv_seq H. injection H as <-. cbn.
  match goal with E : (_ ||| _) = Ok false |- _ => rename E into Hc end.
  rewrite !or_m_false, !lift_bool_ok, negb_false_iff in Hc. tauto.
Qed.

(** C38: A safe reconciliation means the broker account is the expected one, now.  When
    [evaluate] says safe, the sweep is stable (the first and the final observation agree on
    the account, on the positions and on the open orders) and complete (the positions and
    the orders were listed to their end, the last page of the activities was seen, and they
    were retrieved through the end that was requested), and it took at most fifteen
    seconds; both observations of the account have the expected role and
    fingerprint, may trade, and hold the expected cash up to a dollar less; positions and
    open orders are the expected ones; nothing was observed in the future or more than
    fifteen seconds ago, the activity listing included, which is complete from the capture
    of the baseline on and visible up to the required time; every activity observed is
    not in the future and is
    known (a fee too, which [UNEXPECTED_ACTIVITY] alone would let pass); every known one
    in the window was observed unchanged; and no assignment or adjustment is left that
    was not resolved. *)
Theorem safe_reconciliation s e accepted r :
  valid_sweep s -> valid_expectation e -> moment accepted ->
  Forall (fun a => cash (ao_cash a)) (accounts s) -> cash (ex_expected_cash e) ->
  evaluate s e accepted = Ok r -> wr_safe r = true ->
  let p := sw_activity_pagination s in
  (same_account (sw_first_account s) (sw_final_account s) /\
   same_items (sw_first_positions s) (sw_final_positions s) /\
   sw_first_open_orders s = sw_final_open_orders s) /\
  (sw_positions_complete s = true /\ sw_orders_complete s = true /\
   pe_terminal_page_seen p = true /\
   dt_instant (pe_retrieved_through p) = dt_instant (pe_requested_end p)) /\
  dt_instant (sw_retrieval_completed_at s) - dt_instant (sw_retrieval_started_at s) <= seconds 15 /\
  (forall a, a ∈ accounts s -> ao_role a = ex_account_role e /\ ao_role a <> REPLAY /\
     ao_account_fingerprint a = ex_account_fingerprint e /\ executable_account a /\ cash_expected a e) /\
  same_items (sw_final_positions s) (ex_expected_positions e) /\
  sw_final_open_orders s = ex_expected_open_orders e /\
  (forall t, t ∈ pe_established_at p :: observation_times s ->
     0 <= dt_instant accepted - dt_instant t <= seconds 15) /\
  dt_instant (pe_requested_start p) = dt_instant (ex_baseline_captured_at e) /\
  dt_instant (pe_retrieved_through p) = dt_instant (ao_observed_at (sw_first_account s)) /\
  dt_instant (ex_required_activity_complete_through e)
    <= dt_instant (pe_visibility_complete_through p) /\
  (forall a, a ∈ sw_activities s -> dt_instant (act_occurred_at a) <= dt_instant accepted /\
     act_activity_id_hash a ∈ map act_activity_id_hash (ex_known_activities e) /\
     (assignment_type (act_activity_type a) \/ adjustment_type (act_activity_type a) ->
        act_activity_id_hash a ∈ ex_resolved_activity_hashes e)) /\
  (forall k, k ∈ ex_known_activities e -> in_window e k ->
     exists a, a ∈ sw_activities s /\ same_activity a k).
Proof.
  intros Vs Ve Ha Ca Ce Hev Hsafe p.
  destruct (evaluate_spec s e accepted Vs Ve Ha Ca Ce) as (r' & Hr & _ & _ & _ & _ & _ & _ & Hs).
  rewrite Hev in Hr. injection Hr as <-. pose proof (proj1 Hs Hsafe) as N. clear Hs.
  destruct (ve_made e Ve) as (v & Hv).
  destruct (sweep_chronology s (vs_made s Vs)) as (C1 & C2 & C3).
  apply dt_le_true in C1, C2. destruct (pagination_moments s Vs) as (M1 & M2 & _).
  apply moment_eq_spec in C3; [|done|by apply (sweep_moment s Vs); unfold observation_times; left].
  destruct (expectation_moments e Ve) as (M3 & M4 & _).
  pose proof (proj1 (moment_eq_spec _ _ M4 M3) (expectation_window v e Hv)) as C4.
  assert (T : forall t, t ∈ observation_times s -> 0 <= dt_instant accepted - dt_instant t <= seconds 15).
  { intros t Ht. split; apply Z.nlt_ge; intros Hlt.
    - apply (N FUTURE_OBSERVATION). left. by exists t.
    - apply (N STALE_OBSERVATION). right. by exists t. }
  assert (U : forall a, a ∈ sw_activities s ->
     assignment_type (act_activity_type a) \/ adjustment_type (act_activity_type a) ->
     act_activity_id_hash a ∈ ex_resolved_activity_hashes e).
  { intros a Hin Ht. destruct (decide (act_activity_id_hash a ∈ ex_resolved_activity_hashes e)) as [|Hn]; [done|].
    exfalso. destruct Ht; [apply (N ASSIGNMENT_SUSPECTED)|apply (N ACCOUNT_ADJUSTMENT)]; right; by exists a. }
  assert (S1 : same_account (sw_first_account s) (sw_final_account s)).
  { apply dec_stable. intros Hn. apply (N UNSTABLE_SWEEP). by left. }
  assert (S2 : same_items (sw_first_positions s) (sw_final_positions s)).
  { apply dec_stable. intros Hn. apply (N UNSTABLE_SWEEP). right; by left. }
  assert (S3 : sw_first_open_orders s = sw_final_open_orders s).
  { apply dec_stable. intros Hn. apply (N UNSTABLE_SWEEP). right; by right. }
  split_and!; try done.
  - apply not_false_iff_true. intros Hn. apply (N INCOMPLETE_SWEEP). by left.
  - apply not_false_iff_true. intros Hn. apply (N INCOMPLETE_SWEEP). by right.
  - apply not_false_iff_true. intros Hn. apply (N ACTIVITY_WATERMARK_UNKNOWN). by left.
  - apply dec_stable. intros Hn. apply (N ACTIVITY_WATERMARK_UNKNOWN). right; by left.
  - apply Z.nlt_ge. intros Hn. apply (N STALE_OBSERVATION). by left.
  - intros a Hin. assert (Er : ao_role a = ex_account_role e).
    { apply dec_stable. intros Hn. apply (N ACCOUNT_MISMATCH). exists a. tauto. }
    split_and!; [done| | | |].
    + rewrite Er. intros E. pose proof (expectation_role v e Hv) as Hx. by rewrite E in Hx.
    + apply dec_stable. intros Hn. apply (N ACCOUNT_MISMATCH). exists a. tauto.
    + apply dec_stable. intros Hn. apply (N ACCOUNT_NOT_EXECUTABLE). by exists a.
    + apply dec_stable. intros Hn. apply (N ACCOUNT_ADJUSTMENT). left. by exists a.
  - apply dec_stable. apply (N UNEXPECTED_INVENTORY).
  - apply dec_stable. apply (N UNEXPECTED_OPEN_ORDER).
  - intros t [->|Ht]%elem_of_cons; [|by apply T].
    pose proof (T (sw_retrieval_started_at s)) as T1. pose proof (T (sw_retrieval_completed_at s)) as T2.
    unfold observation_times in *. destruct T1 as [_ T1]; [set_solver|]. destruct T2 as [T2 _]; [set_solver|].
    subst p. lia.
  - rewrite <- C4. apply dec_stable. apply (N ACTIVITY_WINDOW_INCOMPLETE).
  - rewrite <- C3. apply dec_stable. intros Hn. apply (N ACTIVITY_WATERMARK_UNKNOWN). cbn. tauto.
  - apply Z.nlt_ge. intros Hn. apply (N ACTIVITY_WATERMARK_UNKNOWN). cbn. subst p. tauto.
  - intros a Hin. split.
    { apply Z.nlt_ge. intros Hn. apply (N FUTURE_OBSERVATION). right. exists a. split; [done|lia]. }
    split; [|by apply U]. apply dec_stable. intros Hn.
    destruct (decide (act_activity_type a = FEE)) as [Ef|Ef].
    + apply Hn, (expectation_resolved_known v e Hv), U; [done|]. right. rewrite Ef. unfold adjustment_type. set_solver.
    + apply (N UNEXPECTED_ACTIVITY). by exists a.
  - intros k Hk Hw. rewrite <- Exists_exists. apply dec_stable. intros Hn.
    apply (N KNOWN_ACTIVITY_MISSING). exists k. by rewrite <- Exists_exists.
Qed.

(** ** A safe account *)

Definition sweep_time (second : Z) : datetime := utc 2026 9 14 15 0 second.

Definition sample_account (second : Z) : AccountObservation :=
  {| ao_role := DEVELOPMENT; ao_account_fingerprint := hex_of_N 64 5; ao_paper := true;
     ao_status := "ACTIVE"; ao_account_blocked := false; ao_trading_blocked := false;
     ao_options_trading_blocked := false; ao_equity := Dint 100000; ao_buying_power := Dint 50000;
     ao_cash := D 9988990 (-2); ao_observed_at := sweep_time second;
     ao_time_quality := "RETRIEVAL_TIME_ONLY" |}.

Definition sample_item (symbol : string) (quantity : Z) : InventoryItem :=
  mk_InventoryItem OPTION symbol (Dint quantity) 100.
Definition sample_items : list InventoryItem :=
  [sample_item "SPY261016C00450000" 1; sample_item "SPY261016C00455000" (-1)].

Definition sample_fill : ActivityItem :=
  {| act_activity_id_hash := hex_of_N 64 9; act_activity_type := FILL;
     act_occurred_at := utc 2026 9 14 14 0 0; act_symbol := Some "SPY261016C00450000";
     act_signed_quantity := Some (Dint 1); act_provider_order_id := Some "p";
     act_client_order_id := Some "ad-0"; act_time_quality := "EXACT_TRANSACTION_TIME";
     act_provider_activity_type := None |}.

Definition baseline_time : datetime := utc 2026 9 11 13 0 0.

Definition sample_sweep : SweepObservation :=
  {| sw_retrieval_started_at := sweep_time 1; sw_retrieval_completed_at := sweep_time 5;
     sw_activity_pagination :=
       {| pe_requested_start := baseline_time; pe_requested_end := sweep_time 2;
          pe_retrieved_through := sweep_time 2; pe_established_at := sweep_time 3;
          pe_page_count := 1; pe_terminal_page_seen := true;
          pe_visibility_complete_through := utc 2026 9 13 15 0 0;
          pe_visibility_horizon := hours 24 |};
     sw_first_account := sample_account 2; sw_final_account := sample_account 4;
     sw_first_positions := sample_items; sw_final_positions := sample_items;
     sw_first_open_orders := []; sw_final_open_orders := []; sw_activities := [sample_fill];
     sw_positions_complete := true; sw_orders_complete := true |}.

Definition sample_values : ReconciliationExpectation :=
  {| ex_purpose := SUBMIT; ex_account_role := DEVELOPMENT;
     ex_account_fingerprint := hex_of_N 64 5; ex_expected_cash := Dint 99890;
     ex_baseline_captured_at := baseline_time; ex_expected_positions := sample_items;
     ex_expected_open_orders := []; ex_known_activities := [sample_fill];
     ex_resolved_activity_hashes := [];
     ex_required_activity_window_start := baseline_time;
     ex_required_activity_complete_through := utc 2026 9 12 0 0 0;
     ex_intent_id := 5%N; ex_intent_digest := hex_of_N 64 6; ex_attempt_ordinal := 0;
     ex_request_hash := hex_of_N 64 7; ex_expectation_hash := "" |}.

Definition sample_expectation : ReconciliationExpectation :=
  match _from_repository_state sample_values with Ok e => e | Raise _ => sample_values end.

(** Evaluate the check of every element of a concrete list. *)
Ltac check_elements :=
  cbn [app map accounts observation_times sample_sweep sample_values with_expectation_hash sw_first_account
       sw_final_account sw_first_positions sw_final_positions sw_activities sw_activity_pagination
       sw_retrieval_started_at sw_retrieval_completed_at ex_expected_positions ex_known_activities
       sample_items sample_fill act_occurred_at];
  repeat apply List.Forall_cons; try apply List.Forall_nil;
  first [vm_compute; reflexivity | split; [vm_compute; reflexivity|vm_compute; split; [discriminate|reflexivity]]].

Lemma sample_sweep_valid : valid_sweep sample_sweep.
Proof. constructor; [vm_compute; reflexivity|check_elements|vm_compute; reflexivity|check_elements..]. Qed.

Lemma sample_expectation_made : _from_repository_state sample_values = Ok sample_expectation.
Proof. apply returned. vm_compute. reflexivity. Qed.

Lemma sample_expectation_valid : valid_expectation sample_expectation.
Proof.
  pose proof (expectation_fields_kept _ _ sample_expectation_made) as E.
  constructor; [exists sample_values; exact sample_expectation_made|rewrite E; check_elements..].
Qed.

Lemma sample_cash :
  Forall (fun a => cash (ao_cash a)) (accounts sample_sweep) /\ cash (ex_expected_cash sample_expectation).
Proof.
  assert (E : ex_expected_cash sample_expectation = Dint 99890) by (vm_compute; reflexivity).
  rewrite E. unfold accounts. cbn [sample_sweep sw_first_account sw_final_account].
  split; [apply List.Forall_cons; [|apply List.Forall_cons; [|apply List.Forall_nil]]|];
    (apply amount_D; [lia|vm_compute; discriminate]).
Qed.

Lemma sample_safe :
  exists r, evaluate sample_sweep sample_expectation (sweep_time 6) = Ok r /\ wr_safe r = true.
Proof.
  assert (H : match evaluate sample_sweep sample_expectation (sweep_time 6) with
    | Ok r => wr_safe r | Raise _ => false end = true) by (vm_compute; reflexivity).
  destruct (evaluate _ _ _) as [r|]; [by exists r|done].
Qed.

Lemma evaluate_exact_witness :
  exists r, evaluate sample_sweep sample_expectation (sweep_time 6) = Ok r /\
    NoDup (wr_block_codes r).
Proof.
  destruct (evaluate_exact sample_sweep sample_expectation (sweep_time 6) sample_sweep_valid
    sample_expectation_valid ltac:(split; [reflexivity|vm_compute; split; [discriminate|reflexivity]])
    (proj1 sample_cash) (proj2 sample_cash)) as (r & Hr & _ & _ & _ & _ & Hn & _).
  exists r. exact (conj Hr Hn).
Defined.

Lemma safe_reconciliation_witness :
  sw_first_open_orders sample_sweep = sw_final_open_orders sample_sweep /\
  sw_positions_complete sample_sweep = true /\
  same_items (sw_final_positions sample_sweep) (ex_expected_positions sample_expectation).
Proof.
  destruct sample_safe as (r & Hr & Hs).
  destruct (safe_reconciliation sample_sweep sample_expectation (sweep_time 6) r
    sample_sweep_valid sample_expectation_valid
    ltac:(split; [reflexivity|vm_compute; split; [discriminate|reflexivity]])
    (proj1 sample_cash) (proj2 sample_cash) Hr Hs) as ((_ & _ & Ho) & (Hp & _) & _ & _ & Hi & _).
  exact (conj Ho (conj Hp Hi)).
Defined.
