(* ===== verification/ExecExposure.v ===== *)
(** * The actual exposure of an account

    [backend/app/execution/exposure.py]: [reconcile_actual_exposure] sums the greeks of
    the option positions, when the observations are about exactly these positions and
    were taken together, just now. *)

From Stdlib Require Import ZArith Lia String Ascii List Bool QArith Lqa Sorted.
From stdpp Require Import base strings gmap option tactics sorting list.
From S2P Require Import Prelude PyText PyDecimal PyDecimalFacts PyTime PyDict Contracts Exposure ExecModels Finalization ReconciliationData.

#[local] Open Scope string_scope.
#[local] Open Scope Z_scope.

Definition position_entry (position : InventoryItem) : string * (decimal * Z) :=
  (iv_symbol position, (iv_signed_quantity position, iv_multiplier position)).
Definition observation_entry (item : PositionGreekObservation) : string * (decimal * Z) :=
  (pg_symbol item, (pg_signed_quantity item, pg_multiplier item)).

(** [==] of two such dictionaries: as many keys, and every key with an equal value. *)
Definition entry_eq (a b : decimal * Z) : bool := (a.1 ==. b.1) && (a.2 =? b.2).
Definition dict_eq (a b : list (string * (decimal * Z))) : bool :=
  (length a =? length b)%nat
  && forallb (fun '(k, v) => match dget b k with Some w => entry_eq v w | None => false end) a.

Definition dt_max_of (first : datetime) (rest : list datetime) : M datetime := fold_m dt_max first rest.
Definition dt_min_of (first : datetime) (rest : list datetime) : M datetime := fold_m dt_min first rest.

(** [sum(item.signed_quantity * item.multiplier * getattr(item, field) ...)] *)
Definition exposure_total (field : PositionGreekObservation -> decimal)
    (observations : list PositionGreekObservation) : M decimal :=
  fold_m (fun total item =>
    scale ← dmul (pg_signed_quantity item) (Dint (pg_multiplier item));
    value ← dmul scale (field item);
    dadd total value) (Dint 0) observations.

Section Validated.
Context (validate_greeks : GreekExposure -> M GreekExposure).

Definition reconcile_actual_exposure (positions : list InventoryItem)
    (observations : list PositionGreekObservation) (accepted_at : datetime)
    : M (option GreekExposure) :=
  when existsb (fun position => bool_decide (iv_kind position = EQUITY)) positions
  then_ blocked "ASSIGNMENT_SUSPECTED";;
  let option_positions :=
    List.filter (fun position => bool_decide (iv_kind position = OPTION)) positions in
  when not_canonical sorted_strings (map pg_symbol observations)
  then_ blocked "POSITION_GREEK_EVIDENCE_NOT_CANONICAL";;
  let expected := dict_of position_entry option_positions in
  let observed := dict_of observation_entry observations in
  when negb (dict_eq observed expected)
  then_ blocked "POSITION_GREEK_EVIDENCE_MISMATCH";;
  match observations with
  | [] => Ok None
  | first :: rest =>
  let retrieval_time := pg_retrieved_at first in
  when negb (forallb (fun item => dt_eq retrieval_time (pg_retrieved_at item)) rest)
       ||| (latest ← dt_max_of (pg_source_timestamp first) (map pg_source_timestamp rest);
            earliest ← dt_min_of (pg_source_timestamp first) (map pg_source_timestamp rest);
            spread ← dt_sub latest earliest;
            Ok (seconds 1 <? spread))
  then_ blocked "POSITION_GREEK_EVIDENCE_UNSYNCHRONIZED";;
  when dt_lt accepted_at retrieval_time
       ||| (age ← dt_sub accepted_at retrieval_time; Ok (seconds 15 <? age))
       ||| any_m (fun observation =>
             age ← dt_sub (pg_retrieved_at observation) (pg_source_timestamp observation);
             Ok (seconds 15 <? age)) observations
  then_ blocked "POSITION_GREEK_EVIDENCE_STALE";;
  delta ← exposure_total pg_delta observations;
  gamma ← exposure_total pg_gamma observations;
  theta_per_day ← exposure_total pg_theta_per_day observations;
  vega_per_iv_point ← exposure_total pg_vega_per_iv_point observations;
  exposure ← validate_greeks (mk_GreekExposure delta gamma theta_per_day vega_per_iv_point);
  Ok (Some exposure)
  end.
End Validated.

(** ** Dictionaries *)

(** Two duplicate free dictionaries of the same size, one inside the other. *)
Lemma dict_eq_subset a b :
  NoDup (map fst a) -> NoDup (map fst b) ->
  dict_eq a b = true <->
  length a = length b /\
  forall k v, (k, v) ∈ a -> exists w, (k, w) ∈ b /\ entry_eq v w = true.
Proof.
  intros Ua Ub. unfold dict_eq. rewrite andb_true_iff, Nat.eqb_eq, forallb_forall.
  apply and_iff_compat_l. split.
  - intros H k v Hin%list_elem_of_In. specialize (H _ Hin). cbn in H.
    destruct (dget b k) as [w|] eqn:E; [|done]. exists w. split; [by apply dget_elem|done].
  - intros H [k v] Hin%list_elem_of_In. destruct (H k v Hin) as (w & Hw & E).
    by rewrite (proj2 (dget_wf b k w Ub) Hw).
Qed.

(** The keys of the two are then the same. *)
Lemma subset_full (l l' : list string) :
  NoDup l -> NoDup l' -> length l = length l' -> (forall x, x ∈ l -> x ∈ l') -> forall x, x ∈ l' -> x ∈ l.
Proof.
  intros U U' Hlen Hsub x Hx.
  assert (Hp : l ≡ₚ l').
  { apply submseteq_length_Permutation; [by apply NoDup_submseteq|lia]. }
  by rewrite Hp.
Qed.

(** ** Evidence *)

(** The observation is about the position. *)
Definition observes_position (o : PositionGreekObservation) (p : InventoryItem) : Prop :=
  pg_symbol o = iv_symbol p /\ (dval (pg_signed_quantity o) == dval (iv_signed_quantity p))%Q /\
  pg_multiplier o = iv_multiplier p.

(** One observation for each position and nothing else, taken together and just now. *)
Record evidence (positions : list InventoryItem) (observations : list PositionGreekObservation)
    (accepted_at : datetime) : Prop := mk_evidence {
  ev_options : forall p, p ∈ positions -> iv_kind p = OPTION;
  ev_sorted : StronglySorted String.le (map pg_symbol observations) /\ NoDup (map pg_symbol observations);
  ev_count : length observations = length positions;
  ev_positions : forall o, o ∈ observations -> exists p, p ∈ positions /\ observes_position o p;
  ev_together : forall o o', o ∈ observations -> o' ∈ observations ->
    dt_instant (pg_retrieved_at o) = dt_instant (pg_retrieved_at o') /\
    dt_instant (pg_source_timestamp o) - dt_instant (pg_source_timestamp o') <= seconds 1;
  ev_fresh : forall o, o ∈ observations ->
    0 <= dt_instant accepted_at - dt_instant (pg_retrieved_at o) <= seconds 15 /\
    dt_instant (pg_retrieved_at o) - dt_instant (pg_source_timestamp o) <= seconds 15;
}.

(** Constructed values: positions with one entry per symbol, observations of options. *)
Record valid_exposure (positions : list InventoryItem) (observations : list PositionGreekObservation)
    (accepted_at : datetime) : Prop := mk_valid_exposure {
  vx_positions : Forall (fun i => make_InventoryItem i = Ok i) positions;
  vx_canonical : require_canonical_positions positions = Ok tt;
  vx_observations : Forall (fun o => make_PositionGreekObservation o = Ok o) observations;
  vx_accepted : is_aware accepted_at = true;
}.

(** *** The latest and the earliest time *)

Lemma dt_max_of_spec first rest :
  is_aware first = true -> Forall (fun t => is_aware t = true) rest ->
  exists t, dt_max_of first rest = Ok t /\ t ∈ first :: rest /\
    forall u, u ∈ first :: rest -> dt_instant u <= dt_instant t.
Proof.
  unfold dt_max_of. intros Hf Hr. revert first Hf. induction Hr as [|x l Hx Hl IH]; intros first Hf; cbn [fold_m].
  - exists first. split; [done|]. split; [left|]. intros u ->%list_elem_of_singleton. done.
  - destruct (dt_lt_decides first x Hf Hx) as (b & E & Hb).
    assert (Em : dt_max first x = Ok (if b then x else first)) by (unfold dt_max; by rewrite E).
    rewrite Em. cbn [mbind M_bind].
    destruct (IH (if b then x else first)) as (t & Ht & Hin & Hmax); [by destruct b|].
    exists t. split; [done|]. split; [destruct b; set_solver|].
    pose proof (Hmax (if b then x else first) ltac:(left)) as H0.
    intros u Hu. rewrite !elem_of_cons in Hu. destruct b.
    + assert (dt_instant first < dt_instant x) by by apply Hb.
      destruct Hu as [->|[->|Hu]]; [lia|lia|apply Hmax; by right].
    + assert (~ dt_instant first < dt_instant x) by (intros F; by assert (false = true) by by apply Hb).
      destruct Hu as [->|[->|Hu]]; [lia|lia|apply Hmax; by right].
Qed.

Lemma dt_min_of_spec first rest :
  is_aware first = true -> Forall (fun t => is_aware t = true) rest ->
  exists t, dt_min_of first rest = Ok t /\ t ∈ first :: rest /\
    forall u, u ∈ first :: rest -> dt_instant t <= dt_instant u.
Proof.
  unfold dt_min_of. intros Hf Hr. revert first Hf. induction Hr as [|x l Hx Hl IH]; intros first Hf; cbn [fold_m].
  - exists first. split; [done|]. split; [left|]. intros u ->%list_elem_of_singleton. done.
  - destruct (dt_lt_decides x first Hx Hf) as (b & E & Hb).
    assert (Em : dt_min first x = Ok (if b then x else first)) by (unfold dt_min; by rewrite E).
    rewrite Em. cbn [mbind M_bind].
    destruct (IH (if b then x else first)) as (t & Ht & Hin & Hmin); [by destruct b|].
    exists t. split; [done|]. split; [destruct b; set_solver|].
    pose proof (Hmin (if b then x else first) ltac:(left)) as H0.
    intros u Hu. rewrite !elem_of_cons in Hu. destruct b.
    + assert (dt_instant x < dt_instant first) by by apply Hb.
      destruct Hu as [->|[->|Hu]]; [lia|lia|apply Hmin; by right].
    + assert (~ dt_instant x < dt_instant first) by (intros F; by assert (false = true) by by apply Hb).
      destruct Hu as [->|[->|Hu]]; [lia|lia|apply Hmin; by right].
Qed.

(** *** Sums *)

Definition sum_greeks (field : PositionGreekObservation -> decimal)
    (observations : list PositionGreekObservation) : Q :=
  fold_right (fun o total => dval (pg_signed_quantity o) * inject_Z (pg_multiplier o) * dval (field o) + total)%Q
    0%Q observations.

(** A whole number of contracts, up to ten thousand. *)
Definition contracts (d : decimal) : Prop := amount 0 (10 ^ 4) d.

Lemma amount_mul e k1 k2 a b :
  amount 0 k1 a -> amount e k2 b -> k1 * k2 < 10 ^ prec -> money_exp e ->
  exists r, dmul a b = Ok r /\ amount e (k1 * k2) r /\ (dval r == dval a * dval b)%Q.
Proof.
  intros (Fa & n1 & H1 & E1) (Fb & n2 & H2 & E2) Hk He.
  assert (E : (dval a * dval b == inject_Z (n1 * n2) * p10 e)%Q)
    by (rewrite E1, E2, p10_0, inject_Z_mult; ring).
  assert (Z.abs (n1 * n2) <= k1 * k2) by (rewrite Z.abs_mul; apply Z.mul_le_mono_nonneg; lia).
  destruct (dmul_total a b Fa Fb) as [r Hr].
  { rewrite E. apply amount_bound; [done|lia]. }
  exists r. split; [done|]. apply dmul_spec in Hr as [Fr Hr]; [|done..].
  eapply amount_of_faithful; [done|exact Hr|exact E|done|lia|done].
Qed.

Lemma exposure_total_from field observations total k :
  Forall (fun o => contracts (pg_signed_quantity o) /\ pg_multiplier o = 100 /\ greek (field o)) observations ->
  0 <= k -> k + 10 ^ 24 * Z.of_nat (length observations) < 10 ^ prec -> amount (-9) k total ->
  exists r, fold_m (fun total item =>
      scale ← dmul (pg_signed_quantity item) (Dint (pg_multiplier item));
      value ← dmul scale (field item);
      dadd total value) total observations = Ok r /\
    (dval r == dval total + sum_greeks field observations)%Q.
Proof.
  intros H. revert total k. induction H as [|o l (Hc & Hm & Hg) Hl IH]; intros total k H0 Hk Ht; cbn [fold_m].
  { exists total. split; [done|]. cbn. ring. }
  cbn [length] in Hk. rewrite Nat2Z.inj_succ in Hk.
  destruct (amount_mul_int 0 (10 ^ 4) 100 (pg_signed_quantity o) (pg_multiplier o)) as (sc & -> & As & Es);
    [done|rewrite Hm; lia|done|by split|]. cbn [mbind M_bind].
  destruct (amount_mul (-9) (10 ^ 4 * 100) (10 ^ 18) sc (field o)) as (v & -> & Av & Ev);
    [done|done|reflexivity|apply greek_exp|]. cbn [mbind M_bind].
  destruct (amount_add (-9) k (10 ^ 4 * 100 * 10 ^ 18) total v) as (t & -> & At & Et);
    [done|done|lia|apply greek_exp|].
  destruct (IH t (k + 10 ^ 24)) as (r & Hr & Er); [lia|lia|exact At|].
  exists r. split; [done|]. rewrite Er, Et, Ev, Es. cbn [sum_greeks fold_right]. fold (sum_greeks field l). ring.
Qed.

Lemma exposure_total_exact field observations :
  Forall (fun o => contracts (pg_signed_quantity o) /\ pg_multiplier o = 100 /\ greek (field o)) observations ->
  Z.of_nat (length observations) <= 1000 ->
  exists r, exposure_total field observations = Ok r /\ (dval r == sum_greeks field observations)%Q.
Proof.
  intros H Hn. destruct (exposure_total_from field observations (Dint 0) 0 H) as (r & Hr & Er); [lia| | |].
  - change (10 ^ prec) with (10 ^ 28). lia.
  - split; [done|]. by exists 0.
  - exists r. split; [done|]. rewrite Er, dval_Dint. change (inject_Z 0) with 0%Q. ring.
Qed.

(** *** Each guard decides a part of the evidence *)

(** [m] answers no exactly when [P] holds. *)
Definition refuses_unless (m : M bool) (P : Prop) : Prop := exists b, m = Ok b /\ (b = false <-> P).

Lemma refuses_of_decides m Q P : decides m Q -> (~ Q <-> P) -> refuses_unless m P.
Proof.
  intros (b & -> & H) E. exists b. split; [done|]. by rewrite <- E, <- H, not_true_iff_false.
Qed.

Section Guards.
Context (positions : list InventoryItem) (observations : list PositionGreekObservation).
Context (accepted_at : datetime) (V : valid_exposure positions observations accepted_at).

Lemma observation_aware o :
  o ∈ observations -> is_aware (pg_retrieved_at o) = true /\ is_aware (pg_source_timestamp o) = true /\
    finite (pg_signed_quantity o) /\ pg_multiplier o = 100.
Proof.
  intros Ho. pose proof (vx_observations _ _ _ V) as H. rewrite Forall_forall in H. specialize (H o Ho).
  unfold make_PositionGreekObservation in H. inv_seq H.
  match goal with E : (_ ||| _ ||| _) = Ok false |- _ => rewrite !or_m_false, !lift_bool_ok, !negb_false_iff in E; destruct E as [[? ?] _] end.
  match goal with E : lift_bool (_ || _ || _ || _ || _ || _) = Ok false |- _ =>
    rewrite lift_bool_ok, !orb_false_iff, !negb_false_iff in E; destruct E as [[[[[_ _] _] F] _] Hm] end.
  cbn in F. rewrite !andb_true_iff in F. split_and!; [done|done|by destruct F|by apply Z.eqb_eq].
Qed.

Lemma equity_decides :
  existsb (fun position => bool_decide (iv_kind position = EQUITY)) positions = true <->
  ~ forall p, p ∈ positions -> iv_kind p = OPTION.
Proof.
  rewrite existsb_exists. split.
  - intros (p & Hp%list_elem_of_In & E%bool_decide_eq_true) H. by rewrite H in E.
  - intros H. destruct (existsb (fun p => bool_decide (iv_kind p = EQUITY)) positions) eqn:E.
    + by apply existsb_exists in E.
    + destruct H. intros p Hp. apply existsb_false_Forall in E. rewrite Forall_forall in E.
      specialize (E p Hp). apply bool_decide_eq_false in E. by destruct (iv_kind p).
Qed.

Lemma option_positions_all :
  (forall p, p ∈ positions -> iv_kind p = OPTION) ->
  List.filter (fun position => bool_decide (iv_kind position = OPTION)) positions = positions.
Proof.
  clear. induction positions as [|p l IH]; [done|]. intros H. cbn.
  rewrite bool_decide_true by (apply H; left). f_equal. apply IH. intros q Hq. apply H. by right.
Qed.

Lemma position_symbols_unique :
  (forall p, p ∈ positions -> iv_kind p = OPTION) -> NoDup (map iv_symbol positions).
Proof.
  intros Ho. pose proof (vx_canonical _ _ _ V) as H. unfold require_canonical_positions, _require_canonical in H.
  apply guard_raise_ok in H as [H _]. apply lift_bool_ok in H.
  apply (not_canonical_false pair_le) in H as [_ H]. clear V. induction positions as [|p l IH]; [constructor|].
  cbn in H |- *. apply NoDup_cons in H as [Hp H]. apply NoDup_cons. split; [|apply IH; [|done]].
  - intros (q & Eq & Hq)%list_elem_of_fmap. apply Hp, list_elem_of_fmap. exists q. split; [|done].
    unfold inventory_key. rewrite Eq, (Ho p), (Ho q); [done|by right|left].
  - intros q Hq. apply Ho. by right.
Qed.

Lemma entry_eq_spec o p :
  o ∈ observations -> p ∈ positions -> pg_symbol o = iv_symbol p ->
  entry_eq (observation_entry o).2 (position_entry p).2 = true <-> observes_position o p.
Proof.
  intros Ho Hp Es. pose proof (vx_positions _ _ _ V) as H. rewrite Forall_forall in H.
  assert (Fp : finite (iv_signed_quantity p)).
  { specialize (H p Hp). unfold make_InventoryItem in H. inv_all. done. }
  destruct (observation_aware o Ho) as (_ & _ & Fo & _).
  unfold entry_eq, observes_position, observation_entry, position_entry. cbn.
  rewrite andb_true_iff, Z.eqb_eq, deq_spec by done. tauto.
Qed.

Lemma matching_decides :
  NoDup (map pg_symbol observations) -> (forall p, p ∈ positions -> iv_kind p = OPTION) ->
  dict_eq (dict_of observation_entry observations) (dict_of position_entry positions) = true <->
  length observations = length positions /\
  forall o, o ∈ observations -> exists p, p ∈ positions /\ observes_position o p.
Proof.
  intros Uo Hopt. pose proof (position_symbols_unique Hopt) as Up.
  rewrite !dict_of_spec by done. rewrite dict_eq_subset by by rewrite map_map.
  rewrite !length_map. apply and_iff_compat_l. split.
  - intros H o Ho. destruct (H (pg_symbol o) (observation_entry o).2) as (w & Hw & E).
    { apply list_elem_of_fmap. by exists o. }
    apply list_elem_of_fmap in Hw as (p & Ep & Hp). injection Ep as Es ->. exists p. split; [done|].
    by apply (entry_eq_spec o p Ho Hp Es).
  - intros H k v (o & [= -> ->] & Ho)%list_elem_of_fmap. destruct (H o Ho) as (p & Hp & E).
    exists (position_entry p).2. split; [|apply (entry_eq_spec o p Ho Hp); [apply E|done]].
    apply list_elem_of_fmap. exists p. split; [|done]. unfold position_entry. cbn. by rewrite (proj1 E).
Qed.

Lemma together_decides first rest :
  observations = first :: rest ->
  refuses_unless
    (negb (forallb (fun item => dt_eq (pg_retrieved_at first) (pg_retrieved_at item)) rest)
     ||| (latest ← dt_max_of (pg_source_timestamp first) (map pg_source_timestamp rest);
          earliest ← dt_min_of (pg_source_timestamp first) (map pg_source_timestamp rest);
          spread ← dt_sub latest earliest;
          Ok (seconds 1 <? spread)))
    (forall o o', o ∈ observations -> o' ∈ observations ->
       dt_instant (pg_retrieved_at o) = dt_instant (pg_retrieved_at o') /\
       dt_instant (pg_source_timestamp o) - dt_instant (pg_source_timestamp o') <= seconds 1).
Proof.
  intros E. assert (A : forall o, o ∈ first :: rest -> is_aware (pg_retrieved_at o) = true /\
    is_aware (pg_source_timestamp o) = true)
    by (rewrite <- E; intros o Ho; by destruct (observation_aware o Ho) as (? & ? & _)).
  assert (Fr : Forall (fun t => is_aware t = true) (map pg_source_timestamp rest)).
  { apply Forall_forall. intros t (o & -> & Ho)%list_elem_of_fmap. apply A. by right. }
  assert (A1 : is_aware (pg_source_timestamp first) = true) by (apply A; left).
  destruct (dt_max_of_spec _ _ A1 Fr) as (hi & -> & Hhi & Lhi).
  destruct (dt_min_of_spec _ _ A1 Fr) as (lo & -> & Hlo & Llo). cbn [mbind M_bind].
  rewrite <- (map_cons pg_source_timestamp) in *.
  apply list_elem_of_fmap in Hhi as (oh & -> & Hoh), Hlo as (ol & -> & Hol).
  rewrite dt_sub_aware by (by apply A). cbn [mbind M_bind].
  eapply refuses_of_decides; [apply decides_or; apply decides_bool; [apply negb_true_iff|apply Z.ltb_lt]|].
  rewrite E. split.
  2: { intros Hall [H|H].
    + apply not_true_iff_false in H. apply H, forallb_forall. intros o Ho%list_elem_of_In.
      apply dt_eq_spec; [apply A; left|apply A; by right|]. apply Hall; [left|by right].
    + destruct (Hall oh ol Hoh Hol). lia. }
  intros H. destruct (forallb _ rest) eqn:Ef; [|destruct H; by left]. rewrite forallb_forall in Ef.
    assert (Same : forall o, o ∈ first :: rest -> dt_instant (pg_retrieved_at o) = dt_instant (pg_retrieved_at first)).
    { intros o [->|Ho]%elem_of_cons; [done|]. symmetry. apply dt_eq_spec; [apply A; left|apply A; by right|].
      by apply Ef, list_elem_of_In. }
    intros o o' Ho Ho'. split; [by rewrite (Same o Ho), (Same o' Ho')|].
    assert (~ seconds 1 < dt_instant (pg_source_timestamp oh) - dt_instant (pg_source_timestamp ol))
      by (intros ?; apply H; by right).
    pose proof (Lhi _ (list_elem_of_fmap_2 pg_source_timestamp _ _ Ho)).
    pose proof (Llo _ (list_elem_of_fmap_2 pg_source_timestamp _ _ Ho')). lia.
Qed.

Lemma fresh_decides first rest :
  observations = first :: rest ->
  (forall o o', o ∈ observations -> o' ∈ observations ->
     dt_instant (pg_retrieved_at o) = dt_instant (pg_retrieved_at o')) ->
  refuses_unless
    (dt_lt accepted_at (pg_retrieved_at first)
     ||| (age ← dt_sub accepted_at (pg_retrieved_at first); Ok (seconds 15 <? age))
     ||| any_m (fun observation =>
           age ← dt_sub (pg_retrieved_at observation) (pg_source_timestamp observation);
           Ok (seconds 15 <? age)) observations)
    (forall o, o ∈ observations ->
       0 <= dt_instant accepted_at - dt_instant (pg_retrieved_at o) <= seconds 15 /\
       dt_instant (pg_retrieved_at o) - dt_instant (pg_source_timestamp o) <= seconds 15).
Proof.
  intros E Same. assert (Hf : first ∈ observations) by (rewrite E; left).
  destruct (observation_aware first Hf) as (A1 & _). pose proof (vx_accepted _ _ _ V) as Aa.
  rewrite (dt_sub_aware accepted_at) by done. cbn [mbind M_bind].
  eapply refuses_of_decides.
  - apply decides_or; [apply decides_or; [by apply dt_lt_decides|apply decides_bool, Z.ltb_lt]|].
    apply (decides_any _ (fun o => seconds 15 < dt_instant (pg_retrieved_at o) - dt_instant (pg_source_timestamp o))).
    intros o Ho. destruct (observation_aware o Ho) as (Ar & As & _). rewrite dt_sub_aware by done.
    apply decides_bool, Z.ltb_lt.
  - split.
    + intros H o Ho. rewrite (Same o first Ho Hf). split; [lia|].
      apply Z.nlt_ge. intros Hlt. apply H. right. exists o. by rewrite (Same o first Ho Hf).
    + intros Hall [[H|H]|(o & Ho & H)]; [destruct (Hall first Hf); lia|destruct (Hall first Hf); lia|].
      destruct (Hall o Ho). lia.
Qed.
End Guards.

(** C39: The actual exposure is the exact sum over the positions, or nothing.  For
    constructed positions and observations with bounded greeks, [reconcile_actual_exposure]
    gives an exposure exactly when there is one observation for each position and nothing
    else (no equity, same symbols, quantities and multipliers), all retrieved at one
    instant in the last fifteen seconds, from sources within one second of each other and
    fifteen of the retrieval; each field is then the sum of quantity times 100 times the
    greek, without rounding.  In every other case it is blocked. *)
Theorem actual_exposure_exact validate positions observations accepted_at :
  valid_exposure positions observations accepted_at ->
  Forall (fun o => contracts (pg_signed_quantity o) /\ greek (pg_delta o) /\ greek (pg_gamma o) /\
                   greek (pg_theta_per_day o) /\ greek (pg_vega_per_iv_point o)) observations ->
  Z.of_nat (length observations) <= 1000 ->
  let result := reconcile_actual_exposure validate positions observations accepted_at in
  (~ evidence positions observations accepted_at -> exists code, result = Raise (ExecutionBlocked code)) /\
  (evidence positions observations accepted_at -> observations = [] -> result = Ok None) /\
  (evidence positions observations accepted_at -> observations <> [] ->
     exists d g t v, result = (x ← validate (mk_GreekExposure d g t v); Ok (Some x)) /\
       (dval d == sum_greeks pg_delta observations)%Q /\
       (dval g == sum_greeks pg_gamma observations)%Q /\
       (dval t == sum_greeks pg_theta_per_day observations)%Q /\
       (dval v == sum_greeks pg_vega_per_iv_point observations)%Q).
Proof.
  intros V Hg Hn result. subst result. unfold reconcile_actual_exposure.
  assert (Hm : Forall (fun o => pg_multiplier o = 100) observations).
  { apply Forall_forall. intros o Ho. by destruct (observation_aware _ _ _ V o Ho) as (_ & _ & _ & ?). }
  pose proof (equity_decides positions) as E1.
  destruct (existsb _ positions).
  { assert (Hx : ~ forall p, p ∈ positions -> iv_kind p = OPTION) by by apply E1. cbn.
    split_and!; [by eexists|intros Ev; by destruct Hx; apply Ev..]. }
  assert (Hopt : forall p, p ∈ positions -> iv_kind p = OPTION).
  { intros p Hp. apply dec_stable. intros Hne. assert (false = true) by (apply E1; auto). done. }
  rewrite option_positions_all by done. cbn [guard_m lift_bool mbind M_bind].
  pose proof (not_canonical_false String.le (map pg_symbol observations)) as E2.
  unfold sorted_strings. destruct (not_canonical _ _).
  { cbn. split_and!; [by eexists|intros Ev; assert (true = false) by (apply E2, Ev); done..]. }
  destruct (proj1 E2 eq_refl) as [Hs Hu]. cbn [guard_m lift_bool mbind M_bind].
  pose proof (matching_decides _ _ _ V Hu Hopt) as E3. destruct (dict_eq _ _).
  2: { cbn. split_and!; [by eexists|intros Ev; assert (false = true) by (apply E3; split; apply Ev); done..]. }
  destruct (proj1 E3 eq_refl) as [Hc Hp]. cbn [negb guard_m lift_bool mbind M_bind].
  destruct observations as [|first rest] eqn:Eo.
  { split_and!; [|done|done]. intros Hne. destruct Hne. constructor; try done; intros;
      match goal with H : _ ∈ [] |- _ => by apply elem_of_nil in H end. }
  rewrite <- Eo in *.
  destruct (together_decides _ _ _ V first rest Eo) as (b4 & -> & E4). destruct b4.
  { cbn. split_and!; [by eexists|intros Ev; assert (true = false) by (apply E4, Ev); done..]. }
  pose proof (proj1 E4 eq_refl) as Ht. cbn [guard_m mbind M_bind].
  destruct (fresh_decides _ _ _ V first rest Eo) as (b5 & -> & E5); [intros; by apply Ht|]. destruct b5.
  { cbn. split_and!; [by eexists|intros Ev; assert (true = false) by (apply E5, Ev); done..]. }
  pose proof (proj1 E5 eq_refl) as Hf. cbn [guard_m mbind M_bind].
  assert (Hev : evidence positions observations accepted_at) by by constructor.
  split_and!; [done|by rewrite Eo|intros _ _].
  assert (Hsum : forall field, (forall o, o ∈ observations -> greek (field o)) ->
    exists r, exposure_total field observations = Ok r /\ (dval r == sum_greeks field observations)%Q).
  { intros field Hfield. apply exposure_total_exact; [|done]. apply Forall_forall. intros o Ho.
    rewrite Forall_forall in Hg. rewrite Forall_forall in Hm. by split_and!; [apply Hg|apply Hm|apply Hfield]. }
  rewrite Forall_forall in Hg.
  destruct (Hsum pg_delta) as (d & -> & Ed); [intros; by apply Hg|].
  destruct (Hsum pg_gamma) as (g & -> & Eg); [intros; by apply Hg|].
  destruct (Hsum pg_theta_per_day) as (t & -> & Et); [intros; by apply Hg|].
  destruct (Hsum pg_vega_per_iv_point) as (v & -> & Ew); [intros; by apply Hg|].
  exists d, g, t, v. by split_and!.
Qed.

(** A vertical of five contracts, observed two seconds ago. *)
Definition sample_position (symbol : string) (quantity : Z) : InventoryItem :=
  mk_InventoryItem OPTION symbol (Dint quantity) 100.
Definition sample_observation (symbol : string) (quantity delta : Z) : PositionGreekObservation :=
  {| pg_symbol := symbol; pg_signed_quantity := Dint quantity; pg_multiplier := 100;
     pg_delta := D delta (-2); pg_gamma := D 2 (-2); pg_theta_per_day := D (-5) (-2);
     pg_vega_per_iv_point := D 11 (-2); pg_feed := "indicative";
     pg_source_timestamp := utc 2026 9 14 14 59 57; pg_retrieved_at := utc 2026 9 14 14 59 58;
     pg_source_hash := hex_of_N 64 1 |}.
Definition sample_positions : list InventoryItem :=
  [sample_position "SPY261016C00450000" 5; sample_position "SPY261016C00455000" (-5)].
Definition sample_observations : list PositionGreekObservation :=
  [sample_observation "SPY261016C00450000" 5 60; sample_observation "SPY261016C00455000" (-5) 40].

Lemma sample_exposure_valid : valid_exposure sample_positions sample_observations (utc 2026 9 14 15 0 0).
Proof. constructor; try (repeat constructor); vm_compute; reflexivity. Qed.

Lemma sample_evidence : evidence sample_positions sample_observations (utc 2026 9 14 15 0 0).
Proof.
  assert (H : forall o, o ∈ sample_observations -> o = sample_observation "SPY261016C00450000" 5 60 \/
    o = sample_observation "SPY261016C00455000" (-5) 40) by (intros o Ho; set_unfold in Ho; tauto).
  constructor.
  - intros p Hp. set_unfold in Hp. by destruct Hp as [->|[->|[]]].
  - split; [apply (Sorted_StronglySorted _); repeat constructor; reflexivity|].
    apply (bool_decide_unpack _). vm_compute. exact I.
  - reflexivity.
  - intros o [->| ->]%H; [exists (sample_position "SPY261016C00450000" 5)
      |exists (sample_position "SPY261016C00455000" (-5))]; (split; [set_unfold; tauto|by split_and!]).
  - intros o o' [->| ->]%H [->| ->]%H; vm_compute; by split.
  - intros o [->| ->]%H; vm_compute; by repeat split.
Qed.

Lemma actual_exposure_exact_witness :
  exists d g t v, reconcile_actual_exposure Ok sample_positions sample_observations (utc 2026 9 14 15 0 0)
      = Ok (Some (mk_GreekExposure d g t v)) /\ (dval d == 100)%Q.
Proof.
  destruct (actual_exposure_exact Ok sample_positions sample_observations (utc 2026 9 14 15 0 0)
    sample_exposure_valid) as (_ & _ & H).
  - repeat constructor; apply amount_D; first [lia | vm_compute; discriminate].
  - vm_compute. discriminate.
  - destruct (H sample_evidence ltac:(discriminate)) as (d & g & t & v & E & Ed & _).
    exists d, g, t, v. split; [exact E|]. rewrite Ed. vm_compute. reflexivity.
Defined.
