(* ===== verification/Program.v ===== *)
(** * Programs that call other components

    A service that calls ports is a tree of calls: each call is answered by a value or
    an exception, and the rest of the program depends on the answer.  A trace lists the
    calls with their answers.  Properties of traces are stated by a monitor, a state
    machine that reads the calls and their answers and refuses the forbidden ones, and
    proved by the rules of [accepts], the weakest precondition of a program with respect
    to the monitor. *)

From Stdlib Require Import ZArith Lia List Bool.
From stdpp Require Import base option tactics list.
From S2P Require Import Prelude.

#[local] Open Scope nat_scope.

Section Program.
Context {call : Type} {answer : call -> Type}.

Inductive prog (A : Type) : Type :=
  | Return (a : A)
  | Throw (e : exn)
  | Call (c : call) (k : M (answer c) -> prog A).
Arguments Return {A} a.
Arguments Throw {A} e.
Arguments Call {A} c k.

Fixpoint bind {A B} (p : prog A) (f : A -> prog B) : prog B :=
  match p with
  | Return a => f a
  | Throw e => Throw e
  | Call c k => Call c (fun r => bind (k r) f)
  end.

(** [try: p except: h], where [h] raises again what it does not handle. *)
Fixpoint catch {A} (p : prog A) (h : exn -> prog A) : prog A :=
  match p with
  | Return a => Return a
  | Throw e => h e
  | Call c k => Call c (fun r => catch (k r) h)
  end.

Definition lift {A} (m : M A) : prog A :=
  match m with Ok a => Return a | Raise e => Throw e end.

(** The call itself: its answer, or the exception it raises. *)
Definition ask (c : call) : prog (answer c) := Call c lift.

(** ** Traces *)

Record event := Event { ev_call : call; ev_answer : M (answer ev_call) }.

(** The program makes the calls of the trace, gets these answers, and ends so. *)
Fixpoint runs {A} (p : prog A) (t : list event) (x : M A) : Prop :=
  match p with
  | Return a => t = [] /\ x = Ok a
  | Throw e => t = [] /\ x = Raise e
  | Call c k => exists r t', t = Event c r :: t' /\ runs (k r) t' x
  end.

(** Whatever is answered, the program ends: against every strategy it has a run. *)
Fixpoint play {A} (strategy : list event -> forall c, M (answer c)) (past : list event) (p : prog A)
    : list event * M A :=
  match p with
  | Return a => ([], Ok a)
  | Throw e => ([], Raise e)
  | Call c k =>
      let r := strategy past c in
      let '(t, x) := play strategy (past ++ [Event c r]) (k r) in (Event c r :: t, x)
  end.

Lemma play_runs {A} strategy past (p : prog A) :
  runs p (play strategy past p).1 (play strategy past p).2.
Proof.
  revert past. induction p as [a|e|c k IH]; intros past; cbn; [done|done|].
  specialize (IH (strategy past c) (past ++ [Event c (strategy past c)])).
  destruct (play strategy _ (k (strategy past c))) as [t x]. cbn in *.
  exists (strategy past c), t. split; [reflexivity|exact IH].
Qed.

(** The program makes at most [n] calls. *)
Fixpoint at_most {A} (n : nat) (p : prog A) {struct p} : Prop :=
  match p with
  | Call c k => match n with O => False | S n => forall r, at_most n (k r) end
  | _ => True
  end.

Lemma at_most_runs {A} n (p : prog A) t x : at_most n p -> runs p t x -> length t <= n.
Proof.
  revert n t. induction p as [a|e|c k IH]; intros n t H Hr; cbn in *.
  - destruct Hr as [-> _]. cbn. lia.
  - destruct Hr as [-> _]. cbn. lia.
  - destruct n; [done|]. destruct Hr as (r & t' & -> & Hr). cbn. specialize (IH r n t' (H r) Hr). lia.
Qed.

Lemma at_most_le {A} m n (p : prog A) : at_most m p -> m <= n -> at_most n p.
Proof.
  revert m n. induction p as [a|e|c k IH]; intros m n H Hle; cbn in *; [done|done|].
  destruct m; [done|]. destruct n; [lia|]. intros r. apply (IH r m n); [apply H|lia].
Qed.

Lemma at_most_bind {A B} m n (p : prog A) (f : A -> prog B) :
  at_most m p -> (forall a, at_most n (f a)) -> at_most (m + n) (bind p f).
Proof.
  intros H Hf. revert m H. induction p as [a|e|c k IH]; intros m H; cbn in *.
  - eapply at_most_le; [apply Hf|lia].
  - done.
  - destruct m; [done|]. intros r. by apply IH.
Qed.

Lemma at_most_catch {A} m n (p : prog A) h :
  at_most m p -> (forall e, at_most n (h e)) -> at_most (m + n) (catch p h).
Proof.
  intros H Hh. revert m H. induction p as [a|e|c k IH]; intros m H; cbn in *.
  - done.
  - eapply at_most_le; [apply Hh|lia].
  - destruct m; [done|]. intros r. by apply IH.
Qed.

Lemma at_most_lift {A} (m : M A) : at_most 0 (lift m).
Proof. by destruct m. Qed.

Lemma at_most_ask c : at_most 1 (ask c).
Proof. intros r. apply at_most_lift. Qed.

(** ** Monitors *)

Section Monitor.
Context {state : Type}.
(** The calls that a state allows, and the state after a call and its answer. *)
Context (allowed : state -> call -> Prop) (after : state -> forall c, M (answer c) -> state).
(** What is assumed of the answers. *)
Context (assumed : forall c, M (answer c) -> Prop).

Fixpoint monitored (s : state) (t : list event) : Prop :=
  match t with
  | [] => True
  | Event c r :: t => allowed s c /\ monitored (after s c r) t
  end.

Fixpoint state_after (s : state) (t : list event) : state :=
  match t with [] => s | Event c r :: t => state_after (after s c r) t end.

Definition assumed_trace (t : list event) : Prop :=
  Forall (fun e => assumed (ev_call e) (ev_answer e)) t.

Lemma play_assumed {A} strategy past (p : prog A) :
  (forall past c, assumed c (strategy past c)) -> assumed_trace (play strategy past p).1.
Proof.
  intros H. revert past. induction p as [a|e|c k IH]; intros past; cbn; [by constructor..|].
  specialize (IH (strategy past c) (past ++ [Event c (strategy past c)])).
  destruct (play strategy _ (k (strategy past c))) as [t x]. constructor; [apply H|exact IH].
Qed.

(** What a strategy makes the program return is returned by a run. *)
Lemma play_returns {A} strategy (p : prog A) (P : A -> Prop) :
  match (play strategy [] p).2 with Ok a => P a | Raise _ => False end ->
  (forall past c, assumed c (strategy past c)) ->
  exists t a, runs p t (Ok a) /\ assumed_trace t /\ P a.
Proof.
  intros H Hs. pose proof (play_runs strategy [] p) as Hr.
  pose proof (play_assumed strategy [] p Hs) as Ha.
  destruct (play strategy [] p) as [t [a|]]; [|done]. by exists t, a.
Qed.

(** From state [s] the program makes no forbidden call, and ends in [post]. *)
Fixpoint accepts {A} (p : prog A) (s : state) (post : M A -> state -> Prop) : Prop :=
  match p with
  | Return a => post (Ok a) s
  | Throw e => post (Raise e) s
  | Call c k => allowed s c /\ forall r, assumed c r -> accepts (k r) (after s c r) post
  end.

Lemma accepts_runs {A} (p : prog A) s post t x :
  accepts p s post -> runs p t x -> assumed_trace t ->
  monitored s t /\ post x (state_after s t).
Proof.
  revert s t. induction p as [a|e|c k IH]; intros s t H Hr Ht; cbn in *.
  - destruct Hr as [-> ->]. done.
  - destruct Hr as [-> ->]. done.
  - destruct Hr as (r & t' & -> & Hr). apply Forall_cons in Ht as [Hc Ht]. destruct H as [Ha H].
    cbn. destruct (IH r _ t' (H r Hc) Hr Ht). done.
Qed.

Lemma accepts_weaken {A} (p : prog A) s (P Q : M A -> state -> Prop) :
  accepts p s P -> (forall x s, P x s -> Q x s) -> accepts p s Q.
Proof.
  intros H HPQ. revert s H. induction p as [a|e|c k IH]; intros s H; cbn in *; [by apply HPQ..|].
  destruct H as [Ha H]. split; [done|]. intros r Hr. apply IH, H, Hr.
Qed.

Lemma accepts_bind {A B} (p : prog A) (f : A -> prog B) s post :
  accepts p s (fun x s => match x with
                          | Ok a => accepts (f a) s post
                          | Raise e => post (Raise e) s
                          end) ->
  accepts (bind p f) s post.
Proof.
  revert s. induction p as [a|e|c k IH]; intros s H; cbn in *; [done..|].
  destruct H as [Ha H]. split; [done|]. intros r Hr. apply IH, H, Hr.
Qed.

Lemma accepts_catch {A} (p : prog A) h s post :
  accepts p s (fun x s => match x with
                          | Ok a => post (Ok a) s
                          | Raise e => accepts (h e) s post
                          end) ->
  accepts (catch p h) s post.
Proof.
  revert s. induction p as [a|e|c k IH]; intros s H; cbn in *; [done..|].
  destruct H as [Ha H]. split; [done|]. intros r Hr. apply IH, H, Hr.
Qed.

Lemma accepts_ask c s (post : M (answer c) -> state -> Prop) :
  allowed s c -> (forall r, assumed c r -> post r (after s c r)) -> accepts (ask c) s post.
Proof. intros Ha H. split; [done|]. intros r Hr. specialize (H r Hr). by destruct r. Qed.

Lemma accepts_lift {A} (m : M A) s (post : M A -> state -> Prop) : post m s -> accepts (lift m) s post.
Proof. by destruct m. Qed.

Lemma monitored_app s t1 t2 :
  monitored s (t1 ++ t2) <-> monitored s t1 /\ monitored (state_after s t1) t2.
Proof. revert s. induction t1 as [|[c r] t1 IH]; intros s; cbn; [tauto|]. rewrite IH. tauto. Qed.

Lemma state_after_app s t1 t2 : state_after s (t1 ++ t2) = state_after (state_after s t1) t2.
Proof. revert s. induction t1 as [|[c r] t1 IH]; intros s; cbn; [done|]. apply IH. Qed.

(** An invariant of the monitored steps holds along the trace. *)
Lemma monitored_invariant (I : list event -> state -> Prop) past s t :
  I past s ->
  (forall past s c r, I past s -> allowed s c -> I (past ++ [Event c r]) (after s c r)) ->
  monitored s t -> I (past ++ t) (state_after s t).
Proof.
  intros Hi Hstep. revert past s Hi. induction t as [|[c r] t IH]; intros past s Hi H; cbn in *.
  - by rewrite app_nil_r.
  - destruct H as [Ha H]. specialize (IH (past ++ [Event c r]) _ (Hstep _ _ _ _ Hi Ha) H).
    by rewrite <- app_assoc in IH.
Qed.
End Monitor.
End Program.

Arguments prog {call} answer A.
Arguments event {call} answer.
Arguments Return {call answer A} a.
Arguments Throw {call answer A} e.
Arguments Call {call answer A} c k.
Arguments Event {call answer} _ _.

#[export] Instance prog_ret {call answer} : MRet (@prog call answer) := fun A a => Return a.
#[export] Instance prog_bind {call answer} : MBind (@prog call answer) := fun A B f p => bind p f.
