(* ===== verification/Permits.v ===== *)
(** * Broker mutation permits

    The records of [backend/app/execution/permits.py]. *)

From Stdlib Require Import ZArith String List.
From stdpp Require Import base strings option.
From S2P Require Import Prelude PyDecimal PyTime PyHash ExecModels ReconciliationData Reconciliation.

Inductive AttemptObservationSource := DISPATCH_OUTCOME | TARGETED_LOOKUP | TARGETED_LOOKUP_FAILURE.

#[export] Instance AttemptObservationSource_eq_dec : EqDecision AttemptObservationSource.
Proof. solve_decision. Defined.

Record AttemptObservation := mk_AttemptObservation {
  ob_observation_id : uuid;
  ob_permit_id : uuid;
  ob_intent_id : uuid;
  ob_attempt_ordinal : Z;
  ob_sequence : Z;
  ob_source : AttemptObservationSource;
  ob_observed_attempt : option OrderAttempt;
  ob_observed_at : datetime;
  ob_observation_hash : string;
}.

Record BrokerMutationPermit := mk_BrokerMutationPermit {
  bp_permit_id : uuid;
  bp_reconciliation_id : uuid;
  bp_intent_id : uuid;
  bp_intent_digest : string;
  bp_claim_token : uuid;
  bp_claim_generation : Z;
  bp_execution_epoch : Z;
  bp_mutation_kind : ReconciliationPurpose;
  bp_attempt_ordinal : Z;
  bp_generation : Z;
  bp_predecessor_permit_id : option uuid;
  bp_request_hash : string;
  bp_target_client_order_id : option string;
  bp_target_provider_order_id : option string;
  bp_issued_at : datetime;
  bp_expires_at : datetime;
  bp_state : string;
  bp_dispatch_nonce : option uuid;
  bp_dispatch_acquired_at : option datetime;
  bp_consumed_at : option datetime;
  bp_outcome_hash : option string;
  bp_limit_price : option decimal;
  bp_quote_hash : option string;
  bp_quote_source_timestamps : list datetime;
  bp_quote_retrieved_at : option datetime;
  bp_timing_authority_at : option datetime;
  bp_prior_request_hash : option string;
}.

Record BrokerMutationPreparation := mk_BrokerMutationPreparation {
  pr_reconciliation : WholeAccountReconciliation;
  pr_permit : option BrokerMutationPermit;
  pr_attempt : option OrderAttempt;
}.

Record BrokerMutationPlan := mk_BrokerMutationPlan {
  pl_expectation : ReconciliationExpectation;
  pl_attempt : OrderAttempt;
}.

Record BrokerMutationSchedule := mk_BrokerMutationSchedule {
  sc_purpose : ReconciliationPurpose;
  sc_timing_authority_at : datetime;
}.
