(* ===== verification/Replacement.v ===== *)
(** * Outcomes and replacements of an order

    The pure functions of [backend/app/services/execution.py]: the status a finished
    attempt is certified with, the next limit of a replacement from the quotes of its
    legs, and the checks of a roll and of the contracts of an envelope. *)

From Stdlib Require Import ZArith Lia String Ascii List Bool QArith Lqa.
From stdpp Require Import base strings gmap option tactics sorting list.
From S2P Require Import Prelude PyText PyDecimal PyDecimalFacts PyTime PyHash PyDict Contracts OptionSymbol OrderLimits OrderStatus ExecModels Identity Finalization.

#[local] Open Scope string_scope.
#[local] Open Scope Z_scope.

(** The quote of an option, [NormalizedOptionSnapshot] of
    [backend/app/alpaca/market_data.py], without the greeks, which are not used here. *)
Record OptionSnapshot := mk_OptionSnapshot {
  sn_symbol : string;
  sn_underlying : string;
  sn_provenance : string;
  sn_retrieved_at : datetime;
  sn_quote_timestamp : datetime;
  sn_bid_price : decimal;
  sn_ask_price : decimal;
  sn_bid_size : Z;
  sn_ask_size : Z;
  sn_multiplier : Z;
}.

(** ** The outcome of an attempt *)

Definition _terminal_status (attempt : OrderAttempt) : M string :=
  let state := oa_state attempt in
  let filled := oa_filled_quantity attempt in
  let partial := (0 <? filled) && (filled <? oa_quantity attempt) in
  if in_states state ["FILLED"; "CALCULATED"] && (filled =? oa_quantity attempt) then Ok "FILLED"
  else if in_states state ["CANCELED"; "EXPIRED"; "REPLACED"; "REJECTED"] && (filled =? 0) then Ok state
  else if String.eqb state "CANCELED" && partial then Ok "PARTIAL_CANCELED_RECONCILED"
  else if String.eqb state "EXPIRED" && partial then Ok "PARTIAL_EXPIRED_RECONCILED"
  else if String.eqb state "REPLACED" && partial then Ok "PARTIAL_REPLACED_RECONCILED"
  else blocked "EXECUTION_OUTCOME_NOT_SUPPORTED".

(** [try: _terminal_status(attempt) except ExecutionBlocked: return False] *)
Definition _execution_outcome_ready (attempt : OrderAttempt) : M bool :=
  except_blocked (_ ← _terminal_status attempt; Ok true) (fun _ => Ok false).

Definition _requires_finalization (attempt : OrderAttempt) : M bool :=
  in_states (oa_state attempt) TERMINAL_BROKER_ORDER_STATES ||| _execution_outcome_ready attempt.

Definition _certificate_candidate (claim : ExecutionIntent) (attempts : list OrderAttempt)
    (status : string) (now : datetime) : M ExecutionCertificate :=
  make_ExecutionCertificate
    {| xc_certificate_id := expected_certificate_id (ei_digest claim);
       xc_intent_id := ei_intent_id claim;
       xc_entry_approval_id := entry_approval_id (ei_envelope claim);
       xc_assessment_certificate_id := assessment_certificate_id (ei_envelope claim);
       xc_execution_status := status; xc_attempt_ids := map oa_client_order_id attempts;
       xc_actual_exposure := None; xc_reconciliation_checks := RECONCILIATION_CHECKS;
       xc_created_at := now; xc_reconciliation_id := None; xc_reconciliation_hash := None;
       xc_last_observation_hash := None |}.

(** ** Contracts *)

(** Root symbol, expiry as ["%y%m%d"], right and strike. *)
Record Contract := mk_Contract {
  co_root : string;
  co_expiry : string;
  co_right : ascii;
  co_strike : decimal;
}.

(** [except OptionContractSymbolError], with the code for a malformed symbol. *)
Definition standard_contract (symbol malformed : string) : M OptionContractSymbol :=
  try_with (parse_standard_option_contract_symbol (points symbol) None) (fun e =>
    match e with
    | OptionContractSymbolError code =>
        if String.eqb code "NON_STANDARD_CONTRACT_UNSUPPORTED" then blocked code
        else blocked malformed
    | e => Raise e
    end).

Definition _option_contract (symbol : string) : M Contract :=
  parsed ← standard_contract symbol "REPLACEMENT_QUOTE_STRUCTURE_MISMATCH";
  Ok (mk_Contract (root_symbol parsed) (date_yymmdd (expiration_date parsed)) (right parsed)
        (strike_price parsed)).

Definition _validate_standard_contract_envelope (envelope : OrderEnvelope) : M unit :=
  contracts ← map_m (fun leg => standard_contract (li_symbol leg) "ORDER_CONTRACT_SYMBOL_INVALID")
                (oe_legs envelope);
  when negb (set_len (map root_symbol contracts) =? 1)%nat
  then_ blocked "ORDER_CONTRACT_UNDERLYING_MISMATCH";;
  Ok tt.

(** [expiry_counts]: how often each expiry occurs, in the order of the first. *)
Definition expiry_counts (contracts : list Contract) : list (string * Z) :=
  fold_left (fun counts contract =>
    dset counts (co_expiry contract) (default 0 (dget counts (co_expiry contract)) + 1))
    contracts [].

Definition strikes_at (contracts : list Contract) (expiry : string) : list decimal :=
  map co_strike (List.filter (fun contract => String.eqb (co_expiry contract) expiry) contracts).

Definition contract_eq (a b : Contract) : bool :=
  String.eqb (co_expiry a) (co_expiry b) && Ascii.eqb (co_right a) (co_right b)
  && (co_strike a ==. co_strike b).

(** The legs are not one vertical, or two with two expiries. *)
Definition structure_mismatch (legs : list OrderLegIntent) (contracts : list Contract)
    (snapshots : list OptionSnapshot) : bool :=
  let counts := expiry_counts contracts in
  negb (set_len (map co_root contracts) =? 1)%nat
  || negb (bool_decide (merge_sort Z.le (map snd counts)
                        = if (length legs =? 2)%nat then [2] else [2; 2]))
  || negb (set_len (map co_right contracts) =? 1)%nat
  || negb (set_len_by contract_eq contracts =? length contracts)%nat
  || existsb (fun '(expiry, _) => negb (set_len_by deq (strikes_at contracts expiry) =? 2)%nat) counts
  || existsb (fun leg => negb (li_ratio leg =? 1)) legs
  || existsb (fun '(item, contract) => negb (String.eqb (sn_underlying item) (co_root contract)))
       (combine snapshots contracts).

(** ** Quotes *)

(** Older than the authority, and by at most thirty seconds. *)
Definition quote_untimely (item : OptionSnapshot) (timing_authority_at : datetime) : M bool :=
  dt_lt timing_authority_at (sn_quote_timestamp item)
  ||| dt_lt timing_authority_at (sn_retrieved_at item)
  ||| dt_lt (sn_retrieved_at item) (sn_quote_timestamp item)
  ||| (age ← dt_sub timing_authority_at (sn_quote_timestamp item); Ok (seconds 30 <? age))
  ||| (age ← dt_sub timing_authority_at (sn_retrieved_at item); Ok (seconds 30 <? age)).

Definition quote_invalid (item : OptionSnapshot) (timing_authority_at : datetime) : M bool :=
  quote_untimely item timing_authority_at
  ||| negb (is_finite (sn_bid_price item))
  ||| negb (is_finite (sn_ask_price item))
  ||| (sn_bid_price item <=. Dint 0)
  ||| (sn_ask_price item <=. Dint 0)
  ||| (sn_bid_price item >. sn_ask_price item)
  ||| (sn_bid_size item <=? 0)
  ||| (sn_ask_size item <=? 0).

Definition is_buy (intent : PositionIntent) : bool :=
  match intent with BUY_TO_OPEN | BUY_TO_CLOSE => true | _ => false end.

(** [sum(f(leg, item) for leg, item in zip(legs, snapshots))], from the integer 0. *)
Definition sum_legs (f : OrderLegIntent -> OptionSnapshot -> M decimal)
    (legs : list OrderLegIntent) (snapshots : list OptionSnapshot) : M decimal :=
  fold_m (fun total '(leg, item) => value ← f leg item; dadd total value) (Dint 0)
    (combine legs snapshots).

Definition midpoint (item : OptionSnapshot) : M decimal :=
  total ← dadd (sn_bid_price item) (sn_ask_price item); ddiv total (Dint 2).

Definition roll_quote_invalid (item : OptionSnapshot) (timing_authority_at : datetime) : M bool :=
  quote_untimely item timing_authority_at
  ||| (sn_bid_price item <=. Dint 0)
  ||| (sn_ask_price item <. sn_bid_price item)
  ||| (sn_bid_size item <=? 0)
  ||| (sn_ask_size item <=? 0).

Definition _validate_roll_quote_authority (claim : ExecutionIntent)
    (snapshots : list OptionSnapshot) (timing_authority_at : datetime) : M unit :=
  let envelope := ei_envelope claim in
  let legs := oe_legs envelope in
  match oe_maximum_relative_spread envelope, oe_maximum_incremental_debit envelope with
  | Some maximum_relative_spread, Some maximum_incremental_debit =>
      when negb (bool_decide (oe_action envelope = EX_ROLL))
           || negb (length snapshots =? 4)%nat
           || negb (bool_decide (map sn_symbol snapshots = map li_symbol legs))
      then_ blocked "ROLL_QUOTE_AUTHORITY_INVALID";;
      when any_m (fun item => roll_quote_invalid item timing_authority_at) snapshots
      then_ blocked "ROLL_QUOTE_AUTHORITY_INVALID";;
      gross_midpoint ← sum_legs (fun leg item =>
        mid ← midpoint item; dmul mid (Dint (li_ratio leg))) legs snapshots;
      quoted_width ← sum_legs (fun leg item =>
        width ← dsub (sn_ask_price item) (sn_bid_price item); dmul width (Dint (li_ratio leg)))
        legs snapshots;
      when (gross_midpoint <=. Dint 0)
           ||| any_m (fun item =>
                 width ← dsub (sn_ask_price item) (sn_bid_price item);
                 mid ← midpoint item;
                 spread ← ddiv width mid;
                 spread >. maximum_relative_spread) snapshots
      then_ blocked "ROLL_LIQUIDITY_DERIORATED";;
      when (spread ← ddiv quoted_width gross_midpoint; spread >. maximum_relative_spread)
      then_ blocked "ROLL_LIQUIDITY_DERIORATED";;
      provider_debit ← sum_legs (fun leg item =>
        price ← (if is_buy (li_intent leg) then Ok (sn_ask_price item) else dneg (sn_bid_price item));
        dmul price (Dint (li_ratio leg))) legs snapshots;
      debit ← dmul provider_debit (Dint (oe_quantity envelope));
      debit ← dmul debit (Dint 100);
      incremental_debit ← dmax (Dint 0) debit;
      when incremental_debit >. maximum_incremental_debit
      then_ blocked "ROLL_INCREMENTAL_DEBIT_DERIORATED";;
      Ok tt
  | _, _ => blocked "ROLL_QUOTE_AUTHORITY_INVALID"
  end.

(** ** The replacement *)

Definition max_of (first : decimal) (rest : list decimal) : M decimal := fold_m dmax first rest.
Definition min_of (first : decimal) (rest : list decimal) : M decimal := fold_m dmin first rest.

(** The widths of the strikes at each expiry, added. *)
Definition payoff_width_of (contracts : list Contract) : M decimal :=
  fold_m (fun total '(expiry, _) =>
    match strikes_at contracts expiry with
    | [] => Raise (ValueError "max() iterable argument is empty")
    | strike :: strikes =>
        high ← max_of strike strikes; low ← min_of strike strikes;
        width ← dsub high low; dadd total width
    end) (Dint 0) (expiry_counts contracts).

(** One leg of the loop over the net quotes. *)
Definition add_net (net : decimal * decimal) (leg_item : OrderLegIntent * OptionSnapshot)
    : M (decimal * decimal) :=
  let '(leg, item) := leg_item in
  let ratio := Dint (li_ratio leg) in
  if is_buy (li_intent leg) then
    low ← dmul (sn_bid_price item) ratio; net_low ← dadd net.1 low;
    high ← dmul (sn_ask_price item) ratio; net_high ← dadd net.2 high; Ok (net_low, net_high)
  else
    low ← dmul (sn_ask_price item) ratio; net_low ← dsub net.1 low;
    high ← dmul (sn_bid_price item) ratio; net_high ← dsub net.2 high; Ok (net_low, net_high).

Definition CENT : decimal := D 1 (-2).

(** [max(Decimal("0.01"), width * Decimal("0.10")).quantize(Decimal("0.01"), ROUND_HALF_UP)] *)
Definition increment_of (quoted_width : decimal) : M decimal :=
  tenth ← dmul quoted_width (D 10 (-2));
  step ← dmax CENT tenth;
  quantize ROUND_HALF_UP step (-2).

(** [min(maximum, (current + increment).quantize(Decimal("0.01"), ROUND_HALF_UP))] *)
Definition next_limit_of (maximum_limit current_limit increment : decimal) : M decimal :=
  raised ← dadd current_limit increment;
  raised ← quantize ROUND_HALF_UP raised (-2);
  dmin maximum_limit raised.

Definition quote_payload (snapshots : list OptionSnapshot) : json :=
  JArr (map (fun item => JObj
    [("symbol", JStr (sn_symbol item)); ("underlying", JStr (sn_underlying item));
     ("bid", JStr (decimal_str (sn_bid_price item)));
     ("ask", JStr (decimal_str (sn_ask_price item)));
     ("bid_size", JInt (sn_bid_size item)); ("ask_size", JInt (sn_ask_size item));
     ("multiplier", JInt (sn_multiplier item));
     ("quote_timestamp", JStr (dt_isoformat (sn_quote_timestamp item)));
     ("retrieved_at", JStr (dt_isoformat (sn_retrieved_at item)));
     ("provenance", JStr (sn_provenance item))]) snapshots).

Definition current_limit_of (current : OrderAttempt) (envelope : OrderEnvelope) : decimal :=
  default (oe_minimum_limit envelope) (oa_limit_price current).

(** [max] and [min] of times that are there. *)
Definition latest (times : list datetime) : M datetime :=
  match times with
  | [] => Raise (ValueError "max() iterable argument is empty")
  | first :: rest => fold_m dt_max first rest
  end.
Definition earliest (times : list datetime) : M datetime :=
  match times with
  | [] => Raise (ValueError "min() iterable argument is empty")
  | first :: rest => fold_m dt_min first rest
  end.

(** The limit of the replacement: the checks of the quotes and the increment. *)
Definition replacement_limit (claim : ExecutionIntent) (current : OrderAttempt)
    (snapshots : list OptionSnapshot) (timing_authority_at : datetime) : M decimal :=
  let envelope := ei_envelope claim in
  let legs := oe_legs envelope in
  when negb (length snapshots =? length legs)%nat
       || negb (bool_decide (map sn_symbol snapshots = map li_symbol legs))
  then_ blocked "REPLACEMENT_QUOTE_SYMBOL_MISMATCH";;
  contracts ← map_m (fun leg => _option_contract (li_symbol leg)) legs;
  when structure_mismatch legs contracts snapshots
  then_ blocked "REPLACEMENT_QUOTE_STRUCTURE_MISMATCH";;
  when any_m (fun item => quote_invalid item timing_authority_at) snapshots
  then_ blocked "REPLACEMENT_QUOTE_INVALID";;
  _ ← (if decide (oe_action envelope = EX_ROLL)
       then _validate_roll_quote_authority claim snapshots timing_authority_at else Ok tt);
  let timestamps := map sn_quote_timestamp snapshots in
  when (last ← latest timestamps; first ← earliest timestamps;
        spread ← dt_sub last first; Ok (seconds 30 <? spread))
  then_ blocked "REPLACEMENT_QUOTE_UNSYNCHRONIZED";;
  '(net_low, net_high) ← fold_m add_net (Dint 0, Dint 0) (combine legs snapshots);
  quoted_width ← dsub net_high net_low;
  payoff_width ← payoff_width_of contracts;
  when (quoted_width <=. Dint 0) ||| (payoff_width <=. Dint 0)
       ||| (low ← dabs net_low; payoff_width <=. low)
       ||| (high ← dabs net_high; payoff_width <=. high)
  then_ blocked "REPLACEMENT_QUOTED_WIDTH_INVALID";;
  increment ← increment_of quoted_width;
  let current_limit := current_limit_of current envelope in
  next_limit ← next_limit_of (oe_maximum_limit envelope) current_limit increment;
  when next_limit ==. Dint 0 then_ blocked "REPLACEMENT_LIMIT_ZERO";;
  when next_limit <=. current_limit then_ blocked "REPLACEMENT_LIMIT_CAPPED";;
  Ok next_limit.

Definition _replacement_attempt (claim : ExecutionIntent) (current : OrderAttempt)
    (snapshots : list OptionSnapshot) (timing_authority_at : datetime) : M OrderAttempt :=
  let envelope := ei_envelope claim in
  next_limit ← replacement_limit claim current snapshots timing_authority_at;
  let quote_hash := json_sha256 (quote_payload snapshots) in
  let timestamps := map sn_quote_timestamp snapshots in
  let ordinal := oa_ordinal current + 1 in
  identifier ← client_order_id (oe_trading_day envelope) (oe_action envelope) (ei_digest claim) ordinal;
  retrieved_at ← latest (map sn_retrieved_at snapshots);
  request_hash ← replacement_request_hash (ei_digest claim) ordinal identifier next_limit
    (oa_client_order_id current) (oa_request_hash current) quote_hash timestamps retrieved_at
    timing_authority_at;
  Ok {| oa_intent_id := ei_intent_id claim; oa_ordinal := ordinal;
        oa_client_order_id := identifier; oa_request_hash := request_hash;
        oa_state := "PREPARED"; oa_replaces_client_order_id := Some (oa_client_order_id current);
        oa_provider_order_id := None; oa_filled_quantity := 0;
        oa_quantity := oe_quantity envelope; oa_fill_cash_flow := None;
        oa_limit_price := Some next_limit; oa_quote_hash := Some quote_hash;
        oa_quote_source_timestamps := timestamps; oa_quote_retrieved_at := Some retrieved_at;
        oa_timing_authority_at := Some timing_authority_at;
        oa_prior_request_hash := Some (oa_request_hash current) |}.

(** ** Quantising to a grid *)

Lemma fix_exact s c e :
  0 < c -> ndigits c <= prec -> Etiny <= e <= Etop -> fix_ s c e = Ok (Fin s (Z.to_N c) e).
Proof.
  intros Hc Hn He. unfold fix_. rewrite (proj2 (Z.eqb_neq c 0)) by lia.
  rewrite (proj2 (Z.ltb_ge Etop (ndigits c + e - prec))) by lia.
  rewrite (proj2 (Z.ltb_ge e _)); [done|]. lia.
Qed.

(** The result of [quantize] is a whole number of quanta. *)
Lemma quantize_grid mode d t r :
  finite d -> Etiny <= t <= 0 -> quantize mode d t = Ok r ->
  finite r /\ exists n, (dval r == inject_Z n * p10 t)%Q.
Proof.
  intros (s & c & e & ->)%finite_inv Ht H. cbn [quantize] in H.
  destruct (N.eqb_spec c 0) as [->|Hc].
  { cbn in H. injection H as <-. split; [done|]. exists 0. destruct s; reflexivity. }
  destruct (prec <? _) eqn:E1; [done|]. cbn zeta in H. set (q := rescale mode (Z.of_N c) e t) in *.
  destruct (prec <? ndigits q) eqn:E2; [done|]. apply Z.ltb_ge in E2.
  assert (Hq : 0 <= q).
  { subst q. unfold rescale. destruct (Z.leb_spec t e).
    - apply Z.mul_nonneg_nonneg; [lia|apply Z.pow_nonneg; lia].
    - unfold round_div. cbv zeta. assert (0 <= Z.of_N c / 10 ^ (t - e)) by (apply Z.div_pos; [lia|apply Z.pow_pos_nonneg; lia]).
      repeat case_match; lia. }
  destruct (Z.eq_dec q 0) as [E0|Hne].
  - rewrite E0 in H. cbn in H. injection H as <-. split; [done|]. exists 0. destruct s; reflexivity.
  - rewrite fix_exact in H; [|lia|done|unfold Etop, Emax, prec; lia]. injection H as <-. split; [done|].
    exists (signed s (Z.to_N q)). destruct s; reflexivity.
Qed.

(** ** Outcomes *)

Lemma normalize_state_known state :
  state ∈ KNOWN_BROKER_ORDER_STATES -> normalize_broker_order_state state = Ok state.
Proof.
  intros H. cbn in H. set_unfold in H. repeat destruct H as [H|H]; try contradiction; subst; reflexivity.
Qed.

(** The status that an ended order claims: the whole quantity, the part of it and the state
    it was ended in, or that state. *)
Definition outcome_status (state : string) (filled quantity : Z) : string :=
  if decide (filled = quantity) then "FILLED"
  else if decide (filled = 0) then state else "PARTIAL_" ++ state ++ "_RECONCILED".

(** The statuses that say that an order ended without a fill. *)
Definition unfilled_statuses : list string :=
  ["REJECTED"; "CANCELED"; "EXPIRED"; "REPLACED"; "UNFILLED"].

(** What [_validate_requested_status] decides: exactly the statuses of [accepted] pass. *)
Definition validates (accepted : string -> Prop) (a : OrderAttempt) : Prop :=
  forall status,
    let result := _validate_requested_status status a (oa_filled_quantity a) (oa_quantity a) in
    (accepted status /\ result = Ok tt) \/
    (~ accepted status /\
     result = Raise (ExecutionBlocked "EXECUTION_STATUS_ATTEMPT_MISMATCH")).

(** It is enough to decide the flag of the validator. *)
Lemma validates_intro (accepted : string -> Prop) a :
  (forall status, requested_status_valid status (oa_state a) (oa_filled_quantity a) (oa_quantity a)
                    = true <-> accepted status) ->
  validates accepted a.
Proof.
  intros H status result. subst result. unfold _validate_requested_status. cbn.
  specialize (H status). destruct (requested_status_valid _ _ _ _) eqn:E.
  - left. split; [by apply H|done].
  - right. split; [|done]. intros Ha. apply H in Ha. congruence.
Qed.

(** An order that ended with a fill of [filled], in the terms of [status_truthful]. *)
Lemma requested_status_exact status state filled quantity :
  requested_status_valid status state filled quantity = true <->
  status_truthful status state filled quantity.
Proof.
  split; [apply requested_status_truthful|]. unfold requested_status_valid.
  intros [(-> & H & ->)|[(c & Hc & -> & -> & Hf)|[[-> ->]|(Hs & H & ->)]]].
  - apply andb_true_iff. split; [by apply in_states_spec|apply Z.eqb_refl].
  - assert (E : (0 <? filled) && (filled <? quantity) = true)
      by (apply andb_true_iff; split; apply Z.ltb_lt; lia).
    set_unfold in Hc. destruct Hc as [->|[->|[->|[]]]]; cbn; by rewrite E.
  - done.
  - apply in_states_spec in H. set_unfold in Hs. rewrite Z.eqb_refl, andb_true_r.
    repeat destruct Hs as [->|Hs]; try contradiction; exact H.
Qed.

(** How an order in a known state that agrees with its fill can be. *)
Definition outcome_cases (state : string) (filled quantity : Z) : Prop :=
  state ∈ ["FILLED"; "CALCULATED"] /\ filled = quantity \/
  state ∈ ["CANCELED"; "EXPIRED"; "REPLACED"] /\ 0 < filled < quantity \/
  state ∈ ["REJECTED"; "CANCELED"; "EXPIRED"; "REPLACED"] /\ filled = 0 \/
  state ∈ PENDING_BROKER_ORDER_STATES /\ 0 <= filled < quantity.

Lemma consistent_outcome state filled quantity :
  state ∈ KNOWN_BROKER_ORDER_STATES -> 0 < quantity ->
  broker_state_matches_fill state filled quantity = Ok true -> outcome_cases state filled quantity.
Proof.
  intros Hs Hq H. unfold broker_state_matches_fill in H. rewrite normalize_state_known in H by done.
  cbn in Hs. set_unfold in Hs. unfold outcome_cases. 
  repeat destruct Hs as [Hs|Hs]; try contradiction; subst state; cbn in *;
    destruct (Z.leb_spec 0 filled), (Z.leb_spec filled quantity); cbn in H; try discriminate;
    try injection H as H; try apply andb_true_iff in H as [? H]; zbool;
    destruct (Z.eq_dec filled quantity), (Z.eq_dec filled 0); try lia;
    set_unfold; solve [left; split; [tauto|lia] | right; left; split; [tauto|lia]
      | right; right; left; split; [tauto|lia] | right; right; right; split; [tauto|lia]].
Qed.

(** What the finalisation accepts in each of these cases. *)
Lemma accepted_filled state quantity status :
  state ∈ ["FILLED"; "CALCULATED"] -> 0 < quantity ->
  status_truthful status state quantity quantity <-> status = "FILLED".
Proof.
  intros H Hq. split; [|intros ->; by left].
  intros [(-> & _)|[(c & _ & _ & _ & Hf)|[[_ ->]|(_ & _ & E)]]]; [done|lia|set_solver|lia].
Qed.

Lemma accepted_partial state filled quantity status :
  state ∈ ["CANCELED"; "EXPIRED"; "REPLACED"] -> 0 < filled < quantity ->
  status_truthful status state filled quantity <-> status = "PARTIAL_" ++ state ++ "_RECONCILED".
Proof.
  intros H Hf. split; [|intros ->; right; left; by exists state].
  intros [(_ & _ & E)|[(c & _ & -> & -> & _)|[[_ ->]|(_ & _ & E)]]]; [lia|done|set_solver|lia].
Qed.

Lemma accepted_unfilled state quantity status :
  state ∈ ["REJECTED"; "CANCELED"; "EXPIRED"; "REPLACED"] -> 0 < quantity ->
  status_truthful status state 0 quantity <-> status ∈ unfilled_statuses.
Proof.
  intros H Hq. split; [|intros Hs; by right; right; right].
  intros [(_ & _ & E)|[(c & _ & _ & _ & Hf)|[[_ ->]|(Hs & _)]]]; [lia|lia|set_solver|done].
Qed.

Lemma accepted_pending state filled quantity status :
  state ∈ PENDING_BROKER_ORDER_STATES -> filled < quantity ->
  ~ status_truthful status state filled quantity.
Proof.
  intros H Hf. cbn in H.
  intros [(_ & _ & E)|[(c & Hc & -> & _)|[[_ ->]|(_ & Hs & _)]]]; [lia|set_solver..].
Qed.

(** C40: Every consistent outcome is certified with a status the finalisation accepts.  Take
    an attempt in a known state that agrees with its fill.  Either the service derives a
    status from it: FILLED for the whole quantity, the state it ended in for no fill, and
    the PARTIAL status of that state for a part of the quantity; the attempt requires
    finalisation, and the finalisation accepts the derived status for it and no other, or,
    when nothing was filled, any of the five statuses without a fill and no other.  Or the
    order is still pending and not filled completely; then no status is derived, no
    finalisation is required, and the finalisation refuses every status. *)
Theorem outcome_status_exact a :
  oa_state a ∈ KNOWN_BROKER_ORDER_STATES -> 0 < oa_quantity a ->
  broker_state_matches_fill (oa_state a) (oa_filled_quantity a) (oa_quantity a) = Ok true ->
  let derived := outcome_status (oa_state a) (oa_filled_quantity a) (oa_quantity a) in
  (_terminal_status a = Ok derived /\ _requires_finalization a = Ok true /\
   if decide (oa_filled_quantity a = 0)
   then derived ∈ unfilled_statuses /\ validates (fun status => status ∈ unfilled_statuses) a
   else validates (fun status => status = derived) a) \/
  (_terminal_status a = Raise (ExecutionBlocked "EXECUTION_OUTCOME_NOT_SUPPORTED") /\
   _requires_finalization a = Ok false /\ oa_state a ∈ PENDING_BROKER_ORDER_STATES /\
   0 <= oa_filled_quantity a < oa_quantity a /\ validates (fun _ => False) a).
Proof.
  intros Hs Hq H. apply consistent_outcome in H; [|done|done]. clear Hs. cbv zeta.
  unfold _requires_finalization, _execution_outcome_ready, _terminal_status, outcome_status.
  destruct a as [x1 x2 x3 x4 state x5 x6 filled quantity x7 x8 x9 x10 x11 x12 x13].   cbn in *.
  destruct H as [[H ->]|[[H Hf]|[[H ->]|[H Hf]]]].
  - left. rewrite decide_True by done. rewrite decide_False by lia. split_and!.
    3: { apply validates_intro. intros status. rewrite requested_status_exact. by apply accepted_filled. }
    all: set_unfold in H; repeat destruct H as [->|H]; try contradiction; cbn.
    all: by rewrite ?Z.eqb_refl.
  - left. rewrite !(decide_False (P := filled = _)) by lia. split_and!.
    3: { apply validates_intro. intros status. rewrite requested_status_exact. by apply accepted_partial. }
    all: set_unfold in H; repeat destruct H as [->|H]; try contradiction; cbn.
    all: rewrite ?(proj2 (Z.eqb_neq filled _)), ?(proj2 (Z.ltb_lt 0 filled)), ?(proj2 (Z.ltb_lt filled quantity)) by lia; done.
  - left. rewrite decide_False by lia. rewrite !decide_True by done. split_and!.
    4: { apply validates_intro. intros status. rewrite requested_status_exact. by apply accepted_unfilled. }
    all: set_unfold in H; repeat destruct H as [->|H]; try contradiction; cbn.
    all: set_unfold; tauto.
  - right. split_and!; try done; try lia.
    3: { apply validates_intro. intros status. rewrite requested_status_exact.
         split; [|done]. apply accepted_pending; [done|cbn; lia]. }
    all: set_unfold in H; repeat destruct H as [->|H]; try contradiction; cbn.
    all: rewrite ?(proj2 (Z.eqb_neq filled quantity)) by lia; done.
Qed.

(** ** Replacements *)

(** The quote is from before the authority, at most thirty seconds old, and tight. *)
Definition quote_usable (authority : datetime) (item : OptionSnapshot) : Prop :=
  dt_le (sn_quote_timestamp item) (sn_retrieved_at item) = Ok true /\
  dt_le (sn_retrieved_at item) authority = Ok true /\
  (forall age, dt_sub authority (sn_quote_timestamp item) = Ok age -> 0 <= age <= seconds 30) /\
  finite (sn_bid_price item) /\ finite (sn_ask_price item) /\
  (0 < dval (sn_bid_price item) <= dval (sn_ask_price item))%Q /\
  0 < sn_bid_size item /\ 0 < sn_ask_size item.

Lemma dt_not_lt a b : dt_lt a b = Ok false -> dt_le b a = Ok true.
Proof.
  unfold dt_lt, dt_le, same_awareness. destruct (dt_off a), (dt_off b); try done;
    intros [= H%Z.ltb_ge]; f_equal; by apply Z.leb_le.
Qed.

Lemma quote_valid_usable authority item :
  quote_invalid item authority = Ok false -> quote_usable authority item.
Proof.
  unfold quote_invalid, quote_untimely. rewrite !or_m_false, !lift_bool_ok, !negb_false_iff.
  intros [[[[[[[[[[[H1 H2] H3] H4] H5] F1] F2] B1] B2] B3] S1] S2].
  apply dle_ok_false in B1; [|done|done]. apply dle_ok_false in B2; [|done|done].
  apply dlt_ok_false in B3; [|done|done]. rewrite dval_Dint in B1, B2. zbool.
  split_and!; try done; try by apply dt_not_lt.
  intros age Ha. rewrite Ha in H4. cbn in H4. injection H4 as H4. apply Z.ltb_ge in H4.
  split; [exact (dt_sub_nonneg _ _ _ H1 Ha)|done].
Qed.

(** The limits [next_limit_of] gives. *)
Lemma next_limit_bounds maximum current increment next :
  finite maximum -> next_limit_of maximum current increment = Ok next ->
  finite next /\ (dval next <= dval maximum)%Q /\
  (next = maximum \/ exists n, (dval next == inject_Z n * (1 # 100))%Q).
Proof.
  intros Fm H. unfold next_limit_of in H. apply bind_ok in H as (raised & _ & H).
  apply bind_ok in H as (rounded & Hq & H).
  destruct raised as [s c e|s|]; [|done|cbn in Hq; injection Hq as <-; by destruct maximum].
  apply quantize_grid in Hq as (Fr & n & En); [|done|unfold Etiny, Emin, prec; lia].
  destruct (dmin_spec maximum rounded Fm Fr) as (r & Hr & Fr' & Hor & L1 & L2).
  rewrite H in Hr. injection Hr as <-. split_and!; [done|done|].
  destruct Hor as [->| ->]; [by left|right]. by exists n.
Qed.

Lemma client_order_id_ordinal day action digest ordinal id :
  client_order_id day action digest ordinal = Ok id -> 0 <= ordinal <= 3.
Proof.
  unfold client_order_id. intros H. apply guard_raise_ok in H as [H _].
  apply lift_bool_ok, orb_false_iff in H as [_ H]. apply negb_false_iff in H.
  unfold in_range4 in H. apply andb_true_iff in H as [? ?]. zbool. lia.
Qed.

(** A replacement improves the price, inside the approved limits, on fresh quotes.
    When [_replacement_attempt] returns an order, its limit is strictly above the limit of
    the order it replaces (or the minimum limit), at most the maximum limit, not zero, and
    the maximum or a whole number of cents; every leg was quoted under its own symbol, in
    the last thirty seconds before the timing authority, with a positive bid not above the
    ask; and the order has the approved quantity, the next ordinal (at most 3), the client
    order id of that ordinal, and names the order and the request it replaces. *)
Theorem replacement_attempt_bounded claim current snapshots authority a :
  let envelope := ei_envelope claim in
  finite (oe_maximum_limit envelope) -> finite (current_limit_of current envelope) ->
  _replacement_attempt claim current snapshots authority = Ok a ->
  exists limit, oa_limit_price a = Some limit /\
    (dval (current_limit_of current envelope) < dval limit <= dval (oe_maximum_limit envelope))%Q /\
    ~ (dval limit == 0)%Q /\
    (limit = oe_maximum_limit envelope \/ exists n, (dval limit == inject_Z n * (1 # 100))%Q) /\
    map sn_symbol snapshots = map li_symbol (oe_legs envelope) /\
    Forall (quote_usable authority) snapshots /\
    oa_intent_id a = ei_intent_id claim /\ oa_quantity a = oe_quantity envelope /\
    oa_ordinal a = oa_ordinal current + 1 /\ 0 <= oa_ordinal a <= 3 /\
    client_order_id (oe_trading_day envelope) (oe_action envelope) (ei_digest claim) (oa_ordinal a)
      = Ok (oa_client_order_id a) /\
    oa_replaces_client_order_id a = Some (oa_client_order_id current) /\
    oa_prior_request_hash a = Some (oa_request_hash current) /\
    oa_state a = "PREPARED" /\ oa_filled_quantity a = 0.
Proof.
  cbv zeta. intros Fm Fc H. unfold _replacement_attempt in H.
  apply bind_ok in H as (limit & Hl & H). apply bind_ok in H as (identifier & Hid & H).
  apply bind_ok in H as (retrieved & _ & H). apply bind_ok in H as (hash & _ & H).
  injection H as <-. cbn. exists limit. split; [done|].
  unfold replacement_limit in Hl.
  apply guard_blocked_ok in Hl as [Hsym Hl]. apply bind_ok in Hl as (contracts & _ & Hl).
  apply guard_blocked_ok in Hl as [_ Hl]. apply guard_blocked_ok in Hl as [Hq Hl].
  apply bind_ok in Hl as (u & _ & Hl). apply guard_blocked_ok in Hl as [_ Hl].
  apply bind_ok in Hl as ([net_low net_high] & _ & Hl).
  apply bind_ok in Hl as (width & _ & Hl). apply bind_ok in Hl as (payoff & _ & Hl).
  apply guard_blocked_ok in Hl as [_ Hl]. apply bind_ok in Hl as (increment & _ & Hl).
  apply bind_ok in Hl as (next & Hn & Hl). apply guard_blocked_ok in Hl as [Hz Hl].
  apply guard_blocked_ok in Hl as [Hc Hl]. injection Hl as <-.
  apply next_limit_bounds in Hn as (Fn & Lm & Hor); [|done].
  apply dle_ok_false in Hc; [|done|done]. apply lift_bool_ok in Hz, Hsym.
  apply orb_false_iff in Hsym as [_ Hsym]. apply negb_false_iff, bool_decide_eq_true in Hsym.
  apply any_m_false in Hq. pose proof (client_order_id_ordinal _ _ _ _ _ Hid).
  split_and!; try done; try lia.
  - intros E. apply not_true_iff_false in Hz. apply Hz, deq_spec; [done|done|]. by rewrite dval_Dint.
  - eapply Forall_impl; [exact Hq|]. intros item. apply quote_valid_usable.
Qed.

Definition sample_outcome : OrderAttempt :=
  {| oa_intent_id := 5%N; oa_ordinal := 0; oa_client_order_id := "ad-0"; oa_request_hash := "r";
     oa_state := "CANCELED"; oa_replaces_client_order_id := None; oa_provider_order_id := Some "p";
     oa_filled_quantity := 2; oa_quantity := 5; oa_fill_cash_flow := Some (Dint (-220));
     oa_limit_price := Some (Dint 1); oa_quote_hash := None; oa_quote_source_timestamps := [];
     oa_quote_retrieved_at := None; oa_timing_authority_at := None;
     oa_prior_request_hash := None |}.

(** A part of the order was filled when it was canceled: one status is accepted. *)
Lemma outcome_status_exact_witness :
  _terminal_status sample_outcome = Ok "PARTIAL_CANCELED_RECONCILED" /\
  validates (fun status => status = "PARTIAL_CANCELED_RECONCILED") sample_outcome.
Proof.
  destruct (outcome_status_exact sample_outcome) as [(H & _ & V)|(_ & _ & H & _)].
  - cbn. set_unfold. tauto.
  - reflexivity.
  - reflexivity.
  - exact (conj H V).
  - exfalso. cbn in H. set_unfold in H. repeat destruct H as [H|H]; (discriminate H || contradiction).
Defined.

Definition replacement_claim : ExecutionIntent :=
  {| ei_intent_id := 5%N; ei_account_role := SUBMISSION; ei_envelope := sample_envelope;
     ei_digest := hex_of_N 64 77; ei_state := CLAIMED; ei_claimed_by := Some SCHEDULER;
     ei_claimed_at := None; ei_first_fill_consumed := false; ei_claim_token := None;
     ei_claim_generation := 1; ei_execution_epoch := 0; ei_heartbeat_at := None;
     ei_lease_expires_at := None |}.

Definition sample_quote (symbol : string) (bid ask : Z) : OptionSnapshot :=
  mk_OptionSnapshot symbol "SPY" "INDICATIVE_MODIFIED" (utc 2026 9 14 15 0 10) (utc 2026 9 14 15 0 9)
    (D bid (-2)) (D ask (-2)) 10 12 100.

Definition sample_quotes : list OptionSnapshot :=
  [sample_quote "SPY261016C00450000" 300 310; sample_quote "SPY261016C00455000" 200 205].

Lemma sample_replacement :
  exists a, _replacement_attempt replacement_claim sample_outcome sample_quotes
    (utc 2026 9 14 15 0 12) = Ok a /\ oa_limit_price a = Some (D 102 (-2)).
Proof.
  assert (H : option_map oa_limit_price (match _replacement_attempt replacement_claim sample_outcome
      sample_quotes (utc 2026 9 14 15 0 12) with Ok a => Some a | Raise _ => None end)
    = Some (Some (D 102 (-2)))) by (vm_compute; reflexivity).
  destruct (_replacement_attempt _ _ _ _) as [a|e]; [|done]. exists a. by injection H.
Qed.

Lemma replacement_attempt_bounded_witness :
  exists a limit, oa_limit_price a = Some limit /\ (dval (Dint 1) < dval limit <= dval (D 120 (-2)))%Q.
Proof.
  destruct sample_replacement as (a & Ha & _).
  destruct (replacement_attempt_bounded replacement_claim sample_outcome sample_quotes
    (utc 2026 9 14 15 0 12) a eq_refl eq_refl Ha) as (limit & Hl & Hb & _).
  exists a, limit. exact (conj Hl Hb).
Defined.
