(* ===== verification/ExecutionService.v ===== *)
(** * The execution service

    [ExecutionService] of [backend/app/services/execution.py] as a program over its
    ports: the authority repository, the broker, the sweep of the account and the quotes.
    Each port method is a call whose answer, a value or an exception, is the
    environment's; what the service does between the calls is the code's. *)

From Stdlib Require Import ZArith Lia String Ascii List Bool.
From stdpp Require Import base strings option tactics list.
From S2P Require Import Prelude Program PyText PyDecimal PyTime PyHash Contracts OrderLimits OrderStatus ExecModels Identity Finalization ReconciliationData Reconciliation Permits Replacement.

#[local] Open Scope string_scope.
#[local] Open Scope Z_scope.

Record WholeAccountEvidence := mk_WholeAccountEvidence {
  we_sweep : SweepObservation;
  we_position_greeks : list PositionGreekObservation;
}.

Record ExecutionAdvance := mk_ExecutionAdvance {
  ad_intent_id : uuid;
  ad_status : string;
  ad_mutation : option ReconciliationPurpose;
  ad_attempt : option OrderAttempt;
  ad_certificate : option ExecutionCertificate;
}.

(** ** The ports *)

Inductive port :=
  (* ExecutionAuthorityRepository *)
  | ClaimIntentCall (intent_id : uuid) (actor : Actor) (now : datetime) (account_role : AccountRole)
      (account_fingerprint : string)
  | GetIntentCall (intent_id : uuid)
  | NextBrokerMutation (claim : ExecutionIntent)
  | TrustedExecutionTime (claim : ExecutionIntent)
  | PlanBrokerMutation (claim : ExecutionIntent) (purpose : ReconciliationPurpose)
      (replacement : option OrderAttempt)
  | PrepareBrokerMutation (reconciliation : WholeAccountReconciliation) (attempt : OrderAttempt)
      (claim : ExecutionIntent)
  | AcquireBrokerDispatch (permit_id : uuid) (claim : ExecutionIntent)
  | RecordAttemptObservation (permit_id : uuid) (observed : OrderAttempt)
      (source : AttemptObservationSource) (claim : ExecutionIntent) (dispatch_nonce : option uuid)
  | MarkBrokerDispatchAmbiguous (permit_id dispatch_nonce : uuid) (claim : ExecutionIntent)
  | RecordAttemptAbsence (permit_id : uuid) (source : AttemptObservationSource)
      (claim : ExecutionIntent)
  | FinalReconciliationExpectation (claim : ExecutionIntent)
  | AttemptsFor (intent_id : uuid)
  | ExecutionAttemptsFor (intent_id : uuid)
  | TargetedLookupAuthority (claim : ExecutionIntent)
  | RecordAttemptLookupFailure (permit_id : uuid) (claim : ExecutionIntent)
  | GetExecutionCertificate (certificate_id : uuid)
  | FinalizeExecutionAuthorized (certificate : ExecutionCertificate)
      (reconciliation : WholeAccountReconciliation) (requested_status : string)
      (claim : ExecutionIntent) (position_greeks : list PositionGreekObservation)
  (* BrokerExecutionPort *)
  | BrokerSubmit (request : OrderEnvelope) (client_id : string)
  | BrokerReplace (provider_order_id client_id : string) (limit : decimal)
  | BrokerCancel (provider_order_id : string)
  | BrokerLookup (client_id : string)
  (* WholeAccountSweepPort, ReplacementQuotePort *)
  | CollectSweep (expectation : ReconciliationExpectation)
  | CollectQuotes (symbols : list string).

Definition answer (c : port) : Type :=
  match c with
  | ClaimIntentCall _ _ _ _ _ | GetIntentCall _ => ExecutionIntent
  | NextBrokerMutation _ => option BrokerMutationSchedule
  | TrustedExecutionTime _ => datetime
  | PlanBrokerMutation _ _ _ => BrokerMutationPlan
  | PrepareBrokerMutation _ _ _ => BrokerMutationPreparation
  | AcquireBrokerDispatch _ _ | MarkBrokerDispatchAmbiguous _ _ _ => BrokerMutationPermit
  | RecordAttemptObservation _ _ _ _ _ | RecordAttemptAbsence _ _ _
  | RecordAttemptLookupFailure _ _ => AttemptObservation
  | FinalReconciliationExpectation _ => ReconciliationExpectation
  | AttemptsFor _ | ExecutionAttemptsFor _ => list OrderAttempt
  | TargetedLookupAuthority _ => option (uuid * OrderAttempt)
  | GetExecutionCertificate _ => ExecutionCertificate
  | FinalizeExecutionAuthorized _ _ _ _ _ => option ExecutionCertificate
  | BrokerSubmit _ _ | BrokerReplace _ _ _ | BrokerCancel _ => BrokerResult
  | BrokerLookup _ => option BrokerResult
  | CollectSweep _ => WholeAccountEvidence
  | CollectQuotes _ => list OptionSnapshot
  end.

Abbreviation service := (prog answer).

(** *** Control *)

Definition stop {A} (code : string) : service A := Throw (ExecutionBlocked code).
Definition stop_pending {A} (code : ExecutionPendingCode) : service A := lift (pending code).

(** [if condition: raise ExecutionBlocked(code)] *)
Definition refuse_if (condition : bool) (code : string) : service unit :=
  if condition then stop code else Return tt.

(** [except ExecutionBlocked as error], where [handler] gets [str(error)] and what
    raises the exception again. *)
Definition except_execution_blocked {A} (p : service A) (handler : string -> service A -> service A)
    : service A :=
  catch p (fun e =>
    match e with
    | ExecutionBlocked code | ExecutionPending code => handler code (Throw e)
    | e => Throw e
    end).

(** [except AmbiguousBrokerResponse] *)
Definition except_ambiguous {A} (p handler : service A) : service A :=
  catch p (fun e => match e with AmbiguousBrokerResponse => handler | e => Throw e end).

Definition call_claim_intent a b c d e : service ExecutionIntent := ask (ClaimIntentCall a b c d e).
Definition call_get_intent a : service ExecutionIntent := ask (GetIntentCall a).
Definition next_broker_mutation a : service (option BrokerMutationSchedule) := ask (NextBrokerMutation a).
Definition trusted_execution_time a : service datetime := ask (TrustedExecutionTime a).
Definition plan_broker_mutation a b c : service BrokerMutationPlan := ask (PlanBrokerMutation a b c).
Definition prepare_broker_mutation a b c : service BrokerMutationPreparation :=
  ask (PrepareBrokerMutation a b c).
Definition acquire_broker_dispatch a b : service BrokerMutationPermit := ask (AcquireBrokerDispatch a b).
Definition record_attempt_observation a b c d e : service AttemptObservation :=
  ask (RecordAttemptObservation a b c d e).
Definition mark_broker_dispatch_ambiguous a b c : service BrokerMutationPermit :=
  ask (MarkBrokerDispatchAmbiguous a b c).
Definition record_attempt_absence a b c : service AttemptObservation := ask (RecordAttemptAbsence a b c).
Definition final_reconciliation_expectation a : service ReconciliationExpectation :=
  ask (FinalReconciliationExpectation a).
Definition call_attempts_for a : service (list OrderAttempt) := ask (AttemptsFor a).
Definition call_execution_attempts_for a : service (list OrderAttempt) := ask (ExecutionAttemptsFor a).
Definition targeted_lookup_authority a : service (option (uuid * OrderAttempt)) :=
  ask (TargetedLookupAuthority a).
Definition record_attempt_lookup_failure a b : service AttemptObservation :=
  ask (RecordAttemptLookupFailure a b).
Definition call_get_execution_certificate a : service ExecutionCertificate :=
  ask (GetExecutionCertificate a).
Definition finalize_execution_authorized a b c d e : service (option ExecutionCertificate) :=
  ask (FinalizeExecutionAuthorized a b c d e).
Definition broker_submit a b : service BrokerResult := ask (BrokerSubmit a b).
Definition broker_replace a b c : service BrokerResult := ask (BrokerReplace a b c).
Definition broker_cancel a : service BrokerResult := ask (BrokerCancel a).
Definition broker_lookup a : service (option BrokerResult) := ask (BrokerLookup a).
Definition collect_sweep a : service WholeAccountEvidence := ask (CollectSweep a).
Definition collect_quotes a : service (list OptionSnapshot) := ask (CollectQuotes a).

(** [attempts[-1]] and [attempts[-2]] *)
Definition last_attempt (attempts : list OrderAttempt) : service OrderAttempt :=
  match last attempts with Some a => Return a | None => Throw IndexError end.
Definition second_last_attempt (attempts : list OrderAttempt) : service OrderAttempt :=
  last_attempt (removelast attempts).

(** [replace(attempt, state=result.state, ...)] *)
Definition with_result (attempt : OrderAttempt) (result : BrokerResult) : OrderAttempt :=
  {| oa_intent_id := oa_intent_id attempt; oa_ordinal := oa_ordinal attempt;
     oa_client_order_id := oa_client_order_id attempt; oa_request_hash := oa_request_hash attempt;
     oa_state := br_state result;
     oa_replaces_client_order_id := oa_replaces_client_order_id attempt;
     oa_provider_order_id := Some (br_provider_order_id result);
     oa_filled_quantity := br_filled_quantity result; oa_quantity := br_quantity result;
     oa_fill_cash_flow := br_fill_cash_flow result; oa_limit_price := oa_limit_price attempt;
     oa_quote_hash := oa_quote_hash attempt;
     oa_quote_source_timestamps := oa_quote_source_timestamps attempt;
     oa_quote_retrieved_at := oa_quote_retrieved_at attempt;
     oa_timing_authority_at := oa_timing_authority_at attempt;
     oa_prior_request_hash := oa_prior_request_hash attempt |}.

(** ** Helpers of the class *)

Definition evaluate_broker_mutation_preflight (plan : BrokerMutationPlan) (sweep : SweepObservation)
    (accepted_at : datetime) : M WholeAccountReconciliation :=
  evaluate sweep (pl_expectation plan) accepted_at.

Definition _prepare (plan : BrokerMutationPlan) (claim : ExecutionIntent) (now : datetime)
    : service BrokerMutationPreparation :=
  evidence ← collect_sweep (pl_expectation plan);
  let sweep := we_sweep evidence in
  accepted_at ← lift (dt_max now (sw_retrieval_completed_at sweep));
  reconciliation ← lift (evaluate_broker_mutation_preflight plan sweep accepted_at);
  prepare_broker_mutation reconciliation (pl_attempt plan) claim.

Definition _lookup_or_defer (claim : ExecutionIntent) (permit_id : uuid) (client_order_id : string)
    : service BrokerResult :=
  result ← except_ambiguous (broker_lookup client_order_id)
    (_ ← record_attempt_lookup_failure permit_id claim; stop_pending LOOKUP_DEFERRED);
  match result with
  | None =>
      _ ← record_attempt_absence permit_id TARGETED_LOOKUP claim; stop_pending LOOKUP_ABSENT
  | Some result => Return result
  end.

Definition _require_claim_actor (claim : ExecutionIntent) (actor : Actor) : service unit :=
  refuse_if (negb (bool_decide (ei_claimed_by claim = Some actor))) "INTENT_CLAIM_ACTOR_MISMATCH".

Definition EPOCH : datetime := utc 1970 1 1 0 0 0.

Definition _claim (intent_id : uuid) (actor : Actor) (account_role : AccountRole)
    (account_fingerprint : string) : service ExecutionIntent :=
  except_execution_blocked (call_claim_intent intent_id actor EPOCH account_role account_fingerprint)
    (fun code again =>
       if negb (in_states code ["INTENT_ALREADY_CLAIMED"; "ACCOUNT_EXECUTION_LOCKED"]) then again
       else
         existing ← call_get_intent intent_id;
         if bool_decide (ei_state existing = APPROVED) then again else Return existing).

(** The loop of [_finalize_active], from the given attempt on. *)
Fixpoint finalize_loop (remaining : nat) (visibility_attempt : Z) (claim : ExecutionIntent)
    (certificate : ExecutionCertificate) (final_expectation : ReconciliationExpectation)
    (status : string) (now : datetime) : service ExecutionCertificate :=
  match remaining with
  | O => stop "ATTEMPT_ACTIVITY_EVIDENCE_PENDING"
  | S remaining =>
      final_evidence ← collect_sweep final_expectation;
      let final_sweep := we_sweep final_evidence in
      accepted_at ← lift (dt_max now (sw_retrieval_completed_at final_sweep));
      final_reconciliation ← lift (evaluate final_sweep final_expectation accepted_at);
      finalized ← except_execution_blocked
        (finalized ← finalize_execution_authorized certificate final_reconciliation status claim
           (we_position_greeks final_evidence);
         Return (Some finalized))
        (fun code again =>
           if String.eqb code "ATTEMPT_ACTIVITY_EVIDENCE_PENDING" && (visibility_attempt =? 0)
           then Return None else again);
      match finalized with
      | None =>
          finalize_loop remaining (visibility_attempt + 1) claim certificate final_expectation status now
      | Some None => stop "FINAL_RECONCILIATION_BLOCKED"
      | Some (Some finalized) => Return finalized
      end
  end.

Definition _finalize_active (claim : ExecutionIntent) (observed : OrderAttempt) (now : datetime)
    : service ExecutionCertificate :=
  status ← lift (_terminal_status observed);
  final_expectation ← final_reconciliation_expectation claim;
  attempts ← call_execution_attempts_for (ei_intent_id claim);
  certificate ← lift (_certificate_candidate claim attempts status now);
  finalize_loop 2 0 claim certificate final_expectation status now.

Definition finalized_advance (claim : ExecutionIntent) (attempt : OrderAttempt)
    (certificate : ExecutionCertificate) : ExecutionAdvance :=
  mk_ExecutionAdvance (ei_intent_id claim) "FINALIZED" None (Some attempt) (Some certificate).
Definition waiting (claim : ExecutionIntent) (attempt : option OrderAttempt) : ExecutionAdvance :=
  mk_ExecutionAdvance (ei_intent_id claim) "WAITING" None attempt None.

(** ** Dispatching to the broker *)

(** A broker call under an acquired permit: its outcome, or after an ambiguous response
    the mark and the lookup, with the source and the nonce of the observation. *)
Definition dispatch_or_lookup (broker_call : service BrokerResult) (claim : ExecutionIntent)
    (permit_id dispatch_nonce : uuid) (client_order_id : string)
    : service (BrokerResult * AttemptObservationSource * option uuid) :=
  except_ambiguous
    (result ← broker_call; Return (result, DISPATCH_OUTCOME, Some dispatch_nonce))
    (_ ← mark_broker_dispatch_ambiguous permit_id dispatch_nonce claim;
     result ← _lookup_or_defer claim permit_id client_order_id;
     Return (result, TARGETED_LOOKUP, None)).

(** The permit and the attempt of a preparation that was not blocked. *)
Definition require_prepared (prepared : BrokerMutationPreparation) (code : string)
    : service (BrokerMutationPermit * OrderAttempt) :=
  match pr_permit prepared, pr_attempt prepared with
  | Some permit, Some attempt => Return (permit, attempt)
  | _, _ => stop code
  end.

Definition require_nonce (dispatch : BrokerMutationPermit) : service uuid :=
  match bp_dispatch_nonce dispatch with
  | Some nonce => Return nonce
  | None => stop "BROKER_DISPATCH_NONCE_MISSING"
  end.

Definition require_target (dispatch : BrokerMutationPermit) (code : string) : service string :=
  match bp_target_provider_order_id dispatch with
  | Some target => Return target
  | None => stop code
  end.

Section Service.
Context (quotes : bool) (self_account_role : AccountRole) (self_account_fingerprint : string).

Definition _submit_active (claim : ExecutionIntent) (now : datetime) : service OrderAttempt :=
  let envelope := ei_envelope claim in
  _ ← (if decide (oe_action envelope = EX_ROLL) then
         _ ← refuse_if (negb quotes) "ROLL_EXECUTION_QUOTES_REQUIRED";
         snapshots ← collect_quotes (map li_symbol (oe_legs envelope));
         trusted ← trusted_execution_time claim;
         lift (_validate_roll_quote_authority claim snapshots trusted)
       else Return tt);
  plan ← plan_broker_mutation claim SUBMIT None;
  prepared ← _prepare plan claim now;
  '(permit, _) ← require_prepared prepared "BROKER_PREFLIGHT_BLOCKED";
  dispatch ← acquire_broker_dispatch (bp_permit_id permit) claim;
  nonce ← require_nonce dispatch;
  '(result, source, dispatch_nonce) ←
    dispatch_or_lookup (broker_submit envelope (oa_client_order_id (pl_attempt plan))) claim
      (bp_permit_id permit) nonce (oa_client_order_id (pl_attempt plan));
  let observed := with_result (pl_attempt plan) result in
  _ ← record_attempt_observation (bp_permit_id permit) observed source claim dispatch_nonce;
  Return observed.

Definition _replace_active (claim : ExecutionIntent) (now : datetime) (plan : BrokerMutationPlan)
    : service OrderAttempt :=
  prepared ← _prepare plan claim now;
  '(permit, attempt) ← require_prepared prepared "REPLACE_PREFLIGHT_BLOCKED";
  dispatch ← acquire_broker_dispatch (bp_permit_id permit) claim;
  nonce ← require_nonce dispatch;
  target ← require_target dispatch "REPLACE_TARGET_PROVIDER_ORDER_ID_MISSING";
  '(result, source, dispatch_nonce) ←
    dispatch_or_lookup
      (broker_replace target (oa_client_order_id (pl_attempt plan))
         (default (oe_minimum_limit (ei_envelope claim)) (oa_limit_price attempt))) claim
      (bp_permit_id permit) nonce (oa_client_order_id (pl_attempt plan));
  let observed := with_result attempt result in
  _ ← record_attempt_observation (bp_permit_id permit) observed source claim dispatch_nonce;
  Return observed.

(** The lookups after a cancellation that is still pending. *)
Fixpoint cancel_lookups (remaining : nat) (claim : ExecutionIntent) (permit_id : uuid)
    (planned observed : OrderAttempt) : service OrderAttempt :=
  match remaining with
  | O => Return observed
  | S remaining =>
      if negb (String.eqb (oa_state observed) "PENDING_CANCEL") then Return observed
      else
        result ← _lookup_or_defer claim permit_id (oa_client_order_id planned);
        let observed := with_result planned result in
        _ ← record_attempt_observation permit_id observed TARGETED_LOOKUP claim None;
        cancel_lookups remaining claim permit_id planned observed
  end.

Definition cancel_outcome (observed : OrderAttempt) : service (OrderAttempt * string) :=
  let filled := oa_filled_quantity observed in
  if String.eqb (oa_state observed) "PENDING_CANCEL" then stop_pending CANCEL_PENDING
  else if String.eqb (oa_state observed) "FILLED" then Return (observed, "FILLED")
  else if negb (String.eqb (oa_state observed) "CANCELED") then stop_pending CANCEL_NOT_TERMINAL
  else if filled =? 0 then Return (observed, "CANCELED")
  else if filled <? oa_quantity observed then Return (observed, "PARTIAL_CANCELED_RECONCILED")
  else stop_pending CANCEL_NOT_TERMINAL.

Definition _cancel_active (claim : ExecutionIntent) (now : datetime)
    : service (OrderAttempt * string) :=
  plan ← plan_broker_mutation claim CANCEL None;
  prepared ← _prepare plan claim now;
  '(permit, _) ← require_prepared prepared "CANCEL_PREFLIGHT_BLOCKED";
  dispatch ← acquire_broker_dispatch (bp_permit_id permit) claim;
  nonce ← require_nonce dispatch;
  target ← require_target dispatch "CANCEL_TARGET_PROVIDER_ORDER_ID_MISSING";
  result ← except_ambiguous (broker_cancel target)
    (_ ← mark_broker_dispatch_ambiguous (bp_permit_id permit) nonce claim;
     stop_pending CANCEL_LOOKUP_DEFERRED);
  let observed := with_result (pl_attempt plan) result in
  _ ← record_attempt_observation (bp_permit_id permit) observed DISPATCH_OUTCOME claim (Some nonce);
  observed ← cancel_lookups 2 claim (bp_permit_id permit) (pl_attempt plan) observed;
  cancel_outcome observed.

Definition _cancel_advance (claim : ExecutionIntent) (timing_authority_at : datetime)
    : service ExecutionAdvance :=
  '(observed, status) ← _cancel_active claim timing_authority_at;
  Return (mk_ExecutionAdvance (ei_intent_id claim) status (Some CANCEL) (Some observed) None).

Definition _changed_replacement_schedule (claim : ExecutionIntent) (schedule : BrokerMutationSchedule)
    : service (option ExecutionAdvance) :=
  if decide (sc_purpose schedule = CANCEL) then
    advance ← _cancel_advance claim (sc_timing_authority_at schedule); Return (Some advance)
  else if decide (sc_purpose schedule = REPLACE) then Return None
  else stop "EXECUTION_ADVANCE_PURPOSE_CHANGED".

(** Asking again for the schedule: the advance when it has changed. *)
Definition reschedule (claim : ExecutionIntent)
    (unchanged : BrokerMutationSchedule -> service ExecutionAdvance) : service ExecutionAdvance :=
  schedule ← next_broker_mutation claim;
  match schedule with
  | None => Return (waiting claim None)
  | Some schedule =>
      changed ← _changed_replacement_schedule claim schedule;
      match changed with
      | Some changed => Return changed
      | None => unchanged schedule
      end
  end.

Definition _replace_due (claim : ExecutionIntent) : service ExecutionAdvance :=
  let envelope := ei_envelope claim in
  _ ← refuse_if (negb quotes) "REPLACEMENT_QUOTES_REQUIRED";
  attempts ← call_attempts_for (ei_intent_id claim);
  current ← last_attempt attempts;
  replacement_target ← (if String.eqb (oa_state current) "PREPARED"
                        then second_last_attempt attempts else Return current);
  let current_limit := default (oe_minimum_limit envelope) (oa_limit_price replacement_target) in
  raised ← lift (dadd current_limit CENT);
  capped ← lift (raised >. oe_maximum_limit envelope);
  if capped : bool then
    reschedule claim (fun _ =>
      Return (mk_ExecutionAdvance (ei_intent_id claim) "REPLACEMENT_LIMIT_CAPPED" None
                (Some current) None))
  else
    snapshots ← collect_quotes (map li_symbol (oe_legs envelope));
    reschedule claim (fun schedule =>
      replacement ← lift (_replacement_attempt claim replacement_target snapshots
                            (sc_timing_authority_at schedule));
      plan ← plan_broker_mutation claim REPLACE (Some replacement);
      replaced ← except_execution_blocked
        (observed ← _replace_active claim (sc_timing_authority_at schedule) plan;
         Return (mk_ExecutionAdvance (ei_intent_id claim) "REPLACED" (Some REPLACE)
                   (Some observed) None))
        (fun code again =>
           if String.eqb code "REPLACEMENT_CANCEL_DUE" then
             trusted ← trusted_execution_time claim; _cancel_advance claim trusted
           else again);
      Return replaced).

(** An observation that leaves the order waiting. *)
Definition still_pending (observed : OrderAttempt) : bool :=
  in_states (oa_state observed) PENDING_BROKER_ORDER_STATES
  && negb (String.eqb (oa_state observed) "CALCULATED"
           && (oa_filled_quantity observed =? oa_quantity observed)).

(** Finalising an attempt at the trusted time. *)
Definition finalize_now (claim : ExecutionIntent) (attempt : OrderAttempt) : service ExecutionAdvance :=
  trusted ← trusted_execution_time claim;
  certificate ← _finalize_active claim attempt trusted;
  Return (finalized_advance claim attempt certificate).

Definition _lookup_transitional (claim : ExecutionIntent) : service (option ExecutionAdvance) :=
  authority ← targeted_lookup_authority claim;
  match authority with
  | None => Return None
  | Some (permit_id, current) =>
      result ← _lookup_or_defer claim permit_id (oa_client_order_id current);
      let observed := with_result current result in
      _ ← record_attempt_observation permit_id observed TARGETED_LOOKUP claim None;
      if still_pending observed then Return (Some (waiting claim (Some observed)))
      else advance ← finalize_now claim observed; Return (Some advance)
  end.

Definition _PENDING_STATES : states := (PENDING_BROKER_ORDER_STATES ++ ["PREPARED"])%list.

Definition _waiting_or_finalized_advance (claim : ExecutionIntent) : service ExecutionAdvance :=
  attempts ← call_execution_attempts_for (ei_intent_id claim);
  match last attempts with
  | None => Return (waiting claim None)
  | Some final =>
      required ← lift (negb (String.eqb (oa_state final) "PREPARED") &&& _requires_finalization final);
      if required : bool then finalize_now claim final
      else
        lookup ← _lookup_transitional claim;
        match lookup with
        | Some lookup => Return lookup
        | None =>
            if String.eqb (oa_state final) "PREPARED" then Return (waiting claim None)
            else if in_states (oa_state final) _PENDING_STATES then Return (waiting claim None)
            else finalize_now claim final
        end
  end.

Definition _completed_advance (claim : ExecutionIntent) (actor : Actor) : service ExecutionAdvance :=
  _ ← _require_claim_actor claim actor;
  certificate ← call_get_execution_certificate (expected_certificate_id (ei_digest claim));
  attempts ← call_execution_attempts_for (ei_intent_id claim);
  final ← last_attempt attempts;
  Return (finalized_advance claim final certificate).

(** What [advance] does with the schedule. *)
Definition follow_schedule (intent_id : uuid) (claim : ExecutionIntent)
    (schedule : BrokerMutationSchedule) : service ExecutionAdvance :=
  match sc_purpose schedule with
  | SUBMIT =>
      observed ← _submit_active claim (sc_timing_authority_at schedule);
      Return (mk_ExecutionAdvance intent_id "SUBMITTED" (Some SUBMIT) (Some observed) None)
  | REPLACE => _replace_due claim
  | CANCEL => _cancel_advance claim (sc_timing_authority_at schedule)
  | BASELINE_INITIALIZATION => stop "EXECUTION_ADVANCE_PURPOSE_INVALID"
  end.

(** The lookup before the schedule: its advance, when the order may not be changed. *)
Definition transitional_advance (claim : ExecutionIntent) : service (option ExecutionAdvance) :=
  attempts ← call_execution_attempts_for (ei_intent_id claim);
  if bool_decide (attempts = []) then Return None
  else
    lookup ← _lookup_transitional claim;
    match lookup with
    | Some found =>
        if match ad_attempt found with
           | Some attempt => negb (in_states (oa_state attempt) MUTATION_ELIGIBLE_BROKER_ORDER_STATES)
           | None => true
           end
        then Return (Some found) else Return None
    | None => Return None
    end.

Definition advance (intent_id : uuid) (actor : Actor) (account_role : AccountRole)
    (account_fingerprint : string) : service ExecutionAdvance :=
  _ ← refuse_if (negb (bool_decide (account_role = self_account_role))
                 || negb (String.eqb account_fingerprint self_account_fingerprint))
        "OBSERVED_ACCOUNT_AUTHORITY_MISMATCH";
  claim ← _claim intent_id actor account_role account_fingerprint;
  if bool_decide (ei_state claim = TERMINAL) then _completed_advance claim actor
  else
    _ ← _require_claim_actor claim actor;
    _ ← lift (_validate_standard_contract_envelope (ei_envelope claim));
    found ← transitional_advance claim;
    match found with
    | Some found => Return found
    | None =>
        schedule ← except_execution_blocked
          (schedule ← next_broker_mutation claim; Return (Some schedule))
          (fun code again =>
             if String.eqb code "ACCOUNT_EXECUTION_LOCKED" then Return None else again);
        match schedule with
        | None | Some None => _waiting_or_finalized_advance claim
        | Some (Some schedule) => follow_schedule intent_id claim schedule
        end
    end.

(** The repository may lack the methods that [execute] asks for. *)
Definition execute (has_plan_broker_mutation has_get_intent : bool) (intent_id : uuid)
    (actor : Actor) (now : datetime) (account_role : option AccountRole)
    (account_fingerprint : option string) : service ExecutionCertificate :=
  _ ← refuse_if (negb has_plan_broker_mutation) "BROKER_WRITE_AUTHORITY_NOT_INTEGRATED";
  if negb has_get_intent then
    _ ← call_claim_intent intent_id actor now self_account_role self_account_fingerprint;
    stop "EXECUTION_ADVANCE_NOT_INTEGRATED"
  else
    let fingerprint :=
      match account_fingerprint with
      | Some f => if str_nonempty f then f else self_account_fingerprint
      | None => self_account_fingerprint
      end in
    outcome ← advance intent_id actor (default self_account_role account_role) fingerprint;
    match ad_certificate outcome, ad_attempt outcome with
    | Some certificate, _ => Return certificate
    | None, Some attempt =>
        required ← lift (_requires_finalization attempt);
        if required : bool then
          claim ← call_get_intent intent_id;
          trusted ← trusted_execution_time claim;
          _finalize_active claim attempt trusted
        else stop_pending ADVANCE
    | None, None => stop_pending ADVANCE
    end.
End Service.
