(* ===== verification/ReconciliationRaises.v ===== *)
(** * What the evaluation of a sweep can raise, and keeps

    [WholeAccountReconciliation.evaluate] raises value, type, arithmetic and overflow
    errors, and no [ExecutionBlocked]: what a handler of [ExecutionBlocked] around it
    catches comes from the other calls. *)

From Stdlib Require Import ZArith Lia String Ascii List Bool.
From stdpp Require Import base strings option tactics list gmap.
From S2P Require Import Prelude PyText PyDecimal PyTime PyHash Contracts OrderStatus ExecModels Identity Finalization PyDict ReconciliationData Reconciliation.

#[local] Open Scope string_scope.
#[local] Open Scope Z_scope.

(** The code of an exception that [except ExecutionBlocked] catches. *)
Definition blocked_code (e : exn) : option string :=
  match e with ExecutionBlocked code | ExecutionPending code => Some code | _ => None end.

Definition unblocked {A} (m : M A) : Prop := forall e, m = Raise e -> blocked_code e = None.

(** ** Rules *)

Lemma unblocked_ok {A} (a : A) : unblocked (Ok a).
Proof. by intros e. Qed.

Lemma unblocked_raise {A} e : blocked_code e = None -> unblocked (@Raise A e).
Proof. by intros H e' [= ->]. Qed.

Lemma unblocked_bind {A B} (m : M A) (f : A -> M B) :
  unblocked m -> (forall a, unblocked (f a)) -> unblocked (m ≫= f).
Proof. intros Hm Hf e. destruct m as [a|e']; cbn; [apply Hf|]. intros [= ->]. by apply Hm. Qed.

Lemma unblocked_guard {A} (c : M bool) (r k : M A) :
  unblocked c -> unblocked r -> unblocked k -> unblocked (guard_m c r k).
Proof. intros Hc Hr Hk. apply unblocked_bind; [done|]. by intros []. Qed.

Lemma unblocked_or a b : unblocked a -> unblocked b -> unblocked (or_m a b).
Proof. intros Ha Hb. apply unblocked_bind; [done|]. intros []; [apply unblocked_ok|done]. Qed.

Lemma unblocked_and a b : unblocked a -> unblocked b -> unblocked (and_m a b).
Proof. intros Ha Hb. apply unblocked_bind; [done|]. intros []; [done|apply unblocked_ok]. Qed.

Lemma unblocked_not a : unblocked a -> unblocked (not_m a).
Proof. intros Ha. apply unblocked_bind; [done|]. intros b. apply unblocked_ok. Qed.

Lemma unblocked_any {A} (f : A -> M bool) l : (forall a, unblocked (f a)) -> unblocked (any_m f l).
Proof. intros H. induction l as [|a l IH]; cbn; [apply unblocked_ok|by apply unblocked_or]. Qed.

Lemma unblocked_map {A B} (f : A -> M B) l : (forall a, unblocked (f a)) -> unblocked (map_m f l).
Proof.
  intros H. induction l as [|a l IH]; cbn; [apply unblocked_ok|].
  apply unblocked_bind; [done|]. intros b. apply unblocked_bind; [done|]. intros bs. apply unblocked_ok.
Qed.

Lemma unblocked_fold {A B} (f : A -> B -> M A) a l :
  (forall a b, unblocked (f a b)) -> unblocked (fold_m f a l).
Proof.
  intros H. revert a. induction l as [|b l IH]; intros a; cbn; [apply unblocked_ok|].
  by apply unblocked_bind.
Qed.

Lemma unblocked_members l : Forall (fun m => unblocked m.2) l -> unblocked (canonical_members l).
Proof.
  unfold canonical_members. induction 1 as [|[name m] l Hm _ IH]; cbn; [apply unblocked_ok|].
  apply unblocked_bind; [apply unblocked_bind; [done|]; intros v; apply unblocked_ok|].
  intros b. apply unblocked_bind; [done|]. intros bs. apply unblocked_ok.
Qed.

Lemma unblocked_add_if c code blocks : unblocked c -> unblocked (add_if c code blocks).
Proof. intros H. apply unblocked_bind; [done|]. intros b. apply unblocked_ok. Qed.

Create HintDb unblocked discriminated.

(** Structural rules, then the lemmas of the operations. *)
Ltac unblock :=
  repeat (intros;
    match goal with
    | |- unblocked (mbind _ _) => apply unblocked_bind
    | |- unblocked (guard_m _ _ _) => apply unblocked_guard
    | |- unblocked (or_m _ _) => apply unblocked_or
    | |- unblocked (and_m _ _) => apply unblocked_and
    | |- unblocked (not_m _) => apply unblocked_not
    | |- unblocked (any_m _ _) => apply unblocked_any
    | |- unblocked (map_m _ _) => apply unblocked_map
    | |- unblocked (fold_m _ _ _) => apply unblocked_fold
    | |- unblocked (Ok _) => apply unblocked_ok
    | |- unblocked (add_if _ _ _) => apply unblocked_add_if
    | |- unblocked (lift_bool _) => apply unblocked_ok
    | |- unblocked (Raise _) => apply unblocked_raise; reflexivity
    | |- unblocked (match ?x with _ => _ end) => destruct x
    | |- unblocked _ => solve [eauto with unblocked]
    end).

(** ** Times and decimals *)

Lemma unblocked_dt_lt a b : unblocked (dt_lt a b).
Proof. unfold dt_lt. unblock. Qed.
Lemma unblocked_dt_sub a b : unblocked (dt_sub a b).
Proof. unfold dt_sub. unblock. Qed.
Lemma unblocked_astimezone a : unblocked (astimezone_utc a).
Proof. unfold astimezone_utc. unblock. Qed.
Lemma unblocked_fix s c e : unblocked (fix_ s c e).
Proof. unfold fix_. unblock. Qed.
#[export] Hint Resolve unblocked_dt_lt unblocked_dt_sub unblocked_astimezone unblocked_fix : unblocked.

Lemma unblocked_dadd a b : unblocked (dadd a b).
Proof. unfold dadd. cbv zeta. unblock. Qed.
Lemma unblocked_dle a b : unblocked (dle a b).
Proof. unfold dle. unblock. Qed.
#[export] Hint Resolve unblocked_dadd unblocked_dle : unblocked.

Lemma unblocked_dt_max a b : unblocked (dt_max a b).
Proof. unfold dt_max. unblock. Qed.
Lemma unblocked_cash a b : unblocked (_cash_within_fee_tolerance a b).
Proof. unfold _cash_within_fee_tolerance, dsub. unblock. Qed.
Lemma unblocked_predates i t : unblocked (activity_predates_window i t).
Proof. unfold activity_predates_window. unblock. Qed.
Lemma unblocked_require_utc t c : unblocked (_require_utc t c).
Proof. unfold _require_utc. unblock. Qed.
#[export] Hint Resolve unblocked_dt_max unblocked_cash unblocked_predates unblocked_require_utc : unblocked.

(** ** Canonical values *)

Class UnblockedCanonical (A : Type) `{Canonical A} : Prop :=
  canonical_unblocked : forall v : A, unblocked (_canonical_value v).

#[export] Hint Extern 1 (unblocked (_canonical_value _)) => apply canonical_unblocked : unblocked.

Lemma unblocked_canonical_timedelta td : unblocked (canonical_timedelta td).
Proof. apply unblocked_ok. Qed.
Lemma unblocked_fields l : Forall (fun m => unblocked m.2) l -> unblocked (canonical_fields l).
Proof. intros H. unfold canonical_fields. unblock. by apply unblocked_members. Qed.
#[export] Hint Resolve unblocked_canonical_timedelta : unblocked.

(** The members of an object, one by one. *)
Ltac fields :=
  intros v; unfold _canonical_value at 1;
  match goal with |- unblocked (?f v) => unfold f end;
  apply unblocked_fields;
  repeat first [apply List.Forall_nil
               |apply List.Forall_cons; [cbn [snd]; solve [eauto with unblocked]|]].

#[export] Instance unblocked_c_string : UnblockedCanonical string.
Proof. intros v. apply unblocked_ok. Qed.
#[export] Instance unblocked_c_Z : UnblockedCanonical Z.
Proof. intros v. apply unblocked_ok. Qed.
#[export] Instance unblocked_c_bool : UnblockedCanonical bool.
Proof. intros v. apply unblocked_ok. Qed.
#[export] Instance unblocked_c_uuid : UnblockedCanonical uuid.
Proof. intros v. apply unblocked_ok. Qed.
#[export] Instance unblocked_c_enum {A} `{StrEnum A} : UnblockedCanonical A.
Proof. intros v. apply unblocked_ok. Qed.
#[export] Instance unblocked_c_decimal : UnblockedCanonical decimal.
Proof. intros v. unfold _canonical_value, Canonical_decimal. unblock. Qed.
#[export] Instance unblocked_c_datetime : UnblockedCanonical datetime.
Proof. intros v. unfold _canonical_value, Canonical_datetime, _utc_text. unblock. Qed.
#[export] Instance unblocked_c_option {A} `{UnblockedCanonical A} : UnblockedCanonical (option A).
Proof. intros [v|]; [apply (canonical_unblocked v)|apply unblocked_ok]. Qed.
#[export] Instance unblocked_c_list {A} `{UnblockedCanonical A} : UnblockedCanonical (list A).
Proof. intros v. unfold _canonical_value, Canonical_list. unblock. Qed.
#[export] Instance unblocked_c_account : UnblockedCanonical AccountObservation.
Proof. fields. Qed.
#[export] Instance unblocked_c_inventory : UnblockedCanonical InventoryItem.
Proof. fields. Qed.
#[export] Instance unblocked_c_leg : UnblockedCanonical OpenOrderLeg.
Proof. fields. Qed.
#[export] Instance unblocked_c_order : UnblockedCanonical OpenOrderItem.
Proof. fields. Qed.
#[export] Instance unblocked_c_activity : UnblockedCanonical ActivityItem.
Proof.
  intros v. unfold _canonical_value at 1, Canonical_ActivityItem. apply unblocked_fields.
  destruct (String.eqb _ _), (act_provider_activity_type v); cbn [app];
    repeat first [apply List.Forall_nil
                 |apply List.Forall_cons; [cbn [snd]; solve [eauto with unblocked]|]].
Qed.
#[export] Instance unblocked_c_pagination : UnblockedCanonical ActivityPaginationEvidence.
Proof. fields. Qed.
#[export] Instance unblocked_c_sweep : UnblockedCanonical SweepObservation.
Proof. fields. Qed.

Lemma unblocked_expectation_fields v : Forall (fun m => unblocked m.2) (expectation_fields v).
Proof.
  unfold expectation_fields.
  repeat first [apply List.Forall_nil
               |apply List.Forall_cons; [cbn [snd]; solve [eauto with unblocked]|]].
Qed.

#[export] Instance unblocked_c_expectation : UnblockedCanonical ReconciliationExpectation.
Proof.
  intros v. unfold _canonical_value at 1, Canonical_ReconciliationExpectation. apply unblocked_fields.
  apply Forall_app. split; [apply unblocked_expectation_fields|].
  apply List.Forall_cons; [apply canonical_unblocked|apply List.Forall_nil].
Qed.

Lemma unblocked_value_hash {A} `{UnblockedCanonical A} (v : A) : unblocked (canonical_value_hash v).
Proof. unfold canonical_value_hash. unblock. Qed.
#[export] Hint Extern 1 (unblocked (canonical_value_hash _)) => apply unblocked_value_hash : unblocked.

(** ** The evaluation *)

Lemma unblocked_verify e : unblocked (_verify_integrity e).
Proof.
  unfold _verify_integrity, expectation_hash_of. unblock.
  apply unblocked_members, unblocked_expectation_fields.
Qed.

Lemma unblocked_observation t blocks o : unblocked (observation_blocks t blocks o).
Proof. unfold observation_blocks. unblock. Qed.

Lemma unblocked_account e blocks o : unblocked (account_blocks e blocks o).
Proof.
  unfold account_blocks. unblock.
Qed.

Lemma unblocked_known e o k : unblocked (known_activity_missing e o k).
Proof. unfold known_activity_missing. unblock. Qed.
#[export] Hint Resolve unblocked_verify unblocked_observation unblocked_account
  unblocked_known : unblocked.

Lemma unblocked_block_set s e t : unblocked (block_set s e t).
Proof.
  unfold block_set. cbv zeta. unblock.
Qed.
#[export] Hint Resolve unblocked_block_set : unblocked.

Lemma unblocked_evaluate s e t : unblocked (evaluate s e t).
Proof.
  unfold evaluate. cbv zeta. unblock. apply unblocked_fields.
  repeat first [apply List.Forall_nil
               |apply List.Forall_cons; [cbn [snd]; solve [eauto with unblocked]|]].
Qed.

(** What the result says it was evaluated from. *)
Lemma evaluate_fields s e t r :
  evaluate s e t = Ok r -> wr_sweep r = s /\ wr_expectation r = e /\ wr_accepted_at r = t.
Proof.
  unfold evaluate. cbv zeta. rewrite !bind_ok.
  intros (_ & _ & H). rewrite bind_ok in H. destruct H as (_ & _ & H).
  rewrite bind_ok in H. destruct H as (blocks & _ & H).
  rewrite bind_ok in H. destruct H as (hp & _ & H). rewrite bind_ok in H. destruct H as (ho & _ & H).
  rewrite bind_ok in H. destruct H as (ha & _ & H). rewrite bind_ok in H. destruct H as (m & _ & H).
  by injection H as <-.
Qed.
