(* ===== verification/ExecutionProtocol.v ===== *)
(** * The dispatch protocol

    What the execution service promises to the repository, the broker and the account it
    works on, as an automaton over its calls: which call it may make after which answers.
    [allowed] and [after] are the automaton; [ServiceProps] proves that every run of the
    service follows it. *)

From Stdlib Require Import ZArith Lia String Ascii List Bool.
From stdpp Require Import base strings option tactics list.
From S2P Require Import Prelude Program PyText PyDecimal PyTime PyHash Contracts OrderLimits OrderStatus ExecModels Identity Finalization ReconciliationData Reconciliation Permits Replacement ReconciliationRaises ExecutionService.

#[local] Open Scope string_scope.
#[local] Open Scope Z_scope.


Definition CANCEL_DUE : string := "REPLACEMENT_CANCEL_DUE".

(** What the service relies on of its ports: that only planning, preparing and acquiring
    report that the cancellation is due, so that the broker has no order of this advance
    when the service turns to cancelling. *)
Definition expected_answer (c : port) (r : M (answer c)) : Prop :=
  match c with
  | PlanBrokerMutation _ _ _ | PrepareBrokerMutation _ _ _ | AcquireBrokerDispatch _ _ => True
  | _ => forall e, r = Raise e -> blocked_code e <> Some CANCEL_DUE
  end.

(** ** The state of the automaton *)

(** Where the broker mutation of this advance is. *)
Inductive phase :=
  | Idle
  | Planned (purpose : ReconciliationPurpose) (plan : BrokerMutationPlan)
  | Ready (purpose : ReconciliationPurpose) (plan : BrokerMutationPlan)
      (permit : BrokerMutationPermit) (attempt : OrderAttempt)
  | Held (purpose : ReconciliationPurpose) (plan : BrokerMutationPlan) (permit_id : uuid)
      (attempt : OrderAttempt) (dispatch : BrokerMutationPermit)
  | Answered (purpose : ReconciliationPurpose) (permit_id : uuid) (nonce : option uuid)
      (observed : OrderAttempt)
  | Ambiguous (purpose : ReconciliationPurpose) (permit_id : uuid) (nonce : option uuid)
  | Dispatched (purpose : ReconciliationPurpose).

(** The phase, and the last answers of the calls that give the service its authority. *)
Record watch := mk_watch {
  w_claim : option ExecutionIntent;
  w_schedule : option BrokerMutationSchedule;
  w_cancel_due : bool;
  w_quotes : option (list OptionSnapshot);
  w_trusted : option datetime;
  w_sweep : option (ReconciliationExpectation * WholeAccountEvidence);
  w_final : option ReconciliationExpectation;
  w_lookup : option (M (option BrokerResult));
  w_certificate : option ExecutionCertificate;
  w_phase : phase;
}.

Definition start : watch := mk_watch None None false None None None None None None Idle.

Definition set_claim c s := mk_watch (Some c) (w_schedule s) (w_cancel_due s) (w_quotes s)
  (w_trusted s) (w_sweep s) (w_final s) (w_lookup s) (w_certificate s) (w_phase s).
Definition set_schedule x s := mk_watch (w_claim s) x (w_cancel_due s) (w_quotes s)
  (w_trusted s) (w_sweep s) (w_final s) (w_lookup s) (w_certificate s) (w_phase s).
Definition set_cancel_due x s := mk_watch (w_claim s) (w_schedule s) x (w_quotes s)
  (w_trusted s) (w_sweep s) (w_final s) (w_lookup s) (w_certificate s) (w_phase s).
Definition set_quotes x s := mk_watch (w_claim s) (w_schedule s) (w_cancel_due s) x
  (w_trusted s) (w_sweep s) (w_final s) (w_lookup s) (w_certificate s) (w_phase s).
Definition set_trusted x s := mk_watch (w_claim s) (w_schedule s) (w_cancel_due s) (w_quotes s)
  x (w_sweep s) (w_final s) (w_lookup s) (w_certificate s) (w_phase s).
Definition set_sweep x s := mk_watch (w_claim s) (w_schedule s) (w_cancel_due s) (w_quotes s)
  (w_trusted s) x (w_final s) (w_lookup s) (w_certificate s) (w_phase s).
Definition set_final x s := mk_watch (w_claim s) (w_schedule s) (w_cancel_due s) (w_quotes s)
  (w_trusted s) (w_sweep s) x (w_lookup s) (w_certificate s) (w_phase s).
Definition set_lookup x s := mk_watch (w_claim s) (w_schedule s) (w_cancel_due s) (w_quotes s)
  (w_trusted s) (w_sweep s) (w_final s) x (w_certificate s) (w_phase s).
Definition set_certificate x s := mk_watch (w_claim s) (w_schedule s) (w_cancel_due s) (w_quotes s)
  (w_trusted s) (w_sweep s) (w_final s) (w_lookup s) x (w_phase s).
Definition set_phase x s := mk_watch (w_claim s) (w_schedule s) (w_cancel_due s) (w_quotes s)
  (w_trusted s) (w_sweep s) (w_final s) (w_lookup s) (w_certificate s) x.

Definition ok {A} (r : M A) : option A := match r with Ok a => Some a | Raise _ => None end.

(** No permit is held: none was acquired, or its dispatch is settled. *)
Definition quiescent (s : watch) : Prop :=
  match w_phase s with Idle | Dispatched _ => True | _ => False end.

(** The reconciliation is the evaluation of the last sweep, against this expectation. *)
Definition evaluated (s : watch) (e : ReconciliationExpectation) (r : WholeAccountReconciliation)
    (evidence : WholeAccountEvidence) : Prop :=
  w_sweep s = Some (e, evidence) /\
  exists now accepted, dt_max now (sw_retrieval_completed_at (we_sweep evidence)) = Ok accepted /\
    evaluate (we_sweep evidence) e accepted = Ok r.

(** The reason to plan a mutation: what the repository scheduled last, or for a
    cancellation also that it was refused a replacement as overdue. *)
Definition scheduled (s : watch) (purpose : ReconciliationPurpose) : Prop :=
  sc_purpose <$> w_schedule s = Some purpose \/ (purpose = CANCEL /\ w_cancel_due s = true).

(** The quotes that planning needs: for an entry or a close nothing; for a roll they are
    valid at the trusted time; a replacement is computed from them at the scheduled time. *)
Definition quoted (s : watch) (claim : ExecutionIntent) (purpose : ReconciliationPurpose)
    (replacement : option OrderAttempt) : Prop :=
  match purpose with
  | SUBMIT => replacement = None /\
      (oe_action (ei_envelope claim) = EX_ROLL -> exists snapshots trusted,
         w_quotes s = Some snapshots /\ w_trusted s = Some trusted /\
         _validate_roll_quote_authority claim snapshots trusted = Ok tt)
  | REPLACE => exists target attempt snapshots schedule, replacement = Some attempt /\
      w_quotes s = Some snapshots /\ w_schedule s = Some schedule /\
      _replacement_attempt claim target snapshots (sc_timing_authority_at schedule) = Ok attempt
  | _ => replacement = None
  end.

Section Protocol.
(** The actor of this advance. *)
Context (actor : Actor).

(** The claim is the one the repository returned. *)
Definition claimed (s : watch) (claim : ExecutionIntent) : Prop := w_claim s = Some claim.

(** It is the actor's, on a standard contract. *)
Definition authorised (s : watch) (claim : ExecutionIntent) : Prop :=
  claimed s claim /\ ei_claimed_by claim = Some actor /\ ei_state claim <> TERMINAL /\
  _validate_standard_contract_envelope (ei_envelope claim) = Ok tt.

Definition allowed (s : watch) (c : port) : Prop :=
  match c with
  | ClaimIntentCall _ a _ _ _ => quiescent s /\ a = actor
  | GetIntentCall _ => quiescent s
  | NextBrokerMutation claim => authorised s claim /\ w_phase s = Idle
  | TrustedExecutionTime claim | FinalReconciliationExpectation claim
  | TargetedLookupAuthority claim => quiescent s /\ claimed s claim
  | PlanBrokerMutation claim purpose replacement =>
      authorised s claim /\ w_phase s = Idle /\ scheduled s purpose /\
      quoted s claim purpose replacement
  | PrepareBrokerMutation r attempt claim =>
      authorised s claim /\
      match w_phase s with
      | Planned _ plan => attempt = pl_attempt plan /\ exists ev, evaluated s (pl_expectation plan) r ev
      | _ => False
      end
  | AcquireBrokerDispatch permit_id claim =>
      authorised s claim /\
      match w_phase s with Ready _ _ permit _ => permit_id = bp_permit_id permit | _ => False end
  | BrokerSubmit envelope client_id =>
      match w_phase s with
      | Held SUBMIT plan _ _ dispatch =>
          is_Some (bp_dispatch_nonce dispatch) /\ ei_envelope <$> w_claim s = Some envelope /\
          client_id = oa_client_order_id (pl_attempt plan)
      | _ => False
      end
  | BrokerReplace target client_id limit =>
      match w_phase s with
      | Held REPLACE plan _ attempt dispatch =>
          is_Some (bp_dispatch_nonce dispatch) /\
          bp_target_provider_order_id dispatch = Some target /\
          client_id = oa_client_order_id (pl_attempt plan) /\
          exists claim, w_claim s = Some claim /\
            limit = default (oe_minimum_limit (ei_envelope claim)) (oa_limit_price attempt)
      | _ => False
      end
  | BrokerCancel target =>
      match w_phase s with
      | Held CANCEL _ _ _ dispatch =>
          is_Some (bp_dispatch_nonce dispatch) /\ bp_target_provider_order_id dispatch = Some target
      | _ => False
      end
  | MarkBrokerDispatchAmbiguous permit_id nonce claim =>
      claimed s claim /\
      match w_phase s with
      | Ambiguous _ held held_nonce => permit_id = held /\ Some nonce = held_nonce
      | _ => False
      end
  | RecordAttemptObservation permit_id observed DISPATCH_OUTCOME claim nonce =>
      claimed s claim /\
      match w_phase s with
      | Answered _ held held_nonce answered =>
          permit_id = held /\ nonce = held_nonce /\ observed = answered
      | _ => False
      end
  | RecordAttemptObservation _ observed TARGETED_LOOKUP claim nonce =>
      claimed s claim /\ quiescent s /\ nonce = None /\
      exists current result, w_lookup s = Some (Ok (Some result)) /\
        observed = with_result current result
  | RecordAttemptObservation _ _ TARGETED_LOOKUP_FAILURE _ _ => False
  | RecordAttemptAbsence _ source claim =>
      claimed s claim /\ quiescent s /\ source = TARGETED_LOOKUP /\ w_lookup s = Some (Ok None)
  | RecordAttemptLookupFailure _ claim =>
      claimed s claim /\ quiescent s /\ w_lookup s = Some (Raise AmbiguousBrokerResponse)
  | FinalizeExecutionAuthorized _ r _ claim greeks =>
      claimed s claim /\ quiescent s /\ exists e ev, w_final s = Some e /\ evaluated s e r ev /\
        greeks = we_position_greeks ev
  | CollectSweep e =>
      match w_phase s with
      | Planned _ plan => e = pl_expectation plan /\ w_sweep s = None
      | _ => quiescent s /\ w_final s = Some e
      end
  | AttemptsFor intent_id | ExecutionAttemptsFor intent_id =>
      quiescent s /\ ei_intent_id <$> w_claim s = Some intent_id
  | GetExecutionCertificate certificate_id => exists claim, w_claim s = Some claim /\
      quiescent s /\ ei_claimed_by claim = Some actor /\
      certificate_id = expected_certificate_id (ei_digest claim)
  | BrokerLookup _ => quiescent s
  | CollectQuotes symbols => exists claim, authorised s claim /\ w_phase s = Idle /\
      symbols = map li_symbol (oe_legs (ei_envelope claim))
  end.
End Protocol.

(** Preparing or acquiring failed: perhaps because the cancellation is due. *)
Definition refused (e : exn) (s : watch) : watch :=
  set_cancel_due (bool_decide (blocked_code e = Some CANCEL_DUE)) (set_phase Idle s).

(** Without its sweep the mutation is not planned any more. *)
Definition unplanned (s : watch) : watch :=
  match w_phase s with Planned _ _ => set_phase Idle s | _ => s end.

(** The broker answered or did not. *)
Definition dispatched (r : M BrokerResult) (s : watch) : watch :=
  match w_phase s with
  | Held purpose plan permit_id attempt dispatch =>
      let base := if decide (purpose = REPLACE) then attempt else pl_attempt plan in
      let nonce := bp_dispatch_nonce dispatch in
      match r with
      | Ok result => set_phase (Answered purpose permit_id nonce (with_result base result)) s
      | Raise AmbiguousBrokerResponse => set_phase (Ambiguous purpose permit_id nonce) s
      | Raise _ => set_phase (Dispatched purpose) s
      end
  | _ => s
  end.

(** The outcome is recorded or marked: the dispatch is over. *)
Definition settled (s : watch) : watch :=
  match w_phase s with
  | Answered purpose _ _ _ | Ambiguous purpose _ _ => set_phase (Dispatched purpose) s
  | _ => s
  end.

Definition after (s : watch) (c : port) : M (answer c) -> watch :=
  match c with
  | ClaimIntentCall _ _ _ _ _ | GetIntentCall _ => fun r =>
      match ok r with Some claim => set_claim claim s | None => s end
  | NextBrokerMutation _ => fun r =>
      set_schedule (match r with Ok schedule => schedule | Raise _ => None end) s
  | TrustedExecutionTime _ => fun r => set_trusted (ok r) s
  | PlanBrokerMutation _ purpose _ => fun r =>
      match r with
      | Ok plan => set_sweep None (set_phase (Planned purpose plan) s)
      | Raise _ => s
      end
  | PrepareBrokerMutation _ _ _ => fun r =>
      match w_phase s, r with
      | Planned purpose plan, Ok prepared =>
          match pr_permit prepared, pr_attempt prepared with
          | Some permit, Some attempt => set_phase (Ready purpose plan permit attempt) s
          | _, _ => set_phase Idle s
          end
      | _, Raise e => refused e s
      | _, _ => s
      end
  | AcquireBrokerDispatch permit_id _ => fun r =>
      match w_phase s, r with
      | Ready purpose plan _ attempt, Ok dispatch =>
          set_phase (Held purpose plan permit_id attempt dispatch) s
      | _, Raise e => refused e s
      | _, _ => s
      end
  | BrokerSubmit _ _ | BrokerReplace _ _ _ | BrokerCancel _ => fun r => dispatched r s
  | MarkBrokerDispatchAmbiguous _ _ _ => fun _ => settled s
  | RecordAttemptObservation _ _ _ _ _ => fun _ => settled s
  | BrokerLookup _ => fun r => set_lookup (Some r) s
  | CollectSweep e => fun r =>
      match r with
      | Ok evidence => set_sweep (Some (e, evidence)) s
      | Raise _ => set_sweep None (unplanned s)
      end
  | FinalReconciliationExpectation _ => fun r => set_final (ok r) s
  | FinalizeExecutionAuthorized _ _ _ _ _ => fun r =>
      match r with Ok (Some certificate) => set_certificate (Some certificate) s | _ => s end
  | GetExecutionCertificate _ => fun r =>
      match r with Ok certificate => set_certificate (Some certificate) s | _ => s end
  | CollectQuotes _ => fun r => set_quotes (ok r) s
  | RecordAttemptAbsence _ _ _ | RecordAttemptLookupFailure _ _ | AttemptsFor _
  | ExecutionAttemptsFor _ | TargetedLookupAuthority _ => fun _ => s
  end.
