(* ===== verification/ServiceProps.v ===== *)
(** * The execution service follows the dispatch protocol

    Part by part, from the lookup to [advance] and [execute]: what the service does is
    allowed by the automaton of [ExecutionProtocol], whatever the ports answer, and no
    answer of the broker is left unrecorded on any path, exceptions included. *)

From Stdlib Require Import ZArith Lia String Ascii List Bool.
From stdpp Require Import base strings option tactics list.
From S2P Require Import Prelude Program PyText PyDecimal PyTime PyHash Contracts OrderLimits OrderStatus ExecModels Identity Finalization ReconciliationData Reconciliation Permits Replacement ReconciliationRaises ExecutionService ExecutionProtocol.

#[local] Open Scope string_scope.
#[local] Open Scope Z_scope.
#[local] Opaque expected_certificate_id evaluate.

(** An exception other than the one that says the cancellation is due. *)
Definition quiet (e : exn) : Prop := blocked_code e <> Some CANCEL_DUE.

Lemma quiet_blocked {A} (m : M A) e : unblocked m -> m = Raise e -> quiet e.
Proof. intros H Hm. unfold quiet. by rewrite (H e Hm). Qed.

(** What the automaton keeps while the service only looks: the claim and the phase. *)
Definition kept (s s' : watch) : Prop := w_claim s' = w_claim s /\ w_phase s' = w_phase s.

Lemma kept_refl s : kept s s. Proof. done. Qed.
Lemma kept_trans a b c : kept a b -> kept b c -> kept a c.
Proof. intros [H1 H2] [H3 H4]. split; congruence. Qed.

Lemma kept_quiescent s s' : kept s s' -> quiescent s -> quiescent s'.
Proof. intros [_ H]. unfold quiescent. by rewrite H. Qed.
Lemma kept_claimed s s' claim : kept s s' -> claimed s claim -> claimed s' claim.
Proof. intros [H _]. unfold claimed. by rewrite H. Qed.
(** The mutation is over, and the claim is still the same. *)
Definition over (purpose : ReconciliationPurpose) (s0 s : watch) : Prop :=
  w_claim s = w_claim s0 /\ w_phase s = Dispatched purpose.

(** No outcome of the broker is left unrecorded or unmarked. *)
Definition no_debt (s : watch) : Prop :=
  match w_phase s with Answered _ _ _ _ | Ambiguous _ _ _ => False | _ => True end.

Lemma quiescent_no_debt s : quiescent s -> no_debt s.
Proof. unfold quiescent, no_debt. by destruct (w_phase s). Qed.

Lemma unplanned_no_debt s : no_debt s -> no_debt (unplanned s).
Proof. unfold no_debt, unplanned. destruct (w_phase s) eqn:E; rewrite ?E; done. Qed.

(** In a phase that is known. *)
Ltac clear_debt :=
  intros;
  first [done
        |by apply quiescent_no_debt
        |destruct_and?; apply quiescent_no_debt; eapply kept_quiescent; eassumption
        |cbn in *; unfold no_debt, kept, over in *; cbn in *; destruct_and?;
         repeat match goal with
           | H : w_phase ?s = _ |- context [w_phase ?s] => rewrite H
           end; cbn; done].

Section Follows.
Context (actor : Actor) (quotes : bool) (self_account_role : AccountRole)
  (self_account_fingerprint : string).

Abbreviation follows := (accepts (allowed actor) after expected_answer).

(** ** Rules for the calls and the control of the service *)

Lemma follows_ask c s (post : M (answer c) -> watch -> Prop) :
  allowed actor s c -> (forall r, expected_answer c r -> post r (after s c r)) ->
  follows (ask c) s post.
Proof. apply accepts_ask. Qed.

Lemma follows_call {A} c (f : answer c -> service A) s post :
  allowed actor s c ->
  (forall a, expected_answer c (Ok a) -> follows (f a) (after s c (Ok a)) post) ->
  (forall e, expected_answer c (Raise e) -> post (Raise e) (after s c (Raise e))) ->
  follows (ask c ≫= f) s post.
Proof.
  intros Ha Hf He. apply accepts_bind, accepts_ask; [done|]. intros [a|e] Hr; auto.
Qed.

Lemma follows_lift {A B} (m : M A) (f : A -> service B) s post :
  (forall a, m = Ok a -> follows (f a) s post) -> (forall e, m = Raise e -> post (Raise e) s) ->
  follows (lift m ≫= f) s post.
Proof. intros Hf He. apply accepts_bind, accepts_lift. destruct m; auto. Qed.

Lemma follows_refuse {A} (b : bool) code (f : unit -> service A) s post :
  (b = false -> follows (f tt) s post) -> (b = true -> post (Raise (ExecutionBlocked code)) s) ->
  follows (refuse_if b code ≫= f) s post.
Proof. intros Hf He. apply accepts_bind. destruct b; cbn; auto. Qed.

(** Calling a function by its specification [P]. *)
Lemma follows_bind {A B} (p : service A) (f : A -> service B) s (P : M A -> watch -> Prop) post :
  follows p s P ->
  (forall a s', P (Ok a) s' -> follows (f a) s' post) ->
  (forall e s', P (Raise e) s' -> post (Raise e) s') ->
  follows (p ≫= f) s post.
Proof.
  intros Hp Hf He. apply accepts_bind. eapply accepts_weaken; [exact Hp|].
  intros [a|e] s' H; auto.
Qed.

Lemma follows_blocked {A} (p : service A) handler s (P : M A -> watch -> Prop) post :
  follows p s P ->
  (forall a s', P (Ok a) s' -> post (Ok a) s') ->
  (forall e code s', P (Raise e) s' -> blocked_code e = Some code ->
     follows (handler code (Throw e)) s' post) ->
  (forall e s', P (Raise e) s' -> post (Raise e) s') ->
  follows (except_execution_blocked p handler) s post.
Proof.
  intros Hp Hok Hh He. apply accepts_catch. eapply accepts_weaken; [exact Hp|].
  intros [a|e] s' H; [by apply Hok|]. destruct e; cbn; eauto; by eapply Hh; [exact H|].
Qed.

Lemma follows_ambiguous {A} (p handler : service A) s (P : M A -> watch -> Prop) post :
  follows p s P ->
  (forall a s', P (Ok a) s' -> post (Ok a) s') ->
  (forall s', P (Raise AmbiguousBrokerResponse) s' -> follows handler s' post) ->
  (forall e s', e <> AmbiguousBrokerResponse -> P (Raise e) s' -> post (Raise e) s') ->
  follows (except_ambiguous p handler) s post.
Proof.
  intros Hp Hok Hh He. apply accepts_catch. eapply accepts_weaken; [exact Hp|].
  intros [a|e] s' H; [by apply Hok|]. destruct e; cbn; auto; by apply He.
Qed.

(** ** The parts of the service *)

Lemma kept_authorised s s' claim : kept s s' -> authorised actor s claim -> authorised actor s' claim.
Proof. intros H (Hc & Ha). split; [by eapply kept_claimed|clear_debt]. Qed.

(** The result of a part that cannot say that the cancellation is due. *)
Definition calm {A} (post : A -> watch -> Prop) (x : M A) (s : watch) : Prop :=
  match x with Ok a => post a s | Raise e => quiet e /\ no_debt s end.

(** The result of a part outside every handler. *)
Definition returns {A} (post : A -> watch -> Prop) (x : M A) (s : watch) : Prop :=
  match x with Ok a => post a s | Raise e => no_debt s end.

Lemma lookup_or_defer_follows claim permit_id id s :
  claimed s claim -> quiescent s ->
  follows (_lookup_or_defer claim permit_id id) s
    (calm (fun result s' => kept s s' /\ w_lookup s' = Some (Ok (Some result)))).
Proof.
  intros Hc Hq. unfold _lookup_or_defer. eapply follows_bind.
  - apply (follows_ambiguous _ _ _ (fun x s' => s' = set_lookup (Some x) s /\
      match x with Ok _ => True | Raise e => quiet e end)
      (calm (fun result s' => s' = set_lookup (Some (Ok result)) s))).
    + apply (follows_ask (BrokerLookup id)); [done|]. intros [a|e] Hr; split; try done.
      by apply Hr.
    + by intros a s' [-> _].
    + intros s' [-> _]. apply (follows_call (RecordAttemptLookupFailure permit_id claim)); [done| |].
      * intros. split; [by intros [= ]|clear_debt].
      * intros e He. split; [by apply He|clear_debt].
    + intros e s' _ [-> He]. split; [exact He|clear_debt].
  - cbn. intros [result|] s' ->.
    + done.
    + apply (follows_call (RecordAttemptAbsence permit_id TARGETED_LOOKUP claim)); [done| |].
      * intros. split; [by intros [=]|clear_debt].
      * intros e He. split; [by apply He|clear_debt].
  - done.
Qed.

Lemma finalize_loop_follows n v claim certificate e status now s :
  claimed s claim -> quiescent s -> w_final s = Some e ->
  follows (finalize_loop n v claim certificate e status now) s
    (returns (fun c s' => kept s s' /\ w_certificate s' = Some c)).
Proof.
  revert v s. induction n as [|n IH]; intros v s Hc Hq Hf; cbn [finalize_loop]; [clear_debt|].
  apply (follows_call (CollectSweep e));
    [|intros evidence _|intros ex _; apply (unplanned_no_debt s); clear_debt].
  { cbn. unfold quiescent in Hq. destruct (w_phase s) eqn:E; try done; unfold quiescent; by rewrite E. }
  apply follows_lift; [|clear_debt]. intros accepted Ha. apply follows_lift; [|clear_debt]. intros r Hr.
  set (s1 := after s _ _).
  apply (follows_bind _ _ _ (returns (fun c s' => kept s s' /\ w_final s' = Some e /\
    match c with Some (Some c) => w_certificate s' = Some c | _ => True end))).
  - apply (follows_blocked _ _ _ (fun x s' => kept s s' /\ w_final s' = Some e /\
      match x with Ok (Some (Some c)) => w_certificate s' = Some c | _ => True end)).
    + apply (follows_call (FinalizeExecutionAuthorized certificate r status claim
               (we_position_greeks evidence))).
      * cbn. split; [done|]. split; [done|]. exists e, evidence. split; [done|]. split; [|clear_debt].
        split; [done|]. exists now, accepted. done.
      * intros [c|] _; cbn; repeat split; done.
      * intros ex _. cbn. repeat split; done.
    + intros c s' H. exact H.
    + intros ex code s' H _. destruct (_ && _); cbn; [|clear_debt]. tauto.
    + clear_debt.
  - intros [[c|]|] s' (Hk & Hf' & Hc'); cbn; [done|clear_debt|].
    eapply accepts_weaken; [apply IH|].
    + by eapply kept_claimed.
    + by eapply kept_quiescent.
    + done.
    + intros [c|ex] s2; cbn; [|clear_debt]. intros [Hk2 H]. split; [|clear_debt]. by eapply kept_trans.
  - clear_debt.
Qed.

Lemma finalize_active_follows claim observed now s :
  claimed s claim -> quiescent s ->
  follows (_finalize_active claim observed now) s
    (returns (fun c s' => kept s s' /\ w_certificate s' = Some c)).
Proof.
  intros Hc Hq. unfold _finalize_active. apply follows_lift; [|clear_debt]. intros status _.
  apply (follows_call (FinalReconciliationExpectation claim)); [done|intros e _|clear_debt].
  apply (follows_call (ExecutionAttemptsFor (ei_intent_id claim))).
  { cbn. unfold claimed in Hc. by rewrite Hc. }
  2: clear_debt. intros attempts _. apply follows_lift; [|clear_debt]. intros certificate _.
  eapply accepts_weaken; [by apply finalize_loop_follows|]. by intros [c|ex] s'.
Qed.

(** Preparing: the permit is ready, or nothing is held. *)
Definition prepared_state (purpose : ReconciliationPurpose) (plan : BrokerMutationPlan)
    (s0 : watch) (prepared : BrokerMutationPreparation) (s : watch) : Prop :=
  w_claim s = w_claim s0 /\
  w_phase s = match pr_permit prepared, pr_attempt prepared with
              | Some permit, Some attempt => Ready purpose plan permit attempt
              | _, _ => Idle
              end.

(** The result of a part that may find the cancellation due: then nothing is held. *)
Definition or_due {A} (s0 : watch) (post : A -> watch -> Prop) (x : M A) (s : watch) : Prop :=
  match x with
  | Ok a => post a s
  | Raise e => no_debt s /\
      (quiet e \/ (w_claim s = w_claim s0 /\ w_phase s = Idle /\ w_cancel_due s = true))
  end.

Lemma refused_due e s : blocked_code e = Some CANCEL_DUE ->
  w_claim (refused e s) = w_claim s /\ w_phase (refused e s) = Idle /\ w_cancel_due (refused e s) = true.
Proof. intros H. unfold refused. rewrite H. cbn. by rewrite bool_decide_true. Qed.

Lemma due_or_quiet e s : quiet e \/
  (w_claim (refused e s) = w_claim s /\ w_phase (refused e s) = Idle /\ w_cancel_due (refused e s) = true).
Proof.
  destruct (decide (blocked_code e = Some CANCEL_DUE)) as [H|H]; [right; by apply refused_due|by left].
Qed.

Lemma prepare_follows purpose plan claim now s :
  authorised actor s claim -> w_phase s = Planned purpose plan -> w_sweep s = None ->
  follows (_prepare plan claim now) s (or_due s (prepared_state purpose plan s)).
Proof.
  intros Hc Hp Hn. unfold _prepare.
  apply (follows_call (CollectSweep (pl_expectation plan))); [cbn; by rewrite Hp|intros evidence _|].
  2: { intros e He. split; [apply (unplanned_no_debt s); clear_debt|]. left. by apply He. }
  apply follows_lift; [|intros e He; split; [clear_debt|]; left; by eapply quiet_blocked, He; apply unblocked_dt_max].
  intros accepted Ha.
  apply follows_lift; [|intros e He; split; [clear_debt|]; left; by eapply quiet_blocked, He; apply unblocked_evaluate].
  intros r Hr. set (s1 := after s _ _).
  apply (follows_ask (PrepareBrokerMutation r (pl_attempt plan) claim)).
  - cbn. rewrite Hp. split; [exact Hc|]. split; [done|]. exists evidence. split; [done|].
    exists now, accepted. done.
  - intros [prepared|e] _; cbn; rewrite Hp.
    + unfold prepared_state. destruct (pr_permit prepared), (pr_attempt prepared); done.
    + split; [done|]. destruct (due_or_quiet e s1) as [H|H]; [by left|right; exact H].
Qed.

(** What the broker call reported, as the observation to record. *)
Definition reported (purpose : ReconciliationPurpose) (permit_id nonce : uuid) (base : OrderAttempt)
    (s0 : watch) (report : BrokerResult * AttemptObservationSource * option uuid) (s : watch) : Prop :=
  let '(result, source, dispatch_nonce) := report in
  w_claim s = w_claim s0 /\
  ((source = DISPATCH_OUTCOME /\ dispatch_nonce = Some nonce /\
    w_phase s = Answered purpose permit_id (Some nonce) (with_result base result)) \/
   (source = TARGETED_LOOKUP /\ dispatch_nonce = None /\ w_phase s = Dispatched purpose /\
    w_lookup s = Some (Ok (Some result)))).

Lemma record_follows {A} purpose permit_id nonce base s0 s result source dispatch_nonce claim
    (f : AttemptObservation -> service A) post :
  claimed s0 claim -> reported purpose permit_id nonce base s0 (result, source, dispatch_nonce) s ->
  (forall o s', over purpose s0 s' -> follows (f o) s' post) ->
  (forall e s', quiet e -> no_debt s' -> post (Raise e) s') ->
  follows (record_attempt_observation permit_id (with_result base result) source claim dispatch_nonce
           ≫= f) s post.
Proof.
  intros Hc (Hw & H) Hf He.
  assert (Hc' : claimed s claim) by (unfold claimed in *; congruence).
  apply (follows_call (RecordAttemptObservation permit_id (with_result base result) source claim
    dispatch_nonce)).
  - destruct H as [(-> & -> & Hp)|(-> & -> & Hp & Hl)]; cbn.
    + rewrite Hp. done.
    + unfold quiescent. rewrite Hp. repeat split; try done. by exists base, result.
  - intros o _. apply Hf. unfold after, settled, over.
    destruct H as [(_ & _ & Hp)|(_ & _ & Hp & _)]; rewrite Hp; done.
  - intros e Hr. apply He; [by apply Hr|]. unfold after, settled.
    destruct H as [(_ & _ & Hp)|(_ & _ & Hp & _)]; rewrite Hp; [done|]. unfold no_debt. by rewrite Hp.
Qed.

Section Dispatch.
Context (purpose : ReconciliationPurpose) (plan : BrokerMutationPlan) (permit_id nonce : uuid)
  (attempt : OrderAttempt) (dispatch : BrokerMutationPermit) (s : watch).
Hypothesis Hheld : w_phase s = Held purpose plan permit_id attempt dispatch.
Hypothesis Hnonce : bp_dispatch_nonce dispatch = Some nonce.

Let base : OrderAttempt := if decide (purpose = REPLACE) then attempt else pl_attempt plan.

(** The specification of a broker call. *)
Definition broker_called (x : M BrokerResult) (s' : watch) : Prop :=
  s' = dispatched x s /\ match x with Ok _ => True | Raise e => quiet e end.

Lemma mark_follows {A} claim (f : BrokerMutationPermit -> service A) post :
  claimed s claim ->
  (forall o s', over purpose s s' -> follows (f o) s' post) ->
  (forall e s', quiet e -> no_debt s' -> post (Raise e) s') ->
  follows (mark_broker_dispatch_ambiguous permit_id nonce claim ≫= f)
    (dispatched (Raise AmbiguousBrokerResponse) s) post.
Proof.
  intros Hc Hf He. unfold dispatched. rewrite Hheld, Hnonce.
  apply (follows_call (MarkBrokerDispatchAmbiguous permit_id nonce claim)).
  - clear_debt.
  - intros o _. by apply Hf.
  - intros e Hr. apply He; [by apply Hr|done].
Qed.

Lemma dispatch_or_lookup_follows broker_call claim id :
  claimed s claim -> follows broker_call s broker_called ->
  follows (dispatch_or_lookup broker_call claim permit_id nonce id) s
    (calm (reported purpose permit_id nonce base s)).
Proof.
  intros Hc Hb. unfold dispatch_or_lookup.
  apply (follows_ambiguous _ _ _ (fun x s' => match x with
    | Ok a => reported purpose permit_id nonce base s a s'
    | Raise e => broker_called (Raise e) s' end)).
  - apply (follows_bind _ _ _ _ _ Hb).
    + intros result s' [-> _]. unfold dispatched. rewrite Hheld, Hnonce. cbn. split; [done|]. by left.
    + clear_debt.
  - clear_debt.
  - intros s' [-> _]. apply mark_follows; [done| |clear_debt]. intros _ s' [Hw Hp].
    apply (follows_bind _ _ _ _ _ (lookup_or_defer_follows claim permit_id id s'
      ltac:(unfold claimed in *; congruence) ltac:(unfold quiescent; by rewrite Hp))).
    + intros result s2 [[Hw2 Hp2] Hl]. cbn. split; [congruence|]. right. repeat split; congruence.
    + intros e s2 H. exact H.
  - intros e s' Hne [-> H]. split; [exact H|]. unfold dispatched. rewrite Hheld. by destruct e.
Qed.
End Dispatch.

(** From a prepared permit to the held dispatch. *)
Lemma hold_follows {A} purpose plan claim permit attempt s (f : BrokerMutationPermit -> service A) post :
  authorised actor s claim -> w_phase s = Ready purpose plan permit attempt ->
  (forall dispatch s', w_claim s' = w_claim s ->
     w_phase s' = Held purpose plan (bp_permit_id permit) attempt dispatch -> follows (f dispatch) s' post) ->
  (forall e s', no_debt s' -> quiet e \/ (w_claim s' = w_claim s /\ w_phase s' = Idle /\ w_cancel_due s' = true) ->
     post (Raise e) s') ->
  follows (acquire_broker_dispatch (bp_permit_id permit) claim ≫= f) s post.
Proof.
  intros Hc Hp Hf He. apply (follows_call (AcquireBrokerDispatch (bp_permit_id permit) claim)).
  - cbn. rewrite Hp. done.
  - intros dispatch _. cbn. rewrite Hp. by apply Hf.
  - intros e _. cbn. rewrite Hp. apply He, due_or_quiet. done.
Qed.

Lemma follows_optional {A B} (o : option B) code (f : B -> service A) s post :
  (forall b, o = Some b -> follows (f b) s post) ->
  post (Raise (ExecutionBlocked code)) s ->
  follows ((match o with Some b => Return b | None => stop code end) ≫= f) s post.
Proof. destruct o; cbn; auto. Qed.

(** Preparing, and the permit and attempt of the preparation. *)
Lemma require_prepared_follows {A} purpose plan claim now code s
    (f : BrokerMutationPermit * OrderAttempt -> service A) post :
  authorised actor s claim -> w_phase s = Planned purpose plan -> w_sweep s = None ->
  quiet (ExecutionBlocked code) ->
  (forall permit attempt s', w_claim s' = w_claim s ->
     w_phase s' = Ready purpose plan permit attempt -> follows (f (permit, attempt)) s' post) ->
  (forall e s', no_debt s' -> quiet e \/ (w_claim s' = w_claim s /\ w_phase s' = Idle /\ w_cancel_due s' = true) ->
     post (Raise e) s') ->
  follows (prepared ← _prepare plan claim now; require_prepared prepared code ≫= f) s post.
Proof.
  intros Hc Hp Hn Hq Hf He.
  apply (follows_bind _ _ _ _ _ (prepare_follows purpose plan claim now s Hc Hp Hn)).
  - intros prepared s' [Hw Hp']. unfold require_prepared.
    destruct (pr_permit prepared), (pr_attempt prepared); cbn;
      [by apply Hf|(apply He; [clear_debt|by left])..].
  - intros e s' [Hd H]. by apply He.
Qed.

Lemma same_claim_authorised s s' claim :
  w_claim s' = w_claim s -> authorised actor s claim -> authorised actor s' claim.
Proof. intros H (Hc & Ha). split; [|clear_debt]. unfold claimed in *. congruence. Qed.

Lemma authorised_claimed s s' claim : w_claim s' = w_claim s -> authorised actor s claim -> claimed s' claim.
Proof. intros H [Hc _]. unfold claimed in *. congruence. Qed.

Lemma quiet_other code : code <> CANCEL_DUE -> quiet (ExecutionBlocked code).
Proof. intros H [= E]. by apply H. Qed.
#[local] Hint Extern 1 (quiet (ExecutionBlocked _)) => (apply quiet_other; unfold CANCEL_DUE; discriminate) : core.

Lemma replace_active_follows claim now plan s :
  authorised actor s claim -> w_phase s = Planned REPLACE plan -> w_sweep s = None ->
  follows (_replace_active claim now plan) s (or_due s (fun _ => over REPLACE s)).
Proof.
  intros Hc Hp Hw0. unfold _replace_active.
  apply (require_prepared_follows REPLACE); [done|done|done|auto| |clear_debt]. intros permit attempt s1 Hw1 Hp1.
  apply (hold_follows REPLACE plan _ permit attempt); [by eapply same_claim_authorised|done| |].
  2: { intros e s2 Hd [?|(? & ? & ?)]; (split; [done|]); [by left|]. right. split; [congruence|done]. }
  intros dispatch s2 Hw2 Hp2. apply follows_optional; [|split; [clear_debt|left; auto]]. intros nonce Hn.
  apply follows_optional; [|split; [clear_debt|left; auto]]. intros target Ht.
  assert (Hc2 : claimed s2 claim) by (eapply authorised_claimed; [|exact Hc]; congruence).
  eapply follows_bind.
  - apply (dispatch_or_lookup_follows REPLACE plan (bp_permit_id permit) nonce attempt dispatch s2 Hp2 Hn);
      [done|].
    apply (follows_ask (BrokerReplace _ _ _)).
    + cbn. rewrite Hp2. repeat split; [by exists nonce|done|]. by exists claim.
    + intros [r|e] Hr; split; try done. by apply Hr.
  - intros [[result source] dn] s3 H3. cbn [decide] in H3.
    eapply record_follows; [exact Hc2|exact H3| |by (split; [|left])].
    intros _ s4 [Hw4 Hp4]. cbn. split; [congruence|clear_debt].
  - intros e s3 [H Hd]. by (split; [|left]).
Qed.

Lemma roll_quotes_follow {A} claim s (f : unit -> service A) post :
  authorised actor s claim -> w_phase s = Idle ->
  (forall s', authorised actor s' claim -> w_phase s' = Idle -> w_schedule s' = w_schedule s ->
     quoted s' claim SUBMIT None -> w_claim s' = w_claim s -> follows (f tt) s' (returns post)) ->
  follows ((if decide (oe_action (ei_envelope claim) = EX_ROLL) then
         _ ← refuse_if (negb quotes) "ROLL_EXECUTION_QUOTES_REQUIRED";
         snapshots ← collect_quotes (map li_symbol (oe_legs (ei_envelope claim)));
         trusted ← trusted_execution_time claim;
         lift (_validate_roll_quote_authority claim snapshots trusted)
       else Return tt) ≫= f) s (returns post).
Proof.
  intros Hc Hp Hf. destruct (decide _) as [Ha|Ha].
  - eapply (follows_bind _ _ _ (returns (fun _ s' => exists snapshots trusted,
      s' = set_trusted (Some trusted) (set_quotes (Some snapshots) s) /\
      _validate_roll_quote_authority claim snapshots trusted = Ok tt))).
    + apply follows_refuse; [intros _|clear_debt].
      apply (follows_call (CollectQuotes _)); [by exists claim|intros snapshots _|clear_debt].
      apply (follows_call (TrustedExecutionTime claim)); [|intros trusted _|clear_debt].
      { split; [unfold quiescent; cbn; by rewrite Hp|]. apply Hc. }
      apply accepts_lift. destruct (_validate_roll_quote_authority claim snapshots trusted) as [[]|] eqn:E;
        [|clear_debt]. cbn. exists snapshots, trusted. done.
    + intros [] s' (snapshots & trusted & -> & Hv). apply Hf; try done.
      split; [done|]. intros _. by exists snapshots, trusted.
    + clear_debt.
  - apply Hf; try done.
Qed.

Lemma submit_active_follows claim now s :
  authorised actor s claim -> w_phase s = Idle -> scheduled s SUBMIT ->
  follows (_submit_active quotes claim now) s (returns (fun _ => over SUBMIT s)).
Proof.
  intros Hc Hp Hs. unfold _submit_active.
  apply (roll_quotes_follow claim s); [done|done|]. intros s0 Hc0 Hp0 Hs0 Hq0 Hw0.
  apply (follows_call (PlanBrokerMutation claim SUBMIT None)); [|intros plan _|clear_debt].
  { cbn. split; [done|]. split; [done|]. split; [|clear_debt].
    left. rewrite Hs0. destruct Hs as [Hs|[? _]]; [exact Hs|clear_debt]. }
  apply (require_prepared_follows SUBMIT); [done|done|done|auto| |clear_debt]. intros permit attempt s1 Hw1 Hp1.
  apply (hold_follows SUBMIT plan _ permit attempt); [by eapply same_claim_authorised|done| |clear_debt].
  intros dispatch s2 Hw2 Hp2. apply follows_optional; [|clear_debt]. intros nonce Hn.
  assert (Hc2 : claimed s2 claim) by (eapply authorised_claimed; [|exact Hc0]; cbn in *; congruence).
  eapply follows_bind.
  - apply (dispatch_or_lookup_follows SUBMIT plan (bp_permit_id permit) nonce attempt dispatch s2 Hp2 Hn);
      [done|].
    apply (follows_ask (BrokerSubmit _ _)).
    + cbn. rewrite Hp2. repeat split; [by exists nonce|]. unfold claimed in Hc2. by rewrite Hc2.
    + intros [r|e] Hr; split; try done. by apply Hr.
  - intros [[result source] dn] s3 H3. cbn [decide] in H3.
    eapply record_follows; [exact Hc2|exact H3| |clear_debt].
    intros _ s4 [Hw4 Hp4]. cbn in *. split; [congruence|clear_debt].
  - clear_debt.
Qed.

Lemma cancel_lookups_follow n claim permit_id planned observed s :
  claimed s claim -> w_phase s = Dispatched CANCEL ->
  follows (cancel_lookups n claim permit_id planned observed) s (returns (fun _ => over CANCEL s)).
Proof.
  revert observed s. induction n as [|n IH]; intros observed s Hc Hp; cbn [cancel_lookups]; [done|].
  destruct (negb _); [done|]. eapply follows_bind.
  - apply lookup_or_defer_follows; [done|]. unfold quiescent. by rewrite Hp.
  - intros result s1 [[Hw1 Hp1] Hl]. apply (record_follows CANCEL permit_id 0%N planned s s1); [done| | |clear_debt].
    + split; [done|]. right. repeat split; congruence.
    + intros _ s2 [Hw2 Hp2]. eapply accepts_weaken; [apply IH|].
      * unfold claimed in *. congruence.
      * done.
      * intros [o|e] s3; cbn; [|clear_debt]. intros [Hw3 Hp3]. split; congruence.
  - clear_debt.
Qed.

Lemma cancel_active_follows claim now s :
  authorised actor s claim -> w_phase s = Idle -> scheduled s CANCEL ->
  follows (_cancel_active claim now) s
    (returns (fun outcome s' => over CANCEL s s' /\ outcome.2 <> "FINALIZED")).
Proof.
  intros Hc Hp Hs. unfold _cancel_active.
  apply (follows_call (PlanBrokerMutation claim CANCEL None)); [done|intros plan _|clear_debt].
  apply (require_prepared_follows CANCEL); [done|done|done|auto| |clear_debt]. intros permit attempt s1 Hw1 Hp1.
  apply (hold_follows CANCEL plan _ permit attempt); [by eapply same_claim_authorised|done| |clear_debt].
  intros dispatch s2 Hw2 Hp2. apply follows_optional; [|clear_debt]. intros nonce Hn.
  apply follows_optional; [|clear_debt]. intros target Ht.
  assert (Hc2 : claimed s2 claim) by (eapply authorised_claimed; [|exact Hc]; cbn in *; congruence).
  apply (follows_bind _ _ _ (returns (fun result s3 => reported CANCEL (bp_permit_id permit) nonce
    (pl_attempt plan) s2 (result, DISPATCH_OUTCOME, Some nonce) s3))).
  - apply (follows_ambiguous _ _ _ (broker_called s2)).
    + apply (follows_ask (BrokerCancel target)).
      * cbn. rewrite Hp2. split; [by exists nonce|clear_debt].
      * intros [r|e] Hr; split; try done. by apply Hr.
    + intros result s3 [-> _]. unfold dispatched. rewrite Hp2, Hn. cbn. split; [done|]. by left.
    + intros s3 [-> _]. eapply mark_follows; [exact Hp2|exact Hn|done| |done].
      intros _ s4 [_ Hp4]. unfold stop_pending. cbn. unfold no_debt. by rewrite Hp4.
    + intros e s3 Hne [-> _]. cbn. unfold dispatched. rewrite Hp2. by destruct e.
  - intros result s3 H3. apply (record_follows CANCEL _ nonce _ s2 s3); [done|done| |clear_debt].
    intros _ s4 [Hw4 Hp4]. eapply follows_bind; [apply cancel_lookups_follow|..].
    + unfold claimed in *. congruence.
    + clear_debt.
    + intros observed s5 [Hw5 Hp5]. unfold cancel_outcome.
      assert (Ho : over CANCEL s s5) by (cbn in *; split; congruence).
      assert (Hd : no_debt s5) by (unfold no_debt; by rewrite (proj2 Ho)).
      repeat (case_match; cbn; try done).
    + clear_debt.
  - clear_debt.
Qed.

(** ** The advance *)

(** The outcome says what was dispatched and carries the certificate that was issued. *)
Definition advanced (advance : ExecutionAdvance) (s : watch) : Prop :=
  w_phase s = match ad_mutation advance with Some purpose => Dispatched purpose | None => Idle end /\
  (forall certificate, ad_certificate advance = Some certificate ->
     ad_status advance = "FINALIZED" /\ w_certificate s = Some certificate) /\
  (ad_status advance = "FINALIZED" -> is_Some (ad_certificate advance)).

(** Parts of the advance: the outcome, and the claim is still the same. *)
Definition advancing (s0 : watch) (a : ExecutionAdvance) (s : watch) : Prop :=
  w_claim s = w_claim s0 /\ advanced a s.

Lemma waiting_advanced s claim attempt : w_phase s = Idle -> advanced (waiting claim attempt) s.
Proof. intros Hp. split; [done|]. split; [done|]. discriminate. Qed.

Lemma finalized_advanced s claim attempt certificate :
  w_phase s = Idle -> w_certificate s = Some certificate ->
  advanced (finalized_advance claim attempt certificate) s.
Proof.
  intros Hp Hc. split; [done|]. split; [|by eexists]. cbn. intros c [= <-]. done.
Qed.

Lemma idle_quiescent s : w_phase s = Idle -> quiescent s.
Proof. intros H. unfold quiescent. by rewrite H. Qed.
#[local] Hint Resolve idle_quiescent : core.

Lemma cancel_advance_follows claim now s :
  authorised actor s claim -> w_phase s = Idle -> scheduled s CANCEL ->
  follows (_cancel_advance claim now) s (returns (fun a s' => advancing s a s' /\ ad_mutation a = Some CANCEL)).
Proof.
  intros Hc Hp Hs. unfold _cancel_advance.
  apply (follows_bind _ _ _ _ _ (cancel_active_follows claim now s Hc Hp Hs)); [|clear_debt].
  intros [observed status] s' [[Hw Hd] Hf]. cbn. split; [|clear_debt]. split; [done|]. split; [done|]. done.
Qed.

Lemma scheduled_by s schedule : w_schedule s = Some schedule -> scheduled s (sc_purpose schedule).
Proof. intros H. left. by rewrite H. Qed.

(** What the service does with a schedule asked for again. *)
Lemma reschedule_follows claim unchanged s :
  authorised actor s claim -> w_phase s = Idle ->
  (forall schedule, sc_purpose schedule = REPLACE ->
     follows (unchanged schedule) (set_schedule (Some schedule) s) (returns (advancing s))) ->
  follows (reschedule claim unchanged) s (returns (advancing s)).
Proof.
  intros Hc Hp Hu. unfold reschedule.
  apply (follows_call (NextBrokerMutation claim)); [done|intros [schedule|] _|clear_debt].
  2: { cbn. split; [done|]. by apply waiting_advanced. }
  apply (follows_bind _ _ _ (returns (fun changed s' => match changed with
    | Some a => advancing s a s'
    | None => s' = set_schedule (Some schedule) s /\ sc_purpose schedule = REPLACE end))).
  - unfold _changed_replacement_schedule. destruct (decide _) as [Hs|_]; [|destruct (decide _); [done|]].
    2: { cbn. unfold no_debt. cbn. by rewrite Hp. }
    eapply follows_bind; [apply cancel_advance_follows|..]; try done.
    + left. cbn. by rewrite Hs.
    + intros a s' [[Hw Ha] _]. done.
  - intros [a|] s' H; cbn; [done|]. destruct H as [-> Hs]. by apply Hu.
  - clear_debt.
Qed.

Lemma replace_due_follows claim s :
  authorised actor s claim -> w_phase s = Idle ->
  follows (_replace_due quotes claim) s (returns (advancing s)).
Proof.
  intros Hc Hp. unfold _replace_due. apply follows_refuse; [intros _|clear_debt].
  apply (follows_call (AttemptsFor (ei_intent_id claim))); [|intros attempts _|clear_debt].
  { cbn. split; [auto|]. destruct Hc as [Hc _]. unfold claimed in Hc. by rewrite Hc. }
  eapply (follows_bind _ _ _ (returns (fun _ s' => s' = s))).
  { unfold last_attempt. destruct (last attempts); [done|]. cbn. clear_debt. }
  2: clear_debt. intros current s1 ->.
  eapply (follows_bind _ _ _ (returns (fun _ s' => s' = s))).
  { unfold second_last_attempt, last_attempt. case_match; [destruct (last (removelast attempts)); [done|]; cbn; clear_debt|done]. }
  2: clear_debt. intros target s2 ->. cbv zeta.
  apply follows_lift; [intros raised _|clear_debt]. apply follows_lift; [intros capped _|clear_debt].
  destruct capped.
  - apply reschedule_follows; [done|done|]. intros schedule Hs. cbn. split; [done|]. split; [done|]. done.
  - apply (follows_call (CollectQuotes _)); [by exists claim|intros snapshots _|clear_debt].
    eapply accepts_weaken; [apply reschedule_follows; [done|done|]|].
    2: { by intros [a|e] s'. }
    intros schedule Hs. apply follows_lift; [intros replacement Hr|clear_debt].
    apply (follows_call (PlanBrokerMutation claim REPLACE (Some replacement))); [|intros plan _|clear_debt].
    { cbn. repeat (split; [done|]). split; [left; cbn; by rewrite Hs|].
      by exists target, replacement, snapshots, schedule. }
    apply (follows_bind _ _ _ (returns (advancing s))); [|done|clear_debt].
    set (s3 := after _ _ _).
    apply (follows_blocked _ _ _ (or_due s3 (advancing s))).
    + apply (follows_bind _ _ _ _ _ (replace_active_follows claim (sc_timing_authority_at schedule) plan s3
        Hc eq_refl eq_refl)).
      * intros observed s4 [Hw4 Hp4]. cbn. split; [done|]. split; [done|]. done.
      * done.
    + clear_debt.
    + intros e code s4 [Hd H] He. destruct (String.eqb_spec code "REPLACEMENT_CANCEL_DUE") as [->|_].
      2: { done. }
      destruct H as [H|(Hw4 & Hp4 & Hd4)]; [by destruct H|].
      apply (follows_call (TrustedExecutionTime claim)); [|intros trusted _|clear_debt].
      { split; [auto|]. by eapply authorised_claimed. }
      eapply accepts_weaken; [apply cancel_advance_follows|].
      * by eapply same_claim_authorised, Hc.
      * done.
      * right. done.
      * intros [a|e'] s5; cbn; [|clear_debt]. intros [[Hw5 Ha5] _]. split; [|clear_debt]. cbn in *. congruence.
    + clear_debt.
Qed.

Lemma finalize_now_follows claim attempt s :
  claimed s claim -> w_phase s = Idle ->
  follows (finalize_now claim attempt) s
    (returns (fun a s' => kept s s' /\ advanced a s')).
Proof.
  intros Hc Hp. unfold finalize_now.
  apply (follows_call (TrustedExecutionTime claim)); [by split; auto|intros trusted _|clear_debt].
  eapply follows_bind; [apply finalize_active_follows|..]; [done|by apply idle_quiescent|..|clear_debt].
  intros certificate s' [[Hw Hp'] Hcert]. cbn. split; [done|].
  apply finalized_advanced; cbn in *; congruence.
Qed.

(** Looking only: the outcome of a transitional order, or the phase and claim unchanged. *)
Definition looked (s0 : watch) (a : option ExecutionAdvance) (s : watch) : Prop :=
  kept s0 s /\ match a with Some a => advanced a s | None => True end.

Lemma lookup_transitional_follows claim s :
  claimed s claim -> w_phase s = Idle ->
  follows (_lookup_transitional claim) s (returns (looked s)).
Proof.
  intros Hc Hp. unfold _lookup_transitional.
  apply (follows_call (TargetedLookupAuthority claim)); [by split; auto|intros authority _|clear_debt].
  destruct authority as [[permit_id current]|]; [|clear_debt].
  eapply follows_bind; [apply lookup_or_defer_follows; [done|by apply idle_quiescent]|..|clear_debt].
  intros result s1 [Hk Hl]. assert (Hp1 : w_phase s1 = Idle) by (destruct Hk; cbn in *; congruence).
  apply (follows_call (RecordAttemptObservation permit_id (with_result current result)
    TARGETED_LOOKUP claim None)).
  { cbn. split; [by eapply kept_claimed|]. split; [auto|]. split; [done|]. by exists current, result. }
  2: { intros e _. cbn. unfold settled, no_debt. rewrite Hp1. by rewrite Hp1. }
  intros o _. unfold after, settled. rewrite Hp1.
  destruct (still_pending _).
  - cbn. split; [done|]. by apply waiting_advanced.
  - eapply follows_bind; [apply finalize_now_follows; [by eapply kept_claimed|clear_debt]|..|clear_debt].
    intros a s2 [Hk2 Ha]. cbn. split; [by eapply kept_trans|clear_debt].
Qed.

Lemma looked_idle s0 a s : w_phase s0 = Idle -> looked s0 a s -> w_phase s = Idle.
Proof. intros Hp [[_ H] _]. congruence. Qed.

Lemma waiting_or_finalized_follows claim s :
  claimed s claim -> w_phase s = Idle ->
  follows (_waiting_or_finalized_advance claim) s (returns (advancing s)).
Proof.
  intros Hc Hp. unfold _waiting_or_finalized_advance.
  apply (follows_call (ExecutionAttemptsFor (ei_intent_id claim))); [|intros attempts _|clear_debt].
  { cbn. split; [auto|]. unfold claimed in Hc. by rewrite Hc. }
  assert (Hfin : forall s1 attempt, kept s s1 -> follows (finalize_now claim attempt) s1 (returns (advancing s))).
  { intros s1 attempt Hk. destruct (Hk) as [Hw1 Hp1].
    eapply accepts_weaken; [apply finalize_now_follows; [by eapply kept_claimed|congruence]|].
    intros [a|e] s2; cbn; [|clear_debt]. intros [[Hw2 _] Ha]. split; [congruence|clear_debt]. }
  assert (Hwait : advancing s (waiting claim None) s) by (split; [done|by apply waiting_advanced]).
  destruct (last attempts) as [final|]; [|exact Hwait].
  apply follows_lift; [intros required _|clear_debt]. destruct required; [by apply Hfin|].
  eapply follows_bind; [by apply lookup_transitional_follows|..|clear_debt].
  intros [a|] s1 [Hk Ha]; [cbn; split; [apply Hk|clear_debt]|].
  assert (Hwait1 : advancing s (waiting claim None) s1).
  { split; [apply Hk|]. apply waiting_advanced. destruct Hk as [_ Hk]. cbn in *. congruence. }
  destruct (String.eqb _ _); [exact Hwait1|]. destruct (in_states _ _); [exact Hwait1|].
  by apply Hfin.
Qed.

Lemma transitional_follows claim s :
  claimed s claim -> w_phase s = Idle ->
  follows (transitional_advance claim) s (returns (looked s)).
Proof.
  intros Hc Hp. unfold transitional_advance.
  apply (follows_call (ExecutionAttemptsFor (ei_intent_id claim))); [|intros attempts _|clear_debt].
  { cbn. split; [auto|]. unfold claimed in Hc. by rewrite Hc. }
  destruct (bool_decide _); [done|].
  eapply follows_bind; [by apply lookup_transitional_follows|..|clear_debt].
  intros [found|] s1 [Hk Ha]; [|clear_debt].
  destruct (ad_attempt found) as [attempt|]; [destruct (negb _)|]; (split; [exact Hk|clear_debt]).
Qed.

Lemma completed_follows claim s :
  claimed s claim -> w_phase s = Idle ->
  follows (_completed_advance claim actor) s (returns (advancing s)).
Proof.
  intros Hc Hp. unfold _completed_advance, _require_claim_actor.
  apply follows_refuse; [intros Ha|clear_debt]. apply negb_false_iff, bool_decide_eq_true in Ha.
  apply (follows_call (GetExecutionCertificate _)); [|intros certificate _|clear_debt].
  { exists claim. repeat split; auto. }
  apply (follows_call (ExecutionAttemptsFor (ei_intent_id claim))); [|intros attempts _|clear_debt].
  { cbn. split; [by apply idle_quiescent|]. unfold claimed in Hc. by rewrite Hc. }
  unfold last_attempt. destruct (last attempts) as [final|]; cbn; [|clear_debt].
  split; [done|]. by apply finalized_advanced.
Qed.

Lemma follow_schedule_follows intent_id claim schedule s :
  authorised actor s claim -> w_phase s = Idle -> w_schedule s = Some schedule ->
  follows (follow_schedule quotes intent_id claim schedule) s (returns (advancing s)).
Proof.
  intros Hc Hp Hs. pose proof (scheduled_by _ _ Hs) as Hd. unfold follow_schedule.
  destruct (sc_purpose schedule).
  - eapply follows_bind; [by apply submit_active_follows|..|clear_debt].
    intros observed s1 [Hw1 Hp1]. cbn. split; [done|]. split; [done|]. split; done.
  - by apply replace_due_follows.
  - eapply accepts_weaken; [by apply cancel_advance_follows|]. intros [a|e] s1; cbn; [tauto|clear_debt].
  - clear_debt.
Qed.

Lemma claim_follows intent_id account_role account_fingerprint s :
  w_phase s = Idle ->
  follows (_claim intent_id actor account_role account_fingerprint) s
    (returns (fun claim s' => claimed s' claim /\ w_phase s' = Idle)).
Proof.
  intros Hp. unfold _claim.
  apply (follows_blocked _ _ _ (fun x s' => w_phase s' = Idle /\
    match x with Ok claim => claimed s' claim | Raise _ => True end)).
  - apply (follows_ask (ClaimIntentCall intent_id actor EPOCH account_role account_fingerprint)).
    + split; auto.
    + intros [claim|e] _; done.
  - intros claim s' [Hp' Hc]. done.
  - intros e code s' [Hp' _] _. destruct (negb _); [cbn; clear_debt|].
    apply (follows_call (GetIntentCall intent_id)); [by apply idle_quiescent|intros existing _|clear_debt].
    destruct (bool_decide _); [clear_debt|done].
  - clear_debt.
Qed.

Lemma advance_follows intent_id account_role account_fingerprint s :
  w_phase s = Idle ->
  follows (advance quotes self_account_role self_account_fingerprint intent_id actor account_role
             account_fingerprint) s (returns advanced).
Proof.
  intros Hp. unfold advance. apply follows_refuse; [intros _|clear_debt].
  eapply follows_bind; [by apply claim_follows|..|clear_debt]. intros claim s1 [Hc Hp1].
  destruct (bool_decide (ei_state claim = TERMINAL)) eqn:Ht.
  { eapply accepts_weaken; [by apply completed_follows|]. intros [a|e] s2; [intros [_ H]; exact H|clear_debt]. }
  unfold _require_claim_actor. apply follows_refuse; [intros Ha|clear_debt].
  apply follows_lift; [intros [] Hv|clear_debt].
  apply negb_false_iff, bool_decide_eq_true in Ha. apply bool_decide_eq_false in Ht.
  assert (Hauth : authorised actor s1 claim) by done.
  eapply follows_bind; [by apply transitional_follows|..|clear_debt].
  intros [found|] s2 [Hk Hf]; [exact Hf|]. pose proof (kept_authorised _ _ _ Hk Hauth) as Hauth2.
  assert (Hp2 : w_phase s2 = Idle) by (destruct Hk; congruence).
  apply (follows_bind _ _ _ (returns (fun schedule s' => w_claim s' = w_claim s2 /\ w_phase s' = Idle /\
    match schedule with Some (Some schedule) => w_schedule s' = Some schedule | _ => True end))); [| |clear_debt].
  - apply (follows_blocked _ _ _ (fun x s' => w_claim s' = w_claim s2 /\ w_phase s' = Idle /\
      match x with Ok (Some (Some schedule)) => w_schedule s' = Some schedule | _ => True end)).
    + apply (follows_call (NextBrokerMutation claim)); [done|intros [schedule|] _; done|clear_debt].
    + clear_debt.
    + intros e code s' H _. destruct (String.eqb _ _); [|clear_debt]. exact H.
    + clear_debt.
  - intros schedule s3 (Hw3 & Hp3 & Hs3). pose proof (same_claim_authorised _ _ _ Hw3 Hauth2) as Hauth3.
    assert (Hw : forall p, follows p s3 (returns (advancing s3)) -> follows p s3 (returns advanced)).
    { intros p H. eapply accepts_weaken; [exact H|]. intros [a|e] s4; [intros [_ Ha4]; exact Ha4|clear_debt]. }
    apply Hw. destruct schedule as [[schedule|]|]; [by apply follow_schedule_follows|..];
      (apply waiting_or_finalized_follows; [apply Hauth3|clear_debt]).
Qed.

Lemma execute_follows has_plan has_get intent_id now account_role account_fingerprint s :
  w_phase s = Idle ->
  follows (execute quotes self_account_role self_account_fingerprint has_plan has_get intent_id actor
             now account_role account_fingerprint) s
    (returns (fun certificate s' => w_certificate s' = Some certificate)).
Proof.
  intros Hp. unfold execute. apply follows_refuse; [intros _|clear_debt]. destruct (negb has_get).
  { apply (follows_call (ClaimIntentCall intent_id actor now _ _)); [split; auto|intros; cbn; clear_debt|clear_debt]. }
  cbv zeta. eapply follows_bind; [by apply advance_follows|..|clear_debt].
  intros a s1 (Hp1 & Hcert & _). destruct (ad_certificate a) as [certificate|].
  { apply (Hcert certificate). reflexivity. }
  assert (Hq : quiescent s1) by (unfold quiescent; rewrite Hp1; by destruct (ad_mutation a)).
  destruct (ad_attempt a) as [attempt|]; [|cbn; clear_debt].
  apply follows_lift; [intros required _|clear_debt]. destruct required; [|cbn; clear_debt].
  apply (follows_call (GetIntentCall intent_id)); [done|intros claim _|clear_debt].
  apply (follows_call (TrustedExecutionTime claim)); [done|intros trusted _|clear_debt].
  eapply accepts_weaken; [by apply finalize_active_follows|]. intros [c|e] s2; [|clear_debt]. intros [_ H]. exact H.
Qed.
End Follows.
