(* ===== verification/ServiceSafety.v ===== *)
(** * What every run of the execution service does

    The theorems of the service, read off the automaton: refinement of the protocol, one
    broker mutation at most, every broker call under a dispatch acquired just before and
    settled just after, and certificates only from the repository. *)

From Stdlib Require Import ZArith Lia String Ascii List Bool.
From stdpp Require Import base strings option tactics list.
From S2P Require Import Prelude Program PyText PyDecimal PyTime PyHash Contracts OrderLimits OrderStatus ExecModels Identity Finalization ReconciliationData Reconciliation ReconciliationFacts Permits Replacement ReconciliationRaises ExecutionService ExecutionProtocol ServiceProps.

#[local] Open Scope string_scope.
#[local] Open Scope Z_scope.
#[local] Opaque expected_certificate_id evaluate.

Abbreviation trace := (list (event answer)).

(** The broker mutation a call makes. *)
Definition broker_purpose (c : port) : option ReconciliationPurpose :=
  match c with
  | BrokerSubmit _ _ => Some SUBMIT
  | BrokerReplace _ _ _ => Some REPLACE
  | BrokerCancel _ => Some CANCEL
  | _ => None
  end.

Definition mutations (t : trace) : list ReconciliationPurpose :=
  omap (fun e => broker_purpose (ev_call e)) t.

(** The broker's answer to a mutation. *)
Definition broker_answer (c : port) : M (answer c) -> option (M BrokerResult) :=
  match c with
  | BrokerSubmit _ _ | BrokerReplace _ _ _ | BrokerCancel _ => fun r => Some r
  | _ => fun _ => None
  end.

(** ** Invariants of the automaton *)

(** The mutations made so far, by phase. *)
Definition phase_mutations (p : phase) : list ReconciliationPurpose :=
  match p with
  | Answered purpose _ _ _ | Ambiguous purpose _ _ | Dispatched purpose => [purpose]
  | _ => []
  end.

Lemma mutations_app t1 t2 : mutations (t1 ++ t2) = (mutations t1 ++ mutations t2)%list.
Proof. apply omap_app. Qed.

Lemma settled_mutations s : phase_mutations (w_phase (settled s)) = phase_mutations (w_phase s).
Proof. unfold settled. destruct (w_phase s) eqn:E; by rewrite ?E. Qed.

Lemma unplanned_mutations s : phase_mutations (w_phase (unplanned s)) = phase_mutations (w_phase s).
Proof. unfold unplanned. destruct (w_phase s) eqn:E; by rewrite ?E. Qed.

Lemma dispatched_mutations r s purpose plan permit_id attempt dispatch :
  w_phase s = Held purpose plan permit_id attempt dispatch ->
  phase_mutations (w_phase (dispatched r s)) = [purpose].
Proof. intros H. unfold dispatched. rewrite H. by destruct r as [|[]]. Qed.

(** A call that may be made in this phase, by cases on the phase. *)
Ltac by_phase s Ha E :=
  unfold quiescent, authorised in Ha; destruct (w_phase s) eqn:E; destruct_and?; try tauto;
  try discriminate.

Lemma step_mutations actor s c (r : M (answer c)) :
  allowed actor s c ->
  phase_mutations (w_phase (after s c r)) =
  (phase_mutations (w_phase s) ++ mutations [Event c r])%list.
Proof.
  intros Ha. unfold mutations. cbn [omap list_omap ev_call].
  destruct c; cbn [broker_purpose]; rewrite ?app_nil_r; cbn in Ha; cbn [after];
    rewrite ?settled_mutations; try done.
  1,2: by destruct r.
  - destruct Ha as (_ & Hp & _). by destruct r; cbn; rewrite Hp.
  - destruct Ha as [_ Ha]. by_phase s Ha E. destruct r as [prepared|]; [|done].
    by destruct (pr_permit prepared), (pr_attempt prepared).
  - destruct Ha as [_ Ha]. by_phase s Ha E. by destruct r.
  - by destruct r.
  - by destruct r as [[]|].
  - by_phase s Ha E. destruct purpose; try done. by eapply dispatched_mutations.
  - by_phase s Ha E. destruct purpose; try done. by eapply dispatched_mutations.
  - by_phase s Ha E. destruct purpose; try done. by eapply dispatched_mutations.
  - destruct r; [done|]. apply unplanned_mutations.
Qed.

Lemma trace_mutations actor t :
  monitored (allowed actor) after start t ->
  phase_mutations (w_phase (state_after after start t)) = mutations t.
Proof.
  intros H. apply (monitored_invariant (allowed actor) after
    (fun past s => phase_mutations (w_phase s) = mutations past) [] start t eq_refl); [|exact H].
  intros past s c r Hi Ha. rewrite mutations_app, <- Hi. by eapply step_mutations.
Qed.

(** A trace with a mutation, split at its call. *)
Lemma mutations_split t :
  mutations t <> [] -> exists t1 c r t2 answered,
    t = (t1 ++ Event c r :: t2)%list /\ broker_answer c r = Some answered.
Proof.
  induction t as [|[c r] t IH]; [done|]. intros H. destruct (broker_purpose c) as [purpose|] eqn:E.
  - exists [], c, r, t. destruct c; try discriminate E; by eexists.
  - unfold mutations in H. cbn in H. rewrite E in H.
    destruct (IH H) as (t1 & c1 & r1 & t2 & answered & -> & Ha). by exists (Event c r :: t1), c1, r1, t2, answered.
Qed.

(** The calls that move the mutation from phase to phase. *)
Definition moves (c : port) : bool :=
  match c with
  | PlanBrokerMutation _ _ _ | PrepareBrokerMutation _ _ _ | AcquireBrokerDispatch _ _ | CollectSweep _
  | BrokerSubmit _ _ | BrokerReplace _ _ _ | BrokerCancel _ | MarkBrokerDispatchAmbiguous _ _ _
  | RecordAttemptObservation _ _ _ _ _ => true
  | _ => false
  end.

Lemma still_phase s c (r : M (answer c)) : moves c = false -> w_phase (after s c r) = w_phase s.
Proof. destruct c; try done; intros _; cbn; try done; by destruct r as [[]|]. Qed.

(** The other calls are not made while a dispatch is open. *)
Lemma still_allowed actor s c : moves c = false -> allowed actor s c ->
  match w_phase s with Held _ _ _ _ _ | Answered _ _ _ _ | Ambiguous _ _ _ => False | _ => True end.
Proof.
  destruct c; try done; intros _ Ha; cbn in Ha; unfold quiescent in Ha;
    destruct (w_phase s) eqn:E; try done; naive_solver.
Qed.

(** A held dispatch is the answer to the acquisition just made. *)
Lemma step_held actor s c (r : M (answer c)) purpose plan permit_id attempt dispatch :
  allowed actor s c ->
  w_phase (after s c r) = Held purpose plan permit_id attempt dispatch ->
  exists claim permit,
    Event c r = Event (AcquireBrokerDispatch (bp_permit_id permit) claim) (Ok dispatch) /\
    w_phase s = Ready purpose plan permit attempt /\ permit_id = bp_permit_id permit /\
    w_claim s = Some claim /\ w_claim (after s c r) = Some claim.
Proof.
  intros Ha H. destruct (moves c) eqn:Hm.
  2: { pose proof (still_allowed _ _ _ Hm Ha) as Hn. rewrite still_phase in H by done. by rewrite H in Hn. }
  destruct c; try discriminate Hm; cbn in Ha, H; unfold quiescent in Ha.
  - destruct Ha as (_ & Hp & _). destruct r; [done|]. cbn in H. congruence.
  - destruct Ha as [_ Ha]. by_phase s Ha E. destruct r as [prepared|]; [|done].
    by destruct (pr_permit prepared), (pr_attempt prepared).
  - destruct Ha as [[Hc _] Ha]. unfold claimed in Hc. destruct (w_phase s) eqn:E; try done.
    subst. destruct r as [d|]; [|done]. injection H as <- <- <- <- <-. exists claim, permit.
    split; [done|]. split; [done|]. split; [done|]. split; [done|]. cbn. by rewrite E.
  - unfold settled in H. destruct source; [| |done]; by_phase s Ha E; cbn in H; by rewrite ?E in H.
  - unfold settled in H. destruct Ha as [_ Ha]. by_phase s Ha E.
  - by_phase s Ha E. unfold dispatched in H. rewrite E in H. by destruct r as [|[]].
  - by_phase s Ha E. unfold dispatched in H. rewrite E in H. by destruct r as [|[]].
  - by_phase s Ha E. unfold dispatched in H. rewrite E in H. by destruct r as [|[]].
  - destruct r; unfold unplanned in H; by_phase s Ha E; cbn in H; by rewrite ?E in H.
Qed.

(** The call with which an open dispatch is settled. *)
Lemma step_answered actor s c purpose permit_id nonce observed :
  allowed actor s c -> w_phase s = Answered purpose permit_id nonce observed ->
  exists claim, w_claim s = Some claim /\
    c = RecordAttemptObservation permit_id observed DISPATCH_OUTCOME claim nonce.
Proof.
  intros Ha H. destruct (moves c) eqn:Hm.
  2: { pose proof (still_allowed _ _ _ Hm Ha) as Hn. by rewrite H in Hn. }
  destruct c; try discriminate Hm; cbn in Ha; unfold quiescent in Ha; rewrite ?H in Ha; try naive_solver.
  destruct source; naive_solver.
Qed.

Lemma step_ambiguous actor s c purpose permit_id nonce :
  allowed actor s c -> w_phase s = Ambiguous purpose permit_id (Some nonce) ->
  exists claim, w_claim s = Some claim /\ c = MarkBrokerDispatchAmbiguous permit_id nonce claim.
Proof.
  intros Ha H. destruct (moves c) eqn:Hm.
  2: { pose proof (still_allowed _ _ _ Hm Ha) as Hn. by rewrite H in Hn. }
  destruct c; try discriminate Hm; cbn in Ha; unfold quiescent in Ha; rewrite ?H in Ha; try naive_solver.
  destruct source; naive_solver.
Qed.

(** A permit is ready when its preparation was answered, from the sweep before it. *)
Lemma step_ready actor s c (r : M (answer c)) purpose plan permit attempt :
  allowed actor s c -> w_phase (after s c r) = Ready purpose plan permit attempt ->
  exists reconciliation claim prepared evidence,
    Event c r = Event (PrepareBrokerMutation reconciliation (pl_attempt plan) claim) (Ok prepared) /\
    pr_permit prepared = Some permit /\ pr_attempt prepared = Some attempt /\
    w_phase s = Planned purpose plan /\ w_claim s = Some claim /\ w_claim (after s c r) = Some claim /\
    evaluated s (pl_expectation plan) reconciliation evidence.
Proof.
  intros Ha H. destruct (moves c) eqn:Hm.
  2: { exfalso. rewrite still_phase in H by done. destruct c; try discriminate Hm; cbn in Ha;
       unfold quiescent in Ha; rewrite H in Ha; naive_solver. }
  destruct c; try discriminate Hm; cbn in Ha, H; unfold quiescent in Ha.
  - destruct Ha as (_ & Hp & _). destruct r; [done|]. cbn in H. congruence.
  - destruct Ha as [[Hc _] Ha]. unfold claimed in Hc. destruct (w_phase s) eqn:E; try done.
    destruct Ha as [-> [evidence He]]. cbn.
    destruct r as [prepared|]; [|done]. rewrite E.
    destruct (pr_permit prepared) eqn:E1, (pr_attempt prepared) eqn:E2; try done.
    injection H as -> -> -> ->. by exists reconciliation, claim, prepared, evidence.
  - destruct Ha as [_ Ha]. by_phase s Ha E. by destruct r.
  - unfold settled in H. destruct source; [| |done]; by_phase s Ha E; cbn in H; by rewrite ?E in H.
  - unfold settled in H. destruct Ha as [_ Ha]. by_phase s Ha E.
  - by_phase s Ha E. unfold dispatched in H. rewrite E in H. by destruct r as [|[]].
  - by_phase s Ha E. unfold dispatched in H. rewrite E in H. by destruct r as [|[]].
  - by_phase s Ha E. unfold dispatched in H. rewrite E in H. by destruct r as [|[]].
  - destruct r; unfold unplanned in H; by_phase s Ha E; cbn in H; by rewrite ?E in H.
Qed.

(** While a mutation is planned, the sweep for it is collected once. *)
Lemma step_planned actor s c (r : M (answer c)) purpose plan :
  allowed actor s c -> w_phase (after s c r) = Planned purpose plan ->
  (exists claim replacement,
     Event c r = Event (PlanBrokerMutation claim purpose replacement) (Ok plan) /\
     w_sweep (after s c r) = None /\ w_claim s = Some claim /\ w_claim (after s c r) = Some claim /\
     scheduled s purpose /\ quoted s claim purpose replacement) \/
  (w_phase s = Planned purpose plan /\ w_sweep s = None /\ w_claim (after s c r) = w_claim s /\
   exists evidence, Event c r = Event (CollectSweep (pl_expectation plan)) (Ok evidence) /\
     w_sweep (after s c r) = Some (pl_expectation plan, evidence)).
Proof.
  intros Ha H. destruct (moves c) eqn:Hm.
  2: { right. rewrite still_phase in H by done. destruct c; try discriminate Hm; cbn in Ha;
       unfold quiescent in Ha; rewrite ?H in Ha; naive_solver. }
  destruct c; try discriminate Hm; cbn in Ha, H; unfold quiescent in Ha.
  - destruct Ha as ([Hc _] & Hp & Hs & Hq). unfold claimed in Hc. destruct r as [p|]; [|cbn in H; congruence].
    cbn in H. injection H as -> ->. left. by exists claim, replacement.
  - destruct Ha as [_ Ha]. by_phase s Ha E. destruct r as [prepared|]; [|done].
    by destruct (pr_permit prepared), (pr_attempt prepared).
  - destruct Ha as [_ Ha]. by_phase s Ha E. by destruct r.
  - unfold settled in H. destruct source; [| |done]; by_phase s Ha E; cbn in H; by rewrite ?E in H.
  - unfold settled in H. destruct Ha as [_ Ha]. by_phase s Ha E.
  - by_phase s Ha E. unfold dispatched in H. rewrite E in H. by destruct r as [|[]].
  - by_phase s Ha E. unfold dispatched in H. rewrite E in H. by destruct r as [|[]].
  - by_phase s Ha E. unfold dispatched in H. rewrite E in H. by destruct r as [|[]].
  - destruct r as [evidence|]; cbn in H; [|exfalso; unfold unplanned in H; by_phase s Ha E; cbn in H; by rewrite ?E in H].
    rewrite H in Ha. destruct Ha as [-> Hn]. right. repeat (split; [done|]). by exists evidence.
Qed.

(** ** The dispatch discipline of a monitored trace *)

(** What is sent is what the claim, the plan and the permit say. *)
Definition ordered (purpose : ReconciliationPurpose) (claim : ExecutionIntent)
    (plan : BrokerMutationPlan) (attempt : OrderAttempt) (dispatch : BrokerMutationPermit)
    (c : port) : Prop :=
  match c with
  | BrokerSubmit envelope client_id =>
      purpose = SUBMIT /\ envelope = ei_envelope claim /\
      client_id = oa_client_order_id (pl_attempt plan)
  | BrokerReplace target client_id limit =>
      purpose = REPLACE /\ bp_target_provider_order_id dispatch = Some target /\
      client_id = oa_client_order_id (pl_attempt plan) /\
      limit = default (oe_minimum_limit (ei_envelope claim)) (oa_limit_price attempt)
  | BrokerCancel target => purpose = CANCEL /\ bp_target_provider_order_id dispatch = Some target
  | _ => False
  end.

(** A broker call of a trace: [before] ends with its plan, the sweep of the account for that
    plan, the preparation of the reconciliation evaluated from the sweep, and the acquisition
    of the permit prepared; [rest] begins with the recording of the broker's answer, or with
    the mark that it is not known, and is empty when the broker refused the call by another
    exception. *)
Definition disciplined (before : trace) (c : port) (answered : M BrokerResult) (rest : trace) : Prop :=
  exists t0 purpose claim replacement plan evidence accepted reconciliation prepared permit attempt
         dispatch nonce,
    before = (t0 ++
      [Event (PlanBrokerMutation claim purpose replacement) (Ok plan);
       Event (CollectSweep (pl_expectation plan)) (Ok evidence);
       Event (PrepareBrokerMutation reconciliation (pl_attempt plan) claim) (Ok prepared);
       Event (AcquireBrokerDispatch (bp_permit_id permit) claim) (Ok dispatch)])%list /\
    evaluate (we_sweep evidence) (pl_expectation plan) accepted = Ok reconciliation /\
    pr_permit prepared = Some permit /\ pr_attempt prepared = Some attempt /\
    bp_dispatch_nonce dispatch = Some nonce /\
    ordered purpose claim plan attempt dispatch c /\
    match answered with
    | Ok result => exists r t3,
        rest = Event (RecordAttemptObservation (bp_permit_id permit)
                 (with_result (if decide (purpose = REPLACE) then attempt else pl_attempt plan) result)
                 DISPATCH_OUTCOME claim (Some nonce)) r :: t3
    | Raise AmbiguousBrokerResponse => exists r t3,
        rest = Event (MarkBrokerDispatchAmbiguous (bp_permit_id permit) nonce claim) r :: t3
    | Raise _ => rest = []
    end.

(** The last step of a trace that has left the first state. *)
Lemma last_step actor t (P : watch -> Prop) :
  monitored (allowed actor) after start t -> P (state_after after start t) -> ~ P start ->
  exists t0 c r, t = (t0 ++ [Event c r])%list /\ monitored (allowed actor) after start t0 /\
    allowed actor (state_after after start t0) c /\ P (after (state_after after start t0) c r).
Proof.
  destruct t as [|[c r] t0 _] using rev_ind; [done|]. rewrite monitored_app, state_after_app. cbn.
  intros (Hm & Ha & _) HP _. by exists t0, c, r.
Qed.

Lemma planned_trace actor t purpose plan evidence :
  monitored (allowed actor) after start t ->
  w_phase (state_after after start t) = Planned purpose plan ->
  w_sweep (state_after after start t) = Some (pl_expectation plan, evidence) ->
  exists t0 claim replacement, w_claim (state_after after start t) = Some claim /\
    t = (t0 ++ [Event (PlanBrokerMutation claim purpose replacement) (Ok plan);
                Event (CollectSweep (pl_expectation plan)) (Ok evidence)])%list.
Proof.
  intros Hm Hp Hs.
  destruct (last_step _ _ (fun s => w_phase s = Planned purpose plan /\ w_claim s = w_claim
    (state_after after start t) /\ w_sweep s = Some (pl_expectation plan, evidence)) Hm)
    as (t1 & c & r & Ht & Hm1 & Ha & Hp1 & Hc1 & Hs1); [done|by intros [? _]|].
  destruct (step_planned _ _ _ _ _ _ Ha Hp1) as [(claim & rep & _ & Hn & _)|(Hp2 & Hn & Hc & x & Hx & Hsx)];
    [congruence|].
  assert (x = evidence) as -> by congruence.
  destruct (last_step _ _ (fun s => w_phase s = Planned purpose plan /\ w_sweep s = None /\
    w_claim s = w_claim (state_after after start t)) Hm1)
    as (t2 & c2 & r2 & Ht2 & Hm2 & Ha2 & Hp3 & Hs3 & Hc3); [split; [done|split; [done|congruence]]|by intros [? _]|].
  destruct (step_planned _ _ _ _ _ _ Ha2 Hp3) as [(claim & rep & E & _ & _ & Hc4 & _)|(_ & _ & _ & y & E & Hy)].
  - exists t2, claim, rep. split; [congruence|]. by rewrite Ht, Ht2, E, Hx, <- app_assoc.
  - congruence.
Qed.

Lemma ready_trace actor t purpose plan permit attempt :
  monitored (allowed actor) after start t ->
  w_phase (state_after after start t) = Ready purpose plan permit attempt ->
  exists t0 claim replacement evidence accepted reconciliation prepared,
    w_claim (state_after after start t) = Some claim /\
    pr_permit prepared = Some permit /\ pr_attempt prepared = Some attempt /\
    evaluate (we_sweep evidence) (pl_expectation plan) accepted = Ok reconciliation /\
    t = (t0 ++ [Event (PlanBrokerMutation claim purpose replacement) (Ok plan);
                Event (CollectSweep (pl_expectation plan)) (Ok evidence);
                Event (PrepareBrokerMutation reconciliation (pl_attempt plan) claim) (Ok prepared)])%list.
Proof.
  intros Hm Hp.
  destruct (last_step _ _ (fun s => w_phase s = Ready purpose plan permit attempt /\
    w_claim s = w_claim (state_after after start t)) Hm)
    as (t1 & c & r & Ht & Hm1 & Ha & Hp1 & Hc1); [done|by intros [? _]|].
  destruct (step_ready _ _ _ _ _ _ _ _ Ha Hp1)
    as (reconciliation & claim & prepared & evidence & E & H1 & H2 & Hp2 & Hc2 & Hc3 & Hs & now & acc & _ & He).
  destruct (planned_trace _ _ _ _ _ Hm1 Hp2 Hs) as (t0 & claim2 & replacement & Hc4 & Ht1).
  assert (claim2 = claim) as -> by congruence.
  exists t0, claim, replacement, evidence, acc, reconciliation, prepared.
  repeat (split; [first [done|congruence]|]). by rewrite Ht, E, Ht1, <- app_assoc.
Qed.

Lemma step_dispatch actor s c (r : M (answer c)) answered :
  allowed actor s c -> broker_answer c r = Some answered ->
  exists purpose plan permit_id attempt dispatch nonce,
    w_phase s = Held purpose plan permit_id attempt dispatch /\
    bp_dispatch_nonce dispatch = Some nonce /\ after s c r = dispatched answered s /\
    forall claim, w_claim s = Some claim -> ordered purpose claim plan attempt dispatch c.
Proof.
  intros Ha H. destruct c; try discriminate H; injection H as <-; cbn in Ha;
    destruct (w_phase s) eqn:E; try done; destruct purpose; try done; destruct Ha as [[nonce Hn] Ha];
    do 6 eexists; (split; [reflexivity|]); (split; [exact Hn|]); (split; [done|]);
    intros claim Hc; rewrite ?Hc in Ha; cbn in *; naive_solver.
Qed.

Lemma monitored_disciplined actor t t1 c r t2 answered :
  monitored (allowed actor) after start t -> no_debt (state_after after start t) ->
  t = (t1 ++ Event c r :: t2)%list -> broker_answer c r = Some answered ->
  (forall e, answered = Raise e -> e <> AmbiguousBrokerResponse -> t2 = []) ->
  disciplined t1 c answered t2.
Proof.
  intros Hm Hd -> Hb Hraise. rewrite monitored_app in Hm. cbn in Hm. destruct Hm as (Hm1 & Ha & Hm2).
  rewrite state_after_app in Hd. cbn in Hd.
  destruct (step_dispatch _ _ _ _ _ Ha Hb)
    as (purpose & plan & permit_id & attempt & dispatch & nonce & Hp & Hn & Hs & Ho).
  destruct (last_step _ _ (fun s => w_phase s = Held purpose plan permit_id attempt dispatch /\
    w_claim s = w_claim (state_after after start t1)) Hm1)
    as (t3 & c3 & r3 & Ht3 & Hm3 & Ha3 & Hp3 & Hc3); [done|by intros [? _]|].
  destruct (step_held _ _ _ _ _ _ _ _ _ Ha3 Hp3) as (claim & permit & E & Hp4 & -> & Hc4 & Hc5).
  destruct (ready_trace _ _ _ _ _ _ Hm3 Hp4)
    as (t0 & claim2 & replacement & evidence & acc & reconciliation & prepared & Hc6 & H1 & H2 & He & Ht).
  assert (claim2 = claim) as -> by congruence.
  exists t0, purpose, claim, replacement, plan, evidence, acc, reconciliation, prepared, permit, attempt,
    dispatch, nonce.
  split; [by rewrite Ht3, E, Ht, <- app_assoc|]. do 4 (split; [done|]). split; [apply Ho; congruence|].
  rewrite Hs in Hm2, Hd. unfold dispatched in Hm2, Hd. rewrite Hp, Hn in Hm2, Hd.
  destruct answered as [result|e].
  - destruct t2 as [|[c2 r2] t4]; [done|]. destruct Hm2 as [Ha2 _].
    destruct (step_answered _ _ _ _ _ _ _ Ha2 eq_refl) as (claim2 & Hc2 & ->). cbn in Hc2.
    assert (claim2 = claim) as -> by congruence. by exists r2, t4.
  - destruct e; try (by apply (Hraise _ eq_refl)). destruct t2 as [|[c2 r2] t4]; [done|]. destruct Hm2 as [Ha2 _].
    destruct (step_ambiguous _ _ _ _ _ _ Ha2 eq_refl) as (claim2 & Hc2 & ->). cbn in Hc2.
    assert (claim2 = claim) as -> by congruence. by exists r2, t4.
Qed.

(** ** Refusals of the broker *)

(** An exception that the service does not handle around a call that changes orders: not an
    ambiguous response, and not the refusal of an overdue replacement. *)
Definition unhandled (e : exn) : Prop :=
  e <> AmbiguousBrokerResponse /\ blocked_code e <> Some CANCEL_DUE.

(** Such an exception of the broker ends the program at once. *)
Fixpoint escapes {A} (p : service A) : Prop :=
  match p with
  | Call c k => forall r,
      (forall e, broker_answer c r = Some (Raise e) -> unhandled e -> k r = Throw e) /\ escapes (k r)
  | _ => True
  end.

(** The program makes no call that changes orders. *)
Fixpoint silent {A} (p : service A) : Prop :=
  match p with
  | Call c k => broker_purpose c = None /\ forall r, silent (k r)
  | _ => True
  end.

Lemma silent_answer c (r : M (answer c)) : broker_purpose c = None -> broker_answer c r = None.
Proof. by destruct c. Qed.

Lemma escapes_bind {A B} (p : service A) (f : A -> service B) :
  escapes p -> (forall a, escapes (f a)) -> escapes (p ≫= f).
Proof.
  intros H Hf. induction p as [a|e|c k IH]; cbn in *; [apply Hf|done|].
  intros r. destruct (H r) as [Hr Hk]. split; [|by apply IH].
  intros e He Hu. by rewrite (Hr e He Hu).
Qed.

Lemma escapes_catch {A} (p : service A) h :
  escapes p -> (forall e, escapes (h e)) -> (silent p \/ forall e, unhandled e -> h e = Throw e) ->
  escapes (catch p h).
Proof.
  intros H Hh Hc. induction p as [a|e|c k IH]; cbn in *; [done|apply Hh|].
  intros r. destruct (H r) as [Hr Hk]. split.
  - intros e He Hu. rewrite (Hr e He Hu). destruct Hc as [[Hc _]|Hc]; [|by apply Hc].
    by rewrite silent_answer in He.
  - apply IH; [done|]. destruct Hc as [[_ Hc]|Hc]; [left; apply Hc|by right].
Qed.

Lemma escapes_ask c : escapes (ask c : service (answer c)).
Proof.
  intros r. split; [|by destruct r]. intros e He _. destruct c; try discriminate He; by injection He as ->.
Qed.

Lemma escapes_lift {A} (m : M A) : escapes (lift m : service A).
Proof. by destruct m. Qed.

Lemma escapes_ambiguous {A} (p handler : service A) :
  escapes p -> escapes handler -> escapes (except_ambiguous p handler).
Proof.
  intros Hp Hh. apply escapes_catch; [done|intros e; by destruct e|]. right.
  intros e [He _]. by destruct e.
Qed.

(** A handler of blocked executions, around a program without a mutation or for the overdue
    replacement only. *)
Lemma escapes_blocked {A} (p : service A) handler :
  escapes p -> (forall code again, escapes again -> escapes (handler code again)) ->
  (silent p \/ forall code again, code <> CANCEL_DUE -> handler code again = again) ->
  escapes (except_execution_blocked p handler).
Proof.
  intros Hp Hh Hc. apply escapes_catch; [done|intros e; destruct e; try done; by apply Hh|].
  destruct Hc as [Hc|Hc]; [by left|right]. intros e [_ He].
  destruct e; try done; apply Hc; cbn in He; congruence.
Qed.

(** The programs of the service, call by call. *)
Ltac escaping :=
  repeat (intros; cbv zeta;
    match goal with
    | |- escapes (ask _) => apply escapes_ask
    | |- escapes (lift _) => apply escapes_lift
    | |- escapes (Return _) => exact I
    | |- escapes (Throw _) => exact I
    | |- escapes (stop _) => exact I
    | |- escapes (stop_pending _) => apply escapes_lift
    | |- escapes (refuse_if ?b _) => by destruct b
    | |- escapes (last_attempt ?l) => unfold last_attempt; by destruct (last l)
    | |- escapes (mbind _ _) => apply escapes_bind
    | |- escapes (except_ambiguous _ _) => apply escapes_ambiguous
    | |- escapes (match ?x with _ => _ end) => destruct x
    | H : escapes ?p |- escapes ?p => exact H
    | |- escapes _ => progress (unfold call_claim_intent, call_get_intent, next_broker_mutation,
        trusted_execution_time, plan_broker_mutation, prepare_broker_mutation, acquire_broker_dispatch,
        record_attempt_observation, mark_broker_dispatch_ambiguous, record_attempt_absence,
        final_reconciliation_expectation, call_attempts_for, call_execution_attempts_for,
        targeted_lookup_authority, record_attempt_lookup_failure, call_get_execution_certificate,
        finalize_execution_authorized, broker_submit, broker_replace, broker_cancel, broker_lookup,
        collect_sweep, collect_quotes, second_last_attempt, _prepare, _require_claim_actor,
        require_prepared, require_nonce, require_target, cancel_outcome)
    end); intros.

Lemma lookup_or_defer_escapes claim permit_id id : escapes (_lookup_or_defer claim permit_id id).
Proof. unfold _lookup_or_defer. escaping. Qed.

Lemma finalize_loop_escapes n v claim certificate e status now :
  escapes (finalize_loop n v claim certificate e status now).
Proof.
  revert v. induction n as [|n IH]; intros v; cbn [finalize_loop]; [done|]. escaping.
  - apply escapes_blocked; [escaping..|]. left. split; [done|]. by intros [].
  - apply IH.
Qed.

Lemma finalize_active_escapes claim observed now : escapes (_finalize_active claim observed now).
Proof. unfold _finalize_active. escaping. apply finalize_loop_escapes. Qed.

Lemma claim_escapes intent_id actor role fingerprint :
  escapes (_claim intent_id actor role fingerprint).
Proof.
  unfold _claim. apply escapes_blocked; [escaping..|]. left. split; [done|]. by intros [].
Qed.

Lemma dispatch_escapes broker_call claim permit_id nonce id :
  escapes broker_call -> escapes (dispatch_or_lookup broker_call claim permit_id nonce id).
Proof. intros H. unfold dispatch_or_lookup. escaping. apply lookup_or_defer_escapes. Qed.

Lemma cancel_lookups_escapes n claim permit_id planned observed :
  escapes (cancel_lookups n claim permit_id planned observed).
Proof.
  revert observed. induction n as [|n IH]; intros observed; cbn [cancel_lookups]; escaping;
    [apply lookup_or_defer_escapes|apply IH].
Qed.

Lemma cancel_advance_escapes claim now : escapes (_cancel_advance claim now).
Proof. unfold _cancel_advance, _cancel_active. escaping. apply cancel_lookups_escapes. Qed.

Lemma finalize_now_escapes claim attempt : escapes (finalize_now claim attempt).
Proof. unfold finalize_now. escaping. apply finalize_active_escapes. Qed.

Lemma lookup_transitional_escapes claim : escapes (_lookup_transitional claim).
Proof.
  unfold _lookup_transitional. escaping; [apply lookup_or_defer_escapes|apply finalize_now_escapes].
Qed.

Lemma reschedule_escapes claim unchanged :
  (forall schedule, escapes (unchanged schedule)) -> escapes (reschedule claim unchanged).
Proof.
  intros H. unfold reschedule, _changed_replacement_schedule. escaping; [apply cancel_advance_escapes|apply H].
Qed.

Section Escapes.
Context (quotes : bool) (self_account_role : AccountRole) (self_account_fingerprint : string).

Lemma submit_active_escapes claim now : escapes (_submit_active quotes claim now).
Proof. unfold _submit_active. escaping. apply dispatch_escapes. escaping. Qed.

Lemma replace_due_escapes claim : escapes (_replace_due quotes claim).
Proof.
  unfold _replace_due. escaping; apply reschedule_escapes; escaping.
  apply escapes_blocked; unfold _replace_active; escaping.
  - apply dispatch_escapes. escaping.
  - apply cancel_advance_escapes.
  - right. intros code again Hc. by destruct (String.eqb_spec code "REPLACEMENT_CANCEL_DUE").
Qed.

Lemma advance_escapes intent_id actor role fingerprint :
  escapes (advance quotes self_account_role self_account_fingerprint intent_id actor role fingerprint).
Proof.
  unfold advance, _completed_advance, transitional_advance, follow_schedule,
    _waiting_or_finalized_advance. escaping.
  all: try first [apply claim_escapes|apply lookup_transitional_escapes|apply finalize_now_escapes
                 |apply submit_active_escapes|apply replace_due_escapes|apply cancel_advance_escapes].
  apply escapes_blocked; [escaping..|]. left. split; [done|]. by intros [].
Qed.
End Escapes.

(** After such an exception of the broker nothing is called any more, and it is raised. *)
Lemma escapes_runs {A} (p : service A) t x t1 c r t2 e :
  escapes p -> runs p t x -> t = (t1 ++ Event c r :: t2)%list ->
  broker_answer c r = Some (Raise e) -> unhandled e -> t2 = [] /\ x = Raise e.
Proof.
  intros H Hr -> Hb Hu. revert t1 Hr. induction p as [a|e0|c0 k IH]; intros t1 Hr; cbn in *.
  1-2: by destruct Hr as [E _]; destruct t1.
  destruct Hr as (r0 & t' & E & Hr). destruct (H r0) as [H1 H2].
  destruct t1 as [|event t1]; [|injection E as -> E; apply (IH r0 H2 t1); by rewrite E].
  pose proof (f_equal (fun events => match events with
    | [] => None | event :: _ => broker_answer (ev_call event) (ev_answer event) end) E) as Ea.
  cbn in Ea. rewrite Hb in Ea. injection E as _ E. rewrite (H1 e (eq_sym Ea) Hu) in Hr.
  destruct Hr as [-> ->]. by subst t2.
Qed.

(** ** Certificates *)

(** A certificate of the repository: read, or issued for a final reconciliation, which is the
    evaluation of a sweep collected for the repository's expectation, with its greeks. *)
Definition issued (t : trace) (certificate : ExecutionCertificate) : Prop :=
  (exists id, Event (GetExecutionCertificate id) (Ok certificate) ∈ t) \/
  (exists candidate reconciliation status claim claim0 evidence,
     Event (FinalizeExecutionAuthorized candidate reconciliation status claim
              (we_position_greeks evidence)) (Ok (Some certificate)) ∈ t /\
     Event (FinalReconciliationExpectation claim0) (Ok (wr_expectation reconciliation)) ∈ t /\
     Event (CollectSweep (wr_expectation reconciliation)) (Ok evidence) ∈ t /\
     evaluate (we_sweep evidence) (wr_expectation reconciliation) (wr_accepted_at reconciliation)
       = Ok reconciliation).

(** What the automaton remembers was answered. *)
Definition remembered (t : trace) (s : watch) : Prop :=
  (forall e, w_final s = Some e -> exists claim, Event (FinalReconciliationExpectation claim) (Ok e) ∈ t) /\
  (forall e evidence, w_sweep s = Some (e, evidence) -> Event (CollectSweep e) (Ok evidence) ∈ t) /\
  (forall certificate, w_certificate s = Some certificate -> issued t certificate).

Lemma issued_app t1 t2 certificate : issued t1 certificate -> issued (t1 ++ t2) certificate.
Proof.
  intros [[id H]|(a & b & c & d & e & f & H)]; [left; exists id|right; exists a, b, c, d, e, f];
    rewrite !elem_of_app; tauto.
Qed.

(** A step that the memory does not see. *)
Definition same_memory (s s' : watch) : Prop :=
  w_final s' = w_final s /\ (w_sweep s' = w_sweep s \/ w_sweep s' = None) /\
  w_certificate s' = w_certificate s.

Lemma remembered_same t e s s' : remembered t s -> same_memory s s' -> remembered (t ++ [e]) s'.
Proof.
  intros (H1 & H2 & H3) (E1 & E2 & E3). split_and!.
  - intros x Hx. destruct (H1 x) as [claim H]; [congruence|]. exists claim. apply elem_of_app. by left.
  - intros x ev Hx. apply elem_of_app. left. apply H2. destruct E2; congruence.
  - intros c Hc. apply issued_app, H3. congruence.
Qed.

Lemma same_memory_refl s : same_memory s s. Proof. repeat split; auto. Qed.
Lemma settled_memory s : same_memory s (settled s).
Proof. unfold settled. destruct (w_phase s); repeat split; auto. Qed.
Lemma dispatched_memory r s : same_memory s (dispatched r s).
Proof. unfold dispatched. destruct (w_phase s), r as [|[]]; repeat split; auto. Qed.
#[local] Hint Resolve same_memory_refl settled_memory dispatched_memory : core.

Lemma step_remembered actor past s c (r : M (answer c)) :
  remembered past s -> allowed actor s c -> remembered (past ++ [Event c r]) (after s c r).
Proof.
  intros Hr Ha. pose proof Hr as (H1 & H2 & H3).
  destruct c; cbn [after];
    try (apply (remembered_same _ _ s); [exact Hr|]; first [by auto|destruct r; repeat split; by auto]).
  - apply (remembered_same _ _ s); [exact Hr|].
    destruct (w_phase s), r as [prepared|]; try (repeat split; by auto).
    destruct (pr_permit prepared), (pr_attempt prepared); repeat split; auto.
  - apply (remembered_same _ _ s); [exact Hr|]. destruct (w_phase s), r; repeat split; auto.
  - destruct r as [e|]; (split_and!; [|intros e' ev Hs; apply elem_of_app; left; by apply H2
      |intros certificate Hc; apply issued_app; by apply H3]); [|done].
    cbn. intros e' [= <-]. exists claim. apply elem_of_app. right. by apply list_elem_of_singleton.
  - destruct r as [certificate|]; [|by apply (remembered_same _ _ s)]. split_and!.
    + intros e He. destruct (H1 e He) as [claim H]. exists claim. apply elem_of_app. by left.
    + intros e ev Hs. apply elem_of_app. left. by apply H2.
    + cbn. intros c [= <-]. left. exists certificate_id. apply elem_of_app. right.
      by apply list_elem_of_singleton.
  - destruct r as [[issuance|]|]; [|by apply (remembered_same _ _ s)..]. split_and!.
    + intros e He. destruct (H1 e He) as [claim0 H]. exists claim0. apply elem_of_app. by left.
    + intros e ev Hs. apply elem_of_app. left. by apply H2.
    + cbn. intros c [= <-]. right. destruct Ha as (_ & _ & e & evidence & Hf & He & ->).
      destruct He as (Hs & now & accepted & _ & He).
      destruct (evaluate_fields _ _ _ _ He) as (_ & <- & <-). destruct (H1 _ Hf) as [claim0 Hf'].
      exists certificate, reconciliation, requested_status, claim, claim0, evidence.
      split; [apply elem_of_app; right; by apply list_elem_of_singleton|].
      split; [apply elem_of_app; by left|]. split; [apply elem_of_app; left; by apply H2|]. exact He.
  - destruct r as [evidence|]; [|by apply (remembered_same _ _ s); [|unfold unplanned; destruct (w_phase s);
      repeat split; auto]]. split_and!.
    + intros e He. destruct (H1 e He) as [claim H]. exists claim. apply elem_of_app. by left.
    + cbn. intros e ev [= <- <-]. apply elem_of_app. right. by apply list_elem_of_singleton.
    + intros certificate Hc. apply issued_app. by apply H3.
Qed.

Lemma trace_remembered actor t :
  monitored (allowed actor) after start t -> remembered t (state_after after start t).
Proof.
  intros H. apply (monitored_invariant (allowed actor) after remembered [] start t); [done| |exact H].
  intros past s c r. apply step_remembered.
Qed.

(** ** Theorems *)

Section Service.
Context (quotes : bool) (self_account_role : AccountRole) (self_account_fingerprint : string)
  (actor : Actor).

Abbreviation service_advance :=
  (advance quotes self_account_role self_account_fingerprint).
Abbreviation service_execute :=
  (execute quotes self_account_role self_account_fingerprint).

Lemma advance_monitored intent_id role fingerprint t x :
  runs (service_advance intent_id actor role fingerprint) t x -> assumed_trace expected_answer t ->
  monitored (allowed actor) after start t /\ returns advanced x (state_after after start t).
Proof. by apply accepts_runs, advance_follows. Qed.

Lemma advance_no_debt x s : returns advanced x s -> no_debt s.
Proof. destruct x as [a|e]; [|done]. intros [H _]. unfold no_debt. rewrite H. by destruct (ad_mutation a). Qed.

(** C33: Refinement of the dispatch protocol.  Every run of [advance] is a run of the
    automaton: each call it makes is one the automaton allows after the answers so far
    (the claim is the repository's and the actor's, on a standard contract; a mutation is
    planned because it was scheduled, or because the replacement was refused as overdue,
    and with the quotes it needs; the reconciliation it hands over is the evaluation of the
    sweep it has just collected; what it sends and records is what the permit, the plan and
    the broker said).  When it returns, the outcome names exactly the mutation that was
    dispatched, and it is FINALIZED exactly when it carries the certificate the repository
    gave; when it raises, no answer of the broker is left unrecorded. *)
Theorem advance_follows_protocol intent_id role fingerprint t x :
  runs (service_advance intent_id actor role fingerprint) t x -> assumed_trace expected_answer t ->
  monitored (allowed actor) after start t /\
  match x with
  | Ok a => advanced a (state_after after start t)
  | Raise _ => no_debt (state_after after start t)
  end.
Proof. apply advance_monitored. Qed.

(** C35: One mutation at most.  An advance makes at most one call that changes orders at the
    broker, whatever happens after it; when it returns, it made exactly the call it reports. *)
Theorem advance_one_mutation intent_id role fingerprint t x :
  runs (service_advance intent_id actor role fingerprint) t x -> assumed_trace expected_answer t ->
  (length (mutations t) <= 1)%nat /\
  forall a, x = Ok a -> mutations t = option_list (ad_mutation a).
Proof.
  intros Hr Ht. destruct (advance_monitored _ _ _ _ _ Hr Ht) as [Hm Hx].
  rewrite <- (trace_mutations _ _ Hm). split.
  - destruct (w_phase _); cbn; lia.
  - intros a ->. destruct Hx as [-> _]. by destruct (ad_mutation a).
Qed.

(** The broker's refusals are raised. *)
Lemma advance_raised intent_id role fingerprint t x t1 c r t2 e :
  runs (service_advance intent_id actor role fingerprint) t x -> assumed_trace expected_answer t ->
  t = (t1 ++ Event c r :: t2)%list -> broker_answer c r = Some (Raise e) ->
  e <> AmbiguousBrokerResponse -> t2 = [] /\ x = Raise e.
Proof.
  intros Hr Ht E Hb He. eapply escapes_runs; [apply advance_escapes|exact Hr|exact E|exact Hb|].
  split; [done|]. unfold assumed_trace in Ht. rewrite E in Ht. apply Forall_app in Ht as [_ Ht].
  apply Forall_cons in Ht as [Ht _]. cbn in Ht.
  destruct c; try discriminate Hb; injection Hb as ->; by apply Ht.
Qed.

(** C34: Every order goes out under a permit and every answer comes back.  Just before a call
    that changes orders at the broker come the plan of the mutation, the sweep of the whole
    account for that plan, the preparation of the reconciliation evaluated from that sweep and
    the acquisition of the permit it gave; the call sends what the claim, the plan and the
    permit say.  When the broker answers, just after it comes the recording of the outcome
    with the nonce of the dispatch; after an ambiguous response, the mark that the outcome is
    not known; and when the broker refuses the call by any other exception, the service makes
    no further call and raises it, so that the dispatch stays acquired and unrecorded. *)
Theorem broker_call_disciplined intent_id role fingerprint t x t1 c r t2 answered :
  runs (service_advance intent_id actor role fingerprint) t x -> assumed_trace expected_answer t ->
  t = (t1 ++ Event c r :: t2)%list -> broker_answer c r = Some answered ->
  disciplined t1 c answered t2 /\
  forall e, answered = Raise e -> e <> AmbiguousBrokerResponse -> x = Raise e.
Proof.
  intros Hr Ht E Hb. destruct (advance_monitored _ _ _ _ _ Hr Ht) as [Hm Hx].
  assert (Hraise : forall e, answered = Raise e -> e <> AmbiguousBrokerResponse -> t2 = [] /\ x = Raise e)
    by (intros e -> He; by eapply advance_raised).
  split; [|intros e Ee He; by destruct (Hraise e Ee He)].
  apply (monitored_disciplined actor t _ _ r); [exact Hm|by eapply advance_no_debt|exact E|exact Hb|].
  intros e Ee He. by destruct (Hraise e Ee He).
Qed.

(** Certificates are the repository's.  What [execute] returns was read from the
    repository, or issued by it for a final reconciliation that is the evaluation of a sweep
    collected for the repository's own expectation, with the greeks of that sweep. *)
Theorem execute_certificate_issued has_plan has_get intent_id now role fingerprint t certificate :
  runs (service_execute has_plan has_get intent_id actor now role fingerprint) t (Ok certificate) ->
  assumed_trace expected_answer t -> issued t certificate.
Proof.
  intros Hr Ht. destruct (accepts_runs (allowed actor) after expected_answer _ start
    (returns (fun certificate s' => w_certificate s' = Some certificate)) t (Ok certificate)
    ltac:(by apply execute_follows) Hr Ht) as [Hm Hc].
  by apply (trace_remembered _ _ Hm).
Qed.
End Service.
