(* ===== verification/ServiceCalls.v ===== *)
(** * How many calls the execution service makes

    The service has no unbounded loop: bounds on the calls of each part, and of an advance. *)

From Stdlib Require Import ZArith Lia String Ascii List Bool.
From stdpp Require Import base strings option tactics list.
From S2P Require Import Prelude Program PyText PyDecimal PyTime PyHash Contracts OrderLimits OrderStatus ExecModels Identity Finalization ReconciliationData Reconciliation Permits Replacement ExecutionService.

#[local] Open Scope string_scope.
#[local] Open Scope Z_scope.

#[local] Opaque evaluate.

(** ** Rules *)

Lemma at_most_call {A} n c (f : answer c -> service A) :
  (forall a, at_most n (f a)) -> at_most (S n) (ask c ≫= f).
Proof. intros H r. destruct r; cbn; [apply H|done]. Qed.

Lemma at_most_asked n c : at_most (S n) (ask c : service (answer c)).
Proof. intros r. by destruct r. Qed.

Lemma at_most_lifted {A B} n (m : M A) (f : A -> service B) :
  (forall a, at_most n (f a)) -> at_most n (lift m ≫= f).
Proof. intros H. destruct m; cbn; [apply H|done]. Qed.

Lemma at_most_last {B} n l (f : OrderAttempt -> service B) :
  (forall a, at_most n (f a)) -> at_most n (last_attempt l ≫= f).
Proof. intros H. unfold last_attempt. destruct (last l); cbn; [apply H|done]. Qed.

Lemma at_most_refused {B} n (b : bool) code (f : unit -> service B) :
  at_most n (f tt) -> at_most n (refuse_if b code ≫= f).
Proof. intros H. by destruct b. Qed.

Lemma at_most_optional {A B} n (o : option A) code (f : A -> service B) :
  (forall a, at_most n (f a)) -> at_most n ((match o with Some a => Return a | None => stop code end) ≫= f).
Proof. intros H. destruct o; cbn; [apply H|done]. Qed.

(** A call of a function bounded by [m] before a continuation bounded by [n]. *)
Lemma at_most_then {A B} m n k (p : service A) (f : A -> service B) :
  at_most m p -> (forall a, at_most n (f a)) -> (m + n <= k)%nat -> at_most k (p ≫= f).
Proof. intros Hp Hf Hk. eapply at_most_le; [by apply at_most_bind|done]. Qed.

Lemma at_most_blocked {A} m n k (p : service A) handler :
  at_most m p -> (forall code again, at_most 0 again -> at_most n (handler code again)) ->
  (m + n <= k)%nat -> at_most k (except_execution_blocked p handler).
Proof.
  intros Hp Hh Hk. eapply at_most_le; [apply at_most_catch; [exact Hp|]|exact Hk].
  intros e. destruct e; cbn; try done; by apply Hh.
Qed.

Lemma at_most_ambiguous {A} m n k (p handler : service A) :
  at_most m p -> at_most n handler -> (m + n <= k)%nat -> at_most k (except_ambiguous p handler).
Proof.
  intros Hp Hh Hk. eapply at_most_le; [apply at_most_catch; [exact Hp|]|exact Hk].
  intros e. by destruct e.
Qed.

Lemma at_most_zero {A} n (p : service A) : at_most 0 p -> at_most n p.
Proof. intros H. eapply at_most_le; [exact H|lia]. Qed.

(** The calls by the ports' methods. *)
Ltac calls :=
  unfold call_claim_intent, call_get_intent, next_broker_mutation, trusted_execution_time,
    plan_broker_mutation, prepare_broker_mutation, acquire_broker_dispatch,
    record_attempt_observation, mark_broker_dispatch_ambiguous, record_attempt_absence,
    final_reconciliation_expectation, call_attempts_for, call_execution_attempts_for,
    targeted_lookup_authority, record_attempt_lookup_failure,
    call_get_execution_certificate, finalize_execution_authorized, broker_submit,
    broker_replace, broker_cancel, broker_lookup, collect_sweep, collect_quotes.

(** The calls one after the other, with the cases of the results. *)
Ltac count :=
  calls; repeat (intros;
    match goal with
    | |- at_most _ (mbind _ (ask _)) => apply at_most_call
    | |- at_most _ (ask ?c) => apply (at_most_asked _ c)
    | |- at_most _ (mbind _ (lift _)) => apply at_most_lifted
    | |- at_most _ (mbind _ (refuse_if _ _)) => apply at_most_refused
    | |- at_most _ (mbind _ (last_attempt _)) => apply at_most_last
    | |- at_most _ (Return _) => exact I
    | |- at_most _ (Throw _) => exact I
    | |- at_most _ (stop _) => exact I
    | |- at_most _ (stop_pending _) => exact I
    | |- at_most _ (match ?x with _ => _ end) => destruct x
    end); intros.

(** ** The parts *)

Lemma lookup_or_defer_calls claim permit_id id : at_most 2 (_lookup_or_defer claim permit_id id).
Proof.
  intros [[result|]|e]; [done|..]; cbn.
  - by intros [].
  - destruct e; cbn; try done. by intros [].
Qed.

Lemma finalize_loop_calls n v claim certificate e status now :
  at_most (2 * n) (finalize_loop n v claim certificate e status now).
Proof.
  revert v. induction n as [|n IH]; intros v; cbn [finalize_loop]; [done|].
  replace (2 * S n)%nat with (S (S (2 * n))) by lia.
  apply at_most_call. count. apply (at_most_then 1 (2 * n)); [| |lia].
  - apply (at_most_blocked 1 0); [|count; by apply at_most_zero|lia]. apply at_most_call. count.
  - count. apply IH.
Qed.

Lemma finalize_active_calls claim observed now : at_most 6 (_finalize_active claim observed now).
Proof. unfold _finalize_active. count.
  eapply at_most_le; [apply finalize_loop_calls|lia].
Qed.

Lemma prepare_calls plan claim now : at_most 2 (_prepare plan claim now).
Proof. unfold _prepare. count. Qed.

Lemma dispatch_calls broker_call claim permit_id nonce id :
  at_most 1 broker_call -> at_most 4 (dispatch_or_lookup broker_call claim permit_id nonce id).
Proof.
  intros H. unfold dispatch_or_lookup. apply (at_most_ambiguous 1 3); [| |lia].
  - apply (at_most_then 1 0); [exact H|done|lia].
  - apply at_most_call. intros _. apply (at_most_then 2 0); [apply lookup_or_defer_calls|done|lia].
Qed.

Lemma mutate_calls {A} n plan claim now code (f : BrokerMutationPermit * OrderAttempt -> service A) :
  (forall x, at_most n (f x)) ->
  at_most (2 + n) (prepared ← _prepare plan claim now; require_prepared prepared code ≫= f).
Proof.
  intros H. apply (at_most_then 2 n); [apply prepare_calls| |lia]. intros prepared.
  unfold require_prepared. destruct (pr_permit prepared), (pr_attempt prepared); cbn; try done; apply H.
Qed.

Lemma replace_active_calls claim now plan : at_most 8 (_replace_active claim now plan).
Proof.
  apply (mutate_calls 6). intros [permit attempt]. count. apply at_most_optional. intros nonce.
  apply at_most_optional. intros target.
  apply (at_most_then 4 1); [apply dispatch_calls; count| |lia].
  intros [[result source] dn]. count.
Qed.

Section Quotes.
Context (quotes : bool).

Lemma submit_active_calls claim now : at_most 11 (_submit_active quotes claim now).
Proof.
  unfold _submit_active. cbv zeta. apply (at_most_then 2 9); [count; apply at_most_lift| |lia].
  intros _. apply at_most_call. intros plan.
  apply (mutate_calls 6). intros [permit attempt]. count. apply at_most_optional. intros nonce.
  apply (at_most_then 4 1); [apply dispatch_calls; count| |lia].
  intros [[result source] dn]. count.
Qed.

Lemma cancel_lookups_calls n claim permit_id planned observed :
  at_most (3 * n) (cancel_lookups n claim permit_id planned observed).
Proof.
  revert observed. induction n as [|n IH]; intros observed; cbn [cancel_lookups]; [done|]. count.
  apply (at_most_then 2 (1 + 3 * n)); [apply lookup_or_defer_calls| |lia]. count. apply IH.
Qed.

Lemma cancel_active_calls claim now : at_most 13 (_cancel_active claim now).
Proof.
  unfold _cancel_active. count. apply (mutate_calls 10). intros [permit attempt]. count.
  apply at_most_optional. intros nonce. apply at_most_optional. intros target.
  apply (at_most_then 2 7); [| |lia].
  - apply (at_most_ambiguous 1 1); [count|count|lia].
  - count. apply (at_most_then 6 0); [eapply at_most_le; [apply cancel_lookups_calls|lia]| |lia]. intros observed.
    unfold cancel_outcome. count.
Qed.

Lemma cancel_advance_calls claim now : at_most 13 (_cancel_advance claim now).
Proof.
  unfold _cancel_advance. apply (at_most_then 13 0); [apply cancel_active_calls|count|lia].
Qed.

Lemma reschedule_calls n claim unchanged :
  (forall schedule, at_most n (unchanged schedule)) ->
  at_most (14 + n) (reschedule claim unchanged).
Proof.
  intros H. unfold reschedule. count. apply (at_most_then 13 n); [|count; apply H|lia].
  unfold _changed_replacement_schedule. destruct (decide _); [|count].
  apply (at_most_then 13 0); [apply cancel_advance_calls|done|lia].
Qed.

Lemma replace_due_calls claim : at_most 39 (_replace_due quotes claim).
Proof.
  unfold _replace_due. cbv zeta. count. apply (at_most_then 0 38); [|intros target|lia].
  { unfold second_last_attempt, last_attempt. case_match; [by destruct (last (removelast a))|done]. }
  count.
  - apply at_most_le with (m := 14%nat); [|lia]. apply (reschedule_calls 0). count.
  - apply (reschedule_calls 23). count. apply (at_most_then 22 0); [|count|lia].
    apply (at_most_blocked 8 14); [| |lia].
    + apply (at_most_then 8 0); [apply replace_active_calls|count|lia].
    + count; [apply cancel_advance_calls|by apply at_most_zero].
Qed.

Lemma finalize_now_calls claim attempt : at_most 7 (finalize_now claim attempt).
Proof. unfold finalize_now. count. apply (at_most_then 6 0); [apply finalize_active_calls|count|lia]. Qed.

Lemma lookup_transitional_calls claim : at_most 11 (_lookup_transitional claim).
Proof.
  unfold _lookup_transitional. count. apply (at_most_then 2 8); [apply lookup_or_defer_calls| |lia].
  count. apply (at_most_then 7 0); [apply finalize_now_calls|count|lia].
Qed.

Lemma waiting_or_finalized_calls claim : at_most 19 (_waiting_or_finalized_advance claim).
Proof.
  assert (Hf : forall n attempt, (7 <= n)%nat -> at_most n (finalize_now claim attempt))
    by (intros n attempt Hn; eapply at_most_le; [apply finalize_now_calls|exact Hn]).
  unfold _waiting_or_finalized_advance. count; [apply Hf; lia|].
  apply (at_most_then 11 7); [apply lookup_transitional_calls| |lia]. count. apply Hf. lia.
Qed.

Lemma transitional_calls claim : at_most 12 (transitional_advance claim).
Proof.
  unfold transitional_advance. count.
  apply (at_most_then 11 0); [apply lookup_transitional_calls|count|lia].
Qed.

Lemma completed_calls claim actor : at_most 2 (_completed_advance claim actor).
Proof. unfold _completed_advance, _require_claim_actor. count. Qed.

Lemma claim_calls intent_id actor role fingerprint : at_most 2 (_claim intent_id actor role fingerprint).
Proof.
  unfold _claim. apply (at_most_blocked 1 1); [count| |lia]. count; by apply at_most_zero.
Qed.

Lemma follow_schedule_calls intent_id claim schedule :
  at_most 39 (follow_schedule quotes intent_id claim schedule).
Proof.
  unfold follow_schedule. count.
  - apply (at_most_then 11 0); [apply submit_active_calls|count|lia].
  - apply replace_due_calls.
  - eapply at_most_le; [apply cancel_advance_calls|lia].
Qed.

Context (self_account_role : AccountRole) (self_account_fingerprint : string).

Lemma advance_calls intent_id actor role fingerprint :
  at_most 54 (advance quotes self_account_role self_account_fingerprint intent_id actor role fingerprint).
Proof.
  unfold advance. count. apply (at_most_then 2 52); [apply claim_calls| |lia]. intros claim.
  unfold _require_claim_actor. count; [eapply at_most_le; [apply completed_calls|lia]|].
  apply (at_most_then 12 40); [apply transitional_calls| |lia]. count.
  apply (at_most_then 1 39); [| |lia].
  - apply (at_most_blocked 1 0); [count|count; by apply at_most_zero|lia].
  - count; [apply follow_schedule_calls|..]; (eapply at_most_le; [apply waiting_or_finalized_calls|lia]).
Qed.

Lemma execute_calls has_plan has_get intent_id actor now role fingerprint :
  at_most 62 (execute quotes self_account_role self_account_fingerprint has_plan has_get intent_id
                actor now role fingerprint).
Proof.
  unfold execute. count. apply (at_most_then 54 8); [apply advance_calls| |lia].
  intros outcome. count. apply finalize_active_calls.
Qed.

(** C36: The service always comes back.  An advance makes at most 54 calls and [execute] at
    most 62, however the repository, the broker and the market answer; and against any
    strategy of theirs there is a run, which ends with a result or an exception. *)
Theorem service_terminates intent_id actor now role fingerprint has_plan has_get :
  at_most 54 (advance quotes self_account_role self_account_fingerprint intent_id actor
                (default self_account_role role) (default self_account_fingerprint fingerprint)) /\
  forall strategy, exists t x,
    runs (execute quotes self_account_role self_account_fingerprint has_plan has_get intent_id actor
            now role fingerprint) t x /\ (length t <= 62)%nat /\
    (t, x) = play strategy [] (execute quotes self_account_role self_account_fingerprint has_plan
                                 has_get intent_id actor now role fingerprint).
Proof.
  split; [apply advance_calls|]. intros strategy.
  set (p := execute _ _ _ _ _ _ _ _ _ _).
  pose proof (play_runs strategy [] p) as H. exists (play strategy [] p).1, (play strategy [] p).2.
  split; [exact H|]. split; [|by destruct (play strategy [] p)].
  eapply at_most_runs; [apply execute_calls|exact H].
Qed.
End Quotes.
