(* ===== verification/ServiceSamples.v ===== *)
(** * A run of the execution service

    A repository, a broker and an account that fill an order at once, and the runs of the
    service against them: the theorems of the service at a concrete input. *)

From Stdlib Require Import ZArith Lia String Ascii List Bool.
From stdpp Require Import base strings option tactics list.
From S2P Require Import Prelude Program PyText PyDecimal PyTime PyHash Contracts OrderLimits OrderStatus ExecModels Identity Finalization ReconciliationData Reconciliation ReconciliationFacts Permits Replacement ReconciliationRaises ExecutionService ExecutionProtocol ServiceProps ServiceSafety.

#[local] Open Scope string_scope.
#[local] Open Scope Z_scope.

Definition planned_attempt : OrderAttempt :=
  {| oa_intent_id := 5%N; oa_ordinal := 0; oa_client_order_id := "ad-0"; oa_request_hash := "r";
     oa_state := "PREPARED"; oa_replaces_client_order_id := None; oa_provider_order_id := None;
     oa_filled_quantity := 0; oa_quantity := 1; oa_fill_cash_flow := None;
     oa_limit_price := Some (Dint 1); oa_quote_hash := None; oa_quote_source_timestamps := [];
     oa_quote_retrieved_at := None; oa_timing_authority_at := None;
     oa_prior_request_hash := None |}.

Definition fill : BrokerResult :=
  mk_BrokerResult "p" "FILLED" 1 1 (Some (Dint (-110))).

Definition sample_permit : BrokerMutationPermit :=
  {| bp_permit_id := 11%N; bp_reconciliation_id := 12%N; bp_intent_id := 5%N; bp_intent_digest := "d";
     bp_claim_token := 13%N; bp_claim_generation := 1; bp_execution_epoch := 0;
     bp_mutation_kind := SUBMIT; bp_attempt_ordinal := 0; bp_generation := 0;
     bp_predecessor_permit_id := None; bp_request_hash := "r"; bp_target_client_order_id := None;
     bp_target_provider_order_id := None; bp_issued_at := sweep_time 6; bp_expires_at := sweep_time 9;
     bp_state := "DISPATCHING"; bp_dispatch_nonce := Some 14%N; bp_dispatch_acquired_at := None;
     bp_consumed_at := None; bp_outcome_hash := None; bp_limit_price := None; bp_quote_hash := None;
     bp_quote_source_timestamps := []; bp_quote_retrieved_at := None;
     bp_timing_authority_at := None; bp_prior_request_hash := None |}.

Definition sample_observation (source : AttemptObservationSource) : AttemptObservation :=
  mk_AttemptObservation 15%N 11%N 5%N 0 1 source None (sweep_time 7) "h".

Definition sample_evidence : WholeAccountEvidence := mk_WholeAccountEvidence sample_sweep [].

Definition sample_certificate : ExecutionCertificate :=
  {| xc_certificate_id := 16%N; xc_intent_id := 5%N; xc_entry_approval_id := Some 7%N;
     xc_assessment_certificate_id := None; xc_execution_status := "FILLED";
     xc_attempt_ids := ["ad-0"]; xc_actual_exposure := None; xc_reconciliation_checks := [];
     xc_created_at := sweep_time 8; xc_reconciliation_id := None; xc_reconciliation_hash := None;
     xc_last_observation_hash := None |}.

(** The answers: the attempt is there once the order was submitted. *)
Definition fill_strategy (past : trace) (c : port) : M (answer c) :=
  match c with
  | ClaimIntentCall _ _ _ _ _ | GetIntentCall _ => Ok replacement_claim
  | NextBrokerMutation _ => Ok (Some (mk_BrokerMutationSchedule SUBMIT (sweep_time 4)))
  | TrustedExecutionTime _ => Ok (sweep_time 6)
  | PlanBrokerMutation _ _ _ => Ok (mk_BrokerMutationPlan sample_expectation planned_attempt)
  | PrepareBrokerMutation r attempt _ =>
      Ok (mk_BrokerMutationPreparation r (Some sample_permit) (Some attempt))
  | AcquireBrokerDispatch _ _ | MarkBrokerDispatchAmbiguous _ _ _ => Ok sample_permit
  | RecordAttemptObservation _ _ source _ _ => Ok (sample_observation source)
  | RecordAttemptAbsence _ _ _ | RecordAttemptLookupFailure _ _ =>
      Ok (sample_observation TARGETED_LOOKUP)
  | FinalReconciliationExpectation _ => Ok sample_expectation
  | AttemptsFor _ | ExecutionAttemptsFor _ =>
      Ok (if bool_decide (mutations past = []) then [] else [with_result planned_attempt fill])
  | TargetedLookupAuthority _ => Ok None
  | GetExecutionCertificate _ => Ok sample_certificate
  | FinalizeExecutionAuthorized _ _ _ _ _ => Ok (Some sample_certificate)
  | BrokerSubmit _ _ | BrokerReplace _ _ _ | BrokerCancel _ => Ok fill
  | BrokerLookup _ => Ok (Some fill)
  | CollectSweep _ => Ok sample_evidence
  | CollectQuotes _ => Ok []
  end.

Lemma fill_strategy_expected past c : expected_answer c (fill_strategy past c).
Proof. by destruct c. Qed.

Definition fill_advance : prog answer ExecutionAdvance :=
  advance true SUBMISSION "account" 5%N SCHEDULER SUBMISSION "account".
Definition fill_execute : prog answer ExecutionCertificate :=
  execute true SUBMISSION "account" true true 5%N SCHEDULER (sweep_time 0) None None.

Lemma fill_advance_submits :
  match (play fill_strategy [] fill_advance).2 with
  | Ok a => ad_mutation a = Some SUBMIT
  | Raise _ => False
  end.
Proof. vm_compute. reflexivity. Qed.

Lemma fill_execute_certifies :
  match (play fill_strategy [] fill_execute).2 with Ok c => xc_certificate_id c = 16%N | Raise _ => False end.
Proof. vm_compute. reflexivity. Qed.

(** ** The theorems at these runs *)

Lemma fill_run :
  exists t a, runs fill_advance t (Ok a) /\ assumed_trace expected_answer t /\ ad_mutation a = Some SUBMIT.
Proof.
  apply (play_returns expected_answer fill_strategy fill_advance (fun a => ad_mutation a = Some SUBMIT));
    [exact fill_advance_submits|exact fill_strategy_expected].
Qed.

Lemma fill_certificate_run :
  exists t c, runs fill_execute t (Ok c) /\ assumed_trace expected_answer t /\ xc_certificate_id c = 16%N.
Proof.
  apply (play_returns expected_answer fill_strategy fill_execute (fun c => xc_certificate_id c = 16%N));
    [exact fill_execute_certifies|exact fill_strategy_expected].
Qed.

Lemma advance_follows_protocol_witness :
  exists t a, runs fill_advance t (Ok a) /\ monitored (allowed SCHEDULER) after start t /\
    w_phase (state_after after start t) = Dispatched SUBMIT.
Proof.
  destruct fill_run as (t & a & Hr & Ht & Ha). exists t, a. split; [exact Hr|].
  destruct (advance_follows_protocol _ _ _ _ _ _ _ _ _ Hr Ht) as [Hm [Hp _]].
  split; [exact Hm|]. by rewrite Hp, Ha.
Defined.

Lemma advance_one_mutation_witness :
  exists t a, runs fill_advance t (Ok a) /\ mutations t = [SUBMIT].
Proof.
  destruct fill_run as (t & a & Hr & Ht & Ha). exists t, a. split; [exact Hr|].
  destruct (advance_one_mutation _ _ _ _ _ _ _ _ _ Hr Ht) as [_ Hm].
  rewrite (Hm a eq_refl), Ha. reflexivity.
Defined.

Lemma fill_mutations t a :
  runs fill_advance t (Ok a) -> assumed_trace expected_answer t -> ad_mutation a = Some SUBMIT ->
  mutations t <> [].
Proof.
  intros Hr Ht Ha. destruct (advance_monitored _ _ _ _ _ _ _ _ _ Hr Ht) as [Hm [Hp _]].
  by rewrite <- (trace_mutations _ _ Hm), Hp, Ha.
Qed.

Lemma broker_call_disciplined_witness :
  exists t1 c answered t2, disciplined t1 c answered t2.
Proof.
  destruct fill_run as (t & a & Hr & Ht & Ha).
  destruct (mutations_split t (fill_mutations t a Hr Ht Ha)) as (t1 & c & r & t2 & answered & E & Hb).
  exists t1, c, answered, t2.
  exact (proj1 (broker_call_disciplined _ _ _ _ _ _ _ _ _ _ _ _ _ _ Hr Ht E Hb)).
Defined.

Lemma execute_certificate_issued_witness : exists t c, issued t c.
Proof.
  destruct fill_certificate_run as (t & c & Hr & Ht & _). exists t, c.
  exact (execute_certificate_issued true SUBMISSION "account" SCHEDULER true true 5%N (sweep_time 0)
    None None t c Hr Ht).
Defined.
