(* ===== verification/SqlCodec.v ===== *)
(** * Stored documents

    The conversions of [backend/app/persistence/sqlalchemy_repository.py] between the
    records of an execution and the JSON documents of its columns: attempts, envelopes,
    positions, open orders and activities.  A document is a [json] value; what was
    written is read back as the same record. *)

From Stdlib Require Import ZArith Lia String Ascii List Bool.
From stdpp Require Import base strings gmap option tactics list.
From S2P Require Import Prelude PyText PyDict PyDecimal PyTime PyHash PyParse Contracts ExecModels Identity ReconciliationData Reconciliation Finalization.

#[local] Open Scope string_scope.
#[local] Open Scope Z_scope.

(** ** Documents *)

(** [value[name]] and [value.get(name, other)] *)
Definition member (name : string) (value : json) : M json :=
  match value with
  | JObj members => from_option_key (dget members name)
  | _ => Raise TypeError
  end.
Definition member_or (other : json) (name : string) (value : json) : M json :=
  match value with
  | JObj members => Ok (default other (dget members name))
  | _ => Raise TypeError
  end.

(** [str(value)] of a scalar; no column converts a container. *)
Definition text_of (value : json) : M string :=
  match value with
  | JStr s => Ok s
  | JInt z => Ok (str_of_Z z)
  | JBool b => Ok (if b then "True" else "False")
  | JNull => Ok "None"
  | JArr _ | JObj _ => Raise TypeError
  end.

(** [int(value)] *)
Definition int_of (value : json) : M Z :=
  match value with
  | JInt z => Ok z
  | JBool b => Ok (if b then 1 else 0)
  | JStr s => int_of_str s
  | JNull | JArr _ | JObj _ => Raise TypeError
  end.

(** [f(item) for item in value] over a list. *)
Definition list_of {A} (f : json -> M A) (value : json) : M (list A) :=
  match value with JArr items => map_m f items | _ => Raise TypeError end.

(** [f(value) if value is not None else None] *)
Definition unless_null {A} (f : json -> M A) (value : json) : M (option A) :=
  match value with JNull => Ok None | value => a ← f value; Ok (Some a) end.

(** [f(value[name])], and [f(value[name]) if value.get(name) is not None else None] *)
Definition read {A} (name : string) (f : json -> M A) (value : json) : M A :=
  item ← member name value; f item.
Definition read_optional {A} (name : string) (f : json -> M A) (value : json) : M (option A) :=
  item ← member_or JNull name value; unless_null f item.

Definition uuid_of (value : json) : M uuid := s ← text_of value; uuid_of_str s.
Definition decimal_of (value : json) : M decimal := s ← text_of value; decimal_of_str s.
Definition datetime_of (value : json) : M datetime := s ← text_of value; datetime_fromisoformat s.

(** [Enumeration(str(value))] *)
Class Members (A : Type) := members : list A.
Definition enum_of {A} `{StrEnum A} `{Members A} (value : json) : M A :=
  s ← text_of value;
  match List.find (fun a => String.eqb (enum_value a) s) members with
  | Some a => Ok a
  | None => Raise (ValueError "not a valid member")
  end.

#[export] Instance ExecutionAction_members : Members ExecutionAction := [EX_ENTRY; EX_CLOSE; EX_ROLL].
#[export] Instance AccountRole_members : Members AccountRole := [SUBMISSION; DEVELOPMENT; REPLAY].
#[export] Instance PositionIntent_members : Members PositionIntent :=
  [BUY_TO_OPEN; SELL_TO_OPEN; BUY_TO_CLOSE; SELL_TO_CLOSE].
#[export] Instance InventoryKind_members : Members InventoryKind := [OPTION; EQUITY].
#[export] Instance ReconciliationPurpose_members : Members ReconciliationPurpose :=
  [SUBMIT; REPLACE; CANCEL; BASELINE_INITIALIZATION].
#[export] Instance ActivityType_members : Members ActivityType :=
  [OPASN; OPEXC; OPEXP; OPXRC; OPTRD; FILL; RESET; DEPOSIT; WITHDRAWAL; TRANSFER; JOURNAL;
   UNKNOWN_CASH; INITIAL_FUNDING; DIVIDEND; FEE; INTEREST; CORPORATE_ACTION].

(** [value.replace(tzinfo=UTC) if value.tzinfo is None else value] *)
Definition _utc (value : datetime) : datetime :=
  match dt_off value with None => mk_datetime (dt_local value) (Some 0) | Some _ => value end.

Definition or_null {A} (f : A -> json) (value : option A) : json :=
  match value with Some a => f a | None => JNull end.
Definition iso (value : datetime) : json := JStr (dt_isoformat value).

(** ** Attempts *)

Definition _attempt_to_json (value : OrderAttempt) : json :=
  JObj
    [("intent_id", JStr (uuid_str (oa_intent_id value)));
     ("ordinal", JInt (oa_ordinal value));
     ("client_order_id", JStr (oa_client_order_id value));
     ("request_hash", JStr (oa_request_hash value));
     ("state", JStr (oa_state value));
     ("replaces_client_order_id", or_null JStr (oa_replaces_client_order_id value));
     ("provider_order_id", or_null JStr (oa_provider_order_id value));
     ("filled_quantity", JInt (oa_filled_quantity value));
     ("quantity", JInt (oa_quantity value));
     ("fill_cash_flow", _decimal_or_none (oa_fill_cash_flow value));
     ("limit_price", _decimal_or_none (oa_limit_price value));
     ("quote_hash", or_null JStr (oa_quote_hash value));
     ("quote_source_timestamps", JArr (map iso (oa_quote_source_timestamps value)));
     ("quote_retrieved_at", or_null iso (oa_quote_retrieved_at value));
     ("timing_authority_at", or_null iso (oa_timing_authority_at value));
     ("prior_request_hash", or_null JStr (oa_prior_request_hash value))].

Definition _attempt_from_json (value : json) : M OrderAttempt :=
  intent_id ← read "intent_id" uuid_of value;
  ordinal ← read "ordinal" int_of value;
  client_order_id ← read "client_order_id" text_of value;
  request_hash ← read "request_hash" text_of value;
  state ← read "state" text_of value;
  replaces_client_order_id ← read "replaces_client_order_id" (unless_null text_of) value;
  provider_order_id ← read "provider_order_id" (unless_null text_of) value;
  filled_quantity ← read "filled_quantity" int_of value;
  quantity ← read "quantity" int_of value;
  fill_cash_flow ← read_optional "fill_cash_flow" decimal_of value;
  limit_price ← read_optional "limit_price" decimal_of value;
  quote_hash ← read_optional "quote_hash" text_of value;
  quote_source_timestamps ←
    (timestamps ← member_or (JArr []) "quote_source_timestamps" value; list_of datetime_of timestamps);
  quote_retrieved_at ← read_optional "quote_retrieved_at" datetime_of value;
  timing_authority_at ← read_optional "timing_authority_at" datetime_of value;
  prior_request_hash ← read_optional "prior_request_hash" text_of value;
  Ok {| oa_intent_id := intent_id; oa_ordinal := ordinal; oa_client_order_id := client_order_id;
        oa_request_hash := request_hash; oa_state := state;
        oa_replaces_client_order_id := replaces_client_order_id;
        oa_provider_order_id := provider_order_id; oa_filled_quantity := filled_quantity;
        oa_quantity := quantity; oa_fill_cash_flow := fill_cash_flow;
        oa_limit_price := limit_price; oa_quote_hash := quote_hash;
        oa_quote_source_timestamps := quote_source_timestamps;
        oa_quote_retrieved_at := quote_retrieved_at;
        oa_timing_authority_at := timing_authority_at;
        oa_prior_request_hash := prior_request_hash |}.

(** ** Envelopes *)

Definition _legs_to_json (legs : list OrderLegIntent) : json := legs_payload legs.

Definition leg_from_json (leg : json) : M OrderLegIntent :=
  symbol ← read "symbol" text_of leg;
  intent ← read "intent" enum_of leg;
  ratio ← read "ratio" int_of leg;
  Ok (mk_OrderLegIntent symbol intent ratio).
Definition _legs_from_json (value : json) : M (list OrderLegIntent) :=
  list_of leg_from_json value.

Definition _envelope_to_json (envelope : OrderEnvelope) : json :=
  JObj
    [("action", JStr (enum_value (oe_action envelope)));
     ("authorization_certificate_id", JStr (uuid_str (oe_authorization_certificate_id envelope)));
     ("policy_hash", JStr (oe_policy_hash envelope));
     ("account_fingerprint", JStr (oe_account_fingerprint envelope));
     ("position_or_book_fingerprint", JStr (oe_position_or_book_fingerprint envelope));
     ("legs", _legs_to_json (oe_legs envelope));
     ("quantity", JInt (oe_quantity envelope));
     ("minimum_limit", JStr (decimal_str (oe_minimum_limit envelope)));
     ("maximum_limit", JStr (decimal_str (oe_maximum_limit envelope)));
     ("approved_max_loss", JStr (decimal_str (oe_approved_max_loss envelope)));
     ("event_key", JStr (oe_event_key envelope));
     ("trading_day", JStr (date_isoformat (oe_trading_day envelope)));
     ("market_session_id", json_or_none uuid_str (oe_market_session_id envelope));
     ("quoted_relative_spread", _decimal_or_none (oe_quoted_relative_spread envelope));
     ("maximum_relative_spread", _decimal_or_none (oe_maximum_relative_spread envelope));
     ("incremental_debit", _decimal_or_none (oe_incremental_debit envelope));
     ("maximum_incremental_debit", _decimal_or_none (oe_maximum_incremental_debit envelope))].

Definition _envelope_from_json (value : json) : M OrderEnvelope :=
  action ← read "action" enum_of value;
  authorization_certificate_id ← read "authorization_certificate_id" uuid_of value;
  policy_hash ← read "policy_hash" text_of value;
  account_fingerprint ← read "account_fingerprint" text_of value;
  fingerprint ← read "position_or_book_fingerprint" text_of value;
  legs ← read "legs" _legs_from_json value;
  quantity ← read "quantity" int_of value;
  minimum_limit ← read "minimum_limit" decimal_of value;
  maximum_limit ← read "maximum_limit" decimal_of value;
  approved_max_loss ← read "approved_max_loss" decimal_of value;
  event_key ← read "event_key" text_of value;
  trading_day ← read "trading_day" datetime_of value;
  market_session_id ← read_optional "market_session_id" uuid_of value;
  quoted_relative_spread ← read_optional "quoted_relative_spread" decimal_of value;
  maximum_relative_spread ← read_optional "maximum_relative_spread" decimal_of value;
  incremental_debit ← read_optional "incremental_debit" decimal_of value;
  maximum_incremental_debit ← read_optional "maximum_incremental_debit" decimal_of value;
  make_OrderEnvelope
    {| oe_action := action; oe_authorization_certificate_id := authorization_certificate_id;
       oe_policy_hash := policy_hash; oe_account_fingerprint := account_fingerprint;
       oe_position_or_book_fingerprint := fingerprint; oe_legs := legs; oe_quantity := quantity;
       oe_minimum_limit := minimum_limit; oe_maximum_limit := maximum_limit;
       oe_approved_max_loss := approved_max_loss; oe_event_key := event_key;
       oe_trading_day := dt_date trading_day; oe_market_session_id := market_session_id;
       oe_quoted_relative_spread := quoted_relative_spread;
       oe_maximum_relative_spread := maximum_relative_spread;
       oe_incremental_debit := incremental_debit;
       oe_maximum_incremental_debit := maximum_incremental_debit |}.

(** ** Positions, open orders and activities *)

Definition _inventory_to_json (item : InventoryItem) : json :=
  JObj
    [("kind", JStr (enum_value (iv_kind item)));
     ("symbol", JStr (iv_symbol item));
     ("signed_quantity", JStr (canonical_decimal (iv_signed_quantity item)));
     ("multiplier", JInt (iv_multiplier item))].

Definition _inventory_from_json (value : json) : M InventoryItem :=
  kind ← read "kind" enum_of value;
  symbol ← read "symbol" text_of value;
  signed_quantity ← read "signed_quantity" decimal_of value;
  multiplier ← read "multiplier" int_of value;
  make_InventoryItem (mk_InventoryItem kind symbol signed_quantity multiplier).

Definition order_leg_to_json (leg : OpenOrderLeg) : json :=
  JObj
    [("symbol", JStr (ol_symbol leg)); ("intent", JStr (enum_value (ol_intent leg)));
     ("ratio", JInt (ol_ratio leg))].

Definition _open_order_to_json (item : OpenOrderItem) : json :=
  JObj
    [("provider_order_id", JStr (oo_provider_order_id item));
     ("client_order_id", JStr (oo_client_order_id item));
     ("state", JStr (oo_state item));
     ("quantity", JInt (oo_quantity item));
     ("filled_quantity", JInt (oo_filled_quantity item));
     ("replaces_client_order_id", or_null JStr (oo_replaces_client_order_id item));
     ("replaced_by_client_order_id", or_null JStr (oo_replaced_by_client_order_id item));
     ("order_class", JStr (oo_order_class item));
     ("legs", JArr (map order_leg_to_json (oo_legs item)))].

Definition order_leg_from_json (leg : json) : M OpenOrderLeg :=
  symbol ← read "symbol" text_of leg;
  intent ← read "intent" enum_of leg;
  ratio ← read "ratio" int_of leg;
  make_OpenOrderLeg (mk_OpenOrderLeg symbol intent ratio).

Definition _open_order_from_json (value : json) : M OpenOrderItem :=
  legs ← member "legs" value;
  provider_order_id ← read "provider_order_id" text_of value;
  client_order_id ← read "client_order_id" text_of value;
  state ← read "state" text_of value;
  quantity ← read "quantity" int_of value;
  filled_quantity ← read "filled_quantity" int_of value;
  replaces_client_order_id ← read "replaces_client_order_id" (unless_null text_of) value;
  replaced_by_client_order_id ← read "replaced_by_client_order_id" (unless_null text_of) value;
  order_class ← read "order_class" text_of value;
  legs ← list_of order_leg_from_json legs;
  make_OpenOrderItem
    {| oo_provider_order_id := provider_order_id; oo_client_order_id := client_order_id;
       oo_state := state; oo_quantity := quantity; oo_filled_quantity := filled_quantity;
       oo_replaces_client_order_id := replaces_client_order_id;
       oo_replaced_by_client_order_id := replaced_by_client_order_id;
       oo_order_class := order_class; oo_legs := legs |}.

Definition _activity_to_json (activity : ActivityItem) : json :=
  JObj
    [("activity_id_hash", JStr (act_activity_id_hash activity));
     ("activity_type", JStr (enum_value (act_activity_type activity)));
     ("occurred_at", iso (act_occurred_at activity));
     ("symbol", or_null JStr (act_symbol activity));
     ("signed_quantity", _decimal_or_none (act_signed_quantity activity));
     ("provider_order_id", or_null JStr (act_provider_order_id activity));
     ("client_order_id", or_null JStr (act_client_order_id activity));
     ("time_quality", JStr (act_time_quality activity));
     ("provider_activity_type", or_null JStr (act_provider_activity_type activity))].

Definition utc_datetime_of (value : json) : M datetime := t ← datetime_of value; Ok (_utc t).

Definition _activity_from_json (value : json) : M ActivityItem :=
  quantity ← member "signed_quantity" value;
  activity_id_hash ← read "activity_id_hash" text_of value;
  activity_type ← read "activity_type" enum_of value;
  occurred_at ← read "occurred_at" utc_datetime_of value;
  symbol ← read "symbol" (unless_null text_of) value;
  signed_quantity ← unless_null decimal_of quantity;
  provider_order_id ← read_optional "provider_order_id" text_of value;
  client_order_id ← read_optional "client_order_id" text_of value;
  time_quality ←
    (quality ← member_or (JStr "EXACT_TRANSACTION_TIME") "time_quality" value; text_of quality);
  provider_activity_type ← read_optional "provider_activity_type" text_of value;
  make_ActivityItem
    {| act_activity_id_hash := activity_id_hash; act_activity_type := activity_type;
       act_occurred_at := occurred_at; act_symbol := symbol;
       act_signed_quantity := signed_quantity; act_provider_order_id := provider_order_id;
       act_client_order_id := client_order_id; act_time_quality := time_quality;
       act_provider_activity_type := provider_activity_type |}.

(** ** Sweeps *)

Definition _account_observation_to_json (value : AccountObservation) : json :=
  JObj
    [("role", JStr (enum_value (ao_role value)));
     ("account_fingerprint", JStr (ao_account_fingerprint value));
     ("paper", JBool (ao_paper value));
     ("status", JStr (ao_status value));
     ("account_blocked", JBool (ao_account_blocked value));
     ("trading_blocked", JBool (ao_trading_blocked value));
     ("options_trading_blocked", JBool (ao_options_trading_blocked value));
     ("equity", JStr (decimal_str (ao_equity value)));
     ("buying_power", JStr (decimal_str (ao_buying_power value)));
     ("cash", JStr (decimal_str (ao_cash value)));
     ("observed_at", iso (ao_observed_at value));
     ("time_quality", JStr (ao_time_quality value))].

(** [bool(value)] *)
Definition truth_of (value : json) : M bool :=
  Ok match value with
     | JNull => false
     | JBool b => b
     | JInt z => negb (z =? 0)
     | JStr s => str_nonempty s
     | JArr l => negb (length l =? 0)%nat
     | JObj l => negb (length l =? 0)%nat
     end.

Definition _account_observation_from_json (value : json) : M AccountObservation :=
  role ← read "role" enum_of value;
  account_fingerprint ← read "account_fingerprint" text_of value;
  paper ← read "paper" truth_of value;
  status ← read "status" text_of value;
  account_blocked ← read "account_blocked" truth_of value;
  trading_blocked ← read "trading_blocked" truth_of value;
  options_trading_blocked ← read "options_trading_blocked" truth_of value;
  equity ← read "equity" decimal_of value;
  buying_power ← read "buying_power" decimal_of value;
  cash ← read "cash" decimal_of value;
  observed_at ← read "observed_at" utc_datetime_of value;
  time_quality ← read "time_quality" text_of value;
  make_AccountObservation
    {| ao_role := role; ao_account_fingerprint := account_fingerprint; ao_paper := paper;
       ao_status := status; ao_account_blocked := account_blocked;
       ao_trading_blocked := trading_blocked; ao_options_trading_blocked := options_trading_blocked;
       ao_equity := equity; ao_buying_power := buying_power; ao_cash := cash;
       ao_observed_at := observed_at; ao_time_quality := time_quality |}.

(** [int(td.total_seconds())] truncates; it is exact for whole seconds. *)
Definition _pagination_to_json (value : ActivityPaginationEvidence) : json :=
  JObj
    [("requested_start", iso (pe_requested_start value));
     ("requested_end", iso (pe_requested_end value));
     ("retrieved_through", iso (pe_retrieved_through value));
     ("established_at", iso (pe_established_at value));
     ("page_count", JInt (pe_page_count value));
     ("terminal_page_seen", JBool (pe_terminal_page_seen value));
     ("visibility_complete_through", iso (pe_visibility_complete_through value));
     ("visibility_horizon_seconds", JInt (Z.quot (pe_visibility_horizon value) 1000000))].

Definition _pagination_from_json (value : json) : M ActivityPaginationEvidence :=
  requested_start ← read "requested_start" utc_datetime_of value;
  requested_end ← read "requested_end" utc_datetime_of value;
  retrieved_through ← read "retrieved_through" utc_datetime_of value;
  established_at ← read "established_at" utc_datetime_of value;
  page_count ← read "page_count" int_of value;
  terminal_page_seen ← read "terminal_page_seen" truth_of value;
  visibility_complete_through ← read "visibility_complete_through" utc_datetime_of value;
  visibility_horizon ← read "visibility_horizon_seconds" int_of value;
  make_ActivityPaginationEvidence
    {| pe_requested_start := requested_start; pe_requested_end := requested_end;
       pe_retrieved_through := retrieved_through; pe_established_at := established_at;
       pe_page_count := page_count; pe_terminal_page_seen := terminal_page_seen;
       pe_visibility_complete_through := visibility_complete_through;
       pe_visibility_horizon := seconds visibility_horizon |}.

Definition documents {A} (f : A -> json) (items : list A) : json := JArr (map f items).

Definition _sweep_to_json (value : SweepObservation) : json :=
  JObj
    [("retrieval_started_at", iso (sw_retrieval_started_at value));
     ("retrieval_completed_at", iso (sw_retrieval_completed_at value));
     ("activity_pagination", _pagination_to_json (sw_activity_pagination value));
     ("first_account", _account_observation_to_json (sw_first_account value));
     ("final_account", _account_observation_to_json (sw_final_account value));
     ("first_positions", documents _inventory_to_json (sw_first_positions value));
     ("final_positions", documents _inventory_to_json (sw_final_positions value));
     ("first_open_orders", documents _open_order_to_json (sw_first_open_orders value));
     ("final_open_orders", documents _open_order_to_json (sw_final_open_orders value));
     ("activities", documents _activity_to_json (sw_activities value));
     ("positions_complete", JBool (sw_positions_complete value));
     ("orders_complete", JBool (sw_orders_complete value))].

Definition _sweep_from_json (value : json) : M SweepObservation :=
  retrieval_started_at ← read "retrieval_started_at" utc_datetime_of value;
  retrieval_completed_at ← read "retrieval_completed_at" utc_datetime_of value;
  activity_pagination ← read "activity_pagination" _pagination_from_json value;
  first_account ← read "first_account" _account_observation_from_json value;
  final_account ← read "final_account" _account_observation_from_json value;
  first_positions ← read "first_positions" (list_of _inventory_from_json) value;
  final_positions ← read "final_positions" (list_of _inventory_from_json) value;
  first_open_orders ← read "first_open_orders" (list_of _open_order_from_json) value;
  final_open_orders ← read "final_open_orders" (list_of _open_order_from_json) value;
  activities ← read "activities" (list_of _activity_from_json) value;
  positions_complete ← read "positions_complete" truth_of value;
  orders_complete ← read "orders_complete" truth_of value;
  make_SweepObservation
    {| sw_retrieval_started_at := retrieval_started_at;
       sw_retrieval_completed_at := retrieval_completed_at;
       sw_activity_pagination := activity_pagination; sw_first_account := first_account;
       sw_final_account := final_account; sw_first_positions := first_positions;
       sw_final_positions := final_positions; sw_first_open_orders := first_open_orders;
       sw_final_open_orders := final_open_orders; sw_activities := activities;
       sw_positions_complete := positions_complete; sw_orders_complete := orders_complete |}.

(** ** Expectations *)

Definition _expectation_to_json (value : ReconciliationExpectation) : json :=
  JObj
    [("purpose", JStr (enum_value (ex_purpose value)));
     ("account_role", JStr (enum_value (ex_account_role value)));
     ("account_fingerprint", JStr (ex_account_fingerprint value));
     ("expected_cash", JStr (decimal_str (ex_expected_cash value)));
     ("baseline_captured_at", iso (ex_baseline_captured_at value));
     ("expected_positions", documents _inventory_to_json (ex_expected_positions value));
     ("expected_open_orders", documents _open_order_to_json (ex_expected_open_orders value));
     ("known_activities", documents _activity_to_json (ex_known_activities value));
     ("resolved_activity_hashes", documents JStr (ex_resolved_activity_hashes value));
     ("required_activity_window_start", iso (ex_required_activity_window_start value));
     ("required_activity_complete_through", iso (ex_required_activity_complete_through value));
     ("intent_id", JStr (uuid_str (ex_intent_id value)));
     ("intent_digest", JStr (ex_intent_digest value));
     ("attempt_ordinal", JInt (ex_attempt_ordinal value));
     ("request_hash", JStr (ex_request_hash value));
     ("expectation_hash", JStr (ex_expectation_hash value))].

Definition _expectation_from_json (value : json) : M ReconciliationExpectation :=
  purpose ← read "purpose" enum_of value;
  account_role ← read "account_role" enum_of value;
  account_fingerprint ← read "account_fingerprint" text_of value;
  expected_cash ← read "expected_cash" decimal_of value;
  baseline_captured_at ← read "baseline_captured_at" utc_datetime_of value;
  expected_positions ← read "expected_positions" (list_of _inventory_from_json) value;
  expected_open_orders ← read "expected_open_orders" (list_of _open_order_from_json) value;
  known_activities ← read "known_activities" (list_of _activity_from_json) value;
  resolved_activity_hashes ← read "resolved_activity_hashes" (list_of text_of) value;
  window_start ← read "required_activity_window_start" utc_datetime_of value;
  complete_through ← read "required_activity_complete_through" utc_datetime_of value;
  intent_id ← read "intent_id" uuid_of value;
  intent_digest ← read "intent_digest" text_of value;
  attempt_ordinal ← read "attempt_ordinal" int_of value;
  request_hash ← read "request_hash" text_of value;
  expectation ← _from_repository_state
    {| ex_purpose := purpose; ex_account_role := account_role;
       ex_account_fingerprint := account_fingerprint; ex_expected_cash := expected_cash;
       ex_baseline_captured_at := baseline_captured_at;
       ex_expected_positions := expected_positions;
       ex_expected_open_orders := expected_open_orders; ex_known_activities := known_activities;
       ex_resolved_activity_hashes := resolved_activity_hashes;
       ex_required_activity_window_start := window_start;
       ex_required_activity_complete_through := complete_through; ex_intent_id := intent_id;
       ex_intent_digest := intent_digest; ex_attempt_ordinal := attempt_ordinal;
       ex_request_hash := request_hash; ex_expectation_hash := EmptyString |};
  stored ← member "expectation_hash" value;
  when negb (match stored with JStr hash => String.eqb (ex_expectation_hash expectation) hash
             | _ => false end)
  then_ blocked "RECONCILIATION_EXPECTATION_CORRUPT";;
  Ok expectation.

Definition _exposure_to_json (exposure : option GreekExposure) : json :=
  match exposure with
  | None => JNull
  | Some exposure => JObj
      [("delta", JStr (decimal_str (ge_delta exposure)));
       ("gamma", JStr (decimal_str (ge_gamma exposure)));
       ("theta_per_day", JStr (decimal_str (ge_theta_per_day exposure)));
       ("vega_per_iv_point", JStr (decimal_str (ge_vega_per_iv_point exposure)))]
  end.

(** The validated constructor of [GreekExposure] is an argument. *)
Definition _exposure_from_json (greek_exposure : GreekExposure -> M GreekExposure) (value : json)
    : M (option GreekExposure) :=
  unless_null (fun value =>
    delta ← read "delta" decimal_of value;
    gamma ← read "gamma" decimal_of value;
    theta_per_day ← read "theta_per_day" decimal_of value;
    vega_per_iv_point ← read "vega_per_iv_point" decimal_of value;
    greek_exposure (mk_GreekExposure delta gamma theta_per_day vega_per_iv_point)) value.

(** ** Reading back what was written *)

Lemma read_at {A} name (f : json -> M A) members v a :
  dget members name = Some v -> f v = Ok a -> read name f (JObj members) = Ok a.
Proof. intros H E. unfold read, member. by rewrite H. Qed.

Lemma read_optional_at {A} name (f : json -> M A) members v a :
  dget members name = Some v -> unless_null f v = Ok a -> read_optional name f (JObj members) = Ok a.
Proof. intros H E. unfold read_optional, member_or. by rewrite H. Qed.

Lemma member_at name members v : dget members name = Some v -> member name (JObj members) = Ok v.
Proof. intros H. unfold member. by rewrite H. Qed.

Lemma member_or_at {A} other name (f : json -> M A) members v a :
  dget members name = Some v -> f v = Ok a ->
  (item ← member_or other name (JObj members); f item) = Ok a.
Proof. intros H E. unfold member_or. by rewrite H. Qed.

(** The next statement of a conversion. *)
Lemma read_then {A B} (m : M A) (f : A -> M B) a r : m = Ok a -> f a = r -> (m ≫= f) = r.
Proof. by intros -> <-. Qed.

Lemma uuid_reads u : (u < 2 ^ 128)%N -> uuid_of (JStr (uuid_str u)) = Ok u.
Proof. apply uuid_of_str_of_uuid. Qed.

Lemma decimal_reads d : decimal_of (JStr (decimal_str d)) = Ok d.
Proof. apply decimal_of_str_of_decimal. Qed.

Lemma optional_decimal_reads d : unless_null decimal_of (_decimal_or_none d) = Ok d.
Proof. destruct d; [|done]. unfold unless_null, _decimal_or_none, json_or_none. by rewrite decimal_reads. Qed.

Lemma optional_text_reads o : unless_null text_of (or_null JStr o) = Ok o.
Proof. by destruct o. Qed.

Lemma optional_uuid_reads o :
  (forall u, o = Some u -> (u < 2 ^ 128)%N) -> unless_null uuid_of (json_or_none uuid_str o) = Ok o.
Proof. destruct o as [u|]; [|done]. intros H. unfold unless_null, json_or_none. by rewrite uuid_reads by auto. Qed.

Lemma iso_reads t : valid_datetime t -> datetime_of (iso t) = Ok t.
Proof. apply datetime_reads. Qed.

Definition opt_valid (o : option datetime) : Prop := forall t, o = Some t -> valid_datetime t.

Lemma optional_iso_reads o : opt_valid o -> unless_null datetime_of (or_null iso o) = Ok o.
Proof. intros H. destruct o as [t|]; [|done]. unfold unless_null, or_null, iso. fold (iso t). by rewrite iso_reads by auto. Qed.

Lemma utc_iso_reads t : valid_datetime t -> is_utc t = true -> utc_datetime_of (iso t) = Ok t.
Proof.
  intros H Hu. unfold utc_datetime_of. rewrite iso_reads by done. unfold _utc, is_utc in *. cbn.
  by destruct (dt_off t).
Qed.

Lemma list_reads {A} (to : A -> json) (from : json -> M A) (ok : A -> Prop) l :
  (forall a, ok a -> from (to a) = Ok a) -> Forall ok l -> list_of from (JArr (map to l)) = Ok l.
Proof.
  intros H Hl. cbn. apply map_m_ok. induction Hl; cbn; constructor; auto.
Qed.

Lemma text_list_reads l : list_of text_of (documents JStr l) = Ok l.
Proof. apply (list_reads JStr text_of (fun _ => True)); [done|]. by induction l; constructor. Qed.

(** An enumeration's members are all there, each with a value of its own. *)
Class EnumReads (A : Type) `{StrEnum A} `{Members A} :=
  enum_reads : forall a : A, enum_of (JStr (enum_value a)) = Ok a.
#[export] Instance ExecutionAction_reads : EnumReads ExecutionAction. Proof. by intros []. Qed.
#[export] Instance AccountRole_reads : EnumReads AccountRole. Proof. by intros []. Qed.
#[export] Instance PositionIntent_reads : EnumReads PositionIntent. Proof. by intros []. Qed.
#[export] Instance InventoryKind_reads : EnumReads InventoryKind. Proof. by intros []. Qed.
#[export] Instance ReconciliationPurpose_reads : EnumReads ReconciliationPurpose. Proof. by intros []. Qed.
#[export] Instance ActivityType_reads : EnumReads ActivityType. Proof. by intros []. Qed.

Create HintDb reads.
#[export] Hint Resolve uuid_reads decimal_reads optional_decimal_reads optional_text_reads
  optional_uuid_reads iso_reads optional_iso_reads utc_iso_reads text_list_reads : reads.

(** Reads the members of a written document one after the other. *)
Ltac read_document :=
  repeat (lazymatch goal with |- (_ ≫= _) = _ => idtac end; eapply read_then;
    [ first [ eapply read_at; [reflexivity|] | eapply read_optional_at; [reflexivity|]
            | eapply member_or_at; [reflexivity|] | eapply member_at; reflexivity | idtac ];
      try solve [reflexivity | apply enum_reads | eauto with reads]
    | cbv beta ]).

(** The values of an attempt that a document can hold: identifiers of 128 bits and times. *)
Definition storable_attempt (a : OrderAttempt) : Prop :=
  (oa_intent_id a < 2 ^ 128)%N /\ Forall valid_datetime (oa_quote_source_timestamps a) /\
  opt_valid (oa_quote_retrieved_at a) /\ opt_valid (oa_timing_authority_at a).

Lemma attempt_reads a : storable_attempt a -> _attempt_from_json (_attempt_to_json a) = Ok a.
Proof.
  intros (Hi & Hq & Hr & Ht). unfold _attempt_from_json, _attempt_to_json. read_document.
  - apply (list_reads iso datetime_of valid_datetime); [apply iso_reads|done].
  - by destruct a.
Qed.

Lemma legs_read legs : _legs_from_json (_legs_to_json legs) = Ok legs.
Proof.
  unfold _legs_to_json, legs_payload, _legs_from_json.
  apply (list_reads _ _ (fun _ => True)); [|by induction legs; constructor].
  intros leg _. unfold leg_from_json. read_document. by destruct leg.
Qed.
#[export] Hint Resolve legs_read : reads.

(** The identifiers and the day of an envelope that a document can hold. *)
Definition storable_envelope (e : OrderEnvelope) : Prop :=
  (oe_authorization_certificate_id e < 2 ^ 128)%N /\ day_in_range (oe_trading_day e) /\
  (forall u, oe_market_session_id e = Some u -> (u < 2 ^ 128)%N).

Lemma midnight_date n : dt_date (mk_datetime (n * day_us) None) = n.
Proof. unfold dt_date. cbn. by apply Z.div_mul. Qed.

Lemma day_reads n :
  day_in_range n -> datetime_of (JStr (date_isoformat n)) = Ok (mk_datetime (n * day_us) None).
Proof. apply date_reads. Qed.
#[export] Hint Resolve day_reads : reads.

(** An envelope that exists is read back: its constructor accepts it again. *)
Lemma envelope_reads e :
  storable_envelope e -> _envelope_from_json (_envelope_to_json e) = make_OrderEnvelope e.
Proof.
  intros (Hi & Hd & Hs). unfold _envelope_from_json, _envelope_to_json. read_document.
  rewrite midnight_date. by destruct e.
Qed.

(** *** Records that exist: their constructors accept them and documents can hold them *)

Definition stored_order (item : OpenOrderItem) : Prop :=
  make_OpenOrderItem item = Ok item /\ Forall (fun leg => make_OpenOrderLeg leg = Ok leg) (oo_legs item).

Definition stored_activity (a : ActivityItem) : Prop :=
  make_ActivityItem a = Ok a /\ valid_datetime (act_occurred_at a).

(** The text of a quantity is the canonical one, with which a whole number is written. *)
Definition stored_position (item : InventoryItem) : Prop :=
  make_InventoryItem item = Ok item /\
  canonical_decimal (iv_signed_quantity item) = decimal_str (iv_signed_quantity item).

Definition stored_account (a : AccountObservation) : Prop :=
  make_AccountObservation a = Ok a /\ valid_datetime (ao_observed_at a).

Definition stored_pagination (p : ActivityPaginationEvidence) : Prop :=
  make_ActivityPaginationEvidence p = Ok p /\
  Forall valid_datetime [pe_requested_start p; pe_requested_end p; pe_retrieved_through p;
                         pe_established_at p; pe_visibility_complete_through p].

Definition stored_sweep (s : SweepObservation) : Prop :=
  make_SweepObservation s = Ok s /\
  valid_datetime (sw_retrieval_started_at s) /\ valid_datetime (sw_retrieval_completed_at s) /\
  stored_pagination (sw_activity_pagination s) /\
  stored_account (sw_first_account s) /\ stored_account (sw_final_account s) /\
  Forall stored_position (sw_first_positions s) /\ Forall stored_position (sw_final_positions s) /\
  Forall stored_order (sw_first_open_orders s) /\ Forall stored_order (sw_final_open_orders s) /\
  Forall stored_activity (sw_activities s).

Definition stored_expectation (e : ReconciliationExpectation) : Prop :=
  _from_repository_state e = Ok e /\ (ex_intent_id e < 2 ^ 128)%N /\
  valid_datetime (ex_baseline_captured_at e) /\
  valid_datetime (ex_required_activity_window_start e) /\
  valid_datetime (ex_required_activity_complete_through e) /\
  Forall stored_position (ex_expected_positions e) /\
  Forall stored_order (ex_expected_open_orders e) /\
  Forall stored_activity (ex_known_activities e).

Ltac units := repeat match goal with u : unit |- _ => destruct u end.

Lemma require_utc_ok t code : _require_utc t code = Ok tt -> is_utc t = true.
Proof. unfold _require_utc. intros H. inv_ok H. done. Qed.

Lemma open_order_reads item : stored_order item -> _open_order_from_json (_open_order_to_json item) = Ok item.
Proof.
  intros [H Hl]. unfold _open_order_from_json, _open_order_to_json. read_document.
  - apply (list_reads _ _ (fun leg => make_OpenOrderLeg leg = Ok leg)); [|done].
    intros leg Hleg. unfold order_leg_from_json, order_leg_to_json. read_document. by destruct leg.
  - by destruct item.
Qed.

Lemma activity_reads a : stored_activity a -> _activity_from_json (_activity_to_json a) = Ok a.
Proof.
  intros [H Ht].
  assert (is_utc (act_occurred_at a) = true).
  { pose proof H as H'. unfold make_ActivityItem in H'. inv_seq H'.
    units. by eapply require_utc_ok. }
  unfold _activity_from_json, _activity_to_json. read_document. by destruct a.
Qed.

Lemma inventory_reads item : stored_position item -> _inventory_from_json (_inventory_to_json item) = Ok item.
Proof.
  intros [H Hq]. unfold _inventory_from_json, _inventory_to_json. rewrite Hq. read_document.
  by destruct item.
Qed.

Lemma account_reads a :
  stored_account a -> _account_observation_from_json (_account_observation_to_json a) = Ok a.
Proof.
  intros [H Ht].
  assert (is_utc (ao_observed_at a) = true).
  { pose proof H as H'. unfold make_AccountObservation in H'. inv_seq H'.
    units. by eapply require_utc_ok. }
  unfold _account_observation_from_json, _account_observation_to_json. read_document. by destruct a.
Qed.

Lemma pagination_reads p : stored_pagination p -> _pagination_from_json (_pagination_to_json p) = Ok p.
Proof.
  intros [H Ht]. rewrite !Forall_cons_iff in Ht. destruct Ht as (T1 & T2 & T3 & T4 & T5 & _).
  pose proof H as H'. unfold make_ActivityPaginationEvidence in H'. inv_seq H'.
  match goal with E : map_m _ _ = Ok _ |- _ => apply map_m_ok in E end.
  repeat match goal with F : Forall2 _ (_ :: _) _ |- _ => inversion F; clear F; subst end.
  units. repeat match goal with E : _require_utc _ _ = Ok tt |- _ => apply require_utc_ok in E end.
  unfold _pagination_from_json, _pagination_to_json. read_document.
  assert (E : seconds (Z.quot (pe_visibility_horizon p) 1000000) = pe_visibility_horizon p).
  { inv_all. zbool. by replace (pe_visibility_horizon p) with ACTIVITY_VISIBILITY_HORIZON. }
  rewrite E. by destruct p.
Qed.
#[export] Hint Resolve account_reads pagination_reads : reads.

Lemma positions_read l :
  Forall stored_position l -> list_of _inventory_from_json (documents _inventory_to_json l) = Ok l.
Proof. apply list_reads, inventory_reads. Qed.
Lemma orders_read l :
  Forall stored_order l -> list_of _open_order_from_json (documents _open_order_to_json l) = Ok l.
Proof. apply list_reads, open_order_reads. Qed.
Lemma activities_read l :
  Forall stored_activity l -> list_of _activity_from_json (documents _activity_to_json l) = Ok l.
Proof. apply list_reads, activity_reads. Qed.
#[export] Hint Resolve positions_read orders_read activities_read : reads.

Lemma sweep_reads s : stored_sweep s -> _sweep_from_json (_sweep_to_json s) = Ok s.
Proof.
  intros (H & T1 & T2 & Hp & A1 & A2 & P1 & P2 & O1 & O2 & Ha).
  assert (is_utc (sw_retrieval_started_at s) = true /\ is_utc (sw_retrieval_completed_at s) = true)
    as [U1 U2].
  { pose proof H as H'. unfold make_SweepObservation in H'. inv_seq H'. units.
    split; eapply require_utc_ok; eassumption. }
  unfold _sweep_from_json, _sweep_to_json. read_document. by destruct s.
Qed.

Lemma repository_state_hash e e' : _from_repository_state e = Ok e' ->
  e' = with_expectation_hash e (ex_expectation_hash e') /\
  expectation_hash_of e = Ok (ex_expectation_hash e') /\
  is_utc (ex_baseline_captured_at e) = true /\
  is_utc (ex_required_activity_window_start e) = true /\
  is_utc (ex_required_activity_complete_through e) = true.
Proof.
  unfold _from_repository_state. intros H. inv_seq H. units. injection H as <-.
  split_and!; first [done | eapply require_utc_ok; eassumption].
Qed.

Lemma expectation_reads e :
  stored_expectation e -> _expectation_from_json (_expectation_to_json e) = Ok e.
Proof.
  intros (H & Hi & T1 & T2 & T3 & Hp & Ho & Ha).
  destruct (repository_state_hash e e H) as (_ & _ & U1 & U2 & U3).
  unfold _expectation_from_json, _expectation_to_json. read_document.
  cbn. by rewrite String.eqb_refl.
Qed.
