(* ===== verification/SqlSchema.v ===== *)
(** * The tables of the execution authority

    The rows of [backend/app/persistence/sqlalchemy_models.py] the execution authority
    reads and writes, a record each with the columns of the class, and the constraints
    the classes declare.  A table is a finite map from the primary key to the row, so
    that a primary key is unique; [schema_ok] says that a database satisfies the other
    constraints, which a transaction has to when it commits. *)

From Stdlib Require Import ZArith Lia String Ascii List Bool.
From stdpp Require Import base strings gmap option tactics list.
From S2P Require Import Prelude PyText PyDecimal PyTime PyHash Contracts OrderLimits ExecModels.

#[local] Open Scope string_scope.
#[local] Open Scope Z_scope.

(** ** Rows *)

Record AccountRoleRow := mk_AccountRoleRow {
  ar_role : string;
  ar_account_fingerprint : string;
  ar_equity : decimal;
  ar_autonomous_enabled : bool;
  ar_execution_locked : bool;
  ar_execution_lock_reason : option string;
  ar_execution_locked_at : option datetime;
  ar_execution_lock_id : option uuid;
  ar_execution_lock_generation : Z;
  ar_recovery_pending : bool;
  ar_execution_epoch : Z;
  ar_claim_generation : Z;
}.

Record SubmissionBaselineRow := mk_SubmissionBaselineRow {
  bl_baseline_id : uuid;
  bl_account_role : string;
  bl_account_fingerprint : string;
  bl_equity : decimal;
  bl_captured_at : datetime;
  bl_positions_hash : string;
  bl_orders_hash : string;
  bl_activities_hash : string;
  bl_contaminated : bool;
}.

Record AccountReconciliationStateRow := mk_AccountReconciliationStateRow {
  st_state_id : uuid;
  st_account_role : string;
  st_sequence : Z;
  st_account_fingerprint : string;
  st_baseline_id : uuid;
  st_baseline_captured_at : datetime;
  st_accepted_at : datetime;
  st_expected_cash : decimal;
  st_expected_positions : list json;
  st_expected_open_orders : list json;
  st_known_activities : list json;
  st_activity_complete_through : datetime;
  st_resolved_activity_hashes : list string;
  st_predecessor_state_id : option uuid;
  st_authority_reconciliation_id : option uuid;
  st_authority_permit_id : option uuid;
  st_authority_observation_id : option uuid;
  st_authority_permit_request_hash : option string;
  st_transition_hash : option string;
  st_state_hash : string;
}.

Record WholeAccountReconciliationRow := mk_WholeAccountReconciliationRow {
  wa_reconciliation_id : uuid;
  wa_reconciliation_hash : string;
  wa_expectation_hash : string;
  wa_execution_intent_id : uuid;
  wa_intent_digest : string;
  wa_account_role : string;
  wa_account_fingerprint : string;
  wa_purpose : string;
  wa_attempt_ordinal : Z;
  wa_request_hash : string;
  wa_accepted_at : datetime;
  wa_expectation_payload : json;
  wa_sweep_payload : json;
  wa_positions_manifest_hash : string;
  wa_orders_manifest_hash : string;
  wa_activities_manifest_hash : string;
  wa_safe : bool;
  wa_block_codes : list string;
}.

Record BrokerMutationPermitRow := mk_BrokerMutationPermitRow {
  pm_permit_id : uuid;
  pm_reconciliation_id : uuid;
  pm_execution_intent_id : uuid;
  pm_intent_digest : string;
  pm_claim_token : uuid;
  pm_claim_generation : Z;
  pm_execution_epoch : Z;
  pm_mutation_kind : string;
  pm_attempt_ordinal : Z;
  pm_permit_generation : Z;
  pm_predecessor_permit_id : option uuid;
  pm_request_hash : string;
  pm_limit_price : option decimal; (* not null *)
  pm_quote_hash : option string;
  pm_quote_source_timestamps : list string;
  pm_quote_retrieved_at : option datetime;
  pm_timing_authority_at : option datetime;
  pm_prior_request_hash : option string;
  pm_target_client_order_id : option string;
  pm_target_provider_order_id : option string;
  pm_issued_at : datetime;
  pm_expires_at : datetime;
  pm_state : string;
  pm_dispatch_nonce : option uuid;
  pm_dispatch_acquired_at : option datetime;
  pm_consumed_at : option datetime;
  pm_outcome_hash : option string;
}.

Record AttemptObservationRow := mk_AttemptObservationRow {
  or_observation_id : uuid;
  or_permit_id : uuid;
  or_execution_intent_id : uuid;
  or_attempt_id : uuid;
  or_attempt_ordinal : Z;
  or_observation_sequence : Z;
  or_source : string;
  or_provider_present : bool;
  or_observed_payload : option json;
  or_observed_at : datetime;
  or_observation_hash : string;
}.

Record ExecutionIntentRow := mk_ExecutionIntentRow {
  ir_intent_id : uuid;
  ir_account_role : string;
  ir_intent_digest : string;
  ir_action : string;
  ir_policy_hash : string;
  ir_event_key : string;
  ir_trading_day : date;
  ir_entry_approval_id : option uuid;
  ir_assessment_certificate_id : option uuid;
  ir_fingerprint : string;
  ir_envelope_hash : string;
  ir_envelope_payload : json;
  ir_legs : json;
  ir_quantity : Z;
  ir_minimum_limit : decimal;
  ir_maximum_limit : decimal;
  ir_approved_max_loss : decimal;
  ir_market_session_id : option uuid;
  ir_quoted_relative_spread : option decimal;
  ir_maximum_relative_spread : option decimal;
  ir_incremental_debit : option decimal;
  ir_maximum_incremental_debit : option decimal;
  ir_state : string;
  ir_claimed_by : option string;
  ir_claimed_at : option datetime;
  ir_claim_token : option uuid;
  ir_claim_generation : Z;
  ir_execution_epoch : Z;
  ir_heartbeat_at : option datetime;
  ir_lease_expires_at : option datetime;
  ir_first_fill_consumed : bool;
}.

Record OrderAttemptRow := mk_OrderAttemptRow {
  at_attempt_id : uuid;
  at_broker_permit_id : option uuid;
  at_execution_intent_id : uuid;
  at_attempt_ordinal : Z;
  at_client_order_id : string;
  at_provider_order_id : option string;
  at_state : string;
  at_request_hash : string;
  at_limit_price : option decimal;
  at_quote_hash : option string;
  at_quote_source_timestamps : list string;
  at_quote_retrieved_at : option datetime;
  at_timing_authority_at : option datetime;
  at_prior_request_hash : option string;
  at_replaces_attempt_id : option uuid;
  at_filled_quantity : Z;
  at_quantity : Z;
  at_fill_cash_flow : option decimal;
}.

Record ExecutionCertificateRow := mk_ExecutionCertificateRow {
  xr_certificate_id : uuid;
  xr_execution_intent_id : uuid;
  xr_entry_approval_id : option uuid;
  xr_assessment_certificate_id : option uuid;
  xr_execution_status : string;
  xr_attempt_ids : list string;
  xr_actual_exposure : json;
  xr_reconciliation_checks : list string;
  xr_created_at : datetime;
  xr_reconciliation_id : option uuid;
  xr_reconciliation_hash : option string;
  xr_last_observation_hash : option string;
}.

Record CompetitionEntryBudgetRow := mk_CompetitionEntryBudgetRow {
  bg_account_role : string;
  bg_entries_used : Z;
  bg_gross_approved_risk : decimal;
  bg_reserved_intent_id : option uuid;
  bg_reserved_risk : decimal;
}.

(** *** What authorises an execution *)

Record AgentInputSnapshotRow := mk_AgentInputSnapshotRow {
  ai_snapshot_id : uuid;
  ai_thesis_version_id : option uuid;
  ai_account_role : string;
  ai_account_fingerprint : string;
  ai_decision_kind : string;
  ai_decision_boundary : datetime;
  ai_observed_at : datetime;
  ai_normalized_payload : json;
  ai_input_hash : string;
  ai_created_at : datetime;
}.

Record AgentDecisionRow := mk_AgentDecisionRow {
  ad_decision_id : uuid;
  ad_thesis_version_id : option uuid;
  ad_origin_tick_id : uuid;
  ad_input_snapshot_id : uuid;
  ad_account_role : string;
  ad_account_fingerprint : string;
  ad_decision_kind : string;
  ad_outcome : string;
  ad_reason_code : string;
  ad_policy_hash : string;
  ad_experiment_id : option uuid;
  ad_experiment_source_definition_hash : option string;
  ad_experiment_protocol_hash : option string;
  ad_result_payload : json;
  ad_result_hash : string;
  ad_autonomy_authorized : bool;
  ad_decision_boundary : datetime;
  ad_created_at : datetime;
}.

Record AgentTickRow := mk_AgentTickRow {
  ak_tick_id : uuid;
  ak_account_role : string;
  ak_account_fingerprint : string;
  ak_tick_key : string;
  ak_tick_boundary : datetime;
  ak_actor : string;
  ak_status : string;
  ak_reservation_token : uuid;
  ak_terminal_code : option string;
  ak_decision_id : option uuid;
  ak_execution_certificate_id : option uuid;
  ak_proof_hash : option string;
  ak_created_at : datetime;
  ak_completed_at : option datetime;
}.

Record EntryApprovalCertificateRow := mk_EntryApprovalCertificateRow {
  ec_approval_id : uuid;
  ec_thesis_version_id : uuid;
  ec_agent_decision_id : option uuid;
  ec_account_role : string;
  ec_policy_hash : string;
  ec_experiment_id : option uuid;
  ec_experiment_source_definition_hash : option string;
  ec_experiment_protocol_hash : option string;
  ec_book_fingerprint : string;
  ec_envelope_hash : string;
  ec_approved_max_loss : decimal;
  ec_quantity : Z;
  ec_valid_from : datetime;
  ec_expires_at : datetime;
  ec_valid : bool;
}.

Record ThesisVersionRow := mk_ThesisVersionRow {
  th_thesis_version_id : uuid;
  th_thesis_id : uuid;
  th_account_role : string;
  th_version : Z;
  th_origin_hash : string;
  th_thesis_hash : string;
  th_policy_hash : string;
  th_underlying : string;
  th_thesis_code : string;
  th_frozen_at : datetime;
  th_target_at : datetime;
  th_intended_exposure : json;
  th_exposure_limits : json;
  th_volatility_view : string;
  th_entry_atm_iv : decimal;
  th_approved_max_loss : decimal;
  th_portfolio_risk_cap : decimal;
  th_invalidation_codes : list string;
  th_thesis_payload : json;
  th_created_at : datetime;
}.

Record AssessmentCertificateRow := mk_AssessmentCertificateRow {
  ac_certificate_id : uuid;
  ac_thesis_version_id : uuid;
  ac_agent_decision_id : option uuid;
  ac_assessment_id : uuid;
  ac_account_role : string;
  ac_action : string;
  ac_position_fingerprint : string;
  ac_envelope_hash : string;
  ac_approved_max_loss : decimal;
  ac_quantity : Z;
  ac_expected_after_exposure : json;
  ac_policy_hash : string;
  ac_experiment_id : option uuid;
  ac_experiment_source_definition_hash : option string;
  ac_experiment_protocol_hash : option string;
  ac_created_at : datetime;
  ac_expires_at : datetime;
  ac_valid : bool;
}.

Record ManagedLifecyclePositionRow := mk_ManagedLifecyclePositionRow {
  mp_managed_position_id : uuid;
  mp_account_role : string;
  mp_account_fingerprint : string;
  mp_entry_execution_certificate_id : uuid;
  mp_entry_intent_id : uuid;
  mp_entry_approval_id : uuid;
  mp_thesis_version_id : uuid;
  mp_experiment_id : option uuid;
  mp_experiment_source_definition_hash : option string;
  mp_experiment_protocol_hash : option string;
  mp_entry_reconciliation_id : uuid;
  mp_current_reconciliation_state_id : uuid;
  mp_current_snapshot_id : option uuid;
  mp_active_position_fingerprint : string;
  mp_activated_at : datetime;
  mp_closed_at : option datetime;
}.

Record ManagedPositionSnapshotRow := mk_ManagedPositionSnapshotRow {
  ms_snapshot_id : uuid;
  ms_managed_position_id : uuid;
  ms_predecessor_snapshot_id : option uuid;
  ms_transition_id : uuid;
  ms_reconciliation_id : uuid;
  ms_reconciliation_state_id : uuid;
  ms_normalized_inventory : list json;
  ms_inventory_hash : string;
  ms_activity_manifest : list json;
  ms_activity_manifest_hash : string;
  ms_cumulative_cashflow : decimal;
  ms_rolls_on_trading_day : Z;
  ms_market_session_id : uuid;
  ms_position_fingerprint : string;
  ms_accepted_at : datetime;
  ms_snapshot_hash : string;
}.

(** The tables of the agent's decisions and of the position it manages. *)
Record origin_tables := mk_origin_tables {
  db_entry_approvals : gmap uuid EntryApprovalCertificateRow;
  db_assessments : gmap uuid AssessmentCertificateRow;
  db_decisions : gmap uuid AgentDecisionRow;
  db_snapshots : gmap uuid AgentInputSnapshotRow;
  db_ticks : gmap uuid AgentTickRow;
  db_theses : gmap uuid ThesisVersionRow;
  db_positions : gmap uuid ManagedLifecyclePositionRow;
  db_position_snapshots : gmap uuid ManagedPositionSnapshotRow;
}.

(** ** The database *)

Record database := mk_database {
  db_accounts : gmap string AccountRoleRow;
  db_baselines : gmap uuid SubmissionBaselineRow;
  db_states : gmap uuid AccountReconciliationStateRow;
  db_reconciliations : gmap uuid WholeAccountReconciliationRow;
  db_permits : gmap uuid BrokerMutationPermitRow;
  db_observations : gmap uuid AttemptObservationRow;
  db_intents : gmap uuid ExecutionIntentRow;
  db_attempts : gmap uuid OrderAttemptRow;
  db_certificates : gmap uuid ExecutionCertificateRow;
  db_budgets : gmap string CompetitionEntryBudgetRow;
  db_origins : origin_tables;
}.

(** *** Writing one table *)

Definition set_db_accounts (db : database) x : database :=
  mk_database x (db_baselines db) (db_states db) (db_reconciliations db) (db_permits db)
    (db_observations db) (db_intents db) (db_attempts db) (db_certificates db) (db_budgets db)
    (db_origins db).
Definition set_db_baselines (db : database) x : database :=
  mk_database (db_accounts db) x (db_states db) (db_reconciliations db) (db_permits db)
    (db_observations db) (db_intents db) (db_attempts db) (db_certificates db) (db_budgets db)
    (db_origins db).
Definition set_db_states (db : database) x : database :=
  mk_database (db_accounts db) (db_baselines db) x (db_reconciliations db) (db_permits db)
    (db_observations db) (db_intents db) (db_attempts db) (db_certificates db) (db_budgets db)
    (db_origins db).
Definition set_db_reconciliations (db : database) x : database :=
  mk_database (db_accounts db) (db_baselines db) (db_states db) x (db_permits db)
    (db_observations db) (db_intents db) (db_attempts db) (db_certificates db) (db_budgets db)
    (db_origins db).
Definition set_db_permits (db : database) x : database :=
  mk_database (db_accounts db) (db_baselines db) (db_states db) (db_reconciliations db) x
    (db_observations db) (db_intents db) (db_attempts db) (db_certificates db) (db_budgets db)
    (db_origins db).
Definition set_db_observations (db : database) x : database :=
  mk_database (db_accounts db) (db_baselines db) (db_states db) (db_reconciliations db)
    (db_permits db) x (db_intents db) (db_attempts db) (db_certificates db) (db_budgets db)
    (db_origins db).
Definition set_db_intents (db : database) x : database :=
  mk_database (db_accounts db) (db_baselines db) (db_states db) (db_reconciliations db)
    (db_permits db) (db_observations db) x (db_attempts db) (db_certificates db) (db_budgets db)
    (db_origins db).
Definition set_db_attempts (db : database) x : database :=
  mk_database (db_accounts db) (db_baselines db) (db_states db) (db_reconciliations db)
    (db_permits db) (db_observations db) (db_intents db) x (db_certificates db) (db_budgets db)
    (db_origins db).
Definition set_db_certificates (db : database) x : database :=
  mk_database (db_accounts db) (db_baselines db) (db_states db) (db_reconciliations db)
    (db_permits db) (db_observations db) (db_intents db) (db_attempts db) x (db_budgets db)
    (db_origins db).
Definition set_db_budgets (db : database) x : database :=
  mk_database (db_accounts db) (db_baselines db) (db_states db) (db_reconciliations db)
    (db_permits db) (db_observations db) (db_intents db) (db_attempts db) (db_certificates db) x
    (db_origins db).

Definition set_db_origins (db : database) x : database :=
  mk_database (db_accounts db) (db_baselines db) (db_states db) (db_reconciliations db)
    (db_permits db) (db_observations db) (db_intents db) (db_attempts db) (db_certificates db)
    (db_budgets db) x.

Definition set_entry_approvals (db : database) table : database :=
  let o := db_origins db in
  set_db_origins db (mk_origin_tables table (db_assessments o) (db_decisions o) (db_snapshots o)
    (db_ticks o) (db_theses o) (db_positions o) (db_position_snapshots o)).
Definition set_assessments (db : database) table : database :=
  let o := db_origins db in
  set_db_origins db (mk_origin_tables (db_entry_approvals o) table (db_decisions o)
    (db_snapshots o) (db_ticks o) (db_theses o) (db_positions o) (db_position_snapshots o)).
Definition set_theses (db : database) table : database :=
  let o := db_origins db in
  set_db_origins db (mk_origin_tables (db_entry_approvals o) (db_assessments o) (db_decisions o)
    (db_snapshots o) (db_ticks o) table (db_positions o) (db_position_snapshots o)).

(** ** Constraints *)

Definition rows {K R} `{Countable K} (table : gmap K R) : list R := map snd (map_to_list table).

(** [UniqueConstraint] and a unique [Index], over the rows the index has; a null is
    equal to nothing. *)
Definition unique {K R A} `{Countable K} `{EqDecision A} (key : R -> option A) (table : gmap K R) : bool :=
  bool_decide (NoDup (omap key (rows table))).
(** [CheckConstraint] *)
Definition check {K R} `{Countable K} (p : R -> bool) (table : gmap K R) : bool := forallb p (rows table).

Definition is_null {A} (value : option A) : bool := match value with None => true | Some _ => false end.
Definition not_null {A} (value : option A) : bool := negb (is_null value).
Definition one_of (s : string) (l : list string) : bool := existsb (String.eqb s) l.
Definition between (low n high : Z) : bool := (low <=? n) && (n <=? high).

(** [quote_hash ~ '^[0-9a-f]{64}$'] *)
Definition quote_authority (quote_hash : option string) (timestamps : list string)
    (retrieved_at timing_authority_at : option datetime) (prior_request_hash : option string) : bool :=
  (is_null quote_hash && (length timestamps =? 0)%nat && is_null retrieved_at
   && is_null timing_authority_at && is_null prior_request_hash)
  || (match quote_hash with Some hash => is_hash hash | None => false end
      && (0 <? length timestamps)%nat && not_null retrieved_at && not_null timing_authority_at
      && match prior_request_hash with Some hash => is_hash hash | None => false end).

Definition LOCK_REASONS : list string :=
  ["ASSIGNMENT_SUSPECTED"; "RECONCILIATION_MISMATCH"; "ENTRY_EQUITY_FLOOR";
   "ENTRY_OPEN_POSITION_LIMIT"; "ENTRY_LIMITS_REQUIRED"; "ENTRY_POLICY_AUTHORITY_MISMATCH";
   "ENTRY_COUNT_EXHAUSTED"; "ENTRY_POSITION_RISK_EXHAUSTED"; "ENTRY_RISK_EXHAUSTED";
   "ENTRY_QUANTITY_EXHAUSTED"; "BROKER_TRANSITION_STALLED"; "UNMANAGED_PARTIAL_EXPOSURE"].

Definition account_checks (row : AccountRoleRow) : bool :=
  one_of (ar_role row) ["SUBMISSION"; "DEVELOPMENT"]
  && (negb (ar_execution_locked row) && is_null (ar_execution_lock_reason row)
      && is_null (ar_execution_locked_at row) && is_null (ar_execution_lock_id row)
      && negb (ar_recovery_pending row)
      || ar_execution_locked row
         && match ar_execution_lock_reason row with
            | Some reason => one_of reason LOCK_REASONS
            | None => false
            end
         && not_null (ar_execution_locked_at row) && not_null (ar_execution_lock_id row)
         && (0 <? ar_execution_lock_generation row))
  && (0 <=? ar_execution_epoch row) && (0 <=? ar_claim_generation row).

Definition state_checks (row : AccountReconciliationStateRow) : bool :=
  (0 <? st_sequence row)
  && ((st_sequence row =? 1) && is_null (st_authority_permit_id row)
      && is_null (st_authority_observation_id row) && is_null (st_authority_permit_request_hash row)
      || (1 <? st_sequence row) && not_null (st_authority_permit_id row)
         && not_null (st_authority_observation_id row)
         && match st_authority_permit_request_hash row with
            | Some hash => str_len hash =? 64
            | None => false
            end).

Definition reconciliation_checks (row : WholeAccountReconciliationRow) : bool :=
  one_of (wa_purpose row) ["SUBMIT"; "REPLACE"; "CANCEL"; "BASELINE_INITIALIZATION"]
  && between 0 (wa_attempt_ordinal row) 3.

(** [ck_broker_permit_transition_fields] *)
Definition transition_fields (row : BrokerMutationPermitRow) : bool :=
  let nonce := not_null (pm_dispatch_nonce row) in
  let acquired := not_null (pm_dispatch_acquired_at row) in
  let consumed := not_null (pm_consumed_at row) in
  let outcome := not_null (pm_outcome_hash row) in
  one_of (pm_state row) ["PREPARED"] && negb nonce && negb acquired && negb consumed && negb outcome
  || one_of (pm_state row) ["DISPATCHING"; "LOOKUP_ONLY"] && nonce && acquired && negb consumed
     && negb outcome
  || one_of (pm_state row) ["CONSUMED"] && nonce && acquired && consumed && outcome
  || one_of (pm_state row) ["EXPIRED"] && negb nonce && negb acquired && consumed && negb outcome.

Definition permit_checks (row : BrokerMutationPermitRow) : bool :=
  one_of (pm_mutation_kind row) ["SUBMIT"; "REPLACE"; "CANCEL"]
  && between 0 (pm_attempt_ordinal row) 3
  && (0 <? pm_permit_generation row)
  && (dt_instant (pm_issued_at row) <? dt_instant (pm_expires_at row))
  && transition_fields row && not_null (pm_limit_price row)
  && quote_authority (pm_quote_hash row) (pm_quote_source_timestamps row)
       (pm_quote_retrieved_at row) (pm_timing_authority_at row) (pm_prior_request_hash row).

(** The states of a permit that may still reach the broker or be waiting for it. *)
Definition UNRESOLVED : list string := ["PREPARED"; "DISPATCHING"; "LOOKUP_ONLY"].

(** [uq_current_dispatchable_broker_permit]: the rows of the index and its columns. *)
Definition dispatchable (row : BrokerMutationPermitRow) : option (uuid * string * Z) :=
  if one_of (pm_state row) UNRESOLVED
  then Some (pm_execution_intent_id row, pm_mutation_kind row, pm_attempt_ordinal row) else None.

Definition permit_table_ok (table : gmap uuid BrokerMutationPermitRow) : bool :=
  check permit_checks table
  && unique (fun row => Some (pm_execution_intent_id row, pm_mutation_kind row,
                              pm_attempt_ordinal row, pm_permit_generation row)) table
  && unique dispatchable table
  && unique (fun row => Some (pm_reconciliation_id row)) table
  && unique pm_predecessor_permit_id table
  && unique pm_dispatch_nonce table.

Definition observation_checks (row : AttemptObservationRow) : bool :=
  (0 <? or_observation_sequence row) && between 0 (or_attempt_ordinal row) 3
  && one_of (or_source row) ["DISPATCH_OUTCOME"; "TARGETED_LOOKUP"; "TARGETED_LOOKUP_FAILURE"]
  && Bool.eqb (or_provider_present row) (not_null (or_observed_payload row)).

Definition observation_table_ok (table : gmap uuid AttemptObservationRow) : bool :=
  check observation_checks table
  && unique (fun row => Some (or_execution_intent_id row, or_observation_sequence row)) table
  && unique (fun row => Some (or_observation_hash row)) table.

Definition attempt_checks (row : OrderAttemptRow) : bool :=
  between 0 (at_attempt_ordinal row) 3
  && between 0 (at_quantity row) MAX_STRUCTURAL_OPTION_QUANTITY
  && between 0 (at_filled_quantity row) (at_quantity row)
  && quote_authority (at_quote_hash row) (at_quote_source_timestamps row)
       (at_quote_retrieved_at row) (at_timing_authority_at row) (at_prior_request_hash row)
  && (is_null (at_quote_hash row) || (0 <? at_attempt_ordinal row)).

Definition attempt_table_ok (table : gmap uuid OrderAttemptRow) : bool :=
  check attempt_checks table
  && unique (fun row => Some (at_execution_intent_id row, at_attempt_ordinal row)) table
  && unique at_broker_permit_id table
  && unique (fun row => Some (at_client_order_id row)) table
  && unique at_provider_order_id table.

Definition certificate_checks (row : ExecutionCertificateRow) : bool :=
  negb (Bool.eqb (is_null (xr_entry_approval_id row)) (is_null (xr_assessment_certificate_id row)))
  && (is_null (xr_reconciliation_id row) && is_null (xr_reconciliation_hash row)
      && is_null (xr_last_observation_hash row)
      || not_null (xr_reconciliation_id row) && not_null (xr_reconciliation_hash row)
         && not_null (xr_last_observation_hash row)).

Definition holds (m : M bool) : bool := match m with Ok b => b | Raise _ => false end.
(** Comparisons with a null are not true. *)
Definition le_opt (a b : option decimal) : bool :=
  match a, b with Some a, Some b => holds (a <=. b) | _, _ => false end.
Definition lt_opt (a b : option datetime) : bool :=
  match a, b with Some a, Some b => dt_instant a <? dt_instant b | _, _ => false end.
Definition le_time_opt (a b : option datetime) : bool :=
  match a, b with Some a, Some b => dt_instant a <=? dt_instant b | _, _ => false end.

Definition roll_checks (row : ExecutionIntentRow) : bool :=
  let zero := Some (Dint 0) in
  (one_of (ir_action row) ["ROLL"] && not_null (ir_market_session_id row)
   && le_opt zero (ir_quoted_relative_spread row)
   && le_opt (ir_quoted_relative_spread row) (ir_maximum_relative_spread row)
   && match ir_maximum_relative_spread row with Some m => holds (m <. Dint 1) | None => false end
   && le_opt zero (ir_incremental_debit row)
   && le_opt (ir_incremental_debit row) (ir_maximum_incremental_debit row)
   && le_opt (ir_maximum_incremental_debit row) (Some (ir_approved_max_loss row)))
  || (negb (one_of (ir_action row) ["ROLL"]) && is_null (ir_market_session_id row)
      && is_null (ir_quoted_relative_spread row) && is_null (ir_maximum_relative_spread row)
      && is_null (ir_incremental_debit row) && is_null (ir_maximum_incremental_debit row)).

Definition intent_checks (row : ExecutionIntentRow) : bool :=
  (one_of (ir_action row) ["ENTRY"] && not_null (ir_entry_approval_id row)
   && is_null (ir_assessment_certificate_id row)
   || one_of (ir_action row) ["CLOSE"; "ROLL"] && is_null (ir_entry_approval_id row)
      && not_null (ir_assessment_certificate_id row))
  && between 1 (ir_quantity row) MAX_STRUCTURAL_OPTION_QUANTITY
  && holds (ir_minimum_limit row <=. ir_maximum_limit row)
  && holds ((Dint 0 <. ir_approved_max_loss row)
            &&& (ir_approved_max_loss row <=. MAX_STRUCTURAL_APPROVED_RISK))
  && roll_checks row
  && one_of (ir_state row) ["APPROVED"; "CLAIMED"; "TERMINAL"]
  && (0 <=? ir_claim_generation row) && (0 <=? ir_execution_epoch row)
  && (negb (one_of (ir_state row) ["CLAIMED"])
      || not_null (ir_claim_token row) && (0 <? ir_claim_generation row)
         && le_time_opt (ir_claimed_at row) (ir_heartbeat_at row)
         && lt_opt (ir_heartbeat_at row) (ir_lease_expires_at row)).

Definition intent_table_ok (table : gmap uuid ExecutionIntentRow) : bool :=
  check intent_checks table
  && unique (fun row => Some (ir_intent_digest row)) table
  && unique ir_claim_token table
  && unique (fun row => if one_of (ir_action row) ["ENTRY"] && negb (one_of (ir_state row) ["TERMINAL"])
                        then Some (ir_account_role row) else None) table
  && unique (fun row => if one_of (ir_state row) ["CLAIMED"] then Some (ir_account_role row) else None)
       table
  && unique (fun row => if one_of (ir_action row) ["ROLL"]
                        then match ir_market_session_id row with
                             | Some session => Some (ir_account_role row, ir_fingerprint row, session)
                             | None => None
                             end
                        else None) table.

Definition budget_checks (row : CompetitionEntryBudgetRow) : bool :=
  between 0 (bg_entries_used row) MAX_STRUCTURAL_LIFETIME_ENTRIES
  && holds ((Dint 0 <=. bg_gross_approved_risk row)
            &&& (bg_gross_approved_risk row <=. MAX_STRUCTURAL_LIFETIME_RISK))
  && holds (Dint 0 <=. bg_reserved_risk row).

Definition account_table_ok (table : gmap string AccountRoleRow) : bool :=
  check account_checks table
  && unique (fun row => Some (ar_account_fingerprint row)) table
  && unique ar_execution_lock_id table.

Definition state_table_ok (table : gmap uuid AccountReconciliationStateRow) : bool :=
  check state_checks table
  && unique (fun row => Some (st_account_role row, st_sequence row)) table
  && unique st_predecessor_state_id table && unique st_authority_reconciliation_id table
  && unique st_authority_permit_id table && unique st_authority_observation_id table
  && unique st_transition_hash table && unique (fun row => Some (st_state_hash row)) table.

Definition reconciliation_table_ok (table : gmap uuid WholeAccountReconciliationRow) : bool :=
  check reconciliation_checks table
  && unique (fun row => Some (wa_reconciliation_hash row)) table.

Definition certificate_table_ok (table : gmap uuid ExecutionCertificateRow) : bool :=
  check certificate_checks table
  && unique (fun row => Some (xr_execution_intent_id row)) table
  && unique xr_reconciliation_id table && unique xr_reconciliation_hash table
  && unique xr_last_observation_hash table.

(** [ck_entry_approval_experiment_lineage] and [ck_assessment_experiment_lineage] *)
Definition lineage_columns (agent_decision_id experiment_id : option uuid)
    (source_definition_hash protocol_hash : option string) : bool :=
  is_null experiment_id && is_null source_definition_hash && is_null protocol_hash
  || not_null experiment_id && not_null agent_decision_id && not_null source_definition_hash
     && not_null protocol_hash.

Definition entry_approval_checks (row : EntryApprovalCertificateRow) : bool :=
  holds (Dint 0 <. ec_approved_max_loss row)
  && between 1 (ec_quantity row) MAX_STRUCTURAL_OPTION_QUANTITY
  && (dt_instant (ec_valid_from row) <? dt_instant (ec_expires_at row))
  && lineage_columns (ec_agent_decision_id row) (ec_experiment_id row)
       (ec_experiment_source_definition_hash row) (ec_experiment_protocol_hash row).

Definition entry_approval_table_ok (table : gmap uuid EntryApprovalCertificateRow) : bool :=
  check entry_approval_checks table && unique ec_agent_decision_id table.

Definition assessment_checks (row : AssessmentCertificateRow) : bool :=
  one_of (ac_action row) ["CLOSE"; "ROLL"]
  && holds (Dint 0 <. ac_approved_max_loss row)
  && between 1 (ac_quantity row) MAX_STRUCTURAL_OPTION_QUANTITY
  && (dt_instant (ac_created_at row) <? dt_instant (ac_expires_at row))
  && lineage_columns (ac_agent_decision_id row) (ac_experiment_id row)
       (ac_experiment_source_definition_hash row) (ac_experiment_protocol_hash row).

Definition assessment_table_ok (table : gmap uuid AssessmentCertificateRow) : bool :=
  check assessment_checks table && unique ac_agent_decision_id table
  && unique (fun row => Some (ac_assessment_id row)) table.

Definition thesis_checks (row : ThesisVersionRow) : bool :=
  (0 <? th_version row)
  && (dt_instant (th_frozen_at row) <? dt_instant (th_target_at row))
  && holds ((Dint 0 <. th_approved_max_loss row)
            &&& (th_approved_max_loss row <=. MAX_STRUCTURAL_APPROVED_RISK))
  && holds ((Dint 0 <. th_portfolio_risk_cap row)
            &&& (th_portfolio_risk_cap row <=. MAX_STRUCTURAL_LIFETIME_RISK)).

Definition thesis_table_ok (table : gmap uuid ThesisVersionRow) : bool :=
  check thesis_checks table
  && unique (fun row => Some (th_account_role row, th_version row)) table
  && unique (fun row => Some (th_thesis_id row, th_version row)) table
  && unique (fun row => Some (th_origin_hash row)) table
  && unique (fun row => Some (th_thesis_hash row)) table.

Definition origin_tables_ok (origins : origin_tables) : bool :=
  entry_approval_table_ok (db_entry_approvals origins)
  && assessment_table_ok (db_assessments origins) && thesis_table_ok (db_theses origins).

(** What the database enforces when a transaction commits. *)
Definition schema_ok (db : database) : bool :=
  account_table_ok (db_accounts db)
  && unique (fun row => Some (bl_account_role row)) (db_baselines db)
  && state_table_ok (db_states db) && reconciliation_table_ok (db_reconciliations db)
  && permit_table_ok (db_permits db) && observation_table_ok (db_observations db)
  && intent_table_ok (db_intents db) && attempt_table_ok (db_attempts db)
  && certificate_table_ok (db_certificates db) && check budget_checks (db_budgets db)
  && origin_tables_ok (db_origins db).

(** ** Facts *)

Lemma rows_elem {K R} `{Countable K} (table : gmap K R) row :
  row ∈ rows table <-> exists key, table !! key = Some row.
Proof.
  unfold rows. rewrite list_elem_of_fmap. split.
  - intros ([key r] & -> & Hr%elem_of_map_to_list). by exists key.
  - intros [key Hk]. exists (key, row). split; [done|by apply elem_of_map_to_list].
Qed.

Lemma check_lookup {K R} `{Countable K} (p : R -> bool) (table : gmap K R) key row :
  check p table = true -> table !! key = Some row -> p row = true.
Proof.
  unfold check. rewrite forallb_forall. intros Hp Hk. apply Hp, list_elem_of_In, rows_elem. by exists key.
Qed.

Lemma NoDup_omap_inj {A B} (f : A -> option B) l i j x y b :
  NoDup (omap f l) -> l !! i = Some x -> l !! j = Some y -> f x = Some b -> f y = Some b -> i = j.
Proof.
  revert i j. induction l as [|z l IH]; intros i j Hn Hi Hj Hx Hy; [done|].
  assert (Htail : forall k w, l !! k = Some w -> f w = Some b -> b ∈ omap f l).
  { intros k w Hk Hw. apply list_elem_of_omap. exists w. split; [by eapply list_elem_of_lookup_2|done]. }
  cbn in Hn. destruct i as [|i], j as [|j]; cbn in Hi, Hj; [done| | |].
  - injection Hi as ->. rewrite Hx in Hn. apply NoDup_cons in Hn as [Hn _]. exfalso. eauto.
  - injection Hj as ->. rewrite Hy in Hn. apply NoDup_cons in Hn as [Hn _]. exfalso. eauto.
  - f_equal. eapply IH; try done. destruct (f z); [by apply NoDup_cons in Hn as [_ Hn]|done].
Qed.

(** Two rows of a unique index with the same key are the same row. *)
Lemma unique_lookup {K R A} `{Countable K} `{EqDecision A} (key : R -> option A) (table : gmap K R) k k' r r' a :
  unique key table = true -> table !! k = Some r -> table !! k' = Some r' ->
  key r = Some a -> key r' = Some a -> k = k'.
Proof.
  unfold unique, rows. intros Hn%bool_decide_eq_true Hr Hr' E E'.
  apply elem_of_map_to_list, list_elem_of_lookup_1 in Hr as [i Hi].
  apply elem_of_map_to_list, list_elem_of_lookup_1 in Hr' as [j Hj].
  assert (i = j).
  { apply (NoDup_omap_inj _ _ i j r r' a Hn); [| |done..]; rewrite list_lookup_fmap, ?Hi, ?Hj; done. }
  congruence.
Qed.
