(* ===== verification/SqlRows.v ===== *)
(** * Rows, queries and transactions

    How [backend/app/persistence/sqlalchemy_repository.py] works on the tables: a
    transaction is a function from the database to its result and the database it
    leaves; an exception, also one of a violated constraint at the commit, rolls it
    back.  The queries are filters and orders over a table, and the conversions between
    rows and the records of the execution are those of the module.  The readings of
    the database clock and the values of [uuid4] are arguments.  Isolation and row locks
    are the database's: transactions are atomic. *)

From Stdlib Require Import ZArith Lia String Ascii List Bool.
From stdpp Require Import base strings gmap option tactics relations sorting list.
From S2P Require Import Prelude PyText PyDict PyDecimal PyTime PyHash PyParse Contracts ExecModels OrderLimits OrderStatus Identity Finalization ReconciliationData Reconciliation Permits SqlSchema SqlCodec.

#[local] Open Scope string_scope.
#[local] Open Scope Z_scope.

(** ** Transactions *)

Definition txn (A : Type) : Type := database -> M (A * database).

#[export] Instance txn_ret : MRet txn := fun A a db => Ok (a, db).
#[export] Instance txn_bind : MBind txn := fun A B f t db =>
  match t db with Ok (a, db) => f a db | Raise e => Raise e end.

Definition perform {A} (m : M A) : txn A := fun db => a ← m; Ok (a, db).
(** A query, and a query that may raise. *)
Definition select {A} (q : database -> A) : txn A := fun db => Ok (q db, db).
Definition select_m {A} (q : database -> M A) : txn A := fun db => a ← q db; Ok (a, db).
Definition write (w : database -> database) : txn unit := fun db => Ok (tt, w db).
Definition raise {A} (e : exn) : txn A := fun _ => Raise e.
(** [if condition: raise ExecutionBlocked(code)] *)
Definition refuse (condition : M bool) (code : string) : txn unit :=
  perform (when condition then_ blocked code;; Ok tt).
(** [if value is None: raise e] *)
Definition required {A} (e : exn) (value : option A) : txn A :=
  match value with Some a => mret a | None => raise e end.

(** [with self._sessions.begin() as session]: the commit, or the rollback. *)
Definition transaction {A} (t : txn A) (db : database) : database * M A :=
  match t db with
  | Ok (a, db') => if schema_ok db' then (db', Ok a) else (db, Raise IntegrityError)
  | Raise e => (db, Raise e)
  end.
(** [with self._sessions() as session]: nothing is written. *)
Definition reading {A} (t : txn A) (db : database) : M A := '(a, _) ← t db; Ok a.

(** [except IntegrityError as error: raise ExecutionBlocked(code) from error] *)
Definition integrity_blocks {A} (code : string) (r : database * M A) : database * M A :=
  (r.1, try_with r.2 (fun e => match e with IntegrityError => blocked code | e => Raise e end)).

(** [session.add(row)]: a primary key that is there violates it. *)
Definition insert_row {K R} `{Countable K} (table : database -> gmap K R)
    (set_table : database -> gmap K R -> database) (key : K) (row : R) : txn unit := fun db =>
  match table db !! key with
  | Some _ => Raise IntegrityError
  | None => Ok (tt, set_table db (<[key := row]> (table db)))
  end.

(** ** Enumerations of columns *)

#[export] Instance IntentState_value : StrEnum IntentState := fun s =>
  match s with APPROVED => "APPROVED" | CLAIMED => "CLAIMED" | TERMINAL => "TERMINAL" end.
#[export] Instance Actor_value : StrEnum Actor := fun a =>
  match a with OWNER => "OWNER" | SCHEDULER => "SCHEDULER" end.
#[export] Instance AttemptObservationSource_value : StrEnum AttemptObservationSource := fun s =>
  match s with
  | DISPATCH_OUTCOME => "DISPATCH_OUTCOME"
  | TARGETED_LOOKUP => "TARGETED_LOOKUP"
  | TARGETED_LOOKUP_FAILURE => "TARGETED_LOOKUP_FAILURE"
  end.
#[export] Instance IntentState_members : Members IntentState := [APPROVED; CLAIMED; TERMINAL].
#[export] Instance Actor_members : Members Actor := [OWNER; SCHEDULER].
#[export] Instance AttemptObservationSource_members : Members AttemptObservationSource :=
  [DISPATCH_OUTCOME; TARGETED_LOOKUP; TARGETED_LOOKUP_FAILURE].

(** [Enumeration(row.column)] *)
Definition member_of {A} `{StrEnum A} `{Members A} (s : string) : M A := enum_of (JStr s).

(** ** Orders *)

Fixpoint lex_le (x y : list Z) : bool :=
  match x, y with
  | [], _ => true
  | _, [] => false
  | a :: x, b :: y => (a <? b) || (a =? b) && lex_le x y
  end.

Definition ordered_by {R} (key : R -> list Z) (a b : R) : Prop := lex_le (key a) (key b) = true.
#[export] Instance ordered_by_dec {R} (key : R -> list Z) : RelDecision (ordered_by key).
Proof. intros a b. unfold ordered_by. apply _. Defined.

(** [.where(condition).order_by(key)] *)
Definition where_ordered {K R} `{Countable K} (p : R -> bool) (key : R -> list Z) (table : gmap K R)
    : list R :=
  merge_sort (ordered_by key) (List.filter p (rows table)).

Definition id_key (u : uuid) : Z := Z.of_N u.

Definition attempt_rows_of (intent_id : uuid) (db : database) : list OrderAttemptRow :=
  where_ordered (fun row => (at_execution_intent_id row =? intent_id)%N)
    (fun row => [at_attempt_ordinal row; id_key (at_attempt_id row)]) (db_attempts db).

Definition permit_rows_of (intent_id : uuid) (db : database) : list BrokerMutationPermitRow :=
  where_ordered (fun row => (pm_execution_intent_id row =? intent_id)%N)
    (fun row => [pm_attempt_ordinal row; pm_permit_generation row; id_key (pm_permit_id row)])
    (db_permits db).

Definition observation_rows_of (intent_id : uuid) (db : database) : list AttemptObservationRow :=
  where_ordered (fun row => (or_execution_intent_id row =? intent_id)%N)
    (fun row => [or_observation_sequence row; id_key (or_observation_id row)]) (db_observations db).

(** The latest state of an account: [.order_by(sequence.desc())]. *)
Definition latest_state_of (role : string) (db : database) : option AccountReconciliationStateRow :=
  head (where_ordered (fun row => String.eqb (st_account_role row) role)
          (fun row => [- st_sequence row]) (db_states db)).

Definition baseline_of (role : string) (db : database) : option SubmissionBaselineRow :=
  List.find (fun row => String.eqb (bl_account_role row) role) (rows (db_baselines db)).

(** The attempt of an ordinal. *)
Definition attempt_row_at (intent_id : uuid) (ordinal : Z) (db : database) : option OrderAttemptRow :=
  List.find (fun row => (at_execution_intent_id row =? intent_id)%N && (at_attempt_ordinal row =? ordinal))
    (rows (db_attempts db)).

(** ** Time *)

(** [_trusted_now] of a reading of the database clock. *)
Definition _trusted_now (reading : datetime) : M datetime :=
  when negb (is_aware reading) then_ blocked "TRUSTED_DATABASE_TIME_INVALID";;
  astimezone_utc reading.

(** ** The settings of the repository *)

Record settings := mk_settings {
  permit_ttl : timedelta;
  retryable_permit_ttl : timedelta;
  network_call_horizon : timedelta;
  entry_limits : option EntryBudgetLimits;
}.

Definition make_settings (permit_ttl : timedelta) (retryable_permit_ttl : option timedelta)
    (network_call_horizon : timedelta) (entry_limits : option EntryBudgetLimits) : M settings :=
  when (permit_ttl <=? 0)
       || match retryable_permit_ttl with Some ttl => ttl <=? 0 | None => false end
       || (network_call_horizon <=? 0)
  then_ Raise (ValueError "BROKER_PERMIT_TTL_INVALID");;
  Ok (mk_settings permit_ttl (default permit_ttl retryable_permit_ttl) network_call_horizon entry_limits).

(** ** Attempts *)

(** [==] of two attempts, field by field. *)
Definition opt_eq {A} (eqb : A -> A -> bool) (a b : option A) : bool :=
  match a, b with Some a, Some b => eqb a b | None, None => true | _, _ => false end.

Definition attempt_eq (a b : OrderAttempt) : bool :=
  (oa_intent_id a =? oa_intent_id b)%N && (oa_ordinal a =? oa_ordinal b)
  && String.eqb (oa_client_order_id a) (oa_client_order_id b)
  && String.eqb (oa_request_hash a) (oa_request_hash b)
  && String.eqb (oa_state a) (oa_state b)
  && bool_decide (oa_replaces_client_order_id a = oa_replaces_client_order_id b)
  && bool_decide (oa_provider_order_id a = oa_provider_order_id b)
  && (oa_filled_quantity a =? oa_filled_quantity b) && (oa_quantity a =? oa_quantity b)
  && deq_opt (oa_fill_cash_flow a) (oa_fill_cash_flow b)
  && deq_opt (oa_limit_price a) (oa_limit_price b)
  && bool_decide (oa_quote_hash a = oa_quote_hash b)
  && tuple_eq dt_eq (oa_quote_source_timestamps a) (oa_quote_source_timestamps b)
  && opt_eq dt_eq (oa_quote_retrieved_at a) (oa_quote_retrieved_at b)
  && opt_eq dt_eq (oa_timing_authority_at a) (oa_timing_authority_at b)
  && bool_decide (oa_prior_request_hash a = oa_prior_request_hash b).

(** [by_id.get(row.replaces_attempt_id)] *)
Definition client_order_id_of (rows : list OrderAttemptRow) (attempt_id : option uuid) : option string :=
  match attempt_id with
  | Some id => option_map at_client_order_id
                 (List.find (fun item => (at_attempt_id item =? id)%N) (rev rows))
  | None => None
  end.

Definition _attempt_from_row (row : OrderAttemptRow) (rows : list OrderAttemptRow) : M OrderAttempt :=
  timestamps ← map_m datetime_fromisoformat (at_quote_source_timestamps row);
  Ok {| oa_intent_id := at_execution_intent_id row; oa_ordinal := at_attempt_ordinal row;
        oa_client_order_id := at_client_order_id row; oa_request_hash := at_request_hash row;
        oa_state := at_state row;
        oa_replaces_client_order_id := client_order_id_of rows (at_replaces_attempt_id row);
        oa_provider_order_id := at_provider_order_id row;
        oa_filled_quantity := at_filled_quantity row; oa_quantity := at_quantity row;
        oa_fill_cash_flow := at_fill_cash_flow row; oa_limit_price := at_limit_price row;
        oa_quote_hash := at_quote_hash row; oa_quote_source_timestamps := timestamps;
        oa_quote_retrieved_at := option_map _utc (at_quote_retrieved_at row);
        oa_timing_authority_at := option_map _utc (at_timing_authority_at row);
        oa_prior_request_hash := at_prior_request_hash row |}.

Definition _attempts_from_rows (rows : list OrderAttemptRow) : M (list OrderAttempt) :=
  map_m (fun row => _attempt_from_row row rows) rows.

Definition _attempt_id (intent_id : uuid) (ordinal : Z) : uuid :=
  uuid5 NAMESPACE_URL ("alphadecay:attempt:" ++ uuid_str intent_id ++ ":" ++ str_of_Z ordinal).

(** ** Accounts and intents *)

Definition with_equity (account : AccountRoleRow) x : AccountRoleRow :=
  mk_AccountRoleRow (ar_role account) (ar_account_fingerprint account) x
    (ar_autonomous_enabled account) (ar_execution_locked account) (ar_execution_lock_reason account)
    (ar_execution_locked_at account) (ar_execution_lock_id account)
    (ar_execution_lock_generation account) (ar_recovery_pending account)
    (ar_execution_epoch account) (ar_claim_generation account).

Definition with_claim_generation (account : AccountRoleRow) x : AccountRoleRow :=
  mk_AccountRoleRow (ar_role account) (ar_account_fingerprint account) (ar_equity account)
    (ar_autonomous_enabled account) (ar_execution_locked account) (ar_execution_lock_reason account)
    (ar_execution_locked_at account) (ar_execution_lock_id account)
    (ar_execution_lock_generation account) (ar_recovery_pending account)
    (ar_execution_epoch account) x.

(** [lock_id] is the value of [uuid4()]. *)
Definition _latch_account (account : AccountRoleRow) (reason : string) (locked_at : datetime)
    (lock_id : uuid) : AccountRoleRow :=
  mk_AccountRoleRow (ar_role account) (ar_account_fingerprint account) (ar_equity account)
    (ar_autonomous_enabled account) true (Some reason) (Some locked_at) (Some lock_id)
    (ar_execution_lock_generation account + 1) false (ar_execution_epoch account)
    (ar_claim_generation account).

Definition save_account (account : AccountRoleRow) : txn unit :=
  write (fun db => set_db_accounts db (<[ar_role account := account]> (db_accounts db))).

Definition latch (account : AccountRoleRow) (reason : string) (locked_at : datetime) (lock_id : uuid)
    : txn unit :=
  save_account (_latch_account account reason locked_at lock_id).

Definition intent_with (row : ExecutionIntentRow) (state : string) (claimed_by : option string)
    (claimed_at : option datetime) (claim_token : option uuid) (claim_generation execution_epoch : Z)
    (heartbeat_at lease_expires_at : option datetime) (first_fill_consumed : bool)
    : ExecutionIntentRow :=
  mk_ExecutionIntentRow (ir_intent_id row) (ir_account_role row) (ir_intent_digest row)
    (ir_action row) (ir_policy_hash row) (ir_event_key row) (ir_trading_day row)
    (ir_entry_approval_id row) (ir_assessment_certificate_id row) (ir_fingerprint row)
    (ir_envelope_hash row) (ir_envelope_payload row) (ir_legs row) (ir_quantity row)
    (ir_minimum_limit row) (ir_maximum_limit row) (ir_approved_max_loss row)
    (ir_market_session_id row) (ir_quoted_relative_spread row) (ir_maximum_relative_spread row)
    (ir_incremental_debit row) (ir_maximum_incremental_debit row) state claimed_by claimed_at
    claim_token claim_generation execution_epoch heartbeat_at lease_expires_at
    first_fill_consumed.

Definition intent_with_state (row : ExecutionIntentRow) (state : string) (first_fill_consumed : bool)
    : ExecutionIntentRow :=
  intent_with row state (ir_claimed_by row) (ir_claimed_at row) (ir_claim_token row)
    (ir_claim_generation row) (ir_execution_epoch row) (ir_heartbeat_at row)
    (ir_lease_expires_at row) first_fill_consumed.

Definition save_intent (row : ExecutionIntentRow) : txn unit :=
  write (fun db => set_db_intents db (<[ir_intent_id row := row]> (db_intents db))).

Definition save_budget (row : CompetitionEntryBudgetRow) : txn unit :=
  write (fun db => set_db_budgets db (<[bg_account_role row := row]> (db_budgets db))).

(** The columns of an intent disagree with the envelope it carries. *)
Definition intent_corrupt (row : ExecutionIntentRow) (account : AccountRoleRow)
    (envelope : OrderEnvelope) : bool :=
  match (if ir_entry_approval_id row is Some id then Some id else ir_assessment_certificate_id row) with
  | None => true
  | Some id => negb (oe_authorization_certificate_id envelope =? id)%N
  end
  || negb (String.eqb (oe_account_fingerprint envelope) (ar_account_fingerprint account))
  || negb (String.eqb (enum_value (oe_action envelope)) (ir_action row))
  || negb (String.eqb (oe_policy_hash envelope) (ir_policy_hash row))
  || negb (String.eqb (oe_position_or_book_fingerprint envelope) (ir_fingerprint row))
  || negb (String.eqb (oe_event_key envelope) (ir_event_key row))
  || negb (oe_trading_day envelope =? ir_trading_day row)
  || negb (oe_quantity envelope =? ir_quantity row)
  || negb (oe_minimum_limit envelope ==. ir_minimum_limit row)
  || negb (oe_maximum_limit envelope ==. ir_maximum_limit row)
  || negb (oe_approved_max_loss envelope ==. ir_approved_max_loss row)
  || negb (bool_decide (oe_market_session_id envelope = ir_market_session_id row))
  || negb (deq_opt (oe_quoted_relative_spread envelope) (ir_quoted_relative_spread row))
  || negb (deq_opt (oe_maximum_relative_spread envelope) (ir_maximum_relative_spread row))
  || negb (deq_opt (oe_incremental_debit envelope) (ir_incremental_debit row))
  || negb (deq_opt (oe_maximum_incremental_debit envelope) (ir_maximum_incremental_debit row))
  || negb (String.eqb (json_dumps (_legs_to_json (oe_legs envelope))) (json_dumps (ir_legs row)))
  || negb (String.eqb (order_envelope_hash envelope) (ir_envelope_hash row))
  || negb (String.eqb (intent_digest envelope) (ir_intent_digest row)).

Definition _intent_from_row (row : ExecutionIntentRow) (db : database) : M ExecutionIntent :=
  match db_accounts db !! ir_account_role row with
  | None => blocked "ACCOUNT_NOT_REGISTERED"
  | Some account =>
      envelope ← _envelope_from_json (ir_envelope_payload row);
      when intent_corrupt row account envelope then_ blocked "PERSISTED_INTENT_CORRUPT";;
      account_role ← member_of (ir_account_role row);
      state ← member_of (ir_state row);
      claimed_by ← match ir_claimed_by row with
                   | Some actor => if str_nonempty actor then a ← member_of actor; Ok (Some a) else Ok None
                   | None => Ok None
                   end;
      Ok {| ei_intent_id := ir_intent_id row; ei_account_role := account_role;
            ei_envelope := envelope; ei_digest := ir_intent_digest row; ei_state := state;
            ei_claimed_by := claimed_by; ei_claimed_at := option_map _utc (ir_claimed_at row);
            ei_first_fill_consumed := ir_first_fill_consumed row;
            ei_claim_token := ir_claim_token row; ei_claim_generation := ir_claim_generation row;
            ei_execution_epoch := ir_execution_epoch row;
            ei_heartbeat_at := option_map _utc (ir_heartbeat_at row);
            ei_lease_expires_at := option_map _utc (ir_lease_expires_at row) |}
  end.

(** The claim is of another lease than the stored one. *)
Definition _verify_claim_fence (intent : ExecutionIntentRow) (account : AccountRoleRow)
    (claim : ExecutionIntent) : M unit :=
  when negb (String.eqb (ir_state intent) (enum_value CLAIMED))
       || negb (String.eqb (ir_intent_digest intent) (ei_digest claim))
       || is_null (ir_claim_token intent)
       || negb (bool_decide (ir_claim_token intent = ei_claim_token claim))
       || negb (ir_claim_generation intent =? ei_claim_generation claim)
       || negb (ir_execution_epoch intent =? ei_execution_epoch claim)
       || negb (ar_claim_generation account =? ei_claim_generation claim)
       || negb (ar_execution_epoch account =? ei_execution_epoch claim)
  then_ blocked "CLAIM_FENCE_MISMATCH";;
  Ok tt.

(** ** Permits *)

Definition _permit_row (value : BrokerMutationPermit) : BrokerMutationPermitRow :=
  {| pm_permit_id := bp_permit_id value; pm_reconciliation_id := bp_reconciliation_id value;
     pm_execution_intent_id := bp_intent_id value; pm_intent_digest := bp_intent_digest value;
     pm_claim_token := bp_claim_token value; pm_claim_generation := bp_claim_generation value;
     pm_execution_epoch := bp_execution_epoch value;
     pm_mutation_kind := enum_value (bp_mutation_kind value);
     pm_attempt_ordinal := bp_attempt_ordinal value; pm_permit_generation := bp_generation value;
     pm_predecessor_permit_id := bp_predecessor_permit_id value;
     pm_request_hash := bp_request_hash value; pm_limit_price := bp_limit_price value;
     pm_quote_hash := bp_quote_hash value;
     pm_quote_source_timestamps := map dt_isoformat (bp_quote_source_timestamps value);
     pm_quote_retrieved_at := bp_quote_retrieved_at value;
     pm_timing_authority_at := bp_timing_authority_at value;
     pm_prior_request_hash := bp_prior_request_hash value;
     pm_target_client_order_id := bp_target_client_order_id value;
     pm_target_provider_order_id := bp_target_provider_order_id value;
     pm_issued_at := bp_issued_at value; pm_expires_at := bp_expires_at value;
     pm_state := bp_state value; pm_dispatch_nonce := bp_dispatch_nonce value;
     pm_dispatch_acquired_at := bp_dispatch_acquired_at value;
     pm_consumed_at := bp_consumed_at value; pm_outcome_hash := bp_outcome_hash value |}.

Definition _permit_from_row (row : BrokerMutationPermitRow) : M BrokerMutationPermit :=
  mutation_kind ← member_of (pm_mutation_kind row);
  timestamps ← map_m datetime_fromisoformat (pm_quote_source_timestamps row);
  Ok {| bp_permit_id := pm_permit_id row; bp_reconciliation_id := pm_reconciliation_id row;
        bp_intent_id := pm_execution_intent_id row; bp_intent_digest := pm_intent_digest row;
        bp_claim_token := pm_claim_token row; bp_claim_generation := pm_claim_generation row;
        bp_execution_epoch := pm_execution_epoch row; bp_mutation_kind := mutation_kind;
        bp_attempt_ordinal := pm_attempt_ordinal row; bp_generation := pm_permit_generation row;
        bp_predecessor_permit_id := pm_predecessor_permit_id row;
        bp_request_hash := pm_request_hash row;
        bp_target_client_order_id := pm_target_client_order_id row;
        bp_target_provider_order_id := pm_target_provider_order_id row;
        bp_issued_at := _utc (pm_issued_at row); bp_expires_at := _utc (pm_expires_at row);
        bp_state := pm_state row; bp_dispatch_nonce := pm_dispatch_nonce row;
        bp_dispatch_acquired_at := option_map _utc (pm_dispatch_acquired_at row);
        bp_consumed_at := option_map _utc (pm_consumed_at row);
        bp_outcome_hash := pm_outcome_hash row; bp_limit_price := pm_limit_price row;
        bp_quote_hash := pm_quote_hash row; bp_quote_source_timestamps := timestamps;
        bp_quote_retrieved_at := option_map _utc (pm_quote_retrieved_at row);
        bp_timing_authority_at := option_map _utc (pm_timing_authority_at row);
        bp_prior_request_hash := pm_prior_request_hash row |}.

(** The row with its lifecycle columns; no operation assigns another column. *)
Definition permit_with (row : BrokerMutationPermitRow) (state : string) (dispatch_nonce : option uuid)
    (dispatch_acquired_at consumed_at : option datetime) (outcome_hash : option string)
    : BrokerMutationPermitRow :=
  mk_BrokerMutationPermitRow (pm_permit_id row) (pm_reconciliation_id row)
    (pm_execution_intent_id row) (pm_intent_digest row) (pm_claim_token row)
    (pm_claim_generation row) (pm_execution_epoch row) (pm_mutation_kind row)
    (pm_attempt_ordinal row) (pm_permit_generation row) (pm_predecessor_permit_id row)
    (pm_request_hash row) (pm_limit_price row) (pm_quote_hash row)
    (pm_quote_source_timestamps row) (pm_quote_retrieved_at row) (pm_timing_authority_at row)
    (pm_prior_request_hash row) (pm_target_client_order_id row) (pm_target_provider_order_id row)
    (pm_issued_at row) (pm_expires_at row) state dispatch_nonce dispatch_acquired_at consumed_at
    outcome_hash.

Definition save_permit (row : BrokerMutationPermitRow) : txn unit :=
  write (fun db => set_db_permits db (<[pm_permit_id row := row]> (db_permits db))).

(** The permit that created an attempt, in its latest generation. *)
Definition _creation_permit (attempt : OrderAttemptRow) (permits : list BrokerMutationPermitRow)
    : M BrokerMutationPermitRow :=
  match at_broker_permit_id attempt with
  | None => blocked "ATTEMPT_PERMIT_MISSING"
  | Some broker_permit_id =>
      let mutation_kind := enum_value (if at_attempt_ordinal attempt =? 0 then SUBMIT else REPLACE) in
      let generations := List.filter (fun permit =>
        (pm_execution_intent_id permit =? at_execution_intent_id attempt)%N
        && String.eqb (pm_mutation_kind permit) mutation_kind
        && (pm_attempt_ordinal permit =? at_attempt_ordinal attempt)) permits in
      match head generations, last generations with
      | Some first, Some latest =>
          when negb (pm_permit_id first =? broker_permit_id)%N then_ blocked "ATTEMPT_PERMIT_MISSING";;
          Ok latest
      | _, _ => blocked "ATTEMPT_PERMIT_MISSING"
      end
  end.

(** [l[-1]] and [l[-2]] *)
Definition second_last {A} (l : list A) : option A := last (removelast l).

(** The attempts without a prepared replacement that a cancellation superseded. *)
Definition _execution_attempt_rows (attempts : list OrderAttemptRow)
    (permits : list BrokerMutationPermitRow) : M (list OrderAttemptRow) :=
  match last attempts, second_last attempts with
  | Some replacement, Some predecessor =>
      if negb (String.eqb (at_state replacement) "PREPARED") then Ok attempts
      else
        replacement_permit ← _creation_permit replacement permits;
        if negb (String.eqb (pm_state replacement_permit) "EXPIRED") then Ok attempts
        else
          when negb (existsb (fun permit =>
                 String.eqb (pm_mutation_kind permit) (enum_value CANCEL)
                 && bool_decide (pm_predecessor_permit_id permit = Some (pm_permit_id replacement_permit))
                 && bool_decide (pm_target_client_order_id permit = Some (at_client_order_id predecessor))
                 && bool_decide (pm_target_provider_order_id permit = at_provider_order_id predecessor))
                 permits)
          then_ blocked "PREPARED_ATTEMPT_PERMIT_INVALID";;
          Ok (removelast attempts)
  | _, _ => Ok attempts
  end.

Definition _verify_permit_fence (permit : BrokerMutationPermitRow) (intent : ExecutionIntentRow)
    : M unit :=
  when negb (pm_execution_intent_id permit =? ir_intent_id intent)%N
       || negb (String.eqb (pm_intent_digest permit) (ir_intent_digest intent))
       || negb (bool_decide (Some (pm_claim_token permit) = ir_claim_token intent))
       || negb (pm_claim_generation permit =? ir_claim_generation intent)
       || negb (pm_execution_epoch permit =? ir_execution_epoch intent)
  then_ blocked "BROKER_PERMIT_FENCE_MISMATCH";;
  Ok tt.

(** The columns are compared as they are: a naive and an aware time differ. *)
Definition _verify_permit_material (permit : BrokerMutationPermitRow) (attempt : OrderAttemptRow)
    (intent : ExecutionIntentRow) : M unit :=
  when negb (deq_opt (pm_limit_price permit)
               (Some (default (ir_minimum_limit intent) (at_limit_price attempt))))
       || negb (bool_decide (pm_quote_hash permit = at_quote_hash attempt))
       || negb (bool_decide (pm_quote_source_timestamps permit = at_quote_source_timestamps attempt))
       || negb (opt_eq dt_eq (pm_quote_retrieved_at permit) (at_quote_retrieved_at attempt))
       || negb (opt_eq dt_eq (pm_timing_authority_at permit) (at_timing_authority_at attempt))
       || negb (bool_decide (pm_prior_request_hash permit = at_prior_request_hash attempt))
  then_ blocked "BROKER_PERMIT_MATERIAL_MISMATCH";;
  Ok tt.

(** [max(permit.expires_at, permit.dispatch_acquired_at + horizon)] *)
Definition lookup_not_before (permit : BrokerMutationPermitRow) (horizon : timedelta) : M datetime :=
  match pm_dispatch_acquired_at permit with
  | None => blocked "BROKER_DISPATCH_TIME_MISSING"
  | Some acquired_at =>
      end_ ← dt_add (_utc acquired_at) horizon;
      dt_max (_utc (pm_expires_at permit)) end_
  end.
