(* ===== verification/SqlLookups.v ===== *)
(** * Schedules, dispatches and observations

    The operations of [SQLAlchemyExecutionRepository] between the permits it issues and
    the broker: what is due next, the acquisition of a dispatch, its ambiguous outcome,
    the observations of an attempt and the authority to look one up. *)

From Stdlib Require Import ZArith Lia String Ascii List Bool.
From stdpp Require Import base strings gmap option tactics list.
From S2P Require Import Prelude PyText PyDict PyDecimal PyTime PyHash PyParse Contracts ExecModels OrderLimits OrderStatus Identity Finalization ReconciliationData Reconciliation Permits SqlSchema SqlCodec SqlRows.

#[local] Open Scope string_scope.
#[local] Open Scope Z_scope.

(** ** The rows an operation works on *)

(** The intent and the account of a claim, which is the current one. *)
Definition claimed_rows (claim : ExecutionIntent) : txn (ExecutionIntentRow * AccountRoleRow) :=
  intent ← select (fun db => db_intents db !! ei_intent_id claim);
  account ← select (fun db => db_accounts db !! enum_value (ei_account_role claim));
  match intent, account with
  | Some intent, Some account =>
      _ ← perform (_verify_claim_fence intent account claim); mret (intent, account)
  | _, _ => raise (ExecutionBlocked "ACCOUNT_OR_INTENT_NOT_REGISTERED")
  end.

(** A permit with the intent and the account it was issued for, under the claim. *)
Definition permit_context (permit_id : uuid) (claim : ExecutionIntent)
    : txn (BrokerMutationPermitRow * ExecutionIntentRow * AccountRoleRow) :=
  identity ← select (fun db => db_permits db !! permit_id);
  permit ← required KeyError identity;
  intent ← select (fun db => db_intents db !! pm_execution_intent_id permit);
  intent ← required (ExecutionBlocked "BROKER_PERMIT_INTENT_MISSING") intent;
  account ← select (fun db => db_accounts db !! ir_account_role intent);
  account ← required (ExecutionBlocked "ACCOUNT_NOT_REGISTERED") account;
  _ ← perform (_verify_claim_fence intent account claim);
  mret (permit, intent, account).

(** ** What is due *)

Definition trusted_execution_time (claim : ExecutionIntent) (clock : datetime) : txn datetime :=
  _ ← claimed_rows claim; perform (_trusted_now clock).

Definition in_flight (permit : BrokerMutationPermitRow) : bool :=
  one_of (pm_state permit) ["DISPATCHING"; "LOOKUP_ONLY"].
Definition unresolved_permit (permit : BrokerMutationPermitRow) : bool := one_of (pm_state permit) UNRESOLVED.

(** The time since the first dispatch. *)
Definition elapsed_since (initial_permit : BrokerMutationPermitRow) (trusted_now : datetime)
    : M timedelta :=
  match pm_dispatch_acquired_at initial_permit with
  | None => blocked "INITIAL_DISPATCH_TIME_MISSING"
  | Some acquired_at => dt_sub trusted_now (_utc acquired_at)
  end.

(** An answer of the broker to a lookup. *)
Definition looked_up (observation : AttemptObservationRow) : bool :=
  String.eqb (or_source observation) (enum_value TARGETED_LOOKUP)
  && not_null (or_observed_payload observation).

(** [due_seconds] *)
Definition due_seconds (ordinal : Z) : Z := nth (Z.to_nat ordinal) [150; 300; 450] 0.

(** The latest attempt is prepared: its request may have to be authorised again. *)
Definition schedule_prepared (initial latest : OrderAttemptRow)
    (permit_rows : list BrokerMutationPermitRow) (trusted_now : datetime)
    : M (option BrokerMutationSchedule) :=
  creation_permit ← _creation_permit latest permit_rows;
  if in_flight creation_permit then Ok None
  else
    when negb (String.eqb (pm_state creation_permit) "PREPARED")
    then_ blocked "PREPARED_ATTEMPT_PERMIT_INVALID";;
    cancel_due ←
      (if 0 <? at_attempt_ordinal latest then
         initial_permit ← _creation_permit initial permit_rows;
         elapsed ← elapsed_since initial_permit trusted_now; Ok (seconds 600 <=? elapsed)
       else Ok false);
    if cancel_due : bool then Ok (Some (mk_BrokerMutationSchedule CANCEL trusted_now))
    else
      not_expired ← dt_lt trusted_now (_utc (pm_expires_at creation_permit));
      if not_expired : bool then Ok None
      else Ok (Some (mk_BrokerMutationSchedule
                       (if at_attempt_ordinal latest =? 0 then SUBMIT else REPLACE) trusted_now)).

(** The latest attempt is at the broker. *)
Definition schedule_working (initial latest : OrderAttemptRow)
    (permit_rows : list BrokerMutationPermitRow) (observations : list AttemptObservationRow)
    (trusted_now : datetime) : M (option BrokerMutationSchedule) :=
  if negb (in_states (at_state latest) MUTATION_ELIGIBLE_BROKER_ORDER_STATES) then Ok None
  else if existsb unresolved_permit permit_rows then Ok None
  else if negb (existsb looked_up observations) then Ok None
  else
    initial_permit ← _creation_permit initial permit_rows;
    elapsed ← elapsed_since initial_permit trusted_now;
    if String.eqb (at_state latest) "PARTIALLY_FILLED" || (seconds 600 <=? elapsed)
    then Ok (Some (mk_BrokerMutationSchedule CANCEL trusted_now))
    else if (at_attempt_ordinal latest <? 3)
            && (seconds (due_seconds (at_attempt_ordinal latest)) <=? elapsed)
    then Ok (Some (mk_BrokerMutationSchedule REPLACE trusted_now))
    else Ok None.

Definition schedule (attempt_rows : list OrderAttemptRow)
    (permit_rows : list BrokerMutationPermitRow) (observations : list AttemptObservationRow)
    (trusted_now : datetime) : M (option BrokerMutationSchedule) :=
  match attempt_rows with
  | [] => Ok (Some (mk_BrokerMutationSchedule SUBMIT trusted_now))
  | _ =>
      execution_attempt_rows ← _execution_attempt_rows attempt_rows permit_rows;
      match head execution_attempt_rows, last execution_attempt_rows with
      | Some initial, Some latest =>
          if String.eqb (at_state latest) "PREPARED"
          then schedule_prepared initial latest permit_rows trusted_now
          else schedule_working initial latest permit_rows
                 (List.filter (fun row => or_attempt_ordinal row =? at_attempt_ordinal latest)
                    observations) trusted_now
      | _, _ => Raise IndexError
      end
  end.

Definition next_broker_mutation (claim : ExecutionIntent) (clock : datetime)
    : txn (option BrokerMutationSchedule) :=
  '(intent, account) ← claimed_rows claim;
  _ ← refuse (ar_execution_locked account) "ACCOUNT_EXECUTION_LOCKED";
  trusted_now ← perform (_trusted_now clock);
  attempt_rows ← select (attempt_rows_of (ei_intent_id claim));
  permit_rows ← select (permit_rows_of (ei_intent_id claim));
  observations ← select (observation_rows_of (ei_intent_id claim));
  perform (schedule attempt_rows permit_rows observations trusted_now).

(** ** Dispatches *)

(** A quote or a timing that is not of the last thirty seconds. *)
Definition stale (trusted_now timestamp : datetime) : M bool :=
  dt_lt trusted_now timestamp
  ||| (age ← dt_sub trusted_now timestamp; Ok (seconds 30 <? age)).

Definition _validate_replacement_dispatch_authority (attempt : OrderAttemptRow)
    (initial_permit : BrokerMutationPermitRow) (trusted_now : datetime) : M unit :=
  elapsed ← elapsed_since initial_permit trusted_now;
  when seconds 600 <=? elapsed then_ blocked "REPLACEMENT_CANCEL_DUE";;
  timestamps ← map_m (fun value => t ← datetime_fromisoformat value; Ok (_utc t))
                 (at_quote_source_timestamps attempt);
  match at_quote_retrieved_at attempt, at_timing_authority_at attempt with
  | Some retrieved_at, Some timing_authority_at =>
      when (length timestamps =? 0)%nat
           ||| stale trusted_now (_utc retrieved_at)
           ||| stale trusted_now (_utc timing_authority_at)
           ||| any_m (stale trusted_now) timestamps
      then_ blocked "REPLACEMENT_QUOTE_STALE";;
      Ok tt
  | _, _ => blocked "REPLACEMENT_QUOTE_STALE"
  end.

Definition expired (permit : BrokerMutationPermitRow) (trusted_now : datetime) : M bool :=
  dt_le (_utc (pm_expires_at permit)) trusted_now.

(** The condition of the update that moves the permit on. *)
Definition dispatch_condition (permit : BrokerMutationPermitRow) (intent : ExecutionIntentRow)
    (trusted_now : datetime) : M bool :=
  String.eqb (pm_state permit) "PREPARED"
  &&& is_null (pm_dispatch_nonce permit) &&& is_null (pm_dispatch_acquired_at permit)
  &&& is_null (pm_consumed_at permit) &&& is_null (pm_outcome_hash permit)
  &&& dt_lt trusted_now (_utc (pm_expires_at permit))
  &&& String.eqb (pm_intent_digest permit) (ir_intent_digest intent)
  &&& bool_decide (Some (pm_claim_token permit) = ir_claim_token intent)
  &&& (pm_claim_generation permit =? ir_claim_generation intent)
  &&& (pm_execution_epoch permit =? ir_execution_epoch intent).

(** The checks before the update, and the time it is made at.  [clock] is read once, and
    [clock'] again for a replacement. *)
Definition dispatch_authority (permit : BrokerMutationPermitRow) (intent : ExecutionIntentRow)
    (clock clock' : datetime) : txn datetime :=
  trusted_now ← perform (_trusted_now clock);
  _ ← refuse (negb (String.eqb (pm_state permit) "PREPARED")) "BROKER_PERMIT_NOT_PREPARED";
  _ ← refuse (expired permit trusted_now) "BROKER_PERMIT_EXPIRED";
  _ ← refuse (negb (String.eqb (pm_intent_digest permit) (ir_intent_digest intent))
              || negb (bool_decide (Some (pm_claim_token permit) = ir_claim_token intent))
              || negb (pm_claim_generation permit =? ir_claim_generation intent)
              || negb (pm_execution_epoch permit =? ir_execution_epoch intent))
        "BROKER_PERMIT_FENCE_MISMATCH";
  attempt ← select (attempt_row_at (ir_intent_id intent) (pm_attempt_ordinal permit));
  attempt ← required (ExecutionBlocked "BROKER_PERMIT_ATTEMPT_MISSING") attempt;
  _ ← perform (_verify_permit_material permit attempt intent);
  if String.eqb (pm_mutation_kind permit) (enum_value REPLACE) then
    permit_rows ← select (permit_rows_of (ir_intent_id intent));
    initial_attempt ← select (attempt_row_at (ir_intent_id intent) 0);
    initial_attempt ← required (ExecutionBlocked "INITIAL_ATTEMPT_MISSING") initial_attempt;
    trusted_now ← perform (_trusted_now clock');
    _ ← refuse (expired permit trusted_now) "BROKER_PERMIT_EXPIRED";
    initial_permit ← perform (_creation_permit initial_attempt permit_rows);
    _ ← perform (_validate_replacement_dispatch_authority attempt initial_permit trusted_now);
    mret trusted_now
  else mret trusted_now.

Definition acquire_broker_dispatch (permit_id : uuid) (claim : ExecutionIntent)
    (clock clock' : datetime) (dispatch_nonce : uuid) : txn BrokerMutationPermit :=
  '(permit, intent, account) ← permit_context permit_id claim;
  _ ← refuse (ar_execution_locked account) "ACCOUNT_EXECUTION_LOCKED";
  trusted_now ← dispatch_authority permit intent clock clock';
  updated ← perform (dispatch_condition permit intent trusted_now);
  _ ← refuse (negb updated) "BROKER_PERMIT_NOT_PREPARED";
  let permit := permit_with permit "DISPATCHING" (Some dispatch_nonce) (Some trusted_now)
                  (pm_consumed_at permit) (pm_outcome_hash permit) in
  _ ← save_permit permit;
  perform (_permit_from_row permit).

(** Outcomes are only recorded as observations. *)
Definition record_broker_outcome (permit_id dispatch_nonce : uuid) (outcome_hash : string)
    (claim : ExecutionIntent) : txn BrokerMutationPermit :=
  raise (ExecutionBlocked "PERMIT_BOUND_OBSERVATION_REQUIRED").

Definition mark_broker_dispatch_ambiguous (permit_id dispatch_nonce : uuid) (claim : ExecutionIntent)
    : txn BrokerMutationPermit :=
  '(permit, intent, account) ← permit_context permit_id claim;
  _ ← refuse (negb (String.eqb (pm_state permit) "DISPATCHING")) "BROKER_PERMIT_NOT_DISPATCHING";
  _ ← refuse (negb (bool_decide (pm_dispatch_nonce permit = Some dispatch_nonce)))
        "BROKER_DISPATCH_NONCE_MISMATCH";
  _ ← perform (_verify_permit_fence permit intent);
  let permit := permit_with permit "LOOKUP_ONLY" (pm_dispatch_nonce permit)
                  (pm_dispatch_acquired_at permit) (pm_consumed_at permit) (pm_outcome_hash permit) in
  _ ← save_permit permit;
  perform (_permit_from_row permit).

(** ** Observations *)

(** The hash an observation is stored with. *)
Definition observation_material (permit_id intent_id : uuid) (attempt_ordinal sequence : Z)
    (source : string) (payload : json) (observed_at : datetime) : json :=
  JObj
    [("domain", JStr "alphadecay.attempt-observation.v1");
     ("permit_id", JStr (uuid_str permit_id)); ("intent_id", JStr (uuid_str intent_id));
     ("attempt_ordinal", JInt attempt_ordinal); ("sequence", JInt sequence);
     ("source", JStr source); ("observed_attempt", payload); ("observed_at", iso observed_at)].

Definition _authority_hash (value : json) : string := json_sha256 value.

(** The observation of a permit's attempt, to be returned and to be stored. *)
Definition new_observation (permit : BrokerMutationPermitRow) (intent : ExecutionIntentRow)
    (sequence : Z) (source : AttemptObservationSource) (observed : option OrderAttempt)
    (trusted_now : datetime) : AttemptObservation :=
  let hash := _authority_hash (observation_material (pm_permit_id permit) (ir_intent_id intent)
    (pm_attempt_ordinal permit) sequence (enum_value source) (or_null _attempt_to_json observed)
    trusted_now) in
  {| ob_observation_id := uuid5 NAMESPACE_URL ("alphadecay:attempt-observation:" ++ hash);
     ob_permit_id := pm_permit_id permit; ob_intent_id := ir_intent_id intent;
     ob_attempt_ordinal := pm_attempt_ordinal permit; ob_sequence := sequence;
     ob_source := source; ob_observed_attempt := observed; ob_observed_at := trusted_now;
     ob_observation_hash := hash |}.

Definition observation_row (value : AttemptObservation) (attempt_id : uuid) : AttemptObservationRow :=
  {| or_observation_id := ob_observation_id value; or_permit_id := ob_permit_id value;
     or_execution_intent_id := ob_intent_id value; or_attempt_id := attempt_id;
     or_attempt_ordinal := ob_attempt_ordinal value;
     or_observation_sequence := ob_sequence value; or_source := enum_value (ob_source value);
     or_provider_present := not_null (ob_observed_attempt value);
     or_observed_payload := option_map _attempt_to_json (ob_observed_attempt value);
     or_observed_at := ob_observed_at value; or_observation_hash := ob_observation_hash value |}.

Definition add_observation (value : AttemptObservation) (attempt_id : uuid) : txn unit :=
  insert_row db_observations set_db_observations (ob_observation_id value)
    (observation_row value attempt_id).

(** [len(observation_rows) + 1] *)
Definition next_sequence (intent_id : uuid) (db : database) : Z :=
  Z.of_nat (length (observation_rows_of intent_id db)) + 1.

(** [_attempt_observation_from_row]: the stored hash is checked. *)
Definition _attempt_observation_from_row (row : AttemptObservationRow) : M AttemptObservation :=
  observed ← match or_observed_payload row with
             | Some payload => a ← _attempt_from_json payload; Ok (Some a)
             | None => Ok None
             end;
  let hash := _authority_hash (observation_material (or_permit_id row) (or_execution_intent_id row)
    (or_attempt_ordinal row) (or_observation_sequence row) (or_source row)
    (default JNull (or_observed_payload row)) (_utc (or_observed_at row))) in
  when negb (String.eqb hash (or_observation_hash row)) then_ blocked "ATTEMPT_OBSERVATION_CORRUPT";;
  source ← member_of (or_source row);
  Ok {| ob_observation_id := or_observation_id row; ob_permit_id := or_permit_id row;
        ob_intent_id := or_execution_intent_id row; ob_attempt_ordinal := or_attempt_ordinal row;
        ob_sequence := or_observation_sequence row; ob_source := source;
        ob_observed_attempt := observed; ob_observed_at := _utc (or_observed_at row);
        ob_observation_hash := or_observation_hash row |}.

Definition get_attempt_observations (intent_id : uuid) : txn (list AttemptObservation) :=
  observations ← select (observation_rows_of intent_id);
  perform (map_m _attempt_observation_from_row observations).

(** [row.state = observed.state] and the other columns of an observation. *)
Definition attempt_observed (row : OrderAttemptRow) (observed : OrderAttempt) : OrderAttemptRow :=
  mk_OrderAttemptRow (at_attempt_id row) (at_broker_permit_id row) (at_execution_intent_id row)
    (at_attempt_ordinal row) (at_client_order_id row) (oa_provider_order_id observed)
    (oa_state observed) (at_request_hash row) (at_limit_price row) (at_quote_hash row)
    (at_quote_source_timestamps row) (at_quote_retrieved_at row) (at_timing_authority_at row)
    (at_prior_request_hash row) (at_replaces_attempt_id row) (oa_filled_quantity observed)
    (oa_quantity observed) (oa_fill_cash_flow observed).

Definition save_attempt (row : OrderAttemptRow) : txn unit :=
  write (fun db => set_db_attempts db (<[at_attempt_id row := row]> (db_attempts db))).

(** The source of an observation fits the state of the permit. *)
Definition observation_authority (s : settings) (permit : BrokerMutationPermitRow)
    (source : AttemptObservationSource) (dispatch_nonce : option uuid) (trusted_now : datetime)
    : M unit :=
  match source with
  | DISPATCH_OUTCOME =>
      when negb (String.eqb (pm_state permit) "DISPATCHING")
      then_ blocked "BROKER_PERMIT_NOT_DISPATCHING";;
      when is_null dispatch_nonce || negb (bool_decide (pm_dispatch_nonce permit = dispatch_nonce))
      then_ blocked "BROKER_DISPATCH_NONCE_MISMATCH";;
      Ok tt
  | TARGETED_LOOKUP =>
      when not_null dispatch_nonce || negb (one_of (pm_state permit) ["CONSUMED"; "LOOKUP_ONLY"])
      then_ blocked "TARGETED_LOOKUP_NOT_AUTHORIZED";;
      if String.eqb (pm_mutation_kind permit) (enum_value CANCEL)
         && String.eqb (pm_state permit) "LOOKUP_ONLY" then
        not_before ← lookup_not_before permit (network_call_horizon s);
        when dt_lt trusted_now not_before then_ blocked "CANCEL_LOOKUP_HORIZON_ACTIVE";;
        Ok tt
      else Ok tt
  | TARGETED_LOOKUP_FAILURE => blocked "ATTEMPT_OBSERVATION_SOURCE_INVALID"
  end.

(** What an observation does not change. *)
Definition immutable_fields_differ (observed existing : OrderAttempt) : bool :=
  negb (String.eqb (oa_client_order_id observed) (oa_client_order_id existing))
  || negb (String.eqb (oa_request_hash observed) (oa_request_hash existing))
  || negb (bool_decide (oa_replaces_client_order_id observed = oa_replaces_client_order_id existing))
  || negb (deq_opt (oa_limit_price observed) (oa_limit_price existing))
  || negb (bool_decide (oa_quote_hash observed = oa_quote_hash existing))
  || negb (tuple_eq dt_eq (oa_quote_source_timestamps observed) (oa_quote_source_timestamps existing))
  || negb (opt_eq dt_eq (oa_quote_retrieved_at observed) (oa_quote_retrieved_at existing))
  || negb (opt_eq dt_eq (oa_timing_authority_at observed) (oa_timing_authority_at existing))
  || negb (bool_decide (oa_prior_request_hash observed = oa_prior_request_hash existing)).

(** The permit still waits for the broker after an ambiguous dispatch. *)
Definition lookup_pending (permit : BrokerMutationPermitRow) (observed : OrderAttempt) : bool :=
  String.eqb (pm_state permit) "LOOKUP_ONLY"
  && one_of (pm_mutation_kind permit) [enum_value SUBMIT; enum_value REPLACE]
  && in_states (oa_state observed) PENDING_BROKER_ORDER_STATES
  && negb (String.eqb (oa_state observed) "CALCULATED"
           && (oa_filled_quantity observed =? oa_quantity observed)).

Definition record_attempt_observation (s : settings) (permit_id : uuid) (observed : OrderAttempt)
    (source : AttemptObservationSource) (claim : ExecutionIntent) (dispatch_nonce : option uuid)
    (clock : datetime) : txn AttemptObservation :=
  '(permit, intent, account) ← permit_context permit_id claim;
  _ ← refuse (ar_execution_locked account && negb (bool_decide (source = TARGETED_LOOKUP)))
        "ACCOUNT_EXECUTION_LOCKED";
  attempts ← select (attempt_rows_of (ir_intent_id intent));
  _ ← perform (_verify_permit_fence permit intent);
  trusted_now ← perform (_trusted_now clock);
  _ ← perform (observation_authority s permit source dispatch_nonce trusted_now);
  _ ← refuse (negb (oa_intent_id observed =? ir_intent_id intent)%N
              || negb (oa_ordinal observed =? pm_attempt_ordinal permit))
        "ATTEMPT_OBSERVATION_LINEAGE_MISMATCH";
  row ← required (ExecutionBlocked "ATTEMPT_NOT_FOUND")
          (List.find (fun item => at_attempt_ordinal item =? oa_ordinal observed) attempts);
  existing ← perform (_attempt_from_row row attempts);
  _ ← refuse (immutable_fields_differ observed existing) "ATTEMPT_IMMUTABLE_FIELDS_MISMATCH";
  _ ← perform (validate_attempt_observation existing observed);
  sequence ← select (next_sequence (ir_intent_id intent));
  let observation := new_observation permit intent sequence source (Some observed) trusted_now in
  _ ← add_observation observation (at_attempt_id row);
  _ ← save_attempt (attempt_observed row observed);
  _ ← (if String.eqb (pm_state permit) "DISPATCHING"
          || String.eqb (pm_state permit) "LOOKUP_ONLY" && negb (lookup_pending permit observed)
       then save_permit (permit_with permit "CONSUMED" (pm_dispatch_nonce permit)
              (pm_dispatch_acquired_at permit) (Some trusted_now)
              (Some (ob_observation_hash observation)))
       else mret tt);
  mret observation.

(** A lookup that failed, and one that found no order. *)
Definition record_attempt_lookup_failure (permit_id : uuid) (claim : ExecutionIntent)
    (clock : datetime) : txn AttemptObservation :=
  '(permit, intent, account) ← permit_context permit_id claim;
  _ ← perform (_verify_permit_fence permit intent);
  _ ← refuse (negb (one_of (pm_state permit) ["CONSUMED"; "LOOKUP_ONLY"]))
        "TARGETED_LOOKUP_NOT_AUTHORIZED";
  target ← select (attempt_row_at (ir_intent_id intent) (pm_attempt_ordinal permit));
  target ← required (ExecutionBlocked "ATTEMPT_NOT_FOUND") target;
  sequence ← select (next_sequence (ir_intent_id intent));
  trusted_now ← perform (_trusted_now clock);
  let observation := new_observation permit intent sequence TARGETED_LOOKUP_FAILURE None trusted_now in
  _ ← add_observation observation (at_attempt_id target);
  mret observation.

Definition record_attempt_absence (s : settings) (permit_id : uuid) (source : AttemptObservationSource)
    (claim : ExecutionIntent) (clock : datetime) (lock_id : uuid) : txn AttemptObservation :=
  _ ← refuse (negb (bool_decide (source = TARGETED_LOOKUP))) "ATTEMPT_ABSENCE_SOURCE_INVALID";
  '(permit, intent, account) ← permit_context permit_id claim;
  attempts ← select (attempt_rows_of (ir_intent_id intent));
  _ ← perform (_verify_permit_fence permit intent);
  _ ← refuse (negb (one_of (pm_state permit) ["CONSUMED"; "LOOKUP_ONLY"]))
        "TARGETED_LOOKUP_NOT_AUTHORIZED";
  target ← required (ExecutionBlocked "ATTEMPT_NOT_FOUND")
             (List.find (fun row => at_attempt_ordinal row =? pm_attempt_ordinal permit) attempts);
  trusted_now ← perform (_trusted_now clock);
  _ ← perform (if String.eqb (pm_mutation_kind permit) (enum_value CANCEL) then
                 not_before ← lookup_not_before permit (network_call_horizon s);
                 when dt_lt trusted_now not_before then_ blocked "CANCEL_LOOKUP_HORIZON_ACTIVE";;
                 Ok tt
               else Ok tt);
  sequence ← select (next_sequence (ir_intent_id intent));
  let observation := new_observation permit intent sequence source None trusted_now in
  _ ← add_observation observation (at_attempt_id target);
  _ ← (if negb (one_of (pm_mutation_kind permit) [enum_value SUBMIT; enum_value REPLACE])
       then latch account "RECONCILIATION_MISMATCH" trusted_now lock_id else mret tt);
  mret observation.

(** ** The authority to look an order up *)

(** [reversed(provider_observations)] up to the first of another state: when the order
    entered its present state. *)
Fixpoint state_observations (state : string) (observations : list AttemptObservationRow)
    : M (list AttemptObservationRow) :=
  match observations with
  | [] => Ok []
  | item :: rest =>
      observed ← _attempt_from_json (default JNull (or_observed_payload item));
      if String.eqb (oa_state observed) state
      then later ← state_observations state rest; Ok (item :: later)
      else Ok []
  end.

(** [state_observations[-1].observed_at] *)
Definition state_started_at (state : string) (provider_observations : list AttemptObservationRow)
    : M datetime :=
  same ← state_observations state (rev provider_observations);
  match last same with
  | Some item => Ok (_utc (or_observed_at item))
  | None => Raise IndexError
  end.

(** The last lookup is younger than the cadence. *)
Definition too_soon (policy : BrokerLookupPolicy) (latest : AttemptObservationRow)
    (trusted_now : datetime) : M bool :=
  due ← dt_add (_utc (or_observed_at latest)) (cadence policy); dt_lt trusted_now due.

(** The order has been in a lookup-only state for longer than its deadline. *)
Definition stalled (policy : BrokerLookupPolicy) (current : OrderAttempt) (started_at : datetime)
    (account : AccountRoleRow) (trusted_now : datetime) : M bool :=
  in_states (oa_state current) LOOKUP_ONLY_BROKER_ORDER_STATES
  &&& (deadline_at ← dt_add started_at (deadline policy); dt_le deadline_at trusted_now)
  &&& negb (ar_execution_locked account).

Definition answered (observations : list AttemptObservationRow) : list AttemptObservationRow :=
  List.filter (fun item => not_null (or_observed_payload item)) observations.

(** [if c: _latch_account(account, "BROKER_TRANSITION_STALLED", trusted_now)] *)
Definition latch_if_stalled (c : M bool) (account : AccountRoleRow) (trusted_now : datetime)
    (lock_id : uuid) : txn unit :=
  stalled ← perform c;
  if stalled : bool then latch account "BROKER_TRANSITION_STALLED" trusted_now lock_id else mret tt.

(** A permit whose dispatch was ambiguous is being looked up. *)
Definition lookup_ambiguous (s : settings) (permit : BrokerMutationPermitRow) (current : OrderAttempt)
    (observations : list AttemptObservationRow) (account : AccountRoleRow) (clock : datetime)
    (lock_id : uuid) : txn (option (uuid * OrderAttempt)) :=
  _ ← refuse (is_null (pm_dispatch_acquired_at permit)) "BROKER_DISPATCH_TIME_MISSING";
  trusted_now ← perform (_trusted_now clock);
  early ← perform (not_before ← lookup_not_before permit (network_call_horizon s);
                   dt_lt trusted_now not_before);
  if early : bool then mret None
  else
    match last observations, head observations with
    | Some latest, Some first =>
        policy ← perform (broker_lookup_policy
          (if in_states (oa_state current) PENDING_BROKER_ORDER_STATES then oa_state current
           else "PENDING_NEW"));
        soon ← perform (too_soon policy latest trusted_now);
        if soon : bool then mret None
        else
          started_at ← perform (match answered observations with
                                | [] => Ok (_utc (or_observed_at first))
                                | answers => state_started_at (oa_state current) answers
                                end);
          _ ← latch_if_stalled (stalled policy current started_at account trusted_now) account
                trusted_now lock_id;
          mret (Some (pm_permit_id permit, current))
    | _, _ => mret (Some (pm_permit_id permit, current))
    end.

(** The permit an order that is not ambiguous is looked up under. *)
Definition lookup_permit (current_row : OrderAttemptRow) (current : OrderAttempt)
    (permits : list BrokerMutationPermitRow) : M BrokerMutationPermitRow :=
  if String.eqb (oa_state current) "PENDING_CANCEL" then
    match last (List.filter (fun permit =>
                  (pm_attempt_ordinal permit =? oa_ordinal current)
                  && String.eqb (pm_mutation_kind permit) (enum_value CANCEL)
                  && String.eqb (pm_state permit) "CONSUMED") permits) with
    | Some permit => Ok permit
    | None => blocked "TARGETED_LOOKUP_NOT_AUTHORIZED"
    end
  else _creation_permit current_row permits.

(** An order that is pending at the broker is looked up at the cadence of its state. *)
Definition lookup_pending_order (current_row : OrderAttemptRow) (current : OrderAttempt)
    (permits : list BrokerMutationPermitRow) (observations : list AttemptObservationRow)
    (account : AccountRoleRow) (clock : datetime) (lock_id : uuid)
    : txn (option (uuid * OrderAttempt)) :=
  permit ← perform (lookup_permit current_row current permits);
  _ ← refuse (negb (String.eqb (pm_state permit) "CONSUMED")) "TARGETED_LOOKUP_NOT_AUTHORIZED";
  let answers := answered observations in
  answer ← required (ExecutionBlocked "TARGETED_LOOKUP_OBSERVATION_MISSING") (last answers);
  observed ← perform (_attempt_from_json (default JNull (or_observed_payload answer)));
  _ ← refuse (negb (attempt_eq observed current)) "TARGETED_LOOKUP_OBSERVATION_STALE";
  policy ← perform (broker_lookup_policy (oa_state current));
  trusted_now ← perform (_trusted_now clock);
  latest ← required IndexError (last observations);
  soon ← perform (too_soon policy latest trusted_now);
  if soon : bool then mret None
  else
    started_at ← perform (state_started_at (oa_state current) answers);
    _ ← latch_if_stalled (stalled policy current started_at account trusted_now) account trusted_now
          lock_id;
    mret (Some (pm_permit_id permit, current)).

Definition targeted_lookup_authority (s : settings) (claim : ExecutionIntent) (clock : datetime)
    (lock_id : uuid) : txn (option (uuid * OrderAttempt)) :=
  '(intent, account) ← claimed_rows claim;
  attempts ← select (attempt_rows_of (ei_intent_id claim));
  permits ← select (permit_rows_of (ei_intent_id claim));
  execution_attempts ← perform (_execution_attempt_rows attempts permits);
  current_row ← required (ExecutionBlocked "TRANSITIONAL_ATTEMPT_MISSING") (last execution_attempts);
  current ← perform (_attempt_from_row current_row execution_attempts);
  observations ← select (fun db =>
    List.filter (fun row => or_attempt_ordinal row =? oa_ordinal current)
      (observation_rows_of (ei_intent_id claim) db));
  match List.filter (fun permit => (pm_attempt_ordinal permit =? oa_ordinal current)
                                   && String.eqb (pm_state permit) "LOOKUP_ONLY") permits with
  | [permit] => lookup_ambiguous s permit current observations account clock lock_id
  | _ :: _ :: _ => raise (ExecutionBlocked "TARGETED_LOOKUP_AUTHORITY_CONFLICT")
  | [] =>
      if negb (in_states (oa_state current) PENDING_BROKER_ORDER_STATES) then mret None
      else if in_states (oa_state current) MUTATION_ELIGIBLE_BROKER_ORDER_STATES
              && existsb (fun permit => one_of (pm_state permit) ["PREPARED"; "DISPATCHING"]) permits
      then mret None
      else lookup_pending_order current_row current permits observations account clock lock_id
  end.

(** ** Reading *)

Definition get_broker_mutation_permit (permit_id : uuid) : txn BrokerMutationPermit :=
  row ← select (fun db => db_permits db !! permit_id);
  row ← required KeyError row;
  perform (_permit_from_row row).

Definition broker_mutation_permits_for (intent_id : uuid) : txn (list BrokerMutationPermit) :=
  rows ← select (permit_rows_of intent_id);
  perform (map_m _permit_from_row rows).

Definition attempts_for (intent_id : uuid) : txn (list OrderAttempt) :=
  rows ← select (attempt_rows_of intent_id);
  perform (_attempts_from_rows rows).

Definition execution_attempts_for (intent_id : uuid) : txn (list OrderAttempt) :=
  rows ← select (attempt_rows_of intent_id);
  permits ← select (permit_rows_of intent_id);
  rows ← perform (_execution_attempt_rows rows permits);
  perform (_attempts_from_rows rows).

(** Attempts are only written by the permits. *)
Definition add_attempt (attempt : OrderAttempt) : txn unit :=
  raise (ExecutionBlocked "BROKER_PERMIT_REQUIRED").
Definition replace_attempt (attempt : OrderAttempt) : txn unit :=
  raise (ExecutionBlocked "BROKER_PERMIT_REQUIRED").
