(* ===== verification/SqlExpectation.v ===== *)
(** * Attempts and expectations from rows

    What [backend/app/persistence/sqlalchemy_repository.py] derives from the rows of an
    intent before a broker mutation and before its end: the attempt that may be made,
    the validation of a replacement, the positions and activities that explain a fill,
    and the expectation the whole account is reconciled with. *)

From Stdlib Require Import ZArith Lia String Ascii List Bool.
From stdpp Require Import base strings gmap option tactics relations sorting list.
From S2P Require Import Prelude PyText PyDict PyDecimal PyTime PyHash PyParse Contracts ExecModels OrderLimits OrderStatus Identity Finalization ReconciliationData Reconciliation Permits Replacement SqlSchema SqlCodec SqlRows SqlLookups.

#[local] Open Scope string_scope.
#[local] Open Scope Z_scope.

(** ** Attempts *)

Definition _prepared_attempt (intent : ExecutionIntentRow) (ordinal : Z)
    (replaced_client_id : option string) : M OrderAttempt :=
  envelope ← _envelope_from_json (ir_envelope_payload intent);
  identifier ← client_order_id (oe_trading_day envelope) (oe_action envelope)
                 (ir_intent_digest intent) ordinal;
  request_hash ← attempt_request_hash (ir_intent_digest intent) ordinal identifier
                   (oe_minimum_limit envelope) replaced_client_id;
  Ok {| oa_intent_id := ir_intent_id intent; oa_ordinal := ordinal;
        oa_client_order_id := identifier; oa_request_hash := request_hash;
        oa_state := "PREPARED"; oa_replaces_client_order_id := replaced_client_id;
        oa_provider_order_id := None; oa_filled_quantity := 0;
        oa_quantity := oe_quantity envelope; oa_fill_cash_flow := None; oa_limit_price := None;
        oa_quote_hash := None; oa_quote_source_timestamps := []; oa_quote_retrieved_at := None;
        oa_timing_authority_at := None; oa_prior_request_hash := None |}.

Definition _canonical_attempt_for_mutation (intent : ExecutionIntentRow)
    (purpose : ReconciliationPurpose) (attempts : list OrderAttemptRow) : M OrderAttempt :=
  match purpose with
  | SUBMIT =>
      expected ← _prepared_attempt intent 0 None;
      match attempts with
      | [] => Ok expected
      | row :: rest =>
          when negb (length rest =? 0)%nat
               ||| (current ← _attempt_from_row row attempts; Ok (negb (attempt_eq current expected)))
          then_ blocked "SUBMIT_REAUTHORIZATION_MISMATCH";;
          Ok expected
      end
  | REPLACE =>
      match last attempts with
      | None => blocked "TARGET_ATTEMPT_NOT_FOUND"
      | Some latest =>
          current ← _attempt_from_row latest attempts;
          if String.eqb (oa_state current) "PREPARED" && is_null (oa_provider_order_id current) then
            match second_last attempts with
            | None => blocked "REPLACE_REAUTHORIZATION_MISMATCH"
            | Some previous =>
                predecessor ← _attempt_from_row previous attempts;
                expected ← _prepared_attempt intent (oa_ordinal predecessor + 1)
                             (Some (oa_client_order_id predecessor));
                when negb (attempt_eq current expected)
                then_ blocked "REPLACE_REAUTHORIZATION_MISMATCH";;
                Ok expected
            end
          else _prepared_attempt intent (oa_ordinal current + 1) (Some (oa_client_order_id current))
      end
  | CANCEL =>
      match last attempts with
      | None => blocked "TARGET_ATTEMPT_NOT_FOUND"
      | Some latest =>
          current ← _attempt_from_row latest attempts;
          match second_last attempts with
          | Some previous =>
              if String.eqb (oa_state current) "PREPARED" then _attempt_from_row previous attempts
              else Ok current
          | None => Ok current
          end
      end
  | BASELINE_INITIALIZATION => blocked "RECONCILIATION_PURPOSE_INVALID"
  end.

(** ** Replacements *)

(** The attempt a replacement replaces: the latest, or the one before a prepared
    replacement that is authorised again. *)
Definition replaced_attempt (attempts : list OrderAttemptRow) (attempt : OrderAttempt)
    : M OrderAttempt :=
  match last attempts with
  | None => blocked "TARGET_ATTEMPT_NOT_FOUND"
  | Some latest =>
      current ← _attempt_from_row latest attempts;
      if oa_ordinal current =? oa_ordinal attempt then
        match second_last attempts with
        | Some previous =>
            when negb (String.eqb (oa_state current) "PREPARED")
            then_ blocked "REPLACEMENT_REAUTHORIZATION_MISMATCH";;
            _attempt_from_row previous attempts
        | None => blocked "REPLACEMENT_REAUTHORIZATION_MISMATCH"
        end
      else Ok current
  end.

(** The states an order may be replaced in. *)
Definition REPLACEABLE_STATES : states :=
  List.filter (fun state => negb (String.eqb state "PARTIALLY_FILLED"))
    MUTATION_ELIGIBLE_BROKER_ORDER_STATES.

(** The fields that carry the authority of a replacement. *)
Record replacement_fields := mk_replacement_fields {
  rf_limit_price : decimal;
  rf_quote_hash : string;
  rf_quote_retrieved_at : datetime;
  rf_timing_authority_at : datetime;
  rf_prior_request_hash : string;
}.

Definition replacement_fields_of (attempt : OrderAttempt) : option replacement_fields :=
  match oa_limit_price attempt, oa_quote_hash attempt, oa_quote_retrieved_at attempt,
        oa_timing_authority_at attempt, oa_prior_request_hash attempt with
  | Some limit, Some quote_hash, Some retrieved_at, Some timing, Some prior =>
      Some (mk_replacement_fields limit quote_hash retrieved_at timing prior)
  | _, _, _, _, _ => None
  end.

Definition replacement_invalid (envelope : OrderEnvelope) (current attempt : OrderAttempt)
    (expected_client_id : string) (fields : replacement_fields) : M bool :=
  let timestamps := oa_quote_source_timestamps attempt in
  let limit := rf_limit_price fields in
  negb (String.eqb (oa_client_order_id attempt) expected_client_id)
  ||| negb (in_states (oa_state current) REPLACEABLE_STATES)
  ||| is_null (oa_provider_order_id current)
  ||| negb (String.eqb (oa_state attempt) "PREPARED")
  ||| not_null (oa_provider_order_id attempt)
  ||| negb (oa_filled_quantity attempt =? 0)
  ||| negb (oa_quantity attempt =? oe_quantity envelope)
  ||| negb (oa_ordinal attempt =? oa_ordinal current + 1)
  ||| negb (bool_decide (oa_replaces_client_order_id attempt = Some (oa_client_order_id current)))
  ||| negb (String.eqb (rf_prior_request_hash fields) (oa_request_hash current))
  ||| (length timestamps =? 0)%nat
  ||| negb (length timestamps =? length (oe_legs envelope))%nat
  ||| (limit <=. current_limit_of current envelope)
  ||| (limit ==. Dint 0)
  ||| (limit >. oe_maximum_limit envelope)
  ||| negb (is_finite limit)
  ||| (cents ← quantize ROUND_HALF_EVEN limit (-2); Ok (negb (limit ==. cents)))
  ||| negb (str_len (rf_quote_hash fields) =? 64)
  ||| negb (str_all is_hex_lower (rf_quote_hash fields))
  ||| negb (forallb is_aware (timestamps ++ [rf_quote_retrieved_at fields; rf_timing_authority_at fields]))
  ||| dt_lt (rf_timing_authority_at fields) (rf_quote_retrieved_at fields)
  ||| any_m (fun timestamp => dt_lt (rf_quote_retrieved_at fields) timestamp) timestamps
  ||| (newest ← latest timestamps; oldest ← earliest timestamps;
       spread ← dt_sub newest oldest; Ok (seconds 30 <? spread)).

Definition replacement_stale (attempt : OrderAttempt) (fields : replacement_fields)
    (trusted_now : datetime) : M bool :=
  stale trusted_now (rf_timing_authority_at fields)
  ||| dt_lt trusted_now (rf_quote_retrieved_at fields)
  ||| any_m (stale trusted_now) (oa_quote_source_timestamps attempt).

(** The text of the client order id an attempt replaces; it is there once validated. *)
Definition replaces_text (attempt : OrderAttempt) : M string :=
  match oa_replaces_client_order_id attempt with Some id => Ok id | None => Raise TypeError end.

Definition request_hash_of (intent : ExecutionIntentRow) (attempt : OrderAttempt)
    (limit : decimal) (quote_hash prior : string) (retrieved_at timing : datetime) : M string :=
  replaces ← replaces_text attempt;
  replacement_request_hash (ir_intent_digest intent) (oa_ordinal attempt)
    (oa_client_order_id attempt) limit replaces prior quote_hash
    (oa_quote_source_timestamps attempt) retrieved_at timing.

Definition _validate_replacement_attempt (intent : ExecutionIntentRow)
    (attempts : list OrderAttemptRow) (attempt : OrderAttempt) (trusted_now : option datetime)
    : M unit :=
  current ← replaced_attempt attempts attempt;
  envelope ← _envelope_from_json (ir_envelope_payload intent);
  expected_client_id ← client_order_id (oe_trading_day envelope) (oe_action envelope)
                         (ir_intent_digest intent) (oa_ordinal attempt);
  match replacement_fields_of attempt with
  | None => blocked "REPLACEMENT_AUTHORITY_INVALID"
  | Some fields =>
      when replacement_invalid envelope current attempt expected_client_id fields
      then_ blocked "REPLACEMENT_AUTHORITY_INVALID";;
      when match trusted_now with
           | Some now => replacement_stale attempt fields now
           | None => false
           end
      then_ blocked "REPLACEMENT_QUOTE_STALE";;
      expected ← request_hash_of intent attempt (rf_limit_price fields) (rf_quote_hash fields)
                   (rf_prior_request_hash fields) (rf_quote_retrieved_at fields)
                   (rf_timing_authority_at fields);
      when negb (String.eqb (oa_request_hash attempt) expected)
      then_ blocked "REPLACEMENT_REQUEST_HASH_MISMATCH";;
      Ok tt
  end.

(** [replace(attempt, timing_authority_at=..., request_hash=...)] *)
Definition with_timing (attempt : OrderAttempt) (timing : datetime) (request_hash : string)
    : OrderAttempt :=
  {| oa_intent_id := oa_intent_id attempt; oa_ordinal := oa_ordinal attempt;
     oa_client_order_id := oa_client_order_id attempt; oa_request_hash := request_hash;
     oa_state := oa_state attempt;
     oa_replaces_client_order_id := oa_replaces_client_order_id attempt;
     oa_provider_order_id := oa_provider_order_id attempt;
     oa_filled_quantity := oa_filled_quantity attempt; oa_quantity := oa_quantity attempt;
     oa_fill_cash_flow := oa_fill_cash_flow attempt; oa_limit_price := oa_limit_price attempt;
     oa_quote_hash := oa_quote_hash attempt;
     oa_quote_source_timestamps := oa_quote_source_timestamps attempt;
     oa_quote_retrieved_at := oa_quote_retrieved_at attempt;
     oa_timing_authority_at := Some timing; oa_prior_request_hash := oa_prior_request_hash attempt |}.

Definition _replacement_with_timing (intent : ExecutionIntentRow) (attempt : OrderAttempt)
    (timing_authority_at : datetime) : M OrderAttempt :=
  match oa_limit_price attempt, oa_quote_hash attempt, oa_quote_retrieved_at attempt,
        oa_prior_request_hash attempt with
  | Some limit, Some quote_hash, Some retrieved_at, Some prior =>
      hash ← request_hash_of intent attempt limit quote_hash prior retrieved_at timing_authority_at;
      Ok (with_timing attempt timing_authority_at hash)
  | _, _, _, _ => blocked "REPLACEMENT_AUTHORITY_INVALID"
  end.

(** A replacement of ordinal [k] is due from 150 k to 600 seconds after the first dispatch. *)
Definition _validate_replacement_due (attempts : list OrderAttemptRow)
    (permits : list BrokerMutationPermitRow) (attempt : OrderAttempt) : M unit :=
  match attempts with
  | [] => blocked "REPLACEMENT_BOUNDARY_INVALID"
  | initial :: _ =>
      when negb ((1 <=? oa_ordinal attempt) && (oa_ordinal attempt <=? 3))
      then_ blocked "REPLACEMENT_BOUNDARY_INVALID";;
      initial_permit ← _creation_permit initial permits;
      match pm_dispatch_acquired_at initial_permit, oa_timing_authority_at attempt with
      | None, _ => blocked "INITIAL_DISPATCH_TIME_MISSING"
      | Some _, None => Raise TypeError
      | Some acquired_at, Some timing =>
          elapsed ← dt_sub timing (_utc acquired_at);
          when elapsed <? seconds (due_seconds (oa_ordinal attempt - 1))
          then_ blocked "REPLACEMENT_NOT_DUE";;
          when seconds 600 <=? elapsed then_ blocked "REPLACEMENT_CANCEL_DUE";;
          Ok tt
      end
  end.

Definition _cancel_request_hash (intent_digest_value : string) (target : OrderAttempt) : string :=
  _authority_hash (JObj
    [("domain", JStr "alphadecay.cancel-request.v1"); ("intent_digest", JStr intent_digest_value);
     ("attempt_ordinal", JInt (oa_ordinal target));
     ("target_client_order_id", JStr (oa_client_order_id target));
     ("target_provider_order_id", or_null JStr (oa_provider_order_id target))]).

(** ** The expected positions after a fill *)

(** [d.pop(k, None)] *)
Definition dpop {K V} `{EqDecision K} (d : list (K * V)) (k : K) : list (K * V) :=
  List.filter (fun entry => negb (bool_decide (entry.1 = k))) d.

Definition inventory_le (a b : InventoryItem) : Prop := pair_le (inventory_key a) (inventory_key b).
#[export] Instance inventory_le_dec : RelDecision inventory_le.
Proof. intros a b. unfold inventory_le. apply _. Defined.

(** [sorted(positions, key=lambda item: (item.kind.value, item.symbol))] *)
Definition sorted_positions : list InventoryItem -> list InventoryItem := merge_sort inventory_le.

(** [Decimal(filled * ratio * sign)] *)
Definition signed_fill (filled : Z) (leg : OrderLegIntent) : Z :=
  filled * li_ratio leg * (if is_buy (li_intent leg) then 1 else -1).

Definition is_close (intent : PositionIntent) : bool :=
  match intent with BUY_TO_CLOSE | SELL_TO_CLOSE => true | _ => false end.

(** One leg of the loop. *)
Definition apply_leg (filled : Z) (positions : list (string * InventoryItem)) (leg : OrderLegIntent)
    : M (list (string * InventoryItem)) :=
  let signed_change := Dint (signed_fill filled leg) in
  let current_quantity :=
    match dget positions (li_symbol leg) with
    | Some current => iv_signed_quantity current
    | None => Dint 0
    end in
  when bool_decide (li_intent leg = BUY_TO_CLOSE) &&& (Dint 0 <=. current_quantity)
  then_ blocked "CLOSE_POSITION_MISMATCH";;
  when bool_decide (li_intent leg = SELL_TO_CLOSE) &&& (current_quantity <=. Dint 0)
  then_ blocked "CLOSE_POSITION_MISMATCH";;
  next_quantity ← dadd current_quantity signed_change;
  when is_close (li_intent leg)
       &&& (next ← dabs next_quantity; current ← dabs current_quantity; next >. current)
  then_ blocked "CLOSE_POSITION_MISMATCH";;
  if next_quantity ==. Dint 0 then Ok (dpop positions (li_symbol leg))
  else
    item ← make_InventoryItem (mk_InventoryItem OPTION (li_symbol leg) next_quantity 100);
    Ok (dset positions (li_symbol leg) item).

(** [{item.symbol: item for item in items}] *)
Definition by_symbol (items : list InventoryItem) : list (string * InventoryItem) :=
  dict_of (fun item => (iv_symbol item, item)) items.

Definition _positions_after_fill (intent : ExecutionIntentRow) (state : AccountReconciliationStateRow)
    (attempt : OrderAttempt) : M (list InventoryItem) :=
  items ← map_m _inventory_from_json (st_expected_positions state);
  let positions := by_symbol items in
  if oa_filled_quantity attempt =? 0 then Ok (sorted_positions (dvalues positions))
  else
    when is_null (oa_fill_cash_flow attempt) then_ blocked "ATTEMPT_CASH_FLOW_REQUIRED";;
    envelope ← _envelope_from_json (ir_envelope_payload intent);
    positions ← fold_m (apply_leg (oa_filled_quantity attempt)) positions (oe_legs envelope);
    Ok (sorted_positions (dvalues positions)).

(** ** The activities that explain an attempt *)

(** [item for item in items if p(item)], where the test may raise. *)
Fixpoint filter_m {A} (p : A -> M bool) (items : list A) : M (list A) :=
  match items with
  | [] => Ok []
  | item :: items =>
      keep ← p item; rest ← filter_m p items; Ok (if keep : bool then item :: rest else rest)
  end.

(** A known activity of the window is not among the candidates, or differs. *)
Definition forgotten_activity (window_start : datetime)
    (known candidates : list (string * ActivityItem)) : M bool :=
  any_m (fun '(key, value) =>
    predates ← activity_predates_window value window_start;
    Ok (negb predates
        && match dget candidates key with
           | Some candidate => negb (activity_eq candidate value)
           | None => true
           end)) known.

Definition is_fee (item : ActivityItem) : bool := bool_decide (act_activity_type item = FEE).

(** [sorted({*resolved, *hashes})] *)
Definition with_hashes (resolved : list string) (items : list ActivityItem) : list string :=
  sorted_strings (remove_dups (resolved ++ map act_activity_id_hash items))%list.

(** [expected_quantities]: what the legs of the envelope trade at the fill. *)
Definition expected_quantities (filled : Z) (legs : list OrderLegIntent) : list (string * decimal) :=
  dict_of (fun leg => (li_symbol leg, Dint (signed_fill filled leg))) legs.

(** The new activities are not the fills of the attempt, one for each leg. *)
Definition activities_mismatch (attempt : OrderAttempt) (new : list ActivityItem) : bool :=
  (oa_filled_quantity attempt <=? 0) || is_null (oa_provider_order_id attempt)
  || existsb (fun item => negb (bool_decide (act_activity_type item ∈ [FILL; OPTRD]))) new
  || existsb (fun item => negb (bool_decide (act_provider_order_id item = oa_provider_order_id attempt)))
       new
  || existsb (fun item => negb (bool_decide (act_client_order_id item = Some (oa_client_order_id attempt))))
       new.

(** [expected_quantities.get(item.symbol)] disagrees with the activity. *)
Definition quantity_unexpected (expected : list (string * decimal)) (item : ActivityItem) : bool :=
  match act_symbol item with
  | None => true
  | Some symbol =>
      match dget expected symbol, act_signed_quantity item with
      | Some quantity, Some signed_quantity => negb (signed_quantity ==. quantity)
      | _, _ => true
      end
  end.

Definition quantities_mismatch (expected : list (string * decimal)) (new : list ActivityItem) : bool :=
  negb (length new =? length expected)%nat
  || negb (set_len (map act_symbol new) =? length new)%nat
  || existsb (quantity_unexpected expected) new.

Definition _bound_attempt_activities (intent : ExecutionIntentRow)
    (state : AccountReconciliationStateRow) (attempt : OrderAttempt)
    (candidates : option (list ActivityItem)) (require_visible : bool)
    : M (list ActivityItem * list string) :=
  known ← map_m _activity_from_json (st_known_activities state);
  let resolved := st_resolved_activity_hashes state in
  match candidates with
  | None => Ok (known, resolved)
  | Some candidates =>
      let known_by_hash := by_hash known in
      let window_start := _utc (st_baseline_captured_at state) in
      when forgotten_activity window_start known_by_hash (by_hash candidates)
      then_ blocked "KNOWN_ACTIVITY_MISSING";;
      let unknown := List.filter (fun item =>
        bool_decide (dget known_by_hash (act_activity_id_hash item) = None)) candidates in
      let fees := List.filter is_fee unknown in
      let new := List.filter (fun item => negb (is_fee item)) unknown in
      match new with
      | [] =>
          when require_visible then_ blocked "ATTEMPT_ACTIVITY_EVIDENCE_PENDING";;
          match fees with
          | [] => Ok (known, resolved)
          | _ => Ok ((known ++ fees)%list, with_hashes resolved fees)
          end
      | _ =>
          when activities_mismatch attempt new then_ blocked "ATTEMPT_ACTIVITY_EVIDENCE_MISMATCH";;
          envelope ← _envelope_from_json (ir_envelope_payload intent);
          when quantities_mismatch (expected_quantities (oa_filled_quantity attempt) (oe_legs envelope)) new
          then_ blocked "ATTEMPT_ACTIVITY_EVIDENCE_MISMATCH";;
          predating ← filter_m (fun item => activity_predates_window item window_start) known;
          Ok (sorted_by act_activity_id_hash (dvalues (by_hash (predating ++ candidates)%list)),
              with_hashes resolved (new ++ fees)%list)
      end
  end.

(** ** Expectations *)

Definition _open_order_from_attempt (intent : ExecutionIntentRow) (attempt : OrderAttempt)
    : M OpenOrderItem :=
  match oa_provider_order_id attempt with
  | None => blocked "TARGET_PROVIDER_ORDER_ID_REQUIRED"
  | Some provider_order_id =>
      envelope ← _envelope_from_json (ir_envelope_payload intent);
      legs ← map_m (fun leg => make_OpenOrderLeg
               (mk_OpenOrderLeg (li_symbol leg) (li_intent leg) (li_ratio leg))) (oe_legs envelope);
      make_OpenOrderItem
        {| oo_provider_order_id := provider_order_id;
           oo_client_order_id := oa_client_order_id attempt; oo_state := oa_state attempt;
           oo_quantity := oa_quantity attempt; oo_filled_quantity := oa_filled_quantity attempt;
           oo_replaces_client_order_id := oa_replaces_client_order_id attempt;
           oo_replaced_by_client_order_id := None; oo_order_class := "MLEG"; oo_legs := legs |}
  end.

(** The expected cash, positions and open orders, the request, and the attempt whose
    fill they include. *)
Record mutation_expectation := mk_mutation_expectation {
  me_cash : decimal;
  me_positions : list InventoryItem;
  me_open_orders : list OpenOrderItem;
  me_request_hash : string;
  me_filled_attempt : OrderAttempt;
}.

Definition submit_expectation (state : AccountReconciliationStateRow) (attempt : OrderAttempt)
    (attempt_rows : list OrderAttemptRow) : M mutation_expectation :=
  when negb (oa_ordinal attempt =? 0) then_ blocked "SUBMIT_ORDINAL_INVALID";;
  when match attempt_rows with
       | [] => false
       | row :: rest =>
           negb (length rest =? 0)%nat
           ||| (current ← _attempt_from_row row attempt_rows; Ok (negb (attempt_eq current attempt)))
           ||| negb (String.eqb (at_state row) "PREPARED")
       end
  then_ blocked "SUBMIT_REAUTHORIZATION_MISMATCH";;
  open_orders ← map_m _open_order_from_json (st_expected_open_orders state);
  positions ← map_m _inventory_from_json (st_expected_positions state);
  Ok (mk_mutation_expectation (st_expected_cash state) positions open_orders
        (oa_request_hash attempt) attempt).

(** [fill_cash_flow or Decimal(0)] *)
Definition cash_flow_or_zero (fill_cash_flow : option decimal) : decimal :=
  match fill_cash_flow with Some c => if is_zero c then Dint 0 else c | None => Dint 0 end.

(** The order at the broker that a replacement or a cancellation is of. *)
Definition working_expectation (intent : ExecutionIntentRow) (state : AccountReconciliationStateRow)
    (target : OrderAttempt) (request_hash : string) : M mutation_expectation :=
  open_order ← _open_order_from_attempt intent target;
  cash ← dadd (st_expected_cash state) (cash_flow_or_zero (oa_fill_cash_flow target));
  positions ← _positions_after_fill intent state target;
  Ok (mk_mutation_expectation cash positions [open_order] request_hash target).

Definition active_target (target : OrderAttempt) : bool :=
  not_null (oa_provider_order_id target)
  && in_states (oa_state target) MUTATION_ELIGIBLE_BROKER_ORDER_STATES.

Definition replace_expectation (intent : ExecutionIntentRow) (state : AccountReconciliationStateRow)
    (attempt : OrderAttempt) (attempt_rows : list OrderAttemptRow) : M mutation_expectation :=
  match last attempt_rows with
  | None => blocked "TARGET_ATTEMPT_NOT_FOUND"
  | Some latest =>
      current ← _attempt_from_row latest attempt_rows;
      target ← match second_last attempt_rows with
               | Some previous =>
                   if String.eqb (oa_state current) "PREPARED"
                      && (oa_ordinal current =? oa_ordinal attempt)
                   then _attempt_from_row previous attempt_rows else Ok current
               | None => Ok current
               end;
      when negb (active_target target) then_ blocked "TARGET_ORDER_NOT_ACTIVE";;
      when negb (oa_ordinal attempt =? oa_ordinal target + 1)
           || negb (bool_decide (oa_replaces_client_order_id attempt = Some (oa_client_order_id target)))
      then_ blocked "REPLACE_LINEAGE_INVALID";;
      working_expectation intent state target (oa_request_hash attempt)
  end.

Definition cancel_expectation (intent : ExecutionIntentRow) (state : AccountReconciliationStateRow)
    (attempt : OrderAttempt) (attempt_rows : list OrderAttemptRow) : M mutation_expectation :=
  match last attempt_rows with
  | None => blocked "TARGET_ATTEMPT_NOT_FOUND"
  | Some latest =>
      current ← _attempt_from_row latest attempt_rows;
      target ← match second_last attempt_rows with
               | Some previous =>
                   if String.eqb (oa_state current) "PREPARED"
                   then _attempt_from_row previous attempt_rows else Ok current
               | None => Ok current
               end;
      when negb (active_target target) || (oa_quantity target <=? 0)
      then_ blocked "TARGET_ORDER_NOT_ACTIVE";;
      when negb (attempt_eq attempt target) then_ blocked "CANCEL_TARGET_MISMATCH";;
      working_expectation intent state target (_cancel_request_hash (ir_intent_digest intent) target)
  end.

(** The expectation of what was derived, with its hash. *)
Definition expectation_of (intent : ExecutionIntentRow) (state : AccountReconciliationStateRow)
    (purpose : ReconciliationPurpose) (attempt_ordinal : Z) (derived : mutation_expectation)
    (known : list ActivityItem) (resolved : list string) : M ReconciliationExpectation :=
  account_role ← member_of (ir_account_role intent);
  _from_repository_state
    {| ex_purpose := purpose; ex_account_role := account_role;
       ex_account_fingerprint := st_account_fingerprint state;
       ex_expected_cash := me_cash derived;
       ex_baseline_captured_at := _utc (st_baseline_captured_at state);
       ex_expected_positions := me_positions derived;
       ex_expected_open_orders := me_open_orders derived; ex_known_activities := known;
       ex_resolved_activity_hashes := resolved;
       ex_required_activity_window_start := _utc (st_baseline_captured_at state);
       ex_required_activity_complete_through := _utc (st_activity_complete_through state);
       ex_intent_id := ir_intent_id intent; ex_intent_digest := ir_intent_digest intent;
       ex_attempt_ordinal := attempt_ordinal; ex_request_hash := me_request_hash derived;
       ex_expectation_hash := EmptyString |}.

Definition _reconciliation_expectation_from_rows (intent : ExecutionIntentRow)
    (state : AccountReconciliationStateRow) (purpose : ReconciliationPurpose)
    (attempt : OrderAttempt) (attempt_rows : list OrderAttemptRow)
    (activity_candidates : option (list ActivityItem)) : M ReconciliationExpectation :=
  when negb (oa_intent_id attempt =? ir_intent_id intent)%N || (3 <? oa_ordinal attempt)
  then_ blocked "RECONCILIATION_ATTEMPT_MISMATCH";;
  when bool_decide (purpose = BASELINE_INITIALIZATION)
  then_ blocked "BASELINE_INITIALIZATION_IS_NOT_BROKER_MUTATION";;
  canonical_attempt ←
    (if decide (purpose = REPLACE) then
       when is_null (oa_quote_hash attempt) then_ blocked "REPLACEMENT_QUOTES_REQUIRED";;
       _ ← _validate_replacement_attempt intent attempt_rows attempt None; Ok attempt
     else _canonical_attempt_for_mutation intent purpose attempt_rows);
  when negb (attempt_eq attempt canonical_attempt) then_ blocked "BROKER_MUTATION_MATERIAL_MISMATCH";;
  derived ← match purpose with
            | SUBMIT => submit_expectation state attempt attempt_rows
            | REPLACE => replace_expectation intent state attempt attempt_rows
            | _ => cancel_expectation intent state attempt attempt_rows
            end;
  '(known, resolved) ← _bound_attempt_activities intent state (me_filled_attempt derived)
                         activity_candidates false;
  expectation_of intent state purpose (oa_ordinal attempt) derived known resolved.

(** The payload of an observation is what the row says of the attempt. *)
Definition observes_current (observation : AttemptObservationRow) (current : OrderAttempt) : M bool :=
  match or_observed_payload observation with
  | Some payload => observed ← _attempt_from_json payload; Ok (attempt_eq observed current)
  | None => Ok false
  end.

Definition _final_reconciliation_expectation_from_rows (intent : ExecutionIntentRow)
    (state : AccountReconciliationStateRow) (attempts : list OrderAttemptRow)
    (observations : list AttemptObservationRow) (latest_permit : option BrokerMutationPermitRow)
    (activity_candidates : option (list ActivityItem)) : M ReconciliationExpectation :=
  match last attempts, last observations, latest_permit with
  | Some final, Some latest, Some latest_permit =>
      current ← _attempt_from_row final attempts;
      when negb (or_permit_id latest =? pm_permit_id latest_permit)%N
           || negb (or_attempt_ordinal latest =? pm_attempt_ordinal latest_permit)
      then_ blocked "FINAL_RECONCILIATION_LINEAGE_MISSING";;
      when not (observes_current latest current) then_ blocked "FINAL_OBSERVATION_NOT_CURRENT";;
      when negb (in_states (oa_state current) FINALIZABLE_BROKER_ORDER_STATES)
      then_ blocked "FINAL_ATTEMPT_NOT_TERMINAL";;
      positions ← _positions_after_fill intent state current;
      cash ← dadd (st_expected_cash state) (cash_flow_or_zero (oa_fill_cash_flow current));
      let request_hash := _authority_hash (JObj
        [("domain", JStr "alphadecay.final-reconciliation.v1");
         ("intent_digest", JStr (ir_intent_digest intent));
         ("attempt_ordinal", JInt (oa_ordinal current));
         ("last_observation_hash", JStr (or_observation_hash latest))]) in
      '(known, resolved) ← _bound_attempt_activities intent state current activity_candidates
                             (0 <? oa_filled_quantity current);
      purpose ← member_of (pm_mutation_kind latest_permit);
      open_orders ← map_m _open_order_from_json (st_expected_open_orders state);
      expectation_of intent state purpose (oa_ordinal current)
        (mk_mutation_expectation cash positions open_orders request_hash current) known resolved
  | _, _, _ => blocked "FINAL_RECONCILIATION_LINEAGE_MISSING"
  end.
