(* ===== verification/AgentAuthority.v ===== *)
(** * The hashes of the agent's decisions

    [backend/app/persistence/agent_authority.py]: the canonical hash of what an agent
    was given and of what it decided, by which the execution authority recognises the
    decision an authorisation comes from.  The JSON here is printed without
    [ensure_ascii] and hashed as UTF-8; a document holds no floating-point number, so
    that every document has a canonical text. *)

From Stdlib Require Import ZArith Lia String Ascii List Bool.
From stdpp Require Import base strings option list.
From S2P Require Import Prelude PyText PyDict PyTime PyHash ExecModels SqlCodec.

#[local] Open Scope string_scope.
#[local] Open Scope Z_scope.

(** ** JSON without [ensure_ascii] *)

Definition raw_char (c : ascii) : string := if (127 <=? code c)%N then String c EmptyString else json_char c.

Fixpoint raw_chars (s : string) : string :=
  match s with
  | EmptyString => String quote EmptyString
  | String c s => raw_char c ++ raw_chars s
  end.
Definition raw_string (s : string) : string := String quote (raw_chars s).

Section Members.
Context (enc : json -> string).

Fixpoint raw_members (l : list (string * json)) : string :=
  match l with
  | [] => "}"
  | [(k, x)] => raw_string k ++ String ":" (enc x ++ "}")
  | (k, x) :: l => raw_string k ++ String ":" (enc x ++ String "," (raw_members l))
  end.
End Members.

Fixpoint raw_enc (j : json) : string :=
  match j with
  | JStr s => raw_string s
  | JArr l => String "[" (json_items raw_enc l)
  | JObj l => String "{" (raw_members raw_enc l)
  | JNull | JBool _ | JInt _ => json_enc j
  end.

(** The code points below 256 in UTF-8. *)
Definition utf8_char (c : ascii) : list N :=
  let n := code c in
  if (n <? 128)%N then [n] else [192 + N.shiftr n 6; 128 + N.land n 63]%N.
Definition utf8 (s : string) : list N := List.concat (map utf8_char (chars s)).

Definition canonical_agent_hash (value : json) : string :=
  hex_words (sha256_words (utf8 (raw_enc (json_sort value)))).

(** ** What is hashed *)

(** [_utc] of this module converts an aware value. *)
Definition agent_utc (value : datetime) : M datetime :=
  match dt_off value with
  | None => Ok (mk_datetime (dt_local value) (Some 0))
  | Some _ => astimezone_utc value
  end.

Definition agent_input_material (account_role account_fingerprint decision_kind : string)
    (decision_boundary observed_at : datetime) (normalized_input : json)
    (thesis_version_id : option uuid) : M json :=
  decision_boundary ← agent_utc decision_boundary;
  observed_at ← agent_utc observed_at;
  Ok (JObj
    [("domain", JStr "alphadecay.agent-input.v1"); ("account_role", JStr account_role);
     ("account_fingerprint", JStr account_fingerprint); ("decision_kind", JStr decision_kind);
     ("decision_boundary", iso decision_boundary); ("observed_at", iso observed_at);
     ("normalized_input", normalized_input);
     ("thesis_version_id", or_null (fun id => JStr (uuid_str id)) thesis_version_id)]).

(** [ExperimentExecutionLineage.material] *)
Definition lineage_material (lineage : ExperimentExecutionLineage) : json :=
  JObj [("experiment_id", JStr (uuid_str (xl_experiment_id lineage)));
        ("source_definition_hash", JStr (xl_source_definition_hash lineage));
        ("protocol_hash", JStr (xl_protocol_hash lineage))].

Definition agent_result_material (input_hash outcome reason_code policy_hash : string)
    (thesis_version_id : option uuid) (result_payload : json)
    (authorization_id intent_id : option uuid) (intent_digest : option string)
    (autonomy_authorized : bool) (experiment_lineage : option ExperimentExecutionLineage) : json :=
  let id := or_null (fun id => JStr (uuid_str id)) in
  JObj
    ([("domain", JStr "alphadecay.agent-decision.v1"); ("input_hash", JStr input_hash);
      ("outcome", JStr outcome); ("reason_code", JStr reason_code);
      ("policy_hash", JStr policy_hash); ("thesis_version_id", id thesis_version_id);
      ("result_payload", result_payload); ("authorization_id", id authorization_id);
      ("intent_id", id intent_id); ("intent_digest", or_null JStr intent_digest);
      ("autonomy_authorized", JBool autonomy_authorized)]
     ++ match experiment_lineage with
        | Some lineage => [("experiment_lineage", lineage_material lineage)]
        | None => []
        end)%list.
