(* ===== verification/SqlOrigin.v ===== *)
(** * Claims and their origin

    The operations of [SQLAlchemyExecutionRepository] that give an intent its authority:
    the approval of an intent, the agent's decision an authorisation comes from
    ([_validate_origin]), the claim of an intent and its release, and the entry budget a
    claim reserves. *)

From Stdlib Require Import ZArith Lia String Ascii List Bool.
From stdpp Require Import base strings gmap option tactics relations sorting list.
From S2P Require Import Prelude PyText PyDict PyDecimal PyTime PyHash PyParse Contracts ExecModels OrderLimits OrderStatus Identity Finalization ReconciliationData Reconciliation Permits Memory SqlSchema SqlCodec SqlRows AgentAuthority.

#[local] Open Scope string_scope.
#[local] Open Scope Z_scope.

(** [session.flush()]: what is pending is checked by the database. *)
Definition flush : txn unit := fun db => if schema_ok db then Ok (tt, db) else Raise IntegrityError.

(** ** The entry budget *)

Definition _validate_entry_limits (limits : option EntryBudgetLimits) (policy_hash : string)
    (proposed_risk : decimal) (proposed_quantity : Z) (account : AccountRoleRow)
    (budget : CompetitionEntryBudgetRow) : M unit :=
  match limits with
  | None => blocked "ENTRY_LIMITS_REQUIRED"
  | Some limits =>
      value_error_blocks
        (validate_entry limits policy_hash (ar_equity account) (bg_entries_used budget)
           (bg_gross_approved_risk budget) proposed_risk proposed_quantity)
  end.

Definition budget_with_reservation (budget : CompetitionEntryBudgetRow) (id : option uuid)
    (risk : decimal) : CompetitionEntryBudgetRow :=
  mk_CompetitionEntryBudgetRow (bg_account_role budget) (bg_entries_used budget)
    (bg_gross_approved_risk budget) id risk.

Definition submission_baseline (role : string) : txn (option SubmissionBaselineRow) :=
  select (baseline_of role).

Definition _reserve_entry (s : settings) (intent : ExecutionIntent) (account : AccountRoleRow)
    (budget : CompetitionEntryBudgetRow) : txn unit :=
  let role := enum_value (ei_account_role intent) in
  _ ← (if decide (ei_account_role intent = SUBMISSION) then
         baseline ← submission_baseline role;
         baseline ← required (ExecutionBlocked "SUBMISSION_BASELINE_REQUIRED") baseline;
         refuse (bl_contaminated baseline) "SUBMISSION_BASELINE_CONTAMINATED"
       else mret tt);
  _ ← refuse (not_null (bg_reserved_intent_id budget)) "ENTRY_RESERVATION_ACTIVE";
  let envelope := ei_envelope intent in
  _ ← perform (_validate_entry_limits (entry_limits s) (oe_policy_hash envelope)
                 (oe_approved_max_loss envelope) (oe_quantity envelope) account budget);
  save_budget (budget_with_reservation budget (Some (ei_intent_id intent))
                 (oe_approved_max_loss envelope)).

(** [budget.reserved_intent_id = None] and [budget.reserved_risk = Decimal(0)], where the
    budget is reserved for the intent. *)
Definition release_reservation (role : string) (intent_id : uuid) : txn unit :=
  budget ← select (fun db => db_budgets db !! role);
  match budget with
  | Some budget =>
      if decide (bg_reserved_intent_id budget = Some intent_id)
      then save_budget (budget_with_reservation budget None (Dint 0)) else mret tt
  | None => mret tt
  end.

(** ** The origin of an authorisation *)

(** The row of the authorisation: an entry approval or an assessment certificate. *)
Record authorization_origin := mk_authorization_origin {
  ao_agent_decision_id : option uuid;
  ao_thesis_version_id : uuid;
  ao_values : AuthorizationValues;
}.

Definition authorization_of (envelope : OrderEnvelope) (db : database) : M authorization_origin :=
  let id := oe_authorization_certificate_id envelope in
  if decide (oe_action envelope = EX_ENTRY) then
    match db_entry_approvals (db_origins db) !! id with
    | None => blocked "AUTHORIZATION_ORIGIN_NOT_FOUND"
    | Some row =>
        account_role ← member_of (ec_account_role row);
        Ok (mk_authorization_origin (ec_agent_decision_id row) (ec_thesis_version_id row)
              (mk_AuthorizationValues account_role (ec_policy_hash row) (ec_book_fingerprint row)
                 (ec_envelope_hash row) (ec_approved_max_loss row) (ec_quantity row)
                 (ec_valid row) (_utc (ec_valid_from row)) (_utc (ec_expires_at row))))
    end
  else
    match db_assessments (db_origins db) !! id with
    | None => blocked "AUTHORIZATION_ORIGIN_NOT_FOUND"
    | Some row =>
        when negb (String.eqb (ac_action row) (enum_value (oe_action envelope)))
        then_ blocked "AUTHORIZATION_ACTION_MISMATCH";;
        account_role ← member_of (ac_account_role row);
        Ok (mk_authorization_origin (ac_agent_decision_id row) (ac_thesis_version_id row)
              (mk_AuthorizationValues account_role (ac_policy_hash row)
                 (ac_position_fingerprint row) (ac_envelope_hash row) (ac_approved_max_loss row)
                 (ac_quantity row) (ac_valid row) (_utc (ac_created_at row))
                 (_utc (ac_expires_at row))))
    end.

(** The hash the snapshot should have, and the one the decision should have. *)
Definition expected_input_hash (snapshot : AgentInputSnapshotRow) : M (option string) :=
  if is_null (ai_thesis_version_id snapshot) then Ok None
  else
    material ← agent_input_material (ai_account_role snapshot) (ai_account_fingerprint snapshot)
                 (ai_decision_kind snapshot) (ai_decision_boundary snapshot)
                 (ai_observed_at snapshot) (ai_normalized_payload snapshot)
                 (ai_thesis_version_id snapshot);
    Ok (Some (canonical_agent_hash material)).

Definition expected_result_hash (intent : ExecutionIntent) (decision : AgentDecisionRow)
    (snapshot : AgentInputSnapshotRow) : M (option string) :=
  if is_null (ad_thesis_version_id decision) then Ok None
  else
    lineage ← optional_experiment_execution_lineage (ad_experiment_id decision)
                (ad_experiment_source_definition_hash decision) (ad_experiment_protocol_hash decision);
    Ok (Some (canonical_agent_hash
      (agent_result_material (ai_input_hash snapshot) (ad_outcome decision)
         (ad_reason_code decision) (ad_policy_hash decision) (ad_thesis_version_id decision)
         (ad_result_payload decision)
         (Some (oe_authorization_certificate_id (ei_envelope intent)))
         (Some (ei_intent_id intent)) (Some (ei_digest intent)) true lineage))).

(** The decisions an action may come from. *)
Definition decision_kind_of (action : ExecutionAction) : string :=
  if decide (action = EX_ENTRY) then "OPPORTUNITY" else "ASSESSMENT".
Definition outcomes_of (action : ExecutionAction) : list string :=
  match action with
  | EX_ENTRY => ["ENTRY_APPROVED"]
  | EX_ROLL => ["ROLL_APPROVED"]
  | EX_CLOSE => ["CLOSE_APPROVED"; "CLOSE_RISK_ONLY"]
  end.

Record decision_origin := mk_decision_origin {
  do_decision : AgentDecisionRow;
  do_snapshot : AgentInputSnapshotRow;
  do_thesis : ThesisVersionRow;
  do_tick : AgentTickRow;
}.

(** The decision, the snapshot, the thesis and the tick disagree with the intent. *)
Definition decision_mismatch (intent : ExecutionIntent) (origin : authorization_origin)
    (input_hash result_hash : option string) (d : decision_origin) : bool :=
  let envelope := ei_envelope intent in
  let role := enum_value (ei_account_role intent) in
  let decision := do_decision d in
  let snapshot := do_snapshot d in
  let thesis := do_thesis d in
  let tick := do_tick d in
  negb (ad_autonomy_authorized decision)
  || negb (bool_decide (ad_thesis_version_id decision = Some (ao_thesis_version_id origin)))
  || negb (bool_decide (ai_thesis_version_id snapshot = Some (ao_thesis_version_id origin)))
  || negb (String.eqb (ad_account_role decision) role)
  || negb (String.eqb (ai_account_role snapshot) role)
  || negb (String.eqb (th_account_role thesis) role)
  || negb (String.eqb (ad_account_fingerprint decision) (oe_account_fingerprint envelope))
  || negb (String.eqb (ai_account_fingerprint snapshot) (oe_account_fingerprint envelope))
  || negb (String.eqb (ad_policy_hash decision) (oe_policy_hash envelope))
  || negb (String.eqb (th_policy_hash thesis) (oe_policy_hash envelope))
  || negb (ad_input_snapshot_id decision =? ai_snapshot_id snapshot)%N
  || negb (bool_decide (ak_decision_id tick = Some (ad_decision_id decision)))
  || negb (String.eqb (ak_account_role tick) role)
  || negb (String.eqb (ak_account_fingerprint tick) (oe_account_fingerprint envelope))
  || negb (bool_decide (Some (ai_input_hash snapshot) = input_hash))
  || negb (bool_decide (Some (ad_result_hash decision) = result_hash))
  || negb (String.eqb (ad_decision_kind decision) (decision_kind_of (oe_action envelope)))
  || negb (one_of (ad_outcome decision) (outcomes_of (oe_action envelope))).

(** The open position of the account, and its current snapshot. *)
Definition open_position (role : string) (db : database) : option ManagedLifecyclePositionRow :=
  List.find (fun row => String.eqb (mp_account_role row) role && is_null (mp_closed_at row))
    (rows (db_positions (db_origins db))).

Definition position_mismatch (envelope : OrderEnvelope) (origin : authorization_origin)
    (position : ManagedLifecyclePositionRow) (snapshot : ManagedPositionSnapshotRow) : bool :=
  negb (String.eqb (mp_account_fingerprint position) (oe_account_fingerprint envelope))
  || negb (mp_thesis_version_id position =? ao_thesis_version_id origin)%N
  || negb (String.eqb (mp_active_position_fingerprint position)
             (oe_position_or_book_fingerprint envelope))
  || negb (ms_managed_position_id snapshot =? mp_managed_position_id position)%N
  || negb (String.eqb (ms_position_fingerprint snapshot) (mp_active_position_fingerprint position)).

Definition validate_position (intent : ExecutionIntent) (origin : authorization_origin) (db : database)
    : M unit :=
  match open_position (enum_value (ei_account_role intent)) db with
  | None => blocked "LIFECYCLE_POSITION_ORIGIN_MISMATCH"
  | Some position =>
      match id ← mp_current_snapshot_id position; db_position_snapshots (db_origins db) !! id with
      | None => blocked "LIFECYCLE_POSITION_ORIGIN_MISMATCH"
      | Some snapshot =>
          when position_mismatch (ei_envelope intent) origin position snapshot
          then_ blocked "LIFECYCLE_POSITION_ORIGIN_MISMATCH";;
          Ok tt
      end
  end.

Definition _validate_origin (db : database) (intent : ExecutionIntent) (now : datetime) : M unit :=
  let envelope := ei_envelope intent in
  let origins := db_origins db in
  origin ← authorization_of envelope db;
  let decision := id ← ao_agent_decision_id origin; db_decisions origins !! id in
  let snapshot := decision ← decision; db_snapshots origins !! ad_input_snapshot_id decision in
  let thesis := db_theses origins !! ao_thesis_version_id origin in
  let tick := decision ← decision; db_ticks origins !! ad_origin_tick_id decision in
  input_hash ← match snapshot with Some snapshot => expected_input_hash snapshot | None => Ok None end;
  result_hash ← match decision, snapshot with
                | Some decision, Some snapshot => expected_result_hash intent decision snapshot
                | _, _ => Ok None
                end;
  match decision, snapshot, thesis, tick with
  | Some decision, Some snapshot, Some thesis, Some tick =>
      when decision_mismatch intent origin input_hash result_hash
             (mk_decision_origin decision snapshot thesis tick)
      then_ blocked "AUTHORIZATION_DECISION_ORIGIN_MISMATCH";;
      _ ← (if decide (oe_action envelope = EX_ENTRY) then Ok tt else validate_position intent origin db);
      validate_authorization intent (ao_values origin) now
  | _, _, _, _ => blocked "AUTHORIZATION_DECISION_ORIGIN_MISMATCH"
  end.

(** ** Approvals of intents *)

Definition intent_of_digest (digest : string) (db : database) : option ExecutionIntentRow :=
  List.find (fun row => String.eqb (ir_intent_digest row) digest) (rows (db_intents db)).

Definition approved_row (intent_id : uuid) (role : AccountRole) (envelope : OrderEnvelope)
    : ExecutionIntentRow :=
  {| ir_intent_id := intent_id; ir_account_role := enum_value role;
     ir_intent_digest := intent_digest envelope; ir_action := enum_value (oe_action envelope);
     ir_policy_hash := oe_policy_hash envelope; ir_event_key := oe_event_key envelope;
     ir_trading_day := oe_trading_day envelope;
     ir_entry_approval_id := entry_approval_id envelope;
     ir_assessment_certificate_id := assessment_certificate_id envelope;
     ir_fingerprint := oe_position_or_book_fingerprint envelope;
     ir_envelope_hash := order_envelope_hash envelope;
     ir_envelope_payload := _envelope_to_json envelope;
     ir_legs := _legs_to_json (oe_legs envelope); ir_quantity := oe_quantity envelope;
     ir_minimum_limit := oe_minimum_limit envelope; ir_maximum_limit := oe_maximum_limit envelope;
     ir_approved_max_loss := oe_approved_max_loss envelope;
     ir_market_session_id := oe_market_session_id envelope;
     ir_quoted_relative_spread := oe_quoted_relative_spread envelope;
     ir_maximum_relative_spread := oe_maximum_relative_spread envelope;
     ir_incremental_debit := oe_incremental_debit envelope;
     ir_maximum_incremental_debit := oe_maximum_incremental_debit envelope;
     ir_state := enum_value APPROVED; ir_claimed_by := None; ir_claimed_at := None;
     ir_claim_token := None; ir_claim_generation := 0; ir_execution_epoch := 0;
     ir_heartbeat_at := None; ir_lease_expires_at := None; ir_first_fill_consumed := false |}.

Definition approval (intent_id : uuid) (role : AccountRole) (envelope : OrderEnvelope)
    : txn ExecutionIntent :=
  existing ← select (intent_of_digest (intent_digest envelope));
  match existing with
  | Some existing =>
      intent ← select_m (_intent_from_row existing);
      _ ← refuse (negb (bool_decide (ei_account_role intent = role))
                  || negb (envelope_eq (ei_envelope intent) envelope)) "INTENT_DIGEST_COLLISION";
      mret intent
  | None =>
      used ← select (fun db => db_intents db !! intent_id);
      _ ← refuse (not_null used) "INTENT_ID_ALREADY_USED";
      account ← select (fun db => db_accounts db !! enum_value role);
      _ ← refuse (match account with
                  | Some account =>
                      negb (String.eqb (ar_account_fingerprint account) (oe_account_fingerprint envelope))
                  | None => true
                  end) "ACCOUNT_FINGERPRINT_MISMATCH";
      let row := approved_row intent_id role envelope in
      _ ← save_intent row;
      _ ← flush;
      select_m (_intent_from_row row)
  end.

(** [except IntegrityError]: the same intent may have been approved meanwhile. *)
Definition approved_meanwhile (role : AccountRole) (envelope : OrderEnvelope) : txn ExecutionIntent :=
  existing ← select (intent_of_digest (intent_digest envelope));
  match existing with
  | Some existing =>
      intent ← select_m (_intent_from_row existing);
      if bool_decide (ei_account_role intent = role) && envelope_eq (ei_envelope intent) envelope
      then mret intent else raise (ExecutionBlocked "INTENT_UNIQUENESS_CONFLICT")
  | None => raise (ExecutionBlocked "INTENT_UNIQUENESS_CONFLICT")
  end.

Definition approve_intent (intent_id : uuid) (role : AccountRole) (envelope : OrderEnvelope)
    (db : database) : database * M ExecutionIntent :=
  match _ensure_executable_role role with
  | Raise e => (db, Raise e)
  | Ok _ =>
      match transaction (approval intent_id role envelope) db with
      | (db, Raise IntegrityError) => (db, reading (approved_meanwhile role envelope) db)
      | result => result
      end
  end.

(** ** Claims *)

Definition LEASE : timedelta := seconds 30.

Definition claimed_intent_of (role : string) (db : database) : option ExecutionIntentRow :=
  List.find (fun row => String.eqb (ir_account_role row) role
                        && String.eqb (ir_state row) (enum_value CLAIMED)) (rows (db_intents db)).

(** The claim of a row by the next generation of the account, for a lease. *)
Definition claimed_row (row : ExecutionIntentRow) (actor : Actor) (account : AccountRoleRow)
    (claim_token : uuid) (now lease_expires_at : datetime) : ExecutionIntentRow :=
  intent_with row (enum_value CLAIMED) (Some (enum_value actor)) (Some now) (Some claim_token)
    (ar_claim_generation account + 1) (ar_execution_epoch account) (Some now)
    (Some lease_expires_at) (ir_first_fill_consumed row).

Definition claim_intent (s : settings) (intent_id : uuid) (actor : Actor) (account_role : AccountRole)
    (account_fingerprint : string) (clock : datetime) (claim_token : uuid) : txn ExecutionIntent :=
  row ← select (fun db => db_intents db !! intent_id);
  row ← required KeyError row;
  _ ← refuse (negb (String.eqb (ir_account_role row) (enum_value account_role))) "ACCOUNT_ROLE_MISMATCH";
  account ← select (fun db => db_accounts db !! enum_value account_role);
  account ← required (ExecutionBlocked "ACCOUNT_FINGERPRINT_MISMATCH") account;
  _ ← refuse (negb (String.eqb (ar_account_fingerprint account) account_fingerprint))
        "ACCOUNT_FINGERPRINT_MISMATCH";
  budget ← select (fun db => db_budgets db !! ir_account_role row);
  budget ← required (ExecutionBlocked "ACCOUNT_NOT_REGISTERED") budget;
  _ ← refuse (ar_execution_locked account) "ACCOUNT_EXECUTION_LOCKED";
  _ ← refuse (negb (String.eqb (ir_state row) (enum_value APPROVED))) "INTENT_ALREADY_CLAIMED";
  active_lease ← select (claimed_intent_of (ir_account_role row));
  _ ← refuse (not_null active_lease) "ACCOUNT_EXECUTION_LEASE_ACTIVE";
  intent ← select_m (_intent_from_row row);
  trusted_now ← perform (_trusted_now clock);
  let entry := bool_decide (oe_action (ei_envelope intent) = EX_ENTRY) in
  _ ← refuse (entry && bool_decide (actor = OWNER)) "OWNER_ENTRY_FORBIDDEN";
  _ ← refuse ((entry || bool_decide (actor = SCHEDULER)) && negb (ar_autonomous_enabled account))
        "AUTONOMOUS_DISABLED";
  _ ← select_m (fun db => _validate_origin db intent trusted_now);
  _ ← (if entry then _reserve_entry s intent account budget else mret tt);
  lease_expires_at ← perform (dt_add trusted_now LEASE);
  let row := claimed_row row actor account claim_token trusted_now lease_expires_at in
  _ ← save_intent row;
  _ ← save_account (with_claim_generation account (ar_claim_generation account + 1));
  _ ← flush;
  select_m (_intent_from_row row).

Definition release_unsubmitted_claim (intent_id : uuid) : txn unit :=
  row ← select (fun db => db_intents db !! intent_id);
  row ← required KeyError row;
  attempts ← select (attempt_rows_of intent_id);
  _ ← refuse (negb (String.eqb (ir_state row) (enum_value CLAIMED)) || negb (length attempts =? 0)%nat)
        "CLAIM_NOT_UNSUBMITTED";
  _ ← release_reservation (ir_account_role row) intent_id;
  save_intent (intent_with_state row (enum_value TERMINAL) (ir_first_fill_consumed row)).

(** The claims whose lease is over and that have made no attempt. *)
Definition lease_over (role : AccountRole) (trusted_now : datetime) (db : database)
    (row : ExecutionIntentRow) : bool :=
  String.eqb (ir_account_role row) (enum_value role)
  && String.eqb (ir_state row) (enum_value CLAIMED)
  && match ir_lease_expires_at row with
     | Some expires => dt_instant expires <=? dt_instant trusted_now
     | None => false
     end
  && (length (attempt_rows_of (ir_intent_id row) db) =? 0)%nat.

Definition expired_claims (role : AccountRole) (trusted_now : datetime) (db : database)
    : list ExecutionIntentRow :=
  where_ordered (lease_over role trusted_now db) (fun row => [id_key (ir_intent_id row)])
    (db_intents db).

Fixpoint each_row {A} (f : A -> txn unit) (rows : list A) : txn unit :=
  match rows with
  | [] => mret tt
  | row :: rows => _ ← f row; each_row f rows
  end.

Definition expired_unsubmitted_claims (role : AccountRole) (persist : bool) (clock : datetime)
    : txn (list uuid) :=
  _ ← perform (_ensure_executable_role role);
  trusted_now ← perform (_trusted_now clock);
  rows ← select (expired_claims role trusted_now);
  _ ← (if persist then
         each_row (fun row =>
           _ ← release_reservation (enum_value role) (ir_intent_id row);
           save_intent (intent_with_state row (enum_value TERMINAL) (ir_first_fill_consumed row))) rows
       else mret tt);
  mret (map ir_intent_id rows).

(** The intent asked for, or the latest that is not terminal. *)
Definition preflight_rows (role : AccountRole) (intent_id : option uuid) (db : database)
    : list ExecutionIntentRow :=
  match intent_id with
  | Some id => List.filter (fun row => String.eqb (ir_account_role row) (enum_value role)
                                       && (ir_intent_id row =? id)%N) (rows (db_intents db))
  | None =>
      where_ordered (fun row => String.eqb (ir_account_role row) (enum_value role)
                                && negb (String.eqb (ir_state row) (enum_value TERMINAL)))
        (fun row => [- ir_trading_day row;
                     match ir_claimed_at row with Some _ => 0 | None => 1 end;
                     match ir_claimed_at row with Some t => - dt_instant t | None => 0 end;
                     - id_key (ir_intent_id row)]) (db_intents db)
  end.

Definition execution_preflight_intent (role : AccountRole) (intent_id : option uuid) (clock : datetime)
    : txn ExecutionIntent :=
  _ ← perform (_ensure_executable_role role);
  rows ← select (preflight_rows role intent_id);
  row ← required (ExecutionBlocked "EXECUTION_INTENT_NOT_FOUND") (head rows);
  intent ← select_m (_intent_from_row row);
  _ ← (if String.eqb (ir_state row) (enum_value CLAIMED) then
         trusted_now ← perform (_trusted_now clock);
         refuse (match ir_lease_expires_at row with
                 | Some expires => dt_le (_utc expires) trusted_now
                 | None => true
                 end) "INTENT_CLAIM_EXPIRED"
       else mret tt);
  mret intent.

(** The reservations of the claimed entries that have no fill are made again. *)
Definition recover_entry_reservations : txn unit :=
  rows ← select (fun db => List.filter (fun row =>
    String.eqb (ir_action row) (enum_value EX_ENTRY) && String.eqb (ir_state row) (enum_value CLAIMED)
    && negb (ir_first_fill_consumed row)) (rows (db_intents db)));
  each_row (fun row =>
    budget ← select (fun db => db_budgets db !! ir_account_role row);
    budget ← required (ExecutionBlocked "ENTRY_BUDGET_MISSING") budget;
    save_budget (budget_with_reservation budget (Some (ir_intent_id row)) (ir_approved_max_loss row)))
    rows.

Definition get_intent (intent_id : uuid) : txn ExecutionIntent :=
  row ← select (fun db => db_intents db !! intent_id);
  row ← required KeyError row;
  select_m (_intent_from_row row).

Definition get_entry_budget (role : AccountRole) : txn EntryBudget :=
  _ ← perform (_ensure_executable_role role);
  row ← select (fun db => db_budgets db !! enum_value role);
  row ← required KeyError row;
  mret (mk_EntryBudget (bg_entries_used row) (bg_gross_approved_risk row)
          (bg_reserved_intent_id row) (bg_reserved_risk row)).

Definition get_execution_lock (role : AccountRole) : txn AccountExecutionLock :=
  _ ← perform (_ensure_executable_role role);
  row ← select (fun db => db_accounts db !! enum_value role);
  row ← required KeyError row;
  mret (mk_AccountExecutionLock (ar_execution_locked row) (ar_execution_lock_reason row)
          (option_map _utc (ar_execution_locked_at row))).
