(* ===== verification/SqlPrepare.v ===== *)
(** * The preparation of a broker mutation

    [SQLAlchemyExecutionRepository.prepare_broker_mutation] and what it plans with: the
    expectation of the whole account, its comparison with the sweep, the lock of the
    account when the comparison is not safe, and the permit of the next generation when
    it is, with the attempt the permit is for. *)

From Stdlib Require Import ZArith Lia String Ascii List Bool.
From stdpp Require Import base strings gmap option tactics list.
From S2P Require Import Prelude PyText PyDict PyDecimal PyTime PyHash PyParse Contracts ExecModels OrderLimits OrderStatus Identity Finalization ReconciliationData Reconciliation Permits Replacement SqlSchema SqlCodec SqlRows SqlLookups SqlExpectation SqlOrigin.

#[local] Open Scope string_scope.
#[local] Open Scope Z_scope.

(** ** The rows a mutation works on *)

(** The latest reconciliation state of an account. *)
Definition current_state (role : string) : txn AccountReconciliationStateRow :=
  state ← select (latest_state_of role);
  required (ExecutionBlocked "RECONCILIATION_STATE_REQUIRED") state.

Definition broker_reconciliation_expectation (claim : ExecutionIntent)
    (purpose : ReconciliationPurpose) (attempt : OrderAttempt) (clock : datetime)
    : txn ReconciliationExpectation :=
  '(intent, account) ← claimed_rows claim;
  state ← current_state (enum_value (ei_account_role claim));
  attempt_rows ← select (attempt_rows_of (ei_intent_id claim));
  permit_rows ← select (permit_rows_of (ei_intent_id claim));
  _ ← perform (if decide (purpose = REPLACE) then
                 trusted_now ← _trusted_now clock;
                 _ ← _validate_replacement_attempt intent attempt_rows attempt (Some trusted_now);
                 _validate_replacement_due attempt_rows permit_rows attempt
               else Ok tt);
  perform (_reconciliation_expectation_from_rows intent state purpose attempt attempt_rows None).

(** The attempt of a plan: the replacement that was quoted, or the canonical one. *)
Definition plan_attempt (intent : ExecutionIntentRow) (purpose : ReconciliationPurpose)
    (replacement : option OrderAttempt) (attempt_rows : list OrderAttemptRow)
    (permit_rows : list BrokerMutationPermitRow) (trusted_now : datetime) : M OrderAttempt :=
  match replacement with
  | None =>
      when bool_decide (purpose = REPLACE) then_ blocked "REPLACEMENT_QUOTES_REQUIRED";;
      _canonical_attempt_for_mutation intent purpose attempt_rows
  | Some replacement =>
      when negb (bool_decide (purpose = REPLACE)) then_ blocked "REPLACEMENT_AUTHORITY_UNEXPECTED";;
      _ ← _validate_replacement_attempt intent attempt_rows replacement (Some trusted_now);
      _ ← _validate_replacement_due attempt_rows permit_rows replacement;
      Ok replacement
  end.

Definition plan_broker_mutation (claim : ExecutionIntent) (purpose : ReconciliationPurpose)
    (replacement : option OrderAttempt) (clock : datetime) : txn BrokerMutationPlan :=
  '(intent, account) ← claimed_rows claim;
  _ ← refuse (ar_execution_locked account) "ACCOUNT_EXECUTION_LOCKED";
  trusted_now ← perform (_trusted_now clock);
  state ← current_state (enum_value (ei_account_role claim));
  attempt_rows ← select (attempt_rows_of (ei_intent_id claim));
  permit_rows ← select (permit_rows_of (ei_intent_id claim));
  attempt ← perform (plan_attempt intent purpose replacement attempt_rows permit_rows trusted_now);
  expectation ← perform (_reconciliation_expectation_from_rows intent state purpose attempt
                           attempt_rows None);
  mret (mk_BrokerMutationPlan expectation attempt).

Definition final_reconciliation_expectation (claim : ExecutionIntent) : txn ReconciliationExpectation :=
  '(intent, account) ← claimed_rows claim;
  state ← current_state (enum_value (ei_account_role claim));
  attempt_rows ← select (attempt_rows_of (ei_intent_id claim));
  observations ← select (observation_rows_of (ei_intent_id claim));
  permit_rows ← select (permit_rows_of (ei_intent_id claim));
  latest_permit ← select (fun db => latest ← last observations; db_permits db !! or_permit_id latest);
  attempts ← perform (_execution_attempt_rows attempt_rows permit_rows);
  perform (_final_reconciliation_expectation_from_rows intent state attempts observations
             latest_permit None).

(** ** Reconciliations *)

Definition _reconciliation_row (value : WholeAccountReconciliation) : WholeAccountReconciliationRow :=
  let expectation := wr_expectation value in
  {| wa_reconciliation_id := wr_reconciliation_id value;
     wa_reconciliation_hash := wr_reconciliation_hash value;
     wa_expectation_hash := ex_expectation_hash expectation;
     wa_execution_intent_id := ex_intent_id expectation;
     wa_intent_digest := ex_intent_digest expectation;
     wa_account_role := enum_value (ex_account_role expectation);
     wa_account_fingerprint := ex_account_fingerprint expectation;
     wa_purpose := enum_value (ex_purpose expectation);
     wa_attempt_ordinal := ex_attempt_ordinal expectation;
     wa_request_hash := ex_request_hash expectation; wa_accepted_at := wr_accepted_at value;
     wa_expectation_payload := _expectation_to_json expectation;
     wa_sweep_payload := _sweep_to_json (wr_sweep value);
     wa_positions_manifest_hash := wr_positions_manifest_hash value;
     wa_orders_manifest_hash := wr_orders_manifest_hash value;
     wa_activities_manifest_hash := wr_activities_manifest_hash value; wa_safe := wr_safe value;
     wa_block_codes := map enum_value (wr_block_codes value) |}.

(** The columns disagree with the evaluation of the documents. *)
Definition reconciliation_corrupt (row : WholeAccountReconciliationRow)
    (value : WholeAccountReconciliation) : bool :=
  negb (wr_reconciliation_id value =? wa_reconciliation_id row)%N
  || negb (String.eqb (wr_reconciliation_hash value) (wa_reconciliation_hash row))
  || negb (String.eqb (wr_positions_manifest_hash value) (wa_positions_manifest_hash row))
  || negb (String.eqb (wr_orders_manifest_hash value) (wa_orders_manifest_hash row))
  || negb (String.eqb (wr_activities_manifest_hash value) (wa_activities_manifest_hash row))
  || negb (Bool.eqb (wr_safe value) (wa_safe row))
  || negb (bool_decide (map enum_value (wr_block_codes value) = wa_block_codes row)).

Definition _reconciliation_from_row (row : WholeAccountReconciliationRow)
    : M WholeAccountReconciliation :=
  expectation ← _expectation_from_json (wa_expectation_payload row);
  sweep ← _sweep_from_json (wa_sweep_payload row);
  value ← evaluate sweep expectation (_utc (wa_accepted_at row));
  when reconciliation_corrupt row value then_ blocked "WHOLE_ACCOUNT_RECONCILIATION_CORRUPT";;
  Ok value.

Definition get_whole_account_reconciliation (reconciliation_id : uuid)
    : txn WholeAccountReconciliation :=
  row ← select (fun db => db_reconciliations db !! reconciliation_id);
  row ← required KeyError row;
  perform (_reconciliation_from_row row).

Definition add_reconciliation (value : WholeAccountReconciliation) : txn unit :=
  _ ← insert_row db_reconciliations set_db_reconciliations (wr_reconciliation_id value)
        (_reconciliation_row value);
  flush.

(** ** The end of a generation *)

Definition permit_expired (permit : BrokerMutationPermitRow) (trusted_now : datetime)
    : BrokerMutationPermitRow :=
  permit_with permit "EXPIRED" (pm_dispatch_nonce permit) (pm_dispatch_acquired_at permit)
    (Some trusted_now) (pm_outcome_hash permit).

Definition _expire_prepared_generation (permit : BrokerMutationPermitRow) (trusted_now : datetime)
    (request_hash : string) : M BrokerMutationPermitRow :=
  when negb (String.eqb (pm_request_hash permit) request_hash)
  then_ blocked "BROKER_PERMIT_REQUEST_MISMATCH";;
  when negb (String.eqb (pm_state permit) "PREPARED")
  then_ blocked "BROKER_PERMIT_REAUTHORIZATION_NOT_PROVEN";;
  when dt_lt trusted_now (_utc (pm_expires_at permit)) then_ blocked "BROKER_PERMIT_NOT_EXPIRED";;
  Ok (permit_expired permit trusted_now).

Definition _supersede_prepared_replacement_for_hard_cancel
    (permit initial_permit : BrokerMutationPermitRow) (trusted_now : datetime)
    : M BrokerMutationPermitRow :=
  when negb (String.eqb (pm_mutation_kind permit) (enum_value REPLACE))
       || negb (String.eqb (pm_state permit) "PREPARED") || not_null (pm_dispatch_nonce permit)
       || not_null (pm_dispatch_acquired_at permit) || not_null (pm_consumed_at permit)
       || not_null (pm_outcome_hash permit)
  then_ blocked "BROKER_PERMIT_REAUTHORIZATION_NOT_PROVEN";;
  elapsed ← elapsed_since initial_permit trusted_now;
  when elapsed <? seconds 600 then_ blocked "REPLACEMENT_CANCEL_NOT_DUE";;
  Ok (permit_expired permit trusted_now).

Definition _refresh_prepared_replacement (row : OrderAttemptRow) (attempt : OrderAttempt)
    : OrderAttemptRow :=
  mk_OrderAttemptRow (at_attempt_id row) (at_broker_permit_id row) (at_execution_intent_id row)
    (at_attempt_ordinal row) (at_client_order_id row) (at_provider_order_id row) (at_state row)
    (oa_request_hash attempt) (oa_limit_price attempt) (oa_quote_hash attempt)
    (map dt_isoformat (oa_quote_source_timestamps attempt)) (oa_quote_retrieved_at attempt)
    (oa_timing_authority_at attempt) (oa_prior_request_hash attempt) (at_replaces_attempt_id row)
    (at_filled_quantity row) (at_quantity row) (at_fill_cash_flow row).

(** A consumed cancellation may be made again when the latest lookup under it, after the
    horizon of its call, shows the order still working as the row says. *)
Definition _verify_consumed_cancel_retry (permit : BrokerMutationPermitRow) (target : OrderAttemptRow)
    (attempt_rows : list OrderAttemptRow) (observations : list AttemptObservationRow)
    (network_call_horizon : timedelta) : M unit :=
  let code := "CANCEL_PERMIT_REAUTHORIZATION_NOT_PROVEN" in
  match pm_dispatch_acquired_at permit, pm_consumed_at permit,
        last (List.filter (fun row => (or_permit_id row =? pm_permit_id permit)%N) observations) with
  | Some _, Some _, Some latest =>
      observed ← match or_observed_payload latest with
                 | Some payload => a ← _attempt_from_json payload; Ok (Some a)
                 | None => Ok None
                 end;
      expected ← _attempt_from_row target attempt_rows;
      when negb (String.eqb (or_source latest) (enum_value TARGETED_LOOKUP))
           ||| negb (opt_eq attempt_eq observed (Some expected))
           ||| negb (in_states (oa_state expected) MUTATION_ELIGIBLE_BROKER_ORDER_STATES)
           ||| (not_before ← lookup_not_before permit network_call_horizon;
                dt_lt (_utc (or_observed_at latest)) not_before)
      then_ blocked code;;
      Ok tt
  | _, _, _ => blocked code
  end.

(** ** The lineage of a mutation *)

(** What the new permit succeeds and targets, the attempt it creates ([Some replaces]
    gives [replaces_attempt_id]), and the rows that change with it. *)
Record permit_lineage := mk_lineage {
  lg_predecessor : option uuid;
  lg_target : option OrderAttemptRow;
  lg_create : option (option uuid);
  lg_permits : list BrokerMutationPermitRow;
  lg_attempts : list OrderAttemptRow;
}.

Definition submit_lineage (attempt : OrderAttempt) (attempt_rows : list OrderAttemptRow)
    (prior_generation : option BrokerMutationPermitRow) (request_hash : string)
    (trusted_now : datetime) : M permit_lineage :=
  match attempt_rows with
  | first :: rest =>
      existing ← _attempt_from_row first attempt_rows;
      when negb (length rest =? 0)%nat || negb (attempt_eq existing attempt)
      then_ blocked "SUBMIT_ATTEMPT_ALREADY_EXISTS";;
      match prior_generation with
      | None => blocked "ATTEMPT_PERMIT_MISSING"
      | Some prior_generation =>
          expired ← _expire_prepared_generation prior_generation trusted_now request_hash;
          Ok (mk_lineage (Some (pm_permit_id prior_generation)) None None [expired] [])
      end
  | [] =>
      when not_null prior_generation then_ blocked "SUBMIT_PERMIT_ALREADY_EXISTS";;
      Ok (mk_lineage None None (Some None) [] [])
  end.

Definition replace_lineage (attempt : OrderAttempt) (attempt_rows : list OrderAttemptRow)
    (permit_rows : list BrokerMutationPermitRow) (prior_generation : option BrokerMutationPermitRow)
    (trusted_now : datetime) : M permit_lineage :=
  match last attempt_rows with
  | None => blocked "REPLACE_ORDINAL_INVALID"
  | Some latest =>
      persisted ← _attempt_from_row latest attempt_rows;
      if (oa_ordinal persisted =? oa_ordinal attempt) && String.eqb (oa_state persisted) "PREPARED" then
        match prior_generation, second_last attempt_rows with
        | Some prior_generation, Some target_attempt =>
            expired ← _expire_prepared_generation prior_generation trusted_now
                        (pm_request_hash prior_generation);
            Ok (mk_lineage (Some (pm_permit_id prior_generation)) (Some target_attempt) None [expired]
                  [_refresh_prepared_replacement latest attempt])
        | _, _ => blocked "REPLACE_PERMIT_MISSING"
        end
      else
        when negb (oa_ordinal attempt =? Z.of_nat (length attempt_rows))
        then_ blocked "REPLACE_ORDINAL_INVALID";;
        target_permit ← _creation_permit latest permit_rows;
        when negb (String.eqb (pm_state target_permit) "CONSUMED")
        then_ blocked "PREDECESSOR_PERMIT_UNRESOLVED";;
        when not_null prior_generation then_ blocked "REPLACE_PERMIT_ALREADY_EXISTS";;
        Ok (mk_lineage (Some (pm_permit_id target_permit)) (Some latest)
              (Some (Some (at_attempt_id latest))) [] [])
  end.

(** The attempt that is cancelled: not a prepared replacement of it, whose permit a
    cancellation ten minutes after the first dispatch supersedes. *)
Definition cancel_target (attempt_rows : list OrderAttemptRow)
    (permit_rows : list BrokerMutationPermitRow) (latest : OrderAttemptRow) (trusted_now : datetime)
    : M (OrderAttemptRow * option BrokerMutationPermitRow) :=
  match second_last attempt_rows, head attempt_rows with
  | Some previous, Some first =>
      if String.eqb (at_state latest) "PREPARED" then
        stale_replacement_permit ← _creation_permit latest permit_rows;
        initial_permit ← _creation_permit first permit_rows;
        superseded ← _supersede_prepared_replacement_for_hard_cancel stale_replacement_permit
                       initial_permit trusted_now;
        Ok (previous, Some superseded)
      else Ok (latest, None)
  | _, _ => Ok (latest, None)
  end.

(** [permit_rows] after the superseded permit, which is the row of the list, changed. *)
Definition with_permit (permit : option BrokerMutationPermitRow)
    (permit_rows : list BrokerMutationPermitRow) : list BrokerMutationPermitRow :=
  match permit with
  | Some permit =>
      map (fun row => if (pm_permit_id row =? pm_permit_id permit)%N then permit else row) permit_rows
  | None => permit_rows
  end.

Definition cancel_lineage (s : settings) (attempt_rows : list OrderAttemptRow)
    (permit_rows : list BrokerMutationPermitRow) (observation_rows : list AttemptObservationRow)
    (prior_generation : option BrokerMutationPermitRow) (request_hash : string)
    (trusted_now : datetime) : M permit_lineage :=
  match last attempt_rows with
  | None => blocked "CANCEL_TARGET_NOT_FOUND"
  | Some latest =>
      '(target_attempt, superseded) ← cancel_target attempt_rows permit_rows latest trusted_now;
      target_permit ← _creation_permit target_attempt (with_permit superseded permit_rows);
      when negb (String.eqb (pm_state target_permit) "CONSUMED")
      then_ blocked "PREDECESSOR_PERMIT_UNRESOLVED";;
      let stale := match superseded with Some permit => [permit] | None => [] end in
      match prior_generation with
      | Some prior =>
          if String.eqb (pm_state prior) "PREPARED" then
            expired ← _expire_prepared_generation prior trusted_now request_hash;
            Ok (mk_lineage (Some (pm_permit_id prior)) (Some target_attempt) None
                  (stale ++ [expired])%list [])
          else if String.eqb (pm_state prior) "CONSUMED" then
            _ ← _verify_consumed_cancel_retry prior target_attempt attempt_rows observation_rows
                  (network_call_horizon s);
            Ok (mk_lineage (Some (pm_permit_id prior)) (Some target_attempt) None stale [])
          else blocked "CANCEL_PERMIT_REAUTHORIZATION_NOT_PROVEN"
      | None =>
          Ok (mk_lineage (Some (pm_permit_id (default target_permit superseded)))
                (Some target_attempt) None stale [])
      end
  end.

(** ** The permit *)

(** [matching_permits[-1]] *)
Definition prior_generation_of (purpose : ReconciliationPurpose) (ordinal : Z)
    (permit_rows : list BrokerMutationPermitRow) : option BrokerMutationPermitRow :=
  last (List.filter (fun row => String.eqb (pm_mutation_kind row) (enum_value purpose)
                                && (pm_attempt_ordinal row =? ordinal)) permit_rows).

Definition next_generation (prior_generation : option BrokerMutationPermitRow) : Z :=
  match prior_generation with Some prior => pm_permit_generation prior + 1 | None => 1 end.

Definition permit_id_of (reconciliation_hash : string) (generation : Z) : uuid :=
  uuid5 NAMESPACE_URL
    ("alphadecay:broker-permit:" ++ reconciliation_hash ++ ":" ++ str_of_Z generation).

Definition ttl_of (s : settings) (purpose : ReconciliationPurpose) : timedelta :=
  match purpose with REPLACE | CANCEL => retryable_permit_ttl s | _ => permit_ttl s end.

(** [claim_token] is the token of the claimed intent. *)
Definition new_permit (intent : ExecutionIntentRow) (claim_token : uuid)
    (evaluated : WholeAccountReconciliation) (purpose : ReconciliationPurpose)
    (attempt : OrderAttempt) (generation : Z) (lg : permit_lineage) (issued_at expires_at : datetime)
    : BrokerMutationPermit :=
  {| bp_permit_id := permit_id_of (wr_reconciliation_hash evaluated) generation;
     bp_reconciliation_id := wr_reconciliation_id evaluated; bp_intent_id := ir_intent_id intent;
     bp_intent_digest := ir_intent_digest intent; bp_claim_token := claim_token;
     bp_claim_generation := ir_claim_generation intent;
     bp_execution_epoch := ir_execution_epoch intent; bp_mutation_kind := purpose;
     bp_attempt_ordinal := oa_ordinal attempt; bp_generation := generation;
     bp_predecessor_permit_id := lg_predecessor lg;
     bp_request_hash := ex_request_hash (wr_expectation evaluated);
     bp_target_client_order_id := option_map at_client_order_id (lg_target lg);
     bp_target_provider_order_id := target ← lg_target lg; at_provider_order_id target;
     bp_issued_at := issued_at; bp_expires_at := expires_at; bp_state := "PREPARED";
     bp_dispatch_nonce := None; bp_dispatch_acquired_at := None; bp_consumed_at := None;
     bp_outcome_hash := None;
     bp_limit_price := Some (default (ir_minimum_limit intent) (oa_limit_price attempt));
     bp_quote_hash := oa_quote_hash attempt;
     bp_quote_source_timestamps := oa_quote_source_timestamps attempt;
     bp_quote_retrieved_at := oa_quote_retrieved_at attempt;
     bp_timing_authority_at := oa_timing_authority_at attempt;
     bp_prior_request_hash := oa_prior_request_hash attempt |}.

Definition new_attempt_row (attempt : OrderAttempt) (permit_id : uuid) (replaces_id : option uuid)
    : OrderAttemptRow :=
  {| at_attempt_id := _attempt_id (oa_intent_id attempt) (oa_ordinal attempt);
     at_broker_permit_id := Some permit_id; at_execution_intent_id := oa_intent_id attempt;
     at_attempt_ordinal := oa_ordinal attempt; at_client_order_id := oa_client_order_id attempt;
     at_provider_order_id := oa_provider_order_id attempt; at_state := oa_state attempt;
     at_request_hash := oa_request_hash attempt; at_limit_price := oa_limit_price attempt;
     at_quote_hash := oa_quote_hash attempt;
     at_quote_source_timestamps := map dt_isoformat (oa_quote_source_timestamps attempt);
     at_quote_retrieved_at := oa_quote_retrieved_at attempt;
     at_timing_authority_at := oa_timing_authority_at attempt;
     at_prior_request_hash := oa_prior_request_hash attempt; at_replaces_attempt_id := replaces_id;
     at_filled_quantity := oa_filled_quantity attempt; at_quantity := oa_quantity attempt;
     at_fill_cash_flow := oa_fill_cash_flow attempt |}.

Definition lineage_of (s : settings) (purpose : ReconciliationPurpose) (attempt : OrderAttempt)
    (attempt_rows : list OrderAttemptRow) (permit_rows : list BrokerMutationPermitRow)
    (observation_rows : list AttemptObservationRow) (request_hash : string) (trusted_now : datetime)
    : M permit_lineage :=
  let prior_generation := prior_generation_of purpose (oa_ordinal attempt) permit_rows in
  match purpose with
  | SUBMIT => submit_lineage attempt attempt_rows prior_generation request_hash trusted_now
  | REPLACE => replace_lineage attempt attempt_rows permit_rows prior_generation trusted_now
  | CANCEL => cancel_lineage s attempt_rows permit_rows observation_rows prior_generation
                request_hash trusted_now
  | BASELINE_INITIALIZATION => blocked "BASELINE_INITIALIZATION_IS_NOT_BROKER_MUTATION"
  end.

(** The permit and the attempt it creates are written with the rows that change. *)
Definition issue_permit (permit : BrokerMutationPermit) (attempt : OrderAttempt) (lg : permit_lineage)
    : txn unit :=
  _ ← each_row save_permit (lg_permits lg);
  _ ← each_row save_attempt (lg_attempts lg);
  _ ← insert_row db_permits set_db_permits (bp_permit_id permit) (_permit_row permit);
  _ ← match lg_create lg with
      | Some replaces_id =>
          insert_row db_attempts set_db_attempts (_attempt_id (oa_intent_id attempt) (oa_ordinal attempt))
            (new_attempt_row attempt (bp_permit_id permit) replaces_id)
      | None => mret tt
      end;
  flush.

(** ** The preparation *)

(** A replacement gets the time of the preparation, unless it is authorised again as it
    was persisted. *)
Definition prepared_replacement (intent : ExecutionIntentRow) (attempt_rows : list OrderAttemptRow)
    (permit_rows : list BrokerMutationPermitRow) (attempt : OrderAttempt) (trusted_now : datetime)
    : M OrderAttempt :=
  _ ← _validate_replacement_attempt intent attempt_rows attempt None;
  let persisted_reauthorization :=
    match last attempt_rows with
    | Some latest => (at_attempt_ordinal latest =? oa_ordinal attempt)
                     && String.eqb (at_state latest) "PREPARED"
    | None => false
    end in
  attempt ← (if persisted_reauthorization then Ok attempt
             else _replacement_with_timing intent attempt trusted_now);
  _ ← _validate_replacement_attempt intent attempt_rows attempt (Some trusted_now);
  _ ← _validate_replacement_due attempt_rows permit_rows attempt;
  Ok attempt.

(** The evidence that locks the account instead of ending the preparation. *)
Definition evidence_mismatch (e : exn) : bool :=
  match e with
  | ExecutionBlocked code | ExecutionPending code =>
      one_of code ["ATTEMPT_ACTIVITY_EVIDENCE_MISMATCH"; "KNOWN_ACTIVITY_MISSING"]
  | _ => false
  end.

Definition unsafe_reason (evaluated : WholeAccountReconciliation) : string :=
  if bool_decide (ASSIGNMENT_SUSPECTED ∈ wr_block_codes evaluated)
  then "ASSIGNMENT_SUSPECTED" else "RECONCILIATION_MISMATCH".

(** [str(error)] of an [ExecutionBlocked] of the entry limits of a submission. *)
Definition entry_limits_refusal (s : settings) (intent : ExecutionIntentRow)
    (purpose : ReconciliationPurpose) (account : AccountRoleRow) (budget : CompetitionEntryBudgetRow)
    : M (option string) :=
  if String.eqb (ir_action intent) (enum_value EX_ENTRY) && bool_decide (purpose = SUBMIT) then
    match _validate_entry_limits (entry_limits s) (ir_policy_hash intent) (ir_approved_max_loss intent)
            (ir_quantity intent) account budget with
    | Ok _ => Ok None
    | Raise (ExecutionBlocked code) | Raise (ExecutionPending code) => Ok (Some code)
    | Raise e => Raise e
    end
  else Ok None.

Record mutation_rows := mk_mutation_rows {
  mr_intent : ExecutionIntentRow;
  mr_account : AccountRoleRow;
  mr_budget : CompetitionEntryBudgetRow;
  mr_state : AccountReconciliationStateRow;
  mr_attempts : list OrderAttemptRow;
  mr_permits : list BrokerMutationPermitRow;
  mr_observations : list AttemptObservationRow;
}.

(** The rows of the claim, under its fence, with an origin that is valid at [origin_at] of
    the permits and the time. *)
Definition mutation_rows_of (claim : ExecutionIntent) (clock : datetime) (locked_refused : bool)
    (origin_at : list BrokerMutationPermitRow -> datetime -> M datetime)
    : txn (mutation_rows * datetime) :=
  intent ← select (fun db => db_intents db !! ei_intent_id claim);
  intent ← required KeyError intent;
  account ← select (fun db => db_accounts db !! ir_account_role intent);
  budget ← select (fun db => db_budgets db !! ir_account_role intent);
  account ← required (ExecutionBlocked "ACCOUNT_NOT_REGISTERED") account;
  budget ← required (ExecutionBlocked "ACCOUNT_NOT_REGISTERED") budget;
  _ ← perform (_verify_claim_fence intent account claim);
  _ ← refuse (locked_refused && ar_execution_locked account) "ACCOUNT_EXECUTION_LOCKED";
  trusted_now ← perform (_trusted_now clock);
  permit_rows ← select (permit_rows_of (ir_intent_id intent));
  at_ ← perform (origin_at permit_rows trusted_now);
  authorized ← select_m (_intent_from_row intent);
  _ ← select_m (fun db => _validate_origin db authorized at_);
  baseline ← submission_baseline (ir_account_role intent);
  _ ← refuse (String.eqb (ir_account_role intent) (enum_value SUBMISSION)
              && match baseline with Some row => bl_contaminated row | None => true end)
        "SUBMISSION_BASELINE_INVALID";
  attempt_rows ← select (attempt_rows_of (ir_intent_id intent));
  state ← current_state (ir_account_role intent);
  observation_rows ← select (observation_rows_of (ir_intent_id intent));
  mret (mk_mutation_rows intent account budget state attempt_rows permit_rows observation_rows,
        trusted_now).

(** The account is locked and no permit is issued. *)
Definition refuse_and_latch (account : AccountRoleRow) (reason : string) (trusted_now : datetime)
    (lock_id : uuid) (reconciliation : WholeAccountReconciliation) : txn BrokerMutationPreparation :=
  _ ← latch account reason trusted_now lock_id;
  _ ← flush;
  mret (mk_BrokerMutationPreparation reconciliation None None).

(** The reconciliation is safe: the next generation of the permit. *)
Definition issue (s : settings) (r : mutation_rows) (purpose : ReconciliationPurpose)
    (attempt : OrderAttempt) (evaluated : WholeAccountReconciliation) (trusted_now : datetime)
    : txn BrokerMutationPreparation :=
  lg ← perform (lineage_of s purpose attempt (mr_attempts r) (mr_permits r) (mr_observations r)
                  (ex_request_hash (wr_expectation evaluated)) trusted_now);
  expires_at ← perform (dt_add trusted_now (ttl_of s purpose));
  claim_token ← required (ExecutionBlocked "CLAIM_FENCE_MISMATCH") (ir_claim_token (mr_intent r));
  let generation := next_generation (prior_generation_of purpose (oa_ordinal attempt) (mr_permits r)) in
  let permit := new_permit (mr_intent r) claim_token evaluated purpose attempt generation lg
                  trusted_now expires_at in
  _ ← issue_permit permit attempt lg;
  mret (mk_BrokerMutationPreparation evaluated (Some permit) (Some attempt)).

(** [clock] is the first reading of the clock and [clock'] the second; [lock_id] is the
    identifier of a lock, if one is made. *)
Definition preparation (s : settings) (reconciliation : WholeAccountReconciliation)
    (attempt : OrderAttempt) (claim : ExecutionIntent) (clock clock' : datetime) (lock_id : uuid)
    : txn BrokerMutationPreparation :=
  '(r, _) ← mutation_rows_of claim clock true (fun _ trusted_now => Ok trusted_now);
  let intent := mr_intent r in
  trusted_now ← perform (_trusted_now clock');
  let purpose := ex_purpose (wr_expectation reconciliation) in
  let sweep := wr_sweep reconciliation in
  attempt ← perform (if decide (purpose = REPLACE) then
                       prepared_replacement intent (mr_attempts r) (mr_permits r) attempt trusted_now
                     else Ok attempt);
  let account := with_equity (mr_account r) (ao_equity (sw_final_account sweep)) in
  _ ← save_account account;
  match _reconciliation_expectation_from_rows intent (mr_state r) purpose attempt (mr_attempts r)
          (Some (sw_activities sweep)) with
  | Raise e =>
      if evidence_mismatch e
      then refuse_and_latch account "RECONCILIATION_MISMATCH" trusted_now lock_id reconciliation
      else raise e
  | Ok expectation =>
      evaluated ← perform (evaluate sweep expectation trusted_now);
      _ ← add_reconciliation evaluated;
      if negb (wr_safe evaluated)
      then refuse_and_latch account (unsafe_reason evaluated) trusted_now lock_id evaluated
      else
        refusal ← perform (entry_limits_refusal s intent purpose account (mr_budget r));
        match refusal with
        | Some reason => refuse_and_latch account reason trusted_now lock_id evaluated
        | None => issue s r purpose attempt evaluated trusted_now
        end
  end.

Definition prepare_broker_mutation (s : settings) (reconciliation : WholeAccountReconciliation)
    (attempt : OrderAttempt) (claim : ExecutionIntent) (clock clock' : datetime) (lock_id : uuid)
    (db : database) : database * M BrokerMutationPreparation :=
  integrity_blocks "BROKER_MUTATION_PREPARATION_CONFLICT"
    (transaction (preparation s reconciliation attempt claim clock clock' lock_id) db).
