(* ===== verification/SqlFinalize.v ===== *)
(** * The end of an execution

    [SQLAlchemyExecutionRepository.finalize_execution_authorized]: the final comparison of
    the account with what the attempts explain, the certificate of the execution, the
    settlement of the entry budget and the next state of the account. *)

From Stdlib Require Import ZArith Lia String Ascii List Bool.
From stdpp Require Import base strings gmap option tactics list.
From S2P Require Import Prelude PyText PyDict PyDecimal PyTime PyHash PyParse Contracts Exposure ExecModels OrderLimits OrderStatus Identity Finalization ExecExposure ReconciliationData Reconciliation Permits Memory SqlSchema SqlCodec SqlRows SqlLookups SqlExpectation SqlOrigin SqlPrepare.

#[local] Open Scope string_scope.
#[local] Open Scope Z_scope.

(** ** Certificates *)

Definition _execution_certificate_row (value : ExecutionCertificate) : ExecutionCertificateRow :=
  {| xr_certificate_id := xc_certificate_id value; xr_execution_intent_id := xc_intent_id value;
     xr_entry_approval_id := xc_entry_approval_id value;
     xr_assessment_certificate_id := xc_assessment_certificate_id value;
     xr_execution_status := xc_execution_status value; xr_attempt_ids := xc_attempt_ids value;
     xr_actual_exposure := _exposure_to_json (xc_actual_exposure value);
     xr_reconciliation_checks := xc_reconciliation_checks value;
     xr_created_at := xc_created_at value; xr_reconciliation_id := xc_reconciliation_id value;
     xr_reconciliation_hash := xc_reconciliation_hash value;
     xr_last_observation_hash := xc_last_observation_hash value |}.

(** [replace(certificate, ...)], whose constructor runs again. *)
Definition with_provenance (c : ExecutionCertificate) (evaluated : WholeAccountReconciliation)
    (last_observation_hash : string) : M ExecutionCertificate :=
  make_ExecutionCertificate
    {| xc_certificate_id := xc_certificate_id c; xc_intent_id := xc_intent_id c;
       xc_entry_approval_id := xc_entry_approval_id c;
       xc_assessment_certificate_id := xc_assessment_certificate_id c;
       xc_execution_status := xc_execution_status c; xc_attempt_ids := xc_attempt_ids c;
       xc_actual_exposure := xc_actual_exposure c;
       xc_reconciliation_checks := xc_reconciliation_checks c; xc_created_at := xc_created_at c;
       xc_reconciliation_id := Some (wr_reconciliation_id evaluated);
       xc_reconciliation_hash := Some (wr_reconciliation_hash evaluated);
       xc_last_observation_hash := Some last_observation_hash |}.

Definition with_exposure (c : ExecutionCertificate) (actual_exposure : option GreekExposure)
    : M ExecutionCertificate :=
  make_ExecutionCertificate
    {| xc_certificate_id := xc_certificate_id c; xc_intent_id := xc_intent_id c;
       xc_entry_approval_id := xc_entry_approval_id c;
       xc_assessment_certificate_id := xc_assessment_certificate_id c;
       xc_execution_status := xc_execution_status c; xc_attempt_ids := xc_attempt_ids c;
       xc_actual_exposure := actual_exposure;
       xc_reconciliation_checks := xc_reconciliation_checks c; xc_created_at := xc_created_at c;
       xc_reconciliation_id := xc_reconciliation_id c;
       xc_reconciliation_hash := xc_reconciliation_hash c;
       xc_last_observation_hash := xc_last_observation_hash c |}.

(** A certificate that names a reconciliation names this one. *)
Definition provenance_mismatch (certificate : ExecutionCertificate)
    (evaluated : WholeAccountReconciliation) (last_observation_hash : string) : bool :=
  (not_null (xc_reconciliation_id certificate) || not_null (xc_reconciliation_hash certificate)
   || not_null (xc_last_observation_hash certificate))
  && negb (bool_decide (xc_reconciliation_id certificate = Some (wr_reconciliation_id evaluated))
           && bool_decide (xc_reconciliation_hash certificate = Some (wr_reconciliation_hash evaluated))
           && bool_decide (xc_last_observation_hash certificate = Some last_observation_hash)).

(** ** The budget *)

(** The intent and the budget after an execution. *)
Definition _apply_budget_finalization (limits : option EntryBudgetLimits) (intent : ExecutionIntentRow)
    (budget : CompetitionEntryBudgetRow) (account : AccountRoleRow) (has_fill : bool)
    : M (CompetitionEntryBudgetRow * bool) :=
  let consumed := has_fill || ir_first_fill_consumed intent in
  if String.eqb (ir_action intent) (enum_value EX_ENTRY) then
    when negb (bool_decide (bg_reserved_intent_id budget = Some (ir_intent_id intent)))
    then_ blocked "ENTRY_RESERVATION_MISSING";;
    when negb (bg_reserved_risk budget ==. ir_approved_max_loss intent)
    then_ blocked "ENTRY_RESERVATION_RISK_MISMATCH";;
    if has_fill then
      _ ← _validate_entry_limits limits (ir_policy_hash intent) (ir_approved_max_loss intent)
            (ir_quantity intent) account budget;
      gross ← dadd (bg_gross_approved_risk budget) (bg_reserved_risk budget);
      Ok (mk_CompetitionEntryBudgetRow (bg_account_role budget) (bg_entries_used budget + 1) gross
            None (Dint 0), consumed)
    else Ok (budget_with_reservation budget None (Dint 0), consumed)
  else Ok (budget, consumed).

(** ** The next state of the account *)

Definition state_row (next : AccountReconciliationState) (sequence : Z) (baseline_id : uuid)
    (predecessor reconciliation permit observation : option uuid) (request_hash : option string)
    : AccountReconciliationStateRow :=
  {| st_state_id := rs_state_id next; st_account_role := enum_value (rs_account_role next);
     st_sequence := sequence; st_account_fingerprint := rs_account_fingerprint next;
     st_baseline_id := baseline_id; st_baseline_captured_at := rs_baseline_captured_at next;
     st_accepted_at := rs_accepted_at next; st_expected_cash := rs_expected_cash next;
     st_expected_positions := map _inventory_to_json (rs_expected_positions next);
     st_expected_open_orders := map _open_order_to_json (rs_expected_open_orders next);
     st_known_activities := map _activity_to_json (rs_known_activities next);
     st_activity_complete_through := rs_activity_complete_through next;
     st_resolved_activity_hashes := rs_resolved_activity_hashes next;
     st_predecessor_state_id := predecessor; st_authority_reconciliation_id := reconciliation;
     st_authority_permit_id := permit; st_authority_observation_id := observation;
     st_authority_permit_request_hash := request_hash; st_transition_hash := None;
     st_state_hash := rs_state_hash next |}.

(** The known activities are those of the sweep. *)
Definition next_state (intent : ExecutionIntentRow) (state : AccountReconciliationStateRow)
    (evaluated : WholeAccountReconciliation) (trusted_now : datetime) : M AccountReconciliationState :=
  account_role ← member_of (ir_account_role intent);
  let expectation := wr_expectation evaluated in
  make_AccountReconciliationState account_role (st_account_fingerprint state)
    (_utc (st_baseline_captured_at state)) trusted_now (ex_expected_cash expectation)
    (ex_expected_positions expectation) (ex_expected_open_orders expectation)
    (sw_activities (wr_sweep evaluated))
    (pe_visibility_complete_through (sw_activity_pagination (wr_sweep evaluated)))
    (ex_resolved_activity_hashes expectation).

(** ** The finalisation *)

(** [.order_by(dispatch_acquired_at).limit(1)] *)
Definition first_dispatch (permit_rows : list BrokerMutationPermitRow) : option datetime :=
  fold_left (fun first row =>
    match first, pm_dispatch_acquired_at row with
    | Some first, Some acquired =>
        Some (if dt_instant acquired <? dt_instant first then acquired else first)
    | None, acquired => acquired
    | first, None => first
    end) permit_rows None.

(** The authorisation had to be valid when the first request was dispatched. *)
Definition origin_at (permit_rows : list BrokerMutationPermitRow) (trusted_now : datetime) : M datetime :=
  match first_dispatch permit_rows with
  | None => Ok trusted_now
  | Some first => dt_min trusted_now (_utc first)
  end.

Section Finalize.
(** The validated constructor of [GreekExposure]. *)
Context (validate_greeks : GreekExposure -> M GreekExposure).
Context (s : settings).

(** What the finalisation writes once the account is reconciled. *)
Definition settle (r : mutation_rows) (evaluated : WholeAccountReconciliation)
    (latest : AttemptObservationRow) (latest_permit : BrokerMutationPermitRow)
    (normalized : ExecutionCertificate) (has_fill partial : bool) (trusted_now : datetime)
    (lock_id : uuid) : txn ExecutionCertificate :=
  let intent := mr_intent r in
  let state := mr_state r in
  _ ← (if has_fill && partial
       then latch (mr_account r) "UNMANAGED_PARTIAL_EXPOSURE" trusted_now lock_id else mret tt);
  '(budget, consumed) ← perform (_apply_budget_finalization (entry_limits s) intent (mr_budget r)
                                   (mr_account r) has_fill);
  _ ← save_budget budget;
  _ ← save_intent (intent_with_state intent (ir_state intent) consumed);
  _ ← flush;
  next ← perform (next_state intent state evaluated trusted_now);
  _ ← insert_row db_states set_db_states (rs_state_id next)
        (state_row next (st_sequence state + 1) (st_baseline_id state) (Some (st_state_id state))
           (Some (wr_reconciliation_id evaluated)) (Some (pm_permit_id latest_permit))
           (Some (or_observation_id latest)) (Some (pm_request_hash latest_permit)));
  _ ← insert_row db_certificates set_db_certificates (xc_certificate_id normalized)
        (_execution_certificate_row normalized);
  _ ← save_intent (intent_with_state intent (enum_value TERMINAL) consumed);
  _ ← flush;
  mret normalized.

(** The account is locked and nothing is certified. *)
Definition latch_mismatch (account : AccountRoleRow) (reason : string) (trusted_now : datetime)
    (lock_id : uuid) : txn (option ExecutionCertificate) :=
  _ ← latch account reason trusted_now lock_id; _ ← flush; mret None.

(** The reconciliation is safe: the certificate is validated against the attempts. *)
Definition certify (r : mutation_rows) (attempts : list OrderAttemptRow)
    (evaluated : WholeAccountReconciliation) (latest : AttemptObservationRow)
    (latest_permit : BrokerMutationPermitRow) (certificate : ExecutionCertificate)
    (requested_status : string) (position_greeks : list PositionGreekObservation)
    (trusted_now : datetime) (lock_id : uuid) : txn (option ExecutionCertificate) :=
  _ ← refuse (provenance_mismatch certificate evaluated (or_observation_hash latest))
        "CERTIFICATE_RECONCILIATION_MISMATCH";
  certificate ← perform (with_provenance certificate evaluated (or_observation_hash latest));
  attempts ← perform (_attempts_from_rows attempts);
  match reconcile_actual_exposure validate_greeks (sw_final_positions (wr_sweep evaluated))
          position_greeks trusted_now with
  | Raise (ExecutionBlocked _) | Raise (ExecutionPending _) =>
      latch_mismatch (mr_account r) "RECONCILIATION_MISMATCH" trusted_now lock_id
  | Raise e => raise e
  | Ok actual_exposure =>
      certificate ← perform (with_exposure certificate actual_exposure);
      authorized ← select_m (_intent_from_row (mr_intent r));
      '(normalized, has_fill) ← perform (validate_finalization authorized attempts certificate
        (mk_Reconciliation true true true false actual_exposure) requested_status trusted_now);
      normalized ← settle r evaluated latest latest_permit normalized has_fill
                     (is_partial_status requested_status) trusted_now lock_id;
      mret (Some normalized)
  end.

Definition finalization (certificate : ExecutionCertificate)
    (reconciliation : WholeAccountReconciliation) (requested_status : string)
    (claim : ExecutionIntent) (position_greeks : list PositionGreekObservation) (clock : datetime)
    (lock_id : uuid) : txn (option ExecutionCertificate) :=
  '(r, trusted_now) ← mutation_rows_of claim clock false origin_at;
  let sweep := wr_sweep reconciliation in
  let observed := last (mr_observations r) in
  let latest_permit := latest ← observed;
    List.find (fun permit => (pm_permit_id permit =? or_permit_id latest)%N) (mr_permits r) in
  let attempts := _execution_attempt_rows (mr_attempts r) (mr_permits r) in
  match attempts ← attempts;
        _final_reconciliation_expectation_from_rows (mr_intent r) (mr_state r) attempts
          (mr_observations r) latest_permit (Some (sw_activities sweep)) with
  | Raise e =>
      if evidence_mismatch e
      then latch_mismatch (mr_account r) "RECONCILIATION_MISMATCH" trusted_now lock_id else raise e
  | Ok expectation =>
      evaluated ← perform (evaluate sweep expectation trusted_now);
      _ ← add_reconciliation evaluated;
      latest ← required IndexError observed;
      _ ← refuse (dt_lt (sw_retrieval_started_at sweep) (_utc (or_observed_at latest)))
            "FINAL_RECONCILIATION_PRECEDES_OBSERVATION";
      if negb (wr_safe evaluated)
      then latch_mismatch (mr_account r) (unsafe_reason evaluated) trusted_now lock_id
      else
        latest_permit ← required TypeError latest_permit; (* the expectation has one *)
        attempts ← perform attempts;
        certify r attempts evaluated latest latest_permit certificate requested_status
          position_greeks trusted_now lock_id
  end.

Definition finalize_execution_authorized (certificate : ExecutionCertificate)
    (reconciliation : WholeAccountReconciliation) (requested_status : string)
    (claim : ExecutionIntent) (position_greeks : list PositionGreekObservation) (clock : datetime)
    (lock_id : uuid) (db : database) : database * M (option ExecutionCertificate) :=
  integrity_blocks "CERTIFICATE_IMMUTABLE"
    (transaction (finalization certificate reconciliation requested_status claim position_greeks
                    clock lock_id) db).

Definition get_execution_certificate (certificate_id : uuid) : txn ExecutionCertificate :=
  row ← select (fun db => db_certificates db !! certificate_id);
  row ← required KeyError row;
  actual_exposure ← perform (_exposure_from_json validate_greeks (xr_actual_exposure row));
  perform (make_ExecutionCertificate
    {| xc_certificate_id := xr_certificate_id row; xc_intent_id := xr_execution_intent_id row;
       xc_entry_approval_id := xr_entry_approval_id row;
       xc_assessment_certificate_id := xr_assessment_certificate_id row;
       xc_execution_status := xr_execution_status row; xc_attempt_ids := xr_attempt_ids row;
       xc_actual_exposure := actual_exposure;
       xc_reconciliation_checks := xr_reconciliation_checks row;
       xc_created_at := _utc (xr_created_at row); xc_reconciliation_id := xr_reconciliation_id row;
       xc_reconciliation_hash := xr_reconciliation_hash row;
       xc_last_observation_hash := xr_last_observation_hash row |}).
End Finalize.

(** Executions are finalised with a whole account reconciliation only. *)
Definition finalize_execution (certificate : ExecutionCertificate) (reconciliation : Reconciliation)
    (requested_status : string) : txn ExecutionCertificate :=
  raise (ExecutionBlocked "WHOLE_ACCOUNT_RECONCILIATION_REQUIRED").
