(* ===== verification/SqlAccounts.v ===== *)
(** * Accounts, baselines and states

    How [SQLAlchemyExecutionRepository] registers an account, captures the baseline of the
    submission, contaminates it, and makes and reads the state the account is reconciled
    with. *)

From Stdlib Require Import ZArith Lia String Ascii List Bool.
From stdpp Require Import base strings gmap option tactics relations sorting list.
From S2P Require Import Prelude PyText PyDict PyDecimal PyTime PyHash PyParse Contracts ExecModels OrderLimits OrderStatus Finalization ReconciliationData Reconciliation Permits Memory SqlSchema SqlCodec SqlRows SqlOrigin SqlPrepare SqlFinalize.

#[local] Open Scope string_scope.
#[local] Open Scope Z_scope.

(** ** Accounts *)

Definition with_autonomous_enabled (account : AccountRoleRow) x : AccountRoleRow :=
  mk_AccountRoleRow (ar_role account) (ar_account_fingerprint account) (ar_equity account) x
    (ar_execution_locked account) (ar_execution_lock_reason account)
    (ar_execution_locked_at account) (ar_execution_lock_id account)
    (ar_execution_lock_generation account) (ar_recovery_pending account)
    (ar_execution_epoch account) (ar_claim_generation account).

(** The columns without a value take their defaults. *)
Definition registered_row (role : AccountRole) (fingerprint : string) (equity : decimal)
    : AccountRoleRow :=
  mk_AccountRoleRow (enum_value role) fingerprint equity false false None None None 0 false 0 0.

Definition new_budget_row (role : AccountRole) : CompetitionEntryBudgetRow :=
  mk_CompetitionEntryBudgetRow (enum_value role) 0 (Dint 0) None (Dint 0).

Definition register_account (role : AccountRole) (fingerprint : string) (equity : decimal) : txn unit :=
  _ ← perform (_ensure_executable_role role);
  row ← select (fun db => db_accounts db !! enum_value role);
  match row with
  | None =>
      assigned ← select (fun db => List.find (fun row =>
        String.eqb (ar_account_fingerprint row) fingerprint) (rows (db_accounts db)));
      _ ← refuse (not_null assigned) "ACCOUNT_FINGERPRINT_ROLE_MISMATCH";
      _ ← save_account (registered_row role fingerprint equity);
      insert_row db_budgets set_db_budgets (enum_value role) (new_budget_row role)
  | Some row =>
      _ ← refuse (negb (String.eqb (ar_account_fingerprint row) fingerprint))
            "ACCOUNT_FINGERPRINT_MISMATCH";
      save_account (with_equity row equity)
  end.

Definition set_autonomous_enabled (role : AccountRole) (enabled : bool) (actor : Actor) : txn unit :=
  _ ← perform (_ensure_executable_role role);
  _ ← refuse (negb (bool_decide (actor = OWNER))) "SCHEDULER_CANNOT_ENABLE_AUTONOMY";
  row ← select (fun db => db_accounts db !! enum_value role);
  row ← required (ExecutionBlocked "ACCOUNT_NOT_REGISTERED") row;
  save_account (with_autonomous_enabled row enabled).

(** ** Baselines *)

Definition save_baseline (row : SubmissionBaselineRow) : txn unit :=
  write (fun db => set_db_baselines db (<[bl_baseline_id row := row]> (db_baselines db))).

(** [baseline_model] is the validated constructor of the contract. *)
Definition capture_baseline (baseline_model : SubmissionBaseline -> M SubmissionBaseline)
    (role : AccountRole) (fingerprint : string) (equity : decimal) (captured_at : datetime)
    (positions_hash orders_hash activities_hash : string) (db : database)
    : database * M SubmissionBaseline :=
  let '(db, result) := transaction (
    _ ← perform (_ensure_executable_role role);
    account ← select (fun db => db_accounts db !! enum_value role);
    _ ← refuse (negb (bool_decide (role = SUBMISSION))
                || match account with
                   | Some account => negb (String.eqb (ar_account_fingerprint account) fingerprint)
                   | None => true
                   end) "BASELINE_ACCOUNT_MISMATCH";
    _ ← refuse (negb (equity ==. Dint 100000)) "BASELINE_EQUITY_INVALID";
    existing ← select (baseline_of (enum_value role));
    _ ← refuse (not_null existing) "BASELINE_ALREADY_CAPTURED";
    let id := uuid5 NAMESPACE_URL
      ("alphadecay:baseline:" ++ enum_value role ++ ":" ++ fingerprint) in
    insert_row db_baselines set_db_baselines id
      (mk_SubmissionBaselineRow id (enum_value role) fingerprint equity captured_at positions_hash
         orders_hash activities_hash false)) db in
  (db, _ ← result;
       baseline_model
         {| sb_role := SUBMISSION; sb_equity := equity; sb_captured_at := captured_at;
            sb_account_fingerprint := fingerprint; sb_positions_hash := positions_hash;
            sb_orders_hash := orders_hash; sb_activities_hash := activities_hash; sb_clean := true |}).

Definition contaminated (row : SubmissionBaselineRow) : SubmissionBaselineRow :=
  mk_SubmissionBaselineRow (bl_baseline_id row) (bl_account_role row) (bl_account_fingerprint row)
    (bl_equity row) (bl_captured_at row) (bl_positions_hash row) (bl_orders_hash row)
    (bl_activities_hash row) true.

Definition observe_account_adjustment (role : AccountRole) (activity : string) : txn unit :=
  _ ← perform (_ensure_executable_role role);
  if negb (in_states activity ADJUSTMENT_ACTIVITIES) then mret tt
  else
    row ← select (baseline_of (enum_value role));
    match row with Some row => save_baseline (contaminated row) | None => mret tt end.

Definition normalized_return (role : AccountRole) (current_equity : decimal) : txn (option decimal) :=
  _ ← perform (_ensure_executable_role role);
  baseline ← select (baseline_of (enum_value role));
  match baseline with
  | Some baseline =>
      if bl_contaminated baseline then mret None
      else
        change ← perform (dsub current_equity (bl_equity baseline));
        ratio ← perform (ddiv change (bl_equity baseline));
        result ← perform (dmul ratio (Dint 100));
        mret (Some result)
  | None => mret None
  end.

(** ** States *)

(** The account holds nothing but its initial funding. *)
Definition not_clean (account : AccountRoleRow) (baseline : SubmissionBaselineRow)
    (sweep : SweepObservation) : M bool :=
  let fingerprint := ar_account_fingerprint account in
  negb (String.eqb fingerprint (bl_account_fingerprint baseline))
  ||| negb (String.eqb (ao_account_fingerprint (sw_final_account sweep)) fingerprint)
  ||| negb (String.eqb (ao_account_fingerprint (sw_first_account sweep)) fingerprint)
  ||| negb (length (sw_first_positions sweep) =? 0)%nat
  ||| negb (length (sw_final_positions sweep) =? 0)%nat
  ||| negb (length (sw_first_open_orders sweep) =? 0)%nat
  ||| negb (length (sw_final_open_orders sweep) =? 0)%nat
  ||| match sw_activities sweep with
      | [activity] =>
          negb (bool_decide (act_activity_type activity = INITIAL_FUNDING))
          ||| not_null (act_symbol activity)
          ||| negb (match act_signed_quantity activity with
                    | Some quantity => quantity ==. bl_equity baseline
                    | None => false
                    end)
          ||| dt_lt (_utc (bl_captured_at baseline)) (act_occurred_at activity)
      | _ => true
      end.

Definition initial_expectation (account : AccountRoleRow) (baseline : SubmissionBaselineRow)
    (sweep : SweepObservation) : M ReconciliationExpectation :=
  let captured_at := _utc (bl_captured_at baseline) in
  _from_repository_state
    {| ex_purpose := BASELINE_INITIALIZATION; ex_account_role := SUBMISSION;
       ex_account_fingerprint := ar_account_fingerprint account;
       ex_expected_cash := bl_equity baseline; ex_baseline_captured_at := captured_at;
       ex_expected_positions := []; ex_expected_open_orders := [];
       ex_known_activities := sw_activities sweep; ex_resolved_activity_hashes := [];
       ex_required_activity_window_start := captured_at;
       ex_required_activity_complete_through := captured_at;
       ex_intent_id := uuid5 NAMESPACE_URL "alphadecay:submission-state-anchor";
       ex_intent_digest := zeros 64; ex_attempt_ordinal := 0; ex_request_hash := zeros 64;
       ex_expectation_hash := EmptyString |}.

Definition _validated_initial_reconciliation_state (sweep : SweepObservation) (clock : datetime)
    : txn (AccountReconciliationState * SubmissionBaselineRow) :=
  let role := enum_value SUBMISSION in
  account ← select (fun db => db_accounts db !! role);
  baseline ← select (baseline_of role);
  existing ← select (latest_state_of role);
  account ← required (ExecutionBlocked "SUBMISSION_BASELINE_REQUIRED") account;
  baseline ← required (ExecutionBlocked "SUBMISSION_BASELINE_REQUIRED") baseline;
  _ ← refuse (bl_contaminated baseline) "SUBMISSION_BASELINE_CONTAMINATED";
  _ ← refuse (not_null existing) "RECONCILIATION_STATE_ALREADY_INITIALIZED";
  _ ← refuse (not_clean account baseline sweep) "RECONCILIATION_STATE_NOT_CLEAN";
  accepted_at ← perform (_trusted_now clock);
  expectation ← perform (initial_expectation account baseline sweep);
  result ← perform (evaluate sweep expectation accepted_at);
  _ ← refuse (negb (wr_safe result)) "RECONCILIATION_STATE_UNSAFE";
  state ← perform (make_AccountReconciliationState SUBMISSION (ar_account_fingerprint account)
            (_utc (bl_captured_at baseline)) accepted_at (bl_equity baseline) [] []
            (sw_activities sweep) (_utc (bl_captured_at baseline)) []);
  mret (state, baseline).

Definition initialize_reconciliation_state (sweep : SweepObservation) (clock : datetime)
    : txn AccountReconciliationState :=
  _ ← refuse (negb (bool_decide (ao_role (sw_final_account sweep) = SUBMISSION)))
        "RECONCILIATION_STATE_ROLE_INVALID";
  '(state, baseline) ← _validated_initial_reconciliation_state sweep clock;
  _ ← insert_row db_states set_db_states (rs_state_id state)
        (state_row state 1 (bl_baseline_id baseline) None None None None None);
  _ ← flush;
  mret state.

Definition validate_reconciliation_initialization (sweep : SweepObservation) (clock : datetime)
    : txn AccountReconciliationState :=
  _ ← refuse (negb (bool_decide (ao_role (sw_final_account sweep) = SUBMISSION)))
        "RECONCILIATION_STATE_ROLE_INVALID";
  '(state, _) ← _validated_initial_reconciliation_state sweep clock;
  mret state.

Definition reconciliation_state_from_row (row : AccountReconciliationStateRow)
    : M AccountReconciliationState :=
  account_role ← member_of (st_account_role row);
  positions ← map_m _inventory_from_json (st_expected_positions row);
  open_orders ← map_m _open_order_from_json (st_expected_open_orders row);
  activities ← map_m _activity_from_json (st_known_activities row);
  state ← make_AccountReconciliationState account_role (st_account_fingerprint row)
            (_utc (st_baseline_captured_at row)) (_utc (st_accepted_at row)) (st_expected_cash row)
            positions open_orders activities (_utc (st_activity_complete_through row))
            (st_resolved_activity_hashes row);
  when negb (rs_state_id state =? st_state_id row)%N
       || negb (String.eqb (rs_state_hash state) (st_state_hash row))
  then_ blocked "RECONCILIATION_STATE_CORRUPT";;
  Ok state.

Definition get_reconciliation_state (role : AccountRole) : txn AccountReconciliationState :=
  _ ← perform (_ensure_executable_role role);
  row ← select (latest_state_of (enum_value role));
  row ← required KeyError row;
  perform (reconciliation_state_from_row row).
