(* ===== verification/SqlAuthorizations.v ===== *)
(** * Theses and authorisations

    How [SQLAlchemyExecutionRepository] stores what authorises an execution, each once and
    for all, and reads it back: the entry approvals, the versions of a thesis and the
    certificates of an assessment.  What a numeric column keeps of a decimal is the
    database's, a parameter of the insertions. *)

From Stdlib Require Import ZArith Lia String Ascii List Bool.
From stdpp Require Import base strings gmap option tactics relations list.
From S2P Require Import Prelude PyText PyDecimal PyTime PyHash Contracts Exposure ExecModels Finalization Memory SqlSchema SqlCodec SqlRows SqlOrigin.

#[local] Open Scope string_scope.
#[local] Open Scope Z_scope.

(** The statements before the session of an insertion, and the session. *)
Definition stored_once (guards : M unit) (code : string) (t : txn unit) (db : database)
    : database * M unit :=
  match guards with
  | Ok _ => integrity_blocks code (transaction t db)
  | Raise e => (db, Raise e)
  end.

Definition EXPERIMENT_LINEAGE : string := "EXPERIMENT_EXECUTION_LINEAGE_REQUIRES_AGENT_DECISION".

(** What a column [Numeric(precision, scale)] of the database keeps of a decimal: the value
    that is read back, or the exception when it does not fit. *)
Abbreviation numeric_columns := (Z -> Z -> decimal -> M decimal).

(** ** Entry approvals *)

(** The columns without a value are null. *)
Definition entry_approval_row (numeric : numeric_columns) (approval : EntryApprovalAuthorization)
    : M EntryApprovalCertificateRow :=
  approved_max_loss ← numeric 18 6 (ea_approved_max_loss approval);
  Ok
  {| ec_approval_id := ea_approval_id approval;
     ec_thesis_version_id := ea_thesis_version_id approval; ec_agent_decision_id := None;
     ec_account_role := enum_value (ea_account_role approval);
     ec_policy_hash := ea_policy_hash approval; ec_experiment_id := None;
     ec_experiment_source_definition_hash := None; ec_experiment_protocol_hash := None;
     ec_book_fingerprint := ea_book_fingerprint approval;
     ec_envelope_hash := ea_envelope_hash approval;
     ec_approved_max_loss := approved_max_loss; ec_quantity := ea_quantity approval;
     ec_valid_from := ea_valid_from approval; ec_expires_at := ea_expires_at approval;
     ec_valid := ea_valid approval |}.

Definition add_entry_approval (numeric : numeric_columns) (approval : EntryApprovalAuthorization)
    : database -> database * M unit :=
  stored_once
    (_ ← _ensure_executable_role (ea_account_role approval);
     when not_null (ea_experiment_lineage approval) then_ blocked EXPERIMENT_LINEAGE;; Ok tt)
    "AUTHORIZATION_IMMUTABLE"
    (row ← perform (entry_approval_row numeric approval);
     insert_row (fun db => db_entry_approvals (db_origins db)) set_entry_approvals
       (ea_approval_id approval) row).

(** ** Theses *)

Record FrozenThesisVersion := mk_FrozenThesisVersion {
  ft_thesis_version_id : uuid;
  ft_thesis_id : uuid;
  ft_account_role : AccountRole;
  ft_version : Z;
  ft_thesis_hash : string;
  ft_policy_hash : string;
  ft_underlying : string;
  ft_thesis_code : string;
  ft_frozen_at : datetime;
  ft_target_at : datetime;
  ft_intended_exposure : json;
  ft_exposure_limits : json;
  ft_volatility_view : string;
  ft_entry_atm_iv : decimal;
  ft_approved_max_loss : decimal;
  ft_portfolio_risk_cap : decimal;
  ft_invalidation_codes : list string;
  ft_thesis_payload : json;
  ft_created_at : datetime;
  ft_origin_hash : option string;
}.

(** [thesis.origin_hash or thesis.thesis_hash] *)
Definition origin_hash_of (thesis : FrozenThesisVersion) : string :=
  match ft_origin_hash thesis with
  | Some hash => if str_nonempty hash then hash else ft_thesis_hash thesis
  | None => ft_thesis_hash thesis
  end.

Definition thesis_row (numeric : numeric_columns) (thesis : FrozenThesisVersion) : M ThesisVersionRow :=
  entry_atm_iv ← numeric 18 8 (ft_entry_atm_iv thesis);
  approved_max_loss ← numeric 18 6 (ft_approved_max_loss thesis);
  portfolio_risk_cap ← numeric 18 6 (ft_portfolio_risk_cap thesis);
  Ok
  {| th_thesis_version_id := ft_thesis_version_id thesis; th_thesis_id := ft_thesis_id thesis;
     th_account_role := enum_value (ft_account_role thesis); th_version := ft_version thesis;
     th_origin_hash := origin_hash_of thesis; th_thesis_hash := ft_thesis_hash thesis;
     th_policy_hash := ft_policy_hash thesis; th_underlying := ft_underlying thesis;
     th_thesis_code := ft_thesis_code thesis; th_frozen_at := ft_frozen_at thesis;
     th_target_at := ft_target_at thesis; th_intended_exposure := ft_intended_exposure thesis;
     th_exposure_limits := ft_exposure_limits thesis;
     th_volatility_view := ft_volatility_view thesis;
     th_entry_atm_iv := entry_atm_iv; th_approved_max_loss := approved_max_loss;
     th_portfolio_risk_cap := portfolio_risk_cap;
     th_invalidation_codes := ft_invalidation_codes thesis;
     th_thesis_payload := ft_thesis_payload thesis; th_created_at := ft_created_at thesis |}.

Definition add_thesis_version (numeric : numeric_columns) (thesis : FrozenThesisVersion)
    : database -> database * M unit :=
  stored_once (_ensure_executable_role (ft_account_role thesis)) "THESIS_VERSION_IMMUTABLE"
    (row ← perform (thesis_row numeric thesis);
     insert_row (fun db => db_theses (db_origins db)) set_theses (ft_thesis_version_id thesis) row).

Definition _thesis_from_row (row : ThesisVersionRow) : M FrozenThesisVersion :=
  account_role ← member_of (th_account_role row);
  Ok {| ft_thesis_version_id := th_thesis_version_id row; ft_thesis_id := th_thesis_id row;
        ft_account_role := account_role; ft_version := th_version row;
        ft_thesis_hash := th_thesis_hash row; ft_policy_hash := th_policy_hash row;
        ft_underlying := th_underlying row; ft_thesis_code := th_thesis_code row;
        ft_frozen_at := _utc (th_frozen_at row); ft_target_at := _utc (th_target_at row);
        ft_intended_exposure := th_intended_exposure row;
        ft_exposure_limits := th_exposure_limits row;
        ft_volatility_view := th_volatility_view row; ft_entry_atm_iv := th_entry_atm_iv row;
        ft_approved_max_loss := th_approved_max_loss row;
        ft_portfolio_risk_cap := th_portfolio_risk_cap row;
        ft_invalidation_codes := th_invalidation_codes row;
        ft_thesis_payload := th_thesis_payload row; ft_created_at := _utc (th_created_at row);
        ft_origin_hash := Some (th_origin_hash row) |}.

Definition get_thesis_version (thesis_version_id : uuid) (db : database) : M FrozenThesisVersion :=
  match db_theses (db_origins db) !! thesis_version_id with
  | Some row => _thesis_from_row row
  | None => Raise KeyError
  end.

(** ** Assessments *)

Definition assessment_row (numeric : numeric_columns) (certificate : AssessmentCertificate)
    : M AssessmentCertificateRow :=
  approved_max_loss ← numeric 18 6 (ct_approved_max_loss certificate);
  Ok
  {| ac_certificate_id := ct_certificate_id certificate;
     ac_thesis_version_id := ct_thesis_version_id certificate; ac_agent_decision_id := None;
     ac_assessment_id := ct_assessment_id certificate;
     ac_account_role := enum_value (ct_account_role certificate);
     ac_action := enum_value (ct_action certificate);
     ac_position_fingerprint := ct_position_fingerprint certificate;
     ac_envelope_hash := ct_envelope_hash certificate;
     ac_approved_max_loss := approved_max_loss;
     ac_quantity := ct_quantity certificate;
     ac_expected_after_exposure := _exposure_to_json (ct_expected_after_exposure certificate);
     ac_policy_hash := ct_policy_hash certificate; ac_experiment_id := None;
     ac_experiment_source_definition_hash := None; ac_experiment_protocol_hash := None;
     ac_created_at := ct_created_at certificate; ac_expires_at := ct_expires_at certificate;
     ac_valid := ct_valid certificate |}.

Definition add_assessment_certificate (numeric : numeric_columns) (certificate : AssessmentCertificate)
    : database -> database * M unit :=
  stored_once
    (_ ← _ensure_executable_role (ct_account_role certificate);
     when not_null (ct_experiment_lineage certificate) then_ blocked EXPERIMENT_LINEAGE;; Ok tt)
    "CERTIFICATE_IMMUTABLE"
    (row ← perform (assessment_row numeric certificate);
     insert_row (fun db => db_assessments (db_origins db)) set_assessments
       (ct_certificate_id certificate) row).

Definition _assessment_from_row (validate_greeks : GreekExposure -> M GreekExposure)
    (row : AssessmentCertificateRow) : M AssessmentCertificate :=
  account_role ← member_of (ac_account_role row);
  action ← member_of (ac_action row);
  expected_after_exposure ← _exposure_from_json validate_greeks (ac_expected_after_exposure row);
  experiment_lineage ← optional_experiment_execution_lineage (ac_experiment_id row)
    (ac_experiment_source_definition_hash row) (ac_experiment_protocol_hash row);
  Ok {| ct_certificate_id := ac_certificate_id row; ct_assessment_id := ac_assessment_id row;
        ct_thesis_version_id := ac_thesis_version_id row; ct_account_role := account_role;
        ct_action := action; ct_position_fingerprint := ac_position_fingerprint row;
        ct_envelope_hash := ac_envelope_hash row; ct_approved_max_loss := ac_approved_max_loss row;
        ct_quantity := ac_quantity row; ct_expected_after_exposure := expected_after_exposure;
        ct_policy_hash := ac_policy_hash row; ct_created_at := _utc (ac_created_at row);
        ct_expires_at := _utc (ac_expires_at row); ct_valid := ac_valid row;
        ct_experiment_lineage := experiment_lineage |}.

Definition get_assessment_certificate (validate_greeks : GreekExposure -> M GreekExposure)
    (certificate_id : uuid) (db : database) : M AssessmentCertificate :=
  match db_assessments (db_origins db) !! certificate_id with
  | Some row => _assessment_from_row validate_greeks row
  | None => Raise KeyError
  end.
