(* ===== verification/SqlPorts.v ===== *)
(** * The repository the service calls

    [SQLAlchemyExecutionRepository] as the repository port of the execution service:
    every call of the service is a transaction on the database, with the readings of its
    clock and the identifiers it draws as the environment of the call.  The operations
    that are not the service's are the upkeep of the database; a history is a sequence of
    both. *)

From Stdlib Require Import ZArith Lia String Ascii List Bool.
From stdpp Require Import base strings gmap option tactics relations list.
From S2P Require Import Prelude Program PyText PyDecimal PyTime PyHash Contracts Exposure ExecModels OrderLimits OrderStatus ReconciliationData Reconciliation Permits Memory ExecutionService SqlSchema SqlCodec SqlRows SqlLookups SqlExpectation SqlOrigin SqlPrepare SqlFinalize SqlAccounts SqlAuthorizations.

#[local] Open Scope string_scope.
#[local] Open Scope Z_scope.

(** The first and the second reading of the clock, the value of [uuid4()], and what the
    numeric columns keep of a decimal. *)
Record environment := mk_environment {
  env_clock : datetime;
  env_clock' : datetime;
  env_uuid : uuid;
  env_numeric : numeric_columns;
}.

(** A session that only reads leaves the database as it is. *)
Definition read_only {A} (t : txn A) (db : database) : database * M A := (db, reading t db).

Section Repository.
(** The validated constructors of [GreekExposure] and [SubmissionBaseline]. *)
Context (validate_greeks : GreekExposure -> M GreekExposure).
Context (baseline_model : SubmissionBaseline -> M SubmissionBaseline).
Context (s : settings).

(** The call of the port [ExecutionAuthorityRepository]; the other ports are not the
    repository's. *)
Definition call_repository (env : environment) (c : port) : option (database -> database * M (answer c)) :=
  let clock := env_clock env in
  let clock' := env_clock' env in
  let fresh := env_uuid env in
  match c with
  | ClaimIntentCall intent_id actor _ role fingerprint =>
      Some (transaction (SqlOrigin.claim_intent s intent_id actor role fingerprint clock fresh))
  | GetIntentCall intent_id => Some (read_only (SqlOrigin.get_intent intent_id))
  | NextBrokerMutation claim => Some (read_only (SqlLookups.next_broker_mutation claim clock))
  | TrustedExecutionTime claim => Some (read_only (SqlLookups.trusted_execution_time claim clock))
  | PlanBrokerMutation claim purpose replacement =>
      Some (read_only (SqlPrepare.plan_broker_mutation claim purpose replacement clock))
  | PrepareBrokerMutation reconciliation attempt claim =>
      Some (SqlPrepare.prepare_broker_mutation s reconciliation attempt claim clock clock' fresh)
  | AcquireBrokerDispatch permit_id claim =>
      Some (transaction (SqlLookups.acquire_broker_dispatch permit_id claim clock clock' fresh))
  | RecordAttemptObservation permit_id observed source claim dispatch_nonce =>
      Some (transaction (SqlLookups.record_attempt_observation s permit_id observed source claim
                           dispatch_nonce clock))
  | MarkBrokerDispatchAmbiguous permit_id dispatch_nonce claim =>
      Some (transaction (SqlLookups.mark_broker_dispatch_ambiguous permit_id dispatch_nonce claim))
  | RecordAttemptAbsence permit_id source claim =>
      Some (transaction (SqlLookups.record_attempt_absence s permit_id source claim clock fresh))
  | FinalReconciliationExpectation claim =>
      Some (read_only (SqlPrepare.final_reconciliation_expectation claim))
  | AttemptsFor intent_id => Some (read_only (SqlLookups.attempts_for intent_id))
  | ExecutionAttemptsFor intent_id => Some (read_only (SqlLookups.execution_attempts_for intent_id))
  | TargetedLookupAuthority claim =>
      Some (transaction (SqlLookups.targeted_lookup_authority s claim clock fresh))
  | RecordAttemptLookupFailure permit_id claim =>
      Some (transaction (SqlLookups.record_attempt_lookup_failure permit_id claim clock))
  | GetExecutionCertificate certificate_id =>
      Some (read_only (SqlFinalize.get_execution_certificate validate_greeks certificate_id))
  | FinalizeExecutionAuthorized certificate reconciliation requested_status claim position_greeks =>
      Some (SqlFinalize.finalize_execution_authorized validate_greeks s certificate reconciliation
              requested_status claim position_greeks clock fresh)
  | BrokerSubmit _ _ | BrokerReplace _ _ _ | BrokerCancel _ | BrokerLookup _ | CollectSweep _
  | CollectQuotes _ => None
  end.

(** ** Upkeep *)

Inductive upkeep :=
  | RegisterAccount (role : AccountRole) (fingerprint : string) (equity : decimal)
  | SetAutonomousEnabled (role : AccountRole) (enabled : bool) (actor : Actor)
  | CaptureBaseline (role : AccountRole) (fingerprint : string) (equity : decimal)
      (captured_at : datetime) (positions_hash orders_hash activities_hash : string)
  | ObserveAccountAdjustment (role : AccountRole) (activity : string)
  | InitializeReconciliationState (sweep : SweepObservation)
  | AddEntryApproval (approval : EntryApprovalAuthorization)
  | AddThesisVersion (thesis : FrozenThesisVersion)
  | AddAssessmentCertificate (certificate : AssessmentCertificate)
  | ApproveIntent (intent_id : uuid) (role : AccountRole) (envelope : OrderEnvelope)
  | ReleaseUnsubmittedClaim (intent_id : uuid)
  | ExpireUnsubmittedClaims (role : AccountRole)
  | RecoverEntryReservations.

Definition run_upkeep (env : environment) (u : upkeep) (db : database) : database :=
  match u with
  | RegisterAccount role fingerprint equity =>
      (transaction (SqlAccounts.register_account role fingerprint equity) db).1
  | SetAutonomousEnabled role enabled actor =>
      (transaction (SqlAccounts.set_autonomous_enabled role enabled actor) db).1
  | CaptureBaseline role fingerprint equity captured_at positions orders activities =>
      (SqlAccounts.capture_baseline baseline_model role fingerprint equity captured_at positions
         orders activities db).1
  | ObserveAccountAdjustment role activity =>
      (transaction (SqlAccounts.observe_account_adjustment role activity) db).1
  | InitializeReconciliationState sweep =>
      (transaction (initialize_reconciliation_state sweep (env_clock env)) db).1
  | AddEntryApproval approval => 
      (SqlAuthorizations.add_entry_approval (env_numeric env) approval db).1
  | AddThesisVersion thesis => 
      (SqlAuthorizations.add_thesis_version (env_numeric env) thesis db).1
  | AddAssessmentCertificate certificate =>
      (SqlAuthorizations.add_assessment_certificate (env_numeric env) certificate db).1
  | ApproveIntent intent_id role envelope => (SqlOrigin.approve_intent intent_id role envelope db).1
  | ReleaseUnsubmittedClaim intent_id =>
      (transaction (SqlOrigin.release_unsubmitted_claim intent_id) db).1
  | ExpireUnsubmittedClaims role =>
      (transaction (expired_unsubmitted_claims role true (env_clock env)) db).1
  | RecoverEntryReservations => (transaction SqlOrigin.recover_entry_reservations db).1
  end.

(** One operation on the database. *)
Inductive repository_step (db : database) : database -> Prop :=
  | call_step env c run : call_repository env c = Some run -> repository_step db (run db).1
  | upkeep_step env u : repository_step db (run_upkeep env u db).

(** A history of operations. *)
Definition history : database -> database -> Prop := rtc repository_step.
End Repository.
