(* ===== verification/SqlFacts.v ===== *)
(** * Facts on transactions

    How to take apart a transaction that returned, and the two kinds of transactions the
    proofs distinguish: those that leave the permits alone, and those that only read. *)

From Stdlib Require Import ZArith Lia String Ascii List Bool.
From stdpp Require Import base strings gmap option tactics relations list.
From S2P Require Import Prelude PyText PyDecimal PyTime PyHash ExecModels Finalization SqlSchema SqlRows SqlOrigin.

#[local] Open Scope string_scope.
#[local] Open Scope Z_scope.

(** ** Inversion *)

Section Inversion.
Context {A B : Type}.
Implicit Types db : database.

Lemma txn_bind_ok (t : txn A) (f : A -> txn B) db b db' :
  (t ≫= f) db = Ok (b, db') <-> exists a db1, t db = Ok (a, db1) /\ f a db1 = Ok (b, db').
Proof.
  change ((t ≫= f) db) with (match t db with Ok (a, db1) => f a db1 | Raise e => Raise e end).
  destruct (t db) as [[a db1]|e]; split.
  - intros H. by exists a, db1.
  - by intros (a' & db1' & [= <- <-] & H).
  - done.
  - by intros (a' & db1' & [=] & H).
Qed.

Lemma txn_ret_ok (a b : A) db db' : (mret a : txn A) db = Ok (b, db') <-> b = a /\ db' = db.
Proof. split; [by intros [= <- <-]|by intros [-> ->]]. Qed.

Lemma perform_ok (m : M A) db a db' : perform m db = Ok (a, db') <-> m = Ok a /\ db' = db.
Proof. unfold perform. destruct m; cbn; split; [by intros [= <- <-]|by intros [[= <-] ->]|done|by intros []]. Qed.

Lemma select_ok (q : database -> A) db a db' : select q db = Ok (a, db') <-> a = q db /\ db' = db.
Proof. unfold select. split; [by intros [= <- <-]|by intros [-> ->]]. Qed.

Lemma select_m_ok (q : database -> M A) db a db' : select_m q db = Ok (a, db') <-> q db = Ok a /\ db' = db.
Proof. unfold select_m. destruct (q db); cbn; split; [by intros [= <- <-]|by intros [[= <-] ->]|done|by intros []]. Qed.

Lemma raise_ok e db (a : A) db' : raise e db = Ok (a, db') <-> False.
Proof. by split. Qed.

Lemma required_ok e (v : option A) db a db' : required e v db = Ok (a, db') <-> v = Some a /\ db' = db.
Proof. destruct v; cbn; split; [by intros [= <- <-]|by intros [[= <-] ->]|done|by intros []]. Qed.
End Inversion.

Lemma write_ok w db db' u : write w db = Ok (u, db') <-> db' = w db.
Proof. unfold write. destruct u. split; [by intros [= <-]|by intros ->]. Qed.

Lemma refuse_ok c code db u db' : refuse c code db = Ok (u, db') <-> c = Ok false /\ db' = db.
Proof.
  unfold refuse. destruct u. rewrite perform_ok, guard_blocked_ok. intuition.
Qed.

Lemma flush_ok db u db' : flush db = Ok (u, db') <-> schema_ok db = true /\ db' = db.
Proof. unfold flush. destruct u, (schema_ok db); split; [by intros [= <-]|by intros [_ ->]|done|by intros []]. Qed.

Lemma insert_row_ok {K R} `{Countable K} (table : database -> gmap K R) set_table key row db u db' :
  insert_row table set_table key row db = Ok (u, db') <->
  table db !! key = None /\ db' = set_table db (<[key := row]> (table db)).
Proof.
  unfold insert_row. destruct u, (table db !! key); split; [done|by intros []|by intros [= <-]|by intros [_ ->]].
Qed.

Create Rewrite HintDb txn.
#[export] Hint Rewrite @txn_bind_ok @txn_ret_ok @perform_ok @select_ok @select_m_ok @raise_ok @required_ok
  write_ok refuse_ok flush_ok @insert_row_ok : txn.

(** One step of a transaction that returned. *)
Ltac txn_step :=
  match goal with
  | H : exists _, _ |- _ => destruct H
  | H : _ /\ _ |- _ => destruct H
  | H : False |- _ => destruct H
  | H : ?x = ?y |- _ => is_var x; subst x
  | H : ?x = ?y |- _ => is_var y; subst y
  | H : mbind _ _ _ = Ok _ |- _ => apply txn_bind_ok in H
  | H : mret _ _ = Ok _ |- _ => apply txn_ret_ok in H
  | H : perform _ _ = Ok _ |- _ => apply perform_ok in H
  | H : select _ _ = Ok _ |- _ => apply select_ok in H
  | H : select_m _ _ = Ok _ |- _ => apply select_m_ok in H
  | H : raise _ _ = Ok _ |- _ => destruct (proj1 (raise_ok _ _ _ _) H)
  | H : required _ _ _ = Ok _ |- _ => apply required_ok in H
  | H : write _ _ = Ok _ |- _ => apply write_ok in H
  | H : refuse _ _ _ = Ok _ |- _ => apply refuse_ok in H
  | H : flush _ = Ok _ |- _ => apply flush_ok in H
  | H : insert_row _ _ _ _ _ = Ok _ |- _ => apply insert_row_ok in H
  | H : (let '(_, _) := ?x in _) _ = Ok _ |- _ => destruct x
  end.
Ltac inv_txn := repeat txn_step.

Lemma transaction_ok {A} (t : txn A) db db' a :
  transaction t db = (db', Ok a) <-> t db = Ok (a, db') /\ schema_ok db' = true.
Proof.
  unfold transaction. destruct (t db) as [[b db1]|e]; [destruct (schema_ok db1) eqn:E|]; split.
  - intros [= -> ->]. done.
  - by intros [[= -> ->] _].
  - done.
  - intros [[= -> ->] H]. congruence.
  - done.
  - by intros [].
Qed.

(** A transaction that does not return leaves the database. *)
Lemma transaction_db {A} (t : txn A) db :
  (transaction t db).1 = db \/ exists a db', t db = Ok (a, db') /\ (transaction t db).1 = db' /\ schema_ok db' = true.
Proof.
  unfold transaction. destruct (t db) as [[b db1]|e]; [|by left].
  destruct (schema_ok db1) eqn:E; [|by left]. right. by exists b, db1.
Qed.

(** ** Transactions that keep the permits *)

(** The table of the permits is the same afterwards. *)
Definition permits_same {A} (t : txn A) : Prop :=
  forall db a db', t db = Ok (a, db') -> db_permits db' = db_permits db.

Lemma same_bind {A B} (t : txn A) (f : A -> txn B) :
  permits_same t -> (forall a, permits_same (f a)) -> permits_same (t ≫= f).
Proof. intros Ht Hf db b db' H. inv_txn. rewrite (Hf _ _ _ _ H0). by apply (Ht _ _ _ H). Qed.
Lemma same_ret {A} (a : A) : permits_same (mret a : txn A).
Proof. intros db b db' H. by inv_txn. Qed.
Lemma same_perform {A} (m : M A) : permits_same (perform m).
Proof. intros db b db' H. by inv_txn. Qed.
Lemma same_select {A} (q : database -> A) : permits_same (select q).
Proof. intros db b db' H. by inv_txn. Qed.
Lemma same_select_m {A} (q : database -> M A) : permits_same (select_m q).
Proof. intros db b db' H. by inv_txn. Qed.
Lemma same_raise {A} e : permits_same (@raise A e).
Proof. by intros db b db' H. Qed.
Lemma same_required {A} e (v : option A) : permits_same (required e v).
Proof. intros db b db' H. by inv_txn. Qed.
Lemma same_refuse c code : permits_same (refuse c code).
Proof. intros db b db' H. by inv_txn. Qed.
Lemma same_flush : permits_same flush.
Proof. intros db b db' H. by inv_txn. Qed.
Lemma same_write w : (forall db, db_permits (w db) = db_permits db) -> permits_same (write w).
Proof. intros Hw db b db' H. inv_txn. apply Hw. Qed.
Lemma same_insert {K R} `{Countable K} (table : database -> gmap K R) set_table key row :
  (forall db x, db_permits (set_table db x) = db_permits db) ->
  permits_same (insert_row table set_table key row).
Proof. intros Hw db b db' H'. inv_txn. apply Hw. Qed.
Lemma same_each {A} (f : A -> txn unit) l : (forall a, permits_same (f a)) -> permits_same (each_row f l).
Proof. intros Hf. induction l; cbn; [apply same_ret|by apply same_bind]. Qed.

Create HintDb same discriminated.

Ltac keep_permits :=
  repeat (intros; cbn beta zeta;
    match goal with
    | |- permits_same (mbind _ _) => apply same_bind
    | |- permits_same (mret _) => apply same_ret
    | |- permits_same (perform _) => apply same_perform
    | |- permits_same (select _) => apply same_select
    | |- permits_same (select_m _) => apply same_select_m
    | |- permits_same (raise _) => apply same_raise
    | |- permits_same (required _ _) => apply same_required
    | |- permits_same (refuse _ _) => apply same_refuse
    | |- permits_same flush => apply same_flush
    | |- permits_same (write _) => apply same_write; reflexivity
    | |- permits_same (insert_row _ _ _ _) => apply same_insert; reflexivity
    | |- permits_same (each_row _ _) => apply same_each
    | |- permits_same (match ?x with _ => _ end) => destruct x
    | |- permits_same _ => solve [eauto with same]
    end).
