(* ===== verification/SqlPermits.v ===== *)
(** * The lifecycle of a permit

    No operation on the database takes a permit back: a permit is issued prepared, is
    dispatched at most once or expires, and keeps what it was issued for. *)

From Stdlib Require Import ZArith Lia String Ascii List Bool.
From stdpp Require Import base strings gmap option tactics relations sorting list.
From S2P Require Import Prelude PyText PyDecimal PyTime PyHash Contracts Exposure ExecModels OrderLimits OrderStatus Identity Finalization ReconciliationData Reconciliation Permits Memory ExecutionService SqlSchema SqlCodec SqlRows SqlLookups SqlExpectation SqlOrigin SqlPrepare SqlFinalize SqlAccounts SqlAuthorizations SqlPorts SqlFacts.

#[local] Open Scope string_scope.
#[local] Open Scope Z_scope.

(** ** The steps of a permit *)

(** No dispatch was acquired and nothing was consumed. *)
Definition undispatched (row : BrokerMutationPermitRow) : Prop :=
  pm_dispatch_nonce row = None /\ pm_dispatch_acquired_at row = None.

Inductive permit_step (row : BrokerMutationPermitRow) : BrokerMutationPermitRow -> Prop :=
  | step_dispatch nonce now :
      pm_state row = "PREPARED" -> undispatched row -> dt_lt now (_utc (pm_expires_at row)) = Ok true ->
      permit_step row (permit_with row "DISPATCHING" (Some nonce) (Some now) (pm_consumed_at row)
                         (pm_outcome_hash row))
  | step_ambiguous :
      pm_state row = "DISPATCHING" ->
      permit_step row (permit_with row "LOOKUP_ONLY" (pm_dispatch_nonce row)
                         (pm_dispatch_acquired_at row) (pm_consumed_at row) (pm_outcome_hash row))
  | step_consume now hash :
      pm_state row = "DISPATCHING" \/ pm_state row = "LOOKUP_ONLY" ->
      permit_step row (permit_with row "CONSUMED" (pm_dispatch_nonce row)
                         (pm_dispatch_acquired_at row) (Some now) (Some hash))
  | step_expire now :
      pm_state row = "PREPARED" -> permit_step row (permit_expired row now).

(** What a permit is issued for: every column that is not of its lifecycle. *)
Definition issued_for (row : BrokerMutationPermitRow) : BrokerMutationPermitRow :=
  permit_with row "" None None None None.

Lemma issued_for_with row state nonce acquired consumed outcome :
  issued_for (permit_with row state nonce acquired consumed outcome) = issued_for row.
Proof. reflexivity. Qed.

Lemma step_issued_for row row' : permit_step row row' -> issued_for row' = issued_for row.
Proof. by destruct 1. Qed.

Lemma step_id row row' : permit_step row row' -> pm_permit_id row' = pm_permit_id row.
Proof. by destruct 1. Qed.

Lemma step_from_prepared row row' : permit_step row row' -> pm_state row' <> "PREPARED".
Proof. by destruct 1. Qed.

Definition final_permit (row : BrokerMutationPermitRow) : Prop :=
  pm_state row = "CONSUMED" \/ pm_state row = "EXPIRED".

Lemma final_no_step row row' : final_permit row -> ~ permit_step row row'.
Proof. intros [E|E] H; destruct H; destruct_or?; congruence. Qed.

Lemma step_nonce row row' :
  permit_step row row' -> pm_state row <> "PREPARED" ->
  pm_dispatch_nonce row' = pm_dispatch_nonce row /\ pm_dispatch_acquired_at row' = pm_dispatch_acquired_at row.
Proof. by destruct 1. Qed.

(** ** Along a history of steps *)

Lemma steps_issued_for row row' : rtc permit_step row row' -> issued_for row' = issued_for row.
Proof. induction 1 as [|x y z H _ IH]; [done|]. by rewrite IH, (step_issued_for _ _ H). Qed.

Lemma steps_id row row' : rtc permit_step row row' -> pm_permit_id row' = pm_permit_id row.
Proof. induction 1 as [|x y z H _ IH]; [done|]. by rewrite IH, (step_id _ _ H). Qed.

Lemma steps_final row row' : final_permit row -> rtc permit_step row row' -> row' = row.
Proof. intros Hf. destruct 1 as [|x y z H]; [done|]. by destruct (final_no_step _ _ Hf H). Qed.

Lemma steps_not_prepared row row' :
  rtc permit_step row row' -> pm_state row <> "PREPARED" ->
  pm_state row' <> "PREPARED" /\ pm_dispatch_nonce row' = pm_dispatch_nonce row /\
  pm_dispatch_acquired_at row' = pm_dispatch_acquired_at row.
Proof.
  induction 1 as [|x y z H _ IH]; [done|]. intros Hx.
  destruct (IH (step_from_prepared _ _ H)) as (? & -> & ->). by destruct (step_nonce _ _ H Hx) as [-> ->].
Qed.

(** ** The table of the permits *)

Definition permits_keyed (db : database) : Prop :=
  forall id row, db_permits db !! id = Some row -> pm_permit_id row = id.

Definition prepared_permit (row : BrokerMutationPermitRow) : Prop :=
  pm_state row = "PREPARED" /\ undispatched row.

Record permits_kept (db db' : database) : Prop := mk_permits_kept {
  pk_keyed : permits_keyed db';
  pk_old : forall id row, db_permits db !! id = Some row ->
    exists row', db_permits db' !! id = Some row' /\ rtc permit_step row row';
  pk_new : forall id row', db_permits db' !! id = Some row' -> db_permits db !! id = None ->
    exists row, prepared_permit row /\ rtc permit_step row row';
}.

Lemma kept_same db db' : permits_keyed db -> db_permits db' = db_permits db -> permits_kept db db'.
Proof.
  intros Hk E. split; unfold permits_keyed; rewrite E.
  - exact Hk.
  - intros id row H. exists row. split; [done|apply rtc_refl].
  - congruence.
Qed.

Lemma permits_kept_trans db1 db2 db3 : permits_kept db1 db2 -> permits_kept db2 db3 -> permits_kept db1 db3.
Proof.
  intros [K1 O1 N1] [K2 O2 N2]. split; [done| |].
  - intros id row H. destruct (O1 _ _ H) as (row' & H' & S1). destruct (O2 _ _ H') as (row'' & H'' & S2).
    exists row''. split; [done|]. by etrans.
  - intros id row3 H3 H1. destruct (db_permits db2 !! id) as [row2|] eqn:H2; [|eauto].
    destruct (N1 _ _ H2 H1) as (row & P & S1). destruct (O2 _ _ H2) as (row3' & H3' & S2).
    exists row. split; [done|]. etrans; [exact S1|]. congruence.
Qed.

Lemma kept_save db row row' db' u :
  permits_keyed db -> db_permits db !! pm_permit_id row = Some row -> permit_step row row' ->
  save_permit row' db = Ok (u, db') -> permits_kept db db'.
Proof.
  intros Hk Hr Hs H. unfold save_permit in H. inv_txn. pose proof (step_id _ _ Hs) as E.
  split; cbn [db_permits set_db_permits].
  - intros id r. destruct (decide (pm_permit_id row' = id)) as [<-|N].
    + cbn. rewrite lookup_insert_eq. by intros [= <-].
    + cbn. rewrite lookup_insert_ne by done. apply Hk.
  - intros id r Hl. destruct (decide (pm_permit_id row' = id)) as [<-|N].
    + exists row'. rewrite lookup_insert_eq. split; [done|]. rewrite E in Hl. rewrite Hr in Hl.
      injection Hl as <-. by apply rtc_once.
    + exists r. by rewrite lookup_insert_ne by done.
  - intros id r. destruct (decide (pm_permit_id row' = id)) as [<-|N].
    + rewrite E, Hr. done.
    + rewrite lookup_insert_ne by done. congruence.
Qed.

Lemma kept_insert db row db' u :
  permits_keyed db -> prepared_permit row ->
  insert_row db_permits set_db_permits (pm_permit_id row) row db = Ok (u, db') -> permits_kept db db'.
Proof.
  intros Hk Hp H. inv_txn. split; cbn [db_permits set_db_permits].
  - intros id r. destruct (decide (pm_permit_id row = id)) as [<-|N].
    + cbn. rewrite lookup_insert_eq. by intros [= <-].
    + cbn. rewrite lookup_insert_ne by done. apply Hk.
  - intros id r Hl. exists r. rewrite lookup_insert_ne; [done|]. congruence.
  - intros id r. destruct (decide (pm_permit_id row = id)) as [<-|N].
    + rewrite lookup_insert_eq. intros [= <-] _. by exists row.
    + rewrite lookup_insert_ne by done. congruence.
Qed.

Lemma permit_rows_elem intent_id db row :
  row ∈ permit_rows_of intent_id db -> exists id, db_permits db !! id = Some row.
Proof.
  unfold permit_rows_of, where_ordered. rewrite merge_sort_Permutation.
  intros H. apply list_elem_of_In, filter_In in H as [H _]. by apply list_elem_of_In, rows_elem in H.
Qed.

Lemma permit_row_current intent_id db row :
  permits_keyed db -> row ∈ permit_rows_of intent_id db -> db_permits db !! pm_permit_id row = Some row.
Proof. intros Hk [id H]%permit_rows_elem. by rewrite (Hk _ _ H). Qed.

(** ** The operations *)

Definition keeps {A} (t : txn A) : Prop :=
  forall db a db', permits_keyed db -> t db = Ok (a, db') -> permits_kept db db'.

Lemma keeps_same {A} (t : txn A) : permits_same t -> keeps t.
Proof. intros H db a db' Hk E. apply kept_same; [done|]. by eapply H. Qed.

(** Operations that do not write a permit. *)
Lemma same_latch account reason now id : permits_same (latch account reason now id).
Proof. unfold latch, save_account. keep_permits. Qed.
Lemma same_save_intent row : permits_same (save_intent row).
Proof. unfold save_intent. keep_permits. Qed.
Lemma same_save_account row : permits_same (save_account row).
Proof. unfold save_account. keep_permits. Qed.
Lemma same_save_budget row : permits_same (save_budget row).
Proof. unfold save_budget. keep_permits. Qed.
Lemma same_save_attempt row : permits_same (save_attempt row).
Proof. unfold save_attempt. keep_permits. Qed.
Lemma same_add_observation value id : permits_same (add_observation value id).
Proof. unfold add_observation. keep_permits. Qed.
Lemma same_permit_context id claim : permits_same (permit_context id claim).
Proof. unfold permit_context. keep_permits. Qed.
Lemma same_claimed_rows claim : permits_same (claimed_rows claim).
Proof. unfold claimed_rows. keep_permits. Qed.
#[export] Hint Resolve same_latch same_save_intent same_save_account same_save_budget same_save_attempt
  same_add_observation same_permit_context same_claimed_rows : same.

Lemma same_release role id : permits_same (release_reservation role id).
Proof. unfold release_reservation. keep_permits. Qed.
Lemma same_add_reconciliation value : permits_same (add_reconciliation value).
Proof. unfold add_reconciliation. keep_permits. Qed.
Lemma same_refuse_and_latch account reason now id r : permits_same (refuse_and_latch account reason now id r).
Proof. unfold refuse_and_latch. keep_permits. Qed.
Lemma same_latch_mismatch account reason now id : permits_same (latch_mismatch account reason now id).
Proof. unfold latch_mismatch. keep_permits. Qed.
Lemma same_submission_baseline role : permits_same (submission_baseline role).
Proof. unfold submission_baseline. keep_permits. Qed.
Lemma same_current_state role : permits_same (current_state role).
Proof. unfold current_state. keep_permits. Qed.
#[export] Hint Resolve same_release same_add_reconciliation same_refuse_and_latch same_latch_mismatch
  same_submission_baseline same_current_state : same.

Lemma same_mutation_rows claim clock refused origin : permits_same (mutation_rows_of claim clock refused origin).
Proof. unfold mutation_rows_of. keep_permits. Qed.
Lemma same_latch_if_stalled c account now id : permits_same (latch_if_stalled c account now id).
Proof. unfold latch_if_stalled. keep_permits. Qed.
#[export] Hint Resolve same_mutation_rows same_latch_if_stalled : same.

Lemma same_claim s id actor role fingerprint clock token :
  permits_same (SqlOrigin.claim_intent s id actor role fingerprint clock token).
Proof. unfold SqlOrigin.claim_intent, SqlOrigin._reserve_entry. keep_permits. Qed.

Lemma same_targeted_lookup s claim clock id :
  permits_same (SqlLookups.targeted_lookup_authority s claim clock id).
Proof. unfold SqlLookups.targeted_lookup_authority, lookup_ambiguous, lookup_pending_order. keep_permits. Qed.

Lemma same_lookup_failure id claim clock : permits_same (SqlLookups.record_attempt_lookup_failure id claim clock).
Proof. unfold SqlLookups.record_attempt_lookup_failure. keep_permits. Qed.

Lemma same_absence s id source claim clock lock :
  permits_same (SqlLookups.record_attempt_absence s id source claim clock lock).
Proof. unfold SqlLookups.record_attempt_absence. keep_permits. Qed.

Lemma same_finalization validate s certificate r status claim greeks clock id :
  permits_same (finalization validate s certificate r status claim greeks clock id).
Proof. unfold finalization, certify, settle. keep_permits. Qed.

Lemma same_approval id role envelope : permits_same (approval id role envelope).
Proof. unfold approval. keep_permits. Qed.

Lemma same_register role fingerprint equity : permits_same (SqlAccounts.register_account role fingerprint equity).
Proof. unfold SqlAccounts.register_account. keep_permits. Qed.

Lemma same_set_autonomous role enabled actor :
  permits_same (SqlAccounts.set_autonomous_enabled role enabled actor).
Proof. unfold SqlAccounts.set_autonomous_enabled. keep_permits. Qed.

Lemma same_adjustment role activity : permits_same (SqlAccounts.observe_account_adjustment role activity).
Proof. unfold SqlAccounts.observe_account_adjustment, save_baseline. keep_permits. Qed.

Lemma same_initialize sweep clock : permits_same (initialize_reconciliation_state sweep clock).
Proof. unfold initialize_reconciliation_state, _validated_initial_reconciliation_state. keep_permits. Qed.

Lemma same_release_claim id : permits_same (SqlOrigin.release_unsubmitted_claim id).
Proof. unfold SqlOrigin.release_unsubmitted_claim. keep_permits. Qed.

Lemma same_expired role persist clock : permits_same (expired_unsubmitted_claims role persist clock).
Proof. unfold expired_unsubmitted_claims. keep_permits. Qed.

Lemma same_recover : permits_same SqlOrigin.recover_entry_reservations.
Proof. unfold SqlOrigin.recover_entry_reservations. keep_permits. Qed.

(** *** Acquiring a dispatch *)

Lemma permit_context_ok id claim db permit intent account db' :
  permit_context id claim db = Ok ((permit, intent, account), db') ->
  db_permits db !! id = Some permit /\ db' = db /\ _verify_claim_fence intent account claim = Ok tt /\
  db_intents db !! pm_execution_intent_id permit = Some intent /\
  db_accounts db !! ir_account_role intent = Some account.
Proof.
  unfold permit_context. intros H. inv_txn.
  repeat match goal with H : (_, _, _) = (_, _, _) |- _ => injection H as -> -> -> end.
  by repeat match goal with u : unit |- _ => destruct u end.
Qed.

Lemma dispatch_condition_ok permit intent now :
  dispatch_condition permit intent now = Ok true ->
  pm_state permit = "PREPARED" /\ undispatched permit /\ pm_consumed_at permit = None /\
  pm_outcome_hash permit = None /\ dt_lt now (_utc (pm_expires_at permit)) = Ok true /\
  Some (pm_claim_token permit) = ir_claim_token intent.
Proof.
  unfold dispatch_condition, undispatched. intros H. inv_all. zbool.
  repeat match goal with H : is_null ?x = true |- _ => destruct x; [done|clear H] end. done.
Qed.

Lemma dispatch_authority_reads permit intent clock clock' db now db' :
  dispatch_authority permit intent clock clock' db = Ok (now, db') -> db' = db.
Proof.
  unfold dispatch_authority. intros H. inv_txn.
  destruct (String.eqb (pm_mutation_kind permit) (enum_value REPLACE)); inv_txn; done.
Qed.

(** What the acquisition of a dispatch does to the permit. *)
Lemma acquire_ok id claim clock clock' nonce db permit' db' :
  SqlLookups.acquire_broker_dispatch id claim clock clock' nonce db = Ok (permit', db') ->
  exists permit now, db_permits db !! id = Some permit /\ pm_state permit = "PREPARED" /\
    undispatched permit /\ dt_lt now (_utc (pm_expires_at permit)) = Ok true /\
    let row := permit_with permit "DISPATCHING" (Some nonce) (Some now) (pm_consumed_at permit)
                 (pm_outcome_hash permit) in
    save_permit row db = Ok (tt, db') /\ _permit_from_row row = Ok permit'.
Proof.
  unfold SqlLookups.acquire_broker_dispatch. intros H. apply txn_bind_ok in H as ([[permit intent] account] & db1 & Hc & H).
  apply permit_context_ok in Hc as (Hp & -> & _).
  apply txn_bind_ok in H as (u & db1 & Hr & H). apply refuse_ok in Hr as [_ ->].
  apply txn_bind_ok in H as (now & db1 & Hd & H). apply dispatch_authority_reads in Hd as ->.
  apply txn_bind_ok in H as (updated & db1 & Hu & H). apply perform_ok in Hu as [Hu ->].
  apply txn_bind_ok in H as (u' & db1 & Hr & H). apply refuse_ok in Hr as [Hr ->].
  cbv zeta in H. apply txn_bind_ok in H as (u'' & db2 & Hs & H). apply perform_ok in H as [H ->].
  assert (updated = true) as -> by (destruct updated; [done|inv_all; done]).
  apply dispatch_condition_ok in Hu as (? & ? & _ & _ & ? & _). exists permit, now. destruct u''. done.
Qed.

Lemma keeps_acquire id claim clock clock' nonce :
  keeps (SqlLookups.acquire_broker_dispatch id claim clock clock' nonce).
Proof.
  intros db permit' db' Hk (permit & now & Hp & Hs & Hu & Hn & Hw & _)%acquire_ok.
  eapply (kept_save _ permit); [done| |by constructor|exact Hw]. by rewrite (Hk _ _ Hp).
Qed.

Lemma keeps_mark id nonce claim : keeps (SqlLookups.mark_broker_dispatch_ambiguous id nonce claim).
Proof.
  intros db permit' db' Hk H. unfold SqlLookups.mark_broker_dispatch_ambiguous in H.
  apply txn_bind_ok in H as ([[permit intent] account] & db1 & Hc & H).
  apply permit_context_ok in Hc as (Hp & -> & _). inv_txn. inv_all. zbool.
  match goal with H : save_permit _ _ = Ok _ |- _ =>
    eapply (kept_save _ permit); [done| |by apply step_ambiguous|exact H] end.
  by rewrite (Hk _ _ Hp).
Qed.

Lemma keeps_record s id observed source claim nonce clock :
  keeps (SqlLookups.record_attempt_observation s id observed source claim nonce clock).
Proof.
  intros db o db' Hk H. unfold SqlLookups.record_attempt_observation in H.
  apply txn_bind_ok in H as ([[permit intent] account] & db1 & Hc & H).
  apply permit_context_ok in Hc as (Hp & -> & _). cbv zeta in H.
  repeat match goal with
  | H : mbind _ _ _ = Ok _ |- _ => apply txn_bind_ok in H as (? & ? & ? & ?)
  end.
  repeat match goal with
  | H : refuse _ _ _ = Ok _ |- _ => apply refuse_ok in H as [_ ->]
  | H : select _ _ = Ok _ |- _ => apply select_ok in H as [_ ->]
  | H : perform _ _ = Ok _ |- _ => apply perform_ok in H as [_ ->]
  | H : required _ _ _ = Ok _ |- _ => apply required_ok in H as [_ ->]
  | H : mret _ _ = Ok _ |- _ => apply txn_ret_ok in H as [_ ->]
  end.
  assert (S : forall A (t : txn A) d a d', permits_same t -> t d = Ok (a, d') -> db_permits d' = db_permits d)
    by (intros ????? Ht Hd; by eapply Ht).
  repeat match goal with
  | H : add_observation _ _ _ = Ok _ |- _ => apply S in H; [|auto with same]
  | H : save_attempt _ _ = Ok _ |- _ => apply S in H; [|auto with same]
  end.
  match goal with H : db_permits ?d1 = db_permits db, H' : db_permits ?d2 = db_permits ?d1 |- _ =>
    assert (E : db_permits d2 = db_permits db) by congruence; assert (Hk2 : permits_keyed d2) by
     (intros i r; rewrite E; apply Hk);
    eapply permits_kept_trans; [by apply (kept_same db d2)|]
  end.
  match goal with H : (if ?b then _ else _) _ = Ok _ |- _ => destruct b eqn:Eb end.
  - match goal with H : save_permit _ _ = Ok _ |- _ =>
      eapply (kept_save _ permit); [done| |apply step_consume|exact H] end.
    + by rewrite E, (Hk _ _ Hp).
    + apply orb_true_iff in Eb as [Eb|Eb]; zbool; [by left|]. apply andb_true_iff in Eb as [Eb _]. zbool. by right.
  - inv_txn. by apply kept_same.
Qed.

(** *** Issuing a permit *)

Lemma kept_save_all l db u db' :
  permits_keyed db ->
  Forall (fun row' => exists row, db_permits db !! pm_permit_id row' = Some row /\ permit_step row row') l ->
  NoDup (map pm_permit_id l) -> each_row save_permit l db = Ok (u, db') -> permits_kept db db'.
Proof.
  revert db. induction l as [|row' l IH]; intros db Hk Hf Hn H; cbn in H; inv_txn; [by apply kept_same|].
  apply Forall_cons in Hf as [(row & Hr & Hs) Hf]. cbn in Hn. apply NoDup_cons in Hn as [Hni Hn].
  match goal with H : save_permit _ _ = Ok _, H' : each_row _ _ _ = Ok _ |- _ => rename H into Hw; rename H' into He end.
  assert (Hr' : db_permits db !! pm_permit_id row = Some row) by by rewrite <- (step_id _ _ Hs).
  pose proof (kept_save _ _ _ _ _ Hk Hr' Hs Hw) as K.
  eapply permits_kept_trans; [exact K|]. eapply IH; [apply K| |done|exact He].
  unfold save_permit in Hw. inv_txn. cbn [db_permits set_db_permits].
  rewrite Forall_forall in Hf |- *. intros r' Hin. destruct (Hf _ Hin) as (r & Hl & Hst).
  exists r. split; [|done]. rewrite lookup_insert_ne; [done|]. intros E. apply Hni.
  apply list_elem_of_fmap. by exists r'.
Qed.

(** The rows that change are permits of the intent that were prepared, at most one of
    each kind, and expire. *)
Definition expires (permits : list BrokerMutationPermitRow) (now : datetime)
    (row row' : BrokerMutationPermitRow) : Prop :=
  row ∈ permits /\ pm_state row = "PREPARED" /\ row' = permit_expired row now.

Lemma expire_ok permit now hash row' :
  _expire_prepared_generation permit now hash = Ok row' ->
  pm_request_hash permit = hash /\ pm_state permit = "PREPARED" /\
  dt_lt now (_utc (pm_expires_at permit)) = Ok false /\ row' = permit_expired permit now.
Proof. unfold _expire_prepared_generation. intros H. inv_all. by zbool. Qed.

Lemma supersede_ok permit initial now row' :
  _supersede_prepared_replacement_for_hard_cancel permit initial now = Ok row' ->
  pm_mutation_kind permit = "REPLACE" /\ pm_state permit = "PREPARED" /\ row' = permit_expired permit now /\
  exists elapsed, elapsed_since initial now = Ok elapsed /\ seconds 600 <= elapsed.
Proof.
  unfold _supersede_prepared_replacement_for_hard_cancel. intros H. inv_all. zbool.
  split_and!; [done..|]. by eexists.
Qed.

Lemma creation_permit_elem attempt permits permit :
  _creation_permit attempt permits = Ok permit ->
  permit ∈ permits /\ pm_attempt_ordinal permit = at_attempt_ordinal attempt /\
  pm_mutation_kind permit = enum_value (if at_attempt_ordinal attempt =? 0 then SUBMIT else REPLACE).
Proof.
  unfold _creation_permit. destruct (at_broker_permit_id attempt); [|done]. cbv zeta.
  match goal with |- context [List.filter ?p permits] => destruct (head (List.filter p permits)); [|done];
    destruct (last (List.filter p permits)) eqn:El; [|done] end.
  intros H. inv_all. apply last_Some_elem_of, list_elem_of_In, filter_In in El as [El Ep].
  apply list_elem_of_In in El. inv_all. by zbool.
Qed.

Lemma prior_generation_elem purpose ordinal permits prior :
  prior_generation_of purpose ordinal permits = Some prior ->
  prior ∈ permits /\ pm_mutation_kind prior = enum_value purpose /\ pm_attempt_ordinal prior = ordinal.
Proof.
  unfold prior_generation_of. intros El. apply last_Some_elem_of, list_elem_of_In, filter_In in El as [El Ep].
  apply list_elem_of_In in El. inv_all. by zbool.
Qed.

Lemma cancel_target_ok attempts permits latest now target superseded :
  cancel_target attempts permits latest now = Ok (target, superseded) ->
  match superseded with
  | Some row' => exists row, expires permits now row row' /\ pm_mutation_kind row = "REPLACE"
  | None => True
  end.
Proof.
  unfold cancel_target. destruct (second_last attempts); [|by intros [= <- <-]].
  destruct (head attempts); [|by intros [= <- <-]]. destruct (String.eqb _ _); [|by intros [= <- <-]].
  intros H. apply bind_ok in H as (stale & Hc & H). apply bind_ok in H as (initial & Hi & H).
  apply bind_ok in H as (row' & Hs & [= <- <-]). apply supersede_ok in Hs as (? & ? & -> & _).
  exists stale. split; [|done]. by apply creation_permit_elem in Hc as (? & _).
Qed.

(** The permits that change: those of the previous generation. *)
Lemma submit_lineage_permits attempt attempts prior hash now lg :
  submit_lineage attempt attempts prior hash now = Ok lg ->
  lg_permits lg = [] \/ exists p, prior = Some p /\ pm_state p = "PREPARED" /\ lg_permits lg = [permit_expired p now].
Proof.
  unfold submit_lineage. destruct attempts; intros H; inv_all; [by left|].
  destruct prior as [p|]; [|done]. inv_all.
  match goal with H : _expire_prepared_generation _ _ _ = Ok _ |- _ => apply expire_ok in H as (_ & Hs & _ & ->) end.
  right. by exists p.
Qed.

Lemma replace_lineage_permits attempt attempts permits prior now lg :
  replace_lineage attempt attempts permits prior now = Ok lg ->
  lg_permits lg = [] \/ exists p, prior = Some p /\ pm_state p = "PREPARED" /\ lg_permits lg = [permit_expired p now].
Proof.
  unfold replace_lineage. destruct (last attempts) as [latest|]; [|done]. intros H.
  apply bind_ok in H as (persisted & _ & H). destruct (_ && _).
  - destruct prior as [p|], (second_last attempts); try done. inv_all.
    match goal with H : _expire_prepared_generation _ _ _ = Ok _ |- _ => apply expire_ok in H as (_ & Hs & _ & ->) end.
    right. by exists p.
  - inv_all. by left.
Qed.

Lemma cancel_lineage_permits s attempts permits observations prior hash now lg :
  cancel_lineage s attempts permits observations prior hash now = Ok lg ->
  exists stale expired, lg_permits lg = (stale ++ expired)%list /\
    (stale = [] \/ exists p, p ∈ permits /\ pm_mutation_kind p = "REPLACE" /\ pm_state p = "PREPARED" /\
       stale = [permit_expired p now]) /\
    (expired = [] \/ exists p, prior = Some p /\ pm_state p = "PREPARED" /\ expired = [permit_expired p now]).
Proof.
  unfold cancel_lineage. destruct (last attempts) as [latest|]; [|done]. intros H.
  apply bind_ok in H as ([target superseded] & Hc & H). apply cancel_target_ok in Hc.
  assert (Hs : exists stale, match superseded with Some permit => [permit] | None => [] end = stale /\
    (stale = [] \/ exists p, p ∈ permits /\ pm_mutation_kind p = "REPLACE" /\ pm_state p = "PREPARED" /\
       stale = [permit_expired p now])).
  { destruct superseded as [row'|]; eexists; (split; [reflexivity|]); [right|by left].
    destruct Hc as (row & (? & ? & ->) & ?). by exists row. }
  destruct Hs as (stale & Es & Hs). exists stale.
  apply bind_ok in H as (permit & _ & H). apply guard_blocked_ok in H as [_ H]. cbv zeta in H. rewrite Es in H.
  destruct prior as [p|].
  - destruct (String.eqb (pm_state p) "PREPARED") eqn:Ep.
    + apply bind_ok in H as (e & He & H). apply expire_ok in He as (_ & Hst & _ & ->). injection H as <-.
      eexists. split; [reflexivity|]. split; [done|]. right. by exists p.
    + destruct (String.eqb (pm_state p) "CONSUMED"); [|done]. inv_all. exists []. rewrite app_nil_r. eauto.
  - inv_all. exists []. rewrite app_nil_r. eauto.
Qed.

Lemma expired_saved intent_id db p now :
  permits_keyed db -> p ∈ permit_rows_of intent_id db -> pm_state p = "PREPARED" ->
  exists row, db_permits db !! pm_permit_id (permit_expired p now) = Some row /\
    permit_step row (permit_expired p now).
Proof. intros Hk Hp Hs. exists p. split; [exact (permit_row_current _ _ _ Hk Hp)|by apply step_expire]. Qed.

Lemma lineage_saved s intent_id db purpose attempt attempts observations hash now lg :
  permits_keyed db ->
  lineage_of s purpose attempt attempts (permit_rows_of intent_id db) observations hash now = Ok lg ->
  Forall (fun row' => exists row, db_permits db !! pm_permit_id row' = Some row /\ permit_step row row')
    (lg_permits lg) /\
  NoDup (map pm_permit_id (lg_permits lg)).
Proof.
  intros Hk. set (permits := permit_rows_of intent_id db).
  assert (Hprior : forall p, prior_generation_of purpose (oa_ordinal attempt) permits = Some p ->
    p ∈ permits /\ pm_mutation_kind p = enum_value purpose) by by intros p (? & ? & _)%prior_generation_elem.
  unfold lineage_of. cbv zeta. generalize dependent (prior_generation_of purpose (oa_ordinal attempt) permits).
  intros prior Hprior H.
  assert (One : forall p, prior = Some p -> pm_state p = "PREPARED" -> lg_permits lg = [permit_expired p now] ->
    Forall (fun row' => exists row, db_permits db !! pm_permit_id row' = Some row /\ permit_step row row')
      (lg_permits lg) /\ NoDup (map pm_permit_id (lg_permits lg))).
  { intros p Ep Hs ->. destruct (Hprior p Ep) as [Hp _]. split; [|apply NoDup_singleton].
    apply Forall_singleton. by eapply expired_saved. }
  destruct purpose; [..|done].
  - apply submit_lineage_permits in H as [E|(p & Ep & Hs & E)]; [rewrite E; split; constructor|by eapply One].
  - apply replace_lineage_permits in H as [E|(p & Ep & Hs & E)]; [rewrite E; split; constructor|by eapply One].
  - apply cancel_lineage_permits in H as (stale & expired & E & Hst & Hex).
    destruct Hst as [->|(q & Hq & Kq & Sq & ->)], Hex as [->|(p & Ep & Sp & ->)]; rewrite E; cbn [app].
    + split; constructor.
    + split; [|apply NoDup_singleton]. destruct (Hprior p Ep) as [Hp _]. apply Forall_singleton. by eapply expired_saved.
    + split; [|apply NoDup_singleton]. apply Forall_singleton. by eapply expired_saved.
    + destruct (Hprior p Ep) as [Hp Kp]. split.
      * repeat constructor; by eapply expired_saved.
      * cbn. apply NoDup_cons. split; [|apply NoDup_singleton]. intros Ei%list_elem_of_singleton.
        pose proof (permit_row_current _ _ _ Hk Hq) as Lq. pose proof (permit_row_current _ _ _ Hk Hp) as Lp.
        change (pm_permit_id q = pm_permit_id p) in Ei. rewrite Ei, Lp in Lq. injection Lq as ->. rewrite Kp in Kq. discriminate Kq.
Qed.

Lemma keeps_issue_permit permit attempt lg db u db' :
  permits_keyed db -> prepared_permit (_permit_row permit) ->
  Forall (fun row' => exists row, db_permits db !! pm_permit_id row' = Some row /\ permit_step row row')
    (lg_permits lg) ->
  NoDup (map pm_permit_id (lg_permits lg)) ->
  issue_permit permit attempt lg db = Ok (u, db') -> permits_kept db db'.
Proof.
  intros Hk Hp Hf Hn H. unfold issue_permit in H.
  apply txn_bind_ok in H as (u1 & db1 & H1 & H). pose proof (kept_save_all _ _ _ _ Hk Hf Hn H1) as K1.
  apply txn_bind_ok in H as (u2 & db2 & H2 & H).
  assert (E2 : db_permits db2 = db_permits db1) by (revert H2; apply same_each; auto with same).
  apply txn_bind_ok in H as (u3 & db3 & H3 & H).
  assert (K2 : permits_kept db1 db2) by (apply kept_same; [apply K1|done]).
  pose proof (kept_insert _ (_permit_row permit) _ _ (pk_keyed _ _ K2) Hp H3) as K3.
  assert (E4 : db_permits db' = db_permits db3).
  { apply txn_bind_ok in H as (u4 & db4 & H4 & H). inv_txn.
    destruct (lg_create lg); inv_txn; done. }
  eapply permits_kept_trans; [exact K1|]. eapply permits_kept_trans; [exact K2|]. eapply permits_kept_trans; [exact K3|].
  apply kept_same; [apply K3|done].
Qed.

(** What the rows of a mutation are, and what was checked of them. *)
Record checked_rows (claim : ExecutionIntent) (clock : datetime) (refused : bool)
    (origin : list BrokerMutationPermitRow -> datetime -> M datetime) (db : database)
    (r : mutation_rows) (now : datetime) : Prop := mk_checked_rows {
  cr_intent : db_intents db !! ei_intent_id claim = Some (mr_intent r);
  cr_account : db_accounts db !! ir_account_role (mr_intent r) = Some (mr_account r);
  cr_budget : db_budgets db !! ir_account_role (mr_intent r) = Some (mr_budget r);
  cr_fence : _verify_claim_fence (mr_intent r) (mr_account r) claim = Ok tt;
  cr_unlocked : refused && ar_execution_locked (mr_account r) = false;
  cr_now : _trusted_now clock = Ok now;
  cr_origin : exists at_ authorized, origin (mr_permits r) now = Ok at_ /\
    _intent_from_row (mr_intent r) db = Ok authorized /\ _validate_origin db authorized at_ = Ok tt;
  cr_baseline : ir_account_role (mr_intent r) = "SUBMISSION" ->
    exists baseline, baseline_of "SUBMISSION" db = Some baseline /\ bl_contaminated baseline = false;
  cr_state : latest_state_of (ir_account_role (mr_intent r)) db = Some (mr_state r);
  cr_attempts : mr_attempts r = attempt_rows_of (ir_intent_id (mr_intent r)) db;
  cr_permits : mr_permits r = permit_rows_of (ir_intent_id (mr_intent r)) db;
  cr_observations : mr_observations r = observation_rows_of (ir_intent_id (mr_intent r)) db;
}.

Lemma mutation_rows_ok claim clock refused origin db r now db' :
  mutation_rows_of claim clock refused origin db = Ok ((r, now), db') ->
  db' = db /\ checked_rows claim clock refused origin db r now.
Proof.
  unfold mutation_rows_of, submission_baseline, current_state. intros H. inv_txn.
  match goal with E : (r, now) = _ |- _ => injection E as -> -> end.
  repeat match goal with u : unit |- _ => destruct u end. split; [done|].
  split; cbn; try done.
  - match goal with H : Ok (_ && _) = Ok false |- _ => by injection H | H : lift_bool _ = Ok false |- _ => by injection H end.
  - by eauto.
  - intros E. match goal with H : context [String.eqb] |- _ => rewrite E in H; cbn in H end.
    destruct (baseline_of "SUBMISSION" db) as [b|]; [|done]. exists b. split; [done|].
    match goal with H : _ = Ok false |- _ => by injection H end.
Qed.

Lemma keeps_issue s r purpose attempt evaluated now db p db' intent_id :
  permits_keyed db -> mr_permits r = permit_rows_of intent_id db ->
  issue s r purpose attempt evaluated now db = Ok (p, db') -> permits_kept db db'.
Proof.
  intros Hk Hr H. unfold issue in H. cbv zeta in H.
  apply txn_bind_ok in H as (lg & db1 & Hl & H). apply perform_ok in Hl as [Hl ->].
  apply txn_bind_ok in H as (expires_at & db1 & He & H). apply perform_ok in He as [_ ->].
  apply txn_bind_ok in H as (token & db1 & Ht & H). apply required_ok in Ht as [_ ->].
  apply txn_bind_ok in H as (u & db1 & Hi & H). inv_txn.
  rewrite Hr in Hl. destruct (lineage_saved _ _ _ _ _ _ _ _ _ _ Hk Hl) as [Hf Hn].
  by eapply keeps_issue_permit; [..|exact Hi].
Qed.

Lemma keeps_preparation s r attempt claim clock clock' id : keeps (preparation s r attempt claim clock clock' id).
Proof.
  intros db p db' Hk H. unfold preparation in H. cbv zeta in H.
  apply txn_bind_ok in H as ([rows ignored] & db1 & Hr & H). apply mutation_rows_ok in Hr as [-> Hr%cr_permits].
  apply txn_bind_ok in H as (now & db1 & Hn & H). apply perform_ok in Hn as [_ ->].
  apply txn_bind_ok in H as (attempt' & db1 & Ha & H). apply perform_ok in Ha as [_ ->].
  apply txn_bind_ok in H as (u & db1 & Hs & H).
  assert (E1 : db_permits db1 = db_permits db) by (revert Hs; apply same_save_account).
  assert (Hk1 : permits_keyed db1) by (intros i row; rewrite E1; apply Hk).
  eapply permits_kept_trans; [by apply (kept_same db db1)|].
  assert (S : forall (t : txn BrokerMutationPreparation) d, permits_keyed d -> permits_same t ->
    t d = Ok (p, db') -> permits_kept d db') by (intros t d Hd Ht Ed; by apply (keeps_same t Ht d p)).
  match type of H with match ?m with Ok _ => _ | Raise _ => _ end _ = _ => destruct m as [expectation|e] end.
  - apply txn_bind_ok in H as (evaluated & db2 & He & H). apply perform_ok in He as [_ ->].
    apply txn_bind_ok in H as (u2 & db2 & Hrec & H).
    assert (E2 : db_permits db2 = db_permits db1) by (revert Hrec; apply same_add_reconciliation).
    assert (Hk2 : permits_keyed db2) by (intros i row; rewrite E2; apply Hk1).
    eapply permits_kept_trans; [by apply (kept_same db1 db2)|].
    destruct (negb (wr_safe evaluated)); [by eapply S; [|auto with same|exact H]|].
    apply txn_bind_ok in H as (refusal & db3 & Href & H). apply perform_ok in Href as [_ ->].
    destruct refusal; [by eapply S; [|auto with same|exact H]|].
    eapply keeps_issue; [exact Hk2| |exact H]. rewrite Hr. unfold permit_rows_of. by rewrite E2, E1.
  - destruct (evidence_mismatch e); [by eapply S; [|auto with same|exact H]|]. by inv_txn.
Qed.

(** ** Histories *)

(** What every operation keeps. *)
Definition kept (db db' : database) : Prop :=
  permits_kept db db' /\ (schema_ok db = true -> schema_ok db' = true).

Lemma kept_start db : permits_keyed db -> kept db db.
Proof. intros Hk. split; [by apply kept_same|done]. Qed.

Lemma kept_transaction {A} (t : txn A) db : permits_keyed db -> keeps t -> kept db (transaction t db).1.
Proof.
  intros Hk Ht. destruct (transaction_db t db) as [->|(a & db' & E & -> & Hs)]; [by apply kept_start|].
  split; [by eapply Ht|done].
Qed.

Lemma kept_transaction_same {A} (t : txn A) db : permits_keyed db -> permits_same t -> kept db (transaction t db).1.
Proof. intros Hk Ht. by apply kept_transaction, keeps_same. Qed.

Lemma kept_stored_once guards code t db :
  permits_keyed db -> permits_same t -> kept db (stored_once guards code t db).1.
Proof.
  intros Hk Ht. unfold stored_once. destruct guards; [|by apply kept_start]. by apply kept_transaction_same.
Qed.

Section History.
Context (validate_greeks : GreekExposure -> M GreekExposure).
Context (baseline_model : SubmissionBaseline -> M SubmissionBaseline).
Context (s : settings).

Lemma kept_call env c run db :
  permits_keyed db -> call_repository validate_greeks s env c = Some run -> kept db (run db).1.
Proof.
  intros Hk H. destruct c; cbn in H; try discriminate H; injection H as <-;
    try (by apply kept_start); try (unfold SqlPrepare.prepare_broker_mutation, SqlFinalize.finalize_execution_authorized, integrity_blocks; cbn [fst]);
    first [solve [apply kept_transaction_same; auto using same_claim, same_targeted_lookup,
                    same_lookup_failure, same_absence, same_finalization]
          |solve [apply kept_transaction; auto using keeps_acquire, keeps_mark, keeps_record,
                    keeps_preparation]].
Qed.

Lemma kept_upkeep env u db : permits_keyed db -> kept db (run_upkeep baseline_model env u db).
Proof.
  intros Hk. destruct u; cbn [run_upkeep];
    try (apply kept_transaction_same; auto using same_register, same_set_autonomous, same_adjustment,
           same_initialize, same_release_claim, same_expired, same_recover).
  - unfold SqlAccounts.capture_baseline. match goal with |- context [transaction ?t db] =>
      pose proof (kept_transaction_same t db Hk) as K; destruct (transaction t db) as [db' r] end.
    cbn in *. apply K. keep_permits.
  - apply kept_stored_once; [done|]. keep_permits.
  - apply kept_stored_once; [done|]. keep_permits.
  - apply kept_stored_once; [done|]. keep_permits.
  - unfold SqlOrigin.approve_intent. destruct (_ensure_executable_role role); [|by apply kept_start].
    pose proof (kept_transaction_same (approval intent_id role envelope) db Hk (same_approval _ _ _)) as K.
    destruct (transaction _ db) as [db' [i|e]]; cbn in *; [done|]. by destruct e.
Qed.

Lemma kept_step db db' :
  permits_keyed db -> repository_step validate_greeks baseline_model s db db' -> kept db db'.
Proof. intros Hk [env c run H|env u]; [by eapply kept_call|by apply kept_upkeep]. Qed.

Lemma kept_history db db' :
  permits_keyed db -> history validate_greeks baseline_model s db db' -> kept db db'.
Proof.
  intros Hk H. induction H as [db|db db1 db2 Hs _ IH]; [by apply kept_start|].
  pose proof (kept_step _ _ Hk Hs) as [K1 S1]. destruct (IH (pk_keyed _ _ K1)) as [K2 S2].
  split; [by eapply permits_kept_trans|auto].
Qed.

(** The permits that are not resolved are alone for their mutation. *)
Lemma unresolved_alone db id id' row row' :
  schema_ok db = true -> db_permits db !! id = Some row -> db_permits db !! id' = Some row' ->
  unresolved_permit row = true -> unresolved_permit row' = true ->
  pm_execution_intent_id row = pm_execution_intent_id row' ->
  pm_mutation_kind row = pm_mutation_kind row' -> pm_attempt_ordinal row = pm_attempt_ordinal row' ->
  id = id'.
Proof.
  intros Hs Hr Hr' Hu Hu' E1 E2 E3.
  assert (Hp : permit_table_ok (db_permits db) = true) by (unfold schema_ok in Hs; inv_all; done).
  unfold permit_table_ok in Hp. rewrite !andb_true_iff in Hp. destruct Hp as (((((_ & _) & Hd) & _) & _) & _).
  eapply (unique_lookup dispatchable); [exact Hd|exact Hr|exact Hr'| |].
  - unfold dispatchable. unfold unresolved_permit in Hu. by rewrite Hu.
  - unfold dispatchable. unfold unresolved_permit in Hu'. rewrite Hu'. by rewrite E1, E2, E3.
Qed.

(** A permit whose dispatch was acquired is not prepared any more. *)
Lemma acquired_row id claim clock clock' nonce db permit db' :
  permits_keyed db ->
  transaction (SqlLookups.acquire_broker_dispatch id claim clock clock' nonce) db = (db', Ok permit) ->
  exists row, db_permits db' !! id = Some row /\ pm_state row <> "PREPARED" /\
    pm_dispatch_nonce row = Some nonce.
Proof.
  intros Hk H. apply transaction_ok in H as [(p & now & Hp & _ & _ & _ & Hw & _)%acquire_ok _].
  pose proof (Hk _ _ Hp) as E. unfold save_permit in Hw. apply write_ok in Hw as ->. cbn [pm_permit_id permit_with].
  rewrite E. eexists. cbn [db_permits set_db_permits]. rewrite lookup_insert_eq. by split_and!.
Qed.

Lemma acquire_needs_prepared id claim clock clock' nonce db row :
  db_permits db !! id = Some row -> pm_state row <> "PREPARED" ->
  exists e, transaction (SqlLookups.acquire_broker_dispatch id claim clock clock' nonce) db = (db, Raise e).
Proof.
  intros Hr Hs. destruct (transaction _ db) as [db' [permit|e]] eqn:E.
  - apply transaction_ok in E as [(p & now & Hp & Sp & _)%acquire_ok _]. congruence.
  - exists e. pose proof (transaction_db (SqlLookups.acquire_broker_dispatch id claim clock clock' nonce) db) as [D|(a & d & E' & _ & Sd)].
    + rewrite E in D. by cbn in D; subst.
    + unfold transaction in E. rewrite E', Sd in E. done.
Qed.

(** C3: The lifecycle of a permit.  Whatever operations are made on the database, by the
    service and by its upkeep, in whatever order: a permit is never deleted and keeps what
    it was issued for (the mutation, the claim, the request, the quotes, its expiry); it was
    issued prepared and without a dispatch; once it was dispatched its nonce and the time of
    the dispatch stay, and a consumed or an expired permit does not change at all; of the
    permits that are prepared, dispatching or being looked up there is at most one for each
    intent, kind of mutation and attempt; and after a dispatch was acquired with a permit, no
    later acquisition with the same permit succeeds: every permit is dispatched at most
    once. *)
Theorem permit_lifecycle db db' :
  permits_keyed db -> schema_ok db = true -> history validate_greeks baseline_model s db db' ->
  (forall id row, db_permits db !! id = Some row ->
     exists row', db_permits db' !! id = Some row' /\ issued_for row' = issued_for row /\
       (pm_state row <> "PREPARED" -> pm_dispatch_nonce row' = pm_dispatch_nonce row /\
          pm_dispatch_acquired_at row' = pm_dispatch_acquired_at row) /\
       (final_permit row -> row' = row)) /\
  (forall id row', db_permits db' !! id = Some row' -> db_permits db !! id = None ->
     exists row, prepared_permit row /\ rtc permit_step row row') /\
  (forall id id' row row', db_permits db' !! id = Some row -> db_permits db' !! id' = Some row' ->
     unresolved_permit row = true -> unresolved_permit row' = true ->
     pm_execution_intent_id row = pm_execution_intent_id row' ->
     pm_mutation_kind row = pm_mutation_kind row' -> pm_attempt_ordinal row = pm_attempt_ordinal row' ->
     id = id') /\
  (forall id claim clock clock' nonce db1 permit db2 claim' now now' nonce',
     transaction (SqlLookups.acquire_broker_dispatch id claim clock clock' nonce) db' = (db1, Ok permit) ->
     history validate_greeks baseline_model s db1 db2 ->
     exists e, transaction (SqlLookups.acquire_broker_dispatch id claim' now now' nonce') db2 = (db2, Raise e)).
Proof.
  intros Hk Hs Hh. destruct (kept_history _ _ Hk Hh) as [[K1 O N] S]. split_and!.
  - intros id row Hr. destruct (O _ _ Hr) as (row' & Hr' & Hst). exists row'. split_and!; [done| | |].
    + by apply steps_issued_for.
    + intros Hp. by apply (steps_not_prepared _ _ Hst).
    + intros Hf. by apply steps_final.
  - exact N.
  - intros id id' row row'. by apply unresolved_alone, S.
  - intros id claim clock clock' nonce db1 permit db2 claim' now now' nonce' Ha Hh'.
    destruct (acquired_row _ _ _ _ _ _ _ _ K1 Ha) as (row & Hr & Hst & _).
    assert (Hk1 : permits_keyed db1).
    { pose proof (kept_transaction _ db' K1 (keeps_acquire id claim clock clock' nonce)) as [K _].
      rewrite Ha in K. apply K. }
    destruct (kept_history _ _ Hk1 Hh') as [[_ O' _] _]. destruct (O' _ _ Hr) as (row' & Hr' & Hst').
    eapply acquire_needs_prepared; [exact Hr'|]. by apply (steps_not_prepared _ _ Hst').
Qed.
End History.
