(* ===== verification/SqlSafety.v ===== *)
(** * What a preparation guarantees

    A permit is only issued for a claim that is current, on an account that is not
    locked, for a sweep that agrees with the state and for the request the rows derive;
    a preparation without a permit locks the account. *)

From Stdlib Require Import ZArith Lia String Ascii List Bool.
From stdpp Require Import base strings gmap option tactics relations sorting list.
From S2P Require Import Prelude PyText PyDict PyDecimal PyTime PyHash Contracts Exposure ExecModels OrderLimits OrderStatus Identity Finalization ReconciliationData Reconciliation ReconciliationFacts ReconciliationRaises Permits Memory ExecutionService SqlSchema SqlCodec SqlRows SqlLookups SqlExpectation SqlOrigin SqlPrepare SqlFinalize SqlAccounts SqlPorts SqlFacts SqlPermits.

#[local] Open Scope string_scope.
#[local] Open Scope Z_scope.

(** ** Requests *)

(** What a permit authorises the request of: the attempt's, or its cancellation's. *)
Definition request_of (digest : string) (purpose : ReconciliationPurpose) (attempt : OrderAttempt) : string :=
  if decide (purpose = CANCEL) then _cancel_request_hash digest attempt else oa_request_hash attempt.

Lemma attempt_eq_cancels digest a b :
  attempt_eq a b = true -> _cancel_request_hash digest a = _cancel_request_hash digest b.
Proof.
  unfold attempt_eq, _cancel_request_hash. intros H. rewrite !andb_true_iff in H. destruct_and! H.
  zbool. repeat match goal with H : bool_decide _ = true |- _ => apply bool_decide_eq_true in H end.
  by repeat match goal with H : _ a = _ b |- _ => rewrite H end.
Qed.

Lemma replace_expectation_request intent state attempt attempts d :
  replace_expectation intent state attempt attempts = Ok d -> me_request_hash d = oa_request_hash attempt.
Proof.
  unfold replace_expectation, working_expectation. destruct (last attempts); [|done]. intros H. by inv_all.
Qed.

Lemma cancel_expectation_request intent state attempt attempts d :
  cancel_expectation intent state attempt attempts = Ok d ->
  me_request_hash d = _cancel_request_hash (ir_intent_digest intent) attempt.
Proof.
  unfold cancel_expectation, working_expectation. destruct (last attempts); [|done]. intros H. inv_seq H.
  symmetry. inv_all. by apply attempt_eq_cancels.
Qed.

Lemma submit_expectation_request state attempt attempts d :
  submit_expectation state attempt attempts = Ok d -> me_request_hash d = oa_request_hash attempt.
Proof. unfold submit_expectation. intros H. by inv_seq H; injection H as <-. Qed.

(** The expectation of the rows is of the mutation it is asked for. *)
Lemma expectation_from_rows_ok intent state purpose attempt attempts candidates e :
  _reconciliation_expectation_from_rows intent state purpose attempt attempts candidates = Ok e ->
  purpose <> BASELINE_INITIALIZATION /\ ex_purpose e = purpose /\
  ex_attempt_ordinal e = oa_ordinal attempt /\ oa_ordinal attempt <= 3 /\
  oa_intent_id attempt = ir_intent_id intent /\
  ex_intent_id e = ir_intent_id intent /\ ex_intent_digest e = ir_intent_digest intent /\
  ex_request_hash e = request_of (ir_intent_digest intent) purpose attempt.
Proof.
  unfold _reconciliation_expectation_from_rows. intros H.
  apply guard_blocked_ok in H as [Ha H]. apply guard_blocked_ok in H as [Hp H].
  apply bind_ok in H as (canonical & _ & H). apply guard_blocked_ok in H as [_ H].
  apply bind_ok in H as (derived & Hd & H). apply bind_ok in H as ([known resolved] & _ & H).
  unfold expectation_of in H. apply bind_ok in H as (role & _ & He).
  apply expectation_fields_kept in He as ->. cbn.
  assert (Hr : me_request_hash derived = request_of (ir_intent_digest intent) purpose attempt).
  { destruct purpose.
    - exact (submit_expectation_request _ _ _ _ Hd).
    - exact (replace_expectation_request _ _ _ _ _ Hd).
    - exact (cancel_expectation_request _ _ _ _ _ Hd).
    - cbn in Hp. discriminate Hp. }
  assert (Hn : purpose <> BASELINE_INITIALIZATION) by (intros ->; discriminate Hp).
  clear Hp Hd. apply lift_bool_ok in Ha. apply orb_false_iff in Ha as [Hi Ho]. apply negb_false_iff, N.eqb_eq in Hi. zbool.
  by split_and!.
Qed.

(** ** Replacements *)

(** A replacement of ordinal [k] is timed from 150 k to 600 seconds after the dispatch of
    the first attempt. *)
Definition replacement_due (attempts : list OrderAttemptRow) (permits : list BrokerMutationPermitRow)
    (attempt : OrderAttempt) : Prop :=
  1 <= oa_ordinal attempt <= 3 /\
  exists initial initial_permit acquired timing elapsed,
    head attempts = Some initial /\ _creation_permit initial permits = Ok initial_permit /\
    pm_dispatch_acquired_at initial_permit = Some acquired /\
    oa_timing_authority_at attempt = Some timing /\ dt_sub timing (_utc acquired) = Ok elapsed /\
    seconds (150 * oa_ordinal attempt) <= elapsed < seconds 600.

Lemma due_seconds_linear ordinal : 1 <= ordinal <= 3 -> due_seconds (ordinal - 1) = 150 * ordinal.
Proof. intros H. assert (ordinal = 1 \/ ordinal = 2 \/ ordinal = 3) as [->|[->| ->]] by lia; reflexivity. Qed.

Lemma replacement_due_ok attempts permits attempt :
  _validate_replacement_due attempts permits attempt = Ok tt -> replacement_due attempts permits attempt.
Proof.
  unfold _validate_replacement_due. destruct attempts as [|initial rest]; [done|]. intros H.
  apply guard_blocked_ok in H as [Ho H]. apply bind_ok in H as (permit & Hp & H).
  destruct (pm_dispatch_acquired_at permit) as [acquired|] eqn:Ea; [|done].
  destruct (oa_timing_authority_at attempt) as [timing|] eqn:Et; [|done].
  apply bind_ok in H as (elapsed & He & H). apply guard_blocked_ok in H as [H1 H].
  apply guard_blocked_ok in H as [H2 _]. inv_all. zbool.
  match goal with H : seconds _ <= elapsed |- _ => rewrite due_seconds_linear in H by lia end.
  split; [lia|]. by exists initial, permit, acquired, timing, elapsed.
Qed.

Lemma prepared_replacement_ok intent attempts permits attempt now attempt' :
  prepared_replacement intent attempts permits attempt now = Ok attempt' ->
  replacement_due attempts permits attempt' /\
  _validate_replacement_attempt intent attempts attempt' (Some now) = Ok tt.
Proof.
  unfold prepared_replacement. cbv zeta. intros H. apply bind_ok in H as ([] & _ & H).
  apply bind_ok in H as (timed & _ & H). apply bind_ok in H as ([] & Hv & H).
  apply bind_ok in H as ([] & Hd & [= ->]). split; [by apply replacement_due_ok|done].
Qed.

(** ** Writes *)

Lemma save_permits_ok l db u db' :
  each_row save_permit l db = Ok (u, db') ->
  exists table, db' = set_db_permits db table /\ forall id, table !! id = None -> db_permits db !! id = None.
Proof.
  revert db. induction l as [|row l IH]; intros db H; cbn in H; inv_txn.
  - exists (db_permits db). by destruct db.
  - unfold save_permit in *. inv_txn.
    match goal with H : each_row _ _ _ = Ok _ |- _ => apply IH in H as (table & -> & Ht) end.
    exists table. split; [done|]. intros id Hid. apply Ht in Hid. cbn [db_permits set_db_permits] in Hid.
    by apply lookup_insert_None in Hid as [? _].
Qed.

(** The table of the attempts after some rows were saved. *)
Definition attempts_saved (l : list OrderAttemptRow) (table : gmap uuid OrderAttemptRow)
    : gmap uuid OrderAttemptRow :=
  fold_left (fun table row => <[at_attempt_id row := row]> table) l table.

Lemma save_attempts_ok l db u db' :
  each_row save_attempt l db = Ok (u, db') -> db' = set_db_attempts db (attempts_saved l (db_attempts db)).
Proof.
  revert db. induction l as [|row l IH]; intros db H; cbn in H; inv_txn; [by destruct db|].
  unfold save_attempt in *. inv_txn.
  by match goal with H : each_row _ _ _ = Ok _ |- _ => apply IH in H as -> end.
Qed.

(** The table of the attempts after a permit was issued. *)
Definition attempts_issued (permit : BrokerMutationPermit) (attempt : OrderAttempt) (lg : permit_lineage)
    (table : gmap uuid OrderAttemptRow) : gmap uuid OrderAttemptRow :=
  let saved := attempts_saved (lg_attempts lg) table in
  match lg_create lg with
  | Some replaces => <[_attempt_id (oa_intent_id attempt) (oa_ordinal attempt) :=
                        new_attempt_row attempt (bp_permit_id permit) replaces]> saved
  | None => saved
  end.

Lemma issue_permit_ok permit attempt lg db u db' :
  issue_permit permit attempt lg db = Ok (u, db') ->
  db_permits db !! bp_permit_id permit = None /\
  db_permits db' !! bp_permit_id permit = Some (_permit_row permit) /\
  db_accounts db' = db_accounts db /\ db_reconciliations db' = db_reconciliations db /\
  db_attempts db' = attempts_issued permit attempt lg (db_attempts db).
Proof.
  unfold issue_permit. intros H.
  apply txn_bind_ok in H as (u1 & db1 & (permits & -> & Hp)%save_permits_ok & H).
  apply txn_bind_ok in H as (u2 & db2 & ->%save_attempts_ok & H).
  apply txn_bind_ok in H as (u3 & db3 & [Hn ->]%insert_row_ok & H).
  apply txn_bind_ok in H as (u4 & db4 & H4 & [_ ->]%flush_ok).
  cbn [db_permits set_db_permits set_db_attempts] in *. split; [by apply Hp|]. unfold attempts_issued.
  destruct (lg_create lg) as [replaces|]; inv_txn;
    cbn [db_permits db_attempts db_accounts db_reconciliations set_db_permits set_db_attempts];
    (split; [apply lookup_insert_eq|]); done.
Qed.

(** ** Permits *)

(** A permit of a claim, for the attempt and the reconciliation it was evaluated with. *)
Record permit_authorized (s : settings) (r : mutation_rows) (claim : ExecutionIntent)
    (attempt : OrderAttempt) (evaluated : WholeAccountReconciliation) (now : datetime)
    (permit : BrokerMutationPermit) : Prop := mk_permit_authorized {
  (* of the claim *)
  pa_claim : bp_intent_id permit = ir_intent_id (mr_intent r) /\
    bp_intent_digest permit = ei_digest claim /\ Some (bp_claim_token permit) = ei_claim_token claim /\
    bp_claim_generation permit = ei_claim_generation claim /\
    bp_execution_epoch permit = ei_execution_epoch claim;
  (* for a mutation, of an ordinal that exists, and its request *)
  pa_kind : bp_mutation_kind permit = ex_purpose (wr_expectation evaluated) /\
    bp_mutation_kind permit <> BASELINE_INITIALIZATION;
  pa_ordinal : bp_attempt_ordinal permit = oa_ordinal attempt /\ oa_ordinal attempt <= 3 /\
    oa_intent_id attempt = ir_intent_id (mr_intent r);
  pa_request : bp_request_hash permit = request_of (ei_digest claim) (bp_mutation_kind permit) attempt;
  (* on a reconciliation that is safe *)
  pa_reconciliation : bp_reconciliation_id permit = wr_reconciliation_id evaluated /\
    wr_safe evaluated = true /\ wr_accepted_at evaluated = now;
  (* of the next generation, prepared, and for the time of its kind *)
  pa_generation : bp_generation permit = next_generation
    (prior_generation_of (bp_mutation_kind permit) (oa_ordinal attempt) (mr_permits r));
  pa_prepared : prepared_permit (_permit_row permit) /\ bp_consumed_at permit = None /\
    bp_outcome_hash permit = None;
  (* at the limit and on the quotes of the attempt *)
  pa_quotes : bp_limit_price permit = Some (default (ir_minimum_limit (mr_intent r)) (oa_limit_price attempt)) /\
    bp_quote_hash permit = oa_quote_hash attempt /\
    bp_quote_source_timestamps permit = oa_quote_source_timestamps attempt /\
    bp_quote_retrieved_at permit = oa_quote_retrieved_at attempt /\
    bp_timing_authority_at permit = oa_timing_authority_at attempt /\
    bp_prior_request_hash permit = oa_prior_request_hash attempt;
  pa_lifetime : bp_issued_at permit = now /\
    dt_add now (ttl_of s (bp_mutation_kind permit)) = Ok (bp_expires_at permit);
  (* a replacement is due, and a new entry is inside the limits *)
  pa_due : bp_mutation_kind permit = REPLACE -> replacement_due (mr_attempts r) (mr_permits r) attempt;
  pa_entry : ir_action (mr_intent r) = "ENTRY" -> bp_mutation_kind permit = SUBMIT ->
    _validate_entry_limits (entry_limits s) (ir_policy_hash (mr_intent r))
      (ir_approved_max_loss (mr_intent r)) (ir_quantity (mr_intent r))
      (with_equity (mr_account r) (ao_equity (sw_final_account (wr_sweep evaluated)))) (mr_budget r) = Ok tt;
}.

(** What a permit succeeds and targets, and the attempts that are written with it. *)
Definition lineage_written (s : settings) (r : mutation_rows) (attempt : OrderAttempt) (now : datetime)
    (permit : BrokerMutationPermit) (db db' : database) : Prop :=
  exists lg, lineage_of s (bp_mutation_kind permit) attempt (mr_attempts r) (mr_permits r)
      (mr_observations r) (bp_request_hash permit) now = Ok lg /\
    bp_predecessor_permit_id permit = lg_predecessor lg /\
    bp_target_client_order_id permit = option_map at_client_order_id (lg_target lg) /\
    db_attempts db' = attempts_issued permit attempt lg (db_attempts db).

Lemma fence_ok intent account claim :
  _verify_claim_fence intent account claim = Ok tt ->
  ir_state intent = "CLAIMED" /\ ir_intent_digest intent = ei_digest claim /\
  ir_claim_token intent = ei_claim_token claim /\ ir_claim_token intent <> None /\
  ir_claim_generation intent = ei_claim_generation claim /\
  ir_execution_epoch intent = ei_execution_epoch claim.
Proof.
  unfold _verify_claim_fence. intros [H _]%guard_blocked_ok. inv_all. zbool.
  split_and!; try done. by destruct (ir_claim_token intent).
Qed.

Lemma entry_limits_accept s intent purpose account budget :
  entry_limits_refusal s intent purpose account budget = Ok None ->
  ir_action intent = "ENTRY" -> purpose = SUBMIT ->
  _validate_entry_limits (entry_limits s) (ir_policy_hash intent) (ir_approved_max_loss intent)
    (ir_quantity intent) account budget = Ok tt.
Proof.
  unfold entry_limits_refusal. intros H Ha ->. rewrite Ha in H.
  change (String.eqb "ENTRY" (enum_value EX_ENTRY) && bool_decide (SUBMIT = SUBMIT)) with true in H.
  cbn iota in H. destruct (_validate_entry_limits _ _ _ _ _ _) as [[]|[]]; done.
Qed.

(** What a preparation that issues a permit does. *)
Lemma issue_ok s r claim attempt evaluated now db p db' :
  _verify_claim_fence (mr_intent r) (mr_account r) claim = Ok tt ->
  wr_safe evaluated = true -> wr_accepted_at evaluated = now ->
  let purpose := ex_purpose (wr_expectation evaluated) in
  let intent := mr_intent r in
  purpose <> BASELINE_INITIALIZATION -> oa_ordinal attempt <= 3 -> oa_intent_id attempt = ir_intent_id intent ->
  ex_request_hash (wr_expectation evaluated) = request_of (ir_intent_digest intent) purpose attempt ->
  (purpose = REPLACE -> replacement_due (mr_attempts r) (mr_permits r) attempt) ->
  (ir_action intent = "ENTRY" -> purpose = SUBMIT ->
    _validate_entry_limits (entry_limits s) (ir_policy_hash intent) (ir_approved_max_loss intent)
      (ir_quantity intent) (with_equity (mr_account r) (ao_equity (sw_final_account (wr_sweep evaluated))))
      (mr_budget r) = Ok tt) ->
  issue s r purpose attempt evaluated now db = Ok (p, db') ->
  exists permit, p = mk_BrokerMutationPreparation evaluated (Some permit) (Some attempt) /\
    permit_authorized s r claim attempt evaluated now permit /\
    db_permits db !! bp_permit_id permit = None /\
    db_permits db' !! bp_permit_id permit = Some (_permit_row permit) /\
    lineage_written s r attempt now permit db db' /\
    db_accounts db' = db_accounts db /\ db_reconciliations db' = db_reconciliations db.
Proof.
  intros (_ & Hdig & Htok & _ & Hgen & Hep)%fence_ok Hs Hn purpose intent Hp Ho Hi Hr Hd Hl H.
  unfold issue in H. cbv zeta in H.
  apply txn_bind_ok in H as (lg & db1 & [Hlg ->]%perform_ok & H).
  apply txn_bind_ok in H as (expires & db1 & [He ->]%perform_ok & H).
  apply txn_bind_ok in H as (token & db1 & [Ht ->]%required_ok & H).
  apply txn_bind_ok in H as (u & db1 & Hw & [-> ->]%txn_ret_ok).
  apply issue_permit_ok in Hw as (Hnone & Hsome & Ha & Hrec & Hatt).
  eexists. split; [reflexivity|]. split; [|by split_and!; [..|exists lg| |]].
  split; cbn; try done; [|by rewrite Hr; unfold intent; rewrite Hdig].
  split_and!; try done. by rewrite <- Ht.
Qed.

Lemma refuse_and_latch_ok account reason now id reconciliation db p db' :
  refuse_and_latch account reason now id reconciliation db = Ok (p, db') ->
  p = mk_BrokerMutationPreparation reconciliation None None /\ schema_ok db' = true /\
  db_permits db' = db_permits db /\ db_attempts db' = db_attempts db /\
  db_accounts db' !! ar_role account = Some (_latch_account account reason now id).
Proof.
  unfold refuse_and_latch, latch, save_account. intros H. inv_txn. split_and!; try done.
  cbn [db_accounts set_db_accounts ar_role _latch_account]. apply lookup_insert_eq.
Qed.

(** A locked account is locked for one of the reasons the schema knows. *)
Definition account_locked (role : string) (db : database) : Prop :=
  exists account reason, db_accounts db !! role = Some account /\
    ar_execution_locked account = true /\ ar_execution_lock_reason account = Some reason /\
    In reason LOCK_REASONS.

Lemma locked_reason db role account :
  schema_ok db = true -> db_accounts db !! role = Some account -> ar_execution_locked account = true ->
  account_locked role db.
Proof.
  intros Hs Ha Hl. assert (Hc : check account_checks (db_accounts db) = true).
  { unfold schema_ok, account_table_ok in Hs. rewrite !andb_true_iff in Hs. by destruct_and! Hs. }
  pose proof (check_lookup _ _ _ _ Hc Ha) as H. unfold account_checks in H. rewrite Hl in H.
  rewrite !andb_true_iff, orb_true_iff in H. destruct H as [[[_ H] _] _]. destruct H as [H|H]; [done|].
  destruct (ar_execution_lock_reason account) as [reason|] eqn:E; [|by rewrite andb_false_r in H].
  exists account, reason. split_and!; [done..|]. rewrite !andb_true_iff in H. destruct_and! H.
  match goal with H : one_of reason _ = true |- _ => apply existsb_exists in H as (x & Hx & Ex) end.
  by apply String.eqb_eq in Ex as <-.
Qed.

(** A preparation that did not issue a permit. *)
Definition preparation_refused (r : mutation_rows) (db db' : database) (p : BrokerMutationPreparation) : Prop :=
  pr_permit p = None /\ pr_attempt p = None /\ db_permits db' = db_permits db /\
  db_attempts db' = db_attempts db /\ account_locked (ar_role (mr_account r)) db'.

(** A preparation that issued one. *)
Definition preparation_issued (s : settings) (r : mutation_rows) (claim : ExecutionIntent)
    (reconciliation : WholeAccountReconciliation) (attempt : OrderAttempt) (now : datetime)
    (db db' : database) (p : BrokerMutationPreparation) : Prop :=
  let evaluated := pr_reconciliation p in
  exists permit prepared expectation,
    pr_permit p = Some permit /\ pr_attempt p = Some prepared /\
    (bp_mutation_kind permit <> REPLACE -> prepared = attempt) /\
    _reconciliation_expectation_from_rows (mr_intent r) (mr_state r)
      (ex_purpose (wr_expectation reconciliation)) prepared (mr_attempts r)
      (Some (sw_activities (wr_sweep reconciliation))) = Ok expectation /\
    evaluate (wr_sweep reconciliation) expectation now = Ok evaluated /\
    permit_authorized s r claim prepared evaluated now permit /\
    db_permits db !! bp_permit_id permit = None /\
    db_permits db' !! bp_permit_id permit = Some (_permit_row permit) /\
    lineage_written s r prepared now permit db db' /\
    db_reconciliations db' !! wr_reconciliation_id evaluated = Some (_reconciliation_row evaluated) /\
    exists account, db_accounts db' !! ar_role (mr_account r) = Some account /\
      ar_execution_locked account = false.

Lemma preparation_ok s reconciliation attempt claim clock clock' id db p db' :
  schema_ok db' = true ->
  preparation s reconciliation attempt claim clock clock' id db = Ok (p, db') ->
  exists r now now', checked_rows claim clock true (fun _ t => Ok t) db r now /\
    _trusted_now clock' = Ok now' /\
    (preparation_refused r db db' p \/ preparation_issued s r claim reconciliation attempt now' db db' p).
Proof.
  intros Hs H. unfold preparation in H. cbv zeta in H.
  apply txn_bind_ok in H as ([r now] & db1 & [-> Hr]%mutation_rows_ok & H).
  apply txn_bind_ok in H as (now' & db1 & [Hn ->]%perform_ok & H).
  apply txn_bind_ok in H as (prepared & db1 & [Ha ->]%perform_ok & H).
  apply txn_bind_ok in H as (u & db1 & Hw & H). unfold save_account in Hw. apply write_ok in Hw as ->.
  exists r, now, now'. split; [exact Hr|]. split; [exact Hn|].
  set (account := with_equity (mr_account r) (ao_equity (sw_final_account (wr_sweep reconciliation)))) in *.
  assert (Refused : forall reason rec d, db_permits d = db_permits db -> db_attempts d = db_attempts db ->
    refuse_and_latch account reason now' id rec d = Ok (p, db') -> preparation_refused r db db' p).
  { intros reason rec d Hp Hat (-> & _ & Ep & Eat & El)%refuse_and_latch_ok. split_and!; [done..| | |].
    - by rewrite Ep. - by rewrite Eat.
    - by eapply (locked_reason _ (ar_role account)). }
  match type of H with match ?m with Ok _ => _ | Raise _ => _ end _ = _ => destruct m as [expectation|e] eqn:Ee end;
    [|destruct (evidence_mismatch e); [left; by eapply Refused; [..|exact H]|by inv_txn]].
  apply txn_bind_ok in H as (evaluated & db2 & [Hv ->]%perform_ok & H).
  apply txn_bind_ok in H as (u2 & db2 & Hrec & H). unfold add_reconciliation in Hrec.
  apply txn_bind_ok in Hrec as (u3 & db3 & [_ ->]%insert_row_ok & [_ ->]%flush_ok).
  destruct (wr_safe evaluated) eqn:Es; cbn [negb] in H; [|left; by eapply Refused; [..|exact H]].
  apply txn_bind_ok in H as (refusal & db3 & [Href ->]%perform_ok & H).
  destruct refusal as [reason|]; [left; by eapply Refused; [..|exact H]|right].
  destruct (evaluate_fields _ _ _ _ Hv) as (Esw & Eex & Eac).
  destruct (expectation_from_rows_ok _ _ _ _ _ _ _ Ee) as (Hb & Ep & Eo & Ho & Ei & _ & _ & Eh).
  rewrite <- Ep, <- Eex in H.
  eapply issue_ok in H as (permit & -> & Hauth & Hnone & Hsome & Hlg & Hacc & Hrecs);
    [|by apply Hr|done|done|by rewrite Eex, Ep|done|done|by rewrite Eex, Ep| |].
  - pose proof (pa_kind _ _ _ _ _ _ _ Hauth) as [Ekind _].
    exists permit, prepared, expectation. split_and!; try done.
    + intros Hne. rewrite Ekind, Eex, Ep in Hne. rewrite decide_False in Ha by done. by injection Ha as ->.
    + cbn [pr_reconciliation]. rewrite Hrecs.
      cbn [db_reconciliations set_db_reconciliations set_db_accounts]. apply lookup_insert_eq.
    + exists account. rewrite Hacc. cbn [db_accounts set_db_reconciliations set_db_accounts].
      split; [apply (lookup_insert_eq _ (ar_role account))|].
      pose proof (cr_unlocked _ _ _ _ _ _ _ Hr) as Hu. exact Hu.
  - rewrite Eex, Ep. intros Hp. rewrite decide_True in Ha by done.
    by apply prepared_replacement_ok in Ha as [? _].
  - rewrite Eex, Ep, Esw. intros Hact Hp. fold account. by eapply entry_limits_accept.
Qed.

(** The same of the transaction. *)
Lemma prepared_ok s reconciliation attempt claim clock clock' lock_id db db' p :
  SqlPrepare.prepare_broker_mutation s reconciliation attempt claim clock clock' lock_id db = (db', Ok p) ->
  exists r now now',
    checked_rows claim clock true (fun _ t => Ok t) db r now /\ _trusted_now clock' = Ok now' /\
    schema_ok db' = true /\
    (preparation_refused r db db' p \/
     preparation_issued s r claim reconciliation attempt now' db db' p).
Proof.
  intros H. unfold SqlPrepare.prepare_broker_mutation, integrity_blocks in H.
  destruct (transaction _ db) as [db1 [p1|e]] eqn:Et; cbn in H; [|by destruct e].
  injection H as <- <-. apply transaction_ok in Et as [Ht Hs].
  destruct (preparation_ok _ _ _ _ _ _ _ _ _ _ Hs Ht) as (r & now & now' & Hr & Hn & Hp).
  by exists r, now, now'.
Qed.

Lemma prepared_raises s reconciliation attempt claim clock clock' lock_id db db' e :
  SqlPrepare.prepare_broker_mutation s reconciliation attempt claim clock clock' lock_id db = (db', Raise e) ->
  db' = db.
Proof.
  unfold SqlPrepare.prepare_broker_mutation, integrity_blocks, transaction.
  destruct (preparation _ _ _ _ _ _ _ db) as [[p db1]|e1]; cbn; [destruct (schema_ok db1); cbn|]; by intros [= <-].
Qed.

(** C2: What a preparation of a broker mutation guarantees.  When it raises, the database
    is as before.  Otherwise the claim is the current one of a claimed intent, on an
    account that was not locked, with an origin that is valid at the time of the
    preparation (and for the submission with a baseline that is not contaminated), and
    either no permit and no attempt was written and the account is now locked for a reason
    of the schema, or a new permit was: prepared, for this claim, for the mutation, the
    ordinal and the request that the rows derive, issued now for the lifetime of its kind,
    with the next generation and lineage, on a stored evaluation of the sweep against the expectation
    of the rows that is safe; a replacement is then due, from 150 seconds for each ordinal
    to 600 seconds after the first dispatch, and a new entry is inside the entry limits. *)
Theorem preparation_authorized s reconciliation attempt claim clock clock' lock_id db db' result :
  SqlPrepare.prepare_broker_mutation s reconciliation attempt claim clock clock' lock_id db = (db', result) ->
  match result with
  | Raise _ => db' = db
  | Ok p =>
      exists r now now',
        checked_rows claim clock true (fun _ t => Ok t) db r now /\ _trusted_now clock' = Ok now' /\
        ir_state (mr_intent r) = "CLAIMED" /\ schema_ok db' = true /\
        (preparation_refused r db db' p \/
         preparation_issued s r claim reconciliation attempt now' db db' p)
  end.
Proof.
  intros H. destruct result as [p|e]; [|by eapply prepared_raises].
  destruct (prepared_ok _ _ _ _ _ _ _ _ _ _ H) as (r & now & now' & Hr & Hn & Hs & Hp).
  exists r, now, now'. split_and!; try done. exact (proj1 (fence_ok _ _ _ (cr_fence _ _ _ _ _ _ _ Hr))).
Qed.
