(* ===== verification/SqlReads.v ===== *)
(** * What is written is read back

    The rows of permits, attempts and reconciliations, and what a preparation leaves in
    the database: the repository reads what the preparation returned. *)

From Stdlib Require Import ZArith Lia String Ascii List Bool.
From stdpp Require Import base strings gmap option tactics relations sorting list.
From S2P Require Import Prelude PyText PyDict PyDecimal PyTime PyHash PyParse Contracts Exposure ExecModels OrderLimits OrderStatus Identity Finalization ReconciliationData Reconciliation ReconciliationFacts ReconciliationRaises Permits Memory ExecutionService SqlSchema SqlCodec SqlRows SqlLookups SqlExpectation SqlOrigin SqlPrepare SqlFinalize SqlAccounts SqlPorts SqlFacts SqlPermits SqlSafety.

#[local] Open Scope string_scope.
#[local] Open Scope Z_scope.

(** ** Rows *)

Lemma aware_utc t : is_aware t = true -> _utc t = t.
Proof. unfold is_aware, _utc. by destruct (dt_off t). Qed.

Definition opt_aware (o : option datetime) : Prop := forall t, o = Some t -> is_aware t = true.

Lemma aware_utcs o : opt_aware o -> option_map _utc o = o.
Proof. intros H. destruct o as [t|]; [|done]. cbn. by rewrite aware_utc by auto. Qed.

Lemma timestamps_read l : Forall valid_datetime l -> map_m datetime_fromisoformat (map dt_isoformat l) = Ok l.
Proof. intros H. apply map_m_ok. induction H; cbn; constructor; [by apply datetime_reads|done]. Qed.

(** The times of an attempt and of a permit are aware. *)
Definition timely_attempt (a : OrderAttempt) : Prop :=
  Forall valid_datetime (oa_quote_source_timestamps a) /\ opt_aware (oa_quote_retrieved_at a) /\
  opt_aware (oa_timing_authority_at a).

Definition timely_permit (p : BrokerMutationPermit) : Prop :=
  Forall valid_datetime (bp_quote_source_timestamps p) /\ opt_aware (bp_quote_retrieved_at p) /\
  opt_aware (bp_timing_authority_at p) /\ is_aware (bp_issued_at p) = true /\
  is_aware (bp_expires_at p) = true /\ opt_aware (bp_dispatch_acquired_at p) /\
  opt_aware (bp_consumed_at p).

Lemma permit_row_reads p : timely_permit p -> _permit_from_row (_permit_row p) = Ok p.
Proof.
  intros (Hq & Hr & Ht & Hi & He & Ha & Hc).
  assert (Hk : member_of (pm_mutation_kind (_permit_row p)) = Ok (bp_mutation_kind p))
    by (cbn; by destruct (bp_mutation_kind p)).
  unfold _permit_from_row. rewrite Hk. cbn. rewrite timestamps_read by done. cbn.
  rewrite !aware_utc, !aware_utcs by done. by destruct p.
Qed.

Lemma attempt_row_reads a permit_id replaces rows :
  timely_attempt a -> client_order_id_of rows replaces = oa_replaces_client_order_id a ->
  _attempt_from_row (new_attempt_row a permit_id replaces) rows = Ok a.
Proof.
  intros (Hq & Hr & Ht) Hc. unfold _attempt_from_row, new_attempt_row. cbn.
  rewrite timestamps_read by done. cbn. rewrite !aware_utcs, Hc by done. by destruct a.
Qed.

Lemma corrupt_not value : reconciliation_corrupt (_reconciliation_row value) value = false.
Proof.
  unfold reconciliation_corrupt, _reconciliation_row. cbn.
  by rewrite N.eqb_refl, !String.eqb_refl, eqb_reflx, bool_decide_eq_true_2.
Qed.

Lemma reconciliation_row_reads sweep expectation now value :
  evaluate sweep expectation now = Ok value -> is_aware now = true ->
  stored_sweep sweep -> stored_expectation expectation ->
  _reconciliation_from_row (_reconciliation_row value) = Ok value.
Proof.
  intros He Hn Hs Hx. destruct (evaluate_fields _ _ _ _ He) as (Es & Ex & Ea).
  unfold _reconciliation_from_row, _reconciliation_row.
  cbn [wa_expectation_payload wa_sweep_payload wa_accepted_at].
  rewrite Es, Ex, Ea, expectation_reads by done. cbn [mbind M_bind].
  rewrite sweep_reads by done. cbn [mbind M_bind]. rewrite aware_utc, He by done. cbn [mbind M_bind].
  pose proof (corrupt_not value) as Hc. unfold _reconciliation_row in Hc. rewrite Es, Ex, Ea in Hc.
  by rewrite Hc.
Qed.

(** ** Queries *)

Lemma rows_insert_new {K R} `{Countable K} (table : gmap K R) key row :
  table !! key = None -> rows (<[key := row]> table) ≡ₚ row :: rows table.
Proof. intros Hn. unfold rows. by rewrite map_to_list_insert. Qed.

Lemma filter_perm {A} (p : A -> bool) l l' : l ≡ₚ l' -> List.filter p l ≡ₚ List.filter p l'.
Proof.
  induction 1 as [|x l l' _ IH|x y l|l1 l2 l3 _ IH1 _ IH2]; cbn; [done| | |by etrans].
  - destruct (p x); [by constructor|done].
  - destruct (p x), (p y); [constructor|done..].
Qed.

Lemma filter_nil {A} (p : A -> bool) l : List.filter p l = [] <-> forall x, x ∈ l -> p x = false.
Proof.
  split.
  - intros E x Hx. destruct (p x) eqn:Ep; [|done]. exfalso.
    assert (In x (List.filter p l)) as H by (apply filter_In; split; [by apply list_elem_of_In|done]).
    by rewrite E in H.
  - intros H. destruct (List.filter p l) as [|x l'] eqn:E; [done|]. exfalso.
    assert (In x (List.filter p l)) as Hx by (rewrite E; by left). apply filter_In in Hx as [Hx Hp].
    rewrite H in Hp; [done|by apply list_elem_of_In].
Qed.

(** A query without answers has the row that is written as its only one. *)
Lemma where_ordered_first {K R} `{Countable K} (p : R -> bool) key_of (table : gmap K R) key row :
  where_ordered p key_of table = [] -> p row = true -> where_ordered p key_of (<[key := row]> table) = [row].
Proof.
  unfold where_ordered. intros Hn Hp.
  assert (Hnil : List.filter p (rows table) = []).
  { apply Permutation_nil_r. rewrite <- Hn. symmetry. apply merge_sort_Permutation. }
  apply Permutation_singleton_r. rewrite merge_sort_Permutation.
  rewrite <- (insert_delete_eq table key row).
  assert (Hperm : List.filter p (rows (<[key := row]> (delete key table))) ≡ₚ List.filter p (row :: rows (delete key table))).
  { apply filter_perm. apply rows_insert_new, lookup_delete_eq. }
  rewrite Hperm. cbn [List.filter]. rewrite Hp.
  replace (List.filter p (rows (delete key table))) with (@nil R); [done|]. symmetry.
  apply filter_nil. intros x [k Hk]%rows_elem. apply lookup_delete_Some in Hk as [_ Hk].
  eapply filter_nil; [exact Hnil|]. apply rows_elem. by exists k.
Qed.

Lemma reading_select {A B} (q : database -> A) (f : A -> txn B) db :
  reading (select q ≫= f) db = reading (f (q db)) db.
Proof. reflexivity. Qed.

Lemma reading_required {A B} e (a : A) (f : A -> txn B) db :
  reading (required e (Some a) ≫= f) db = reading (f a) db.
Proof. reflexivity. Qed.

Lemma reading_perform {A} (m : M A) db : reading (perform m) db = m.
Proof. by destruct m. Qed.

(** ** A preparation *)

Lemma trusted_now_aware clock now : _trusted_now clock = Ok now -> is_aware now = true.
Proof.
  unfold _trusted_now, astimezone_utc. intros [_ H]%guard_blocked_ok. cbv zeta in H.
  destruct (_ && _); [|done]. by injection H as <-.
Qed.

Lemma dt_add_aware t d t' : dt_add t d = Ok t' -> is_aware t = true -> is_aware t' = true.
Proof. unfold dt_add. cbv zeta. destruct (_ && _); [|done]. by intros [= <-]. Qed.

(** The first attempt replaces nothing. *)
Lemma submitted_replaces intent state attempt candidates e :
  _reconciliation_expectation_from_rows intent state SUBMIT attempt [] candidates = Ok e ->
  oa_replaces_client_order_id attempt = None.
Proof.
  unfold _reconciliation_expectation_from_rows. intros H.
  apply guard_blocked_ok in H as [_ H]. apply guard_blocked_ok in H as [_ H].
  apply bind_ok in H as (canonical & Hc & H). apply guard_blocked_ok in H as [He _].
  rewrite decide_False in Hc by done. unfold _canonical_attempt_for_mutation in Hc.
  apply bind_ok in Hc as (expected & Hx & [= <-]). unfold _prepared_attempt in Hx. inv_seq Hx.
  injection Hx as <-. apply lift_bool_ok, negb_false_iff in He. unfold attempt_eq in He.
  rewrite !andb_true_iff in He. destruct_and! He.
  by match goal with H : bool_decide (oa_replaces_client_order_id _ = _) = true |- _ =>
    apply bool_decide_eq_true in H end.
Qed.

Lemma submit_lineage_first s attempt permits observations hash now lg :
  lineage_of s SUBMIT attempt [] permits observations hash now = Ok lg ->
  lg_create lg = Some None /\ lg_attempts lg = [].
Proof. unfold lineage_of, submit_lineage. cbv zeta. intros [_ H]%guard_blocked_ok. by injection H as <-. Qed.

Lemma issued_timely s r claim attempt evaluated now permit :
  permit_authorized s r claim attempt evaluated now permit -> is_aware now = true ->
  timely_attempt attempt -> timely_permit permit.
Proof.
  intros H Hn (Hq & Hr & Ht). destruct (pa_lifetime _ _ _ _ _ _ _ H) as [Ei He].
  destruct (pa_prepared _ _ _ _ _ _ _ H) as [[_ [_ Hd]] [Hc _]].
  destruct (pa_quotes _ _ _ _ _ _ _ H) as (_ & _ & Eq & Er & Et & _). cbn in Hd.
  unfold timely_permit, opt_aware. rewrite Eq, Er, Et, Ei, Hd, Hc. split_and!; try done.
  by eapply dt_add_aware.
Qed.

(** C22: What a preparation returns is what the repository reads.  After a preparation
    that issued a permit, whose sweep, expectation and attempt are made of values that the
    contracts accept and of aware times, reading the permit gives the permit, and reading
    the reconciliation it is bound to gives the evaluation that was returned, hash, safety
    and block codes included; and the first submission of an intent is read back as its
    only attempt. *)
Theorem preparation_reads_back s reconciliation attempt claim clock clock' lock_id db db' p permit prepared :
  SqlPrepare.prepare_broker_mutation s reconciliation attempt claim clock clock' lock_id db = (db', Ok p) ->
  pr_permit p = Some permit -> pr_attempt p = Some prepared ->
  stored_sweep (wr_sweep reconciliation) -> stored_expectation (wr_expectation (pr_reconciliation p)) ->
  timely_attempt prepared ->
  reading (get_broker_mutation_permit (bp_permit_id permit)) db' = Ok permit /\
  reading (get_whole_account_reconciliation (bp_reconciliation_id permit)) db' = Ok (pr_reconciliation p) /\
  (bp_mutation_kind permit = SUBMIT -> attempt_rows_of (bp_intent_id permit) db = [] ->
     reading (SqlLookups.attempts_for (bp_intent_id permit)) db' = Ok [prepared]).
Proof.
  intros H Ep Ea Hsw Hex Ht.
  apply prepared_ok in H as (r & now & now' & Hr & Hn & H).
  destruct H as (_ & H). destruct H as [(Hnone & _)|H]; [congruence|].
  destruct H as (permit' & prepared' & expectation & Ep' & Ea' & _ & He & Hv & Hauth & _ & Hrow & Hlg & Hrec & _).
  rewrite Ep in Ep'. injection Ep' as <-. rewrite Ea in Ea'. injection Ea' as <-.
  pose proof (trusted_now_aware _ _ Hn) as Haw.
  pose proof (pa_reconciliation _ _ _ _ _ _ _ Hauth) as (Eid & _ & _).
  pose proof (pa_claim _ _ _ _ _ _ _ Hauth) as (Eintent & _).
  destruct (evaluate_fields _ _ _ _ Hv) as (_ & Eex & _). rewrite Eex in Hex. split_and!.
  - unfold get_broker_mutation_permit. rewrite reading_select, Hrow, reading_required, reading_perform.
    apply permit_row_reads. by eapply issued_timely.
  - unfold get_whole_account_reconciliation.
    rewrite reading_select, Eid, Hrec, reading_required, reading_perform.
    by apply (reconciliation_row_reads _ _ _ _ Hv).
  - intros Hsub Hnone. rewrite Eintent in *. destruct Hlg as (lg & Hl & _ & _ & Eat).
    pose proof (cr_attempts _ _ _ _ _ _ _ Hr) as Er. rewrite Hnone in Er. rewrite Hsub, Er in Hl.
    apply submit_lineage_first in Hl as [Hcreate Hsaved].
    assert (Hrows : attempt_rows_of (ir_intent_id (mr_intent r)) db' =
                    [new_attempt_row prepared (bp_permit_id permit) None]).
    { unfold attempt_rows_of. rewrite Eat. unfold attempts_issued. rewrite Hcreate, Hsaved. cbn [attempts_saved fold_left].
      apply where_ordered_first; [exact Hnone|]. cbn.
      destruct (pa_ordinal _ _ _ _ _ _ _ Hauth) as (_ & _ & ->). apply N.eqb_refl. }
    unfold SqlLookups.attempts_for. rewrite reading_select, Hrows, reading_perform.
    unfold _attempts_from_rows. cbn [map_m]. rewrite attempt_row_reads; [done|done|]. symmetry.
    destruct (pa_kind _ _ _ _ _ _ _ Hauth) as [Ek _]. rewrite Er in He.
    eapply submitted_replaces. rewrite <- He. f_equal.
    rewrite <- Hsub, Ek, Eex. by destruct (expectation_from_rows_ok _ _ _ _ _ _ _ He) as (_ & -> & _).
Qed.
