(* ===== verification/SqlAudit.v ===== *)
(** * The audit trail

    What the repository has recorded is never changed: the reconciliations, the
    observations, the states, the certificates, and what authorised an execution (theses,
    approvals, assessments, the agent's decisions) are only ever added to, whatever
    operations are made on the database, and what was added is read back. *)

From Stdlib Require Import ZArith Lia String Ascii List Bool QArith.
From stdpp Require Import base strings gmap option tactics relations list.
From S2P Require Import Prelude PyText PyDecimal PyDecimalFacts PyTime PyHash PyParse Contracts Exposure ExecModels OrderLimits OrderStatus Finalization ReconciliationData Reconciliation Permits Memory ExecutionService SqlSchema SqlCodec SqlRows SqlLookups SqlExpectation SqlOrigin SqlPrepare SqlFinalize SqlAccounts SqlAuthorizations SqlPorts SqlFacts SqlReads.

#[local] Open Scope string_scope.
#[local] Open Scope Z_scope.

(** ** Transactions that respect a preorder of databases *)

Section Respects.
Context (R : relation database) `{!PreOrder R}.

Definition respects {A} (t : txn A) : Prop := forall db a db', t db = Ok (a, db') -> R db db'.

Lemma respects_bind {A B} (t : txn A) (f : A -> txn B) :
  respects t -> (forall a, respects (f a)) -> respects (t ≫= f).
Proof.
  intros Ht Hf db b db' (a & db1 & H1 & H2)%txn_bind_ok. transitivity db1; [by eapply Ht|by eapply Hf].
Qed.
Lemma respects_ret {A} (a : A) : respects (mret a : txn A).
Proof. intros db b db' H. by inv_txn. Qed.
Lemma respects_perform {A} (m : M A) : respects (perform m).
Proof. intros db b db' H. by inv_txn. Qed.
Lemma respects_select {A} (q : database -> A) : respects (select q).
Proof. intros db b db' H. by inv_txn. Qed.
Lemma respects_select_m {A} (q : database -> M A) : respects (select_m q).
Proof. intros db b db' H. by inv_txn. Qed.
Lemma respects_raise {A} e : respects (@raise A e).
Proof. by intros db b db' H. Qed.
Lemma respects_required {A} e (v : option A) : respects (required e v).
Proof. intros db b db' H. by inv_txn. Qed.
Lemma respects_refuse c code : respects (refuse c code).
Proof. intros db b db' H. by inv_txn. Qed.
Lemma respects_flush : respects flush.
Proof. intros db b db' H. by inv_txn. Qed.
Lemma respects_write w : (forall db, R db (w db)) -> respects (write w).
Proof. intros Hw db b db' H. inv_txn. apply Hw. Qed.
Lemma respects_insert {K T} `{Countable K} (table : database -> gmap K T) set_table key row :
  (forall db, table db !! key = None -> R db (set_table db (<[key := row]> (table db)))) ->
  respects (insert_row table set_table key row).
Proof. intros Hw db b db' H'. inv_txn. by apply Hw. Qed.
Lemma respects_each {A} (f : A -> txn unit) l : (forall a, respects (f a)) -> respects (each_row f l).
Proof. intros Hf. induction l; cbn; [apply respects_ret|by apply respects_bind]. Qed.

Lemma respects_transaction {A} (t : txn A) db : respects t -> R db (transaction t db).1.
Proof. intros Ht. destruct (transaction_db t db) as [->|(a & db' & E & -> & _)]; [done|by eapply Ht]. Qed.
End Respects.

(** ** What is only added to *)

Record recorded (db db' : database) : Prop := {
  rec_states : db_states db ⊆ db_states db';
  rec_reconciliations : db_reconciliations db ⊆ db_reconciliations db';
  rec_observations : db_observations db ⊆ db_observations db';
  rec_certificates : db_certificates db ⊆ db_certificates db';
  rec_theses : db_theses (db_origins db) ⊆ db_theses (db_origins db');
  rec_approvals : db_entry_approvals (db_origins db) ⊆ db_entry_approvals (db_origins db');
  rec_assessments : db_assessments (db_origins db) ⊆ db_assessments (db_origins db');
  rec_decisions : db_decisions (db_origins db') = db_decisions (db_origins db);
  rec_snapshots : db_snapshots (db_origins db') = db_snapshots (db_origins db);
}.

#[export] Instance recorded_preorder : PreOrder recorded.
Proof.
  split; [by split|]. intros a b c H1 H2. destruct H1, H2. split; try (by etransitivity); congruence.
Qed.

(** The tables of a database whose table was written. *)
Ltac project_tables :=
  cbn [db_states db_reconciliations db_observations db_certificates db_theses db_entry_approvals
       db_assessments db_decisions db_snapshots db_origins set_db_accounts set_db_baselines
       set_db_states set_db_reconciliations set_db_permits set_db_observations set_db_intents
       set_db_attempts set_db_certificates set_db_budgets set_db_origins set_entry_approvals
       set_assessments set_theses].

(** A transaction that only adds to the record. *)
Ltac only_adds :=
  repeat (intros; cbn beta zeta;
    match goal with
    | |- respects _ (mbind _ _) => apply respects_bind
    | |- respects _ (mret _) => apply respects_ret
    | |- respects _ (perform _) => apply respects_perform
    | |- respects _ (select _) => apply respects_select
    | |- respects _ (select_m _) => apply respects_select_m
    | |- respects _ (raise _) => apply respects_raise
    | |- respects _ (required _ _) => apply respects_required
    | |- respects _ (refuse _ _) => apply respects_refuse
    | |- respects _ flush => apply respects_flush
    | |- respects _ (write _) => apply respects_write; intros; split; project_tables; reflexivity
    | |- respects _ (insert_row _ _ _ _) =>
        apply respects_insert; intros; split; project_tables;
          lazymatch goal with
          | |- _ ⊆ <[_:=_]> _ => by apply insert_subseteq
          | |- _ => reflexivity
          end
    | |- respects _ (each_row _ _) => apply respects_each
    | |- respects _ (match ?x with _ => _ end) => destruct x
    | |- PreOrder _ => apply recorded_preorder
    | |- respects _ ?t => let h := head_of t in unfold h
    end)
with head_of t := lazymatch t with ?f _ => head_of f | ?f => constr:(f) end.

(** ** The operations *)

Create HintDb recorded discriminated.

Lemma adds_claim s id actor role fingerprint clock token :
  respects recorded (SqlOrigin.claim_intent s id actor role fingerprint clock token).
Proof. only_adds. Qed.
Lemma adds_preparation s reconciliation attempt claim clock clock' id :
  respects recorded (preparation s reconciliation attempt claim clock clock' id).
Proof. only_adds. Qed.
Lemma adds_acquire id claim clock clock' nonce :
  respects recorded (SqlLookups.acquire_broker_dispatch id claim clock clock' nonce).
Proof. only_adds. Qed.
Lemma adds_observation s id observed source claim nonce clock :
  respects recorded (SqlLookups.record_attempt_observation s id observed source claim nonce clock).
Proof. only_adds. Qed.
Lemma adds_ambiguous id nonce claim :
  respects recorded (SqlLookups.mark_broker_dispatch_ambiguous id nonce claim).
Proof. only_adds. Qed.
Lemma adds_absence s id source claim clock lock :
  respects recorded (SqlLookups.record_attempt_absence s id source claim clock lock).
Proof. only_adds. Qed.
Lemma adds_targeted s claim clock id :
  respects recorded (SqlLookups.targeted_lookup_authority s claim clock id).
Proof. only_adds. Qed.
Lemma adds_lookup_failure id claim clock :
  respects recorded (SqlLookups.record_attempt_lookup_failure id claim clock).
Proof. only_adds. Qed.
Lemma adds_finalization validate s certificate r status claim greeks clock id :
  respects recorded (finalization validate s certificate r status claim greeks clock id).
Proof. only_adds. Qed.
#[export] Hint Resolve adds_claim adds_preparation adds_acquire adds_observation adds_ambiguous
  adds_absence adds_targeted adds_lookup_failure adds_finalization : recorded.

Lemma adds_stored_once guards code t db :
  respects recorded t -> recorded db (stored_once guards code t db).1.
Proof. intros Ht. unfold stored_once. destruct guards; [|reflexivity].
  exact (respects_transaction recorded t db Ht). Qed.

Section Trail.
Context (validate_greeks : GreekExposure -> M GreekExposure).
Context (baseline_model : SubmissionBaseline -> M SubmissionBaseline).
Context (s : settings).

Lemma recorded_call env c run db :
  call_repository validate_greeks s env c = Some run -> recorded db (run db).1.
Proof.
  intros H. destruct c; cbn in H; try discriminate H; injection H as <-; try reflexivity;
    try (unfold SqlPrepare.prepare_broker_mutation, SqlFinalize.finalize_execution_authorized,
           integrity_blocks; cbn [fst]);
    (apply respects_transaction; [apply recorded_preorder|auto with recorded]).
Qed.

Lemma recorded_upkeep env u db : recorded db (run_upkeep baseline_model env u db).
Proof.
  destruct u; cbn [run_upkeep];
    try (apply adds_stored_once; only_adds);
    try (apply respects_transaction; only_adds).
  - unfold SqlAccounts.capture_baseline. match goal with |- context [transaction ?t db] =>
      assert (K : recorded db (transaction t db).1) by (apply respects_transaction; only_adds);
      destruct (transaction t db) end. done.
  - unfold SqlOrigin.approve_intent. destruct (_ensure_executable_role role); [|reflexivity].
    assert (K : recorded db (transaction (approval intent_id role envelope) db).1)
      by (apply respects_transaction; only_adds).
    destruct (transaction _ db) as [db' [i|e]]; cbn in *; [done|]. by destruct e.
Qed.

Lemma recorded_history db db' :
  history validate_greeks baseline_model s db db' -> recorded db db'.
Proof.
  intros H. induction H as [db|db db1 db2 [env c run E|env u] _ IH]; [reflexivity|..].
  - etransitivity; [by eapply recorded_call|exact IH].
  - etransitivity; [apply recorded_upkeep|exact IH].
Qed.

(** ** Reading back *)

Lemma stored_once_ok guards code t db db' :
  stored_once guards code t db = (db', Ok tt) -> guards = Ok tt /\ t db = Ok (tt, db').
Proof.
  unfold stored_once, integrity_blocks. destruct guards as [[]|]; [|done].
  destruct (transaction t db) as [d [u'|e]] eqn:E; cbn; [|destruct e; done].
  intros [= <-]. destruct u'. apply transaction_ok in E as [E _]. done.
Qed.

Lemma role_executable role : role <> REPLAY -> _ensure_executable_role role = Ok tt.
Proof. intros H. unfold _ensure_executable_role. by rewrite bool_decide_eq_false_2. Qed.

Lemma unexperimental role (lineage : option ExperimentExecutionLineage) :
  role <> REPLAY -> lineage = None ->
  (_ ← _ensure_executable_role role;
   when not_null lineage then_ blocked EXPERIMENT_LINEAGE;; Ok tt) = Ok tt.
Proof. intros H ->. by rewrite role_executable. Qed.

Lemma no_lineage role (lineage : option ExperimentExecutionLineage) :
  (_ ← _ensure_executable_role role;
   when not_null lineage then_ blocked EXPERIMENT_LINEAGE;; Ok tt) = Ok tt -> lineage = None.
Proof. destruct (_ensure_executable_role role), lineage; done. Qed.

(** What is read back is what was added, with the decimals that the columns kept. *)
Definition stored_approval (approval : EntryApprovalAuthorization) (approved_max_loss : decimal)
    : authorization_origin :=
  mk_authorization_origin None (ea_thesis_version_id approval)
    (mk_AuthorizationValues (ea_account_role approval) (ea_policy_hash approval)
       (ea_book_fingerprint approval) (ea_envelope_hash approval) approved_max_loss
       (ea_quantity approval) (ea_valid approval) (ea_valid_from approval) (ea_expires_at approval)).

Definition stored_thesis (thesis : FrozenThesisVersion)
    (entry_atm_iv approved_max_loss portfolio_risk_cap : decimal) : FrozenThesisVersion :=
  mk_FrozenThesisVersion (ft_thesis_version_id thesis) (ft_thesis_id thesis)
    (ft_account_role thesis) (ft_version thesis) (ft_thesis_hash thesis) (ft_policy_hash thesis)
    (ft_underlying thesis) (ft_thesis_code thesis) (ft_frozen_at thesis) (ft_target_at thesis)
    (ft_intended_exposure thesis) (ft_exposure_limits thesis) (ft_volatility_view thesis)
    entry_atm_iv approved_max_loss portfolio_risk_cap (ft_invalidation_codes thesis)
    (ft_thesis_payload thesis) (ft_created_at thesis) (Some (origin_hash_of thesis)).

Definition stored_assessment (certificate : AssessmentCertificate) (approved_max_loss : decimal)
    : AssessmentCertificate :=
  mk_AssessmentCertificate (ct_certificate_id certificate) (ct_assessment_id certificate)
    (ct_thesis_version_id certificate) (ct_account_role certificate) (ct_action certificate)
    (ct_position_fingerprint certificate) (ct_envelope_hash certificate) approved_max_loss
    (ct_quantity certificate) (ct_expected_after_exposure certificate) (ct_policy_hash certificate)
    (ct_created_at certificate) (ct_expires_at certificate) (ct_valid certificate)
    (ct_experiment_lineage certificate).

Lemma approval_reads approval envelope row numeric db :
  entry_approval_row numeric approval = Ok row ->
  db_entry_approvals (db_origins db) !! ea_approval_id approval = Some row ->
  is_aware (ea_valid_from approval) = true -> is_aware (ea_expires_at approval) = true ->
  oe_authorization_certificate_id envelope = ea_approval_id approval -> oe_action envelope = EX_ENTRY ->
  exists loss, numeric 18 6 (ea_approved_max_loss approval) = Ok loss /\
    authorization_of envelope db = Ok (stored_approval approval loss).
Proof.
  intros (loss & Hl & [= <-])%bind_ok E H1 H2 Hi Ha. exists loss. split; [done|].
  unfold authorization_of. rewrite decide_True, Hi, E by done. cbn [ec_account_role].
  assert (K : member_of (enum_value (ea_account_role approval)) = Ok (ea_account_role approval))
    by (by destruct (ea_account_role approval)).
  cbn -[member_of]. rewrite K. cbn. by rewrite !aware_utc.
Qed.

Lemma thesis_reads thesis row numeric :
  thesis_row numeric thesis = Ok row ->
  is_aware (ft_frozen_at thesis) = true -> is_aware (ft_target_at thesis) = true ->
  is_aware (ft_created_at thesis) = true ->
  exists iv loss cap, numeric 18 8 (ft_entry_atm_iv thesis) = Ok iv /\
    numeric 18 6 (ft_approved_max_loss thesis) = Ok loss /\
    numeric 18 6 (ft_portfolio_risk_cap thesis) = Ok cap /\
    _thesis_from_row row = Ok (stored_thesis thesis iv loss cap).
Proof.
  intros (iv & Hi & (loss & Hl & (cap & Hc & [= <-])%bind_ok)%bind_ok)%bind_ok H1 H2 H3.
  exists iv, loss, cap. split_and!; [done..|].
  assert (E : member_of (enum_value (ft_account_role thesis)) = Ok (ft_account_role thesis))
    by (by destruct (ft_account_role thesis)).
  unfold _thesis_from_row. cbn -[member_of]. rewrite E. cbn. by rewrite !aware_utc.
Qed.

Lemma assessment_reads certificate row numeric :
  assessment_row numeric certificate = Ok row ->
  is_aware (ct_created_at certificate) = true -> is_aware (ct_expires_at certificate) = true ->
  (forall e, ct_expected_after_exposure certificate = Some e -> validate_greeks e = Ok e) ->
  ct_experiment_lineage certificate = None ->
  exists loss, numeric 18 6 (ct_approved_max_loss certificate) = Ok loss /\
    _assessment_from_row validate_greeks row = Ok (stored_assessment certificate loss).
Proof.
  intros (loss & Hloss & [= <-])%bind_ok H1 H2 Hg Hl. exists loss. split; [done|].
  assert (E : member_of (enum_value (ct_account_role certificate)) = Ok (ct_account_role certificate))
    by (by destruct (ct_account_role certificate)).
  assert (E' : member_of (enum_value (ct_action certificate)) = Ok (ct_action certificate))
    by (by destruct (ct_action certificate)).
  assert (E'' : _exposure_from_json validate_greeks
                  (_exposure_to_json (ct_expected_after_exposure certificate))
                = Ok (ct_expected_after_exposure certificate)).
  { destruct (ct_expected_after_exposure certificate) as [e|] eqn:Ee; [|done].
    unfold _exposure_from_json, _exposure_to_json, unless_null.
    assert (K : (greeks ← (delta ← read "delta" decimal_of (_exposure_to_json (Some e));
                           gamma ← read "gamma" decimal_of (_exposure_to_json (Some e));
                           theta ← read "theta_per_day" decimal_of (_exposure_to_json (Some e));
                           vega ← read "vega_per_iv_point" decimal_of (_exposure_to_json (Some e));
                           validate_greeks (mk_GreekExposure delta gamma theta vega));
                 Ok (Some greeks)) = Ok (Some e)); [|exact K].
    eapply read_then; [|reflexivity]. unfold _exposure_to_json. read_document.
    destruct e. by apply Hg. }
  unfold _assessment_from_row, stored_assessment. cbn -[member_of _exposure_from_json _exposure_to_json].
  rewrite E, E', E''. cbn. by rewrite !aware_utc, Hl.
Qed.

(** ** The property *)

(** How the attempt to store again under an identifier that is taken is refused: as the
    columns refuse a decimal, or else as an attempt to change what is immutable. *)
Definition stored_already {A} (code : string) (row : M A) : M unit :=
  match row with
  | Ok _ | Raise IntegrityError => Raise (ExecutionBlocked code)
  | Raise e => Raise e
  end.

Lemma added_once {A} (table : database -> gmap uuid A) set_table key old (row : M A) guards code db :
  table db !! key = Some old -> guards = Ok tt ->
  stored_once guards code (row ← perform row; insert_row table set_table key row) db
    = (db, stored_already code row).
Proof.
  intros H ->. unfold stored_once, integrity_blocks, transaction, mbind, txn_bind, perform, insert_row.
  destruct row as [row|e]; cbn; [by rewrite H|by destruct e].
Qed.

(** What a transaction that stores a row did. *)
Lemma stored_row {A} (table : database -> gmap uuid A) set_table key (row : M A) guards code db db' :
  stored_once guards code (row ← perform row; insert_row table set_table key row) db = (db', Ok tt) ->
  guards = Ok tt /\ exists row', row = Ok row' /\ db' = set_table db (<[key := row']> (table db)).
Proof.
  intros [Hg (row' & db1 & Hp & Ha)%txn_bind_ok]%stored_once_ok. split; [done|].
  apply insert_row_ok in Ha as [_ ->]. exists row'. unfold perform in Hp.
  destruct row; [|done]. by injection Hp as -> ->.
Qed.

(** What SQL promises of a column [Numeric(18, scale)]: a decimal with at most [scale] places
    and 18 digits is kept as it is. *)
Definition fits (scale : Z) (d : decimal) : Prop := amount (- scale) (10 ^ 18 - 1) d.
Definition numeric_exact (numeric : numeric_columns) : Prop :=
  forall scale d, scale = 6 \/ scale = 8 -> fits scale d ->
    exists d', numeric 18 scale d = Ok d' /\ (dval d' == dval d)%Q.

(** The column keeps [d'] of [d], the same value where [d] fits. *)
Definition kept_as (numeric : numeric_columns) (scale : Z) (d d' : decimal) : Prop :=
  numeric 18 scale d = Ok d' /\ (fits scale d -> (dval d' == dval d)%Q).

Lemma numeric_kept numeric scale d d' :
  numeric_exact numeric -> scale = 6 \/ scale = 8 -> numeric 18 scale d = Ok d' ->
  kept_as numeric scale d d'.
Proof.
  intros Hn Hs H. split; [done|]. intros Hf. destruct (Hn scale d Hs Hf) as (x & Hx & E). congruence.
Qed.

(** C21: The audit trail.  Whatever operations are made on the database, by the service and by
    its upkeep: a reconciliation, an observation, a state, an execution certificate, an entry
    approval, an assessment and a thesis that is in the database stays there as it is.  At any
    later moment a thesis that was added is read back with its origin hash filled in, an
    assessment as it was added and an approval with every value that the claim of its intent
    checks; their decimals are read back as the numeric columns kept them when they were
    added, which is the same value for a decimal of at most six places (eight for the
    volatility) and eighteen digits, and otherwise what the database makes of it.  No later one can take the identifier of any of
    them: the attempt to store it changes nothing and is blocked as an attempt to change what
    is immutable, unless the columns refuse its decimals before that. *)
Theorem record_immutable numeric db db' :
  numeric_exact numeric ->
  history validate_greeks baseline_model s db db' ->
  recorded db db' /\
  (forall thesis db0, add_thesis_version numeric thesis db0 = (db, Ok tt) ->
     is_aware (ft_frozen_at thesis) = true -> is_aware (ft_target_at thesis) = true ->
     is_aware (ft_created_at thesis) = true ->
     (exists iv loss cap, kept_as numeric 8 (ft_entry_atm_iv thesis) iv /\
        kept_as numeric 6 (ft_approved_max_loss thesis) loss /\
        kept_as numeric 6 (ft_portfolio_risk_cap thesis) cap /\
        get_thesis_version (ft_thesis_version_id thesis) db'
          = Ok (stored_thesis thesis iv loss cap)) /\
     forall numeric' other, ft_thesis_version_id other = ft_thesis_version_id thesis ->
       ft_account_role other <> REPLAY ->
       add_thesis_version numeric' other db'
         = (db', stored_already "THESIS_VERSION_IMMUTABLE" (thesis_row numeric' other))) /\
  (forall certificate db0, add_assessment_certificate numeric certificate db0 = (db, Ok tt) ->
     is_aware (ct_created_at certificate) = true -> is_aware (ct_expires_at certificate) = true ->
     (forall e, ct_expected_after_exposure certificate = Some e -> validate_greeks e = Ok e) ->
     (exists loss, kept_as numeric 6 (ct_approved_max_loss certificate) loss /\
        get_assessment_certificate validate_greeks (ct_certificate_id certificate) db'
          = Ok (stored_assessment certificate loss)) /\
     forall numeric' other, ct_certificate_id other = ct_certificate_id certificate ->
       ct_account_role other <> REPLAY -> ct_experiment_lineage other = None ->
       add_assessment_certificate numeric' other db'
         = (db', stored_already "CERTIFICATE_IMMUTABLE" (assessment_row numeric' other))) /\
  (forall approval db0 envelope, add_entry_approval numeric approval db0 = (db, Ok tt) ->
     is_aware (ea_valid_from approval) = true -> is_aware (ea_expires_at approval) = true ->
     oe_authorization_certificate_id envelope = ea_approval_id approval ->
     oe_action envelope = EX_ENTRY ->
     (exists loss, kept_as numeric 6 (ea_approved_max_loss approval) loss /\
        authorization_of envelope db' = Ok (stored_approval approval loss)) /\
     forall numeric' other, ea_approval_id other = ea_approval_id approval ->
       ea_account_role other <> REPLAY -> ea_experiment_lineage other = None ->
       add_entry_approval numeric' other db'
         = (db', stored_already "AUTHORIZATION_IMMUTABLE" (entry_approval_row numeric' other))).
Proof.
  intros Hn H%recorded_history. split; [exact H|]. split_and!.
  - intros thesis db0 [_ (row & Hrow & ->)]%stored_row H1 H2 H3.
    assert (E : db_theses (db_origins db') !! ft_thesis_version_id thesis = Some row)
      by (eapply lookup_weaken; [|apply (rec_theses _ _ H)]; apply lookup_insert_eq).
    split.
    + destruct (thesis_reads _ _ _ Hrow H1 H2 H3) as (iv & loss & cap & Hi & Hl & Hc & Hr).
      exists iv, loss, cap. unfold get_thesis_version. rewrite E.
      split_and!; [apply numeric_kept; auto..|exact Hr].
    + intros numeric' other Ei Hr. unfold add_thesis_version. rewrite Ei.
      eapply added_once; [exact E|by apply role_executable].
  - intros c db0 [Hg (row & Hrow & ->)]%stored_row H1 H2 Hv.
    assert (E : db_assessments (db_origins db') !! ct_certificate_id c = Some row)
      by (eapply lookup_weaken; [|apply (rec_assessments _ _ H)]; apply lookup_insert_eq).
    split.
    + destruct (assessment_reads _ _ _ Hrow H1 H2 Hv) as (loss & Hl & Hr); [by eapply no_lineage|].
      exists loss. unfold get_assessment_certificate. rewrite E. split; [apply numeric_kept; auto|exact Hr].
    + intros numeric' other Ei Hr Hl. unfold add_assessment_certificate. rewrite Ei.
      eapply added_once; [exact E|by apply unexperimental].
  - intros approval db0 envelope [_ (row & Hrow & ->)]%stored_row H1 H2 Hi Hac.
    assert (E : db_entry_approvals (db_origins db') !! ea_approval_id approval = Some row)
      by (eapply lookup_weaken; [|apply (rec_approvals _ _ H)]; apply lookup_insert_eq).
    split.
    + destruct (approval_reads _ _ _ _ _ Hrow E H1 H2 Hi Hac) as (loss & Hl & Hr).
      exists loss. split; [apply numeric_kept; auto|exact Hr].
    + intros numeric' other Ei Hr Hl. unfold add_entry_approval. rewrite Ei.
      eapply added_once; [exact E|by apply unexperimental].
Qed.
End Trail.
