(* ===== verification/SqlCodes.v ===== *)
(** * What the repository does not report

    That the cancellation of a working order is due is reported by the checks of a
    replacement only: of the calls of the service, by the plan, the preparation and the
    acquisition.  The service relies on it when it turns from a replacement to the
    cancellation. *)

From Stdlib Require Import ZArith Lia String Ascii List Bool.
From stdpp Require Import base strings gmap option tactics relations sorting list.
From S2P Require Import Prelude Program PyText PyDict PyDecimal PyTime PyHash PyParse Contracts Exposure ExecModels OrderLimits OrderStatus Identity Finalization ReconciliationData Reconciliation ReconciliationRaises ExecExposure Permits Memory Replacement ExecutionService ExecutionProtocol SqlSchema SqlCodec SqlRows AgentAuthority SqlLookups SqlExpectation SqlOrigin SqlPrepare SqlFinalize SqlAccounts SqlPorts SqlFacts.

#[local] Open Scope string_scope.
#[local] Open Scope Z_scope.

(** ** Rules *)

Definition undue_exn (e : exn) : Prop := blocked_code e <> Some CANCEL_DUE.
Definition undue {A} (m : M A) : Prop := forall e, m = Raise e -> undue_exn e.

Lemma undue_unblocked {A} (m : M A) : unblocked m -> undue m.
Proof. intros H e He. unfold undue_exn. by rewrite (H e He). Qed.
Lemma undue_ok {A} (a : A) : undue (Ok a).
Proof. by intros e. Qed.
Lemma undue_raise {A} e : undue_exn e -> undue (@Raise A e).
Proof. by intros H e' [= ->]. Qed.
Lemma undue_bind {A B} (m : M A) (f : A -> M B) : undue m -> (forall a, undue (f a)) -> undue (m ≫= f).
Proof. intros Hm Hf e. destruct m as [a|e']; cbn; [apply Hf|]. intros [= ->]. by apply Hm. Qed.
Lemma undue_guard {A} (c : M bool) (r k : M A) : undue c -> undue r -> undue k -> undue (guard_m c r k).
Proof. intros Hc Hr Hk. apply undue_bind; [done|]. by intros []. Qed.
Lemma undue_or a b : undue a -> undue b -> undue (or_m a b).
Proof. intros Ha Hb. apply undue_bind; [done|]. intros []; [apply undue_ok|done]. Qed.
Lemma undue_and a b : undue a -> undue b -> undue (and_m a b).
Proof. intros Ha Hb. apply undue_bind; [done|]. intros []; [done|apply undue_ok]. Qed.
Lemma undue_not a : undue a -> undue (not_m a).
Proof. intros Ha. apply undue_bind; [done|]. intros b. apply undue_ok. Qed.
Lemma undue_any {A} (f : A -> M bool) l : (forall a, undue (f a)) -> undue (any_m f l).
Proof. intros H. induction l as [|a l IH]; cbn; [apply undue_ok|by apply undue_or]. Qed.
Lemma undue_map {A B} (f : A -> M B) l : (forall a, undue (f a)) -> undue (map_m f l).
Proof.
  intros H. induction l as [|a l IH]; cbn; [apply undue_ok|].
  apply undue_bind; [done|]. intros b. apply undue_bind; [done|]. intros bs. apply undue_ok.
Qed.
Lemma undue_fold {A B} (f : A -> B -> M A) a l : (forall a b, undue (f a b)) -> undue (fold_m f a l).
Proof.
  intros H. revert a. induction l as [|b l IH]; intros a; cbn; [apply undue_ok|]. by apply undue_bind.
Qed.
Lemma undue_try {A} (m : M A) h : undue m -> (forall e, undue_exn e -> undue (h e)) -> undue (try_with m h).
Proof. intros Hm Hh. destruct m as [a|e]; cbn; [apply undue_ok|]. apply Hh. by apply Hm. Qed.

Create HintDb undue discriminated.

(** Another code is not this one. *)
Ltac other_code := solve [let H := fresh in intros H; vm_compute in H; discriminate H | assumption].

Ltac head_of t := lazymatch t with ?f _ => head_of f | _ => t end.

(** Structural rules, the lemmas of the operations, and the definitions of the others. *)
Ltac prove_undue :=
  repeat (intros;
    match goal with
    | |- undue (mbind _ _) => apply undue_bind
    | |- undue (guard_m _ _ _) => apply undue_guard
    | |- undue (or_m _ _) => apply undue_or
    | |- undue (and_m _ _) => apply undue_and
    | |- undue (not_m _) => apply undue_not
    | |- undue (any_m _ _) => apply undue_any
    | |- undue (map_m _ _) => apply undue_map
    | |- undue (fold_m _ _ _) => apply undue_fold
    | |- undue (try_with _ _) => apply undue_try
    | |- undue (Ok _) => apply undue_ok
    | |- undue (lift_bool _) => apply undue_ok
    | |- undue (Raise _) => apply undue_raise; other_code
    | |- undue (blocked _) => apply undue_raise; other_code
    | |- undue (match ?x with _ => _ end) => destruct x
    | |- undue _ => solve [eauto with undue]
    | |- undue ?m => let h := head_of m in progress unfold h; cbv zeta beta
    end).

(** ** Reading *)

Lemma undue_unless_null {A} (f : json -> M A) value : (forall v, undue (f v)) -> undue (unless_null f value).
Proof. intros H. unfold unless_null. destruct value; prove_undue. Qed.
Lemma undue_list_of {A} (f : json -> M A) value : (forall v, undue (f v)) -> undue (list_of f value).
Proof. intros H. prove_undue. Qed.
#[export] Hint Resolve undue_unless_null undue_list_of : undue.

Lemma undue_datetime_of v : undue (datetime_of v).
Proof. prove_undue. Qed.
Lemma undue_decimal_of v : undue (decimal_of v).
Proof. prove_undue. Qed.
Lemma undue_uuid_of v : undue (uuid_of v).
Proof. prove_undue. Qed.
Lemma undue_int_of v : undue (int_of v).
Proof. prove_undue. Qed.
Lemma undue_text_of v : undue (text_of v).
Proof. prove_undue. Qed.
Lemma undue_enum_of {A} `{StrEnum A} `{Members A} v : undue (enum_of (A := A) v).
Proof. prove_undue. Qed.
#[export] Hint Resolve undue_datetime_of undue_decimal_of undue_uuid_of undue_int_of undue_text_of undue_enum_of : undue.

Lemma undue_fromisoformat s : undue (datetime_fromisoformat s).
Proof. prove_undue. Qed.
#[export] Hint Resolve undue_fromisoformat : undue.

Lemma undue_attempt_from_json v : undue (_attempt_from_json v).
Proof. prove_undue. Qed.
Lemma undue_make_envelope e : undue (make_OrderEnvelope e).
Proof. prove_undue. Qed.
#[export] Hint Resolve undue_attempt_from_json undue_make_envelope : undue.

Lemma undue_envelope_from_json v : undue (_envelope_from_json v).
Proof. prove_undue. Qed.
Lemma undue_inventory_from_json v : undue (_inventory_from_json v).
Proof. prove_undue. Qed.
Lemma undue_open_order_from_json v : undue (_open_order_from_json v).
Proof. prove_undue. Qed.
Lemma undue_activity_from_json v : undue (_activity_from_json v).
Proof. prove_undue. Qed.
#[export] Hint Resolve undue_envelope_from_json undue_inventory_from_json undue_open_order_from_json
  undue_activity_from_json : undue.

(** ** Rows *)

Lemma undue_trusted_now t : undue (_trusted_now t).
Proof. prove_undue. Qed.
Lemma undue_member_of {A} `{StrEnum A} `{Members A} v : undue (member_of (A := A) v).
Proof. prove_undue. Qed.
Lemma undue_attempt_from_row row rows : undue (_attempt_from_row row rows).
Proof. prove_undue. Qed.
Lemma undue_attempts_from_rows rows : undue (_attempts_from_rows rows).
Proof. prove_undue; apply undue_attempt_from_row. Qed.
Lemma undue_intent_from_row row db : undue (_intent_from_row row db).
Proof. prove_undue. Qed.
Lemma undue_claim_fence intent account claim : undue (_verify_claim_fence intent account claim).
Proof. prove_undue. Qed.
Lemma undue_permit_from_row row : undue (_permit_from_row row).
Proof. prove_undue. Qed.
Lemma undue_creation_permit attempt permits : undue (_creation_permit attempt permits).
Proof. prove_undue. Qed.
#[export] Hint Resolve undue_trusted_now undue_member_of undue_attempt_from_row undue_attempts_from_rows
  undue_intent_from_row undue_claim_fence undue_permit_from_row undue_creation_permit : undue.
Lemma undue_execution_rows attempts permits : undue (_execution_attempt_rows attempts permits).
Proof. prove_undue. Qed.
#[export] Hint Resolve undue_execution_rows : undue.

(** ** Transactions *)

Definition never_due {A} (t : txn A) : Prop := forall db, undue (t db).

Lemma never_bind {A B} (t : txn A) (f : A -> txn B) :
  never_due t -> (forall a, never_due (f a)) -> never_due (t ≫= f).
Proof.
  intros Ht Hf db e. change ((t ≫= f) db) with (match t db with Ok (a, db1) => f a db1 | Raise e => Raise e end).
  destruct (t db) as [[a db1]|e'] eqn:E; [apply Hf|]. intros [= ->]. by apply (Ht db).
Qed.
Lemma never_ret {A} (a : A) : never_due (mret a : txn A).
Proof. by intros db e. Qed.
Lemma never_perform {A} (m : M A) : undue m -> never_due (perform m).
Proof. intros H db. apply undue_bind; [done|]. intros a. apply undue_ok. Qed.
Lemma never_select {A} (q : database -> A) : never_due (select q).
Proof. by intros db e. Qed.
Lemma never_select_m {A} (q : database -> M A) : (forall db, undue (q db)) -> never_due (select_m q).
Proof. intros H db. apply undue_bind; [apply H|]. intros a. apply undue_ok. Qed.
Lemma never_raise {A} e : undue_exn e -> never_due (@raise A e).
Proof. intros H db. by apply undue_raise. Qed.
Lemma never_required {A} e (v : option A) : undue_exn e -> never_due (required e v).
Proof. intros H. destruct v; [apply never_ret|by apply never_raise]. Qed.
Lemma never_refuse c code : undue c -> undue_exn (ExecutionBlocked code) -> never_due (refuse c code).
Proof. intros Hc H. apply never_perform, undue_guard; [done|by apply undue_raise|apply undue_ok]. Qed.
Lemma never_write w : never_due (write w).
Proof. by intros db e. Qed.
Lemma never_flush : never_due flush.
Proof. intros db e. unfold flush. destruct (schema_ok db); [done|]. by intros [= <-]. Qed.
Lemma never_insert {K R} `{Countable K} (table : database -> gmap K R) set_table key row :
  never_due (insert_row table set_table key row).
Proof. intros db e. unfold insert_row. destruct (table db !! key); [|done]. by intros [= <-]. Qed.
Lemma never_each {A} (f : A -> txn unit) l : (forall a, never_due (f a)) -> never_due (each_row f l).
Proof. intros Hf. induction l; cbn; [apply never_ret|by apply never_bind]. Qed.

Create HintDb never discriminated.

Ltac prove_never :=
  repeat (intros;
    match goal with
    | |- never_due (mbind _ _) => apply never_bind
    | |- never_due (mret _) => apply never_ret
    | |- never_due (perform _) => apply never_perform
    | |- never_due (select _) => apply never_select
    | |- never_due (select_m _) => apply never_select_m
    | |- never_due (raise _) => apply never_raise; other_code
    | |- never_due (required _ _) => apply never_required; other_code
    | |- never_due (refuse _ _) => apply never_refuse; [|other_code]
    | |- never_due (write _) => apply never_write
    | |- never_due flush => apply never_flush
    | |- never_due (insert_row _ _ _ _) => apply never_insert
    | |- never_due (each_row _ _) => apply never_each
    | |- never_due (match ?x with _ => _ end) => destruct x
    | |- never_due _ => solve [eauto with never]
    | |- never_due ?t => let h := head_of t in progress unfold h; cbv zeta beta
    | |- undue _ => progress prove_undue
    end).

(** ** The calls of the service *)

Lemma never_claimed_rows claim : never_due (claimed_rows claim).
Proof. prove_never. Qed.
Lemma never_permit_context id claim : never_due (permit_context id claim).
Proof. prove_never. Qed.
#[export] Hint Resolve never_claimed_rows never_permit_context : never.

Lemma never_get_intent id : never_due (SqlOrigin.get_intent id).
Proof. prove_never. Qed.
Lemma never_trusted_time claim clock : never_due (SqlLookups.trusted_execution_time claim clock).
Proof. prove_never. Qed.
Lemma never_attempts_for id : never_due (SqlLookups.attempts_for id).
Proof. prove_never. Qed.
Lemma never_execution_attempts_for id : never_due (SqlLookups.execution_attempts_for id).
Proof. prove_never. Qed.
Lemma never_mark id nonce claim : never_due (SqlLookups.mark_broker_dispatch_ambiguous id nonce claim).
Proof. prove_never. Qed.
Lemma never_lookup_failure id claim clock : never_due (SqlLookups.record_attempt_lookup_failure id claim clock).
Proof. prove_never. Qed.
Lemma never_absence s id source claim clock lock :
  never_due (SqlLookups.record_attempt_absence s id source claim clock lock).
Proof. prove_never. Qed.
Lemma never_record s id observed source claim nonce clock :
  never_due (SqlLookups.record_attempt_observation s id observed source claim nonce clock).
Proof. prove_never. Qed.
Lemma never_next claim clock : never_due (SqlLookups.next_broker_mutation claim clock).
Proof. prove_never. Qed.

(** The codes of the entry limits. *)
Lemma undue_blocks_bind {A B} (m : M A) (f : A -> M B) :
  undue (value_error_blocks m) -> (forall a, undue (value_error_blocks (f a))) ->
  undue (value_error_blocks (m ≫= f)).
Proof. intros Hm Hf. destruct m as [a|e]; [apply Hf|]. intros e' He. apply Hm. destruct e; injection He as <-; reflexivity. Qed.
Lemma undue_blocks_guard {A} (c : M bool) (r k : M A) :
  undue (value_error_blocks c) -> undue (value_error_blocks r) -> undue (value_error_blocks k) ->
  undue (value_error_blocks (guard_m c r k)).
Proof. intros Hc Hr Hk. apply undue_blocks_bind; [done|]. by intros []. Qed.
Lemma undue_blocks_dadd a b : undue (value_error_blocks (dadd a b)).
Proof.
  unfold dadd, fix_. cbv zeta.
  repeat match goal with |- context [match ?x with _ => _ end] => destruct x end;
    intros e [= <-]; other_code.
Qed.
Lemma undue_blocks_compare (f : decimal -> decimal -> M bool) a b :
  (forall e, f a b = Raise e -> e = InvalidOperation) -> undue (value_error_blocks (f a b)).
Proof. intros H e. destruct (f a b) as [x|e'] eqn:E; cbn; [done|]. rewrite (H _ eq_refl). intros [= <-]. other_code. Qed.

Lemma undue_entry_limits limits policy risk quantity account budget :
  undue (SqlOrigin._validate_entry_limits limits policy risk quantity account budget).
Proof.
  unfold SqlOrigin._validate_entry_limits. destruct limits as [limits|]; [|prove_undue]. unfold validate_entry.
  repeat match goal with
  | |- undue (value_error_blocks (guard_m _ _ _)) => apply undue_blocks_guard
  | |- undue (value_error_blocks (mbind _ _)) => apply undue_blocks_bind; [apply undue_blocks_dadd|intros]
  | |- undue (value_error_blocks (Raise _)) => apply undue_raise; other_code
  | |- undue (value_error_blocks (Ok _)) => apply undue_ok
  | |- undue (value_error_blocks (lift_bool _)) => apply undue_ok
  | |- undue (value_error_blocks (?f ?a ?b)) => apply (undue_blocks_compare f); intros e;
      unfold f, dle, dlt; cbv zeta; repeat match goal with |- context [match ?x with _ => _ end] => destruct x end;
      congruence
  end.
Qed.
#[export] Hint Resolve undue_entry_limits : undue.

Lemma undue_validate_origin db intent now : undue (SqlOrigin._validate_origin db intent now).
Proof. prove_undue. Qed.
#[export] Hint Resolve undue_validate_origin : undue.

Lemma never_claim s id actor role fingerprint clock token :
  never_due (SqlOrigin.claim_intent s id actor role fingerprint clock token).
Proof. prove_never. Qed.

Lemma undue_state_observations state observations : undue (state_observations state observations).
Proof. induction observations; cbn [state_observations]; prove_undue. Qed.
#[export] Hint Resolve undue_state_observations : undue.

Lemma never_targeted_lookup s claim clock id :
  never_due (SqlLookups.targeted_lookup_authority s claim clock id).
Proof. prove_never. Qed.

(** *** Final expectations *)

Lemma undue_positions_after intent state attempt : undue (_positions_after_fill intent state attempt).
Proof. prove_undue. Qed.
Lemma undue_predates item t : undue (activity_predates_window item t).
Proof. prove_undue. Qed.
Lemma undue_filter {A} (p : A -> M bool) l : (forall x, undue (p x)) -> undue (filter_m p l).
Proof. intros H. induction l; cbn [filter_m]; prove_undue. Qed.
#[export] Hint Resolve undue_predates undue_filter : undue.

Lemma undue_bound_activities intent state attempt candidates final :
  undue (_bound_attempt_activities intent state attempt candidates final).
Proof. prove_undue. Qed.
Lemma undue_expectation_hash v : undue (expectation_hash_of v).
Proof.
  apply undue_unblocked. unfold expectation_hash_of. unblock.
  apply unblocked_members, unblocked_expectation_fields.
Qed.
#[export] Hint Resolve undue_expectation_hash : undue.

Lemma undue_repository_state v : undue (_from_repository_state v).
Proof. prove_undue. Qed.
#[export] Hint Resolve undue_positions_after undue_bound_activities undue_repository_state : undue.

Lemma undue_final_expectation intent state attempts observations permit candidates :
  undue (_final_reconciliation_expectation_from_rows intent state attempts observations permit candidates).
Proof. prove_undue. Qed.
#[export] Hint Resolve undue_final_expectation : undue.

Lemma never_final_expectation claim : never_due (SqlPrepare.final_reconciliation_expectation claim).
Proof. prove_never. Qed.

(** *** Finalisations *)

Lemma undue_evaluate sweep expectation now : undue (evaluate sweep expectation now).
Proof. apply undue_unblocked, unblocked_evaluate. Qed.
#[export] Hint Resolve undue_evaluate : undue.

Lemma undue_check_attempts intent previous attempts : undue (check_attempts intent previous attempts).
Proof. revert previous. induction attempts; intros previous; cbn [check_attempts]; prove_undue. Qed.
#[export] Hint Resolve undue_check_attempts : undue.

Lemma undue_validate_finalization intent attempts certificate reconciliation status now :
  undue (validate_finalization intent attempts certificate reconciliation status now).
Proof. prove_undue. Qed.
Lemma undue_make_state role fingerprint captured accepted cash positions orders activities through resolved :
  undue (make_AccountReconciliationState role fingerprint captured accepted cash positions orders activities through resolved).
Proof.
  unfold make_AccountReconciliationState. cbv zeta. apply undue_guard; [prove_undue|prove_undue|].
  apply undue_bind; [|prove_undue]. apply undue_unblocked, unblocked_fields, Forall_app. split.
  - repeat first [apply List.Forall_nil
                 |apply List.Forall_cons; [cbn [snd]; solve [eauto with unblocked]|]].
  - destruct (decide _); [apply List.Forall_nil|].
    apply List.Forall_cons; [cbn [snd]; eauto with unblocked|apply List.Forall_nil].
Qed.
Lemma undue_make_certificate c : undue (make_ExecutionCertificate c).
Proof. prove_undue. Qed.
#[export] Hint Resolve undue_validate_finalization undue_make_state undue_make_certificate : undue.

Lemma never_mutation_rows claim clock refused origin :
  (forall rows now, undue (origin rows now)) -> never_due (mutation_rows_of claim clock refused origin).
Proof. intros H. prove_never; apply H. Qed.

Lemma undue_origin_at rows now : undue (origin_at rows now).
Proof. prove_undue. Qed.

Section Finalizations.
Context (validate_greeks : GreekExposure -> M GreekExposure).
Context (Hvalidate : forall g, undue (validate_greeks g)).
Context (s : settings).

Lemma undue_actual_exposure positions greeks now :
  undue (reconcile_actual_exposure validate_greeks positions greeks now).
Proof. prove_undue. Qed.

Lemma never_certify r attempts evaluated latest permit certificate status greeks now id :
  never_due (certify validate_greeks s r attempts evaluated latest permit certificate status greeks now id).
Proof. prove_never; apply undue_actual_exposure. Qed.

Lemma never_finalization certificate reconciliation status claim greeks clock id :
  never_due (finalization validate_greeks s certificate reconciliation status claim greeks clock id).
Proof.
  unfold finalization. apply never_bind; [apply never_mutation_rows, undue_origin_at|].
  intros [r now]. cbv zeta.
  match goal with |- never_due (match ?m with Ok _ => _ | Raise _ => _ end) =>
    assert (Hm : undue m) by prove_undue; destruct m as [expectation|e] end.
  - prove_never.
  - destruct (evidence_mismatch e); [prove_never|]. apply never_raise. by apply Hm.
Qed.

Lemma never_get_certificate id : never_due (get_execution_certificate validate_greeks id).
Proof. prove_never. Qed.

(** ** The answers *)

Lemma transaction_undue {A} (t : txn A) db : never_due t -> undue (transaction t db).2.
Proof.
  intros H. unfold transaction. pose proof (H db) as Ht.
  destruct (t db) as [[a db']|e]; cbn; [destruct (schema_ok db'); cbn; [apply undue_ok|]|by intros e' [= <-]; apply Ht].
  apply undue_raise. other_code.
Qed.

Lemma reading_undue {A} (t : txn A) db : never_due t -> undue (read_only t db).2.
Proof.
  intros H. unfold read_only, reading. pose proof (H db) as Ht.
  destruct (t db) as [[a db']|e]; cbn; [apply undue_ok|]. intros e' [= <-]. by apply Ht.
Qed.

(** The repository answers as the service relies on. *)
Lemma repository_expected env c run db :
  call_repository validate_greeks s env c = Some run -> expected_answer c (run db).2.
Proof.
  intros H. destruct c; cbn in H; try discriminate H; injection H as <-; cbn [expected_answer]; try exact I;
    first [apply reading_undue|apply transaction_undue|idtac];
    auto using never_get_intent, never_trusted_time, never_attempts_for, never_execution_attempts_for,
      never_mark, never_lookup_failure, never_absence, never_record, never_next, never_claim,
      never_targeted_lookup, never_final_expectation, never_get_certificate.
  unfold finalize_execution_authorized, integrity_blocks. cbn [snd].
  apply undue_try; [apply transaction_undue, never_finalization|].
  intros e He. destruct e; try (by apply undue_raise); apply undue_raise; other_code.
Qed.
End Finalizations.
