(* ===== verification/SqlService.v ===== *)
(** * The service over the database

    The execution service, with the database as its repository: every call of the
    repository is answered by a transaction on the database, and between the calls other
    processes work on the same database, in any way.  What the service was proved to do
    under an assumption on the answers of its ports, it does there, and what it sends to
    the broker is sent under a dispatch that the database keeps for good. *)

From Stdlib Require Import ZArith Lia String Ascii List Bool.
From stdpp Require Import base strings gmap option tactics relations sorting list.
From S2P Require Import Prelude Program PyText PyDict PyDecimal PyTime PyHash PyParse Contracts Exposure ExecModels OrderLimits OrderStatus Identity Finalization ReconciliationData Reconciliation ReconciliationFacts ReconciliationRaises ExecExposure Permits Memory Replacement ExecutionService ExecutionProtocol ServiceProps ServiceSafety SqlSchema SqlCodec SqlRows AgentAuthority SqlLookups SqlExpectation SqlOrigin SqlPrepare SqlFinalize SqlAccounts SqlPorts SqlFacts SqlPermits SqlSafety SqlReads SqlCodes.

#[local] Open Scope string_scope.
#[local] Open Scope Z_scope.

(** ** What the answers say *)

Lemma planned_purpose claim purpose replacement clock db plan :
  reading (SqlPrepare.plan_broker_mutation claim purpose replacement clock) db = Ok plan ->
  ex_purpose (pl_expectation plan) = purpose.
Proof.
  unfold reading. intros H. apply bind_ok in H as ([p db'] & H & [= <-]).
  unfold SqlPrepare.plan_broker_mutation in H.
  apply txn_bind_ok in H as ([intent account] & db1 & _ & H).
  apply txn_bind_ok in H as (u & db2 & _ & H). apply txn_bind_ok in H as (now & db3 & _ & H).
  apply txn_bind_ok in H as (state & db4 & _ & H). apply txn_bind_ok in H as (attempts & db5 & _ & H).
  apply txn_bind_ok in H as (permits & db6 & _ & H). apply txn_bind_ok in H as (attempt & db7 & _ & H).
  apply txn_bind_ok in H as (expectation & db8 & [He _]%perform_ok & [-> _]%txn_ret_ok).
  by destruct (expectation_from_rows_ok _ _ _ _ _ _ _ He) as (_ & H & _).
Qed.

(** The permit of a preparation is stored, for the mutation of its reconciliation. *)
Lemma prepared_stored s reconciliation attempt claim clock clock' id db db' p permit :
  SqlPrepare.prepare_broker_mutation s reconciliation attempt claim clock clock' id db = (db', Ok p) ->
  pr_permit p = Some permit ->
  db_permits db' !! bp_permit_id permit = Some (_permit_row permit) /\
  bp_mutation_kind permit = ex_purpose (wr_expectation reconciliation).
Proof.
  intros H Ep. apply prepared_ok in H as (r & now & now' & _ & _ & _ & [(Hn & _)|H]); [congruence|].
  destruct H as (permit' & prepared & expectation & Ep' & _ & _ & He & Hv & Hauth & _ & Hrow & _).
  rewrite Ep in Ep'. injection Ep' as <-. split; [exact Hrow|].
  destruct (pa_kind _ _ _ _ _ _ _ Hauth) as [-> _]. destruct (evaluate_fields _ _ _ _ Hv) as (_ & -> & _).
  by destruct (expectation_from_rows_ok _ _ _ _ _ _ _ He) as (_ & -> & _).
Qed.

(** An acquisition that returns leaves the permit it returned, dispatching. *)
Lemma acquired_stored id claim clock clock' nonce db row permit db' :
  permits_keyed db -> db_permits db !! id = Some row ->
  transaction (SqlLookups.acquire_broker_dispatch id claim clock clock' nonce) db = (db', Ok permit) ->
  exists row', db_permits db' !! id = Some row' /\ issued_for row' = issued_for row /\
    pm_state row' = "DISPATCHING" /\ pm_dispatch_nonce row' = bp_dispatch_nonce permit.
Proof.
  intros Hk Hr [(row0 & now & Hp & _ & _ & _ & Hw & Hd)%acquire_ok _]%transaction_ok.
  rewrite Hr in Hp. injection Hp as <-. pose proof (Hk _ _ Hr) as E.
  unfold save_permit in Hw. apply write_ok in Hw as ->. cbn [pm_permit_id permit_with]. rewrite E.
  eexists. cbn [db_permits set_db_permits]. rewrite lookup_insert_eq. split; [reflexivity|]. split_and!; [done..|].
  unfold _permit_from_row in Hd. apply bind_ok in Hd as (kind & _ & Hd). apply bind_ok in Hd as (times & _ & Hd).
  by injection Hd as <-.
Qed.

Section Over.
Context (validate_greeks : GreekExposure -> M GreekExposure).
Context (Hvalidate : forall g, undue (validate_greeks g)).
Context (baseline_model : SubmissionBaseline -> M SubmissionBaseline).
Context (s : settings).

Abbreviation evolves := (history validate_greeks baseline_model s).

(** The call is answered by the repository, at some readings of the clock and some fresh
    identifier; or it is not the repository's, and its answer is as the service relies on. *)
Definition answers (db : database) (c : port) (r : M (answer c)) (db' : database) : Prop :=
  (exists env run, call_repository validate_greeks s env c = Some run /\ run db = (db', r)) \/
  ((forall env, call_repository validate_greeks s env c = None) /\ expected_answer c r /\ db' = db).

(** A trace of the service from one database to another, with the operations of other
    processes before every call and at the end. *)
Fixpoint served (db : database) (t : list (event answer)) (db' : database) : Prop :=
  match t with
  | [] => evolves db db'
  | Event c r :: t => exists db1 db2, evolves db db1 /\ answers db1 c r db2 /\ served db2 t db'
  end.

Lemma answers_expected db c r db' : answers db c r db' -> expected_answer c r.
Proof.
  intros [(env & run & Hc & Hr)|(_ & H & _)]; [|exact H].
  pose proof (repository_expected validate_greeks Hvalidate s env c run db Hc) as H. by rewrite Hr in H.
Qed.

Lemma answers_evolves db c r db' : answers db c r db' -> evolves db db'.
Proof.
  intros [(env & run & Hc & Hr)|(_ & _ & ->)]; [|apply rtc_refl].
  apply rtc_once. pose proof (call_step validate_greeks baseline_model s db env c run Hc) as H. by rewrite Hr in H.
Qed.

Lemma served_expected db t db' : served db t db' -> assumed_trace expected_answer t.
Proof.
  revert db. induction t as [|[c r] t IH]; intros db H; [by constructor|].
  destruct H as (db1 & db2 & _ & Ha & Ht). constructor; [by eapply answers_expected|by eapply IH].
Qed.

Lemma served_evolves db t db' : served db t db' -> evolves db db'.
Proof.
  revert db. induction t as [|[c r] t IH]; intros db H; [exact H|].
  destruct H as (db1 & db2 & H1 & Ha & Ht). etrans; [exact H1|]. etrans; [by eapply answers_evolves|by apply IH].
Qed.

Lemma served_app db t1 t2 db' : served db (t1 ++ t2)%list db' -> exists db1, served db t1 db1 /\ served db1 t2 db'.
Proof.
  revert db. induction t1 as [|[c r] t1 IH]; intros db H.
  - exists db. split; [apply rtc_refl|exact H].
  - destruct H as (db1 & db2 & H1 & Ha & Ht). destruct (IH _ Ht) as (db3 & H3 & H4).
    exists db3. split; [|exact H4]. by exists db1, db2.
Qed.

(** ** Dispatches *)

(** The database keeps the dispatch of a mutation: its permit has it for good. *)
Definition dispatch_kept (purpose : ReconciliationPurpose) (permit_id nonce : uuid) (db : database) : Prop :=
  exists row, db_permits db !! permit_id = Some row /\ pm_mutation_kind row = enum_value purpose /\
    pm_dispatch_nonce row = Some nonce /\ pm_state row <> "PREPARED".

Lemma dispatch_stays purpose id nonce db db' :
  permits_keyed db -> dispatch_kept purpose id nonce db -> evolves db db' -> dispatch_kept purpose id nonce db'.
Proof.
  intros Hk (row & Hr & Hkind & Hn & Hs) He. destruct (kept_history _ _ _ _ _ Hk He) as [[_ O _] _].
  destruct (O _ _ Hr) as (row' & Hr' & Hst). destruct (steps_not_prepared _ _ Hst Hs) as (Hs' & En & _).
  exists row'. split_and!; [done| |by rewrite En|done]. rewrite <- Hkind.
  pose proof (steps_issued_for _ _ Hst) as Ei.
  by apply (f_equal pm_mutation_kind) in Ei.
Qed.

Lemma keyed_evolves db db' : permits_keyed db -> evolves db db' -> permits_keyed db'.
Proof. intros Hk He. by destruct (kept_history _ _ _ _ _ Hk He) as [[? _ _] _]. Qed.

Lemma other_answer db c r db' :
  (forall env, is_Some (call_repository validate_greeks s env c)) -> answers db c r db' ->
  exists env run, call_repository validate_greeks s env c = Some run /\ run db = (db', r).
Proof.
  intros Hc [H|(Hn & _)]; [exact H|]. exfalso. set (env := mk_environment (mk_datetime 0 None) (mk_datetime 0 None) 0%N
    (fun _ _ d => Ok d)).
  destruct (Hc env) as [run Hrun]. by rewrite (Hn env) in Hrun.
Qed.

(** What is planned, prepared and acquired is stored under the permit. *)
Lemma dispatch_served db claim purpose replacement plan evidence accepted reconciliation attempt prepared permit
    dispatch nonce db' :
  permits_keyed db ->
  served db [Event (PlanBrokerMutation claim purpose replacement) (Ok plan);
             Event (CollectSweep (pl_expectation plan)) (Ok evidence);
             Event (PrepareBrokerMutation reconciliation attempt claim) (Ok prepared);
             Event (AcquireBrokerDispatch (bp_permit_id permit) claim) (Ok dispatch)] db' ->
  evaluate (we_sweep evidence) (pl_expectation plan) accepted = Ok reconciliation ->
  pr_permit prepared = Some permit -> bp_dispatch_nonce dispatch = Some nonce ->
  dispatch_kept purpose (bp_permit_id permit) nonce db'.
Proof.
  intros Hk (db1 & db2 & E1 & A1 & db3 & db4 & E2 & A2 & db5 & db6 & E3 & A3 & db7 & db8 & E4 & A4 & E5) He Hp Hn.
  apply other_answer in A1 as (env1 & run1 & [= <-] & R1); [|by eexists].
  apply other_answer in A3 as (env3 & run3 & [= <-] & R3); [|by eexists].
  apply other_answer in A4 as (env4 & run4 & [= <-] & R4); [|by eexists].
  injection R1 as -> R1. apply planned_purpose in R1.
  destruct (prepared_stored _ _ _ _ _ _ _ _ _ _ _ R3 Hp) as [Hrow Hkind].
  destruct (evaluate_fields _ _ _ _ He) as (_ & Eex & _). rewrite Eex, R1 in Hkind.
  assert (K6 : permits_keyed db6).
  { apply (keyed_evolves db); [exact Hk|]. etrans; [exact E1|]. etrans; [exact E2|].
    etrans; [by eapply answers_evolves; exact A2|]. etrans; [exact E3|].
    apply rtc_once. pose proof (call_step validate_greeks baseline_model s db5 env3
      (PrepareBrokerMutation reconciliation attempt claim) _ eq_refl) as H.
    by rewrite R3 in H. }
  destruct (kept_history _ _ _ _ _ K6 E4) as [[K7 O _] _]. destruct (O _ _ Hrow) as (row & Hr & Hst).
  destruct (acquired_stored _ _ _ _ _ _ _ _ _ K7 Hr R4) as (row' & Hr' & Ei & Es & En).
  apply (dispatch_stays _ _ _ db8); [|exists row'; split_and!|exact E5].
  - apply (keyed_evolves db7); [exact K7|]. apply rtc_once.
    pose proof (call_step validate_greeks baseline_model s db7 env4
      (AcquireBrokerDispatch (bp_permit_id permit) claim) _ eq_refl) as H.
    by rewrite R4 in H.
  - exact Hr'.
  - apply (f_equal pm_mutation_kind) in Ei. cbn in Ei. rewrite Ei.
    pose proof (steps_issued_for _ _ Hst) as Ei'. apply (f_equal pm_mutation_kind) in Ei'. cbn in Ei'.
    rewrite Ei'. cbn. by rewrite Hkind.
  - by rewrite En.
  - by rewrite Es.
Qed.

(** No later acquisition with the permit succeeds. *)
Definition dispatched_once (permit_id : uuid) (db : database) : Prop :=
  forall later claim clock clock' nonce, evolves db later ->
    exists e, transaction (SqlLookups.acquire_broker_dispatch permit_id claim clock clock' nonce) later =
              (later, Raise e).

Lemma dispatch_kept_once purpose id nonce db :
  permits_keyed db -> dispatch_kept purpose id nonce db -> dispatched_once id db.
Proof.
  intros Hk Hd later claim clock clock' n He.
  destruct (dispatch_stays _ _ _ _ _ Hk Hd He) as (row & Hr & _ & _ & Hs).
  by eapply acquire_needs_prepared.
Qed.

Lemma ordered_purpose purpose claim plan attempt dispatch c :
  ordered purpose claim plan attempt dispatch c -> broker_purpose c = Some purpose.
Proof. destruct c; cbn; try done; by intros (-> & _). Qed.

(** C1: The service over the database.  A run of an advance whose repository is the
    database, with any operations of other processes between its calls and after them,
    follows the dispatch protocol and makes at most one call that changes orders at the
    broker.  That call is made under the plan, the sweep, the preparation and the
    acquisition just before it, and its outcome is recorded or marked just after it, or, when
    the broker refuses it by another exception, nothing is called after it; and the
    database keeps the permit of the acquisition, for the mutation that was sent, with the
    nonce of the dispatch, and lets no process dispatch it again, whatever happens later:
    no order is sent twice on one permit. *)
Theorem advance_over_database actor quotes role fingerprint intent_id account_role account_fingerprint t x db db' :
  permits_keyed db ->
  runs (advance quotes role fingerprint intent_id actor account_role account_fingerprint) t x ->
  served db t db' ->
  monitored (allowed actor) after start t /\ (length (mutations t) <= 1)%nat /\
  forall t1 c r t2 answered, t = (t1 ++ Event c r :: t2)%list -> broker_answer c r = Some answered ->
    disciplined t1 c answered t2 /\
    exists purpose permit_id nonce, broker_purpose c = Some purpose /\
      dispatch_kept purpose permit_id nonce db' /\ dispatched_once permit_id db'.
Proof.
  intros Hk Hr Hs. pose proof (served_expected _ _ _ Hs) as Hx.
  destruct (advance_monitored _ _ _ _ _ _ _ _ _ Hr Hx) as [Hm Hret]. split; [exact Hm|]. split.
  - rewrite <- (trace_mutations _ _ Hm). destruct (w_phase _); cbn; lia.
  - intros t1 c r t2 answered Ht Hb.
    pose proof (monitored_disciplined _ _ _ _ _ _ _ Hm (advance_no_debt _ _ Hret) Ht Hb
      ltac:(intros e -> He; by eapply (advance_raised _ _ _ _ _ _ _ _ _ _ _ _ _ _ Hr Hx Ht Hb))) as Hd.
    split; [exact Hd|].
    destruct Hd as (t0 & purpose & claim & replacement & plan & evidence & accepted & reconciliation & prepared
      & permit & attempt & dispatch & nonce & -> & He & Hp & _ & Hn & Ho & _).
    rewrite Ht in Hs. apply served_app in Hs as (db2 & H1 & H2). apply served_app in H1 as (db1 & H0 & H1).
    pose proof (keyed_evolves _ _ Hk (served_evolves _ _ _ H0)) as K1.
    pose proof (dispatch_served _ _ _ _ _ _ _ _ _ _ _ _ _ _ K1 H1 He Hp Hn) as Hkept.
    pose proof (keyed_evolves _ _ K1 (served_evolves _ _ _ H1)) as K2.
    pose proof (served_evolves _ _ _ H2) as E2. pose proof (dispatch_stays _ _ _ _ _ K2 Hkept E2) as Hfin.
    exists purpose, (bp_permit_id permit), nonce. split; [by eapply ordered_purpose|]. split; [exact Hfin|].
    eapply dispatch_kept_once; [by eapply keyed_evolves|exact Hfin].
Qed.
End Over.
