(* ===== verification/SqlSamples.v ===== *)
(** * An entry in the database

    A concrete history of the database (register, capture, initialise, enable, approve,
    claim, prepare, acquire), on the tables of a decision of the agent, whose databases
    instantiate the theorems on the repository. *)

From Stdlib Require Import ZArith Lia String Ascii List Bool QArith Lqa.
From stdpp Require Import base strings gmap option tactics relations sorting list.
From S2P Require Import Prelude PyText PyDecimal PyDecimalFacts PyTime PyHash PyParse Contracts Exposure ExecModels OrderLimits OrderStatus Identity Finalization ReconciliationData Reconciliation ReconciliationFacts ReconciliationRaises Permits Memory ExecutionService SqlSchema SqlCodec SqlRows AgentAuthority SqlLookups SqlExpectation SqlOrigin SqlPrepare SqlFinalize SqlAccounts SqlPorts SqlFacts SqlPermits SqlSafety SqlReads SqlAuthorizations SqlAudit Program PyDict ExecExposure Replacement ExecutionProtocol ServiceProps ServiceSafety SqlCodes SqlService.

#[local] Open Scope string_scope.
#[local] Open Scope Z_scope.

Definition moment (minute second : Z) : datetime := utc 2026 9 14 15 minute second.
Definition baseline_at : datetime := utc 2026 9 11 13 0 0.

Definition desk_settings : settings :=
  mk_settings (seconds 20) (seconds 20) (seconds 10)
    (Some {| limits_policy_hash := sha256_hex "policy"; equity_floor := Dint 95000;
             maximum_lifetime_entries := 10; maximum_lifetime_risk := Dint 11250;
             maximum_position_loss := Dint 1125; maximum_entry_quantity := 5 |}).

(** ** The decision of the agent *)

Definition tick_at : datetime := moment 0 0.

Definition desk_snapshot (input_hash : string) : AgentInputSnapshotRow :=
  {| ai_snapshot_id := 21%N; ai_thesis_version_id := Some 8%N; ai_account_role := "SUBMISSION";
     ai_account_fingerprint := sha256_hex "account"; ai_decision_kind := "OPPORTUNITY";
     ai_decision_boundary := tick_at; ai_observed_at := tick_at;
     ai_normalized_payload := JObj []; ai_input_hash := input_hash; ai_created_at := tick_at |}.

Definition desk_decision (result_hash : string) : AgentDecisionRow :=
  {| ad_decision_id := 22%N; ad_thesis_version_id := Some 8%N; ad_origin_tick_id := 23%N;
     ad_input_snapshot_id := 21%N; ad_account_role := "SUBMISSION";
     ad_account_fingerprint := sha256_hex "account"; ad_decision_kind := "OPPORTUNITY";
     ad_outcome := "ENTRY_APPROVED"; ad_reason_code := "APPROVED";
     ad_policy_hash := sha256_hex "policy"; ad_experiment_id := None;
     ad_experiment_source_definition_hash := None; ad_experiment_protocol_hash := None;
     ad_result_payload := JObj []; ad_result_hash := result_hash; ad_autonomy_authorized := true;
     ad_decision_boundary := tick_at; ad_created_at := tick_at |}.

Definition desk_tick : AgentTickRow :=
  {| ak_tick_id := 23%N; ak_account_role := "SUBMISSION";
     ak_account_fingerprint := sha256_hex "account"; ak_tick_key := "t"; ak_tick_boundary := tick_at;
     ak_actor := "SCHEDULER"; ak_status := "COMPLETED"; ak_reservation_token := 24%N;
     ak_terminal_code := None; ak_decision_id := Some 22%N; ak_execution_certificate_id := None;
     ak_proof_hash := None; ak_created_at := tick_at; ak_completed_at := Some tick_at |}.

Definition desk_thesis : ThesisVersionRow :=
  {| th_thesis_version_id := 8%N; th_thesis_id := 25%N; th_account_role := "SUBMISSION";
     th_version := 1; th_origin_hash := "o"; th_thesis_hash := "t";
     th_policy_hash := sha256_hex "policy"; th_underlying := "SPY"; th_thesis_code := "C";
     th_frozen_at := tick_at; th_target_at := moment 30 0; th_intended_exposure := JObj [];
     th_exposure_limits := JObj []; th_volatility_view := "UP"; th_entry_atm_iv := Dint 0;
     th_approved_max_loss := D 12000 (-2); th_portfolio_risk_cap := Dint 1125;
     th_invalidation_codes := []; th_thesis_payload := JObj []; th_created_at := tick_at |}.

Definition desk_approval : EntryApprovalCertificateRow :=
  {| ec_approval_id := 7%N; ec_thesis_version_id := 8%N; ec_agent_decision_id := Some 22%N;
     ec_account_role := "SUBMISSION"; ec_policy_hash := sha256_hex "policy";
     ec_experiment_id := None; ec_experiment_source_definition_hash := None;
     ec_experiment_protocol_hash := None; ec_book_fingerprint := sha256_hex "book";
     ec_envelope_hash := order_envelope_hash sample_envelope;
     ec_approved_max_loss := D 12000 (-2); ec_quantity := 1;
     ec_valid_from := utc 2026 9 14 14 59 0; ec_expires_at := moment 5 0; ec_valid := true |}.

Definition text_of (hash : M (option string)) : string :=
  match hash with Ok (Some hash) => hash | _ => EmptyString end.

Definition hashed_snapshot : AgentInputSnapshotRow :=
  desk_snapshot (text_of (expected_input_hash (desk_snapshot EmptyString))).

Definition value_or {A} (m : M A) (d : A) : A := match m with Ok a => a | Raise _ => d end.

(** The intent before it is claimed, as far as the hash of the result reads it. *)
Definition desk_intent : ExecutionIntent :=
  {| ei_intent_id := 5%N; ei_account_role := SUBMISSION; ei_envelope := sample_envelope;
     ei_digest := intent_digest sample_envelope; ei_state := APPROVED; ei_claimed_by := None;
     ei_claimed_at := None; ei_first_fill_consumed := false; ei_claim_token := None;
     ei_claim_generation := 0; ei_execution_epoch := 0; ei_heartbeat_at := None;
     ei_lease_expires_at := None |}.

Definition hashed_decision : AgentDecisionRow :=
  desk_decision (text_of (expected_result_hash desk_intent (desk_decision EmptyString) hashed_snapshot)).

Definition desk_origins : origin_tables :=
  mk_origin_tables {[7%N := desk_approval]} ∅ {[22%N := hashed_decision]} {[21%N := hashed_snapshot]}
    {[23%N := desk_tick]} {[8%N := desk_thesis]} ∅ ∅.

Definition empty_database : database := mk_database ∅ ∅ ∅ ∅ ∅ ∅ ∅ ∅ ∅ ∅ desk_origins.

(** ** What the account shows *)

Definition desk_account (minute second : Z) : AccountObservation :=
  {| ao_role := SUBMISSION; ao_account_fingerprint := sha256_hex "account"; ao_paper := true;
     ao_status := "ACTIVE"; ao_account_blocked := false; ao_trading_blocked := false;
     ao_options_trading_blocked := false; ao_equity := Dint 100000; ao_buying_power := Dint 50000;
     ao_cash := Dint 100000; ao_observed_at := moment minute second;
     ao_time_quality := "RETRIEVAL_TIME_ONLY" |}.

Definition funding : ActivityItem :=
  {| act_activity_id_hash := hex_of_N 64 9; act_activity_type := INITIAL_FUNDING;
     act_occurred_at := baseline_at; act_symbol := None; act_signed_quantity := Some (Dint 100000);
     act_provider_order_id := None; act_client_order_id := None;
     act_time_quality := "EXACT_TRANSACTION_TIME"; act_provider_activity_type := None |}.

(** The account as it was funded, in the minute after the hour. *)
Definition desk_sweep (minute : Z) : SweepObservation :=
  {| sw_retrieval_started_at := moment minute 1; sw_retrieval_completed_at := moment minute 5;
     sw_activity_pagination :=
       {| pe_requested_start := baseline_at; pe_requested_end := moment minute 2;
          pe_retrieved_through := moment minute 2; pe_established_at := moment minute 3;
          pe_page_count := 1; pe_terminal_page_seen := true;
          pe_visibility_complete_through := utc 2026 9 13 15 0 0;
          pe_visibility_horizon := hours 24 |};
     sw_first_account := desk_account minute 2; sw_final_account := desk_account minute 4;
     sw_first_positions := []; sw_final_positions := [];
     sw_first_open_orders := []; sw_final_open_orders := []; sw_activities := [funding];
     sw_positions_complete := true; sw_orders_complete := true |}.

(** ** The history *)

Definition keep_baseline (baseline : SubmissionBaseline) : M SubmissionBaseline := Ok baseline.
Definition keep_greeks (greeks : GreekExposure) : M GreekExposure := Ok greeks.
(** The numeric columns of a database that rounds half up, and refuses what has too many
    digits. *)
Definition numeric_column (precision scale : Z) (d : decimal) : M decimal :=
  match d with
  | Fin s c e =>
      let q := rescale ROUND_HALF_UP (Z.of_N c) e (- scale) in
      if 10 ^ precision <=? q then Raise (ValueError "numeric field overflow")
      else Ok (Fin s (Z.to_N q) (- scale))
  | _ => Raise (ValueError "not a number")
  end.

Definition at_time (t : datetime) (id : uuid) : environment := mk_environment t t id numeric_column.

Definition desk_upkeep : list (environment * upkeep) :=
  [(at_time (moment 0 6) 31%N, RegisterAccount SUBMISSION (sha256_hex "account") (Dint 100000));
   (at_time (moment 0 6) 31%N, CaptureBaseline SUBMISSION (sha256_hex "account") (Dint 100000)
      baseline_at (sha256_hex "p") (sha256_hex "o") (sha256_hex "a"));
   (at_time (moment 0 6) 31%N, InitializeReconciliationState (desk_sweep 0));
   (at_time (moment 0 6) 31%N, SetAutonomousEnabled SUBMISSION true OWNER);
   (at_time (moment 0 6) 31%N, ApproveIntent 5%N SUBMISSION sample_envelope)].

Definition approved_database : database :=
  fold_left (fun db step => run_upkeep keep_baseline step.1 step.2 db) desk_upkeep empty_database.

Definition prepared_order (request_hash : string) : OrderAttempt :=
  {| oa_intent_id := 5%N; oa_ordinal := 0; oa_client_order_id := EmptyString;
     oa_request_hash := request_hash; oa_state := "PREPARED"; oa_replaces_client_order_id := None;
     oa_provider_order_id := None; oa_filled_quantity := 0; oa_quantity := 1;
     oa_fill_cash_flow := None; oa_limit_price := None; oa_quote_hash := None;
     oa_quote_source_timestamps := []; oa_quote_retrieved_at := None;
     oa_timing_authority_at := None; oa_prior_request_hash := None |}.

(** The claim, and the plan of its submission. *)
Definition claimed_step : database * M ExecutionIntent :=
  transaction (SqlOrigin.claim_intent desk_settings 5%N SCHEDULER SUBMISSION (sha256_hex "account")
                 (moment 0 10) 32%N) approved_database.
Definition claimed_database : database := claimed_step.1.
Definition desk_claim : ExecutionIntent := value_or claimed_step.2 desk_intent.

Definition submission_plan : M BrokerMutationPlan :=
  reading (SqlPrepare.plan_broker_mutation desk_claim SUBMIT None (moment 1 0)) claimed_database.

Definition sample_plan : BrokerMutationPlan :=
  value_or submission_plan (mk_BrokerMutationPlan sample_expectation (prepared_order EmptyString)).

(** The account agrees with the plan. *)
Definition submission_review : M WholeAccountReconciliation :=
  evaluate (desk_sweep 1) (pl_expectation sample_plan) (moment 1 6).

(** The submission is prepared, at the time of the second reading of the clock. *)
Definition prepared_step (review : WholeAccountReconciliation)
    : database * M BrokerMutationPreparation :=
  SqlPrepare.prepare_broker_mutation desk_settings review (pl_attempt sample_plan) desk_claim
    (moment 1 7) (moment 1 8) 33%N claimed_database.

(** The dispatch of the permit that was prepared. *)
Definition acquired_step (permit : BrokerMutationPermit) (db : database)
    : database * M BrokerMutationPermit :=
  transaction (SqlLookups.acquire_broker_dispatch (bp_permit_id permit) desk_claim (moment 1 9)
                 (moment 1 9) 34%N) db.

(** What happens, evaluated once. *)
Lemma desk_evaluation :
  match submission_review with
  | Ok review =>
      let '(db, preparation) := prepared_step review in
      match preparation with
      | Ok preparation =>
          match pr_permit preparation with
          | Some permit => is_ok (acquired_step permit db).2
          | None => false
          end
      | Raise _ => false
      end
  | Raise _ => false
  end = true.
Proof. vm_compute. reflexivity. Qed.

Lemma desk_run :
  exists review db preparation permit db' permit',
    submission_review = Ok review /\ prepared_step review = (db, Ok preparation) /\
    pr_permit preparation = Some permit /\ acquired_step permit db = (db', Ok permit').
Proof.
  pose proof desk_evaluation as H. destruct submission_review as [review|e]; [|done].
  destruct (prepared_step review) as [db [preparation|e]] eqn:Ep; [|done].
  destruct (pr_permit preparation) as [permit|] eqn:Er; [|done].
  destruct (acquired_step permit db) as [db' [permit'|e]] eqn:Ea; [|discriminate H].
  exists review, db, preparation, permit, db', permit'. split; [reflexivity|]. split; [exact Ep|]. split; [exact Er|exact Ea].
Qed.

Lemma empty_schema : schema_ok empty_database = true.
Proof. vm_compute. reflexivity. Qed.

Lemma empty_keyed : permits_keyed empty_database.
Proof. intros id row H. cbn in H. by rewrite lookup_empty in H. Qed.

Abbreviation desk_history := (history keep_greeks keep_baseline desk_settings).

Lemma upkeep_history steps db :
  desk_history db (fold_left (fun db step => run_upkeep keep_baseline step.1 step.2 db) steps db).
Proof.
  revert db. induction steps as [|[env u] steps IH]; intros db; [apply rtc_refl|].
  eapply rtc_l; [apply upkeep_step|apply IH].
Qed.

Lemma call_history db env c run :
  call_repository keep_greeks desk_settings env c = Some run -> desk_history db (run db).1.
Proof. intros H. by apply rtc_once, (call_step _ _ _ _ env c). Qed.

Lemma approved_history : desk_history empty_database approved_database.
Proof. exact (upkeep_history desk_upkeep empty_database). Qed.

Lemma claimed_history : desk_history empty_database claimed_database.
Proof.
  transitivity approved_database; [exact approved_history|].
  exact (call_history approved_database (at_time (moment 0 10) 32%N)
           (ClaimIntentCall 5%N SCHEDULER (moment 0 10) SUBMISSION (sha256_hex "account")) _ eq_refl).
Qed.

Lemma prepared_history review db r : prepared_step review = (db, r) -> desk_history empty_database db.
Proof.
  intros H. transitivity claimed_database; [exact claimed_history|].
  pose proof (call_history claimed_database (mk_environment (moment 1 7) (moment 1 8) 33%N numeric_column)
    (PrepareBrokerMutation review (pl_attempt sample_plan) desk_claim) _ eq_refl) as Hc.
  change (desk_history claimed_database (prepared_step review).1) in Hc. by rewrite H in Hc.
Qed.

(** ** The theorems at these databases *)

Lemma permit_lifecycle_witness :
  exists db permit db' permit',
    permits_keyed empty_database /\ schema_ok empty_database = true /\ desk_history empty_database db /\
    acquired_step permit db = (db', Ok permit') /\
    forall later claim clock clock' nonce, desk_history db' later ->
      exists e, transaction (SqlLookups.acquire_broker_dispatch (bp_permit_id permit) claim clock clock' nonce)
                  later = (later, Raise e).
Proof.
  destruct desk_run as (review & db & preparation & permit & db' & permit' & _ & Hp & _ & Ha).
  pose proof (prepared_history _ _ _ Hp) as Hh.
  destruct (permit_lifecycle keep_greeks keep_baseline desk_settings empty_database db empty_keyed empty_schema Hh)
    as (_ & _ & _ & Honce).
  exists db, permit, db', permit'. split; [exact empty_keyed|]. split; [exact empty_schema|]. split; [exact Hh|].
  split; [exact Ha|]. intros later claim clock clock' nonce Hl. exact (Honce _ _ _ _ _ _ _ _ _ _ _ _ Ha Hl).
Defined.

Lemma preparation_authorized_witness :
  exists review db' preparation r now now',
    SqlPrepare.prepare_broker_mutation desk_settings review (pl_attempt sample_plan) desk_claim
      (moment 1 7) (moment 1 8) 33%N claimed_database = (db', Ok preparation) /\
    checked_rows desk_claim (moment 1 7) true (fun _ t => Ok t) claimed_database r now /\
    preparation_issued desk_settings r desk_claim review (pl_attempt sample_plan) now'
      claimed_database db' preparation.
Proof.
  destruct desk_run as (review & db & preparation & permit & db' & permit' & _ & Hp & Hsome & _).
  destruct (preparation_authorized _ _ _ _ _ _ _ _ _ _ Hp)
    as (r & now & now' & Hr & _ & _ & _ & [(Hnone & _)|Hi]); [by rewrite Hnone in Hsome|].
  exists review, db, preparation, r, now, now'. split; [exact Hp|]. split; [exact Hr|exact Hi].
Defined.

(** *** Reading back *)

#[export] Instance ActivityItem_eq_dec : EqDecision ActivityItem.
Proof. solve_decision. Defined.

(** Evaluates the checks of concrete values. *)
Ltac evaluate_values :=
  repeat lazymatch goal with
  | |- _ /\ _ => split
  | |- Forall _ (_ :: _) => apply List.Forall_cons
  | |- Forall _ [] => apply List.Forall_nil
  | |- valid_datetime _ => split
  | |- _ <= _ < _ => split
  end; vm_compute; first [reflexivity|discriminate].

Lemma desk_sweep_stored : stored_sweep (desk_sweep 1).
Proof.
  unfold stored_sweep, stored_pagination, stored_account, stored_activity.
  cbn [sw_first_positions sw_final_positions sw_first_open_orders sw_final_open_orders sw_activities desk_sweep
       sw_activity_pagination sw_first_account sw_final_account sw_retrieval_started_at sw_retrieval_completed_at].
  evaluate_values.
Qed.

Definition desk_preparation : M BrokerMutationPreparation :=
  review ← submission_review; (prepared_step review).2.

(** The values of the expectation are those the sweep showed. *)
Definition plain_expectation (e : ReconciliationExpectation) : bool :=
  bool_decide (ex_expected_positions e = []) && bool_decide (ex_expected_open_orders e = [])
  && bool_decide (ex_known_activities e = [funding]) && bool_decide (ex_intent_id e = 5%N)
  && bool_decide (ex_baseline_captured_at e = baseline_at)
  && bool_decide (ex_required_activity_window_start e = baseline_at)
  && bool_decide (ex_required_activity_complete_through e = baseline_at)
  && match _from_repository_state e with
     | Ok e' => String.eqb (ex_expectation_hash e') (ex_expectation_hash e)
     | Raise _ => false
     end.

Definition plain_attempt (a : OrderAttempt) : bool :=
  bool_decide (oa_quote_source_timestamps a = []) && bool_decide (oa_quote_retrieved_at a = None)
  && bool_decide (oa_timing_authority_at a = None).

Lemma desk_values :
  match desk_preparation with
  | Ok p => plain_expectation (wr_expectation (pr_reconciliation p))
            && match pr_attempt p with Some a => plain_attempt a | None => false end
  | Raise _ => false
  end = true.
Proof. vm_compute. reflexivity. Qed.

Lemma plain_stored e : plain_expectation e = true -> stored_expectation e.
Proof.
  unfold plain_expectation. intros H. rewrite !andb_true_iff, !bool_decide_eq_true in H. destruct_and! H.
  destruct (_from_repository_state e) as [e'|] eqn:Ee; [|done]. zbool.
  assert (e' = e) as -> by (rewrite (expectation_fields_kept _ _ Ee); match goal with H : ex_expectation_hash _ = _ |- _ => rewrite H end; by destruct e).
  unfold stored_expectation. rewrite Ee. repeat match goal with H : _ e = _ |- _ => try rewrite H; clear H end.
  split_and!; [done|done| | | |apply List.Forall_nil|apply List.Forall_nil|];
    unfold stored_activity; evaluate_values.
Qed.

Lemma plain_timely a : plain_attempt a = true -> timely_attempt a.
Proof.
  unfold plain_attempt, timely_attempt, opt_aware. rewrite !andb_true_iff, !bool_decide_eq_true.
  intros [[-> ->] ->]. split; [apply List.Forall_nil|]. by split; intros t [=].
Qed.

Lemma review_sweep review : submission_review = Ok review -> wr_sweep review = desk_sweep 1.
Proof. intros H. exact (proj1 (evaluate_fields _ _ _ _ H)). Qed.

Lemma preparation_reads_back_witness :
  exists review db preparation permit attempt,
    SqlPrepare.prepare_broker_mutation desk_settings review (pl_attempt sample_plan) desk_claim
      (moment 1 7) (moment 1 8) 33%N claimed_database = (db, Ok preparation) /\
    pr_permit preparation = Some permit /\ pr_attempt preparation = Some attempt /\
    stored_sweep (wr_sweep review) /\ stored_expectation (wr_expectation (pr_reconciliation preparation)) /\
    timely_attempt attempt /\
    reading (get_broker_mutation_permit (bp_permit_id permit)) db = Ok permit.
Proof.
  destruct desk_run as (review & db & preparation & permit & db' & permit' & Hrev & Hp & Hsome & _).
  pose proof desk_values as Hv. unfold desk_preparation in Hv. rewrite Hrev in Hv. cbn [mbind M_bind] in Hv.
  rewrite Hp in Hv. cbn [snd] in Hv. apply andb_prop in Hv as [He Ha].
  destruct (pr_attempt preparation) as [attempt|] eqn:Ea; [|discriminate Ha].
  pose proof (plain_stored _ He) as Hs. pose proof (plain_timely _ Ha) as Ht.
  assert (Hw : stored_sweep (wr_sweep review)) by (rewrite (review_sweep _ Hrev); exact desk_sweep_stored).
  destruct (preparation_reads_back _ _ _ _ _ _ _ _ _ _ _ _ Hp Hsome Ea Hw Hs Ht) as [Hr _].
  exists review, db, preparation, permit, attempt. split; [exact Hp|].
  split; [exact Hsome|]. split; [exact Ea|]. split; [exact Hw|]. split; [exact Hs|]. split; [exact Ht|exact Hr].
Defined.

(** ** Stored authorisations *)

Definition second_thesis (policy_hash : string) : FrozenThesisVersion :=
  {| ft_thesis_version_id := 40%N; ft_thesis_id := 41%N; ft_account_role := SUBMISSION;
     ft_version := 2; ft_thesis_hash := sha256_hex "thesis"; ft_policy_hash := policy_hash;
     ft_underlying := "SPY"; ft_thesis_code := "C"; ft_frozen_at := tick_at;
     ft_target_at := moment 30 0; ft_intended_exposure := JObj []; ft_exposure_limits := JObj [];
     ft_volatility_view := "UP"; ft_entry_atm_iv := D 2123456785 (-10); ft_approved_max_loss := Dint 120;
     ft_portfolio_risk_cap := Dint 1125; ft_invalidation_codes := ["GAP"];
     ft_thesis_payload := JObj []; ft_created_at := tick_at; ft_origin_hash := None |}.

Definition close_assessment (quantity : Z) : AssessmentCertificate :=
  {| ct_certificate_id := 42%N; ct_assessment_id := 43%N; ct_thesis_version_id := 40%N;
     ct_account_role := SUBMISSION; ct_action := EX_CLOSE;
     ct_position_fingerprint := sha256_hex "position"; ct_envelope_hash := sha256_hex "envelope";
     ct_approved_max_loss := Dint 120; ct_quantity := quantity;
     ct_expected_after_exposure := Some (mk_GreekExposure (Dint 0) (D 1 (-3)) (Dint 0) (Dint 0));
     ct_policy_hash := sha256_hex "policy"; ct_created_at := tick_at; ct_expires_at := moment 5 0;
     ct_valid := true; ct_experiment_lineage := None |}.

Definition thesis_database : database := (add_thesis_version numeric_column (second_thesis "p") empty_database).1.
Definition assessment_database : database :=
  (add_assessment_certificate numeric_column (close_assessment 1) thesis_database).1.
(** The authorisations, and what the desk does afterwards. *)
Definition later_database : database :=
  fold_left (fun db step => run_upkeep keep_baseline step.1 step.2 db) desk_upkeep assessment_database.

(** These columns keep what fits. *)
Lemma scaled_coefficient scale c e n :
  c * 10 ^ (e - Z.min e (- scale)) = n * 10 ^ (- scale - Z.min e (- scale)) ->
  rescale ROUND_HALF_UP c e (- scale) = n.
Proof.
  intros H. unfold rescale. destruct (Z.leb_spec (- scale) e) as [L|L].
  - rewrite Z.min_r in H by lia. rewrite Z.sub_diag, Z.pow_0_r, Z.mul_1_r in H. exact H.
  - rewrite Z.min_l in H by lia. rewrite Z.sub_diag, Z.pow_0_r, Z.mul_1_r in H. subst c.
    assert (0 < 10 ^ (- scale - e)) by (apply Z.pow_pos_nonneg; lia).
    unfold round_div. rewrite Z.div_mul, Z.mod_mul by lia.
    by rewrite (proj2 (Z.ltb_lt (2 * 0) _)) by lia.
Qed.

(** A decimal of this scale, as a multiple of the last place. *)
Lemma scaled_value scale s c e n :
  (dval (Fin s c e) == inject_Z n * p10 (- scale))%Q ->
  let g := Z.min e (- scale) in signed s c * 10 ^ (e - g) = n * 10 ^ (- scale - g).
Proof.
  intros E g.
  rewrite (dval_align s c e g), (p10_split g (- scale)), Qmult_assoc, <- inject_Z_mult in E by lia.
  apply Qmult_inj_r in E; [by apply inject_Z_injective|]. pose proof (p10_pos g). lra.
Qed.

Lemma numeric_column_exact : numeric_exact numeric_column.
Proof.
  intros scale d _ [(s & c & e & ->)%finite_inv (n & Hn & E)]. cbn [numeric_column].
  pose proof (scaled_value _ _ _ _ _ E) as Hg. cbv zeta in Hg.
  assert (Hq : exists m, 0 <= m /\ n = signed s (Z.to_N m) /\ rescale ROUND_HALF_UP (Z.of_N c) e (- scale) = m).
  { set (g := Z.min e (- scale)) in *.
    assert (0 < 10 ^ (- scale - g)) by (apply Z.pow_pos_nonneg; lia).
    assert (0 < 10 ^ (e - g)) by (apply Z.pow_pos_nonneg; lia).
    unfold signed in *. destruct s.
    - exists (- n). split; [nia|]. split; [rewrite Z2N.id by nia; lia|]. apply scaled_coefficient. fold g. lia.
    - exists n. split; [nia|]. split; [rewrite Z2N.id by nia; lia|]. apply scaled_coefficient. fold g. lia. }
  destruct Hq as (m & Hm & En & ->).
  assert (Habs : Z.abs n = m) by (rewrite En; unfold signed; destruct s; rewrite Z2N.id by done; lia).
  rewrite (proj2 (Z.leb_gt _ _)) by lia. eexists. split; [reflexivity|]. rewrite E. cbn [dval]. by rewrite En.
Qed.

Lemma thesis_added :
  add_thesis_version numeric_column (second_thesis "p") empty_database = (thesis_database, Ok tt).
Proof.
  assert (H : is_ok (add_thesis_version numeric_column (second_thesis "p") empty_database).2 = true)
    by (vm_compute; reflexivity).
  unfold thesis_database. by destruct (add_thesis_version _ _ _) as [db [[]|]].
Qed.

Lemma assessment_added :
  add_assessment_certificate numeric_column (close_assessment 1) thesis_database
    = (assessment_database, Ok tt).
Proof.
  assert (H : is_ok (add_assessment_certificate numeric_column (close_assessment 1) thesis_database).2
              = true) by (vm_compute; reflexivity).
  unfold assessment_database. by destruct (add_assessment_certificate _ _ _) as [db [[]|]].
Qed.

(** The volatility has ten places and is rounded; the loss is kept. *)
Lemma record_immutable_witness :
  add_thesis_version numeric_column (second_thesis "p") empty_database = (thesis_database, Ok tt) /\
  add_assessment_certificate numeric_column (close_assessment 1) thesis_database
    = (assessment_database, Ok tt) /\
  (exists loss cap, get_thesis_version 40%N later_database
     = Ok (stored_thesis (second_thesis "p") (D 21234568 (-8)) loss cap) /\ (dval loss == 120)%Q) /\
  add_thesis_version numeric_column (second_thesis "q") later_database
    = (later_database, Raise (ExecutionBlocked "THESIS_VERSION_IMMUTABLE")) /\
  (exists loss, get_assessment_certificate keep_greeks 42%N later_database
     = Ok (stored_assessment (close_assessment 1) loss)) /\
  add_assessment_certificate numeric_column (close_assessment 2) later_database
    = (later_database, Raise (ExecutionBlocked "CERTIFICATE_IMMUTABLE")).
Proof.
  assert (H2 : desk_history assessment_database later_database) by exact (upkeep_history desk_upkeep _).
  assert (H1 : desk_history thesis_database later_database).
  { eapply rtc_l; [|exact H2].
    exact (upkeep_step keep_greeks keep_baseline desk_settings thesis_database (at_time tick_at 0%N)
             (AddAssessmentCertificate (close_assessment 1))). }
  destruct (record_immutable keep_greeks keep_baseline desk_settings _ _ _ numeric_column_exact H1)
    as (_ & T & _ & _).
  destruct (record_immutable keep_greeks keep_baseline desk_settings _ _ _ numeric_column_exact H2)
    as (_ & _ & A & _).
  destruct (T _ _ thesis_added eq_refl eq_refl eq_refl) as [(iv & loss & cap & [Hiv _] & [_ Hloss] & _ & T1) T2].
  destruct (A _ _ assessment_added eq_refl eq_refl (fun e _ => eq_refl)) as [(loss' & _ & A1) A2].
  assert (Eiv : iv = D 21234568 (-8)).
  { assert (K : numeric_column 18 8 (D 2123456785 (-10)) = Ok (D 21234568 (-8))) by reflexivity.
    cbn [ft_entry_atm_iv second_thesis] in Hiv. congruence. }
  rewrite Eiv in T1.
  split; [exact thesis_added|]. split; [exact assessment_added|]. split.
  { exists loss, cap. split; [exact T1|]. cbn [ft_approved_max_loss second_thesis] in Hloss.
    rewrite Hloss; [apply dval_Dint|]. apply amount_D; [lia|vm_compute; discriminate]. }
  split; [exact (T2 numeric_column (second_thesis "q") eq_refl ltac:(discriminate))|].
  split; [exists loss'; exact A1|].
  exact (A2 numeric_column (close_assessment 2) eq_refl ltac:(discriminate) eq_refl).
Defined.

(** ** A run of the service over the database

    How a program is served by the database, as a function, and an advance of the service
    that submits the entry above: the composition of the service and the database at a
    concrete input. *)

Section Serve.
Context (validate_greeks : GreekExposure -> M GreekExposure).
Context (baseline_model : SubmissionBaseline -> M SubmissionBaseline).
Context (s : settings).
(** The answers of the other ports, and the environments of the calls. *)
Context (outside : forall c, M (answer c)) (environments : nat -> environment).

Fixpoint serve {A} (n : nat) (db : database) (p : prog answer A) : list (event answer) * M A * database :=
  match p with
  | Return a => ([], Ok a, db)
  | Throw e => ([], Raise e, db)
  | Call c k =>
      let '(db, r) := match call_repository validate_greeks s (environments n) c with
                      | Some run => run db
                      | None => (db, outside c)
                      end in
      let '(t, x, db) := serve (S n) db (k r) in (Event c r :: t, x, db)
  end.

Lemma repository_calls env env' c :
  call_repository validate_greeks s env c = None -> call_repository validate_greeks s env' c = None.
Proof. by destruct c. Qed.

Lemma serve_runs {A} n db (p : prog answer A) t x db' :
  (forall c, expected_answer c (outside c)) -> serve n db p = (t, x, db') ->
  runs p t x /\ served validate_greeks baseline_model s db t db'.
Proof.
  intros Ho. revert n db t. induction p as [a|e|c k IH]; intros n db t H; cbn in H.
  - injection H as <- <- <-. split; [done|apply rtc_refl].
  - injection H as <- <- <-. split; [done|apply rtc_refl].
  - destruct (match call_repository validate_greeks s (environments n) c with
              | Some run => run db | None => (db, outside c) end) as [db1 r] eqn:Er.
    destruct (serve (S n) db1 (k r)) as [[t1 x1] db2] eqn:Es. injection H as <- <- <-.
    destruct (IH _ _ _ _ Es) as [Hr Hs]. split; [by exists r, t1|].
    exists db, db1. split; [apply rtc_refl|]. split; [|exact Hs].
    destruct (call_repository validate_greeks s (environments n) c) as [run|] eqn:Ec.
    + left. by exists (environments n), run.
    + right. injection Er as <- <-. split; [|by split]. intros env. by eapply repository_calls.
Qed.
End Serve.

(** ** The submission of the entry *)

Definition desk_environment (n : nat) : environment :=
  mk_environment (moment 1 8) (moment 1 8) (100 + N.of_nat n)%N numeric_column.

Definition desk_fill : BrokerResult := mk_BrokerResult "p" "FILLED" 1 1 (Some (Dint (-110))).

(** The broker fills, the account is as it was funded. *)
Definition desk_outside (c : port) : M (answer c) :=
  match c with
  | BrokerSubmit _ _ | BrokerReplace _ _ _ | BrokerCancel _ => Ok desk_fill
  | BrokerLookup _ => Ok (Some desk_fill)
  | CollectSweep _ => Ok (mk_WholeAccountEvidence (desk_sweep 1) [])
  | CollectQuotes _ => Ok []
  | _ => Raise KeyError
  end.

Lemma desk_outside_expected c : expected_answer c (desk_outside c).
Proof. destruct c; cbn; try exact I; intros e [= <-]; discriminate. Qed.

Definition desk_advance : prog answer ExecutionAdvance :=
  advance true SUBMISSION (sha256_hex "account") 5%N SCHEDULER SUBMISSION (sha256_hex "account").

Definition desk_served : list (event answer) * M ExecutionAdvance * database :=
  serve keep_greeks desk_settings desk_outside desk_environment 0 approved_database desk_advance.

Lemma desk_submits : mutations desk_served.1.1 = [SUBMIT].
Proof. vm_compute. reflexivity. Qed.

(** The call that makes the mutation, and its answer. *)
Lemma mutation_event t purpose :
  mutations t = [purpose] ->
  exists t1 c r t2 answered, t = (t1 ++ Event c r :: t2)%list /\ broker_answer c r = Some answered.
Proof.
  induction t as [|[c r] t IH]; intros H; [done|]. destruct (broker_answer c r) as [answered|] eqn:Ea.
  - by exists [], c, r, t, answered.
  - assert (mutations t = [purpose]) as H' by (destruct c; try discriminate Ea; exact H).
    destruct (IH H') as (t1 & c' & r' & t2 & answered & -> & Hb). by exists (Event c r :: t1), c', r', t2, answered.
Qed.

Lemma approved_keyed : permits_keyed approved_database.
Proof. exact (keyed_evolves keep_greeks keep_baseline desk_settings _ _ empty_keyed approved_history). Qed.

Lemma keep_greeks_undue greeks : undue (keep_greeks greeks).
Proof. apply undue_ok. Qed.

Lemma advance_over_database_witness :
  exists t x db c r purpose permit_id nonce,
    runs desk_advance t x /\ served keep_greeks keep_baseline desk_settings approved_database t db /\
    In (Event c r) t /\ broker_purpose c = Some purpose /\
    dispatch_kept purpose permit_id nonce db /\
    dispatched_once keep_greeks keep_baseline desk_settings permit_id db.
Proof.
  pose proof desk_submits as Hm.
  destruct desk_served as [[t x] db] eqn:Es. cbn [fst] in Hm.
  destruct (serve_runs keep_greeks keep_baseline desk_settings desk_outside desk_environment 0
              approved_database desk_advance t x db desk_outside_expected Es) as [Hr Hs].
  destruct (mutation_event t SUBMIT Hm) as (t1 & c & r & t2 & answered & Ht & Hb).
  destruct (advance_over_database keep_greeks keep_greeks_undue keep_baseline desk_settings
              SCHEDULER true SUBMISSION (sha256_hex "account") 5%N SUBMISSION (sha256_hex "account")
              t x approved_database db approved_keyed Hr Hs) as (_ & _ & Hd).
  destruct (Hd t1 c r t2 answered Ht Hb) as (_ & purpose & permit_id & nonce & Hp & Hk & Ho).
  exists t, x, db, c, r, purpose, permit_id, nonce.
  assert (Hin : In (Event c r) t) by (rewrite Ht; apply in_elt).
  exact (conj Hr (conj Hs (conj Hin (conj Hp (conj Hk Ho))))).
Defined.
