(* ===== verification/HaltData.v ===== *)
(** * Trading halts: the records

    [backend/app/services/opportunity_halt_authority.py]: what the stream of a symbol
    delivers, the snapshot of the halt authority, and their canonical hashes.  The fields
    of the snapshot that the events change are the record [evidence]. *)

From Stdlib Require Import ZArith Lia String Ascii List Bool.
From stdpp Require Import base strings option tactics list.
From S2P Require Import Prelude PyText PyTime PyHash Contracts OpportunityData Identity.

#[local] Open Scope string_scope.
#[local] Open Scope Z_scope.

Inductive HaltAuthorityState :=
  | UNKNOWN | OPEN_CONFIRMED | HALTED_LATCHED | RESUME_PENDING.
#[export] Instance HaltAuthorityState_eq_dec : EqDecision HaltAuthorityState.
Proof. solve_decision. Defined.
#[export] Instance HaltAuthorityState_value : StrEnum HaltAuthorityState := fun s =>
  match s with
  | UNKNOWN => "UNKNOWN"
  | OPEN_CONFIRMED => "OPEN_CONFIRMED"
  | HALTED_LATCHED => "HALTED_LATCHED"
  | RESUME_PENDING => "RESUME_PENDING"
  end.

Inductive HaltCodeMeaning := HALT | RESUME.
#[export] Instance HaltCodeMeaning_eq_dec : EqDecision HaltCodeMeaning.
Proof. solve_decision. Defined.
#[export] Instance HaltCodeMeaning_value : StrEnum HaltCodeMeaning := fun m =>
  match m with HALT => "HALT" | RESUME => "RESUME" end.

Inductive HaltSequenceAuthority := ADAPTER_RECEIVE_ORDER_V1.
#[export] Instance HaltSequenceAuthority_eq_dec : EqDecision HaltSequenceAuthority.
Proof. solve_decision. Defined.
#[export] Instance HaltSequenceAuthority_value : StrEnum HaltSequenceAuthority := fun _ =>
  "ADAPTER_RECEIVE_ORDER_V1".

Inductive HaltAuthorityEventKind :=
  | EPOCH_ACK | TRADE | TRADING_STATUS | QUOTE | BAR | TRADABLE | RECONNECT | GAP | ERROR
  | MALFORMED | THREAD_DEAD.
#[export] Instance HaltAuthorityEventKind_eq_dec : EqDecision HaltAuthorityEventKind.
Proof. solve_decision. Defined.
#[export] Instance HaltAuthorityEventKind_value : StrEnum HaltAuthorityEventKind := fun k =>
  match k with
  | EPOCH_ACK => "EPOCH_ACK"
  | TRADE => "TRADE"
  | TRADING_STATUS => "TRADING_STATUS"
  | QUOTE => "QUOTE"
  | BAR => "BAR"
  | TRADABLE => "TRADABLE"
  | RECONNECT => "RECONNECT"
  | GAP => "GAP"
  | ERROR => "ERROR"
  | MALFORMED => "MALFORMED"
  | THREAD_DEAD => "THREAD_DEAD"
  end.

Record HaltStatusCodebook := mk_HaltStatusCodebook {
  cb_version : string;
  cb_feed : string;
  cb_sdk_version : string;
  cb_mappings : list (string * HaltCodeMeaning);
  cb_source_hash : string;
}.

Record HaltAuthorityConfig := mk_HaltAuthorityConfig {
  hc_symbol : string;
  hc_feed : string;
  hc_sdk_version : string;
  hc_session_date : date;
  hc_session_open_at : datetime;
  hc_session_close_at : datetime;
  hc_maximum_trade_age : timedelta;
  hc_sequence_authority : HaltSequenceAuthority;
  hc_codebook_hash : string;
  hc_source_hash : string;
}.

Record HaltAuthorityEvent := mk_HaltAuthorityEvent {
  he_kind : HaltAuthorityEventKind;
  he_symbol : string;
  he_epoch : string;
  he_sequence : Z;
  he_event_at : datetime;
  he_received_at : datetime;
  he_status_code : option string;
  he_trade_id : option string;
  he_source_hash : string;
}.

(** What a snapshot keeps of the events. *)
Record evidence := mk_evidence {
  ev_epoch : option string;
  ev_acknowledged_at : option datetime;
  ev_last_sequence : Z;
  ev_last_event_at : option datetime;
  ev_last_event_hash : option string;
  ev_decisive_event_hash : option string;
  ev_last_rejected_event_hash : option string;
  ev_last_trade_at : option datetime;
  ev_last_trade_id : option string;
  ev_last_trade_hash : option string;
  ev_halt_latched_at : option datetime;
  ev_halt_event_hash : option string;
}.

Record HaltAuthoritySnapshot := mk_HaltAuthoritySnapshot {
  hs_symbol : string;
  hs_feed : string;
  hs_sdk_version : string;
  hs_sequence_authority : HaltSequenceAuthority;
  hs_codebook_hash : string;
  hs_config_hash : string;
  hs_session_date : date;
  hs_session_open_at : datetime;
  hs_session_close_at : datetime;
  hs_evidence : evidence;
  hs_state : HaltAuthorityState;
  hs_transition_count : Z;
  hs_observed_at : datetime;
  hs_source_hash : string;
}.
Coercion hs_evidence : HaltAuthoritySnapshot >-> evidence.

(** [state in {HALTED_LATCHED, RESUME_PENDING}] *)
Definition latched (state : HaltAuthorityState) : bool :=
  match state with HALTED_LATCHED | RESUME_PENDING => true | _ => false end.

Definition trading_halt_state (self : HaltAuthoritySnapshot) : TradingHaltState :=
  match hs_state self with
  | OPEN_CONFIRMED => NOT_HALTED
  | HALTED_LATCHED | RESUME_PENDING => HALTED
  | UNKNOWN => HALT_UNKNOWN
  end.

(** ** Hashes *)

(** [type(value) is datetime and value.utcoffset() == timedelta(0)], in UTC *)
Definition _utc (value : datetime) (code : string) : M datetime :=
  if is_utc value then Ok value else Raise (HaltAuthorityError code).

Definition canonical_time (value : datetime) : M json :=
  value ← _utc value "HALT_TIME_INVALID"; Ok (JStr (isoformat_with true value)).
Definition canonical_optional_time (value : option datetime) : M json :=
  match value with Some value => canonical_time value | None => Ok JNull end.
Definition canonical_text (value : option string) : json :=
  match value with Some value => JStr value | None => JNull end.

Definition _canonical_hash (domain : string) (value : json) : string :=
  json_sha256 (JObj [("domain", JStr domain); ("value", value)]).

Definition halt_status_codebook_digest (value : HaltStatusCodebook) : string :=
  _canonical_hash "alphadecay.opportunity.halt-codebook.v1"
    (JObj [("version", JStr (cb_version value)); ("feed", JStr (cb_feed value));
           ("sdk_version", JStr (cb_sdk_version value));
           ("mappings", JArr (map (fun '(code, meaning) =>
              JArr [JStr code; JStr (enum_value meaning)]) (cb_mappings value)))]).

Definition halt_authority_config_digest (value : HaltAuthorityConfig) : M string :=
  session_open_at ← canonical_time (hc_session_open_at value);
  session_close_at ← canonical_time (hc_session_close_at value);
  Ok (_canonical_hash "alphadecay.opportunity.halt-config.v1"
    (JObj [("symbol", JStr (hc_symbol value)); ("feed", JStr (hc_feed value));
           ("sdk_version", JStr (hc_sdk_version value));
           ("session_date", JStr (date_isoformat (hc_session_date value)));
           ("session_open_at", session_open_at); ("session_close_at", session_close_at);
           ("maximum_trade_age", JInt (hc_maximum_trade_age value));
           ("sequence_authority", JStr (enum_value (hc_sequence_authority value)));
           ("codebook_hash", JStr (hc_codebook_hash value))])).

Definition halt_authority_event_digest (value : HaltAuthorityEvent) : M string :=
  event_at ← canonical_time (he_event_at value);
  received_at ← canonical_time (he_received_at value);
  Ok (_canonical_hash "alphadecay.opportunity.halt-event.v1"
    (JObj [("kind", JStr (enum_value (he_kind value))); ("symbol", JStr (he_symbol value));
           ("epoch", JStr (he_epoch value)); ("sequence", JInt (he_sequence value));
           ("event_at", event_at); ("received_at", received_at);
           ("status_code", canonical_text (he_status_code value));
           ("trade_id", canonical_text (he_trade_id value))])).

Definition halt_authority_snapshot_digest (value : HaltAuthoritySnapshot) : M string :=
  session_open_at ← canonical_time (hs_session_open_at value);
  session_close_at ← canonical_time (hs_session_close_at value);
  acknowledged_at ← canonical_optional_time (ev_acknowledged_at value);
  last_event_at ← canonical_optional_time (ev_last_event_at value);
  last_trade_at ← canonical_optional_time (ev_last_trade_at value);
  halt_latched_at ← canonical_optional_time (ev_halt_latched_at value);
  observed_at ← canonical_time (hs_observed_at value);
  Ok (_canonical_hash "alphadecay.opportunity.halt-authority.v1"
    (JObj [("symbol", JStr (hs_symbol value)); ("feed", JStr (hs_feed value));
           ("sdk_version", JStr (hs_sdk_version value));
           ("sequence_authority", JStr (enum_value (hs_sequence_authority value)));
           ("codebook_hash", JStr (hs_codebook_hash value));
           ("config_hash", JStr (hs_config_hash value));
           ("session_date", JStr (date_isoformat (hs_session_date value)));
           ("session_open_at", session_open_at); ("session_close_at", session_close_at);
           ("epoch", canonical_text (ev_epoch value)); ("acknowledged_at", acknowledged_at);
           ("state", JStr (enum_value (hs_state value)));
           ("last_sequence", JInt (ev_last_sequence value)); ("last_event_at", last_event_at);
           ("last_event_hash", canonical_text (ev_last_event_hash value));
           ("decisive_event_hash", canonical_text (ev_decisive_event_hash value));
           ("last_rejected_event_hash", canonical_text (ev_last_rejected_event_hash value));
           ("last_trade_at", last_trade_at);
           ("last_trade_id", canonical_text (ev_last_trade_id value));
           ("last_trade_hash", canonical_text (ev_last_trade_hash value));
           ("halt_latched_at", halt_latched_at);
           ("halt_event_hash", canonical_text (ev_halt_event_hash value));
           ("transition_count", JInt (hs_transition_count value));
           ("observed_at", observed_at)])).

(** [dataclasses.replace(value, source_hash=...)] *)
Definition with_source_hash (value : HaltAuthoritySnapshot) (source_hash : string)
    : HaltAuthoritySnapshot :=
  mk_HaltAuthoritySnapshot (hs_symbol value) (hs_feed value) (hs_sdk_version value)
    (hs_sequence_authority value) (hs_codebook_hash value) (hs_config_hash value)
    (hs_session_date value) (hs_session_open_at value) (hs_session_close_at value)
    (hs_evidence value) (hs_state value) (hs_transition_count value) (hs_observed_at value)
    source_hash.

Definition _with_digest (value : HaltAuthoritySnapshot) : M HaltAuthoritySnapshot :=
  source_hash ← halt_authority_snapshot_digest value; Ok (with_source_hash value source_hash).
