(* ===== verification/HaltAuthority.v ===== *)
(** * Trading halts: the authority

    [backend/app/services/opportunity_halt_authority.py]: [initial_halt_authority],
    [reduce_halt_authority] and [read_halt_authority], which reduce the events of the
    stream of a symbol to whether its trading is halted.  A halt is latched until a
    resumption and a later trade; whatever is out of order fails closed. *)

From Stdlib Require Import ZArith Lia String Ascii List Bool.
From stdpp Require Import base strings option tactics list.
From S2P Require Import Prelude PyText PyTime PyHash Contracts OpportunityData HaltData.

#[local] Open Scope string_scope.
#[local] Open Scope Z_scope.

Definition _READ_SKEW_TOLERANCE : timedelta := seconds 30.
Definition _FUTURE_TRADE_TOLERANCE : timedelta := seconds 5.
Definition _TRADE_ORDER_TOLERANCE : timedelta := seconds 5.

(** ** Checks of values *)

Definition is_none {A} (value : option A) : bool := match value with None => true | Some _ => false end.
Definition is_some {A} (value : option A) : bool := negb (is_none value).

Definition _nonblank_token (value : string) : bool :=
  str_nonempty value && String.eqb (str_strip value) value.
Definition nonblank_optional (value : option string) : bool :=
  match value with Some value => _nonblank_token value | None => false end.
Definition _optional_hash (value : option string) : bool :=
  match value with Some value => is_hash value | None => true end.
Definition _optional_utc (value : option datetime) : M (option datetime) :=
  match value with
  | None => Ok None
  | Some value => value ← _utc value "HALT_PREVIOUS_INVALID"; Ok (Some value)
  end.

(** [except (AttributeError, HaltAuthorityError, TypeError, ValueError): on_error] *)
Definition catching {A} (m on_error : M A) : M A :=
  try_with m (fun e =>
    match e with HaltAuthorityError _ | TypeError | ValueError _ => on_error | e => Raise e end).

(** [first is None or second is None or compare(first, second)] *)
Definition both_m (compare : datetime -> datetime -> M bool) (first second : option datetime) : M bool :=
  match first, second with Some first, Some second => compare first second | _, _ => Ok true end.

(** The tests of the types of the fields, which hold here, are left out. *)
Definition _validate_config (config : HaltAuthorityConfig) : M unit :=
  valid ← catching
    (forallb _nonblank_token [hc_symbol config; hc_feed config; hc_sdk_version config]
     &&& is_hash (hc_codebook_hash config)
     &&& (0 <? hc_maximum_trade_age config)
     &&& (hc_maximum_trade_age config <=? minutes 1)
     &&& (session_open_at ← _utc (hc_session_open_at config) "HALT_CONFIG_INVALID";
          session_close_at ← _utc (hc_session_close_at config) "HALT_CONFIG_INVALID";
          dt_lt session_open_at session_close_at)
     &&& (dt_date (hc_session_open_at config) =? dt_date (hc_session_close_at config))
     &&& (hc_session_date config =? dt_date (hc_session_open_at config))
     &&& (digest ← halt_authority_config_digest config;
          Ok (String.eqb (hc_source_hash config) digest)))
    (Raise (HaltAuthorityError "HALT_CONFIG_INVALID"));
  when negb valid then_ Raise (HaltAuthorityError "HALT_CONFIG_INVALID");; Ok tt.

(** *** The previous snapshot *)

Definition cross_scope_valid (previous : HaltAuthoritySnapshot) (config : HaltAuthorityConfig) : M bool :=
  (digest ← halt_authority_snapshot_digest previous;
   Ok (String.eqb (hs_source_hash previous) digest))
  &&& (String.eqb (hs_config_hash previous) (hc_source_hash config)
       && String.eqb (hs_symbol previous) (hc_symbol config)
       && String.eqb (hs_feed previous) (hc_feed config)
       && String.eqb (hs_sdk_version previous) (hc_sdk_version config)
       && bool_decide (hs_sequence_authority previous = hc_sequence_authority config)
       && String.eqb (hs_codebook_hash previous) (hc_codebook_hash config)
       && (hs_session_date previous =? hc_session_date config)
       && dt_eq (hs_session_open_at previous) (hc_session_open_at config)
       && dt_eq (hs_session_close_at previous) (hc_session_close_at config)).

Definition active_epoch_valid (e : evidence) : M bool :=
  (is_none (ev_acknowledged_at e) && (ev_last_sequence e =? 0))
  ||| ((match ev_epoch e with Some epoch => str_nonempty epoch | None => false end
        && is_some (ev_acknowledged_at e) && (1 <=? ev_last_sequence e) && is_some (ev_last_event_at e))
       &&& both_m dt_le (ev_acknowledged_at e) (ev_last_event_at e)).

Definition hash_pairs_valid (e : evidence) : bool :=
  Bool.eqb (is_none (ev_last_trade_at e)) (is_none (ev_last_trade_hash e))
  && Bool.eqb (is_none (ev_last_trade_hash e)) (is_none (ev_last_trade_id e))
  && Bool.eqb (is_none (ev_halt_latched_at e)) (is_none (ev_halt_event_hash e))
  && Bool.eqb (is_none (ev_last_event_at e)) (is_none (ev_last_event_hash e))
  && _optional_hash (ev_last_event_hash e)
  && _optional_hash (ev_decisive_event_hash e)
  && _optional_hash (ev_last_rejected_event_hash e)
  && _optional_hash (ev_last_trade_hash e)
  && _optional_hash (ev_halt_event_hash e)
  && (is_none (ev_last_trade_id e) || nonblank_optional (ev_last_trade_id e)).

Definition chronology_valid (e : evidence) (observed_at : datetime) : M bool :=
  both_m dt_le (ev_last_event_at e) (Some observed_at)
  &&& both_m dt_le (ev_last_trade_at e) (Some observed_at)
  &&& both_m dt_le (ev_halt_latched_at e) (Some observed_at)
  &&& both_m dt_le (ev_last_trade_at e) (ev_last_event_at e)
  &&& both_m dt_le (ev_halt_latched_at e) (ev_last_event_at e)
  &&& both_m dt_lt (ev_acknowledged_at e) (ev_last_trade_at e).

Definition state_valid (state : HaltAuthorityState) (e : evidence) : M bool :=
  match state with
  | UNKNOWN => Ok true
  | OPEN_CONFIRMED =>
      Ok (is_some (ev_acknowledged_at e) && is_some (ev_last_trade_at e)
          && is_none (ev_halt_latched_at e))
  | HALTED_LATCHED => Ok (is_some (ev_halt_latched_at e))
  | RESUME_PENDING =>
      (is_some (ev_halt_latched_at e) && is_some (ev_last_event_at e))
      &&& both_m dt_lt (ev_halt_latched_at e) (ev_last_event_at e)
  end.

Definition scalar_valid (previous : HaltAuthoritySnapshot) : bool :=
  (0 <=? ev_last_sequence previous) && (0 <=? hs_transition_count previous).

Definition previous_valid (previous : HaltAuthoritySnapshot) (config : HaltAuthorityConfig) : M bool :=
  cross_scope ← cross_scope_valid previous config;
  observed_at ← _utc (hs_observed_at previous) "HALT_PREVIOUS_INVALID";
  _ ← _optional_utc (ev_acknowledged_at previous);
  _ ← _optional_utc (ev_last_event_at previous);
  _ ← _optional_utc (ev_last_trade_at previous);
  _ ← _optional_utc (ev_halt_latched_at previous);
  active_epoch ← active_epoch_valid previous;
  let hash_pairs := hash_pairs_valid previous in
  chronology ← chronology_valid previous observed_at;
  state ← state_valid (hs_state previous) previous;
  let scalar := scalar_valid previous in
  Ok (forallb id [cross_scope; active_epoch; hash_pairs; chronology; state; scalar]).

Definition _validate_previous (previous : HaltAuthoritySnapshot) (config : HaltAuthorityConfig) : M unit :=
  valid ← catching (previous_valid previous config) (Raise (HaltAuthorityError "HALT_PREVIOUS_INVALID"));
  when negb valid then_ Raise (HaltAuthorityError "HALT_PREVIOUS_INVALID");; Ok tt.

(** *** The codebook and the event *)

Definition codes (codebook : HaltStatusCodebook) : list string := map fst (cb_mappings codebook).

Definition _codebook_valid (codebook : option HaltStatusCodebook) (config : HaltAuthorityConfig) : bool :=
  match codebook with
  | None => false
  | Some codebook =>
      str_nonempty (cb_version codebook) && str_nonempty (cb_feed codebook)
      && str_nonempty (cb_sdk_version codebook) && (0 <? length (cb_mappings codebook))%nat
      && bool_decide (NoDup (codes codebook)) && forallb str_nonempty (codes codebook)
      && String.eqb (cb_source_hash codebook) (halt_status_codebook_digest codebook)
      && String.eqb (cb_feed codebook) (hc_feed config)
      && String.eqb (cb_sdk_version codebook) (hc_sdk_version config)
      && String.eqb (cb_source_hash codebook) (hc_codebook_hash config)
  end.

(** [dict(codebook.mappings).get(code)] *)
Definition meaning_of (codebook : HaltStatusCodebook) (code : string) : option HaltCodeMeaning :=
  option_map snd (List.find (fun item => String.eqb item.1 code) (rev (cb_mappings codebook))).

Definition within (open_at close_at value : datetime) : M bool :=
  dt_le open_at value &&& dt_lt value close_at.

(** Whether the hash is that of the event; [None]: its times are invalid. *)
Definition digest_matches (event : HaltAuthorityEvent) : M (option bool) :=
  catching
    (_ ← _utc (he_event_at event) "HALT_EVENT_INVALID";
     _ ← _utc (he_received_at event) "HALT_EVENT_INVALID";
     digest ← halt_authority_event_digest event;
     Ok (Some (String.eqb (he_source_hash event) digest)))
    (Ok None).

Definition _event_valid (event : HaltAuthorityEvent) (config : HaltAuthorityConfig)
    (observed_at : datetime) : M bool :=
  matches ← digest_matches event;
  match matches with
  | None => Ok false
  | Some matches =>
      (String.eqb (he_symbol event) (hc_symbol config) && _nonblank_token (he_epoch event)
       && (0 <? he_sequence event))
      &&& within (hc_session_open_at config) (hc_session_close_at config) (he_event_at event)
      &&& (dt_le (he_event_at event) (he_received_at event)
           &&& dt_le (he_received_at event) observed_at)
      &&& lift_bool matches
  end.

Definition _inside_session (config : HaltAuthorityConfig) (observed_at : datetime) : M bool :=
  within (hc_session_open_at config) (hc_session_close_at config) observed_at.

(** Trades of a consolidated feed may share or slightly reorder exchange timestamps. *)
Definition _chronology_acceptable (last_event_at : datetime) (event : HaltAuthorityEvent) : M bool :=
  if bool_decide (he_kind event = TRADE) then
    late ← dt_sub last_event_at (he_event_at event); Ok (late <=? _TRADE_ORDER_TOLERANCE)
  else dt_lt last_event_at (he_event_at event).

Definition _validate_read_time (previous : HaltAuthoritySnapshot) (observed_at : datetime) : M unit :=
  behind ← dt_sub (hs_observed_at previous) observed_at;
  when _READ_SKEW_TOLERANCE <? behind then_ Raise (HaltAuthorityError "HALT_READ_TIME_REGRESSION");; Ok tt.

(** ** Transitions *)

Definition _replace_snapshot (previous : HaltAuthoritySnapshot) (state : HaltAuthorityState)
    (e : evidence) (transition_count : Z) (observed_at : datetime) : M HaltAuthoritySnapshot :=
  _with_digest
    {| hs_symbol := hs_symbol previous; hs_feed := hs_feed previous;
       hs_sdk_version := hs_sdk_version previous;
       hs_sequence_authority := hs_sequence_authority previous;
       hs_codebook_hash := hs_codebook_hash previous; hs_config_hash := hs_config_hash previous;
       hs_session_date := hs_session_date previous;
       hs_session_open_at := hs_session_open_at previous;
       hs_session_close_at := hs_session_close_at previous; hs_evidence := e; hs_state := state;
       hs_transition_count := transition_count; hs_observed_at := observed_at;
       hs_source_hash := "" |}.

Definition count_after (previous : HaltAuthoritySnapshot) (state : HaltAuthorityState) : Z :=
  if bool_decide (state = hs_state previous) then hs_transition_count previous
  else hs_transition_count previous + 1.

Definition _transition (previous : HaltAuthoritySnapshot) (state : HaltAuthorityState) (e : evidence)
    (observed_at : datetime) : M HaltAuthoritySnapshot :=
  _replace_snapshot previous state e (count_after previous state) observed_at.

(** The state, but for a latched halt [UNKNOWN]. *)
Definition kept_state (state : HaltAuthorityState) : HaltAuthorityState :=
  if latched state then state else UNKNOWN.

Definition _fail_closed (previous : HaltAuthoritySnapshot) (observed_at : datetime)
    (rejected_event_hash : option string) : M HaltAuthoritySnapshot :=
  _transition previous (kept_state (hs_state previous))
    {| ev_epoch := ev_epoch previous; ev_acknowledged_at := None; ev_last_sequence := 0;
       ev_last_event_at := ev_last_event_at previous;
       ev_last_event_hash := ev_last_event_hash previous;
       ev_decisive_event_hash := ev_decisive_event_hash previous;
       ev_last_rejected_event_hash :=
         match rejected_event_hash with
         | Some hash => Some hash
         | None => ev_last_rejected_event_hash previous
         end;
       ev_last_trade_at := ev_last_trade_at previous; ev_last_trade_id := ev_last_trade_id previous;
       ev_last_trade_hash := ev_last_trade_hash previous;
       ev_halt_latched_at := ev_halt_latched_at previous;
       ev_halt_event_hash := ev_halt_event_hash previous |} observed_at.

Definition _session_closed (previous : HaltAuthoritySnapshot) (observed_at : datetime)
    : M HaltAuthoritySnapshot :=
  _transition previous UNKNOWN
    {| ev_epoch := ev_epoch previous; ev_acknowledged_at := None; ev_last_sequence := 0;
       ev_last_event_at := ev_last_event_at previous;
       ev_last_event_hash := ev_last_event_hash previous;
       ev_decisive_event_hash := ev_decisive_event_hash previous;
       ev_last_rejected_event_hash := ev_last_rejected_event_hash previous;
       ev_last_trade_at := ev_last_trade_at previous; ev_last_trade_id := ev_last_trade_id previous;
       ev_last_trade_hash := ev_last_trade_hash previous;
       ev_halt_latched_at := None; ev_halt_event_hash := None |} observed_at.

Definition _acknowledge_epoch (previous : HaltAuthoritySnapshot) (event : HaltAuthorityEvent)
    (observed_at : datetime) : M HaltAuthoritySnapshot :=
  when is_some (ev_acknowledged_at previous)
       || negb (str_nonempty (he_epoch event)) || negb (he_sequence event =? 1)
       || bool_decide (ev_epoch previous = Some (he_epoch event))
       ||| match ev_last_event_at previous with
           | Some last_event_at => dt_le (he_event_at event) last_event_at
           | None => Ok false
           end
       ||| (is_some (he_status_code event) || is_some (he_trade_id event))
  then_ _fail_closed previous observed_at (Some (he_source_hash event));;
  _transition previous (kept_state (hs_state previous))
    {| ev_epoch := Some (he_epoch event); ev_acknowledged_at := Some (he_event_at event);
       ev_last_sequence := he_sequence event; ev_last_event_at := Some (he_event_at event);
       ev_last_event_hash := Some (he_source_hash event);
       ev_decisive_event_hash := Some (he_source_hash event);
       ev_last_rejected_event_hash := ev_last_rejected_event_hash previous;
       ev_last_trade_at := None; ev_last_trade_id := None; ev_last_trade_hash := None;
       ev_halt_latched_at := ev_halt_latched_at previous;
       ev_halt_event_hash := ev_halt_event_hash previous |} observed_at.

Definition _failure_event (previous : HaltAuthoritySnapshot) (event : HaltAuthorityEvent)
    (observed_at : datetime) : M HaltAuthoritySnapshot :=
  _transition previous (kept_state (hs_state previous))
    {| ev_epoch := ev_epoch previous; ev_acknowledged_at := None; ev_last_sequence := 0;
       ev_last_event_at := Some (he_event_at event);
       ev_last_event_hash := Some (he_source_hash event);
       ev_decisive_event_hash := Some (he_source_hash event);
       ev_last_rejected_event_hash := ev_last_rejected_event_hash previous;
       ev_last_trade_at := ev_last_trade_at previous; ev_last_trade_id := ev_last_trade_id previous;
       ev_last_trade_hash := ev_last_trade_hash previous;
       ev_halt_latched_at := ev_halt_latched_at previous;
       ev_halt_event_hash := ev_halt_event_hash previous |} observed_at.

(** The state a status leads to; [None]: its code means nothing. *)
Definition status_state (state : HaltAuthorityState) (meaning : option HaltCodeMeaning)
    : option HaltAuthorityState :=
  match meaning with
  | Some HALT => Some HALTED_LATCHED
  | Some RESUME => Some (if latched state then RESUME_PENDING else UNKNOWN)
  | None => None
  end.

Definition _status_event (previous : HaltAuthoritySnapshot) (event : HaltAuthorityEvent)
    (config : HaltAuthorityConfig) (codebook : option HaltStatusCodebook) (observed_at : datetime)
    : M HaltAuthoritySnapshot :=
  match codebook, he_status_code event with
  | Some book, Some code =>
      when negb (_codebook_valid codebook config) || negb (str_nonempty code)
           || is_some (he_trade_id event)
      then_ _fail_closed previous observed_at (Some (he_source_hash event));;
      let meaning := meaning_of book code in
      match status_state (hs_state previous) meaning with
      | None => _fail_closed previous observed_at (Some (he_source_hash event))
      | Some state =>
          let halt := bool_decide (meaning = Some HALT) in
          _transition previous state
            {| ev_epoch := ev_epoch previous; ev_acknowledged_at := ev_acknowledged_at previous;
               ev_last_sequence := he_sequence event; ev_last_event_at := Some (he_event_at event);
               ev_last_event_hash := Some (he_source_hash event);
               ev_decisive_event_hash := Some (he_source_hash event);
               ev_last_rejected_event_hash := ev_last_rejected_event_hash previous;
               ev_last_trade_at := ev_last_trade_at previous;
               ev_last_trade_id := ev_last_trade_id previous;
               ev_last_trade_hash := ev_last_trade_hash previous;
               ev_halt_latched_at :=
                 if halt then Some (he_event_at event) else ev_halt_latched_at previous;
               ev_halt_event_hash :=
                 if halt then Some (he_source_hash event) else ev_halt_event_hash previous |}
            observed_at
      end
  | _, _ => _fail_closed previous observed_at (Some (he_source_hash event))
  end.

(** The state a trade leads to. *)
Definition trade_state (state : HaltAuthorityState) : HaltAuthorityState :=
  match state with
  | UNKNOWN | RESUME_PENDING => OPEN_CONFIRMED
  | OPEN_CONFIRMED => OPEN_CONFIRMED
  | HALTED_LATCHED => HALTED_LATCHED
  end.

Definition trade_valid (previous : HaltAuthoritySnapshot) (event : HaltAuthorityEvent)
    (config : HaltAuthorityConfig) (observed_at : datetime) : M bool :=
  (nonblank_optional (he_trade_id event)
   && negb (bool_decide (he_trade_id event = ev_last_trade_id previous))
   && is_none (he_status_code event))
  &&& match ev_acknowledged_at previous with
      | Some acknowledged_at => dt_lt acknowledged_at (he_event_at event)
      | None => Ok false
      end
  &&& (age ← dt_sub observed_at (he_event_at event);
       Ok ((0 <=? age) && (age <=? hc_maximum_trade_age config))).

Definition _trade_event (previous : HaltAuthoritySnapshot) (event : HaltAuthorityEvent)
    (config : HaltAuthorityConfig) (observed_at : datetime) : M HaltAuthoritySnapshot :=
  when not (trade_valid previous event config observed_at)
  then_ _fail_closed previous observed_at (Some (he_source_hash event));;
  let state := trade_state (hs_state previous) in
  let opened := bool_decide (state = OPEN_CONFIRMED) in
  _transition previous state
    {| ev_epoch := ev_epoch previous; ev_acknowledged_at := ev_acknowledged_at previous;
       ev_last_sequence := he_sequence event; ev_last_event_at := Some (he_event_at event);
       ev_last_event_hash := Some (he_source_hash event);
       ev_decisive_event_hash := Some (he_source_hash event);
       ev_last_rejected_event_hash := ev_last_rejected_event_hash previous;
       ev_last_trade_at := Some (he_event_at event); ev_last_trade_id := he_trade_id event;
       ev_last_trade_hash := Some (he_source_hash event);
       ev_halt_latched_at := if opened then None else ev_halt_latched_at previous;
       ev_halt_event_hash := if opened then None else ev_halt_event_hash previous |} observed_at.

(** The last trade does not confirm the market any more. *)
Definition trade_stale (e : evidence) (config : HaltAuthorityConfig) (observed_at : datetime) : M bool :=
  match ev_last_trade_at e with
  | None => Ok true
  | Some last_trade_at =>
      (age ← dt_sub observed_at last_trade_at; Ok (hc_maximum_trade_age config <? age))
      ||| (ahead ← dt_sub last_trade_at observed_at; Ok (_FUTURE_TRADE_TOLERANCE <? ahead))
  end.

Definition _passive_event (previous : HaltAuthoritySnapshot) (event : HaltAuthorityEvent)
    (config : HaltAuthorityConfig) (observed_at : datetime) : M HaltAuthoritySnapshot :=
  when is_some (he_status_code event) || is_some (he_trade_id event)
  then_ _fail_closed previous observed_at (Some (he_source_hash event));;
  stale ← bool_decide (hs_state previous = OPEN_CONFIRMED) &&& trade_stale previous config observed_at;
  let state := if stale : bool then UNKNOWN else hs_state previous in
  _replace_snapshot previous state
    {| ev_epoch := ev_epoch previous; ev_acknowledged_at := ev_acknowledged_at previous;
       ev_last_sequence := he_sequence event; ev_last_event_at := Some (he_event_at event);
       ev_last_event_hash := Some (he_source_hash event);
       ev_decisive_event_hash := ev_decisive_event_hash previous;
       ev_last_rejected_event_hash := ev_last_rejected_event_hash previous;
       ev_last_trade_at := ev_last_trade_at previous; ev_last_trade_id := ev_last_trade_id previous;
       ev_last_trade_hash := ev_last_trade_hash previous;
       ev_halt_latched_at := ev_halt_latched_at previous;
       ev_halt_event_hash := ev_halt_event_hash previous |}
    (count_after previous state) observed_at.

(** ** The authority *)

Definition no_evidence : evidence :=
  {| ev_epoch := None; ev_acknowledged_at := None; ev_last_sequence := 0; ev_last_event_at := None;
     ev_last_event_hash := None; ev_decisive_event_hash := None;
     ev_last_rejected_event_hash := None; ev_last_trade_at := None; ev_last_trade_id := None;
     ev_last_trade_hash := None; ev_halt_latched_at := None; ev_halt_event_hash := None |}.

Definition initial_halt_authority (config : HaltAuthorityConfig) (read_at : datetime)
    : M HaltAuthoritySnapshot :=
  _ ← _validate_config config;
  observed_at ← _utc read_at "HALT_READ_TIME_INVALID";
  _with_digest
    {| hs_symbol := hc_symbol config; hs_feed := hc_feed config;
       hs_sdk_version := hc_sdk_version config;
       hs_sequence_authority := hc_sequence_authority config;
       hs_codebook_hash := hc_codebook_hash config; hs_config_hash := hc_source_hash config;
       hs_session_date := hc_session_date config; hs_session_open_at := hc_session_open_at config;
       hs_session_close_at := hc_session_close_at config; hs_evidence := no_evidence;
       hs_state := UNKNOWN; hs_transition_count := 0; hs_observed_at := observed_at;
       hs_source_hash := "" |}.

(** The event continues the stream of the acknowledged epoch. *)
Definition continues (previous : HaltAuthoritySnapshot) (event : HaltAuthorityEvent) : M bool :=
  (is_some (ev_epoch previous) && is_some (ev_acknowledged_at previous)
   && bool_decide (ev_epoch previous = Some (he_epoch event))
   && (he_sequence event =? ev_last_sequence previous + 1))
  &&& match ev_last_event_at previous with
      | Some last_event_at => _chronology_acceptable last_event_at event
      | None => Ok true
      end.

Definition reduce_halt_authority (previous : HaltAuthoritySnapshot) (event : HaltAuthorityEvent)
    (config : HaltAuthorityConfig) (codebook : option HaltStatusCodebook) (read_at : datetime)
    : M HaltAuthoritySnapshot :=
  _ ← _validate_config config;
  _ ← _validate_previous previous config;
  observed_at ← _utc read_at "HALT_READ_TIME_INVALID";
  _ ← _validate_read_time previous observed_at;
  when not (_inside_session config observed_at) then_ _session_closed previous observed_at;;
  when not (_event_valid event config observed_at) then_ _fail_closed previous observed_at None;;
  when bool_decide (he_kind event = EPOCH_ACK) then_ _acknowledge_epoch previous event observed_at;;
  when not (continues previous event)
  then_ _fail_closed previous observed_at (Some (he_source_hash event));;
  match he_kind event with
  | RECONNECT | GAP | ERROR | MALFORMED | THREAD_DEAD => _failure_event previous event observed_at
  | TRADING_STATUS => _status_event previous event config codebook observed_at
  | TRADE => _trade_event previous event config observed_at
  | _ => _passive_event previous event config observed_at
  end.

Definition read_halt_authority (previous : HaltAuthoritySnapshot) (config : HaltAuthorityConfig)
    (read_at : datetime) : M HaltAuthoritySnapshot :=
  _ ← _validate_config config;
  _ ← _validate_previous previous config;
  requested_at ← _utc read_at "HALT_READ_TIME_INVALID";
  _ ← _validate_read_time previous requested_at;
  observed_at ← dt_max requested_at (hs_observed_at previous);
  when not (_inside_session config observed_at) then_ _session_closed previous observed_at;;
  when latched (hs_state previous)
  then_ _replace_snapshot previous (hs_state previous) previous (hs_transition_count previous)
          observed_at;;
  stale ← negb (bool_decide (hs_state previous = OPEN_CONFIRMED)) ||| trade_stale previous config observed_at;
  if stale : bool then _transition previous UNKNOWN previous observed_at
  else _replace_snapshot previous (hs_state previous) previous (hs_transition_count previous) observed_at.
