(* ===== verification/HaltFacts.v ===== *)
(** * Facts on the halt authority

    The conditions of the authority as propositions on instants, what a call that returned
    has done ([reduced], [read_result]), and that a valid snapshot stays valid. *)

From Stdlib Require Import ZArith Lia String Ascii List Bool.
From stdpp Require Import base strings option tactics list.
From S2P Require Import Prelude PyText PyTime PyHash Contracts OpportunityData Identity HaltData HaltAuthority.

#[local] Open Scope string_scope.
#[local] Open Scope Z_scope.

(** ** Times in UTC *)

Definition opt_utc (o : option datetime) : Prop := forall t, o = Some t -> is_utc t = true.
(** [R] of the instants of two times that are both there. *)
Definition both (R : Z -> Z -> Prop) (a b : option datetime) : Prop :=
  forall s t, a = Some s -> b = Some t -> R (dt_instant s) (dt_instant t).

Lemma utc_ok t code t' : _utc t code = Ok t' <-> is_utc t = true /\ t' = t.
Proof. unfold _utc. destruct (is_utc t); split; [by intros [= <-]|by intros [_ ->]|done|by intros []]. Qed.
Lemma optional_utc_ok o o' : _optional_utc o = Ok o' <-> opt_utc o /\ o' = o.
Proof.
  destruct o as [t|]; cbn.
  - unfold _utc. destruct (is_utc t) eqn:E; cbn; split.
    + intros [= <-]. split; [|done]. by intros s [= <-].
    + by intros [_ ->].
    + done.
    + intros [H _]. by rewrite (H t eq_refl) in E.
  - split; [by intros [= <-]|by intros [_ ->]].
Qed.

Lemma optional_utc_returns o : opt_utc o -> _optional_utc o = Ok o.
Proof. intros H. by apply optional_utc_ok. Qed.

Lemma both_m_le a b : opt_utc a -> opt_utc b -> decides (both_m dt_le a b) (both Z.le a b).
Proof.
  intros Ha Hb. destruct a as [s|], b as [t|]; cbn; try (exists true; by split).
  rewrite utc_le by auto. eexists. split; [done|]. rewrite Z.leb_le. split.
  - by intros H ? ? [= <-] [= <-].
  - intros H. by apply H.
Qed.
Lemma both_m_lt a b : opt_utc a -> opt_utc b -> decides (both_m dt_lt a b) (both Z.lt a b).
Proof.
  intros Ha Hb. destruct a as [s|], b as [t|]; cbn; try (exists true; by split).
  rewrite utc_lt by auto. eexists. split; [done|]. rewrite Z.ltb_lt. split.
  - by intros H ? ? [= <-] [= <-].
  - intros H. by apply H.
Qed.

Lemma decides_true m Q : decides m Q -> m = Ok true <-> Q.
Proof. intros (b & -> & H). rewrite <- H. split; [by intros [= ->]|by intros ->]. Qed.

Lemma catching_ok {A} (m h : M A) a : catching m h = Ok a <-> m = Ok a \/ (catching m (Raise KeyError) <> m /\ h = Ok a).
Proof.
  unfold catching, try_with. destruct m as [b|e]; [intuition congruence|].
  destruct e; intuition congruence.
Qed.

Lemma catching_raise {A} (m : M A) e a : catching m (Raise e) = Ok a <-> m = Ok a.
Proof. rewrite catching_ok. intuition congruence. Qed.

(** ** A valid configuration *)

Record config_facts (config : HaltAuthorityConfig) : Prop := {
  cf_open : is_utc (hc_session_open_at config) = true;
  cf_close : is_utc (hc_session_close_at config) = true;
  cf_age : 0 < hc_maximum_trade_age config <= minutes 1;
  cf_session : dt_instant (hc_session_open_at config) < dt_instant (hc_session_close_at config);
}.

Lemma config_ok config : _validate_config config = Ok tt -> config_facts config.
Proof.
  unfold _validate_config. intros H. inv_seq H. apply (proj1 (catching_raise _ _ _)) in H0.
  inv_all. subst x. inv_all. repeat match goal with K : _utc _ _ = Ok _ |- _ => apply utc_ok in K as [? ->] end.
  match goal with K : dt_lt _ _ = Ok _ |- _ => rewrite utc_lt in K by done end. inv_all. zbool. by split.
Qed.

(** ** A valid snapshot *)

Definition epoch_ok (e : evidence) : Prop :=
  ev_acknowledged_at e = None /\ ev_last_sequence e = 0 \/
  (exists epoch, ev_epoch e = Some epoch /\ str_nonempty epoch = true) /\
  ev_acknowledged_at e <> None /\ 1 <= ev_last_sequence e /\ ev_last_event_at e <> None /\
  both Z.le (ev_acknowledged_at e) (ev_last_event_at e).

Record chronology_ok (e : evidence) (observed_at : datetime) : Prop := {
  co_event : both Z.le (ev_last_event_at e) (Some observed_at);
  co_trade : both Z.le (ev_last_trade_at e) (Some observed_at);
  co_halt : both Z.le (ev_halt_latched_at e) (Some observed_at);
  co_trade_event : both Z.le (ev_last_trade_at e) (ev_last_event_at e);
  co_halt_event : both Z.le (ev_halt_latched_at e) (ev_last_event_at e);
  co_ack_trade : both Z.lt (ev_acknowledged_at e) (ev_last_trade_at e);
}.

Definition state_ok (state : HaltAuthorityState) (e : evidence) : Prop :=
  match state with
  | UNKNOWN => True
  | OPEN_CONFIRMED =>
      ev_acknowledged_at e <> None /\ ev_last_trade_at e <> None /\ ev_halt_latched_at e = None
  | HALTED_LATCHED => ev_halt_latched_at e <> None
  | RESUME_PENDING =>
      ev_halt_latched_at e <> None /\ ev_last_event_at e <> None /\
      both Z.lt (ev_halt_latched_at e) (ev_last_event_at e)
  end.

Record utc_evidence (e : evidence) : Prop := {
  ue_acknowledged : opt_utc (ev_acknowledged_at e);
  ue_event : opt_utc (ev_last_event_at e);
  ue_trade : opt_utc (ev_last_trade_at e);
  ue_halt : opt_utc (ev_halt_latched_at e);
}.

Record evidence_ok (e : evidence) (state : HaltAuthorityState) (observed_at : datetime) : Prop := {
  eo_utc : utc_evidence e;
  eo_epoch : epoch_ok e;
  eo_hashes : hash_pairs_valid e = true;
  eo_chronology : chronology_ok e observed_at;
  eo_state : state_ok state e;
  eo_sequence : 0 <= ev_last_sequence e;
}.

Definition scope_matches (p : HaltAuthoritySnapshot) (config : HaltAuthorityConfig) : bool :=
  String.eqb (hs_config_hash p) (hc_source_hash config)
  && String.eqb (hs_symbol p) (hc_symbol config) && String.eqb (hs_feed p) (hc_feed config)
  && String.eqb (hs_sdk_version p) (hc_sdk_version config)
  && bool_decide (hs_sequence_authority p = hc_sequence_authority config)
  && String.eqb (hs_codebook_hash p) (hc_codebook_hash config)
  && (hs_session_date p =? hc_session_date config)
  && dt_eq (hs_session_open_at p) (hc_session_open_at config)
  && dt_eq (hs_session_close_at p) (hc_session_close_at config).

Record valid_snapshot (config : HaltAuthorityConfig) (p : HaltAuthoritySnapshot) : Prop := {
  vs_digest : halt_authority_snapshot_digest p = Ok (hs_source_hash p);
  vs_scope : scope_matches p config = true;
  vs_observed : is_utc (hs_observed_at p) = true;
  vs_evidence : evidence_ok p (hs_state p) (hs_observed_at p);
  vs_count : 0 <= hs_transition_count p;
}.

Lemma is_none_true {A} (o : option A) : is_none o = true <-> o = None.
Proof. by destruct o. Qed.
Lemma is_some_true {A} (o : option A) : is_some o = true <-> o <> None.
Proof. by destruct o. Qed.

Lemma decides_epoch e :
  opt_utc (ev_acknowledged_at e) -> opt_utc (ev_last_event_at e) ->
  decides (active_epoch_valid e) (epoch_ok e).
Proof.
  intros Ha He. unfold active_epoch_valid, epoch_ok. apply decides_or.
  - apply decides_bool. by rewrite andb_true_iff, is_none_true, Z.eqb_eq.
  - eapply decides_iff; [apply decides_and; [apply decides_bool; reflexivity|by apply both_m_le]|].
    rewrite !andb_true_iff, !is_some_true, Z.leb_le.
    assert (E : match ev_epoch e with Some epoch => str_nonempty epoch | None => false end = true <->
                exists epoch, ev_epoch e = Some epoch /\ str_nonempty epoch = true).
    { destruct (ev_epoch e); split; [by eauto|by intros (? & [= <-] & ?)|done|by intros (? & ? & ?)]. }
    rewrite E. tauto.
Qed.

Lemma decides_chronology e t :
  utc_evidence e -> is_utc t = true -> decides (chronology_valid e t) (chronology_ok e t).
Proof.
  intros [] Ht. assert (opt_utc (Some t)) by (by intros s [= <-]).
  eapply decides_iff; [unfold chronology_valid; repeat apply decides_and;
    first [by apply both_m_le|by apply both_m_lt]|].
  split; [intros (((((? & ?) & ?) & ?) & ?) & ?); by split|by intros []].
Qed.

Lemma decides_state state e : utc_evidence e -> decides (state_valid state e) (state_ok state e).
Proof.
  intros []. destruct state; cbn [state_valid state_ok].
  - by exists true.
  - eexists; split; [done|]. rewrite !andb_true_iff, !is_some_true, is_none_true. tauto.
  - eexists; split; [done|]. apply is_some_true.
  - eapply decides_iff; [apply decides_and; [apply decides_bool; reflexivity|by apply both_m_lt]|].
    rewrite andb_true_iff, !is_some_true. tauto.
Qed.

Lemma previous_valid_spec config p :
  previous_valid p config = Ok true <-> valid_snapshot config p.
Proof.
  split.
  - intros H. unfold previous_valid in H. inv_seq H.
    repeat match goal with
    | H : _utc _ _ = Ok _ |- _ => apply utc_ok in H as [? ->]
    | H : _optional_utc _ = Ok _ |- _ => apply optional_utc_ok in H as [? ->]
    end.
    assert (U : utc_evidence p) by (by split).
    injection H as H. cbn [forallb id] in H. rewrite !andb_true_iff in H. destruct H as (-> & -> & Hh & -> & -> & Hs & _).
    unfold cross_scope_valid in *. inv_all. zbool. 
    assert (E1 : epoch_ok p) by (by apply (decides_true _ _ (decides_epoch p ltac:(done) ltac:(done)))).
    assert (E2 : chronology_ok p (hs_observed_at p))
      by (by apply (decides_true _ _ (decides_chronology p _ U ltac:(done)))).
    assert (E3 : state_ok (hs_state p) p) by (by apply (decides_true _ _ (decides_state (hs_state p) p U))).
    unfold scalar_valid in *. rewrite andb_true_iff, !Z.leb_le in Hs.
    destruct Hs as [Hs1 Hs2]. split; [congruence| |done|by split|done].
    unfold scope_matches. by rewrite !andb_true_iff, !String.eqb_eq, !Z.eqb_eq, !bool_decide_eq_true.
  - intros [Hd Hs Ho [U He Hh Hc Hst Hq] Hn]. destruct (U) as [U1 U2 U3 U4]. unfold previous_valid.
    assert (Hx : cross_scope_valid p config = Ok true).
    { unfold cross_scope_valid. rewrite Hd. cbn. rewrite String.eqb_refl. cbn. f_equal. exact Hs. }
    rewrite Hx. cbn [mbind M_bind]. rewrite (proj2 (utc_ok _ _ _)) by (by split). cbn [mbind M_bind].
    rewrite !optional_utc_returns by done. cbn [mbind M_bind].
    rewrite (proj2 (decides_true _ _ (decides_epoch p U1 U2))) by done.
    rewrite (proj2 (decides_true _ _ (decides_chronology p _ U Ho))) by done.
    rewrite (proj2 (decides_true _ _ (decides_state (hs_state p) p U))) by done.
    cbn [mbind M_bind]. rewrite Hh. unfold scalar_valid.
    rewrite (proj2 (Z.leb_le 0 (ev_last_sequence p))), (proj2 (Z.leb_le 0 (hs_transition_count p))) by done.
    done.
Qed.

Lemma validate_previous_ok config p : _validate_previous p config = Ok tt <-> valid_snapshot config p.
Proof.
  rewrite <- previous_valid_spec. unfold _validate_previous. split.
  - intros H. inv_seq H. apply (proj1 (catching_raise _ _ _)) in H0. inv_all. by subst.
  - intros H. by rewrite (proj2 (catching_raise _ _ true) H).
Qed.

(** ** What a call that returned has done *)

(** The snapshot of the transition, with its hash. *)
Definition next_snapshot (p : HaltAuthoritySnapshot) (state : HaltAuthorityState) (e : evidence)
    (count : Z) (observed_at : datetime) (hash : string) : HaltAuthoritySnapshot :=
  mk_HaltAuthoritySnapshot (hs_symbol p) (hs_feed p) (hs_sdk_version p) (hs_sequence_authority p)
    (hs_codebook_hash p) (hs_config_hash p) (hs_session_date p) (hs_session_open_at p)
    (hs_session_close_at p) e state count observed_at hash.

Lemma replace_ok p state e count t q :
  _replace_snapshot p state e count t = Ok q ->
  exists hash, q = next_snapshot p state e count t hash /\ halt_authority_snapshot_digest q = Ok hash.
Proof.
  unfold _replace_snapshot, _with_digest. intros (h & Hd & [= <-])%bind_ok. exists h. by split.
Qed.

Lemma count_after_grows p state : hs_transition_count p <= count_after p state.
Proof. unfold count_after. case_bool_decide; lia. Qed.

(** A transition from a valid snapshot to good evidence is valid. *)
Lemma next_valid config p state e count t q :
  valid_snapshot config p -> _replace_snapshot p state e count t = Ok q -> is_utc t = true ->
  evidence_ok e state t -> hs_transition_count p <= count -> valid_snapshot config q.
Proof.
  intros [] (h & -> & Hd)%replace_ok Ht He Hc. split; cbn; [done|done|done|done|lia].
Qed.

(** It returns, whatever the digest is, when the times are in UTC. *)
Definition total {A} (m : M A) : Prop := returns (fun _ => True) m.
Lemma total_bind {A B} (m : M A) (f : A -> M B) : total m -> (forall a, total (f a)) -> total (m ≫= f).
Proof. intros Hm Hf. eapply returns_bind; [exact Hm|]. intros a _. apply Hf. Qed.
Lemma total_ok {A} (a : A) : total (Ok a).
Proof. by apply returns_ok. Qed.

Lemma canonical_time_total t : is_utc t = true -> total (canonical_time t).
Proof. intros H. unfold canonical_time, _utc. rewrite H. apply total_ok. Qed.
Lemma canonical_optional_total o : opt_utc o -> total (canonical_optional_time o).
Proof. intros H. destruct o as [t|]; [apply canonical_time_total; auto|apply total_ok]. Qed.

Lemma snapshot_digest_total v :
  is_utc (hs_session_open_at v) = true -> is_utc (hs_session_close_at v) = true ->
  utc_evidence v -> is_utc (hs_observed_at v) = true -> total (halt_authority_snapshot_digest v).
Proof.
  intros H1 H2 [U1 U2 U3 U4] H3. unfold halt_authority_snapshot_digest.
  repeat (apply total_bind; [first [by apply canonical_time_total|by apply canonical_optional_total]|intros ?]).
  apply total_ok.
Qed.

Lemma canonical_time_utc t j : canonical_time t = Ok j -> is_utc t = true.
Proof. unfold canonical_time. intros (t' & H & _)%bind_ok. by apply utc_ok in H as [H _]. Qed.

Lemma session_utc config p : valid_snapshot config p ->
  is_utc (hs_session_open_at p) = true /\ is_utc (hs_session_close_at p) = true.
Proof.
  intros [Hd _ _ _ _]. unfold halt_authority_snapshot_digest in Hd.
  apply bind_ok in Hd as (j1 & E1 & Hd). apply bind_ok in Hd as (j2 & E2 & _).
  split; by eapply canonical_time_utc.
Qed.

Lemma replace_returns config p state e count t :
  valid_snapshot config p -> is_utc t = true -> utc_evidence e ->
  exists q, _replace_snapshot p state e count t = Ok q.
Proof.
  intros Hp Ht He. destruct (session_utc _ _ Hp) as [H1 H2].
  assert (H : total (_replace_snapshot p state e count t)).
  { unfold _replace_snapshot, _with_digest.
    apply total_bind; [by apply snapshot_digest_total|intros ?; apply total_ok]. }
  destruct H as (q & H & _). by exists q.
Qed.

(** ** Events *)

Record event_facts (config : HaltAuthorityConfig) (event : HaltAuthorityEvent) (t : datetime) : Prop := {
  ef_event : is_utc (he_event_at event) = true;
  ef_received : is_utc (he_received_at event) = true;
  ef_order : dt_instant (he_event_at event) <= dt_instant (he_received_at event) <= dt_instant t;
  ef_session : dt_instant (hc_session_open_at config) <= dt_instant (he_event_at event)
               < dt_instant (hc_session_close_at config);
  ef_symbol : he_symbol event = hc_symbol config;
  ef_epoch : _nonblank_token (he_epoch event) = true;
  ef_sequence : 0 < he_sequence event;
  ef_digest : halt_authority_event_digest event = Ok (he_source_hash event);
}.

Lemma within_utc config t :
  config_facts config -> is_utc t = true ->
  decides (within (hc_session_open_at config) (hc_session_close_at config) t)
    (dt_instant (hc_session_open_at config) <= dt_instant t < dt_instant (hc_session_close_at config)).
Proof.
  intros [Ho Hc _ _] Ht. unfold within. rewrite utc_le, utc_lt by done.
  apply decides_and; apply decides_bool; [apply Z.leb_le|apply Z.ltb_lt].
Qed.

Lemma event_valid_ok config event t :
  config_facts config -> is_utc t = true -> _event_valid event config t = Ok true -> event_facts config event t.
Proof.
  intros Hc Ht H. unfold _event_valid in H. apply bind_ok in H as (matches & Hm & H).
  destruct matches as [matches|]; [|done].
  assert (D : is_utc (he_event_at event) = true /\ is_utc (he_received_at event) = true /\
              exists digest, halt_authority_event_digest event = Ok digest /\
                matches = String.eqb (he_source_hash event) digest).
  { unfold digest_matches in Hm. apply catching_ok in Hm as [Hm|[_ [=]]].
    inv_seq Hm. injection Hm as <-.
    repeat match goal with K : _utc _ _ = Ok _ |- _ => apply utc_ok in K as [? ->] end. eauto. }
  destruct D as (He & Hr & digest & Hd & ->).
  apply and_m_true in H as [H Hq]. apply and_m_true in H as [H Ho]. apply and_m_true in H as [H Hs].
  apply and_m_true in Ho as [Ho1 Ho2]. rewrite utc_le in Ho1, Ho2 by done.
  apply (decides_true _ _ (within_utc _ _ Hc He)) in Hs.
  rewrite lift_bool_ok in H, Hq. rewrite !andb_true_iff in H. destruct H as [[H1 H2] H3].
  injection Ho1 as Ho1. injection Ho2 as Ho2. zbool. split; first [done|lia|congruence].
Qed.

Lemma event_hash config event t : event_facts config event t -> is_hash (he_source_hash event) = true.
Proof.
  intros []. unfold halt_authority_event_digest in ef_digest0. inv_seq ef_digest0.
  injection ef_digest0 as <-. apply sha256_is_hash.
Qed.

(** What continuing the epoch means. *)
Record continuing (p : HaltAuthoritySnapshot) (event : HaltAuthorityEvent) : Prop := {
  cn_epoch : ev_epoch p = Some (he_epoch event);
  cn_acknowledged : ev_acknowledged_at p <> None;
  cn_sequence : he_sequence event = ev_last_sequence p + 1;
  cn_late : forall last, ev_last_event_at p = Some last -> he_kind event = TRADE ->
    dt_instant last - dt_instant (he_event_at event) <= _TRADE_ORDER_TOLERANCE;
  cn_order : he_kind event <> TRADE ->
    both Z.lt (ev_last_event_at p) (Some (he_event_at event));
}.

Lemma continues_ok (p : HaltAuthoritySnapshot) event :
  utc_evidence p -> is_utc (he_event_at event) = true -> continues p event = Ok true -> continuing p event.
Proof.
  intros [_ Hl _ _] He H. unfold continues in H. apply and_m_true in H as [H Hc].
  rewrite lift_bool_ok, !andb_true_iff, !is_some_true, bool_decide_eq_true, Z.eqb_eq in H.
  destruct H as [[[H1 H2] H3] H4].
  assert (K : forall last, ev_last_event_at p = Some last ->
    (he_kind event = TRADE -> dt_instant last - dt_instant (he_event_at event) <= _TRADE_ORDER_TOLERANCE) /\
    (he_kind event <> TRADE -> dt_instant last < dt_instant (he_event_at event))).
  { intros last E. rewrite E in Hc. unfold _chronology_acceptable in Hc. case_bool_decide as Hk.
    - rewrite utc_sub in Hc by auto. cbn in Hc. injection Hc as Hc. zbool. by split.
    - rewrite utc_lt in Hc by auto. injection Hc as Hc. zbool. by split. }
  split; [done..|intros last E; by apply K|].
  intros Hk s t E [= <-]. by apply (K _ E).
Qed.

(** ** The authority keeps its snapshots valid

    What a call of the authority that returned has done, and that the snapshot it
    returned is again one that the next call accepts. *)

(** ** What was reduced *)

Definition inside (config : HaltAuthorityConfig) (t : datetime) : Prop :=
  dt_instant (hc_session_open_at config) <= dt_instant t < dt_instant (hc_session_close_at config).

Inductive reduction (config : HaltAuthorityConfig) (codebook : option HaltStatusCodebook)
    (p : HaltAuthoritySnapshot) (event : HaltAuthorityEvent) (t : datetime) (q : HaltAuthoritySnapshot) : Prop :=
  | red_closed : ~ inside config t -> _session_closed p t = Ok q -> reduction config codebook p event t q
  | red_rejected hash : inside config t -> (forall h, hash = Some h -> is_hash h = true) ->
      _fail_closed p t hash = Ok q -> reduction config codebook p event t q
  | red_acknowledged : inside config t -> event_facts config event t -> he_kind event = EPOCH_ACK ->
      _acknowledge_epoch p event t = Ok q -> reduction config codebook p event t q
  | red_failure : inside config t -> event_facts config event t -> continuing p event ->
      he_kind event <> TRADE -> _failure_event p event t = Ok q -> reduction config codebook p event t q
  | red_status : inside config t -> event_facts config event t -> continuing p event ->
      he_kind event = TRADING_STATUS -> _status_event p event config codebook t = Ok q ->
      reduction config codebook p event t q
  | red_trade : inside config t -> event_facts config event t -> continuing p event ->
      he_kind event = TRADE -> _trade_event p event config t = Ok q -> reduction config codebook p event t q
  | red_passive : inside config t -> event_facts config event t -> continuing p event ->
      he_kind event <> TRADE -> _passive_event p event config t = Ok q ->
      reduction config codebook p event t q.

Lemma inside_decides config t :
  config_facts config -> is_utc t = true -> decides (_inside_session config t) (inside config t).
Proof. apply within_utc. Qed.

Lemma decides_false m Q : decides m Q -> m = Ok false <-> ~ Q.
Proof. intros (b & -> & H). rewrite <- H. destruct b; intuition congruence. Qed.

Lemma reduce_ok p event config codebook t q :
  reduce_halt_authority p event config codebook t = Ok q ->
  config_facts config /\ valid_snapshot config p /\ is_utc t = true /\
  dt_instant (hs_observed_at p) - dt_instant t <= _READ_SKEW_TOLERANCE /\
  reduction config codebook p event t q.
Proof.
  unfold reduce_halt_authority. intros H.
  apply bind_ok in H as ([] & Hc%config_ok & H). apply bind_ok in H as ([] & Hp%validate_previous_ok & H).
  apply bind_ok in H as (t' & [Ht ->]%utc_ok & H). apply bind_ok in H as ([] & Hr & H).
  unfold _validate_read_time in Hr. rewrite utc_sub in Hr by (by destruct Hp). cbn [mbind M_bind] in Hr.
  apply guard_raise_ok in Hr as [Hr _]. rewrite lift_bool_ok in Hr. zbool.
  do 4 (split; [done|]).
  apply guard_ok in H as [[Hs H]|[Hs H]].
  { apply red_closed; [|done]. apply (decides_false _ _ (inside_decides _ _ Hc Ht)). by apply not_m_ok in Hs. }
  apply not_m_ok in Hs. apply (decides_true _ _ (inside_decides _ _ Hc Ht)) in Hs.
  apply guard_ok in H as [[He H]|[He H]]; [eapply red_rejected; [done| |done]; by intros h [=]|].
  apply not_m_ok in He. pose proof (event_valid_ok _ _ _ Hc Ht He) as Ef.
  apply guard_ok in H as [[Hk H]|[Hk H]].
  { rewrite lift_bool_ok, bool_decide_eq_true in Hk. by apply red_acknowledged. }
  rewrite lift_bool_ok, bool_decide_eq_false in Hk.
  apply guard_ok in H as [[Hn H]|[Hn H]].
  { eapply red_rejected; [done| |done]. intros h [= <-]. by eapply event_hash. }
  apply not_m_ok in Hn. pose proof (continues_ok _ _ (eo_utc _ _ _ (vs_evidence _ _ Hp)) (ef_event _ _ _ Ef) Hn) as Hcont.
  destruct (he_kind event) eqn:K; try done;
    first [apply red_failure; congruence|apply red_status; congruence|apply red_trade; congruence
          |apply red_passive; congruence].
Qed.

(** ** Validity *)

(** A trade and a halt are among the events; every snapshot of a run has this. *)
Definition grounded (e : evidence) : Prop :=
  (ev_last_trade_at e <> None -> ev_last_event_at e <> None) /\
  (ev_halt_latched_at e <> None -> ev_last_event_at e <> None).

Record good (p : HaltAuthoritySnapshot) : Prop := {
  gd_evidence : evidence_ok p (hs_state p) (hs_observed_at p);
  gd_grounded : grounded p;
}.

(** The facts on a snapshot, with its times as variables. *)
Ltac open_snapshot p :=
  match goal with
  | Hp : good p |- _ =>
      destruct Hp as [[[U1 U2 U3 U4] He Hh [C1 C2 C3 C4 C5 C6] Hst Hq] [G1 G2]];
      destruct p as [sy fe sd sq cb ch da op cl [ep ac ls le lh dh rh lt ti th hl hh] st co ob so]
  end; cbn in *; unfold hash_pairs_valid in *; cbn in *.

(** The bounds between two times that are both there. *)
Ltac known := first [reflexivity|eassumption].
Ltac use_times :=
  repeat match goal with
  | C : both _ _ _ |- _ => first [pose proof (C _ _ ltac:(known) ltac:(known))|idtac]; clear C
  end.
Ltac by_times :=
  first [done | let E1 := fresh in let E2 := fresh in
                intros ? ? E1 E2; simplify_eq/=; use_times; lia].

Lemma fail_closed_good p t hash q :
  good p -> is_utc t = true -> dt_instant (hs_observed_at p) <= dt_instant t ->
  (forall h, hash = Some h -> is_hash h = true) -> _fail_closed p t hash = Ok q -> good q.
Proof.
  intros Hp Ht Hm Hhash H. apply replace_ok in H as (d & -> & _). open_snapshot p.
  split; [|done].
  split; [split; cbn; done|by left| |split; cbn; by_times|by destruct st|done].
  unfold hash_pairs_valid. cbn. rewrite !andb_true_iff in *. destruct hash; naive_solver.
Qed.

Lemma session_closed_good p t q :
  good p -> is_utc t = true -> dt_instant (hs_observed_at p) <= dt_instant t ->
  _session_closed p t = Ok q -> good q.
Proof.
  intros Hp Ht Hm H. apply replace_ok in H as (d & -> & _). open_snapshot p.
  split; [|by split].
  split; [by split|by left| |split; cbn; by_times|done|done].
  unfold hash_pairs_valid. cbn. rewrite !andb_true_iff in *. naive_solver.
Qed.

(** The hypotheses of an event that is reduced. *)
Definition reducing (config : HaltAuthorityConfig) (p : HaltAuthoritySnapshot)
    (event : HaltAuthorityEvent) (t : datetime) : Prop :=
  good p /\ is_utc t = true /\ dt_instant (hs_observed_at p) <= dt_instant t /\ event_facts config event t.

Lemma rejected_good config p event t q :
  reducing config p event t -> _fail_closed p t (Some (he_source_hash event)) = Ok q -> good q.
Proof.
  intros (Hp & Ht & Hm & He). apply fail_closed_good; [done..|]. intros h [= <-]. by eapply event_hash.
Qed.

Lemma continuing_event (p : HaltAuthoritySnapshot) event :
  good p -> continuing p event ->
  ev_last_event_at p <> None /\ both Z.le (ev_acknowledged_at p) (ev_last_event_at p) /\
  1 <= ev_last_sequence p /\ exists epoch, ev_epoch p = Some epoch /\ str_nonempty epoch = true.
Proof. intros [[_ [[H _]|(H1 & _ & H2 & H3 & H4)] _ _ _ _] _] [_ Ha _ _ _]; [done|by split_and!]. Qed.

Lemma failure_good config p event t q :
  reducing config p event t -> continuing p event -> he_kind event <> TRADE ->
  _failure_event p event t = Ok q -> good q.
Proof.
  intros (Hp & Ht & Hm & He) Hc Hk H. pose proof (event_hash _ _ _ He) as Hs. pose proof (cn_order _ _ Hc Hk) as Ho.
  destruct (continuing_event _ _ Hp Hc) as (Hle & Hack & Hone & Hepoch).
  destruct He as [Ee _ Eo _ _ _ _ _]. apply replace_ok in H as (d & -> & _). open_snapshot p.
  destruct le as [le|]; [|done].
  split; [|by split].
  split; [split; cbn; try done; by intros ? [= <-]|by left| |split; cbn; by_times| |done].
  - unfold hash_pairs_valid. cbn. rewrite !andb_true_iff in *. naive_solver.
  - destruct st; cbn in *; try done. destruct Hst as (Hst1 & _ & Hst2). split_and!; [done..|]. by_times.
Qed.

Lemma acknowledged_good config p event t q :
  reducing config p event t -> _acknowledge_epoch p event t = Ok q -> good q.
Proof.
  intros R H. unfold _acknowledge_epoch in H. apply guard_ok in H as [[_ H]|[Hg H]]; [by eapply rejected_good|].
  destruct R as (Hp & Ht & Hm & He). pose proof (event_hash _ _ _ He) as Hs.
  destruct He as [Ee _ Eo _ _ _ _ _]. apply or_m_false in Hg as [Hg _]. apply or_m_false in Hg as [Hg Hlast].
  rewrite lift_bool_ok, !orb_false_iff, !negb_false_iff in Hg. destruct Hg as [[[_ Hep] Hseq] _].
  assert (Hl : both Z.lt (ev_last_event_at p) (Some (he_event_at event))).
  { intros a b E [= <-]. rewrite E in Hlast. destruct Hp as [[[_ Hu _ _] _ _ _ _ _] _].
    rewrite utc_le in Hlast by auto. injection Hlast as Hlast. by zbool. }
  apply replace_ok in H as (d & -> & _). open_snapshot p. zbool.
  split; [|split; cbn; [done|destruct le; naive_solver]].
  split; [split; cbn; try done; by intros ? [= <-]| | |split; cbn; try by_times| |cbn; lia].
  - right. split_and!; [eexists; by split|done|cbn; lia|done|]. intros ? ? [= <-] [= <-]. lia.
  - unfold hash_pairs_valid. cbn. rewrite !andb_true_iff in *. naive_solver.
  - destruct le as [le|]; [by_times|]. destruct hl; [by destruct (G2 ltac:(done))|by_times].
  - destruct st; cbn in *; try done. destruct Hst as (Hst1 & Hst3 & Hst2). split_and!; [done..|].
    destruct le as [le|]; [by_times|done].
Qed.

Lemma status_good config codebook p event t q :
  reducing config p event t -> continuing p event -> he_kind event <> TRADE ->
  _status_event p event config codebook t = Ok q -> good q.
Proof.
  intros R Hc Hk H. unfold _status_event in H.
  destruct codebook as [book|]; [|by eapply rejected_good]. destruct (he_status_code event) as [code|]; [|by eapply rejected_good].
  apply guard_ok in H as [[_ H]|[_ H]]; [by eapply rejected_good|].
  destruct (status_state (hs_state p) (meaning_of book code)) as [state|] eqn:Es; [|by eapply rejected_good].
  destruct R as (Hp & Ht & Hm & He). pose proof (event_hash _ _ _ He) as Hs. pose proof (cn_order _ _ Hc Hk) as Ho.
  destruct (continuing_event _ _ Hp Hc) as (Hle & Hack & Hone & Hepoch). pose proof (cn_sequence _ _ Hc) as Hseq. pose proof (cn_acknowledged _ _ Hc) as Hacked.
  destruct He as [Ee _ Eo _ _ _ _ _]. apply replace_ok in H as (d & -> & _). open_snapshot p.
  destruct le as [le|]; [|done].
  split; [|split; cbn; [done|by case_bool_decide]].
  split; [split; cbn; try done; [by intros ? [= <-]|case_bool_decide; [by intros ? [= <-]|done]]| | |split; cbn; try by_times| |cbn; lia].
  - right. split_and!; [done|done|cbn; lia|done|by_times].
  - unfold hash_pairs_valid. cbn. case_bool_decide; cbn; rewrite !andb_true_iff in *; naive_solver.
  - case_bool_decide; by_times.
  - case_bool_decide; by_times.
  - destruct (meaning_of book code) as [[]|]; cbn in Es; [| |done]; injection Es as <-; [done|].
    destruct st; cbn in *; try done; split_and!; try done; try by_times. naive_solver.
Qed.

(** A trade the feed reports after the halt it is older than. *)
Definition late_trade (p : HaltAuthoritySnapshot) (event : HaltAuthorityEvent) : Prop :=
  he_kind event = TRADE /\ hs_state p = HALTED_LATCHED /\
  ~ both Z.le (ev_halt_latched_at p) (Some (he_event_at event)).

Lemma late_trade_decided p event : late_trade p event \/ ~ late_trade p event.
Proof.
  assert (B : both Z.le (ev_halt_latched_at p) (Some (he_event_at event)) \/
              ~ both Z.le (ev_halt_latched_at p) (Some (he_event_at event))).
  { destruct (ev_halt_latched_at p) as [h|]; [|left; by intros ? ? [=]].
    destruct (Z.le_gt_cases (dt_instant h) (dt_instant (he_event_at event))).
    - left. by intros ? ? [= <-] [= <-].
    - right. intros K. specialize (K _ _ eq_refl eq_refl). lia. }
  unfold late_trade. destruct (decide (he_kind event = TRADE)), (decide (hs_state p = HALTED_LATCHED)), B; tauto.
Qed.

Record good_trade (config : HaltAuthorityConfig) (p : HaltAuthoritySnapshot)
    (event : HaltAuthorityEvent) (t : datetime) : Prop := {
  gt_id : nonblank_optional (he_trade_id event) = true;
  gt_new : he_trade_id event <> ev_last_trade_id p;
  gt_status : he_status_code event = None;
  gt_acknowledged : exists a, ev_acknowledged_at p = Some a /\ dt_instant a < dt_instant (he_event_at event);
  gt_age : 0 <= dt_instant t - dt_instant (he_event_at event) <= hc_maximum_trade_age config;
}.

Lemma trade_valid_ok config (p : HaltAuthoritySnapshot) event t :
  utc_evidence p -> is_utc (he_event_at event) = true -> is_utc t = true ->
  trade_valid p event config t = Ok true -> good_trade config p event t.
Proof.
  intros [Ha _ _ _] He Ht H. unfold trade_valid in H. apply and_m_true in H as [H Hage].
  apply and_m_true in H as [H Hack]. rewrite lift_bool_ok, !andb_true_iff, negb_true_iff, bool_decide_eq_false, is_none_true in H.
  destruct H as [[H1 H2] H3]. rewrite utc_sub in Hage by done. injection Hage as Hage.
  rewrite andb_true_iff in Hage. destruct Hage as [A1 A2]. zbool.
  split; try done. destruct (ev_acknowledged_at p) as [a|] eqn:E; [|done].
  rewrite utc_lt in Hack by auto. injection Hack as Hack. exists a. split; [done|]. by zbool.
Qed.

Lemma trade_good config p event t q :
  reducing config p event t -> continuing p event -> he_kind event = TRADE -> ~ late_trade p event ->
  _trade_event p event config t = Ok q -> good q.
Proof.
  intros R Hc Hk Hlate H. unfold _trade_event in H.
  apply guard_ok in H as [[_ H]|[Hv H]]; [by eapply rejected_good|]. apply not_m_ok in Hv.
  destruct R as (Hp & Ht & Hm & He). pose proof (event_hash _ _ _ He) as Hs.
  destruct (continuing_event _ _ Hp Hc) as (Hle & Hack & Hone & Hepoch). pose proof (cn_sequence _ _ Hc) as Hseq. pose proof (cn_acknowledged _ _ Hc) as Hacked.
  destruct He as [Ee _ Eo _ _ _ _ _].
  destruct (trade_valid_ok _ _ _ _ (eo_utc _ _ _ (gd_evidence _ Hp)) Ee Ht Hv) as [T1 _ T2 (a & Ta & T3) T4].
  assert (Hhalt : hs_state p = HALTED_LATCHED -> both Z.le (ev_halt_latched_at p) (Some (he_event_at event))).
  { intros S. destruct (ev_halt_latched_at p) as [h|] eqn:Eh; [|by intros ? ? [=]].
    intros x y [= <-] [= <-]. destruct (Z.le_gt_cases (dt_instant h) (dt_instant (he_event_at event))); [done|].
    destruct Hlate. split_and!; [done..|]. rewrite Eh. intros K. specialize (K _ _ eq_refl eq_refl). lia. }
  destruct (he_trade_id event) as [id|] eqn:Ei; [|done].
  apply replace_ok in H as (d & -> & _). open_snapshot p. destruct le as [le|]; [|done]. subst ac.
  split; [|by split].
  split; [split; cbn; try done; [by intros ? [= <-]|by intros ? [= <-]|by destruct st]| | |split; cbn; try by_times| |cbn; lia].
  - right. split_and!; [done|done|cbn; lia|done|by_times].
  - unfold hash_pairs_valid. cbn. destruct st; cbn; rewrite !andb_true_iff in *; naive_solver.
  - destruct st; cbn; by_times.
  - destruct st; cbn; first [by apply Hhalt|by_times].
  - destruct st; cbn; done.
Qed.

Lemma passive_good config p event t q :
  reducing config p event t -> continuing p event -> he_kind event <> TRADE ->
  _passive_event p event config t = Ok q -> good q.
Proof.
  intros R Hc Hk H. unfold _passive_event in H.
  apply guard_ok in H as [[_ H]|[_ H]]; [by eapply rejected_good|].
  apply bind_ok in H as (stale & Hstale & H).
  destruct R as (Hp & Ht & Hm & He). pose proof (event_hash _ _ _ He) as Hs. pose proof (cn_order _ _ Hc Hk) as Ho.
  destruct (continuing_event _ _ Hp Hc) as (Hle & Hack & Hone & Hepoch). pose proof (cn_sequence _ _ Hc) as Hseq. pose proof (cn_acknowledged _ _ Hc) as Hacked.
  destruct He as [Ee _ Eo _ _ _ _ _]. apply replace_ok in H as (d & -> & _). clear Hstale. open_snapshot p.
  destruct le as [le|]; [|done].
  split; [|by split].
  split; [split; cbn; try done; by intros ? [= <-]| | |split; cbn; try by_times| |cbn; lia].
  - right. split_and!; [done|done|cbn; lia|done|by_times].
  - unfold hash_pairs_valid. cbn. rewrite !andb_true_iff in *. naive_solver.
  - destruct stale; [done|]. destruct st; cbn in *; try done. split_and!; [naive_solver|done|].
    destruct Hst as (_ & _ & Hst). by_times.
Qed.

Lemma reduction_good config codebook p event t q :
  good p -> is_utc t = true -> dt_instant (hs_observed_at p) <= dt_instant t -> ~ late_trade p event ->
  reduction config codebook p event t q -> good q.
Proof.
  intros Hp Ht Hm Hl [_ H|hash _ Hh H|_ He _ H|_ He Hc Hk H|_ He Hc Hk H|_ He Hc Hk H|_ He Hc Hk H].
  - by eapply session_closed_good.
  - by eapply fail_closed_good.
  - by eapply acknowledged_good; [by split_and!|].
  - by eapply failure_good; [by split_and!|..].
  - eapply status_good; [by split_and!|done| |done]. by rewrite Hk.
  - by eapply trade_good; [by split_and!|..].
  - by eapply passive_good; [by split_and!|..].
Qed.

(** *** Reading *)

Inductive read_result (config : HaltAuthorityConfig) (p : HaltAuthoritySnapshot) (t : datetime)
    (q : HaltAuthoritySnapshot) : Prop :=
  | read_closed : ~ inside config t -> _session_closed p t = Ok q -> read_result config p t q
  | read_stale : inside config t -> latched (hs_state p) = false ->
      _transition p UNKNOWN p t = Ok q -> read_result config p t q
  | read_kept : inside config t ->
      latched (hs_state p) = true \/
      (hs_state p = OPEN_CONFIRMED /\ trade_stale p config t = Ok false) ->
      _replace_snapshot p (hs_state p) p (hs_transition_count p) t = Ok q -> read_result config p t q.

(** The later of the time of the read and that of the snapshot. *)
Definition read_time (p : HaltAuthoritySnapshot) (t : datetime) : datetime :=
  if dt_instant t <? dt_instant (hs_observed_at p) then hs_observed_at p else t.

Lemma read_time_later p t : dt_instant (hs_observed_at p) <= dt_instant (read_time p t).
Proof. unfold read_time. destruct (Z.ltb_spec (dt_instant t) (dt_instant (hs_observed_at p))); lia. Qed.

Lemma read_time_utc p t : is_utc (hs_observed_at p) = true -> is_utc t = true -> is_utc (read_time p t) = true.
Proof. intros Hp Ht. unfold read_time. by case_match. Qed.

Lemma max_read_time p t :
  is_utc (hs_observed_at p) = true -> is_utc t = true -> dt_max t (hs_observed_at p) = Ok (read_time p t).
Proof. intros Hp Ht. unfold dt_max, read_time. rewrite utc_lt by done. cbn. by case_match. Qed.

Lemma read_ok p config t q :
  read_halt_authority p config t = Ok q ->
  config_facts config /\ valid_snapshot config p /\ is_utc t = true /\
  read_result config p (read_time p t) q.
Proof.
  unfold read_halt_authority. intros H.
  apply bind_ok in H as ([] & Hc%config_ok & H). apply bind_ok in H as ([] & Hp%validate_previous_ok & H).
  apply bind_ok in H as (t' & [Ht ->]%utc_ok & H). apply bind_ok in H as ([] & _ & H).
  rewrite max_read_time in H by (try done; by destruct Hp). cbn [mbind M_bind] in H.
  assert (Hrt : is_utc (read_time p t) = true) by (apply read_time_utc; [by destruct Hp|done]).
  do 3 (split; [done|]).
  apply guard_ok in H as [[Hs H]|[Hs H]].
  { apply read_closed; [|done]. apply not_m_ok in Hs. by apply (decides_false _ _ (inside_decides _ _ Hc Hrt)). }
  apply not_m_ok in Hs. apply (decides_true _ _ (inside_decides _ _ Hc Hrt)) in Hs.
  apply guard_ok in H as [[Hl H]|[Hl H]]; rewrite lift_bool_ok in Hl.
  { apply read_kept; auto. }
  apply bind_ok in H as ([] & Hst & H); [by apply read_stale|].
  apply or_m_false in Hst as [Ho Hst]. rewrite lift_bool_ok, negb_false_iff, bool_decide_eq_true in Ho.
  apply read_kept; auto.
Qed.

Lemma same_good p t q state :
  good p -> is_utc t = true -> dt_instant (hs_observed_at p) <= dt_instant t ->
  state = hs_state p \/ state = UNKNOWN ->
  forall count, _replace_snapshot p state p count t = Ok q -> good q.
Proof.
  intros Hp Ht Hm Hor count H. apply replace_ok in H as (d & -> & _). open_snapshot p.
  split; [|by split].
  split; [by split|done|done|split; cbn; by_times| |done]. destruct Hor as [->| ->]; done.
Qed.

Lemma read_good config p t q :
  good p -> is_utc t = true -> dt_instant (hs_observed_at p) <= dt_instant t ->
  read_result config p t q -> good q.
Proof.
  intros Hp Ht Hm [_ H|_ _ H|_ _ H].
  - by eapply session_closed_good.
  - by eapply same_good; [..|by right|].
  - by eapply same_good; [..|by left|].
Qed.

(** *** What every transition keeps *)

Definition same_scope (p q : HaltAuthoritySnapshot) : Prop :=
  exists state e count t hash, q = next_snapshot p state e count t hash /\
    halt_authority_snapshot_digest q = Ok hash /\ hs_transition_count p <= count.

Lemma replaced p state e count t q :
  _replace_snapshot p state e count t = Ok q -> hs_transition_count p <= count ->
  same_scope p q /\ hs_observed_at q = t /\ hs_state q = state /\ hs_evidence q = e.
Proof.
  intros (h & -> & Hd)%replace_ok Hc. split_and!; try done. by exists state, e, count, t, h.
Qed.

Lemma transitioned p state e t q :
  _transition p state e t = Ok q ->
  same_scope p q /\ hs_observed_at q = t /\ hs_state q = state /\ hs_evidence q = e.
Proof. intros H. eapply replaced; [exact H|apply count_after_grows]. Qed.

Lemma scope_valid config p q :
  valid_snapshot config p -> same_scope p q -> is_utc (hs_observed_at q) = true -> good q -> valid_snapshot config q.
Proof.
  intros [Hd Hs Ho He Hc] (st & e & c & t & h & -> & Hq & Hle) Hu [Hg _]. split; cbn in *; try done. lia.
Qed.

Lemma reduction_scope config codebook p event t q :
  reduction config codebook p event t q -> same_scope p q /\ hs_observed_at q = t.
Proof.
  assert (T : forall state e, _transition p state e t = Ok q -> same_scope p q /\ hs_observed_at q = t)
    by (intros state e H; by apply transitioned in H as (? & ? & _)).
  intros [_ H|hash _ _ H|_ _ _ H|_ _ _ _ H|_ _ _ _ H|_ _ _ _ H|_ _ _ _ H]; [by eapply T|by eapply T|..].
  - unfold _acknowledge_epoch in H. apply guard_ok in H as [[_ H]|[_ H]]; by eapply T.
  - by eapply T.
  - unfold _status_event in H. destruct codebook as [book|]; [|by eapply T].
    destruct (he_status_code event) as [code|]; [|by eapply T].
    apply guard_ok in H as [[_ H]|[_ H]]; [by eapply T|]. destruct (status_state _ _); by eapply T.
  - unfold _trade_event in H. apply guard_ok in H as [[_ H]|[_ H]]; by eapply T.
  - unfold _passive_event in H. apply guard_ok in H as [[_ H]|[_ H]]; [by eapply T|].
    apply bind_ok in H as (stale & _ & H). apply replaced in H as (? & ? & _); [done|apply count_after_grows].
Qed.

Lemma read_scope config p t q : read_result config p t q -> same_scope p q /\ hs_observed_at q = t.
Proof.
  intros [_ H|_ _ H|_ _ H].
  - by apply transitioned in H as (? & ? & _).
  - by apply transitioned in H as (? & ? & _).
  - apply replaced in H as (? & ? & _); [done|lia].
Qed.

Lemma read_time_allowed p t :
  is_utc (hs_observed_at p) = true -> is_utc t = true ->
  dt_instant (hs_observed_at p) - dt_instant t <= _READ_SKEW_TOLERANCE -> _validate_read_time p t = Ok tt.
Proof.
  intros Ho Ht H. unfold _validate_read_time. rewrite utc_sub by done. cbn [mbind M_bind].
  rewrite guard_false; [done|]. by apply Z.ltb_ge.
Qed.

Lemma read_time_refused p t :
  is_utc (hs_observed_at p) = true -> is_utc t = true ->
  _READ_SKEW_TOLERANCE < dt_instant (hs_observed_at p) - dt_instant t ->
  _validate_read_time p t = Raise (HaltAuthorityError "HALT_READ_TIME_REGRESSION").
Proof.
  intros Ho Ht H. unfold _validate_read_time. rewrite utc_sub by done. cbn [mbind M_bind].
  by rewrite (proj2 (Z.ltb_lt _ _) H).
Qed.

(** *** What every reduction keeps, at whatever time *)

Lemma reduction_evidence config codebook (p : HaltAuthoritySnapshot) event t q :
  utc_evidence p -> grounded p -> reduction config codebook p event t q -> utc_evidence q /\ grounded q.
Proof.
  intros [U1 U2 U3 U4] [G1 G2] R.
  assert (F : forall hash, _fail_closed p t hash = Ok q -> utc_evidence q /\ grounded q).
  { intros hash (_ & _ & _ & ->)%transitioned. by split; split. }
  assert (S : forall event', is_utc (he_event_at event') = true -> opt_utc (Some (he_event_at event'))) by (by intros ? ? ? [= <-]).
  destruct R as [_ H|hash _ _ H|_ He _ H|_ He _ _ H|_ He _ _ H|_ He _ _ H|_ He _ _ H];
    try (pose proof (S _ (ef_event _ _ _ He)) as Hev).
  - apply transitioned in H as (_ & _ & _ & ->). by split; split.
  - by eapply F.
  - unfold _acknowledge_epoch in H. apply guard_ok in H as [[_ H]|[_ H]]; [by eapply F|].
    apply transitioned in H as (_ & _ & _ & ->). by split; split.
  - apply transitioned in H as (_ & _ & _ & ->). by split; split.
  - unfold _status_event in H. destruct codebook as [book|]; [|by eapply F].
    destruct (he_status_code event) as [code|]; [|by eapply F].
    apply guard_ok in H as [[_ H]|[_ H]]; [by eapply F|]. destruct (status_state _ _); [|by eapply F].
    apply transitioned in H as (_ & _ & _ & ->). split; split; cbn; try done; by case_bool_decide.
  - unfold _trade_event in H. apply guard_ok in H as [[_ H]|[_ H]]; [by eapply F|].
    apply transitioned in H as (_ & _ & _ & ->). split; split; cbn; try done; by case_bool_decide.
  - unfold _passive_event in H. apply guard_ok in H as [[_ H]|[_ H]]; [by eapply F|].
    apply bind_ok in H as (stale & _ & H). apply replaced in H as (_ & _ & _ & ->); [by split; split|apply count_after_grows].
Qed.

(** *** A snapshot is accepted or refused *)

Lemma previous_valid_decided config p q :
  valid_snapshot config p -> same_scope p q -> utc_evidence q -> is_utc (hs_observed_at q) = true ->
  valid_snapshot config q \/ _validate_previous q config = Raise (HaltAuthorityError "HALT_PREVIOUS_INVALID").
Proof.
  intros Hp (st & e & c & t & h & Eq & Hd & _) U Ho. pose proof (vs_scope _ _ Hp) as Hs.
  assert (Hx : cross_scope_valid q config = Ok (String.eqb (hs_source_hash q) h && scope_matches q config)).
  { unfold cross_scope_valid. rewrite Hd. cbn [mbind M_bind]. by destruct (String.eqb _ _). }
  assert (B : exists b, previous_valid q config = Ok b).
  { unfold previous_valid. rewrite Hx. cbn [mbind M_bind]. destruct (U) as [U1 U2 U3 U4].
    rewrite (proj2 (utc_ok _ _ _)) by (by split). cbn [mbind M_bind].
    rewrite !optional_utc_returns by done. cbn [mbind M_bind].
    destruct (decides_epoch q U1 U2) as (b1 & -> & _), (decides_chronology q _ U Ho) as (b2 & -> & _),
      (decides_state (hs_state q) q U) as (b3 & -> & _). cbn [mbind M_bind]. by eexists. }
  destruct B as [[] B]; [left; by apply previous_valid_spec|right]. unfold _validate_previous. by rewrite B.
Qed.
