(* ===== verification/HaltSafety.v ===== *)
(** * A halt holds until the market is seen to trade again

    The authority as a state machine on the four states, of which every call is a step
    ([step_refines]), and what follows for its runs: a market that is reported open was
    seen to trade within the allowed age, and after a halt only once a resumption and then
    a trade were reported, unless the session was over. *)

From Stdlib Require Import ZArith Lia String Ascii List Bool.
From stdpp Require Import base strings option tactics list.
From S2P Require Import Prelude PyText PyTime PyHash Contracts OpportunityData HaltData HaltAuthority HaltFacts.

#[local] Open Scope string_scope.
#[local] Open Scope Z_scope.

(** ** The state machine *)

Inductive signal := SessionOver | Halted | Resumed | Traded | Quiet.

Inductive spec_step : HaltAuthorityState -> signal -> HaltAuthorityState -> Prop :=
  | spec_over s : spec_step s SessionOver UNKNOWN
  | spec_halt s : spec_step s Halted HALTED_LATCHED
  | spec_resume s : spec_step s Resumed (if latched s then RESUME_PENDING else UNKNOWN)
  | spec_trade s : s <> HALTED_LATCHED -> spec_step s Traded OPEN_CONFIRMED
  | spec_trade_halted : spec_step HALTED_LATCHED Traded HALTED_LATCHED
  | spec_quiet s : spec_step s Quiet s
  | spec_lost s : latched s = false -> spec_step s Quiet UNKNOWN.

Section Runs.
Context (config : HaltAuthorityConfig) (codebook : option HaltStatusCodebook).

(** ** Calls *)

Inductive call := Reduce (event : HaltAuthorityEvent) (t : datetime) | Read (t : datetime).

Definition run_call (p : HaltAuthoritySnapshot) (c : call) : M HaltAuthoritySnapshot :=
  match c with
  | Reduce event t => reduce_halt_authority p event config codebook t
  | Read t => read_halt_authority p config t
  end.

Inductive run : HaltAuthoritySnapshot -> list call -> HaltAuthoritySnapshot -> Prop :=
  | run_nil p : run p [] p
  | run_cons p c q cs r : run_call p c = Ok q -> run q cs r -> run p (c :: cs) r.

(** A status of the stream with a code of the codebook that has the meaning. *)
Definition reports (c : call) (meaning : HaltCodeMeaning) : Prop :=
  exists event t book code, c = Reduce event t /\ he_kind event = TRADING_STATUS /\
    event_facts config event t /\ codebook = Some book /\ _codebook_valid codebook config = true /\
    he_status_code event = Some code /\ meaning_of book code = Some meaning.

(** A trade of the stream, new, after the acknowledgement and recent. *)
Definition trades (c : call) : Prop :=
  exists p event t, c = Reduce event t /\ he_kind event = TRADE /\ event_facts config event t /\
    continuing p event /\ good_trade config p event t.

(** What a call has to have been to give a signal. *)
Definition justified (p : HaltAuthoritySnapshot) (c : call) (q : HaltAuthoritySnapshot) (g : signal) : Prop :=
  match g with
  | SessionOver => ~ inside config (hs_observed_at q)
  | Halted => reports c HALT
  | Resumed => reports c RESUME
  | Traded => trades c /\ ev_last_trade_at q <> None
  | Quiet => True
  end.

(** A trade that confirms the market at the time of the snapshot. *)
Definition confirmed (q : HaltAuthoritySnapshot) : Prop :=
  inside config (hs_observed_at q) /\
  exists trade_at, ev_last_trade_at q = Some trade_at /\
    - _FUTURE_TRADE_TOLERANCE <= dt_instant (hs_observed_at q) - dt_instant trade_at
    <= hc_maximum_trade_age config.

Lemma kept_quiet s : spec_step s Quiet (kept_state s).
Proof. unfold kept_state. destruct (latched s) eqn:E; [apply spec_quiet|by apply spec_lost]. Qed.

Lemma trade_spec s : spec_step s Traded (trade_state s).
Proof. destruct s; [by apply spec_trade|by apply spec_trade|apply spec_trade_halted|by apply spec_trade]. Qed.

Lemma kept_not_open s : kept_state s <> OPEN_CONFIRMED.
Proof. by destruct s. Qed.

(** The effect of a call: a step of the machine that the call justifies, and a market
    that is open is confirmed. *)
Definition effect (p : HaltAuthoritySnapshot) (c : call) (q : HaltAuthoritySnapshot) : Prop :=
  exists g, spec_step (hs_state p) g (hs_state q) /\ justified p c q g /\
    (hs_state q = OPEN_CONFIRMED -> confirmed q).

Lemma quiet_effect p c q : hs_state q = kept_state (hs_state p) -> effect p c q.
Proof.
  intros E. exists Quiet. rewrite E. split; [apply kept_quiet|]. split; [done|]. by intros ?%kept_not_open.
Qed.

Lemma rejected_effect p c t hash q : _fail_closed p t hash = Ok q -> effect p c q.
Proof. intros (_ & _ & E & _)%transitioned. by apply quiet_effect. Qed.

Lemma closed_effect p c t q : ~ inside config t -> _session_closed p t = Ok q -> effect p c q.
Proof.
  intros Hi (_ & Et & E & _)%transitioned. exists SessionOver. rewrite E. split; [apply spec_over|].
  cbn. rewrite Et. by split.
Qed.

Lemma acknowledged_effect p c event t q : _acknowledge_epoch p event t = Ok q -> effect p c q.
Proof.
  unfold _acknowledge_epoch. intros [[_ H]|[_ H]]%guard_ok; [by eapply rejected_effect|].
  apply transitioned in H as (_ & _ & E & _). by apply quiet_effect.
Qed.

Lemma failure_effect p c event t q : _failure_event p event t = Ok q -> effect p c q.
Proof. intros (_ & _ & E & _)%transitioned. by apply quiet_effect. Qed.

Lemma status_effect p event t q :
  event_facts config event t -> he_kind event = TRADING_STATUS ->
  _status_event p event config codebook t = Ok q -> effect p (Reduce event t) q.
Proof.
  intros He Hk H. unfold _status_event in H. destruct codebook as [book|] eqn:Eb; [|by eapply rejected_effect].
  destruct (he_status_code event) as [code|] eqn:Ec; [|by eapply rejected_effect].
  apply guard_ok in H as [[_ H]|[Hg H]]; [by eapply rejected_effect|].
  rewrite lift_bool_ok, !orb_false_iff, !negb_false_iff in Hg. destruct Hg as [[Hv _] _].
  assert (R : forall meaning, meaning_of book code = Some meaning -> reports (Reduce event t) meaning).
  { intros meaning Hm. exists event, t, book, code. rewrite Eb. by split_and!. }
  destruct (meaning_of book code) as [[]|] eqn:Em; cbn [status_state] in H.
  - apply transitioned in H as (_ & _ & E & _). exists Halted. rewrite E. split; [apply spec_halt|]. split; [by apply R|done].
  - apply transitioned in H as (_ & _ & E & _). exists Resumed. rewrite E. split; [apply spec_resume|].
    split; [by apply R|]. by destruct (latched (hs_state p)).
  - by eapply rejected_effect.
Qed.

Lemma trade_effect (p : HaltAuthoritySnapshot) event t q :
  utc_evidence p -> is_utc t = true -> event_facts config event t -> inside config t -> continuing p event ->
  he_kind event = TRADE -> _trade_event p event config t = Ok q -> effect p (Reduce event t) q.
Proof.
  intros Hp Ht He Hi Hc Hk H. unfold _trade_event in H.
  apply guard_ok in H as [[_ H]|[Hv H]]; [by eapply rejected_effect|]. apply not_m_ok in Hv.
  pose proof (trade_valid_ok _ _ _ _ Hp (ef_event _ _ _ He) Ht Hv) as G.
  apply transitioned in H as (_ & Et & E & Ee).
  exists Traded. rewrite E. split; [apply trade_spec|]. split.
  - split; [by exists p, event, t|by rewrite Ee].
  - intros _. split; [by rewrite Et|]. exists (he_event_at event). rewrite Ee, Et. split; [done|].
    pose proof (gt_age _ _ _ _ G). unfold _FUTURE_TRADE_TOLERANCE, seconds. lia.
Qed.

Lemma not_stale_confirmed (e : evidence) t :
  utc_evidence e -> is_utc t = true -> trade_stale e config t = Ok false ->
  exists trade_at, ev_last_trade_at e = Some trade_at /\
    - _FUTURE_TRADE_TOLERANCE <= dt_instant t - dt_instant trade_at <= hc_maximum_trade_age config.
Proof.
  intros [_ _ Hu _] Ht H. unfold trade_stale in H. destruct (ev_last_trade_at e) as [a|]; [|done].
  exists a. split; [done|]. rewrite !utc_sub in H by auto. apply or_m_false in H as [H1 H2].
  injection H1 as H1. injection H2 as H2. zbool. lia.
Qed.

Lemma passive_effect (p : HaltAuthoritySnapshot) c event t q :
  utc_evidence p -> is_utc t = true -> inside config t -> _passive_event p event config t = Ok q -> effect p c q.
Proof.
  intros Hp Ht Hi H. unfold _passive_event in H.
  apply guard_ok in H as [[_ H]|[_ H]]; [by eapply rejected_effect|].
  apply bind_ok in H as (stale & Hs & H). apply replaced in H as (_ & Et & E & Ee); [|apply count_after_grows].
  destruct stale.
  - exists Quiet. rewrite E. apply and_m_true in Hs as [Ho _]. rewrite lift_bool_ok, bool_decide_eq_true in Ho.
    rewrite Ho. by split; [apply spec_lost|].
  - exists Quiet. rewrite E. split; [apply spec_quiet|]. split; [done|]. intros Ho.
    rewrite Ho in Hs. rewrite bool_decide_eq_true_2 in Hs by done.
    destruct (not_stale_confirmed p t Hp Ht Hs) as (a & Ha & Hb).
    split; [by rewrite Et|]. exists a. by rewrite Ee, Et.
Qed.

Lemma read_effect p t q :
  valid_snapshot config p -> is_utc t = true -> read_result config p (read_time p t) q ->
  effect p (Read t) q.
Proof.
  intros [_ _ Ho [Hu _ _ _ _ _] _] Ht [Hi H|Hi Hl H|Hi Hl H].
  - by eapply closed_effect.
  - apply transitioned in H as (_ & _ & E & _). exists Quiet. rewrite E. by split; [apply spec_lost|].
  - apply replaced in H as (_ & Et & E & Ee); [|lia]. exists Quiet. rewrite E. split; [apply spec_quiet|].
    split; [done|]. intros Hopen. destruct Hl as [Hl|[_ Hs]]; [by rewrite Hopen in Hl|].
    destruct (not_stale_confirmed p (read_time p t) Hu (read_time_utc _ _ Ho Ht) Hs) as (a & Ha & Hb).
    split; [by rewrite Et|]. exists a. by rewrite Ee, Et.
Qed.

(** Every call is a step of the machine. *)
Lemma call_effect p c q : run_call p c = Ok q -> effect p c q.
Proof.
  destruct c as [event t|t]; cbn [run_call]; intros H.
  - apply reduce_ok in H as (_ & Hp & Ht & _ & R). pose proof (eo_utc _ _ _ (vs_evidence _ _ Hp)) as Hu.
    destruct R as [Hi H|hash _ _ H|_ He _ H|_ He _ _ H|_ He _ Hk H|Hi He Hc Hk H|Hi He _ _ H].
    + by eapply closed_effect.
    + by eapply rejected_effect.
    + by eapply acknowledged_effect.
    + by eapply failure_effect.
    + by eapply status_effect.
    + by eapply trade_effect.
    + by eapply passive_effect.
  - apply read_ok in H as (_ & Hp & Ht & R). by eapply read_effect.
Qed.

(** *** The call returns *)

Lemma total_guard {A} (c : M bool) (r k : M A) : total c -> total r -> total k -> total (guard_m c r k).
Proof. intros (b & -> & _) Hr Hk. by destruct b. Qed.
Lemma total_decides m Q : decides m Q -> total m.
Proof. intros (b & -> & _). by exists b. Qed.
Lemma total_and a b : total a -> (a = Ok true -> total b) -> total (a &&& b).
Proof. intros (x & -> & _) Hb. destruct x; [by apply Hb|apply total_ok]. Qed.
Lemma total_or a b : total a -> (a = Ok false -> total b) -> total (a ||| b).
Proof. intros (x & -> & _) Hb. destruct x; [apply total_ok|by apply Hb]. Qed.
Lemma total_not a : total a -> total (not a).
Proof. intros (x & -> & _). by exists (negb x). Qed.
Lemma total_lift (b : bool) : total b.
Proof. by exists b. Qed.
Lemma total_lt a b : is_utc a = true -> is_utc b = true -> total (dt_lt a b).
Proof. intros Ha Hb. rewrite utc_lt by done. apply total_ok. Qed.
Lemma total_le a b : is_utc a = true -> is_utc b = true -> total (dt_le a b).
Proof. intros Ha Hb. rewrite utc_le by done. apply total_ok. Qed.
Lemma total_sub a b : is_utc a = true -> is_utc b = true -> total (dt_sub a b).
Proof. intros Ha Hb. rewrite utc_sub by done. apply total_ok. Qed.

Lemma total_digest event : total (digest_matches event).
Proof.
  unfold digest_matches, catching, _utc. destruct (is_utc (he_event_at event)) eqn:E1; cbn; [|apply total_ok].
  destruct (is_utc (he_received_at event)) eqn:E2; cbn; [|apply total_ok].
  unfold halt_authority_event_digest.
  destruct (canonical_time_total _ E1) as (j1 & -> & _), (canonical_time_total _ E2) as (j2 & -> & _).
  apply total_ok.
Qed.

Lemma total_event_valid event t : config_facts config -> is_utc t = true -> total (_event_valid event config t).
Proof.
  intros Hc Ht. unfold _event_valid. destruct (total_digest event) as (matches & E & _). rewrite E. cbn [mbind M_bind].
  destruct matches as [b|]; [|apply total_ok].
  assert (U : is_utc (he_event_at event) = true /\ is_utc (he_received_at event) = true).
  { unfold digest_matches in E. apply catching_ok in E as [E|[_ [=]]]. inv_seq E.
    repeat match goal with K : _utc _ _ = Ok _ |- _ => apply utc_ok in K as [? ->] end. done. }
  destruct U as [U1 U2]. apply total_and; [apply total_and; [apply total_and|]|]; intros;
    [apply total_lift|by eapply total_decides, within_utc|apply total_and; intros; by apply total_le|apply total_lift].
Qed.

Lemma transition_total p state e t :
  valid_snapshot config p -> is_utc t = true -> utc_evidence e -> total (_transition p state e t).
Proof. intros Hp Ht He. destruct (replace_returns config p state e (count_after p state) t Hp Ht He) as [q H]. by exists q. Qed.

Lemma fail_closed_total p t hash :
  valid_snapshot config p -> is_utc t = true -> total (_fail_closed p t hash).
Proof. intros Hp Ht. apply transition_total; [done..|]. by destruct (eo_utc _ _ _ (vs_evidence _ _ Hp)). Qed.

Lemma session_closed_total p t :
  valid_snapshot config p -> is_utc t = true -> total (_session_closed p t).
Proof. intros Hp Ht. apply transition_total; [done..|]. by destruct (eo_utc _ _ _ (vs_evidence _ _ Hp)). Qed.

Lemma trade_stale_total (e : evidence) t : utc_evidence e -> is_utc t = true -> total (trade_stale e config t).
Proof.
  intros [_ _ Hu _] Ht. unfold trade_stale. destruct (ev_last_trade_at e) as [a|]; [|apply total_ok].
  rewrite !utc_sub by auto. apply total_or; intros; apply total_ok.
Qed.

Lemma handlers_total (p : HaltAuthoritySnapshot) event t :
  valid_snapshot config p -> is_utc t = true -> event_facts config event t ->
  total (_acknowledge_epoch p event t) /\ total (_failure_event p event t) /\
  total (_status_event p event config codebook t) /\ total (_trade_event p event config t) /\
  total (_passive_event p event config t).
Proof.
  intros Hp Ht He. pose proof (eo_utc _ _ _ (vs_evidence _ _ Hp)) as Hu. destruct (Hu) as [U1 U2 U3 U4].
  pose proof (ef_event _ _ _ He) as Hev. assert (opt_utc (Some (he_event_at event))) by (by intros ? [= <-]).
  pose proof (fun hash => fail_closed_total p t hash Hp Ht) as Hf.
  assert (T : forall state e, utc_evidence e -> total (_transition p state e t)) by (intros; by apply transition_total).
  split_and!.
  - unfold _acknowledge_epoch. apply total_guard; [|done|by apply T].
    apply total_or; [apply total_or; [apply total_lift|]|intros; apply total_lift].
    intros _. destruct (ev_last_event_at p) as [l|]; [apply total_le; auto|apply total_ok].
  - by apply T.
  - unfold _status_event. destruct codebook as [book|]; [|done]. destruct (he_status_code event) as [code|]; [|done].
    apply total_guard; [apply total_lift|done|]. destruct (status_state _ _); [|done].
    apply T. by split; cbn; try case_bool_decide.
  - unfold _trade_event. apply total_guard; [|done|by apply T; split; cbn; try case_bool_decide].
    apply total_not, total_and; [apply total_and; [apply total_lift|]|intros _; rewrite utc_sub by done; apply total_ok].
    intros _. destruct (ev_acknowledged_at p) as [a|]; [apply total_lt; auto|apply total_ok].
  - unfold _passive_event. apply total_guard; [apply total_lift|done|].
    apply total_bind; [apply total_and; [apply total_lift|intros _; by apply trade_stale_total]|].
    intros stale. destruct (replace_returns config p (if stale : bool then UNKNOWN else hs_state p)
      {| ev_epoch := ev_epoch p; ev_acknowledged_at := ev_acknowledged_at p;
         ev_last_sequence := he_sequence event; ev_last_event_at := Some (he_event_at event);
         ev_last_event_hash := Some (he_source_hash event);
         ev_decisive_event_hash := ev_decisive_event_hash p;
         ev_last_rejected_event_hash := ev_last_rejected_event_hash p;
         ev_last_trade_at := ev_last_trade_at p; ev_last_trade_id := ev_last_trade_id p;
         ev_last_trade_hash := ev_last_trade_hash p; ev_halt_latched_at := ev_halt_latched_at p;
         ev_halt_event_hash := ev_halt_event_hash p |}
      (count_after p (if stale : bool then UNKNOWN else hs_state p)) t Hp Ht) as [q H']; [by split|].
    by exists q.
Qed.

Lemma continues_total (p : HaltAuthoritySnapshot) event :
  utc_evidence p -> is_utc (he_event_at event) = true -> total (continues p event).
Proof.
  intros [_ Hu _ _] He. unfold continues. apply total_and; [apply total_lift|intros _].
  destruct (ev_last_event_at p) as [l|]; [|apply total_ok]. unfold _chronology_acceptable.
  case_bool_decide; [rewrite utc_sub by auto; apply total_ok|apply total_lt; auto].
Qed.

Lemma reduce_total p event t :
  _validate_config config = Ok tt -> valid_snapshot config p -> is_utc t = true ->
  dt_instant (hs_observed_at p) - dt_instant t <= _READ_SKEW_TOLERANCE ->
  total (reduce_halt_authority p event config codebook t).
Proof.
  intros Hv Hp Ht Hs. pose proof (config_ok _ Hv) as Hc. pose proof (eo_utc _ _ _ (vs_evidence _ _ Hp)) as Hu.
  unfold reduce_halt_authority. rewrite Hv. cbn [mbind M_bind].
  rewrite (proj2 (validate_previous_ok _ _) Hp). cbn [mbind M_bind].
  rewrite (proj2 (utc_ok _ _ _)) by (by split). cbn [mbind M_bind].
  rewrite read_time_allowed by (try done; by destruct Hp). cbn [mbind M_bind].
  apply total_guard; [by eapply total_not, total_decides, inside_decides|by apply session_closed_total|].
  destruct (total_event_valid event t Hc Ht) as ([] & E & _); rewrite E; [|by apply fail_closed_total].
  pose proof (event_valid_ok _ _ _ Hc Ht E) as He.
  destruct (handlers_total p event t Hp Ht He) as (T1 & T2 & T3 & T4 & T5).
  apply total_guard; [apply total_not, total_ok|by apply fail_closed_total|].
  apply total_guard; [apply total_lift|done|].
  apply total_guard; [apply total_not, continues_total; [done|by destruct He]|by apply fail_closed_total|].
  by destruct (he_kind event).
Qed.

Lemma read_total p t :
  _validate_config config = Ok tt -> valid_snapshot config p -> is_utc t = true ->
  dt_instant (hs_observed_at p) - dt_instant t <= _READ_SKEW_TOLERANCE ->
  total (read_halt_authority p config t).
Proof.
  intros Hv Hp Ht Hs. pose proof (config_ok _ Hv) as Hc. pose proof (eo_utc _ _ _ (vs_evidence _ _ Hp)) as Hu.
  pose proof (vs_observed _ _ Hp) as Ho. pose proof (read_time_utc p t Ho Ht) as Hr.
  unfold read_halt_authority. rewrite Hv. cbn [mbind M_bind].
  rewrite (proj2 (validate_previous_ok _ _) Hp). cbn [mbind M_bind].
  rewrite (proj2 (utc_ok _ _ _)) by (by split). cbn [mbind M_bind].
  rewrite read_time_allowed by done. cbn [mbind M_bind].
  rewrite max_read_time by done. cbn [mbind M_bind].
  assert (R : forall state count, total (_replace_snapshot p state p count (read_time p t))).
  { intros state count. destruct (replace_returns config p state p count _ Hp Hr Hu) as [q H]. by exists q. }
  apply total_guard; [by eapply total_not, total_decides, inside_decides|by apply session_closed_total|].
  apply total_guard; [apply total_lift|apply R|].
  apply total_bind; [apply total_or; [apply total_lift|intros _; by apply trade_stale_total]|].
  intros []; [apply R|apply R].
Qed.

(** *** The snapshot it returns *)

(** No call accepts the snapshot any more: every one raises. *)
Definition refused (q : HaltAuthoritySnapshot) : Prop :=
  forall c, run_call q c = Raise (HaltAuthorityError "HALT_PREVIOUS_INVALID").

Lemma refused_calls q :
  _validate_config config = Ok tt ->
  _validate_previous q config = Raise (HaltAuthorityError "HALT_PREVIOUS_INVALID") -> refused q.
Proof.
  intros C V [event t|t]; cbn [run_call]; unfold read_halt_authority, reduce_halt_authority; by rewrite C, V.
Qed.

Lemma reduced_snapshot p event t q :
  valid_snapshot config p -> grounded p -> reduce_halt_authority p event config codebook t = Ok q ->
  _validate_config config = Ok tt ->
  hs_observed_at q = t /\
  ((valid_snapshot config q /\ grounded q) \/
   (refused q /\ (late_trade p event \/ dt_instant t < dt_instant (hs_observed_at p)))).
Proof.
  intros Hp Hg H Hv. apply reduce_ok in H as (_ & _ & Ht & _ & R).
  destruct (reduction_scope _ _ _ _ _ _ R) as [Hs Et]. split; [done|].
  destruct (reduction_evidence _ _ _ _ _ _ (eo_utc _ _ _ (vs_evidence _ _ Hp)) Hg R) as [Hu Hgq].
  destruct (previous_valid_decided config p q Hp Hs Hu ltac:(by rewrite Et)) as [K|K]; [by left|].
  destruct (late_trade_decided p event) as [L|L]; [right; split; [by apply refused_calls|by left]|].
  destruct (Z.lt_ge_cases (dt_instant t) (dt_instant (hs_observed_at p)));
    [right; split; [by apply refused_calls|by right]|].
  left. assert (Gq : good q) by (eapply reduction_good; [|done..]; split; [by destruct Hp|done]).
  split; [|done]. apply (scope_valid _ p); [done..|by rewrite Et|done].
Qed.

Lemma behind_refused p t :
  _validate_config config = Ok tt -> valid_snapshot config p -> is_utc t = true ->
  _READ_SKEW_TOLERANCE < dt_instant (hs_observed_at p) - dt_instant t ->
  read_halt_authority p config t = Raise (HaltAuthorityError "HALT_READ_TIME_REGRESSION") /\
  forall event, reduce_halt_authority p event config codebook t = Raise (HaltAuthorityError "HALT_READ_TIME_REGRESSION").
Proof.
  intros Hv Hp Ht Hs. pose proof (vs_observed _ _ Hp) as Ho.
  unfold read_halt_authority, reduce_halt_authority. rewrite Hv. cbn [mbind M_bind].
  rewrite (proj2 (validate_previous_ok _ _) Hp). cbn [mbind M_bind].
  rewrite (proj2 (utc_ok _ _ _)) by (by split). cbn [mbind M_bind].
  by rewrite read_time_refused.
Qed.

(** C5: The authority as a state machine, and when it gets stuck.  From a valid snapshot (every
    condition the next call checks: its hash, the scope of the configuration, the epoch, the
    chronology of its times, the evidence of its state) in which a trade and a halt are among
    the events, a call with any event at all, well formed or not, at a time of UTC at most thirty
    seconds behind the snapshot's returns a snapshot observed at that time, by a step of the
    machine with the four states, in which a halt leads to HALTED_LATCHED from everywhere, a
    resumption only from a latched halt to RESUME_PENDING, a trade to OPEN_CONFIRMED from every
    state but HALTED_LATCHED, and whatever is wrong or stale to UNKNOWN from the states that
    are not latched.  The snapshot is again valid, so that the next call accepts it, with two
    exceptions, in which it may also be one that every later call refuses with
    HALT_PREVIOUS_INVALID: the event is a trade dated before the halt that is latched, which
    the feed reports late, or the time of the call is before the snapshot's.  A read returns a
    valid snapshot, without exception.  At a time further behind, every call raises. *)
Theorem authority_runs p :
  _validate_config config = Ok tt -> valid_snapshot config p -> grounded p ->
  forall t, is_utc t = true ->
  (dt_instant (hs_observed_at p) - dt_instant t <= _READ_SKEW_TOLERANCE ->
   (forall event, exists q g, reduce_halt_authority p event config codebook t = Ok q /\
     hs_observed_at q = t /\ spec_step (hs_state p) g (hs_state q) /\ justified p (Reduce event t) q g /\
     ((valid_snapshot config q /\ grounded q) \/
      (refused q /\ (late_trade p event \/ dt_instant t < dt_instant (hs_observed_at p))))) /\
   (exists q g, read_halt_authority p config t = Ok q /\
     valid_snapshot config q /\ grounded q /\ hs_observed_at q = read_time p t /\
     spec_step (hs_state p) g (hs_state q) /\ justified p (Read t) q g)) /\
  (_READ_SKEW_TOLERANCE < dt_instant (hs_observed_at p) - dt_instant t ->
   read_halt_authority p config t = Raise (HaltAuthorityError "HALT_READ_TIME_REGRESSION") /\
   forall event, reduce_halt_authority p event config codebook t = Raise (HaltAuthorityError "HALT_READ_TIME_REGRESSION")).
Proof.
  intros Hv Hp Hg t Ht. pose proof (vs_observed _ _ Hp) as Ho. split.
  - intros Hm. split.
    + intros event. destruct (reduce_total p event t) as (q & H & _); [done..|].
      destruct (call_effect _ (Reduce event t) _ H) as (g & Hs & Hj & _).
      destruct (reduced_snapshot p event t q Hp Hg H Hv) as [Et Hcase]. exists q, g. by split_and!.
    + destruct (read_total p t) as (q & H & _); [done..|].
      destruct (call_effect _ (Read t) _ H) as (g & Hs & Hj & _). pose proof H as R.
      apply read_ok in R as (Hc & _ & _ & R). pose proof (read_time_utc _ _ Ho Ht) as Hr.
      destruct (read_scope _ _ _ _ R) as [S Et].
      assert (Gq : good q)
        by (eapply (read_good config p); [split; [by destruct Hp|done]|exact Hr|apply read_time_later|exact R]).
      exists q, g. split_and!; try done; [|by destruct Gq]. apply (scope_valid _ p); [done..|by rewrite Et|done].
  - by apply behind_refused.
Qed.

(** ** Runs *)

(** After one of the calls the session was over. *)
Definition session_over (p : HaltAuthoritySnapshot) (cs : list call) : Prop :=
  exists cs1 cs2 q, cs = (cs1 ++ cs2)%list /\ cs1 <> [] /\ run p cs1 q /\ ~ inside config (hs_observed_at q).
Definition trade_among (cs : list call) : Prop := exists cs1 c cs2, cs = (cs1 ++ c :: cs2)%list /\ trades c.
Definition resumed_and_traded (cs : list call) : Prop :=
  exists cs1 c cs2, cs = (cs1 ++ c :: cs2)%list /\ reports c RESUME /\ trade_among cs2.

Lemma session_over_cons p c q cs :
  run_call p c = Ok q -> session_over q cs -> session_over p (c :: cs).
Proof.
  intros H (cs1 & cs2 & r & -> & _ & Hr & Hi). exists (c :: cs1), cs2, r.
  by split_and!; [| |eapply run_cons|].
Qed.
Lemma trade_among_cons c cs : trade_among cs -> trade_among (c :: cs).
Proof. intros (l1 & x & l2 & -> & H). by exists (c :: l1), x, l2. Qed.
Lemma resumed_cons c cs : resumed_and_traded cs -> resumed_and_traded (c :: cs).
Proof. intros (l1 & x & l2 & -> & H). by exists (c :: l1), x, l2. Qed.
Lemma resumed_trade cs : resumed_and_traded cs -> trade_among cs.
Proof. intros (l1 & x & l2 & -> & _ & l3 & y & l4 & -> & H). exists (l1 ++ x :: l3)%list, y, l4. by rewrite <- app_assoc. Qed.

(** The time a call is given. *)
Definition time_of (c : call) : datetime := match c with Reduce _ t | Read t => t end.

Lemma observed_time p c q :
  run_call p c = Ok q -> hs_observed_at q = time_of c \/ hs_observed_at q = hs_observed_at p.
Proof.
  destruct c as [event t|t]; cbn [run_call time_of]; intros H.
  - apply reduce_ok in H as (_ & _ & _ & _ & R). apply reduction_scope in R as [_ ->]. by left.
  - apply read_ok in H as (_ & _ & _ & R). apply read_scope in R as [_ ->]. unfold read_time. case_match; auto.
Qed.

(** A run ends outside the session only when it began there or a call was given a time there. *)
Lemma outside_time p cs q :
  run p cs q -> ~ inside config (hs_observed_at q) -> inside config (hs_observed_at p) ->
  exists c, c ∈ cs /\ ~ inside config (time_of c).
Proof.
  induction 1 as [p|p c m cs q H Hr IH]; intros Ho Hi; [done|].
  assert (D : inside config (time_of c) \/ ~ inside config (time_of c)).
  { unfold inside. destruct (Z.le_gt_cases (dt_instant (hc_session_open_at config)) (dt_instant (time_of c))),
      (Z.lt_ge_cases (dt_instant (time_of c)) (dt_instant (hc_session_close_at config))); lia. }
  destruct D as [D|D]; [|exists c; split; [by left|done]].
  destruct IH as (x & Hx & Hox); [done| |exists x; split; [by right|done]].
  by destruct (observed_time _ _ _ H) as [->| ->].
Qed.

Lemma latched_until p cs q :
  run p cs q -> hs_state q = OPEN_CONFIRMED ->
  (hs_state p = HALTED_LATCHED -> session_over p cs \/ resumed_and_traded cs) /\
  (hs_state p = RESUME_PENDING -> session_over p cs \/ trade_among cs).
Proof.
  intros Hr Ho. induction Hr as [p|p c m cs q H Hr IH]; [split; congruence|].
  specialize (IH Ho) as [IH1 IH2]. destruct (call_effect _ _ _ H) as (g & Hs & Hj & _).
  assert (Over : ~ inside config (hs_observed_at m) -> session_over p (c :: cs)).
  { intros Hi. exists [c], cs, m. split_and!; [done|done|eapply run_cons; [done|apply run_nil]|done]. }
  assert (Lift : forall P Q : list call -> Prop, (forall l, P l -> Q (c :: l)) ->
    session_over m cs \/ P cs -> session_over p (c :: cs) \/ Q (c :: cs)).
  { intros P Q HPQ [K|K]; [left; by eapply session_over_cons|right; auto]. }
  split; intros E; rewrite E in Hs; inversion Hs; subst; cbn in *;
    try match goal with K : _ = hs_state m |- _ => symmetry in K end; try done.
  - left. by apply Over.
  - apply (Lift resumed_and_traded); [apply resumed_cons|auto].
  - apply (Lift trade_among); [|auto]. intros l Hl. by exists [], c, l.
  - apply (Lift resumed_and_traded); [apply resumed_cons|auto].
  - apply (Lift resumed_and_traded); [apply resumed_cons|auto].
  - left. by apply Over.
  - apply (Lift resumed_and_traded); [|auto]. intros l Hl. by apply trade_among_cons, resumed_trade.
  - apply (Lift trade_among); [apply trade_among_cons|auto].
  - right. exists [], c, cs. split; [done|]. apply Hj.
  - apply (Lift trade_among); [apply trade_among_cons|auto].
Qed.

Lemma run_confirmed p cs q : run p cs q -> cs <> [] -> hs_state q = OPEN_CONFIRMED -> confirmed q.
Proof.
  induction 1 as [p|p c m cs q H Hr IH]; intros Hn Ho; [done|].
  destruct cs as [|c' cs]; [|by apply IH]. inversion Hr; subst.
  destruct (call_effect _ _ _ H) as (g & _ & _ & Hc). auto.
Qed.

(** C4: A market that is reported as not halted was seen to trade.  Whatever events the stream
    delivers, in whatever order and however often the snapshot is read between them: when the
    authority answers NOT_HALTED, the session is open and the last trade it keeps is at most
    the allowed age old (a minute at most) and at most five seconds ahead; and when a halt was
    latched before, then since then either the session was over, or a status of the stream with
    a code that means resumption was accepted and, after it, a trade with a new identity, dated
    after the acknowledgement of its epoch and recent when it arrived.  Neither a
    reconnection, nor a gap, an error, a quote, a malformed event, a second halt nor silence
    releases it. *)
Theorem open_market_justified p cs q :
  run p cs q -> cs <> [] -> trading_halt_state q = NOT_HALTED ->
  confirmed q /\
  (hs_state p = HALTED_LATCHED -> session_over p cs \/ resumed_and_traded cs) /\
  (hs_state p = RESUME_PENDING -> session_over p cs \/ trade_among cs).
Proof.
  intros Hr Hn Ho. assert (E : hs_state q = OPEN_CONFIRMED)
    by (unfold trading_halt_state in Ho; by destruct (hs_state q)).
  split; [by eapply run_confirmed|by apply (latched_until p cs q)].
Qed.
End Runs.
