(* ===== verification/HaltStream.v ===== *)
(** * Trading halts: the stream adapter

    [backend/app/alpaca/opportunity_halt_stream.py]: [AlpacaOpportunityHaltStreamAdapter],
    which turns the callbacks of a stream of trades and statuses into events of the halt
    authority, numbers them within the epochs it draws, and asks for a new subscription
    when the authority has lost the stream.  Every callback runs under the lock of the
    adapter: it is one action on the state; an exception keeps what was written before it.
    The clock, the factory of epochs, and whether the thread of the stream lives are
    oracles, read one value after the other. *)

From Stdlib Require Import ZArith Lia String Ascii List Bool.
From stdpp Require Import base strings gmap option tactics list.
From S2P Require Import Prelude PyText PyDict PyTime PyHash Contracts OpportunityData HaltData HaltAuthority.

#[local] Open Scope string_scope.
#[local] Open Scope Z_scope.

Definition PINNED_ALPACA_PY_VERSION : string := "0.44.0".
Definition PINNED_STOCK_FEED : string := "IEX".
Definition ALPACA_TRADING_STATUS_CODEBOOK_VERSION : string :=
  "https://docs.alpaca.markets/us/docs/real-time-stock-pricing-data@2026-08-30".

Definition _SUBSCRIPTION_CHANNELS : list string :=
  ["trades"; "quotes"; "orderbooks"; "bars"; "updatedBars"; "dailyBars"; "statuses"; "lulds"; "news";
   "corrections"; "cancelErrors"].

Definition alpaca_trading_status_codebook : HaltStatusCodebook :=
  let value hash := mk_HaltStatusCodebook ALPACA_TRADING_STATUS_CODEBOOK_VERSION PINNED_STOCK_FEED
    PINNED_ALPACA_PY_VERSION
    [("2", HALT); ("3", RESUME); ("H", HALT); ("P", HALT); ("Q", RESUME); ("T", RESUME)] hash in
  value (halt_status_codebook_digest (value "")).

Definition _strict_utc (value : datetime) : M datetime :=
  if is_utc value then Ok value else Raise (OpportunityHaltStreamError "HALT_STREAM_TIME_INVALID").

(** [type(value) is str and value and value != "*" and "," not in value and no space] *)
Definition _is_single_symbol (value : string) : bool :=
  str_nonempty value && negb (String.eqb value "*") && negb (str_contains "," value)
  && str_all (fun c => negb (is_space c)) value.

(** ** State *)

Record adapter := mk_adapter {
  ad_snapshot : HaltAuthoritySnapshot;
  ad_epoch : option string;
  ad_sequence : Z;
  ad_seen_epochs : gset string;
  ad_seen_trade_ids : gset string;
  ad_thread : bool;
  ad_thread_started : bool;
  ad_stream_ready : bool;
  ad_startup_resolved : bool;
  ad_startup_error : option string;
  ad_stopping : bool;
  ad_closed : bool;
  ad_recovery_due_at : option datetime;
  ad_recovery_timer : bool;
  ad_reads : nat; (* of the oracles *)
}.

(** An action on the state, which an exception does not undo. *)
Definition act (A : Type) : Type := adapter -> adapter * M A.
#[export] Instance act_ret : MRet act := fun A x a => (a, Ok x).
#[export] Instance act_bind : MBind act := fun A B f t a =>
  match t a with (a, Ok x) => f x a | (a, Raise e) => (a, Raise e) end.
Definition lift {A} (m : M A) : act A := fun a => (a, m).
Definition get : act adapter := fun a => (a, Ok a).
Definition modify (f : adapter -> adapter) : act unit := fun a => (f a, Ok tt).
Definition throw {A} (code : string) : act A := lift (Raise (OpportunityHaltStreamError code)).
(** [with suppress(Exception): t] and [try: t except Exception: h] *)
Definition suppressed (t : act unit) : act unit := fun a => ((t a).1, Ok tt).
Definition except (t h : act unit) : act unit := fun a =>
  match t a with (a, Raise _) => h a | r => r end.

Definition set_snapshot (s : HaltAuthoritySnapshot) (a : adapter) : adapter :=
  mk_adapter s (ad_epoch a) (ad_sequence a) (ad_seen_epochs a) (ad_seen_trade_ids a) (ad_thread a)
    (ad_thread_started a) (ad_stream_ready a) (ad_startup_resolved a) (ad_startup_error a)
    (ad_stopping a) (ad_closed a) (ad_recovery_due_at a) (ad_recovery_timer a) (ad_reads a).
Definition set_epoch (epoch : string) (a : adapter) : adapter :=
  mk_adapter (ad_snapshot a) (Some epoch) 0 ({[epoch]} ∪ ad_seen_epochs a) (ad_seen_trade_ids a)
    (ad_thread a) (ad_thread_started a) (ad_stream_ready a) (ad_startup_resolved a)
    (ad_startup_error a) (ad_stopping a) (ad_closed a) (ad_recovery_due_at a)
    (ad_recovery_timer a) (ad_reads a).
Definition set_sequence (n : Z) (a : adapter) : adapter :=
  mk_adapter (ad_snapshot a) (ad_epoch a) n (ad_seen_epochs a) (ad_seen_trade_ids a) (ad_thread a)
    (ad_thread_started a) (ad_stream_ready a) (ad_startup_resolved a) (ad_startup_error a)
    (ad_stopping a) (ad_closed a) (ad_recovery_due_at a) (ad_recovery_timer a) (ad_reads a).
Definition add_trade_id (id : string) (a : adapter) : adapter :=
  mk_adapter (ad_snapshot a) (ad_epoch a) (ad_sequence a) (ad_seen_epochs a)
    ({[id]} ∪ ad_seen_trade_ids a) (ad_thread a) (ad_thread_started a) (ad_stream_ready a)
    (ad_startup_resolved a) (ad_startup_error a) (ad_stopping a) (ad_closed a)
    (ad_recovery_due_at a) (ad_recovery_timer a) (ad_reads a).
Definition set_thread (thread started : bool) (a : adapter) : adapter :=
  mk_adapter (ad_snapshot a) (ad_epoch a) (ad_sequence a) (ad_seen_epochs a) (ad_seen_trade_ids a)
    thread started (ad_stream_ready a) (ad_startup_resolved a) (ad_startup_error a)
    (ad_stopping a) (ad_closed a) (ad_recovery_due_at a) (ad_recovery_timer a) (ad_reads a).
Definition set_startup (ready resolved : bool) (error : option string) (a : adapter) : adapter :=
  mk_adapter (ad_snapshot a) (ad_epoch a) (ad_sequence a) (ad_seen_epochs a) (ad_seen_trade_ids a)
    (ad_thread a) (ad_thread_started a) ready resolved error (ad_stopping a) (ad_closed a)
    (ad_recovery_due_at a) (ad_recovery_timer a) (ad_reads a).
Definition set_stopped (stopping closed : bool) (a : adapter) : adapter :=
  mk_adapter (ad_snapshot a) (ad_epoch a) (ad_sequence a) (ad_seen_epochs a) (ad_seen_trade_ids a)
    (ad_thread a) (ad_thread_started a) (ad_stream_ready a) (ad_startup_resolved a)
    (ad_startup_error a) stopping closed (ad_recovery_due_at a) (ad_recovery_timer a) (ad_reads a).
Definition set_recovery (due_at : option datetime) (timer : bool) (a : adapter) : adapter :=
  mk_adapter (ad_snapshot a) (ad_epoch a) (ad_sequence a) (ad_seen_epochs a) (ad_seen_trade_ids a)
    (ad_thread a) (ad_thread_started a) (ad_stream_ready a) (ad_startup_resolved a)
    (ad_startup_error a) (ad_stopping a) (ad_closed a) due_at timer (ad_reads a).
Definition count_read (a : adapter) : adapter :=
  mk_adapter (ad_snapshot a) (ad_epoch a) (ad_sequence a) (ad_seen_epochs a) (ad_seen_trade_ids a)
    (ad_thread a) (ad_thread_started a) (ad_stream_ready a) (ad_startup_resolved a)
    (ad_startup_error a) (ad_stopping a) (ad_closed a) (ad_recovery_due_at a)
    (ad_recovery_timer a) (S (ad_reads a)).

Section Adapter.
Context (config : HaltAuthorityConfig) (codebook : option HaltStatusCodebook).
Context (resubscribe_backoff : timedelta).
(** The oracles. *)
Context (clock : nat -> datetime) (epoch_factory : nat -> M string) (is_alive : nat -> bool).

Definition ask {A} (oracle : nat -> A) : act A := fun a => (count_read a, Ok (oracle (ad_reads a))).
Definition _now : act datetime := value ← ask clock; lift (_strict_utc value).

(** The adapter after its constructor, when the subscriptions of the stream were bound. *)
Definition new_adapter : M adapter :=
  when negb (String.eqb (hc_feed config) PINNED_STOCK_FEED)
       || negb (String.eqb (hc_sdk_version config) PINNED_ALPACA_PY_VERSION)
       || negb (_is_single_symbol (hc_symbol config))
       || negb ((0 <? resubscribe_backoff) && (resubscribe_backoff <=? seconds 30))
  then_ Raise (OpportunityHaltStreamError "HALT_STREAM_CONFIG_INVALID");;
  now ← _strict_utc (clock 0%nat);
  snapshot ← initial_halt_authority config now;
  Ok (mk_adapter snapshot None 0 ∅ ∅ false false false false None false false None false 1).

(** ** Recovery *)

Definition _cancel_recovery : act unit := modify (set_recovery None false).

Definition live : act bool :=
  a ← get;
  if ad_thread a && ad_thread_started a then ask is_alive else mret false.

Definition _arm_recovery (observed_at : datetime) : act unit :=
  inside ← lift (within (hc_session_open_at config) (hc_session_close_at config) observed_at);
  if negb inside then _cancel_recovery
  else
    due_at ← lift (dt_add observed_at resubscribe_backoff);
    a ← get;
    _ ← modify (set_recovery (Some due_at) (ad_recovery_timer a));
    if ad_recovery_timer a then mret tt
    else
      alive ← live;
      if negb alive || ad_closed a || ad_stopping a then mret tt
      else modify (set_recovery (Some due_at) true).

(** ** Snapshots and events *)

Definition _set_snapshot (updated : HaltAuthoritySnapshot) : act unit :=
  a ← get;
  let previous := ad_snapshot a in
  _ ← modify (set_snapshot updated);
  let acknowledged := is_some (ev_acknowledged_at updated) in
  if acknowledged && (is_none (ev_acknowledged_at previous)
                      || bool_decide (hs_state updated = OPEN_CONFIRMED))
  then _cancel_recovery
  else if bool_decide (hs_state previous = OPEN_CONFIRMED) && bool_decide (hs_state updated = UNKNOWN)
          || is_some (ev_acknowledged_at previous) && negb acknowledged
  then _arm_recovery (hs_observed_at updated)
  else mret tt.

Definition _has_continuity (a : adapter) : bool :=
  is_some (ad_epoch a) && (0 <? ad_sequence a) && is_some (ev_acknowledged_at (ad_snapshot a))
  && bool_decide (ev_epoch (ad_snapshot a) = ad_epoch a).

(** The event, with its hash. *)
Definition new_event (kind : HaltAuthorityEventKind) (epoch : string) (sequence : Z)
    (event_at received_at : datetime) (status_code trade_id : option string) : M HaltAuthorityEvent :=
  let event := mk_HaltAuthorityEvent kind (hc_symbol config) epoch sequence event_at received_at
                 status_code trade_id in
  digest ← halt_authority_event_digest (event "");
  Ok (event digest).

Definition _emit (kind : HaltAuthorityEventKind) (event_at : datetime) (received_at : option datetime)
    (status_code trade_id : option string) : act unit :=
  a ← get;
  match ad_epoch a with
  | None => mret tt
  | Some epoch =>
      received ← match received_at with Some received => mret received | None => _now end;
      _ ← modify (fun a => set_sequence (ad_sequence a + 1) a);
      a ← get;
      event ← lift (new_event kind epoch (ad_sequence a) event_at received status_code trade_id);
      updated ← lift (reduce_halt_authority (ad_snapshot a) event config codebook received);
      _set_snapshot updated
  end.

Definition _failure (kind : HaltAuthorityEventKind) (at_ : option datetime) : act unit :=
  a ← get;
  if _has_continuity a then
    event_at ← match at_ with Some event_at => mret event_at | None => _now end;
    _emit kind event_at None None None
  else mret tt.

Definition _safe_failure (kind : HaltAuthorityEventKind) (at_ : option datetime) : act unit :=
  suppressed (_failure kind at_).

Definition _resolve_startup_failure (code : string) : act unit :=
  modify (fun a =>
    if negb (ad_stream_ready a) && is_none (ad_startup_error a)
    then set_startup (ad_stream_ready a) true (Some code) a else a).

Definition unless_stopped (t : act unit) : act unit :=
  a ← get; if ad_closed a || ad_stopping a then mret tt else t.

(** ** The callbacks of the stream *)

(** [type(epoch) is not str or not epoch or epoch.strip() != epoch or epoch in seen] *)
Definition epoch_invalid (epoch : string) (a : adapter) : bool :=
  negb (str_nonempty epoch) || negb (String.eqb (str_strip epoch) epoch)
  || bool_decide (epoch ∈ ad_seen_epochs a).

Definition connection_starting : act unit :=
  unless_stopped (
    _ ← _cancel_recovery;
    a ← get;
    _ ← (if _has_continuity a then now ← _now; _emit RECONNECT now None None None else mret tt);
    epoch ← ask epoch_factory;
    match epoch with
    | Raise _ =>
        _ ← _resolve_startup_failure "HALT_STREAM_EPOCH_INVALID"; throw "HALT_STREAM_EPOCH_INVALID"
    | Ok epoch =>
        a ← get;
        if epoch_invalid epoch a then _ ← _failure GAP None; throw "HALT_STREAM_EPOCH_INVALID"
        else
          _ ← modify (set_epoch epoch);
          now ← _now;
          _arm_recovery now
    end).

(** A message is the value of its ["T"] and its other members. *)
Definition _exact_subscription_ack (kind : string) (message : list (string * list string)) : bool :=
  let symbol := [hc_symbol config] in
  let channel key default := match dget message key with Some l => l | None => default end in
  String.eqb kind "subscription"
  && forallb (fun member => existsb (String.eqb member.1) _SUBSCRIPTION_CHANNELS) message
  && bool_decide (dget message "trades" = Some symbol)
  && bool_decide (dget message "statuses" = Some symbol)
  && bool_decide (channel "corrections" symbol = symbol)
  && bool_decide (channel "cancelErrors" symbol = symbol)
  && forallb (fun key => existsb (String.eqb key) ["trades"; "statuses"; "corrections"; "cancelErrors"]
                         || bool_decide (channel key [] = [])) _SUBSCRIPTION_CHANNELS.

Definition subscription_message (kind : string) (message : list (string * list string)) : act unit :=
  unless_stopped (
    a ← get;
    if negb (_exact_subscription_ack kind message) then
      _ ← _failure MALFORMED None;
      now ← _now;
      _ ← _arm_recovery now;
      _resolve_startup_failure "HALT_STREAM_SUBSCRIPTION_INVALID"
    else if is_none (ad_epoch a) || negb (ad_sequence a =? 0) then
      _ ← _failure GAP None;
      now ← _now;
      _ ← _arm_recovery now;
      _resolve_startup_failure "HALT_STREAM_SUBSCRIPTION_INVALID"
    else
      now ← _now;
      _ ← _emit EPOCH_ACK now None None None;
      modify (fun a => set_startup true true (ad_startup_error a) a)).

Definition stream_error : act unit :=
  _ ← _safe_failure ERROR None; _resolve_startup_failure "HALT_STREAM_START_FAILED".
Definition unexpected_message : act unit :=
  _ ← _safe_failure GAP None; _resolve_startup_failure "HALT_STREAM_START_FAILED".
Definition stream_closed : act unit :=
  _ ← _safe_failure THREAD_DEAD None; _resolve_startup_failure "HALT_STREAM_THREAD_DEAD".

(** A trade of the provider's library; [None]: the field is not of its type. *)
Record Trade := mk_Trade { tr_symbol : string; tr_id : option Z; tr_timestamp : option datetime }.
(** A status of the provider's library. *)
Record TradingStatus := mk_TradingStatus {
  ts_symbol : string; ts_status_code : option string; ts_timestamp : option datetime }.

(** The identity and the time of a trade of the symbol; [None]: the trade is malformed. *)
Definition trade_of (value : option Trade) : option (string * datetime) :=
  match value with
  | Some (mk_Trade symbol (Some id) (Some timestamp)) =>
      if String.eqb symbol (hc_symbol config) && (0 <=? id) then Some (str_of_Z id, timestamp) else None
  | _ => None
  end.

(** A first trade of the epoch that was printed before its acknowledgement. *)
Definition before_epoch (snapshot : HaltAuthoritySnapshot) (timestamp : datetime) : M bool :=
  match ev_acknowledged_at snapshot, ev_last_trade_at snapshot with
  | Some acknowledged_at, None => timestamp ← _strict_utc timestamp; dt_le timestamp acknowledged_at
  | _, _ => Ok false
  end.

Definition trade_received (value : option Trade) (received_at : datetime) : act unit :=
  match trade_of value with
  | None => _failure MALFORMED (Some received_at)
  | Some (trade_id, timestamp) =>
      a ← get;
      if bool_decide (trade_id ∈ ad_seen_trade_ids a) then _failure MALFORMED (Some received_at)
      else
        skipped ← lift (before_epoch (ad_snapshot a) timestamp);
        if skipped : bool then modify (add_trade_id trade_id)
        else
          event_at ← lift (_strict_utc timestamp);
          _ ← _emit TRADE event_at (Some received_at) None (Some trade_id);
          modify (add_trade_id trade_id)
  end.

(** [received_at = self._now()] in a [try] whose handler contains the failure. *)
Definition contained (t : datetime -> act unit) : act unit := fun a =>
  match _now a with
  | (a, Ok received_at) => except (t received_at) (_safe_failure MALFORMED (Some received_at)) a
  | (a, Raise _) => _safe_failure MALFORMED None a
  end.

Definition _on_trade (value : option Trade) : act unit :=
  unless_stopped (contained (trade_received value)).

Definition status_of (value : option TradingStatus) : option (string * datetime) :=
  match value with
  | Some (mk_TradingStatus symbol (Some status_code) (Some timestamp)) =>
      if String.eqb symbol (hc_symbol config) && _nonblank_token status_code
      then Some (status_code, timestamp) else None
  | _ => None
  end.

Definition status_received (value : option TradingStatus) (received_at : datetime) : act unit :=
  match status_of value with
  | None => _failure MALFORMED (Some received_at)
  | Some (status_code, timestamp) =>
      event_at ← lift (_strict_utc timestamp);
      _emit TRADING_STATUS event_at (Some received_at) (Some status_code) None
  end.

Definition _on_status (value : option TradingStatus) : act unit :=
  unless_stopped (contained (status_received value)).

(** The thread of the stream: [run] raised, and its end. *)
Definition _run_stream_failed : act unit := _safe_failure ERROR None.
Definition _run_stream_ended : act unit :=
  _ ← _safe_failure THREAD_DEAD None;
  _ ← _resolve_startup_failure "HALT_STREAM_THREAD_DEAD";
  modify (fun a => set_startup (ad_stream_ready a) true (ad_startup_error a) a).

(** ** Snapshots and recovery *)

Definition _begin_resubscribe : act unit := connection_starting.

(** The snapshot is read at a time and kept. *)
Definition store_read (read_at : datetime) : act unit :=
  a ← get;
  updated ← lift (read_halt_authority (ad_snapshot a) config read_at);
  _set_snapshot updated.

(** A new epoch is begun when the recovery is due and the stream lives. *)
Definition recover_if_due (now : datetime) : act bool :=
  thread_alive ← live;
  a ← get;
  due ← match ad_recovery_due_at a with
        | Some due_at => lift (dt_le due_at now)
        | None => mret false
        end;
  if due && thread_alive && negb (ad_closed a) && negb (ad_stopping a)
  then _ ← _begin_resubscribe; mret true else mret false.

(** The section of [snapshot] under the lock; the answer is the snapshot that is there
    after the subscription was requested. *)
Definition snapshot_read (read_at : option datetime) : act bool :=
  now ← _now;
  requested_at ← match read_at with Some read_at => lift (_strict_utc read_at) | None => mret now end;
  read_at ← lift (dt_max requested_at now);
  _ ← store_read read_at;
  recover_if_due now.

(** The request for the subscription raised; it is made outside the lock. *)
Definition resubscribe_failed : act unit := now ← _now; _arm_recovery now.

Definition _recover_live_stream : act bool :=
  _ ← modify (fun a => set_recovery (ad_recovery_due_at a) false a);
  alive ← live;
  a ← get;
  if alive && negb (ad_closed a) && negb (ad_stopping a)
  then _ ← _begin_resubscribe; mret true else mret false.

(** ** Starting and stopping: the sections under the lock *)

Definition start_begin : act bool :=
  a ← get;
  if ad_closed a then throw "HALT_STREAM_CLOSED"
  else if ad_stopping a then throw "HALT_STREAM_STOPPING"
  else
    _ ← modify (set_thread true (ad_thread_started a));
    mret (negb (ad_thread a)).

(** [started]: [thread.start()] returned. *)
Definition start_thread (started : bool) : act unit :=
  if started then modify (fun a => set_thread (ad_thread a) true a)
  else
    _ ← modify (fun a => set_stopped (ad_stopping a) true
                           (set_startup (ad_stream_ready a) true (Some "HALT_STREAM_START_FAILED") a));
    throw "HALT_STREAM_START_FAILED".

Definition stop_begin : act bool :=
  a ← get;
  if ad_closed a then mret false
  else
    _ ← modify (fun a => set_stopped true (ad_closed a) a);
    _ ← _cancel_recovery;
    mret (ad_thread a && ad_thread_started a).
Definition stop_dead : act unit := _safe_failure THREAD_DEAD None.
Definition stop_end : act unit :=
  still_alive ← live;
  modify (fun a => set_stopped (ad_stopping a) (negb still_alive)
                     (set_startup (ad_stream_ready a) true (ad_startup_error a) a)).

(** ** The adapter as a system *)

Inductive callback :=
  | ConnectionStarting
  | SubscriptionMessage (kind : string) (message : list (string * list string))
  | StreamError
  | UnexpectedMessage
  | StreamClosed
  | OnTrade (value : option Trade)
  | OnStatus (value : option TradingStatus)
  | RunStreamFailed
  | RunStreamEnded
  | SnapshotRead (read_at : option datetime)
  | ResubscribeFailed
  | RecoverLiveStream
  | StartBegin
  | StartThread (started : bool)
  | StopBegin
  | StopDead
  | StopEnd.

Definition ignoring {A} (t : act A) : adapter -> adapter := fun a => (t a).1.

Definition respond (c : callback) : adapter -> adapter :=
  match c with
  | ConnectionStarting => ignoring connection_starting
  | SubscriptionMessage kind message => ignoring (subscription_message kind message)
  | StreamError => ignoring stream_error
  | UnexpectedMessage => ignoring unexpected_message
  | StreamClosed => ignoring stream_closed
  | OnTrade value => ignoring (_on_trade value)
  | OnStatus value => ignoring (_on_status value)
  | RunStreamFailed => ignoring _run_stream_failed
  | RunStreamEnded => ignoring _run_stream_ended
  | SnapshotRead read_at => ignoring (snapshot_read read_at)
  | ResubscribeFailed => ignoring resubscribe_failed
  | RecoverLiveStream => ignoring _recover_live_stream
  | StartBegin => ignoring start_begin
  | StartThread started => ignoring (start_thread started)
  | StopBegin => ignoring stop_begin
  | StopDead => ignoring stop_dead
  | StopEnd => ignoring stop_end
  end.
End Adapter.
