(* ===== verification/HaltStreamFacts.v ===== *)
(** * The stream adapter drives the authority

    Every callback of the adapter makes calls of the halt authority, in which a trade and a
    status only come from the callbacks that received them, and no trade is reduced whose
    identity was seen before; so what holds for the runs of the authority holds for the
    adapter under any interleaving of its callbacks. *)

From Stdlib Require Import ZArith Lia String Ascii List Bool.
From stdpp Require Import base strings gmap option tactics list.
From S2P Require Import Prelude PyText PyDict PyTime PyHash Contracts OpportunityData HaltData HaltAuthority HaltFacts HaltSafety HaltStream.

#[local] Open Scope string_scope.
#[local] Open Scope Z_scope.

Section Facts.
Context (config : HaltAuthorityConfig) (codebook : option HaltStatusCodebook).
Context (resubscribe_backoff : timedelta).
Context (clock : nat -> datetime) (epoch_factory : nat -> M string) (is_alive : nat -> bool).

(** The session is at a date to which the backoff can be added. *)
Hypothesis backoff_room :
  0 < resubscribe_backoff /\ 0 <= dt_instant (hc_session_open_at config) /\
  dt_instant (hc_session_close_at config) + resubscribe_backoff < max_local.

Abbreviation run := (HaltSafety.run config codebook).
Abbreviation run_call := (HaltSafety.run_call config codebook).

(** ** Actions that leave the authority alone *)

Definition frame {A} (t : act A) : Prop := forall a,
  ad_snapshot (t a).1 = ad_snapshot a /\ ad_seen_trade_ids (t a).1 = ad_seen_trade_ids a /\
  (ad_reads a <= ad_reads (t a).1)%nat.

Lemma frame_bind {A B} (t : act A) (f : A -> act B) :
  frame t -> (forall x, frame (f x)) -> frame (t ≫= f).
Proof.
  intros Ht Hf a. specialize (Ht a). unfold mbind, act_bind. destruct (t a) as [a1 [x|e]]; [|done].
  destruct (Hf x a1) as (-> & -> & ?), Ht as (? & ? & ?). split_and!; [done..|]. cbn in *. lia.
Qed.
Lemma frame_ret {A} (x : A) : frame (mret x).
Proof. done. Qed.
Lemma frame_lift {A} (m : M A) : frame (lift m).
Proof. done. Qed.
Lemma frame_get : frame get.
Proof. done. Qed.
Lemma frame_modify f :
  (forall a, ad_snapshot (f a) = ad_snapshot a /\ ad_seen_trade_ids (f a) = ad_seen_trade_ids a /\
             ad_reads (f a) = ad_reads a) ->
  frame (modify f).
Proof. intros H a. destruct (H a) as (? & ? & E). split_and!; [done..|]. cbn. by rewrite E. Qed.
Lemma frame_throw {A} code : frame (@throw A code).
Proof. done. Qed.
Lemma frame_ask {A} (oracle : nat -> A) : frame (ask oracle).
Proof. intros a. split_and!; [done..|]. cbn. lia. Qed.

Ltac framed :=
  repeat (intros; cbn beta zeta;
    match goal with
    | |- frame (mbind _ _) => apply frame_bind
    | |- frame (mret _) => apply frame_ret
    | |- frame (lift _) => apply frame_lift
    | |- frame get => apply frame_get
    | |- frame (throw _) => apply frame_throw
    | |- frame (ask _) => apply frame_ask
    | |- frame (modify _) => apply frame_modify; intros; repeat case_match; done
    | |- frame (match ?x with _ => _ end) => destruct x
    end).

Lemma frame_now : frame (_now clock).
Proof. unfold _now. framed. Qed.
Lemma frame_cancel : frame _cancel_recovery.
Proof. unfold _cancel_recovery. framed. Qed.
Lemma frame_live : frame (live is_alive).
Proof. unfold live. framed. Qed.
Lemma frame_resolve code : frame (_resolve_startup_failure code).
Proof. unfold _resolve_startup_failure. framed. Qed.
Lemma frame_arm t : frame (_arm_recovery config resubscribe_backoff is_alive t).
Proof. unfold _arm_recovery, _cancel_recovery, live. framed. Qed.

(** *** Arming the recovery returns *)

Lemma arm_returns t a :
  config_facts config -> is_utc t = true ->
  (_arm_recovery config resubscribe_backoff is_alive t a).2 = Ok tt.
Proof.
  intros Hc Ht. unfold _arm_recovery, lift, get, modify, mbind, act_bind.
  destruct (within_utc _ _ Hc Ht) as (b & Hb & Hbi). rewrite Hb. destruct b; cbn; [|done].
  assert (Hi : dt_instant (hc_session_open_at config) <= dt_instant t < dt_instant (hc_session_close_at config))
    by (by apply Hbi).
  assert (E : dt_instant t = dt_local t) by (unfold dt_instant, is_utc in *; destruct (dt_off t); zbool; [lia|done]).
  assert (Hd : dt_add t resubscribe_backoff = Ok (mk_datetime (dt_local t + resubscribe_backoff) (dt_off t))).
  { unfold dt_add. destruct (Z.leb_spec 0 (dt_local t + resubscribe_backoff)), (Z.ltb_spec (dt_local t + resubscribe_backoff) max_local); cbn; try done; lia. }
  rewrite Hd. cbn. destruct (ad_recovery_timer a); [done|].
  unfold live, get, ask, mbind, act_bind. cbn. destruct (ad_thread a && ad_thread_started a); cbn;
    [destruct (is_alive _); cbn|]; repeat case_match; done.
Qed.

(** Storing a snapshot returns, and changes nothing else of the authority. *)
Lemma set_snapshot_returns q a :
  config_facts config -> is_utc (hs_observed_at q) = true ->
  (_set_snapshot config resubscribe_backoff is_alive q a).2 = Ok tt /\
  ad_snapshot (_set_snapshot config resubscribe_backoff is_alive q a).1 = q /\
  ad_seen_trade_ids (_set_snapshot config resubscribe_backoff is_alive q a).1 = ad_seen_trade_ids a /\
  (ad_reads a <= ad_reads (_set_snapshot config resubscribe_backoff is_alive q a).1)%nat.
Proof.
  intros Hc Hq. unfold _set_snapshot, get, modify, mbind, act_bind. cbn [mbind].
  destruct (_ && _); [done|]. destruct (_ || _); [|done].
  pose proof (arm_returns (hs_observed_at q) (set_snapshot q a) Hc Hq) as R.
  destruct (frame_arm (hs_observed_at q) (set_snapshot q a)) as (F1 & F2 & F3).
  destruct (_arm_recovery _ _ _ _ _) as [a' r]. cbn in *. by rewrite F1, F2.
Qed.

(** ** Actions that make calls *)

Definition trade_id_of (c : call) : option string :=
  match c with
  | Reduce event _ => if bool_decide (he_kind event = TRADE) then he_trade_id event else None
  | Read _ => None
  end.

(** A time of the clock that was read between the two states. *)
Definition clock_read (a a' : adapter) (t : datetime) : Prop :=
  exists n, (ad_reads a <= n < ad_reads a')%nat /\ clock n = t.

(** The calls made between the two states; their times are read from the clock, or in [T]. *)
Record tracked (T : datetime -> Prop) (P : call -> Prop) (a a' : adapter) (cs : list call) : Prop := {
  tk_run : run (ad_snapshot a) cs (ad_snapshot a');
  tk_calls : Forall P cs;
  tk_new : forall c id, c ∈ cs -> trade_id_of c = Some id -> id ∉ ad_seen_trade_ids a;
  tk_seen : ad_seen_trade_ids a ⊆ ad_seen_trade_ids a';
  tk_added : forall c id, c ∈ cs -> trade_id_of c = Some id -> id ∈ ad_seen_trade_ids a';
  tk_reads : (ad_reads a <= ad_reads a')%nat;
  tk_times : forall c, c ∈ cs -> T (time_of c) \/ clock_read a a' (time_of c);
}.

Definition tracks {A} (T : datetime -> Prop) (P : call -> Prop) (t : act A) : Prop :=
  forall a, exists cs, tracked T P a (t a).1 cs.
Definition no_time (t : datetime) : Prop := False.

Lemma run_app p cs q cs' r : run p cs q -> run q cs' r -> run p (cs ++ cs')%list r.
Proof. induction 1; [done|]. intros H'. eapply run_cons; [done|auto]. Qed.

Lemma clock_read_wider a a1 a2 a' t :
  (ad_reads a <= ad_reads a1)%nat -> (ad_reads a2 <= ad_reads a')%nat -> clock_read a1 a2 t -> clock_read a a' t.
Proof. intros H1 H2 (n & Hn & E). exists n. split; [lia|done]. Qed.

Lemma tracked_nil T P a a' :
  ad_snapshot a' = ad_snapshot a -> ad_seen_trade_ids a ⊆ ad_seen_trade_ids a' ->
  (ad_reads a <= ad_reads a')%nat -> tracked T P a a' [].
Proof.
  intros E H R. split; [rewrite E; apply run_nil|constructor| |done| |done|]; intros c; [..|by intros Hc%elem_of_nil];
    by intros id Hc%elem_of_nil.
Qed.

Lemma tracked_app T P a a1 a2 cs1 cs2 :
  tracked T P a a1 cs1 -> tracked T P a1 a2 cs2 -> tracked T P a a2 (cs1 ++ cs2)%list.
Proof.
  intros [R1 P1 N1 S1 D1 L1 T1] [R2 P2 N2 S2 D2 L2 T2]. split.
  - by eapply run_app.
  - by apply Forall_app.
  - intros c id [Hc|Hc]%elem_of_app Hi; [by eapply N1|]. intros K. by apply (N2 c id Hc Hi), S1.
  - by transitivity (ad_seen_trade_ids a1).
  - intros c id [Hc|Hc]%elem_of_app Hi; [by apply S2, (D1 c)|by apply (D2 c)].
  - lia.
  - intros c [Hc|Hc]%elem_of_app; [destruct (T1 c Hc) as [K|K]|destruct (T2 c Hc) as [K|K]];
      try (by left); right; eapply clock_read_wider; [| |exact K| | |exact K]; lia.
Qed.

Lemma tracked_weaken (T T' : datetime -> Prop) (P Q : call -> Prop) a a' cs :
  (forall t, T t -> T' t \/ clock_read a a' t) -> (forall c, P c -> Q c) -> tracked T P a a' cs -> tracked T' Q a a' cs.
Proof.
  intros HT HP []. split; try done; [by eapply Forall_impl|].
  intros c Hc. destruct (tk_times0 c Hc) as [K|K]; [by apply HT|by right].
Qed.

Lemma tracks_frame {A} T P (t : act A) : frame t -> tracks T P t.
Proof. intros H a. exists []. destruct (H a) as (E1 & E2 & E3). apply tracked_nil; [done|by rewrite E2|done]. Qed.
Lemma tracks_bind {A B} T P (t : act A) (f : A -> act B) :
  tracks T P t -> (forall x, tracks T P (f x)) -> tracks T P (t ≫= f).
Proof.
  intros Ht Hf a. destruct (Ht a) as [cs1 H1]. unfold mbind, act_bind. destruct (t a) as [a1 [x|e]]; [|by exists cs1].
  destruct (Hf x a1) as [cs2 H2]. exists (cs1 ++ cs2)%list. by eapply tracked_app.
Qed.
Lemma tracks_suppressed T P t : tracks T P t -> tracks T P (suppressed t).
Proof. intros Ht a. destruct (Ht a) as [cs H]. by exists cs. Qed.
Lemma tracks_except T P t h : tracks T P t -> tracks T P h -> tracks T P (except t h).
Proof.
  intros Ht Hh a. destruct (Ht a) as [cs1 H1]. unfold except. destruct (t a) as [a1 [x|e]]; [by exists cs1|].
  destruct (Hh a1) as [cs2 H2]. exists (cs1 ++ cs2)%list. by eapply tracked_app.
Qed.
Lemma tracks_weaken {A} (T T' : datetime -> Prop) (P Q : call -> Prop) (t : act A) :
  (forall t, T t -> T' t) -> (forall c, P c -> Q c) -> tracks T P t -> tracks T' Q t.
Proof. intros HT H Ht a. destruct (Ht a) as [cs Hcs]. exists cs. eapply tracked_weaken; [..|exact Hcs]; auto. Qed.

(** The time of the clock that is read is a time of the clock for what follows. *)
Lemma tracks_now {B} T P (f : datetime -> act B) :
  (forall now, tracks (fun t => T t \/ t = now) P (f now)) -> tracks T P (_now clock ≫= f).
Proof.
  intros Hf a. unfold _now, ask, lift, mbind, act_bind. cbn [mbind].
  assert (R : (ad_reads a <= ad_reads (count_read a))%nat) by (cbn; lia).
  destruct (_strict_utc (clock (ad_reads a))) as [now|e] eqn:E; cbn [fst]; [|exists []; by apply tracked_nil].
  assert (En : now = clock (ad_reads a)) by (unfold _strict_utc in E; by destruct (is_utc _); [injection E|]).
  destruct (Hf now (count_read a)) as [cs Hcs]. exists cs.
  destruct Hcs as [K1 K2 K3 K4 K5 K6 K7]. cbn in K6. split; try done; [cbn in *; lia|].
  intros c Hc. destruct (K7 c Hc) as [[H|H]|H]; [by left|right|right].
  - exists (ad_reads a). subst now. cbn in *. split; [lia|done].
  - eapply clock_read_wider; [exact R|done|exact H].
Qed.

(** *** Emitting *)

(** The event of an emission. *)
Definition event_of kind event_at status_code trade_id (event : HaltAuthorityEvent) : Prop :=
  he_kind event = kind /\ he_event_at event = event_at /\ he_status_code event = status_code /\
  he_trade_id event = trade_id.

(** The time of the emission: the one that is given, or one of the clock. *)
Definition emitted_at (received_at : option datetime) (a a' : adapter) (t : datetime) : Prop :=
  match received_at with Some received => t = received | None => clock_read a a' t end.

Lemma emitted kind event_at received_at status_code trade_id a :
  let r := _emit config codebook resubscribe_backoff clock is_alive kind event_at received_at status_code
             trade_id a in
  ad_seen_trade_ids r.1 = ad_seen_trade_ids a /\ (ad_reads a <= ad_reads r.1)%nat /\
  (ad_snapshot r.1 = ad_snapshot a \/
   exists event t, run_call (ad_snapshot a) (Reduce event t) = Ok (ad_snapshot r.1) /\
     event_of kind event_at status_code trade_id event /\ emitted_at received_at a r.1 t /\ r.2 = Ok tt).
Proof.
  unfold _emit, get, mbind, act_bind. cbn [mbind]. destruct (ad_epoch a) as [epoch|]; [|by split_and!; [| |left]].
  assert (K : forall received a1, ad_snapshot a1 = ad_snapshot a -> ad_seen_trade_ids a1 = ad_seen_trade_ids a ->
    (ad_reads a <= ad_reads a1)%nat ->
    (forall a', (ad_reads a1 <= ad_reads a')%nat -> emitted_at received_at a a' received) ->
    let r := (event ← lift (new_event config kind epoch (ad_sequence a1 + 1) event_at received status_code trade_id);
              updated ← lift (reduce_halt_authority (ad_snapshot a1) event config codebook received);
              _set_snapshot config resubscribe_backoff is_alive updated) (set_sequence (ad_sequence a1 + 1) a1) in
    ad_seen_trade_ids r.1 = ad_seen_trade_ids a /\ (ad_reads a <= ad_reads r.1)%nat /\
    (ad_snapshot r.1 = ad_snapshot a \/
     exists event t, run_call (ad_snapshot a) (Reduce event t) = Ok (ad_snapshot r.1) /\
       event_of kind event_at status_code trade_id event /\ emitted_at received_at a r.1 t /\ r.2 = Ok tt)).
  { intros received a1 E1 E2 E3 Et. unfold lift, mbind, act_bind. cbn [mbind].
    destruct (new_event _ _ _ _ _ _ _ _) as [event|e] eqn:Ee; [|by split_and!; [| |left]].
    destruct (reduce_halt_authority _ _ _ _ _) as [q|e] eqn:Eq; [|by split_and!; [| |left]].
    pose proof Eq as Hq. apply reduce_ok in Hq as (Hc & _ & Ht & _ & Hr). apply reduction_scope in Hr as [_ Hr].
    destruct (set_snapshot_returns q (set_sequence (ad_sequence a1 + 1) a1) Hc ltac:(by rewrite Hr)) as (R1 & R2 & R3 & R4).
    cbn [set_sequence ad_seen_trade_ids ad_reads] in R3, R4. split; [by rewrite R3|]. split; [lia|]. right. exists event, received.
    rewrite R2. split; [cbn; by rewrite <- E1|]. split; [|split; [by apply Et|done]].
    unfold new_event in Ee. apply bind_ok in Ee as (digest & _ & [= <-]). by split_and!. }
  destruct received_at as [received|].
  - by apply (K received a eq_refl eq_refl).
  - unfold _now, ask, lift, mbind, act_bind. cbn [mbind].
    destruct (_strict_utc (clock (ad_reads a))) as [now|e] eqn:En; [|split_and!; [done|cbn; lia|by left]].
    assert (now = clock (ad_reads a)) as -> by (unfold _strict_utc in En; by destruct (is_utc _); [injection En|]).
    apply (K _ (count_read a) eq_refl eq_refl); [cbn; lia|]. intros a' Ha'. exists (ad_reads a). cbn in Ha'. split; [lia|done].
Qed.

(** Not a trade and not a status. *)
Definition quiet (c : call) : Prop :=
  match c with Reduce event _ => he_kind event <> TRADE /\ he_kind event <> TRADING_STATUS | Read _ => True end.

Lemma no_trade_id event t : he_kind event <> TRADE -> trade_id_of (Reduce event t) = None.
Proof. intros H. cbn. by rewrite bool_decide_eq_false_2. Qed.

Lemma tracked_one T (P : call -> Prop) a a' c :
  run_call (ad_snapshot a) c = Ok (ad_snapshot a') -> P c -> trade_id_of c = None ->
  ad_seen_trade_ids a' = ad_seen_trade_ids a -> (ad_reads a <= ad_reads a')%nat ->
  T (time_of c) \/ clock_read a a' (time_of c) -> tracked T P a a' [c].
Proof.
  intros Hr Hp Hi Hs Hn Ht. split; [eapply run_cons; [done|apply run_nil]|by constructor| |by rewrite Hs| |done|];
    [..|by intros c' ->%list_elem_of_singleton]; intros c' id Hc%list_elem_of_singleton E; subst; congruence.
Qed.

Lemma tracks_emit (T : datetime -> Prop) (P : call -> Prop) kind event_at received_at status_code trade_id :
  kind <> TRADE -> (forall t, received_at = Some t -> T t) ->
  (forall event t, event_of kind event_at status_code trade_id event -> P (Reduce event t)) ->
  tracks T P (_emit config codebook resubscribe_backoff clock is_alive kind event_at received_at status_code trade_id).
Proof.
  intros Hk HT HP a.
  destruct (emitted kind event_at received_at status_code trade_id a) as (Hs & Hn' & [Hn|(e & t & Hr & He & Ht & _)]).
  - exists []. apply tracked_nil; [done|by rewrite Hs|done].
  - exists [Reduce e t]. apply tracked_one; [done|by apply HP| |done|done|].
    + apply no_trade_id. destruct He as [-> _]. done.
    + cbn. destruct received_at as [received|]; [left; rewrite Ht; by apply HT|by right].
Qed.

Definition quiet_kind (kind : HaltAuthorityEventKind) : Prop := kind <> TRADE /\ kind <> TRADING_STATUS.

Lemma tracks_quiet T kind event_at :
  quiet_kind kind ->
  tracks T quiet (_emit config codebook resubscribe_backoff clock is_alive kind event_at None None None).
Proof. intros [H1 H2]. apply tracks_emit; [done|done|]. intros e t (E & _). cbn. by rewrite E. Qed.

Lemma tracks_failure T kind at_ :
  quiet_kind kind -> tracks T quiet (_failure config codebook resubscribe_backoff clock is_alive kind at_).
Proof.
  intros Hk. unfold _failure. apply tracks_bind; [by apply tracks_frame|]. intros a.
  destruct (_has_continuity a); [|by apply tracks_frame].
  apply tracks_bind; [destruct at_; apply tracks_frame; [done|apply frame_now]|].
  intros t. by apply tracks_quiet.
Qed.

Lemma tracks_safe_failure T kind at_ :
  quiet_kind kind -> tracks T quiet (_safe_failure config codebook resubscribe_backoff clock is_alive kind at_).
Proof. intros H. by apply tracks_suppressed, tracks_failure. Qed.

Create HintDb tracks discriminated.
Hint Resolve frame_now frame_cancel frame_live frame_resolve frame_arm : tracks.

Ltac tracked_steps :=
  repeat (intros; cbn beta zeta;
    match goal with
    | |- tracks _ _ (mbind _ _) => apply tracks_bind
    | |- tracks _ _ (_safe_failure _ _ _ _ _ _ _) => apply tracks_safe_failure; done
    | |- tracks _ _ (_failure _ _ _ _ _ _ _) => apply tracks_failure; done
    | |- tracks _ _ (_emit _ _ _ _ _ _ _ _ _ _) => apply tracks_quiet; done
    | |- tracks _ _ (match ?x with _ => _ end) => destruct x
    | |- tracks _ _ _ => apply tracks_frame; solve [auto with tracks | framed]
    end).

Lemma tracks_unless_stopped T P t : tracks T P t -> tracks T P (unless_stopped t).
Proof.
  intros Ht. unfold unless_stopped. apply tracks_bind; [by apply tracks_frame|].
  intros a. destruct (_ || _); [by apply tracks_frame|done].
Qed.

Lemma tracks_connection T :
  tracks T quiet (connection_starting config codebook resubscribe_backoff clock epoch_factory is_alive).
Proof. apply tracks_unless_stopped. tracked_steps. Qed.

Lemma tracks_subscription T kind message :
  tracks T quiet (subscription_message config codebook resubscribe_backoff clock is_alive kind message).
Proof. apply tracks_unless_stopped. tracked_steps. Qed.

Lemma tracks_error T : tracks T quiet (stream_error config codebook resubscribe_backoff clock is_alive).
Proof. unfold stream_error. tracked_steps. Qed.
Lemma tracks_unexpected T : tracks T quiet (unexpected_message config codebook resubscribe_backoff clock is_alive).
Proof. unfold unexpected_message. tracked_steps. Qed.
Lemma tracks_closed T : tracks T quiet (stream_closed config codebook resubscribe_backoff clock is_alive).
Proof. unfold stream_closed. tracked_steps. Qed.
Lemma tracks_run_ended T : tracks T quiet (_run_stream_ended config codebook resubscribe_backoff clock is_alive).
Proof. unfold _run_stream_ended. tracked_steps. Qed.

Lemma tracks_store_read (T : datetime -> Prop) t :
  T t -> tracks T quiet (store_read config resubscribe_backoff is_alive t).
Proof.
  intros HT a. unfold store_read, get, lift, mbind, act_bind. cbn [mbind].
  destruct (read_halt_authority (ad_snapshot a) config t) as [q|e] eqn:Eq; [|exists []; by apply tracked_nil].
  pose proof Eq as Hq. apply read_ok in Hq as (Hc & Hp & Ht & Hr). apply read_scope in Hr as [_ Hr].
  assert (Hu : is_utc (hs_observed_at q) = true) by (rewrite Hr; apply read_time_utc; [by destruct Hp|done]).
  destruct (set_snapshot_returns q a Hc Hu) as (R1 & R2 & R3 & R4).
  exists [Read t]. apply tracked_one; [by rewrite R2|done|done|done|done|by left].
Qed.

Lemma tracks_recover T now :
  tracks T quiet (recover_if_due config codebook resubscribe_backoff clock epoch_factory is_alive now).
Proof. unfold recover_if_due, _begin_resubscribe. pose proof tracks_connection. tracked_steps; done. Qed.

Lemma max_is_one a b c : dt_max a b = Ok c -> c = a \/ c = b.
Proof. unfold dt_max. intros (x & _ & H)%bind_ok. destruct x; injection H as <-; auto. Qed.

Lemma tracks_snapshot (T : datetime -> Prop) read_at :
  (forall t, read_at = Some t -> T t) ->
  tracks T quiet (snapshot_read config codebook resubscribe_backoff clock epoch_factory is_alive read_at).
Proof.
  intros HT. unfold snapshot_read. apply tracks_now. intros now.
  assert (K : forall t, T t \/ t = now -> tracks (fun t => T t \/ t = now) quiet
    (read ← lift (dt_max t now); _ ← store_read config resubscribe_backoff is_alive read;
     recover_if_due config codebook resubscribe_backoff clock epoch_factory is_alive now)).
  { intros t Ht a. unfold lift, mbind, act_bind at 1. destruct (dt_max t now) as [c|e] eqn:Ec; [|exists []; by apply tracked_nil].
    revert a. apply tracks_bind; [|intros; apply tracks_recover].
    apply tracks_store_read. destruct (max_is_one _ _ _ Ec) as [->| ->]; auto. }
  destruct read_at as [t|]; [|apply K; auto].
  intros a. unfold lift at 1. unfold mbind, act_bind at 1. unfold _strict_utc.
  destruct (is_utc t); [|exists []; by apply tracked_nil]. apply K. auto.
Qed.

Lemma tracks_recover_live T :
  tracks T quiet (_recover_live_stream config codebook resubscribe_backoff clock epoch_factory is_alive).
Proof. unfold _recover_live_stream, _begin_resubscribe. pose proof tracks_connection. tracked_steps; done. Qed.

(** *** Trades and statuses *)

Definition trade_call (value : option Trade) (c : call) : Prop :=
  quiet c \/ exists event t id at_, c = Reduce event t /\ he_kind event = TRADE /\
    trade_of config value = Some (id, at_) /\ he_trade_id event = Some id.
Definition status_call (value : option TradingStatus) (c : call) : Prop :=
  quiet c \/ exists event t code at_, c = Reduce event t /\ he_kind event = TRADING_STATUS /\
    status_of config value = Some (code, at_) /\ he_status_code event = Some code.

Lemma tracks_trade_received value received_at :
  tracks (eq received_at) (trade_call value)
    (trade_received config codebook resubscribe_backoff clock is_alive value received_at).
Proof.
  unfold trade_received. destruct (trade_of config value) as [[id at_]|] eqn:E.
  2:{ eapply tracks_weaken; [done| |by apply (tracks_failure (eq received_at))]. intros c Hc. by left. }
  intros a. unfold get, mbind, act_bind. cbn [mbind]. case_bool_decide as Hseen.
  { destruct (tracks_failure (eq received_at) MALFORMED (Some received_at) ltac:(done) a) as [cs Hcs]. exists cs.
    eapply tracked_weaken; [| |exact Hcs]; [by left|]. intros c Hc. by left. }
  unfold lift. destruct (before_epoch (ad_snapshot a) at_) as [[]|e]; [|
    |exists []; by apply tracked_nil].
  { exists []. apply tracked_nil; [done| |done]. cbn. set_solver. }
  destruct (_strict_utc at_) as [event_at|e] eqn:Eu; [|exists []; by apply tracked_nil].
  destruct (emitted TRADE event_at (Some received_at) None (Some id) a) as (Hs & Hreads & Hcase).
  destruct (_emit _ _ _ _ _ _ _ _ _ _ a) as [a1 r]. cbn [fst snd] in *.
  destruct Hcase as [Hn|(e & t & Hr & He & Ht & ->)].
  - exists []. destruct r as [u|x]; apply tracked_nil; cbn; try done; rewrite Hs; set_solver.
  - exists [Reduce e t]. destruct He as (E1 & E2 & E3 & E4).
    assert (Ei : forall c id', c ∈ [Reduce e t] -> trade_id_of c = Some id' -> id' = id).
    { intros c id' ->%list_elem_of_singleton H. cbn in H. rewrite E1, E4 in H. by injection H as <-. }
    split; cbn [fst].
    + eapply run_cons; [exact Hr|apply run_nil].
    + constructor; [|done]. right. exists e, t, id, at_. by split_and!.
    + intros c id' Hc Hi. by rewrite (Ei _ _ Hc Hi).
    + cbn. rewrite Hs. set_solver.
    + intros c id' Hc Hi. rewrite (Ei _ _ Hc Hi). cbn. set_solver.
    + done.
    + intros c ->%list_elem_of_singleton. left. by symmetry.
Qed.

Lemma tracks_status_received value received_at :
  tracks (eq received_at) (status_call value)
    (status_received config codebook resubscribe_backoff clock is_alive value received_at).
Proof.
  unfold status_received. destruct (status_of config value) as [[code at_]|] eqn:E.
  2:{ eapply tracks_weaken; [done| |by apply (tracks_failure (eq received_at))]. intros c Hc. by left. }
  apply tracks_bind; [by apply tracks_frame|]. intros event_at. apply tracks_emit; [done|by intros ? [= <-]|].
  intros e t (E1 & E2 & E3 & E4). right. exists e, t, code, at_. by split_and!.
Qed.

Lemma tracks_contained (P : call -> Prop) t :
  (forall c, quiet c -> P c) -> (forall received_at, tracks (eq received_at) P (t received_at)) ->
  tracks no_time P (contained config codebook resubscribe_backoff clock is_alive t).
Proof.
  intros HP Ht a. unfold contained, _now, ask, lift, mbind, act_bind. cbn [mbind].
  assert (R : (ad_reads a <= ad_reads (count_read a))%nat) by (cbn; lia).
  assert (N : tracked no_time P a (count_read a) []) by (by apply tracked_nil).
  destruct (_strict_utc (clock (ad_reads a))) as [now|e] eqn:En; cbn [fst].
  - assert (Ec : now = clock (ad_reads a)) by (unfold _strict_utc in En; by destruct (is_utc _); [injection En|]).
    assert (K : tracks (eq now) P (except (t now) (_safe_failure config codebook resubscribe_backoff clock is_alive MALFORMED (Some now)))).
    { apply tracks_except; [done|]. eapply tracks_weaken; [done|exact HP|by apply (tracks_safe_failure (eq now))]. }
    destruct (K (count_read a)) as [cs Hcs]. exists cs. destruct Hcs as [K1 K2 K3 K4 K5 K6 K7]. cbn in K6.
    split; try done; [cbn in *; lia|]. intros c Hc. right. destruct (K7 c Hc) as [H|H].
    + exists (ad_reads a). rewrite <- H, Ec. split; [|done]. subst now. cbn in *. lia.
    + eapply clock_read_wider; [exact R|done|exact H].
  - destruct (tracks_safe_failure no_time MALFORMED None ltac:(done) (count_read a)) as [cs Hcs]. exists cs.
    replace cs with ([] ++ cs)%list by done. eapply tracked_app; [exact N|].
    eapply tracked_weaken; [by left|exact HP|exact Hcs].
Qed.

(** ** Callbacks *)

Definition produced (c : callback) : call -> Prop :=
  match c with
  | OnTrade value => trade_call value
  | OnStatus value => status_call value
  | _ => quiet
  end.

Abbreviation respond := (HaltStream.respond config codebook resubscribe_backoff clock epoch_factory is_alive).

(** The times a callback is given; the other times are read from the clock. *)
Definition asked_at (c : callback) (t : datetime) : Prop := c = SnapshotRead (Some t).

Lemma respond_tracked c a : exists cs, tracked (asked_at c) (produced c) a (respond c a) cs.
Proof.
  assert (W : forall P (t : act unit), tracks no_time P t -> tracks (asked_at c) P t)
    by (intros P t; by apply tracks_weaken).
  destruct c; cbn [HaltStream.respond produced]; unfold ignoring.
  - apply tracks_connection.
  - apply tracks_subscription.
  - apply tracks_error.
  - apply tracks_unexpected.
  - apply tracks_closed.
  - revert a. apply W, tracks_unless_stopped, tracks_contained; [by left|apply tracks_trade_received].
  - revert a. apply W, tracks_unless_stopped, tracks_contained; [by left|apply tracks_status_received].
  - by apply (tracks_safe_failure _ ERROR None).
  - apply tracks_run_ended.
  - apply tracks_snapshot. by intros t ->.
  - revert a. change (tracks (asked_at ResubscribeFailed) quiet (resubscribe_failed config resubscribe_backoff clock is_alive)). unfold resubscribe_failed. tracked_steps.
  - apply tracks_recover_live.
  - revert a. change (tracks (asked_at StartBegin) quiet start_begin). unfold start_begin. tracked_steps.
  - revert a. change (tracks (asked_at (StartThread started)) quiet (start_thread started)). unfold start_thread. tracked_steps.
  - revert a. change (tracks (asked_at StopBegin) quiet stop_begin). unfold stop_begin. tracked_steps.
  - by apply (tracks_safe_failure _ THREAD_DEAD None).
  - revert a. change (tracks (asked_at StopEnd) quiet (stop_end is_alive)). unfold stop_end. tracked_steps.
Qed.

Definition responded (cbs : list callback) (a : adapter) : adapter :=
  fold_left (fun a c => respond c a) cbs a.

Definition asked_among (cbs : list callback) (t : datetime) : Prop := SnapshotRead (Some t) ∈ cbs.

(** The calls of a sequence of callbacks, callback by callback. *)
Lemma responded_tracked cbs a :
  exists css, Forall2 (fun c cs => Forall (produced c) cs) cbs css /\
    tracked (asked_among cbs) (fun _ => True) a (responded cbs a) (concat css).
Proof.
  revert a. induction cbs as [|c cbs IH]; intros a.
  - exists []. split; [constructor|by apply tracked_nil].
  - destruct (respond_tracked c a) as [cs Hcs]. destruct (IH (respond c a)) as (css & Hf & Ht).
    exists (cs :: css). split; [constructor; [by destruct Hcs|done]|].
    cbn. eapply tracked_app; (eapply tracked_weaken; [|done|eassumption]).
    + intros t ->. left. by left.
    + intros t Hin. left. by right.
Qed.

Lemma concat_split {A} (css : list (list A)) l1 x l2 :
  concat css = (l1 ++ x :: l2)%list ->
  exists css1 cs1 cs2 css2, css = (css1 ++ (cs1 ++ x :: cs2) :: css2)%list /\ l2 = (cs2 ++ concat css2)%list.
Proof.
  revert l1. induction css as [|cs css IH]; intros l1 H; cbn in H; [by destruct l1|].
  apply app_eq_inv in H as [(k & -> & H)|(k & E & H)].
  - destruct k as [|y k]; cbn in H.
    + destruct (IH [] (eq_sym H)) as (css1 & cs1 & cs2 & css2 & -> & ->).
      exists ((l1 ++ []) :: css1)%list, cs1, cs2, css2. done.
    + injection H as <- ->. by exists [], l1, k, css.
  - destruct (IH k H) as (css1 & cs1 & cs2 & css2 & -> & ->). by exists (cs :: css1), cs1, cs2, css2.
Qed.

Lemma trade_producer c cs x : Forall (produced c) cs -> x ∈ cs -> trades config x ->
  exists value id at_, c = OnTrade value /\ trade_of config value = Some (id, at_) /\ trade_id_of x = Some id.
Proof.
  intros Hf Hx (p & e & t & -> & Hk & _). rewrite Forall_forall in Hf. specialize (Hf _ Hx).
  destruct c; cbn in Hf; try (by destruct Hf).
  - destruct Hf as [[]|(e' & t' & id & at_ & [= <- <-] & _ & H1 & H2)]; [done|].
    exists value, id, at_. cbn. by rewrite Hk, H2.
  - destruct Hf as [[]|(e' & t' & code & at_ & [= <- <-] & H1 & _)]; [done|congruence].
Qed.

Lemma status_producer c cs x meaning : Forall (produced c) cs -> x ∈ cs -> reports config codebook x meaning ->
  exists value code at_ book, c = OnStatus value /\ status_of config value = Some (code, at_) /\
    codebook = Some book /\ meaning_of book code = Some meaning.
Proof.
  intros Hf Hx (e & t & book & code & -> & Hk & _ & Hb & _ & Hc & Hm). rewrite Forall_forall in Hf. specialize (Hf _ Hx).
  destruct c; cbn in Hf; try (by destruct Hf).
  - destruct Hf as [[]|(e' & t' & id & at_ & [= <- <-] & H1 & _)]; [done|congruence].
  - destruct Hf as [[]|(e' & t' & code' & at_ & [= <- <-] & _ & H1 & H2)]; [done|].
    rewrite Hc in H2. injection H2 as <-. by exists value, code, at_, book.
Qed.

(** The session was over for the adapter: when the halt was latched, at a time of its clock
    that it read in the callbacks, or at the time of a snapshot it was asked for. *)
Definition session_ended (a : adapter) (cbs : list callback) : Prop :=
  ~ inside config (hs_observed_at (ad_snapshot a)) \/
  (exists n, (ad_reads a <= n < ad_reads (responded cbs a))%nat /\ ~ inside config (clock n)) \/
  (exists t, SnapshotRead (Some t) ∈ cbs /\ ~ inside config t).

Lemma ended_by_calls a cbs cs q :
  run (ad_snapshot a) cs q -> ~ inside config (hs_observed_at q) ->
  (forall c, c ∈ cs -> asked_among cbs (time_of c) \/ clock_read a (responded cbs a) (time_of c)) ->
  session_ended a cbs.
Proof.
  intros Hr Hi Ht.
  destruct (decide (dt_instant (hc_session_open_at config) <= dt_instant (hs_observed_at (ad_snapshot a))
    < dt_instant (hc_session_close_at config))) as [K|K]; [|by left].
  destruct (outside_time _ _ _ _ _ Hr Hi K) as (c & Hc & Ho). right.
  destruct (Ht c Hc) as [H|(n & Hn & E)]; [right; by exists (time_of c)|left].
  exists n. by rewrite E.
Qed.

(** C6: A halt of the stream is only released by the stream.  In whatever order the callbacks of
    the adapter run (connections, acknowledgements, trades, statuses, errors, the end of the
    thread, reads, the recovery timer, starting and stopping), with whatever arguments, clock
    and epochs: when the adapter has latched a halt and later reports the market as not halted,
    then the last trade it keeps confirms the market at the time of the report; and a status
    message was delivered whose code the codebook maps to a resumption and, after it, a trade
    message of the symbol with an identity that was not seen before the halt was latched,
    unless the session was over: at the observation of the halt, at a time the adapter read
    from its clock in one of these callbacks, or at a time it was asked a snapshot for. *)
Theorem halt_released_by_stream a cbs :
  hs_state (ad_snapshot a) = HALTED_LATCHED ->
  trading_halt_state (ad_snapshot (responded cbs a)) = NOT_HALTED ->
  confirmed config (ad_snapshot (responded cbs a)) /\
  (session_ended a cbs \/
   exists l1 status l2 trade l3 code at_ book id at_',
     cbs = (l1 ++ OnStatus status :: l2 ++ OnTrade trade :: l3)%list /\
     status_of config status = Some (code, at_) /\
     codebook = Some book /\ meaning_of book code = Some RESUME /\
     trade_of config trade = Some (id, at_') /\ id ∉ ad_seen_trade_ids a).
Proof.
  intros Hh Ho. destruct (responded_tracked cbs a) as (css & Hf & [Hr _ Hnew _ _ _ Htime]).
  assert (E : hs_state (ad_snapshot (responded cbs a)) = OPEN_CONFIRMED)
    by (unfold trading_halt_state in Ho; by destruct (hs_state (ad_snapshot (responded cbs a)))).
  assert (Hne : concat css <> []).
  { intros En. rewrite En in Hr. inversion Hr; congruence. }
  split; [by eapply run_confirmed|].
  destruct (latched_until config codebook _ _ _ Hr E) as [HL _].
  destruct (HL Hh) as [(cs1 & cs2 & q & Ec & _ & Hq & Hi)|(l1 & x & l2 & El & Hx & l3 & y & l4 & -> & Hy)].
  { left. eapply ended_by_calls; [exact Hq|exact Hi|]. intros c Hc. apply Htime. rewrite Ec. set_solver. }
  right. destruct (concat_split _ _ _ _ El) as (css1 & u1 & u2 & css2 & Ecss & E2).
  rewrite Ecss in Hf. apply Forall2_app_inv_r in Hf as (cb1 & cbr & _ & Hf2 & Ecb).
  inversion Hf2 as [|cb cs cb2 ? Hcb Hf3]; subst.
  destruct (status_producer cb _ x RESUME Hcb ltac:(set_solver) Hx) as (status & code & at_ & book & -> & S1 & S2 & S3).
  assert (K : exists v1 v2, concat css2 = (v1 ++ y :: v2)%list).
  { destruct (app_eq_inv _ _ _ _ E2) as [(k & -> & E3)|(k & Ek & E3)]; [by exists k, l4|].
    destruct k as [|z k]; cbn in E3; [by exists [], l4|]. injection E3 as <- _.
    destruct (trade_producer _ _ y Hcb ltac:(set_solver) Hy) as (? & ? & ? & [=] & _). }
  destruct K as (v1 & v2 & Ev). destruct (concat_split _ _ _ _ Ev) as (css3 & w1 & w2 & css4 & -> & _).
  apply Forall2_app_inv_r in Hf3 as (cb3 & cbr & _ & Hf4 & ->).
  inversion Hf4 as [|cb cs cb4 ? Hcb4 _]; subst.
  destruct (trade_producer _ _ y Hcb4 ltac:(set_solver) Hy) as (trade & id & at_' & -> & T1 & T2).
  exists cb1, status, cb3, trade, cb4, code, at_, book, id, at_'. split_and!; try done.
  apply (Hnew y id); [|done]. rewrite !concat_app. cbn. rewrite !concat_app. cbn. set_solver.
Qed.
End Facts.
