(* ===== verification/HaltSamples.v ===== *)
(** * Trading halts: a session of the symbol, and late trades

    A configuration, the codebook of the adapter and the events of a few seconds of a
    session at which the theorems on the authority and its adapter apply; and two runs with
    a trade that the feed reports late. *)

From Stdlib Require Import ZArith Lia String Ascii List Bool.
From stdpp Require Import base strings gmap option tactics list.
From S2P Require Import Prelude PyText PyDict PyTime PyHash Contracts OpportunityData HaltData HaltAuthority HaltFacts HaltSafety HaltStream HaltStreamFacts.

#[local] Open Scope string_scope.
#[local] Open Scope Z_scope.

Definition value_or {A} (m : M A) (d : A) : A := match m with Ok a => a | Raise _ => d end.

Definition book : HaltStatusCodebook := alpaca_trading_status_codebook.

Definition sample_config : HaltAuthorityConfig :=
  let config hash := mk_HaltAuthorityConfig "SPY" "IEX" "0.44.0" (days_from_civil 2026 9 14)
    (utc 2026 9 14 13 30 0) (utc 2026 9 14 20 0 0) (seconds 60) ADAPTER_RECEIVE_ORDER_V1
    (cb_source_hash book) hash in
  config (value_or (halt_authority_config_digest (config "")) "").

(** The seconds after ten o'clock in New York. *)
Definition at_second (s : Z) : datetime := utc 2026 9 14 14 0 s.

Definition sample_event (kind : HaltAuthorityEventKind) (sequence : Z) (event_at : datetime)
    (status_code trade_id : option string) : HaltAuthorityEvent :=
  let event hash := mk_HaltAuthorityEvent kind "SPY" "epoch-1" sequence event_at event_at
    status_code trade_id hash in
  event (value_or (halt_authority_event_digest (event "")) "").

Definition acknowledgement := sample_event EPOCH_ACK 1 (at_second 1) None None.
Definition trade (sequence : Z) (s : Z) (id : string) :=
  sample_event TRADE sequence (at_second s) None (Some id).
Definition status (sequence : Z) (s : Z) (code : string) :=
  sample_event TRADING_STATUS sequence (at_second s) (Some code) None.

Definition initial : M HaltAuthoritySnapshot := initial_halt_authority sample_config (at_second 0).
(** The calls one after the other. *)
Definition runs (p : M HaltAuthoritySnapshot) (cs : list call) : M HaltAuthoritySnapshot :=
  fold_left (fun p c => p ← p; run_call sample_config (Some book) p c) cs p.

Lemma runs_raise e cs : runs (Raise e) cs = Raise e.
Proof. by induction cs. Qed.
Lemma runs_ok p cs q : runs (Ok p) cs = Ok q -> run sample_config (Some book) p cs q.
Proof.
  revert p. induction cs as [|c cs IH]; intros p H; cbn in H.
  - injection H as ->. apply run_nil.
  - destruct (run_call sample_config (Some book) p c) as [m|e] eqn:E; cbn in H.
    + eapply run_cons; [done|by apply IH].
    + change (runs (Raise e) cs = Ok q) in H. by rewrite runs_raise in H.
Qed.

(** A snapshot by its fields, so that it is compared without its hashes. *)
Definition no_snapshot : HaltAuthoritySnapshot :=
  mk_HaltAuthoritySnapshot "" "" "" ADAPTER_RECEIVE_ORDER_V1 "" "" 0 (at_second 0) (at_second 0)
    no_evidence UNKNOWN 0 (at_second 0) "".
Definition reached (cs : list call) : HaltAuthoritySnapshot := value_or (runs initial cs) no_snapshot.

Definition until_halt : list call :=
  [Reduce acknowledgement (at_second 1); Reduce (trade 2 2 "1") (at_second 2);
   Reduce (status 3 10 "H") (at_second 10)].
Definition until_open : list call :=
  [Reduce (status 4 11 "T") (at_second 11); Reduce (trade 5 12 "2") (at_second 12); Read (at_second 13)].

Definition halted_snapshot : HaltAuthoritySnapshot := reached until_halt.
Definition open_snapshot : HaltAuthoritySnapshot := reached (until_halt ++ until_open).

(** ** Late trades *)

(** A trade of the eighth second arrives after the halt of the tenth: it is within the
    tolerance of five seconds. *)
Definition late_in_halt : call := Reduce (trade 4 8 "2") (at_second 11).
Definition after_late_trade : HaltAuthoritySnapshot := reached (until_halt ++ [late_in_halt]).

(** A trade printed before a halt and delivered after it, within the five seconds by which
    the trades of the feed may be reordered, is accepted in the latched halt; its time becomes
    the last event's, before the time of the halt, and from then on the snapshot is refused by
    the module itself: every read and every event raises. *)
Lemma late_trade_sticks_halt :
  is_ok (run_call sample_config (Some book) halted_snapshot late_in_halt) = true /\
  refused sample_config (Some book) after_late_trade.
Proof. split; [by vm_compute|]. apply refused_calls; by vm_compute. Qed.

(** A trade printed before the halt, delivered after the resumption. *)
Definition late_resumption : list call :=
  [Reduce (status 4 11 "T") (at_second 11); Reduce (trade 5 8 "2") (at_second 12)].

(** The trade that releases a halt may be one that was printed before the halt. *)
Lemma earlier_trade_resumes :
  trading_halt_state (reached (until_halt ++ late_resumption)) = NOT_HALTED /\
  ev_halt_latched_at halted_snapshot = Some (at_second 10) /\
  ev_last_trade_at (reached (until_halt ++ late_resumption)) = Some (at_second 8).
Proof. by vm_compute. Qed.

(** ** A session *)

Lemma sample_config_valid : _validate_config sample_config = Ok tt.
Proof. by vm_compute. Qed.

Lemma halted_then_open : exists p q,
  run sample_config (Some book) p until_open q /\ trading_halt_state q = NOT_HALTED /\
  hs_state p = HALTED_LATCHED.
Proof.
  exists halted_snapshot, open_snapshot. split; [|by vm_compute]. apply runs_ok. by vm_compute.
Qed.

Lemma open_market_justified_witness :
  exists p q,
    run sample_config (Some book) p until_open q /\ trading_halt_state q = NOT_HALTED /\
    hs_state p = HALTED_LATCHED /\ confirmed sample_config q /\
    (session_over sample_config (Some book) p until_open \/
     resumed_and_traded sample_config (Some book) until_open).
Proof.
  destruct halted_then_open as (p & q & Hr & Ho & Hp).
  destruct (open_market_justified sample_config (Some book) p until_open q Hr ltac:(discriminate) Ho) as (Hc & Hh & _).
  exists p, q. exact (conj Hr (conj Ho (conj Hp (conj Hc (Hh Hp))))).
Defined.

Definition earlier : datetime := utc 2026 9 14 13 59 0.

Lemma halted_valid : exists p,
  valid_snapshot sample_config p /\ grounded p /\ hs_state p = HALTED_LATCHED /\
  is_utc (at_second 11) = true /\ is_utc earlier = true /\
  dt_instant (hs_observed_at p) - dt_instant (at_second 11) <= _READ_SKEW_TOLERANCE /\
  _READ_SKEW_TOLERANCE < dt_instant (hs_observed_at p) - dt_instant earlier.
Proof.
  exists halted_snapshot. split_and!; try by vm_compute. apply validate_previous_ok. by vm_compute.
Qed.

Lemma authority_runs_witness :
  exists p,
    valid_snapshot sample_config p /\ hs_state p = HALTED_LATCHED /\
    (forall event, exists q g, reduce_halt_authority p event sample_config (Some book) (at_second 11) = Ok q /\
      spec_step HALTED_LATCHED g (hs_state q)) /\
    (exists r g, read_halt_authority p sample_config (at_second 11) = Ok r /\
      valid_snapshot sample_config r /\ spec_step HALTED_LATCHED g (hs_state r)) /\
    read_halt_authority p sample_config earlier = Raise (HaltAuthorityError "HALT_READ_TIME_REGRESSION").
Proof.
  destruct halted_valid as (p & Hp & Hg & Hs & Ht & Ht2 & Hk & Hb).
  destruct (authority_runs sample_config (Some book) p sample_config_valid Hp Hg (at_second 11) Ht) as [R1 _].
  destruct (authority_runs sample_config (Some book) p sample_config_valid Hp Hg earlier Ht2) as [_ R2].
  destruct (R1 Hk) as [E (r & g' & H4 & H5 & _ & _ & H6 & _)]. destruct (R2 Hb) as [H7 _].
  assert (K : forall event, exists q g,
    reduce_halt_authority p event sample_config (Some book) (at_second 11) = Ok q /\
    spec_step HALTED_LATCHED g (hs_state q)).
  { intros event. destruct (E event) as (q & g & H1 & _ & H2 & _). rewrite Hs in H2. exact (ex_intro _ q (ex_intro _ g (conj H1 H2))). }
  rewrite Hs in H6.
  exact (ex_intro _ p (conj Hp (conj Hs (conj K (conj (ex_intro _ r (ex_intro _ g' (conj H4 (conj H5 H6)))) H7))))).
Defined.

(** ** The adapter *)

Definition sample_clock (n : nat) : datetime := at_second (Z.of_nat n).
Definition one_epoch (n : nat) : M string := Ok "epoch-1".
Definition always_alive (n : nat) : bool := true.
Abbreviation respond_all :=
  (responded sample_config (Some book) (seconds 5) sample_clock one_epoch always_alive).

Definition stream_halts : list callback :=
  [ConnectionStarting; SubscriptionMessage "subscription" [("trades", ["SPY"]); ("statuses", ["SPY"])];
   OnTrade (Some (mk_Trade "SPY" (Some 1) (Some (at_second 4))));
   OnStatus (Some (mk_TradingStatus "SPY" (Some "H") (Some (at_second 5))))].
Definition stream_reopens : list callback :=
  [OnStatus (Some (mk_TradingStatus "SPY" (Some "T") (Some (at_second 6))));
   OnTrade (Some (mk_Trade "SPY" (Some 2) (Some (at_second 7)))); SnapshotRead None].

Definition halted_adapter : M adapter :=
  a ← new_adapter sample_config (seconds 5) sample_clock; Ok (respond_all stream_halts a).

Lemma observed {A B C} (m : M A) (f : A -> B) (g : A -> C) b c :
  (a ← m; Ok (f a, g a)) = Ok (b, c) -> exists a, m = Ok a /\ f a = b /\ g a = c.
Proof. destruct m as [a|]; cbn; intros [=]. by exists a. Qed.

Lemma triple {A B C} (x x' : A) (y y' : B) (z z' : C) : (x, y, z) = (x', y', z') -> x = x' /\ y = y' /\ z = z'.
Proof. by intros [= -> -> ->]. Qed.

Definition is_inside (t : datetime) : bool :=
  (dt_instant (hc_session_open_at sample_config) <=? dt_instant t)
  && (dt_instant t <? dt_instant (hc_session_close_at sample_config)).
Lemma is_inside_spec t : is_inside t = true -> inside sample_config t.
Proof. unfold is_inside. by rewrite andb_true_iff, Z.leb_le, Z.ltb_lt. Qed.

Lemma stream_halted_then_open : exists a,
  halted_adapter = Ok a /\ hs_state (ad_snapshot a) = HALTED_LATCHED /\
  trading_halt_state (ad_snapshot (respond_all stream_reopens a)) = NOT_HALTED /\
  is_inside (hs_observed_at (ad_snapshot a)) = true /\
  (ad_reads (respond_all stream_reopens a) <= 60)%nat.
Proof.
  assert (E : exists a, halted_adapter = Ok a /\ hs_state (ad_snapshot a) = HALTED_LATCHED /\
    (trading_halt_state (ad_snapshot (respond_all stream_reopens a)),
     is_inside (hs_observed_at (ad_snapshot a)),
     (ad_reads (respond_all stream_reopens a) <=? 60)%nat) = (NOT_HALTED, true, true)).
  { apply (observed halted_adapter (fun a => hs_state (ad_snapshot a))
      (fun a => (trading_halt_state (ad_snapshot (respond_all stream_reopens a)),
         is_inside (hs_observed_at (ad_snapshot a)),
         (ad_reads (respond_all stream_reopens a) <=? 60)%nat))).
    by vm_compute. }
  destruct E as (a & Ha & Hh & (H1 & H2 & H3)%triple). exists a. apply Nat.leb_le in H3. by split_and!.
Qed.

Lemma sample_backoff_room :
  0 < seconds 5 /\ 0 <= dt_instant (hc_session_open_at sample_config) /\
  dt_instant (hc_session_close_at sample_config) + seconds 5 < max_local.
Proof. by vm_compute. Qed.

(** The clock of the sample does not leave the session. *)
Lemma sample_clock_inside n : (n <= 60)%nat -> inside sample_config (sample_clock n).
Proof.
  intros H. apply is_inside_spec.
  assert (K : forallb (fun n => is_inside (sample_clock n)) (seq 0 61) = true) by (by vm_compute).
  rewrite forallb_forall in K. apply K, in_seq. lia.
Qed.

Lemma sample_in_session a :
  is_inside (hs_observed_at (ad_snapshot a)) = true ->
  (ad_reads (respond_all stream_reopens a) <= 60)%nat ->
  ~ session_ended sample_config (Some book) (seconds 5) sample_clock one_epoch always_alive a stream_reopens.
Proof.
  intros E Hr [H|[(n & Hn & H)|(t & H & _)]].
  - by apply H, is_inside_spec.
  - apply H, sample_clock_inside. lia.
  - unfold stream_reopens in H. rewrite !elem_of_cons, elem_of_nil in H. by repeat destruct H as [H|H].
Qed.

Lemma halt_released_by_stream_witness :
  exists a l1 status l2 trade l3,
    halted_adapter = Ok a /\ hs_state (ad_snapshot a) = HALTED_LATCHED /\
    trading_halt_state (ad_snapshot (respond_all stream_reopens a)) = NOT_HALTED /\
    confirmed sample_config (ad_snapshot (respond_all stream_reopens a)) /\
    stream_reopens = (l1 ++ OnStatus status :: l2 ++ OnTrade trade :: l3)%list.
Proof.
  destruct stream_halted_then_open as (a & Ha & Hh & Ho & Ht & Hr).
  pose proof (halt_released_by_stream sample_config (Some book) (seconds 5) sample_clock one_epoch always_alive
    sample_backoff_room a stream_reopens Hh Ho) as [Hc [K|(l1 & st & l2 & tr & l3 & code & s & b & id & t & E & _)]].
  - destruct (sample_in_session a Ht Hr K).
  - exists a, l1, st, l2, tr, l3. exact (conj Ha (conj Hh (conj Ho (conj Hc E)))).
Defined.
