(* ===== verification/EntryAuthority.v ===== *)
(** * From an approved opportunity to an intent

    [backend/app/services/entry_authority.py]: [build_development_entry_proposal] turns an
    approved decision of the opportunity policy into what the execution starts from: the
    order envelope, the approval that authorises it, the intent, and the launch authority of
    the position ([backend/app/lifecycle/contracts.py]) with the acquisition
    ([backend/app/services/acquisition.py]) that carry them to the agent. *)

From Stdlib Require Import ZArith Lia String Ascii List Bool.
From stdpp Require Import base strings option tactics list.
From S2P Require Import Prelude PyText PyDecimal PyTime PyHash Contracts OpportunityData Opportunity ExecModels Identity.

#[local] Open Scope string_scope.
#[local] Open Scope Z_scope.

(** [timedelta(seconds=30)] *)
Definition _AUTHORIZATION_TTL : timedelta := seconds 30.

Record EntryProposalAuthorityInput := mk_EntryProposalAuthorityInput {
  en_policy : OpportunityPolicy;
  en_values : OpportunityInput;
  en_decision : OpportunityDecisionRecord;
  en_thesis_version_id : uuid;
  en_thesis_account_role : AccountRole;
  en_thesis_policy_hash : string;
  en_thesis_underlying : string;
  en_thesis_frozen_at : datetime;
  en_account_role : AccountRole;
  en_account_fingerprint : string;
  en_valid_from : datetime;
  en_expires_at : datetime;
  en_benchmark_symbol : string;
  en_underlying_source_hash : string;
  en_benchmark_source_hash : string;
  en_completed_bar_source_hash : string;
}.

(** ** What is carried along *)

Record LifecycleLaunchAuthority := mk_LifecycleLaunchAuthority {
  la_beta60 : decimal;
  la_benchmark_symbol : string;
  la_entry_boundary_at : datetime;
  la_entry_policy_hash : string;
  la_underlying_source_hash : string;
  la_benchmark_source_hash : string;
  la_completed_bar_source_hash : string;
}.

Definition make_LifecycleLaunchAuthority (self : LifecycleLaunchAuthority) : M LifecycleLaunchAuthority :=
  valid ←
    is_finite (la_beta60 self)
    &&& ((Dint 0 <. la_beta60 self) &&& (la_beta60 self <=. Dint 3))
    &&& String.eqb (la_benchmark_symbol self) "QQQ"
    &&& is_utc (la_entry_boundary_at self)
    &&& forallb is_hash
          [la_entry_policy_hash self; la_underlying_source_hash self;
           la_benchmark_source_hash self; la_completed_bar_source_hash self];
  when negb valid then_ Raise (ValueError "LIFECYCLE_LAUNCH_AUTHORITY_INVALID");;
  Ok self.

Record AuthorizationIntentProposal := mk_AuthorizationIntentProposal {
  ap_authorization : EntryApprovalAuthorization;
  ap_intent : ExecutionIntent;
}.

Record OpportunityAcquisition := mk_OpportunityAcquisition {
  oq_policy : OpportunityPolicy;
  oq_values : OpportunityInput;
  oq_thesis_version_id : uuid;
  oq_proposal : option AuthorizationIntentProposal;
  oq_launch_authority : option LifecycleLaunchAuthority;
}.

Definition make_OpportunityAcquisition (self : OpportunityAcquisition) : M OpportunityAcquisition :=
  decision ← evaluate_opportunity (oq_policy self) (oq_values self);
  when negb (bool_decide (od_outcome decision = OO_ENTRY_APPROVED))
  then_ Raise (ValueError "OPPORTUNITY_APPROVED_ACQUISITION_INVALID");;
  Ok self.

Record BuiltEntryProposalAuthority := mk_BuiltEntryProposalAuthority {
  be_authorization : EntryApprovalAuthorization;
  be_envelope : OrderEnvelope;
  be_intent : ExecutionIntent;
  be_proposal : AuthorizationIntentProposal;
  be_launch_authority : LifecycleLaunchAuthority;
  be_acquisition : OpportunityAcquisition;
}.

(** ** The checks *)

#[export] Instance OpportunityReason_eq_dec : EqDecision OpportunityReason.
Proof. solve_decision. Defined.

(** [==] on the fields of two decision records. *)
Definition decision_eq (a b : OpportunityDecisionRecord) : bool :=
  bool_decide (od_outcome a = od_outcome b)
  && bool_decide (od_reason_codes a = od_reason_codes b)
  && String.eqb (od_opportunity_key a) (od_opportunity_key b)
  && dt_eq (od_decision_boundary a) (od_decision_boundary b)
  && bool_decide (od_direction a = od_direction b)
  && bool_decide (od_strategy a = od_strategy b)
  && bool_decide (od_quantity a = od_quantity b)
  && deq_opt (od_approved_max_loss a) (od_approved_max_loss b)
  && String.eqb (od_book_fingerprint a) (od_book_fingerprint b)
  && bool_decide (od_candidate_hash a = od_candidate_hash b)
  && String.eqb (od_input_hash a) (od_input_hash b)
  && String.eqb (od_policy_hash a) (od_policy_hash b)
  && String.eqb (od_result_hash a) (od_result_hash b).

Definition times_of (inputs : EntryProposalAuthorityInput) : list datetime :=
  let values := en_values inputs in
  [oi_observed_decision_boundary values; oi_completed_bar_at values; oi_evaluated_at values;
   en_thesis_frozen_at inputs; en_valid_from inputs; en_expires_at inputs].

Definition hashes_of (inputs : EntryProposalAuthorityInput) : list string :=
  [en_account_fingerprint inputs; en_thesis_policy_hash inputs; en_underlying_source_hash inputs;
   en_benchmark_source_hash inputs; en_completed_bar_source_hash inputs].

Definition chronology_refused (inputs : EntryProposalAuthorityInput) : M bool :=
  let values := en_values inputs in
  negb (dt_eq (oi_completed_bar_at values) (oi_observed_decision_boundary values))
  ||| dt_lt (en_thesis_frozen_at inputs) (oi_completed_bar_at values)
  ||| dt_lt (en_valid_from inputs) (en_thesis_frozen_at inputs)
  ||| negb (dt_eq (en_valid_from inputs) (oi_evaluated_at values))
  ||| dt_le (en_expires_at inputs) (en_valid_from inputs)
  ||| (life ← dt_sub (en_expires_at inputs) (en_valid_from inputs); Ok (_AUTHORIZATION_TTL <? life)).

Definition _validate_inputs (inputs : EntryProposalAuthorityInput) : M unit :=
  let values := en_values inputs in
  when negb (bool_decide (en_account_role inputs ∈ [DEVELOPMENT; SUBMISSION]))
  then_ Raise (ValueError "ENTRY_ACCOUNT_ROLE_INVALID");;
  when existsb (fun value => negb (is_utc value)) (times_of inputs)
  then_ Raise (ValueError "ENTRY_AUTHORITY_TIME_INVALID");;
  when negb (forallb is_hash (hashes_of inputs))
  then_ Raise (ValueError "ENTRY_AUTHORITY_HASH_INVALID");;
  when negb (bool_decide (en_thesis_account_role inputs = en_account_role inputs))
       || negb (bool_decide (ac_account_role (oi_account values) = en_account_role inputs))
       || negb (String.eqb (ac_book_fingerprint (oi_account values))
                  (od_book_fingerprint (en_decision inputs)))
  then_ Raise (ValueError "ENTRY_ACCOUNT_BINDING_INVALID");;
  when negb (String.eqb (en_thesis_underlying inputs) (op_underlying (en_policy inputs)))
       || negb (String.eqb (oi_underlying values) (en_thesis_underlying inputs))
       || negb (String.eqb (en_thesis_policy_hash inputs) (od_policy_hash (en_decision inputs)))
  then_ Raise (ValueError "ENTRY_THESIS_BINDING_INVALID");;
  when chronology_refused inputs
  then_ Raise (ValueError "ENTRY_AUTHORITY_CHRONOLOGY_INVALID");;
  when negb (String.eqb (en_benchmark_symbol inputs) "QQQ") ||| (oi_beta values <=. Dint 0)
  then_ Raise (ValueError "ENTRY_LAUNCH_AUTHORITY_INVALID");;
  Ok tt.

(** ** The proposal *)

Definition _stable_uuid (domain : string) (values : list string) : uuid :=
  let digest := sha256_hex (json_enc (JArr (map JStr (domain :: values)))) in
  uuid5 NAMESPACE_URL (domain ++ ":" ++ digest).

Definition approval_id_of (inputs : EntryProposalAuthorityInput) (decision : OpportunityDecisionRecord)
    : uuid :=
  _stable_uuid "alphadecay.entry-approval.v1"
    [od_result_hash decision; uuid_str (en_thesis_version_id inputs); en_account_fingerprint inputs;
     dt_isoformat (en_thesis_frozen_at inputs); dt_isoformat (en_valid_from inputs);
     dt_isoformat (en_expires_at inputs); en_underlying_source_hash inputs;
     en_benchmark_source_hash inputs; en_completed_bar_source_hash inputs].

Definition leg_intent (leg : OptionLeg) : OrderLegIntent :=
  mk_OrderLegIntent (ol_symbol leg) (ol_intent leg) (ol_ratio leg).

Definition entry_envelope (inputs : EntryProposalAuthorityInput) (decision : OpportunityDecisionRecord)
    (candidate : VerticalCandidate) (quantity : Z) (approved_max_loss : decimal) : OrderEnvelope :=
  {| oe_action := EX_ENTRY;
     oe_authorization_certificate_id := approval_id_of inputs decision;
     oe_policy_hash := od_policy_hash decision;
     oe_account_fingerprint := en_account_fingerprint inputs;
     oe_position_or_book_fingerprint := od_book_fingerprint decision;
     oe_legs := map leg_intent (vc_legs candidate); oe_quantity := quantity;
     oe_minimum_limit := vc_approved_limit candidate;
     oe_maximum_limit := _candidate_maximum_limit candidate;
     oe_approved_max_loss := approved_max_loss; oe_event_key := od_opportunity_key decision;
     oe_trading_day := dt_date (od_decision_boundary decision);
     oe_market_session_id := None; oe_quoted_relative_spread := None;
     oe_maximum_relative_spread := None; oe_incremental_debit := None;
     oe_maximum_incremental_debit := None |}.

Definition entry_authorization (inputs : EntryProposalAuthorityInput)
    (decision : OpportunityDecisionRecord) (envelope : OrderEnvelope) : EntryApprovalAuthorization :=
  {| ea_approval_id := approval_id_of inputs decision;
     ea_thesis_version_id := en_thesis_version_id inputs;
     ea_account_role := en_account_role inputs; ea_policy_hash := od_policy_hash decision;
     ea_book_fingerprint := od_book_fingerprint decision;
     ea_envelope_hash := order_envelope_hash envelope;
     ea_approved_max_loss := oe_approved_max_loss envelope; ea_quantity := oe_quantity envelope;
     ea_valid_from := en_valid_from inputs; ea_expires_at := en_expires_at inputs;
     ea_valid := true; ea_experiment_lineage := None |}.

Definition entry_intent (inputs : EntryProposalAuthorityInput) (envelope : OrderEnvelope)
    : ExecutionIntent :=
  let digest := intent_digest envelope in
  {| ei_intent_id := _stable_uuid "alphadecay.entry-intent.v1" [digest];
     ei_account_role := en_account_role inputs; ei_envelope := envelope; ei_digest := digest;
     ei_state := APPROVED; ei_claimed_by := None; ei_claimed_at := None;
     ei_first_fill_consumed := false; ei_claim_token := None; ei_claim_generation := 0;
     ei_execution_epoch := 0; ei_heartbeat_at := None; ei_lease_expires_at := None |}.

Definition build_development_entry_proposal (inputs : EntryProposalAuthorityInput)
    : M BuiltEntryProposalAuthority :=
  _ ← _validate_inputs inputs;
  let values := en_values inputs in
  decision ← evaluate_opportunity (en_policy inputs) values;
  when negb (decision_eq decision (en_decision inputs))
       || negb (bool_decide (od_outcome decision = OO_ENTRY_APPROVED))
  then_ Raise (ValueError "ENTRY_DECISION_AUTHORITY_INVALID");;
  match oi_candidate values, od_quantity decision, od_approved_max_loss decision with
  | Some candidate, Some quantity, Some approved_max_loss =>
      envelope ← make_OrderEnvelope (entry_envelope inputs decision candidate quantity approved_max_loss);
      let authorization := entry_authorization inputs decision envelope in
      let intent := entry_intent inputs envelope in
      let proposal := mk_AuthorizationIntentProposal authorization intent in
      launch_authority ← make_LifecycleLaunchAuthority
        {| la_beta60 := oi_beta values; la_benchmark_symbol := en_benchmark_symbol inputs;
           la_entry_boundary_at := oi_completed_bar_at values;
           la_entry_policy_hash := od_policy_hash decision;
           la_underlying_source_hash := en_underlying_source_hash inputs;
           la_benchmark_source_hash := en_benchmark_source_hash inputs;
           la_completed_bar_source_hash := en_completed_bar_source_hash inputs |};
      acquisition ← make_OpportunityAcquisition
        {| oq_policy := en_policy inputs; oq_values := values;
           oq_thesis_version_id := en_thesis_version_id inputs; oq_proposal := Some proposal;
           oq_launch_authority := Some launch_authority |};
      Ok {| be_authorization := authorization; be_envelope := envelope; be_intent := intent;
            be_proposal := proposal; be_launch_authority := launch_authority;
            be_acquisition := acquisition |}
  | _, _, _ => Raise (ValueError "ENTRY_CANDIDATE_AUTHORITY_INVALID")
  end.
