(* ===== verification/EntryFacts.v ===== *)
(** * An approved opportunity becomes a claimable intent

    The proposal of [EntryAuthority] exists exactly when the policy approved the entry and
    the inputs agree, and the approval it carries is one under which the repositories grant
    the claim of its intent, for half a minute at most. *)

From Stdlib Require Import ZArith Lia String Ascii List Bool QArith Lqa.
From stdpp Require Import base strings option tactics list.
From S2P Require Import Prelude PyText PyDecimal PyDecimalFacts PyTime PyHash Contracts OrderLimits OpportunityData Opportunity ExecModels Identity Finalization Memory MemoryProps EntryAuthority.

#[local] Open Scope string_scope.
#[local] Open Scope Z_scope.

(** The prices of the candidate and the risk approved before are in millionths of a dollar. *)
Definition cash_input (values : OpportunityInput) : Prop :=
  cash (ac_lifetime_approved_risk (oi_account values)) /\
  forall candidate, oi_candidate values = Some candidate -> cash_candidate candidate.

Definition approved_decision (inputs : EntryProposalAuthorityInput) (r : OpportunityDecisionRecord) : Prop :=
  evaluate_opportunity (en_policy inputs) (en_values inputs) = Ok r /\
  od_outcome r = OO_ENTRY_APPROVED /\ decision_eq r (en_decision inputs) = true.

(** ** The constructors *)

Lemma policy_position_cap policy :
  make_OpportunityPolicy policy = Ok policy ->
  (dval (op_maximum_position_loss policy) <= dval MAX_STRUCTURAL_APPROVED_RISK)%Q.
Proof.
  intros H. destruct (policy_finite policy H) as (Fp & _).
  unfold make_OpportunityPolicy in H. apply bind_ok in H as (valid & Hv & H).
  apply guard_raise_ok in H as [Hn _]. apply lift_bool_ok, negb_false_iff in Hn. subst valid.
  rewrite !and_m_true in Hv. inv_all.
  apply dle_true; done.
Qed.

Lemma policy_hash_is_hash policy h : opportunity_policy_hash policy = Ok h -> is_hash h = true.
Proof.
  unfold opportunity_policy_hash, _canonical_hash. intros H. apply bind_ok in H as (payload & _ & [= <-]).
  apply sha256_is_hash.
Qed.

Lemma guard_passes {A} (c : M bool) (r k : M A) : c = Ok false -> guard_m c r k = k.
Proof. by intros ->. Qed.
Lemma and_true (a b : M bool) : a = Ok true -> b = Ok true -> (a &&& b) = Ok true.
Proof. by intros -> ->. Qed.

(** The envelope of an approved entry is one its constructor accepts. *)
Lemma envelope_accepted inputs r candidate loss :
  make_OpportunityPolicy (en_policy inputs) = Ok (en_policy inputs) ->
  approved_from (en_policy inputs) (en_values inputs) r candidate loss -> cash_candidate candidate ->
  let envelope := entry_envelope inputs r candidate (vc_quantity candidate) loss in
  make_OrderEnvelope envelope = Ok envelope.
Proof.
  intros HP [_ HA _ Hl HB _ _ _ _ _ _] HC envelope.
  destruct (policy_finite _ HP) as (Fp & _ & _ & _ & _ & Hmax). pose proof (policy_position_cap _ HP) as Hcap.
  destruct (accepted_loss _ _ _ HA Hmax HC) as (_ & _ & _ & loss' & _ & _ & _ & _ & El & [Fl _] & _ & Pl & _).
  assert (loss' = loss) as -> by congruence.
  pose proof (acc_limits _ _ _ HA) as [Fa Fm]. pose proof (acc_limit_range _ _ _ HA) as [_ Hr].
  pose proof (acc_quantity _ _ _ HA) as Hq. pose proof (wb_position _ _ _ HB) as Hw.
  pose proof (acc_two _ _ _ HA) as H2.
  unfold make_OrderEnvelope. subst envelope. cbn [oe_action entry_envelope].
  destruct (decide (EX_ENTRY = EX_ROLL)) as [[=]|_].
  rewrite guard_passes; [rewrite guard_passes; [rewrite guard_passes|]|];
    cbn [entry_envelope oe_legs oe_quantity oe_minimum_limit oe_maximum_limit oe_approved_max_loss].
  - done.
  - apply not_m_false, and_true; [by apply dlt_ok_true|]. apply dle_ok_true; [done..|]. lra.
  - by apply dlt_ok_false.
  - rewrite length_map, H2. apply lift_bool_ok. rewrite orb_false_iff, !negb_false_iff, andb_true_iff, !Z.leb_le.
    split; [done|lia].
Qed.

(** ** The checks of the inputs *)

Record inputs_ok (inputs : EntryProposalAuthorityInput) : Prop := {
  io_times : Forall (fun t => is_utc t = true) (times_of inputs);
  io_hashes : Forall (fun h => is_hash h = true) (hashes_of inputs);
  io_valid_from : dt_instant (en_valid_from inputs) = dt_instant (oi_evaluated_at (en_values inputs));
  io_life : 0 < dt_instant (en_expires_at inputs) - dt_instant (en_valid_from inputs) <= _AUTHORIZATION_TTL;
  io_benchmark : en_benchmark_symbol inputs = "QQQ";
  io_beta : (oi_beta (en_values inputs) <=. Dint 0) = Ok false;
}.

Lemma validate_inputs_inv inputs : _validate_inputs inputs = Ok tt -> inputs_ok inputs.
Proof.
  unfold _validate_inputs. intros H.
  apply guard_raise_ok in H as [_ H]. apply guard_raise_ok in H as [Ht H].
  apply guard_raise_ok in H as [Hh H]. apply guard_raise_ok in H as [_ H].
  apply guard_raise_ok in H as [_ H]. apply guard_raise_ok in H as [Hc H].
  apply guard_raise_ok in H as [Hb _].
  assert (Ft : Forall (fun t => is_utc t = true) (times_of inputs)).
  { apply lift_bool_ok, existsb_false_Forall in Ht. eapply Forall_impl; [exact Ht|].
    intros t K. by apply negb_false_iff in K. }
  assert (Fh : Forall (fun h => is_hash h = true) (hashes_of inputs)).
  { apply lift_bool_ok, negb_false_iff in Hh. apply Forall_forall. intros h K.
    rewrite forallb_forall in Hh. by apply Hh, list_elem_of_In. }
  pose proof Ft as Fu. unfold times_of in Fu. rewrite !Forall_cons_iff in Fu.
  destruct Fu as (U1 & U2 & U3 & U4 & U5 & U6 & _).
  unfold chronology_refused in Hc. rewrite utc_le, utc_sub, !utc_lt in Hc by done.
  rewrite !or_m_false in Hc. cbn [mbind M_bind] in Hc. rewrite or_m_false in Hb. inv_all. zbool.
  split; try done.
  - by apply dt_eq_spec; [apply utc_aware..|].
  - lia.
Qed.

(** ** The proposal *)

Record claimable (inputs : EntryProposalAuthorityInput) (built : BuiltEntryProposalAuthority) : Prop := {
  (* the order is that of the approved candidate *)
  cb_approved : exists r candidate bought sold loss,
    approved_decision inputs r /\ approved_from (en_policy inputs) (en_values inputs) r candidate loss /\
    defined_risk candidate bought sold /\
    oe_action (be_envelope built) = EX_ENTRY /\
    oe_policy_hash (be_envelope built) = od_policy_hash r /\
    oe_legs (be_envelope built) = map leg_intent (vc_legs candidate) /\
    oe_quantity (be_envelope built) = vc_quantity candidate /\
    oe_minimum_limit (be_envelope built) = vc_approved_limit candidate /\
    oe_maximum_limit (be_envelope built) = _candidate_maximum_limit candidate /\
    oe_approved_max_loss (be_envelope built) = loss;
  cb_constructed : make_OrderEnvelope (be_envelope built) = Ok (be_envelope built);
  (* the intent carries the order, under the approval *)
  cb_intent : ei_envelope (be_intent built) = be_envelope built /\
    ei_digest (be_intent built) = intent_digest (be_envelope built) /\
    ei_state (be_intent built) = APPROVED;
  cb_approval : oe_authorization_certificate_id (be_envelope built) = ea_approval_id (be_authorization built);
  (* a repository with the approval accepts the origin of the intent exactly while it lasts *)
  cb_claim : forall (r : repository) now, is_utc now = true ->
    rp_entry_approvals r !! ea_approval_id (be_authorization built) = Some (be_authorization built) ->
    rp_assessment_certificates r !! ea_approval_id (be_authorization built) = None ->
    _require_authorization_origin r (be_intent built) now = Ok tt <->
    dt_instant (oi_evaluated_at (en_values inputs)) <= dt_instant now < dt_instant (en_expires_at inputs);
  cb_life : dt_instant (en_expires_at inputs) - dt_instant (oi_evaluated_at (en_values inputs)) <= seconds 30;
}.

Lemma built_window inputs r envelope (rp : repository) now :
  inputs_ok inputs -> is_utc now = true -> finite (oe_approved_max_loss envelope) ->
  oe_action envelope = EX_ENTRY -> oe_authorization_certificate_id envelope = approval_id_of inputs r ->
  oe_policy_hash envelope = od_policy_hash r -> oe_position_or_book_fingerprint envelope = od_book_fingerprint r ->
  rp_entry_approvals rp !! approval_id_of inputs r = Some (entry_authorization inputs r envelope) ->
  rp_assessment_certificates rp !! approval_id_of inputs r = None ->
  _require_authorization_origin rp (entry_intent inputs envelope) now = Ok tt <->
  dt_instant (oi_evaluated_at (en_values inputs)) <= dt_instant now < dt_instant (en_expires_at inputs).
Proof.
  intros [Ht _ Hv _ _ _] Hn Hf He Hi Hp Hb H1 H2. unfold times_of in Ht. rewrite !Forall_cons_iff in Ht.
  destruct Ht as (_ & _ & _ & _ & U5 & U6 & _).
  unfold _require_authorization_origin, is_entry. cbn [entry_intent ei_envelope].
  rewrite He, Hi, H1, H2. rewrite bool_decide_eq_true_2 by done. rewrite guard_passes by done.
  rewrite validate_authorization_ok. unfold authorizes.
  cbn [av_account_role av_policy_hash av_fingerprint av_envelope_hash av_approved_max_loss av_quantity av_valid
       av_valid_from av_expires_at approval_values entry_authorization entry_intent ei_account_role ei_envelope
       ea_account_role ea_policy_hash ea_book_fingerprint ea_envelope_hash ea_approved_max_loss ea_quantity
       ea_valid ea_valid_from ea_expires_at].
  rewrite utc_lt, utc_le by done. rewrite <- Hv, Hp, Hb.
  rewrite (proj2 (deq_spec _ _ Hf Hf)) by reflexivity. split.
  - intros (_ & _ & _ & _ & _ & _ & _ & [= H3] & [= H4]). zbool. lia.
  - intros H. split_and!; try done; f_equal; [apply Z.ltb_ge|apply Z.leb_gt]; lia.
Qed.

(** The proposal of an envelope with the fields of an approved entry. *)
Lemma claimable_intro inputs r candidate loss envelope built :
  make_OpportunityPolicy (en_policy inputs) = Ok (en_policy inputs) ->
  inputs_ok inputs -> approved_decision inputs r ->
  approved_from (en_policy inputs) (en_values inputs) r candidate loss -> cash_candidate candidate ->
  make_OrderEnvelope envelope = Ok envelope ->
  oe_action envelope = EX_ENTRY -> oe_authorization_certificate_id envelope = approval_id_of inputs r ->
  oe_policy_hash envelope = od_policy_hash r -> oe_position_or_book_fingerprint envelope = od_book_fingerprint r ->
  oe_legs envelope = map leg_intent (vc_legs candidate) -> oe_quantity envelope = vc_quantity candidate ->
  oe_minimum_limit envelope = vc_approved_limit candidate ->
  oe_maximum_limit envelope = _candidate_maximum_limit candidate -> oe_approved_max_loss envelope = loss ->
  be_authorization built = entry_authorization inputs r envelope ->
  be_envelope built = envelope -> be_intent built = entry_intent inputs envelope ->
  claimable inputs built.
Proof.
  intros HP HI HD HF HC HM Hact Hid Hpol Hbook Hlegs Hq Hmin Hmax' Hloss Ea Ee Ei.
  destruct (policy_finite _ HP) as (_ & _ & _ & _ & _ & Hmax).
  destruct (accepted_loss _ _ _ (af_accepted _ _ _ _ _ HF) Hmax HC)
    as (bought & sold & _ & loss' & HV & _ & _ & _ & El & [Fl _] & _).
  assert (loss' = loss) as -> by (pose proof (af_loss _ _ _ _ _ HF); congruence).
  split; rewrite ?Ea, ?Ee, ?Ei.
  - by exists r, candidate, bought, sold, loss.
  - done.
  - done.
  - done.
  - intros rp now Hn. cbn [ea_approval_id entry_authorization]. intros H1 H2.
    apply (built_window inputs r envelope rp now HI Hn ltac:(by rewrite Hloss) Hact Hid Hpol Hbook H1 H2).
  - destruct HI as [_ _ Hv Hl _ _]. unfold _AUTHORIZATION_TTL in Hl. lia.
Qed.

Lemma launch_accepted inputs r :
  inputs_ok inputs -> is_hash (od_policy_hash r) = true -> finite (oi_beta (en_values inputs)) ->
  let launch :=
    {| la_beta60 := oi_beta (en_values inputs); la_benchmark_symbol := en_benchmark_symbol inputs;
       la_entry_boundary_at := oi_completed_bar_at (en_values inputs);
       la_entry_policy_hash := od_policy_hash r;
       la_underlying_source_hash := en_underlying_source_hash inputs;
       la_benchmark_source_hash := en_benchmark_source_hash inputs;
       la_completed_bar_source_hash := en_completed_bar_source_hash inputs |} in
  make_LifecycleLaunchAuthority launch = Ok launch <-> (dval (oi_beta (en_values inputs)) <= 3)%Q.
Proof.
  intros [Ht Hh _ _ Hq Hb] Hp Hf launch. unfold times_of in Ht. unfold hashes_of in Hh.
  rewrite !Forall_cons_iff in Ht, Hh. destruct Ht as (_ & U2 & _), Hh as (_ & _ & H3 & H4 & H5 & _).
  apply dle_ok_false in Hb; [|done|done]. rewrite dval_Dint in Hb.
  unfold make_LifecycleLaunchAuthority. subst launch.
  cbn [la_beta60 la_benchmark_symbol la_entry_boundary_at la_entry_policy_hash la_underlying_source_hash
       la_benchmark_source_hash la_completed_bar_source_hash forallb].
  rewrite Hf, Hq, U2, Hp, H3, H4, H5. cbn [lift_bool and_m mbind M_bind andb].
  rewrite (proj2 (dlt_ok_true (Dint 0) _ eq_refl Hf)) by (by rewrite dval_Dint). cbn [mbind M_bind].
  destruct (dle_spec (oi_beta (en_values inputs)) (Dint 3) Hf eq_refl) as (b & -> & E).
  rewrite dval_Dint in E. change (inject_Z 3) with 3%Q in E. destruct b; cbn.
  - split; [by intros _; apply E|done].
  - split; [done|]. intros K. apply E in K. done.
Qed.

Definition launch_of (inputs : EntryProposalAuthorityInput) (r : OpportunityDecisionRecord)
    : LifecycleLaunchAuthority :=
  {| la_beta60 := oi_beta (en_values inputs); la_benchmark_symbol := en_benchmark_symbol inputs;
     la_entry_boundary_at := oi_completed_bar_at (en_values inputs);
     la_entry_policy_hash := od_policy_hash r;
     la_underlying_source_hash := en_underlying_source_hash inputs;
     la_benchmark_source_hash := en_benchmark_source_hash inputs;
     la_completed_bar_source_hash := en_completed_bar_source_hash inputs |}.

(** Once the decision is approved, the launch authority alone can refuse. *)
Lemma build_approved inputs r candidate loss :
  make_OpportunityPolicy (en_policy inputs) = Ok (en_policy inputs) ->
  _validate_inputs inputs = Ok tt -> approved_decision inputs r ->
  approved_from (en_policy inputs) (en_values inputs) r candidate loss -> cash_candidate candidate ->
  let envelope := entry_envelope inputs r candidate (vc_quantity candidate) loss in
  let proposal := mk_AuthorizationIntentProposal (entry_authorization inputs r envelope)
                    (entry_intent inputs envelope) in
  build_development_entry_proposal inputs =
    (launch ← make_LifecycleLaunchAuthority (launch_of inputs r);
     Ok (mk_BuiltEntryProposalAuthority (entry_authorization inputs r envelope) envelope
           (entry_intent inputs envelope) proposal launch
           (mk_OpportunityAcquisition (en_policy inputs) (en_values inputs) (en_thesis_version_id inputs)
              (Some proposal) (Some launch)))).
Proof.
  intros HP HV (HE & HO & HQ) HF HC envelope proposal.
  unfold build_development_entry_proposal. rewrite HV, HE. cbn [mbind M_bind].
  rewrite guard_passes by (rewrite HQ, HO; done).
  rewrite (af_candidate _ _ _ _ _ HF), (af_quantity _ _ _ _ _ HF), (af_approved _ _ _ _ _ HF).
  rewrite (envelope_accepted inputs r candidate loss HP HF HC). cbn [mbind M_bind].
  fold (launch_of inputs r). destruct (make_LifecycleLaunchAuthority (launch_of inputs r)); [|done].
  cbn [mbind M_bind]. unfold make_OpportunityAcquisition. cbn [oq_policy oq_values].
  rewrite HE. cbn [mbind M_bind]. by rewrite guard_passes by (by rewrite HO).
Qed.

Lemma build_inv inputs built :
  build_development_entry_proposal inputs = Ok built ->
  _validate_inputs inputs = Ok tt /\ exists r, approved_decision inputs r.
Proof.
  unfold build_development_entry_proposal. intros H.
  apply bind_ok in H as ([] & HV & H). split; [done|]. apply bind_ok in H as (r & HE & H).
  apply guard_raise_ok in H as [Hg _]. rewrite lift_bool_ok, orb_false_iff, !negb_false_iff, bool_decide_eq_true in Hg.
  destruct Hg. by exists r.
Qed.

Lemma launch_refused_or_finite x y : make_LifecycleLaunchAuthority x = Ok y -> y = x /\ finite (la_beta60 x).
Proof.
  unfold make_LifecycleLaunchAuthority. intros H. apply bind_ok in H as (valid & Hv & H).
  apply guard_raise_ok in H as [Hn [= <-]]. apply lift_bool_ok, negb_false_iff in Hn. subst valid.
  rewrite !and_m_true in Hv. inv_all. by split.
Qed.

(** C8: From an approved opportunity to an order the repositories let through.  With a policy of
    the constructor's and prices in millionths of a dollar: a proposal is built exactly when
    the inputs agree with each other and with the decision, the policy, evaluated again,
    approves the entry and gives that decision, and the beta of the position is at most
    three; no other check of the order envelope or the acquisition can refuse what the policy
    approved.  The order that is built has the legs, the quantity, the limits and the loss of
    the approved candidate, a vertical of defined risk inside every budget of the policy; and
    a repository that has the approval accepts the origin of its intent from the moment of the
    evaluation until the approval expires, thirty seconds later at most, and at no other
    moment. *)
Theorem entry_proposal_exact inputs :
  make_OpportunityPolicy (en_policy inputs) = Ok (en_policy inputs) ->
  cash_input (en_values inputs) ->
  ((exists built, build_development_entry_proposal inputs = Ok built) <->
   _validate_inputs inputs = Ok tt /\ (exists r, approved_decision inputs r) /\
   finite (oi_beta (en_values inputs)) /\ (dval (oi_beta (en_values inputs)) <= 3)%Q) /\
  (forall built, build_development_entry_proposal inputs = Ok built -> claimable inputs built).
Proof.
  intros HP [Cl HC].
  assert (K : _validate_inputs inputs = Ok tt -> (exists r, approved_decision inputs r) ->
    exists r candidate loss, approved_decision inputs r /\
      approved_from (en_policy inputs) (en_values inputs) r candidate loss /\ cash_candidate candidate).
  { intros _ (r & HD). pose proof HD as (HE & HO & _).
    destruct (approval_inv _ _ r HP HE HO Cl HC) as (candidate & loss & HF).
    exists r, candidate, loss. split_and!; [done|done|]. apply HC. by destruct HF. }
  split; [split|].
  - intros (built & H). destruct (build_inv _ _ H) as [HV HR].
    destruct (K HV HR) as (r & candidate & loss & HD & HF & Cc).
    rewrite (build_approved inputs r candidate loss HP HV HD HF Cc) in H.
    apply bind_ok in H as (launch & HL & _).
    destruct (launch_refused_or_finite _ _ HL) as [-> Hf]. split_and!; [done|done|done|].
    apply (launch_accepted inputs r (validate_inputs_inv _ HV)); [|done|exact HL].
    eapply policy_hash_is_hash, (af_policy _ _ _ _ _ HF).
  - intros (HV & HR & Hf & H3). destruct (K HV HR) as (r & candidate & loss & HD & HF & Cc).
    rewrite (build_approved inputs r candidate loss HP HV HD HF Cc).
    pose proof (proj2 (launch_accepted inputs r (validate_inputs_inv _ HV)
      (policy_hash_is_hash _ _ (af_policy _ _ _ _ _ HF)) Hf) H3) as HL.
    fold (launch_of inputs r) in HL. rewrite HL. by eexists.
  - intros built H. destruct (build_inv _ _ H) as [HV HR].
    destruct (K HV HR) as (r & candidate & loss & HD & HF & Cc).
    rewrite (build_approved inputs r candidate loss HP HV HD HF Cc) in H.
    apply bind_ok in H as (launch & _ & [= <-]).
    apply (claimable_intro inputs r candidate loss (entry_envelope inputs r candidate (vc_quantity candidate) loss));
      try done; [by apply validate_inputs_inv|by apply (envelope_accepted inputs r candidate loss)].
Qed.

(** ** The entry of the policy's fixture *)

Definition hash_of (c : Ascii.ascii) : string := of_chars (repeat c 64).

Definition sample_entry (r : OpportunityDecisionRecord) : EntryProposalAuthorityInput :=
  {| en_policy := sample_policy; en_values := sample_input (D 19 (-3)); en_decision := r;
     en_thesis_version_id := 7%N; en_thesis_account_role := SUBMISSION;
     en_thesis_policy_hash := od_policy_hash r; en_thesis_underlying := "ACME";
     en_thesis_frozen_at := after boundary (seconds 2); en_account_role := SUBMISSION;
     en_account_fingerprint := hash_of "b"%char; en_valid_from := after boundary (seconds 5);
     en_expires_at := after boundary (seconds 35); en_benchmark_symbol := "QQQ";
     en_underlying_source_hash := hash_of "c"%char; en_benchmark_source_hash := hash_of "d"%char;
     en_completed_bar_source_hash := hash_of "e"%char |}.

Lemma sample_entry_approved : exists r,
  approved_decision (sample_entry r) r /\ _validate_inputs (sample_entry r) = Ok tt.
Proof. eexists. split; [split; [vm_compute; reflexivity|]|]; by vm_compute. Qed.

Lemma entry_proposal_exact_witness : exists r built,
  build_development_entry_proposal (sample_entry r) = Ok built /\ claimable (sample_entry r) built.
Proof.
  destruct sample_entry_approved as (r & HD & HV).
  assert (HP : make_OpportunityPolicy (en_policy (sample_entry r)) = Ok (en_policy (sample_entry r)))
    by (vm_compute; reflexivity).
  assert (HC : cash_input (en_values (sample_entry r))).
  { split; [apply (amount_D (-6)); [lia|vm_compute; discriminate]|].
    intros candidate [= <-]. exact sample_candidate_cash. }
  destruct (entry_proposal_exact (sample_entry r) HP HC) as [[_ Hb] Hc].
  destruct Hb as [built H].
  - split; [exact HV|]. split; [exists r; exact HD|]. split; [reflexivity|vm_compute; discriminate].
  - exists r, built. split; [exact H|]. exact (Hc built H).
Defined.
