(* ===== verification/PyRounding.v ===== *)
(** * Decimals rounded in a direction

    [ROUND_FLOOR] and [ROUND_CEILING] of Python's [decimal], for the two calls the code gives
    them to: [quantize] and [to_integral_value]; and [int] of a decimal, which truncates. *)

From Stdlib Require Import ZArith Lia String Bool QArith Qabs Lqa.
From stdpp Require Import base option tactics list.
From S2P Require Import Prelude PyDecimal PyDecimalFacts.

#[local] Open Scope Z_scope.

Inductive directed := ROUND_FLOOR | ROUND_CEILING.

(** Integer division of the coefficient of a value of the given sign: its size grows where
    that is the direction. *)
Definition round_toward (mode : directed) (neg : bool) (c p : Z) : Z :=
  let away := match mode with ROUND_FLOOR => neg | ROUND_CEILING => negb neg end in
  if away && negb (c mod p =? 0) then c / p + 1 else c / p.

(** [Decimal._rescale] on a finite coefficient. *)
Definition rescale_toward (mode : directed) (neg : bool) (c e target : Z) : Z :=
  if target <=? e then c * 10 ^ (e - target) else round_toward mode neg c (10 ^ (target - e)).

(** [self.quantize(Decimal(10) ** target, rounding)] *)
Definition quantize_toward (mode : directed) (d : decimal) (target : Z) : M decimal :=
  match d with
  | NaN => Ok NaN
  | Inf _ => Raise InvalidOperation
  | Fin s c e =>
      if (c =? 0)%N then fix_ s 0 target
      else if prec <? ndigits (Z.of_N c) + e - target then Raise InvalidOperation
      else
        let q := rescale_toward mode s (Z.of_N c) e target in
        if prec <? ndigits q then Raise InvalidOperation else fix_ s q target
  end.

(** [d.to_integral_value(rounding)] *)
Definition to_integral_toward (mode : directed) (d : decimal) : decimal :=
  match d with
  | Fin s c e =>
      if 0 <=? e then d else Fin s (Z.to_N (rescale_toward mode s (Z.of_N c) e 0)) 0
  | _ => d
  end.

(** [int(d)] *)
Definition int_of_decimal (d : decimal) : M Z :=
  match d with
  | Fin s c e =>
      let size := if 0 <=? e then Z.of_N c * 10 ^ e else Z.of_N c / 10 ^ (- e) in
      Ok (if s then - size else size)
  | Inf _ => Raise OverflowError
  | NaN => Raise (ValueError "cannot convert NaN to integer"%string)
  end.

Example floor_cents : quantize_toward ROUND_FLOOR (D 12345 (-4)) (-2) = Ok (D 123 (-2)).
Proof. reflexivity. Qed.
Example ceiling_cents : quantize_toward ROUND_CEILING (D 12345 (-4)) (-2) = Ok (D 124 (-2)).
Proof. reflexivity. Qed.
Example floor_negative : int_of_decimal (to_integral_toward ROUND_FLOOR (D (-25) (-1))) = Ok (-3).
Proof. reflexivity. Qed.

(** ** Facts *)

(** The coefficient of the rounded value, with the sign of the value. *)
Definition signed_toward (mode : directed) (s : bool) (c p : Z) : Z :=
  if s then - round_toward mode s c p else round_toward mode s c p.

Lemma round_toward_nonneg mode s c p : 0 <= c -> 0 < p -> 0 <= round_toward mode s c p.
Proof.
  intros Hc Hp. unfold round_toward. pose proof (Z.div_pos c p Hc Hp). repeat case_match; lia.
Qed.

Lemma floor_toward s c p :
  0 < p -> signed_toward ROUND_FLOOR s c p * p <= (if s then - c else c)
           < (signed_toward ROUND_FLOOR s c p + 1) * p.
Proof.
  intros Hp. unfold signed_toward, round_toward.
  pose proof (Z.div_mod c p ltac:(lia)). pose proof (Z.mod_pos_bound c p Hp).
  destruct s; cbn [andb]; [|nia].
  destruct (Z.eqb_spec (c mod p) 0); cbn [negb]; nia.
Qed.

Lemma ceiling_toward s c p :
  0 < p -> (signed_toward ROUND_CEILING s c p - 1) * p < (if s then - c else c)
           <= signed_toward ROUND_CEILING s c p * p.
Proof.
  intros Hp. unfold signed_toward, round_toward.
  pose proof (Z.div_mod c p ltac:(lia)). pose proof (Z.mod_pos_bound c p Hp).
  destruct s; cbn [negb andb]; [nia|].
  destruct (Z.eqb_spec (c mod p) 0); cbn [negb]; nia.
Qed.

Lemma dval_pow s c e g :
  g <= e -> (dval (Fin s c e) == inject_Z (signed s c * 10 ^ (e - g)) * p10 g)%Q.
Proof. intros H. cbn [dval]. rewrite (p10_split g e H), inject_Z_mult. ring. Qed.

Lemma scale_between (a x b P u : Q) :
  (0 < u -> P * u == 1 -> a * P <= x -> x < b * P -> a <= x * u < b)%Q.
Proof.
  intros Hu HP Ha Hb. assert (E : forall y : Q, (y == y * P * u)%Q)
    by (intros y; rewrite <- Qmult_assoc, HP; ring).
  rewrite (E a) at 1. rewrite (E b). split.
  - apply Qmult_le_compat_r; [done|by apply Qlt_le_weak].
  - by apply Qmult_lt_compat_r.
Qed.

(** The integer of a decimal rounded down is the greatest integer below it. *)
Lemma floor_int_spec d n :
  int_of_decimal (to_integral_toward ROUND_FLOOR d) = Ok n ->
  finite d /\ (inject_Z n <= dval d < inject_Z (n + 1))%Q.
Proof.
  destruct d as [s c e| |]; [|discriminate..]. intros H. split; [done|].
  unfold to_integral_toward in H. destruct (Z.leb_spec 0 e) as [He|He].
  - unfold int_of_decimal in H. rewrite (proj2 (Z.leb_le 0 e) He) in H. injection H as <-.
    rewrite (dval_pow s c e 0), Z.sub_0_r, p10_0 by done.
    replace (signed s c * 10 ^ e) with (if s then - (Z.of_N c * 10 ^ e) else Z.of_N c * 10 ^ e)
      by (unfold signed; destruct s; lia).
    rewrite inject_Z_plus. change (inject_Z 1) with 1%Q.
    split; lra.
  - unfold int_of_decimal in H. change (0 <=? 0) with true in H. change (10 ^ 0) with 1 in H. cbv iota in H.
    unfold rescale_toward in H. rewrite (proj2 (Z.leb_gt 0 e) He) in H.
    assert (0 < 10 ^ (0 - e)) as Hp by (apply Z.pow_pos_nonneg; lia).
    rewrite Z2N.id, !Z.mul_1_r in H by (apply round_toward_nonneg; lia).
    injection H as H. fold (signed_toward ROUND_FLOOR s (Z.of_N c) (10 ^ (0 - e))) in H.
    pose proof (floor_toward s (Z.of_N c) _ Hp) as [L U]. rewrite H in L, U.
    assert (E : (inject_Z (10 ^ (0 - e)) * p10 e == 1)%Q).
    { rewrite <- p10_split by lia. apply p10_0. }
    pose proof (p10_pos e) as Pe. cbn [dval]. fold (signed s c) in L, U.
    change (if s then - Z.of_N c else Z.of_N c) with (signed s c) in L, U.
    rewrite Zle_Qle, inject_Z_mult in L. rewrite Zlt_Qlt, inject_Z_mult in U.
    apply (scale_between _ _ _ _ _ Pe E); done.
Qed.

Lemma floor_int_finite d :
  finite d -> exists n, int_of_decimal (to_integral_toward ROUND_FLOOR d) = Ok n.
Proof.
  intros (s & c & e & ->)%finite_inv. unfold to_integral_toward.
  destruct (0 <=? e) eqn:E; eexists; reflexivity.
Qed.

(** Quantising moves to the grid in the direction of the rounding. *)
Lemma quantize_toward_inv mode d target r :
  Etiny <= target -> quantize_toward mode d target = Ok r -> finite d ->
  finite r /\ exists n, Z.abs n < 10 ^ prec /\ (dval r == inject_Z n * p10 target)%Q /\
    match mode with
    | ROUND_FLOOR => (inject_Z n * p10 target <= dval d < inject_Z (n + 1) * p10 target)%Q
    | ROUND_CEILING => (inject_Z (n - 1) * p10 target < dval d <= inject_Z n * p10 target)%Q
    end.
Proof.
  intros Ht H (s & c & e & ->)%finite_inv. pose proof (p10_pos target) as Pt.
  unfold quantize_toward in H. destruct (N.eqb_spec c 0) as [->|Hc].
  { apply (f_equal (fun m => match m with Ok a => a | _ => r end)) in H. unfold fix_ in H. rewrite Z.eqb_refl in H. subst r. split; [done|]. exists 0. split; [done|].
    assert (Z0 : forall x, (dval (Fin s 0 x) == 0)%Q)
      by (intros x; cbn [dval]; rewrite signed_0; change (inject_Z 0) with 0%Q; ring).
    rewrite Z0. change (inject_Z 0) with 0%Q.
    split; [ring|]. change (inject_Z (0 + 1)) with 1%Q. change (inject_Z (0 - 1)) with (-1)%Q.
    destruct mode; rewrite (Z0 e); split; lra. }
  destruct (prec <? _); [discriminate|]. set (q := rescale_toward _ _ _ _ _) in H.
  destruct (Z.ltb_spec prec (ndigits q)) as [|Hd]; [discriminate|].
  assert (Hq : 0 <= q).
  { unfold q, rescale_toward. case_match; [apply Z.mul_nonneg_nonneg; [lia|apply Z.pow_nonneg; lia]|].
    apply round_toward_nonneg; [lia|apply Z.pow_pos_nonneg; lia]. }
  assert (Hqs : q < 10 ^ prec).
  { destruct (Z.eq_dec q 0) as [->|]; [done|].
    destruct (ndigits_bounds q ltac:(lia)) as [[_ Hu] _]. eapply Z.lt_le_trans; [exact Hu|].
    apply Z.pow_le_mono_r; [done|exact Hd]. }
  apply fix_spec in H as [Fr Hr]; [|done]. split; [done|].
  apply faithful_exact in Hr.
  2:{ destruct s; cbn [sgn]; [apply repr_opp|]; apply repr_dec; lia. }
  exists (if s then - q else q). split; [destruct s; lia|].
  assert (E : (dval r == inject_Z (if s then - q else q) * p10 target)%Q).
  { rewrite Hr. destruct s; cbn [sgn]; [rewrite inject_Z_opp; ring|reflexivity]. }
  split; [exact E|]. clear E Hr Hd. subst q. unfold rescale_toward.
  destruct (Z.leb_spec target e) as [He|He].
  - enough (inject_Z (if s then - (Z.of_N c * 10 ^ (e - target)) else Z.of_N c * 10 ^ (e - target))
             * p10 target == dval (Fin s c e))%Q as E.
    { revert E. generalize (if s then - (Z.of_N c * 10 ^ (e - target)) else Z.of_N c * 10 ^ (e - target)).
      intros v E. unfold Z.sub. destruct mode; rewrite !inject_Z_plus; change (inject_Z 1) with 1%Q;
        change (inject_Z (-(1))) with (-1)%Q; split; lra. }
    rewrite (dval_pow s c e target He).
    replace (signed s c * 10 ^ (e - target)) with
      (if s then - (Z.of_N c * 10 ^ (e - target)) else Z.of_N c * 10 ^ (e - target))
      by (unfold signed; destruct s; lia).
    reflexivity.
  - assert (0 < 10 ^ (target - e)) as Hp by (apply Z.pow_pos_nonneg; lia).
    fold (signed_toward mode s (Z.of_N c) (10 ^ (target - e))).
    assert (Et : (p10 target == inject_Z (10 ^ (target - e)) * p10 e)%Q) by (apply p10_split; lia).
    pose proof (p10_pos e) as Pe. cbn [dval].
    destruct mode; [pose proof (floor_toward s (Z.of_N c) _ Hp) as [L U]
                   |pose proof (ceiling_toward s (Z.of_N c) _ Hp) as [L U]];
      change (if s then - Z.of_N c else Z.of_N c) with (signed s c) in L, U;
      (rewrite Zle_Qle, inject_Z_mult in L || rewrite Zlt_Qlt, inject_Z_mult in L);
      (rewrite Zlt_Qlt, inject_Z_mult in U || rewrite Zle_Qle, inject_Z_mult in U);
      rewrite Et; split; nra.
Qed.
