(* ===== verification/Snapshot.v ===== *)
(** * The market snapshot

    [backend/app/alpaca/opportunity.py]: the records of a snapshot of the market and of the
    account, which the collector of that module fills, and their digests.  Of the account
    (contracts/v1/models.py) and of a position, the JSON dump is the base class's, which is
    third party: it is a parameter, or the position itself. *)

From Stdlib Require Import ZArith Lia String Ascii List Bool.
From stdpp Require Import base strings option tactics list.
From S2P Require Import Prelude PyText PyDecimal PyTime PyHash Contracts Identity.

#[local] Open Scope string_scope.
#[local] Open Scope Z_scope.

(** ** The request *)

Definition MAX_OPPORTUNITY_CONTRACTS : Z := 128.
Definition MAX_EXPIRY_WINDOW_DAYS : Z := 45.
Definition MAX_STRIKE_WINDOW : decimal := Dint 1000.

(** [_SYMBOL.fullmatch(s)] *)
Definition is_symbol (s : string) : bool :=
  match chars s with
  | first :: rest =>
      is_upper_letter first && (length rest <=? 9)%nat
      && forallb (fun c => is_upper_letter c || is_digit c || Ascii.eqb c ".") rest
  | [] => false
  end.

Record OpportunitySnapshotRequest := mk_OpportunitySnapshotRequest {
  sr_expected_account_fingerprint : string;
  sr_underlying : string;
  sr_benchmark : string;
  sr_decision_boundary : datetime;
  sr_minimum_expiry : date;
  sr_maximum_expiry : date;
  sr_minimum_strike : decimal;
  sr_maximum_strike : decimal;
  sr_account_role : AccountRole;
  sr_maximum_contracts : Z;
  sr_maximum_quote_age : timedelta;
  sr_maximum_quote_skew : timedelta;
}.

Definition is_executable_role (role : AccountRole) : bool :=
  bool_decide (role ∈ [DEVELOPMENT; SUBMISSION]).

Definition make_OpportunitySnapshotRequest (self : OpportunitySnapshotRequest)
    : M OpportunitySnapshotRequest :=
  let boundary := sr_decision_boundary self in
  when negb (is_executable_role (sr_account_role self))
       || negb (is_hash (sr_expected_account_fingerprint self))
       || negb (is_symbol (sr_underlying self)) || negb (is_symbol (sr_benchmark self))
       || String.eqb (sr_underlying self) (sr_benchmark self)
       || negb (is_utc boundary)
       || negb (dt_local boundary mod minutes 5 =? 0)
       || (sr_minimum_expiry self <? dt_date boundary)
       || (sr_maximum_expiry self <? sr_minimum_expiry self)
       || (MAX_EXPIRY_WINDOW_DAYS <? sr_maximum_expiry self - sr_minimum_expiry self)
       || negb (is_finite (sr_minimum_strike self)) || negb (is_finite (sr_maximum_strike self))
       ||| (sr_minimum_strike self <=. Dint 0)
       ||| (sr_maximum_strike self <. sr_minimum_strike self)
       ||| (window ← dsub (sr_maximum_strike self) (sr_minimum_strike self); window >. MAX_STRIKE_WINDOW)
       ||| negb ((1 <=? sr_maximum_contracts self)
                 && (sr_maximum_contracts self <=? MAX_OPPORTUNITY_CONTRACTS))
       ||| negb ((0 <? sr_maximum_quote_age self) && (sr_maximum_quote_age self <=? minutes 2))
       ||| negb ((0 <? sr_maximum_quote_skew self) && (sr_maximum_quote_skew self <=? seconds 30))
  then_ Raise (OpportunitySnapshotError "OPPORTUNITY_REQUEST_INVALID");;
  Ok self.

(** ** The snapshot *)

Record OpportunityMarketSession := mk_OpportunityMarketSession {
  ms_session_date : date;
  ms_open_at : datetime;
  ms_close_at : datetime;
  ms_clock_at : datetime;
  ms_market_open : bool;
  ms_next_open_at : datetime;
  ms_next_close_at : datetime;
  ms_source_hash : string;
}.

Record OpportunityBar := mk_OpportunityBar {
  ob_symbol : string;
  ob_started_at : datetime;
  ob_completed_at : datetime;
  ob_open : decimal;
  ob_high : decimal;
  ob_low : decimal;
  ob_close : decimal;
  ob_volume : decimal;
  ob_vwap : decimal;
  ob_source_hash : string;
}.

Record OpportunityOption := mk_OpportunityOption {
  oo_symbol : string;
  oo_underlying : string;
  oo_expiry : date;
  oo_right : string;
  oo_strike : decimal;
  oo_bid : decimal;
  oo_ask : decimal;
  oo_bid_size : Z;
  oo_ask_size : Z;
  oo_quote_at : datetime;
  oo_retrieved_at : datetime;
  oo_implied_volatility : decimal;
  oo_delta : decimal;
  oo_gamma : decimal;
  oo_theta_per_day : decimal;
  oo_vega_per_iv_point : decimal;
  oo_source_hash : string;
}.

(** contracts/v1/models.py *)
Record AccountResponse := mk_AccountResponse {
  ar_role : AccountRole;
  ar_paper : bool;
  ar_equity : decimal;
  ar_buying_power : decimal;
  ar_baseline_status : DataQuality;
  ar_autonomous_enabled : bool;
}.

(** A position is its dump: nothing else of it is read. *)
Record OpportunityAccountBook := mk_OpportunityAccountBook {
  bk_account : AccountResponse;
  bk_positions : list json;
  bk_open_orders : list json;
  bk_account_fingerprint : string;
  bk_source_hash : string;
}.

Record OpportunityMarketSnapshot := mk_OpportunityMarketSnapshot {
  sn_trusted_at : datetime;
  sn_account_book : OpportunityAccountBook;
  sn_session : OpportunityMarketSession;
  sn_underlying_bar : OpportunityBar;
  sn_benchmark_bar : OpportunityBar;
  sn_options : list OpportunityOption;
  sn_request_hash : string;
  sn_source_hash : string;
}.

(** ** Digests *)

Definition opportunity_snapshot_request_digest (request : OpportunitySnapshotRequest) : string :=
  sha256_hex (doc_dumps (DObj
    [("account_role", DJson (JStr (enum_value (sr_account_role request))));
     ("account_fingerprint", DJson (JStr (sr_expected_account_fingerprint request)));
     ("underlying", DJson (JStr (sr_underlying request)));
     ("benchmark", DJson (JStr (sr_benchmark request)));
     ("decision_boundary", DJson (JStr (dt_isoformat (sr_decision_boundary request))));
     ("minimum_expiry", DJson (JStr (date_isoformat (sr_minimum_expiry request))));
     ("maximum_expiry", DJson (JStr (date_isoformat (sr_maximum_expiry request))));
     ("minimum_strike", DJson (JStr (decimal_str (sr_minimum_strike request))));
     ("maximum_strike", DJson (JStr (decimal_str (sr_maximum_strike request))));
     ("maximum_contracts", DJson (JInt (sr_maximum_contracts request)));
     ("maximum_quote_age_seconds", DSeconds (sr_maximum_quote_age request));
     ("maximum_quote_skew_seconds", DSeconds (sr_maximum_quote_skew request))])).

Section Digests.
(** [account.model_dump(mode="json")] *)
Context (account_dump : AccountResponse -> json).

Definition opportunity_account_book_digest (book : OpportunityAccountBook) : string :=
  json_sha256 (JObj
    [("account", account_dump (bk_account book));
     ("positions", JObj [("positions", JArr (bk_positions book))]);
     ("orders", JArr (bk_open_orders book));
     ("account_fingerprint", JStr (bk_account_fingerprint book))]).
End Digests.

Definition opportunity_market_session_digest (session : OpportunityMarketSession) : string :=
  json_sha256 (JObj
    [("date", JStr (date_isoformat (ms_session_date session)));
     ("open", JStr (dt_isoformat (ms_open_at session)));
     ("close", JStr (dt_isoformat (ms_close_at session)));
     ("clock", JStr (dt_isoformat (ms_clock_at session)));
     ("market_open", JBool (ms_market_open session));
     ("next_open", JStr (dt_isoformat (ms_next_open_at session)));
     ("next_close", JStr (dt_isoformat (ms_next_close_at session)))]).

Definition opportunity_bar_digest (bar : OpportunityBar) : string :=
  json_sha256 (JObj
    [("symbol", JStr (ob_symbol bar));
     ("started_at", JStr (dt_isoformat (ob_started_at bar)));
     ("completed_at", JStr (dt_isoformat (ob_completed_at bar)));
     ("open", JStr (decimal_str (ob_open bar))); ("high", JStr (decimal_str (ob_high bar)));
     ("low", JStr (decimal_str (ob_low bar))); ("close", JStr (decimal_str (ob_close bar)));
     ("volume", JStr (decimal_str (ob_volume bar))); ("vwap", JStr (decimal_str (ob_vwap bar)))]).

Definition opportunity_option_digest (option : OpportunityOption) : string :=
  json_sha256 (JObj
    [("symbol", JStr (oo_symbol option)); ("expiry", JStr (date_isoformat (oo_expiry option)));
     ("right", JStr (oo_right option)); ("strike", JStr (decimal_str (oo_strike option)));
     ("bid", JStr (decimal_str (oo_bid option))); ("ask", JStr (decimal_str (oo_ask option)));
     ("bid_size", JInt (oo_bid_size option)); ("ask_size", JInt (oo_ask_size option));
     ("quote_at", JStr (dt_isoformat (oo_quote_at option)));
     ("retrieved_at", JStr (dt_isoformat (oo_retrieved_at option)));
     ("implied_volatility", JStr (decimal_str (oo_implied_volatility option)));
     ("delta", JStr (decimal_str (oo_delta option)));
     ("gamma", JStr (decimal_str (oo_gamma option)));
     ("theta", JStr (decimal_str (oo_theta_per_day option)));
     ("vega", JStr (decimal_str (oo_vega_per_iv_point option)))]).

Definition opportunity_market_snapshot_digest (snapshot : OpportunityMarketSnapshot) : string :=
  json_sha256 (JObj
    [("request", JStr (sn_request_hash snapshot));
     ("book", JStr (bk_source_hash (sn_account_book snapshot)));
     ("session", JStr (ms_source_hash (sn_session snapshot)));
     ("underlying_bar", JStr (ob_source_hash (sn_underlying_bar snapshot)));
     ("benchmark_bar", JStr (ob_source_hash (sn_benchmark_bar snapshot)));
     ("options", JArr (map (fun option => JStr (oo_source_hash option)) (sn_options snapshot)))]).
