(* ===== verification/Selection.v ===== *)
(** * The selection of a candidate

    [backend/app/services/opportunity_selection.py]: [select_vertical_candidate] validates a
    snapshot of the market, forms the verticals of its options in the direction, prices and
    sizes them, ranks them and proposes the first; [_select_structural_pilot] does so for the
    structural pilots.  The loops over the options are folds on the candidates found so far. *)

From Stdlib Require Import ZArith Lia String Ascii List Bool.
From stdpp Require Import base strings option tactics list.
From S2P Require Import Prelude PyText PyDecimal PyRounding PyTime PyHash Contracts OptionSymbol OpportunityData Snapshot.

#[local] Open Scope string_scope.
#[local] Open Scope Z_scope.

Definition _RETRIEVAL_SKEW_TOLERANCE : timedelta := seconds 30.

Inductive SelectionReason :=
  | SELECTED | INPUT_INVALID | SNAPSHOT_INVALID | NO_ELIGIBLE_STRUCTURE | RISK_AUTHORITY_INSUFFICIENT.
#[export] Instance SelectionReason_eq_dec : EqDecision SelectionReason.
Proof. solve_decision. Defined.

#[export] Instance SelectionReason_value : StrEnum SelectionReason := fun reason =>
  match reason with
  | SELECTED => "SELECTED"
  | INPUT_INVALID => "INPUT_INVALID"
  | SNAPSHOT_INVALID => "SNAPSHOT_INVALID"
  | NO_ELIGIBLE_STRUCTURE => "NO_ELIGIBLE_STRUCTURE"
  | RISK_AUTHORITY_INSUFFICIENT => "RISK_AUTHORITY_INSUFFICIENT"
  end.

Inductive GreekUnitConvention := ALPACA_GOPRICEOPTIONS_RAW_V1.
#[export] Instance GreekUnitConvention_value : StrEnum GreekUnitConvention := fun _ =>
  "ALPACA_GOPRICEOPTIONS_RAW_V1".

Record CandidateSelectionAuthority := mk_CandidateSelectionAuthority {
  cs_snapshot_request_hash : string;
  cs_snapshot_source_hash : string;
  cs_account_fingerprint : string;
  cs_observed_equity : decimal;
  cs_observed_buying_power : decimal;
  cs_available_risk : decimal;
  cs_available_buying_power : decimal;
  cs_greek_unit_convention : GreekUnitConvention;
  cs_greek_unit_evidence_hash : string;
}.

Record CandidateSelectionResult := mk_CandidateSelectionResult {
  cr_candidate : option VerticalCandidate;
  cr_reason : SelectionReason;
}.

#[export] Instance no_candidate_dec (o : option VerticalCandidate) : Decision (o = None).
Proof. destruct o; [right|left]; done. Defined.

Record _RankedCandidate := mk_RankedCandidate {
  rk_candidate : VerticalCandidate;
  rk_risk_per_contract : decimal;
}.

(** ** Inputs *)

Definition _inputs_valid (requested_maximum_quantity : Z) (authority : CandidateSelectionAuthority)
    : M bool :=
  (0 <? requested_maximum_quantity)
  &&& all_m (fun value => is_finite value &&& (value >=. Dint 0))
        [cs_observed_equity authority; cs_observed_buying_power authority;
         cs_available_risk authority; cs_available_buying_power authority]
  &&& (cs_observed_equity authority >. Dint 0)
  &&& forallb is_hash
        [cs_snapshot_request_hash authority; cs_snapshot_source_hash authority;
         cs_account_fingerprint authority; cs_greek_unit_evidence_hash authority].

(** ** The snapshot *)

Definition snapshot_times (snapshot : OpportunityMarketSnapshot) : list datetime :=
  let session := sn_session snapshot in
  [sn_trusted_at snapshot; ms_open_at session; ms_close_at session; ms_clock_at session;
   ms_next_open_at session; ms_next_close_at session;
   ob_started_at (sn_underlying_bar snapshot); ob_completed_at (sn_underlying_bar snapshot);
   ob_started_at (sn_benchmark_bar snapshot); ob_completed_at (sn_benchmark_bar snapshot)].

Definition _snapshot_times_valid (snapshot : OpportunityMarketSnapshot) : bool :=
  forallb is_utc (snapshot_times snapshot).

(** [parsed.right == option.right] *)
Definition right_is (option : OpportunityOption) (right : ascii) : bool :=
  String.eqb (oo_right option) (String right EmptyString).

Definition _occ_matches (option : OpportunityOption) : M bool :=
  try_with
    (parsed ← parse_standard_option_contract_symbol (points (oo_symbol option)) (Some (oo_underlying option));
     Ok ((expiration_date parsed =? oo_expiry option)
         && right_is option (OptionSymbol.right parsed)
         && (strike_price parsed ==. oo_strike option)))
    (fun e => match e with OptionContractSymbolError _ => Ok false | e => Raise e end).

Definition _relative_spread (option : OpportunityOption) : M decimal :=
  width ← dsub (oo_ask option) (oo_bid option);
  total ← dadd (oo_ask option) (oo_bid option);
  midpoint ← ddiv total (Dint 2);
  ddiv width midpoint.

(** [(option.expiry - policy.selected_decision_boundary.date()).days] *)
Definition dte_of (policy : OpportunityPolicy) (option : OpportunityOption) : Z :=
  oo_expiry option - dt_date (op_selected_decision_boundary policy).

Definition option_decimals (option : OpportunityOption) : list decimal :=
  [oo_strike option; oo_bid option; oo_ask option; oo_implied_volatility option; oo_delta option;
   oo_gamma option; oo_theta_per_day option; oo_vega_per_iv_point option].

Definition _option_valid (option : OpportunityOption) (snapshot : OpportunityMarketSnapshot)
    (policy : OpportunityPolicy) (enforce_policy_eligibility : bool) : M bool :=
  when negb (is_utc (oo_quote_at option)) || negb (is_utc (oo_retrieved_at option)) then_ Ok false;;
  age ← dt_sub (sn_trusted_at snapshot) (oo_quote_at option);
  String.eqb (oo_underlying option) (op_underlying policy)
  &&& (right_is option "C" || right_is option "P")
  &&& _occ_matches option
  &&& (oo_strike option >. Dint 0)
  &&& forallb is_finite (option_decimals option)
  &&& ((Dint 0 <. oo_bid option) &&& (oo_bid option <=. oo_ask option))
  &&& (0 <? oo_bid_size option)
  &&& (0 <? oo_ask_size option)
  &&& (oo_implied_volatility option >. Dint 0)
  &&& ((Dint (-1) <=. oo_delta option) &&& (oo_delta option <=. Dint 1))
  &&& ((Dint 0 <=. oo_gamma option) &&& (oo_gamma option <=. Dint 10))
  &&& (theta ← dabs (oo_theta_per_day option); theta <=. Dint 1000)
  &&& ((Dint 0 <=. oo_vega_per_iv_point option) &&& (oo_vega_per_iv_point option <=. Dint 1000))
  &&& dt_le (oo_quote_at option) (oo_retrieved_at option)
  &&& (ahead ← dt_sub (oo_retrieved_at option) (sn_trusted_at snapshot);
       Ok (ahead <=? _RETRIEVAL_SKEW_TOLERANCE))
  &&& (- _RETRIEVAL_SKEW_TOLERANCE <=? age)
  &&& (negb enforce_policy_eligibility
       ||| ((age <=? op_maximum_option_quote_age policy)
            &&& ((op_minimum_dte policy <=? dte_of policy option)
                 && (dte_of policy option <=? op_maximum_dte policy))
            &&& (spread ← _relative_spread option; spread <=. op_maximum_relative_spread policy)))
  &&& is_hash (oo_source_hash option).

(** [(option.underlying, option.right, option.expiry, option.strike)] *)
Definition same_identity (a b : OpportunityOption) : bool :=
  String.eqb (oo_underlying a) (oo_underlying b) && String.eqb (oo_right a) (oo_right b)
  && (oo_expiry a =? oo_expiry b) && (oo_strike a ==. oo_strike b).

(** The loop over the options; [seen]: the options before. *)
Fixpoint options_valid (snapshot : OpportunityMarketSnapshot) (policy : OpportunityPolicy)
    (enforce_policy_eligibility : bool) (seen l : list OpportunityOption) : M bool :=
  match l with
  | [] => Ok true
  | option :: l =>
      when existsb (fun other => String.eqb (oo_symbol option) (oo_symbol other)) seen
           ||| existsb (same_identity option) seen
           ||| not (_option_valid option snapshot policy enforce_policy_eligibility)
      then_ Ok false;;
      options_valid snapshot policy enforce_policy_eligibility (option :: seen) l
  end.

Definition extreme (better : datetime -> datetime -> M datetime) (l : list datetime) : M datetime :=
  match l with
  | [] => Raise (ValueError "empty")
  | t :: l => fold_m better t l
  end.

(** Section variable: [account.model_dump(mode="json")]. *)
Section Select.
Context (account_dump : AccountResponse -> json).

Definition snapshot_hashes (snapshot : OpportunityMarketSnapshot) : list string :=
  [sn_request_hash snapshot; sn_source_hash snapshot;
   bk_account_fingerprint (sn_account_book snapshot); bk_source_hash (sn_account_book snapshot);
   ms_source_hash (sn_session snapshot); ob_source_hash (sn_underlying_bar snapshot);
   ob_source_hash (sn_benchmark_bar snapshot)] ++ map oo_source_hash (sn_options snapshot).

Definition _snapshot_hashes_valid (snapshot : OpportunityMarketSnapshot) : bool :=
  forallb is_hash (snapshot_hashes snapshot)
  && String.eqb (bk_source_hash (sn_account_book snapshot))
       (opportunity_account_book_digest account_dump (sn_account_book snapshot))
  && String.eqb (ms_source_hash (sn_session snapshot))
       (opportunity_market_session_digest (sn_session snapshot))
  && forallb (fun bar => String.eqb (ob_source_hash bar) (opportunity_bar_digest bar))
       [sn_underlying_bar snapshot; sn_benchmark_bar snapshot]
  && forallb (fun option => String.eqb (oo_source_hash option) (opportunity_option_digest option))
       (sn_options snapshot)
  && String.eqb (sn_source_hash snapshot) (opportunity_market_snapshot_digest snapshot).

(** The scope, the session and the account of the snapshot are refused. *)
Definition snapshot_refused (snapshot : OpportunityMarketSnapshot) (policy : OpportunityPolicy) : M bool :=
  let session := sn_session snapshot in
  let book := sn_account_book snapshot in
  let boundary := op_selected_decision_boundary policy in
  let started_off bar := started ← dt_add boundary (- minutes 5); Ok (negb (dt_eq (ob_started_at bar) started)) in
  negb (_snapshot_times_valid snapshot)
  ||| negb (String.eqb (ob_symbol (sn_underlying_bar snapshot)) (op_underlying policy))
  ||| negb (dt_eq (ob_completed_at (sn_underlying_bar snapshot)) boundary)
  ||| String.eqb (ob_symbol (sn_benchmark_bar snapshot)) (op_underlying policy)
  ||| negb (dt_eq (ob_completed_at (sn_benchmark_bar snapshot)) boundary)
  ||| started_off (sn_underlying_bar snapshot)
  ||| started_off (sn_benchmark_bar snapshot)
  ||| dt_lt (sn_trusted_at snapshot) boundary
  ||| (delay ← dt_sub (sn_trusted_at snapshot) boundary; Ok (op_maximum_decision_delay policy <? delay))
  ||| negb (ms_market_open session)
  ||| (ahead ← dt_sub (ms_clock_at session) (sn_trusted_at snapshot);
       Ok (_RETRIEVAL_SKEW_TOLERANCE <? ahead))
  ||| not (dt_le (ms_open_at session) (ms_clock_at session)
           &&& dt_lt (ms_clock_at session) (ms_close_at session))
  ||| not (dt_lt (ms_open_at session) boundary &&& dt_le boundary (ms_close_at session))
  ||| dt_le (ms_next_open_at session) (ms_clock_at session)
  ||| dt_le (ms_next_close_at session) (ms_clock_at session)
  ||| negb (is_executable_role (ar_role (bk_account book)))
  ||| negb (ar_paper (bk_account book))
  ||| (0 <? length (bk_open_orders book))%nat
  ||| negb (_snapshot_hashes_valid snapshot)
  ||| (length (sn_options snapshot) =? 0)%nat.

Definition _snapshot_valid (snapshot : OpportunityMarketSnapshot) (policy : OpportunityPolicy)
    (enforce_policy_eligibility : bool) : M bool :=
  when snapshot_refused snapshot policy then_ Ok false;;
  when not (options_valid snapshot policy enforce_policy_eligibility [] (sn_options snapshot))
  then_ Ok false;;
  let quote_times := map oo_quote_at (sn_options snapshot) in
  negb enforce_policy_eligibility
  ||| (latest ← extreme dt_max quote_times;
       earliest ← extreme dt_min quote_times;
       skew ← dt_sub latest earliest;
       Ok (skew <=? op_maximum_leg_quote_skew policy)).

(** ** Structures, terms and sizes *)

Definition _build_structure (first second : OpportunityOption) (direction : OpportunityDirection)
    : M (option (VerticalStrategy * OpportunityOption * OpportunityOption)) :=
  when negb (String.eqb (oo_underlying first) (oo_underlying second))
       || negb (String.eqb (oo_right first) (oo_right second))
       || negb (oo_expiry first =? oo_expiry second)
       || (oo_strike first ==. oo_strike second)
  then_ Ok None;;
  swapped ← oo_strike second <. oo_strike first;
  let '(lower, higher) := if swapped : bool then (second, first) else (first, second) in
  Ok (Some
    match direction with
    | BULLISH =>
        if right_is first "C" then (BULL_CALL_DEBIT, lower, higher)
        else (BULL_PUT_CREDIT, lower, higher)
    | BEARISH =>
        if right_is first "P" then (BEAR_PUT_DEBIT, higher, lower)
        else (BEAR_CALL_CREDIT, higher, lower)
    end).

(** [abs(a - b) > maximum] *)
Definition skewed (a b : datetime) (maximum : timedelta) : M bool :=
  apart ← dt_sub a b; Ok (maximum <? Z.abs apart).

(** [int((Decimal(100) * (maximum - worst) / maximum).to_integral_value(ROUND_FLOOR))] *)
Definition spread_score (maximum : decimal) (bought sold : OpportunityOption) : M Z :=
  bought_spread ← _relative_spread bought;
  sold_spread ← _relative_spread sold;
  worst_spread ← dmax bought_spread sold_spread;
  room ← dsub maximum worst_spread;
  scaled ← dmul (Dint 100) room;
  score ← ddiv scaled maximum;
  int_of_decimal (to_integral_toward ROUND_FLOOR score).

Definition _candidate_terms (policy : OpportunityPolicy) (bought sold : OpportunityOption)
    (strategy : VerticalStrategy) : M (option (decimal * decimal * Z)) :=
  when skewed (oo_quote_at bought) (oo_quote_at sold) (op_maximum_leg_quote_skew policy) then_ Ok None;;
  difference ← dsub (oo_strike bought) (oo_strike sold);
  width ← dabs difference;
  let debit := bool_decide (strategy = BULL_CALL_DEBIT \/ strategy = BEAR_PUT_DEBIT) in
  natural ← (if debit then dsub (oo_ask bought) (oo_bid sold) else dsub (oo_bid sold) (oo_ask bought));
  when (natural <=. Dint 0) ||| (width <=. Dint 0) then_ Ok None;;
  fraction ← ddiv natural width;
  when not (if debit
            then (op_minimum_debit_width_fraction policy <=. fraction)
                 &&& (fraction <=. op_maximum_debit_width_fraction policy)
            else (op_minimum_credit_width_fraction policy <=. fraction) &&& (fraction <. Dint 1))
  then_ Ok None;;
  risk ← (if debit then dmul natural (Dint 100)
          else per_share ← dsub width natural; dmul per_share (Dint 100));
  when risk <=. Dint 0 then_ Ok None;;
  score ← spread_score (op_maximum_relative_spread policy) bought sold;
  Ok (Some (natural, risk, score)).

Definition _quantity (policy : OpportunityPolicy) (requested : Z) (authority : CandidateSelectionAuthority)
    (risk_per_contract : decimal) : M Z :=
  equity_cap ← dmul (cs_observed_equity authority) (op_maximum_equity_risk_fraction policy);
  position_cap ← dmin (op_maximum_position_loss policy) equity_cap;
  position_cap ← dmin position_cap (cs_available_risk authority);
  position_cap ← dmin position_cap (cs_available_buying_power authority);
  ratio ← ddiv position_cap risk_per_contract;
  affordable ← int_of_decimal (to_integral_toward ROUND_FLOOR ratio);
  Ok (Z.min (Z.min requested (op_maximum_quantity policy)) affordable).

Definition _option_leg (option : OpportunityOption) (intent : PositionIntent)
    (authority : CandidateSelectionAuthority) : OptionLeg :=
  {| ol_instrument_kind := OPTION; ol_symbol := oo_symbol option;
     ol_underlying := oo_underlying option;
     ol_right := if right_is option "C" then CALL else PUT; ol_strike := oo_strike option;
     ol_expiry := oo_expiry option; ol_intent := intent; ol_ratio := 1; ol_multiplier := 100;
     ol_active := true; ol_tradable := true; ol_bid := oo_bid option; ol_ask := oo_ask option;
     ol_bid_size := oo_bid_size option; ol_ask_size := oo_ask_size option;
     ol_quote_at := oo_quote_at option; ol_feed := INDICATIVE_MODIFIED;
     ol_greeks_complete := true;
     ol_greek_units_verified := is_hash (cs_greek_unit_evidence_hash authority) |}.

Definition legs_of (bought sold : OpportunityOption) (authority : CandidateSelectionAuthority)
    : list OptionLeg :=
  [_option_leg bought BUY_TO_OPEN authority; _option_leg sold SELL_TO_OPEN authority].

(** ** Ranking *)

(** The components of a tuple, and Python's order on tuples: that of the first components
    that are not equal. *)
Inductive component := CInt (n : Z) | CDec (d : decimal) | CStr (s : string).
Definition component_eq (a b : component) : bool :=
  match a, b with
  | CInt a, CInt b => a =? b
  | CDec a, CDec b => a ==. b
  | CStr a, CStr b => String.eqb a b
  | _, _ => false
  end.
Definition component_lt (a b : component) : M bool :=
  match a, b with
  | CInt a, CInt b => Ok (a <? b)
  | CDec a, CDec b => a <. b
  | CStr a, CStr b => Ok (String.ltb a b)
  | _, _ => Raise TypeError
  end.
Fixpoint tuple_lt (a b : list component) : M bool :=
  match a, b with
  | x :: a, y :: b => if component_eq x y then tuple_lt a b else component_lt x y
  | [], _ :: _ => Ok true
  | _, [] => Ok false
  end.
Fixpoint tuple_eq (a b : list component) : bool :=
  match a, b with
  | x :: a, y :: b => component_eq x y && tuple_eq a b
  | [], [] => true
  | _, _ => false
  end.

(** [l.sort(key=key)]: stable. *)
Fixpoint insert_by {A} (key : A -> M (list component)) (x : A) (l : list A) : M (list A) :=
  match l with
  | [] => Ok [x]
  | y :: rest =>
      kx ← key x; ky ← key y; before ← tuple_lt kx ky;
      if before : bool then Ok (x :: l) else rest ← insert_by key x rest; Ok (y :: rest)
  end.
Definition sort_by {A} (key : A -> M (list component)) (l : list A) : M (list A) :=
  fold_m (fun sorted x => insert_by key x sorted) [] l.

Definition leg_components (bought sold : OptionLeg) : list component :=
  [CDec (ol_strike bought); CDec (ol_strike sold); CStr (ol_symbol bought); CStr (ol_symbol sold)].

(** [bought, sold = candidate.legs] *)
Definition pair_of_legs (candidate : VerticalCandidate) : M (OptionLeg * OptionLeg) :=
  match vc_legs candidate with
  | [bought; sold] => Ok (bought, sold)
  | _ => Raise (ValueError "unpack")
  end.

Definition _rank_key (item : _RankedCandidate) : M (list component) :=
  let candidate := rk_candidate item in
  '(bought, sold) ← pair_of_legs candidate;
  Ok ([CInt (- vc_candidate_score candidate); CDec (rk_risk_per_contract item);
       CStr (enum_value (vc_strategy candidate)); CInt (ol_expiry bought)]
      ++ leg_components bought sold)%list.

Definition _structural_pilot_rank_key (profile : StructuralBullishPilotProfile) (item : _RankedCandidate)
    : M (list component) :=
  let candidate := rk_candidate item in
  '(bought, sold) ← pair_of_legs candidate;
  Ok ([CInt (Z.abs (vc_dte candidate - sp_target_dte profile)); CInt (- vc_candidate_score candidate);
       CDec (rk_risk_per_contract item); CInt (vc_dte candidate)]
      ++ leg_components bought sold)%list.

(** ** The selection *)

(** What the loops have found: the ranked candidates, and whether a geometry was eligible. *)
Definition found : Type := list _RankedCandidate * bool.

Definition refused (reason : SelectionReason) : CandidateSelectionResult :=
  mk_CandidateSelectionResult None reason.
Definition none_ranked (had_eligible_geometry : bool) : CandidateSelectionResult :=
  refused (if had_eligible_geometry then RISK_AUTHORITY_INSUFFICIENT else NO_ELIGIBLE_STRUCTURE).

Definition consider (policy : OpportunityPolicy) (direction : OpportunityDirection)
    (requested_maximum_quantity : Z) (authority : CandidateSelectionAuthority)
    (first : OpportunityOption) (acc : found) (second : OpportunityOption) : M found :=
  structure ← _build_structure first second direction;
  match structure with
  | None => Ok acc
  | Some (strategy, bought, sold) =>
      terms ← _candidate_terms policy bought sold strategy;
      match terms with
      | None => Ok acc
      | Some (approved_limit, risk_per_contract, score) =>
          if score <? op_minimum_candidate_score policy then Ok acc
          else
            quantity ← _quantity policy requested_maximum_quantity authority risk_per_contract;
            if quantity <? 1 then Ok (acc.1, true)
            else
              let candidate :=
                {| vc_strategy := strategy; vc_legs := legs_of bought sold authority;
                   vc_quantity := quantity; vc_dte := dte_of policy bought;
                   vc_approved_limit := approved_limit; vc_candidate_score := score;
                   vc_selection_rank := 1; vc_buying_power_sufficient := true;
                   vc_maximum_limit := None |} in
              Ok ((acc.1 ++ [mk_RankedCandidate candidate risk_per_contract])%list, true)
      end
  end.

(** Every option with every option after it. *)
Fixpoint for_pairs {A B} (body : A -> B -> A -> M B) (acc : B) (l : list A) : M B :=
  match l with
  | [] => Ok acc
  | first :: rest => acc ← fold_m (body first) acc rest; for_pairs body acc rest
  end.

Definition _structural_pilot_terms (snapshot : OpportunityMarketSnapshot)
    (bought sold : OpportunityOption) (profile : StructuralBullishPilotProfile)
    : M (option (decimal * decimal * decimal * Z)) :=
  let dte := oo_expiry bought - dt_date (ob_completed_at (sn_underlying_bar snapshot)) in
  let too_old option :=
    age ← dt_sub (sn_trusted_at snapshot) (oo_quote_at option); Ok (sp_maximum_quote_age profile <? age) in
  let too_wide option :=
    spread ← _relative_spread option; spread >. sp_maximum_relative_spread profile in
  when negb ((sp_minimum_dte profile <=? dte) && (dte <=? sp_maximum_dte profile))
       ||| too_old bought ||| too_old sold
       ||| skewed (oo_quote_at bought) (oo_quote_at sold) (sp_maximum_quote_skew profile)
       ||| too_wide bought ||| too_wide sold
  then_ Ok None;;
  natural ← dsub (oo_ask bought) (oo_bid sold);
  bought_total ← dadd (oo_bid bought) (oo_ask bought);
  sold_total ← dadd (oo_bid sold) (oo_ask sold);
  difference ← dsub bought_total sold_total;
  midpoint ← ddiv difference (Dint 2);
  initial ← quantize_toward ROUND_CEILING midpoint (-2);
  maximum ← quantize_toward ROUND_FLOOR natural (-2);
  when (initial <=. Dint 0)
       ||| (initial >. maximum)
       ||| (maximum >. sp_maximum_debit profile)
       ||| (reward ← dsub (sp_width profile) maximum;
            required ← dmul (sp_minimum_reward_to_risk profile) maximum;
            reward <. required)
  then_ Ok None;;
  score ← spread_score (sp_maximum_relative_spread profile) bought sold;
  risk ← dmul maximum (Dint 100);
  Ok (Some (initial, maximum, risk, score)).

Definition pilot_right (profile : StructuralBullishPilotProfile) : ascii :=
  match sp_direction profile with BULLISH => "C"%char | BEARISH => "P"%char end.
Definition pilot_strategy (profile : StructuralBullishPilotProfile) : VerticalStrategy :=
  match sp_direction profile with BULLISH => BULL_CALL_DEBIT | BEARISH => BEAR_PUT_DEBIT end.

Definition consider_pilot (snapshot : OpportunityMarketSnapshot) (policy : OpportunityPolicy)
    (authority : CandidateSelectionAuthority) (profile : StructuralBullishPilotProfile)
    (strike_offset : decimal) (bought : OpportunityOption) (acc : found) (sold : OpportunityOption)
    : M found :=
  when negb (right_is sold (pilot_right profile)) || negb (oo_expiry sold =? oo_expiry bought)
       ||| (strike ← dadd (oo_strike bought) strike_offset; Ok (negb (oo_strike sold ==. strike)))
  then_ Ok acc;;
  terms ← _structural_pilot_terms snapshot bought sold profile;
  match terms with
  | None => Ok acc
  | Some (initial_limit, maximum_limit, risk_per_contract, score) =>
      quantity ← _quantity policy (op_maximum_quantity policy) authority risk_per_contract;
      if negb (quantity =? op_maximum_quantity policy) then Ok (acc.1, true)
      else
        let candidate :=
          {| vc_strategy := pilot_strategy profile; vc_legs := legs_of bought sold authority;
             vc_quantity := op_maximum_quantity policy; vc_dte := dte_of policy bought;
             vc_approved_limit := initial_limit; vc_candidate_score := score;
             vc_selection_rank := 1; vc_buying_power_sufficient := true;
             vc_maximum_limit := Some maximum_limit |} in
        Ok ((acc.1 ++ [mk_RankedCandidate candidate risk_per_contract])%list, true)
  end.

Definition _select_structural_pilot (snapshot : OpportunityMarketSnapshot) (policy : OpportunityPolicy)
    (authority : CandidateSelectionAuthority) (profile : StructuralBullishPilotProfile)
    : M CandidateSelectionResult :=
  when negb (String.eqb (op_underlying policy) "SPY") then_ Ok (refused INPUT_INVALID);;
  strike_offset ← match sp_direction profile with
                  | BULLISH => Ok (sp_width profile)
                  | BEARISH => dneg (sp_width profile)
                  end;
  '(ranked, had_eligible_geometry) ←
    fold_m (fun acc bought =>
        when negb (right_is bought (pilot_right profile))
             ||| not (delta ← dabs (oo_delta bought);
                      (sp_minimum_long_delta profile <=. delta)
                      &&& (delta <=. sp_maximum_long_delta profile))
        then_ Ok acc;;
        fold_m (consider_pilot snapshot policy authority profile strike_offset bought) acc
          (sn_options snapshot))
      ([], false) (sn_options snapshot);
  sorted ← sort_by (_structural_pilot_rank_key profile) ranked;
  match sorted with
  | [] => Ok (none_ranked had_eligible_geometry)
  | item :: _ => Ok (mk_CandidateSelectionResult (Some (rk_candidate item)) SELECTED)
  end.

(** The authority is not that of the snapshot. *)
Definition authority_mismatch (snapshot : OpportunityMarketSnapshot)
    (authority : CandidateSelectionAuthority) : M bool :=
  let book := sn_account_book snapshot in
  (negb (String.eqb (cs_snapshot_request_hash authority) (sn_request_hash snapshot))
   || negb (String.eqb (cs_snapshot_source_hash authority) (sn_source_hash snapshot))
   || negb (String.eqb (cs_account_fingerprint authority) (bk_account_fingerprint book))
   || negb (cs_observed_equity authority ==. ar_equity (bk_account book))
   || negb (cs_observed_buying_power authority ==. ar_buying_power (bk_account book)))
  ||| (cs_available_buying_power authority >. ar_buying_power (bk_account book)).

Definition select_vertical_candidate (snapshot : OpportunityMarketSnapshot) (policy : OpportunityPolicy)
    (direction : OpportunityDirection) (requested_maximum_quantity : Z)
    (authority : CandidateSelectionAuthority) : M CandidateSelectionResult :=
  when not (_inputs_valid requested_maximum_quantity authority) then_ Ok (refused INPUT_INVALID);;
  let profile := structural_pilot_profile (op_opportunity_key policy) in
  let structural_pilot := bool_decide (is_Some profile) in
  when not (_snapshot_valid snapshot policy (negb structural_pilot)) then_ Ok (refused SNAPSHOT_INVALID);;
  when authority_mismatch snapshot authority then_ Ok (refused INPUT_INVALID);;
  match profile with
  | Some profile => _select_structural_pilot snapshot policy authority profile
  | None =>
      '(ranked, had_eligible_geometry) ←
        for_pairs (fun first acc second =>
            consider policy direction requested_maximum_quantity authority first acc second)
          ([], false) (sn_options snapshot);
      sorted ← sort_by _rank_key ranked;
      match sorted with
      | [] => Ok (none_ranked had_eligible_geometry)
      | [item] => Ok (mk_CandidateSelectionResult (Some (rk_candidate item)) SELECTED)
      | item :: next :: _ =>
          first_key ← _rank_key item;
          next_key ← _rank_key next;
          if tuple_eq first_key next_key then Ok (refused SNAPSHOT_INVALID)
          else Ok (mk_CandidateSelectionResult (Some (rk_candidate item)) SELECTED)
      end
  end.
End Select.
