(* ===== verification/SelectionFacts.v ===== *)
(** * What a selection establishes

    The facts the checks of [Selection] leave behind on the options of a snapshot, on the
    terms of a vertical and on its size. *)

From Stdlib Require Import ZArith Lia String Ascii List Bool QArith Qabs Lqa.
From stdpp Require Import base strings option tactics list.
From S2P Require Import Prelude PyText PyTextFacts PyDecimal PyDecimalFacts PyRounding PyTime PyHash Contracts OptionSymbol OrderLimits Exposure OpportunityData Opportunity Snapshot Selection.

#[local] Open Scope string_scope.
#[local] Open Scope Z_scope.

(** ** Spreads *)

Lemma dadd_comm a b : dadd a b = dadd b a.
Proof.
  destruct a as [s1 c1 e1|s1|], b as [s2 c2 e2|s2|]; try done.
  - unfold dadd. cbn zeta. rewrite (Z.min_comm e2 e1).
    rewrite (Z.add_comm (signed s2 c2 * _)), (andb_comm s2). done.
  - cbn. by destruct s1, s2.
Qed.

(** The candidate's spread, computed by the policy, is the option's. *)
Lemma relative_spread_leg option intent authority spread :
  Selection._relative_spread option = Ok spread ->
  Opportunity._relative_spread (_option_leg option intent authority) = Ok spread.
Proof.
  unfold Selection._relative_spread, Opportunity._relative_spread. cbn [_option_leg ol_bid ol_ask].
  rewrite (dadd_comm (oo_bid option)). intros H. inv_seq H.
  repeat match goal with E : _ = Ok _ |- _ => rewrite E; clear E; cbn [mbind M_bind] end. done.
Qed.

Lemma relative_spread_nonneg option spread :
  finite (oo_bid option) -> finite (oo_ask option) ->
  (0 < dval (oo_bid option))%Q -> (dval (oo_bid option) <= dval (oo_ask option))%Q ->
  Selection._relative_spread option = Ok spread -> finite spread /\ (0 <= dval spread)%Q.
Proof.
  intros Fb Fa Pb Lb H. unfold Selection._relative_spread in H.
  apply bind_ok in H as (width & Ew & H). apply bind_ok in H as (total & Et & H).
  apply bind_ok in H as (middle & Em & H).
  apply dsub_spec in Ew as [Fw Hw]; [|done..]. apply dadd_spec in Et as [Ft Ht]; [|done..].
  pose proof (faithful_ge _ _ _ Hw repr_0) as Pw. pose proof (faithful_ge _ _ _ Ht repr_0) as Pt.
  assert (finite middle /\ (0 <= dval middle)%Q) as [Fm Pm].
  { apply (ddiv_nonneg total (Dint 2)); [exact Ft|done|apply Pt; lra| |exact Em].
    rewrite dval_Dint. reflexivity. }
  destruct (Qlt_le_dec 0 (dval middle)) as [Hm|Hm].
  - eapply ddiv_nonneg; [exact Fw|exact Fm|apply Pw; lra|exact Hm|exact H].
  - assert (dval middle == 0)%Q as Hz by lra. exfalso.
    apply finite_inv in Fm as (s & c & e & ->). apply finite_inv in Fw as (s' & c' & e' & ->).
    assert (c = 0%N) as ->.
    { cbn [dval] in Hz. pose proof (p10_pos e). destruct (N.eqb_spec c 0); [done|exfalso].
      assert (~ inject_Z (signed s c) == 0)%Q as Hs.
      { change 0%Q with (inject_Z 0). rewrite inject_Z_injective. unfold signed. destruct s; lia. }
      apply Hs. destruct (Qmult_integral _ _ Hz); [done|lra]. }
    cbn [ddiv N.eqb] in H. by destruct (c' =? 0)%N.
Qed.

(** ** Options *)

(** The strike of a parsed symbol: thousandths of a dollar, eight digits of them. *)
Lemma parsed_strike s underlying parsed :
  parse_standard_option_contract_symbol (points s) underlying = Ok parsed ->
  str_nonempty s = true /\ amount (-3) (10 ^ 8) (strike_price parsed).
Proof.
  unfold parse_standard_option_contract_symbol, parse_option_contract_symbol. intros H.
  apply bind_ok in H as (contract & Hp & H).
  assert (contract = parsed) as ->.
  { unfold require_standard in H. apply guard_raise_ok in H as [_ H].
    apply guard_raise_ok in H as [_ H]. congruence. }
  clear H. destruct (symbol_match (points s)) as [[[[root e] c] k]|] eqn:Em; [|discriminate].
  apply symbol_match_inv in Em as (Es & Hr & _ & _ & _ & Hk & Lk).
  apply bind_ok in Hp as (d & _ & Hp). apply bind_ok in Hp as (p & Ep & Hp).
  injection Hp as <-. cbn [strike_price]. split.
  { apply root_matches_length in Hr. destruct s; [|done]. by destruct root; [cbn in Hr; lia|]. }
  pose proof (int_of_digits_range _ (decimals_digits k Hk)) as Hn. rewrite length_map, Lk in Hn.
  fold (int_of_text k) in Hn.
  change (10 ^ Z.of_nat 8) with (10 ^ 8) in Hn.
  destruct (strike_exact (Z.to_N (int_of_text k))) as (p' & Ep' & Fp & Vp).
  { change (10 ^ 8)%N with (Z.to_N (10 ^ 8)). lia. }
  rewrite Z2N.id in * by lia. assert (p' = p) as -> by congruence.
  split; [done|]. exists (int_of_text k). split; [lia|]. rewrite Vp. reflexivity.
Qed.

(** What is known of an option of a valid snapshot. *)
Record quoted (snapshot : OpportunityMarketSnapshot) (policy : OpportunityPolicy)
    (option : OpportunityOption) : Prop := {
  qo_utc : is_utc (oo_quote_at option) = true;
  qo_underlying : oo_underlying option = op_underlying policy;
  qo_right : oo_right option = "C" \/ oo_right option = "P";
  qo_symbol : str_nonempty (oo_symbol option) = true;
  qo_strike : amount (-3) (10 ^ 8) (oo_strike option);
  qo_bid : finite (oo_bid option) /\ (0 < dval (oo_bid option))%Q;
  qo_ask : finite (oo_ask option) /\ (dval (oo_bid option) <= dval (oo_ask option))%Q;
  qo_sizes : 0 < oo_bid_size option /\ 0 < oo_ask_size option;
  qo_age : exists age, dt_sub (sn_trusted_at snapshot) (oo_quote_at option) = Ok age /\
             - _RETRIEVAL_SKEW_TOLERANCE <= age;
}.

(** Beyond that, under the limits of the policy. *)
Record eligible (snapshot : OpportunityMarketSnapshot) (policy : OpportunityPolicy)
    (option : OpportunityOption) : Prop := {
  eo_age : exists age, dt_sub (sn_trusted_at snapshot) (oo_quote_at option) = Ok age /\
             age <= op_maximum_option_quote_age policy;
  eo_dte : op_minimum_dte policy <= dte_of policy option <= op_maximum_dte policy;
  eo_spread : exists spread, Selection._relative_spread option = Ok spread /\
                (spread <=. op_maximum_relative_spread policy) = Ok true;
}.

Lemma amount_deq e k a b : deq a b = true -> amount e k a -> finite b -> amount e k b.
Proof.
  intros H (Fa & n & Hn & E) Fb. apply deq_spec in H; [|done..].
  split; [done|]. exists n. split; [done|]. by rewrite <- H.
Qed.

Lemma right_is_true option right :
  right_is option right = true -> oo_right option = String right EmptyString.
Proof. apply String.eqb_eq. Qed.

Lemma occ_matches_strike option :
  _occ_matches option = Ok true -> finite (oo_strike option) ->
  str_nonempty (oo_symbol option) = true /\ amount (-3) (10 ^ 8) (oo_strike option).
Proof.
  unfold _occ_matches. intros H F.
  destruct (parse_standard_option_contract_symbol _ _) as [parsed|e] eqn:Ep;
    [|destruct e; discriminate].
  apply parsed_strike in Ep as [Hs Ha]. cbn in H. injection H as H. split; [done|].
  apply andb_true_iff in H as [_ H]. by eapply amount_deq.
Qed.

Lemma option_valid_inv option snapshot policy enforce :
  _option_valid option snapshot policy enforce = Ok true ->
  quoted snapshot policy option /\ (enforce = true -> eligible snapshot policy option).
Proof.
  unfold _option_valid, option_decimals. cbn [forallb]. intros H.
  apply guard_false_ok in H as [Hu H]. apply bind_ok in H as (age & Ea & H).
  rewrite !and_m_true in H. destruct_and! H.
  repeat match goal with H : lift_bool _ = Ok _ |- _ => apply lift_bool_ok in H end.
  inv_all. zbool.
  match goal with H : _occ_matches _ = Ok true |- _ => apply occ_matches_strike in H as [Hs Ha]; [|done] end.
  assert (oo_right option = "C" \/ oo_right option = "P") as Hr.
  { match goal with H : right_is _ _ || right_is _ _ = true |- _ =>
      apply orb_true_iff in H as [H|H]; apply right_is_true in H; auto end. }
  split.
  - dec_facts. constructor; try done. by exists age.
  - intros ->. match goal with H : _ ||| _ = Ok true |- _ => apply or_m_true in H as [?|[_ H]] end; [done|].
    inv_all. zbool. constructor; [by exists age|lia|by eexists].
Qed.

(** ** The snapshot *)

Lemma options_valid_inv snapshot policy enforce l : forall seen,
  options_valid snapshot policy enforce seen l = Ok true ->
  Forall (fun o => _option_valid o snapshot policy enforce = Ok true) l /\
  NoDup (map oo_symbol l) /\ (forall o, o ∈ l -> Forall (fun o' => oo_symbol o <> oo_symbol o') seen).
Proof.
  induction l as [|o l IH]; intros seen H; cbn [options_valid map] in *.
  { split_and!; [constructor|constructor|]. by intros o ?%elem_of_nil. }
  apply guard_false_ok in H as [Hc H]. destruct (IH _ H) as (HF & HN & Hs).
  rewrite !or_m_false in Hc. destruct Hc as [[Hsym _] Hv].
  apply not_m_false in Hv. apply lift_bool_ok, existsb_false_Forall in Hsym. split_and!.
  - by constructor.
  - constructor; [|done]. intros (o' & E & Ho')%list_elem_of_fmap. specialize (Hs _ Ho').
    rewrite Forall_cons_iff in Hs. destruct Hs as [Hs _]. congruence.
  - intros o' [->|Ho']%elem_of_cons; [|by apply Hs, Forall_cons_iff in Ho' as [_ ?]].
    eapply Forall_impl; [exact Hsym|]. cbn. by intros x ?%String.eqb_neq.
Qed.

Record market (snapshot : OpportunityMarketSnapshot) (policy : OpportunityPolicy) (enforce : bool)
    : Prop := {
  mk_trusted : is_utc (sn_trusted_at snapshot) = true;
  mk_bar : is_utc (ob_completed_at (sn_underlying_bar snapshot)) = true;
  mk_boundary : dt_eq (ob_completed_at (sn_underlying_bar snapshot))
                  (op_selected_decision_boundary policy) = true;
  mk_options : Forall (fun o => quoted snapshot policy o) (sn_options snapshot);
  mk_eligible : enforce = true -> Forall (fun o => eligible snapshot policy o) (sn_options snapshot);
  mk_symbols : NoDup (map oo_symbol (sn_options snapshot));
}.

Lemma snapshot_valid_inv account_dump snapshot policy enforce :
  _snapshot_valid account_dump snapshot policy enforce = Ok true -> market snapshot policy enforce.
Proof.
  unfold _snapshot_valid. intros H. apply guard_false_ok in H as [Hr H].
  apply guard_false_ok in H as [Ho _]. apply not_m_false in Ho.
  apply options_valid_inv in Ho as (HF & HN & _).
  unfold snapshot_refused in Hr. rewrite !or_m_false in Hr. destruct_and! Hr.
  repeat match goal with H : lift_bool _ = Ok _ |- _ => apply lift_bool_ok in H end.
  match goal with H : negb (_snapshot_times_valid _) = false |- _ => apply negb_false_iff in H;
    unfold _snapshot_times_valid, snapshot_times in H; cbn [forallb] in H end.
  inv_all. constructor; try done.
  - eapply Forall_impl; [exact HF|]. cbn. intros o. apply option_valid_inv.
  - intros E. eapply Forall_impl; [exact HF|]. cbn. intros o Hv. by apply option_valid_inv in Hv as [_ Hv]; auto.
Qed.

(** ** Sizes *)

Lemma amount_refine e e' k d :
  e' <= e -> amount e k d -> amount e' (k * 10 ^ (e - e')) d.
Proof.
  intros He (F & n & Hn & E). split; [done|]. exists (n * 10 ^ (e - e')). split.
  - rewrite Z.abs_mul, (Z.abs_eq (10 ^ _)) by (apply Z.pow_nonneg; lia).
    apply Z.mul_le_mono_nonneg_r; [apply Z.pow_nonneg; lia|done].
  - rewrite E, (p10_split e' e He), inject_Z_mult. ring.
Qed.

Lemma amount_times e1 e2 k1 k2 a b r :
  amount e1 k1 a -> amount e2 k2 b -> k1 * k2 < 10 ^ prec -> money_exp (e1 + e2) ->
  dmul a b = Ok r -> amount (e1 + e2) (k1 * k2) r /\ (dval r == dval a * dval b)%Q.
Proof.
  intros (Fa & n1 & H1 & E1) (Fb & n2 & H2 & E2) Hk He [Fr Hr]%dmul_spec; [|done..].
  apply (amount_of_faithful _ _ (n1 * n2) (dval a * dval b)); try done.
  - rewrite E1, E2, p10_add, inject_Z_mult. ring.
  - rewrite Z.abs_mul. nia.
Qed.

(** A quotient below one is that of a numerator below the denominator. *)
Lemma ddiv_below_one a b r :
  finite a -> finite b -> (0 < dval b)%Q -> ddiv a b = Ok r -> (dval r < 1)%Q -> (dval a < dval b)%Q.
Proof.
  intros Fa Fb Pb [Fr Hr]%ddiv_spec Hlt; [|done..]. apply Qnot_le_lt. intros Hle.
  apply (Qlt_not_le _ _ Hlt). apply (faithful_ge _ _ _ Hr); [by apply (repr_int 1)|].
  apply Qle_shift_div_l; [done|]. lra.
Qed.

(** The rounding of the quotient never buys a contract too many: between a quotient below the
    integer [q] and [q] there is a number of the context. *)
Lemma affordable_exact kc kr cap risk ratio n q :
  amount (-12) kc cap -> amount (-6) kr risk ->
  (0 < dval risk)%Q -> (dval risk <= inject_Z (10 ^ 8))%Q -> 1 <= q <= 10 ^ 6 ->
  ddiv cap risk = Ok ratio -> int_of_decimal (to_integral_toward ROUND_FLOOR ratio) = Ok n -> q <= n ->
  (inject_Z q * dval risk <= dval cap)%Q.
Proof.
  intros (Fc & c & _ & Ec) (Fr & r & _ & Er) Pr Ur Hq [Ft Ht]%ddiv_spec Hn Hqn; [|done..].
  apply floor_int_spec in Hn as (_ & Hn & _). apply Qnot_lt_le. intros Hlt.
  assert (Hgap : (dval cap <= inject_Z q * dval risk - p10 (-12))%Q).
  { rewrite Er, (p10_split (-12) (-6)), Ec in Hlt |- * by lia. change (-6 - -12) with 6 in *.
    rewrite !Qmult_assoc, <- !inject_Z_mult in Hlt |- *.
    apply Qmult_lt_r in Hlt; [|apply p10_pos]. rewrite <- Zlt_Qlt in Hlt.
    assert (E : (inject_Z (q * r * 10 ^ 6) * p10 (-12) - p10 (-12) ==
                 inject_Z (q * r * 10 ^ 6 - 1) * p10 (-12))%Q)
      by (unfold Z.sub; rewrite inject_Z_plus; change (inject_Z (- (1))) with (-1)%Q; ring).
    rewrite E. apply Qmult_le_compat_r; [|apply Qlt_le_weak, p10_pos]. rewrite <- Zle_Qle. lia. }
  set (Y := (inject_Z (q * 10 ^ 20 - 1) * p10 (-20))%Q).
  assert (RY : repr Y) by (apply repr_dec; [change (10 ^ prec) with (10 ^ 8 * 10 ^ 20); lia|done]).
  assert (EY : (Y == inject_Z q - p10 (-20))%Q).
  { unfold Y, Z.sub. rewrite inject_Z_plus, inject_Z_mult. change (inject_Z (- (1))) with (-1)%Q.
    assert (inject_Z (10 ^ 20) * p10 (-20) == 1)%Q as E1 by reflexivity.
    rewrite Qmult_plus_distr_l, <- Qmult_assoc, E1. ring. }
  assert (HY : (dval cap / dval risk <= Y)%Q).
  { apply Qle_shift_div_r; [done|]. rewrite EY.
    assert (p10 (-20) * dval risk <= p10 (-12))%Q; [|lra].
    apply Qle_trans with (p10 (-20) * inject_Z (10 ^ 8))%Q; [|discriminate].
    rewrite !(Qmult_comm (p10 (-20))). apply Qmult_le_compat_r; [done|discriminate]. }
  pose proof (faithful_le _ _ _ Ht RY HY) as Hr. rewrite Zle_Qle in Hqn.
  pose proof (p10_pos (-20)). lra.
Qed.

(** Money in millionths of a dollar, below a billion dollars. *)
Definition dollars (d : decimal) : Prop := amount (-6) (10 ^ 15) d.

(** The budgets of the authority and of the policy are amounts of money, and the share of the
    equity has six places. *)
Record budgets (policy : OpportunityPolicy) (authority : CandidateSelectionAuthority) : Prop := {
  bg_equity : dollars (cs_observed_equity authority);
  bg_risk : amount (-6) (10 ^ 16) (cs_available_risk authority);
  bg_buying_power : dollars (cs_available_buying_power authority);
  bg_position : dollars (op_maximum_position_loss policy);
  bg_fraction : amount (-6) (10 ^ 6) (op_maximum_equity_risk_fraction policy);
}.

(** The caps the size of a position is under. *)
Definition under_caps (policy : OpportunityPolicy) (authority : CandidateSelectionAuthority) (loss : Q)
    : Prop :=
  (loss <= dval (op_maximum_position_loss policy) /\
   loss <= dval (cs_observed_equity authority) * dval (op_maximum_equity_risk_fraction policy) /\
   loss <= dval (cs_available_risk authority) /\
   loss <= dval (cs_available_buying_power authority))%Q.

Lemma min_amount e k a b c :
  amount e k a -> amount e k b -> dmin a b = Ok c ->
  amount e k c /\ (dval c <= dval a)%Q /\ (dval c <= dval b)%Q.
Proof.
  intros Ha Hb H. destruct (dmin_spec a b) as (r & E & _ & Hr & La & Lb); [apply Ha|apply Hb|].
  assert (r = c) as -> by congruence. split_and!; try done. by destruct Hr as [->| ->].
Qed.

Lemma quantity_inv policy requested authority risk q :
  _quantity policy requested authority risk = Ok q ->
  budgets policy authority -> dollars risk -> (0 < dval risk)%Q -> (dval risk <= inject_Z (10 ^ 8))%Q ->
  1 <= q -> op_maximum_quantity policy <= 10 ^ 6 ->
  q <= requested /\ q <= op_maximum_quantity policy /\
  under_caps policy authority (inject_Z q * dval risk).
Proof.
  intros H [Be Br Bb Bp Bf] Hr Pr Ur Hq Hmax. unfold _quantity in H. inv_seq H.
  injection H as <-.
  match goal with E : dmul _ _ = Ok _ |- _ =>
    apply (amount_times _ _ _ _ _ _ _ Be Bf) in E as [Ac Vc]; [|reflexivity|split; [discriminate|lia]] end.
  assert (R : forall d, amount (-6) (10 ^ 16) d -> amount (-12) (10 ^ 22) d).
  { intros d Hd. apply (amount_refine (-6) (-12)) in Hd; [|lia]. exact Hd. }
  apply (amount_weaken _ _ (10 ^ 16)) in Bp, Bb; [|lia..]. apply R in Bp, Br, Bb.
  apply (amount_weaken _ _ (10 ^ 22)) in Ac; [|lia].
  repeat match goal with E : dmin _ _ = Ok _ |- _ =>
    apply (min_amount (-12) (10 ^ 22)) in E as (? & ? & ?); [|assumption|assumption] end.
  match goal with E : ddiv ?cap _ = Ok ?ratio, E' : int_of_decimal _ = Ok ?n |- _ =>
    assert (inject_Z (Z.min (Z.min requested (op_maximum_quantity policy)) n) * dval risk <= dval cap)%Q
      by (eapply affordable_exact; [eassumption|exact Hr|exact Pr|exact Ur|lia|exact E|exact E'|lia]) end.
  split_and!; [lia|lia|]. unfold under_caps. rewrite <- Vc. split_and!; lra.
Qed.

(** ** Structures and terms *)

Definition of_direction (direction : OpportunityDirection) (strategy : VerticalStrategy) : Prop :=
  strategy ∈ _DIRECTION_STRATEGIES direction.

Record structure (strategy : VerticalStrategy) (bought sold : OpportunityOption) : Prop := {
  st_right : oo_right bought = oo_right sold;
  st_expiry : oo_expiry bought = oo_expiry sold;
  st_shape :
    match strategy with
    | BULL_CALL_DEBIT => oo_right bought = "C" /\ (dval (oo_strike bought) < dval (oo_strike sold))%Q
    | BEAR_PUT_DEBIT => oo_right bought = "P" /\ (dval (oo_strike sold) < dval (oo_strike bought))%Q
    | BULL_PUT_CREDIT => oo_right bought = "P" /\ (dval (oo_strike bought) < dval (oo_strike sold))%Q
    | BEAR_CALL_CREDIT => oo_right bought = "C" /\ (dval (oo_strike sold) < dval (oo_strike bought))%Q
    end;
}.

Lemma build_structure_inv snapshot policy first second direction strategy bought sold :
  quoted snapshot policy first -> quoted snapshot policy second ->
  _build_structure first second direction = Ok (Some (strategy, bought, sold)) ->
  ((bought = first /\ sold = second) \/ (bought = second /\ sold = first)) /\
  of_direction direction strategy /\ structure strategy bought sold.
Proof.
  intros Q1 Q2. unfold _build_structure. intros H. apply guard_ok in H as [[_ ?]|[Hc H]]; [discriminate|].
  apply lift_bool_ok in Hc. rewrite !orb_false_iff, !negb_false_iff in Hc.
  destruct Hc as [[[_ Hr%String.eqb_eq] He%Z.eqb_eq] Hs].
  apply bind_ok in H as (swapped & Hlt & H).
  pose proof (proj1 (qo_strike _ _ _ Q1)) as F1. pose proof (proj1 (qo_strike _ _ _ Q2)) as F2.
  assert (~ dval (oo_strike first) == dval (oo_strike second))%Q as Hne.
  { rewrite <- deq_spec by done. congruence. }
  pose proof (qo_right _ _ _ Q1) as R1.
  destruct swapped; dec_facts; destruct direction; unfold right_is in H;
    destruct R1 as [R|R]; rewrite R in H; cbn in H; injection H as <- <- <-;
    (split; [auto|]); (split; [unfold of_direction; cbn; first [left | right; left]|]);
    constructor; try congruence; split; try congruence; lra.
Qed.

Lemma repr_hundredfold q : repr q -> repr (100 * q).
Proof.
  intros (n & f & Hn & Hf & E). exists n, (f + 2). split_and!; [done|lia|].
  rewrite E, p10_add, p10_hundred. ring.
Qed.

(** The score of spreads within the maximum is a percentage. *)
Lemma spread_score_range maximum bought sold b s n :
  finite maximum -> repr (dval maximum) -> (0 < dval maximum)%Q ->
  Selection._relative_spread bought = Ok b -> Selection._relative_spread sold = Ok s ->
  finite b -> finite s -> (0 <= dval b <= dval maximum)%Q -> (0 <= dval s <= dval maximum)%Q ->
  spread_score maximum bought sold = Ok n -> 0 <= n <= 100.
Proof.
  intros Fm Rm Pm Eb Es Fb Fs Hb Hs H. unfold spread_score in H. rewrite Eb, Es in H.
  cbn [mbind M_bind] in H. inv_seq H.
  destruct (dmax_spec b s Fb Fs) as (worst & Ew & Fw & Hw & _).
  match goal with E : dmax _ _ = Ok ?w |- _ => assert (worst = w) as -> by congruence; clear E end.
  assert (Wr : (0 <= dval x <= dval maximum)%Q) by (destruct Hw as [->| ->]; done).
  apply dsub_spec in H1 as [Fr Hr]; [|done..]. apply dmul_spec in H2 as [Fc Hc]; [|done..].
  rewrite dval_Dint in Hc. change (inject_Z 100) with 100%Q in Hc.
  pose proof (repr_hundredfold _ Rm) as R100.
  assert (0 <= dval x0 <= dval maximum)%Q as Rr.
  { split; [apply (faithful_ge _ _ _ Hr repr_0); lra|apply (faithful_le _ _ _ Hr Rm); lra]. }
  assert (0 <= dval x1 <= 100 * dval maximum)%Q as Rc.
  { split; [apply (faithful_ge _ _ _ Hc repr_0); lra|apply (faithful_le _ _ _ Hc R100); lra]. }
  apply ddiv_spec in H3 as [Fd Hd]; [|done..].
  assert (0 <= dval x2 <= inject_Z 100)%Q as Rd.
  { split.
    - apply (faithful_ge _ _ _ Hd repr_0). apply Qle_shift_div_l; [done|]. lra.
    - apply (faithful_le _ _ _ Hd); [by apply repr_int|]. apply Qle_shift_div_r; [done|]. exact (proj2 Rc). }
  apply floor_int_spec in H as (_ & L & U). clear - Rd L U.
  assert (inject_Z n <= inject_Z 100)%Q as Hn by lra.
  assert (inject_Z 0 < inject_Z (n + 1))%Q as Hp by (change (inject_Z 0) with 0%Q; lra).
  rewrite <- Zle_Qle in Hn. rewrite <- Zlt_Qlt in Hp. lia.
Qed.

(** Quotes in millionths of a dollar, below a million dollars. *)
Definition quote_cash (option : OpportunityOption) : Prop :=
  amount (-6) (10 ^ 12) (oo_bid option) /\ amount (-6) (10 ^ 12) (oo_ask option).

(** The width of a vertical, as the policy computes it too. *)
Lemma width_inv snapshot policy bought sold d w :
  quoted snapshot policy bought -> quoted snapshot policy sold ->
  dsub (oo_strike bought) (oo_strike sold) = Ok d -> dabs d = Ok w ->
  amount (-6) (10 ^ 12) w /\ (dval w == Qabs (dval (oo_strike bought) - dval (oo_strike sold)))%Q /\
  (dval w <= inject_Z (2 * 10 ^ 5))%Q.
Proof.
  intros Q1 Q2 Ed Ew. pose proof (qo_strike _ _ _ Q1) as A1. pose proof (qo_strike _ _ _ Q2) as A2.
  assert (G3 : money_exp (-3)) by (split; [discriminate|lia]).
  destruct (amount_sub (-3) _ _ _ _ A1 A2 ltac:(reflexivity) G3) as (d' & Ed' & Ad & Vd).
  assert (d' = d) as -> by congruence.
  destruct (dabs_value (-3) _ _ Ad ltac:(reflexivity) G3) as (w' & Ew' & Aw & Vw).
  assert (w' = w) as -> by congruence. split_and!.
  - apply (amount_refine (-3) (-6)) in Aw; [|lia]. eapply amount_weaken; [exact Aw|]. done.
  - by rewrite Vw, Vd.
  - destruct Aw as (_ & n & Hn & E). rewrite E.
    apply Qle_trans with (inject_Z (2 * 10 ^ 8) * p10 (-3))%Q.
    + apply Qmult_le_compat_r; [|apply Qlt_le_weak, p10_pos]. rewrite <- Zle_Qle. lia.
    + discriminate.
Qed.

(** What the terms of a vertical say of it. *)
Record vertical_terms (policy : OpportunityPolicy) (strategy : VerticalStrategy)
    (bought sold : OpportunityOption) (limit risk : decimal) (score : Z) : Prop := {
  vt_skew : exists apart, dt_sub (oo_quote_at bought) (oo_quote_at sold) = Ok apart /\
              Z.abs apart <= op_maximum_leg_quote_skew policy;
  vt_payoff : exists difference width fraction,
    dsub (oo_strike bought) (oo_strike sold) = Ok difference /\ dabs difference = Ok width /\
    (if is_debit strategy then dsub (oo_ask bought) (oo_bid sold)
     else dsub (oo_bid sold) (oo_ask bought)) = Ok limit /\
    ddiv limit width = Ok fraction /\ (0 < dval width)%Q /\
    (if is_debit strategy
     then (op_minimum_debit_width_fraction policy <=. fraction)
          &&& (fraction <=. op_maximum_debit_width_fraction policy)
     else (op_minimum_credit_width_fraction policy <=. fraction) &&& (fraction <. Dint 1)) = Ok true /\
    (dval risk == (if is_debit strategy then dval limit else dval width - dval limit) * 100)%Q;
  vt_limit : amount (-6) (2 * 10 ^ 12) limit /\ (0 < dval limit)%Q;
  vt_risk : dollars risk /\ (0 < dval risk)%Q /\ (dval risk <= inject_Z (10 ^ 8))%Q;
  vt_score : 0 <= score <= 100;
}.

(** Facts of the constructor of the policy the selection rests on. *)
Lemma policy_ranges policy :
  make_OpportunityPolicy policy = Ok policy ->
  is_utc (op_selected_decision_boundary policy) = true /\
  1 <= op_minimum_dte policy /\
  finite (op_maximum_relative_spread policy) /\ (0 < dval (op_maximum_relative_spread policy))%Q /\
  finite (op_minimum_debit_width_fraction policy) /\
  finite (op_maximum_debit_width_fraction policy) /\
  (dval (op_maximum_debit_width_fraction policy) < 1)%Q /\
  finite (op_minimum_credit_width_fraction policy) /\
  1 <= op_maximum_quantity policy <= MAX_STRUCTURAL_OPTION_QUANTITY.
Proof.
  unfold make_OpportunityPolicy. intros H. apply bind_ok in H as (valid & Hv & H).
  apply guard_raise_ok in H as [Hn _]. apply lift_bool_ok, negb_false_iff in Hn. subst valid.
  rewrite !and_m_true in Hv. cbn [forallb] in Hv. inv_all. zbool. dec_facts.
  change (inject_Z 0) with 0%Q in *. change (inject_Z 1) with 1%Q in *. split_and!; (done || lia).
Qed.

Lemma option_spread snapshot policy option :
  quoted snapshot policy option -> eligible snapshot policy option ->
  finite (op_maximum_relative_spread policy) ->
  exists spread, Selection._relative_spread option = Ok spread /\ finite spread /\
    (0 <= dval spread <= dval (op_maximum_relative_spread policy))%Q.
Proof.
  intros Q E Fm. destruct (eo_spread _ _ _ E) as (spread & Es & Hs).
  destruct (relative_spread_nonneg option spread) as [Fs Ps];
    [apply (qo_bid _ _ _ Q)|apply (qo_ask _ _ _ Q)|apply (qo_bid _ _ _ Q)|apply (qo_ask _ _ _ Q)|done|].
  exists spread. dec_facts. done.
Qed.

Lemma candidate_terms_inv snapshot policy bought sold strategy limit risk score :
  make_OpportunityPolicy policy = Ok policy -> repr (dval (op_maximum_relative_spread policy)) ->
  quoted snapshot policy bought -> quoted snapshot policy sold ->
  eligible snapshot policy bought -> eligible snapshot policy sold ->
  quote_cash bought -> quote_cash sold ->
  _candidate_terms policy bought sold strategy = Ok (Some (limit, risk, score)) ->
  vertical_terms policy strategy bought sold limit risk score.
Proof.
  intros HP Rm Qb Qs Eb Es [Cb Ca] [Cb' Ca'] H.
  destruct (policy_ranges policy HP) as (_ & _ & Fm & Pm & _ & Fd & Hd & _).
  destruct (option_spread _ _ _ Qb Eb Fm) as (b & Hb & Fb & Rb).
  destruct (option_spread _ _ _ Qs Es Fm) as (s & Hs & Fs & Rs).
  unfold _candidate_terms in H. fold (is_debit strategy) in H.
  apply guard_ok in H as [[_ ?]|[Hskew H]]; [discriminate|].
  apply bind_ok in H as (d & Ed & H). apply bind_ok in H as (w & Ew & H).
  apply bind_ok in H as (natural & En & H).
  apply guard_ok in H as [[_ ?]|[Hpos H]]; [discriminate|].
  apply bind_ok in H as (fraction & Ef & H).
  apply guard_ok in H as [[_ ?]|[Hfr H]]; [discriminate|]. apply not_m_false in Hfr.
  apply bind_ok in H as (risk' & Er & H).
  apply guard_ok in H as [[_ ?]|[Hrisk H]]; [discriminate|].
  apply bind_ok in H as (score' & Esc & H). injection H as -> -> ->.
  destruct (width_inv _ _ _ _ _ _ Qb Qs Ed Ew) as (Aw & Vw & Uw). pose proof (proj1 Aw) as Fw.
  assert (Al : amount (-6) (2 * 10 ^ 12) limit).
  { destruct (is_debit strategy);
      [destruct (amount_sub (-6) _ _ _ _ Ca Cb' ltac:(reflexivity) cash_exp) as (r & E & A & _)
      |destruct (amount_sub (-6) _ _ _ _ Cb' Ca ltac:(reflexivity) cash_exp) as (r & E & A & _)];
      (assert (r = limit) as -> by congruence); exact A. }
  pose proof (proj1 Al) as Fl.
  apply or_m_false in Hpos as [Hl0 Hw0]. unfold skewed in Hskew.
  apply bind_ok in Hskew as (apart & Ea & Hskew). injection Hskew as Hskew%Z.ltb_ge.
  pose proof (ddiv_spec _ _ _ Fl Fw Ef) as [Ff _].
  assert (Pl : (0 < dval limit)%Q) by (dec_facts; exact Hl0).
  assert (Pw : (0 < dval w)%Q) by (dec_facts; exact Hw0).
  assert (Hone : (dval fraction < 1)%Q).
  { destruct (is_debit strategy); apply and_m_true in Hfr as [L U]; dec_facts; try change (inject_Z 1) with 1%Q in U; lra. }
  pose proof (ddiv_below_one _ _ _ Fl Fw Pw Ef Hone) as Hlw.
  assert (Hr : dollars risk /\ (dval risk == (if is_debit strategy then dval limit else dval w - dval limit) * 100)%Q).
  { destruct (is_debit strategy).
    - destruct (amount_mul_int (-6) (2 * 10 ^ 12) 100 limit 100 Al ltac:(lia) ltac:(reflexivity) cash_exp)
        as (r & E & A & V). assert (r = risk) as -> by congruence.
      split; [eapply amount_weaken; [exact A|lia]|exact V].
    - apply bind_ok in Er as (p & Ep & Er).
      destruct (amount_sub (-6) _ _ _ _ Aw Al ltac:(reflexivity) cash_exp) as (p' & E' & Ap & Vp).
      assert (p' = p) as -> by congruence.
      destruct (amount_mul_int (-6) (10 ^ 12 + 2 * 10 ^ 12) 100 p 100 Ap ltac:(lia) ltac:(reflexivity) cash_exp)
        as (r & E & A & V). assert (r = risk) as -> by congruence.
      split; [eapply amount_weaken; [exact A|lia]|]. rewrite V, Vp. reflexivity. }
  destruct Hr as [Ar Vr]. constructor; [by exists apart| |done| |].
  - exists d, w, fraction. by destruct (is_debit strategy).
  - split; [done|]. change (inject_Z (10 ^ 8)) with 100000000%Q.
    change (inject_Z (2 * 10 ^ 5)) with 200000%Q in Uw. rewrite Vr. destruct (is_debit strategy); split; lra.
  - eapply spread_score_range; [exact Fm|exact Rm|exact Pm|exact Hb|exact Hs|done..|exact Esc].
Qed.
