(* ===== verification/SelectionSafety.v ===== *)
(** * The candidate that is selected is one the policy accepts

    [ready] gathers what either way of selecting establishes of a candidate; the gates of
    [Opportunity] on the candidate ask for nothing else. *)

From Stdlib Require Import ZArith Lia String Ascii List Bool QArith Qabs Lqa.
From stdpp Require Import base strings option tactics list.
From S2P Require Import Prelude PyText PyTextFacts PyDecimal PyDecimalFacts PyRounding PyTime PyHash Contracts OptionSymbol OrderLimits Exposure OpportunityData Opportunity Snapshot Selection SelectionFacts.

#[local] Open Scope string_scope.
#[local] Open Scope Z_scope.

(** ** Candidates *)

Lemma dcmp_antisym a b : dcmp a b = option_map CompOpp (dcmp b a).
Proof.
  destruct a as [s1 c1 e1|s1|], b as [s2 c2 e2|s2|]; try done; cbn.
  - by rewrite (Z.min_comm e2 e1), <- Z.compare_antisym.
  - by destruct s2.
  - by destruct s1.
  - by destruct s1, s2.
Qed.

Section Ready.
Context (snapshot : OpportunityMarketSnapshot) (policy : OpportunityPolicy)
  (authority : CandidateSelectionAuthority).
Let profile := structural_pilot_profile (op_opportunity_key policy).

(** An option under the limits on its quote. *)
Record in_limits (option : OpportunityOption) : Prop := {
  il_quoted : quoted snapshot policy option;
  il_age : exists age, dt_sub (sn_trusted_at snapshot) (oo_quote_at option) = Ok age /\
             age <= limit_of profile sp_maximum_quote_age (op_maximum_option_quote_age policy);
  il_spread : exists spread, Selection._relative_spread option = Ok spread /\
    (spread <=. limit_of profile sp_maximum_relative_spread (op_maximum_relative_spread policy)) = Ok true /\
    finite spread;
}.

(** The candidate of two options; [loss]: what a contract of it can lose. *)
Record ready (candidate : VerticalCandidate) (bought sold : OpportunityOption) : Prop := {
  rd_legs : vc_legs candidate = legs_of bought sold authority;
  rd_bought : in_limits bought;
  rd_sold : in_limits sold;
  rd_symbols : oo_symbol bought <> oo_symbol sold;
  rd_structure : structure (vc_strategy candidate) bought sold;
  rd_rank : vc_selection_rank candidate = 1;
  rd_buying_power : vc_buying_power_sufficient candidate = true;
  rd_quantity : 1 <= vc_quantity candidate <= op_maximum_quantity policy;
  rd_score : 0 <= vc_candidate_score candidate <= 100 /\
    (profile = None -> op_minimum_candidate_score policy <= vc_candidate_score candidate);
  rd_dte : vc_dte candidate = dte_of policy bought /\ 0 <= vc_dte candidate /\
    limit_of profile sp_minimum_dte (op_minimum_dte policy) <= vc_dte candidate
      <= limit_of profile sp_maximum_dte (op_maximum_dte policy);
  rd_limits : cash (vc_approved_limit candidate) /\ cash (_candidate_maximum_limit candidate) /\
    (0 < dval (vc_approved_limit candidate) <= dval (_candidate_maximum_limit candidate))%Q;
  rd_skew : exists apart, dt_sub (oo_quote_at bought) (oo_quote_at sold) = Ok apart /\
    Z.abs apart <= limit_of profile sp_maximum_quote_skew (op_maximum_leg_quote_skew policy);
  rd_payoff :
    match profile with
    | Some profile => _structural_pilot_payoff_valid policy candidate profile
    | None => _payoff_geometry_valid policy candidate
    end = Ok true;
  rd_caps : forall width, (width == Qabs (dval (oo_strike bought) - dval (oo_strike sold)))%Q ->
    under_caps policy authority (per_share_loss candidate width * inject_Z (vc_quantity candidate) * 100);
}.

Lemma guard_lift_false {A} (b : bool) (r k : M A) x :
  b = false -> k = Ok x -> guard_m (lift_bool b) r k = Ok x.
Proof. by intros ->. Qed.

Lemma guard_passed {A} (c : M bool) (r k : M A) x : c = Ok false -> k = Ok x -> guard_m c r k = Ok x.
Proof. by intros ->. Qed.

Lemma quote_skew_utc candidate bought sold apart :
  vc_legs candidate = legs_of bought sold authority ->
  is_utc (oo_quote_at bought) = true -> is_utc (oo_quote_at sold) = true ->
  dt_sub (oo_quote_at bought) (oo_quote_at sold) = Ok apart -> quote_skew candidate = Ok (Z.abs apart).
Proof.
  intros El U1 U2 Ea. unfold quote_skew, two_legs. rewrite El. cbn.
  unfold dt_max, dt_min. rewrite !utc_lt by done. rewrite utc_sub in Ea by done. injection Ea as <-.
  cbn [mbind M_bind].
  destruct (Z.ltb_spec (dt_instant (oo_quote_at bought)) (dt_instant (oo_quote_at sold))),
    (Z.ltb_spec (dt_instant (oo_quote_at sold)) (dt_instant (oo_quote_at bought)));
    rewrite utc_sub by done; f_equal; lia.
Qed.

Lemma leg_quote_valid option intent :
  quoted snapshot policy option -> _quote_valid (_option_leg option intent authority) = Ok true.
Proof.
  intros Q. destruct (qo_bid _ _ _ Q) as [Fb Pb], (qo_ask _ _ _ Q) as [Fa La].
  destruct (qo_sizes _ _ _ Q) as [Sb Sa]. unfold _quote_valid. cbn [_option_leg ol_bid ol_ask ol_bid_size ol_ask_size].
  rewrite !and_m_true. unfold lift_bool. rewrite !(proj2 (Z.ltb_lt 0 _)) by done.
  split_and!; try done; [by rewrite Fb|by rewrite Fa|apply dlt_ok_true; [done..|]|by apply dle_ok_true].
  by rewrite dval_Dint.
Qed.

Lemma vertical_of_structure candidate bought sold :
  vc_legs candidate = legs_of bought sold authority ->
  quoted snapshot policy bought -> quoted snapshot policy sold -> oo_symbol bought <> oo_symbol sold ->
  structure (vc_strategy candidate) bought sold -> _is_vertical candidate = Ok true.
Proof.
  intros El Q1 Q2 Hs [Hr He Hsh]. pose proof (proj1 (qo_strike _ _ _ Q1)) as F1.
  pose proof (proj1 (qo_strike _ _ _ Q2)) as F2.
  assert (Hne : deq (oo_strike bought) (oo_strike sold) = false).
  { apply not_true_is_false. rewrite deq_spec by done. intros E.
    destruct (vc_strategy candidate); destruct Hsh; lra. }
  unfold _is_vertical, two_legs, opening_intents, by_intent. rewrite El. cbn -[String.eqb Z.eqb deq bool_decide].
  apply guard_lift_false.
  { rewrite (proj2 (String.eqb_neq _ _) Hs), Hne, (qo_underlying _ _ _ Q1), (qo_underlying _ _ _ Q2),
      String.eqb_refl, He, Z.eqb_refl.
    assert (right_is bought "C" = right_is sold "C") as -> by (unfold right_is; by rewrite Hr).
    by rewrite bool_decide_true. }
  apply guard_lift_false; [reflexivity|].
  rewrite (bool_decide_false (SELL_TO_OPEN = BUY_TO_OPEN)), (bool_decide_true (BUY_TO_OPEN = BUY_TO_OPEN)),
    (bool_decide_true (SELL_TO_OPEN = SELL_TO_OPEN)) by done. cbn [from_option_key mbind M_bind].
  cbn [_option_leg ol_right ol_strike]. unfold right_is. destruct (vc_strategy candidate); destruct Hsh as [-> Hlt];
    (rewrite bool_decide_true by reflexivity; by apply dlt_ok_true).
Qed.

Lemma any_legs f bought sold :
  (forall option intent, option = bought \/ option = sold -> f (_option_leg option intent authority) = Ok false) ->
  any_m f (legs_of bought sold authority) = Ok false.
Proof. intros H. apply any_m_false. repeat constructor; apply H; auto. Qed.

Lemma leg_fresh option intent at_ :
  in_limits option -> at_ = sn_trusted_at snapshot ->
  _fresh_at (ol_quote_at (_option_leg option intent authority)) at_
    (limit_of profile sp_maximum_quote_age (op_maximum_option_quote_age policy)) = Ok true.
Proof.
  intros [Q (age & Ea & Ha) _] ->. destruct (qo_age _ _ _ Q) as (age' & Ea' & Ha').
  assert (age' = age) as -> by congruence. unfold _fresh_at. cbn [_option_leg ol_quote_at].
  rewrite Ea. cbn [mbind M_bind]. unfold _FRESHNESS_SKEW_TOLERANCE, _RETRIEVAL_SKEW_TOLERANCE in *.
  by rewrite !(proj2 (Z.leb_le _ _)) by lia.
Qed.

Lemma leg_narrow option intent :
  in_limits option ->
  (spread ← Opportunity._relative_spread (_option_leg option intent authority);
   spread >. limit_of profile sp_maximum_relative_spread (op_maximum_relative_spread policy)) = Ok false.
Proof.
  intros [_ _ (spread & Es & Hs & _)]. rewrite (relative_spread_leg _ _ _ _ Es). cbn [mbind M_bind].
  unfold dle in Hs. unfold dlt. revert Hs. generalize (limit_of profile sp_maximum_relative_spread (op_maximum_relative_spread policy)).
  intros m. rewrite (dcmp_antisym m spread). destruct (dcmp spread m) as [[]|]; done.
Qed.

(** The gates on the candidate accept it. *)
Lemma ready_accepted candidate bought sold values :
  ready candidate bought sold -> is_utc (sn_trusted_at snapshot) = true ->
  is_hash (cs_greek_unit_evidence_hash authority) = true ->
  oi_underlying values = op_underlying policy ->
  oi_evaluated_at values = sn_trusted_at snapshot ->
  oi_observed_decision_boundary values = op_selected_decision_boundary policy ->
  _option_candidate_failure policy values candidate = Ok None.
Proof.
  intros R Ut Hg Hu Ht Hb. destruct (rd_bought _ _ _ R) as [Qb Ab Sb], (rd_sold _ _ _ R) as [Qs As Ss].
  destruct (rd_limits _ _ _ R) as ([Fl _] & [Fm _] & Pl & Lm). destruct (rd_score _ _ _ R) as [Sc Scm].
  destruct (rd_dte _ _ _ R) as (Ed & Pd & Ld). pose proof (rd_legs _ _ _ R) as El.
  destruct (rd_skew _ _ _ R) as (apart & Ea & Hskew).
  unfold _option_candidate_failure. fold profile. rewrite El.
  apply guard_passed.
  { rewrite !or_m_false. unfold lift_bool. rewrite (Fl : is_finite _ = true), (Fm : is_finite _ = true).
    split_and!; try done; [apply dle_ok_false; [done..|]|by apply dlt_ok_false|f_equal|f_equal; by apply Z.ltb_ge].
    - by rewrite dval_Dint.
    - by rewrite !(proj2 (Z.leb_le _ _)) by lia. }
  apply guard_lift_false; [reflexivity|]. apply guard_lift_false; [reflexivity|].
  apply guard_lift_false; [by rewrite (rd_rank _ _ _ R)|].
  apply guard_lift_false.
  { pose proof (rd_quantity _ _ _ R). by rewrite !(proj2 (Z.leb_le _ _)) by lia. }
  apply guard_lift_false.
  { destruct profile eqn:Ep; [done|]. specialize (Scm eq_refl). cbn. by apply Z.ltb_ge. }
  apply guard_lift_false; [by rewrite (rd_buying_power _ _ _ R)|].
  apply guard_lift_false; [by rewrite !(proj2 (Z.leb_le _ _)) by lia|].
  apply guard_lift_false.
  { unfold contract_ineligible. cbn [existsb legs_of _option_leg ol_active ol_tradable ol_symbol ol_underlying].
    by rewrite (qo_symbol _ _ _ Qb), (qo_symbol _ _ _ Qs), (qo_underlying _ _ _ Qb), (qo_underlying _ _ _ Qs),
      Hu, String.eqb_refl. }
  apply guard_passed.
  { by rewrite (vertical_of_structure _ _ _ El Qb Qs (rd_symbols _ _ _ R) (rd_structure _ _ _ R)). }
  rewrite (proj2 (two_legs_ok candidate _ _) El). cbn [mbind M_bind].
  apply guard_lift_false.
  { cbn [_option_leg ol_expiry]. by rewrite Hb, Ed, Z.eqb_refl. }
  apply guard_lift_false; [reflexivity|].
  apply guard_passed; [apply any_legs; intros o i [->| ->]; by rewrite leg_quote_valid|].
  apply guard_passed; [apply any_legs; intros o i [->| ->]; by rewrite leg_fresh|].
  apply guard_passed.
  { rewrite (quote_skew_utc _ _ _ _ El (qo_utc _ _ _ Qb) (qo_utc _ _ _ Qs) Ea). cbn [mbind M_bind].
    f_equal. by apply Z.ltb_ge. }
  apply guard_passed; [apply any_legs; intros o i [->| ->]; by apply leg_narrow|].
  apply guard_lift_false; [cbn; by rewrite Hg|].
  rewrite (rd_payoff _ _ _ R). done.
Qed.
(** *** Verticals under the policy *)

#[local] Instance under_caps_proper : Proper (Qeq ==> iff) (under_caps policy authority).
Proof. intros x y E. unfold under_caps. by rewrite !E. Qed.

Lemma by_intent_legs candidate bought sold :
  vc_legs candidate = legs_of bought sold authority ->
  by_intent candidate BUY_TO_OPEN = Some (_option_leg bought BUY_TO_OPEN authority) /\
  by_intent candidate SELL_TO_OPEN = Some (_option_leg sold SELL_TO_OPEN authority).
Proof. intros El. unfold by_intent. by rewrite El. Qed.

Lemma dle_refl a : finite a -> (a <=. a) = Ok true.
Proof. intros F. apply dle_ok_true; [done..|]. apply Qle_refl. Qed.

Lemma geometry_of_terms candidate bought sold risk :
  vc_legs candidate = legs_of bought sold authority -> vc_maximum_limit candidate = None ->
  vertical_terms policy (vc_strategy candidate) bought sold (vc_approved_limit candidate) risk
    (vc_candidate_score candidate) ->
  _payoff_geometry_valid policy candidate = Ok true.
Proof.
  intros El Em T. destruct (by_intent_legs _ _ _ El) as [Eb Es].
  destruct (vt_payoff _ _ _ _ _ _ _ T) as (d & w & f & Ed & Ew & En & Ef & _ & Hf & _).
  pose proof (proj1 (proj1 (vt_limit _ _ _ _ _ _ _ T))) as Fl.
  unfold _payoff_geometry_valid, _candidate_maximum_limit. rewrite Eb, Es, Em.
  cbn [from_option_key mbind M_bind _option_leg ol_strike ol_ask ol_bid]. rewrite Ed. cbn [mbind M_bind].
  rewrite Ew. cbn [mbind M_bind]. fold (is_debit (vc_strategy candidate)).
  destruct (is_debit (vc_strategy candidate)); rewrite En; cbn [mbind M_bind]; rewrite Ef;
    cbn [mbind M_bind]; rewrite !and_m_true, ?all_m_true.
  - split; [split; by apply dle_refl|]. by repeat constructor.
  - split; [by apply dle_refl|]. by repeat constructor.
Qed.

Lemma vertical_ready candidate bought sold risk :
  profile = None ->
  vc_legs candidate = legs_of bought sold authority -> vc_maximum_limit candidate = None ->
  vc_selection_rank candidate = 1 -> vc_buying_power_sufficient candidate = true ->
  vc_dte candidate = dte_of policy bought ->
  op_minimum_candidate_score policy <= vc_candidate_score candidate ->
  1 <= vc_quantity candidate <= op_maximum_quantity policy -> 1 <= op_minimum_dte policy ->
  under_caps policy authority (inject_Z (vc_quantity candidate) * dval risk) ->
  quoted snapshot policy bought -> quoted snapshot policy sold ->
  eligible snapshot policy bought -> eligible snapshot policy sold ->
  finite (op_maximum_relative_spread policy) ->
  oo_symbol bought <> oo_symbol sold -> structure (vc_strategy candidate) bought sold ->
  vertical_terms policy (vc_strategy candidate) bought sold (vc_approved_limit candidate) risk
    (vc_candidate_score candidate) ->
  ready candidate bought sold.
Proof.
  intros Hn El Em Er Ebp Ed Hs Hq Hdte Hcaps Qb Qs Eb Es Fm Hsym Hst T.
  assert (IL : forall o, quoted snapshot policy o -> eligible snapshot policy o -> in_limits o).
  { intros o Q E. constructor; [done| |]; rewrite Hn; [apply E|].
    destruct (option_spread _ _ _ Q E Fm) as (s & E' & Fs & _).
    destruct (eo_spread _ _ _ E) as (s' & Es' & Hle). assert (s' = s) as -> by congruence. by exists s. }
  destruct (vt_limit _ _ _ _ _ _ _ T) as [Al Pl].
  assert (Emax : _candidate_maximum_limit candidate = vc_approved_limit candidate)
    by (unfold _candidate_maximum_limit; by rewrite Em).
  constructor; try done; try (by apply IL).
  - split; [apply T|done].
  - rewrite Hn. pose proof (eo_dte _ _ _ Eb). cbn. split_and!; (done || lia).
  - rewrite Emax. split_and!; [eapply amount_weaken; [exact Al|lia]..|done|apply Qle_refl].
  - rewrite Hn. apply T.
  - rewrite Hn. by eapply geometry_of_terms.
  - intros width Ew. destruct (vt_payoff _ _ _ _ _ _ _ T) as (d & w & f & Ed' & Ew' & _ & _ & _ & _ & Vr).
    destruct (width_inv _ _ _ _ _ _ Qb Qs Ed' Ew') as (_ & Vw & _).
    eapply under_caps_proper; [|exact Hcaps]. rewrite Vr. unfold per_share_loss. rewrite Emax.
    destruct (is_debit (vc_strategy candidate)); [ring|]. rewrite Ew, Vw. ring.
Qed.
(** *** Structural pilots *)

(** What the three profiles have in common. *)
Record pilot_values (p : StructuralBullishPilotProfile) : Prop := {
  pv_dte : 0 <= sp_minimum_dte p;
  pv_width : sp_width p = Dint 4;
  pv_debit : finite (sp_maximum_debit p) /\ (dval (sp_maximum_debit p) <= inject_Z (10 ^ 4))%Q;
  pv_spread : finite (sp_maximum_relative_spread p) /\ repr (dval (sp_maximum_relative_spread p)) /\
    (0 < dval (sp_maximum_relative_spread p))%Q;
  pv_reward : finite (sp_minimum_reward_to_risk p);
}.

Lemma pilot_profile_values direction low high : pilot_values (pilot_profile direction low high).
Proof.
  constructor.
  - discriminate.
  - reflexivity.
  - split; [reflexivity|]. apply Qle_bool_iff. vm_compute. reflexivity.
  - cbn [sp_maximum_relative_spread pilot_profile]. split; [reflexivity|].
    split; [rewrite dval_D; by apply repr_dec|]. vm_compute. reflexivity.
  - reflexivity.
Qed.

Lemma profile_values p : profile = Some p -> pilot_values p.
Proof.
  unfold profile, structural_pilot_profile.
  repeat case_match; intros [= <-]; apply pilot_profile_values.
Qed.

(** Widths of verticals on a snapshot. *)
Lemma width_exists a b :
  quoted snapshot policy a -> quoted snapshot policy b ->
  exists d w, dsub (oo_strike a) (oo_strike b) = Ok d /\ dabs d = Ok w /\
    amount (-6) (10 ^ 12) w /\ (dval w == Qabs (dval (oo_strike a) - dval (oo_strike b)))%Q.
Proof.
  intros Qa Qb. assert (G3 : money_exp (-3)) by (split; [discriminate|lia]).
  destruct (amount_sub (-3) _ _ _ _ (qo_strike _ _ _ Qa) (qo_strike _ _ _ Qb) ltac:(reflexivity) G3)
    as (d & Ed & Ad & _).
  destruct (dabs_value (-3) _ _ Ad ltac:(reflexivity) G3) as (w & Ew & _).
  destruct (width_inv _ _ _ _ _ _ Qa Qb Ed Ew) as (Aw & Vw & _). by exists d, w.
Qed.

(** What the terms of a structural pilot say of it. *)
Record pilot_terms (p : StructuralBullishPilotProfile) (bought sold : OpportunityOption)
    (initial maximum risk : decimal) (score : Z) : Prop := {
  pt_dte : sp_minimum_dte p <= oo_expiry bought - dt_date (ob_completed_at (sn_underlying_bar snapshot))
             <= sp_maximum_dte p;
  pt_bought : in_limits bought;
  pt_sold : in_limits sold;
  pt_skew : exists apart, dt_sub (oo_quote_at bought) (oo_quote_at sold) = Ok apart /\
              Z.abs apart <= sp_maximum_quote_skew p;
  pt_initial : cash initial /\ (0 < dval initial <= dval maximum)%Q;
  pt_maximum : amount (-6) (2 * 10 ^ 12) maximum /\ (maximum <=. sp_maximum_debit p) = Ok true;
  pt_natural : exists natural, dsub (oo_ask bought) (oo_bid sold) = Ok natural /\
                 (maximum <=. natural) = Ok true;
  pt_reward : exists reward required, dsub (sp_width p) maximum = Ok reward /\
    dmul (sp_minimum_reward_to_risk p) maximum = Ok required /\ (reward <. required) = Ok false;
  pt_risk : dollars risk /\ (dval risk == dval maximum * 100)%Q /\ (0 < dval risk)%Q /\
    (dval risk <= inject_Z (10 ^ 8))%Q;
  pt_score : 0 <= score <= 100;
}.

Lemma pilot_in_limits p option age spread :
  profile = Some p -> quoted snapshot policy option ->
  dt_sub (sn_trusted_at snapshot) (oo_quote_at option) = Ok age -> (sp_maximum_quote_age p <? age) = false ->
  Selection._relative_spread option = Ok spread ->
  (spread >. sp_maximum_relative_spread p) = Ok false ->
  in_limits option /\ finite spread /\ (0 <= dval spread <= dval (sp_maximum_relative_spread p))%Q.
Proof.
  intros Hp Q Ea Ha%Z.ltb_ge Es Hs. destruct (pv_spread _ (profile_values p Hp)) as (Fm & _ & _).
  destruct (relative_spread_nonneg option spread) as [Fs Ps];
    [apply (qo_bid _ _ _ Q)|apply (qo_ask _ _ _ Q)|apply (qo_bid _ _ _ Q)|apply (qo_ask _ _ _ Q)|done|].
  apply dlt_ok_false in Hs; [|done..]. split; [|done].
  constructor; rewrite ?Hp; [done|by exists age|]. exists spread. split_and!; try done.
  cbn. by apply dle_ok_true.
Qed.

(** A positive amount of cents is one of millionths. *)
Lemma cents_amount n bound d :
  finite d -> (dval d == inject_Z n * p10 (-2))%Q -> (0 <= dval d)%Q ->
  (dval d <= inject_Z bound * p10 (-6))%Q -> amount (-6) bound d.
Proof.
  intros Fd E P U. split; [done|]. exists (n * 10 ^ 4).
  assert (E2 : (dval d == inject_Z (n * 10 ^ 4) * p10 (-6))%Q).
  { rewrite E, (p10_split (-6) (-2)), inject_Z_mult by lia. change (-2 - -6) with 4. ring. }
  split; [|done]. rewrite E2 in P, U. apply Qmult_le_r in U; [|apply p10_pos]. rewrite <- Zle_Qle in U.
  assert (0 * p10 (-6) <= inject_Z (n * 10 ^ 4) * p10 (-6))%Q as P' by (rewrite Qmult_0_l; exact P).
  apply Qmult_le_r in P'; [|apply p10_pos]. change 0%Q with (inject_Z 0) in P'. rewrite <- Zle_Qle in P'.
  lia.
Qed.

(** The limits of a pilot are whole cents between the midpoint and the natural price. *)
Lemma pilot_limits bought sold natural b_total s_total difference midpoint initial maximum :
  quoted snapshot policy bought -> quoted snapshot policy sold -> quote_cash bought -> quote_cash sold ->
  dsub (oo_ask bought) (oo_bid sold) = Ok natural ->
  dadd (oo_bid bought) (oo_ask bought) = Ok b_total -> dadd (oo_bid sold) (oo_ask sold) = Ok s_total ->
  dsub b_total s_total = Ok difference -> ddiv difference (Dint 2) = Ok midpoint ->
  quantize_toward ROUND_CEILING midpoint (-2) = Ok initial ->
  quantize_toward ROUND_FLOOR natural (-2) = Ok maximum ->
  (initial <=. Dint 0) = Ok false -> (initial >. maximum) = Ok false ->
  (cash initial /\ (0 < dval initial <= dval maximum)%Q) /\
  amount (-6) (2 * 10 ^ 12) maximum /\ finite natural /\ (dval maximum <= dval natural)%Q.
Proof.
  intros Qb Qs [Cb Ca] [Cb' Ca'] En E1 E2 E3 E4 Ei Em Hi Hm.
  destruct (amount_sub (-6) _ _ _ _ Ca Cb' ltac:(reflexivity) cash_exp) as (n' & En' & An & _).
  assert (n' = natural) as -> by congruence. clear En'. pose proof (proj1 An) as Fn.
  apply dadd_spec in E1 as [F1 _]; [|apply Cb|apply Ca].
  apply dadd_spec in E2 as [F2 _]; [|apply Cb'|apply Ca'].
  apply dsub_spec in E3 as [F3 _]; [|done..]. apply ddiv_spec in E4 as [F4 _]; [|done..].
  apply quantize_toward_inv in Ei as (Fi & i & _ & Vi & _); [|done..].
  apply quantize_toward_inv in Em as (Fm & m & _ & Vm & Lm & _); [|done..].
  rewrite <- Vm in Lm. apply dlt_ok_false in Hm; [|done..]. apply dle_ok_false in Hi; [|done..].
  rewrite dval_Dint in Hi. change (inject_Z 0) with 0%Q in Hi.
  assert (Ub : (dval natural <= inject_Z (2 * 10 ^ 12) * p10 (-6))%Q).
  { destruct An as (_ & x & Hx & ->). apply Qmult_le_compat_r; [|apply Qlt_le_weak, p10_pos].
    rewrite <- Zle_Qle. lia. }
  assert (Am : amount (-6) (2 * 10 ^ 12) maximum) by (eapply cents_amount; [done|exact Vm|lra|lra]).
  assert (Ai : amount (-6) (2 * 10 ^ 12) initial) by (eapply cents_amount; [done|exact Vi|lra|lra]).
  split_and!; [eapply amount_weaken; [exact Ai|lia]|done..].
Qed.

Lemma structural_pilot_terms_inv p bought sold initial maximum risk score :
  profile = Some p ->
  quoted snapshot policy bought -> quoted snapshot policy sold -> quote_cash bought -> quote_cash sold ->
  _structural_pilot_terms snapshot bought sold p = Ok (Some (initial, maximum, risk, score)) ->
  pilot_terms p bought sold initial maximum risk score.
Proof.
  intros Hp Qb Qs Cb Cs H. destruct (profile_values p Hp) as [_ Vw [Fd Ud] (Fm & Rm & Pm) Fr].
  unfold _structural_pilot_terms in H.
  apply guard_ok in H as [[_ ?]|[Hg H]]; [discriminate|]. rewrite !or_m_false in Hg.
  destruct Hg as [[[[[Hdte Hab] Has] Hsk] Hwb] Hws].
  apply lift_bool_ok, negb_false_iff, andb_true_iff in Hdte as [Hd1%Z.leb_le Hd2%Z.leb_le].
  apply bind_ok in Hab as (ab & Eab & Hab). apply bind_ok in Has as (as_ & Eas & Has).
  apply bind_ok in Hwb as (wb & Ewb & Hwb). apply bind_ok in Hws as (ws & Ews & Hws).
  apply bind_ok in Hsk as (apart & Ea & Hsk). injection Hab as Hab. injection Has as Has.
  injection Hsk as Hsk%Z.ltb_ge.
  destruct (pilot_in_limits _ _ _ _ Hp Qb Eab Hab Ewb Hwb) as (Lb & Fb & Rb).
  destruct (pilot_in_limits _ _ _ _ Hp Qs Eas Has Ews Hws) as (Ls & Fs & Rs).
  apply bind_ok in H as (natural & En & H). apply bind_ok in H as (bt & E1 & H).
  apply bind_ok in H as (st & E2 & H). apply bind_ok in H as (df & E3 & H).
  apply bind_ok in H as (mid & E4 & H). apply bind_ok in H as (i & Ei & H).
  apply bind_ok in H as (m & Em & H).
  apply guard_ok in H as [[_ ?]|[Hg H]]; [discriminate|]. rewrite !or_m_false in Hg.
  destruct Hg as [[[Hi Hm] Hmd] Hrw]. inv_seq Hrw.
  apply bind_ok in H as (sc & Esc & H). apply bind_ok in H as (r & Er & H). injection H as -> -> -> ->.
  destruct (pilot_limits _ _ _ _ _ _ _ _ _ Qb Qs Cb Cs En E1 E2 E3 E4 Ei Em Hi Hm) as (Ai & Am & Fn & Lm).
  pose proof (proj1 Am) as Fmax. apply dlt_ok_false in Hmd; [|done..].
  destruct (amount_mul_int (-6) (2 * 10 ^ 12) 100 maximum 100 Am ltac:(lia) ltac:(reflexivity) cash_exp)
    as (r & E & Ar & Vr). assert (r = risk) as -> by congruence. clear E.
  constructor; try done; [by exists apart|split; [done|by apply dle_ok_true]| | | |].
  - exists natural. split; [done|]. by apply dle_ok_true.
  - by exists x, x0.
  - split; [eapply amount_weaken; [exact Ar|lia]|]. split; [exact Vr|].
    change (inject_Z (10 ^ 4)) with 10000%Q in Ud. change (inject_Z (10 ^ 8)) with 100000000%Q.
    change (inject_Z 100) with 100%Q in Vr. destruct Ai as [_ [Pi Li]]. rewrite Vr. split; lra.
  - eapply spread_score_range; [exact Fm|exact Rm|exact Pm|exact Ewb|exact Ews|done..|exact Esc].
Qed.

Lemma utc_dates a b : is_utc a = true -> is_utc b = true -> dt_eq a b = true -> dt_date a = dt_date b.
Proof.
  unfold is_utc, dt_eq, dt_instant, dt_date, same_awareness.
  destruct (dt_off a), (dt_off b); try done. intros Ha%Z.eqb_eq Hb%Z.eqb_eq H%Z.eqb_eq. subst.
  by replace (dt_local a) with (dt_local b) by lia.
Qed.

(** The signed width of a pilot. *)
Definition pilot_offset (p : StructuralBullishPilotProfile) : Q :=
  match sp_direction p with BULLISH => 4%Q | BEARISH => (-4)%Q end.

Lemma pilot_strikes p bought sold offset strike :
  profile = Some p -> quoted snapshot policy bought -> quoted snapshot policy sold ->
  match sp_direction p with BULLISH => Ok (sp_width p) | BEARISH => dneg (sp_width p) end = Ok offset ->
  dadd (oo_strike bought) offset = Ok strike -> (oo_strike sold ==. strike) = true ->
  (dval (oo_strike sold) == dval (oo_strike bought) + pilot_offset p)%Q.
Proof.
  intros Hp Qb Qs Eo Es Hs. rewrite (pv_width _ (profile_values p Hp)) in Eo.
  assert (G3 : money_exp (-3)) by (split; [discriminate|lia]).
  assert (A4 : amount (-3) (10 ^ 4) (Dint 4)) by (apply (amount_D (-3)); [lia|discriminate]).
  assert (amount (-3) (10 ^ 4) offset /\ (dval offset == pilot_offset p)%Q) as [Ao Vo].
  { unfold pilot_offset. destruct (sp_direction p); [injection Eo as <-; split; [done|by rewrite dval_Dint]|].
    destruct (amount_neg (-3) _ _ A4 ltac:(reflexivity) G3) as (r & E & Ar & Vr).
    assert (r = offset) as -> by congruence. split; [done|]. rewrite Vr, dval_Dint. reflexivity. }
  destruct (amount_add (-3) _ _ _ _ (qo_strike _ _ _ Qb) Ao ltac:(reflexivity) G3) as (r & E & Ar & Vr).
  assert (r = strike) as -> by congruence. apply deq_spec in Hs; [|apply (qo_strike _ _ _ Qs)|apply Ar].
  by rewrite Hs, Vr, Vo.
Qed.

Lemma pilot_structure p bought sold :
  quoted snapshot policy bought -> right_is bought (pilot_right p) = true ->
  right_is sold (pilot_right p) = true -> oo_expiry sold = oo_expiry bought ->
  (dval (oo_strike sold) == dval (oo_strike bought) + pilot_offset p)%Q ->
  structure (pilot_strategy p) bought sold.
Proof.
  intros Qb Rb%right_is_true Rs%right_is_true He Vs. constructor; [congruence|done|].
  unfold pilot_strategy, pilot_right, pilot_offset in *. destruct (sp_direction p); split; try done; lra.
Qed.

Lemma pilot_payoff p candidate bought sold initial maximum risk score :
  profile = Some p ->
  vc_legs candidate = legs_of bought sold authority -> vc_maximum_limit candidate = Some maximum ->
  vc_approved_limit candidate = initial -> vc_strategy candidate = pilot_strategy p ->
  vc_quantity candidate = op_maximum_quantity policy ->
  right_is bought (pilot_right p) = true -> right_is sold (pilot_right p) = true ->
  (dval (oo_strike sold) == dval (oo_strike bought) + pilot_offset p)%Q ->
  pilot_terms p bought sold initial maximum risk score ->
  _structural_pilot_payoff_valid policy candidate p = Ok true.
Proof.
  intros Hp El Em <- Est Eq Rb Rs Vs [_ [Qb _ _] [Qs _ _] _ [Ai [Pi Li]] [Am Hm] Hn Hr _ _].
  destruct Hn as (natural & En & Hn). destruct Hr as (reward & required & Erw & Erq & Hr).
  destruct (profile_values p Hp) as [_ Ew _ _ Fr]. rewrite Ew in Erw.
  destruct (width_exists _ _ Qs Qb) as (d & w & Ed & Ew' & Aw & Vw).
  assert (V4 : (dval w == 4)%Q).
  { rewrite Vw, Vs. unfold pilot_offset. destruct (sp_direction p); apply Qabs_case; intros; lra. }
  unfold _structural_pilot_payoff_valid, _candidate_maximum_limit.
  rewrite (proj2 (two_legs_ok candidate _ _) El), Em, Est, Eq. apply guard_lift_false.
  { unfold pilot_strategy. rewrite Z.eqb_refl. by destruct (sp_direction p). }
  cbn [mbind M_bind _option_leg ol_strike ol_ask ol_bid ol_right]. rewrite Ed. cbn [mbind M_bind].
  rewrite Ew'. cbn [mbind M_bind]. rewrite En. cbn [mbind M_bind]. rewrite !and_m_true. unfold lift_bool.
  assert (Hright : forall o, right_is o (pilot_right p) = true ->
    bool_decide ((if right_is o "C" then CALL else PUT)
      = (if bool_decide (sp_direction p = BULLISH) then CALL else PUT)) = true).
  { intros o R. unfold pilot_right in R. destruct (sp_direction p); [by rewrite R|].
    unfold right_is in *. apply String.eqb_eq in R. by rewrite R. }
  rewrite !Hright by done. split_and!; try done.
  - f_equal. apply deq_spec; [apply Aw|by rewrite Ew|]. rewrite Ew, dval_Dint. exact V4.
  - apply dlt_ok_true; [done|apply Ai|]. by rewrite dval_Dint.
  - apply dle_ok_true; [apply Ai|apply Am|done].
  - destruct (amount_sub (-6) _ _ _ _ Aw Am ltac:(reflexivity) cash_exp) as (r & Er & Ar & Vr).
    assert (A4 : amount (-6) (10 ^ 12) (Dint 4)) by (apply (amount_D (-6)); [lia|discriminate]).
    destruct (amount_sub (-6) _ _ _ _ A4 Am ltac:(reflexivity) cash_exp) as (r' & Er' & Ar' & Vr').
    assert (r' = reward) as -> by congruence. rewrite Er. cbn [mbind M_bind]. rewrite Erq. cbn [mbind M_bind].
    apply dmul_spec in Erq as [Frq _]; [|done|apply Am].
    apply dlt_ok_false in Hr; [|apply Ar'|done]. apply dle_ok_true; [done|apply Ar|].
    rewrite Vr, V4. rewrite Vr', dval_Dint in Hr. exact Hr.
Qed.

Lemma pilot_ready p candidate bought sold initial maximum risk :
  profile = Some p -> market snapshot policy false ->
  is_utc (op_selected_decision_boundary policy) = true ->
  vc_legs candidate = legs_of bought sold authority -> vc_maximum_limit candidate = Some maximum ->
  vc_approved_limit candidate = initial -> vc_strategy candidate = pilot_strategy p ->
  vc_quantity candidate = op_maximum_quantity policy -> 1 <= op_maximum_quantity policy ->
  vc_selection_rank candidate = 1 -> vc_buying_power_sufficient candidate = true ->
  vc_dte candidate = dte_of policy bought ->
  under_caps policy authority (inject_Z (vc_quantity candidate) * dval risk) ->
  oo_symbol bought <> oo_symbol sold -> structure (pilot_strategy p) bought sold ->
  right_is bought (pilot_right p) = true -> right_is sold (pilot_right p) = true ->
  (dval (oo_strike sold) == dval (oo_strike bought) + pilot_offset p)%Q ->
  pilot_terms p bought sold initial maximum risk (vc_candidate_score candidate) ->
  ready candidate bought sold.
Proof.
  intros Hp HM Ub El Em Ei Est Eq Hq Er Ebp Ed Hcaps Hsym Hst Rb Rs Vs T.
  assert (Emax : _candidate_maximum_limit candidate = maximum)
    by (unfold _candidate_maximum_limit; by rewrite Em).
  assert (Ed' : dte_of policy bought = oo_expiry bought - dt_date (ob_completed_at (sn_underlying_bar snapshot))).
  { unfold dte_of. by rewrite (utc_dates _ _ (mk_bar _ _ _ HM) Ub (mk_boundary _ _ _ HM)). }
  pose proof (pt_dte _ _ _ _ _ _ _ T) as Hdte. pose proof (pv_dte _ (profile_values p Hp)).
  destruct (pt_initial _ _ _ _ _ _ _ T) as [Ci Li].
  constructor; try done; try apply T; rewrite ?Hp, ?Est; try done.
  - rewrite Eq. lia.
  - split; [apply T|done].
  - cbn. rewrite Ed, Ed'. split_and!; (done || lia).
  - rewrite Emax, Ei. split_and!; [done| |apply Li|apply Li].
    eapply amount_weaken; [apply (pt_maximum _ _ _ _ _ _ _ T)|lia].
  - cbn. apply T.
  - by eapply pilot_payoff.
  - intros width _. eapply under_caps_proper; [|exact Hcaps].
    destruct (pt_risk _ _ _ _ _ _ _ T) as (_ & Vr & _). rewrite Vr. unfold per_share_loss.
    rewrite Est, Emax.
    assert (is_debit (pilot_strategy p) = true) as -> by (unfold pilot_strategy; by destruct (sp_direction p)).
    ring.
Qed.
(** *** The loss that is charged *)

Lemma ready_cash candidate bought sold : ready candidate bought sold -> cash_candidate candidate.
Proof.
  intros R. destruct (rd_limits _ _ _ R) as (Ca & Cm & _). split_and!; [done|done|].
  assert (H : forall o i, in_limits o -> amount (-6) (10 ^ 17) (ol_strike (_option_leg o i authority))).
  { intros o i [Q _ _]. pose proof (amount_refine (-3) (-6) _ _ ltac:(lia) (qo_strike _ _ _ Q)) as A.
    cbn [_option_leg ol_strike]. eapply amount_weaken; [exact A|lia]. }
  rewrite (rd_legs _ _ _ R). repeat constructor; apply H; apply R.
Qed.

Lemma ready_vertical candidate bought sold :
  ready candidate bought sold ->
  defined_risk candidate (_option_leg bought BUY_TO_OPEN authority) (_option_leg sold SELL_TO_OPEN authority).
Proof.
  intros R. destruct (is_vertical_inv candidate) as (b & s & HD & Hb & Hs).
  - by eapply accepted_strikes_finite, ready_cash.
  - eapply vertical_of_structure; [apply R|apply (rd_bought _ _ _ R)|apply (rd_sold _ _ _ R)|apply R|apply R].
  - destruct (by_intent_legs _ _ _ (rd_legs _ _ _ R)) as [Eb Es]. congruence.
Qed.

Lemma ready_loss candidate bought sold :
  ready candidate bought sold -> op_maximum_quantity policy <= 10 ^ 4 ->
  exists loss, _approved_max_loss candidate = Ok loss /\ under_caps policy authority (dval loss).
Proof.
  intros R Hmax. pose proof (ready_cash _ _ _ R) as HC. pose proof (ready_vertical _ _ _ R) as HD.
  pose proof (rd_quantity _ _ _ R) as Hq.
  destruct (approved_max_loss_value _ _ _ HC HD ltac:(lia)) as (loss & width & El & Ew & _ & Vl).
  destruct (width_of_value _ _ _ HC HD) as (width' & Ew' & _ & Vw & _).
  assert (width' = width) as -> by congruence.
  exists loss. split; [done|]. eapply under_caps_proper; [exact Vl|]. by apply (rd_caps _ _ _ R).
Qed.
End Ready.

(** ** The loops *)

Section Loops.
Context {A B : Type}.

Lemma fold_m_inv (f : B -> A -> M B) (I : B -> Prop) l : forall acc acc',
  (forall acc x acc', x ∈ l -> I acc -> f acc x = Ok acc' -> I acc') ->
  I acc -> fold_m f acc l = Ok acc' -> I acc'.
Proof.
  induction l as [|x l IH]; intros acc acc' Hf HI H; cbn [fold_m] in H; [by injection H as <-|].
  apply bind_ok in H as (mid & Hx & H). apply (IH mid); [|by apply (Hf acc x); [left|..]|done].
  intros. eapply Hf; [right|..]; done.
Qed.

Lemma for_pairs_inv (body : A -> B -> A -> M B) (R : A -> A -> Prop) (I : B -> Prop) l : forall acc acc',
  (forall x acc y acc', R x y -> I acc -> body x acc y = Ok acc' -> I acc') ->
  ForallOrdPairs R l -> I acc -> for_pairs body acc l = Ok acc' -> I acc'.
Proof.
  induction l as [|x l IH]; intros acc acc' Hb HR HI H; cbn [for_pairs] in H; [by injection H as <-|].
  inversion HR as [|? ? Hx HR']; subst. apply bind_ok in H as (mid & Hm & H).
  apply (IH mid); [done..| |done]. eapply fold_m_inv; [|exact HI|exact Hm].
  intros a y a' Hy Ia E. eapply Hb; [|exact Ia|exact E]. rewrite Forall_forall in Hx. by apply Hx.
Qed.

Lemma insert_by_perm (key : A -> M (list component)) x l : forall l',
  insert_by key x l = Ok l' -> l' ≡ₚ x :: l.
Proof.
  induction l as [|y l IH]; intros l' H; cbn [insert_by] in H; [by injection H as <-|].
  inv_seq H. destruct x2; [by injection H as <-|]. apply bind_ok in H as (r & Hr & H).
  injection H as <-. rewrite (IH _ Hr). constructor.
Qed.

Lemma sort_by_perm (key : A -> M (list component)) l l' : sort_by key l = Ok l' -> l' ≡ₚ l.
Proof.
  unfold sort_by. enough (forall acc, fold_m (fun sorted x => insert_by key x sorted) acc l = Ok l' ->
    l' ≡ₚ acc ++ l) as H by apply (H []).
  induction l as [|x l IH]; intros acc H; cbn [fold_m] in H; [injection H as <-; by rewrite app_nil_r|].
  apply bind_ok in H as (mid & Hm & H). apply insert_by_perm in Hm. rewrite (IH _ H), Hm.
  cbn. by rewrite Permutation_middle.
Qed.
End Loops.

Lemma ForallOrdPairs_impl {A} (R R' : A -> A -> Prop) l :
  (forall a b, R a b -> R' a b) -> ForallOrdPairs R l -> ForallOrdPairs R' l.
Proof.
  intros HR. induction 1 as [|x l Hx _ IH]; constructor; [|done]. eapply Forall_impl; [exact Hx|]. auto.
Qed.

(** Two elements of a list of distinct symbols. *)
Definition distinct_in (l : list OpportunityOption) (a b : OpportunityOption) : Prop :=
  a ∈ l /\ b ∈ l /\ oo_symbol a <> oo_symbol b.

Lemma distinct_pairs l : NoDup (map oo_symbol l) -> ForallOrdPairs (distinct_in l) l.
Proof.
  induction l as [|x l IH]; intros H; [constructor|]. cbn in H. apply NoDup_cons in H as [Hx H].
  constructor.
  - apply Forall_forall. intros y Hy. split; [left|]. split; [by right|]. intros E. apply Hx.
    rewrite E. by apply list_elem_of_fmap_2.
  - eapply ForallOrdPairs_impl; [|exact (IH H)]. intros a b (Ha & Hb & Hab). split_and!; [by right|by right|done].
Qed.

(** ** The selection *)

(** The amounts the selection computes with fit the decimal context. *)
Record on_grid (snapshot : OpportunityMarketSnapshot) (policy : OpportunityPolicy)
    (authority : CandidateSelectionAuthority) : Prop := {
  og_budgets : budgets policy authority;
  og_spread : repr (dval (op_maximum_relative_spread policy));
  og_quotes : Forall quote_cash (sn_options snapshot);
}.

(** The direction of what is selected: a structural pilot has its own. *)
Definition selected_direction (policy : OpportunityPolicy) (direction : OpportunityDirection)
    : OpportunityDirection :=
  match structural_pilot_profile (op_opportunity_key policy) with
  | Some profile => sp_direction profile
  | None => direction
  end.

Section Select.
Context (account_dump : AccountResponse -> json) (snapshot : OpportunityMarketSnapshot)
  (policy : OpportunityPolicy) (direction : OpportunityDirection) (requested : Z)
  (authority : CandidateSelectionAuthority).
Hypothesis Hpolicy : make_OpportunityPolicy policy = Ok policy.
Hypothesis Hgrid : on_grid snapshot policy authority.

(** A ranked candidate the policy accepts. *)
Definition sound (item : _RankedCandidate) : Prop :=
  vc_strategy (rk_candidate item) ∈ _DIRECTION_STRATEGIES (selected_direction policy direction) /\
  exists bought sold, ready snapshot policy authority (rk_candidate item) bought sold.

Definition sound_found (acc : found) : Prop := Forall sound acc.1.

Lemma sound_add acc item b : sound_found acc -> sound item -> sound_found ((acc.1 ++ [item])%list, b).
Proof. intros Ha Hi. apply Forall_app. split; [done|by constructor]. Qed.

Lemma option_facts (P : OpportunityOption -> Prop) option :
  Forall P (sn_options snapshot) -> option ∈ sn_options snapshot -> P option.
Proof. rewrite Forall_forall. auto. Qed.

Lemma consider_sound first acc second acc' :
  structural_pilot_profile (op_opportunity_key policy) = None -> market snapshot policy true ->
  distinct_in (sn_options snapshot) first second -> sound_found acc ->
  consider policy direction requested authority first acc second = Ok acc' -> sound_found acc'.
Proof.
  intros Hn HM (H1 & H2 & Hsym) Hacc H. destruct Hgrid as [HB HR HC].
  destruct (policy_ranges policy Hpolicy) as (_ & Hdte & Fm & _ & _ & _ & _ & _ & _ & Hmax).
  pose proof (mk_options _ _ _ HM) as HQ. pose proof (mk_eligible _ _ _ HM eq_refl) as HE.
  unfold consider in H. apply bind_ok in H as ([[[strategy bought] sold]|] & Hb & H); [|by injection H as <-].
  apply bind_ok in H as ([[[limit risk] score]|] & Ht & H); [|by injection H as <-].
  destruct (Z.ltb_spec score (op_minimum_candidate_score policy)) as [|Hscore]; [by injection H as <-|].
  apply bind_ok in H as (q & Hq & H). destruct (Z.ltb_spec q 1) as [|Hq1]; [by injection H as <-|].
  injection H as <-. apply sound_add; [done|].
  destruct (build_structure_inv _ _ _ _ _ _ _ _ (option_facts _ _ HQ H1) (option_facts _ _ HQ H2) Hb)
    as (Hpair & Hdir & Hst).
  assert (bought ∈ sn_options snapshot /\ sold ∈ sn_options snapshot /\ oo_symbol bought <> oo_symbol sold)
    as (Ib & Is & Hs) by (destruct Hpair as [[-> ->]|[-> ->]]; auto).
  pose proof (candidate_terms_inv _ _ _ _ _ _ _ _ Hpolicy HR (option_facts _ _ HQ Ib) (option_facts _ _ HQ Is)
    (option_facts _ _ HE Ib) (option_facts _ _ HE Is) (option_facts _ _ HC Ib) (option_facts _ _ HC Is) Ht) as T.
  destruct (vt_risk _ _ _ _ _ _ _ T) as (Dr & Pr & Ur).
  unfold MAX_STRUCTURAL_OPTION_QUANTITY in Hmax.
  destruct (quantity_inv _ _ _ _ _ Hq HB Dr Pr Ur Hq1 ltac:(lia)) as (_ & Hqm & Hcaps).
  split; cbn [rk_candidate vc_strategy]; [unfold selected_direction; by rewrite Hn|].
  exists bought, sold. eapply (vertical_ready _ _ _ _ _ _ risk); try done.
  all: by apply option_facts.
Qed.
Lemma symbol_determines a b :
  NoDup (map oo_symbol (sn_options snapshot)) -> a ∈ sn_options snapshot -> b ∈ sn_options snapshot ->
  oo_symbol a = oo_symbol b -> a = b.
Proof.
  intros HN (i & Hi)%list_elem_of_lookup (j & Hj)%list_elem_of_lookup E.
  assert (i = j) as ->; [|congruence]. eapply (NoDup_lookup _ _ _ (oo_symbol a) HN).
  - by rewrite list_lookup_fmap, Hi.
  - by rewrite list_lookup_fmap, Hj, E.
Qed.

Lemma consider_pilot_sound p offset bought acc sold acc' :
  structural_pilot_profile (op_opportunity_key policy) = Some p -> market snapshot policy false ->
  match sp_direction p with BULLISH => Ok (sp_width p) | BEARISH => dneg (sp_width p) end = Ok offset ->
  bought ∈ sn_options snapshot -> sold ∈ sn_options snapshot ->
  right_is bought (pilot_right p) = true -> sound_found acc ->
  consider_pilot snapshot policy authority p offset bought acc sold = Ok acc' -> sound_found acc'.
Proof.
  intros Hp HM Eo Ib Is Rb Hacc H. destruct Hgrid as [HB HR HC].
  destruct (policy_ranges policy Hpolicy) as (Hub & _ & _ & _ & _ & _ & _ & _ & Hmax).
  pose proof (mk_options _ _ _ HM) as HQ.
  pose proof (option_facts _ _ HQ Ib) as Qb. pose proof (option_facts _ _ HQ Is) as Qs.
  unfold consider_pilot in H. apply guard_ok in H as [[_ H]|[Hg H]]; [by injection H as <-|].
  apply or_m_false in Hg as [Hg Hstrike].
  apply lift_bool_ok, orb_false_iff in Hg as [Rs%negb_false_iff He%negb_false_iff%Z.eqb_eq].
  apply bind_ok in Hstrike as (strike & Es & Hstrike). injection Hstrike as Hstrike%negb_false_iff.
  pose proof (pilot_strikes _ _ _ _ _ _ _ Hp Qb Qs Eo Es Hstrike) as Vs.
  apply bind_ok in H as ([[[[initial maximum] risk] score]|] & Ht & H); [|by injection H as <-].
  apply bind_ok in H as (q & Hq & H).
  destruct (Z.eqb_spec q (op_maximum_quantity policy)) as [Eq|]; cbn [negb] in H; injection H as <-; [|done].
  apply sound_add; [done|].
  pose proof (structural_pilot_terms_inv _ _ _ _ _ _ _ _ _ Hp Qb Qs (option_facts _ _ HC Ib)
    (option_facts _ _ HC Is) Ht) as T.
  destruct (pt_risk _ _ _ _ _ _ _ _ _ T) as (Dr & _ & Pr & Ur).
  unfold MAX_STRUCTURAL_OPTION_QUANTITY in Hmax.
  destruct (quantity_inv _ _ _ _ _ Hq HB Dr Pr Ur ltac:(lia) ltac:(lia)) as (_ & _ & Hcaps). rewrite Eq in Hcaps.
  split; cbn [rk_candidate vc_strategy].
  { unfold selected_direction, pilot_strategy. rewrite Hp. destruct (sp_direction p); left. }
  exists bought, sold. eapply (pilot_ready _ _ _ p); try done; [lia| |by eapply pilot_structure].
  intros E. assert (bought = sold) as -> by (by apply symbol_determines; [apply HM|..]).
  unfold pilot_offset in Vs. destruct (sp_direction p); lra.
Qed.

Lemma selected_sound candidate :
  select_vertical_candidate account_dump snapshot policy direction requested authority
    = Ok (mk_CandidateSelectionResult (Some candidate) SELECTED) ->
  is_utc (sn_trusted_at snapshot) = true /\ is_hash (cs_greek_unit_evidence_hash authority) = true /\
  exists item, rk_candidate item = candidate /\ sound item.
Proof.
  unfold select_vertical_candidate. intros H.
  apply guard_ok in H as [[_ H]|[Hin H]]; [discriminate|]. apply not_m_false in Hin.
  apply guard_ok in H as [[_ H]|[Hsn H]]; [discriminate|]. apply not_m_false in Hsn.
  apply guard_ok in H as [[_ H]|[_ H]]; [discriminate|].
  apply snapshot_valid_inv in Hsn as HM. clear Hsn. pose proof (mk_trusted _ _ _ HM) as Ut.
  assert (Hh : is_hash (cs_greek_unit_evidence_hash authority) = true).
  { unfold _inputs_valid in Hin. apply and_m_true in Hin as [_ Hin]. apply lift_bool_ok in Hin.
    cbn [forallb] in Hin. rewrite !andb_true_iff in Hin. tauto. }
  split_and!; [done|done|]. clear Hin.
  destruct (structural_pilot_profile (op_opportunity_key policy)) as [p|] eqn:Ep.
  - rewrite bool_decide_true in HM by (by exists p). cbn [negb] in HM.
    unfold _select_structural_pilot in H. apply guard_ok in H as [[_ H]|[_ H]]; [discriminate|].
    apply bind_ok in H as (offset & Eo & H). apply bind_ok in H as ([ranked had] & Hf & H).
    apply bind_ok in H as (sorted & Hs & H). destruct sorted as [|item rest]; [destruct had; discriminate|].
    injection H as <-. exists item. split; [done|]. apply sort_by_perm in Hs.
    enough (Forall sound ranked) as HF by (rewrite <- Hs in HF; by inversion HF).
    apply (fold_m_inv _ sound_found _ _ _) in Hf; [exact Hf| |constructor].
    intros acc bought acc' Ib Hacc Hb. apply guard_ok in Hb as [[_ Hb]|[Hg Hb]]; [by injection Hb as <-|].
    apply or_m_false in Hg as [Hg _]. apply lift_bool_ok, negb_false_iff in Hg.
    eapply (fold_m_inv _ sound_found); [|exact Hacc|exact Hb]. intros a sold a' Is Ha E.
    exact (consider_pilot_sound p offset bought a sold a' Ep HM Eo Ib Is Hg Ha E).
  - rewrite bool_decide_false in HM by (by intros []). cbn [negb] in HM.
    apply bind_ok in H as ([ranked had] & Hf & H). apply bind_ok in H as (sorted & Hs & H).
    apply sort_by_perm in Hs.
    assert (HF : Forall sound ranked).
    { apply (for_pairs_inv _ (distinct_in (sn_options snapshot)) sound_found) in Hf; [exact Hf| |
        apply distinct_pairs, HM|constructor]. intros. by eapply consider_sound. }
    rewrite <- Hs in HF. destruct sorted as [|item [|next rest]]; [destruct had; discriminate| |].
    + injection H as <-. exists item. split; [done|]. by inversion HF.
    + inv_seq H. destruct (tuple_eq x x0); [discriminate|]. injection H as <-.
      exists item. split; [done|]. by inversion HF.
Qed.
End Select.

(** C10: What is selected is accepted.  Under a valid policy, with budgets and quotes in
    millionths of a dollar, a candidate that is selected is in the direction asked for (that of
    the pilot for a structural pilot), every gate on the candidate accepts it when the
    opportunity is evaluated at the snapshot's time and boundary, and the loss the policy
    charges for it is computed and is, in exact arithmetic, within the position limit, the share
    of the equity, the available risk and the available buying power: the rounding of the
    quotient that sizes the position never buys a contract too many. *)
Theorem selected_candidate_accepted account_dump snapshot policy direction requested authority candidate :
  make_OpportunityPolicy policy = Ok policy -> on_grid snapshot policy authority ->
  select_vertical_candidate account_dump snapshot policy direction requested authority
    = Ok (mk_CandidateSelectionResult (Some candidate) SELECTED) ->
  vc_strategy candidate ∈ _DIRECTION_STRATEGIES (selected_direction policy direction) /\
  (forall values,
     oi_underlying values = op_underlying policy ->
     oi_evaluated_at values = sn_trusted_at snapshot ->
     oi_observed_decision_boundary values = op_selected_decision_boundary policy ->
     _option_candidate_failure policy values candidate = Ok None) /\
  exists loss, _approved_max_loss candidate = Ok loss /\ under_caps policy authority (dval loss).
Proof.
  intros HP HG H. destruct (selected_sound _ _ _ _ _ _ HP HG _ H) as (Ut & Hh & item & <- & Hd & b & s & R).
  destruct (policy_ranges policy HP) as (_ & _ & _ & _ & _ & _ & _ & _ & Hmax).
  unfold MAX_STRUCTURAL_OPTION_QUANTITY in Hmax.
  split_and!; [done| |by eapply ready_loss; [|lia]]. intros values Hu Ht Hb. by eapply ready_accepted.
Qed.
