(* ===== verification/InputAssembly.v ===== *)
(** * The assembly of an opportunity's input

    [backend/app/services/opportunity_input.py]: [assemble_opportunity_input] checks the
    authorities it is given (snapshot, signals, catalyst, account, prior decision) against
    each other, recomputes the selection of the candidate, builds the [OpportunityInput] the
    policy evaluates and hashes what it was built from; and the part of
    [backend/app/services/opportunity_composition.py] that selects, assembles and decides. *)

From Stdlib Require Import ZArith Lia String Ascii List Bool.
From stdpp Require Import base strings option tactics list.
From S2P Require Import Prelude PyText PyDecimal PyTime PyRounding PyHash Contracts OptionSymbol OpportunityData Opportunity Snapshot Selection.

#[local] Open Scope string_scope.
#[local] Open Scope Z_scope.

Definition _BAR_DURATION : timedelta := minutes 5.

(** ** Authorities *)

Record DecimalSignalAuthority := mk_DecimalSignalAuthority {
  ds_value : decimal;
  ds_observed_at : datetime;
  ds_source_hash : string;
}.

Record TrendSignalAuthority := mk_TrendSignalAuthority {
  ts_bull_hits : Z;
  ts_bear_hits : Z;
  ts_observed_at : datetime;
  ts_source_hash : string;
}.

Record OpportunitySignalAuthority := mk_OpportunitySignalAuthority {
  sa_snapshot_source_hash : string;
  sa_calculation_source_hash : string;
  sa_beta : DecimalSignalAuthority;
  sa_vwap_distance : DecimalSignalAuthority;
  sa_relative_return : DecimalSignalAuthority;
  sa_trend : TrendSignalAuthority;
  sa_absolute_first_reaction : DecimalSignalAuthority;
  sa_trading_halt_state : TradingHaltState;
  sa_trading_status_observed_at : datetime;
  sa_trading_status_source_hash : string;
}.

Record CatalystAuthority := mk_CatalystAuthority {
  ca_opportunity_key : string;
  ca_quality : CatalystQuality;
  ca_score : Z;
  ca_observed_at : datetime;
  ca_source_hash : string;
}.

Record AccountBudgetAuthority := mk_AccountBudgetAuthority {
  ab_account_role : AccountRole;
  ab_account_fingerprint : string;
  ab_snapshot_book_source_hash : string;
  ab_observed_at : datetime;
  ab_baseline_clean : bool;
  ab_baseline_source_hash : string;
  ab_book_fingerprint : string;
  ab_book_source_hash : string;
  ab_clean_equity : decimal;
  ab_open_position_count : Z;
  ab_open_order_count : Z;
  ab_filled_entry_count : Z;
  ab_lifetime_approved_risk : decimal;
  ab_entry_reservation_active : bool;
  ab_reserved_approved_risk : decimal;
  ab_event_already_attempted : bool;
  ab_history_source_hash : string;
}.

Record PriorDecisionAuthority := mk_PriorDecisionAuthority {
  pa_opportunity_key : string;
  pa_decision_boundary : datetime;
  pa_outcome : option OpportunityOutcome;
  pa_observed_at : datetime;
  pa_source_hash : string;
}.

Record OpportunityInputAssembly := mk_OpportunityInputAssembly {
  as_values : OpportunityInput;
  as_policy_hash : string;
  as_authority_hash : string;
}.

Definition refuse {A} (code : string) : M A := Raise (OpportunityInputAuthorityError code).

(** ** Times *)

Definition _utc (value : datetime) (code : string) : M datetime :=
  when negb (is_utc value) then_ refuse code;; astimezone_utc value.

Definition _fresh (observed_at trusted_at : datetime) (maximum_age : timedelta) : M bool :=
  observed ← _utc observed_at "EVIDENCE_TIME_INVALID";
  age ← dt_sub trusted_at observed;
  Ok ((- _RETRIEVAL_SKEW_TOLERANCE <=? age) && (age <=? maximum_age)).

(** ** The snapshot *)

Section Assembly.
(** [account.model_dump(mode="json")], and the date of a moment in New York: the one is third
    party code, the other reads the time zone database. *)
Context (account_dump : AccountResponse -> json) (new_york_date : datetime -> date).

Definition request_mismatch (request : OpportunitySnapshotRequest) (snapshot : OpportunityMarketSnapshot)
    (policy : OpportunityPolicy) : M bool :=
  negb (is_executable_role (sr_account_role request))
  ||| negb (String.eqb (sr_expected_account_fingerprint request)
              (bk_account_fingerprint (sn_account_book snapshot)))
  ||| negb (String.eqb (sr_underlying request) (op_underlying policy))
  ||| negb (String.eqb (sr_underlying request) (ob_symbol (sn_underlying_bar snapshot)))
  ||| negb (String.eqb (sr_benchmark request) (ob_symbol (sn_benchmark_bar snapshot)))
  ||| negb (dt_eq (sr_decision_boundary request) (op_selected_decision_boundary policy))
  ||| not (all_m (fun option =>
             ((sr_minimum_expiry request <=? oo_expiry option)
              && (oo_expiry option <=? sr_maximum_expiry request))
             &&& ((sr_minimum_strike request <=. oo_strike option)
                  &&& (oo_strike option <=. sr_maximum_strike request)))
           (sn_options snapshot))
  ||| (sr_maximum_contracts request <? Z.of_nat (length (sn_options snapshot)))
  ||| (op_maximum_option_quote_age policy <? sr_maximum_quote_age request)
  ||| (op_maximum_leg_quote_skew policy <? sr_maximum_quote_skew request)
  ||| negb (String.eqb (sn_request_hash snapshot) (opportunity_snapshot_request_digest request)).

Definition _validate_request (request : OpportunitySnapshotRequest)
    (snapshot : OpportunityMarketSnapshot) (policy : OpportunityPolicy) : M unit :=
  when request_mismatch request snapshot policy then_ refuse "SNAPSHOT_REQUEST_MISMATCH";; Ok tt.

(** The account, the bars or the session are not those of the request and the policy. *)
Definition scope_or_time_mismatch (request : OpportunitySnapshotRequest)
    (snapshot : OpportunityMarketSnapshot) (policy : OpportunityPolicy) : M bool :=
  let session := sn_session snapshot in
  let account := bk_account (sn_account_book snapshot) in
  let boundary := op_selected_decision_boundary policy in
  let incomplete bar :=
    completed ← dt_add (ob_started_at bar) _BAR_DURATION; Ok (negb (dt_eq completed (ob_completed_at bar))) in
  negb (is_executable_role (ar_role account))
  ||| negb (bool_decide (ar_role account = sr_account_role request))
  ||| negb (ar_paper account)
  ||| negb (String.eqb (ob_symbol (sn_underlying_bar snapshot)) (op_underlying policy))
  ||| negb (dt_eq (ob_completed_at (sn_underlying_bar snapshot)) boundary)
  ||| negb (dt_eq (ob_completed_at (sn_benchmark_bar snapshot)) boundary)
  ||| incomplete (sn_underlying_bar snapshot)
  ||| incomplete (sn_benchmark_bar snapshot)
  ||| negb (ms_session_date session =? new_york_date boundary)
  ||| not (dt_lt (ms_open_at session) boundary &&& dt_le boundary (ms_close_at session))
  ||| (open ← dt_le (ms_open_at session) (ms_clock_at session)
                &&& dt_lt (ms_clock_at session) (ms_close_at session);
       Ok (negb (Bool.eqb (ms_market_open session) open)))
  ||| (ahead ← dt_sub (ms_clock_at session) (sn_trusted_at snapshot);
       Ok (_RETRIEVAL_SKEW_TOLERANCE <? ahead))
  ||| (behind ← dt_sub (sn_trusted_at snapshot) (ms_clock_at session); Ok (minutes 2 <? behind))
  ||| dt_lt (sn_trusted_at snapshot) boundary
  ||| (delay ← dt_sub (sn_trusted_at snapshot) boundary; Ok (op_maximum_decision_delay policy <? delay))
  ||| dt_le (ms_next_open_at session) (ms_clock_at session)
  ||| dt_le (ms_next_close_at session) (ms_clock_at session).

Definition bar_invalid (bar : OpportunityBar) : M bool :=
  let values := [ob_open bar; ob_high bar; ob_low bar; ob_close bar; ob_volume bar; ob_vwap bar] in
  negb (String.eqb (ob_source_hash bar) (opportunity_bar_digest bar))
  ||| any_m (fun value => negb (is_finite value) ||| (value <=. Dint 0)) values
  ||| (ob_low bar >. ob_high bar)
  ||| not ((ob_low bar <=. ob_open bar) &&& (ob_open bar <=. ob_high bar))
  ||| not ((ob_low bar <=. ob_close bar) &&& (ob_close bar <=. ob_high bar))
  ||| (started ← _utc (ob_started_at bar) "SNAPSHOT_BAR_TIME_INVALID";
       expected ← dt_add started _BAR_DURATION;
       completed ← _utc (ob_completed_at bar) "SNAPSHOT_BAR_TIME_INVALID";
       Ok (negb (dt_eq expected completed))).

Definition option_invalid (snapshot : OpportunityMarketSnapshot) (option : OpportunityOption) : M bool :=
  negb (String.eqb (oo_source_hash option) (opportunity_option_digest option))
  ||| negb (right_is option "C" || right_is option "P")
  ||| existsb (fun value => negb (is_finite value)) (option_decimals option)
  ||| (least ← dmin (oo_strike option) (oo_bid option);
       least ← dmin least (oo_ask option);
       least ← dmin least (oo_implied_volatility option);
       least <=. Dint 0)
  ||| (oo_bid option >. oo_ask option)
  ||| (oo_bid_size option <=? 0)
  ||| (oo_ask_size option <=? 0)
  ||| (quoted ← _utc (oo_quote_at option) "SNAPSHOT_OPTION_TIME_INVALID";
       retrieved ← _utc (oo_retrieved_at option) "SNAPSHOT_OPTION_TIME_INVALID";
       dt_lt retrieved quoted)
  ||| (ahead ← dt_sub (oo_retrieved_at option) (sn_trusted_at snapshot);
       Ok (_RETRIEVAL_SKEW_TOLERANCE <? ahead)).

(** [for item in items: if invalid(item): raise] *)
Definition none_invalid {A} (invalid : A -> M bool) (code : string) (l : list A) : M unit :=
  fold_m (fun _ item => when invalid item then_ refuse code;; Ok tt) tt l.

Definition _validate_snapshot_hashes (snapshot : OpportunityMarketSnapshot) : M unit :=
  let book := sn_account_book snapshot in
  when negb (String.eqb (bk_source_hash book) (opportunity_account_book_digest account_dump book))
       || negb (String.eqb (ms_source_hash (sn_session snapshot))
                  (opportunity_market_session_digest (sn_session snapshot)))
  then_ refuse "SNAPSHOT_COMPONENT_HASH_MISMATCH";;
  _ ← none_invalid bar_invalid "SNAPSHOT_COMPONENT_HASH_MISMATCH"
        [sn_underlying_bar snapshot; sn_benchmark_bar snapshot];
  _ ← none_invalid (option_invalid snapshot) "SNAPSHOT_COMPONENT_HASH_MISMATCH" (sn_options snapshot);
  when negb (String.eqb (sn_source_hash snapshot) (opportunity_market_snapshot_digest snapshot))
  then_ refuse "SNAPSHOT_HASH_MISMATCH";;
  Ok tt.

Definition _validate_snapshot (request : OpportunitySnapshotRequest)
    (snapshot : OpportunityMarketSnapshot) (policy : OpportunityPolicy) : M unit :=
  _ ← _validate_request request snapshot policy;
  _ ← _utc (sn_trusted_at snapshot) "SNAPSHOT_TIME_INVALID";
  when negb (is_hash (sn_request_hash snapshot)) || negb (is_hash (sn_source_hash snapshot))
  then_ refuse "SNAPSHOT_HASH_INVALID";;
  when scope_or_time_mismatch request snapshot policy then_ refuse "SNAPSHOT_SCOPE_OR_TIME_MISMATCH";;
  when String.eqb (ob_symbol (sn_underlying_bar snapshot)) (ob_symbol (sn_benchmark_bar snapshot))
  then_ refuse "SNAPSHOT_SYMBOL_INVALID";;
  _validate_snapshot_hashes snapshot.

(** ** Signals, catalyst, account and prior decision *)

Definition decimal_signals (signals : OpportunitySignalAuthority) : list DecimalSignalAuthority :=
  [sa_beta signals; sa_vwap_distance signals; sa_relative_return signals;
   sa_absolute_first_reaction signals].

Definition _validate_signals (signals : OpportunitySignalAuthority)
    (snapshot : OpportunityMarketSnapshot) (policy : OpportunityPolicy) : M unit :=
  let trend := sa_trend signals in
  when negb (String.eqb (sa_snapshot_source_hash signals) (sn_source_hash snapshot))
       || negb (is_hash (sa_calculation_source_hash signals))
  then_ refuse "SIGNAL_SNAPSHOT_MISMATCH";;
  when existsb (fun item => negb (is_finite (ds_value item))) (decimal_signals signals)
  then_ refuse "SIGNAL_VALUE_INVALID";;
  when negb ((0 <=? ts_bull_hits trend) && (ts_bull_hits trend <=? 3))
       || negb ((0 <=? ts_bear_hits trend) && (ts_bear_hits trend <=? 3))
  then_ refuse "SIGNAL_VALUE_INVALID";;
  when existsb (fun hash => negb (is_hash hash))
         (map ds_source_hash (decimal_signals signals) ++ [ts_source_hash trend])
       || negb (is_hash (sa_trading_status_source_hash signals))
  then_ refuse "SIGNAL_SOURCE_HASH_INVALID";;
  when any_m (fun item =>
         (observed ← _utc item "EVIDENCE_TIME_INVALID";
          dt_lt observed (op_selected_decision_boundary policy))
         ||| not (_fresh item (sn_trusted_at snapshot) (op_maximum_underlying_age policy)))
       (map ds_observed_at (decimal_signals signals)
        ++ [ts_observed_at trend; sa_trading_status_observed_at signals])
  then_ refuse "SIGNAL_EVIDENCE_STALE_OR_FUTURE";;
  Ok tt.

Definition _validate_catalyst (catalyst : CatalystAuthority) (snapshot : OpportunityMarketSnapshot)
    (policy : OpportunityPolicy) : M unit :=
  when negb (String.eqb (ca_opportunity_key catalyst) (op_opportunity_key policy))
  then_ refuse "CATALYST_SCOPE_MISMATCH";;
  when negb ((0 <=? ca_score catalyst) && (ca_score catalyst <=? 100))
       || negb (is_hash (ca_source_hash catalyst))
  then_ refuse "CATALYST_AUTHORITY_INVALID";;
  when not (_fresh (ca_observed_at catalyst) (sn_trusted_at snapshot) (op_maximum_catalyst_age policy))
  then_ refuse "CATALYST_EVIDENCE_STALE_OR_FUTURE";;
  Ok tt.

Definition _validate_account (account : AccountBudgetAuthority) (snapshot : OpportunityMarketSnapshot)
    : M unit :=
  let book := sn_account_book snapshot in
  when negb (is_executable_role (ab_account_role account))
       || negb (bool_decide (ab_account_role account = ar_role (bk_account book)))
       || negb (String.eqb (ab_account_fingerprint account) (bk_account_fingerprint book))
       || negb (String.eqb (ab_snapshot_book_source_hash account) (bk_source_hash book))
       || (negb (ab_clean_equity account ==. ar_equity (bk_account book))
           && (length (bk_positions book) =? 0)%nat)
       || negb (ab_open_position_count account =? Z.of_nat (length (bk_positions book)))
       || negb (ab_open_order_count account =? Z.of_nat (length (bk_open_orders book)))
       || negb (dt_eq (ab_observed_at account) (sn_trusted_at snapshot))
  then_ refuse "ACCOUNT_AUTHORITY_MISMATCH";;
  when existsb (fun hash => negb (is_hash hash))
         [ab_account_fingerprint account; ab_snapshot_book_source_hash account;
          ab_baseline_source_hash account; ab_book_fingerprint account; ab_book_source_hash account;
          ab_history_source_hash account]
  then_ refuse "ACCOUNT_SOURCE_HASH_INVALID";;
  when existsb (fun value => negb (is_finite value))
         [ab_clean_equity account; ab_lifetime_approved_risk account; ab_reserved_approved_risk account]
       ||| (ab_clean_equity account <=. Dint 0)
       ||| (Z.min (Z.min (ab_open_position_count account) (ab_open_order_count account))
              (ab_filled_entry_count account) <? 0)
       ||| (ab_lifetime_approved_risk account <. Dint 0)
       ||| (ab_reserved_approved_risk account <. Dint 0)
       ||| (negb (ab_entry_reservation_active account)
            && negb (ab_reserved_approved_risk account ==. Dint 0))
  then_ refuse "ACCOUNT_BUDGET_INVALID";;
  Ok tt.

Definition _validate_prior_decision (authority : PriorDecisionAuthority)
    (snapshot : OpportunityMarketSnapshot) (policy : OpportunityPolicy) : M unit :=
  when negb (String.eqb (pa_opportunity_key authority) (op_opportunity_key policy))
       || negb (dt_eq (pa_decision_boundary authority) (op_selected_decision_boundary policy))
       || negb (is_hash (pa_source_hash authority))
       ||| (observed ← _utc (pa_observed_at authority) "PRIOR_DECISION_TIME_INVALID";
            Ok (negb (dt_eq observed (sn_trusted_at snapshot))))
  then_ refuse "PRIOR_DECISION_AUTHORITY_MISMATCH";;
  Ok tt.

(** ** The selection *)

(** [==] of the dataclasses: decimals by value, times by instant. *)
Definition option_leg_eq (a b : OptionLeg) : bool :=
  bool_decide (ol_instrument_kind a = ol_instrument_kind b)
  && String.eqb (ol_symbol a) (ol_symbol b) && String.eqb (ol_underlying a) (ol_underlying b)
  && bool_decide (ol_right a = ol_right b) && (ol_strike a ==. ol_strike b)
  && (ol_expiry a =? ol_expiry b) && bool_decide (ol_intent a = ol_intent b)
  && (ol_ratio a =? ol_ratio b) && (ol_multiplier a =? ol_multiplier b)
  && Bool.eqb (ol_active a) (ol_active b) && Bool.eqb (ol_tradable a) (ol_tradable b)
  && (ol_bid a ==. ol_bid b) && (ol_ask a ==. ol_ask b)
  && (ol_bid_size a =? ol_bid_size b) && (ol_ask_size a =? ol_ask_size b)
  && dt_eq (ol_quote_at a) (ol_quote_at b) && bool_decide (ol_feed a = ol_feed b)
  && Bool.eqb (ol_greeks_complete a) (ol_greeks_complete b)
  && Bool.eqb (ol_greek_units_verified a) (ol_greek_units_verified b).

Fixpoint list_eq {A} (eq : A -> A -> bool) (a b : list A) : bool :=
  match a, b with
  | x :: a, y :: b => eq x y && list_eq eq a b
  | [], [] => true
  | _, _ => false
  end.

Definition option_eq {A} (eq : A -> A -> bool) (a b : option A) : bool :=
  match a, b with
  | Some a, Some b => eq a b
  | None, None => true
  | _, _ => false
  end.

Definition candidate_eq (a b : VerticalCandidate) : bool :=
  bool_decide (vc_strategy a = vc_strategy b) && list_eq option_leg_eq (vc_legs a) (vc_legs b)
  && (vc_quantity a =? vc_quantity b) && (vc_dte a =? vc_dte b)
  && (vc_approved_limit a ==. vc_approved_limit b)
  && (vc_candidate_score a =? vc_candidate_score b)
  && (vc_selection_rank a =? vc_selection_rank b)
  && Bool.eqb (vc_buying_power_sufficient a) (vc_buying_power_sufficient b)
  && option_eq deq (vc_maximum_limit a) (vc_maximum_limit b).

Definition selection_eq (a b : CandidateSelectionResult) : bool :=
  option_eq candidate_eq (cr_candidate a) (cr_candidate b) && bool_decide (cr_reason a = cr_reason b).

(** [max(Decimal(0), maximum_lifetime_risk - lifetime_approved_risk - reserved_approved_risk)] *)
Definition remaining_lifetime_risk (policy : OpportunityPolicy) (account : AccountBudgetAuthority)
    : M decimal :=
  left ← dsub (op_maximum_lifetime_risk policy) (ab_lifetime_approved_risk account);
  left ← dsub left (ab_reserved_approved_risk account);
  dmax (Dint 0) left.

Definition _validate_selection (snapshot : OpportunityMarketSnapshot) (policy : OpportunityPolicy)
    (direction : option OpportunityDirection) (requested_maximum_quantity : Z)
    (authority : option CandidateSelectionAuthority) (selection : option CandidateSelectionResult)
    (account : AccountBudgetAuthority) : M (option VerticalCandidate) :=
  when requested_maximum_quantity <? 1 then_ refuse "CANDIDATE_SELECTION_INVALID";;
  match direction with
  | None =>
      match authority, selection with
      | None, None => Ok None
      | _, _ => refuse "CANDIDATE_SELECTION_WITHOUT_DIRECTION"
      end
  | Some direction =>
      match authority, selection with
      | Some authority, Some selection =>
          remaining ← remaining_lifetime_risk policy account;
          when negb (String.eqb (cs_snapshot_request_hash authority) (sn_request_hash snapshot))
               || negb (String.eqb (cs_snapshot_source_hash authority) (sn_source_hash snapshot))
               || negb (String.eqb (cs_account_fingerprint authority) (ab_account_fingerprint account))
               || negb (cs_observed_equity authority ==. ab_clean_equity account)
               || negb (cs_observed_buying_power authority
                        ==. ar_buying_power (bk_account (sn_account_book snapshot)))
               ||| (available ← dmin (op_maximum_position_loss policy) remaining;
                    Ok (negb (cs_available_risk authority ==. available)))
          then_ refuse "CANDIDATE_AUTHORITY_MISMATCH";;
          expected ← select_vertical_candidate account_dump snapshot policy direction
                       requested_maximum_quantity authority;
          when negb (selection_eq selection expected) then_ refuse "CANDIDATE_SELECTION_MISMATCH";;
          when negb (bool_decide (cr_reason selection ∈
                 [SELECTED; NO_ELIGIBLE_STRUCTURE; RISK_AUTHORITY_INSUFFICIENT]))
          then_ refuse "CANDIDATE_SELECTION_INVALID";;
          when Bool.eqb (bool_decide (cr_reason selection = SELECTED))
                 (bool_decide (cr_candidate selection = None))
          then_ refuse "CANDIDATE_SELECTION_INVALID";;
          Ok (cr_candidate selection)
      | _, _ => refuse "CANDIDATE_SELECTION_INVALID"
      end
  end.

(** ** Canonical values *)

Definition value_of_DecimalSignalAuthority (v : DecimalSignalAuthority) : value :=
  VDataclass
    [("value", VDecimal (ds_value v)); ("observed_at", VDatetime (ds_observed_at v));
     ("source_hash", VStr (ds_source_hash v))].

Definition value_of_TrendSignalAuthority (v : TrendSignalAuthority) : value :=
  VDataclass
    [("bull_hits", VInt (ts_bull_hits v)); ("bear_hits", VInt (ts_bear_hits v));
     ("observed_at", VDatetime (ts_observed_at v)); ("source_hash", VStr (ts_source_hash v))].

Definition value_of_OpportunitySignalAuthority (v : OpportunitySignalAuthority) : value :=
  VDataclass
    [("snapshot_source_hash", VStr (sa_snapshot_source_hash v));
     ("calculation_source_hash", VStr (sa_calculation_source_hash v));
     ("beta", value_of_DecimalSignalAuthority (sa_beta v));
     ("vwap_distance", value_of_DecimalSignalAuthority (sa_vwap_distance v));
     ("relative_return", value_of_DecimalSignalAuthority (sa_relative_return v));
     ("trend", value_of_TrendSignalAuthority (sa_trend v));
     ("absolute_first_reaction", value_of_DecimalSignalAuthority (sa_absolute_first_reaction v));
     ("trading_halt_state", VHalt (sa_trading_halt_state v));
     ("trading_status_observed_at", VDatetime (sa_trading_status_observed_at v));
     ("trading_status_source_hash", VStr (sa_trading_status_source_hash v))].

Definition value_of_CatalystAuthority (v : CatalystAuthority) : value :=
  VDataclass
    [("opportunity_key", VStr (ca_opportunity_key v)); ("quality", VEnum (enum_value (ca_quality v)));
     ("score", VInt (ca_score v)); ("observed_at", VDatetime (ca_observed_at v));
     ("source_hash", VStr (ca_source_hash v))].

Definition value_of_AccountBudgetAuthority (v : AccountBudgetAuthority) : value :=
  VDataclass
    [("account_role", VEnum (enum_value (ab_account_role v)));
     ("account_fingerprint", VStr (ab_account_fingerprint v));
     ("snapshot_book_source_hash", VStr (ab_snapshot_book_source_hash v));
     ("observed_at", VDatetime (ab_observed_at v)); ("baseline_clean", VBool (ab_baseline_clean v));
     ("baseline_source_hash", VStr (ab_baseline_source_hash v));
     ("book_fingerprint", VStr (ab_book_fingerprint v));
     ("book_source_hash", VStr (ab_book_source_hash v));
     ("clean_equity", VDecimal (ab_clean_equity v));
     ("open_position_count", VInt (ab_open_position_count v));
     ("open_order_count", VInt (ab_open_order_count v));
     ("filled_entry_count", VInt (ab_filled_entry_count v));
     ("lifetime_approved_risk", VDecimal (ab_lifetime_approved_risk v));
     ("entry_reservation_active", VBool (ab_entry_reservation_active v));
     ("reserved_approved_risk", VDecimal (ab_reserved_approved_risk v));
     ("event_already_attempted", VBool (ab_event_already_attempted v));
     ("history_source_hash", VStr (ab_history_source_hash v))].

Definition value_of_PriorDecisionAuthority (v : PriorDecisionAuthority) : value :=
  VDataclass
    [("opportunity_key", VStr (pa_opportunity_key v));
     ("decision_boundary", VDatetime (pa_decision_boundary v));
     ("outcome", of_option (fun outcome => VEnum (enum_value outcome)) (pa_outcome v));
     ("observed_at", VDatetime (pa_observed_at v)); ("source_hash", VStr (pa_source_hash v))].

Definition value_of_OpportunitySnapshotRequest (v : OpportunitySnapshotRequest) : value :=
  VDataclass
    [("expected_account_fingerprint", VStr (sr_expected_account_fingerprint v));
     ("underlying", VStr (sr_underlying v)); ("benchmark", VStr (sr_benchmark v));
     ("decision_boundary", VDatetime (sr_decision_boundary v));
     ("minimum_expiry", VDate (sr_minimum_expiry v)); ("maximum_expiry", VDate (sr_maximum_expiry v));
     ("minimum_strike", VDecimal (sr_minimum_strike v));
     ("maximum_strike", VDecimal (sr_maximum_strike v));
     ("account_role", VEnum (enum_value (sr_account_role v)));
     ("maximum_contracts", VInt (sr_maximum_contracts v));
     ("maximum_quote_age", VTimedelta (sr_maximum_quote_age v));
     ("maximum_quote_skew", VTimedelta (sr_maximum_quote_skew v))].

Definition value_of_CandidateSelectionAuthority (v : CandidateSelectionAuthority) : value :=
  VDataclass
    [("snapshot_request_hash", VStr (cs_snapshot_request_hash v));
     ("snapshot_source_hash", VStr (cs_snapshot_source_hash v));
     ("account_fingerprint", VStr (cs_account_fingerprint v));
     ("observed_equity", VDecimal (cs_observed_equity v));
     ("observed_buying_power", VDecimal (cs_observed_buying_power v));
     ("available_risk", VDecimal (cs_available_risk v));
     ("available_buying_power", VDecimal (cs_available_buying_power v));
     ("greek_unit_convention", VEnum (enum_value (cs_greek_unit_convention v)));
     ("greek_unit_evidence_hash", VStr (cs_greek_unit_evidence_hash v))].

Definition value_of_CandidateSelectionResult (v : CandidateSelectionResult) : value :=
  VDataclass
    [("candidate", of_option value_of_VerticalCandidate (cr_candidate v));
     ("reason", VEnum (enum_value (cr_reason v)))].

(** [_canonical_value]; [inside]: within a dataclass, whose dataclasses [asdict] has made
    dictionaries.  Of a dictionary the empty [maximum_limit] is left out. *)
Fixpoint _canonical_value (inside : bool) (v : value) : M doc :=
  let members drop inside :=
    fix go l :=
      match l with
      | [] => Ok []
      | (name, x) :: l =>
          if drop && (String.eqb name "maximum_limit" && is_none x) then go l
          else d ← _canonical_value inside x; ds ← go l; Ok ((name, d) :: ds)
      end in
  let elements :=
    fix go l :=
      match l with
      | [] => Ok []
      | x :: l => d ← _canonical_value inside x; ds ← go l; Ok (d :: ds)
      end in
  match v with
  | VHalt state => Ok (DJson (JStr (enum_value state)))
  | VEnum text => Ok (DJson (JStr text))
  | VDecimal d =>
      if is_finite d then Ok (DJson (JStr (canonical_decimal d)))
      else refuse "NONFINITE_AUTHORITY_VALUE"
  | VDatetime t =>
      t ← _utc t "AUTHORITY_TIME_INVALID"; Ok (DJson (JStr (isoformat_with true t)))
  | VDate d => Ok (DJson (JStr (date_isoformat d)))
  | VDataclass fields => ds ← members inside true fields; Ok (DObj ds)
  | VDict items => ds ← members true inside items; Ok (DObj ds)
  | VTuple items | VList items => ds ← elements items; Ok (DArr ds)
  | VTimedelta td => Ok (DSeconds td)
  | VNone => Ok (DJson JNull)
  | VBool b => Ok (DJson (JBool b))
  | VInt n => Ok (DJson (JInt n))
  | VStr s => Ok (DJson (JStr s))
  end.

Definition _canonical_hash (domain : string) (v : value) : M string :=
  d ← _canonical_value false v;
  Ok (sha256_hex (doc_dumps (DObj [("domain", DJson (JStr domain)); ("value", d)]))).

(** ** The assembly *)

(** The checks before the selection, in the order of the source. *)
Definition _validate_authorities (request : OpportunitySnapshotRequest)
    (snapshot : OpportunityMarketSnapshot) (policy : OpportunityPolicy)
    (signals : OpportunitySignalAuthority) (catalyst : CatalystAuthority)
    (account : AccountBudgetAuthority) (prior_decision : PriorDecisionAuthority) : M unit :=
  _ ← _validate_snapshot request snapshot policy;
  _ ← _validate_signals signals snapshot policy;
  _ ← _validate_catalyst catalyst snapshot policy;
  _ ← _validate_account account snapshot;
  _validate_prior_decision prior_decision snapshot policy.

Definition signal_direction (policy : OpportunityPolicy) (signals : OpportunitySignalAuthority)
    : M (option OpportunityDirection) :=
  derive_opportunity_direction policy (ds_value (sa_vwap_distance signals))
    (ds_value (sa_relative_return signals)) (ts_bull_hits (sa_trend signals))
    (ts_bear_hits (sa_trend signals)).

Definition input_values (snapshot : OpportunityMarketSnapshot) (policy : OpportunityPolicy)
    (signals : OpportunitySignalAuthority) (catalyst : CatalystAuthority)
    (account : AccountBudgetAuthority) (prior_decision : PriorDecisionAuthority)
    (candidate : option VerticalCandidate) (underlying_observed_at : datetime) : OpportunityInput :=
  {| oi_opportunity_key := op_opportunity_key policy; oi_underlying := op_underlying policy;
     oi_observed_decision_boundary := op_selected_decision_boundary policy;
     oi_evaluated_at := sn_trusted_at snapshot;
     oi_completed_bar_at := ob_completed_at (sn_underlying_bar snapshot);
     oi_decision_boundary_complete := true;
     oi_prior_decision_outcome := pa_outcome prior_decision; oi_data_quality := DQ_COMPLETE;
     oi_market_open := ms_market_open (sn_session snapshot);
     oi_trading_halted := sa_trading_halt_state signals;
     oi_underlying_observed_at := underlying_observed_at;
     oi_catalyst_observed_at := ca_observed_at catalyst; oi_catalyst_quality := ca_quality catalyst;
     oi_catalyst_score := ca_score catalyst;
     oi_vwap_distance := ds_value (sa_vwap_distance signals);
     oi_relative_return := ds_value (sa_relative_return signals);
     oi_beta := ds_value (sa_beta signals); oi_bull_trend_hits := ts_bull_hits (sa_trend signals);
     oi_bear_trend_hits := ts_bear_hits (sa_trend signals);
     oi_absolute_first_reaction := ds_value (sa_absolute_first_reaction signals);
     oi_candidate := candidate;
     oi_account :=
       {| ac_account_role := ab_account_role account;
          ac_book_fingerprint := ab_book_fingerprint account;
          ac_baseline_clean := ab_baseline_clean account;
          ac_clean_equity := ab_clean_equity account;
          ac_open_position_count := ab_open_position_count account;
          ac_open_order_count := ab_open_order_count account;
          ac_filled_entry_count := ab_filled_entry_count account;
          ac_lifetime_approved_risk := ab_lifetime_approved_risk account;
          ac_entry_reservation_active := ab_entry_reservation_active account;
          ac_reserved_approved_risk := ab_reserved_approved_risk account;
          ac_event_already_attempted := ab_event_already_attempted account |} |}.

(** The times of the evidence on the underlying, of which the latest is taken. *)
Definition underlying_times (signals : OpportunitySignalAuthority) : list datetime :=
  [ds_observed_at (sa_beta signals); ds_observed_at (sa_vwap_distance signals);
   ds_observed_at (sa_relative_return signals); ts_observed_at (sa_trend signals);
   ds_observed_at (sa_absolute_first_reaction signals); sa_trading_status_observed_at signals].

Definition assemble_opportunity_input (request : OpportunitySnapshotRequest)
    (snapshot : OpportunityMarketSnapshot) (policy : OpportunityPolicy)
    (requested_maximum_quantity : Z) (selection_authority : option CandidateSelectionAuthority)
    (selection : option CandidateSelectionResult) (signals : OpportunitySignalAuthority)
    (catalyst : CatalystAuthority) (account : AccountBudgetAuthority)
    (prior_decision : PriorDecisionAuthority) : M OpportunityInputAssembly :=
  _ ← _validate_authorities request snapshot policy signals catalyst account prior_decision;
  direction ← signal_direction policy signals;
  candidate ← _validate_selection snapshot policy direction requested_maximum_quantity
                selection_authority selection account;
  underlying_observed_at ← extreme dt_max (underlying_times signals);
  let values := input_values snapshot policy signals catalyst account prior_decision candidate
                  underlying_observed_at in
  policy_hash ← opportunity_policy_hash policy;
  authority_hash ← _canonical_hash "alphadecay.opportunity.input-authority.v1"
    (VDict
       [("snapshot_source_hash", VStr (sn_source_hash snapshot));
        ("snapshot_request", value_of_OpportunitySnapshotRequest request);
        ("policy_hash", VStr policy_hash);
        ("selection_direction", of_option (fun d => VEnum (enum_value d)) direction);
        ("requested_maximum_quantity", VInt requested_maximum_quantity);
        ("selection_authority", of_option value_of_CandidateSelectionAuthority selection_authority);
        ("selection", of_option value_of_CandidateSelectionResult selection);
        ("signals", value_of_OpportunitySignalAuthority signals);
        ("catalyst", value_of_CatalystAuthority catalyst);
        ("account", value_of_AccountBudgetAuthority account);
        ("prior_decision", value_of_PriorDecisionAuthority prior_decision);
        ("values", value_of_OpportunityInput values)]);
  Ok {| as_values := values; as_policy_hash := policy_hash; as_authority_hash := authority_hash |}.

(** ** Selecting, assembling and deciding

    The part of [ProductionOpportunityComposer._acquire] between the collection of the evidence
    and the record of the observation, without the translation of errors by [_stage]. *)

Definition compose_selection (snapshot : OpportunityMarketSnapshot) (policy : OpportunityPolicy)
    (requested_maximum_quantity : Z) (greek_convention : GreekUnitConvention)
    (greek_evidence_hash : string) (account : AccountBudgetAuthority)
    (direction : option OpportunityDirection)
    : M (option CandidateSelectionAuthority * option CandidateSelectionResult) :=
  match direction with
  | None => Ok (None, None)
  | Some direction =>
      remaining_risk ← remaining_lifetime_risk policy account;
      available_risk ← dmin (op_maximum_position_loss policy) remaining_risk;
      let buying_power := ar_buying_power (bk_account (sn_account_book snapshot)) in
      let authority :=
        {| cs_snapshot_request_hash := sn_request_hash snapshot;
           cs_snapshot_source_hash := sn_source_hash snapshot;
           cs_account_fingerprint := ab_account_fingerprint account;
           cs_observed_equity := ab_clean_equity account;
           cs_observed_buying_power := buying_power; cs_available_risk := available_risk;
           cs_available_buying_power := buying_power;
           cs_greek_unit_convention := greek_convention;
           cs_greek_unit_evidence_hash := greek_evidence_hash |} in
      selection ← select_vertical_candidate account_dump snapshot policy direction
                    requested_maximum_quantity authority;
      Ok (Some authority, Some selection)
  end.

Definition compose_decision (request : OpportunitySnapshotRequest)
    (snapshot : OpportunityMarketSnapshot) (policy : OpportunityPolicy)
    (requested_maximum_quantity : Z) (greek_convention : GreekUnitConvention)
    (greek_evidence_hash : string) (signals : OpportunitySignalAuthority)
    (catalyst : CatalystAuthority) (account : AccountBudgetAuthority)
    (prior_decision : PriorDecisionAuthority)
    : M (OpportunityInputAssembly * OpportunityDecisionRecord) :=
  direction ← signal_direction policy signals;
  '(selection_authority, selection) ←
    compose_selection snapshot policy requested_maximum_quantity greek_convention
      greek_evidence_hash account direction;
  assembly ← assemble_opportunity_input request snapshot policy requested_maximum_quantity
               selection_authority selection signals catalyst account prior_decision;
  decision ← evaluate_opportunity policy (as_values assembly);
  Ok (assembly, decision).
End Assembly.
