(* ===== verification/InputFacts.v ===== *)
(** * What can still refuse an assembled opportunity

    The checks of [InputAssembly] establish most of what the gates of the policy ask for: of the
    reasons it can give, only the [remaining_reasons] are left to a decision the composition reaches. *)

From Stdlib Require Import ZArith Lia String Ascii List Bool QArith Qabs Lqa.
From stdpp Require Import base strings option tactics list.
From S2P Require Import Prelude PyText PyDecimal PyDecimalFacts PyTime PyRounding PyHash Contracts OptionSymbol OrderLimits Exposure OpportunityData Opportunity Snapshot Selection SelectionFacts SelectionSafety InputAssembly.

#[local] Open Scope string_scope.
#[local] Open Scope Z_scope.

(** The reasons of a decision on an assembled input. *)
Definition remaining_reasons : list OpportunityReason :=
  [ENTRY_APPROVED; POLICY_SCOPE_MISMATCH; PRIOR_DECISION_BINDING; NORMALIZED_INPUT_INVALID;
   MARKET_CLOSED; TRADING_HALT_STATUS_UNKNOWN; TRADING_HALTED; CATALYST_DATA_MISSING;
   CATALYST_CONTRADICTED; CATALYST_SCORE_BELOW_MINIMUM; BETA_OUT_OF_BOUNDS;
   FIRST_REACTION_OUT_OF_SUPPORT; DIRECTION_NOT_CONFIRMED; OPTION_CANDIDATE_MISSING;
   EQUITY_FLOOR_REACHED; ENTRY_RESERVATION_ACTIVE; LIFETIME_ENTRY_LIMIT_REACHED;
   ENTRY_WINDOW_CLOSED].

Definition one_of_remaining (r : OpportunityDecisionRecord) : Prop :=
  exists reason, od_reason_codes r = [reason] /\ reason ∈ remaining_reasons.

Lemma rejected_reason policy_hash input_hash candidate_hash values reason direction r :
  _rejected policy_hash input_hash candidate_hash values reason direction = Ok r ->
  reason ∈ remaining_reasons -> one_of_remaining r.
Proof.
  unfold _rejected, _record. intros H Hin. apply bind_ok in H as (h & _ & H). injection H as <-.
  by exists reason.
Qed.

Ltac remaining := unfold remaining_reasons; repeat first [left | right].

(** ** Times *)

Lemma _utc_ok t code t' : _utc t code = Ok t' -> is_utc t = true /\ dt_instant t' = dt_instant t /\ is_utc t' = true.
Proof.
  unfold _utc. intros H. apply guard_ok in H as [[_ H]|[Hu H]]; [discriminate|].
  apply lift_bool_ok, negb_false_iff in Hu. unfold astimezone_utc in H. case_match; [|discriminate].
  injection H as <-. unfold dt_instant at 1. cbn. rewrite Z.sub_0_r. done.
Qed.

(** The freshness the assembly asks for is the policy's. *)
Lemma fresh_policy observed trusted maximum :
  is_utc trusted = true ->
  _fresh observed trusted maximum = Ok true -> _fresh_at observed trusted maximum = Ok true.
Proof.
  unfold _fresh, _fresh_at. intros Ut H. apply bind_ok in H as (o & Ho & H).
  apply _utc_ok in Ho as (Uo & Ei & Uo'). rewrite utc_sub, Ei in H by done. by rewrite utc_sub.
Qed.

(** The latest of fresh times is one of them. *)
Lemma extreme_in l t : extreme dt_max l = Ok t -> t ∈ l.
Proof.
  destruct l as [|x l]; [discriminate|]. cbn [extreme]. revert x.
  induction l as [|y l IH]; intros x H; cbn [fold_m] in H; [injection H as <-; left|].
  apply bind_ok in H as (m & Hm & H). apply IH in H. unfold dt_max in Hm.
  apply bind_ok in Hm as (c & _ & Hm). injection Hm as Hm. apply elem_of_cons in H as [->|H]; [|by do 2 right].
  destruct c; subst; [right; left|left].
Qed.

(** ** What the checks establish *)

Record snapshot_facts (snapshot : OpportunityMarketSnapshot) (policy : OpportunityPolicy) : Prop := {
  sf_trusted : is_utc (sn_trusted_at snapshot) = true;
  sf_completed : dt_eq (ob_completed_at (sn_underlying_bar snapshot))
                   (op_selected_decision_boundary policy) = true;
  sf_reached : dt_lt (sn_trusted_at snapshot) (op_selected_decision_boundary policy) = Ok false;
  sf_delay : (delay ← dt_sub (sn_trusted_at snapshot) (op_selected_decision_boundary policy);
              Ok (op_maximum_decision_delay policy <? delay)) = Ok false;
}.

Lemma validate_snapshot_inv account_dump new_york_date request snapshot policy u :
  _validate_snapshot account_dump new_york_date request snapshot policy = Ok u ->
  snapshot_facts snapshot policy.
Proof.
  unfold _validate_snapshot. intros H. apply bind_ok in H as (? & _ & H).
  apply bind_ok in H as (t & Ht & H). apply guard_raise_ok in H as [_ H].
  apply guard_raise_ok in H as [Hs _]. apply _utc_ok in Ht as (Ut & _).
  unfold scope_or_time_mismatch in Hs. cbv zeta in Hs. rewrite !or_m_false in Hs. destruct_and! Hs.
  constructor; try done.
  match goal with H : lift_bool (negb (dt_eq (ob_completed_at (sn_underlying_bar _)) _)) = _ |- _ =>
    by apply lift_bool_ok, negb_false_iff in H end.
Qed.

Record signal_facts (signals : OpportunitySignalAuthority) (snapshot : OpportunityMarketSnapshot)
    (policy : OpportunityPolicy) : Prop := {
  gf_fresh : forall t, t ∈ underlying_times signals ->
    _fresh t (sn_trusted_at snapshot) (op_maximum_underlying_age policy) = Ok true;
}.

Lemma validate_signals_inv signals snapshot policy u :
  _validate_signals signals snapshot policy = Ok u -> signal_facts signals snapshot policy.
Proof.
  unfold _validate_signals. intros H. inv_seq H. constructor. intros t Ht.
  match goal with H : any_m _ _ = Ok false |- _ => apply any_m_false in H; rename H into HF end.
  rewrite Forall_forall in HF. specialize (HF t). apply or_m_false in HF as [_ HF]; [by apply not_m_false|].
  unfold underlying_times in Ht. unfold decimal_signals. cbn [map app].
  rewrite !elem_of_cons in Ht |- *. naive_solver.
Qed.

Record account_facts (account : AccountBudgetAuthority) (snapshot : OpportunityMarketSnapshot) : Prop := {
  af_role : is_executable_role (ab_account_role account) = true;
  af_hash : is_hash (ab_book_fingerprint account) = true;
  af_finite : finite (ab_clean_equity account) /\ finite (ab_lifetime_approved_risk account) /\
    finite (ab_reserved_approved_risk account);
  af_equity : (ab_clean_equity account <=. Dint 0) = Ok false;
  af_counts : 0 <= ab_open_position_count account /\ 0 <= ab_open_order_count account /\
    0 <= ab_filled_entry_count account;
  af_lifetime : (ab_lifetime_approved_risk account <. Dint 0) = Ok false;
  af_reserved : (ab_reserved_approved_risk account <. Dint 0) = Ok false;
  af_unreserved : negb (ab_entry_reservation_active account)
    && negb (ab_reserved_approved_risk account ==. Dint 0) = false;
  af_orders : ab_open_order_count account
    = Z.of_nat (length (bk_open_orders (sn_account_book snapshot)));
}.

Lemma validate_account_inv account snapshot u :
  _validate_account account snapshot = Ok u -> account_facts account snapshot.
Proof.
  unfold _validate_account. intros H. apply guard_raise_ok in H as [H1 H].
  apply guard_raise_ok in H as [H2 H]. apply guard_raise_ok in H as [H3 _].
  apply lift_bool_ok in H1, H2. cbn [existsb] in H2. rewrite !or_m_false in H3.
  destruct_and! H3. cbn [existsb] in *.
  repeat match goal with H : lift_bool _ = Ok _ |- _ => apply lift_bool_ok in H end.
  rewrite !orb_false_iff, !negb_false_iff in *. inv_all. zbool.
  constructor; try done; try lia.
Qed.

(** *** The candidate and its loss *)

(** The amounts of the composition: money and quotes in millionths of a dollar. *)
Record money_grid (snapshot : OpportunityMarketSnapshot) (policy : OpportunityPolicy)
    (account : AccountBudgetAuthority) : Prop := {
  mg_equity : dollars (ab_clean_equity account);
  mg_buying_power : dollars (ar_buying_power (bk_account (sn_account_book snapshot)));
  mg_lifetime : dollars (ab_lifetime_approved_risk account);
  mg_reserved : dollars (ab_reserved_approved_risk account);
  mg_maximum_lifetime : dollars (op_maximum_lifetime_risk policy);
  mg_position : dollars (op_maximum_position_loss policy);
  mg_fraction : amount (-6) (10 ^ 6) (op_maximum_equity_risk_fraction policy);
  mg_spread : repr (dval (op_maximum_relative_spread policy));
  mg_quotes : Forall quote_cash (sn_options snapshot);
}.

Lemma available_risk_inv snapshot policy account remaining available :
  money_grid snapshot policy account ->
  (0 <= dval (ab_reserved_approved_risk account))%Q ->
  remaining_lifetime_risk policy account = Ok remaining ->
  dmin (op_maximum_position_loss policy) remaining = Ok available ->
  amount (-6) (10 ^ 16) available /\
  forall loss, (0 < loss)%Q -> (loss <= dval available)%Q ->
    (dval (ab_lifetime_approved_risk account) + loss <= dval (op_maximum_lifetime_risk policy))%Q.
Proof.
  intros G Pr H Ha. unfold remaining_lifetime_risk in H.
  apply bind_ok in H as (l1 & E1 & H). apply bind_ok in H as (l2 & E2 & H).
  destruct (amount_sub (-6) _ _ _ _ (mg_maximum_lifetime _ _ _ G) (mg_lifetime _ _ _ G)
    ltac:(reflexivity) cash_exp) as (r1 & F1 & A1 & V1).
  assert (r1 = l1) as -> by congruence.
  destruct (amount_sub (-6) _ _ _ _ A1 (mg_reserved _ _ _ G) ltac:(reflexivity) cash_exp) as (r2 & F2 & A2 & V2).
  assert (r2 = l2) as -> by congruence.
  destruct (amount_max0 (-6) (10 ^ 15 + 10 ^ 15 + 10 ^ 15) _ ltac:(lia) cash_exp A2) as (r & F & A & V).
  assert (r = remaining) as -> by congruence.
  pose proof (amount_weaken _ _ (10 ^ 16) _ (mg_position _ _ _ G) ltac:(lia)) as Ap.
  destruct (min_amount (-6) (10 ^ 16) _ _ _ Ap (amount_weaken _ _ (10 ^ 16) _ A ltac:(lia)) Ha)
    as (Aa & _ & La).
  split; [done|]. intros loss Pl Ll. rewrite V in La.
  destruct (Qlt_le_dec 0 (dval l2)) as [Hp|Hn].
  - rewrite (Qminmax.Q.max_r 0 (dval l2)) in La by lra. rewrite V2, V1 in La. lra.
  - rewrite (Qminmax.Q.max_l 0 (dval l2)) in La by lra. lra.
Qed.

(** The account the policy sees. *)
Definition account_of (account : AccountBudgetAuthority) (values : OpportunityInput) : Prop :=
  let state := oi_account values in
  ac_account_role state = ab_account_role account /\
  ac_book_fingerprint state = ab_book_fingerprint account /\
  ac_clean_equity state = ab_clean_equity account /\
  ac_open_position_count state = ab_open_position_count account /\
  ac_open_order_count state = ab_open_order_count account /\
  ac_filled_entry_count state = ab_filled_entry_count account /\
  ac_lifetime_approved_risk state = ab_lifetime_approved_risk account /\
  ac_entry_reservation_active state = ab_entry_reservation_active account /\
  ac_reserved_approved_risk state = ab_reserved_approved_risk account.

Lemma account_state_valid account snapshot :
  account_facts account snapshot ->
  negb (is_finite (ab_clean_equity account))
  ||| (ab_clean_equity account <=. Dint 0)
  ||| (ab_open_position_count account <? 0)
  ||| (ab_open_order_count account <? 0)
  ||| (ab_filled_entry_count account <? 0)
  ||| negb (is_finite (ab_lifetime_approved_risk account))
  ||| (ab_lifetime_approved_risk account <. Dint 0)
  ||| negb (is_finite (ab_reserved_approved_risk account))
  ||| (ab_reserved_approved_risk account <. Dint 0)
  ||| (negb (ab_entry_reservation_active account)
       && negb (ab_reserved_approved_risk account ==. Dint 0)) = Ok false.
Proof.
  intros F. destruct (af_finite _ _ F) as (F1 & F2 & F3), (af_counts _ _ F) as (C1 & C2 & C3).
  rewrite !or_m_false. unfold lift_bool, finite in *. rewrite F1, F2, F3.
  rewrite !(proj2 (Z.ltb_ge _ 0)) by done. rewrite (af_unreserved _ _ F). destruct F. done.
Qed.

(** What is left for the account to refuse a loss within its budgets. *)
Lemma account_reason policy account snapshot values loss reason :
  account_facts account snapshot -> account_of account values -> ab_open_order_count account = 0 ->
  (total ← dadd (ab_lifetime_approved_risk account) loss; total >. op_maximum_lifetime_risk policy) = Ok false ->
  (forall cap, (equity_cap ← dmul (ab_clean_equity account) (op_maximum_equity_risk_fraction policy);
                dmin (op_maximum_position_loss policy) equity_cap) = Ok cap -> (loss >. cap) = Ok false) ->
  _account_failure policy values loss = Ok (Some reason) -> reason ∈ remaining_reasons.
Proof.
  intros F (E1 & E2 & E3 & E4 & E5 & E6 & E7 & E8 & E9) Ho Hl Hp.
  unfold _account_failure. rewrite E1, E2, E3, E4, E5, E6, E7, E8, E9, (af_hash _ _ F), (account_state_valid _ _ F), Ho, Hl.
  assert (bool_decide (ab_account_role account = REPLAY) = false) as ->.
  { apply bool_decide_false. intros E. pose proof (af_role _ _ F) as Hr. by rewrite E in Hr. }
  cbn [negb Z.eqb]. rewrite !guard_false by done. cbn [guard_m mbind M_bind].
  intros H. apply guard_ok in H as [[_ H]|[_ H]]; [injection H as <-; remaining|].
  apply guard_ok in H as [[_ H]|[_ H]]; [injection H as <-; remaining|].
  apply guard_ok in H as [[_ H]|[_ H]]; [injection H as <-; remaining|].
  apply bind_ok in H as (c & Ec & H). apply bind_ok in H as (cap & Em & H).
  specialize (Hp cap). rewrite Ec in Hp. cbn [mbind M_bind] in Hp. rewrite (Hp Em) in H. cbn [guard_m mbind M_bind] in H.
  apply guard_ok in H as [[_ H]|[_ H]]; [injection H as <-; remaining|discriminate].
Qed.

(** The loss of a selected candidate, against the account's budgets. *)
Lemma loss_within snapshot policy account authority remaining loss :
  money_grid snapshot policy account -> account_facts account snapshot ->
  remaining_lifetime_risk policy account = Ok remaining ->
  dmin (op_maximum_position_loss policy) remaining = Ok (cs_available_risk authority) ->
  cs_observed_equity authority = ab_clean_equity account ->
  amount (-6) (10 ^ 25) loss -> (0 < dval loss)%Q -> under_caps policy authority (dval loss) ->
  (total ← dadd (ab_lifetime_approved_risk account) loss; total >. op_maximum_lifetime_risk policy) = Ok false /\
  (forall cap, (equity_cap ← dmul (ab_clean_equity account) (op_maximum_equity_risk_fraction policy);
                dmin (op_maximum_position_loss policy) equity_cap) = Ok cap -> (loss >. cap) = Ok false).
Proof.
  intros G F Er Ea Ee Al Pl (Hpos & Heq & Hrisk & _). rewrite Ee in Heq.
  assert (0 <= dval (ab_reserved_approved_risk account))%Q as Pr.
  { pose proof (af_reserved _ _ F) as H. apply dlt_ok_false in H; [|apply (af_finite _ _ F)|done].
    by rewrite dval_Dint in H. }
  destruct (available_risk_inv _ _ _ _ _ G Pr Er Ea) as [_ Hlife]. specialize (Hlife _ Pl Hrisk).
  split.
  - destruct (amount_add (-6) _ _ _ _ (mg_lifetime _ _ _ G) Al ltac:(reflexivity) cash_exp)
      as (t & -> & At & Vt). cbn [mbind M_bind]. apply dlt_ok_false; [apply G|apply At|]. by rewrite Vt.
  - intros cap Hc. apply bind_ok in Hc as (c & Ec & Hc).
    apply (amount_times _ _ _ _ _ _ _ (mg_equity _ _ _ G) (mg_fraction _ _ _ G)) in Ec as [Ac Vc];
      [|reflexivity|split; [discriminate|lia]].
    destruct (dmin_spec (op_maximum_position_loss policy) c) as (m & Em & Fm & Hm & _); [apply G|apply Ac|].
    assert (m = cap) as -> by congruence. apply dlt_ok_false; [done|apply Al|].
    destruct Hm as [->| ->]; [done|]. by rewrite Vc.
Qed.

(** ** The decision *)

(** The gates an assembled input has passed already. *)
Record assembled (policy : OpportunityPolicy) (values : OpportunityInput) : Prop := {
  am_boundary : dt_eq (oi_observed_decision_boundary values) (op_selected_decision_boundary policy) = true;
  am_complete : oi_decision_boundary_complete values = true /\
    dt_eq (oi_completed_bar_at values) (oi_observed_decision_boundary values) = true;
  am_reached : dt_lt (oi_evaluated_at values) (oi_observed_decision_boundary values) = Ok false;
  am_delay : (delay ← dt_sub (oi_evaluated_at values) (oi_observed_decision_boundary values);
              Ok (op_maximum_decision_delay policy <? delay)) = Ok false;
  am_quality : oi_data_quality values = DQ_COMPLETE;
  am_underlying : _fresh_at (oi_underlying_observed_at values) (oi_evaluated_at values)
                    (op_maximum_underlying_age policy) = Ok true;
  am_catalyst : _fresh_at (oi_catalyst_observed_at values) (oi_evaluated_at values)
                  (op_maximum_catalyst_age policy) = Ok true;
  am_candidate : forall direction candidate,
    derive_opportunity_direction policy (oi_vwap_distance values) (oi_relative_return values)
      (oi_bull_trend_hits values) (oi_bear_trend_hits values) = Ok (Some direction) ->
    oi_candidate values = Some candidate ->
    vc_strategy candidate ∈ _DIRECTION_STRATEGIES direction /\
    _option_candidate_failure policy values candidate = Ok None /\
    forall loss reason, _approved_max_loss candidate = Ok loss ->
      _account_failure policy values loss = Ok (Some reason) -> reason ∈ remaining_reasons;
}.

(** A gate: it refuses for one of the reasons left, or it has passed. *)
Ltac gate H :=
  apply guard_ok in H as [[_ H]|[_ H]]; [by apply rejected_reason in H; [|remaining]|].

Lemma evaluate_reasons policy values r :
  assembled policy values -> evaluate_opportunity policy values = Ok r -> one_of_remaining r.
Proof.
  intros A H. destruct (am_complete _ _ A) as [C1 C2]. unfold evaluate_opportunity in H.
  apply bind_ok in H as (policy_hash & _ & H). apply bind_ok in H as (input_hash & _ & H).
  apply bind_ok in H as (candidate_hash & _ & H). cbv zeta in H.
  gate H. gate H. rewrite (am_boundary _ _ A) in H. rewrite guard_false in H by done.
  rewrite C1, C2 in H. rewrite guard_false in H by done.
  rewrite (am_reached _ _ A), (am_delay _ _ A) in H. cbn [guard_m mbind M_bind] in H.
  rewrite (am_quality _ _ A) in H. rewrite guard_false in H by done.
  do 4 gate H.
  rewrite (am_underlying _ _ A), (am_catalyst _ _ A) in H. cbn [not_m guard_m mbind M_bind negb] in H.
  do 5 gate H.
  apply bind_ok in H as ([direction|] & Hd & H); [|by apply rejected_reason in H; [|remaining]].
  destruct (oi_candidate values) as [candidate|] eqn:Ec; [|by apply rejected_reason in H; [|remaining]].
  destruct (am_candidate _ _ A _ _ Hd Ec) as (Hs & Hf & Hr).
  rewrite bool_decide_true in H by done. rewrite guard_false in H by done. rewrite Hf in H.
  cbn [mbind M_bind] in H. apply bind_ok in H as (loss & El & H).
  apply bind_ok in H as ([reason|] & Ha & H); [by eapply rejected_reason; [|eapply Hr]|].
  unfold _record in H. apply bind_ok in H as (h & _ & H). injection H as <-.
  eexists. split; [done|]. remaining.
Qed.

Section Composition.
Context (account_dump : AccountResponse -> json) (new_york_date : datetime -> date).
Context (request : OpportunitySnapshotRequest) (snapshot : OpportunityMarketSnapshot)
  (policy : OpportunityPolicy) (requested : Z) (convention : GreekUnitConvention)
  (evidence_hash : string) (signals : OpportunitySignalAuthority) (catalyst : CatalystAuthority)
  (account : AccountBudgetAuthority) (prior : PriorDecisionAuthority).
Hypothesis Hpolicy : make_OpportunityPolicy policy = Ok policy.
Hypothesis Hgrid : money_grid snapshot policy account.

Lemma validate_selection_inv direction authority selection candidate :
  _validate_selection account_dump snapshot policy direction requested authority selection account
    = Ok (Some candidate) ->
  selection = Some (mk_CandidateSelectionResult (Some candidate) SELECTED).
Proof.
  unfold _validate_selection. intros H. apply guard_raise_ok in H as [_ H].
  destruct direction, authority, selection as [s|]; try discriminate.
  inv_seq H. injection H as H.
  match goal with H : lift_bool (Bool.eqb _ _) = Ok false |- _ => apply lift_bool_ok in H; rename H into Hx end.
  destruct s as [chosen why]. cbn in *. subst chosen. rewrite (bool_decide_false (Some candidate = None)) in Hx by done.
  by destruct (bool_decide_reflect (why = SELECTED)) as [->|].
Qed.

Lemma selection_without_orders direction authority candidate :
  select_vertical_candidate account_dump snapshot policy direction requested authority
    = Ok (mk_CandidateSelectionResult (Some candidate) SELECTED) ->
  length (bk_open_orders (sn_account_book snapshot)) = 0%nat.
Proof.
  unfold select_vertical_candidate. intros H.
  apply guard_ok in H as [[_ H]|[_ H]]; [discriminate|].
  apply guard_ok in H as [[_ H]|[H _]]; [discriminate|]. apply not_m_false in H.
  unfold _snapshot_valid in H. apply guard_false_ok in H as [H _].
  unfold snapshot_refused in H. cbv zeta in H. rewrite !or_m_false in H. destruct_and! H.
  match goal with H : lift_bool (_ <? _)%nat = _ |- _ => apply lift_bool_ok, Nat.ltb_ge in H; lia end.
Qed.

(** The candidate that was selected passes its gates and fits the budgets. *)
Lemma selected_passes direction authority candidate remaining values :
  select_vertical_candidate account_dump snapshot policy direction requested authority
    = Ok (mk_CandidateSelectionResult (Some candidate) SELECTED) ->
  account_facts account snapshot ->
  cs_observed_equity authority = ab_clean_equity account ->
  cs_available_buying_power authority = ar_buying_power (bk_account (sn_account_book snapshot)) ->
  remaining_lifetime_risk policy account = Ok remaining ->
  dmin (op_maximum_position_loss policy) remaining = Ok (cs_available_risk authority) ->
  oi_underlying values = op_underlying policy -> oi_evaluated_at values = sn_trusted_at snapshot ->
  oi_observed_decision_boundary values = op_selected_decision_boundary policy ->
  account_of account values ->
  vc_strategy candidate ∈ _DIRECTION_STRATEGIES (selected_direction policy direction) /\
  _option_candidate_failure policy values candidate = Ok None /\
  forall loss reason, _approved_max_loss candidate = Ok loss ->
    _account_failure policy values loss = Ok (Some reason) -> reason ∈ remaining_reasons.
Proof.
  intros H F Ee Eb Er Ea Vu Ve Vb Va.
  assert (0 <= dval (ab_reserved_approved_risk account))%Q as Pr.
  { pose proof (af_reserved _ _ F) as Hr. apply dlt_ok_false in Hr; [|apply (af_finite _ _ F)|done].
    by rewrite dval_Dint in Hr. }
  assert (HG : on_grid snapshot policy authority).
  { destruct (available_risk_inv _ _ _ _ _ Hgrid Pr Er Ea) as [Ar _]. constructor; [|apply Hgrid..].
    constructor; [rewrite Ee; apply Hgrid|exact Ar|rewrite Eb; apply Hgrid|apply Hgrid|apply Hgrid]. }
  destruct (selected_sound _ _ _ _ _ _ Hpolicy HG _ H) as (Ut & Hh & item & <- & Hd & b & s & R).
  destruct (policy_ranges policy Hpolicy) as (_ & _ & _ & _ & _ & _ & _ & _ & Hmax).
  pose proof (ready_accepted _ _ _ _ _ _ values R Ut Hh Vu Ve Vb) as Hacc. split_and!; [done|done|].
  intros loss reason El Hf. apply candidate_accepted_inv in Hacc as HA.
  destruct (accepted_loss _ _ _ HA (proj2 Hmax) (ready_cash _ _ _ _ _ _ R))
    as (_ & _ & _ & loss' & _ & _ & _ & _ & El' & Al & _ & Pl & _).
  assert (loss' = loss) as -> by congruence.
  unfold MAX_STRUCTURAL_OPTION_QUANTITY in Hmax.
  destruct (ready_loss _ _ _ _ _ _ R ltac:(lia)) as (loss' & El'' & Hcaps).
  assert (loss' = loss) as -> by congruence.
  destruct (loss_within _ _ _ authority _ _ Hgrid F Er Ea Ee Al Pl Hcaps) as [H1 H2].
  eapply (account_reason policy account snapshot); try done.
  rewrite (af_orders _ _ F), (selection_without_orders _ _ _ H). done.
Qed.

(** The direction of a pilot that was selected is the direction that was derived. *)
Lemma derived_direction direction authority candidate :
  signal_direction policy signals = Ok (Some direction) ->
  select_vertical_candidate account_dump snapshot policy direction requested authority
    = Ok (mk_CandidateSelectionResult (Some candidate) SELECTED) ->
  selected_direction policy direction = direction.
Proof.
  unfold signal_direction, derive_opportunity_direction, selected_direction, select_vertical_candidate.
  destruct (structural_pilot_profile (op_opportunity_key policy)) as [p|]; [|done]. intros Hd H.
  apply guard_ok in H as [[_ H]|[_ H]]; [discriminate|].
  apply guard_ok in H as [[_ H]|[_ H]]; [discriminate|].
  apply guard_ok in H as [[_ H]|[_ H]]; [discriminate|].
  unfold _select_structural_pilot in H. apply guard_ok in H as [[_ H]|[H _]]; [discriminate|].
  apply lift_bool_ok, negb_false_iff in H. rewrite H in Hd. congruence.
Qed.

Lemma compose_assembled direction authority selection assembly :
  signal_direction policy signals = Ok direction ->
  compose_selection account_dump snapshot policy requested convention evidence_hash account direction
    = Ok (authority, selection) ->
  assemble_opportunity_input account_dump new_york_date request snapshot policy requested authority
    selection signals catalyst account prior = Ok assembly ->
  assembled policy (as_values assembly).
Proof.
  intros Hdir Hc H. unfold assemble_opportunity_input in H.
  apply bind_ok in H as (u & Hv & H). apply bind_ok in H as (direction' & Hdir' & H).
  assert (direction' = direction) as -> by congruence.
  apply bind_ok in H as (candidate & Hsel & H). apply bind_ok in H as (observed & Ho & H).
  apply bind_ok in H as (policy_hash & _ & H). apply bind_ok in H as (authority_hash & _ & H).
  injection H as <-. cbn [as_values]. unfold _validate_authorities in Hv.
  apply bind_ok in Hv as (? & Hsn & Hv). apply bind_ok in Hv as (? & Hsg & Hv).
  apply bind_ok in Hv as (? & Hct & Hv). apply bind_ok in Hv as (? & Hac & _).
  apply validate_snapshot_inv in Hsn as SF. apply validate_signals_inv in Hsg as [Hfresh].
  apply validate_account_inv in Hac as AF. apply extreme_in in Ho.
  pose proof (sf_trusted _ _ SF) as Ut.
  constructor; cbn [input_values oi_observed_decision_boundary oi_decision_boundary_complete
    oi_completed_bar_at oi_evaluated_at oi_data_quality oi_underlying_observed_at oi_catalyst_observed_at];
    try (by apply SF); try done.
  - unfold dt_eq, same_awareness. rewrite Z.eqb_refl. by destruct (dt_off _).
  - split; [done|apply SF].
  - apply fresh_policy; [done|]. by apply Hfresh.
  - unfold _validate_catalyst in Hct. inv_seq Hct. apply fresh_policy; [done|]. by apply not_m_false.
  - intros d c Hd Ec. cbn [input_values oi_candidate] in Ec. subst candidate.
    assert (direction = Some d) as -> by (unfold signal_direction in Hdir; cbn in Hd; congruence).
    apply validate_selection_inv in Hsel as ->. unfold compose_selection in Hc.
    apply bind_ok in Hc as (remaining & Er & Hc). apply bind_ok in Hc as (available & Ea & Hc).
    apply bind_ok in Hc as (sel & Hs & Hc). injection Hc as _ ->.
    rewrite <- (derived_direction _ _ _ Hdir Hs) at 1. by eapply selected_passes.
Qed.
End Composition.

(** C9: Composition.  When the composer selects a candidate, assembles the input and has the
    policy decide, under a valid policy and with money and quotes in millionths of a dollar,
    the decision is an approval or names one of the seventeen other reasons of
    [remaining_reasons]: the boundary and the evidence are never refused as incomplete,
    mismatched or stale, which the assembly has refused before, and the candidate that was
    selected is never refused, neither for its structure, quotes, payoff or direction nor
    because its loss is over the position limit, the equity share or, added to the risk
    approved and reserved before, the lifetime limit. *)
Theorem composed_decision_reasons account_dump new_york_date request snapshot policy requested
    convention evidence_hash signals catalyst account prior assembly decision :
  make_OpportunityPolicy policy = Ok policy -> money_grid snapshot policy account ->
  compose_decision account_dump new_york_date request snapshot policy requested convention
    evidence_hash signals catalyst account prior = Ok (assembly, decision) ->
  exists reason, od_reason_codes decision = [reason] /\ reason ∈ remaining_reasons.
Proof.
  intros HP HG H. unfold compose_decision in H. apply bind_ok in H as (direction & Hd & H).
  apply bind_ok in H as ([authority selection] & Hc & H). apply bind_ok in H as (a & Ha & H).
  apply bind_ok in H as (r & Hr & H). injection H as -> ->.
  eapply evaluate_reasons; [|exact Hr]. by eapply compose_assembled.
Qed.
