(* ===== verification/SelectionRanking.v ===== *)
(** * The selected candidate is the best

    The loops over pairs of options find every structure, and sorting by [_rank_key] puts first
    one whose score no other structure exceeds, and whose risk per contract no other of the same
    score undercuts; for a structural pilot [_structural_pilot_rank_key] puts the distance to the
    target days to expiry before the two. *)

From Stdlib Require Import ZArith Lia String Ascii List Bool QArith Qabs Lqa Sorted.
From stdpp Require Import base strings option tactics sorting list.
From S2P Require Import Prelude PyText PyDecimal PyDecimalFacts PyRounding PyTime PyHash Contracts OptionSymbol OrderLimits Exposure OpportunityData Opportunity Snapshot Selection SelectionFacts SelectionSafety.

#[local] Open Scope string_scope.
#[local] Open Scope Z_scope.

(** ** Order *)

(** [x] scores more than [y], or as much and risks no more. *)
Definition as_good (x y : _RankedCandidate) : Prop :=
  vc_candidate_score (rk_candidate y) < vc_candidate_score (rk_candidate x) \/
  (vc_candidate_score (rk_candidate y) = vc_candidate_score (rk_candidate x) /\
   (dval (rk_risk_per_contract x) <= dval (rk_risk_per_contract y))%Q).

#[local] Instance as_good_trans : Transitive as_good.
Proof.
  intros x y z [H1|[H1 R1]] [H2|[H2 R2]]; unfold as_good; [left; lia..|right].
  split; [lia|]. by eapply Qle_trans.
Qed.

Definition finite_risk (item : _RankedCandidate) : Prop := finite (rk_risk_per_contract item).

(** For a structural pilot, the distance to its target is first. *)
Definition dte_distance (profile : StructuralBullishPilotProfile) (item : _RankedCandidate) : Z :=
  Z.abs (vc_dte (rk_candidate item) - sp_target_dte profile).
Definition as_close (profile : StructuralBullishPilotProfile) (x y : _RankedCandidate) : Prop :=
  dte_distance profile x < dte_distance profile y \/
  (dte_distance profile x = dte_distance profile y /\ as_good x y).

#[local] Instance as_close_trans profile : Transitive (as_close profile).
Proof.
  intros x y z [H1|[H1 R1]] [H2|[H2 R2]]; unfold as_close; [left; lia..|right].
  split; [lia|]. by etrans.
Qed.

(** The order of a key is the preference, as far as the preference decides. *)
Definition key_order (key : _RankedCandidate -> M (list component)) (R : relation _RankedCandidate) : Prop :=
  forall x y kx ky before, finite_risk x -> finite_risk y -> key x = Ok kx -> key y = Ok ky ->
    tuple_lt kx ky = Ok before -> if before : bool then R x y else R y x.

(** The components that are the score and the risk, before whatever follows. *)
Lemma score_risk_order x y rx ry before :
  finite_risk x -> finite_risk y ->
  tuple_lt (CInt (- vc_candidate_score (rk_candidate x)) :: CDec (rk_risk_per_contract x) :: rx)
    (CInt (- vc_candidate_score (rk_candidate y)) :: CDec (rk_risk_per_contract y) :: ry) = Ok before ->
  if before : bool then as_good x y else as_good y x.
Proof.
  intros Fx Fy. cbn [tuple_lt component_eq component_lt].
  destruct (Z.eqb_spec (- vc_candidate_score (rk_candidate x)) (- vc_candidate_score (rk_candidate y)))
    as [Es|Hne].
  2:{ intros [= <-]. unfold as_good. destruct (Z.ltb_spec (- vc_candidate_score (rk_candidate x))
        (- vc_candidate_score (rk_candidate y))); left; lia. }
  destruct (deq _ _) eqn:Er.
  - intros _. apply deq_spec in Er; [|done..]. destruct before; right; (split; [lia|]); rewrite Er; apply Qle_refl.
  - destruct before; intros H.
    + apply dlt_ok_true in H; [|done..]. right. split; [lia|]. by apply Qlt_le_weak.
    + apply dlt_ok_false in H; [|done..]. right. split; [lia|done].
Qed.

Lemma rank_key_order : key_order _rank_key as_good.
Proof.
  intros x y kx ky before Fx Fy Hx Hy. unfold _rank_key in *. apply bind_ok in Hx as ([bx sx] & _ & Hx).
  apply bind_ok in Hy as ([by_ sy] & _ & Hy). injection Hx as <-. injection Hy as <-. by apply score_risk_order.
Qed.

Lemma pilot_key_order profile : key_order (_structural_pilot_rank_key profile) (as_close profile).
Proof.
  intros x y kx ky before Fx Fy Hx Hy. unfold _structural_pilot_rank_key in *.
  apply bind_ok in Hx as ([bx sx] & _ & Hx). apply bind_ok in Hy as ([by_ sy] & _ & Hy).
  injection Hx as <-. injection Hy as <-. cbn [app]. intros H. remember (CInt (- _) :: _) as tx in H at 1.
  remember (CInt (- _) :: _) as ty in H. cbn [tuple_lt component_eq component_lt] in H.
  fold (dte_distance profile x) in H. fold (dte_distance profile y) in H. unfold as_close.
  destruct (Z.eqb_spec (dte_distance profile x) (dte_distance profile y)) as [E|E].
  - subst tx ty. apply score_risk_order in H; [|done..]. destruct before; right; by split.
  - injection H as <-. destruct (Z.ltb_spec (dte_distance profile x) (dte_distance profile y)); left; lia.
Qed.

(** *** Sorting *)

Section Sorting.
Context (key : _RankedCandidate -> M (list component)) (R : relation _RankedCandidate) `{!Transitive R}.
Hypothesis Horder : key_order key R.

Lemma insert_by_sorted x l : forall l',
  finite_risk x -> Forall finite_risk l -> StronglySorted R l ->
  insert_by key x l = Ok l' -> StronglySorted R l'.
Proof.
  induction l as [|y l IH]; intros l' Fx Fl Hl H; cbn [insert_by] in H.
  { injection H as <-. by repeat constructor. }
  apply Forall_cons_iff in Fl as [Fy Fl]. apply StronglySorted_inv in Hl as [Hl Hy].
  apply bind_ok in H as (kx & Ekx & H). apply bind_ok in H as (ky & Eky & H).
  apply bind_ok in H as (before & Hb & H).
  pose proof (Horder _ _ _ _ _ Fx Fy Ekx Eky Hb) as Ho. destruct before.
  - injection H as <-. constructor; [by constructor|]. constructor; [done|].
    eapply Forall_impl; [exact Hy|]. intros z Hz. by etrans.
  - apply bind_ok in H as (r & Hr & H). injection H as <-.
    constructor; [by apply IH|]. rewrite (insert_by_perm _ _ _ _ Hr). by constructor.
Qed.

Lemma sort_by_sorted l l' :
  Forall finite_risk l -> sort_by key l = Ok l' -> StronglySorted R l'.
Proof.
  unfold sort_by. intros Fl. enough (forall acc, Forall finite_risk acc -> StronglySorted R acc ->
    fold_m (fun sorted x => insert_by key x sorted) acc l = Ok l' -> StronglySorted R l') as H
    by (apply H; constructor).
  induction Fl as [|x l Fx Fl IH]; intros acc Fa Ha H; cbn [fold_m] in H; [by injection H as <-|].
  apply bind_ok in H as (m & Hm & H). apply (IH m); [| |done].
  - rewrite (insert_by_perm _ _ _ _ Hm). by constructor.
  - by apply (insert_by_sorted x acc).
Qed.

(** The first of the sorted is one of the list, and preferred to all of it. *)
Lemma sorted_first l item rest :
  Forall finite_risk l -> sort_by key l = Ok (item :: rest) ->
  item ∈ l /\ forall other, other ∈ l -> other = item \/ R item other.
Proof.
  intros Fl H. pose proof (sort_by_sorted _ _ Fl H) as HS. apply sort_by_perm in H.
  split; [rewrite <- H; left|]. intros other Hi. rewrite <- H in Hi.
  apply StronglySorted_inv in HS as [_ HS]. rewrite Forall_forall in HS.
  apply elem_of_cons in Hi as [->|Hi]; [by left|right; exact (HS _ Hi)].
Qed.
End Sorting.

(** ** What the loops find *)

Section Found.
Context (body : OpportunityOption -> found -> OpportunityOption -> M found).
(** The candidates a pair adds do not depend on those found before. *)
Hypothesis Hbody : forall x acc y acc', body x acc y = Ok acc' ->
  exists l had, body x ([], false) y = Ok (l, had) /\ acc'.1 = (acc.1 ++ l)%list.

Definition found_by (x y : OpportunityOption) (item : _RankedCandidate) : Prop :=
  exists l had, body x ([], false) y = Ok (l, had) /\ item ∈ l.

Lemma inner_found x l : forall acc acc' item,
  fold_m (body x) acc l = Ok acc' ->
  item ∈ acc'.1 <-> item ∈ acc.1 \/ exists j y, l !! j = Some y /\ found_by x y item.
Proof.
  induction l as [|y l IH]; intros acc acc' item H; cbn [fold_m] in H.
  { injection H as <-. split; [auto|]. intros [?|(j & y & Hy & _)]; [done|discriminate]. }
  apply bind_ok in H as (mid & Hm & H). destruct (Hbody _ _ _ _ Hm) as (found & had & Hf & Em).
  rewrite (IH _ _ item H), Em, elem_of_app. split.
  - intros [[?|Hi]|(j & z & Hz & Hi)]; [by left| |].
    + right. exists 0%nat, y. split; [done|]. by exists found, had.
    + right. exists (S j), z. done.
  - intros [?|([|j] & z & Hz & Hi)]; [by left; left| |].
    + injection Hz as ->. destruct Hi as (f' & h' & Hf' & Hi).
      left. right. assert (f' = found) as -> by congruence. done.
    + right. exists j, z. done.
Qed.

Lemma pairs_found l : forall acc acc' item,
  for_pairs body acc l = Ok acc' ->
  item ∈ acc'.1 <-> item ∈ acc.1 \/
    exists i j x y, (i < j)%nat /\ l !! i = Some x /\ l !! j = Some y /\ found_by x y item.
Proof.
  induction l as [|x l IH]; intros acc acc' item H; cbn [for_pairs] in H.
  { injection H as <-. split; [auto|]. intros [?|(i & j & x & y & _ & Hx & _)]; [done|discriminate]. }
  apply bind_ok in H as (mid & Hm & H). rewrite (IH _ _ item H), (inner_found _ _ _ _ item Hm). split.
  - intros [[?|(j & y & Hy & Hi)]|(i & j & a & b & Hij & Ha & Hb & Hi)]; [by left| |].
    + right. exists 0%nat, (S j), x, y. split_and!; [lia|done..].
    + right. exists (S i), (S j), a, b. split_and!; [lia|done..].
  - intros [?|([|i] & [|j] & a & b & Hij & Ha & Hb & Hi)]; [by left; left|lia| |lia|].
    + injection Ha as ->. left. right. by exists j, b.
    + right. exists i, j, a, b. split_and!; [lia|done..].
Qed.
End Found.

Section Best.
Context (account_dump : AccountResponse -> json) (snapshot : OpportunityMarketSnapshot)
  (policy : OpportunityPolicy) (direction : OpportunityDirection) (requested : Z)
  (authority : CandidateSelectionAuthority).

Lemma consider_adds x acc y acc' :
  consider policy direction requested authority x acc y = Ok acc' ->
  exists l had, consider policy direction requested authority x ([], false) y = Ok (l, had) /\
    acc'.1 = (acc.1 ++ l)%list.
Proof.
  unfold consider. intros H. apply bind_ok in H as (st & -> & H). cbn [mbind M_bind].
  destruct st as [[[strategy bought] sold]|]; [|injection H as <-; eexists _, _; split; [done|by rewrite app_nil_r]].
  apply bind_ok in H as (terms & -> & H). cbn [mbind M_bind].
  destruct terms as [[[limit risk] score]|]; [|injection H as <-; eexists _, _; split; [done|by rewrite app_nil_r]].
  destruct (score <? _); [injection H as <-; eexists _, _; split; [done|by rewrite app_nil_r]|].
  apply bind_ok in H as (q & -> & H). cbn [mbind M_bind].
  destruct (q <? 1); injection H as <-; eexists _, _; (split; [done|]); [by rewrite app_nil_r|done].
Qed.

Lemma consider_pilot_adds profile offset x acc y acc' :
  consider_pilot snapshot policy authority profile offset x acc y = Ok acc' ->
  exists l had, consider_pilot snapshot policy authority profile offset x ([], false) y = Ok (l, had) /\
    acc'.1 = (acc.1 ++ l)%list.
Proof.
  unfold consider_pilot. intros H. apply guard_ok in H as [[-> H]|[-> H]]; cbn [guard_m].
  { injection H as <-. eexists _, _. split; [done|by rewrite app_nil_r]. }
  apply bind_ok in H as (terms & -> & H). cbn [mbind M_bind].
  destruct terms as [[[[initial maximum] risk] score]|];
    [|injection H as <-; eexists _, _; split; [done|by rewrite app_nil_r]].
  apply bind_ok in H as (q & -> & H). cbn [mbind M_bind].
  destruct (negb _); injection H as <-; eexists _, _; (split; [done|]); [by rewrite app_nil_r|done].
Qed.

(** A pair of options, in order, that give a ranked candidate. *)
Definition vertical_of_snapshot (item : _RankedCandidate) : Prop :=
  exists i j first second, (i < j)%nat /\
    sn_options snapshot !! i = Some first /\ sn_options snapshot !! j = Some second /\
    found_by (fun first acc second =>
      consider policy direction requested authority first acc second) first second item.

(** The long leg of a pilot: the right of its direction, and a delta within its range. *)
Definition long_leg (profile : StructuralBullishPilotProfile) (bought : OpportunityOption) : Prop :=
  right_is bought (pilot_right profile) = true /\
  exists delta, dabs (oo_delta bought) = Ok delta /\
    (sp_minimum_long_delta profile <=. delta) = Ok true /\ (delta <=. sp_maximum_long_delta profile) = Ok true.

(** Two options of the snapshot that give a ranked candidate of the pilot, whose strikes are its
    width apart. *)
Definition pilot_of_snapshot (profile : StructuralBullishPilotProfile) (item : _RankedCandidate) : Prop :=
  exists offset i j bought sold,
    match sp_direction profile with BULLISH => Ok (sp_width profile) | BEARISH => dneg (sp_width profile) end = Ok offset /\
    sn_options snapshot !! i = Some bought /\ sn_options snapshot !! j = Some sold /\ long_leg profile bought /\
    found_by (consider_pilot snapshot policy authority profile offset) bought sold item.

(** A structure of the snapshot, of the pilot where the policy is one. *)
Definition structure_of_snapshot (item : _RankedCandidate) : Prop :=
  match structural_pilot_profile (op_opportunity_key policy) with
  | None => vertical_of_snapshot item
  | Some profile => pilot_of_snapshot profile item
  end.

Lemma pilots_found profile offset : forall l acc acc' item,
  match sp_direction profile with BULLISH => Ok (sp_width profile) | BEARISH => dneg (sp_width profile) end = Ok offset ->
  fold_m (fun acc bought =>
      when negb (right_is bought (pilot_right profile))
           ||| not (delta ← dabs (oo_delta bought);
                    (sp_minimum_long_delta profile <=. delta) &&& (delta <=. sp_maximum_long_delta profile))
      then_ Ok acc;;
      fold_m (consider_pilot snapshot policy authority profile offset bought) acc (sn_options snapshot)) acc l = Ok acc' ->
  item ∈ acc'.1 <-> item ∈ acc.1 \/ exists i j bought sold,
    l !! i = Some bought /\ sn_options snapshot !! j = Some sold /\ long_leg profile bought /\
    found_by (consider_pilot snapshot policy authority profile offset) bought sold item.
Proof.
  induction l as [|x l IH]; intros acc acc' item Eo H; cbn [fold_m] in H.
  { injection H as <-. split; [auto|]. intros [?|(i & j & x & y & Hx & _)]; [done|discriminate]. }
  apply bind_ok in H as (mid & Hm & H). rewrite (IH _ _ item Eo H).
  apply guard_ok in Hm as [[Hg Hm]|[Hg Hm]].
  - injection Hm as <-. split; [intros [?|(i & K)]; [by left|right; by exists (S i)]|].
    intros [?|([|i] & j & a & b & Ha & Hb & [Hr (delta & Ed & D1 & D2)] & Hi)]; [by left| |].
    2:{ right. exists i, j, a, b. split_and!; [done..| |done]. split; [done|]. by exists delta. }
    injection Ha as ->. rewrite Hr, Ed in Hg. cbn in Hg. by rewrite D1, D2 in Hg.
  - rewrite (inner_found _ (consider_pilot_adds profile offset) _ _ _ _ item Hm).
    assert (L : long_leg profile x).
    { apply or_m_false in Hg as [Hr Hd]. apply lift_bool_ok, negb_false_iff in Hr. apply not_m_false in Hd.
      apply bind_ok in Hd as (delta & Ed & Hd). apply and_m_true in Hd as [D1 D2]. split; [done|]. by exists delta. }
    split.
    + intros [[?|(j & y & Hy & Hi)]|(i & K)]; [by left| |right; by exists (S i)]. right. by exists 0%nat, j, x, y.
    + intros [?|([|i] & j & a & b & Ha & Hb & La & Hi)]; [by left; left| |right; exists i, j, a, b; by split_and!].
      injection Ha as ->. left. right. by exists j, b.
Qed.

Lemma terms_finite bought sold strategy limit risk score :
  quoted snapshot policy bought -> quoted snapshot policy sold ->
  _candidate_terms policy bought sold strategy = Ok (Some (limit, risk, score)) -> finite risk.
Proof.
  intros Qb Qs H. unfold _candidate_terms in H.
  apply guard_ok in H as [[_ ?]|[_ H]]; [discriminate|].
  apply bind_ok in H as (d & Ed & H). apply bind_ok in H as (w & Ew & H).
  apply bind_ok in H as (natural & En & H). apply guard_ok in H as [[_ ?]|[_ H]]; [discriminate|].
  apply bind_ok in H as (f & _ & H). apply guard_ok in H as [[_ ?]|[_ H]]; [discriminate|].
  apply bind_ok in H as (r & Er & H). apply guard_ok in H as [[_ ?]|[_ H]]; [discriminate|].
  apply bind_ok in H as (sc & _ & H). injection H as _ <- _.
  destruct (width_inv _ _ _ _ _ _ Qb Qs Ed Ew) as (Aw & _).
  assert (Fn : finite natural).
  { destruct (bool_decide _); apply dsub_spec in En as [Fn _];
      first [done|apply (qo_ask _ _ _ Qb)|apply (qo_bid _ _ _ Qs)]. }
  destruct (bool_decide _); [by apply dmul_spec in Er as [? _]|].
  apply bind_ok in Er as (p & Ep & Er). apply dsub_spec in Ep as [Fp _]; [|apply Aw|done].
  by apply dmul_spec in Er as [? _].
Qed.

Lemma vertical_finite item :
  Forall (quoted snapshot policy) (sn_options snapshot) -> vertical_of_snapshot item -> finite_risk item.
Proof.
  intros HQ (i & j & x & y & _ & Hx & Hy & l & had & H & Hi). rewrite Forall_lookup in HQ.
  pose proof (HQ _ _ Hx) as Qx. pose proof (HQ _ _ Hy) as Qy. unfold consider in H.
  apply bind_ok in H as ([[[strategy bought] sold]|] & Hb & H);
    [|injection H as <- _; by apply elem_of_nil in Hi].
  destruct (build_structure_inv _ _ _ _ _ _ _ _ Qx Qy Hb) as (Hpair & _ & _).
  apply bind_ok in H as ([[[limit risk] score]|] & Ht & H); [|injection H as <- _; by apply elem_of_nil in Hi].
  destruct (score <? _); [injection H as <- _; by apply elem_of_nil in Hi|].
  apply bind_ok in H as (q & _ & H). destruct (q <? 1); [injection H as <- _; by apply elem_of_nil in Hi|].
  injection H as <- _. apply list_elem_of_singleton in Hi as ->. cbn.
  unfold finite_risk. cbn [rk_risk_per_contract].
  destruct Hpair as [[-> ->]|[-> ->]]; [exact (terms_finite _ _ _ _ _ _ Qx Qy Ht)|exact (terms_finite _ _ _ _ _ _ Qy Qx Ht)].
Qed.

Lemma pilot_terms_finite profile bought sold initial maximum risk score :
  quoted snapshot policy bought -> quoted snapshot policy sold ->
  _structural_pilot_terms snapshot bought sold profile = Ok (Some (initial, maximum, risk, score)) -> finite risk.
Proof.
  intros Qb Qs H. unfold _structural_pilot_terms in H. apply guard_ok in H as [[_ ?]|[_ H]]; [discriminate|].
  apply bind_ok in H as (natural & En & H). apply bind_ok in H as (bt & _ & H).
  apply bind_ok in H as (st & _ & H). apply bind_ok in H as (df & _ & H). apply bind_ok in H as (mid & _ & H).
  apply bind_ok in H as (i & _ & H). apply bind_ok in H as (m & Em & H).
  apply guard_ok in H as [[_ ?]|[_ H]]; [discriminate|].
  apply bind_ok in H as (sc & _ & H). apply bind_ok in H as (r & Er & H). injection H as <- <- <- <-.
  apply dsub_spec in En as [Fn _]; [|apply (qo_ask _ _ _ Qb)|apply (qo_bid _ _ _ Qs)].
  apply quantize_toward_inv in Em as [Fm _]; [|done|done]. by apply dmul_spec in Er as [? _].
Qed.

Lemma pilot_finite profile item :
  Forall (quoted snapshot policy) (sn_options snapshot) -> pilot_of_snapshot profile item -> finite_risk item.
Proof.
  intros HQ (offset & i & j & x & y & _ & Hx & Hy & _ & l & had & H & Hi). rewrite Forall_lookup in HQ.
  pose proof (HQ _ _ Hx) as Qx. pose proof (HQ _ _ Hy) as Qy. unfold consider_pilot in H.
  apply guard_ok in H as [[_ H]|[_ H]]; [injection H as <- _; by apply elem_of_nil in Hi|].
  apply bind_ok in H as ([[[[initial maximum] risk] score]|] & Ht & H); [|injection H as <- _; by apply elem_of_nil in Hi].
  apply bind_ok in H as (q & _ & H). destruct (negb _); [injection H as <- _; by apply elem_of_nil in Hi|].
  injection H as <- _. apply list_elem_of_singleton in Hi as ->. exact (pilot_terms_finite _ _ _ _ _ _ _ Qx Qy Ht).
Qed.

Lemma structure_finite item :
  Forall (quoted snapshot policy) (sn_options snapshot) -> structure_of_snapshot item -> finite_risk item.
Proof.
  unfold structure_of_snapshot. destruct (structural_pilot_profile _); [apply pilot_finite|apply vertical_finite].
Qed.

Lemma as_good_refl x : as_good x x.
Proof. right. split; [done|apply Qle_refl]. Qed.
End Best.

(** C11: The best structure is selected.  The candidate that is selected is a structure of the
    snapshot: it comes from two of its options, in the direction, within the score and the size
    the policy and the authority allow, and for a structural pilot with the pilot's right, width
    and range of the long delta.  No structure of the snapshot has a higher score, nor the same
    score with a lower risk per contract; for a structural pilot, none has an expiry closer to
    the pilot's target, nor one as close with a higher score, nor one as close with the same
    score and a lower risk. *)
Theorem selected_is_best account_dump snapshot policy direction requested authority candidate :
  select_vertical_candidate account_dump snapshot policy direction requested authority
    = Ok (mk_CandidateSelectionResult (Some candidate) SELECTED) ->
  exists risk,
    let best := mk_RankedCandidate candidate risk in
    structure_of_snapshot snapshot policy direction requested authority best /\
    forall item, structure_of_snapshot snapshot policy direction requested authority item ->
      match structural_pilot_profile (op_opportunity_key policy) with
      | None => as_good best item
      | Some profile => as_close profile best item
      end.
Proof.
  intros H. unfold select_vertical_candidate in H.
  apply guard_ok in H as [[_ H]|[_ H]]; [discriminate|].
  apply guard_ok in H as [[_ H]|[Hsn H]]; [discriminate|]. apply not_m_false in Hsn.
  apply guard_ok in H as [[_ H]|[_ H]]; [discriminate|].
  apply snapshot_valid_inv in Hsn as HM. apply mk_options in HM.
  pose proof (fun item => structure_finite snapshot policy direction requested authority item HM) as HF.
  unfold structure_of_snapshot in *.
  destruct (structural_pilot_profile (op_opportunity_key policy)) as [profile|].
  - unfold _select_structural_pilot in H. apply guard_ok in H as [[_ H]|[_ H]]; [discriminate|].
    apply bind_ok in H as (offset & Eo & H). apply bind_ok in H as ([ranked had] & Hf & H).
    apply bind_ok in H as (sorted & Hs & H).
    assert (Hin : forall item, item ∈ ranked <-> pilot_of_snapshot snapshot policy authority profile item).
    { intros item. rewrite (pilots_found _ _ _ _ _ _ _ _ item Eo Hf). cbn [fst]. rewrite elem_of_nil.
      unfold pilot_of_snapshot. split; [intros [[]|(i & j & b & s & K)]; by exists offset, i, j, b, s|].
      intros (o' & i & j & b & s & Eo' & K). assert (o' = offset) as -> by congruence. right. by exists i, j, b, s. }
    destruct sorted as [|[c r] rest]; [destruct had; discriminate|]. injection H as <-. exists r.
    destruct (sorted_first _ (as_close profile) (pilot_key_order profile) ranked _ _
      ltac:(apply Forall_forall; intros item Hi; apply HF, Hin, Hi) Hs) as [Hb Hall].
    split; [by apply Hin|]. intros item Hi. destruct (Hall item) as [->|K]; [by apply Hin| |done].
    right. split; [done|apply as_good_refl].
  - apply bind_ok in H as ([ranked had] & Hf & H). apply bind_ok in H as (sorted & Hs & H).
    assert (Hin : forall item, item ∈ ranked <-> vertical_of_snapshot snapshot policy direction requested authority item).
    { intros item. rewrite (pairs_found _ (consider_adds _ _ _ _) _ _ _ item Hf). cbn [fst].
      rewrite elem_of_nil. unfold vertical_of_snapshot. naive_solver. }
    assert (exists rest risk, sorted = mk_RankedCandidate candidate risk :: rest) as (rest & risk & ->).
    { destruct sorted as [|[c r] [|next rest]]; [destruct had; discriminate| |].
      - injection H as <-. by eexists _, _.
      - inv_seq H. destruct (tuple_eq _ _); [discriminate|]. injection H as <-. by eexists _, _. }
    exists risk. destruct (sorted_first _ as_good rank_key_order ranked _ _
      ltac:(apply Forall_forall; intros item Hi; apply HF, Hin, Hi) Hs) as [Hb Hall].
    split; [by apply Hin|]. intros item Hi. destruct (Hall item) as [->|K]; [by apply Hin|apply as_good_refl|done].
Qed.
