(* ===== verification/SelectionSamples.v ===== *)
(** * A selection, run

    A snapshot of the options of the fixture's underlying: the selection takes the vertical it
    is expected to take, and the composition approves it. *)

From Stdlib Require Import ZArith Lia String Ascii List Bool QArith.
From stdpp Require Import base strings option tactics list.
From S2P Require Import Prelude PyText PyDecimal PyDecimalFacts PyTime PyRounding PyHash Contracts OptionSymbol OrderLimits Exposure OpportunityData Opportunity Snapshot Selection SelectionFacts SelectionSafety InputAssembly InputFacts SelectionRanking.

#[local] Open Scope string_scope.
#[local] Open Scope Z_scope.

(** The dump of an account, with the two fields the samples vary. *)
Definition sample_dump (account : AccountResponse) : json :=
  JObj [("equity", JStr (decimal_str (ar_equity account)));
        ("buying_power", JStr (decimal_str (ar_buying_power account)))].

Definition digest_of (c : ascii) : string := of_chars (repeat c 64).

Definition trusted : datetime := after boundary (seconds 5).
Definition sample_request : OpportunitySnapshotRequest :=
  {| sr_expected_account_fingerprint := digest_of "a"; sr_underlying := "ACME";
     sr_benchmark := "SPY"; sr_decision_boundary := boundary;
     sr_minimum_expiry := days_from_civil 2037 5 4; sr_maximum_expiry := days_from_civil 2037 5 20;
     sr_minimum_strike := Dint 90; sr_maximum_strike := Dint 120; sr_account_role := SUBMISSION;
     sr_maximum_contracts := 64; sr_maximum_quote_age := seconds 30;
     sr_maximum_quote_skew := seconds 5 |}.

Definition sample_book : OpportunityAccountBook :=
  let book :=
    {| bk_account :=
         {| ar_role := SUBMISSION; ar_paper := true; ar_equity := Dint 100000;
            ar_buying_power := Dint 90000; ar_baseline_status := DQ_COMPLETE;
            ar_autonomous_enabled := true |};
       bk_positions := []; bk_open_orders := []; bk_account_fingerprint := digest_of "a";
       bk_source_hash := "" |} in
  {| bk_account := bk_account book; bk_positions := []; bk_open_orders := [];
     bk_account_fingerprint := digest_of "a";
     bk_source_hash := opportunity_account_book_digest sample_dump book |}.

Definition with_session_hash (s : OpportunityMarketSession) : OpportunityMarketSession :=
  mk_OpportunityMarketSession (ms_session_date s) (ms_open_at s) (ms_close_at s) (ms_clock_at s)
    (ms_market_open s) (ms_next_open_at s) (ms_next_close_at s)
    (opportunity_market_session_digest s).
Definition with_bar_hash (b : OpportunityBar) : OpportunityBar :=
  mk_OpportunityBar (ob_symbol b) (ob_started_at b) (ob_completed_at b) (ob_open b) (ob_high b)
    (ob_low b) (ob_close b) (ob_volume b) (ob_vwap b) (opportunity_bar_digest b).
Definition with_option_hash (o : OpportunityOption) : OpportunityOption :=
  mk_OpportunityOption (oo_symbol o) (oo_underlying o) (oo_expiry o) (oo_right o) (oo_strike o)
    (oo_bid o) (oo_ask o) (oo_bid_size o) (oo_ask_size o) (oo_quote_at o) (oo_retrieved_at o)
    (oo_implied_volatility o) (oo_delta o) (oo_gamma o) (oo_theta_per_day o)
    (oo_vega_per_iv_point o) (opportunity_option_digest o).
Definition with_snapshot_hash (s : OpportunityMarketSnapshot) : OpportunityMarketSnapshot :=
  mk_OpportunityMarketSnapshot (sn_trusted_at s) (sn_account_book s) (sn_session s)
    (sn_underlying_bar s) (sn_benchmark_bar s) (sn_options s) (sn_request_hash s)
    (opportunity_market_snapshot_digest s).

Definition sample_session : OpportunityMarketSession :=
  with_session_hash
    {| ms_session_date := days_from_civil 2037 4 15; ms_open_at := utc 2037 4 15 13 30 0;
       ms_close_at := utc 2037 4 15 20 0 0; ms_clock_at := trusted; ms_market_open := true;
       ms_next_open_at := utc 2037 4 16 13 30 0; ms_next_close_at := utc 2037 4 15 20 0 0;
       ms_source_hash := "" |}.

Definition sample_bar (symbol : string) (price : Z) : OpportunityBar :=
  with_bar_hash
    {| ob_symbol := symbol; ob_started_at := after boundary (- minutes 5);
       ob_completed_at := boundary; ob_open := Dint price; ob_high := Dint (price + 2);
       ob_low := Dint (price - 2); ob_close := Dint (price + 1); ob_volume := Dint 5000;
       ob_vwap := Dint price; ob_source_hash := "" |}.

Definition sample_option (symbol : string) (strike : Z) (bid ask : decimal) : OpportunityOption :=
  with_option_hash
    {| oo_symbol := symbol; oo_underlying := "ACME"; oo_expiry := days_from_civil 2037 5 8;
       oo_right := "C"; oo_strike := Dint strike; oo_bid := bid; oo_ask := ask; oo_bid_size := 10;
       oo_ask_size := 12; oo_quote_at := boundary; oo_retrieved_at := trusted;
       oo_implied_volatility := D 30 (-2); oo_delta := D 45 (-2); oo_gamma := D 5 (-2);
       oo_theta_per_day := D (-4) (-2); oo_vega_per_iv_point := D 9 (-2); oo_source_hash := "" |}.

(** Three calls: each pair of them is a structure. *)
Definition sample_options : list OpportunityOption :=
  [sample_option "ACME370508C00100000" 100 (D 206 (-2)) (D 208 (-2));
   sample_option "ACME370508C00105000" 105 (D 90 (-2)) (D 91 (-2));
   sample_option "ACME370508C00110000" 110 (D 30 (-2)) (D 302 (-3))].

Definition sample_snapshot : OpportunityMarketSnapshot :=
  with_snapshot_hash
    {| sn_trusted_at := trusted; sn_account_book := sample_book; sn_session := sample_session;
       sn_underlying_bar := sample_bar "ACME" 101; sn_benchmark_bar := sample_bar "SPY" 500;
       sn_options := sample_options;
       sn_request_hash := opportunity_snapshot_request_digest sample_request; sn_source_hash := "" |}.

Definition sample_authority : CandidateSelectionAuthority :=
  {| cs_snapshot_request_hash := sn_request_hash sample_snapshot;
     cs_snapshot_source_hash := sn_source_hash sample_snapshot;
     cs_account_fingerprint := digest_of "a"; cs_observed_equity := Dint 100000;
     cs_observed_buying_power := Dint 90000; cs_available_risk := Dint 900;
     cs_available_buying_power := Dint 90000;
     cs_greek_unit_convention := ALPACA_GOPRICEOPTIONS_RAW_V1;
     cs_greek_unit_evidence_hash := digest_of "b" |}.


Definition sample_signal (value : decimal) : DecimalSignalAuthority :=
  {| ds_value := value; ds_observed_at := boundary; ds_source_hash := digest_of "c" |}.
Definition sample_signals : OpportunitySignalAuthority :=
  {| sa_snapshot_source_hash := sn_source_hash sample_snapshot;
     sa_calculation_source_hash := digest_of "d"; sa_beta := sample_signal (D 17 (-1));
     sa_vwap_distance := sample_signal (D 19 (-3)); sa_relative_return := sample_signal (D 11 (-3));
     sa_trend := {| ts_bull_hits := 3; ts_bear_hits := 0; ts_observed_at := boundary;
                    ts_source_hash := digest_of "e" |};
     sa_absolute_first_reaction := sample_signal (D 13 (-2)); sa_trading_halt_state := NOT_HALTED;
     sa_trading_status_observed_at := trusted; sa_trading_status_source_hash := digest_of "f" |}.
Definition sample_catalyst : CatalystAuthority :=
  {| ca_opportunity_key := "ACME_EVENT"; ca_quality := CLEAR; ca_score := 25;
     ca_observed_at := boundary; ca_source_hash := digest_of "1" |}.
Definition sample_budget : AccountBudgetAuthority :=
  {| ab_account_role := SUBMISSION; ab_account_fingerprint := digest_of "a";
     ab_snapshot_book_source_hash := bk_source_hash sample_book; ab_observed_at := trusted;
     ab_baseline_clean := true; ab_baseline_source_hash := digest_of "2";
     ab_book_fingerprint := digest_of "3"; ab_book_source_hash := digest_of "4";
     ab_clean_equity := Dint 100000; ab_open_position_count := 0; ab_open_order_count := 0;
     ab_filled_entry_count := 0; ab_lifetime_approved_risk := Dint 1500;
     ab_entry_reservation_active := false; ab_reserved_approved_risk := Dint 0;
     ab_event_already_attempted := false; ab_history_source_hash := digest_of "5" |}.
Definition sample_prior : PriorDecisionAuthority :=
  {| pa_opportunity_key := "ACME_EVENT"; pa_decision_boundary := boundary; pa_outcome := None;
     pa_observed_at := trusted; pa_source_hash := digest_of "6" |}.

(** 15 April 2037 is in daylight saving time: four hours behind UTC. *)
Definition sample_new_york (t : datetime) : date := dt_date (after t (- hours 4)).


(** ** The runs *)

Lemma sample_policy_valid : make_OpportunityPolicy sample_policy = Ok sample_policy.
Proof. vm_compute. reflexivity. Qed.

Lemma sample_quotes : Forall quote_cash (sn_options sample_snapshot).
Proof.
  change (sn_options sample_snapshot) with sample_options. unfold sample_options.
  repeat constructor; apply (amount_D (-6)); first [lia|vm_compute; discriminate].
Qed.

Lemma sample_spread : repr (dval (op_maximum_relative_spread sample_policy)).
Proof. cbn [op_maximum_relative_spread sample_policy]. rewrite dval_D. by apply repr_dec. Qed.

Lemma sample_grid : on_grid sample_snapshot sample_policy sample_authority.
Proof.
  constructor; [|exact sample_spread|exact sample_quotes].
  constructor; apply (amount_D (-6)); first [lia|vm_compute; discriminate].
Qed.

Lemma sample_money : money_grid sample_snapshot sample_policy sample_budget.
Proof.
  constructor; try exact sample_spread; try exact sample_quotes;
    apply (amount_D (-6)); first [lia|vm_compute; discriminate].
Qed.

(** The candidate of the widest pair: five contracts at 1.78, the sixth would be over the 900
    that are left. *)
Lemma sample_selection :
  exists candidate,
    select_vertical_candidate sample_dump sample_snapshot sample_policy BULLISH 9 sample_authority
      = Ok (mk_CandidateSelectionResult (Some candidate) SELECTED) /\
    vc_strategy candidate = BULL_CALL_DEBIT /\ vc_quantity candidate = 5 /\
    vc_candidate_score candidate = 86 /\ _approved_max_loss candidate = Ok (D 89000 (-2)).
Proof. eexists. split; [vm_compute; reflexivity|]. vm_compute. auto. Qed.

Lemma sample_composition :
  exists assembly decision,
    compose_decision sample_dump sample_new_york sample_request sample_snapshot sample_policy 9
      ALPACA_GOPRICEOPTIONS_RAW_V1 (digest_of "b") sample_signals sample_catalyst sample_budget
      sample_prior = Ok (assembly, decision) /\
    od_outcome decision = OO_ENTRY_APPROVED /\ od_quantity decision = Some 5.
Proof. eexists _, _. split; [vm_compute; reflexivity|]. split; reflexivity. Qed.

(** ** Witnesses *)

Lemma selected_candidate_accepted_witness :
  exists candidate loss,
    select_vertical_candidate sample_dump sample_snapshot sample_policy BULLISH 9 sample_authority
      = Ok (mk_CandidateSelectionResult (Some candidate) SELECTED) /\
    vc_quantity candidate = 5 /\ _approved_max_loss candidate = Ok loss /\
    under_caps sample_policy sample_authority (dval loss).
Proof.
  destruct sample_selection as (candidate & H & _ & Hq & _).
  destruct (selected_candidate_accepted sample_dump sample_snapshot sample_policy BULLISH 9
    sample_authority candidate sample_policy_valid sample_grid H) as (_ & _ & loss & El & Hl).
  exists candidate, loss. split; [exact H|]. split; [exact Hq|]. split; [exact El|exact Hl].
Defined.

Lemma selected_is_best_witness :
  exists candidate risk,
    select_vertical_candidate sample_dump sample_snapshot sample_policy BULLISH 9 sample_authority
      = Ok (mk_CandidateSelectionResult (Some candidate) SELECTED) /\
    structure_of_snapshot sample_snapshot sample_policy BULLISH 9 sample_authority
      (mk_RankedCandidate candidate risk).
Proof.
  destruct sample_selection as (candidate & H & _).
  destruct (selected_is_best sample_dump sample_snapshot sample_policy BULLISH 9 sample_authority
    candidate H) as (risk & Hr & _).
  exists candidate, risk. split; [exact H|exact Hr].
Defined.

Lemma composed_decision_reasons_witness :
  exists decision reason, od_outcome decision = OO_ENTRY_APPROVED /\
    od_reason_codes decision = [reason] /\ reason ∈ remaining_reasons.
Proof.
  destruct sample_composition as (assembly & decision & H & Ho & _).
  destruct (composed_decision_reasons sample_dump sample_new_york sample_request sample_snapshot
    sample_policy 9 ALPACA_GOPRICEOPTIONS_RAW_V1 (digest_of "b") sample_signals sample_catalyst
    sample_budget sample_prior assembly decision sample_policy_valid sample_money H)
    as (reason & Hr & Hin).
  exists decision, reason. split; [exact Ho|]. split; [exact Hr|exact Hin].
Defined.
